(* ===== verification/_CoqProject ===== *)
-Q . S2P
Prelude.v
GoMonad.v
Sha256.v
Errors.v
Height.v
Host.v
ConnectionTypes.v
Sdk.v
ChannelTypes.v
Exported.v
ClientKeeper.v
ConnectionKeeper.v
PortKeeper.v
ChannelKeeper.v
ChannelHandshake.v
FullNode.v
Scenario.v
ChannelSpec.v
HandshakeSpec.v
ChannelView.v
ChannelSystem.v
ChannelSafety.v
PacketProperties.v
TwoChain.v
Liveness.v
ConnectionSafety.v
Noninterference.v
ClientProperties.v
Commitment.v
TendermintTypes.v
Iteration.v
TendermintStore.v
TendermintClient.v
TendermintIndex.v
TendermintUpdate.v
TendermintProperties.v
TendermintSafety.v
ToyTendermint.v
TendermintWitness.v
Solomachine.v
Localhost.v
Clients.v
SoloProperties.v
SoloWitness.v
ClientTypes.v
Router.v
MsgServer.v
Messages.v
MsgServerProperties.v
MessageProperties.v
TransferTypes.v
TransferKeeper.v
TransferProperties.v
TransferConservation.v
IcaTypes.v
IcaKeeper.v
IcaProperties.v
IcaGenesis.v
IcaWitness.v
ChannelGenesis.v
CoreGenesis.v
GenesisProperties.v
CoreGenesisProperties.v
ChannelExport.v
SelfChain.v
SelfProperties.v
Queries.v
ClientQueries.v
QueryProperties.v
CoreServer.v
TransferGenesis.v
Migrations.v
MigrationProperties.v
MigrationGenesis.v
MigrationWitness.v
RelayerQueries.v
RelayerProperties.v
RelayerWitness.v
AppModules.v
CommandLine.v
