(* ===== verification/Prelude.v ===== *)
(** * A verification of ibc-go

    ibc-go implements the Inter-Blockchain Communication protocol as modules of a
    cosmos-sdk chain.  This library models the modules under [src/modules] as executable
    functions and proves what makes them correct.

    ** The program

    A transaction carries messages.  The message server ([core/keeper/msg_server.go])
    routes each to a keeper and, for channels and packets, to the callbacks of the
    application that owns the port.  The keepers share one key-value store, in which
    every entry is under a path of [core/24-host]:
    - [02-client] stores light clients of other chains and calls them through the
      interfaces of [core/exported]; [07-tendermint], which verifies Merkle proofs with
      [23-commitment], [06-solomachine] and [09-localhost] implement them;
    - [03-connection] negotiates connections between two clients;
    - [04-channel] opens channels over connections and sends, receives, acknowledges and
      times out packets, for applications that hold capabilities given by [05-port];
    - [apps/transfer] is the token-transfer application on top of channels, and
      [apps/27-interchain-accounts] lets an account of one chain control one of another:
      a controller that sends transactions and a host that executes them;
    - each module exports its state to a genesis file and starts from one.

    ** How it is modelled

    A Go method that reads and writes the store, returns an error or panics is a function
    in the monad [ST] of [GoMonad.v]: state passing with an outcome [Ok], [Err] or
    [Panic].  An error keeps the writes made before it, as in Go; [CacheContext] of the
    message server is what discards them.  Integers are [N] or [Z] with the wrap-around of
    their width written out ([u64], [int_of_u64], [uint64_of_Z]).  Strings and byte slices
    are byte strings; store keys are the real bytes.  Loops are structural recursion over
    the slice or iterator they range over, so no function needs fuel.

    Code that is not in the repository is a type class, with its documented behaviour as
    the laws of the class, and every class has an executable instance on which the
    witnesses run:
    - [Codec], [TmCodec], [SoloCodec], [LocalCodec], [AckCodec], [TransferCodec],
      [IcaCodec], [JSONCodec], [InterfaceJSON]: protobuf and JSON encodings (round trips);
    - [CapabilityKeeper], [BankKeeper], [AccountKeeper], [SdkMsg], [SdkTypes], [Bech32],
      [SdkEncoding], [UpgradeTypes], [SoloCrypto], [SoloChain]: cosmos-sdk;
    - [StakingKeeper], [UpgradeKeeper] ([UpgradeApp] says where its state is), [GovTypes]:
      the headers, upgrade plans and proposals of cosmos-sdk;
    - [Pagination]: the pages of a query; [LegacyCodec]: the encodings of the previous version;
    - [ProofCodec], [ProofBytes], [RelayedNode]: the node that a relayer queries, and the
      encoding of the proofs it returns; [CommandContext], [GovCli], [AppQueryClient]: what
      a command is given by cosmos-sdk;
    - [Ics23]: proofs in one tree; [TendermintLib], [TmChain]: validator sets, commits and
      header verification of tendermint;
    - [LightClient], [Application], [SelfClient] are interfaces of the repository itself:
      the keepers are proved against them, the three clients are instances of the first,
      and the transfer and interchain-accounts applications ([IcaApp] says where their
      state is) of the second.

    ** Files

    Foundations: [Prelude] (byte strings, lists, integers), [GoMonad], [Sha256] (the hash
    function, executable), [Errors] (sentinel errors), [Sdk] (contexts, stores, events),
    [Iteration] (ordered iteration over a store).

    Core types: [Height], [Host] (paths, identifiers, validators), [ConnectionTypes]
    (version negotiation), [ChannelTypes] (channels, packets, commitments), [Commitment]
    (Merkle paths and chained proofs), [Exported] (interfaces and the chain state [World]).

    Keepers: [ClientKeeper], [ConnectionKeeper], [PortKeeper], [ChannelKeeper],
    [ChannelHandshake], [Router] (application callbacks, ante handler), [MsgServer],
    [SelfChain] (the chain's own client, upgrade proposals, the start of a block),
    [CoreServer] (the module's keeper and its query server).

    Messages and genesis: [ClientTypes] (client genesis, Any values), [Messages]
    (the stateless checks of all messages), [ChannelGenesis], [CoreGenesis] (iterators,
    import and export), [Migrations] (from the previous version to 1.0).

    Light clients: [TendermintTypes], [TendermintStore], [TendermintClient],
    [Solomachine], [Localhost]; [Clients] combines the three into one [LightClient] and
    shows that the clients of a chain do not touch each other's stores, also where a
    governance proposal hands the stores of two of them to a light client.

    Applications: [TransferTypes], [TransferKeeper], [TransferGenesis] (with its round trip
    and queries); [IcaTypes], [IcaKeeper].

    Queries: [Queries] (pagination, channels and packets), [ClientQueries] (clients and
    connections), [RelayerQueries] (the client side: proofs, headers, and the timeouts of a
    transfer), [CommandLine] (the commands: arguments and flags, what they ask or sign, and
    that query commands do not panic).

    Modules: [AppModules] (genesis files, services and blocks, as the module manager of a
    chain calls them; a validated genesis file starts a chain).

    Specifications and theorems:
    - [ChannelSpec], [HandshakeSpec], [PacketProperties]: what each operation checks and
      writes, on every branch;
    - [ChannelView], [ChannelSystem], [ChannelSafety]: an abstract state machine of one
      channel end, the refinement of it by the keepers, and safety over whole runs
      (at-most-once receipt, at-most-once settlement, order, life cycle);
    - [TwoChain]: received packets were sent, and timed-out packets are never received;
    - [Liveness]: a packet can always be received, timed out or acknowledged, given light
      clients that accept proofs of what is there;
    - [ConnectionSafety]: the connection handshake refines its state machine;
    - [SelfProperties]: a connection handshake shows each chain that the other follows it,
      and an upgrade that was decided is published;
    - [Noninterference], [ClientProperties]: who writes what, and the client keeper;
    - [MsgServerProperties]: the message handlers refine the channel state machine, and
      application callbacks run at most once per packet, for [lawful] applications (below);
    - [MessageProperties]: the stateless checks give what the handlers need, and the
      guarantees above for whole transactions;
    - [SoloProperties]: signatures of a solo machine are used once, its proofs and its
      misbehaviour; no connection over the localhost client opens;
    - [GenesisProperties], [CoreGenesisProperties]: an exported core module, imported
      into an empty store, is the same store again;
    - [ChannelExport]: what transactions leave in the channel store is valid, so the
      channels of a running chain can be exported and a new chain started from them;
    - [QueryProperties]: queries write nothing and tell a relayer what is left to relay, on
      UNORDERED channels exactly;
    - [RelayerProperties]: the proofs that a node returns to a relayer are accepted by the
      Tendermint client of the other chain, so that packets are received, acknowledged and
      timed out with them;
    - [TendermintIndex], [TendermintUpdate], [TendermintProperties], [TendermintSafety]:
      the consensus-state index, header updates, misbehaviour, substitution, upgrades,
      delays, and the soundness the two-chain theorems ask of a light client;
    - [TransferProperties], [TransferConservation]: sending, refunding, receiving, and
      that vouchers are always backed by escrowed tokens;
    - [IcaProperties], [IcaGenesis]: only the owner of a port controls its account,
      transactions are executed completely or not at all and arrive as sent, the two
      chains agree on the account, and the genesis round trip of both submodules;
    - [MigrationProperties], [MigrationGenesis]: what the migration to 1.0 makes of a store
      of the previous version, and that migrating the store and migrating the genesis state
      agree.

    Concrete instances and witnesses: [FullNode], [Scenario], [ToyTendermint],
    [TendermintWitness], [SoloWitness], [IcaWitness],
    [MigrationWitness], [RelayerWitness], and the [...Witness] modules of the theorem files.

    ** Bounds

    Sequences and identifiers are counted in uint64.  The run theorems assume that no
    counter of a reachable state is at its maximum ([in_range]), so that a sequence number
    is never reused; theorems about one operation have no such hypothesis, or state the
    behaviour modulo 2^64.  Heights are pairs of uint64 ([height_wf]).

    ** Applications

    The theorems about messages hold for every router whose applications reach the channel
    store through the keepers ([lawful]): the callbacks of the handshake do not write it,
    and the other callbacks, when they succeed, are runs of keeper operations
    ([SendPacket], [WriteAcknowledgement], [ChanCloseInit] and so on) and of anything that
    leaves the channel store alone.  [SendPacket_drives], [drives_write_ack],
    [drives_close_init], [drives_bind] and [Transfer_drives] build such callbacks; the
    transfer application and both submodules of interchain accounts are lawful, the host
    also when its accounts send tokens ([interchain_accounts_lawful]); and the application
    [answering] of the witnesses sends a packet whenever it receives one.  Since a callback
    may send several packets, the messages of such a run must not leave a counter of sends
    at 0, that is, wrapped around ([ranged]).

    ** Not modelled

    Simulation, telemetry, generated gRPC gateways and the test framework are not part of
    the running protocol.  Of the command line, help texts, printing and signing are left
    out.  The protobuf wire format is generated code and a parameter.  See the list of components in the manifest for the rest. *)
From Stdlib Require Import Ascii.
From Stdlib Require String.
From stdpp Require Export base gmap strings list fin_maps pretty numbers.

Declare Scope ibc_scope.
Delimit Scope ibc_scope with ibc.
Open Scope ibc_scope.
Open Scope stdpp_scope.

Create HintDb ibc discriminated.

(** * Byte strings

    A Go [string] and a Go [[]byte] are both byte sequences; both are modelled
    by [string], a sequence of 8-bit [ascii], so that the conversions
    [[]byte(s)] and [string(bz)] are the identity. *)

(** Every byte of [s] satisfies [p]. *)
Fixpoint str_all (p : ascii → bool) (s : string) : bool :=
  match s with
  | EmptyString => true
  | String c s' => p c && str_all p s'
  end.

(** [no_char c s]: the byte [c] does not occur in [s]
    (the negation of Go's [strings.Contains(s, string(c))]). *)
Definition no_char (c : ascii) (s : string) : bool :=
  str_all (λ x, negb (Ascii.eqb x c)) s.

(** Go's [strings.HasPrefix(s, prefix)]. *)
Fixpoint HasPrefix (s pre : string) : bool :=
  match pre, s with
  | EmptyString, _ => true
  | String c pre', String d s' => Ascii.eqb c d && HasPrefix s' pre'
  | String _ _, EmptyString => false
  end.

(** Go's slice expression [s[n:]]; the callers only use it after
    [HasPrefix] or with [n <= len s]. *)
Fixpoint str_drop (n : nat) (s : string) : string :=
  match n, s with
  | S n', String _ s' => str_drop n' s'
  | _, _ => s
  end.

(** Go's [strings.Split(s, sep)] for a non-empty [sep]: [skip] counts the bytes
    of an occurrence of [sep] that are still to be dropped. *)
Fixpoint split_go (sep s : string) (skip : nat) : string * list string :=
  match s with
  | EmptyString => (EmptyString, [])
  | String c s' =>
      match skip with
      | S k => split_go sep s' k
      | O =>
          if HasPrefix s sep
          then let '(p, ps) := split_go sep s' (String.length sep - 1)
               in (EmptyString, p :: ps)
          else let '(p, ps) := split_go sep s' 0 in (String c p, ps)
      end
  end.

Definition Split (s sep : string) : list string :=
  let '(p, ps) := split_go sep s 0 in p :: ps.

(** Go's [strings.Join(elems, sep)]. *)
Fixpoint Join (elems : list string) (sep : string) : string :=
  match elems with
  | [] => EmptyString
  | [x] => x
  | x :: xs => x +:+ sep +:+ Join xs sep
  end.

(** The UTF-8 encodings of the code points of [unicode.IsSpace], as used by
    [strings.TrimSpace]: the width of the space rune at the head of [s],
    0 when [s] does not start with one. *)
Definition space_width (s : string) : nat :=
  match s with
  | String a s1 =>
      let a := N_of_ascii a in
      if ((9 <=? a) && (a <=? 13))%N || (a =? 32)%N then 1
      else
        match s1 with
        | String b s2 =>
            let b := N_of_ascii b in
            if (a =? 0xC2)%N && ((b =? 0x85)%N || (b =? 0xA0)%N) then 2
            else
              match s2 with
              | String c _ =>
                  let c := N_of_ascii c in
                  if ((a =? 0xE1) && (b =? 0x9A) && (c =? 0x80))%N
                     || ((a =? 0xE2) && (b =? 0x80) &&
                         (((0x80 <=? c) && (c <=? 0x8A)) || (c =? 0xA8) || (c =? 0xA9) || (c =? 0xAF)))%N
                     || ((a =? 0xE2) && (b =? 0x81) && (c =? 0x9F))%N
                     || ((a =? 0xE3) && (b =? 0x80) && (c =? 0x80))%N
                  then 3 else 0
              | EmptyString => 0
              end
        | EmptyString => 0
        end
  | EmptyString => 0
  end.

(** [strings.TrimSpace(s) == ""]: [s] is a sequence of space runes. *)
Fixpoint blank_go (s : string) (skip : nat) : bool :=
  match s with
  | EmptyString => true
  | String _ s' =>
      match skip with
      | S k => blank_go s' k
      | O => match space_width s with
             | O => false
             | S k => blank_go s' k
             end
      end
  end.

Definition blank (s : string) : bool := blank_go s 0.

(** * Machine integers

    A [uint64] is an [N] below [2^64]; arithmetic is followed by [u64], the
    wrap-around of Go's unsigned integers. *)
Definition two64 : N := 18446744073709551616%N.
Definition MaxUint64 : N := 18446744073709551615%N.
Definition u64 (n : N) : N := (n mod two64)%N.

(** Go's conversion [uint64(x)] of a signed 64-bit integer. *)
Definition uint64_of_Z (z : Z) : N := Z.to_N (z mod 18446744073709551616)%Z.

(** Go's conversion [int(n)] of a [uint64] on a 64-bit platform. *)
Definition int_of_u64 (n : N) : Z :=
  if decide (n < 9223372036854775808)%N then Z.of_N n
  else (Z.of_N n - 18446744073709551616)%Z.

(** [fmt.Sprintf("%d", n)] on a [uint64]. *)
Definition fmt_u64 (n : N) : string := pretty n.

Definition is_digit (c : ascii) : bool :=
  let n := N_of_ascii c in ((48 <=? n) && (n <=? 57))%N.

(** Value of a decimal digit string read after [acc]. *)
Fixpoint digits_value (acc : N) (s : string) : N :=
  match s with
  | EmptyString => acc
  | String c s' => digits_value (10 * acc + (N_of_ascii c - 48))%N s'
  end.

(** Go's [strconv.ParseUint(s, 10, 64)]: a non-empty sequence of decimal
    digits whose value fits in 64 bits. *)
Definition ParseUint (s : string) : option N :=
  if (negb (bool_decide (s = ""))) && str_all is_digit s &&
     (digits_value 0 s <=? MaxUint64)%N
  then Some (digits_value 0 s) else None.

(** Go's [encoding/hex.EncodeToString]. *)
Definition hex_digit (n : N) : ascii :=
  if (n <? 10)%N then ascii_of_N (48 + n) else ascii_of_N (87 + n).

Fixpoint hex_EncodeToString (s : string) : string :=
  match s with
  | EmptyString => EmptyString
  | String c s' =>
      let n := N_of_ascii c in
      String (hex_digit (n / 16)) (String (hex_digit (n mod 16)) (hex_EncodeToString s'))
  end.

(** Go's [encoding/hex.DecodeString]: both letter cases are accepted. *)
Definition hex_value (c : ascii) : option N :=
  let n := N_of_ascii c in
  if ((48 <=? n) && (n <=? 57))%N then Some (n - 48)%N
  else if ((97 <=? n) && (n <=? 102))%N then Some (n - 87)%N
  else if ((65 <=? n) && (n <=? 70))%N then Some (n - 55)%N
  else None.

Fixpoint hex_DecodeString (s : string) : option string :=
  match s with
  | EmptyString => Some EmptyString
  | String a (String b s') =>
      match hex_value a, hex_value b, hex_DecodeString s' with
      | Some x, Some y, Some r => Some (String (ascii_of_N (16 * x + y)) r)
      | _, _, _ => None
      end
  | String _ EmptyString => None
  end.

(** * Lemmas on byte strings *)

Lemma app_nil_l (s : string) : "" +:+ s = s.
Proof. reflexivity. Qed.

Lemma app_cons_l (c : ascii) (s t : string) : String c s +:+ t = String c (s +:+ t).
Proof. reflexivity. Qed.

Lemma app_nil_r_str (s : string) : s +:+ "" = s.
Proof. induction s as [|c s IH]; [done|]. by rewrite app_cons_l, IH. Qed.

Lemma app_assoc_str (a b c : string) : (a +:+ b) +:+ c = a +:+ (b +:+ c).
Proof. induction a as [|x a IH]; [done|]. by rewrite !app_cons_l, IH. Qed.

Lemma str_length_app (a b : string) :
  String.length (a +:+ b) = String.length a + String.length b.
Proof. induction a as [|x a IH]; [done|]. rewrite app_cons_l. simpl. by rewrite IH. Qed.

Lemma app_inj_length (a a' b b' : string) :
  String.length a = String.length a' → a +:+ b = a' +:+ b' → a = a' ∧ b = b'.
Proof.
  revert a'; induction a as [|x a IH]; intros [|y a'] Hl H; simpl in *; try lia.
  - done.
  - rewrite !app_cons_l in H. simplify_eq.
    destruct (IH a') as [-> ->]; [lia|done|done].
Qed.

Lemma str_all_app p (a b : string) : str_all p (a +:+ b) = str_all p a && str_all p b.
Proof.
  induction a as [|x a IH]; [done|]. rewrite app_cons_l; simpl. rewrite IH. by rewrite andb_assoc.
Qed.

Lemma str_all_impl (p q : ascii → bool) (s : string) :
  (∀ c, p c = true → q c = true) → str_all p s = true → str_all q s = true.
Proof.
  intros Hpq. induction s as [|c s IH]; [done|]. simpl.
  rewrite !andb_true_iff. intros [? ?]. auto.
Qed.

Lemma no_char_app c (a b : string) : no_char c (a +:+ b) = no_char c a && no_char c b.
Proof. apply str_all_app. Qed.

(** A separator splits a string at its first occurrence in only one way: the
    base of every injectivity argument about '/'-separated store paths. *)
Lemma app_sep_inj c (a a' b b' : string) :
  no_char c a = true → no_char c a' = true →
  a +:+ String c b = a' +:+ String c b' → a = a' ∧ b = b'.
Proof.
  unfold no_char. revert a'. induction a as [|x a IH]; intros [|y a']; simpl.
  - intros _ _ H. rewrite !app_nil_l in H. by simplify_eq.
  - rewrite andb_true_iff, negb_true_iff, Ascii.eqb_neq. intros _ [Hn _] H.
    rewrite app_nil_l, app_cons_l in H. by simplify_eq.
  - rewrite andb_true_iff, negb_true_iff, Ascii.eqb_neq. intros [Hn _] _ H.
    rewrite app_nil_l, app_cons_l in H. by simplify_eq.
  - rewrite !andb_true_iff. intros [Ha1 Ha2] [Hb1 Hb2] H. rewrite !app_cons_l in H. simplify_eq.
    destruct (IH a') as [-> ->]; done.
Qed.

(** A string without the separator is not of the separated form. *)
Lemma app_sep_no_char c (a a' b : string) :
  no_char c a = true → a = a' +:+ String c b → False.
Proof.
  intros Ha ->. rewrite no_char_app in Ha. unfold no_char in Ha. simpl in Ha.
  rewrite Ascii.eqb_refl in Ha. simpl in Ha. by rewrite andb_false_r in Ha.
Qed.

Lemma HasPrefix_app (p r : string) : HasPrefix (p +:+ r) p = true.
Proof.
  induction p as [|c p IH]; [by destruct r|]. rewrite app_cons_l. simpl.
  by rewrite Ascii.eqb_refl, IH.
Qed.

Lemma HasPrefix_spec (s p : string) : HasPrefix s p = true ↔ ∃ r, s = p +:+ r.
Proof.
  split.
  - revert s. induction p as [|c p IH]; intros [|d s]; simpl.
    + exists "". by rewrite app_nil_l.
    + eexists. by rewrite app_nil_l.
    + done.
    + rewrite andb_true_iff, Ascii.eqb_eq. intros [-> H].
      destruct (IH s H) as [r ->]. exists r. by rewrite app_cons_l.
  - intros [r ->]. apply HasPrefix_app.
Qed.

Lemma str_drop_app (p r : string) : str_drop (String.length p) (p +:+ r) = r.
Proof. induction p as [|c p IH]; [by destruct r|]. by rewrite app_cons_l. Qed.

(** ** [Split] and [Join] on a one-byte separator *)

Lemma split_go_char c d (s : string) :
  split_go (String c "") (String d s) 0 =
  let '(p, ps) := split_go (String c "") s 0 in
  if Ascii.eqb c d then (EmptyString, p :: ps) else (String d p, ps).
Proof.
  simpl. destruct (Ascii.eqb c d) eqn:E; simpl; [|by destruct (split_go _ s 0)].
  destruct s; by destruct (split_go _ _ 0).
Qed.

Lemma Split_no_char c (a : string) : no_char c a = true → Split a (String c "") = [a].
Proof.
  unfold Split. intros H.
  cut (split_go (String c "") a 0 = (a, [])); [by intros ->|].
  induction a as [|x a IH]; [done|]. rewrite split_go_char.
  unfold no_char in H. simpl in H. rewrite andb_true_iff, negb_true_iff in H. destruct H as [Hx Ha].
  rewrite IH by done. rewrite Ascii.eqb_sym, Hx. done.
Qed.

Lemma Split_sep c (a b : string) :
  no_char c a = true →
  Split (a +:+ String c b) (String c "") = a :: Split b (String c "").
Proof.
  unfold Split. intros H.
  cut (split_go (String c "") (a +:+ String c b) 0 =
       (a, let '(p, ps) := split_go (String c "") b 0 in p :: ps)).
  { intros ->. by destruct (split_go _ b 0). }
  induction a as [|x a IH].
  - rewrite app_nil_l, split_go_char, Ascii.eqb_refl. by destruct (split_go _ b 0).
  - rewrite app_cons_l, split_go_char.
    unfold no_char in H. simpl in H. rewrite andb_true_iff, negb_true_iff in H. destruct H as [Hx Ha].
    rewrite IH by done. rewrite Ascii.eqb_sym, Hx. done.
Qed.

Lemma Split_not_nil (s sep : string) : Split s sep ≠ [].
Proof. unfold Split. by destruct (split_go sep s 0). Qed.

(** Every piece of a one-byte split is free of the separator. *)
Lemma Split_pieces c (s : string) : Forall (λ p, no_char c p = true) (Split s (String c "")).
Proof.
  unfold Split. induction s as [|d s IH]; [repeat constructor|].
  rewrite split_go_char. destruct (split_go _ s 0) as [p ps].
  inversion IH as [|? ? Hp Hps]; subst.
  destruct (Ascii.eqb c d) eqn:E; repeat constructor; try done.
  unfold no_char. simpl. rewrite Ascii.eqb_sym, E. done.
Qed.

Lemma Join_cons (x y : string) (l : list string) sep :
  Join (x :: y :: l) sep = x +:+ sep +:+ Join (y :: l) sep.
Proof. done. Qed.

(** [strings.Join(strings.Split(s, c), c) == s]. *)
Lemma Join_Split c (s : string) : Join (Split s (String c "")) (String c "") = s.
Proof.
  unfold Split. induction s as [|d s IH]; [done|].
  rewrite split_go_char. destruct (split_go _ s 0) as [p ps].
  destruct (Ascii.eqb c d) eqn:E.
  - apply Ascii.eqb_eq in E as ->. rewrite Join_cons, IH. by rewrite app_nil_l.
  - destruct ps as [|q ps]; simpl in *; [by rewrite IH|].
    rewrite app_cons_l. f_equal. done.
Qed.

Lemma Split_Join c (l : list string) :
  l ≠ [] → Forall (λ p, no_char c p = true) l → Split (Join l (String c "")) (String c "") = l.
Proof.
  intros Hne Hl. induction Hl as [|x l Hx Hl IH]; [done|].
  destruct l as [|y l]; [by apply Split_no_char|].
  rewrite Join_cons, app_cons_l, app_nil_l, Split_sep by done.
  by rewrite IH.
Qed.

(** ** Decimal numbers *)

Lemma digits_value_app acc (a b : string) :
  digits_value acc (a +:+ b) = digits_value (digits_value acc a) b.
Proof.
  revert acc. induction a as [|c a IH]; intros acc; [done|].
  rewrite app_cons_l. simpl. apply IH.
Qed.

Lemma digits_value_acc acc (s : string) :
  digits_value acc s = (acc * 10 ^ N.of_nat (String.length s) + digits_value 0 s)%N.
Proof.
  revert acc. induction s as [|c s IH]; intros acc.
  - simpl. lia.
  - change (digits_value acc (String c s)) with (digits_value (10 * acc + (N_of_ascii c - 48)) s).
    change (digits_value 0 (String c s)) with (digits_value (10 * 0 + (N_of_ascii c - 48)) s).
    rewrite IH, (IH (10 * 0 + _)%N). simpl String.length.
    rewrite Nat2N.inj_succ, N.pow_succ_r'. lia.
Qed.

Lemma pretty_N_char_digit n : (n < 10)%N →
  is_digit (pretty_N_char n) = true ∧ (N_of_ascii (pretty_N_char n) - 48 = n)%N.
Proof.
  intros Hn.
  assert (n = 0 ∨ n = 1 ∨ n = 2 ∨ n = 3 ∨ n = 4 ∨ n = 5 ∨ n = 6 ∨ n = 7 ∨ n = 8 ∨ n = 9)%N
    as Hc by lia.
  repeat destruct Hc as [-> | Hc]; [..|subst n]; by vm_compute.
Qed.

Lemma pretty_N_go_spec n (s : string) :
  str_all is_digit (pretty_N_go n s) = str_all is_digit s ∧
  digits_value 0 (pretty_N_go n s) = (n * 10 ^ N.of_nat (String.length s) + digits_value 0 s)%N.
Proof.
  revert s. induction (N.lt_wf_0 n) as [n _ IH]; intros s.
  destruct (decide (0 < n)%N) as [Hn|Hn]; [|assert (n = 0)%N as -> by lia].
  - rewrite pretty_N_go_step by done.
    destruct (IH (n `div` 10)%N (N.div_lt n 10 Hn eq_refl)
                (String (pretty_N_char (n `mod` 10)) s)) as [-> ->].
    pose proof (N.mod_lt n 10 ltac:(lia)) as Hm.
    destruct (pretty_N_char_digit _ Hm) as [Hd Hv]. simpl. rewrite Hd. split; [done|].
    rewrite Hv, digits_value_acc.
    change (N.pos (Pos.of_succ_nat (String.length s))) with (N.of_nat (S (String.length s))).
    rewrite Nat2N.inj_succ, N.pow_succ_r'.
    rewrite (N.div_mod n 10) at 3 by lia. nia.
  - rewrite pretty_N_go_0. split; [done|lia].
Qed.

Lemma fmt_u64_digits n : str_all is_digit (fmt_u64 n) = true.
Proof.
  unfold fmt_u64, pretty, pretty_N. case_decide; [by subst|].
  destruct (pretty_N_go_spec n "") as [-> _]. done.
Qed.

Lemma fmt_u64_value n : digits_value 0 (fmt_u64 n) = n.
Proof.
  unfold fmt_u64, pretty, pretty_N. case_decide; [by subst|].
  destruct (pretty_N_go_spec n "") as [_ ->]. simpl. lia.
Qed.

Lemma fmt_u64_inj n m : fmt_u64 n = fmt_u64 m → n = m.
Proof. intros H. rewrite <- (fmt_u64_value n), <- (fmt_u64_value m). by rewrite H. Qed.

Lemma fmt_u64_not_empty n : fmt_u64 n ≠ "".
Proof.
  intros H. pose proof (fmt_u64_value n) as Hv. rewrite H in Hv. simpl in Hv. subst n.
  by vm_compute in H.
Qed.

(** A character that is not a decimal digit does not occur in a printed number. *)
Lemma fmt_u64_no_char c n : is_digit c = false → no_char c (fmt_u64 n) = true.
Proof.
  intros Hc. unfold no_char. eapply str_all_impl; [|apply fmt_u64_digits].
  intros x Hx. rewrite negb_true_iff, Ascii.eqb_neq. by intros ->; rewrite Hc in Hx.
Qed.

(** Printing then parsing a [uint64] is the identity. *)
Lemma ParseUint_fmt n : (n < two64)%N → ParseUint (fmt_u64 n) = Some n.
Proof.
  intros Hn. unfold ParseUint. rewrite fmt_u64_digits, fmt_u64_value.
  rewrite bool_decide_eq_false_2 by apply fmt_u64_not_empty. simpl.
  unfold two64, MaxUint64 in *. replace (n <=? 18446744073709551615)%N with true; [done|].
  symmetry. apply N.leb_le. lia.
Qed.

Lemma ParseUint_Some s n :
  ParseUint s = Some n ↔
  s ≠ "" ∧ str_all is_digit s = true ∧ digits_value 0 s = n ∧ (n < two64)%N.
Proof.
  unfold ParseUint, two64, MaxUint64. split.
  - destruct (_ && _) eqn:E; [|done]. rewrite !andb_true_iff in E.
    destruct E as [[E1 E2] E3]. intros [= <-].
    apply negb_true_iff, bool_decide_eq_false in E1. apply N.leb_le in E3.
    repeat split; auto. lia.
  - intros (Hs & Hd & <- & Hn). rewrite Hd, bool_decide_eq_false_2 by done. simpl.
    replace (_ <=? _)%N with true; [done|]. symmetry. apply N.leb_le. lia.
Qed.

Lemma ParseUint_bound s n : ParseUint s = Some n → (n < two64)%N.
Proof. rewrite ParseUint_Some. tauto. Qed.

Lemma u64_bound n : (u64 n < two64)%N.
Proof. unfold u64, two64. apply N.mod_lt. done. Qed.

Lemma u64_small n : (n < two64)%N → u64 n = n.
Proof. apply N.mod_small. Qed.

Lemma u64_succ n : (n < MaxUint64)%N → u64 (n + 1) = (n + 1)%N.
Proof. unfold MaxUint64. intros H. apply u64_small. unfold two64. lia. Qed.

(** The counter wraps to 0 after [math.MaxUint64]. *)
Lemma u64_succ_max : u64 (MaxUint64 + 1) = 0%N.
Proof. reflexivity. Qed.

(** ** Printed numbers have no leading zero and at most 20 digits *)

Lemma digits_value_upper (s : string) :
  str_all is_digit s = true → (digits_value 0 s < 10 ^ N.of_nat (String.length s))%N.
Proof.
  induction s as [|c s IH]; [done|]. simpl str_all. rewrite andb_true_iff. intros [Hc Hs].
  change (digits_value 0 (String c s)) with (digits_value (N_of_ascii c - 48) s).
  rewrite digits_value_acc. specialize (IH Hs).
  unfold is_digit in Hc. rewrite andb_true_iff, !N.leb_le in Hc.
  simpl String.length. rewrite Nat2N.inj_succ, N.pow_succ_r'. nia.
Qed.

Lemma pretty_N_go_length n k (s : string) :
  (n < 10 ^ N.of_nat k)%N → String.length (pretty_N_go n s) ≤ k + String.length s.
Proof.
  revert n s. induction k as [|k IH]; intros n s Hn.
  - assert (n = 0)%N as -> by (simpl in Hn; lia). by rewrite pretty_N_go_0.
  - destruct (decide (0 < n)%N) as [Hp|Hp]; [|assert (n = 0)%N as -> by lia; rewrite pretty_N_go_0; lia].
    rewrite pretty_N_go_step by done. rewrite IH; [simpl; lia|].
    rewrite Nat2N.inj_succ, N.pow_succ_r' in Hn. apply N.Div0.div_lt_upper_bound. lia.
Qed.

Lemma fmt_u64_length n : (n < two64)%N → 1 ≤ String.length (fmt_u64 n) ≤ 20.
Proof.
  intros Hn. split.
  - destruct (fmt_u64 n) eqn:E; simpl; [by destruct (fmt_u64_not_empty n)|lia].
  - unfold fmt_u64, pretty, pretty_N. case_decide; [simpl; lia|].
    etrans; [apply (pretty_N_go_length n 20)|simpl; lia].
    change (10 ^ N.of_nat 20)%N with 100000000000000000000%N. unfold two64 in Hn. lia.
Qed.

Lemma pretty_N_go_head n c (s : string) : (0 < n)%N →
  ∃ d r, pretty_N_go n (String c s) = String (pretty_N_char d) r ∧ (0 < d < 10)%N.
Proof.
  revert c s. induction (N.lt_wf_0 n) as [n _ IH]; intros c s Hn.
  rewrite pretty_N_go_step by done.
  destruct (decide (n `div` 10 = 0)%N) as [Hz|Hz].
  - rewrite Hz, pretty_N_go_0. eexists _, _. split; [done|].
    apply N.div_small_iff in Hz; [|lia]. rewrite N.mod_small by done. lia.
  - apply IH; [by apply N.div_lt|by apply N.neq_0_lt_0].
Qed.

(** A printed positive number starts with a digit between 1 and 9. *)
Lemma fmt_u64_head n : (0 < n)%N →
  ∃ c r, fmt_u64 n = String c r ∧ is_digit c = true ∧ c ≠ "0"%char.
Proof.
  intros Hn. unfold fmt_u64, pretty, pretty_N. rewrite decide_False by lia.
  assert (∃ d r, pretty_N_go n "" = String (pretty_N_char d) r ∧ (0 < d < 10)%N) as (d & r & E & Hd).
  { rewrite pretty_N_go_step by done.
    destruct (decide (n `div` 10 = 0)%N) as [Hz|Hz].
    - rewrite Hz, pretty_N_go_0. eexists _, _. split; [done|].
      apply N.div_small_iff in Hz; [|lia]. rewrite N.mod_small by done. lia.
    - apply pretty_N_go_head. by apply N.neq_0_lt_0. }
  exists (pretty_N_char d), r. split; [done|].
  destruct (pretty_N_char_digit d) as [? Hv]; [lia|]. split; [done|].
  intros H0. rewrite H0 in Hv. vm_compute in Hv. lia.
Qed.
