(* ===== verification/GoMonad.v ===== *)
(** * Errors, panics and mutable state of Go code

    The keepers are Go methods that read and write a store through [ctx], return
    an [error] and may panic.  They are modelled in one monad [ST S], a state
    monad over [S] whose outcome is a value, an error or a panic.  The state is
    returned on errors as well: a Go method that fails after a write leaves the
    write in [ctx]; discarding it is the job of whoever created the context
    ([ctx.CacheContext()] in [keeper/msg_server.go], modelled in [MsgServer.v]). *)
From S2P Require Import Prelude.

(** An error value: a sentinel registered with [sdkerrors.Register(codespace,
    code, _)], an error of code outside the repository, or either of them wrapped
    by [sdkerrors.Wrap]/[Wrapf].  Descriptions are not modelled; that an error
    has been wrapped is, since [msg_server.go] compares errors with [==]. *)
Inductive error : Type :=
  | Sentinel (codespace : string) (code : N)
  | External (source : string)
  | Wrap (e : error).

#[export] Instance error_eq_dec : EqDecision error.
Proof. solve_decision. Defined.

(** [sdkerrors.Register]. *)
Definition Register (codespace : string) (code : N) : error := Sentinel codespace code.

(** The sentinel below the wrappers, as [errors.Is] sees it. *)
Fixpoint root_cause (e : error) : error :=
  match e with
  | Wrap e' => root_cause e'
  | _ => e
  end.

Inductive outcome (A : Type) : Type :=
  | Ok (a : A)
  | Err (e : error)
  | Panic.
Arguments Ok {A} a.
Arguments Err {A} e.
Arguments Panic {A}.

Definition outcome_map {A B} (f : A → B) (o : outcome A) : outcome B :=
  match o with
  | Ok a => Ok (f a)
  | Err e => Err e
  | Panic => Panic
  end.

(** [if err := f(); err != nil { return sdkerrors.Wrap(err, _) }] *)
Definition outcome_wrap {A} (o : outcome A) : outcome A :=
  match o with
  | Err e => Err (Wrap e)
  | _ => o
  end.

(** Sequencing of computations that do not touch the store. *)
Definition outcome_bind {A B} (o : outcome A) (k : A → outcome B) : outcome B :=
  match o with
  | Ok a => k a
  | Err e => Err e
  | Panic => Panic
  end.

Definition fail_if (b : bool) (e : error) : outcome unit := if b then Err e else Ok tt.
Definition must_some {A} (o : option A) : outcome A :=
  match o with
  | Some a => Ok a
  | None => Panic
  end.

(** [x == nil] *)
Definition is_nil {A} (o : option A) : bool :=
  match o with
  | Some _ => false
  | None => true
  end.

Definition is_ok {A} (o : outcome A) : bool :=
  match o with
  | Ok _ => true
  | _ => false
  end.

Definition ST (S A : Type) : Type := S → S * outcome A.

Section monad.
Context {S : Type}.

Definition ret {A} (a : A) : ST S A := λ s, (s, Ok a).
Definition throw {A} (e : error) : ST S A := λ s, (s, Err e).
Definition panic {A} : ST S A := λ s, (s, Panic).
Definition bind {A B} (m : ST S A) (k : A → ST S B) : ST S B := λ s,
  match m s with
  | (s', Ok a) => k a s'
  | (s', Err e) => (s', Err e)
  | (s', Panic) => (s', Panic)
  end.
Definition gets {A} (f : S → A) : ST S A := λ s, (s, Ok (f s)).
Definition modify (f : S → S) : ST S unit := λ s, (f s, Ok tt).
Definition lift {A} (o : outcome A) : ST S A := λ s, (s, o).
Definition wrap_err {A} (m : ST S A) : ST S A := λ s,
  let '(s', o) := m s in (s', outcome_wrap o).

(** [err := f()]: the error as a value. *)
Definition catch {A} (m : ST S A) : ST S (option error) := λ s,
  match m s with
  | (s', Ok _) => (s', Ok None)
  | (s', Err e) => (s', Ok (Some e))
  | (s', Panic) => (s', Panic)
  end.

(** [if b { return e }] *)
Definition throw_if (b : bool) (e : error) : ST S unit :=
  if b then throw e else ret tt.

(** [v, found := ...; if !found { return e }] *)
Definition some_or {A} (o : option A) (e : error) : ST S A :=
  match o with
  | Some a => ret a
  | None => throw e
  end.

(** [for _, x := range l { f(x) }] *)
Definition for_all {A} (f : A → ST S unit) (l : list A) : ST S unit := foldr (λ x k, bind (f x) (λ _, k)) (ret tt) l.

(** A partial operation of Go that panics when undefined
    ([MustUnmarshal], a slice index). *)
Definition some_or_panic {A} (o : option A) : ST S A :=
  match o with
  | Some a => ret a
  | None => panic
  end.
End monad.

(** [m] leaves the part [f] of the state as it was, whatever its outcome. *)
Definition keeps {S T A} (f : S → T) (m : ST S A) : Prop := ∀ s, f (m s).1 = f s.

(** [m] leaves the part [f] of the state as it was when it returns an error. *)
Definition atomic {S T A} (f : S → T) (m : ST S A) : Prop :=
  ∀ s e, (m s).2 = Err e → f (m s).1 = f s.

(** [m] never returns an error. *)
Definition no_err {S A} (m : ST S A) : Prop := ∀ s e, (m s).2 ≠ Err e.

Notation "'let!' x ':=' m 'in' k" := (bind m (λ x, k))
  (at level 10, x name, m at level 200, k at level 200,
   format "'[v' 'let!'  x  ':='  m  'in'  '/' k ']'") : ibc_scope.
Notation "'let!' ' p ':=' m 'in' k" := (bind m (λ x, match x with p => k end))
  (at level 10, p pattern, m at level 200, k at level 200, only parsing) : ibc_scope.
Notation "m ;;; k" := (bind m (λ _, k))
  (at level 199, right associativity, format "'[v' m  ;;; '/' k ']'") : ibc_scope.

Notation "'let?' x ':=' m 'in' k" := (outcome_bind m (λ x, k))
  (at level 10, x name, m at level 200, k at level 200,
   format "'[v' 'let?'  x  ':='  m  'in'  '/' k ']'") : ibc_scope.
Notation "'let?' ' p ':=' m 'in' k" := (outcome_bind m (λ x, match x with p => k end))
  (at level 10, p pattern, m at level 200, k at level 200, only parsing) : ibc_scope.
Notation "m ;;? k" := (outcome_bind m (λ _, k))
  (at level 199, right associativity, format "'[v' m  ;;? '/' k ']'") : ibc_scope.

(** Run a computation on one field of a larger state. *)
Definition zoom {S T A} (view : S → T) (put : T → S → S) (m : ST T A) : ST S A := λ s,
  let '(t, o) := m (view s) in (put t s, o).

(** * Inversion of successful runs *)
Section inversion.
Context {S : Type}.

Lemma bind_run {A B} (m : ST S A) (k : A → ST S B) s s1 a :
  m s = (s1, Ok a) → bind m k s = k a s1.
Proof. unfold bind. by intros ->. Qed.

Lemma run_pair {A} (m : ST S A) (o : outcome A) s : (m s).2 = o → m s = ((m s).1, o).
Proof. destruct (m s) as [s' o']. simpl. by intros ->. Qed.

Lemma bind_Ok {A B} (m : ST S A) (k : A → ST S B) s s' b :
  bind m k s = (s', Ok b) → ∃ a s1, m s = (s1, Ok a) ∧ k a s1 = (s', Ok b).
Proof. unfold bind. destruct (m s) as [s1 [a|e|]]; naive_solver. Qed.

Lemma bind_Err {A B} (m : ST S A) (k : A → ST S B) s s' e :
  bind m k s = (s', Err e) →
  m s = (s', Err e) ∨ ∃ a s1, m s = (s1, Ok a) ∧ k a s1 = (s', Err e).
Proof. unfold bind. destruct (m s) as [s1 [a|e'|]]; naive_solver. Qed.

Lemma ret_Ok {A} (a b : A) (s s' : S) : ret a s = (s', Ok b) → a = b ∧ s = s'.
Proof. unfold ret. naive_solver. Qed.

Lemma throw_Ok {A} e (s s' : S) (b : A) : throw e s = (s', Ok b) → False.
Proof. unfold throw. naive_solver. Qed.

Lemma panic_Ok {A} (s s' : S) (b : A) : panic s = (s', Ok b) → False.
Proof. unfold panic. naive_solver. Qed.

Lemma gets_Ok {A} (f : S → A) s s' b : gets f s = (s', Ok b) → f s = b ∧ s = s'.
Proof. unfold gets. naive_solver. Qed.

Lemma modify_Ok (f : S → S) s s' u : modify f s = (s', Ok u) → s' = f s.
Proof. unfold modify. naive_solver. Qed.

Lemma lift_Ok {A} (o : outcome A) (s s' : S) b : lift o s = (s', Ok b) → o = Ok b ∧ s = s'.
Proof. unfold lift. naive_solver. Qed.

Lemma wrap_err_Ok {A} (m : ST S A) s s' b : wrap_err m s = (s', Ok b) → m s = (s', Ok b).
Proof. unfold wrap_err. destruct (m s) as [s1 [a|e|]]; simpl; naive_solver. Qed.

Lemma throw_if_Ok b e (s s' : S) u : throw_if b e s = (s', Ok u) → b = false ∧ s = s'.
Proof. unfold throw_if, throw, ret. destruct b; naive_solver. Qed.

Lemma some_or_Ok {A} (o : option A) e (s s' : S) b :
  some_or o e s = (s', Ok b) → o = Some b ∧ s = s'.
Proof. unfold some_or, throw, ret. destruct o; naive_solver. Qed.

Lemma some_or_panic_Ok {A} (o : option A) (s s' : S) b :
  some_or_panic o s = (s', Ok b) → o = Some b ∧ s = s'.
Proof. unfold some_or_panic, panic, ret. destruct o; naive_solver. Qed.

Lemma zoom_Ok {T A} (view : S → T) put (m : ST T A) s s' a :
  zoom view put m s = (s', Ok a) → ∃ t, m (view s) = (t, Ok a) ∧ s' = put t s.
Proof. unfold zoom. destruct (m (view s)) as [t o]. naive_solver. Qed.

Lemma outcome_wrap_Ok {A} (o : outcome A) a : outcome_wrap o = Ok a → o = Ok a.
Proof. destruct o; naive_solver. Qed.
End inversion.

Lemma for_all_cons {S A} (f : A → ST S unit) x l : for_all f (x :: l) = bind (f x) (λ _, for_all f l).
Proof. done. Qed.
Lemma for_all_fmap {S A B} (f : B → ST S unit) (g : A → B) l : for_all f (g <$> l) = for_all (λ x, f (g x)) l.
Proof. unfold for_all. by rewrite foldr_fmap. Qed.

Lemma outcome_bind_Ok {A B} (o : outcome A) (k : A → outcome B) b :
  outcome_bind o k = Ok b → ∃ a, o = Ok a ∧ k a = Ok b.
Proof. destruct o; try done. eauto. Qed.
Lemma fail_if_Ok b e u : fail_if b e = Ok u → b = false.
Proof. by destruct b. Qed.
Lemma must_some_Ok {A} (o : option A) a : must_some o = Ok a → o = Some a.
Proof. destruct o; naive_solver. Qed.

(** Inversion of a successful [outcome]. *)
Ltac out_step :=
  match goal with
  | H : outcome_bind _ _ = Ok _ |- _ => apply outcome_bind_Ok in H as (? & ? & H); cbv beta in H
  | H : fail_if _ _ = Ok _ |- _ => apply fail_if_Ok in H
  | H : must_some _ = Ok _ |- _ => apply must_some_Ok in H
  | H : outcome_wrap _ = Ok _ |- _ => apply outcome_wrap_Ok in H
  | H : Ok _ = Ok _ |- _ => injection H as H
  | H : Err _ = Ok _ |- _ => discriminate H
  | H : Panic = Ok _ |- _ => discriminate H
  end.
Ltac out_inv := repeat (out_step; subst).

(** One inversion step on a run that succeeded.  [go_inv] repeats it, turning a
    hypothesis [prog s = (s', Ok a)] into the guards that were passed and the
    equations between the intermediate states.  [go_hook] is redefined by the files
    that add primitives of their own. *)
Ltac go_hook := fail.
Ltac go_step :=
  first [go_hook |
  match goal with
  | H : bind _ _ _ = (_, Ok _) |- _ =>
      let a := fresh "a" in let s := fresh "s" in
      let H1 := fresh "H" in let H2 := fresh "H" in
      apply bind_Ok in H as (a & s & H1 & H2)
  | H : ret _ _ = (_, Ok _) |- _ => apply ret_Ok in H as [? ?]
  | H : throw _ _ = (_, Ok _) |- _ => by apply throw_Ok in H
  | H : panic _ = (_, Ok _) |- _ => by apply panic_Ok in H
  | H : gets _ _ = (_, Ok _) |- _ => apply gets_Ok in H as [? ?]
  | H : modify _ _ = (_, Ok _) |- _ => apply modify_Ok in H
  | H : lift _ _ = (_, Ok _) |- _ => apply lift_Ok in H as [? ?]
  | H : wrap_err _ _ = (_, Ok _) |- _ => apply wrap_err_Ok in H
  | H : throw_if _ _ _ = (_, Ok _) |- _ => apply throw_if_Ok in H as [? ?]
  | H : some_or _ _ _ = (_, Ok _) |- _ => apply some_or_Ok in H as [? ?]
  | H : some_or_panic _ _ = (_, Ok _) |- _ => apply some_or_panic_Ok in H as [? ?]
  | H : (let (_, _) := ?p in _) _ = (_, Ok _) |- _ => destruct p
  | H : (let (_, _) := ?p in _) = (_, Ok _) |- _ => destruct p
  | u : unit |- _ => destruct u
  | H : ?x = ?x |- _ => clear H
  end].
Ltac go_inv := repeat (go_step; subst).

(** * What a computation leaves alone *)
Section frames.
Context {S : Type}.
Context {T : Type} (f : S → T).

Lemma keeps_ret {A} (a : A) : keeps f (ret a).
Proof. done. Qed.
Lemma keeps_throw {A} e : keeps f (throw (A:=A) e).
Proof. done. Qed.
Lemma keeps_panic {A} : keeps f (panic (A:=A)).
Proof. done. Qed.
Lemma keeps_gets {A} (g : S → A) : keeps f (gets g).
Proof. done. Qed.
Lemma keeps_lift {A} (o : outcome A) : keeps f (lift o).
Proof. done. Qed.
Lemma keeps_throw_if b e : keeps f (throw_if b e).
Proof. by destruct b. Qed.
Lemma keeps_some_or {A} (o : option A) e : keeps f (some_or o e).
Proof. by destruct o. Qed.
Lemma keeps_some_or_panic {A} (o : option A) : keeps f (some_or_panic o).
Proof. by destruct o. Qed.
Lemma keeps_modify g : (∀ s, f (g s) = f s) → keeps f (modify g).
Proof. done. Qed.
Lemma keeps_bind {A B} (m : ST S A) (k : A → ST S B) :
  keeps f m → (∀ a, keeps f (k a)) → keeps f (bind m k).
Proof.
  intros Hm Hk s. unfold bind. specialize (Hm s).
  destruct (m s) as [s1 [a|e|]]; simpl in *; [|done..]. by rewrite Hk.
Qed.
Lemma keeps_wrap_err {A} (m : ST S A) : keeps f m → keeps f (wrap_err m).
Proof. intros Hm s. unfold wrap_err. specialize (Hm s). by destruct (m s). Qed.

Lemma keeps_catch {A} (m : ST S A) : keeps f m → keeps f (catch m).
Proof. intros Hm s. unfold catch. specialize (Hm s). by destruct (m s) as [? []]. Qed.

Lemma keeps_run {A} (m : ST S A) s s' o : keeps f m → m s = (s', o) → f s' = f s.
Proof. intros Hm E. specialize (Hm s). by rewrite E in Hm. Qed.

Lemma atomic_keeps {A} (m : ST S A) : keeps f m → atomic f m.
Proof. intros H s e _. apply H. Qed.
Lemma atomic_no_err {A} (m : ST S A) : no_err m → atomic f m.
Proof. intros H s e E. by destruct (H s e). Qed.
Lemma atomic_bind {A B} (m : ST S A) (k : A → ST S B) :
  keeps f m → (∀ a, atomic f (k a)) → atomic f (bind m k).
Proof.
  intros Hm Hk s e. unfold bind. specialize (Hm s).
  destruct (m s) as [s1 [a|e'|]]; simpl in *; intros Ho; [|done..].
  by rewrite (Hk a s1 e Ho).
Qed.
(** A writing step is harmless if nothing after it fails. *)
Lemma atomic_bind_no_err {A B} (m : ST S A) (k : A → ST S B) :
  atomic f m → (∀ a, no_err (k a)) → atomic f (bind m k).
Proof.
  intros Hm Hk s e. unfold bind. specialize (Hm s).
  destruct (m s) as [s1 [a|e'|]]; simpl in *; [|eauto|done].
  intros E. by destruct (Hk a s1 e).
Qed.

Lemma no_err_ret {A} (a : A) : no_err (S:=S) (ret a).
Proof. done. Qed.
Lemma no_err_modify (g : S → S) : no_err (modify g).
Proof. done. Qed.
Lemma no_err_gets {A} (g : S → A) : no_err (gets g).
Proof. done. Qed.
Lemma no_err_some_or_panic {A} (o : option A) : no_err (S:=S) (some_or_panic o).
Proof. by destruct o. Qed.
Lemma no_err_bind {A B} (m : ST S A) (k : A → ST S B) :
  no_err m → (∀ a, no_err (k a)) → no_err (bind m k).
Proof.
  intros Hm Hk s e. unfold bind. specialize (Hm s).
  destruct (m s) as [s1 [a|e'|]]; simpl in *; [apply Hk|by destruct (Hm e')|done].
Qed.
End frames.

#[export] Hint Resolve keeps_ret keeps_throw keeps_panic keeps_gets keeps_lift keeps_throw_if
  keeps_some_or keeps_some_or_panic keeps_wrap_err keeps_catch no_err_ret no_err_modify no_err_gets
  no_err_some_or_panic : ibc.

(** Decompose a [keeps], [atomic] or [no_err] goal along the structure of the program. *)
Ltac frame_step :=
  first
    [ solve [eauto with ibc nocore]
    | apply keeps_bind; [|intros ?]
    | apply keeps_wrap_err
    | apply keeps_catch
    | apply no_err_bind; [|intros ?]
    | match goal with |- keeps _ (if ?b then _ else _) => destruct b end
    | match goal with |- keeps _ (match ?b with _ => _ end) => destruct b end
    | match goal with |- no_err (match ?b with _ => _ end) => destruct b end
    | match goal with |- no_err (if ?b then _ else _) => destruct b end
    | apply keeps_modify; intros ?; reflexivity ].
Ltac frame := repeat frame_step.

Ltac atomic_step :=
  first
    [ solve [apply atomic_no_err; frame]
    | solve [apply atomic_keeps; frame]
    | apply atomic_bind; [solve [frame]|intros ?]
    | apply atomic_bind_no_err; [|intros ?; solve [frame]]
    | match goal with |- atomic _ (if ?b then _ else _) => destruct b end
    | match goal with |- atomic _ (match ?b with _ => _ end) => destruct b end ].
Ltac atomic_run := repeat atomic_step.
