(* ===== verification/Sha256.v ===== *)
(** * [crypto/sha256]

    [sha256.Sum256] of Go's standard library, executable: packet commitments
    ([CommitPacket]), acknowledgement commitments and denomination hashes are
    computed with the real hash function, so the examples below and the
    witnesses of other files evaluate to the bytes a chain stores.
    No property of this development assumes that SHA-256 is injective. *)
From S2P Require Import Prelude.
From Stdlib Require Import Ascii.

Definition w32 (n : N) : N := N.land n 0xffffffff.
Definition add32 (a b : N) : N := w32 (a + b).
Definition rotr32 (x n : N) : N :=
  N.lor (N.shiftr x n) (w32 (N.shiftl x (32 - n))).
Definition not32 (x : N) : N := N.lxor x 0xffffffff.

Definition Ch (x y z : N) : N := N.lxor (N.land x y) (N.land (not32 x) z).
Definition Maj (x y z : N) : N := N.lxor (N.lxor (N.land x y) (N.land x z)) (N.land y z).
Definition Sigma0 (x : N) : N := N.lxor (N.lxor (rotr32 x 2) (rotr32 x 13)) (rotr32 x 22).
Definition Sigma1 (x : N) : N := N.lxor (N.lxor (rotr32 x 6) (rotr32 x 11)) (rotr32 x 25).
Definition sigma0 (x : N) : N := N.lxor (N.lxor (rotr32 x 7) (rotr32 x 18)) (N.shiftr x 3).
Definition sigma1 (x : N) : N := N.lxor (N.lxor (rotr32 x 17) (rotr32 x 19)) (N.shiftr x 10).

(** The constants, from their definition in FIPS 180-4: the first 32 bits of the
    fractional parts of the square roots of the first 8 primes and of the cube roots
    of the first 64, as integer roots of [p] scaled by a power of 2. *)
Definition is_prime (n : nat) : bool :=
  (1 <? n) && forallb (λ d, negb (n mod d =? 0)) (seq 2 (n - 2)).
Definition primes : list N := Eval vm_compute in N.of_nat <$> List.filter is_prime (seq 0 312).

(** The integer cube root, bit by bit. *)
Fixpoint cube_root (bits : nat) (n r : N) : N :=
  match bits with
  | O => r
  | S b =>
      let r' := (r + 2 ^ N.of_nat b)%N in
      cube_root b n (if (r' * r' * r' <=? n)%N then r' else r)
  end.

Definition K256 : list N := Eval vm_compute in (λ p, w32 (cube_root 36 (p * 2 ^ 96) 0)) <$> primes.
Definition H256 : list N := Eval vm_compute in (λ p, w32 (N.sqrt (p * 2 ^ 64))) <$> take 8 primes.

(** Extend the message schedule: [ws] holds the words in reverse order. *)
Fixpoint schedule (n : nat) (ws : list N) : list N :=
  match n with
  | O => ws
  | S n' =>
      let w i := nth i ws 0%N in
      schedule n' (add32 (add32 (sigma1 (w 1)) (w 6)) (add32 (sigma0 (w 14)) (w 15)) :: ws)
  end.

Definition round (st : list N) (kw : N * N) : list N :=
  match st with
  | [a; b; c; d; e; f; g; h] =>
      let t1 := add32 (add32 (add32 h (Sigma1 e)) (Ch e f g)) (add32 kw.1 kw.2) in
      let t2 := add32 (Sigma0 a) (Maj a b c) in
      [add32 t1 t2; a; b; c; add32 d t1; e; f; g]
  | _ => st
  end.

Definition compress (st block : list N) : list N :=
  let ws := reverse (schedule 48 (reverse block)) in
  zip_with add32 st (foldl round st (zip K256 ws)).

(** Big-endian bytes of [n], [k] of them. *)
Fixpoint be_bytes (k : nat) (n : N) : list N :=
  match k with
  | O => []
  | S k' => be_bytes k' (n / 256) ++ [(n mod 256)%N]
  end.

Definition be_value (l : list N) : N := foldl (λ acc b, 256 * acc + b)%N 0%N l.

Fixpoint bytes_of_string (s : string) : list N :=
  match s with
  | EmptyString => []
  | String c s' => N_of_ascii c :: bytes_of_string s'
  end.

Fixpoint string_of_bytes (l : list N) : string :=
  match l with
  | [] => EmptyString
  | b :: l' => String (ascii_of_N b) (string_of_bytes l')
  end.

(** Padding to a multiple of 64 bytes: a 1 bit, zeros, the length in bits. *)
Definition pad (l : list N) : list N :=
  let n := length l in
  l ++ [128%N] ++ replicate ((119 - n mod 64) mod 64) 0%N ++ be_bytes 8 (8 * N.of_nat n).

Fixpoint words (l : list N) : list N :=
  match l with
  | a :: b :: c :: d :: l' => be_value [a; b; c; d] :: words l'
  | _ => []
  end.

Fixpoint blocks (n : nat) (l : list N) (st : list N) : list N :=
  match n with
  | O => st
  | S n' => blocks n' (drop 16 l) (compress st (take 16 l))
  end.

Definition sha256_Sum256 (s : string) : string :=
  let ws := words (pad (bytes_of_string s)) in
  string_of_bytes (concat (be_bytes 4 <$> blocks (length ws / 16) ws H256)).

(** ** The digest is 32 bytes long *)

Lemma length_be_bytes k n : length (be_bytes k n) = k.
Proof. revert n. induction k as [|k IH]; intros n; [done|]. simpl. rewrite length_app, IH. simpl. lia. Qed.

Lemma length_round st kw : length (round st kw) = length st.
Proof. by destruct st as [|? [|? [|? [|? [|? [|? [|? [|? [|? ?]]]]]]]]]. Qed.

Lemma length_compress st block : length st = 8 → length (compress st block) = 8.
Proof.
  intros H. unfold compress. rewrite length_zip_with.
  assert (∀ l st', length (foldl round st' l) = length st') as Hf.
  { induction l as [|x l IH]; intros st'; [done|]. simpl. by rewrite IH, length_round. }
  rewrite Hf. lia.
Qed.

Lemma length_blocks n l st : length st = 8 → length (blocks n l st) = 8.
Proof. revert l st. induction n as [|n IH]; intros l st H; [done|]. apply IH, length_compress, H. Qed.

Lemma length_string_of_bytes l : String.length (string_of_bytes l) = length l.
Proof. induction l as [|x l IH]; [done|]. simpl. by rewrite IH. Qed.

Lemma sha256_length s : String.length (sha256_Sum256 s) = 32.
Proof.
  unfold sha256_Sum256. rewrite length_string_of_bytes.
  assert (∀ l, length (concat (be_bytes 4 <$> l)) = 4 * length l) as Hc.
  { induction l as [|x l IH]; [done|]. rewrite fmap_cons. cbn [concat].
    rewrite List.length_app, length_be_bytes, IH. cbn [length]. lia. }
  by rewrite Hc, length_blocks.
Qed.

Lemma sha256_not_empty s : sha256_Sum256 s ≠ "".
Proof. intros H. pose proof (sha256_length s) as L. by rewrite H in L. Qed.

(** Test vectors of FIPS 180-4. *)
Example sha256_empty :
  hex_EncodeToString (sha256_Sum256 "") =
  "e3b0c44298fc1c149afbf4c8996fb92427ae41e4649b934ca495991b7852b855".
Proof. vm_compute. reflexivity. Qed.

Example sha256_abc :
  hex_EncodeToString (sha256_Sum256 "abc") =
  "ba7816bf8f01cfea414140de5dae2223b00361a396177a9cb410ff61f20015ad".
Proof. vm_compute. reflexivity. Qed.

Example sha256_two_blocks :
  hex_EncodeToString (sha256_Sum256 "abcdbcdecdefdefgefghfghighijhijkijkljklmklmnlmnomnopnopq") =
  "248d6a61d20638b8e5c026930c3e6039a33ce45964ff2167f6ecedd419db06c1".
Proof. vm_compute. reflexivity. Qed.
