(* ===== verification/Errors.v ===== *)
(** * Sentinel errors

    The errors every package of [src/modules] registers with
    [sdkerrors.Register(codespace, code, _)] (its [errors.go]), a [Module] per
    package, and the sentinels of cosmos-sdk and of the Go libraries that the
    modelled code returns. *)
From S2P Require Import Prelude GoMonad.

(** 24-host (host) *)
Module HostErr.
Definition SubModuleName : string := "host".
Definition ErrInvalidID : error := Register SubModuleName 2.
Definition ErrInvalidPath : error := Register SubModuleName 3.
Definition ErrInvalidPacket : error := Register SubModuleName 4.
End HostErr.

(** 02-client (clienttypes) *)
Module ClientErr.
Definition SubModuleName : string := "client".
Definition ErrClientExists : error := Register SubModuleName 2.
Definition ErrInvalidClient : error := Register SubModuleName 3.
Definition ErrClientNotFound : error := Register SubModuleName 4.
Definition ErrClientFrozen : error := Register SubModuleName 5.
Definition ErrInvalidClientMetadata : error := Register SubModuleName 6.
Definition ErrConsensusStateNotFound : error := Register SubModuleName 7.
Definition ErrInvalidConsensus : error := Register SubModuleName 8.
Definition ErrClientTypeNotFound : error := Register SubModuleName 9.
Definition ErrInvalidClientType : error := Register SubModuleName 10.
Definition ErrRootNotFound : error := Register SubModuleName 11.
Definition ErrInvalidHeader : error := Register SubModuleName 12.
Definition ErrInvalidMisbehaviour : error := Register SubModuleName 13.
Definition ErrFailedClientStateVerification : error := Register SubModuleName 14.
Definition ErrFailedClientConsensusStateVerification : error := Register SubModuleName 15.
Definition ErrFailedConnectionStateVerification : error := Register SubModuleName 16.
Definition ErrFailedChannelStateVerification : error := Register SubModuleName 17.
Definition ErrFailedPacketCommitmentVerification : error := Register SubModuleName 18.
Definition ErrFailedPacketAckVerification : error := Register SubModuleName 19.
Definition ErrFailedPacketReceiptVerification : error := Register SubModuleName 20.
Definition ErrFailedNextSeqRecvVerification : error := Register SubModuleName 21.
Definition ErrSelfConsensusStateNotFound : error := Register SubModuleName 22.
Definition ErrUpdateClientFailed : error := Register SubModuleName 23.
Definition ErrInvalidUpdateClientProposal : error := Register SubModuleName 24.
Definition ErrInvalidUpgradeClient : error := Register SubModuleName 25.
Definition ErrInvalidHeight : error := Register SubModuleName 26.
Definition ErrInvalidSubstitute : error := Register SubModuleName 27.
Definition ErrInvalidUpgradeProposal : error := Register SubModuleName 28.
Definition ErrClientNotActive : error := Register SubModuleName 29.
End ClientErr.

(** 03-connection (connectiontypes) *)
Module ConnErr.
Definition SubModuleName : string := "connection".
Definition ErrConnectionExists : error := Register SubModuleName 2.
Definition ErrConnectionNotFound : error := Register SubModuleName 3.
Definition ErrClientConnectionPathsNotFound : error := Register SubModuleName 4.
Definition ErrConnectionPath : error := Register SubModuleName 5.
Definition ErrInvalidConnectionState : error := Register SubModuleName 6.
Definition ErrInvalidCounterparty : error := Register SubModuleName 7.
Definition ErrInvalidConnection : error := Register SubModuleName 8.
Definition ErrInvalidVersion : error := Register SubModuleName 9.
Definition ErrVersionNegotiationFailed : error := Register SubModuleName 10.
Definition ErrInvalidConnectionIdentifier : error := Register SubModuleName 11.
End ConnErr.

(** 04-channel (channeltypes) *)
Module ChanErr.
Definition SubModuleName : string := "channel".
Definition ErrChannelExists : error := Register SubModuleName 2.
Definition ErrChannelNotFound : error := Register SubModuleName 3.
Definition ErrInvalidChannel : error := Register SubModuleName 4.
Definition ErrInvalidChannelState : error := Register SubModuleName 5.
Definition ErrInvalidChannelOrdering : error := Register SubModuleName 6.
Definition ErrInvalidCounterparty : error := Register SubModuleName 7.
Definition ErrInvalidChannelCapability : error := Register SubModuleName 8.
Definition ErrChannelCapabilityNotFound : error := Register SubModuleName 9.
Definition ErrSequenceSendNotFound : error := Register SubModuleName 10.
Definition ErrSequenceReceiveNotFound : error := Register SubModuleName 11.
Definition ErrSequenceAckNotFound : error := Register SubModuleName 12.
Definition ErrInvalidPacket : error := Register SubModuleName 13.
Definition ErrPacketTimeout : error := Register SubModuleName 14.
Definition ErrTooManyConnectionHops : error := Register SubModuleName 15.
Definition ErrInvalidAcknowledgement : error := Register SubModuleName 16.
Definition ErrAcknowledgementExists : error := Register SubModuleName 17.
Definition ErrInvalidChannelIdentifier : error := Register SubModuleName 18.
Definition ErrPacketReceived : error := Register SubModuleName 19.
Definition ErrPacketCommitmentNotFound : error := Register SubModuleName 20.
Definition ErrPacketSequenceOutOfOrder : error := Register SubModuleName 21.
Definition ErrRedundantTx : error := Register SubModuleName 22.
Definition ErrNoOpMsg : error := Register SubModuleName 23.
Definition ErrInvalidChannelVersion : error := Register SubModuleName 24.
End ChanErr.

(** 05-port (porttypes) *)
Module PortErr.
Definition SubModuleName : string := "port".
Definition ErrPortExists : error := Register SubModuleName 2.
Definition ErrPortNotFound : error := Register SubModuleName 3.
Definition ErrInvalidPort : error := Register SubModuleName 4.
Definition ErrInvalidRoute : error := Register SubModuleName 5.
End PortErr.

(** 23-commitment (commitmenttypes) *)
Module CommitmentErr.
Definition SubModuleName : string := "commitment".
Definition ErrInvalidProof : error := Register SubModuleName 2.
Definition ErrInvalidPrefix : error := Register SubModuleName 3.
Definition ErrInvalidMerkleProof : error := Register SubModuleName 4.
End CommitmentErr.

(** apps/transfer *)
Module TransferErr.
Definition SubModuleName : string := "transfer".
Definition ErrInvalidPacketTimeout : error := Register SubModuleName 2.
Definition ErrInvalidDenomForTransfer : error := Register SubModuleName 3.
Definition ErrInvalidVersion : error := Register SubModuleName 4.
Definition ErrInvalidAmount : error := Register SubModuleName 5.
Definition ErrTraceNotFound : error := Register SubModuleName 6.
Definition ErrSendDisabled : error := Register SubModuleName 7.
Definition ErrReceiveDisabled : error := Register SubModuleName 8.
Definition ErrMaxTransferChannels : error := Register SubModuleName 9.
End TransferErr.

(** light-clients/07-tendermint *)
Module TmErr.
Definition SubModuleName : string := "tendermint-client".
Definition ErrInvalidChainID : error := Register SubModuleName 2.
Definition ErrInvalidTrustingPeriod : error := Register SubModuleName 3.
Definition ErrInvalidUnbondingPeriod : error := Register SubModuleName 4.
Definition ErrInvalidHeaderHeight : error := Register SubModuleName 5.
Definition ErrInvalidHeader : error := Register SubModuleName 6.
Definition ErrInvalidMaxClockDrift : error := Register SubModuleName 7.
Definition ErrProcessedTimeNotFound : error := Register SubModuleName 8.
Definition ErrProcessedHeightNotFound : error := Register SubModuleName 9.
Definition ErrDelayPeriodNotPassed : error := Register SubModuleName 10.
Definition ErrTrustingPeriodExpired : error := Register SubModuleName 11.
Definition ErrUnbondingPeriodExpired : error := Register SubModuleName 12.
Definition ErrInvalidProofSpecs : error := Register SubModuleName 13.
Definition ErrInvalidValidatorSet : error := Register SubModuleName 14.
End TmErr.

(** [06-solomachine]: [light-clients/06-solomachine/types/errors.go] *)
Module SoloErr.
Definition SubModuleName : string := "solo machine".
Definition ErrInvalidHeader : error := Register SubModuleName 2.
Definition ErrInvalidSequence : error := Register SubModuleName 3.
Definition ErrInvalidSignatureAndData : error := Register SubModuleName 4.
Definition ErrSignatureVerificationFailed : error := Register SubModuleName 5.
Definition ErrInvalidProof : error := Register SubModuleName 6.
Definition ErrInvalidDataType : error := Register SubModuleName 7.
End SoloErr.

(** Interchain accounts: [apps/27-interchain-accounts/types/errors.go] *)
Module IcaErr.
Definition ModuleName : string := "interchainaccounts".
Definition ErrUnknownDataType : error := Register ModuleName 2.
Definition ErrAccountAlreadyExist : error := Register ModuleName 3.
Definition ErrPortAlreadyBound : error := Register ModuleName 4.
Definition ErrInvalidChannelFlow : error := Register ModuleName 5.
Definition ErrInvalidOutgoingData : error := Register ModuleName 6.
Definition ErrInvalidRoute : error := Register ModuleName 7.
Definition ErrInterchainAccountNotFound : error := Register ModuleName 8.
Definition ErrInterchainAccountAlreadySet : error := Register ModuleName 9.
Definition ErrActiveChannelNotFound : error := Register ModuleName 10.
Definition ErrInvalidVersion : error := Register ModuleName 11.
Definition ErrInvalidAccountAddress : error := Register ModuleName 12.
Definition ErrUnsupported : error := Register ModuleName 13.
End IcaErr.

(** [host/types/errors.go] and [controller/types/errors.go] of the interchain accounts *)
Module IcaSubErr.
Definition ErrHostSubModuleDisabled : error := Register "icahost" 2.
Definition ErrControllerSubModuleDisabled : error := Register "icacontroller" 2.
End IcaSubErr.

(** cosmos-sdk ([types/errors]) *)
Module sdkerrors.
Definition ErrInvalidHeight : error := External "sdk/ErrInvalidHeight".
Definition ErrNotFound : error := External "sdk/ErrNotFound".
Definition ErrInvalidVersion : error := External "sdk/ErrInvalidVersion".
Definition ErrInvalidChainID : error := External "sdk/ErrInvalidChainID".
Definition ErrInvalidType : error := External "sdk/ErrInvalidType".
Definition ErrInvalidAddress : error := External "sdk/ErrInvalidAddress".
Definition ErrUnauthorized : error := External "sdk/ErrUnauthorized".
Definition ErrInvalidCoins : error := External "sdk/ErrInvalidCoins".
Definition ErrInsufficientFunds : error := External "sdk/ErrInsufficientFunds".
Definition ErrInvalidRequest : error := External "sdk/ErrInvalidRequest".
Definition ErrUnknownRequest : error := External "sdk/ErrUnknownRequest".
Definition ErrPackAny : error := External "sdk/ErrPackAny".
Definition ErrInvalidSequence : error := External "sdk/ErrInvalidSequence".
Definition ErrUnpackAny : error := External "sdk/ErrUnpackAny".
End sdkerrors.

(** Errors of Go's standard library. *)
Definition strconv_NumError : error := External "strconv.NumError".
Definition hex_DecodeError : error := External "hex.DecodeString".
Definition fmt_Errorf : error := External "fmt.Errorf".
