(* ===== verification/Height.v ===== *)
(** * Heights and chain identifiers ([core/02-client/types/height.go])

    [Height] (revision number, revision height) with its order, its textual form
    and [ParseHeight], and the chain-id revision format read by [ParseChainID]
    and rewritten by [SetRevisionNumber]. *)
From S2P Require Import Prelude GoMonad Errors.
From Stdlib Require Import Ascii.

Record Height := NewHeight { RevisionNumber : N; RevisionHeight : N }.

#[export] Instance Height_eq_dec : EqDecision Height.
Proof. solve_decision. Defined.

Definition ZeroHeight : Height := NewHeight 0 0.

(** Both fields are [uint64]. *)
Definition height_wf (h : Height) : Prop :=
  (RevisionNumber h < two64)%N ∧ (RevisionHeight h < two64)%N.

(** [big.Int.Cmp]: -1, 0 or 1. *)
Definition big_Cmp (a b : N) : Z :=
  match (a ?= b)%N with Lt => -1 | Eq => 0 | Gt => 1 end.

Definition Compare (h other : Height) : Z :=
  if decide (RevisionNumber h ≠ RevisionNumber other)
  then big_Cmp (RevisionNumber h) (RevisionNumber other)
  else big_Cmp (RevisionHeight h) (RevisionHeight other).

Definition LT (h other : Height) : bool := (Compare h other =? -1)%Z.
Definition LTE (h other : Height) : bool := (Compare h other <=? 0)%Z.
Definition GT (h other : Height) : bool := (Compare h other =? 1)%Z.
Definition GTE (h other : Height) : bool := (0 <=? Compare h other)%Z.
Definition EQ (h other : Height) : bool := (Compare h other =? 0)%Z.

Definition Height_String (h : Height) : string :=
  fmt_u64 (RevisionNumber h) +:+ "-" +:+ fmt_u64 (RevisionHeight h).

Definition Decrement (h : Height) : Height * bool :=
  if decide (RevisionHeight h = 0)%N then (ZeroHeight, false)
  else (NewHeight (RevisionNumber h) (RevisionHeight h - 1), true).

Definition Increment (h : Height) : Height :=
  NewHeight (RevisionNumber h) (u64 (RevisionHeight h + 1)).

Definition Height_IsZero (h : Height) : bool :=
  (RevisionNumber h =? 0)%N && (RevisionHeight h =? 0)%N.

Definition ParseHeight (heightStr : string) : outcome Height :=
  match Split heightStr "-" with
  | [s0; s1] =>
      match ParseUint s0 with
      | None => Err (Wrap sdkerrors.ErrInvalidHeight)
      | Some revisionNumber =>
          match ParseUint s1 with
          | None => Err (Wrap sdkerrors.ErrInvalidHeight)
          | Some revisionHeight => Ok (NewHeight revisionNumber revisionHeight)
          end
      end
  | _ => Err (Wrap sdkerrors.ErrInvalidHeight)
  end.

Definition MustParseHeight (heightStr : string) : outcome Height :=
  match ParseHeight heightStr with
  | Ok height => Ok height
  | _ => Panic
  end.

(** The regular expression [.*[^-]] on a whole string: the last byte is not a
    dash, and no earlier byte is a newline (which [.] does not match). *)
Fixpoint dots_then_not_dash (q : string) : bool :=
  match q with
  | EmptyString => false
  | String c EmptyString => negb (Ascii.eqb c "-")
  | String c q' => negb (Ascii.eqb c "010") && dots_then_not_dash q'
  end.

(** [[1-9][0-9]*] *)
Definition positive_digits (s : string) : bool :=
  match s with
  | EmptyString => false
  | String c _ => negb (Ascii.eqb c "0") && str_all is_digit s
  end.

(** The text before the last dash and the text after it. *)
Definition cut_last_dash (s : string) : string * string :=
  let l := Split s "-" in (Join (removelast l) "-", List.last l "").

Definition has_dash (s : string) : bool := negb (no_char "-" s).

(** [IsRevisionFormat]: the regular expression [^.*[^-]-{1}[1-9][0-9]*$].  What
    follows its dash has no dash, so that dash is the last one of the string. *)
Definition IsRevisionFormat (chainID : string) : bool :=
  has_dash chainID &&
  dots_then_not_dash (cut_last_dash chainID).1 && positive_digits (cut_last_dash chainID).2.

(** [strconv.Itoa]. *)
Definition Itoa (z : Z) : string :=
  match z with
  | Zneg p => "-" +:+ fmt_u64 (Npos p)
  | _ => fmt_u64 (Z.to_N z)
  end.

(** [splitStr[len(splitStr)-1] = x] on the non-empty result of [Split]. *)
Definition set_last (l : list string) (x : string) : list string := removelast l ++ [x].

Definition SetRevisionNumber (chainID : string) (revision : N) : outcome string :=
  if negb (IsRevisionFormat chainID) then Err (Wrap sdkerrors.ErrInvalidChainID)
  else Ok (Join (set_last (Split chainID "-") (Itoa (int_of_u64 revision))) "-").

Definition ParseChainID (chainID : string) : outcome N :=
  if negb (IsRevisionFormat chainID) then Ok 0%N
  else match ParseUint (List.last (Split chainID "-") "") with
       | Some revision => Ok revision
       | None => Panic
       end.

(** ** The order on heights *)

Definition height_lt (a b : Height) : Prop :=
  (RevisionNumber a < RevisionNumber b)%N ∨
  (RevisionNumber a = RevisionNumber b ∧ (RevisionHeight a < RevisionHeight b)%N).
Definition height_le (a b : Height) : Prop := height_lt a b ∨ a = b.

#[export] Instance height_lt_dec a b : Decision (height_lt a b).
Proof. unfold height_lt. apply _. Defined.

Lemma big_Cmp_spec a b :
  ((a < b)%N ∧ big_Cmp a b = -1)%Z ∨ (a = b ∧ big_Cmp a b = 0)%Z ∨ ((b < a)%N ∧ big_Cmp a b = 1)%Z.
Proof. unfold big_Cmp. destruct (N.compare_spec a b); auto. Qed.

Lemma Compare_cases a b :
  (height_lt a b ∧ Compare a b = -1)%Z ∨ (a = b ∧ Compare a b = 0)%Z ∨ (height_lt b a ∧ Compare a b = 1)%Z.
Proof.
  unfold Compare, height_lt. destruct a as [ra ha], b as [rb hb]; simpl.
  case_decide as H.
  - destruct (big_Cmp_spec ra rb) as [[? ->]|[[? ->]|[? ->]]]; [auto|done|auto].
  - assert (ra = rb) as -> by (destruct (decide (ra = rb)); [done|contradiction]).
    destruct (big_Cmp_spec ha hb) as [[? ->]|[[-> ->]|[? ->]]]; auto 6.
Qed.

Lemma height_lt_irrefl a : ¬ height_lt a a.
Proof. unfold height_lt. lia. Qed.
Lemma height_lt_trans a b c : height_lt a b → height_lt b c → height_lt a c.
Proof. unfold height_lt. lia. Qed.

Lemma Compare_antisym a b : (Compare a b = - Compare b a)%Z.
Proof.
  pose proof (height_lt_irrefl a) as Ha. pose proof (height_lt_trans a b a) as Ht.
  destruct (Compare_cases a b) as [[H ->]|[[H ->]|[H ->]]];
    destruct (Compare_cases b a) as [[H' ->]|[[H' ->]|[H' ->]]]; try done; subst; tauto.
Qed.

Ltac height_cases a b :=
  let H := fresh "Hh" in let E := fresh "E" in
  destruct (Compare_cases a b) as [[H E]|[[H E]|[H E]]]; rewrite ?E in *.

Lemma LT_spec a b : LT a b = true ↔ height_lt a b.
Proof.
  unfold LT. height_cases a b; simpl; split; try done.
  - subst. by intros ?%height_lt_irrefl.
  - intros H. destruct (height_lt_irrefl a). eauto using height_lt_trans.
Qed.

Lemma GTE_spec a b : GTE a b = true ↔ ¬ height_lt a b.
Proof.
  rewrite <- LT_spec. unfold LT, GTE. height_cases a b; simpl; split; try done.
Qed.

Lemma LTE_spec a b : LTE a b = true ↔ height_le a b.
Proof.
  unfold LTE, height_le. height_cases a b; simpl; split; auto; try done.
  intros [H| ->]; [|by destruct (height_lt_irrefl b)].
  destruct (height_lt_irrefl a). eauto using height_lt_trans.
Qed.

Lemma GT_spec a b : GT a b = true ↔ height_lt b a.
Proof.
  unfold GT. height_cases a b; simpl; split; try done.
  - intros H. destruct (height_lt_irrefl a). eauto using height_lt_trans.
  - subst. by intros ?%height_lt_irrefl.
Qed.

Lemma EQ_spec a b : EQ a b = true ↔ a = b.
Proof.
  unfold EQ. height_cases a b; simpl; split; try done.
  - intros ->. by destruct (height_lt_irrefl b).
  - intros ->. by destruct (height_lt_irrefl b).
Qed.

Lemma height_lt_le a b : ¬ height_lt a b ↔ height_le b a.
Proof.
  unfold height_le. destruct (Compare_cases a b) as [[H _]|[[-> _]|[H _]]]; split; auto.
  - done.
  - intros [H'| ->] ?; [|by destruct (height_lt_irrefl a)]. destruct (height_lt_irrefl a).
    eauto using height_lt_trans.
  - intros _. apply height_lt_irrefl.
  - intros _ H'. destruct (height_lt_irrefl a). eauto using height_lt_trans.
Qed.

#[export] Instance height_le_preorder : PreOrder height_le.
Proof.
  split; [by right|]. intros a b c [H1| ->] [H2| ->]; unfold height_le; eauto using height_lt_trans.
Qed.

(** [Increment] is strictly increasing below the largest [uint64], and wraps there. *)
Lemma Increment_lt h : (RevisionHeight h < MaxUint64)%N → height_lt h (Increment h).
Proof. intros H. unfold height_lt, Increment. simpl. rewrite u64_succ by done. lia. Qed.

Lemma Decrement_Increment h :
  (RevisionHeight h < MaxUint64)%N → Decrement (Increment h) = (h, true).
Proof.
  intros H. unfold Decrement, Increment. simpl. rewrite u64_succ by done.
  rewrite decide_False by lia. destruct h as [r n]; simpl in *. do 2 f_equal. lia.
Qed.

(** ** Textual forms *)

Lemma fmt_u64_no_dash n : no_char "-" (fmt_u64 n) = true.
Proof. by apply fmt_u64_no_char. Qed.
#[export] Hint Resolve fmt_u64_no_dash : ibc.

Lemma Height_String_no_slash h : no_char "/" (Height_String h) = true.
Proof.
  unfold Height_String. rewrite !no_char_app, !fmt_u64_no_char by done. done.
Qed.

Lemma Height_String_inj a b : Height_String a = Height_String b → a = b.
Proof.
  unfold Height_String. intros H. change ("-" +:+ ?x) with (String "-" x) in H.
  apply app_sep_inj in H as [H1 H2]; auto with ibc.
  apply fmt_u64_inj in H1. apply fmt_u64_inj in H2.
  destruct a, b; simpl in *; congruence.
Qed.

Lemma ParseHeight_String_eq h : height_wf h → ParseHeight (Height_String h) = Ok h.
Proof.
  intros [H1 H2]. unfold ParseHeight, Height_String.
  change ("-" +:+ ?x) with (String "-" x).
  rewrite Split_sep, Split_no_char by auto with ibc.
  rewrite !ParseUint_fmt by done. by destruct h.
Qed.

Lemma ParseHeight_wf s h : ParseHeight s = Ok h → height_wf h.
Proof.
  unfold ParseHeight. destruct (Split s "-") as [|s0 [|s1 [|? ?]]]; try done.
  destruct (ParseUint s0) eqn:E0; [|done]. destruct (ParseUint s1) eqn:E1; [|done].
  intros [= <-]. split; simpl; eauto using ParseUint_bound.
Qed.

(** ** Chain identifiers *)

Lemma Split_two_pieces s : has_dash s = true → removelast (Split s "-") ≠ [].
Proof.
  intros H Hr. unfold has_dash in H. apply negb_true_iff in H.
  pose proof (Join_Split "-" s) as HJ. pose proof (Split_pieces "-" s) as HP.
  destruct (Split s "-") as [|x [|y l]] eqn:E; simpl in Hr.
  - by destruct (Split_not_nil s "-").
  - simpl in HJ. subst x. inversion HP; subst. congruence.
  - done.
Qed.

Lemma Forall_removelast {A} (P : A → Prop) l : Forall P l → Forall P (removelast l).
Proof. induction 1 as [|x [|y l] ? ? IH]; simpl; auto. Qed.

Lemma cut_last_dash_join l x :
  Forall (λ p, no_char "-" p = true) l → no_char "-" x = true →
  cut_last_dash (Join (l ++ [x]) "-") = (Join l "-", x).
Proof.
  intros Hl Hx. unfold cut_last_dash.
  rewrite Split_Join; [|by destruct l|apply Forall_app; auto].
  by rewrite removelast_last, last_last.
Qed.

Lemma has_dash_join l x :
  l ≠ [] → Forall (λ p, no_char "-" p = true) l → no_char "-" x = true →
  has_dash (Join (l ++ [x]) "-") = true.
Proof.
  intros Hne Hl Hx. unfold has_dash. destruct (no_char "-" (Join _ _)) eqn:E; [|done].
  apply Split_no_char in E. rewrite Split_Join in E; [|by destruct l|apply Forall_app; auto].
  apply (f_equal length) in E. rewrite length_app in E. destruct l; [done|]. simpl in E. lia.
Qed.

Lemma fmt_positive_digits n : (0 < n)%N → positive_digits (fmt_u64 n) = true.
Proof.
  intros Hn. pose proof (fmt_u64_digits n) as Hd.
  destruct (fmt_u64_head n Hn) as (c & r & E & _ & Hc). rewrite E in *. unfold positive_digits.
  rewrite Hd. apply Ascii.eqb_neq in Hc. by rewrite Hc.
Qed.

Lemma Itoa_small r : (r < 9223372036854775808)%N → Itoa (int_of_u64 r) = fmt_u64 r.
Proof. intros H. unfold int_of_u64. rewrite decide_True by done. by destruct r. Qed.

Lemma IsRevisionFormat_dash c : IsRevisionFormat c = true → has_dash c = true.
Proof. unfold IsRevisionFormat. rewrite !andb_true_iff. tauto. Qed.

Lemma SetRevisionNumber_parse c r :
  IsRevisionFormat c = true → (r < 9223372036854775808)%N →
  ∃ c', SetRevisionNumber c r = Ok c' ∧ ParseChainID c' = Ok r ∧
        (0 < r → cut_last_dash c' = ((cut_last_dash c).1, fmt_u64 r))%N.
Proof.
  intros Hc Hr. unfold SetRevisionNumber. rewrite Hc. simpl. eexists; split; [done|].
  rewrite Itoa_small by done. unfold set_last.
  set (l := removelast (Split c "-")).
  assert (Hl : Forall (λ p, no_char "-" p = true) l) by (apply Forall_removelast, Split_pieces).
  assert (Hne : l ≠ []) by (by apply Split_two_pieces, IsRevisionFormat_dash).
  pose proof (cut_last_dash_join l (fmt_u64 r) Hl ltac:(auto with ibc)) as Hcut.
  split; [|by intros _].
  unfold ParseChainID, IsRevisionFormat. rewrite Hcut, has_dash_join by auto with ibc. simpl.
  rewrite Split_Join, last_last; [|by destruct l|apply Forall_app; split; auto with ibc].
  rewrite ParseUint_fmt by (unfold two64; lia).
  destruct (decide (r = 0)%N) as [->|Hz].
  - by rewrite andb_false_r.
  - rewrite fmt_positive_digits by lia.
    unfold IsRevisionFormat in Hc. rewrite !andb_true_iff in Hc. destruct Hc as [[_ Hc] _].
    change (Join l "-") with (cut_last_dash c).1. by rewrite Hc.
Qed.

(** * Properties *)

(** [Compare] decides the lexicographic order on (revision number, revision
    height), and the five comparison methods are its tests: for two heights
    exactly one of [LT], [EQ] and [GT] holds, [LTE] is [LT] or [EQ], [GTE] is the
    negation of [LT]. *)
Theorem height_comparisons a b :
  (LT a b = true ↔ height_lt a b) ∧ (GT a b = true ↔ height_lt b a) ∧ (EQ a b = true ↔ a = b) ∧
  LTE a b = LT a b || EQ a b ∧ GTE a b = negb (LT a b) ∧
  (Compare a b = - Compare b a)%Z.
Proof.
  split_and!; [apply LT_spec|apply GT_spec|apply EQ_spec|..|apply Compare_antisym];
    unfold LTE, GTE, LT, EQ; by height_cases a b.
Qed.

(** [ParseHeight] is a left inverse of [Height.String] on every height whose
    fields are [uint64]s, and only ever returns such heights. *)
Theorem ParseHeight_roundtrip h :
  height_wf h →
  ParseHeight (Height_String h) = Ok h ∧ MustParseHeight (Height_String h) = Ok h ∧
  (∀ s h', ParseHeight s = Ok h' → height_wf h').
Proof.
  intros H. unfold MustParseHeight. rewrite !ParseHeight_String_eq by done. eauto using ParseHeight_wf.
Qed.

Lemma ParseHeight_roundtrip_witness :
  ParseHeight (Height_String (NewHeight 4 18446744073709551615)) =
  Ok (NewHeight 4 18446744073709551615).
Proof.
  apply (ParseHeight_roundtrip (NewHeight 4 18446744073709551615)). split; vm_compute; reflexivity.
Defined.

(** [SetRevisionNumber] replaces the revision of a chain id and nothing else,
    and [ParseChainID] reads the new revision back, for revisions that fit in a
    signed 64-bit integer. *)
Theorem SetRevisionNumber_ParseChainID c r :
  IsRevisionFormat c = true → (r < 9223372036854775808)%N →
  ∃ c', SetRevisionNumber c r = Ok c' ∧ ParseChainID c' = Ok r ∧
        (0 < r → cut_last_dash c' = ((cut_last_dash c).1, fmt_u64 r))%N.
Proof. apply SetRevisionNumber_parse. Qed.

Lemma SetRevisionNumber_ParseChainID_witness :
  ∃ c', SetRevisionNumber "cosmoshub-4" 5 = Ok c' ∧ ParseChainID c' = Ok 5%N ∧
        ((0 < 5)%N → cut_last_dash c' = ((cut_last_dash "cosmoshub-4").1, fmt_u64 5)).
Proof. apply (SetRevisionNumber_ParseChainID "cosmoshub-4" 5); vm_compute; reflexivity. Defined.

(** From [2^63] on the revision is printed as a negative number, which is no
    longer a revision: the chain id parses as revision 0. *)
Example SetRevisionNumber_overflow :
  SetRevisionNumber "chain-1" 18446744073709551615 = Ok "chain--1" ∧ ParseChainID "chain--1" = Ok 0%N.
Proof. vm_compute. done. Qed.

(** A revision of more than 64 bits passes the regular expression and panics. *)
Example ParseChainID_panics : ParseChainID "chain-18446744073709551616" = Panic.
Proof. vm_compute. reflexivity. Qed.
