(* ===== verification/Host.v ===== *)
(** * Host store paths and identifiers ([core/24-host])

    The store paths of ICS-24 ([keys.go]), the identifier validators
    ([validate.go]) and parsers ([parse.go]), and the identifier formats of
    [02-client], [03-connection] and [04-channel] ([types/keys.go]).  The paths
    are the real byte strings; that different things are stored under different
    paths is a theorem of this file, not an assumption of the keepers. *)
From S2P Require Import Prelude GoMonad Errors Height.
From Stdlib Require Import Ascii.

(** ** Store paths ([keys.go]) *)

Definition KeyClientStorePrefix : string := "clients".
Definition KeyClientState : string := "clientState".
Definition KeyConsensusStatePrefix : string := "consensusStates".
Definition KeyConnectionPrefix : string := "connections".
Definition KeyChannelEndPrefix : string := "channelEnds".
Definition KeyChannelPrefix : string := "channels".
Definition KeyPortPrefix : string := "ports".
Definition KeySequencePrefix : string := "sequences".
Definition KeyChannelCapabilityPrefix : string := "capabilities".
Definition KeyNextSeqSendPrefix : string := "nextSequenceSend".
Definition KeyNextSeqRecvPrefix : string := "nextSequenceRecv".
Definition KeyNextSeqAckPrefix : string := "nextSequenceAck".
Definition KeyPacketCommitmentPrefix : string := "commitments".
Definition KeyPacketAckPrefix : string := "acks".
Definition KeyPacketReceiptPrefix : string := "receipts".

Definition FullClientPath (clientID path : string) : string :=
  KeyClientStorePrefix +:+ "/" +:+ clientID +:+ "/" +:+ path.
Definition FullClientKey (clientID path : string) : string := FullClientPath clientID path.
Definition FullClientStatePath (clientID : string) : string := FullClientPath clientID KeyClientState.
Definition FullClientStateKey (clientID : string) : string := FullClientKey clientID KeyClientState.
Definition ClientStateKey : string := KeyClientState.
Definition ConsensusStatePath (height : Height) : string :=
  KeyConsensusStatePrefix +:+ "/" +:+ Height_String height.
Definition ConsensusStateKey (height : Height) : string := ConsensusStatePath height.
Definition FullConsensusStatePath (clientID : string) (height : Height) : string :=
  FullClientPath clientID (ConsensusStatePath height).
Definition FullConsensusStateKey (clientID : string) (height : Height) : string :=
  FullConsensusStatePath clientID height.
Definition ClientConnectionsPath (clientID : string) : string :=
  FullClientPath clientID KeyConnectionPrefix.
Definition ClientConnectionsKey (clientID : string) : string := ClientConnectionsPath clientID.
Definition ConnectionPath (connectionID : string) : string :=
  KeyConnectionPrefix +:+ "/" +:+ connectionID.
Definition ConnectionKey (connectionID : string) : string := ConnectionPath connectionID.

Definition channelPath (portID channelID : string) : string :=
  KeyPortPrefix +:+ "/" +:+ portID +:+ "/" +:+ KeyChannelPrefix +:+ "/" +:+ channelID.
Definition sequencePath (sequence : N) : string := KeySequencePrefix +:+ "/" +:+ fmt_u64 sequence.

Definition ChannelPath (portID channelID : string) : string :=
  KeyChannelEndPrefix +:+ "/" +:+ channelPath portID channelID.
Definition ChannelKey (portID channelID : string) : string := ChannelPath portID channelID.
Definition ChannelCapabilityPath (portID channelID : string) : string :=
  KeyChannelCapabilityPrefix +:+ "/" +:+ channelPath portID channelID.
Definition NextSequenceSendPath (portID channelID : string) : string :=
  KeyNextSeqSendPrefix +:+ "/" +:+ channelPath portID channelID.
Definition NextSequenceSendKey (portID channelID : string) : string := NextSequenceSendPath portID channelID.
Definition NextSequenceRecvPath (portID channelID : string) : string :=
  KeyNextSeqRecvPrefix +:+ "/" +:+ channelPath portID channelID.
Definition NextSequenceRecvKey (portID channelID : string) : string := NextSequenceRecvPath portID channelID.
Definition NextSequenceAckPath (portID channelID : string) : string :=
  KeyNextSeqAckPrefix +:+ "/" +:+ channelPath portID channelID.
Definition NextSequenceAckKey (portID channelID : string) : string := NextSequenceAckPath portID channelID.
Definition PacketCommitmentPrefixPath (portID channelID : string) : string :=
  KeyPacketCommitmentPrefix +:+ "/" +:+ channelPath portID channelID +:+ "/" +:+ KeySequencePrefix.
Definition PacketCommitmentPath (portID channelID : string) (sequence : N) : string :=
  PacketCommitmentPrefixPath portID channelID +:+ "/" +:+ fmt_u64 sequence.
Definition PacketCommitmentKey (portID channelID : string) (sequence : N) : string :=
  PacketCommitmentPath portID channelID sequence.
Definition PacketAcknowledgementPrefixPath (portID channelID : string) : string :=
  KeyPacketAckPrefix +:+ "/" +:+ channelPath portID channelID +:+ "/" +:+ KeySequencePrefix.
Definition PacketAcknowledgementPath (portID channelID : string) (sequence : N) : string :=
  PacketAcknowledgementPrefixPath portID channelID +:+ "/" +:+ fmt_u64 sequence.
Definition PacketAcknowledgementKey (portID channelID : string) (sequence : N) : string :=
  PacketAcknowledgementPath portID channelID sequence.
Definition PacketReceiptPath (portID channelID : string) (sequence : N) : string :=
  KeyPacketReceiptPrefix +:+ "/" +:+ channelPath portID channelID +:+ "/" +:+ sequencePath sequence.
Definition PacketReceiptKey (portID channelID : string) (sequence : N) : string :=
  PacketReceiptPath portID channelID sequence.
Definition PortPath (portID : string) : string := KeyPortPrefix +:+ "/" +:+ portID.

(** ** Parsers ([parse.go]) *)

(** The slice accesses of the source follow its length checks. *)
Definition ParseIdentifier (identifier prefix : string) : outcome N :=
  if negb (HasPrefix identifier prefix) then Err (Wrap HostErr.ErrInvalidID)
  else match Split identifier prefix with
       | [s0; s1] =>
           if negb (bool_decide (s0 = "")) then Err (Wrap HostErr.ErrInvalidID)
           else match ParseUint s1 with
                | None => Err (Wrap strconv_NumError)
                | Some sequence => Ok sequence
                end
       | _ => Err (Wrap HostErr.ErrInvalidID)
       end.

Definition ParseConnectionPath (path : string) : outcome string :=
  match Split path "/" with
  | [_; s1] => Ok s1
  | _ => Err (Wrap HostErr.ErrInvalidPath)
  end.

Definition ParseChannelPath (path : string) : outcome (string * string) :=
  match Split path "/" with
  | _ :: s1 :: s2 :: s3 :: s4 :: _ =>
      if bool_decide (s1 ≠ KeyPortPrefix) || bool_decide (s3 ≠ KeyChannelPrefix)
      then Err (Wrap HostErr.ErrInvalidPath)
      else Ok (s2, s4)
  | _ => Err (Wrap HostErr.ErrInvalidPath)
  end.

Definition MustParseConnectionPath (path : string) : outcome string :=
  match ParseConnectionPath path with Ok connectionID => Ok connectionID | _ => Panic end.
Definition MustParseChannelPath (path : string) : outcome (string * string) :=
  match ParseChannelPath path with Ok ids => Ok ids | _ => Panic end.

(** ** Identifier validation ([validate.go]) *)

Definition DefaultMaxCharacterLength : nat := 64.
Definition DefaultMaxPortCharacterLength : nat := 128.

Definition is_alnum (c : ascii) : bool :=
  let n := N_of_ascii c in
  ((97 <=? n) && (n <=? 122) || (65 <=? n) && (n <=? 90) || (48 <=? n) && (n <=? 57))%N.

(** [[a-zA-Z0-9\.\_\+\-\#\[\]\<\>]] *)
Definition valid_id_char (c : ascii) : bool :=
  is_alnum c || existsb (Ascii.eqb c) [".";"_";"+";"-";"#";"[";"]";"<";">"]%char.

Definition IsValidID (id : string) : bool := negb (bool_decide (id = "")) && str_all valid_id_char id.

Definition defaultIdentifierValidator (id : string) (min max : nat) : outcome unit :=
  if blank id then Err (Wrap HostErr.ErrInvalidID)
  else if negb (no_char "/" id) then Err (Wrap HostErr.ErrInvalidID)
  else if (String.length id <? min) || (max <? String.length id) then Err (Wrap HostErr.ErrInvalidID)
  else if negb (IsValidID id) then Err (Wrap HostErr.ErrInvalidID)
  else Ok tt.

Definition ClientIdentifierValidator (id : string) : outcome unit :=
  defaultIdentifierValidator id 9 DefaultMaxCharacterLength.
Definition ConnectionIdentifierValidator (id : string) : outcome unit :=
  defaultIdentifierValidator id 10 DefaultMaxCharacterLength.
Definition ChannelIdentifierValidator (id : string) : outcome unit :=
  defaultIdentifierValidator id 8 DefaultMaxCharacterLength.
Definition PortIdentifierValidator (id : string) : outcome unit :=
  defaultIdentifierValidator id 2 DefaultMaxPortCharacterLength.

(** The loop of [NewPathValidator] over the path elements. *)
Fixpoint validate_path_elements (idValidator : string → outcome unit) (pathArr : list string) : outcome unit :=
  match pathArr with
  | [] => Ok tt
  | p :: ps =>
      if bool_decide (p = "") then Err (Wrap HostErr.ErrInvalidPath)
      else match idValidator p with
           | Err e => Err e
           | Panic => Panic
           | Ok _ =>
               match defaultIdentifierValidator p 1 DefaultMaxCharacterLength with
               | Err e => Err (Wrap e)
               | Panic => Panic
               | Ok _ => validate_path_elements idValidator ps
               end
           end
  end.

Definition NewPathValidator (idValidator : string → outcome unit) (path : string) : outcome unit :=
  let pathArr := Split path "/" in
  if match pathArr with p0 :: _ => bool_decide (p0 = path) | [] => false end
  then Err (Wrap HostErr.ErrInvalidPath)
  else validate_path_elements idValidator pathArr.

(** ** Identifier formats ([02-client], [03-connection], [04-channel] [types/keys.go]) *)

Definition KeyNextClientSequence : string := "nextClientSequence".
Definition KeyNextConnectionSequence : string := "nextConnectionSequence".
Definition KeyNextChannelSequence : string := "nextChannelSequence".
Definition ConnectionPrefix : string := "connection-".
Definition ChannelPrefix : string := "channel-".

Definition FormatChannelIdentifier (sequence : N) : string := ChannelPrefix +:+ fmt_u64 sequence.
Definition FormatConnectionIdentifier (sequence : N) : string := ConnectionPrefix +:+ fmt_u64 sequence.
Definition FormatClientIdentifier (clientType : string) (sequence : N) : string :=
  clientType +:+ "-" +:+ fmt_u64 sequence.

(** [[0-9]{1,20}] *)
Definition digits_1_20 (s : string) : bool :=
  (1 <=? String.length s) && (String.length s <=? 20) && str_all is_digit s.

(** [^channel-[0-9]{1,20}$], [^connection-[0-9]{1,20}$] *)
Definition IsPrefixedFormat (prefix id : string) : bool :=
  HasPrefix id prefix && digits_1_20 (str_drop (String.length prefix) id).
Definition IsChannelIDFormat : string → bool := IsPrefixedFormat ChannelPrefix.
Definition IsConnectionIDFormat : string → bool := IsPrefixedFormat ConnectionPrefix.

(** [^.*[^-]-[0-9]{1,20}$] *)
Definition IsClientIDFormat (clientID : string) : bool :=
  has_dash clientID &&
  dots_then_not_dash (cut_last_dash clientID).1 && digits_1_20 (cut_last_dash clientID).2.

Definition ParseChannelSequence (channelID : string) : outcome N :=
  if negb (IsChannelIDFormat channelID) then Err (Wrap HostErr.ErrInvalidID)
  else outcome_wrap (ParseIdentifier channelID ChannelPrefix).
Definition IsValidChannelID (channelID : string) : bool := is_ok (ParseChannelSequence channelID).

Definition ParseConnectionSequence (connectionID : string) : outcome N :=
  if negb (IsConnectionIDFormat connectionID) then Err (Wrap HostErr.ErrInvalidID)
  else outcome_wrap (ParseIdentifier connectionID ConnectionPrefix).
Definition IsValidConnectionID (connectionID : string) : bool :=
  is_ok (ParseConnectionSequence connectionID).

Definition ParseClientIdentifier (clientID : string) : outcome (string * N) :=
  if negb (IsClientIDFormat clientID) then Err (Wrap HostErr.ErrInvalidID)
  else
    let splitStr := Split clientID "-" in
    let clientType := Join (removelast splitStr) "-" in
    if blank clientType then Err (Wrap HostErr.ErrInvalidID)
    else match ParseUint (List.last splitStr "") with
         | None => Err (Wrap strconv_NumError)
         | Some sequence => Ok (clientType, sequence)
         end.
Definition IsValidClientID (clientID : string) : bool := is_ok (ParseClientIdentifier clientID).

(** ** The keys of the IBC store as data

    [store_key] names what the IBC module keeps under its store key; [render] is
    the path it is kept under. *)
Inductive store_key : Type :=
  | KClient (clientID path : string)
  | KConnection (connectionID : string)
  | KChannelEnd (portID channelID : string)
  | KNextSequenceSend (portID channelID : string)
  | KNextSequenceRecv (portID channelID : string)
  | KNextSequenceAck (portID channelID : string)
  | KPacketCommitment (portID channelID : string) (sequence : N)
  | KPacketAcknowledgement (portID channelID : string) (sequence : N)
  | KPacketReceipt (portID channelID : string) (sequence : N)
  | KNextClientSequence
  | KNextConnectionSequence
  | KNextChannelSequence.

#[export] Instance store_key_eq_dec : EqDecision store_key.
Proof. solve_decision. Defined.

Definition render (k : store_key) : string :=
  match k with
  | KClient c p => FullClientKey c p
  | KConnection c => ConnectionKey c
  | KChannelEnd p c => ChannelKey p c
  | KNextSequenceSend p c => NextSequenceSendKey p c
  | KNextSequenceRecv p c => NextSequenceRecvKey p c
  | KNextSequenceAck p c => NextSequenceAckKey p c
  | KPacketCommitment p c n => PacketCommitmentKey p c n
  | KPacketAcknowledgement p c n => PacketAcknowledgementKey p c n
  | KPacketReceipt p c n => PacketReceiptKey p c n
  | KNextClientSequence => KeyNextClientSequence
  | KNextConnectionSequence => KeyNextConnectionSequence
  | KNextChannelSequence => KeyNextChannelSequence
  end.

(** The identifiers of a key contain no path separator. *)
Definition key_ids_ok (k : store_key) : bool :=
  match k with
  | KClient c _ | KConnection c => no_char "/" c
  | KChannelEnd p c | KNextSequenceSend p c | KNextSequenceRecv p c | KNextSequenceAck p c
  | KPacketCommitment p c _ | KPacketAcknowledgement p c _ | KPacketReceipt p c _ =>
      no_char "/" p && no_char "/" c
  | _ => true
  end.

(** The '/'-separated components of a rendered key. *)
Definition components (k : store_key) : list string :=
  let chan p c := [KeyPortPrefix; p; KeyChannelPrefix; c] in
  let seq n := [KeySequencePrefix; fmt_u64 n] in
  match k with
  | KClient c p => KeyClientStorePrefix :: c :: Split p "/"
  | KConnection c => [KeyConnectionPrefix; c]
  | KChannelEnd p c => KeyChannelEndPrefix :: chan p c
  | KNextSequenceSend p c => KeyNextSeqSendPrefix :: chan p c
  | KNextSequenceRecv p c => KeyNextSeqRecvPrefix :: chan p c
  | KNextSequenceAck p c => KeyNextSeqAckPrefix :: chan p c
  | KPacketCommitment p c n => KeyPacketCommitmentPrefix :: chan p c ++ seq n
  | KPacketAcknowledgement p c n => KeyPacketAckPrefix :: chan p c ++ seq n
  | KPacketReceipt p c n => KeyPacketReceiptPrefix :: chan p c ++ seq n
  | KNextClientSequence => [KeyNextClientSequence]
  | KNextConnectionSequence => [KeyNextConnectionSequence]
  | KNextChannelSequence => [KeyNextChannelSequence]
  end.

(** ** Lemmas on paths *)

Lemma Split_path (a b : string) :
  no_char "/" a = true → Split (a +:+ "/" +:+ b) "/" = a :: Split b "/".
Proof. apply (Split_sep "/"). Qed.

Lemma Split_last (a : string) : no_char "/" a = true → Split a "/" = [a].
Proof. apply (Split_no_char "/"). Qed.

Lemma fmt_u64_no_slash n : no_char "/" (fmt_u64 n) = true.
Proof. by apply fmt_u64_no_char. Qed.
#[export] Hint Resolve fmt_u64_no_slash Height_String_no_slash : ibc.

Ltac unfold_paths :=
  unfold FullClientStateKey, FullClientStatePath, FullConsensusStateKey, FullConsensusStatePath,
    ClientConnectionsKey, ClientConnectionsPath, FullClientKey, FullClientPath, ConnectionKey,
    ConnectionPath, ChannelKey, ChannelPath, ChannelCapabilityPath, NextSequenceSendKey,
    NextSequenceSendPath, NextSequenceRecvKey, NextSequenceRecvPath, NextSequenceAckKey,
    NextSequenceAckPath, PacketCommitmentKey, PacketCommitmentPath, PacketCommitmentPrefixPath,
    PacketAcknowledgementKey, PacketAcknowledgementPath, PacketAcknowledgementPrefixPath,
    PacketReceiptKey, PacketReceiptPath, PortPath, sequencePath, channelPath in *.

Lemma Split_render k : key_ids_ok k = true → Split (render k) "/" = components k.
Proof.
  destruct k; simpl; rewrite ?andb_true_iff; intros Hk; unfold_paths; rewrite ?app_assoc_str;
    destruct_and?; repeat rewrite Split_path by (done || auto with ibc);
    rewrite ?Split_last by (done || auto with ibc); reflexivity.
Qed.

Lemma Split_slash_inj (a b : string) : Split a "/" = Split b "/" → a = b.
Proof. intros H. rewrite <- (Join_Split "/" a), H. apply Join_Split. Qed.

Lemma components_inj k k' : components k = components k' → k = k'.
Proof.
  destruct k, k'; simpl; intros H; simplify_eq; try done; f_equal; auto using Split_slash_inj, fmt_u64_inj.
Qed.

(** Distinct keys are stored under distinct paths. *)
Lemma render_inj k k' :
  key_ids_ok k = true → key_ids_ok k' = true → render k = render k' → k = k'.
Proof.
  intros Hk Hk' H. apply components_inj. rewrite <- !Split_render by done. by rewrite H.
Qed.

(** Keys of different kinds differ whatever the identifiers are: their paths
    start with different constants. *)
Ltac path_ne :=
  let H := fresh in
  intros H; unfold_paths; unfold KeyClientStorePrefix, KeyConnectionPrefix, KeyChannelEndPrefix,
    KeyNextSeqSendPrefix, KeyNextSeqRecvPrefix, KeyNextSeqAckPrefix, KeyPacketCommitmentPrefix,
    KeyPacketAckPrefix, KeyPacketReceiptPrefix, KeyNextClientSequence, KeyNextConnectionSequence,
    KeyNextChannelSequence, KeyPortPrefix, KeyChannelCapabilityPrefix in H;
  rewrite ?app_cons_l in H; discriminate H.

Lemma app_inj_l (a b b' : string) : a +:+ b = a +:+ b' → b = b'.
Proof. intros H. by apply app_inj_length in H as [_ ?]. Qed.

Lemma PacketCommitmentKey_seq_inj p c n n' :
  PacketCommitmentKey p c n = PacketCommitmentKey p c n' → n = n'.
Proof. unfold_paths. rewrite !app_assoc_str. intros H. repeat apply app_inj_l in H. by apply fmt_u64_inj. Qed.
Lemma PacketReceiptKey_seq_inj p c n n' :
  PacketReceiptKey p c n = PacketReceiptKey p c n' → n = n'.
Proof. unfold_paths. rewrite !app_assoc_str. intros H. repeat apply app_inj_l in H. by apply fmt_u64_inj. Qed.
Lemma PacketAcknowledgementKey_seq_inj p c n n' :
  PacketAcknowledgementKey p c n = PacketAcknowledgementKey p c n' → n = n'.
Proof. unfold_paths. rewrite !app_assoc_str. intros H. repeat apply app_inj_l in H. by apply fmt_u64_inj. Qed.

(** ** Lemmas on identifiers *)

Lemma valid_id_char_bounds c : valid_id_char c = true → (32 < N_of_ascii c < 128)%N ∧ c ≠ "/"%char.
Proof. destruct c as [[] [] [] [] [] [] [] []]; vm_compute; intros H; try discriminate H; by split_and!. Qed.

Lemma IsValidID_no_slash id : IsValidID id = true → no_char "/" id = true.
Proof.
  unfold IsValidID. rewrite andb_true_iff. intros [_ H]. revert H. apply str_all_impl.
  intros c Hc. apply negb_true_iff, Ascii.eqb_neq. by apply valid_id_char_bounds in Hc as [_ ?].
Qed.

Lemma space_width_valid c s : valid_id_char c = true → space_width (String c s) = 0.
Proof. destruct c as [[] [] [] [] [] [] [] []]; vm_compute; intros H; try discriminate H; by destruct s as [|? [|? ?]]. Qed.

Lemma IsValidID_not_blank id : IsValidID id = true → blank id = false.
Proof.
  unfold IsValidID, blank. rewrite andb_true_iff. destruct id as [|c s]; [by intros []|].
  simpl str_all. rewrite andb_true_iff. intros [_ [Hc _]].
  unfold blank_go. by rewrite space_width_valid.
Qed.

(** What the validators accept: the length bounds and the character class decide
    (the blank and separator tests of the source are implied by them). *)
Lemma defaultIdentifierValidator_ok id min max :
  defaultIdentifierValidator id min max = Ok tt ↔
  min ≤ String.length id ≤ max ∧ IsValidID id = true.
Proof.
  unfold defaultIdentifierValidator. split.
  - destruct (blank id); [done|]. destruct (negb (no_char _ _)); [done|].
    destruct (_ || _) eqn:E; [done|]. destruct (IsValidID id); [|done].
    apply orb_false_iff in E as [H1 H2]. apply Nat.ltb_ge in H1, H2. done.
  - intros [Hl Hv]. rewrite IsValidID_not_blank, IsValidID_no_slash, Hv by done. simpl.
    destruct (Nat.ltb_spec (String.length id) min), (Nat.ltb_spec max (String.length id)); lia || done.
Qed.

Lemma split_go_skip sep a s : split_go sep (a +:+ s) (String.length a) = split_go sep s 0.
Proof. induction a as [|c a IH]; [done|]. rewrite app_cons_l. simpl. apply IH. Qed.

Lemma split_go_absent c sep s :
  no_char c s = true → split_go (String c sep) s 0 = (s, []).
Proof.
  induction s as [|d s IH]; [done|]. unfold no_char in *. simpl.
  rewrite andb_true_iff, negb_true_iff. intros [Hd Hs]. rewrite Ascii.eqb_sym, Hd. simpl.
  by rewrite IH.
Qed.

Lemma Split_prefix c sep s :
  no_char c s = true → Split (String c sep +:+ s) (String c sep) = ["" ; s].
Proof.
  intros H. unfold Split. rewrite app_cons_l.
  cbn [split_go]. pose proof (HasPrefix_app (String c sep) s) as HP. rewrite app_cons_l in HP.
  rewrite HP. replace (String.length (String c sep) - 1) with (String.length sep) by (simpl; lia).
  by rewrite split_go_skip, split_go_absent.
Qed.

Lemma digits_no_char c s : is_digit c = false → str_all is_digit s = true → no_char c s = true.
Proof.
  intros Hc. apply str_all_impl. intros d Hd. apply negb_true_iff, Ascii.eqb_neq.
  intros ->. congruence.
Qed.

(** A prefixed identifier parses to the number after the prefix. *)
Lemma ParseIdentifier_prefix c sep s n :
  is_digit c = false → ParseUint s = Some n →
  ParseIdentifier (String c sep +:+ s) (String c sep) = Ok n.
Proof.
  intros Hc Hn. unfold ParseIdentifier. rewrite HasPrefix_app. simpl.
  rewrite Split_prefix, Hn; [done|]. apply ParseUint_Some in Hn as (_ & Hd & _). by apply digits_no_char.
Qed.

Lemma digits_1_20_fmt n : (n < two64)%N → digits_1_20 (fmt_u64 n) = true.
Proof.
  intros H. pose proof (fmt_u64_length n H). unfold digits_1_20.
  rewrite fmt_u64_digits, !andb_true_iff, !Nat.leb_le. lia.
Qed.

Lemma ParseChannelSequence_Format n :
  (n < two64)%N → ParseChannelSequence (FormatChannelIdentifier n) = Ok n.
Proof.
  intros H. unfold ParseChannelSequence, IsChannelIDFormat, IsPrefixedFormat, FormatChannelIdentifier.
  rewrite HasPrefix_app, str_drop_app, digits_1_20_fmt by done. simpl.
  pose proof (ParseIdentifier_prefix "c" "hannel-" (fmt_u64 n) n eq_refl (ParseUint_fmt n H)) as E.
  unfold ChannelPrefix, ConnectionPrefix. by rewrite E.
Qed.

Lemma ParseConnectionSequence_Format n :
  (n < two64)%N → ParseConnectionSequence (FormatConnectionIdentifier n) = Ok n.
Proof.
  intros H. unfold ParseConnectionSequence, IsConnectionIDFormat, IsPrefixedFormat, FormatConnectionIdentifier.
  rewrite HasPrefix_app, str_drop_app, digits_1_20_fmt by done. simpl.
  pose proof (ParseIdentifier_prefix "c" "onnection-" (fmt_u64 n) n eq_refl (ParseUint_fmt n H)) as E.
  unfold ChannelPrefix, ConnectionPrefix. by rewrite E.
Qed.

Lemma Split_dash (a b : string) :
  no_char "-" a = true → Split (a +:+ "-" +:+ b) "-" = a :: Split b "-".
Proof. apply (Split_sep "-"). Qed.

Lemma FormatClient_split t n :
  Split (FormatClientIdentifier t n) "-" = Split t "-" ++ [fmt_u64 n].
Proof.
  unfold FormatClientIdentifier. rewrite <- (Join_Split "-" t) at 1.
  pose proof (Split_pieces "-" t) as HP. pose proof (Split_not_nil t "-") as Hne.
  induction HP as [|x l Hx HP IH]; [done|]. destruct l as [|y l].
  - simpl. rewrite Split_dash by done. rewrite (Split_no_char "-") by auto with ibc. done.
  - rewrite Join_cons, !app_assoc_str, Split_dash by done. rewrite IH; done.
Qed.

Lemma Format_client_parse t n :
  dots_then_not_dash t = true → blank t = false → (n < two64)%N →
  ParseClientIdentifier (FormatClientIdentifier t n) = Ok (t, n).
Proof.
  intros Ht Hb Hn. unfold ParseClientIdentifier, IsClientIDFormat, cut_last_dash.
  rewrite !FormatClient_split, removelast_last, last_last, Join_Split. simpl.
  rewrite Ht, digits_1_20_fmt, Hb, ParseUint_fmt by done.
  unfold has_dash, FormatClientIdentifier. rewrite no_char_app. change ("-" +:+ ?x) with (String "-" x).
  unfold no_char at 2. simpl. by rewrite andb_false_r.
Qed.

Lemma FormatChannelIdentifier_inj n m :
  FormatChannelIdentifier n = FormatChannelIdentifier m → n = m.
Proof. intros H%app_inj_l. by apply fmt_u64_inj. Qed.
Lemma FormatConnectionIdentifier_inj n m :
  FormatConnectionIdentifier n = FormatConnectionIdentifier m → n = m.
Proof. intros H%app_inj_l. by apply fmt_u64_inj. Qed.

Lemma digit_valid_id_char c : is_digit c = true → valid_id_char c = true.
Proof. destruct c as [[] [] [] [] [] [] [] []]; vm_compute; congruence. Qed.

Lemma Format_valid pre n :
  pre ≠ "" → str_all valid_id_char pre = true → IsValidID (pre +:+ fmt_u64 n) = true.
Proof.
  intros Hne Hp. unfold IsValidID. rewrite str_all_app, Hp. simpl.
  rewrite (str_all_impl _ _ _ digit_valid_id_char (fmt_u64_digits n)), andb_true_r.
  apply negb_true_iff, bool_decide_eq_false. by destruct pre.
Qed.

Lemma FormatChannelIdentifier_valid n :
  (n < two64)%N → ChannelIdentifierValidator (FormatChannelIdentifier n) = Ok tt.
Proof.
  intros H. apply defaultIdentifierValidator_ok. split; [|by apply Format_valid].
  unfold FormatChannelIdentifier, DefaultMaxCharacterLength. rewrite str_length_app.
  pose proof (fmt_u64_length n H). simpl. lia.
Qed.

Lemma FormatConnectionIdentifier_valid n :
  (n < two64)%N → ConnectionIdentifierValidator (FormatConnectionIdentifier n) = Ok tt.
Proof.
  intros H. apply defaultIdentifierValidator_ok. split; [|by apply Format_valid].
  unfold FormatConnectionIdentifier, DefaultMaxCharacterLength. rewrite str_length_app.
  pose proof (fmt_u64_length n H). simpl. lia.
Qed.

(** ** Path parsers *)

Lemma ParseChannelPath_channelPath pre rest p c :
  no_char "/" pre = true → no_char "/" p = true → no_char "/" c = true →
  (rest = "" ∨ ∃ r, rest = "/" +:+ r) →
  ParseChannelPath (pre +:+ "/" +:+ channelPath p c +:+ rest) = Ok (p, c).
Proof.
  intros Hpre Hp Hc Hr. unfold ParseChannelPath, channelPath.
  rewrite ?app_assoc_str. rewrite !Split_path by done.
  destruct Hr as [->|[r ->]].
  - by rewrite app_nil_r_str, Split_last.
  - by rewrite Split_path.
Qed.

(** * Properties *)

(** C39: the paths of the IBC store never collide: two keys whose identifiers
    contain no '/' are stored under the same path only if they are the same key
    (kind of object, identifiers and sequence). *)
Theorem store_paths_injective k k' :
  key_ids_ok k = true → key_ids_ok k' = true → render k = render k' → k = k'.
Proof. apply render_inj. Qed.

Lemma store_paths_injective_witness :
  render (KPacketReceipt "transfer" "channel-1" 11) =
  "receipts/ports/transfer/channels/channel-1/sequences/11" ∧
  ∀ n, render (KPacketReceipt "transfer" "channel-1" 11) =
       render (KPacketReceipt "transfer" "channel-1" n) → n = 11%N.
Proof.
  split; [vm_compute; reflexivity|]. intros n H.
  apply (store_paths_injective (KPacketReceipt "transfer" "channel-1" 11)
           (KPacketReceipt "transfer" "channel-1" n)) in H; [congruence|reflexivity..].
Defined.

(** an identifier passes a validator exactly when its length is within the
    validator's bounds and every byte is in the allowed class; in particular
    accepted identifiers never contain the path separator and are never blank. *)
Theorem identifier_validators id :
  (ClientIdentifierValidator id = Ok tt ↔ 9 ≤ String.length id ≤ 64 ∧ IsValidID id = true) ∧
  (ConnectionIdentifierValidator id = Ok tt ↔ 10 ≤ String.length id ≤ 64 ∧ IsValidID id = true) ∧
  (ChannelIdentifierValidator id = Ok tt ↔ 8 ≤ String.length id ≤ 64 ∧ IsValidID id = true) ∧
  (PortIdentifierValidator id = Ok tt ↔ 2 ≤ String.length id ≤ 128 ∧ IsValidID id = true) ∧
  (IsValidID id = true → no_char "/" id = true ∧ blank id = false).
Proof.
  split_and!; [apply defaultIdentifierValidator_ok..|].
  intros H. split; [by apply IsValidID_no_slash|by apply IsValidID_not_blank].
Qed.

(** generated identifiers round-trip: for every [uint64] sequence the channel,
    connection and client identifiers are accepted and parse back to it, and the
    channel and connection identifiers pass the host validators. *)
Theorem generated_identifiers t n :
  (n < two64)%N → dots_then_not_dash t = true → blank t = false →
  ParseChannelSequence (FormatChannelIdentifier n) = Ok n ∧
  ParseConnectionSequence (FormatConnectionIdentifier n) = Ok n ∧
  ParseClientIdentifier (FormatClientIdentifier t n) = Ok (t, n) ∧
  ChannelIdentifierValidator (FormatChannelIdentifier n) = Ok tt ∧
  ConnectionIdentifierValidator (FormatConnectionIdentifier n) = Ok tt.
Proof.
  intros Hn Ht Hb.
  split_and!; [by apply ParseChannelSequence_Format|by apply ParseConnectionSequence_Format
              |by apply Format_client_parse|by apply FormatChannelIdentifier_valid
              |by apply FormatConnectionIdentifier_valid].
Qed.

Lemma generated_identifiers_witness :
  ParseClientIdentifier "07-tendermint-18446744073709551615" =
  Ok ("07-tendermint", 18446744073709551615%N).
Proof. apply (generated_identifiers "07-tendermint" 18446744073709551615); vm_compute; reflexivity. Defined.

(** [ParseChannelPath] recovers the port and the channel from the path of a
    channel end, of a capability and of a packet commitment, receipt or
    acknowledgement, when the identifiers contain no '/'. *)
Theorem ParseChannelPath_paths p c n :
  no_char "/" p = true → no_char "/" c = true →
  ParseChannelPath (ChannelPath p c) = Ok (p, c) ∧
  ParseChannelPath (ChannelCapabilityPath p c) = Ok (p, c) ∧
  ParseChannelPath (PacketCommitmentPath p c n) = Ok (p, c) ∧
  ParseChannelPath (PacketAcknowledgementPath p c n) = Ok (p, c) ∧
  ParseChannelPath (PacketReceiptPath p c n) = Ok (p, c) ∧
  ParseConnectionPath (ConnectionPath c) = Ok c.
Proof.
  intros Hp Hc. unfold ChannelPath, ChannelCapabilityPath, PacketCommitmentPath,
    PacketCommitmentPrefixPath, PacketAcknowledgementPath, PacketAcknowledgementPrefixPath,
    PacketReceiptPath, ParseConnectionPath, ConnectionPath.
  rewrite Split_path, Split_last by done. rewrite <- (app_nil_r_str (channelPath p c)), !app_assoc_str.
  split_and!; try done; apply ParseChannelPath_channelPath; auto; right; eexists; reflexivity.
Qed.

Lemma ParseChannelPath_paths_witness :
  ParseChannelPath "channelEnds/ports/transfer/channels/channel-7" = Ok ("transfer", "channel-7").
Proof. apply (ParseChannelPath_paths "transfer" "channel-7" 1); reflexivity. Defined.
