(* ===== verification/ConnectionTypes.v ===== *)
(** * Connection ends and version negotiation ([core/03-connection/types])

    [connection.go], [version.go] and the protobuf records of
    [connection.pb.go]; [MerklePrefix] is the one of [core/23-commitment]. *)
From S2P Require Import Prelude GoMonad Errors Height Host.

(** [commitmenttypes.MerklePrefix] with [Empty] ([23-commitment/types/merkle.go]). *)
Record MerklePrefix := NewMerklePrefix { KeyPrefix : string }.
Definition MerklePrefix_Empty (mp : MerklePrefix) : bool := bool_decide (KeyPrefix mp = "").

#[export] Instance MerklePrefix_eq_dec : EqDecision MerklePrefix.
Proof. solve_decision. Defined.

Module connectiontypes.

Inductive State := UNINITIALIZED | INIT | TRYOPEN | OPEN.

Record Version := NewVersion { Identifier : string; Features : list string }.

Record Counterparty := NewCounterparty {
  Counterparty_ClientId : string;
  Counterparty_ConnectionId : string;
  Counterparty_Prefix : MerklePrefix }.

Record ConnectionEnd := mkConnectionEnd {
  ClientId : string;
  Versions : list Version;
  Connection_State : State;
  Connection_Counterparty : Counterparty;
  DelayPeriod : N }.

Definition NewConnectionEnd (state : State) (clientID : string) (counterparty : Counterparty)
    (versions : list Version) (delayPeriod : N) : ConnectionEnd :=
  mkConnectionEnd clientID versions state counterparty delayPeriod.

#[global] Instance State_eq_dec : EqDecision State.
Proof. solve_decision. Defined.
#[global] Instance Version_eq_dec : EqDecision Version.
Proof. solve_decision. Defined.
#[global] Instance Counterparty_eq_dec : EqDecision Counterparty.
Proof. solve_decision. Defined.
#[global] Instance ConnectionEnd_eq_dec : EqDecision ConnectionEnd.
Proof. solve_decision. Defined.

Definition DefaultIBCVersionIdentifier : string := "1".
Definition DefaultIBCVersion : Version :=
  NewVersion DefaultIBCVersionIdentifier ["ORDER_ORDERED"; "ORDER_UNORDERED"].

(** A missing key of the Go map reads [false]. *)
Definition allowNilFeatureSet_map : gmap string bool := {[ DefaultIBCVersionIdentifier := false ]}.
Definition allowNilFeatureSet (identifier : string) : bool :=
  default false (allowNilFeatureSet_map !! identifier).

(** The argument is a pointer: [None] is [nil]. *)
Definition ValidateVersion (version : option Version) : outcome unit :=
  match version with
  | None => Err (Wrap ConnErr.ErrInvalidVersion)
  | Some version =>
      if blank (Identifier version) then Err (Wrap ConnErr.ErrInvalidVersion)
      else if existsb blank (Features version) then Err (Wrap ConnErr.ErrInvalidVersion)
      else Ok tt
  end.

Fixpoint contains (elem : string) (set : list string) : bool :=
  match set with
  | [] => false
  | element :: set' => if bool_decide (elem = element) then true else contains elem set'
  end.

(** The loop of [VerifyProposedVersion] over the proposed features. *)
Fixpoint verify_features (proposed features : list string) : outcome unit :=
  match proposed with
  | [] => Ok tt
  | proposedFeature :: proposed' =>
      if negb (contains proposedFeature features) then Err (Wrap ConnErr.ErrVersionNegotiationFailed)
      else verify_features proposed' features
  end.

Definition VerifyProposedVersion (version proposedVersion : Version) : outcome unit :=
  if bool_decide (Identifier proposedVersion ≠ Identifier version)
  then Err (Wrap ConnErr.ErrVersionNegotiationFailed)
  else if bool_decide (length (Features proposedVersion) = 0) &&
          negb (allowNilFeatureSet (Identifier proposedVersion))
  then Err (Wrap ConnErr.ErrVersionNegotiationFailed)
  else verify_features (Features proposedVersion) (Features version).

Fixpoint feature_loop (features : list string) (feature : string) : bool :=
  match features with
  | [] => false
  | f :: features' => if bool_decide (f = feature) then true else feature_loop features' feature
  end.

Definition VerifySupportedFeature (version : Version) (feature : string) : bool :=
  feature_loop (Features version) feature.

Definition GetCompatibleVersions : list Version := [DefaultIBCVersion].

Fixpoint FindSupportedVersion (version : Version) (supportedVersions : list Version) : option Version :=
  match supportedVersions with
  | [] => None
  | supportedVersion :: rest =>
      if bool_decide (Identifier version = Identifier supportedVersion) then Some supportedVersion
      else FindSupportedVersion version rest
  end.

Definition IsSupportedVersion (proposedVersion : Version) : bool :=
  match FindSupportedVersion proposedVersion GetCompatibleVersions with
  | None => false
  | Some supportedVersion => is_ok (VerifyProposedVersion supportedVersion proposedVersion)
  end.

Fixpoint GetFeatureSetIntersection (sourceFeatureSet counterpartyFeatureSet : list string) : list string :=
  match sourceFeatureSet with
  | [] => []
  | feature :: rest =>
      if contains feature counterpartyFeatureSet
      then feature :: GetFeatureSetIntersection rest counterpartyFeatureSet
      else GetFeatureSetIntersection rest counterpartyFeatureSet
  end.

Fixpoint PickVersion (supportedVersions counterpartyVersions : list Version) : outcome Version :=
  match supportedVersions with
  | [] => Err (Wrap ConnErr.ErrVersionNegotiationFailed)
  | supportedVersion :: rest =>
      match FindSupportedVersion supportedVersion counterpartyVersions with
      | Some counterpartyVersion =>
          let featureSet := GetFeatureSetIntersection (Features supportedVersion) (Features counterpartyVersion) in
          if bool_decide (length featureSet = 0) && negb (allowNilFeatureSet (Identifier supportedVersion))
          then PickVersion rest counterpartyVersions
          else Ok (NewVersion (Identifier supportedVersion) featureSet)
      | None => PickVersion rest counterpartyVersions
      end
  end.

Definition Counterparty_ValidateBasic (c : Counterparty) : outcome unit :=
  match (if bool_decide (Counterparty_ConnectionId c ≠ "")
         then outcome_wrap (ConnectionIdentifierValidator (Counterparty_ConnectionId c)) else Ok tt) with
  | Ok _ =>
      match outcome_wrap (ClientIdentifierValidator (Counterparty_ClientId c)) with
      | Ok _ => if MerklePrefix_Empty (Counterparty_Prefix c)
                then Err (Wrap ConnErr.ErrInvalidCounterparty) else Ok tt
      | r => r
      end
  | r => r
  end.

Fixpoint validate_versions (versions : list Version) : outcome unit :=
  match versions with
  | [] => Ok tt
  | version :: rest =>
      match ValidateVersion (Some version) with
      | Ok _ => validate_versions rest
      | r => r
      end
  end.

Definition ConnectionEnd_ValidateBasic (c : ConnectionEnd) : outcome unit :=
  match outcome_wrap (ClientIdentifierValidator (ClientId c)) with
  | Ok _ =>
      if bool_decide (length (Versions c) = 0) then Err (Wrap sdkerrors.ErrInvalidVersion)
      else match validate_versions (Versions c) with
           | Ok _ => Counterparty_ValidateBasic (Connection_Counterparty c)
           | r => r
           end
  | r => r
  end.

(** ** Lemmas *)

Lemma contains_spec x l : contains x l = true ↔ x ∈ l.
Proof.
  induction l as [|y l IH]; simpl; [set_solver|].
  destruct (bool_decide_reflect (x = y)); set_solver.
Qed.

Lemma feature_loop_spec x l : feature_loop l x = true ↔ x ∈ l.
Proof.
  induction l as [|y l IH]; simpl; [set_solver|].
  destruct (bool_decide_reflect (y = x)); set_solver.
Qed.

Lemma verify_features_ok ps fs : verify_features ps fs = Ok tt ↔ ∀ f, f ∈ ps → f ∈ fs.
Proof.
  induction ps as [|p ps IH]; simpl; [set_solver|].
  destruct (contains p fs) eqn:E; simpl.
  - apply contains_spec in E. rewrite IH. set_solver.
  - split; [done|]. intros H. rewrite <- not_true_iff_false, contains_spec in E. set_solver.
Qed.

Lemma allowNilFeatureSet_false i : allowNilFeatureSet i = false.
Proof.
  unfold allowNilFeatureSet, allowNilFeatureSet_map.
  destruct (decide (DefaultIBCVersionIdentifier = i)) as [<-|H].
  - by rewrite lookup_singleton_eq.
  - by rewrite lookup_singleton_ne.
Qed.

Lemma VerifyProposedVersion_ok v p :
  VerifyProposedVersion v p = Ok tt ↔
  Identifier p = Identifier v ∧ Features p ≠ [] ∧ ∀ f, f ∈ Features p → f ∈ Features v.
Proof.
  unfold VerifyProposedVersion. rewrite allowNilFeatureSet_false, andb_true_r.
  case_bool_decide as Hi; [split; [done|tauto]|].
  case_bool_decide as Hl.
  - apply nil_length_inv in Hl. rewrite Hl. split; [done|tauto].
  - rewrite verify_features_ok.  rewrite Hi.
    assert (Features p ≠ []) by (intros E; by rewrite E in Hl). tauto.
Qed.

Lemma FindSupportedVersion_Some v l w :
  FindSupportedVersion v l = Some w → w ∈ l ∧ Identifier w = Identifier v.
Proof.
  induction l as [|x l IH]; simpl; [done|]. case_bool_decide; [|set_solver].
  intros [= <-]. set_solver.
Qed.

Lemma FindSupportedVersion_None v l :
  FindSupportedVersion v l = None ↔ ∀ w, w ∈ l → Identifier w ≠ Identifier v.
Proof.
  induction l as [|x l IH]; simpl; [set_solver|].
  case_bool_decide as E; [|set_solver]. split; [done|]. intros H.
  destruct (H x); [set_solver|done].
Qed.

Lemma intersection_spec f a b : f ∈ GetFeatureSetIntersection a b ↔ f ∈ a ∧ f ∈ b.
Proof.
  induction a as [|x a IH]; simpl; [set_solver|].
  destruct (contains x b) eqn:E.
  - apply contains_spec in E. set_solver.
  - rewrite <- not_true_iff_false, contains_spec in E. set_solver.
Qed.

(** The version that is picked comes from a version of either side with its identifier. *)
Lemma PickVersion_Ok sup cp v :
  PickVersion sup cp = Ok v →
  ∃ s c, s ∈ sup ∧ c ∈ cp ∧ Identifier s = Identifier c ∧ Identifier v = Identifier s ∧
         Features v = GetFeatureSetIntersection (Features s) (Features c) ∧ Features v ≠ [].
Proof.
  induction sup as [|s sup IH]; simpl; [done|].
  destruct (FindSupportedVersion s cp) as [c|] eqn:E; [|intros; destruct IH as (?&?&?); set_solver].
  rewrite allowNilFeatureSet_false, andb_true_r.
  case_bool_decide as El; [intros; destruct IH as (?&?&?); set_solver|].
  intros [= <-]. apply FindSupportedVersion_Some in E as [Hc Hi].
  exists s, c. split_and!; simpl; auto; [set_solver|]. by intros H%(f_equal length).
Qed.

Lemma PickVersion_total sup cp : PickVersion sup cp ≠ Panic.
Proof. induction sup; simpl; repeat case_match; congruence. Qed.

(** It fails only if no supported version has a common feature with the
    counterparty's first version of the same identifier. *)
Lemma PickVersion_Err sup cp e :
  PickVersion sup cp = Err e →
  ∀ s c, s ∈ sup → FindSupportedVersion s cp = Some c →
  GetFeatureSetIntersection (Features s) (Features c) = [].
Proof.
  induction sup as [|x sup IH]; simpl; [set_solver|]. intros H s c Hs Hc.
  apply elem_of_cons in Hs as [->|Hs].
  - rewrite Hc, allowNilFeatureSet_false, andb_true_r in H. case_bool_decide as El; [|done].
    by apply nil_length_inv.
  - repeat case_match; eauto; done.
Qed.

End connectiontypes.

(** * Properties *)
Import connectiontypes.

(** [PickVersion] keeps its contract: the version it returns has an identifier
    both sides support and a non-empty feature set contained in the features both
    sides support for it; hence the chain that proposed the versions accepts it
    ([VerifyProposedVersion]).  It fails only when every supported version has an
    empty intersection with the counterparty's version of that identifier. *)
Theorem PickVersion_contract sup cp :
  match PickVersion sup cp with
  | Ok v =>
      ∃ s c, s ∈ sup ∧ c ∈ cp ∧ Identifier v = Identifier s ∧ Identifier v = Identifier c ∧
        Features v ≠ [] ∧ (∀ f, f ∈ Features v ↔ f ∈ Features s ∧ f ∈ Features c) ∧
        VerifyProposedVersion s v = Ok tt ∧ VerifyProposedVersion c v = Ok tt
  | Err e =>
      e = Wrap ConnErr.ErrVersionNegotiationFailed ∧
      ∀ s c, s ∈ sup → FindSupportedVersion s cp = Some c →
        ∀ f, ¬ (f ∈ Features s ∧ f ∈ Features c)
  | Panic => False
  end.
Proof.
  destruct (PickVersion sup cp) as [v|e|] eqn:E.
  - destruct (PickVersion_Ok _ _ _ E) as (s & c & Hs & Hc & Hsc & Hv & Hf & Hne).
    exists s, c. rewrite !VerifyProposedVersion_ok. rewrite Hf in *.
    split_and!; auto; try congruence; intros f; rewrite intersection_spec; tauto.
  - split.
    + clear -E. induction sup; simpl in *; repeat case_match; try congruence; eauto.
    + intros s c Hs Hc f. rewrite <- intersection_spec, (PickVersion_Err _ _ _ E s c Hs Hc). set_solver.
  - by apply (PickVersion_total sup cp).
Qed.

Example PickVersion_default :
  PickVersion GetCompatibleVersions [NewVersion "2" ["X"]; NewVersion "1" ["ORDER_UNORDERED"; "Y"]] =
  Ok (NewVersion "1" ["ORDER_UNORDERED"]).
Proof. reflexivity. Qed.
