(* ===== verification/Sdk.v ===== *)
(** * What the IBC modules use of cosmos-sdk's base types

    [sdk.Context] (the fields the modules read), the key-value store of the
    module with its prefix views, events, and the integer encoding of
    [sdk.Uint64ToBigEndian], which is a parameter of the development with its
    documented round trip; the instance at the end shows that it can be met. *)
From S2P Require Import Prelude GoMonad Errors Sha256.
From Stdlib Require Import Ascii.

(** [sdk.Context]: block data of the executing chain.  [BlockTime] is
    [ctx.BlockTime().UnixNano()], a signed 64-bit integer. *)
Record Context := mkContext {
  ChainID : string;
  BlockHeight : Z;
  BlockTime : Z;
  IsCheckTx : bool;
  IsReCheckTx : bool }.

(** [ctx.KVStore(key)]: bytes to bytes. *)
Notation KVStore := (gmap string string) (only parsing).

Definition store_Get (s : KVStore) (key : string) : option string := s !! key.
Definition store_Set (key value : string) (s : KVStore) : KVStore := <[key := value]> s.
Definition store_Delete (key : string) (s : KVStore) : KVStore := delete key s.
Definition store_Has (s : KVStore) (key : string) : bool := bool_decide (is_Some (s !! key)).

(** [prefix.NewStore(store, p)]: the keys below [p], without [p] ([prefix_view]), and
    the store after its writes ([prefix_write]). *)
Definition prefix_view (p : string) (s : KVStore) : KVStore :=
  list_to_map (omap (λ kv : string * string,
    if HasPrefix kv.1 p then Some (str_drop (String.length p) kv.1, kv.2) else None) (map_to_list s)).
Definition prefix_write (p : string) (t s : KVStore) : KVStore :=
  kmap (String.append p) t ∪ filter (λ kv, HasPrefix kv.1 p = false) s.

(** [sdk.NewEvent(type, attributes...)] *)
Record Event := NewEvent { event_type : string; attributes : list (string * string) }.

(** ** Prefix stores *)

#[export] Instance append_inj p : Inj (=) (=) (String.append p).
Proof. intros a b H. by apply app_inj_length in H as [_ ?]. Qed.

Lemma prefix_view_lookup p s k : prefix_view p s !! k = s !! (p +:+ k).
Proof.
  unfold prefix_view. set (f := λ kv : string * string, _).
  assert (Hf : ∀ k v, (k, v) ∈ omap f (map_to_list s) ↔ s !! (p +:+ k) = Some v).
  { intros k' v. rewrite list_elem_of_omap. split.
    - intros ([k0 v0] & Hin & Hx). apply elem_of_map_to_list in Hin. unfold f in Hx. simpl in Hx.
      destruct (HasPrefix k0 p) eqn:E; [|done]. apply HasPrefix_spec in E as [r ->].
      rewrite str_drop_app in Hx. by simplify_eq.
    - intros H. exists (p +:+ k', v). split; [by apply elem_of_map_to_list|].
      unfold f. simpl. by rewrite HasPrefix_app, str_drop_app. }
  assert (Hnd : NoDup (omap f (map_to_list s)).*1).
  { apply NoDup_fmap_fst.
    - intros k' v v' H1%Hf H2%Hf. congruence.
    - assert (∀ l, NoDup l → NoDup (omap f l)) as Hom; [|apply Hom, NoDup_map_to_list].
      intros l Hl. induction Hl as [|[a v] l Ha Hl IH]; simpl; [constructor|].
      destruct (f (a, v)) as [b|] eqn:E; [|done]. constructor; [|done].
      rewrite list_elem_of_omap. intros ([a' v'] & Hin & E'). unfold f in *. simpl in *.
      destruct (HasPrefix a p) eqn:P; [|done]. destruct (HasPrefix a' p) eqn:P'; [|done].
      apply HasPrefix_spec in P as [r ->]. apply HasPrefix_spec in P' as [r' ->].
      rewrite str_drop_app in *. simplify_eq. done. }
  destruct (s !! (p +:+ k)) as [v|] eqn:E.
  - apply elem_of_list_to_map; [done|]. by apply Hf.
  - apply not_elem_of_list_to_map. intros H. apply list_elem_of_fmap in H as ([k' v] & -> & Hin).
    apply Hf in Hin. simpl in E. congruence.
Qed.

Lemma prefix_write_in p t s k : prefix_write p t s !! (p +:+ k) = t !! k.
Proof.
  unfold prefix_write. destruct (t !! k) as [v|] eqn:E.
  - apply lookup_union_Some_l. by rewrite lookup_kmap by apply _.
  - apply lookup_union_None. split; [by rewrite lookup_kmap by apply _|].
    apply map_lookup_filter_None. right. intros v _. simpl. by rewrite HasPrefix_app.
Qed.

Lemma prefix_write_out p t s k : HasPrefix k p = false → prefix_write p t s !! k = s !! k.
Proof.
  intros Hk. unfold prefix_write. rewrite lookup_union_r.
  - destruct (s !! k) as [v|] eqn:E.
    + by apply map_lookup_filter_Some.
    + apply map_lookup_filter_None. by left.
  - apply lookup_kmap_None; [apply _|]. intros i ->. by rewrite HasPrefix_app in Hk.
Qed.

Lemma prefix_view_write p t s : prefix_view p (prefix_write p t s) = t.
Proof. apply map_eq. intros k. by rewrite prefix_view_lookup, prefix_write_in. Qed.

Lemma prefix_write_view p s : prefix_write p (prefix_view p s) s = s.
Proof.
  apply map_eq. intros k. destruct (HasPrefix k p) eqn:E; [|by apply prefix_write_out].
  apply HasPrefix_spec in E as [r ->]. by rewrite prefix_write_in, prefix_view_lookup.
Qed.

(** [sdk.AccAddressFromBech32] and [AccAddress.String]; an address is its bytes. *)
Class Bech32 := {
  AccAddressFromBech32 : string → outcome string;
  AccAddress_String : string → string;
  valid_address : string → Prop;
  address_roundtrip a : valid_address a → AccAddressFromBech32 (AccAddress_String a) = Ok a }.

(** [sdk.Uint64ToBigEndian], [sdk.BigEndianToUint64]. *)
Class SdkEncoding := {
  Uint64ToBigEndian : N → string;
  BigEndianToUint64 : string → N;
  be_length n : String.length (Uint64ToBigEndian n) = 8;
  be_bound s : (BigEndianToUint64 s < two64)%N;
  be_roundtrip n : (n < two64)%N → BigEndianToUint64 (Uint64ToBigEndian n) = n }.

(** The big-endian encoding. *)
Definition be8_encode (n : N) : string := string_of_bytes (be_bytes 8 n).
Definition be8_decode (s : string) : N := be_value (bytes_of_string s).

Lemma be_bytes_bound k n : Forall (λ b, b < 256)%N (be_bytes k n).
Proof.
  revert n. induction k as [|k IH]; intros n; simpl; [constructor|].
  apply Forall_app. split; [apply IH|]. repeat constructor. by apply N.mod_lt.
Qed.

Lemma bytes_string_bytes l : Forall (λ b, b < 256)%N l → bytes_of_string (string_of_bytes l) = l.
Proof.
  induction 1 as [|b l Hb Hl IH]; [done|]. simpl. rewrite IH, N_ascii_embedding; done.
Qed.

Lemma be_value_bytes k n : (n < 256 ^ N.of_nat k)%N → be_value (be_bytes k n) = n.
Proof.
  unfold be_value. revert n. induction k as [|k IH]; intros n Hn.
  - simpl in *. lia.
  - cbn [be_bytes]. rewrite foldl_app. cbn [foldl]. rewrite IH.
    + pose proof (N.div_mod n 256 ltac:(done)). lia.
    + rewrite Nat2N.inj_succ, N.pow_succ_r' in Hn. by apply N.Div0.div_lt_upper_bound.
Qed.

Lemma be8_roundtrip n : (n < two64)%N → be8_decode (be8_encode n) = n.
Proof.
  intros H. unfold be8_decode, be8_encode.
  rewrite bytes_string_bytes by apply be_bytes_bound. apply be_value_bytes, H.
Qed.

Lemma be8_length n : String.length (be8_encode n) = 8.
Proof. unfold be8_encode. by rewrite length_string_of_bytes, length_be_bytes. Qed.

Lemma be_value_bound l : Forall (λ b, b < 256)%N l → (be_value l < 256 ^ N.of_nat (length l))%N.
Proof.
  unfold be_value. induction l as [|b l IH] using rev_ind; intros Hl; [done|].
  apply Forall_app in Hl as [Hl Hb]. inversion_clear Hb. specialize (IH Hl).
  rewrite foldl_app, length_app, Nat2N.inj_add, N.pow_add_r. cbn [foldl length]. change (256 ^ N.of_nat 1)%N with 256%N. lia.
Qed.
Lemma bytes_of_string_bound s : Forall (λ b, b < 256)%N (bytes_of_string s).
Proof. induction s; simpl; constructor; [apply N_ascii_bounded|done]. Qed.
Lemma length_bytes_of_string s : length (bytes_of_string s) = String.length s.
Proof. induction s; simpl; congruence. Qed.

(** Decoding reads eight bytes. *)
Lemma substring_le n s : String.length (String.substring 0 n s) ≤ n.
Proof. revert n. induction s as [|c s IH]; intros [|n]; simpl; try lia. specialize (IH n). lia. Qed.
Lemma substring_all s : String.substring 0 (String.length s) s = s.
Proof. induction s as [|c s IH]; simpl; congruence. Qed.

Lemma be8_bound s : (be8_decode (String.substring 0 8 s) < two64)%N.
Proof.
  unfold be8_decode. eapply N.lt_le_trans; [apply be_value_bound, bytes_of_string_bound|].
  rewrite length_bytes_of_string. change two64 with (256 ^ 8)%N. apply N.pow_le_mono_r; [done|].
  pose proof (substring_le 8 s). lia.
Qed.
Lemma be8_substring_roundtrip n : (n < two64)%N → be8_decode (String.substring 0 8 (be8_encode n)) = n.
Proof. intros H. rewrite <- (be8_length n), substring_all. by apply be8_roundtrip. Qed.

Definition big_endian : SdkEncoding :=
  {| Uint64ToBigEndian := be8_encode; BigEndianToUint64 := λ s, be8_decode (String.substring 0 8 s);
     be_length := be8_length; be_bound := be8_bound; be_roundtrip := be8_substring_roundtrip |}.

Lemma Uint64ToBigEndian_inj `{SdkEncoding} n m :
  (n < two64)%N → (m < two64)%N → Uint64ToBigEndian n = Uint64ToBigEndian m → n = m.
Proof. intros Hn Hm E. rewrite <- (be_roundtrip n), <- (be_roundtrip m) by done. by rewrite E. Qed.
