(* ===== verification/ChannelTypes.v ===== *)
(** * Channels, packets and acknowledgements ([core/04-channel/types])

    [channel.go], [packet.go], [acknowledgement.go] and the protobuf records and
    enums of [channel.pb.go].  An enum is the inductive type of its named values:
    the modules only compare enum values with those names. *)
From S2P Require Import Prelude GoMonad Errors Sha256 Height Host Sdk.

Inductive State := UNINITIALIZED | INIT | TRYOPEN | OPEN | CLOSED.
Inductive Order := NONE | UNORDERED | ORDERED.

#[export] Instance State_eq_dec : EqDecision State.
Proof. solve_decision. Defined.
#[export] Instance Order_eq_dec : EqDecision Order.
Proof. solve_decision. Defined.

Definition Order_String (x : Order) : string :=
  match x with
  | NONE => "ORDER_NONE_UNSPECIFIED"
  | UNORDERED => "ORDER_UNORDERED"
  | ORDERED => "ORDER_ORDERED"
  end.

Record Counterparty := NewCounterparty {
  Counterparty_PortId : string;
  Counterparty_ChannelId : string }.

Record Channel := NewChannel {
  Channel_State : State;
  Channel_Ordering : Order;
  Channel_Counterparty : Counterparty;
  ConnectionHops : list string;
  Channel_Version : string }.

Record Packet := mkPacket {
  Sequence : N;
  SourcePort : string;
  SourceChannel : string;
  DestinationPort : string;
  DestinationChannel : string;
  Data : string;
  TimeoutHeight : Height;
  TimeoutTimestamp : N }.

#[export] Instance Counterparty_eq_dec : EqDecision Counterparty.
Proof. solve_decision. Defined.
#[export] Instance Channel_eq_dec : EqDecision Channel.
Proof. solve_decision. Defined.
#[export] Instance Packet_eq_dec : EqDecision Packet.
Proof. solve_decision. Defined.

Definition NewPacket (data : string) (sequence : N)
    (sourcePort sourceChannel destinationPort destinationChannel : string)
    (timeoutHeight : Height) (timeoutTimestamp : N) : Packet :=
  mkPacket sequence sourcePort sourceChannel destinationPort destinationChannel data
    timeoutHeight timeoutTimestamp.

(** [channel.State = s] *)
Definition set_State (s : State) (ch : Channel) : Channel :=
  NewChannel s (Channel_Ordering ch) (Channel_Counterparty ch) (ConnectionHops ch) (Channel_Version ch).

Definition Counterparty_ValidateBasic (c : Counterparty) : outcome unit :=
  match outcome_wrap (PortIdentifierValidator (Counterparty_PortId c)) with
  | Ok _ =>
      if bool_decide (Counterparty_ChannelId c ≠ "")
      then outcome_wrap (ChannelIdentifierValidator (Counterparty_ChannelId c))
      else Ok tt
  | r => r
  end.

Definition Channel_ValidateBasic (ch : Channel) : outcome unit :=
  if bool_decide (Channel_State ch = UNINITIALIZED) then Err ChanErr.ErrInvalidChannelState
  else if negb (bool_decide (Channel_Ordering ch = ORDERED) || bool_decide (Channel_Ordering ch = UNORDERED))
  then Err (Wrap ChanErr.ErrInvalidChannelOrdering)
  else match ConnectionHops ch with
       | [hop] =>
           match outcome_wrap (ConnectionIdentifierValidator hop) with
           | Ok _ => Counterparty_ValidateBasic (Channel_Counterparty ch)
           | r => r
           end
       | _ => Err (Wrap ChanErr.ErrTooManyConnectionHops)
       end.

Record IdentifiedChannel := mkIdentifiedChannel {
  IC_State : State;
  IC_Ordering : Order;
  IC_Counterparty : Counterparty;
  IC_ConnectionHops : list string;
  IC_Version : string;
  IC_PortId : string;
  IC_ChannelId : string }.

Definition NewIdentifiedChannel (portID channelID : string) (ch : Channel) : IdentifiedChannel :=
  mkIdentifiedChannel (Channel_State ch) (Channel_Ordering ch) (Channel_Counterparty ch)
    (ConnectionHops ch) (Channel_Version ch) portID channelID.

Definition IdentifiedChannel_ValidateBasic (ic : IdentifiedChannel) : outcome unit :=
  match outcome_wrap (ChannelIdentifierValidator (IC_ChannelId ic)) with
  | Ok _ =>
      match outcome_wrap (PortIdentifierValidator (IC_PortId ic)) with
      | Ok _ =>
          Channel_ValidateBasic
            (NewChannel (IC_State ic) (IC_Ordering ic) (IC_Counterparty ic) (IC_ConnectionHops ic) (IC_Version ic))
      | r => r
      end
  | r => r
  end.

Definition Packet_ValidateBasic (p : Packet) : outcome unit :=
  match outcome_wrap (PortIdentifierValidator (SourcePort p)),
        outcome_wrap (PortIdentifierValidator (DestinationPort p)),
        outcome_wrap (ChannelIdentifierValidator (SourceChannel p)),
        outcome_wrap (ChannelIdentifierValidator (DestinationChannel p)) with
  | Ok _, Ok _, Ok _, Ok _ =>
      if (Sequence p =? 0)%N then Err (Wrap ChanErr.ErrInvalidPacket)
      else if Height_IsZero (TimeoutHeight p) && (TimeoutTimestamp p =? 0)%N
      then Err (Wrap ChanErr.ErrInvalidPacket)
      else if bool_decide (String.length (Data p) = 0) then Err (Wrap ChanErr.ErrInvalidPacket)
      else Ok tt
  | Ok _, Ok _, Ok _, r => r
  | Ok _, Ok _, r, _ => r
  | Ok _, r, _, _ => r
  | r, _, _, _ => r
  end.

(** [Acknowledgement]: the [Response] oneof; [None] is an unset response. *)
Inductive Acknowledgement_Response :=
  | Acknowledgement_Result (result : string)
  | Acknowledgement_Error (err : string).

Record Acknowledgement := mkAcknowledgement { Response : option Acknowledgement_Response }.

Definition NewResultAcknowledgement (result : string) : Acknowledgement :=
  mkAcknowledgement (Some (Acknowledgement_Result result)).
Definition NewErrorAcknowledgement (err : string) : Acknowledgement :=
  mkAcknowledgement (Some (Acknowledgement_Error err)).

(** The JSON codec of acknowledgements, the generated [String] and [error.Error()]. *)
Class AckCodec := {
  Acknowledgement_GetBytes : Acknowledgement → string;
  UnmarshalJSON_ack : string → option Acknowledgement;
  Acknowledgement_String : Acknowledgement → string;
  error_String : error → string;
  ack_roundtrip a : UnmarshalJSON_ack (Acknowledgement_GetBytes a) = Some a }.

Definition Acknowledgement_ValidateBasic (ack : Acknowledgement) : outcome unit :=
  match Response ack with
  | Some (Acknowledgement_Result result) =>
      if bool_decide (String.length result = 0) then Err (Wrap ChanErr.ErrInvalidAcknowledgement) else Ok tt
  | Some (Acknowledgement_Error err) =>
      if blank err then Err (Wrap ChanErr.ErrInvalidAcknowledgement) else Ok tt
  | None => Err (Wrap ChanErr.ErrInvalidAcknowledgement)
  end.

Definition Acknowledgement_Success (ack : Acknowledgement) : bool :=
  match Response ack with
  | Some (Acknowledgement_Result _) => true
  | _ => false
  end.

(** The fields of a packet that are [uint64]s. *)
Definition packet_wf (p : Packet) : Prop :=
  (Sequence p < two64)%N ∧ (TimeoutTimestamp p < two64)%N ∧ height_wf (TimeoutHeight p).

Section commitments.
Context `{SdkEncoding}.

(** The bytes [buf] that [CommitPacket] hashes. *)
Definition commit_preimage (packet : Packet) : string :=
  Uint64ToBigEndian (TimeoutTimestamp packet) +:+
  Uint64ToBigEndian (RevisionNumber (TimeoutHeight packet)) +:+
  Uint64ToBigEndian (RevisionHeight (TimeoutHeight packet)) +:+
  sha256_Sum256 (Data packet).

Definition CommitPacket (packet : Packet) : string := sha256_Sum256 (commit_preimage packet).

Definition CommitAcknowledgement (data : string) : string := sha256_Sum256 data.

Lemma CommitPacket_not_empty p : CommitPacket p ≠ "".
Proof. apply sha256_not_empty. Qed.

Lemma commit_preimage_inj p q :
  packet_wf p → packet_wf q → commit_preimage p = commit_preimage q →
  TimeoutTimestamp p = TimeoutTimestamp q ∧ TimeoutHeight p = TimeoutHeight q ∧
  sha256_Sum256 (Data p) = sha256_Sum256 (Data q).
Proof.
  intros (_ & Hp1 & Hp2 & Hp3) (_ & Hq1 & Hq2 & Hq3). unfold commit_preimage. intros E.
  apply app_inj_length in E as [E1 E]; [|by rewrite !be_length].
  apply app_inj_length in E as [E2 E]; [|by rewrite !be_length].
  apply app_inj_length in E as [E3 E]; [|by rewrite !be_length].
  apply Uint64ToBigEndian_inj in E1, E2, E3; try done.
  split_and!; auto. destruct (TimeoutHeight p), (TimeoutHeight q); simpl in *; congruence.
Qed.
End commitments.

(** * Properties *)

(** a packet commitment binds the timeout timestamp, the timeout height and
    the data: two packets with the same commitment agree on the three, or they
    exhibit a SHA-256 collision, either of the two hashed buffers or of the two
    data fields. *)
Theorem CommitPacket_binding `{SdkEncoding} p q :
  packet_wf p → packet_wf q → CommitPacket p = CommitPacket q →
  (TimeoutTimestamp p = TimeoutTimestamp q ∧ TimeoutHeight p = TimeoutHeight q ∧ Data p = Data q) ∨
  (commit_preimage p ≠ commit_preimage q ∧
   sha256_Sum256 (commit_preimage p) = sha256_Sum256 (commit_preimage q)) ∨
  (Data p ≠ Data q ∧ sha256_Sum256 (Data p) = sha256_Sum256 (Data q)).
Proof.
  intros Hp Hq E. destruct (decide (commit_preimage p = commit_preimage q)) as [Ep|Ep]; [|auto].
  destruct (commit_preimage_inj p q Hp Hq Ep) as (E1 & E2 & E3).
  destruct (decide (Data p = Data q)); auto.
Qed.

Definition example_packet (timeout : N) : Packet :=
  NewPacket "data" 1 "transfer" "channel-0" "transfer" "channel-1" (NewHeight 1 timeout) 0.

Lemma CommitPacket_binding_witness :
  let p := example_packet 100 in
  @CommitPacket big_endian p = @CommitPacket big_endian p ∧
  ((TimeoutTimestamp p = TimeoutTimestamp p ∧ TimeoutHeight p = TimeoutHeight p ∧ Data p = Data p) ∨
   (@commit_preimage big_endian p ≠ @commit_preimage big_endian p ∧
    sha256_Sum256 (@commit_preimage big_endian p) = sha256_Sum256 (@commit_preimage big_endian p)) ∨
   (Data p ≠ Data p ∧ sha256_Sum256 (Data p) = sha256_Sum256 (Data p))).
Proof.
  intros p. split; [reflexivity|].
  apply (@CommitPacket_binding big_endian p p); [repeat split; vm_compute; reflexivity..|reflexivity].
Defined.

(** The commitment of a packet that times out one block later is different. *)
Example CommitPacket_timeout_differs :
  @CommitPacket big_endian (example_packet 100) ≠ @CommitPacket big_endian (example_packet 101).
Proof. vm_compute. discriminate. Qed.

(** a packet passes [ValidateBasic] exactly when its four identifiers are
    valid, its sequence is not 0, it has a timeout and it has data. *)
Theorem Packet_ValidateBasic_iff p :
  Packet_ValidateBasic p = Ok tt ↔
  PortIdentifierValidator (SourcePort p) = Ok tt ∧ PortIdentifierValidator (DestinationPort p) = Ok tt ∧
  ChannelIdentifierValidator (SourceChannel p) = Ok tt ∧
  ChannelIdentifierValidator (DestinationChannel p) = Ok tt ∧
  Sequence p ≠ 0%N ∧ (TimeoutHeight p ≠ ZeroHeight ∨ TimeoutTimestamp p ≠ 0%N) ∧ Data p ≠ "".
Proof.
  unfold Packet_ValidateBasic. destruct p as [n sp sc dp dc d [r h] ts]; simpl.
  destruct (PortIdentifierValidator sp) as [[]|?|], (PortIdentifierValidator dp) as [[]|?|],
    (ChannelIdentifierValidator sc) as [[]|?|], (ChannelIdentifierValidator dc) as [[]|?|]; simpl;
    try (split; [done|intros H; decompose [and] H; done]).
  unfold Height_IsZero, ZeroHeight. simpl.
  destruct (N.eqb_spec n 0); [naive_solver|].
  destruct (N.eqb_spec r 0), (N.eqb_spec h 0), (N.eqb_spec ts 0); simpl;
    repeat case_bool_decide; destruct d; naive_solver.
Qed.
