(* ===== verification/Exported.v ===== *)
(** * The interfaces between the components

    - [LightClient]: [exported.ClientState], [ConsensusState], [Header] and
      [Misbehaviour] of [core/exported/client.go], the interface the keepers call
      light clients through; the Tendermint client is an instance.
    - [Codec]: the protobuf codec [codec.BinaryCodec] on the values the keepers store.
    - [CapabilityKeeper]: cosmos-sdk's scoped capability keepers.
    - [SelfClient]: the two methods of the client keeper that the connection
      keeper uses to check the counterparty's client of this chain.
    - [World]: the state all keepers read and write through [sdk.Context]. *)
From S2P Require Import Prelude GoMonad Errors Sha256 Height Host Sdk ConnectionTypes.
From S2P Require Import ChannelTypes.
From Stdlib Require Import Ascii.

(** [exported.Status] *)
Inductive Status := Active | Frozen | Expired | Unknown.

#[export] Instance Status_eq_dec : EqDecision Status.
Proof. solve_decision. Defined.

(** Client types of [exported/client.go]. *)
Definition Solomachine : string := "06-solomachine".
Definition Tendermint : string := "07-tendermint".
Definition Localhost : string := "09-localhost".

(** [exported.ClientState] and its companions.  A method that gets the client's
    prefix store may write it, so it is a computation on that store;
    [CheckSubstituteAndUpdateState] gets the stores of the subject and of the
    substitute and may write both.  A [nil] consensus state or header is [None]. *)
Class LightClient := {
  ClientState : Type;
  ConsensusState : Type;
  Header : Type;
  Misbehaviour : Type;
  ClientType : ClientState → string;
  GetLatestHeight : ClientState → Height;
  ClientState_Validate : ClientState → outcome unit;
  ExportMetadata : ClientState → KVStore → list (string * string);
  ConsensusState_ClientType : ConsensusState → string;
  GetTimestamp : ConsensusState → N;
  ConsensusState_ValidateBasic : ConsensusState → outcome unit;
  Header_GetHeight : Header → outcome Height;   (* panics on headers without content *)
  Header_ValidateBasic : Header → outcome unit;
  Misbehaviour_GetClientID : Misbehaviour → string;
  Misbehaviour_ClientType : Misbehaviour → string;
  Misbehaviour_ValidateBasic : Misbehaviour → outcome unit;
  Initialize : Context → ClientState → option ConsensusState → ST KVStore unit;
  client_Status : Context → KVStore → ClientState → Status;
  CheckHeaderAndUpdateState :
    Context → ClientState → option Header → ST KVStore (ClientState * option ConsensusState);
  client_CheckMisbehaviourAndUpdateState : Context → ClientState → Misbehaviour → ST KVStore ClientState;
  CheckSubstituteAndUpdateState :
    Context → ClientState → ClientState → ST (KVStore * KVStore) ClientState;
  VerifyUpgradeAndUpdateState :
    Context → ClientState → ClientState → option ConsensusState → string → string →
    ST KVStore (ClientState * option ConsensusState);
  ZeroCustomFields : ClientState → ClientState;
  VerifyClientState : ClientState → Height → MerklePrefix → string → string → ClientState → ST KVStore unit;
  VerifyClientConsensusState :
    ClientState → Height → string → Height → MerklePrefix → string → ConsensusState → ST KVStore unit;
  VerifyConnectionState :
    ClientState → Height → MerklePrefix → string → string → connectiontypes.ConnectionEnd → ST KVStore unit;
  VerifyChannelState :
    ClientState → Height → MerklePrefix → string → string → string → Channel → ST KVStore unit;
  VerifyPacketCommitment :
    Context → ClientState → Height → N → N → MerklePrefix → string → string → string → N → string →
    ST KVStore unit;
  VerifyPacketAcknowledgement :
    Context → ClientState → Height → N → N → MerklePrefix → string → string → string → N → string →
    ST KVStore unit;
  VerifyPacketReceiptAbsence :
    Context → ClientState → Height → N → N → MerklePrefix → string → string → string → N → ST KVStore unit;
  VerifyNextSequenceRecv :
    Context → ClientState → Height → N → N → MerklePrefix → string → string → string → N → ST KVStore unit }.

(** The codec: what is marshalled can be unmarshalled again. *)
Class Codec `{LightClient} := {
  Marshal_Channel : Channel → string;
  Unmarshal_Channel : string → option Channel;
  Marshal_ConnectionEnd : connectiontypes.ConnectionEnd → string;
  Unmarshal_ConnectionEnd : string → option connectiontypes.ConnectionEnd;
  Marshal_ClientPaths : list string → string;
  Unmarshal_ClientPaths : string → option (list string);
  Marshal_ClientState : ClientState → string;
  Unmarshal_ClientState : string → option ClientState;
  Marshal_ConsensusState : ConsensusState → string;
  Unmarshal_ConsensusState : string → option ConsensusState;
  Marshal_Header : Header → string;
  encodable_ClientState : ClientState → Prop;       (* integer fields within their width *)
  encodable_ConsensusState : ConsensusState → Prop;
  Channel_roundtrip ch : Unmarshal_Channel (Marshal_Channel ch) = Some ch;
  ConnectionEnd_roundtrip c :
    (connectiontypes.DelayPeriod c < two64)%N → Unmarshal_ConnectionEnd (Marshal_ConnectionEnd c) = Some c;
  ClientPaths_roundtrip l : Unmarshal_ClientPaths (Marshal_ClientPaths l) = Some l;
  ClientState_roundtrip c :
    encodable_ClientState c → Unmarshal_ClientState (Marshal_ClientState c) = Some c;
  ConsensusState_roundtrip c :
    encodable_ConsensusState c → Unmarshal_ConsensusState (Marshal_ConsensusState c) = Some c }.

(** [capabilitykeeper.ScopedKeeper]; the first argument is the module the keeper is scoped to. *)
Class CapabilityKeeper := {
  Capability : Type;
  Capability_eq_dec :: EqDecision Capability;
  CapState : Type;
  cap_NewCapability : string → string → ST CapState Capability;
  cap_GetCapability : CapState → string → string → option Capability;
  cap_AuthenticateCapability : CapState → string → Capability → string → bool;
  cap_ClaimCapability : string → Capability → string → ST CapState unit;
  cap_LookupModules : CapState → string → string → outcome (list string * Capability) }.

(** [ValidateSelfClient] and [GetSelfConsensusState] of the client keeper. *)
Class SelfClient `{LightClient} := {
  ValidateSelfClient : Context → ClientState → outcome unit;
  GetSelfConsensusState : Context → Height → outcome ConsensusState }.

(** The application's own state (bank balances, application stores). *)
Class Application := { AppState : Type }.

Section world.
Context {CK : CapabilityKeeper} {AP : Application}.

Record World := mkWorld {
  ibc : KVStore;              (* the store of the IBC module *)
  caps : CapState;            (* the capability module *)
  app : AppState;             (* everything else *)
  AllowedClients : list string;          (* parameter of 02-client *)
  MaxExpectedTimePerBlock : N;           (* parameter of 03-connection *)
  events : list Event }.                 (* ctx.EventManager(), newest first *)

Definition set_ibc (s : KVStore) (w : World) : World :=
  mkWorld s (caps w) (app w) (AllowedClients w) (MaxExpectedTimePerBlock w) (events w).
Definition set_caps (c : CapState) (w : World) : World :=
  mkWorld (ibc w) c (app w) (AllowedClients w) (MaxExpectedTimePerBlock w) (events w).
Definition set_app (a : AppState) (w : World) : World :=
  mkWorld (ibc w) (caps w) a (AllowedClients w) (MaxExpectedTimePerBlock w) (events w).
Definition set_events (l : list Event) (w : World) : World :=
  mkWorld (ibc w) (caps w) (app w) (AllowedClients w) (MaxExpectedTimePerBlock w) l.

(** A keeper method. *)
Definition M (A : Type) : Type := ST World A.

Definition get_store (key : string) : M (option string) := gets (λ w, ibc w !! key).
Definition has_store (key : string) : M bool := gets (λ w, store_Has (ibc w) key).
Definition set_store (key value : string) : M unit := modify (λ w, set_ibc (store_Set key value (ibc w)) w).
Definition delete_store (key : string) : M unit := modify (λ w, set_ibc (store_Delete key (ibc w)) w).
Definition EmitEvent (e : Event) : M unit := modify (λ w, set_events (e :: events w) w).

(** Run a capability-module operation. *)
Definition on_caps {A} (m : ST CapState A) : M A := zoom caps set_caps m.

(** [k.ClientStore(ctx, clientID)]: the store below "clients/{clientID}/". *)
Definition client_prefix (clientID : string) : string :=
  KeyClientStorePrefix +:+ "/" +:+ clientID +:+ "/".
Definition client_view (clientID : string) (w : World) : KVStore := prefix_view (client_prefix clientID) (ibc w).
Definition client_put (clientID : string) (t : KVStore) (w : World) : World :=
  set_ibc (prefix_write (client_prefix clientID) t (ibc w)) w.
Definition on_client_store {A} (clientID : string) (m : ST KVStore A) : M A :=
  zoom (client_view clientID) (client_put clientID) m.

(** A call that gets the stores of two clients, which are different ones, and calls on
    the first of them. *)
Definition on_subject {A} (m : ST KVStore A) : ST (KVStore * KVStore) A := zoom fst (λ s st, (s, st.2)) m.
Definition on_client_stores {A} (subject substitute : string) (m : ST (KVStore * KVStore) A) : M A :=
  zoom (λ w, (client_view subject w, client_view substitute w))
    (λ st w, client_put subject st.1 (client_put substitute st.2 w)) m.

(** The part of the store outside the clients' prefix stores, key by key. *)
Definition not_client_key (k : string) : bool := negb (HasPrefix k (KeyClientStorePrefix +:+ "/")).
End world.

(** ** Frames *)
Section frames.
Context {CK : CapabilityKeeper} {AP : Application}.

(** [m] leaves every key of the IBC store that is not below "clients/" as it was. *)
Definition keeps_key {A} (k : string) (m : M A) : Prop := keeps (λ w, ibc w !! k) m.

Lemma FullClientKey_prefix c p : FullClientKey c p = client_prefix c +:+ p.
Proof. unfold client_prefix. unfold_paths. by rewrite !app_assoc_str. Qed.

Lemma HasPrefix_trans k a b : HasPrefix k (a +:+ b) = true → HasPrefix k a = true.
Proof. rewrite !HasPrefix_spec. intros [r ->]. rewrite app_assoc_str. eauto. Qed.

Lemma client_key_out c k : not_client_key k = true → HasPrefix k (client_prefix c) = false.
Proof.
  intros Hk. destruct (HasPrefix k (client_prefix c)) eqn:E; [|done].
  unfold client_prefix, not_client_key in *. rewrite <- app_assoc_str in E.
  apply HasPrefix_trans in E. by rewrite E in Hk.
Qed.

Lemma on_client_store_out {A} c (m : ST KVStore A) k :
  HasPrefix k (client_prefix c) = false → keeps_key k (on_client_store c m).
Proof.
  intros Hk w. unfold on_client_store, zoom. destruct (m (client_view c w)) as [t o]. simpl.
  by apply prefix_write_out.
Qed.

Lemma on_client_store_caps {A T} c (m : ST KVStore A) (f : World → T) :
  (∀ s w, f (set_ibc s w) = f w) → keeps f (on_client_store c m).
Proof.
  intros Hf w. unfold on_client_store, zoom. destruct (m (client_view c w)) as [t o]. apply Hf.
Qed.

(** With two stores: both may change, and the substitute's is as it was when the call
    only reads it. *)
Definition reads_second {A} (m : ST (KVStore * KVStore) A) : Prop := ∀ st, (m st).1.2 = st.2.

Lemma on_client_stores_out {A} a b (m : ST (KVStore * KVStore) A) k :
  HasPrefix k (client_prefix a) = false → HasPrefix k (client_prefix b) = false → keeps_key k (on_client_stores a b m).
Proof.
  intros Ha Hb w. unfold on_client_stores, zoom. destruct (m _) as [[s t] o]. simpl. by rewrite !prefix_write_out.
Qed.
Lemma on_client_stores_read {A} a b (m : ST (KVStore * KVStore) A) k :
  reads_second m → HasPrefix k (client_prefix a) = false → keeps_key k (on_client_stores a b m).
Proof.
  intros Hm Ha w. unfold on_client_stores, zoom. specialize (Hm (client_view a w, client_view b w)).
  destruct (m _) as [[s t] o]. simpl in Hm |- *. subst t. rewrite prefix_write_out by done.
  unfold client_view. by rewrite prefix_write_view.
Qed.
Lemma on_client_stores_caps {A T} a b (m : ST (KVStore * KVStore) A) (f : World → T) :
  (∀ s w, f (set_ibc s w) = f w) → keeps f (on_client_stores a b m).
Proof.
  intros Hf w. unfold on_client_stores, zoom. destruct (m _) as [[s t] o]. cbn. unfold client_put. by rewrite !Hf.
Qed.
Lemma on_client_stores_keeps {A} a b (m : ST (KVStore * KVStore) A) k :
  not_client_key k = true → keeps_key k (on_client_stores a b m).
Proof. intros Hk. by apply on_client_stores_out; apply client_key_out. Qed.

(** The stores of two clients are disjoint. *)
Lemma client_prefix_disjoint c c' k :
  no_char "/" c = true → no_char "/" c' = true →
  HasPrefix (client_prefix c' +:+ k) (client_prefix c) = true → c = c'.
Proof.
  intros Hc Hc' [r E]%HasPrefix_spec. unfold client_prefix in E. rewrite !app_assoc_str in E.
  apply app_inj_l, app_inj_l in E. by apply (app_sep_inj "/") in E as [-> _].
Qed.

Lemma on_client_store_keeps {A} c (m : ST KVStore A) k :
  not_client_key k = true → keeps_key k (on_client_store c m).
Proof.
  intros Hk. by apply on_client_store_out, client_key_out.
Qed.

Lemma set_store_keeps k k' v : k ≠ k' → keeps_key k (set_store k' v).
Proof. intros Hne w. simpl. by apply lookup_insert_ne. Qed.
Lemma delete_store_keeps k k' : k ≠ k' → keeps_key k (delete_store k').
Proof. intros Hne w. simpl. by apply lookup_delete_ne. Qed.
Lemma EmitEvent_keeps k e : keeps_key k (EmitEvent e).
Proof. done. Qed.
Lemma on_caps_keeps {A} k (m : ST CapState A) : keeps_key k (on_caps m).
Proof. intros w. unfold on_caps, zoom. by destruct (m (caps w)). Qed.

(** What reads leave alone. *)
Lemma get_store_keeps {T} (f : World → T) k : keeps f (get_store k).
Proof. done. Qed.
Lemma has_store_keeps {T} (f : World → T) k : keeps f (has_store k).
Proof. done. Qed.

Lemma get_store_Ok k w w' v : get_store k w = (w', Ok v) → w' = w ∧ v = ibc w !! k.
Proof. unfold get_store, gets. naive_solver. Qed.
Lemma has_store_Ok k w w' v : has_store k w = (w', Ok v) → w' = w ∧ v = store_Has (ibc w) k.
Proof. unfold has_store, gets. naive_solver. Qed.
Lemma set_store_Ok k v w w' u :
  set_store k v w = (w', Ok u) → w' = set_ibc (<[k := v]> (ibc w)) w.
Proof. unfold set_store, modify. naive_solver. Qed.
Lemma delete_store_Ok k w w' u :
  delete_store k w = (w', Ok u) → w' = set_ibc (delete k (ibc w)) w.
Proof. unfold delete_store, modify. naive_solver. Qed.
Lemma EmitEvent_Ok e w w' u : EmitEvent e w = (w', Ok u) → w' = set_events (e :: events w) w.
Proof. unfold EmitEvent, modify. naive_solver. Qed.
End frames.

#[export] Hint Resolve get_store_keeps has_store_keeps EmitEvent_keeps on_caps_keeps : ibc.

Ltac store_hook :=
  match goal with
  | H : get_store _ _ = (_, Ok _) |- _ => apply get_store_Ok in H as [? ?]
  | H : has_store _ _ = (_, Ok _) |- _ => apply has_store_Ok in H as [? ?]
  | H : set_store _ _ _ = (_, Ok _) |- _ => apply set_store_Ok in H
  | H : delete_store _ _ = (_, Ok _) |- _ => apply delete_store_Ok in H
  | H : EmitEvent _ _ = (_, Ok _) |- _ => apply EmitEvent_Ok in H
  end.
Ltac go_hook ::= store_hook.
