(* ===== verification/ClientKeeper.v ===== *)
(** * The client keeper ([core/02-client/keeper])

    Creation, update, upgrade, misbehaviour and governance substitution of light
    clients ([client.go], [proposal.go], [params.go]) over the client stores of
    [keeper.go], against the [LightClient] interface. *)
From S2P Require Import Prelude GoMonad Errors Sha256 Height Host Sdk ConnectionTypes.
From S2P Require Import ChannelTypes Exported.

Section keeper.
Context {SE : SdkEncoding} {LC : LightClient} {CD : Codec} {CK : CapabilityKeeper} {AP : Application}.

(** ** State ([keeper.go]) *)

Definition GetNextClientSequence : M N :=
  let! bz := get_store KeyNextClientSequence in
  let! bz := some_or_panic bz in
  ret (BigEndianToUint64 bz).

Definition SetNextClientSequence (sequence : N) : M unit :=
  set_store KeyNextClientSequence (Uint64ToBigEndian sequence).

Definition GenerateClientIdentifier (clientType : string) : M string :=
  let! nextClientSeq := GetNextClientSequence in
  let clientID := FormatClientIdentifier clientType nextClientSeq in
  SetNextClientSequence (u64 (nextClientSeq + 1)) ;;;
  ret clientID.

Definition GetClientState (clientID : string) : M (option ClientState) :=
  let! store := gets (client_view clientID) in
  match store_Get store ClientStateKey with
  | None => ret None
  | Some bz =>
      let! clientState := some_or_panic (Unmarshal_ClientState bz) in
      ret (Some clientState)
  end.

Definition SetClientState (clientID : string) (clientState : ClientState) : M unit :=
  on_client_store clientID (modify (store_Set ClientStateKey (Marshal_ClientState clientState))).

Definition GetClientConsensusState (clientID : string) (height : Height) : M (option ConsensusState) :=
  let! store := gets (client_view clientID) in
  match store_Get store (ConsensusStateKey height) with
  | None => ret None
  | Some bz =>
      let! consensusState := some_or_panic (Unmarshal_ConsensusState bz) in
      ret (Some consensusState)
  end.

(** Marshalling a [nil] consensus state panics. *)
Definition SetClientConsensusState (clientID : string) (height : Height)
    (consensusState : option ConsensusState) : M unit :=
  let! consensusState := some_or_panic consensusState in
  on_client_store clientID
    (modify (store_Set (ConsensusStateKey height) (Marshal_ConsensusState consensusState))).

Definition HasClientConsensusState (clientID : string) (height : Height) : M bool :=
  let! store := gets (client_view clientID) in
  ret (store_Has store (ConsensusStateKey height)).

Definition GetLatestClientConsensusState (clientID : string) : M (option ConsensusState) :=
  let! clientState := GetClientState clientID in
  match clientState with
  | None => ret None
  | Some clientState => GetClientConsensusState clientID (GetLatestHeight clientState)
  end.

(** ** Parameters ([params.go], [types/params.go]) *)

Definition IsAllowedClient (allowedClients : list string) (clientType : string) : bool :=
  existsb (λ allowedClient, bool_decide (allowedClient = clientType)) allowedClients.

(** [types.GetSelfHeight] *)
Definition GetSelfHeight (ctx : Context) : outcome Height :=
  match ParseChainID (ChainID ctx) with
  | Ok revision => Ok (NewHeight revision (uint64_of_Z (BlockHeight ctx)))
  | Err e => Err e
  | Panic => Panic
  end.

(** ** Operations ([client.go]) *)

Definition CreateClient (ctx : Context) (clientState : ClientState)
    (consensusState : option ConsensusState) : M string :=
  let! params := gets AllowedClients in
  throw_if (negb (IsAllowedClient params (ClientType clientState))) (Wrap ClientErr.ErrInvalidClientType) ;;;
  let! clientID := GenerateClientIdentifier (ClientType clientState) in
  SetClientState clientID clientState ;;;
  on_client_store clientID (Initialize ctx clientState consensusState) ;;;
  match consensusState with
  | Some _ => SetClientConsensusState clientID (GetLatestHeight clientState) consensusState
  | None => ret tt
  end ;;;
  ret clientID.

(** [clientState.Status(ctx, clientStore, k.cdc)] *)
Definition get_status (ctx : Context) (clientID : string) (clientState : ClientState) : M Status :=
  gets (λ w, client_Status ctx (client_view clientID w) clientState).

Definition UpdateClient (ctx : Context) (clientID : string) (header : option Header) : M unit :=
  let! clientState := GetClientState clientID in
  let! clientState := some_or clientState (Wrap ClientErr.ErrClientNotFound) in
  let! status := get_status ctx clientID clientState in
  throw_if (bool_decide (status ≠ Active)) (Wrap ClientErr.ErrClientNotActive) ;;;
  let! ' (newClientState, newConsensusState) :=
    wrap_err (on_client_store clientID (CheckHeaderAndUpdateState ctx clientState header)) in
  let headerStr := match header with
                   | Some header => hex_EncodeToString (Marshal_Header header)
                   | None => ""
                   end in
  let! consensusHeight := match header with
                          | Some header => let! h := lift (Header_GetHeight header) in ret (Some h)
                          | None => ret None
                          end in
  SetClientState clientID newClientState ;;;
  let! status := get_status ctx clientID newClientState in
  let! ' (eventType, consensusHeight) :=
    if bool_decide (status ≠ Frozen) then
      match header with
      | Some header' =>
          if bool_decide (clientID ≠ Localhost) then
            let! h := lift (Header_GetHeight header') in
            SetClientConsensusState clientID h newConsensusState ;;;
            ret ("update_client", consensusHeight)
          else
            let! selfHeight := lift (GetSelfHeight ctx) in
            ret ("update_client", Some selfHeight)
      | None =>
          let! selfHeight := lift (GetSelfHeight ctx) in
          ret ("update_client", Some selfHeight)
      end
    else ret ("client_misbehaviour", consensusHeight) in
  let! consensusHeight := some_or_panic consensusHeight in
  EmitEvent (NewEvent eventType
    [("client_id", clientID); ("client_type", ClientType clientState);
     ("consensus_height", Height_String consensusHeight); ("header", headerStr)]).

Definition UpgradeClient (ctx : Context) (clientID : string) (upgradedClient : ClientState)
    (upgradedConsState : option ConsensusState) (proofUpgradeClient proofUpgradeConsState : string) : M unit :=
  let! clientState := GetClientState clientID in
  let! clientState := some_or clientState (Wrap ClientErr.ErrClientNotFound) in
  let! status := get_status ctx clientID clientState in
  throw_if (bool_decide (status ≠ Active)) (Wrap ClientErr.ErrClientNotActive) ;;;
  let! ' (updatedClientState, updatedConsState) :=
    wrap_err (on_client_store clientID
      (VerifyUpgradeAndUpdateState ctx clientState upgradedClient upgradedConsState
         proofUpgradeClient proofUpgradeConsState)) in
  SetClientState clientID updatedClientState ;;;
  SetClientConsensusState clientID (GetLatestHeight updatedClientState) updatedConsState ;;;
  EmitEvent (NewEvent "upgrade_client"
    [("client_id", clientID); ("client_type", ClientType updatedClientState);
     ("consensus_height", Height_String (GetLatestHeight updatedClientState))]).

Definition CheckMisbehaviourAndUpdateState (ctx : Context) (misbehaviour : Misbehaviour) : M unit :=
  let clientID := Misbehaviour_GetClientID misbehaviour in
  let! clientState := GetClientState clientID in
  let! clientState := some_or clientState (Wrap ClientErr.ErrClientNotFound) in
  let! status := get_status ctx clientID clientState in
  throw_if (bool_decide (status ≠ Active)) (Wrap ClientErr.ErrClientNotActive) ;;;
  lift (Misbehaviour_ValidateBasic misbehaviour) ;;;
  let! clientState :=
    on_client_store clientID (client_CheckMisbehaviourAndUpdateState ctx clientState misbehaviour) in
  SetClientState clientID clientState.

(** ** Governance ([proposal.go]) *)

(** The two clients are different ones: the substitute is Active and the subject is not. *)
Definition ClientUpdateProposal (ctx : Context) (subjectClientId substituteClientId : string) : M unit :=
  throw_if (bool_decide (subjectClientId = Localhost) || bool_decide (substituteClientId = Localhost))
    (Wrap ClientErr.ErrInvalidUpdateClientProposal) ;;;
  let! subjectClientState := GetClientState subjectClientId in
  let! subjectClientState := some_or subjectClientState (Wrap ClientErr.ErrClientNotFound) in
  let! status := get_status ctx subjectClientId subjectClientState in
  throw_if (bool_decide (status = Active)) (Wrap ClientErr.ErrInvalidUpdateClientProposal) ;;;
  let! substituteClientState := GetClientState substituteClientId in
  let! substituteClientState := some_or substituteClientState (Wrap ClientErr.ErrClientNotFound) in
  throw_if (GTE (GetLatestHeight subjectClientState) (GetLatestHeight substituteClientState))
    (Wrap ClientErr.ErrInvalidHeight) ;;;
  let! status := get_status ctx substituteClientId substituteClientState in
  throw_if (bool_decide (status ≠ Active)) (Wrap ClientErr.ErrClientNotActive) ;;;
  let! clientState :=
    on_client_stores subjectClientId substituteClientId
      (CheckSubstituteAndUpdateState ctx subjectClientState substituteClientState) in
  SetClientState subjectClientId clientState ;;;
  EmitEvent (NewEvent "update_client_proposal"
    [("subject_client_id", subjectClientId); ("client_type", ClientType clientState);
     ("consensus_height", Height_String (GetLatestHeight clientState))]).
End keeper.

Section lemmas.
Context {SE : SdkEncoding} {LC : LightClient} {CD : Codec} {CK : CapabilityKeeper} {AP : Application}.

Lemma GetClientState_keeps {T} (f : World → T) c : keeps f (GetClientState c).
Proof. unfold GetClientState. frame. Qed.
Lemma GetClientConsensusState_keeps {T} (f : World → T) c h : keeps f (GetClientConsensusState c h).
Proof. unfold GetClientConsensusState. frame. Qed.
Lemma GetNextClientSequence_keeps {T} (f : World → T) : keeps f GetNextClientSequence.
Proof. unfold GetNextClientSequence. frame. Qed.
Lemma get_status_keeps {T} (f : World → T) ctx c cs : keeps f (get_status ctx c cs).
Proof. done. Qed.

(** A run of [GetClientState] reads the client state and changes nothing. *)
Lemma GetClientState_Ok c w w' r :
  GetClientState c w = (w', Ok r) → w' = w ∧
  match ibc w !! FullClientStateKey c with
  | None => r = None
  | Some bz => Unmarshal_ClientState bz = r ∧ r ≠ None
  end.
Proof.
  unfold GetClientState, FullClientStateKey. rewrite FullClientKey_prefix. intros. go_inv.
  unfold store_Get, client_view in *. rewrite prefix_view_lookup in *. unfold ClientStateKey in *.
  case_match; go_inv; auto.
Qed.
End lemmas.
#[export] Hint Resolve GetClientState_keeps GetClientConsensusState_keeps GetNextClientSequence_keeps
  get_status_keeps : ibc.

Section isolation.
Context {SE : SdkEncoding} {LC : LightClient} {CD : Codec} {CK : CapabilityKeeper} {AP : Application}.

Lemma SetClientState_out c cs k :
  HasPrefix k (client_prefix c) = false → keeps_key k (SetClientState c cs).
Proof. apply on_client_store_out. Qed.
Lemma SetClientConsensusState_out c h cs k :
  HasPrefix k (client_prefix c) = false → keeps_key k (SetClientConsensusState c h cs).
Proof.
  intros. unfold SetClientConsensusState. apply keeps_bind; [auto with ibc|]. intros.
  by apply on_client_store_out.
Qed.

Lemma UpdateClient_out ctx c h k :
  HasPrefix k (client_prefix c) = false → keeps_key k (UpdateClient ctx c h).
Proof.
  intros Hk. unfold UpdateClient, keeps_key.
  frame; try by apply on_client_store_out. all: by apply SetClientConsensusState_out.
Qed.

Lemma UpgradeClient_out ctx c cs cons p1 p2 k :
  HasPrefix k (client_prefix c) = false → keeps_key k (UpgradeClient ctx c cs cons p1 p2).
Proof.
  intros Hk. unfold UpgradeClient, keeps_key.
  frame; try by apply on_client_store_out. all: by apply SetClientConsensusState_out.
Qed.
End isolation.
