(* ===== verification/ConnectionKeeper.v ===== *)
(** * The connection keeper ([core/03-connection/keeper])

    Connection ends in the store ([keeper.go]), the four steps of the connection
    handshake ([handshake.go]) and the verification of counterparty state through
    the connection's client ([verify.go]). *)
From S2P Require Import Prelude GoMonad Errors Sha256 Height Host Sdk ConnectionTypes.
From S2P Require Import ChannelTypes Exported ClientKeeper.
From Stdlib Require Import Floats.SpecFloat.
Import connectiontypes.

Section keeper.
Context {SE : SdkEncoding} {LC : LightClient} {CD : Codec} {CK : CapabilityKeeper} {AP : Application}
  {SC : SelfClient}.

(** ** State ([keeper.go]) *)

(** The keeper's store key is the IBC module's, "ibc". *)
Definition GetCommitmentPrefix : MerklePrefix := NewMerklePrefix "ibc".

Definition GetNextConnectionSequence : M N :=
  let! bz := get_store KeyNextConnectionSequence in
  let! bz := some_or_panic bz in
  ret (BigEndianToUint64 bz).

Definition SetNextConnectionSequence (sequence : N) : M unit :=
  set_store KeyNextConnectionSequence (Uint64ToBigEndian sequence).

Definition GenerateConnectionIdentifier : M string :=
  let! nextConnSeq := GetNextConnectionSequence in
  let connectionID := FormatConnectionIdentifier nextConnSeq in
  SetNextConnectionSequence (u64 (nextConnSeq + 1)) ;;;
  ret connectionID.

Definition GetConnection (connectionID : string) : M (option ConnectionEnd) :=
  let! bz := get_store (ConnectionKey connectionID) in
  match bz with
  | None => ret None
  | Some bz =>
      let! connection := some_or_panic (Unmarshal_ConnectionEnd bz) in
      ret (Some connection)
  end.

Definition SetConnection (connectionID : string) (connection : ConnectionEnd) : M unit :=
  set_store (ConnectionKey connectionID) (Marshal_ConnectionEnd connection).

Definition GetTimestampAtHeight (connection : ConnectionEnd) (height : Height) : M N :=
  let! consensusState := GetClientConsensusState (ClientId connection) height in
  let! consensusState := some_or consensusState (Wrap ClientErr.ErrConsensusStateNotFound) in
  ret (GetTimestamp consensusState).

Definition GetClientConnectionPaths (clientID : string) : M (option (list string)) :=
  let! bz := get_store (ClientConnectionsKey clientID) in
  match bz with
  | None => ret None
  | Some bz =>
      let! paths := some_or_panic (Unmarshal_ClientPaths bz) in
      ret (Some paths)
  end.

Definition SetClientConnectionPaths (clientID : string) (paths : list string) : M unit :=
  set_store (ClientConnectionsKey clientID) (Marshal_ClientPaths paths).

Definition addConnectionToClient (clientID connectionID : string) : M unit :=
  let! clientState := GetClientState clientID in
  some_or clientState (Wrap ClientErr.ErrClientNotFound) ;;;
  let! conns := GetClientConnectionPaths clientID in
  let conns := default [] conns in
  SetClientConnectionPaths clientID (conns ++ [connectionID]).

(** ** Verification ([verify.go]) *)

(** Go's [float64(n)] of a [uint64], IEEE 754 binary64 with round to nearest even. *)
Definition float64_of_u64 (n : N) : spec_float := binary_normalize 53 1024 (Z.of_N n) 0 false.

(** [uint64(math.Ceil(x))] for [x >= 0].  The conversion of values from [2^64] on
    is left open by the language; amd64 yields [2^63]. *)
Definition uint64_ceil (x : spec_float) : N :=
  match x with
  | S754_finite false m e =>
      let n := if (0 <=? e)%Z then (Z.pos m * 2 ^ e)%Z
               else (- (- Z.pos m / 2 ^ (- e)))%Z in
      if (n <? 18446744073709551616)%Z then Z.to_N n else 9223372036854775808%N
  | S754_infinity false => 9223372036854775808%N
  | _ => 0%N
  end.

Definition block_delay (expectedTimePerBlock timeDelay : N) : N :=
  if (expectedTimePerBlock =? 0)%N then 0%N
  else uint64_ceil (SFdiv 53 1024 (float64_of_u64 timeDelay) (float64_of_u64 expectedTimePerBlock)).

Definition getBlockDelay (connection : ConnectionEnd) : M N :=
  let! expectedTimePerBlock := gets MaxExpectedTimePerBlock in
  ret (block_delay expectedTimePerBlock (DelayPeriod connection)).

(** The first lines of every function of [verify.go]: the connection's client,
    which must exist and be active. *)
Definition active_client (ctx : Context) (clientID : string) : M ClientState :=
  let! clientState := GetClientState clientID in
  let! clientState := some_or clientState (Wrap ClientErr.ErrClientNotFound) in
  let! status := get_status ctx clientID clientState in
  throw_if (bool_decide (status ≠ Active)) (Wrap ClientErr.ErrClientNotActive) ;;;
  ret clientState.

Definition conn_VerifyClientState (ctx : Context) (connection : ConnectionEnd) (height : Height)
    (proof : string) (clientState : ClientState) : M unit :=
  let clientID := ClientId connection in
  let! targetClient := active_client ctx clientID in
  wrap_err (on_client_store clientID
    (VerifyClientState targetClient height (Counterparty_Prefix (Connection_Counterparty connection))
       (Counterparty_ClientId (Connection_Counterparty connection)) proof clientState)).

Definition conn_VerifyClientConsensusState (ctx : Context) (connection : ConnectionEnd)
    (height consensusHeight : Height) (proof : string) (consensusState : ConsensusState) : M unit :=
  let clientID := ClientId connection in
  let! clientState := active_client ctx clientID in
  wrap_err (on_client_store clientID
    (VerifyClientConsensusState clientState height
       (Counterparty_ClientId (Connection_Counterparty connection)) consensusHeight
       (Counterparty_Prefix (Connection_Counterparty connection)) proof consensusState)).

Definition conn_VerifyConnectionState (ctx : Context) (connection : ConnectionEnd) (height : Height)
    (proof connectionID : string) (connectionEnd : ConnectionEnd) : M unit :=
  let clientID := ClientId connection in
  let! clientState := active_client ctx clientID in
  wrap_err (on_client_store clientID
    (VerifyConnectionState clientState height (Counterparty_Prefix (Connection_Counterparty connection))
       proof connectionID connectionEnd)).

Definition conn_VerifyChannelState (ctx : Context) (connection : ConnectionEnd) (height : Height)
    (proof portID channelID : string) (channel : Channel) : M unit :=
  let clientID := ClientId connection in
  let! clientState := active_client ctx clientID in
  wrap_err (on_client_store clientID
    (VerifyChannelState clientState height (Counterparty_Prefix (Connection_Counterparty connection))
       proof portID channelID channel)).

Definition conn_VerifyPacketCommitment (ctx : Context) (connection : ConnectionEnd) (height : Height)
    (proof portID channelID : string) (sequence : N) (commitmentBytes : string) : M unit :=
  let clientID := ClientId connection in
  let! clientState := active_client ctx clientID in
  let! blockDelay := getBlockDelay connection in
  wrap_err (on_client_store clientID
    (VerifyPacketCommitment ctx clientState height (DelayPeriod connection) blockDelay
       (Counterparty_Prefix (Connection_Counterparty connection)) proof portID channelID
       sequence commitmentBytes)).

Definition conn_VerifyPacketAcknowledgement (ctx : Context) (connection : ConnectionEnd) (height : Height)
    (proof portID channelID : string) (sequence : N) (acknowledgement : string) : M unit :=
  let clientID := ClientId connection in
  let! clientState := active_client ctx clientID in
  let! blockDelay := getBlockDelay connection in
  wrap_err (on_client_store clientID
    (VerifyPacketAcknowledgement ctx clientState height (DelayPeriod connection) blockDelay
       (Counterparty_Prefix (Connection_Counterparty connection)) proof portID channelID
       sequence acknowledgement)).

Definition conn_VerifyPacketReceiptAbsence (ctx : Context) (connection : ConnectionEnd) (height : Height)
    (proof portID channelID : string) (sequence : N) : M unit :=
  let clientID := ClientId connection in
  let! clientState := active_client ctx clientID in
  let! blockDelay := getBlockDelay connection in
  wrap_err (on_client_store clientID
    (VerifyPacketReceiptAbsence ctx clientState height (DelayPeriod connection) blockDelay
       (Counterparty_Prefix (Connection_Counterparty connection)) proof portID channelID sequence)).

Definition conn_VerifyNextSequenceRecv (ctx : Context) (connection : ConnectionEnd) (height : Height)
    (proof portID channelID : string) (nextSequenceRecv : N) : M unit :=
  let clientID := ClientId connection in
  let! clientState := active_client ctx clientID in
  let! blockDelay := getBlockDelay connection in
  wrap_err (on_client_store clientID
    (VerifyNextSequenceRecv ctx clientState height (DelayPeriod connection) blockDelay
       (Counterparty_Prefix (Connection_Counterparty connection)) proof portID channelID nextSequenceRecv)).

(** ** The handshake ([handshake.go]) *)

Definition ConnOpenInit (clientID : string) (counterparty : Counterparty) (version : option Version)
    (delayPeriod : N) : M string :=
  let! versions :=
    match version with
    | Some version =>
        throw_if (negb (IsSupportedVersion version)) (Wrap ConnErr.ErrInvalidVersion) ;;;
        ret [version]
    | None => ret GetCompatibleVersions
    end in
  let! connectionID := GenerateConnectionIdentifier in
  let connection := NewConnectionEnd INIT clientID counterparty versions delayPeriod in
  SetConnection connectionID connection ;;;
  addConnectionToClient clientID connectionID ;;;
  ret connectionID.

(** The connection the handshake continues, and its identifier. *)
Definition previous_connection (previousConnectionID : string) (counterparty : Counterparty)
    (delayPeriod : N) (clientID : string) : M (string * option ConnectionEnd) :=
  if bool_decide (previousConnectionID ≠ "") then
    let! previousConnection := GetConnection previousConnectionID in
    let! previousConnection := some_or previousConnection (Wrap ConnErr.ErrConnectionNotFound) in
    throw_if (negb
      (bool_decide (Counterparty_ConnectionId (Connection_Counterparty previousConnection) = "") &&
       bool_decide (KeyPrefix (Counterparty_Prefix (Connection_Counterparty previousConnection)) =
                    KeyPrefix (Counterparty_Prefix counterparty)) &&
       bool_decide (ClientId previousConnection = clientID) &&
       bool_decide (Counterparty_ClientId (Connection_Counterparty previousConnection) =
                    Counterparty_ClientId counterparty) &&
       bool_decide (DelayPeriod previousConnection = delayPeriod)))
      (Wrap ConnErr.ErrInvalidConnection) ;;;
    throw_if (negb (bool_decide (Connection_State previousConnection = INIT)))
      (Wrap ConnErr.ErrInvalidConnectionState) ;;;
    ret (previousConnectionID, Some previousConnection)
  else
    let! connectionID := GenerateConnectionIdentifier in
    ret (connectionID, None).

Definition ConnOpenTry (ctx : Context) (previousConnectionID : string) (counterparty : Counterparty)
    (delayPeriod : N) (clientID : string) (clientState : ClientState)
    (counterpartyVersions : list Version) (proofInit proofClient proofConsensus : string)
    (proofHeight consensusHeight : Height) : M string :=
  let! ' (connectionID, previousConnection) :=
    previous_connection previousConnectionID counterparty delayPeriod clientID in
  let! selfHeight := lift (GetSelfHeight ctx) in
  throw_if (GTE consensusHeight selfHeight) (Wrap sdkerrors.ErrInvalidHeight) ;;;
  lift (ValidateSelfClient ctx clientState) ;;;
  let! expectedConsensusState := wrap_err (lift (GetSelfConsensusState ctx consensusHeight)) in
  let expectedCounterparty := NewCounterparty clientID "" GetCommitmentPrefix in
  let expectedConnection :=
    NewConnectionEnd INIT (Counterparty_ClientId counterparty) expectedCounterparty
      counterpartyVersions delayPeriod in
  let supportedVersions :=
    match previousConnection with
    | Some c => if bool_decide (length (Versions c) ≠ 0) then Versions c else GetCompatibleVersions
    | None => GetCompatibleVersions
    end in
  let! version := lift (PickVersion supportedVersions counterpartyVersions) in
  let connection := NewConnectionEnd TRYOPEN clientID counterparty [version] delayPeriod in
  conn_VerifyConnectionState ctx connection proofHeight proofInit
    (Counterparty_ConnectionId counterparty) expectedConnection ;;;
  conn_VerifyClientState ctx connection proofHeight proofClient clientState ;;;
  conn_VerifyClientConsensusState ctx connection proofHeight consensusHeight proofConsensus
    expectedConsensusState ;;;
  wrap_err (addConnectionToClient clientID connectionID) ;;;
  SetConnection connectionID connection ;;;
  ret connectionID.

Definition ConnOpenAck (ctx : Context) (connectionID : string) (clientState : ClientState)
    (version : Version) (counterpartyConnectionID : string)
    (proofTry proofClient proofConsensus : string) (proofHeight consensusHeight : Height) : M unit :=
  let! selfHeight := lift (GetSelfHeight ctx) in
  throw_if (GTE consensusHeight selfHeight) (Wrap sdkerrors.ErrInvalidHeight) ;;;
  let! connection := GetConnection connectionID in
  let! connection := some_or connection (Wrap ConnErr.ErrConnectionNotFound) in
  throw_if (bool_decide (Connection_State connection ≠ INIT) &&
            bool_decide (Connection_State connection ≠ TRYOPEN))
    (Wrap ConnErr.ErrInvalidConnectionState) ;;;
  throw_if (bool_decide (Connection_State connection = INIT) && negb (IsSupportedVersion version))
    (Wrap ConnErr.ErrInvalidConnectionState) ;;;
  throw_if (bool_decide (Connection_State connection = TRYOPEN) &&
            negb (bool_decide (Versions connection = [version])))
    (Wrap ConnErr.ErrInvalidConnectionState) ;;;
  lift (ValidateSelfClient ctx clientState) ;;;
  let! expectedConsensusState := wrap_err (lift (GetSelfConsensusState ctx consensusHeight)) in
  let expectedCounterparty := NewCounterparty (ClientId connection) connectionID GetCommitmentPrefix in
  let expectedConnection :=
    NewConnectionEnd TRYOPEN (Counterparty_ClientId (Connection_Counterparty connection))
      expectedCounterparty [version] (DelayPeriod connection) in
  conn_VerifyConnectionState ctx connection proofHeight proofTry counterpartyConnectionID expectedConnection ;;;
  conn_VerifyClientState ctx connection proofHeight proofClient clientState ;;;
  conn_VerifyClientConsensusState ctx connection proofHeight consensusHeight proofConsensus
    expectedConsensusState ;;;
  SetConnection connectionID
    (mkConnectionEnd (ClientId connection) [version] OPEN
       (NewCounterparty (Counterparty_ClientId (Connection_Counterparty connection))
          counterpartyConnectionID (Counterparty_Prefix (Connection_Counterparty connection)))
       (DelayPeriod connection)).

Definition ConnOpenConfirm (ctx : Context) (connectionID proofAck : string) (proofHeight : Height) : M unit :=
  let! connection := GetConnection connectionID in
  let! connection := some_or connection (Wrap ConnErr.ErrConnectionNotFound) in
  throw_if (bool_decide (Connection_State connection ≠ TRYOPEN))
    (Wrap ConnErr.ErrInvalidConnectionState) ;;;
  let expectedCounterparty := NewCounterparty (ClientId connection) connectionID GetCommitmentPrefix in
  let expectedConnection :=
    NewConnectionEnd OPEN (Counterparty_ClientId (Connection_Counterparty connection))
      expectedCounterparty (Versions connection) (DelayPeriod connection) in
  conn_VerifyConnectionState ctx connection proofHeight proofAck
    (Counterparty_ConnectionId (Connection_Counterparty connection)) expectedConnection ;;;
  SetConnection connectionID
    (mkConnectionEnd (ClientId connection) (Versions connection) OPEN
       (Connection_Counterparty connection) (DelayPeriod connection)).
End keeper.
