(* ===== verification/PortKeeper.v ===== *)
(** * The port keeper ([core/05-port])

    Ports are names owned through capabilities: binding, authentication and the
    lookup of the module that owns a port. *)
From S2P Require Import Prelude GoMonad Errors Sha256 Height Host Sdk ConnectionTypes.
From S2P Require Import ChannelTypes Exported.

(** The module name the core keepers' capability keeper is scoped to. *)
Definition ibc_module : string := "ibc".

(** [types.GetModuleOwner] ([types/utils.go]). *)
Definition GetModuleOwner (modules : list string) : outcome string :=
  match modules with
  | [m0; m1] => Ok (if bool_decide (m0 = "ibc") then m1 else m0)
  | _ => Panic
  end.

Section keeper.
Context {CK : CapabilityKeeper} {AP : Application}.

Definition IsBound (portID : string) : M bool :=
  gets (λ w, bool_decide (is_Some (cap_GetCapability (caps w) ibc_module (PortPath portID)))).

(** An error becomes a panic. *)
Definition must {A} (m : M A) : M A := λ w,
  let '(w', o) := m w in (w', match o with Ok a => Ok a | _ => Panic end).

Definition BindPort (portID : string) : M Capability :=
  must (lift (PortIdentifierValidator portID)) ;;;
  let! bound := IsBound portID in
  if bound then panic
  else must (on_caps (cap_NewCapability ibc_module (PortPath portID))).

Definition Authenticate (key : Capability) (portID : string) : M bool :=
  must (lift (PortIdentifierValidator portID)) ;;;
  gets (λ w, cap_AuthenticateCapability (caps w) ibc_module key (PortPath portID)).

Definition LookupModuleByPort (portID : string) : M (string * Capability) :=
  let! caps := gets caps in
  let! ' (modules, cap) := lift (cap_LookupModules caps ibc_module (PortPath portID)) in
  let! owner := lift (GetModuleOwner modules) in
  ret (owner, cap).

Lemma must_keeps {A T} (f : World → T) (m : M A) : keeps f m → keeps f (must m).
Proof. intros Hm w. unfold must. specialize (Hm w). by destruct (m w). Qed.

Lemma must_Ok {A} (m : M A) w w' a : must m w = (w', Ok a) → m w = (w', Ok a).
Proof. unfold must. destruct (m w) as [w1 [b|e|]]; naive_solver. Qed.

Lemma Authenticate_keeps {T} (f : World → T) key portID : keeps f (Authenticate key portID).
Proof. unfold Authenticate. apply keeps_bind; [apply must_keeps|]; auto with ibc. Qed.
End keeper.
#[export] Hint Resolve Authenticate_keeps : ibc.
