(* ===== verification/ChannelKeeper.v ===== *)
(** * The channel keeper: state, events and packets ([core/04-channel/keeper])

    The store of channel ends, sequences, packet commitments, receipts and
    acknowledgements ([keeper.go]), the events ([events.go]), and the packet life
    cycle: [SendPacket], [RecvPacket], [WriteAcknowledgement], [AcknowledgePacket]
    ([packet.go]), [TimeoutPacket], [TimeoutExecuted], [TimeoutOnClose]
    ([timeout.go]). *)
From S2P Require Import Prelude GoMonad Errors Sha256 Height Host Sdk ConnectionTypes.
From S2P Require Import ChannelTypes Exported ClientKeeper ConnectionKeeper PortKeeper.
From Stdlib Require Import Ascii.

Section keeper.
Context {SE : SdkEncoding} {LC : LightClient} {CD : Codec} {CK : CapabilityKeeper} {AP : Application}.

(** ** State ([keeper.go]) *)

Definition GetNextChannelSequence : M N :=
  let! bz := get_store KeyNextChannelSequence in
  let! bz := some_or_panic bz in
  ret (BigEndianToUint64 bz).

Definition SetNextChannelSequence (sequence : N) : M unit :=
  set_store KeyNextChannelSequence (Uint64ToBigEndian sequence).

Definition GenerateChannelIdentifier : M string :=
  let! nextChannelSeq := GetNextChannelSequence in
  let channelID := FormatChannelIdentifier nextChannelSeq in
  SetNextChannelSequence (u64 (nextChannelSeq + 1)) ;;;
  ret channelID.

Definition GetChannel (portID channelID : string) : M (option Channel) :=
  let! bz := get_store (ChannelKey portID channelID) in
  match bz with
  | None => ret None
  | Some bz =>
      let! channel := some_or_panic (Unmarshal_Channel bz) in
      ret (Some channel)
  end.

Definition SetChannel (portID channelID : string) (channel : Channel) : M unit :=
  set_store (ChannelKey portID channelID) (Marshal_Channel channel).

(** A sequence counter read from the store. *)
Definition get_sequence (key : string) : M (option N) :=
  let! bz := get_store key in ret (BigEndianToUint64 <$> bz).

Definition GetNextSequenceSend (portID channelID : string) : M (option N) :=
  get_sequence (NextSequenceSendKey portID channelID).
Definition SetNextSequenceSend (portID channelID : string) (sequence : N) : M unit :=
  set_store (NextSequenceSendKey portID channelID) (Uint64ToBigEndian sequence).
Definition GetNextSequenceRecv (portID channelID : string) : M (option N) :=
  get_sequence (NextSequenceRecvKey portID channelID).
Definition SetNextSequenceRecv (portID channelID : string) (sequence : N) : M unit :=
  set_store (NextSequenceRecvKey portID channelID) (Uint64ToBigEndian sequence).
Definition GetNextSequenceAck (portID channelID : string) : M (option N) :=
  get_sequence (NextSequenceAckKey portID channelID).
Definition SetNextSequenceAck (portID channelID : string) (sequence : N) : M unit :=
  set_store (NextSequenceAckKey portID channelID) (Uint64ToBigEndian sequence).

Definition GetPacketReceipt (portID channelID : string) (sequence : N) : M (option string) :=
  get_store (PacketReceiptKey portID channelID sequence).
(** The receipt is the single byte 1. *)
Definition SetPacketReceipt (portID channelID : string) (sequence : N) : M unit :=
  set_store (PacketReceiptKey portID channelID sequence) (String "001" "").

(** A missing commitment is the empty byte slice. *)
Definition GetPacketCommitment (portID channelID : string) (sequence : N) : M string :=
  let! bz := get_store (PacketCommitmentKey portID channelID sequence) in ret (default "" bz).
Definition HasPacketCommitment (portID channelID : string) (sequence : N) : M bool :=
  has_store (PacketCommitmentKey portID channelID sequence).
Definition SetPacketCommitment (portID channelID : string) (sequence : N) (commitmentHash : string) : M unit :=
  set_store (PacketCommitmentKey portID channelID sequence) commitmentHash.
Definition deletePacketCommitment (portID channelID : string) (sequence : N) : M unit :=
  delete_store (PacketCommitmentKey portID channelID sequence).

Definition SetPacketAcknowledgement (portID channelID : string) (sequence : N) (ackHash : string) : M unit :=
  set_store (PacketAcknowledgementKey portID channelID sequence) ackHash.
Definition GetPacketAcknowledgement (portID channelID : string) (sequence : N) : M (option string) :=
  get_store (PacketAcknowledgementKey portID channelID sequence).
Definition HasPacketAcknowledgement (portID channelID : string) (sequence : N) : M bool :=
  has_store (PacketAcknowledgementKey portID channelID sequence).

(** [hops[0]]: Go panics on an empty slice. *)
Definition hop0 (hops : list string) : M string := some_or_panic (head hops).

Definition GetChannelClientState (portID channelID : string) : M (string * ClientState) :=
  let! channel := GetChannel portID channelID in
  let! channel := some_or channel (Wrap ChanErr.ErrChannelNotFound) in
  let! hop := hop0 (ConnectionHops channel) in
  let! connection := GetConnection hop in
  let! connection := some_or connection (Wrap ConnErr.ErrConnectionNotFound) in
  let! clientState := GetClientState (connectiontypes.ClientId connection) in
  let! clientState := some_or clientState (Wrap ClientErr.ErrClientNotFound) in
  ret (connectiontypes.ClientId connection, clientState).

Definition GetChannelConnection (portID channelID : string) : M (string * connectiontypes.ConnectionEnd) :=
  let! channel := GetChannel portID channelID in
  let! channel := some_or channel (Wrap ChanErr.ErrChannelNotFound) in
  let! connectionID := hop0 (ConnectionHops channel) in
  let! connection := GetConnection connectionID in
  let! connection := some_or connection (Wrap ConnErr.ErrConnectionNotFound) in
  ret (connectionID, connection).

Definition LookupModuleByChannel (portID channelID : string) : M (string * Capability) :=
  let! caps := gets caps in
  let! ' (modules, cap) :=
    lift (cap_LookupModules caps ibc_module (ChannelCapabilityPath portID channelID)) in
  let! owner := lift (GetModuleOwner modules) in
  ret (owner, cap).

(** [k.scopedKeeper.AuthenticateCapability(ctx, cap, name)] *)
Definition AuthenticateCapability (cap : Capability) (name : string) : M bool :=
  gets (λ w, cap_AuthenticateCapability (caps w) ibc_module cap name).

(** ** Events ([events.go]) *)

Definition message_event : Event := NewEvent "message" [("module", "ibc_channel")].

Definition packet_attributes (packet : Packet) : list (string * string) :=
  [("packet_timeout_height", Height_String (TimeoutHeight packet));
   ("packet_timeout_timestamp", fmt_u64 (TimeoutTimestamp packet));
   ("packet_sequence", fmt_u64 (Sequence packet));
   ("packet_src_port", SourcePort packet);
   ("packet_src_channel", SourceChannel packet);
   ("packet_dst_port", DestinationPort packet);
   ("packet_dst_channel", DestinationChannel packet)].

Definition data_attributes (packet : Packet) : list (string * string) :=
  [("packet_data", Data packet); ("packet_data_hex", hex_EncodeToString (Data packet))].

(** The attribute list is built before anything is emitted: [ConnectionHops[0]]
    panics first. *)
Definition EmitSendPacketEvent (packet : Packet) (channel : Channel) : M unit :=
  let! hop := hop0 (ConnectionHops channel) in
  EmitEvent (NewEvent "send_packet" (data_attributes packet ++ packet_attributes packet ++
    [("packet_channel_ordering", Order_String (Channel_Ordering channel)); ("packet_connection", hop)])) ;;;
  EmitEvent message_event.

Definition EmitRecvPacketEvent (packet : Packet) (channel : Channel) : M unit :=
  let! hop := hop0 (ConnectionHops channel) in
  EmitEvent (NewEvent "recv_packet" (data_attributes packet ++ packet_attributes packet ++
    [("packet_channel_ordering", Order_String (Channel_Ordering channel)); ("packet_connection", hop)])) ;;;
  EmitEvent message_event.

Definition EmitWriteAcknowledgementEvent (packet : Packet) (channel : Channel) (acknowledgement : string) : M unit :=
  let! hop := hop0 (ConnectionHops channel) in
  EmitEvent (NewEvent "write_acknowledgement" (data_attributes packet ++ packet_attributes packet ++
    [("packet_ack", acknowledgement); ("packet_ack_hex", hex_EncodeToString acknowledgement);
     ("packet_connection", hop)])) ;;;
  EmitEvent message_event.

Definition EmitAcknowledgePacketEvent (packet : Packet) (channel : Channel) : M unit :=
  let! hop := hop0 (ConnectionHops channel) in
  EmitEvent (NewEvent "acknowledge_packet" (packet_attributes packet ++
    [("packet_channel_ordering", Order_String (Channel_Ordering channel)); ("packet_connection", hop)])) ;;;
  EmitEvent message_event.

Definition EmitTimeoutPacketEvent (packet : Packet) (channel : Channel) : M unit :=
  EmitEvent (NewEvent "timeout_packet" (packet_attributes packet ++
    [("packet_channel_ordering", Order_String (Channel_Ordering channel))])) ;;;
  EmitEvent message_event.

(** ** Packets ([packet.go]) *)

(** [hop := channel.ConnectionHops[0]; connectionEnd, found := k.connectionKeeper.GetConnection(ctx, hop)] *)
Definition channel_connection (channel : Channel) : M connectiontypes.ConnectionEnd :=
  let! hop := hop0 (ConnectionHops channel) in
  let! connectionEnd := GetConnection hop in
  some_or connectionEnd (Wrap ConnErr.ErrConnectionNotFound).

(** [if connectionEnd.GetState() != int32(connectiontypes.OPEN) { ... }] *)
Definition connection_open (connectionEnd : connectiontypes.ConnectionEnd) : M unit :=
  throw_if (bool_decide (connectiontypes.Connection_State connectionEnd ≠ connectiontypes.OPEN))
    (Wrap ConnErr.ErrInvalidConnectionState).

(** The timestamp check of [SendPacket], skipped for solo machines. *)
Definition send_timestamp_check (clientType : string) (connectionEnd : connectiontypes.ConnectionEnd)
    (latestHeight : Height) (packet : Packet) : M unit :=
  if bool_decide (clientType ≠ Solomachine) then
    let! latestTimestamp := GetTimestampAtHeight connectionEnd latestHeight in
    throw_if (negb (TimeoutTimestamp packet =? 0)%N && (TimeoutTimestamp packet <=? latestTimestamp)%N)
      (Wrap ChanErr.ErrPacketTimeout)
  else ret tt.

Definition SendPacket (ctx : Context) (channelCap : Capability) (packet : Packet) : M unit :=
  wrap_err (lift (Packet_ValidateBasic packet)) ;;;
  let! channel := GetChannel (SourcePort packet) (SourceChannel packet) in
  let! channel := some_or channel (Wrap ChanErr.ErrChannelNotFound) in
  throw_if (bool_decide (Channel_State channel = CLOSED)) (Wrap ChanErr.ErrInvalidChannelState) ;;;
  let! authenticated :=
    AuthenticateCapability channelCap (ChannelCapabilityPath (SourcePort packet) (SourceChannel packet)) in
  throw_if (negb authenticated) (Wrap ChanErr.ErrChannelCapabilityNotFound) ;;;
  throw_if (bool_decide (DestinationPort packet ≠ Counterparty_PortId (Channel_Counterparty channel)))
    (Wrap ChanErr.ErrInvalidPacket) ;;;
  throw_if (bool_decide (DestinationChannel packet ≠ Counterparty_ChannelId (Channel_Counterparty channel)))
    (Wrap ChanErr.ErrInvalidPacket) ;;;
  let! connectionEnd := channel_connection channel in
  let clientID := connectiontypes.ClientId connectionEnd in
  let! clientState := GetClientState clientID in
  let! clientState := some_or clientState ClientErr.ErrConsensusStateNotFound in
  let! status := get_status ctx clientID clientState in
  throw_if (bool_decide (status ≠ Active)) (Wrap ClientErr.ErrClientNotActive) ;;;
  let latestHeight := GetLatestHeight clientState in
  let timeoutHeight := TimeoutHeight packet in
  throw_if (negb (Height_IsZero timeoutHeight) && GTE latestHeight timeoutHeight)
    (Wrap ChanErr.ErrPacketTimeout) ;;;
  let! ' (clientType, _) := lift (ParseClientIdentifier clientID) in
  send_timestamp_check clientType connectionEnd latestHeight packet ;;;
  let! nextSequenceSend := GetNextSequenceSend (SourcePort packet) (SourceChannel packet) in
  let! nextSequenceSend := some_or nextSequenceSend (Wrap ChanErr.ErrSequenceSendNotFound) in
  throw_if (bool_decide (Sequence packet ≠ nextSequenceSend)) (Wrap ChanErr.ErrInvalidPacket) ;;;
  let commitment := CommitPacket packet in
  SetNextSequenceSend (SourcePort packet) (SourceChannel packet) (u64 (nextSequenceSend + 1)) ;;;
  SetPacketCommitment (SourcePort packet) (SourceChannel packet) (Sequence packet) commitment ;;;
  EmitSendPacketEvent packet channel.

(** The [switch channel.Ordering] of [RecvPacket]. *)
Definition recv_by_ordering (channel : Channel) (packet : Packet) : M unit :=
  match Channel_Ordering channel with
  | UNORDERED =>
      let! receipt := GetPacketReceipt (DestinationPort packet) (DestinationChannel packet) (Sequence packet) in
      match receipt with
      | Some _ => EmitRecvPacketEvent packet channel ;;; throw ChanErr.ErrNoOpMsg
      | None => SetPacketReceipt (DestinationPort packet) (DestinationChannel packet) (Sequence packet)
      end
  | ORDERED =>
      let! nextSequenceRecv := GetNextSequenceRecv (DestinationPort packet) (DestinationChannel packet) in
      let! nextSequenceRecv := some_or nextSequenceRecv (Wrap ChanErr.ErrSequenceReceiveNotFound) in
      if (Sequence packet <? nextSequenceRecv)%N
      then EmitRecvPacketEvent packet channel ;;; throw ChanErr.ErrNoOpMsg
      else
        throw_if (bool_decide (Sequence packet ≠ nextSequenceRecv)) (Wrap ChanErr.ErrPacketSequenceOutOfOrder) ;;;
        SetNextSequenceRecv (DestinationPort packet) (DestinationChannel packet) (u64 (nextSequenceRecv + 1))
  | NONE => ret tt
  end.

Definition RecvPacket (ctx : Context) (chanCap : Capability) (packet : Packet) (proof : string)
    (proofHeight : Height) : M unit :=
  let! channel := GetChannel (DestinationPort packet) (DestinationChannel packet) in
  let! channel := some_or channel (Wrap ChanErr.ErrChannelNotFound) in
  throw_if (bool_decide (Channel_State channel ≠ OPEN)) (Wrap ChanErr.ErrInvalidChannelState) ;;;
  let! authenticated :=
    AuthenticateCapability chanCap (ChannelCapabilityPath (DestinationPort packet) (DestinationChannel packet)) in
  throw_if (negb authenticated) (Wrap ChanErr.ErrInvalidChannelCapability) ;;;
  throw_if (bool_decide (SourcePort packet ≠ Counterparty_PortId (Channel_Counterparty channel)))
    (Wrap ChanErr.ErrInvalidPacket) ;;;
  throw_if (bool_decide (SourceChannel packet ≠ Counterparty_ChannelId (Channel_Counterparty channel)))
    (Wrap ChanErr.ErrInvalidPacket) ;;;
  let! connectionEnd := channel_connection channel in
  connection_open connectionEnd ;;;
  let! selfHeight := lift (GetSelfHeight ctx) in
  let timeoutHeight := TimeoutHeight packet in
  throw_if (negb (Height_IsZero timeoutHeight) && GTE selfHeight timeoutHeight)
    (Wrap ChanErr.ErrPacketTimeout) ;;;
  throw_if (negb (TimeoutTimestamp packet =? 0)%N && (TimeoutTimestamp packet <=? uint64_of_Z (BlockTime ctx))%N)
    (Wrap ChanErr.ErrPacketTimeout) ;;;
  let commitment := CommitPacket packet in
  wrap_err (conn_VerifyPacketCommitment ctx connectionEnd proofHeight proof
    (SourcePort packet) (SourceChannel packet) (Sequence packet) commitment) ;;;
  recv_by_ordering channel packet ;;;
  EmitRecvPacketEvent packet channel.

Definition WriteAcknowledgement (chanCap : Capability) (packet : Packet) (acknowledgement : string) : M unit :=
  let! channel := GetChannel (DestinationPort packet) (DestinationChannel packet) in
  let! channel := some_or channel (Wrap ChanErr.ErrChannelNotFound) in
  throw_if (bool_decide (Channel_State channel ≠ OPEN)) (Wrap ChanErr.ErrInvalidChannelState) ;;;
  let! authenticated :=
    AuthenticateCapability chanCap (ChannelCapabilityPath (DestinationPort packet) (DestinationChannel packet)) in
  throw_if (negb authenticated) (Wrap ChanErr.ErrInvalidChannelCapability) ;;;
  let! exists_ := HasPacketAcknowledgement (DestinationPort packet) (DestinationChannel packet) (Sequence packet) in
  throw_if exists_ ChanErr.ErrAcknowledgementExists ;;;
  throw_if (bool_decide (String.length acknowledgement = 0)) (Wrap ChanErr.ErrInvalidAcknowledgement) ;;;
  SetPacketAcknowledgement (DestinationPort packet) (DestinationChannel packet) (Sequence packet)
    (CommitAcknowledgement acknowledgement) ;;;
  EmitWriteAcknowledgementEvent packet channel acknowledgement.

(** [AcknowledgePacket] on ORDERED channels: acknowledgements are processed in order. *)
Definition ack_in_order (channel : Channel) (packet : Packet) : M unit :=
  if bool_decide (Channel_Ordering channel = ORDERED) then
    let! nextSequenceAck := GetNextSequenceAck (SourcePort packet) (SourceChannel packet) in
    let! nextSequenceAck := some_or nextSequenceAck (Wrap ChanErr.ErrSequenceAckNotFound) in
    throw_if (bool_decide (Sequence packet ≠ nextSequenceAck)) (Wrap ChanErr.ErrPacketSequenceOutOfOrder) ;;;
    SetNextSequenceAck (SourcePort packet) (SourceChannel packet) (u64 (nextSequenceAck + 1))
  else ret tt.

Definition AcknowledgePacket (ctx : Context) (chanCap : Capability) (packet : Packet)
    (acknowledgement proof : string) (proofHeight : Height) : M unit :=
  let! channel := GetChannel (SourcePort packet) (SourceChannel packet) in
  let! channel := some_or channel (Wrap ChanErr.ErrChannelNotFound) in
  throw_if (bool_decide (Channel_State channel ≠ OPEN)) (Wrap ChanErr.ErrInvalidChannelState) ;;;
  let! authenticated :=
    AuthenticateCapability chanCap (ChannelCapabilityPath (SourcePort packet) (SourceChannel packet)) in
  throw_if (negb authenticated) (Wrap ChanErr.ErrInvalidChannelCapability) ;;;
  throw_if (bool_decide (DestinationPort packet ≠ Counterparty_PortId (Channel_Counterparty channel)))
    (Wrap ChanErr.ErrInvalidPacket) ;;;
  throw_if (bool_decide (DestinationChannel packet ≠ Counterparty_ChannelId (Channel_Counterparty channel)))
    (Wrap ChanErr.ErrInvalidPacket) ;;;
  let! connectionEnd := channel_connection channel in
  connection_open connectionEnd ;;;
  let! commitment := GetPacketCommitment (SourcePort packet) (SourceChannel packet) (Sequence packet) in
  if bool_decide (String.length commitment = 0)
  then EmitAcknowledgePacketEvent packet channel ;;; throw ChanErr.ErrNoOpMsg
  else
    let packetCommitment := CommitPacket packet in
    throw_if (bool_decide (commitment ≠ packetCommitment)) (Wrap ChanErr.ErrInvalidPacket) ;;;
    conn_VerifyPacketAcknowledgement ctx connectionEnd proofHeight proof
      (DestinationPort packet) (DestinationChannel packet) (Sequence packet) acknowledgement ;;;
    ack_in_order channel packet ;;;
    deletePacketCommitment (SourcePort packet) (SourceChannel packet) (Sequence packet) ;;;
    EmitAcknowledgePacketEvent packet channel.

(** ** Timeouts ([timeout.go]) *)

(** The final [switch] of [TimeoutPacket] and [TimeoutOnClose]: a proof that the
    counterparty has not received the packet; [received] is the error returned
    when the relayer's own claim already says that it has. *)
Definition verify_not_received (ctx : Context) (connectionEnd : connectiontypes.ConnectionEnd)
    (channel : Channel) (packet : Packet) (proof : string) (proofHeight : Height)
    (nextSequenceRecv : N) (received : error) : M unit :=
  match Channel_Ordering channel with
  | ORDERED =>
      throw_if (Sequence packet <? nextSequenceRecv)%N received ;;;
      conn_VerifyNextSequenceRecv ctx connectionEnd proofHeight proof
        (DestinationPort packet) (DestinationChannel packet) nextSequenceRecv
  | UNORDERED =>
      conn_VerifyPacketReceiptAbsence ctx connectionEnd proofHeight proof
        (DestinationPort packet) (DestinationChannel packet) (Sequence packet)
  | NONE => panic
  end.

Definition TimeoutPacket (ctx : Context) (packet : Packet) (proof : string) (proofHeight : Height)
    (nextSequenceRecv : N) : M unit :=
  let! channel := GetChannel (SourcePort packet) (SourceChannel packet) in
  let! channel := some_or channel (Wrap ChanErr.ErrChannelNotFound) in
  throw_if (bool_decide (DestinationPort packet ≠ Counterparty_PortId (Channel_Counterparty channel)))
    (Wrap ChanErr.ErrInvalidPacket) ;;;
  throw_if (bool_decide (DestinationChannel packet ≠ Counterparty_ChannelId (Channel_Counterparty channel)))
    (Wrap ChanErr.ErrInvalidPacket) ;;;
  let! connectionEnd := channel_connection channel in
  let! proofTimestamp := GetTimestampAtHeight connectionEnd proofHeight in
  let timeoutHeight := TimeoutHeight packet in
  throw_if ((Height_IsZero timeoutHeight || LT proofHeight timeoutHeight) &&
            ((TimeoutTimestamp packet =? 0)%N || (proofTimestamp <? TimeoutTimestamp packet)%N))
    (Wrap ChanErr.ErrPacketTimeout) ;;;
  let! commitment := GetPacketCommitment (SourcePort packet) (SourceChannel packet) (Sequence packet) in
  if bool_decide (String.length commitment = 0)
  then EmitTimeoutPacketEvent packet channel ;;; throw ChanErr.ErrNoOpMsg
  else
    throw_if (bool_decide (Channel_State channel ≠ OPEN)) (Wrap ChanErr.ErrInvalidChannelState) ;;;
    let packetCommitment := CommitPacket packet in
    throw_if (bool_decide (commitment ≠ packetCommitment)) (Wrap ChanErr.ErrInvalidPacket) ;;;
    verify_not_received ctx connectionEnd channel packet proof proofHeight nextSequenceRecv
      (Wrap ChanErr.ErrPacketReceived).

Definition TimeoutExecuted (chanCap : Capability) (packet : Packet) : M unit :=
  let! channel := GetChannel (SourcePort packet) (SourceChannel packet) in
  let! channel := some_or channel (Wrap ChanErr.ErrChannelNotFound) in
  let! authenticated :=
    AuthenticateCapability chanCap (ChannelCapabilityPath (SourcePort packet) (SourceChannel packet)) in
  throw_if (negb authenticated) (Wrap ChanErr.ErrChannelCapabilityNotFound) ;;;
  deletePacketCommitment (SourcePort packet) (SourceChannel packet) (Sequence packet) ;;;
  let! channel :=
    if bool_decide (Channel_Ordering channel = ORDERED) then
      let channel := set_State CLOSED channel in
      SetChannel (SourcePort packet) (SourceChannel packet) channel ;;;
      ret channel
    else ret channel in
  EmitTimeoutPacketEvent packet channel.

Definition TimeoutOnClose (ctx : Context) (chanCap : Capability) (packet : Packet)
    (proof proofClosed : string) (proofHeight : Height) (nextSequenceRecv : N) : M unit :=
  let! channel := GetChannel (SourcePort packet) (SourceChannel packet) in
  let! channel := some_or channel (Wrap ChanErr.ErrChannelNotFound) in
  let! authenticated :=
    AuthenticateCapability chanCap (ChannelCapabilityPath (SourcePort packet) (SourceChannel packet)) in
  throw_if (negb authenticated) (Wrap ChanErr.ErrInvalidChannelCapability) ;;;
  throw_if (bool_decide (DestinationPort packet ≠ Counterparty_PortId (Channel_Counterparty channel)))
    (Wrap ChanErr.ErrInvalidPacket) ;;;
  throw_if (bool_decide (DestinationChannel packet ≠ Counterparty_ChannelId (Channel_Counterparty channel)))
    (Wrap ChanErr.ErrInvalidPacket) ;;;
  let! connectionEnd := channel_connection channel in
  let! commitment := GetPacketCommitment (SourcePort packet) (SourceChannel packet) (Sequence packet) in
  if bool_decide (String.length commitment = 0)
  then EmitTimeoutPacketEvent packet channel ;;; throw ChanErr.ErrNoOpMsg
  else
    let packetCommitment := CommitPacket packet in
    throw_if (bool_decide (commitment ≠ packetCommitment)) (Wrap ChanErr.ErrInvalidPacket) ;;;
    let counterpartyHops :=
      [connectiontypes.Counterparty_ConnectionId (connectiontypes.Connection_Counterparty connectionEnd)] in
    let counterparty := NewCounterparty (SourcePort packet) (SourceChannel packet) in
    let expectedChannel :=
      NewChannel CLOSED (Channel_Ordering channel) counterparty counterpartyHops (Channel_Version channel) in
    conn_VerifyChannelState ctx connectionEnd proofHeight proofClosed
      (Counterparty_PortId (Channel_Counterparty channel)) (Counterparty_ChannelId (Channel_Counterparty channel))
      expectedChannel ;;;
    verify_not_received ctx connectionEnd channel packet proof proofHeight nextSequenceRecv
      (Wrap ChanErr.ErrInvalidPacket).
End keeper.
