(* ===== verification/ChannelHandshake.v ===== *)
(** * The channel handshake ([core/04-channel/keeper/handshake.go])

    Opening ([ChanOpenInit], [ChanOpenTry], [ChanOpenAck], [ChanOpenConfirm], each with
    the [Write...Channel] step the message server runs after the application
    callback) and closing ([ChanCloseInit], [ChanCloseConfirm]). *)
From S2P Require Import Prelude GoMonad Errors Sha256 Height Host Sdk ConnectionTypes.
From S2P Require Import ChannelTypes Exported ClientKeeper ConnectionKeeper PortKeeper.
From S2P Require Import ChannelKeeper.

Section keeper.
Context {SE : SdkEncoding} {LC : LightClient} {CD : Codec} {CK : CapabilityKeeper} {AP : Application}.

(** The version checks of [ChanOpenInit] and [ChanOpenTry]. *)
Definition check_connection_version (connectionEnd : connectiontypes.ConnectionEnd) (order : Order) : M unit :=
  match connectiontypes.Versions connectionEnd with
  | [version] =>
      throw_if (negb (connectiontypes.VerifySupportedFeature version (Order_String order)))
        (Wrap ConnErr.ErrInvalidVersion)
  | _ => throw (Wrap ConnErr.ErrInvalidVersion)
  end.

Definition counterparty_hops (connectionEnd : connectiontypes.ConnectionEnd) : list string :=
  [connectiontypes.Counterparty_ConnectionId (connectiontypes.Connection_Counterparty connectionEnd)].

Definition ChanOpenInit (order : Order) (connectionHops : list string) (portID : string)
    (portCap : Capability) : M (string * Capability) :=
  let! hop := hop0 connectionHops in
  let! connectionEnd := GetConnection hop in
  let! connectionEnd := some_or connectionEnd (Wrap ConnErr.ErrConnectionNotFound) in
  check_connection_version connectionEnd order ;;;
  let! authenticated := Authenticate portCap portID in
  throw_if (negb authenticated) (Wrap PortErr.ErrInvalidPort) ;;;
  let! channelID := GenerateChannelIdentifier in
  let! capKey := wrap_err (on_caps (cap_NewCapability ibc_module (ChannelCapabilityPath portID channelID))) in
  ret (channelID, capKey).

(** The event of a handshake step. *)
Definition handshake_event (eventType portID channelID : string) (counterparty : Counterparty)
    (hop : string) : Event :=
  NewEvent eventType
    [("port_id", portID); ("channel_id", channelID);
     ("counterparty_port_id", Counterparty_PortId counterparty);
     ("counterparty_channel_id", Counterparty_ChannelId counterparty); ("connection_id", hop)].

Definition WriteOpenInitChannel (portID channelID : string) (order : Order) (connectionHops : list string)
    (counterparty : Counterparty) (version : string) : M unit :=
  let channel := NewChannel INIT order counterparty connectionHops version in
  SetChannel portID channelID channel ;;;
  SetNextSequenceSend portID channelID 1 ;;;
  SetNextSequenceRecv portID channelID 1 ;;;
  SetNextSequenceAck portID channelID 1 ;;;
  let! hop := hop0 connectionHops in
  EmitEvent (handshake_event "channel_open_init" portID channelID counterparty hop) ;;;
  EmitEvent message_event.

(** The channel [ChanOpenTry] continues with: the previous channel, or a new
    identifier; the flag is [previousChannelFound]. *)
Definition previous_channel (order : Order) (hop portID previousChannelID : string)
    (counterparty : Counterparty) (counterpartyVersion : string) : M (string * bool) :=
  if bool_decide (previousChannelID ≠ "") then
    let! previousChannel := GetChannel portID previousChannelID in
    let! previousChannel := some_or previousChannel (Wrap ChanErr.ErrInvalidChannel) in
    (* the conjunction is evaluated from left to right: the hop is only read,
       and panics when there is none, if the tests before it hold *)
    throw_if (negb
      (bool_decide (Channel_Ordering previousChannel = order) &&
       bool_decide (Counterparty_PortId (Channel_Counterparty previousChannel) = Counterparty_PortId counterparty) &&
       bool_decide (Counterparty_ChannelId (Channel_Counterparty previousChannel) = "")))
      (Wrap ChanErr.ErrInvalidChannel) ;;;
    let! previousHop := hop0 (ConnectionHops previousChannel) in
    throw_if (negb (bool_decide (previousHop = hop) &&
                    bool_decide (Channel_Version previousChannel = counterpartyVersion)))
      (Wrap ChanErr.ErrInvalidChannel) ;;;
    throw_if (bool_decide (Channel_State previousChannel ≠ INIT)) (Wrap ChanErr.ErrInvalidChannelState) ;;;
    ret (previousChannelID, true)
  else
    let! channelID := GenerateChannelIdentifier in
    ret (channelID, false).

(** The channel capability: new, or the one created by [ChanOpenInit]. *)
Definition try_capability (portID channelID : string) (previousChannelFound : bool) : M Capability :=
  if negb previousChannelFound
  then wrap_err (on_caps (cap_NewCapability ibc_module (ChannelCapabilityPath portID channelID)))
  else
    let! caps := gets caps in
    some_or (cap_GetCapability caps ibc_module (ChannelCapabilityPath portID channelID))
      (Wrap ChanErr.ErrChannelCapabilityNotFound).

Definition ChanOpenTry (ctx : Context) (order : Order) (connectionHops : list string)
    (portID previousChannelID : string) (portCap : Capability) (counterparty : Counterparty)
    (counterpartyVersion proofInit : string) (proofHeight : Height) : M (string * Capability) :=
  throw_if (bool_decide (length connectionHops ≠ 1)) (Wrap ChanErr.ErrTooManyConnectionHops) ;;;
  let! hop := hop0 connectionHops in
  let! ' (channelID, previousChannelFound) :=
    previous_channel order hop portID previousChannelID counterparty counterpartyVersion in
  let! authenticated := Authenticate portCap portID in
  throw_if (negb authenticated) (Wrap PortErr.ErrInvalidPort) ;;;
  let! connectionEnd := GetConnection hop in
  let! connectionEnd := some_or connectionEnd (Wrap ConnErr.ErrConnectionNotFound) in
  connection_open connectionEnd ;;;
  check_connection_version connectionEnd order ;;;
  let expectedCounterparty := NewCounterparty portID "" in
  let expectedChannel :=
    NewChannel INIT order expectedCounterparty (counterparty_hops connectionEnd) counterpartyVersion in
  conn_VerifyChannelState ctx connectionEnd proofHeight proofInit
    (Counterparty_PortId counterparty) (Counterparty_ChannelId counterparty) expectedChannel ;;;
  let! capKey := try_capability portID channelID previousChannelFound in
  ret (channelID, capKey).

Definition WriteOpenTryChannel (portID channelID : string) (order : Order) (connectionHops : list string)
    (counterparty : Counterparty) (version : string) : M unit :=
  let! previousChannel := GetChannel portID channelID in
  match previousChannel with
  | None =>
      SetNextSequenceSend portID channelID 1 ;;;
      SetNextSequenceRecv portID channelID 1 ;;;
      SetNextSequenceAck portID channelID 1
  | Some _ => ret tt
  end ;;;
  let channel := NewChannel TRYOPEN order counterparty connectionHops version in
  SetChannel portID channelID channel ;;;
  let! hop := hop0 connectionHops in
  EmitEvent (handshake_event "channel_open_try" portID channelID counterparty hop) ;;;
  EmitEvent message_event.

Definition ChanOpenAck (ctx : Context) (portID channelID : string) (chanCap : Capability)
    (counterpartyVersion counterpartyChannelID proofTry : string) (proofHeight : Height) : M unit :=
  let! channel := GetChannel portID channelID in
  let! channel := some_or channel (Wrap ChanErr.ErrChannelNotFound) in
  throw_if (negb (bool_decide (Channel_State channel = INIT) || bool_decide (Channel_State channel = TRYOPEN)))
    (Wrap ChanErr.ErrInvalidChannelState) ;;;
  let! authenticated := AuthenticateCapability chanCap (ChannelCapabilityPath portID channelID) in
  throw_if (negb authenticated) (Wrap ChanErr.ErrChannelCapabilityNotFound) ;;;
  let! connectionEnd := channel_connection channel in
  connection_open connectionEnd ;;;
  let expectedCounterparty := NewCounterparty portID channelID in
  let expectedChannel :=
    NewChannel TRYOPEN (Channel_Ordering channel) expectedCounterparty (counterparty_hops connectionEnd)
      counterpartyVersion in
  conn_VerifyChannelState ctx connectionEnd proofHeight proofTry
    (Counterparty_PortId (Channel_Counterparty channel)) counterpartyChannelID expectedChannel.

Definition WriteOpenAckChannel (portID channelID counterpartyVersion counterpartyChannelID : string) : M unit :=
  let! channel := GetChannel portID channelID in
  let! channel := some_or_panic channel in
  let channel :=
    NewChannel OPEN (Channel_Ordering channel)
      (NewCounterparty (Counterparty_PortId (Channel_Counterparty channel)) counterpartyChannelID)
      (ConnectionHops channel) counterpartyVersion in
  SetChannel portID channelID channel ;;;
  let! hop := hop0 (ConnectionHops channel) in
  EmitEvent (handshake_event "channel_open_ack" portID channelID (Channel_Counterparty channel) hop) ;;;
  EmitEvent message_event.

Definition ChanOpenConfirm (ctx : Context) (portID channelID : string) (chanCap : Capability)
    (proofAck : string) (proofHeight : Height) : M unit :=
  let! channel := GetChannel portID channelID in
  let! channel := some_or channel (Wrap ChanErr.ErrChannelNotFound) in
  throw_if (bool_decide (Channel_State channel ≠ TRYOPEN)) (Wrap ChanErr.ErrInvalidChannelState) ;;;
  let! authenticated := AuthenticateCapability chanCap (ChannelCapabilityPath portID channelID) in
  throw_if (negb authenticated) (Wrap ChanErr.ErrChannelCapabilityNotFound) ;;;
  let! connectionEnd := channel_connection channel in
  connection_open connectionEnd ;;;
  let counterparty := NewCounterparty portID channelID in
  let expectedChannel :=
    NewChannel OPEN (Channel_Ordering channel) counterparty (counterparty_hops connectionEnd)
      (Channel_Version channel) in
  conn_VerifyChannelState ctx connectionEnd proofHeight proofAck
    (Counterparty_PortId (Channel_Counterparty channel)) (Counterparty_ChannelId (Channel_Counterparty channel))
    expectedChannel.

Definition WriteOpenConfirmChannel (portID channelID : string) : M unit :=
  let! channel := GetChannel portID channelID in
  let! channel := some_or_panic channel in
  let channel := set_State OPEN channel in
  SetChannel portID channelID channel ;;;
  let! hop := hop0 (ConnectionHops channel) in
  EmitEvent (handshake_event "channel_open_confirm" portID channelID (Channel_Counterparty channel) hop) ;;;
  EmitEvent message_event.

Definition ChanCloseInit (portID channelID : string) (chanCap : Capability) : M unit :=
  let! authenticated := AuthenticateCapability chanCap (ChannelCapabilityPath portID channelID) in
  throw_if (negb authenticated) (Wrap ChanErr.ErrChannelCapabilityNotFound) ;;;
  let! channel := GetChannel portID channelID in
  let! channel := some_or channel (Wrap ChanErr.ErrChannelNotFound) in
  throw_if (bool_decide (Channel_State channel = CLOSED)) (Wrap ChanErr.ErrInvalidChannelState) ;;;
  let! connectionEnd := channel_connection channel in
  connection_open connectionEnd ;;;
  let channel := set_State CLOSED channel in
  SetChannel portID channelID channel ;;;
  let! hop := hop0 (ConnectionHops channel) in
  EmitEvent (handshake_event "channel_close_init" portID channelID (Channel_Counterparty channel) hop).

Definition ChanCloseConfirm (ctx : Context) (portID channelID : string) (chanCap : Capability)
    (proofInit : string) (proofHeight : Height) : M unit :=
  let! authenticated := AuthenticateCapability chanCap (ChannelCapabilityPath portID channelID) in
  throw_if (negb authenticated) (Wrap ChanErr.ErrChannelCapabilityNotFound) ;;;
  let! channel := GetChannel portID channelID in
  let! channel := some_or channel (Wrap ChanErr.ErrChannelNotFound) in
  throw_if (bool_decide (Channel_State channel = CLOSED)) (Wrap ChanErr.ErrInvalidChannelState) ;;;
  let! connectionEnd := channel_connection channel in
  connection_open connectionEnd ;;;
  let counterparty := NewCounterparty portID channelID in
  let expectedChannel :=
    NewChannel CLOSED (Channel_Ordering channel) counterparty (counterparty_hops connectionEnd)
      (Channel_Version channel) in
  conn_VerifyChannelState ctx connectionEnd proofHeight proofInit
    (Counterparty_PortId (Channel_Counterparty channel)) (Counterparty_ChannelId (Channel_Counterparty channel))
    expectedChannel ;;;
  let channel := set_State CLOSED channel in
  SetChannel portID channelID channel ;;;
  let! hop := hop0 (ConnectionHops channel) in
  EmitEvent (handshake_event "channel_close_confirm" portID channelID (Channel_Counterparty channel) hop).
End keeper.
