(* ===== verification/FullNode.v ===== *)
(** * Concrete instances of the interfaces

    The theorems of the development hold for every light client, codec and
    capability keeper that meet the interfaces of [Exported.v].  The instances of
    this file show that the interfaces can be met together, and make every keeper
    executable: the witnesses and examples of the other files evaluate on them.

    - [full_node]: a light client whose commitment root is the counterparty's whole
      store, so that verifying a proof is a lookup; it accepts exactly what the
      counterparty stored at that height.
    - [toy_codec]: records are encoded as comma-terminated items ([Ser]).
    - [toy_caps]: a capability is a number, with the list of its owners. *)
From S2P Require Import Prelude GoMonad Errors Sha256 Height Host Sdk ConnectionTypes.
From S2P Require Import ChannelTypes Exported.
From Stdlib Require Import Ascii.

(** ** A textual encoding *)

(** Items are terminated by a comma; commas and percent signs inside are escaped. *)
Fixpoint esc (s : string) : string :=
  match s with
  | EmptyString => EmptyString
  | String c s =>
      if Ascii.eqb c "%" then String "%" (String "1" (esc s))
      else if Ascii.eqb c "," then String "%" (String "2" (esc s))
      else String c (esc s)
  end.

Fixpoint unesc (s : string) : string :=
  match s with
  | EmptyString => EmptyString
  | String c s' =>
      if Ascii.eqb c "%" then
        match s' with
        | String d s'' => String (if Ascii.eqb d "1" then "%" else ",")%char (unesc s'')
        | EmptyString => EmptyString
        end
      else String c (unesc s')
  end.

Definition pack (l : list string) : string := Join ((esc <$> l) ++ [""]) ",".
Definition unpack (s : string) : list string := unesc <$> removelast (Split s ",").

Lemma unesc_esc s : unesc (esc s) = s.
Proof.
  induction s as [|c s IH]; [done|]. simpl.
  destruct (Ascii.eqb_spec c "%") as [->|E1]; [simpl; by rewrite IH|].
  destruct (Ascii.eqb_spec c ",") as [->|E2]; [simpl; by rewrite IH|].
  simpl. apply Ascii.eqb_neq in E1. by rewrite E1, IH.
Qed.

Lemma esc_no_comma s : no_char "," (esc s) = true.
Proof.
  induction s as [|c s IH]; [done|]. unfold no_char in *. simpl.
  destruct (Ascii.eqb_spec c "%") as [->|E1]; [done|].
  destruct (Ascii.eqb_spec c ",") as [->|E2]; [done|].
  simpl. apply Ascii.eqb_neq in E2. by rewrite E2.
Qed.

Lemma unpack_pack l : unpack (pack l) = l.
Proof.
  unfold unpack, pack. rewrite Split_Join.
  - rewrite removelast_last. induction l as [|x l IH]; [done|].
    rewrite !fmap_cons, unesc_esc. by f_equal.
  - by destruct l.
  - apply Forall_app. split; [|by repeat constructor].
    apply Forall_fmap, Forall_true. intros x. apply esc_no_comma.
Qed.

Class Ser (A : Type) := {
  enc : A → string;
  dec : string → option A;
  dec_enc x : dec (enc x) = Some x }.

#[export] Instance Ser_string : Ser string.
Proof. refine {| enc := λ s, s; dec := Some |}. done. Defined.
#[export] Instance Ser_N : Ser N.
Proof. refine {| enc := fmt_u64; dec := λ s, Some (digits_value 0 s) |}. intros. by rewrite fmt_u64_value. Defined.
#[export] Instance Ser_list {A} `{Ser A} : Ser (list A).
Proof.
  refine {| enc := λ l, pack (enc <$> l); dec := λ s, mapM dec (unpack s) |}.
  intros l. rewrite unpack_pack. induction l as [|x l IH]; [done|].
  rewrite fmap_cons. simpl. by rewrite dec_enc, IH.
Defined.
#[export] Instance Ser_prod {A B} `{Ser A, Ser B} : Ser (A * B).
Proof.
  refine {| enc := λ p, pack [enc p.1; enc p.2];
            dec := λ s, match unpack s with
                        | [a; b] => x ← dec a; y ← dec b; Some (x, y)
                        | _ => None
                        end |}.
  intros [x y]. rewrite unpack_pack. simpl. by rewrite !dec_enc.
Defined.
#[export] Instance Ser_map : Ser (gmap string string).
Proof.
  refine {| enc := λ m : gmap string string, enc (map_to_list m : list (string * string)); dec := λ s, list_to_map <$> (dec s : option (list (string * string))) |}.
  intros m. rewrite dec_enc. simpl. by rewrite list_to_map_to_list.
Defined.
(** An encoding through another type. *)
Definition Ser_via {A B} `{Ser B} (f : A → B) (g : B → A) (Hgf : ∀ x, g (f x) = x) : Ser A.
Proof.
  refine {| enc := λ x, enc (f x); dec := λ s, g <$> (dec s : option B) |}.
  intros x. rewrite dec_enc. simpl. by rewrite Hgf.
Defined.

#[export] Instance Ser_bool : Ser bool.
Proof.
  refine (Ser_via (λ b : bool, if b then 1%N else 0%N) (λ n, bool_decide (n = 1%N)) _). by intros [].
Defined.
#[export] Instance Ser_State : Ser State.
Proof.
  refine (Ser_via
    (λ s, match s with UNINITIALIZED => "0" | INIT => "1" | TRYOPEN => "2" | OPEN => "3" | CLOSED => "4" end)
    (λ s, match s with "0" => UNINITIALIZED | "1" => INIT | "2" => TRYOPEN | "3" => OPEN | _ => CLOSED end) _).
  by intros [].
Defined.
#[export] Instance Ser_Order : Ser Order.
Proof.
  refine (Ser_via (λ s, match s with NONE => "0" | UNORDERED => "1" | ORDERED => "2" end)
    (λ s, match s with "0" => NONE | "1" => UNORDERED | _ => ORDERED end) _).
  by intros [].
Defined.
#[export] Instance Ser_Counterparty : Ser Counterparty.
Proof.
  refine (Ser_via (λ c, (Counterparty_PortId c, Counterparty_ChannelId c))
    (λ '(p, c), NewCounterparty p c) _). by intros [].
Defined.
#[export] Instance Ser_Channel : Ser Channel.
Proof.
  refine (Ser_via
    (λ c, (Channel_State c, Channel_Ordering c, Channel_Counterparty c, ConnectionHops c, Channel_Version c))
    (λ '(a, b, c, d, e), NewChannel a b c d e) _). by intros [].
Defined.
#[export] Instance Ser_conn_State : Ser connectiontypes.State.
Proof.
  refine (Ser_via
    (λ s, match s with connectiontypes.UNINITIALIZED => "0" | connectiontypes.INIT => "1"
                  | connectiontypes.TRYOPEN => "2" | connectiontypes.OPEN => "3" end)
    (λ s, match s with "0" => connectiontypes.UNINITIALIZED | "1" => connectiontypes.INIT
                  | "2" => connectiontypes.TRYOPEN | _ => connectiontypes.OPEN end) _).
  by intros [].
Defined.
#[export] Instance Ser_MerklePrefix : Ser MerklePrefix.
Proof. refine (Ser_via KeyPrefix NewMerklePrefix _). by intros []. Defined.
#[export] Instance Ser_Version : Ser connectiontypes.Version.
Proof.
  refine (Ser_via (λ v, (connectiontypes.Identifier v, connectiontypes.Features v))
    (λ '(i, f), connectiontypes.NewVersion i f) _). by intros [].
Defined.
#[export] Instance Ser_conn_Counterparty : Ser connectiontypes.Counterparty.
Proof.
  refine (Ser_via
    (λ c, (connectiontypes.Counterparty_ClientId c, connectiontypes.Counterparty_ConnectionId c,
           connectiontypes.Counterparty_Prefix c))
    (λ '(a, b, c), connectiontypes.NewCounterparty a b c) _). by intros [].
Defined.
#[export] Instance Ser_ConnectionEnd : Ser connectiontypes.ConnectionEnd.
Proof.
  refine (Ser_via
    (λ c, (connectiontypes.ClientId c, connectiontypes.Versions c, connectiontypes.Connection_State c,
           connectiontypes.Connection_Counterparty c, connectiontypes.DelayPeriod c))
    (λ '(a, b, c, d, e), connectiontypes.mkConnectionEnd a b c d e) _). by intros [].
Defined.
#[export] Instance Ser_Height : Ser Height.
Proof.
  refine (Ser_via (λ h, (RevisionNumber h, RevisionHeight h)) (λ '(r, h), NewHeight r h) _).
  by intros [].
Defined.

(** ** The full-node light client *)

Record FNClient := mkFNClient { fn_latest : Height; fn_frozen : bool }.
Record FNConsensus := mkFNConsensus { fn_time : N; fn_root : KVStore }.
Record FNHeader := mkFNHeader { fn_height : Height; fn_cons : FNConsensus }.

#[export] Instance Ser_FNClient : Ser FNClient.
Proof. refine (Ser_via (λ c, (fn_latest c, fn_frozen c)) (λ '(a, b), mkFNClient a b) _). by intros []. Defined.
#[export] Instance Ser_FNConsensus : Ser FNConsensus.
Proof. refine (Ser_via (λ c, (fn_time c, fn_root c)) (λ '(a, b), mkFNConsensus a b) _). by intros []. Defined.
#[export] Instance Ser_FNHeader : Ser FNHeader.
Proof. refine (Ser_via (λ c, (fn_height c, fn_cons c)) (λ '(a, b), mkFNHeader a b) _). by intros []. Defined.

Definition fn_get (s : KVStore) (h : Height) : option FNConsensus := s !! ConsensusStateKey h ≫= dec.

(** Accept exactly what the counterparty had under [key] at [h]. *)
Definition fn_verify (h : Height) (key : string) (value : option string) : ST KVStore unit :=
  let! s := gets id in
  let! cs := some_or (fn_get s h) ClientErr.ErrConsensusStateNotFound in
  throw_if (negb (bool_decide (fn_root cs !! key = value))) CommitmentErr.ErrInvalidProof.

Definition fn_update (c : FNClient) (h : option FNHeader) : ST KVStore (FNClient * option FNConsensus) :=
  match h with
  | None => throw ClientErr.ErrInvalidHeader
  | Some h =>
      ret (mkFNClient (if LT (fn_latest c) (fn_height h) then fn_height h else fn_latest c) (fn_frozen c),
           Some (fn_cons h))
  end.

Definition full_node `{SdkEncoding} : LightClient := {|
  ClientState := FNClient;
  ConsensusState := FNConsensus;
  Header := FNHeader;
  Misbehaviour := string;
  ClientType := λ _, "full-node";
  GetLatestHeight := fn_latest;
  ClientState_Validate := λ _, Ok tt;
  ExportMetadata := λ _ _, [];
  ConsensusState_ClientType := λ _, "full-node";
  ConsensusState_ValidateBasic := λ _, Ok tt;
  Header_ValidateBasic := λ _, Ok tt;
  GetTimestamp := fn_time;
  Header_GetHeight := λ h, Ok (fn_height h);
  Misbehaviour_GetClientID := λ m, m;
  Misbehaviour_ClientType := λ _, "full-node";
  Misbehaviour_ValidateBasic := λ _, Ok tt;
  Initialize := λ _ _ _, ret tt;
  client_Status := λ _ _ c, if fn_frozen c then Frozen else Active;
  CheckHeaderAndUpdateState := λ _ c h, fn_update c h;
  client_CheckMisbehaviourAndUpdateState := λ _ c _, ret (mkFNClient (fn_latest c) true);
  CheckSubstituteAndUpdateState := λ _ _ c, ret c;
  VerifyUpgradeAndUpdateState := λ _ _ c cons _ _, ret (c, cons);
  ZeroCustomFields := λ c, c;
  VerifyClientState := λ _ h _ id _ c, fn_verify h (FullClientStatePath id) (Some (enc c));
  VerifyClientConsensusState := λ _ h id ch _ _ c, fn_verify h (FullConsensusStatePath id ch) (Some (enc c));
  VerifyConnectionState := λ _ h _ _ id c, fn_verify h (ConnectionPath id) (Some (enc c));
  VerifyChannelState := λ _ h _ _ p c ch, fn_verify h (ChannelPath p c) (Some (enc ch));
  VerifyPacketCommitment := λ _ _ h _ _ _ _ p c n bz, fn_verify h (PacketCommitmentPath p c n) (Some bz);
  VerifyPacketAcknowledgement := λ _ _ h _ _ _ _ p c n a,
    fn_verify h (PacketAcknowledgementPath p c n) (Some (CommitAcknowledgement a));
  VerifyPacketReceiptAbsence := λ _ _ h _ _ _ _ p c n, fn_verify h (PacketReceiptPath p c n) None;
  VerifyNextSequenceRecv := λ _ _ h _ _ _ _ p c n,
    fn_verify h (NextSequenceRecvPath p c) (Some (Uint64ToBigEndian n)) |}.

Definition toy_codec `{SdkEncoding} : @Codec full_node :=
  @Build_Codec full_node enc dec enc dec enc dec (enc : FNClient → _) dec (enc : FNConsensus → _) dec
    (enc : FNHeader → _) (λ _, True) (λ _, True)
    dec_enc (λ c _, dec_enc c) dec_enc (λ c _, dec_enc c) (λ c _, dec_enc c).

(** ** Capabilities *)

(** Name to index and owners. *)
Definition ToyCaps : Type := gmap string (N * list string).

Definition toy_caps : CapabilityKeeper := {|
  Capability := N;
  CapState := ToyCaps;
  cap_NewCapability := λ m name s,
    match s !! name with
    | Some _ => (s, Err (External "capability name taken"))
    | None => let i := N.of_nat (size s) in (<[name := (i, [m])]> s, Ok i)
    end;
  cap_GetCapability := λ s m name,
    match s !! name with
    | Some (i, owners) => if bool_decide (m ∈ owners) then Some i else None
    | None => None
    end;
  cap_AuthenticateCapability := λ s m cap name,
    match s !! name with
    | Some (i, owners) => bool_decide (m ∈ owners) && bool_decide (cap = i)
    | None => false
    end;
  cap_ClaimCapability := λ m cap name s,
    match s !! name with
    | Some (i, owners) =>
        if bool_decide (cap = i) && bool_decide (m ∉ owners)
        then (<[name := (i, owners ++ [m])]> s, Ok tt)
        else (s, Err (External "capability owner already claimed"))
    | None => (<[name := (cap, [m])]> s, Ok tt)
    end;
  cap_LookupModules := λ s _ name,
    match s !! name with
    | Some (i, owners) => Ok (owners, i)
    | None => Err (External "capability not found")
    end |}.

Definition toy_app : Application := {| AppState := gmap string string |}.

(** This chain accepts any client of itself, and its own blocks have empty roots. *)
Definition toy_self `{SdkEncoding} : @SelfClient full_node :=
  @Build_SelfClient full_node (λ _ _, Ok tt) (λ _ _, Ok (mkFNConsensus 0 ∅)).

(** ** Acknowledgements *)
Definition toy_ack (s : string) : option Acknowledgement :=
  match unpack s with
  | ["result"; r] => Some (NewResultAcknowledgement r)
  | ["error"; e] => Some (NewErrorAcknowledgement e)
  | ["none"] => Some (mkAcknowledgement None)
  | _ => None
  end.
Definition toy_ack_bytes (a : Acknowledgement) : string :=
  match Response a with
  | Some (Acknowledgement_Result r) => pack ["result"; r]
  | Some (Acknowledgement_Error e) => pack ["error"; e]
  | None => pack ["none"]
  end.
Definition toy_ack_codec : AckCodec.
Proof.
  refine {| Acknowledgement_GetBytes := toy_ack_bytes; UnmarshalJSON_ack := toy_ack;
    Acknowledgement_String := toy_ack_bytes; error_String := λ _, "error" |}.
  intros [[[r|e]|]]; unfold toy_ack, toy_ack_bytes; cbn [Response]; by rewrite unpack_pack.
Defined.
