(* ===== verification/Scenario.v ===== *)
(** * A concrete pair of chains

    Chain A (channel-0) and chain B (channel-1) connected through full-node clients
    of each other: the worlds on which the witnesses evaluate the keepers.  The
    packet is sent by running [SendPacket] on A, and B's client of A then holds A's
    store as its commitment root. *)
From S2P Require Import Prelude GoMonad Errors Sha256 Height Host Sdk ConnectionTypes.
From S2P Require Import ChannelTypes Exported ClientKeeper ConnectionKeeper PortKeeper.
From S2P Require Import ChannelKeeper ChannelHandshake FullNode.
From Stdlib Require Import Ascii.

Module ToyInstances.
#[export] Existing Instance big_endian.
#[export] Existing Instance full_node.
#[export] Existing Instance toy_codec.
#[export] Existing Instance toy_caps.
#[export] Existing Instance toy_app.
#[export] Existing Instance toy_self.
End ToyInstances.

Module Scenario.
Import ToyInstances.

Definition ctxA : Context := mkContext "chainA-1" 20 1000 false false.
Definition ctxB : Context := mkContext "chainB-1" 30 1100 false false.
(** A later block of B, in which the packet has timed out. *)
Definition ctxB_late : Context := mkContext "chainB-1" 100 5000 false false.

Definition clientID : string := "full-node-0".
Definition connection (counterparty_connection : string) : connectiontypes.ConnectionEnd :=
  connectiontypes.NewConnectionEnd connectiontypes.OPEN clientID
    (connectiontypes.NewCounterparty clientID counterparty_connection (NewMerklePrefix "ibc"))
    [connectiontypes.DefaultIBCVersion] 0.

Definition channelA (order : Order) : Channel :=
  NewChannel OPEN order (NewCounterparty "transfer" "channel-1") ["connection-0"] "ics20-1".
Definition channelB (order : Order) : Channel :=
  NewChannel OPEN order (NewCounterparty "transfer" "channel-0") ["connection-5"] "ics20-1".

Definition packet : Packet :=
  NewPacket "data" 1 "transfer" "channel-0" "transfer" "channel-1" (NewHeight 1 50) 0.

Definition be (n : N) : string := Uint64ToBigEndian n.

(** The store of a chain with one channel, and a client of the counterparty that
    has seen [root] at height [h]. *)
Definition chain_store (connID connID' chanID : string) (ch : Channel) (h : Height) (time : N)
    (root : KVStore) : KVStore :=
  list_to_map [
    (KeyNextClientSequence, be 1); (KeyNextConnectionSequence, be 6); (KeyNextChannelSequence, be 2);
    (FullClientStateKey clientID, enc (mkFNClient h false));
    (FullConsensusStateKey clientID h, enc (mkFNConsensus time root));
    (ConnectionKey connID, enc (connection connID'));
    (ChannelKey "transfer" chanID, enc ch);
    (NextSequenceSendKey "transfer" chanID, be 1);
    (NextSequenceRecvKey "transfer" chanID, be 1);
    (NextSequenceAckKey "transfer" chanID, be 1)].

(** The port and the channel are owned by the IBC module and the transfer module. *)
Definition chain_caps (chanID : string) : ToyCaps :=
  <[PortPath "transfer" := (0%N, ["ibc"; "transfer"])]>
  (<[ChannelCapabilityPath "transfer" chanID := (1%N, ["ibc"; "transfer"])]> ∅).

Definition chain (s : KVStore) (c : ToyCaps) : World := @mkWorld toy_caps toy_app s c ∅ ["full-node"] 30 [].

Definition worldA (order : Order) : World :=
  chain (chain_store "connection-0" "connection-5" "channel-0" (channelA order) (NewHeight 1 10) 900 ∅)
    (chain_caps "channel-0").
(** A after it has sent the packet. *)
Definition worldA_sent (order : Order) : World := (SendPacket ctxA 1%N packet (worldA order)).1.

(** B, whose client has seen A's store after the send. *)
Definition worldB (order : Order) : World :=
  chain (chain_store "connection-5" "connection-0" "channel-1" (channelB order) (NewHeight 1 20) 1000
           (ibc (worldA_sent order)))
    (chain_caps "channel-1").
Definition worldB_received (order : Order) : World :=
  (RecvPacket ctxB 1%N packet "" (NewHeight 1 20) (worldB order)).1.
Definition worldB_acked (order : Order) : World :=
  (WriteAcknowledgement 1%N packet "ack" (worldB_received order)).1.

(** A with a client of B that has seen B's store [root] at height [h]. *)
Definition worldA_sees (order : Order) (h : Height) (time : N) (root : KVStore) : World :=
  set_ibc (<[FullConsensusStateKey clientID h := enc (mkFNConsensus time root)]>
           (<[FullClientStateKey clientID := enc (mkFNClient h false)]> (ibc (worldA_sent order))))
    (worldA_sent order).

Example scenario_send order : (SendPacket ctxA 1%N packet (worldA order)).2 = Ok tt.
Proof. destruct order; vm_compute; reflexivity. Qed.
Example scenario_receive order : (RecvPacket ctxB 1%N packet "" (NewHeight 1 20) (worldB order)).2 = Ok tt.
Proof. destruct order; vm_compute; reflexivity. Qed.
Example scenario_ack order : (WriteAcknowledgement 1%N packet "ack" (worldB_received order)).2 = Ok tt.
Proof. destruct order; vm_compute; reflexivity. Qed.
Example scenario_acknowledge order :
  (AcknowledgePacket ctxA 1%N packet "ack" "" (NewHeight 1 31)
     (worldA_sees order (NewHeight 1 31) 1100 (ibc (worldB_acked order)))).2 = Ok tt.
Proof. destruct order; vm_compute; reflexivity. Qed.
(** The packet times out at height 50 of B if B has not received it. *)
Example scenario_timeout order :
  order ≠ NONE →
  (TimeoutPacket ctxA packet "" (NewHeight 1 50) 1
     (worldA_sees order (NewHeight 1 50) 2000 (ibc (worldB order)))).2 = Ok tt.
Proof. intros H. destruct order; [done|vm_compute; reflexivity..]. Qed.
End Scenario.
