(* ===== verification/ChannelSpec.v ===== *)
(** * What the packet operations do

    The typed view of the channel store ([chan], [next_send], [commitment_at], ...),
    the relation [same_but_clients] between worlds that differ at most below the
    clients' store prefixes, and for every packet operation of [ChannelKeeper.v]
    what it has checked and written when it succeeds, and that it leaves the
    channel store alone when it returns an error. *)
From S2P Require Import Prelude GoMonad Errors Sha256 Height Host Sdk ConnectionTypes.
From S2P Require Import ChannelTypes Exported ClientKeeper ConnectionKeeper PortKeeper.
From S2P Require Import ChannelKeeper.
From Stdlib Require Import Ascii.

Section views.
Context {SE : SdkEncoding} {LC : LightClient} {CD : Codec} {CK : CapabilityKeeper} {AP : Application}.

Definition chan (w : World) (p c : string) : option Channel := ibc w !! ChannelKey p c ≫= Unmarshal_Channel.
Definition conn (w : World) (c : string) : option connectiontypes.ConnectionEnd :=
  ibc w !! ConnectionKey c ≫= Unmarshal_ConnectionEnd.
Definition client (w : World) (c : string) : option ClientState :=
  ibc w !! FullClientStateKey c ≫= Unmarshal_ClientState.
Definition next_channel (w : World) : option N := BigEndianToUint64 <$> ibc w !! KeyNextChannelSequence.
Definition next_send (w : World) (p c : string) : option N := BigEndianToUint64 <$> ibc w !! NextSequenceSendKey p c.
Definition next_recv (w : World) (p c : string) : option N := BigEndianToUint64 <$> ibc w !! NextSequenceRecvKey p c.
Definition next_ack (w : World) (p c : string) : option N := BigEndianToUint64 <$> ibc w !! NextSequenceAckKey p c.
Definition commitment_at (w : World) (p c : string) (n : N) : option string := ibc w !! PacketCommitmentKey p c n.
Definition receipt_at (w : World) (p c : string) (n : N) : option string := ibc w !! PacketReceiptKey p c n.
Definition ack_at (w : World) (p c : string) (n : N) : option string := ibc w !! PacketAcknowledgementKey p c n.

(** The capability module authenticates [cap] for the channel. *)
Definition owns (w : World) (cap : Capability) (p c : string) : bool :=
  cap_AuthenticateCapability (caps w) ibc_module cap (ChannelCapabilityPath p c).

(** The worlds agree on everything but the clients' stores and the events. *)
Definition same_but_clients (w w' : World) : Prop :=
  (∀ k, not_client_key k = true → ibc w' !! k = ibc w !! k) ∧ caps w' = caps w ∧ app w' = app w.

#[global] Instance same_but_clients_equiv : Equivalence same_but_clients.
Proof.
  split.
  - intros w. by split_and!.
  - intros w w' (Hk & Hc & Ha). split_and!; try done. intros k Hn. by rewrite Hk.
  - intros w1 w2 w3 (Hk & Hc & Ha) (Hk' & Hc' & Ha'). split_and!; try congruence.
    intros k Hn. by rewrite Hk', Hk.
Qed.

#[global] Instance chan_proper : Proper (same_but_clients ==> eq ==> eq ==> eq) chan.
Proof. intros w w' (Hk & _ & _) p ? <- c ? <-. unfold chan. by rewrite Hk. Qed.
#[global] Instance conn_proper : Proper (same_but_clients ==> eq ==> eq) conn.
Proof. intros w w' (Hk & _ & _) p ? <-. unfold conn. by rewrite Hk. Qed.
#[global] Instance next_channel_proper : Proper (same_but_clients ==> eq) next_channel.
Proof. intros w w' (Hk & _ & _). unfold next_channel. by rewrite Hk. Qed.
#[global] Instance next_send_proper : Proper (same_but_clients ==> eq ==> eq ==> eq) next_send.
Proof. intros w w' (Hk & _ & _) p ? <- c ? <-. unfold next_send. by rewrite Hk. Qed.
#[global] Instance next_recv_proper : Proper (same_but_clients ==> eq ==> eq ==> eq) next_recv.
Proof. intros w w' (Hk & _ & _) p ? <- c ? <-. unfold next_recv. by rewrite Hk. Qed.
#[global] Instance next_ack_proper : Proper (same_but_clients ==> eq ==> eq ==> eq) next_ack.
Proof. intros w w' (Hk & _ & _) p ? <- c ? <-. unfold next_ack. by rewrite Hk. Qed.
#[global] Instance commitment_at_proper : Proper (same_but_clients ==> eq ==> eq ==> eq ==> eq) commitment_at.
Proof. intros w w' (Hk & _ & _) p ? <- c ? <- n ? <-. unfold commitment_at. by rewrite Hk. Qed.
#[global] Instance receipt_at_proper : Proper (same_but_clients ==> eq ==> eq ==> eq ==> eq) receipt_at.
Proof. intros w w' (Hk & _ & _) p ? <- c ? <- n ? <-. unfold receipt_at. by rewrite Hk. Qed.
#[global] Instance ack_at_proper : Proper (same_but_clients ==> eq ==> eq ==> eq ==> eq) ack_at.
Proof. intros w w' (Hk & _ & _) p ? <- c ? <- n ? <-. unfold ack_at. by rewrite Hk. Qed.
#[global] Instance owns_proper : Proper (same_but_clients ==> eq ==> eq ==> eq ==> eq) owns.
Proof. intros w w' (_ & Hc & _) cap ? <- p ? <- c ? <-. unfold owns. by rewrite Hc. Qed.

(** ** Inversion of the reads *)

Lemma GetChannel_Ok p c w w' r : GetChannel p c w = (w', Ok r) → w' = w ∧ r = chan w p c.
Proof.
  unfold GetChannel, chan. intros. go_inv.
  case_match; go_inv; simpl; auto.
Qed.

Lemma GetConnection_Ok c w w' r : GetConnection c w = (w', Ok r) → w' = w ∧ r = conn w c.
Proof.
  unfold GetConnection, conn. intros. go_inv.
  case_match; go_inv; simpl; auto.
Qed.

Lemma client_Ok c w w' r : GetClientState c w = (w', Ok r) → w' = w ∧ r = client w c.
Proof.
  intros [-> Hr]%GetClientState_Ok. split; [done|]. unfold client.
  case_match; simpl; [|done]. by destruct Hr as [-> _].
Qed.

Lemma get_sequence_Ok k w w' r :
  get_sequence k w = (w', Ok r) → w' = w ∧ r = BigEndianToUint64 <$> ibc w !! k.
Proof. unfold get_sequence. intros. by go_inv. Qed.

Lemma channel_connection_Ok ch w w' ce :
  channel_connection ch w = (w', Ok ce) →
  w' = w ∧ ∃ hop, head (ConnectionHops ch) = Some hop ∧ conn w hop = Some ce.
Proof.
  unfold channel_connection, hop0. intros. go_inv.
  match goal with H : GetConnection _ _ = _ |- _ => apply GetConnection_Ok in H as [-> ->] end. eauto.
Qed.

Lemma connection_open_Ok ce w w' u :
  connection_open ce w = (w', Ok u) →
  w' = w ∧ connectiontypes.Connection_State ce = connectiontypes.OPEN.
Proof.
  unfold connection_open. intros Hr. apply throw_if_Ok in Hr as [Hb ->].
  split; [done|]. by apply bool_decide_eq_false, dec_stable in Hb.
Qed.

Lemma on_client_store_same {A} c (m : ST KVStore A) w w' o :
  on_client_store c m w = (w', o) → same_but_clients w w' ∧ events w' = events w.
Proof.
  intros E. split; [split_and!|].
  - intros k Hk. exact (keeps_run _ _ _ _ _ (on_client_store_keeps c m k Hk) E).
  - by apply (keeps_run caps _ _ _ _ (on_client_store_caps c m caps (λ _ _, eq_refl)) E).
  - by apply (keeps_run app _ _ _ _ (on_client_store_caps c m app (λ _ _, eq_refl)) E).
  - by apply (keeps_run events _ _ _ _ (on_client_store_caps c m events (λ _ _, eq_refl)) E).
Qed.

(** ** Verification only touches the client's store *)

Definition client_only {A} (m : M A) : Prop :=
  ∀ w, same_but_clients w (m w).1 ∧ events (m w).1 = events w.

Lemma client_only_reads {A} (m : M A) : keeps id m → client_only m.
Proof. intros Hm w. specialize (Hm w). unfold id in Hm. by rewrite Hm. Qed.

Lemma client_only_bind {A B} (m : M A) (k : A → M B) :
  client_only m → (∀ a, client_only (k a)) → client_only (bind m k).
Proof.
  intros Hm Hk w. unfold bind. destruct (Hm w) as [H1 H2].
  destruct (m w) as [w1 [a|e|]]; simpl in *; [|done..].
  destruct (Hk a w1) as [H1' H2']. split; [by etrans|congruence].
Qed.

Lemma client_only_wrap {A} (m : M A) : client_only m → client_only (wrap_err m).
Proof. intros Hm w. specialize (Hm w). unfold wrap_err. by destruct (m w). Qed.

Lemma client_only_store {A} c (m : ST KVStore A) : client_only (on_client_store c m).
Proof. intros w. destruct (on_client_store c m w) as [w' o] eqn:E. by apply on_client_store_same in E. Qed.

Lemma active_client_keeps {T} (f : World → T) ctx c : keeps f (active_client ctx c).
Proof. unfold active_client. frame. Qed.
Lemma getBlockDelay_keeps {T} (f : World → T) ce : keeps f (getBlockDelay ce).
Proof. unfold getBlockDelay. frame. Qed.

End views.

(** Decompose a verification into reads and one access to the client's store. *)
Ltac client_only_tac :=
  repeat (cbv zeta;
    lazymatch goal with
    | |- client_only (wrap_err _) => apply client_only_wrap
    | |- client_only (on_client_store _ _) => apply client_only_store
    | |- client_only (active_client _ _) => apply client_only_reads, active_client_keeps
    | |- client_only (getBlockDelay _) => apply client_only_reads, getBlockDelay_keeps
    | |- client_only (bind _ _) => apply client_only_bind; [|intros ?]
    end).

Section verification.
Context {SE : SdkEncoding} {LC : LightClient} {CD : Codec} {CK : CapabilityKeeper} {AP : Application}.

Lemma VerifyChannelState_only ctx ce h prf p c ch : client_only (conn_VerifyChannelState ctx ce h prf p c ch).
Proof. unfold conn_VerifyChannelState. client_only_tac. Qed.
Lemma VerifyPacketCommitment_only ctx ce h prf p c n bz :
  client_only (conn_VerifyPacketCommitment ctx ce h prf p c n bz).
Proof. unfold conn_VerifyPacketCommitment. client_only_tac. Qed.
Lemma VerifyPacketAcknowledgement_only ctx ce h prf p c n bz :
  client_only (conn_VerifyPacketAcknowledgement ctx ce h prf p c n bz).
Proof. unfold conn_VerifyPacketAcknowledgement. client_only_tac. Qed.
Lemma VerifyPacketReceiptAbsence_only ctx ce h prf p c n :
  client_only (conn_VerifyPacketReceiptAbsence ctx ce h prf p c n).
Proof. unfold conn_VerifyPacketReceiptAbsence. client_only_tac. Qed.
Lemma VerifyNextSequenceRecv_only ctx ce h prf p c n :
  client_only (conn_VerifyNextSequenceRecv ctx ce h prf p c n).
Proof. unfold conn_VerifyNextSequenceRecv. client_only_tac. Qed.

Lemma client_only_run {A} (m : M A) w w' o : client_only m → m w = (w', o) → same_but_clients w w'.
Proof. intros Hm E. specialize (Hm w). rewrite E in Hm. apply Hm. Qed.

Lemma client_only_keeps_key {A} (m : M A) k :
  not_client_key k = true → client_only m → keeps (λ w, ibc w !! k) m.
Proof. intros Hk Hm w. by apply (Hm w). Qed.

Lemma verify_not_received_only ctx ce ch pkt prf h n e :
  client_only (verify_not_received ctx ce ch pkt prf h n e).
Proof.
  unfold verify_not_received. destruct (Channel_Ordering ch).
  - by apply client_only_reads.
  - apply VerifyPacketReceiptAbsence_only.
  - apply client_only_bind; [apply client_only_reads; auto with ibc|intros _].
    apply VerifyNextSequenceRecv_only.
Qed.

Lemma GetTimestampAtHeight_keeps {T} (f : World → T) ce h : keeps f (GetTimestampAtHeight ce h).
Proof. unfold GetTimestampAtHeight. frame. Qed.

Lemma GetTimestampAtHeight_Ok ce h w w' ts :
  GetTimestampAtHeight ce h w = (w', Ok ts) →
  w' = w ∧ ∃ cs, (ibc w !! FullConsensusStateKey (connectiontypes.ClientId ce) h ≫= Unmarshal_ConsensusState) = Some cs ∧
                 GetTimestamp cs = ts.
Proof.
  intros E. pose proof (keeps_run id _ _ _ _ (GetTimestampAtHeight_keeps id ce h) E) as Hw.
  unfold id in Hw. subst w'. split; [done|].
  unfold GetTimestampAtHeight, GetClientConsensusState in E. go_inv.
  unfold store_Get, client_view in *. rewrite prefix_view_lookup in *.
  unfold FullConsensusStateKey, FullConsensusStatePath. change FullClientPath with FullClientKey.
  rewrite FullClientKey_prefix. unfold ConsensusStateKey in *.
  case_match; go_inv; simplify_eq; eauto.
Qed.
End verification.

Ltac chan_hook :=
  first
    [ store_hook
    | match goal with
      | H : GetChannel _ _ _ = (_, Ok _) |- _ => apply GetChannel_Ok in H as [? ?]
      | H : GetConnection _ _ = (_, Ok _) |- _ => apply GetConnection_Ok in H as [? ?]
      | H : GetClientState _ _ = (_, Ok _) |- _ => apply client_Ok in H as [? ?]
      | H : get_sequence _ _ = (_, Ok _) |- _ => apply get_sequence_Ok in H as [? ?]
      | H : GetNextSequenceSend _ _ _ = (_, Ok _) |- _ => apply get_sequence_Ok in H as [? ?]
      | H : GetNextSequenceRecv _ _ _ = (_, Ok _) |- _ => apply get_sequence_Ok in H as [? ?]
      | H : GetNextSequenceAck _ _ _ = (_, Ok _) |- _ => apply get_sequence_Ok in H as [? ?]
      | H : GetPacketReceipt _ _ _ _ = (_, Ok _) |- _ => apply get_store_Ok in H as [? ?]
      | H : HasPacketAcknowledgement _ _ _ _ = (_, Ok _) |- _ => apply has_store_Ok in H as [? ?]
      | H : channel_connection _ _ = (_, Ok _) |- _ =>
          apply channel_connection_Ok in H as (? & ? & ? & ?)
      | H : connection_open _ _ = (_, Ok _) |- _ => apply connection_open_Ok in H as [? ?]
      | H : GetTimestampAtHeight _ _ _ = (_, Ok _) |- _ =>
          apply GetTimestampAtHeight_Ok in H as (? & ? & ? & ?)
      | H : AuthenticateCapability _ _ _ = (_, Ok _) |- _ => apply gets_Ok in H as [? ?]
      | H : get_status _ _ _ _ = (_, Ok _) |- _ => apply gets_Ok in H as [? ?]
      | H : hop0 _ _ = (_, Ok _) |- _ => apply some_or_panic_Ok in H as [? ?]
      | H : SetChannel _ _ _ _ = (_, Ok _) |- _ => apply set_store_Ok in H
      | H : SetNextSequenceSend _ _ _ _ = (_, Ok _) |- _ => apply set_store_Ok in H
      | H : SetNextSequenceRecv _ _ _ _ = (_, Ok _) |- _ => apply set_store_Ok in H
      | H : SetNextSequenceAck _ _ _ _ = (_, Ok _) |- _ => apply set_store_Ok in H
      | H : SetPacketCommitment _ _ _ _ _ = (_, Ok _) |- _ => apply set_store_Ok in H
      | H : SetPacketReceipt _ _ _ _ = (_, Ok _) |- _ => apply set_store_Ok in H
      | H : SetPacketAcknowledgement _ _ _ _ _ = (_, Ok _) |- _ => apply set_store_Ok in H
      | H : deletePacketCommitment _ _ _ _ = (_, Ok _) |- _ => apply delete_store_Ok in H
      | H : negb _ = false |- _ => apply negb_false_iff in H
      | H : bool_decide (_ ≠ _) = false |- _ => apply bool_decide_eq_false, dec_stable in H
      | H : bool_decide _ = false |- _ => apply bool_decide_eq_false in H
      | H : bool_decide _ = true |- _ => apply bool_decide_eq_true in H
      end ].
Ltac go_hook ::= chan_hook.

(** ** Timeouts *)

Definition height_not_reached (now timeout : Height) : Prop := timeout = ZeroHeight ∨ height_lt now timeout.
Definition time_not_reached (now timeout : N) : Prop := timeout = 0%N ∨ (now < timeout)%N.

Lemma Height_IsZero_spec h : Height_IsZero h = true ↔ h = ZeroHeight.
Proof.
  unfold Height_IsZero, ZeroHeight. destruct h as [r n]. simpl.
  rewrite andb_true_iff, !N.eqb_eq. naive_solver.
Qed.

Lemma height_check now timeout :
  negb (Height_IsZero timeout) && GTE now timeout = false → height_not_reached now timeout.
Proof.
  rewrite andb_false_iff, negb_false_iff, Height_IsZero_spec. intros [?|Hg]; [by left|right].
  destruct (decide (height_lt now timeout)) as [|Hn]; [done|].
  apply GTE_spec in Hn. congruence.
Qed.

Lemma time_check now timeout :
  negb (timeout =? 0)%N && (timeout <=? now)%N = false → time_not_reached now timeout.
Proof.
  rewrite andb_false_iff, negb_false_iff, N.eqb_eq, N.leb_gt. unfold time_not_reached. tauto.
Qed.

(** The test of [TimeoutPacket]: one of the two timeouts has been reached. *)
Lemma timeout_check h t now_h now_t :
  (Height_IsZero h || LT now_h h) && ((t =? 0)%N || (now_t <? t)%N) = false →
  ¬ height_not_reached now_h h ∨ ¬ time_not_reached now_t t.
Proof.
  rewrite andb_false_iff, !orb_false_iff. unfold height_not_reached, time_not_reached.
  intros [[Hz Hl]|[Hz Hl]].
  - left. intros [E|E].
    + apply Height_IsZero_spec in E. congruence.
    + apply LT_spec in E. congruence.
  - right. apply N.eqb_neq in Hz. apply N.ltb_ge in Hl. lia.
Qed.

Section specs.
Context {SE : SdkEncoding} {LC : LightClient} {CD : Codec} {CK : CapabilityKeeper} {AP : Application}.
Implicit Types (w : World) (pkt : Packet).

(** The channel end a packet leaves from, and what every operation on the sending
    side checks of it. *)
Definition sends_on w pkt (ch : Channel) : Prop :=
  chan w (SourcePort pkt) (SourceChannel pkt) = Some ch ∧
  Channel_Counterparty ch = NewCounterparty (DestinationPort pkt) (DestinationChannel pkt).

(** The channel end a packet arrives at. *)
Definition receives_on w pkt (ch : Channel) : Prop :=
  chan w (DestinationPort pkt) (DestinationChannel pkt) = Some ch ∧
  Channel_Counterparty ch = NewCounterparty (SourcePort pkt) (SourceChannel pkt).

Lemma counterparty_eq (c : Counterparty) p x :
  p = Counterparty_PortId c → x = Counterparty_ChannelId c → c = NewCounterparty p x.
Proof. destruct c. by intros -> ->. Qed.

Lemma send_timestamp_check_Ok ct ce h pkt w w' u :
  send_timestamp_check ct ce h pkt w = (w', Ok u) → w' = w.
Proof. unfold send_timestamp_check. intros. case_bool_decide; by go_inv. Qed.

(** A successful [SendPacket]: the guards that hold, and the two writes. *)
Lemma SendPacket_Ok ctx cap pkt w w' u :
  SendPacket ctx cap pkt w = (w', Ok u) →
  Packet_ValidateBasic pkt = Ok tt ∧
  ∃ ch hop ce cs, sends_on w pkt ch ∧ Channel_State ch ≠ CLOSED ∧
    owns w cap (SourcePort pkt) (SourceChannel pkt) = true ∧
    head (ConnectionHops ch) = Some hop ∧ conn w hop = Some ce ∧
    client w (connectiontypes.ClientId ce) = Some cs ∧
    client_Status ctx (client_view (connectiontypes.ClientId ce) w) cs = Active ∧
    height_not_reached (GetLatestHeight cs) (TimeoutHeight pkt) ∧
    next_send w (SourcePort pkt) (SourceChannel pkt) = Some (Sequence pkt) ∧
    ibc w' = <[PacketCommitmentKey (SourcePort pkt) (SourceChannel pkt) (Sequence pkt) := CommitPacket pkt]>
               (<[NextSequenceSendKey (SourcePort pkt) (SourceChannel pkt) :=
                  Uint64ToBigEndian (u64 (Sequence pkt + 1))]> (ibc w)) ∧
    caps w' = caps w ∧ app w' = app w.
Proof.
  unfold SendPacket, EmitSendPacketEvent. intros. go_inv. split; [done|].
  match goal with H : send_timestamp_check _ _ _ _ _ = _ |- _ => apply send_timestamp_check_Ok in H as -> end.
  go_inv. simplify_eq. eexists _, _, _, _. unfold sends_on.
  split_and!; eauto using counterparty_eq, height_check.
Qed.

(** What a successful [RecvPacket] writes, depending on the ordering. *)
Definition recv_writes (ch : Channel) pkt (s s' : KVStore) : Prop :=
  match Channel_Ordering ch with
  | UNORDERED =>
      s !! PacketReceiptKey (DestinationPort pkt) (DestinationChannel pkt) (Sequence pkt) = None ∧
      s' = <[PacketReceiptKey (DestinationPort pkt) (DestinationChannel pkt) (Sequence pkt) := String "001" ""]> s
  | ORDERED =>
      BigEndianToUint64 <$> s !! NextSequenceRecvKey (DestinationPort pkt) (DestinationChannel pkt) =
        Some (Sequence pkt) ∧
      s' = <[NextSequenceRecvKey (DestinationPort pkt) (DestinationChannel pkt) :=
             Uint64ToBigEndian (u64 (Sequence pkt + 1))]> s
  | NONE => s' = s
  end.

Lemma recv_by_ordering_Ok ch pkt w w' u :
  recv_by_ordering ch pkt w = (w', Ok u) →
  recv_writes ch pkt (ibc w) (ibc w') ∧ caps w' = caps w ∧ app w' = app w.
Proof.
  unfold recv_by_ordering, recv_writes, EmitRecvPacketEvent. intros E.
  destruct (Channel_Ordering ch); go_inv; [done|..].
  - case_match; go_inv. done.
  - case_match; go_inv. done.
Qed.

Lemma RecvPacket_Ok ctx cap pkt prf h w w' u :
  RecvPacket ctx cap pkt prf h w = (w', Ok u) →
  ∃ ch hop ce self w1, receives_on w pkt ch ∧ Channel_State ch = OPEN ∧
    owns w cap (DestinationPort pkt) (DestinationChannel pkt) = true ∧
    head (ConnectionHops ch) = Some hop ∧ conn w hop = Some ce ∧
    connectiontypes.Connection_State ce = connectiontypes.OPEN ∧
    GetSelfHeight ctx = Ok self ∧ height_not_reached self (TimeoutHeight pkt) ∧
    time_not_reached (uint64_of_Z (BlockTime ctx)) (TimeoutTimestamp pkt) ∧
    conn_VerifyPacketCommitment ctx ce h prf (SourcePort pkt) (SourceChannel pkt) (Sequence pkt)
      (CommitPacket pkt) w = (w1, Ok tt) ∧
    same_but_clients w w1 ∧ recv_writes ch pkt (ibc w1) (ibc w') ∧ caps w' = caps w ∧ app w' = app w.
Proof.
  unfold RecvPacket, EmitRecvPacketEvent. intros. go_inv. simplify_eq.
  match goal with H : recv_by_ordering _ _ _ = _ |- _ => apply recv_by_ordering_Ok in H as (?&?&?) end.
  match goal with H : conn_VerifyPacketCommitment _ _ _ _ _ _ _ _ _ = _ |- _ =>
    pose proof (client_only_run _ _ _ _ (VerifyPacketCommitment_only _ _ _ _ _ _ _ _) H) as Hs end.
  pose proof Hs as (_ & Hc & Ha).
  eexists _, _, _, _, _. unfold receives_on.
  split_and!; eauto using counterparty_eq, height_check, time_check; simpl; congruence.
Qed.

Lemma WriteAcknowledgement_Ok cap pkt ack w w' u :
  WriteAcknowledgement cap pkt ack w = (w', Ok u) →
  ∃ ch, chan w (DestinationPort pkt) (DestinationChannel pkt) = Some ch ∧ Channel_State ch = OPEN ∧
    owns w cap (DestinationPort pkt) (DestinationChannel pkt) = true ∧
    ack_at w (DestinationPort pkt) (DestinationChannel pkt) (Sequence pkt) = None ∧ ack ≠ "" ∧
    ibc w' = <[PacketAcknowledgementKey (DestinationPort pkt) (DestinationChannel pkt) (Sequence pkt) :=
               CommitAcknowledgement ack]> (ibc w) ∧
    caps w' = caps w ∧ app w' = app w.
Proof.
  unfold WriteAcknowledgement, EmitWriteAcknowledgementEvent. intros. go_inv. simplify_eq.
  match goal with H : store_Has _ _ = false |- _ =>
    unfold store_Has in H; apply bool_decide_eq_false in H; rewrite <- eq_None_not_Some in H end.
  eexists. split_and!; eauto. by intros ->.
Qed.

(** The writes of an acknowledgement: the next acknowledgement sequence of an
    ORDERED channel, and the removal of the commitment. *)
Definition ack_writes (ch : Channel) pkt (s s' : KVStore) : Prop :=
  let clear := delete (PacketCommitmentKey (SourcePort pkt) (SourceChannel pkt) (Sequence pkt)) in
  if bool_decide (Channel_Ordering ch = ORDERED) then
    BigEndianToUint64 <$> s !! NextSequenceAckKey (SourcePort pkt) (SourceChannel pkt) = Some (Sequence pkt) ∧
    s' = clear (<[NextSequenceAckKey (SourcePort pkt) (SourceChannel pkt) :=
                  Uint64ToBigEndian (u64 (Sequence pkt + 1))]> s)
  else s' = clear s.

Lemma ack_in_order_Ok ch pkt w w' u :
  ack_in_order ch pkt w = (w', Ok u) →
  (if bool_decide (Channel_Ordering ch = ORDERED) then
     BigEndianToUint64 <$> ibc w !! NextSequenceAckKey (SourcePort pkt) (SourceChannel pkt) = Some (Sequence pkt) ∧
     ibc w' = <[NextSequenceAckKey (SourcePort pkt) (SourceChannel pkt) :=
                Uint64ToBigEndian (u64 (Sequence pkt + 1))]> (ibc w)
   else ibc w' = ibc w) ∧ caps w' = caps w ∧ app w' = app w.
Proof. unfold ack_in_order. intros E. case_bool_decide; by go_inv. Qed.

Lemma commitment_present (o : option string) pkt :
  default "" o = CommitPacket pkt → o = Some (CommitPacket pkt).
Proof. destruct o as [c|]; simpl; [by intros ->|]. intros E. by destruct (CommitPacket_not_empty pkt). Qed.

Lemma AcknowledgePacket_Ok ctx cap pkt ack prf h w w' u :
  AcknowledgePacket ctx cap pkt ack prf h w = (w', Ok u) →
  ∃ ch hop ce w1, sends_on w pkt ch ∧ Channel_State ch = OPEN ∧
    owns w cap (SourcePort pkt) (SourceChannel pkt) = true ∧
    head (ConnectionHops ch) = Some hop ∧ conn w hop = Some ce ∧
    connectiontypes.Connection_State ce = connectiontypes.OPEN ∧
    commitment_at w (SourcePort pkt) (SourceChannel pkt) (Sequence pkt) = Some (CommitPacket pkt) ∧
    conn_VerifyPacketAcknowledgement ctx ce h prf (DestinationPort pkt) (DestinationChannel pkt)
      (Sequence pkt) ack w = (w1, Ok tt) ∧
    same_but_clients w w1 ∧ ack_writes ch pkt (ibc w1) (ibc w') ∧ caps w' = caps w ∧ app w' = app w.
Proof.
  unfold AcknowledgePacket, EmitAcknowledgePacketEvent, GetPacketCommitment. intros. go_inv.
  case_bool_decide; go_inv.
  match goal with H : ack_in_order _ _ _ = _ |- _ => apply ack_in_order_Ok in H as (Hw&?&?) end.
  match goal with H : conn_VerifyPacketAcknowledgement _ _ _ _ _ _ _ _ _ = _ |- _ =>
    pose proof (client_only_run _ _ _ _ (VerifyPacketAcknowledgement_only _ _ _ _ _ _ _ _) H) as Hs end.
  pose proof Hs as (_ & Hc & Ha). simplify_eq.
  eexists _, _, _, _. unfold sends_on, ack_writes.
  split_and!; eauto using counterparty_eq, commitment_present; simpl; try congruence.
  case_bool_decide; [destruct Hw as [? ->]; done|by rewrite Hw].
Qed.

(** The state [verify_not_received] leaves, and what it has verified. *)
Definition not_received_verified ctx ce ch pkt prf h n w w' : Prop :=
  match Channel_Ordering ch with
  | ORDERED =>
      (n ≤ Sequence pkt)%N ∧
      conn_VerifyNextSequenceRecv ctx ce h prf (DestinationPort pkt) (DestinationChannel pkt) n w = (w', Ok tt)
  | UNORDERED =>
      conn_VerifyPacketReceiptAbsence ctx ce h prf (DestinationPort pkt) (DestinationChannel pkt)
        (Sequence pkt) w = (w', Ok tt)
  | NONE => False
  end.

Lemma verify_not_received_Ok ctx ce ch pkt prf h n e w w' u :
  verify_not_received ctx ce ch pkt prf h n e w = (w', Ok u) →
  not_received_verified ctx ce ch pkt prf h n w w'.
Proof.
  unfold verify_not_received, not_received_verified. intros E.
  destruct (Channel_Ordering ch), u; go_inv; [done|].
  split; [|done]. by apply N.ltb_ge.
Qed.

Lemma TimeoutPacket_Ok ctx pkt prf h n w w' u :
  TimeoutPacket ctx pkt prf h n w = (w', Ok u) →
  ∃ ch hop ce cons, sends_on w pkt ch ∧ Channel_State ch = OPEN ∧
    head (ConnectionHops ch) = Some hop ∧ conn w hop = Some ce ∧
    ibc w !! FullConsensusStateKey (connectiontypes.ClientId ce) h ≫= Unmarshal_ConsensusState = Some cons ∧
    (¬ height_not_reached h (TimeoutHeight pkt) ∨
     ¬ time_not_reached (GetTimestamp cons) (TimeoutTimestamp pkt)) ∧
    commitment_at w (SourcePort pkt) (SourceChannel pkt) (Sequence pkt) = Some (CommitPacket pkt) ∧
    not_received_verified ctx ce ch pkt prf h n w w' ∧ same_but_clients w w'.
Proof.
  unfold TimeoutPacket, EmitTimeoutPacketEvent, GetPacketCommitment. intros. go_inv.
  case_bool_decide; go_inv.
  match goal with H : verify_not_received _ _ _ _ _ _ _ _ _ = _ |- _ =>
    pose proof (client_only_run _ _ _ _ (verify_not_received_only _ _ _ _ _ _ _ _) H) as Hs;
    apply verify_not_received_Ok in H end.
  eexists _, _, _, _. unfold sends_on.
  split_and!; eauto using counterparty_eq, commitment_present, timeout_check.
Qed.

Lemma TimeoutOnClose_Ok ctx cap pkt prf prfc h n w w' u :
  TimeoutOnClose ctx cap pkt prf prfc h n w = (w', Ok u) →
  ∃ ch hop ce w1, sends_on w pkt ch ∧ owns w cap (SourcePort pkt) (SourceChannel pkt) = true ∧
    head (ConnectionHops ch) = Some hop ∧ conn w hop = Some ce ∧
    commitment_at w (SourcePort pkt) (SourceChannel pkt) (Sequence pkt) = Some (CommitPacket pkt) ∧
    conn_VerifyChannelState ctx ce h prfc (DestinationPort pkt) (DestinationChannel pkt)
      (NewChannel CLOSED (Channel_Ordering ch) (NewCounterparty (SourcePort pkt) (SourceChannel pkt))
         [connectiontypes.Counterparty_ConnectionId (connectiontypes.Connection_Counterparty ce)]
         (Channel_Version ch)) w = (w1, Ok tt) ∧
    not_received_verified ctx ce ch pkt prf h n w1 w' ∧ same_but_clients w w'.
Proof.
  unfold TimeoutOnClose, EmitTimeoutPacketEvent, GetPacketCommitment. intros. go_inv.
  case_bool_decide; go_inv.
  match goal with H : verify_not_received _ _ _ _ _ _ _ _ _ = _ |- _ =>
    pose proof (client_only_run _ _ _ _ (verify_not_received_only _ _ _ _ _ _ _ _) H) as Hs;
    apply verify_not_received_Ok in H end.
  match goal with H : conn_VerifyChannelState _ _ _ _ _ _ _ _ = _ |- _ =>
    pose proof (client_only_run _ _ _ _ (VerifyChannelState_only _ _ _ _ _ _ _) H) as Hs1 end.
  match goal with
  | Hp : DestinationPort pkt = _, Hc : DestinationChannel pkt = _ |- _ => rewrite <- ?Hp, <- ?Hc in * end.
  eexists _, _, _, _. unfold sends_on.
  split_and!; eauto using counterparty_eq, commitment_present. by etrans.
Qed.

(** The writes of an executed timeout: the commitment is removed and an ORDERED
    channel is closed. *)
Definition timeout_writes (ch : Channel) pkt (s s' : KVStore) : Prop :=
  let cleared := delete (PacketCommitmentKey (SourcePort pkt) (SourceChannel pkt) (Sequence pkt)) s in
  s' = if bool_decide (Channel_Ordering ch = ORDERED)
       then <[ChannelKey (SourcePort pkt) (SourceChannel pkt) := Marshal_Channel (set_State CLOSED ch)]> cleared
       else cleared.

Lemma TimeoutExecuted_Ok cap pkt w w' u :
  TimeoutExecuted cap pkt w = (w', Ok u) →
  ∃ ch, chan w (SourcePort pkt) (SourceChannel pkt) = Some ch ∧
    owns w cap (SourcePort pkt) (SourceChannel pkt) = true ∧
    timeout_writes ch pkt (ibc w) (ibc w') ∧ caps w' = caps w ∧ app w' = app w.
Proof.
  unfold TimeoutExecuted, EmitTimeoutPacketEvent, timeout_writes. intros. go_inv.
  eexists. split_and!; eauto; case_bool_decide; by go_inv.
Qed.
End specs.

(** ** Errors leave the channel store alone *)
Section errors.
Context {SE : SdkEncoding} {LC : LightClient} {CD : Codec} {CK : CapabilityKeeper} {AP : Application}.

Lemma GetChannel_keeps {T} (f : World → T) p c : keeps f (GetChannel p c).
Proof. unfold GetChannel. frame. Qed.
Lemma GetConnection_keeps {T} (f : World → T) c : keeps f (GetConnection c).
Proof. unfold GetConnection. frame. Qed.
Lemma get_sequence_keeps {T} (f : World → T) k : keeps f (get_sequence k).
Proof. unfold get_sequence. frame. Qed.
Lemma hop0_keeps {T} (f : World → T) l : keeps f (hop0 l).
Proof. unfold hop0. frame. Qed.
Hint Resolve GetChannel_keeps GetConnection_keeps get_sequence_keeps hop0_keeps : ibc.
Lemma channel_connection_keeps {T} (f : World → T) ch : keeps f (channel_connection ch).
Proof. unfold channel_connection. frame. Qed.
Lemma connection_open_keeps {T} (f : World → T) ce : keeps f (connection_open ce).
Proof. unfold connection_open. frame. Qed.
Lemma GetPacketCommitment_keeps {T} (f : World → T) p c n : keeps f (GetPacketCommitment p c n).
Proof. unfold GetPacketCommitment. frame. Qed.
Lemma send_timestamp_check_keeps {T} (f : World → T) ct ce h pkt :
  keeps f (send_timestamp_check ct ce h pkt).
Proof. unfold send_timestamp_check. pose proof (@GetTimestampAtHeight_keeps). frame. Qed.

(** Events are not part of the stores. *)
Definition ignores_events {T} (f : World → T) : Prop := ∀ l w, f (set_events l w) = f w.
Definition ignores_clients {T} (f : World → T) : Prop := ∀ w w', same_but_clients w w' → f w' = f w.

Context {T : Type} (f : World → T) (Hev : ignores_events f) (Hcl : ignores_clients f).

Lemma EmitEvent_keeps_f e : keeps f (EmitEvent e).
Proof. intros w. apply Hev. Qed.
Lemma client_only_keeps_f {A} (m : M A) : client_only m → keeps f m.
Proof. intros Hm w. by apply Hcl, Hm. Qed.

Hint Resolve channel_connection_keeps connection_open_keeps GetPacketCommitment_keeps
  send_timestamp_check_keeps GetTimestampAtHeight_keeps EmitEvent_keeps_f client_only_keeps_f
  VerifyChannelState_only VerifyPacketCommitment_only VerifyPacketAcknowledgement_only
  verify_not_received_only : ibc.

Lemma EmitSendPacketEvent_frame pkt ch : keeps f (EmitSendPacketEvent pkt ch) ∧ no_err (EmitSendPacketEvent pkt ch).
Proof. unfold EmitSendPacketEvent, hop0, EmitEvent. split; [frame; apply EmitEvent_keeps_f|frame]. Qed.
Lemma EmitRecvPacketEvent_frame pkt ch : keeps f (EmitRecvPacketEvent pkt ch) ∧ no_err (EmitRecvPacketEvent pkt ch).
Proof. unfold EmitRecvPacketEvent, hop0, EmitEvent. split; [frame; apply EmitEvent_keeps_f|frame]. Qed.
Lemma EmitWriteAcknowledgementEvent_frame pkt ch a :
  keeps f (EmitWriteAcknowledgementEvent pkt ch a) ∧ no_err (EmitWriteAcknowledgementEvent pkt ch a).
Proof. unfold EmitWriteAcknowledgementEvent, hop0, EmitEvent. split; [frame; apply EmitEvent_keeps_f|frame]. Qed.
Lemma EmitAcknowledgePacketEvent_frame pkt ch :
  keeps f (EmitAcknowledgePacketEvent pkt ch) ∧ no_err (EmitAcknowledgePacketEvent pkt ch).
Proof. unfold EmitAcknowledgePacketEvent, hop0, EmitEvent. split; [frame; apply EmitEvent_keeps_f|frame]. Qed.
Lemma EmitTimeoutPacketEvent_frame pkt ch :
  keeps f (EmitTimeoutPacketEvent pkt ch) ∧ no_err (EmitTimeoutPacketEvent pkt ch).
Proof. unfold EmitTimeoutPacketEvent, EmitEvent. split; [frame; apply EmitEvent_keeps_f|frame]. Qed.

Hint Extern 0 (keeps _ (EmitSendPacketEvent _ _)) => apply EmitSendPacketEvent_frame : ibc.
Hint Extern 0 (keeps _ (EmitRecvPacketEvent _ _)) => apply EmitRecvPacketEvent_frame : ibc.
Hint Extern 0 (keeps _ (EmitWriteAcknowledgementEvent _ _ _)) => apply EmitWriteAcknowledgementEvent_frame : ibc.
Hint Extern 0 (keeps _ (EmitAcknowledgePacketEvent _ _)) => apply EmitAcknowledgePacketEvent_frame : ibc.
Hint Extern 0 (keeps _ (EmitTimeoutPacketEvent _ _)) => apply EmitTimeoutPacketEvent_frame : ibc.
Hint Extern 0 (no_err (EmitSendPacketEvent _ _)) => apply EmitSendPacketEvent_frame : ibc.
Hint Extern 0 (no_err (EmitRecvPacketEvent _ _)) => apply EmitRecvPacketEvent_frame : ibc.
Hint Extern 0 (no_err (EmitWriteAcknowledgementEvent _ _ _)) => apply EmitWriteAcknowledgementEvent_frame : ibc.
Hint Extern 0 (no_err (EmitAcknowledgePacketEvent _ _)) => apply EmitAcknowledgePacketEvent_frame : ibc.
Hint Extern 0 (no_err (EmitTimeoutPacketEvent _ _)) => apply EmitTimeoutPacketEvent_frame : ibc.

Lemma set_store_no_err k v : no_err (set_store k v).
Proof. done. Qed.
Lemma delete_store_no_err k : no_err (delete_store k).
Proof. done. Qed.
Hint Resolve set_store_no_err delete_store_no_err : ibc.

Ltac unfold_state :=
  unfold AuthenticateCapability, GetNextSequenceSend, GetNextSequenceRecv, GetNextSequenceAck,
    SetNextSequenceSend, SetNextSequenceRecv, SetNextSequenceAck, GetPacketReceipt, SetPacketReceipt,
    SetPacketCommitment, deletePacketCommitment, SetPacketAcknowledgement, HasPacketAcknowledgement,
    SetChannel, get_status; cbv zeta.

Lemma SendPacket_atomic ctx cap pkt : atomic f (SendPacket ctx cap pkt).
Proof. unfold SendPacket. unfold_state. atomic_run. Qed.
Lemma recv_by_ordering_atomic ch pkt : atomic f (recv_by_ordering ch pkt).
Proof. unfold recv_by_ordering. unfold_state. atomic_run. Qed.
Lemma RecvPacket_atomic ctx cap pkt prf h : atomic f (RecvPacket ctx cap pkt prf h).
Proof. pose proof recv_by_ordering_atomic. unfold RecvPacket. unfold_state. atomic_run. auto. Qed.
Lemma WriteAcknowledgement_atomic cap pkt a : atomic f (WriteAcknowledgement cap pkt a).
Proof. unfold WriteAcknowledgement. unfold_state. atomic_run. Qed.
Lemma ack_in_order_atomic ch pkt : atomic f (ack_in_order ch pkt).
Proof. unfold ack_in_order. unfold_state. atomic_run. Qed.
Lemma AcknowledgePacket_atomic ctx cap pkt a prf h : atomic f (AcknowledgePacket ctx cap pkt a prf h).
Proof. pose proof ack_in_order_atomic. unfold AcknowledgePacket. unfold_state. atomic_run. auto. Qed.
Lemma TimeoutPacket_atomic ctx pkt prf h n : atomic f (TimeoutPacket ctx pkt prf h n).
Proof. unfold TimeoutPacket. unfold_state. atomic_run. Qed.
Lemma TimeoutExecuted_atomic cap pkt : atomic f (TimeoutExecuted cap pkt).
Proof. unfold TimeoutExecuted. unfold_state. atomic_run. Qed.
Lemma TimeoutOnClose_atomic ctx cap pkt prf prfc h n : atomic f (TimeoutOnClose ctx cap pkt prf prfc h n).
Proof. unfold TimeoutOnClose. unfold_state. atomic_run. Qed.
End errors.
