(* ===== verification/HandshakeSpec.v ===== *)
(** * What the channel handshake steps do

    For every function of [ChannelHandshake.v], the guards that hold and the writes
    that are made when it succeeds. *)
From S2P Require Import Prelude GoMonad Errors Sha256 Height Host Sdk ConnectionTypes.
From S2P Require Import ChannelTypes Exported ClientKeeper ConnectionKeeper PortKeeper.
From S2P Require Import ChannelKeeper ChannelHandshake ChannelSpec.
From Stdlib Require Import Ascii.

Section specs.
Context {SE : SdkEncoding} {LC : LightClient} {CD : Codec} {CK : CapabilityKeeper} {AP : Application}.
Implicit Types w : World.

Lemma on_caps_Ok {A} (m : ST CapState A) w w' a :
  on_caps m w = (w', Ok a) → ∃ c, m (caps w) = (c, Ok a) ∧ w' = set_caps c w.
Proof. apply zoom_Ok. Qed.

Lemma Authenticate_Ok key port w w' b :
  Authenticate key port w = (w', Ok b) →
  w' = w ∧ PortIdentifierValidator port = Ok tt ∧
  b = cap_AuthenticateCapability (caps w) ibc_module key (PortPath port).
Proof. unfold Authenticate. intros E. go_inv. apply must_Ok in H. go_inv. done. Qed.

Lemma valid_port_no_slash port : PortIdentifierValidator port = Ok tt → no_char "/" port = true.
Proof. intros [_ H]%defaultIdentifierValidator_ok. by apply IsValidID_no_slash. Qed.

Lemma GenerateChannelIdentifier_Ok w w' id :
  GenerateChannelIdentifier w = (w', Ok id) →
  ∃ m, next_channel w = Some m ∧ id = FormatChannelIdentifier m ∧
       w' = set_ibc (<[KeyNextChannelSequence := Uint64ToBigEndian (u64 (m + 1))]> (ibc w)) w.
Proof.
  unfold GenerateChannelIdentifier, GetNextChannelSequence, SetNextChannelSequence, next_channel.
  intros E. go_inv. eexists. split_and!; [|done..]. by match goal with H : _ = Some _ |- _ => rewrite H end.
Qed.

Lemma check_connection_version_Ok ce o w w' u :
  check_connection_version ce o w = (w', Ok u) →
  w' = w ∧ ∃ v, connectiontypes.Versions ce = [v] ∧ Order_String o ∈ connectiontypes.Features v.
Proof.
  unfold check_connection_version. intros E.
  destruct (connectiontypes.Versions ce) as [|v [|? ?]]; go_inv.
  split; [done|]. exists v. split; [done|]. by apply connectiontypes.feature_loop_spec.
Qed.

Lemma ChanOpenInit_Ok order hops port cap w w' id key :
  ChanOpenInit order hops port cap w = (w', Ok (id, key)) →
  ∃ m hop ce, next_channel w = Some m ∧ id = FormatChannelIdentifier m ∧
    head hops = Some hop ∧ conn w hop = Some ce ∧ no_char "/" port = true ∧
    cap_AuthenticateCapability (caps w) ibc_module cap (PortPath port) = true ∧
    ibc w' = <[KeyNextChannelSequence := Uint64ToBigEndian (u64 (m + 1))]> (ibc w).
Proof.
  unfold ChanOpenInit. intros E. go_inv.
  match goal with H : check_connection_version _ _ _ = _ |- _ => apply check_connection_version_Ok in H as [-> _] end.
  match goal with H : Authenticate _ _ _ = _ |- _ => apply Authenticate_Ok in H as (-> & ? & ?) end.
  match goal with H : GenerateChannelIdentifier _ = _ |- _ =>
    apply GenerateChannelIdentifier_Ok in H as (m & Hm & -> & ->) end.
  match goal with H : on_caps _ _ = _ |- _ => apply on_caps_Ok in H as (c' & _ & ->) end.
  simplify_eq. eexists _, _, _. split_and!; eauto using valid_port_no_slash.
Qed.

Lemma WriteOpenInitChannel_Ok p c order hops cp ver w w' u :
  WriteOpenInitChannel p c order hops cp ver w = (w', Ok u) →
  ibc w' = <[NextSequenceAckKey p c := Uint64ToBigEndian 1]>
          (<[NextSequenceRecvKey p c := Uint64ToBigEndian 1]>
          (<[NextSequenceSendKey p c := Uint64ToBigEndian 1]>
          (<[ChannelKey p c := Marshal_Channel (NewChannel INIT order cp hops ver)]> (ibc w)))).
Proof. unfold WriteOpenInitChannel. intros E. by go_inv. Qed.

Lemma WriteOpenTryChannel_Ok p c order hops cp ver w w' u :
  WriteOpenTryChannel p c order hops cp ver w = (w', Ok u) →
  let ch := Marshal_Channel (NewChannel TRYOPEN order cp hops ver) in
  ibc w' = <[ChannelKey p c := ch]>
    match chan w p c with
    | Some _ => ibc w
    | None => <[NextSequenceAckKey p c := Uint64ToBigEndian 1]>
              (<[NextSequenceRecvKey p c := Uint64ToBigEndian 1]>
              (<[NextSequenceSendKey p c := Uint64ToBigEndian 1]> (ibc w)))
    end.
Proof.
  unfold WriteOpenTryChannel. intros E. go_inv. simpl.
  destruct (chan _ p c); by go_inv.
Qed.

(** The channel [ChanOpenTry] continues with: an existing one in state INIT with the
    same ordering, or a new identifier. *)
Definition try_target w order (port prev id : string) (w1 : World) : Prop :=
  (prev ≠ "" ∧ id = prev ∧ w1 = w ∧
   ∃ old, chan w port prev = Some old ∧ Channel_State old = INIT ∧ Channel_Ordering old = order) ∨
  (prev = "" ∧ ∃ m, next_channel w = Some m ∧ id = FormatChannelIdentifier m ∧
   w1 = set_ibc (<[KeyNextChannelSequence := Uint64ToBigEndian (u64 (m + 1))]> (ibc w)) w).

Lemma previous_channel_Ok order hop port prev cp cpv w w' id b :
  previous_channel order hop port prev cp cpv w = (w', Ok (id, b)) → try_target w order port prev id w'.
Proof.
  unfold previous_channel, try_target. case_bool_decide as Hp; intros E.
  - left. go_inv. simplify_eq.
    match goal with H : _ && _ && _ = true |- _ => rewrite !andb_true_iff, !bool_decide_eq_true in H end.
    destruct_and?. split_and!; eauto.
  - right. split; [done|]. go_inv. simplify_eq.
    match goal with H : GenerateChannelIdentifier _ = _ |- _ =>
      apply GenerateChannelIdentifier_Ok in H as (m & Hm & -> & ->) end. eauto.
Qed.

Lemma try_capability_Ok port id b w w' key :
  try_capability port id b w = (w', Ok key) → ibc w' = ibc w.
Proof.
  unfold try_capability. destruct b; simpl; intros E; go_inv; [done|].
  by match goal with H : on_caps _ _ = _ |- _ => apply on_caps_Ok in H as (c' & _ & ->) end.
Qed.

Lemma ChanOpenTry_Ok ctx order hops port prev cap cp cpv prf h w w' id key :
  ChanOpenTry ctx order hops port prev cap cp cpv prf h w = (w', Ok (id, key)) →
  ∃ w1 hop ce, head hops = Some hop ∧ try_target w order port prev id w1 ∧ no_char "/" port = true ∧
    conn w1 hop = Some ce ∧ connectiontypes.Connection_State ce = connectiontypes.OPEN ∧
    (∀ k, not_client_key k = true → ibc w' !! k = ibc w1 !! k).
Proof.
  unfold ChanOpenTry. intros E. go_inv. simplify_eq.
  match goal with H : previous_channel _ _ _ _ _ _ _ = _ |- _ => apply previous_channel_Ok in H end.
  match goal with H : Authenticate _ _ _ = _ |- _ => apply Authenticate_Ok in H as (-> & ? & ?) end.
  match goal with H : check_connection_version _ _ _ = _ |- _ => apply check_connection_version_Ok in H as [-> _] end.
  match goal with H : try_capability _ _ _ _ = _ |- _ => apply try_capability_Ok in H end.
  match goal with H : conn_VerifyChannelState _ _ _ _ _ _ _ _ = _ |- _ =>
    pose proof (client_only_run _ _ _ _ (VerifyChannelState_only _ _ _ _ _ _ _) H) as Hs end.
  eexists _, _, _. split_and!; eauto using valid_port_no_slash.
  intros k Hk. destruct Hs as [Hs _]. rewrite <- Hs by done. congruence.
Qed.

(** A port whose capability is authenticated has a valid identifier. *)
Lemma ChanOpenInit_port order hops port cap w w' r :
  ChanOpenInit order hops port cap w = (w', Ok r) → PortIdentifierValidator port = Ok tt.
Proof.
  unfold ChanOpenInit. intros E. go_inv. by match goal with H : Authenticate _ _ _ = _ |- _ => apply Authenticate_Ok in H as (_ & ? & _) end.
Qed.
Lemma ChanOpenTry_port ctx order hops port prev cap cp cpv prf h w w' r :
  ChanOpenTry ctx order hops port prev cap cp cpv prf h w = (w', Ok r) → PortIdentifierValidator port = Ok tt.
Proof.
  unfold ChanOpenTry. intros E. go_inv. by match goal with H : Authenticate _ _ _ = _ |- _ => apply Authenticate_Ok in H as (_ & ? & _) end.
Qed.

Lemma ChanOpenAck_Ok ctx p c cap cpv cpc prf h w w' u :
  ChanOpenAck ctx p c cap cpv cpc prf h w = (w', Ok u) →
  ∃ ch, chan w p c = Some ch ∧ (Channel_State ch = INIT ∨ Channel_State ch = TRYOPEN) ∧
    owns w cap p c = true ∧ same_but_clients w w'.
Proof.
  unfold ChanOpenAck. intros E. go_inv.
  match goal with H : _ || _ = true |- _ => rewrite orb_true_iff, !bool_decide_eq_true in H end.
  match goal with H : conn_VerifyChannelState _ _ _ _ _ _ _ _ = _ |- _ =>
    pose proof (client_only_run _ _ _ _ (VerifyChannelState_only _ _ _ _ _ _ _) H) as Hs end. eauto.
Qed.

Lemma WriteOpenAckChannel_Ok p c cpv cpc w w' u :
  WriteOpenAckChannel p c cpv cpc w = (w', Ok u) →
  ∃ ch, chan w p c = Some ch ∧
    ibc w' = <[ChannelKey p c := Marshal_Channel
      (NewChannel OPEN (Channel_Ordering ch)
         (NewCounterparty (Counterparty_PortId (Channel_Counterparty ch)) cpc) (ConnectionHops ch) cpv)]> (ibc w).
Proof. unfold WriteOpenAckChannel. intros E. go_inv. eauto. Qed.

Lemma ChanOpenConfirm_Ok ctx p c cap prf h w w' u :
  ChanOpenConfirm ctx p c cap prf h w = (w', Ok u) →
  ∃ ch, chan w p c = Some ch ∧ Channel_State ch = TRYOPEN ∧
    owns w cap p c = true ∧ same_but_clients w w'.
Proof.
  unfold ChanOpenConfirm. intros E. go_inv.
  match goal with H : conn_VerifyChannelState _ _ _ _ _ _ _ _ = _ |- _ =>
    pose proof (client_only_run _ _ _ _ (VerifyChannelState_only _ _ _ _ _ _ _) H) as Hs end. eauto.
Qed.

Lemma WriteOpenConfirmChannel_Ok p c w w' u :
  WriteOpenConfirmChannel p c w = (w', Ok u) →
  ∃ ch, chan w p c = Some ch ∧
    ibc w' = <[ChannelKey p c := Marshal_Channel (set_State OPEN ch)]> (ibc w).
Proof. unfold WriteOpenConfirmChannel. intros E. go_inv. eauto. Qed.

Lemma ChanCloseInit_Ok p c cap w w' u :
  ChanCloseInit p c cap w = (w', Ok u) →
  ∃ ch, chan w p c = Some ch ∧ Channel_State ch ≠ CLOSED ∧ owns w cap p c = true ∧
    ibc w' = <[ChannelKey p c := Marshal_Channel (set_State CLOSED ch)]> (ibc w).
Proof. unfold ChanCloseInit. intros E. go_inv. eauto. Qed.

Lemma ChanCloseConfirm_Ok ctx p c cap prf h w w' u :
  ChanCloseConfirm ctx p c cap prf h w = (w', Ok u) →
  ∃ ch w1, chan w p c = Some ch ∧ Channel_State ch ≠ CLOSED ∧ owns w cap p c = true ∧
    same_but_clients w w1 ∧
    ibc w' = <[ChannelKey p c := Marshal_Channel (set_State CLOSED ch)]> (ibc w1).
Proof.
  unfold ChanCloseConfirm. intros E. go_inv.
  match goal with H : conn_VerifyChannelState _ _ _ _ _ _ _ _ = _ |- _ =>
    pose proof (client_only_run _ _ _ _ (VerifyChannelState_only _ _ _ _ _ _ _) H) as Hs end.
  eexists _, _. split_and!; eauto.
Qed.
End specs.
