(* ===== verification/ChannelView.v ===== *)
(** * One channel end as an abstract state machine

    [View] is what the store says about one channel end: its record, its three
    counters, and its commitments, receipts and acknowledgements by sequence.
    [astep] is the specification of its evolution: the transitions a channel end
    may make, whatever the keepers do.  The safety properties of channels are
    proved here, by rule induction on runs of [astep]; [ChannelSystem.v] proves
    that the keepers refine it. *)
From S2P Require Import Prelude GoMonad Errors Height Host Sdk ChannelTypes.

Record View := mkView {
  v_chan : option Channel;
  v_send : option N;
  v_recv : option N;
  v_ack : option N;
  v_commit : N → option string;
  v_receipt : N → option string;
  v_acks : N → option string }.

(** Equality of views, pointwise. *)
Definition veq (v v' : View) : Prop :=
  v_chan v = v_chan v' ∧ v_send v = v_send v' ∧ v_recv v = v_recv v' ∧ v_ack v = v_ack v' ∧
  (∀ n, v_commit v n = v_commit v' n) ∧ (∀ n, v_receipt v n = v_receipt v' n) ∧
  (∀ n, v_acks v n = v_acks v' n).

#[export] Instance veq_equiv : Equivalence veq.
Proof.
  split.
  - by intros v; unfold veq.
  - intros v v' (?&?&?&?&?&?&?). unfold veq. split_and!; auto.
  - intros v1 v2 v3 (?&?&?&?&?&?&?) (?&?&?&?&?&?&?). unfold veq.
    split_and!; congruence || (intros; etrans; eauto).
Qed.

Definition upd {A} (f : N → A) (n : N) (x : A) : N → A := λ m, if decide (m = n) then x else f m.

Definition with_chan (x : option Channel) (v : View) : View :=
  mkView x (v_send v) (v_recv v) (v_ack v) (v_commit v) (v_receipt v) (v_acks v).
Definition with_send (x : N) (v : View) : View :=
  mkView (v_chan v) (Some x) (v_recv v) (v_ack v) (v_commit v) (v_receipt v) (v_acks v).
Definition with_recv (x : N) (v : View) : View :=
  mkView (v_chan v) (v_send v) (Some x) (v_ack v) (v_commit v) (v_receipt v) (v_acks v).
Definition with_ack (x : N) (v : View) : View :=
  mkView (v_chan v) (v_send v) (v_recv v) (Some x) (v_commit v) (v_receipt v) (v_acks v).
Definition with_commit (n : N) (x : option string) (v : View) : View :=
  mkView (v_chan v) (v_send v) (v_recv v) (v_ack v) (upd (v_commit v) n x) (v_receipt v) (v_acks v).
Definition with_receipt (n : N) (x : option string) (v : View) : View :=
  mkView (v_chan v) (v_send v) (v_recv v) (v_ack v) (v_commit v) (upd (v_receipt v) n x) (v_acks v).
Definition with_acks (n : N) (x : option string) (v : View) : View :=
  mkView (v_chan v) (v_send v) (v_recv v) (v_ack v) (v_commit v) (v_receipt v) (upd (v_acks v) n x).

(** The counters of a new channel. *)
Definition new_counters (v : View) : View := with_ack 1 (with_recv 1 (with_send 1 v)).

Definition ordering_ok (o : Order) : Prop := o = ORDERED ∨ o = UNORDERED.

(** The transitions of a channel end. *)
Inductive astep (v v' : View) : Prop :=
  | A_idle : veq v v' → astep v v'
  | A_send ch n c :
      v_chan v = Some ch → Channel_State ch ≠ CLOSED → v_send v = Some n →
      veq (with_commit n (Some c) (with_send (u64 (n + 1)) v)) v' → astep v v'
  | A_recv_unordered ch n r :
      v_chan v = Some ch → Channel_State ch = OPEN → Channel_Ordering ch = UNORDERED →
      v_receipt v n = None → veq (with_receipt n (Some r) v) v' → astep v v'
  | A_recv_ordered ch n :
      v_chan v = Some ch → Channel_State ch = OPEN → Channel_Ordering ch = ORDERED →
      v_recv v = Some n → veq (with_recv (u64 (n + 1)) v) v' → astep v v'
  | A_write_ack ch n a :
      v_chan v = Some ch → Channel_State ch = OPEN → v_acks v n = None →
      veq (with_acks n (Some a) v) v' → astep v v'
  | A_acknowledge_unordered ch n c :
      v_chan v = Some ch → Channel_State ch = OPEN → Channel_Ordering ch ≠ ORDERED →
      v_commit v n = Some c → veq (with_commit n None v) v' → astep v v'
  | A_acknowledge_ordered ch n c :
      v_chan v = Some ch → Channel_State ch = OPEN → Channel_Ordering ch = ORDERED →
      v_commit v n = Some c → v_ack v = Some n →
      veq (with_commit n None (with_ack (u64 (n + 1)) v)) v' → astep v v'
  | A_timeout_unordered ch n :
      v_chan v = Some ch → Channel_Ordering ch ≠ ORDERED → veq (with_commit n None v) v' → astep v v'
  | A_timeout_ordered ch n :
      v_chan v = Some ch → Channel_Ordering ch = ORDERED →
      veq (with_chan (Some (set_State CLOSED ch)) (with_commit n None v)) v' → astep v v'
  | A_open_init ch :
      v_chan v = None → v_send v = None → Channel_State ch = INIT → ordering_ok (Channel_Ordering ch) →
      veq (with_chan (Some ch) (new_counters v)) v' → astep v v'
  | A_open_try_new ch :
      v_chan v = None → v_send v = None → Channel_State ch = TRYOPEN → ordering_ok (Channel_Ordering ch) →
      veq (with_chan (Some ch) (new_counters v)) v' → astep v v'
  | A_open_try_previous old ch :
      v_chan v = Some old → Channel_State old = INIT → Channel_State ch = TRYOPEN →
      Channel_Ordering ch = Channel_Ordering old →
      veq (with_chan (Some ch) v) v' → astep v v'
  | A_open_ack old ch :
      v_chan v = Some old → Channel_State old = INIT ∨ Channel_State old = TRYOPEN →
      Channel_State ch = OPEN → Channel_Ordering ch = Channel_Ordering old →
      veq (with_chan (Some ch) v) v' → astep v v'
  | A_open_confirm old :
      v_chan v = Some old → Channel_State old = TRYOPEN →
      veq (with_chan (Some (set_State OPEN old)) v) v' → astep v v'
  | A_close old :
      v_chan v = Some old → Channel_State old ≠ CLOSED →
      veq (with_chan (Some (set_State CLOSED old)) v) v' → astep v v'.

(** No counter has reached the last value of a [uint64]: a channel end has sent
    and received fewer than [2^64 - 1] packets. *)
Definition counters_bounded (v : View) : Prop :=
  (∀ n, v_send v = Some n → (n < MaxUint64)%N) ∧ (∀ n, v_recv v = Some n → (n < MaxUint64)%N).

(** A run of a channel end whose counters stay bounded. *)
Inductive arun : View → View → Prop :=
  | arun_nil v : arun v v
  | arun_step v1 v2 v3 : counters_bounded v1 → astep v1 v2 → arun v2 v3 → arun v1 v3.

(** Channel states, and which state may follow which. *)
Definition view_state (v : View) : State :=
  match v_chan v with Some ch => Channel_State ch | None => UNINITIALIZED end.

Definition state_step (a b : State) : bool :=
  match a, b with
  | UNINITIALIZED, (INIT | TRYOPEN) => true
  | INIT, (TRYOPEN | OPEN | CLOSED) => true
  | TRYOPEN, (OPEN | CLOSED) => true
  | OPEN, CLOSED => true
  | _, _ => bool_decide (a = b)
  end.

(** Every view of a store the keepers have built is well formed: the recorded
    channel has been initialised with a known ordering, and commitments only exist
    below the next send sequence. *)
Definition view_wf (v : View) : Prop :=
  (∀ ch, v_chan v = Some ch → Channel_State ch ≠ UNINITIALIZED ∧ ordering_ok (Channel_Ordering ch)) ∧
  (∀ n c, v_commit v n = Some c → ∃ m, v_send v = Some m ∧ (n < m)%N).

(** What no transition ever undoes. *)
Definition grows (v v' : View) : Prop :=
  state_step (view_state v) (view_state v') = true ∧
  (∀ ch, v_chan v = Some ch → ∃ ch', v_chan v' = Some ch' ∧ Channel_Ordering ch' = Channel_Ordering ch) ∧
  (∀ n, v_send v = Some n → ∃ n', v_send v' = Some n' ∧ (n ≤ n')%N) ∧
  (∀ n r, v_receipt v n = Some r → v_receipt v' n = Some r) ∧
  (∀ n a, v_acks v n = Some a → v_acks v' n = Some a) ∧
  (∀ n m, v_send v = Some m → (n < m)%N → v_commit v n = None → v_commit v' n = None).

(** The receive counter only moves while a channel exists. *)
Definition recv_grows (v v' : View) : Prop :=
  is_Some (v_chan v) → ∀ n, v_recv v = Some n → ∃ n', v_recv v' = Some n' ∧ (n ≤ n')%N.

(** ** One step *)

Lemma upd_eq {A} (f : N → A) n x : upd f n x n = x.
Proof. unfold upd. by rewrite decide_True. Qed.
Lemma upd_ne {A} (f : N → A) n m x : m ≠ n → upd f n x m = f m.
Proof. unfold upd. intros. by rewrite decide_False. Qed.

Lemma state_step_refl a : state_step a a = true.
Proof. by destruct a. Qed.

Ltac astep_cases H :=
  destruct H;
  match goal with
  | E : veq _ _ |- _ =>
      destruct E as (Ec & Es & Er & Ea & Em & Ep & Ek); cbn [with_chan with_send with_recv with_ack
        with_commit with_receipt with_acks new_counters v_chan v_send v_recv v_ack v_commit v_receipt v_acks]
        in Ec, Es, Er, Ea, Em, Ep, Ek
  end.

Lemma astep_state v v' :
  view_wf v → astep v v' → state_step (view_state v) (view_state v') = true.
Proof.
  intros [Hwf _] H. unfold view_state. astep_cases H; rewrite <- Ec; try apply state_step_refl;
    match goal with
    | E : v_chan v = Some ?c |- _ => rewrite E; destruct (Hwf c E) as [Hu _]; simpl
    | E : v_chan v = None |- _ => rewrite E
    end;
    repeat match goal with
    | E : Channel_State _ = _ ∨ _ |- _ => destruct E
    | E : Channel_State _ = _ |- _ => rewrite E
    end; try apply state_step_refl; try done;
    match goal with |- context [Channel_State ?c] => destruct (Channel_State c) end; done.
Qed.

Lemma astep_ordering v v' ch :
  v_chan v = Some ch → astep v v' → ∃ ch', v_chan v' = Some ch' ∧ Channel_Ordering ch' = Channel_Ordering ch.
Proof.
  intros Hc H. astep_cases H; rewrite <- Ec; simplify_eq; eauto.
Qed.

Lemma astep_send v v' n :
  counters_bounded v → v_send v = Some n → astep v v' → ∃ n', v_send v' = Some n' ∧ (n ≤ n')%N.
Proof.
  intros [Hb _] Hn H. astep_cases H; rewrite <- Es; simplify_eq; eauto with lia.
  eexists; split; [done|]. rewrite u64_succ by auto. lia.
Qed.

Lemma astep_recv v v' : counters_bounded v → astep v v' → recv_grows v v'.
Proof.
  intros [_ Hb] H [ch0 Hc0] n Hn. astep_cases H; rewrite <- Er; simplify_eq; eauto with lia.
  eexists; split; [done|]. rewrite u64_succ by auto. lia.
Qed.

Lemma astep_receipt v v' n r : astep v v' → v_receipt v n = Some r → v_receipt v' n = Some r.
Proof.
  intros H Hr. astep_cases H; rewrite <- Ep; try done.
  unfold upd. case_decide; [subst; congruence|done].
Qed.

Lemma astep_acks v v' n a : astep v v' → v_acks v n = Some a → v_acks v' n = Some a.
Proof.
  intros H Hr. astep_cases H; rewrite <- Ek; try done.
  unfold upd. case_decide; [subst; congruence|done].
Qed.

Lemma astep_commit v v' n m :
  astep v v' → v_send v = Some m → (n < m)%N → v_commit v n = None → v_commit v' n = None.
Proof.
  intros H Hs Hlt Hn. astep_cases H; rewrite <- Em; try done; unfold upd; case_decide; try done.
  subst. simplify_eq. lia.
Qed.

Lemma astep_grows v v' : view_wf v → counters_bounded v → astep v v' → grows v v'.
Proof.
  intros Hwf Hb H. split_and!; eauto using astep_state, astep_ordering, astep_send, astep_receipt,
    astep_acks, astep_commit.
Qed.

Lemma astep_wf v v' : view_wf v → counters_bounded v → astep v v' → view_wf v'.
Proof.
  intros Hwf Hb H. split.
  - intros ch Hch. destruct Hwf as [Hc _]. clear Hb.
    astep_cases H; rewrite <- Ec in Hch; simplify_eq; eauto;
      repeat match goal with
      | E : v_chan v = Some ?c |- _ => destruct (Hc c E); clear E
      | E : Channel_State ?c = _ |- context [Channel_State ?c] => rewrite E
      | E : Channel_Ordering ?c = _ |- context [Channel_Ordering ?c] => rewrite E
      end; try done.
  - intros n c Hn. destruct Hwf as [_ Hm].
    assert (Hold : ∀ c', v_commit v n = Some c' → ∃ m, v_send v' = Some m ∧ (n < m)%N).
    { intros c' Hc'. destruct (Hm n c' Hc') as (m & Hsend & Hlt).
      destruct (astep_send v v' m Hb Hsend H) as (m' & -> & Hle). exists m'. split; [done|lia]. }
    astep_cases H; rewrite <- Em in Hn; eauto; unfold upd in Hn; case_decide; try done; eauto.
    subst. destruct Hb as [Hb _]. exists (u64 (n0 + 1)). rewrite <- Es, u64_succ by auto. split; [done|lia].
Qed.

(** ** Runs *)

#[export] Instance grows_refl : Reflexive grows.
Proof. intros v. unfold grows. split_and!; eauto using state_step_refl with lia. Qed.

Lemma arun_wf v v' : view_wf v → arun v v' → view_wf v'.
Proof. intros Hwf H. induction H; eauto using astep_wf. Qed.

(** The order of the channel states. *)
Definition state_rank (s : State) : nat :=
  match s with UNINITIALIZED => 0 | INIT => 1 | TRYOPEN => 2 | OPEN => 3 | CLOSED => 4 end.

Lemma state_step_rank a b : state_step a b = true → state_rank a ≤ state_rank b.
Proof. destruct a, b; simpl; intros; try done; lia. Qed.

Lemma arun_rank v v' : view_wf v → arun v v' → state_rank (view_state v) ≤ state_rank (view_state v').
Proof.
  intros Hwf H. induction H as [|v1 v2 v3 Hb Hs Hr IH]; [done|].
  etrans; [apply state_step_rank, astep_state, Hs; done|]. eauto using astep_wf.
Qed.

Lemma arun_ordering v v' ch :
  arun v v' → v_chan v = Some ch → ∃ ch', v_chan v' = Some ch' ∧ Channel_Ordering ch' = Channel_Ordering ch.
Proof.
  intros H. revert ch. induction H as [|v1 v2 v3 Hb Hs Hr IH]; intros ch Hc; [eauto|].
  destruct (astep_ordering _ _ _ Hc Hs) as (ch2 & Hc2 & E2).
  destruct (IH _ Hc2) as (ch3 & Hc3 & E3). exists ch3. split; congruence.
Qed.

Lemma arun_send v v' n : arun v v' → v_send v = Some n → ∃ n', v_send v' = Some n' ∧ (n ≤ n')%N.
Proof.
  intros H. revert n. induction H as [|v1 v2 v3 Hb Hs Hr IH]; intros n Hn; [eauto with lia|].
  destruct (astep_send _ _ _ Hb Hn Hs) as (n2 & Hn2 & ?).
  destruct (IH _ Hn2) as (n3 & Hn3 & ?). exists n3. split; [done|lia].
Qed.

Lemma arun_recv v v' ch n :
  arun v v' → v_chan v = Some ch → v_recv v = Some n → ∃ n', v_recv v' = Some n' ∧ (n ≤ n')%N.
Proof.
  intros H. revert ch n. induction H as [|v1 v2 v3 Hb Hs Hr IH]; intros ch n Hc Hn; [eauto with lia|].
  destruct (astep_recv _ _ Hb Hs (mk_is_Some _ _ Hc) n Hn) as (n2 & Hn2 & ?).
  destruct (astep_ordering _ _ _ Hc Hs) as (ch2 & Hc2 & _).
  destruct (IH _ _ Hc2 Hn2) as (n3 & Hn3 & ?). exists n3. split; [done|lia].
Qed.

Lemma arun_receipt v v' n r : arun v v' → v_receipt v n = Some r → v_receipt v' n = Some r.
Proof. intros H. induction H; eauto using astep_receipt. Qed.
Lemma arun_acks v v' n a : arun v v' → v_acks v n = Some a → v_acks v' n = Some a.
Proof. intros H. induction H; eauto using astep_acks. Qed.
Lemma arun_commit v v' n m :
  arun v v' → v_send v = Some m → (n < m)%N → v_commit v n = None → v_commit v' n = None.
Proof.
  intros H. revert m. induction H as [|v1 v2 v3 Hb Hs Hr IH]; intros m Hm Hlt Hn; [done|].
  destruct (astep_send _ _ _ Hb Hm Hs) as (m2 & Hm2 & ?).
  eapply IH; [done|lia|]. by eapply astep_commit.
Qed.
