(* ===== verification/ChannelSystem.v ===== *)
(** * The channel keeper refines the channel state machine

    [action] lists everything that can happen to the channel store of a chain: the
    packet operations, the handshake steps as the message server composes them
    (04-channel checks, application callback, write of the new channel), and any
    other operation that does not write channel keys, such as those of the client
    and connection keepers.  [exec_refines]: every successful action makes one
    [astep] of every channel end.  The safety theorems of [ChannelView.v] then
    hold for every run of the keepers. *)
From S2P Require Import Prelude GoMonad Errors Sha256 Height Host Sdk ConnectionTypes.
From S2P Require Import ChannelTypes Exported ClientKeeper ConnectionKeeper PortKeeper.
From S2P Require Import ChannelKeeper ChannelHandshake ChannelSpec HandshakeSpec ChannelView.
From Stdlib Require Import Ascii.

Section view.
Context {SE : SdkEncoding} {LC : LightClient} {CD : Codec}.

(** The view of the channel end [p]/[c] in a store. *)
Definition view_of (s : KVStore) (p c : string) : View :=
  mkView (s !! render (KChannelEnd p c) ≫= Unmarshal_Channel)
    (BigEndianToUint64 <$> s !! render (KNextSequenceSend p c))
    (BigEndianToUint64 <$> s !! render (KNextSequenceRecv p c))
    (BigEndianToUint64 <$> s !! render (KNextSequenceAck p c))
    (λ n, s !! render (KPacketCommitment p c n))
    (λ n, s !! render (KPacketReceipt p c n))
    (λ n, s !! render (KPacketAcknowledgement p c n)).

Definition ids_ok (p c : string) : Prop := no_char "/" p = true ∧ no_char "/" c = true.

(** The keys of the channel keeper. *)
Definition channel_key (k : store_key) : bool :=
  match k with
  | KClient _ _ | KConnection _ | KNextClientSequence | KNextConnectionSequence => false
  | _ => true
  end.

(** The part of the store that belongs to the channel keeper, malformed keys included. *)
Definition channel_prefixes : list string :=
  [KeyChannelEndPrefix; KeyPacketAckPrefix; KeyPacketCommitmentPrefix; KeyPacketReceiptPrefix;
   KeyNextSeqSendPrefix; KeyNextSeqRecvPrefix; KeyNextSeqAckPrefix].
Definition channel_part (k : string) : bool :=
  existsb (HasPrefix k) channel_prefixes || bool_decide (k = KeyNextChannelSequence).

Lemma channel_part_cases k :
  channel_part k = true → (∃ P r, P ∈ channel_prefixes ∧ k = P +:+ r) ∨ k = KeyNextChannelSequence.
Proof.
  unfold channel_part. intros [H|H%bool_decide_eq_true]%orb_true_iff; [left|by right].
  apply existsb_exists in H as (P & HP & [r ->]%HasPrefix_spec). exists P, r. split; [|done].
  by apply list_elem_of_In.
Qed.
Lemma render_channel_part k : channel_key k = true → channel_part (render k) = true.
Proof. destruct k; try done; intros _; reflexivity. Qed.

(** Two stores that agree on it. *)
Definition same_channels (s s' : KVStore) : Prop := ∀ k, channel_part k = true → s' !! k = s !! k.

Lemma same_channels_key s s' k : same_channels s s' → channel_key k = true → s' !! render k = s !! render k.
Proof. intros H Hk. by apply H, render_channel_part. Qed.

#[global] Instance same_channels_equiv : Equivalence same_channels.
Proof.
  split.
  - by intros s k.
  - intros s s' H k Hk. by rewrite H.
  - intros s1 s2 s3 H1 H2 k Hk. by rewrite H2, H1.
Qed.

Lemma same_channels_view s s' p c : same_channels s s' → veq (view_of s p c) (view_of s' p c).
Proof.
  intros H. unfold veq, view_of. cbn [v_chan v_send v_recv v_ack v_commit v_receipt v_acks].
  split_and!; intros; by rewrite (same_channels_key s s').
Qed.

Lemma lookup_insert_render s k k' x :
  key_ids_ok k = true → key_ids_ok k' = true →
  <[render k := x]> s !! render k' = if decide (k = k') then Some x else (s : KVStore) !! render k'.
Proof.
  intros Hk Hk'. case_decide as E; [subst; by rewrite lookup_insert_eq|].
  apply lookup_insert_ne. intros H. by apply E, render_inj.
Qed.

Lemma lookup_delete_render s k k' :
  key_ids_ok k = true → key_ids_ok k' = true →
  delete (render k) s !! render k' = if decide (k = k') then None else (s : KVStore) !! render k'.
Proof.
  intros Hk Hk'. case_decide as E; [subst; by rewrite lookup_delete_eq|].
  apply lookup_delete_ne. intros H. by apply E, render_inj.
Qed.

Lemma key_ids p c : ids_ok p c → no_char "/" p && no_char "/" c = true.
Proof. intros [-> ->]. done. Qed.

(** A write to a channel key changes one field of one view. *)
Definition write_view (k : store_key) (x : option string) (p c : string) (v : View) : View :=
  match k with
  | KChannelEnd p' c' =>
      if decide (p' = p ∧ c' = c) then with_chan (x ≫= Unmarshal_Channel) v else v
  | KNextSequenceSend p' c' =>
      if decide (p' = p ∧ c' = c)
      then mkView (v_chan v) (BigEndianToUint64 <$> x) (v_recv v) (v_ack v) (v_commit v) (v_receipt v) (v_acks v)
      else v
  | KNextSequenceRecv p' c' =>
      if decide (p' = p ∧ c' = c)
      then mkView (v_chan v) (v_send v) (BigEndianToUint64 <$> x) (v_ack v) (v_commit v) (v_receipt v) (v_acks v)
      else v
  | KNextSequenceAck p' c' =>
      if decide (p' = p ∧ c' = c)
      then mkView (v_chan v) (v_send v) (v_recv v) (BigEndianToUint64 <$> x) (v_commit v) (v_receipt v) (v_acks v)
      else v
  | KPacketCommitment p' c' n => if decide (p' = p ∧ c' = c) then with_commit n x v else v
  | KPacketReceipt p' c' n => if decide (p' = p ∧ c' = c) then with_receipt n x v else v
  | KPacketAcknowledgement p' c' n => if decide (p' = p ∧ c' = c) then with_acks n x v else v
  | _ => v
  end.

Ltac view_tac Hp Hc lem :=
  unfold veq, view_of, write_view, with_chan, with_commit, with_receipt, with_acks, upd;
  repeat case_decide; destruct_and?; simplify_eq;
  cbn [v_chan v_send v_recv v_ack v_commit v_receipt v_acks]; split_and!; intros; rewrite lem by (simpl; rewrite ?Hp, ?Hc; done);
  repeat case_decide; simplify_eq; try done; exfalso; naive_solver.

Lemma view_insert s k x p c :
  key_ids_ok k = true → ids_ok p c →
  veq (view_of (<[render k := x]> s) p c) (write_view k (Some x) p c (view_of s p c)).
Proof. intros Hk [Hp Hc]. destruct k; view_tac Hp Hc lookup_insert_render. Qed.

Lemma view_delete s k p c :
  key_ids_ok k = true → ids_ok p c →
  veq (view_of (delete (render k) s) p c) (write_view k None p c (view_of s p c)).
Proof. intros Hk [Hp Hc]. destruct k; view_tac Hp Hc lookup_delete_render. Qed.

(** A sequence of writes to the keys of one channel end. *)
Definition write_key (k : store_key) (x : option string) (s : KVStore) : KVStore :=
  match x with Some v => <[render k := v]> s | None => delete (render k) s end.
Fixpoint run_writes (l : list (store_key * option string)) (s : KVStore) : KVStore :=
  match l with [] => s | (k, x) :: l => run_writes l (write_key k x s) end.
Fixpoint write_views (l : list (store_key * option string)) (p c : string) (v : View) : View :=
  match l with [] => v | (k, x) :: l => write_views l p c (write_view k x p c v) end.

Definition key_at (p c : string) (k : store_key) : Prop :=
  match k with
  | KChannelEnd p' c' | KNextSequenceSend p' c' | KNextSequenceRecv p' c' | KNextSequenceAck p' c'
  | KPacketCommitment p' c' _ | KPacketReceipt p' c' _ | KPacketAcknowledgement p' c' _ => p' = p ∧ c' = c
  | _ => False
  end.

Lemma key_at_ids p c k : ids_ok p c → key_at p c k → key_ids_ok k = true.
Proof. intros Hid Hk. destruct k; simpl in *; try done; destruct Hk as [-> ->]; by apply key_ids. Qed.

Lemma write_view_veq k x p c v v' : veq v v' → veq (write_view k x p c v) (write_view k x p c v').
Proof.
  intros (?&?&?&?&?&?&?).
  destruct k; unfold write_view; repeat case_decide; unfold veq, with_chan, with_commit, with_receipt, with_acks, upd;
    cbn [v_chan v_send v_recv v_ack v_commit v_receipt v_acks]; split_and!; intros; try case_decide; auto.
Qed.
Lemma write_views_veq l p c v v' : veq v v' → veq (write_views l p c v) (write_views l p c v').
Proof.
  revert v v'. induction l as [|[k x] l IH]; intros v v' H; simpl; [done|]. by apply IH, write_view_veq.
Qed.

Lemma view_writes l s p c p' c' :
  ids_ok p c → ids_ok p' c' → Forall (λ kx, key_at p c kx.1) l →
  veq (view_of (run_writes l s) p' c') (write_views l p' c' (view_of s p' c')).
Proof.
  intros Hid Hid' Hl. revert s. induction Hl as [|[k x] l Hk Hl IH]; intros s; simpl in *; [done|].
  rewrite IH. apply write_views_veq. destruct x; simpl.
  - apply view_insert; [exact (key_at_ids p c k Hid Hk)|done].
  - apply view_delete; [exact (key_at_ids p c k Hid Hk)|done].
Qed.

Lemma write_views_other p c l p' c' v :
  Forall (λ kx, key_at p c kx.1) l → ¬ (p' = p ∧ c' = c) → write_views l p' c' v = v.
Proof.
  intros Hl Hne. revert v. induction Hl as [|[k x] l Hk Hl IH]; intros v; simpl in *; [done|].
  rewrite IH. destruct k; simpl in *; try done; destruct Hk as [-> ->]; rewrite decide_False; naive_solver.
Qed.
End view.

(** Case analysis on a key of the channel keeper. *)
Ltac channel_part_cases Hk :=
  apply channel_part_cases in Hk as [(? & ? & Hk & ->)| ->];
  [repeat (apply elem_of_cons in Hk as [->|Hk]); [..|by apply elem_of_nil in Hk]|].

Section system.
Context {SE : SdkEncoding} {LC : LightClient} {CD : Codec} {CK : CapabilityKeeper} {AP : Application}.

(** A computation that does not write channel keys. *)
Definition keeps_channels {A} (m : M A) : Prop := ∀ w, same_channels (ibc w) (ibc (m w).1).

Inductive action : Type :=
  | Do_send (ctx : Context) (cap : Capability) (packet : Packet)
  | Do_recv (ctx : Context) (cap : Capability) (packet : Packet) (proof : string) (height : Height)
  | Do_write_ack (cap : Capability) (packet : Packet) (ack : string)
  | Do_acknowledge (ctx : Context) (cap : Capability) (packet : Packet) (ack proof : string) (height : Height)
  | Do_timeout (ctx : Context) (packet : Packet) (proof : string) (height : Height) (nextRecv : N)
  | Do_timeout_on_close (ctx : Context) (cap : Capability) (packet : Packet) (proof proofClosed : string)
      (height : Height) (nextRecv : N)
  | Do_timeout_executed (cap : Capability) (packet : Packet)
  | Do_open_init (order : Order) (hops : list string) (port : string) (cap : Capability)
      (counterparty : Counterparty) (version : string) (callback : string → Capability → M unit)
  | Do_open_try (ctx : Context) (order : Order) (hops : list string) (port previous : string)
      (cap : Capability) (counterparty : Counterparty) (counterpartyVersion proof : string) (height : Height)
      (callback : string → Capability → M string)
  | Do_open_ack (ctx : Context) (port channel : string) (cap : Capability)
      (counterpartyVersion counterpartyChannel proof : string) (height : Height) (callback : M unit)
  | Do_open_confirm (ctx : Context) (port channel : string) (cap : Capability) (proof : string)
      (height : Height) (callback : M unit)
  | Do_close_init (port channel : string) (cap : Capability)
  | Do_close_confirm (ctx : Context) (port channel : string) (cap : Capability) (proof : string) (height : Height)
  | Do_other (m : M unit).

Definition exec (a : action) : M unit :=
  match a with
  | Do_send ctx cap packet => SendPacket ctx cap packet
  | Do_recv ctx cap packet proof height => RecvPacket ctx cap packet proof height
  | Do_write_ack cap packet ack => WriteAcknowledgement cap packet ack
  | Do_acknowledge ctx cap packet ack proof height => AcknowledgePacket ctx cap packet ack proof height
  | Do_timeout ctx packet proof height n => TimeoutPacket ctx packet proof height n
  | Do_timeout_on_close ctx cap packet proof closed height n => TimeoutOnClose ctx cap packet proof closed height n
  | Do_timeout_executed cap packet => TimeoutExecuted cap packet
  | Do_open_init order hops port cap counterparty version cb =>
      let! ' (channelID, chanCap) := ChanOpenInit order hops port cap in
      cb channelID chanCap ;;;
      WriteOpenInitChannel port channelID order hops counterparty version
  | Do_open_try ctx order hops port previous cap counterparty cpVersion proof height cb =>
      let! ' (channelID, chanCap) :=
        ChanOpenTry ctx order hops port previous cap counterparty cpVersion proof height in
      let! version := cb channelID chanCap in
      WriteOpenTryChannel port channelID order hops counterparty version
  | Do_open_ack ctx port channel cap cpVersion cpChannel proof height cb =>
      ChanOpenAck ctx port channel cap cpVersion cpChannel proof height ;;;
      cb ;;;
      WriteOpenAckChannel port channel cpVersion cpChannel
  | Do_open_confirm ctx port channel cap proof height cb =>
      ChanOpenConfirm ctx port channel cap proof height ;;;
      cb ;;;
      WriteOpenConfirmChannel port channel
  | Do_close_init port channel cap => ChanCloseInit port channel cap
  | Do_close_confirm ctx port channel cap proof height => ChanCloseConfirm ctx port channel cap proof height
  | Do_other m => m
  end.

(** What message validation guarantees of the identifiers and the ordering, and
    that handshake callbacks and other operations leave the channel store alone. *)
Definition action_ok (a : action) : Prop :=
  match a with
  | Do_send _ _ pkt | Do_acknowledge _ _ pkt _ _ _ | Do_timeout _ pkt _ _ _
  | Do_timeout_on_close _ _ pkt _ _ _ _ | Do_timeout_executed _ pkt =>
      ids_ok (SourcePort pkt) (SourceChannel pkt)
  | Do_recv _ _ pkt _ _ | Do_write_ack _ pkt _ => ids_ok (DestinationPort pkt) (DestinationChannel pkt)
  | Do_open_init order _ _ _ _ _ cb => ordering_ok order ∧ ∀ id c, keeps_channels (cb id c)
  | Do_open_try _ order _ _ previous _ _ _ _ _ cb =>
      ordering_ok order ∧ no_char "/" previous = true ∧ ∀ id c, keeps_channels (cb id c)
  | Do_open_ack _ port channel _ _ _ _ _ cb | Do_open_confirm _ port channel _ _ _ cb =>
      ids_ok port channel ∧ keeps_channels cb
  | Do_close_init port channel _ | Do_close_confirm _ port channel _ _ _ => ids_ok port channel
  | Do_other m => keeps_channels m
  end.

(** The view of a channel end in a world. *)
Definition view (w : World) (p c : string) : View := view_of (ibc w) p c.

(** No channel exists yet under an identifier that is still to be generated. *)
Definition fresh_channels (w : World) : Prop :=
  ∀ m p n, next_channel w = Some m → no_char "/" p = true → (m ≤ n)%N →
  v_chan (view w p (FormatChannelIdentifier n)) = None ∧ v_send (view w p (FormatChannelIdentifier n)) = None.

(** What a successful action did: it moved existing channel ends, or opened a new
    one under the next identifier. *)
Definition moved (w w' : World) : Prop :=
  next_channel w' = next_channel w ∧
  ∀ p c, ids_ok p c → astep (view w p c) (view w' p c) ∧
    (v_chan (view w p c) = None →
     v_chan (view w' p c) = None ∧ v_send (view w' p c) = v_send (view w p c)).
Definition opened (w w' : World) : Prop :=
  ∃ m port ch, next_channel w = Some m ∧ next_channel w' = Some (u64 (m + 1)) ∧
    (Channel_State ch = INIT ∨ Channel_State ch = TRYOPEN) ∧ ordering_ok (Channel_Ordering ch) ∧
    ∀ p c, ids_ok p c →
      veq (if decide (port = p ∧ FormatChannelIdentifier m = c)
           then with_chan (Some ch) (new_counters (view w p c)) else view w p c)
          (view w' p c).

(** ** Lemmas *)

Lemma channel_part_not_client k : channel_part k = true → not_client_key k = true.
Proof. intros Hk. channel_part_cases Hk; reflexivity. Qed.
Lemma channel_key_not_client k : channel_key k = true → not_client_key (render k) = true.
Proof. intros Hk. by apply channel_part_not_client, render_channel_part. Qed.

Lemma same_but_clients_channels w w' : same_but_clients w w' → same_channels (ibc w) (ibc w').
Proof. intros (Hk & _ & _) k Hc. by apply Hk, channel_part_not_client. Qed.

Lemma next_channel_same s s' :
  same_channels s s' → s' !! KeyNextChannelSequence = s !! KeyNextChannelSequence.
Proof. intros H. exact (same_channels_key s s' KNextChannelSequence H eq_refl). Qed.

Lemma same_channels_chan w w' p c : same_channels (ibc w) (ibc w') → chan w' p c = chan w p c.
Proof. intros H. unfold chan. exact (f_equal (λ o, o ≫= Unmarshal_Channel) (same_channels_key _ _ (KChannelEnd p c) H eq_refl)). Qed.

Lemma moved_same w w' : same_channels (ibc w) (ibc w') → moved w w'.
Proof.
  intros H. split; [unfold next_channel; by rewrite (next_channel_same _ _ H)|].
  intros p c Hid. unfold view. pose proof (same_channels_view _ _ p c H) as Hv. split; [by apply A_idle|].
  destruct Hv as (<- & <- & _). done.
Qed.

Lemma next_channel_writes p c l s :
  ids_ok p c → Forall (λ kx, key_at p c kx.1) l →
  run_writes l s !! KeyNextChannelSequence = s !! KeyNextChannelSequence.
Proof.
  intros Hid Hl. revert s. induction Hl as [|[k x] l Hk Hl IH]; intros s; [done|]. simpl in *. rewrite IH.
  pose proof (key_at_ids _ _ _ Hid Hk) as Hi. change KeyNextChannelSequence with (render KNextChannelSequence).
  destruct x; unfold write_key; rewrite ?lookup_insert_render, ?lookup_delete_render by done;
    (case_decide; [subst; done|done]).
Qed.

(** Writes to the keys of an existing channel end move that end only. *)
Lemma moved_writes w w' s p c l :
  ids_ok p c → same_channels (ibc w) s → ibc w' = run_writes l s →
  Forall (λ kx, key_at p c kx.1) l → is_Some (v_chan (view w p c)) →
  (∀ v', veq (write_views l p c (view w p c)) v' → astep (view w p c) v') →
  moved w w'.
Proof.
  intros Hid Hs Hw Hl [ch Hch] Hstep. split.
  { unfold next_channel. by rewrite Hw, (next_channel_writes p c), (next_channel_same _ _ Hs). }
  intros p' c' Hid'.
  assert (Hv : veq (write_views l p' c' (view w p' c')) (view w' p' c')).
  { unfold view. rewrite Hw. etrans; [|symmetry; by apply (view_writes l s p c)].
    apply write_views_veq, same_channels_view, Hs. }
  destruct (decide (p' = p ∧ c' = c)) as [[-> ->]|Hne].
  - split; [by apply Hstep|]. intros H. rewrite Hch in H. discriminate.
  - rewrite (write_views_other p c) in Hv by done.
    split; [by apply A_idle|]. destruct Hv as (<- & <- & _). done.
Qed.

(** ** Every action is a step of the channel ends *)

(** Compute the view after the writes of an operation. *)
Ltac write_step :=
  intros ? Hv; cbn [write_views write_view] in Hv; rewrite ?decide_True in Hv by done;
  cbn [fmap option_fmap option_map mbind option_bind] in Hv;
  rewrite ?be_roundtrip, ?Channel_roundtrip in Hv by apply u64_bound.
Ltac at_end := repeat constructor.

Lemma send_moved ctx cap pkt w w' u :
  ids_ok (SourcePort pkt) (SourceChannel pkt) → SendPacket ctx cap pkt w = (w', Ok u) → moved w w'.
Proof.
  intros Hid (_ & ch & hop & ce & cs & [Hch _] & Hst & _ & _ & _ & _ & _ & _ & Hn & Hw & _)%SendPacket_Ok.
  eapply (moved_writes w w' (ibc w) _ _
    [(KNextSequenceSend (SourcePort pkt) (SourceChannel pkt), Some _); (KPacketCommitment _ _ _, Some _)]);
    [done|done|exact Hw|at_end|by eexists|].
  write_step. by eapply A_send.
Qed.

Lemma recv_moved ctx cap pkt prf h w w' u :
  ids_ok (DestinationPort pkt) (DestinationChannel pkt) →
  RecvPacket ctx cap pkt prf h w = (w', Ok u) → moved w w'.
Proof.
  intros Hid (ch & hop & ce & self & w1 & [Hch _] & Hst & _ & _ & _ & _ & _ & _ & _ & _ & Hs & Hw & _)%RecvPacket_Ok.
  apply same_but_clients_channels in Hs. unfold recv_writes in Hw. destruct (Channel_Ordering ch) eqn:Ho.
  - apply moved_same. by rewrite Hw.
  - destruct Hw as [Hr Hw].
    eapply (moved_writes w w' (ibc w1) _ _ [(KPacketReceipt (DestinationPort pkt) (DestinationChannel pkt) _, Some _)]);
      [done|done|exact Hw|at_end|by eexists|].
    write_step. eapply A_recv_unordered; [done..| |done].
    rewrite <- Hr. symmetry. exact (same_channels_key _ _ (KPacketReceipt _ _ _) Hs eq_refl).
  - destruct Hw as [Hr Hw].
    eapply (moved_writes w w' (ibc w1) _ _ [(KNextSequenceRecv (DestinationPort pkt) (DestinationChannel pkt), Some _)]);
      [done|done|exact Hw|at_end|by eexists|].
    write_step. pose proof (same_channels_key _ _ (KNextSequenceRecv (DestinationPort pkt) (DestinationChannel pkt)) Hs eq_refl) as E. cbn [render] in E. rewrite E in Hr.
    by eapply A_recv_ordered.
Qed.

Lemma write_ack_moved cap pkt ack w w' u :
  ids_ok (DestinationPort pkt) (DestinationChannel pkt) →
  WriteAcknowledgement cap pkt ack w = (w', Ok u) → moved w w'.
Proof.
  intros Hid (ch & Hch & Hst & _ & Hn & _ & Hw & _)%WriteAcknowledgement_Ok.
  eapply (moved_writes w w' (ibc w) _ _
    [(KPacketAcknowledgement (DestinationPort pkt) (DestinationChannel pkt) _, Some _)]);
    [done|done|exact Hw|at_end|by eexists|].
  write_step. by eapply A_write_ack.
Qed.

Lemma acknowledge_moved ctx cap pkt ack prf h w w' u :
  ids_ok (SourcePort pkt) (SourceChannel pkt) →
  AcknowledgePacket ctx cap pkt ack prf h w = (w', Ok u) → moved w w'.
Proof.
  intros Hid (ch & hop & ce & w1 & [Hch _] & Hst & _ & _ & _ & _ & Hcm & _ & Hs & Hw & _)%AcknowledgePacket_Ok.
  apply same_but_clients_channels in Hs. unfold ack_writes in Hw. case_bool_decide as Ho.
  - destruct Hw as [Hr Hw].
    eapply (moved_writes w w' (ibc w1) _ _
      [(KNextSequenceAck (SourcePort pkt) (SourceChannel pkt), Some _); (KPacketCommitment _ _ _, None)]);
      [done|done|exact Hw|at_end|by eexists|].
    write_step. pose proof (same_channels_key _ _ (KNextSequenceAck (SourcePort pkt) (SourceChannel pkt)) Hs eq_refl) as E. cbn [render] in E. rewrite E in Hr.
    by eapply A_acknowledge_ordered.
  - eapply (moved_writes w w' (ibc w1) _ _ [(KPacketCommitment (SourcePort pkt) (SourceChannel pkt) _, None)]);
      [done|done|exact Hw|at_end|by eexists|].
    write_step. by eapply A_acknowledge_unordered.
Qed.

Lemma timeout_executed_moved cap pkt w w' u :
  ids_ok (SourcePort pkt) (SourceChannel pkt) → TimeoutExecuted cap pkt w = (w', Ok u) → moved w w'.
Proof.
  intros Hid (ch & Hch & _ & Hw & _)%TimeoutExecuted_Ok. unfold timeout_writes in Hw. case_bool_decide as Ho.
  - eapply (moved_writes w w' (ibc w) _ _
      [(KPacketCommitment (SourcePort pkt) (SourceChannel pkt) _, None); (KChannelEnd _ _, Some _)]);
      [done|done|exact Hw|at_end|by eexists|].
    write_step. by eapply A_timeout_ordered.
  - eapply (moved_writes w w' (ibc w) _ _ [(KPacketCommitment (SourcePort pkt) (SourceChannel pkt) _, None)]);
      [done|done|exact Hw|at_end|by eexists|].
    write_step. by eapply A_timeout_unordered.
Qed.

(** A handshake or closing step that rewrites the record of an existing channel. *)
Lemma channel_moved w w' s p c old ch :
  ids_ok p c → same_channels (ibc w) s → chan w p c = Some old →
  ibc w' = <[ChannelKey p c := Marshal_Channel ch]> s →
  (∀ v', veq (with_chan (Some ch) (view w p c)) v' → astep (view w p c) v') → moved w w'.
Proof.
  intros Hid Hs Hold Hw Hstep.
  eapply (moved_writes w w' s _ _ [(KChannelEnd p c, Some _)]); [done|done|exact Hw|at_end|by eexists|].
  write_step. by apply Hstep.
Qed.

Lemma open_ack_moved ctx p c cap cpv cpc prf h (cb : M unit) w w' u :
  ids_ok p c → keeps_channels cb →
  exec (Do_open_ack ctx p c cap cpv cpc prf h cb) w = (w', Ok u) → moved w w'.
Proof.
  intros Hid Hcb E. simpl in E. go_inv.
  match goal with H : ChanOpenAck _ _ _ _ _ _ _ _ _ = _ |- _ =>
    apply ChanOpenAck_Ok in H as (ch & Hch & Hst & _ & Hs%same_but_clients_channels) end.
  match goal with H : cb ?x = _ |- _ => pose proof (Hcb x) as Hk; rewrite H in Hk end.
  assert (Hs' : same_channels (ibc w) (ibc s0)) by (by etrans).
  match goal with H : WriteOpenAckChannel _ _ _ _ _ = _ |- _ =>
    apply WriteOpenAckChannel_Ok in H as (ch' & Hch' & Hw) end.
  assert (ch' = ch) as ->.
  { rewrite (same_channels_chan _ _ _ _ Hs') in Hch'. congruence. }
  eapply channel_moved; [done|exact Hs'|exact Hch|exact Hw|]. intros v' Hv.
  by eapply (A_open_ack _ _ ch); [exact Hch|exact Hst| | |exact Hv].
Qed.

Lemma open_confirm_moved ctx p c cap prf h (cb : M unit) w w' u :
  ids_ok p c → keeps_channels cb →
  exec (Do_open_confirm ctx p c cap prf h cb) w = (w', Ok u) → moved w w'.
Proof.
  intros Hid Hcb E. simpl in E. go_inv.
  match goal with H : ChanOpenConfirm _ _ _ _ _ _ _ = _ |- _ =>
    apply ChanOpenConfirm_Ok in H as (ch & Hch & Hst & _ & Hs%same_but_clients_channels) end.
  match goal with H : cb ?x = _ |- _ => pose proof (Hcb x) as Hk; rewrite H in Hk end.
  assert (Hs' : same_channels (ibc w) (ibc s0)) by (by etrans).
  match goal with H : WriteOpenConfirmChannel _ _ _ = _ |- _ =>
    apply WriteOpenConfirmChannel_Ok in H as (ch' & Hch' & Hw) end.
  assert (ch' = ch) as ->.
  { rewrite (same_channels_chan _ _ _ _ Hs') in Hch'. congruence. }
  eapply channel_moved; [done|exact Hs'|exact Hch|exact Hw|]. intros v' Hv. by eapply A_open_confirm.
Qed.

Lemma close_init_moved p c cap w w' u :
  ids_ok p c → ChanCloseInit p c cap w = (w', Ok u) → moved w w'.
Proof.
  intros Hid (ch & Hch & Hst & _ & Hw)%ChanCloseInit_Ok.
  eapply channel_moved; [done| |exact Hch|exact Hw|]; [done|]. intros v' Hv. by eapply A_close.
Qed.

Lemma close_confirm_moved ctx p c cap prf h w w' u :
  ids_ok p c → ChanCloseConfirm ctx p c cap prf h w = (w', Ok u) → moved w w'.
Proof.
  intros Hid (ch & w1 & Hch & Hst & _ & Hs%same_but_clients_channels & Hw)%ChanCloseConfirm_Ok.
  eapply channel_moved; [done|exact Hs|exact Hch|exact Hw|]. intros v' Hv. by eapply A_close.
Qed.

Lemma FormatChannelIdentifier_no_slash m : no_char "/" (FormatChannelIdentifier m) = true.
Proof.
  unfold FormatChannelIdentifier, ChannelPrefix. cbn. exact (fmt_u64_no_slash m).
Qed.

(** Writes to the keys of a channel end under the next identifier. *)
Lemma opened_writes w w' s port m ch l :
  no_char "/" port = true → next_channel w = Some m →
  same_channels (<[KeyNextChannelSequence := Uint64ToBigEndian (u64 (m + 1))]> (ibc w)) s →
  ibc w' = run_writes l s → Forall (λ kx, key_at port (FormatChannelIdentifier m) kx.1) l →
  Channel_State ch = INIT ∨ Channel_State ch = TRYOPEN → ordering_ok (Channel_Ordering ch) →
  (∀ v, write_views l port (FormatChannelIdentifier m) v = with_chan (Some ch) (new_counters v)) →
  opened w w'.
Proof.
  intros Hp Hm Hs Hw Hl Hst Ho Hv. pose proof (FormatChannelIdentifier_no_slash m) as Hc.
  exists m, port, ch. split_and!; try done.
  { unfold next_channel. rewrite Hw, (next_channel_writes port (FormatChannelIdentifier m)) by done.
    rewrite (next_channel_same _ _ Hs), lookup_insert_eq. simpl. by rewrite be_roundtrip by apply u64_bound. }
  intros p c Hid.
  assert (Heq : veq (write_views l p c (view w p c)) (view w' p c)).
  { unfold view. rewrite Hw.
    etrans; [|symmetry; by apply (view_writes l s port (FormatChannelIdentifier m))].
    apply write_views_veq. etrans; [|apply same_channels_view, Hs].
    symmetry. exact (view_insert _ KNextChannelSequence _ p c eq_refl Hid). }
  case_decide as E.
  - destruct E as [<- <-]. by rewrite <- Hv.
  - rewrite (write_views_other port (FormatChannelIdentifier m)) in Heq by naive_solver. done.
Qed.

Lemma open_init_opened order hops port cap cp ver cb w w' u :
  ordering_ok order → (∀ id c, keeps_channels (cb id c)) →
  exec (Do_open_init order hops port cap cp ver cb) w = (w', Ok u) → opened w w'.
Proof.
  intros Ho Hcb E. simpl in E. go_inv.
  match goal with H : ChanOpenInit _ _ _ _ _ = _ |- _ =>
    apply ChanOpenInit_Ok in H as (m & hop & ce & Hm & -> & _ & _ & Hp & _ & Hw0) end.
  match goal with H : cb ?id ?c ?x = _ |- _ => pose proof (Hcb id c x) as Hk; rewrite H in Hk end.
  match goal with H : WriteOpenInitChannel _ _ _ _ _ _ _ = _ |- _ => apply WriteOpenInitChannel_Ok in H as Hw end.
  simpl in Hk. rewrite Hw0 in Hk.
  eapply (opened_writes w w' _ port m (NewChannel INIT order cp hops ver)
    [(KChannelEnd port _, Some _); (KNextSequenceSend port _, Some _); (KNextSequenceRecv port _, Some _);
     (KNextSequenceAck port _, Some _)]); [done|done|exact Hk|exact Hw|at_end|by left|done|].
  intros v. cbn [write_views write_view]. rewrite !decide_True by done.
  cbn [fmap option_fmap option_map mbind option_bind]. by rewrite Channel_roundtrip, be_roundtrip by done.
Qed.

(** There is no channel yet under the next identifier. *)
Lemma try_target_new w w' port m :
  fresh_channels w → next_channel w = Some m → no_char "/" port = true →
  same_channels (<[KeyNextChannelSequence := Uint64ToBigEndian (u64 (m + 1))]> (ibc w)) (ibc w') →
  chan w' port (FormatChannelIdentifier m) = None.
Proof.
  intros Hf Hm Hp Hs. pose proof (same_channels_view _ _ port (FormatChannelIdentifier m) Hs) as (Hc & _).
  change (v_chan (view_of (ibc w') port (FormatChannelIdentifier m)) = None). rewrite <- Hc.
  pose proof (view_insert (ibc w) KNextChannelSequence (Uint64ToBigEndian (u64 (m + 1))) port
    (FormatChannelIdentifier m) eq_refl (conj Hp (FormatChannelIdentifier_no_slash m))) as (Hc' & _).
  cbn [render] in Hc'. rewrite Hc'. by apply (Hf m).
Qed.

Lemma open_try_effect ctx order hops port prev cap cp cpv prf h cb w w' u :
  fresh_channels w → ordering_ok order → no_char "/" prev = true → (∀ id c, keeps_channels (cb id c)) →
  exec (Do_open_try ctx order hops port prev cap cp cpv prf h cb) w = (w', Ok u) → moved w w' ∨ opened w w'.
Proof.
  intros Hf Ho Hpr Hcb E. simpl in E. go_inv.
  match goal with H : ChanOpenTry _ _ _ _ _ _ _ _ _ _ _ = _ |- _ =>
    apply ChanOpenTry_Ok in H as (w1 & hop & ce & _ & Ht & Hp & _ & _ & Hs) end.
  match goal with H : cb ?id ?c ?x = _ |- _ => pose proof (Hcb id c x) as Hk; rewrite H in Hk; simpl in Hk end.
  match goal with H : WriteOpenTryChannel _ _ _ _ _ _ _ = _ |- _ => apply WriteOpenTryChannel_Ok in H as Hw end.
  assert (Hs' : same_channels (ibc w1) (ibc s1)).
  { etrans; [|exact Hk]. intros k Hkk. by apply Hs, channel_part_not_client. }
  destruct Ht as [(_ & -> & -> & old & Hold & Hst & Hor)|(_ & m & Hm & -> & ->)].
  - left. rewrite (same_channels_chan _ _ _ _ Hs'), Hold in Hw.
    eapply (channel_moved w w' _ port prev old); [done|exact Hs'|exact Hold|exact Hw|]. intros v' Hv.
    by eapply (A_open_try_previous _ _ old); [exact Hold|exact Hst| | |exact Hv].
  - right. simpl in Hs'.
    rewrite (try_target_new w s1 port m) in Hw by done. simpl in Hw.
    eapply (opened_writes w w' _ port m (NewChannel TRYOPEN order cp hops _)
      [(KNextSequenceSend port _, Some _); (KNextSequenceRecv port _, Some _);
       (KNextSequenceAck port _, Some _); (KChannelEnd port _, Some _)]);
      [done|done|exact Hs'|exact Hw|at_end|by right|done|].
    intros v. cbn [write_views write_view]. rewrite !decide_True by done.
    cbn [fmap option_fmap option_map mbind option_bind]. by rewrite Channel_roundtrip, be_roundtrip by done.
Qed.

Lemma exec_effect a w w' u :
  fresh_channels w → action_ok a → exec a w = (w', Ok u) → moved w w' ∨ opened w w'.
Proof.
  intros Hf Hok E. destruct a; simpl in Hok.
  - left. by eapply send_moved.
  - left. by eapply recv_moved.
  - left. by eapply write_ack_moved.
  - left. by eapply acknowledge_moved.
  - left. apply TimeoutPacket_Ok in E as (? & ? & ? & ? & _ & _ & _ & _ & _ & _ & _ & _ & Hs).
    by apply moved_same, same_but_clients_channels.
  - left. apply TimeoutOnClose_Ok in E as (? & ? & ? & ? & _ & _ & _ & _ & _ & _ & _ & Hs).
    by apply moved_same, same_but_clients_channels.
  - left. by eapply timeout_executed_moved.
  - right. destruct Hok. by eapply open_init_opened.
  - destruct Hok as (? & ? & ?). by eapply open_try_effect.
  - left. destruct Hok. by eapply open_ack_moved.
  - left. destruct Hok. by eapply open_confirm_moved.
  - left. by eapply close_init_moved.
  - left. by eapply close_confirm_moved.
  - left. apply moved_same. pose proof (Hok w) as Hk. simpl in E. by rewrite E in Hk.
Qed.

Lemma moved_fresh w w' : moved w w' → fresh_channels w → fresh_channels w'.
Proof.
  intros [Hn Hm] Hf m p n Hnext Hp Hle. rewrite Hn in Hnext.
  destruct (Hf m p n Hnext Hp Hle) as [Hc Hs].
  destruct (Hm p (FormatChannelIdentifier n) (conj Hp (FormatChannelIdentifier_no_slash n))) as [_ Hkeep].
  destruct (Hkeep Hc) as [-> ->]. done.
Qed.

Lemma opened_fresh w w' :
  (∀ m, next_channel w = Some m → (m < MaxUint64)%N) → opened w w' → fresh_channels w → fresh_channels w'.
Proof.
  intros Hb (m & port & ch & Hm & Hm' & _ & _ & Hv) Hf m0 p n Hnext Hp Hle.
  rewrite Hm' in Hnext. injection Hnext as <-. rewrite u64_succ in Hle by auto.
  destruct (Hf m p n Hm Hp ltac:(lia)) as [Hc Hs].
  specialize (Hv p (FormatChannelIdentifier n) (conj Hp (FormatChannelIdentifier_no_slash n))).
  rewrite decide_False in Hv.
  - destruct Hv as (<- & <- & _). done.
  - intros [_ E%FormatChannelIdentifier_inj]. lia.
Qed.

Lemma opened_astep w w' p c : fresh_channels w → ids_ok p c → opened w w' → astep (view w p c) (view w' p c).
Proof.
  intros Hf Hid (m & port & ch & Hm & _ & Hst & Ho & Hv). specialize (Hv p c Hid).
  case_decide as E; [|by apply A_idle]. destruct E as [-> <-].
  destruct (Hf m p m Hm (proj1 Hid) ltac:(lia)) as [Hc Hs].
  destruct Hst; [eapply A_open_init|eapply A_open_try_new]; eauto.
Qed.

Lemma exec_astep a w w' p c :
  fresh_channels w → action_ok a → exec a w = (w', Ok tt) → ids_ok p c → astep (view w p c) (view w' p c).
Proof.
  intros Hf Hok E Hid. destruct (exec_effect _ _ _ _ Hf Hok E) as [[_ Hm]|Ho].
  - by apply Hm.
  - by apply opened_astep.
Qed.

(** ** Runs of the keepers *)

(** No [uint64] counter of the store has reached its last value. *)
Definition counter_key (k : string) : bool :=
  HasPrefix k KeyNextSeqSendPrefix || HasPrefix k KeyNextSeqRecvPrefix || String.eqb k KeyNextChannelSequence.
Definition in_range (w : World) : bool :=
  bool_decide (map_Forall (λ k x, counter_key k = true → (BigEndianToUint64 x < MaxUint64)%N) (ibc w)).

(** A run of actions in [P]: they succeed, while every counter is in range. *)
Inductive run_of (P : action → Prop) : World → World → Prop :=
  | run_nil w : run_of P w w
  | run_step a w1 w2 w3 : P a → in_range w1 = true → exec a w1 = (w2, Ok tt) → run_of P w2 w3 → run_of P w1 w3.
Definition run : World → World → Prop := run_of action_ok.

(** The store of a chain before its first channel. *)
Definition genesis (w : World) : Prop :=
  ∀ k, channel_key k = true → k ≠ KNextChannelSequence → ibc w !! render k = None.

(** The invariant of every run. *)
Definition well_formed (w : World) : Prop :=
  fresh_channels w ∧ ∀ p c, ids_ok p c → view_wf (view w p c).

Lemma in_range_lookup w k n :
  in_range w = true → counter_key k = true → BigEndianToUint64 <$> ibc w !! k = Some n → (n < MaxUint64)%N.
Proof.
  intros H%bool_decide_eq_true Hk Hn. destruct (ibc w !! k) as [x|] eqn:E; [|done].
  injection Hn as <-. exact (H k x E Hk).
Qed.

Lemma in_range_next w m : in_range w = true → next_channel w = Some m → (m < MaxUint64)%N.
Proof. intros H. by apply in_range_lookup. Qed.

Lemma in_range_counters w p c : in_range w = true → counters_bounded (view w p c).
Proof. intros H. split; intros n; by apply in_range_lookup. Qed.

Lemma exec_fresh a w w' :
  fresh_channels w → action_ok a → in_range w = true → exec a w = (w', Ok tt) → fresh_channels w'.
Proof.
  intros Hf Hok Hb E. destruct (exec_effect _ _ _ _ Hf Hok E); eauto using moved_fresh, opened_fresh, in_range_next.
Qed.

Lemma exec_well_formed a w w' :
  well_formed w → action_ok a → in_range w = true → exec a w = (w', Ok tt) → well_formed w'.
Proof.
  intros [Hf Hwf] Hok Hb E. split; [by eapply exec_fresh|]. intros p c Hid.
  eapply astep_wf; [by apply Hwf|by apply in_range_counters|by eapply exec_astep].
Qed.

Lemma run_well_formed w w' : well_formed w → run w w' → well_formed w'.
Proof. intros Hwf H. induction H; eauto using exec_well_formed. Qed.

Lemma genesis_well_formed w : genesis w → well_formed w.
Proof.
  intros H. split.
  - intros m p n _ _ _. unfold view, view_of. cbn [v_chan v_send]. by rewrite !H.
  - intros p c Hid. unfold view, view_of, view_wf. cbn [v_chan v_commit v_send].
    split; [intros ch|intros n x]; by rewrite H.
Qed.

Lemma run_arun w w' p c : well_formed w → ids_ok p c → run w w' → arun (view w p c) (view w' p c).
Proof.
  intros Hf Hid H. induction H as [|a w1 w2 w3 Hok Hb E Hr IH]; [constructor|].
  econstructor; [by apply in_range_counters|eapply exec_astep; [apply Hf|done..]|].
  eauto using exec_well_formed.
Qed.

Lemma run_of_trans P w1 w2 w3 : run_of P w1 w2 → run_of P w2 w3 → run_of P w1 w3.
Proof. induction 1; eauto using run_of. Qed.
Lemma run_trans w1 w2 w3 : run w1 w2 → run w2 w3 → run w1 w3.
Proof. apply run_of_trans. Qed.
End system.
#[global] Arguments run_step {_ _ _ _ _ _} _ _ _ _ _ _ _ _.
