(* ===== verification/ChannelSafety.v ===== *)
(** * Safety of channels over whole runs

    The theorems about every run of the keepers from a chain without channels:
    the refinement of the channel state machine, the life cycle of a channel end,
    at-most-once and in-order delivery, write-once acknowledgements, and packets
    that are settled at most once.  [ChannelWitness] runs a channel handshake and
    a delivery on the concrete chains of [Scenario.v]. *)
From S2P Require Import Prelude GoMonad Errors Sha256 Height Host Sdk ConnectionTypes.
From S2P Require Import ChannelTypes Exported ClientKeeper ConnectionKeeper PortKeeper.
From S2P Require Import ChannelKeeper ChannelHandshake FullNode Scenario ChannelSpec.
From S2P Require Import HandshakeSpec ChannelView ChannelSystem.
From Stdlib Require Import Ascii.

Section lemmas.
Context {SE : SdkEncoding} {LC : LightClient} {CD : Codec} {CK : CapabilityKeeper} {AP : Application}.

(** What a successful receive leaves behind in the view of the destination. *)
Definition received (v : View) (n : N) : Prop :=
  ∃ ch, v_chan v = Some ch ∧
    (Channel_Ordering ch = UNORDERED ∧ is_Some (v_receipt v n) ∨
     Channel_Ordering ch = ORDERED ∧ ∃ m, v_recv v = Some m ∧ (n < m)%N).

Lemma received_arun v v' n : received v n → arun v v' → received v' n.
Proof.
  intros (ch & Hc & Hr) H. destruct (arun_ordering _ _ _ H Hc) as (ch' & Hc' & Ho').
  exists ch'. split; [done|]. rewrite Ho'. destruct Hr as [[Ho [r Hr]]|[Ho (m & Hm & Hlt)]].
  - left. split; [done|]. exists r. by eapply arun_receipt.
  - right. split; [done|]. destruct (arun_recv _ _ _ _ H Hc Hm) as (m' & Hm' & Hle).
    exists m'. split; [done|lia].
Qed.

Lemma RecvPacket_not_received ctx cap pkt prf h w w' u :
  received (view w (DestinationPort pkt) (DestinationChannel pkt)) (Sequence pkt) →
  RecvPacket ctx cap pkt prf h w = (w', Ok u) → False.
Proof.
  intros (ch & Hc & Hr)
    (ch' & hop & ce & self & w1 & [Hch _] & Hst & _ & _ & _ & _ & _ & _ & _ & _ & Hs & Hw & _)%RecvPacket_Ok.
  apply same_but_clients_channels in Hs.
  assert (ch' = ch) as -> by (change (chan w (DestinationPort pkt) (DestinationChannel pkt) = Some ch) in Hc; congruence).
  unfold recv_writes in Hw. destruct Hr as [[Ho [r Hr]]|[Ho (m & Hm & Hlt)]]; rewrite Ho in Hw; destruct Hw as [Hn _].
  - pose proof (same_channels_key _ _ (KPacketReceipt (DestinationPort pkt) (DestinationChannel pkt) (Sequence pkt)) Hs eq_refl) as E.
    cbn [render] in E. rewrite E in Hn. unfold view, view_of in Hr. cbn [v_receipt render] in Hr. congruence.
  - pose proof (same_channels_key _ _ (KNextSequenceRecv (DestinationPort pkt) (DestinationChannel pkt)) Hs eq_refl) as E.
    cbn [render] in E. rewrite E in Hn. unfold view, view_of in Hm. cbn [v_recv render] in Hm.
    rewrite Hn in Hm. simplify_eq. lia.
Qed.

(** After a successful receive the packet is [received]. *)
Lemma RecvPacket_received ctx cap pkt prf h w w' u :
  well_formed w → in_range w = true → ids_ok (DestinationPort pkt) (DestinationChannel pkt) →
  RecvPacket ctx cap pkt prf h w = (w', Ok u) →
  received (view w' (DestinationPort pkt) (DestinationChannel pkt)) (Sequence pkt).
Proof.
  intros [_ Hwf] Hr Hid
    (ch & hop & ce & self & w1 & [Hch _] & Hst & _ & _ & _ & _ & _ & _ & _ & _ & Hs & Hw & _)%RecvPacket_Ok.
  apply same_but_clients_channels in Hs. set (p := DestinationPort pkt) in *. set (c := DestinationChannel pkt) in *.
  destruct (Hwf p c Hid) as [Hord _]. destruct (Hord ch Hch) as [_ Ho].
  pose proof (in_range_counters w p c Hr) as [_ Hb].
  exists ch. unfold recv_writes in Hw. unfold view, view_of. cbn [v_chan v_receipt v_recv].
  destruct Ho as [Ho|Ho]; rewrite Ho in *; destruct Hw as [Hn Hw]; rewrite Hw; fold p c in Hn |- *.
  - assert ((Sequence pkt < MaxUint64)%N) as Hlt.
    { apply Hb. rewrite <- Hn. unfold view, view_of. cbn [v_recv]. f_equal.
      symmetry. exact (same_channels_key _ _ (KNextSequenceRecv p c) Hs eq_refl). }
    split.
    + change (NextSequenceRecvKey p c) with (render (KNextSequenceRecv p c)).
      rewrite lookup_insert_render by (by apply key_ids). rewrite decide_False by done.
      rewrite (same_channels_key _ _ (KChannelEnd p c) Hs eq_refl). exact Hch.
    + right. split; [done|]. change (NextSequenceRecvKey p c) with (render (KNextSequenceRecv p c)).
      rewrite lookup_insert_eq. cbn. rewrite be_roundtrip by apply u64_bound.
      eexists. split; [done|]. rewrite u64_succ by done. lia.
  - split.
    + change (PacketReceiptKey p c (Sequence pkt)) with (render (KPacketReceipt p c (Sequence pkt))).
      rewrite lookup_insert_render by (by apply key_ids). rewrite decide_False by done.
      rewrite (same_channels_key _ _ (KChannelEnd p c) Hs eq_refl). exact Hch.
    + left. split; [done|]. change (PacketReceiptKey p c (Sequence pkt)) with (render (KPacketReceipt p c (Sequence pkt))).
      rewrite lookup_insert_eq. by eexists.
Qed.

(** The packet [n] was sent and its commitment has been removed. *)
Definition settled (v : View) (n : N) : Prop :=
  v_commit v n = None ∧ ∃ m, v_send v = Some m ∧ (n < m)%N.

Lemma settled_arun v v' n : settled v n → arun v v' → settled v' n.
Proof.
  intros [Hc (m & Hm & Hlt)] H. split; [by eapply arun_commit|].
  destruct (arun_send _ _ _ H Hm) as (m' & Hm' & Hle). exists m'. split; [done|lia].
Qed.

Lemma settled_writes w w' p c n x s :
  well_formed w → ids_ok p c → commitment_at w p c n = Some x →
  same_channels (ibc w) s →
  (ibc w' = delete (PacketCommitmentKey p c n) s ∨
   (∃ y, ibc w' = delete (PacketCommitmentKey p c n) (<[NextSequenceAckKey p c := y]> s)) ∨
   (∃ y, ibc w' = <[ChannelKey p c := y]> (delete (PacketCommitmentKey p c n) s))) →
  settled (view w' p c) n.
Proof.
  intros [_ Hwf] Hid Hx Hs Hw. destruct (Hwf p c Hid) as [_ Hcm]. destruct (Hcm n x Hx) as (m & Hm & Hlt).
  unfold view, view_of in Hm. cbn [v_send] in Hm.
  unfold settled, view, view_of. cbn [v_commit v_send].
  change (PacketCommitmentKey p c n) with (render (KPacketCommitment p c n)) in Hw.
  change (NextSequenceAckKey p c) with (render (KNextSequenceAck p c)) in Hw.
  change (ChannelKey p c) with (render (KChannelEnd p c)) in Hw.
  destruct Hw as [->|[[y ->]|[y ->]]];
    rewrite ?lookup_insert_render, ?lookup_delete_render, ?lookup_insert_render, ?lookup_delete_render
      by (by apply key_ids);
    rewrite ?(decide_False (P:=KChannelEnd p c = _)), ?decide_True, ?decide_False by done;
    (split; [done|]); rewrite (same_channels_key _ _ (KNextSequenceSend p c) Hs eq_refl); eauto.
Qed.

Lemma AcknowledgePacket_settles ctx cap pkt ack prf h w w' u :
  well_formed w → ids_ok (SourcePort pkt) (SourceChannel pkt) →
  AcknowledgePacket ctx cap pkt ack prf h w = (w', Ok u) →
  settled (view w' (SourcePort pkt) (SourceChannel pkt)) (Sequence pkt).
Proof.
  intros Hwf Hid
    (ch & hop & ce & w1 & _ & _ & _ & _ & _ & _ & Hcm & _ & Hs%same_but_clients_channels & Hw & _)%AcknowledgePacket_Ok.
  eapply settled_writes; [done|done|exact Hcm|exact Hs|]. unfold ack_writes in Hw.
  case_bool_decide; [destruct Hw as [_ Hw]; right; left; eauto|by left].
Qed.

Lemma TimeoutExecuted_settles cap pkt x w w' u :
  well_formed w → ids_ok (SourcePort pkt) (SourceChannel pkt) →
  commitment_at w (SourcePort pkt) (SourceChannel pkt) (Sequence pkt) = Some x →
  TimeoutExecuted cap pkt w = (w', Ok u) →
  settled (view w' (SourcePort pkt) (SourceChannel pkt)) (Sequence pkt).
Proof.
  intros Hwf Hid Hcm (ch & _ & _ & Hw & _)%TimeoutExecuted_Ok.
  eapply settled_writes; [done|done|exact Hcm|reflexivity|]. unfold timeout_writes in Hw.
  case_bool_decide; eauto.
Qed.

(** No operation that settles a packet accepts a settled one. *)
Lemma settled_final p c n w pkt :
  settled (view w p c) n → SourcePort pkt = p → SourceChannel pkt = c → Sequence pkt = n →
  (∀ ctx cap ack prf h, (AcknowledgePacket ctx cap pkt ack prf h w).2 ≠ Ok tt) ∧
  (∀ ctx prf h m, (TimeoutPacket ctx pkt prf h m w).2 ≠ Ok tt) ∧
  (∀ ctx cap prf prfc h m, (TimeoutOnClose ctx cap pkt prf prfc h m w).2 ≠ Ok tt).
Proof.
  intros [Hn _] <- <- <-.
  assert (commitment_at w (SourcePort pkt) (SourceChannel pkt) (Sequence pkt) = None) as Hc by exact Hn.
  split_and!; intros * E.
  - destruct (AcknowledgePacket ctx cap pkt ack prf h w) as [w' o] eqn:R. simpl in E. subst o.
    apply AcknowledgePacket_Ok in R as (?&?&?&?&_&_&_&_&_&_&Hx&_). congruence.
  - destruct (TimeoutPacket ctx pkt prf h m w) as [w' o] eqn:R. simpl in E. subst o.
    apply TimeoutPacket_Ok in R as (?&?&?&?&_&_&_&_&_&_&Hx&_). congruence.
  - destruct (TimeoutOnClose ctx cap pkt prf prfc h m w) as [w' o] eqn:R. simpl in E. subst o.
    apply TimeoutOnClose_Ok in R as (?&?&?&?&_&_&_&_&Hx&_). congruence.
Qed.

(** The next send sequence after a successful send. *)
Lemma SendPacket_next ctx cap pkt w w' u :
  ids_ok (SourcePort pkt) (SourceChannel pkt) → in_range w = true → SendPacket ctx cap pkt w = (w', Ok u) →
  next_send w (SourcePort pkt) (SourceChannel pkt) = Some (Sequence pkt) ∧
  next_send w' (SourcePort pkt) (SourceChannel pkt) = Some (Sequence pkt + 1)%N.
Proof.
  intros Hid Hr (_ & ch & hop & ce & cs & _ & _ & _ & _ & _ & _ & _ & _ & Hn & Hw & _)%SendPacket_Ok.
  split; [done|]. pose proof (in_range_counters w (SourcePort pkt) (SourceChannel pkt) Hr) as [Hb _].
  specialize (Hb _ Hn). unfold next_send. rewrite Hw.
  change (PacketCommitmentKey ?p ?c ?n) with (render (KPacketCommitment p c n)).
  change (NextSequenceSendKey ?p ?c) with (render (KNextSequenceSend p c)).
  rewrite lookup_insert_render by (by apply key_ids). rewrite decide_False by done.
  rewrite lookup_insert_eq. cbn. by rewrite be_roundtrip, u64_succ by (done || apply u64_bound).
Qed.
End lemmas.

Section claims.
Context {SE : SdkEncoding} {LC : LightClient} {CD : Codec} {CK : CapabilityKeeper} {AP : Application}.

(** C10: Refinement.  Every successful operation of the channel keeper (packet
    operations, handshake steps with their application callbacks, closing), and every
    operation that does not write channel keys, makes one step of the abstract
    channel machine [astep] on every channel end, follows a legal transition of
    channel states, and preserves the store invariant [well_formed]. *)
Theorem exec_refines a w w' :
  well_formed w → action_ok a → in_range w = true → exec a w = (w', Ok tt) →
  well_formed w' ∧
  ∀ p c, ids_ok p c → astep (view w p c) (view w' p c) ∧
    state_step (view_state (view w p c)) (view_state (view w' p c)) = true.
Proof.
  intros Hwf Hok Hr E. split; [by eapply exec_well_formed|]. intros p c Hid.
  assert (Hs : astep (view w p c) (view w' p c)) by (eapply exec_astep; [apply Hwf|done..]).
  split; [done|]. apply astep_state; [by apply Hwf|done].
Qed.

(** C13: The life cycle of a channel end: in every run from a chain without channels, a
    channel end never disappears, never changes its ordering, never moves back in
    UNINITIALIZED < INIT < TRYOPEN < OPEN < CLOSED, and once CLOSED stays CLOSED. *)
Theorem channel_lifecycle w0 w w' p c ch :
  genesis w0 → run w0 w → run w w' → ids_ok p c → chan w p c = Some ch →
  ∃ ch', chan w' p c = Some ch' ∧ Channel_Ordering ch' = Channel_Ordering ch ∧
    state_rank (Channel_State ch) ≤ state_rank (Channel_State ch') ∧
    (Channel_State ch = CLOSED → Channel_State ch' = CLOSED).
Proof.
  intros Hg Hr0 Hr Hid Hc.
  pose proof (run_well_formed _ _ (genesis_well_formed _ Hg) Hr0) as Hwf.
  pose proof (run_arun _ _ p c Hwf Hid Hr) as Ha.
  destruct (arun_ordering _ _ _ Ha Hc) as (ch' & Hc' & Ho). exists ch'. split; [done|]. split; [done|].
  pose proof (arun_rank _ _ (proj2 Hwf p c Hid) Ha) as Hrank. unfold view_state in Hrank.
  change (chan w p c) with (v_chan (view w p c)) in Hc. rewrite Hc, Hc' in Hrank.
  split; [done|]. intros Hcl. rewrite Hcl in Hrank. destruct (Channel_State ch'); simpl in Hrank; done || lia.
Qed.

(** At-most-once delivery.  In every run from a chain without channels, once
    [RecvPacket] has accepted a packet, it never again accepts a packet with the same
    destination and sequence, whatever the proof, height, data and capability, on
    UNORDERED and on ORDERED channels. *)
Theorem packet_received_at_most_once w0 w w1 w2 ctx cap pkt prf h ctx' cap' pkt' prf' h' :
  genesis w0 → run w0 w → in_range w = true →
  ids_ok (DestinationPort pkt) (DestinationChannel pkt) →
  RecvPacket ctx cap pkt prf h w = (w1, Ok tt) → run w1 w2 →
  DestinationPort pkt' = DestinationPort pkt → DestinationChannel pkt' = DestinationChannel pkt →
  Sequence pkt' = Sequence pkt →
  (RecvPacket ctx' cap' pkt' prf' h' w2).2 ≠ Ok tt.
Proof.
  intros Hg Hr0 Hin Hid E Hr Hp Hc Hs Hok.
  pose proof (run_well_formed _ _ (genesis_well_formed _ Hg) Hr0) as Hwf.
  pose proof (RecvPacket_received _ _ _ _ _ _ _ _ Hwf Hin Hid E) as Hrec.
  assert (Hwf1 : well_formed w1) by (by eapply (exec_well_formed (Do_recv ctx cap pkt prf h))).
  pose proof (received_arun _ _ _ Hrec (run_arun _ _ _ _ Hwf1 Hid Hr)) as Hrec2.
  destruct (RecvPacket ctx' cap' pkt' prf' h' w2) as [w3 o] eqn:E2. simpl in Hok. subst o.
  rewrite <- Hp, <- Hc, <- Hs in Hrec2. by eapply RecvPacket_not_received.
Qed.

(** C12: In-order delivery.  On an ORDERED channel end the sequences that
    [RecvPacket] accepts in a run are strictly increasing, and each is the channel's
    next receive sequence at that moment. *)
Theorem ordered_delivery w0 w w1 w2 w3 ctx cap pkt prf h ctx' cap' pkt' prf' h' ch :
  genesis w0 → run w0 w → in_range w = true →
  ids_ok (DestinationPort pkt) (DestinationChannel pkt) →
  chan w (DestinationPort pkt) (DestinationChannel pkt) = Some ch → Channel_Ordering ch = ORDERED →
  RecvPacket ctx cap pkt prf h w = (w1, Ok tt) → run w1 w2 →
  DestinationPort pkt' = DestinationPort pkt → DestinationChannel pkt' = DestinationChannel pkt →
  RecvPacket ctx' cap' pkt' prf' h' w2 = (w3, Ok tt) →
  (Sequence pkt < Sequence pkt')%N ∧
  next_recv w2 (DestinationPort pkt) (DestinationChannel pkt) = Some (Sequence pkt').
Proof.
  intros Hg Hr0 Hin Hid Hch Ho E Hr Hp Hc E2.
  pose proof (run_well_formed _ _ (genesis_well_formed _ Hg) Hr0) as Hwf.
  pose proof (RecvPacket_received _ _ _ _ _ _ _ _ Hwf Hin Hid E) as Hrec.
  assert (Hwf1 : well_formed w1) by (by eapply (exec_well_formed (Do_recv ctx cap pkt prf h))).
  pose proof (received_arun _ _ _ Hrec (run_arun _ _ _ _ Hwf1 Hid Hr)) as (ch2 & Hch2 & Hrec2).
  assert (Ho2 : Channel_Ordering ch2 = ORDERED).
  { assert (Hrun : run w w2) by (by eapply (run_step (Do_recv ctx cap pkt prf h))).
    destruct (arun_ordering _ _ _ (run_arun _ _ _ _ Hwf Hid Hrun) Hch) as (ch2' & E' & ?). congruence. }
  destruct Hrec2 as [[Ho2' _]|[_ (m & Hm & Hlt)]]; [congruence|].
  apply RecvPacket_Ok in E2 as (ch3 & hop & ce & self & w4 & [Hch3 _] & _ & _ & _ & _ & _ & _ & _ & _ & _ & Hs & Hw & _).
  rewrite Hp, Hc in Hch3. assert (ch3 = ch2) as ->.
  { change (chan w2 (DestinationPort pkt) (DestinationChannel pkt) = Some ch2) in Hch2. congruence. }
  unfold recv_writes in Hw. rewrite Ho2, Hp, Hc in Hw. destruct Hw as [Hn _].
  assert (Hn2 : next_recv w2 (DestinationPort pkt) (DestinationChannel pkt) = Some (Sequence pkt')).
  { rewrite Hs. exact Hn. }
  split; [|done]. change (next_recv w2 (DestinationPort pkt) (DestinationChannel pkt) = Some m) in Hm.
  rewrite Hn2 in Hm. by injection Hm as <-.
Qed.

(** Acknowledgements are write-once.  In every run from a chain without channels,
    a stored packet acknowledgement is never changed or removed, and
    [WriteAcknowledgement] never succeeds again for that packet. *)
Theorem acknowledgement_write_once w0 w w' p c n a :
  genesis w0 → run w0 w → run w w' → ids_ok p c → ack_at w p c n = Some a →
  ack_at w' p c n = Some a ∧
  ∀ cap pkt ack, DestinationPort pkt = p → DestinationChannel pkt = c → Sequence pkt = n →
    (WriteAcknowledgement cap pkt ack w').2 ≠ Ok tt.
Proof.
  intros Hg Hr0 Hr Hid Ha.
  pose proof (run_well_formed _ _ (genesis_well_formed _ Hg) Hr0) as Hwf.
  assert (Ha' : ack_at w' p c n = Some a) by exact (arun_acks _ _ _ _ (run_arun _ _ p c Hwf Hid Hr) Ha).
  split; [done|]. intros cap pkt ack <- <- <- Hok.
  destruct (WriteAcknowledgement cap pkt ack w') as [w2 o] eqn:E. simpl in Hok. subst o.
  apply WriteAcknowledgement_Ok in E as (? & _ & _ & _ & Hn & _). congruence.
Qed.

(** A packet is settled at most once.  In every run from a chain without
    channels, after a sent packet has been acknowledged or its timeout executed, no
    acknowledgement, timeout or timeout-on-close of a packet with the same source and
    sequence succeeds: refunds and acknowledgement callbacks run once. *)
Theorem packet_settled_at_most_once w0 w w1 w2 a pkt pkt' x :
  genesis w0 → run w0 w → in_range w = true → ids_ok (SourcePort pkt) (SourceChannel pkt) →
  ((∃ ctx cap ack prf h, a = Do_acknowledge ctx cap pkt ack prf h) ∨ ∃ cap, a = Do_timeout_executed cap pkt) →
  commitment_at w (SourcePort pkt) (SourceChannel pkt) (Sequence pkt) = Some x →
  exec a w = (w1, Ok tt) → run w1 w2 →
  SourcePort pkt' = SourcePort pkt → SourceChannel pkt' = SourceChannel pkt → Sequence pkt' = Sequence pkt →
  (∀ ctx cap ack prf h, (AcknowledgePacket ctx cap pkt' ack prf h w2).2 ≠ Ok tt) ∧
  (∀ ctx prf h m, (TimeoutPacket ctx pkt' prf h m w2).2 ≠ Ok tt) ∧
  (∀ ctx cap prf prfc h m, (TimeoutOnClose ctx cap pkt' prf prfc h m w2).2 ≠ Ok tt).
Proof.
  intros Hg Hr0 Hin Hid Ha Hx E Hr Hp Hc Hs.
  pose proof (run_well_formed _ _ (genesis_well_formed _ Hg) Hr0) as Hwf.
  assert (Hok : action_ok a) by (destruct Ha as [(?&?&?&?&?&->)|[? ->]]; done).
  assert (Hwf1 : well_formed w1) by (by eapply exec_well_formed).
  assert (Hset : settled (view w1 (SourcePort pkt) (SourceChannel pkt)) (Sequence pkt)).
  { destruct Ha as [(ctx & cap & ack & prf & h & ->)|[cap ->]];
      [eapply AcknowledgePacket_settles; [exact Hwf|exact Hid|exact E]
      |eapply TimeoutExecuted_settles; [exact Hwf|exact Hid|exact Hx|exact E]]. }
  eapply settled_final; [|exact Hp|exact Hc|exact Hs]. eapply settled_arun; [exact Hset|]. by apply run_arun.
Qed.

(** Send sequences are never reused.  In every run from a chain without channels,
    a packet sent later on the same channel end has a larger sequence; the first one
    sent after [pkt] with no other send in between has the next one. *)
Theorem send_sequences_increase w0 w w1 w2 w3 ctx cap pkt ctx' cap' pkt' :
  genesis w0 → run w0 w → in_range w = true → ids_ok (SourcePort pkt) (SourceChannel pkt) →
  SendPacket ctx cap pkt w = (w1, Ok tt) → run w1 w2 →
  SourcePort pkt' = SourcePort pkt → SourceChannel pkt' = SourceChannel pkt →
  SendPacket ctx' cap' pkt' w2 = (w3, Ok tt) →
  (Sequence pkt < Sequence pkt')%N ∧ (w1 = w2 → Sequence pkt' = Sequence pkt + 1)%N.
Proof.
  intros Hg Hr0 Hin Hid E Hr Hp Hc E2.
  pose proof (run_well_formed _ _ (genesis_well_formed _ Hg) Hr0) as Hwf.
  assert (Hwf1 : well_formed w1) by (by eapply (exec_well_formed (Do_send ctx cap pkt))).
  destruct (SendPacket_next _ _ _ _ _ _ Hid Hin E) as [_ Hn1].
  apply SendPacket_Ok in E2 as (_ & ? & ? & ? & ? & _ & _ & _ & _ & _ & _ & _ & _ & Hn2 & _).
  rewrite Hp, Hc in Hn2. destruct (arun_send _ _ _ (run_arun _ _ _ _ Hwf1 Hid Hr) Hn1) as (m & Hm & Hle).
  change (next_send w2 (SourcePort pkt) (SourceChannel pkt) = Some m) in Hm.
  rewrite Hn2 in Hm. injection Hm as <-. split; [lia|]. intros <-. rewrite Hn2 in Hn1. by injection Hn1.
Qed.
End claims.

(** ** Concrete runs *)

Module ChannelWitness.
Import ToyInstances Scenario.

(** Run a list of actions, checking that each is in range and succeeds. *)
Fixpoint run_all (l : list action) (w : World) : World * bool :=
  match l with
  | [] => (w, true)
  | a :: l => let r := exec a w in let r' := run_all l r.1 in (r'.1, in_range w && is_ok r.2 && r'.2)
  end.

Lemma run_all_run P l w : Forall P l → (run_all l w).2 = true → run_of P w (run_all l w).1.
Proof.
  intros Hl. revert w. induction Hl as [|a l Ha Hl IH]; intros w; simpl; [constructor|].
  rewrite !andb_true_iff. intros [[Hin Hok] Hr].
  destruct (exec a w) as [w' [[]|e|]] eqn:E; try done. by eapply run_step; [| |exact E|apply IH].
Qed.

(** The application callback that claims the channel capability. *)
Definition claim {A} (r : A) (id : string) (c : Capability) : M A :=
  on_caps (cap_ClaimCapability "transfer" c (ChannelCapabilityPath "transfer" id)) ;;; ret r.

Lemma claim_keeps {A} (r : A) id c : keeps_channels (claim r id c).
Proof.
  intros w. unfold claim, bind, on_caps, zoom, ret.
  by destruct (cap_ClaimCapability _ _ _ _) as [t [[]|e|]].
Qed.

(** A chain with a client and a connection, whose client has seen [roots]. *)
Definition base_store (connID connID' : string) (next : N) (latest : Height)
    (roots : list (Height * FNConsensus)) : KVStore :=
  list_to_map ([
    (KeyNextClientSequence, be 1); (KeyNextConnectionSequence, be 6); (KeyNextChannelSequence, be next);
    (FullClientStateKey clientID, enc (mkFNClient latest false));
    (ConnectionKey connID, enc (connection connID'))] ++
    ((λ '(h, c), (FullConsensusStateKey clientID h, enc c)) <$> roots)).
Definition base (s : KVStore) : World := chain s (<[PortPath "transfer" := (0%N, ["ibc"; "transfer"])]> ∅).

Lemma base_genesis connID connID' next latest roots : genesis (base (base_store connID connID' next latest roots)).
Proof.
  intros k Hk Hn. simpl. unfold base_store. apply not_elem_of_list_to_map_1.
  rewrite fmap_app. intros [H|H]%elem_of_app.
  - simpl in H. rewrite !elem_of_cons, elem_of_nil in H.
    destruct k; try done; destruct_or? H; try done; revert H; path_ne.
  - rewrite <- list_fmap_compose in H. apply list_elem_of_fmap in H as ([h c] & H & _).
    destruct k; try done; revert H; simpl; path_ne.
Qed.

Definition chan_root (p c : string) (ch : Channel) : KVStore := {[ChannelKey p c := enc ch]}.

(** Chain B: it has seen A in INIT at 1-18, OPEN at 1-19 and after the send at 1-20. *)
Definition genesisB (order : Order) : World :=
  base (base_store "connection-5" "connection-0" 1 (NewHeight 1 20) [
    (NewHeight 1 18, mkFNConsensus 800 (chan_root "transfer" "channel-0"
      (NewChannel INIT order (NewCounterparty "transfer" "") ["connection-0"] "ics20-1")));
    (NewHeight 1 19, mkFNConsensus 900 (chan_root "transfer" "channel-0" (channelA order)));
    (NewHeight 1 20, mkFNConsensus 1000 (ibc (worldA_sent order)))]).
Definition openB (order : Order) : list action := [
  Do_open_try ctxB order ["connection-5"] "transfer" "" 0%N (NewCounterparty "transfer" "channel-0") "ics20-1" ""
    (NewHeight 1 18) (claim "ics20-1");
  Do_open_confirm ctxB "transfer" "channel-1" 1%N "" (NewHeight 1 19) (ret tt)].
Definition opensB (order : Order) : World := (run_all (openB order) (genesisB order)).1.

(** Chain A: it has seen B in TRYOPEN at 1-9, the acknowledgement at 1-31. *)
Definition genesisA (order : Order) : World :=
  base (base_store "connection-0" "connection-5" 0 (NewHeight 1 31) [
    (NewHeight 1 9, mkFNConsensus 800 (chan_root "transfer" "channel-1"
      (NewChannel TRYOPEN order (NewCounterparty "transfer" "channel-0") ["connection-5"] "ics20-1")));
    (NewHeight 1 31, mkFNConsensus 1100
      {[PacketAcknowledgementKey "transfer" "channel-1" 1 := CommitAcknowledgement "ack"]})]).
Definition openA (order : Order) : list action := [
  Do_open_init order ["connection-0"] "transfer" 0%N (NewCounterparty "transfer" "") "ics20-1" (claim tt);
  Do_open_ack ctxA "transfer" "channel-0" 1%N "ics20-1" "channel-1" "" (NewHeight 1 9) (ret tt)].
Definition opensA (order : Order) : World := (run_all (openA order) (genesisA order)).1.

Lemma openA_ok order : ordering_ok order → Forall action_ok (openA order).
Proof.
  intros Ho. apply Forall_cons_2; [split; [done|intros; apply claim_keeps]|].
  by apply Forall_cons_2; [|constructor].
Qed.
Lemma openB_ok order : ordering_ok order → Forall action_ok (openB order).
Proof.
  intros Ho. apply Forall_cons_2; [split_and!; [done|done|intros; apply claim_keeps]|].
  by apply Forall_cons_2; [|constructor].
Qed.

Lemma opensA_run order : ordering_ok order → run (genesisA order) (opensA order).
Proof.
  intros Ho. apply run_all_run; [by apply openA_ok|]. destruct Ho as [->| ->]; vm_compute; reflexivity.
Qed.
Lemma opensB_run order : ordering_ok order → run (genesisB order) (opensB order).
Proof.
  intros Ho. apply run_all_run; [by apply openB_ok|]. destruct Ho as [->| ->]; vm_compute; reflexivity.
Qed.

Definition send : action := Do_send ctxA 1%N packet.
Definition write_ack : action := Do_write_ack 1%N packet "ack".
Definition recv (n : N) : action := Do_recv ctxB 1%N packet "" (NewHeight 1 n).
Definition acknowledge : action := Do_acknowledge ctxA 1%N packet "ack" "" (NewHeight 1 31).
Definition close : action := Do_close_init "transfer" "channel-0" 1%N.

(** The world after an action. *)
Definition after (a : action) (w : World) : World := (exec a w).1.

Lemma exec_after a w : (exec a w).2 = Ok tt → exec a w = (after a w, Ok tt).
Proof. apply run_pair. Qed.
Lemma run_after a w0 w :
  run w0 w → action_ok a → in_range w = true → (exec a w).2 = Ok tt → run w0 (after a w).
Proof. intros Hr Ha Hin He. eapply run_trans; [done|]. by eapply run_step; [| |apply exec_after|constructor]. Qed.

(** The same sequence with other data, and a second packet. *)
Definition replayed : Packet :=
  NewPacket "other" 1 "transfer" "channel-0" "transfer" "channel-1" (NewHeight 1 50) 0.
Definition second : Packet :=
  NewPacket "more" 2 "transfer" "channel-0" "transfer" "channel-1" (NewHeight 1 50) 0.

(** Unfold an action before what it runs. *)
#[local] Strategy expand [exec recv send write_ack acknowledge close].

Ltac by_vm := vm_compute; reflexivity.

Lemma receivedB_run order : ordering_ok order → run (genesisB order) (after (recv 20) (opensB order)).
Proof.
  intros Ho. apply run_after; [by apply opensB_run|done|..]; destruct Ho as [->| ->]; by_vm.
Qed.
Lemma sentA_run order : ordering_ok order → run (genesisA order) (after send (opensA order)).
Proof.
  intros Ho. apply run_after; [by apply opensA_run|done|..]; destruct Ho as [->| ->]; by_vm.
Qed.

Lemma exec_refines_witness : well_formed (after (recv 20) (opensB UNORDERED)).
Proof.
  apply (exec_refines (recv 20) (opensB UNORDERED)).
  - eapply run_well_formed; [apply genesis_well_formed, base_genesis|apply opensB_run; by right].
  - done.
  - by_vm.
  - apply exec_after. by_vm.
Defined.

Lemma channel_lifecycle_witness :
  ∃ ch, chan (after close (after send (opensA ORDERED))) "transfer" "channel-0" = Some ch ∧
    Channel_Ordering ch = ORDERED.
Proof.
  destruct (channel_lifecycle (genesisA ORDERED) (after send (opensA ORDERED))
    (after close (after send (opensA ORDERED))) "transfer" "channel-0" (channelA ORDERED)) as (ch & Hc & Ho & _).
  - apply base_genesis.
  - apply sentA_run. by left.
  - apply run_after; [constructor|done|by_vm..].
  - done.
  - by_vm.
  - exists ch. split; [exact Hc|exact Ho].
Defined.

Lemma packet_received_at_most_once_witness :
  (RecvPacket ctxB_late 1%N replayed "" (NewHeight 1 20)
     (after write_ack (after (recv 20) (opensB UNORDERED)))).2 ≠ Ok tt.
Proof.
  apply (packet_received_at_most_once (genesisB UNORDERED) (opensB UNORDERED) (after (recv 20) (opensB UNORDERED))
    (after write_ack (after (recv 20) (opensB UNORDERED))) ctxB 1%N packet "" (NewHeight 1 20)).
  - apply base_genesis.
  - apply opensB_run. by right.
  - by_vm.
  - done.
  - refine (exec_after (recv 20) (opensB UNORDERED) _). by_vm.
  - apply run_after; [constructor|done|by_vm..].
  - done.
  - done.
  - done.
Defined.

(** B when A has sent two packets. *)
Definition genesisB2 : World :=
  base (base_store "connection-5" "connection-0" 1 (NewHeight 1 20) [
    (NewHeight 1 18, mkFNConsensus 800 (chan_root "transfer" "channel-0"
      (NewChannel INIT ORDERED (NewCounterparty "transfer" "") ["connection-0"] "ics20-1")));
    (NewHeight 1 19, mkFNConsensus 900 (chan_root "transfer" "channel-0" (channelA ORDERED)));
    (NewHeight 1 20, mkFNConsensus 1000
      (ibc (SendPacket ctxA 1%N second (worldA_sent ORDERED)).1))]).
Definition opensB2 : World := (run_all (openB ORDERED) genesisB2).1.
Definition recv_second : action := Do_recv ctxB 1%N second "" (NewHeight 1 20).

#[local] Strategy expand [recv_second].

Lemma opensB2_run : run genesisB2 opensB2.
Proof. apply run_all_run; [apply openB_ok; by left|by_vm]. Qed.

Lemma ordered_delivery_witness :
  (Sequence packet < Sequence second)%N ∧
  next_recv (after (recv 20) opensB2) "transfer" "channel-1" = Some 2%N.
Proof.
  apply (ordered_delivery genesisB2 opensB2 (after (recv 20) opensB2) (after (recv 20) opensB2)
    (after recv_second (after (recv 20) opensB2)) ctxB 1%N packet "" (NewHeight 1 20)
    ctxB 1%N second "" (NewHeight 1 20) (channelB ORDERED)).
  - apply base_genesis.
  - apply opensB2_run.
  - by_vm.
  - done.
  - by_vm.
  - done.
  - refine (exec_after (recv 20) opensB2 _). by_vm.
  - constructor.
  - done.
  - done.
  - refine (exec_after recv_second (after (recv 20) opensB2) _). by_vm.
Defined.

Lemma acknowledgement_write_once_witness :
  (WriteAcknowledgement 1%N packet "other" (after write_ack (after (recv 20) (opensB ORDERED)))).2 ≠ Ok tt.
Proof.
  destruct (acknowledgement_write_once (genesisB ORDERED) (after write_ack (after (recv 20) (opensB ORDERED)))
    (after write_ack (after (recv 20) (opensB ORDERED))) "transfer" "channel-1" 1 (CommitAcknowledgement "ack")) as [_ Hack].
  - apply base_genesis.
  - apply run_after; [apply receivedB_run; by left|done|by_vm..].
  - constructor.
  - done.
  - by_vm.
  - by apply Hack.
Defined.

Lemma packet_settled_at_most_once_witness :
  (AcknowledgePacket ctxA 1%N packet "ack" "" (NewHeight 1 31)
     (after acknowledge (after send (opensA UNORDERED)))).2 ≠ Ok tt.
Proof.
  destruct (packet_settled_at_most_once (genesisA UNORDERED) (after send (opensA UNORDERED))
    (after acknowledge (after send (opensA UNORDERED))) (after acknowledge (after send (opensA UNORDERED)))
    acknowledge packet packet (CommitPacket packet)) as [Hack _].
  - apply base_genesis.
  - apply sentA_run. by right.
  - by_vm.
  - done.
  - left. eexists _, _, _, _, _. reflexivity.
  - by_vm.
  - apply exec_after. by_vm.
  - constructor.
  - done.
  - done.
  - done.
  - apply Hack.
Defined.

Definition send_second : action := Do_send ctxA 1%N second.
#[local] Strategy expand [send_second].

Lemma send_sequences_increase_witness : (Sequence packet < Sequence second)%N.
Proof.
  apply (send_sequences_increase (genesisA ORDERED) (opensA ORDERED) (after send (opensA ORDERED))
    (after send (opensA ORDERED)) (after send_second (after send (opensA ORDERED))) ctxA 1%N packet
    ctxA 1%N second).
  - apply base_genesis.
  - apply opensA_run. by left.
  - by_vm.
  - done.
  - refine (exec_after send (opensA ORDERED) _). by_vm.
  - constructor.
  - done.
  - done.
  - refine (exec_after send_second (after send (opensA ORDERED)) _). by_vm.
Defined.
End ChannelWitness.
