(* ===== verification/PacketProperties.v ===== *)
(** * The packet operations, branch by branch

    Functional specifications of the packet operations of [ChannelKeeper.v]: exactly
    when [SendPacket] succeeds and what it does, what a successful [RecvPacket],
    [AcknowledgePacket] and timeout establish, that errors leave no trace, and that
    redundant relays are reported as no-ops. *)
From S2P Require Import Prelude GoMonad Errors Sha256 Height Host Sdk ConnectionTypes.
From S2P Require Import ChannelTypes Exported ClientKeeper ConnectionKeeper PortKeeper.
From S2P Require Import ChannelKeeper ChannelHandshake FullNode Scenario ChannelSpec.
From S2P Require Import HandshakeSpec ChannelView ChannelSystem.
From Stdlib Require Import Ascii.

(** ** Running the keeper forward *)
Section forward.
Context {SE : SdkEncoding} {LC : LightClient} {CD : Codec} {CK : CapabilityKeeper} {AP : Application}.

Lemma GetChannel_run p c w ch : chan w p c = Some ch → GetChannel p c w = (w, Ok (Some ch)).
Proof.
  unfold chan, GetChannel, get_store, bind, gets. intros H.
  destruct (ibc w !! ChannelKey p c) as [x|]; [|done]. simpl in H |- *. by rewrite H.
Qed.
Lemma GetConnection_run c w ce : conn w c = Some ce → GetConnection c w = (w, Ok (Some ce)).
Proof.
  unfold conn, GetConnection, get_store, bind, gets. intros H.
  destruct (ibc w !! ConnectionKey c) as [x|]; [|done]. simpl in H |- *. by rewrite H.
Qed.
Lemma channel_connection_run ch hop w ce :
  head (ConnectionHops ch) = Some hop → conn w hop = Some ce → channel_connection ch w = (w, Ok ce).
Proof.
  intros Hh Hc. unfold channel_connection, hop0. rewrite Hh. unfold bind. simpl.
  by rewrite (GetConnection_run _ _ _ Hc).
Qed.
Lemma get_sequence_run k w n : BigEndianToUint64 <$> ibc w !! k = Some n → get_sequence k w = (w, Ok (Some n)).
Proof. unfold get_sequence, get_store, bind, gets. simpl. by intros ->. Qed.
End forward.

(** Run one step of a computation whose outcome is known. *)
Ltac run_with lem := rewrite (bind_run _ _ _ _ _ lem).
Ltac run_guard := rewrite (bind_run (throw_if _ _) _ _ _ tt) by (unfold throw_if; rewrite ?bool_decide_eq_false_2 by done; done).

Section send.
Context {SE : SdkEncoding} {LC : LightClient} {CD : Codec} {CK : CapabilityKeeper} {AP : Application}.

(** The consensus state a client has stored at a height. *)
Definition consensus (w : World) (c : string) (h : Height) : option ConsensusState :=
  ibc w !! FullConsensusStateKey c h ≫= Unmarshal_ConsensusState.

Lemma GetClientState_run c w cs : client w c = Some cs → GetClientState c w = (w, Ok (Some cs)).
Proof.
  unfold client, GetClientState, bind, gets, FullClientStateKey, ClientStateKey, store_Get, client_view.
  rewrite FullClientKey_prefix, prefix_view_lookup. intros H.
  destruct (ibc w !! _) as [x|]; [|done]. simpl in H |- *. by rewrite H.
Qed.

Lemma GetTimestampAtHeight_run ce h w cs :
  consensus w (connectiontypes.ClientId ce) h = Some cs → GetTimestampAtHeight ce h w = (w, Ok (GetTimestamp cs)).
Proof.
  unfold consensus, GetTimestampAtHeight, GetClientConsensusState, bind, gets, store_Get, client_view.
  unfold FullConsensusStateKey, FullConsensusStatePath. change FullClientPath with FullClientKey.
  rewrite FullClientKey_prefix, prefix_view_lookup. unfold ConsensusStateKey. intros H.
  destruct (ibc w !! _) as [x|]; [|done]. simpl in H |- *. by rewrite H.
Qed.

(** The client identifier names its type; unless it is a solo machine, the packet's
    timestamp is later than that of the client's latest consensus state. *)
Definition timestamp_ok (w : World) (clientID : string) (latest : Height) (pkt : Packet) : Prop :=
  ∃ ct n, ParseClientIdentifier clientID = Ok (ct, n) ∧
    (ct = Solomachine ∨
     ∃ cons, consensus w clientID latest = Some cons ∧
       time_not_reached (GetTimestamp cons) (TimeoutTimestamp pkt)).

(** When a packet can be sent. *)
Definition send_enabled (ctx : Context) (cap : Capability) (pkt : Packet) (w : World) : Prop :=
  Packet_ValidateBasic pkt = Ok tt ∧
  ∃ ch hop ce cs, sends_on w pkt ch ∧ Channel_State ch ≠ CLOSED ∧
    owns w cap (SourcePort pkt) (SourceChannel pkt) = true ∧
    head (ConnectionHops ch) = Some hop ∧ conn w hop = Some ce ∧
    client w (connectiontypes.ClientId ce) = Some cs ∧
    client_Status ctx (client_view (connectiontypes.ClientId ce) w) cs = Active ∧
    height_not_reached (GetLatestHeight cs) (TimeoutHeight pkt) ∧
    timestamp_ok w (connectiontypes.ClientId ce) (GetLatestHeight cs) pkt ∧
    next_send w (SourcePort pkt) (SourceChannel pkt) = Some (Sequence pkt).

Lemma time_check_false now t : time_not_reached now t → negb (t =? 0)%N && (t <=? now)%N = false.
Proof.
  rewrite andb_false_iff, negb_false_iff, N.eqb_eq, N.leb_gt. unfold time_not_reached. tauto.
Qed.
Lemma height_check_false now t : height_not_reached now t → negb (Height_IsZero t) && GTE now t = false.
Proof.
  rewrite andb_false_iff, negb_false_iff, Height_IsZero_spec. intros [?|Hl]; [by left|right].
  destruct (GTE now t) eqn:E; [|done]. by apply GTE_spec in E.
Qed.

Lemma send_timestamp_check_run ct ce h pkt w :
  (ct = Solomachine ∨ ∃ cons, consensus w (connectiontypes.ClientId ce) h = Some cons ∧
    time_not_reached (GetTimestamp cons) (TimeoutTimestamp pkt)) →
  send_timestamp_check ct ce h pkt w = (w, Ok tt).
Proof.
  unfold send_timestamp_check. intros [->|(cons & Hc & Ht)].
  - by rewrite bool_decide_eq_false_2 by naive_solver.
  - case_bool_decide; [|done]. rewrite (bind_run _ _ _ _ _ (GetTimestampAtHeight_run _ _ _ _ Hc)).
    by rewrite time_check_false.
Qed.

Lemma SendPacket_timestamp ctx cap pkt w w' u :
  SendPacket ctx cap pkt w = (w', Ok u) →
  ∃ ch hop ce cs, sends_on w pkt ch ∧ head (ConnectionHops ch) = Some hop ∧ conn w hop = Some ce ∧
    client w (connectiontypes.ClientId ce) = Some cs ∧
    timestamp_ok w (connectiontypes.ClientId ce) (GetLatestHeight cs) pkt.
Proof.
  unfold SendPacket. intros. go_inv.
  match goal with H : send_timestamp_check _ _ _ _ _ = _ |- _ => rename H into Ht end.
  eexists _, _, _, _. unfold sends_on. split_and!; eauto using counterparty_eq.
  unfold send_timestamp_check in Ht. eexists _, _. split; [done|].
  case_bool_decide as Hs; [right|by left]. go_inv. eexists. split; [done|]. by apply time_check.
Qed.

Lemma SendPacket_enabled ctx cap pkt w w' u : SendPacket ctx cap pkt w = (w', Ok u) → send_enabled ctx cap pkt w.
Proof.
  intros E. destruct (SendPacket_timestamp _ _ _ _ _ _ E) as (ch & hop & ce & cs & [Hc _] & Hh & Hce & Hcs & Ht).
  apply SendPacket_Ok in E as (Hv & ch' & hop' & ce' & cs' & [Hc' Hcp] & ? & ? & Hh' & Hce' & Hcs' & ? & ? & ? & _).
  simplify_eq. split; [done|]. eexists _, _, _, _. split_and!; eauto. done.
Qed.

Lemma SendPacket_run ctx cap pkt w :
  send_enabled ctx cap pkt w → ∃ w', SendPacket ctx cap pkt w = (w', Ok tt).
Proof.
  intros (Hv & ch & hop & ce & cs & [Hc Hcp] & Hst & Hown & Hh & Hce & Hcs & Hact & Hht & (ct & n & Hct & Ht) & Hn).
  unfold SendPacket. rewrite Hv. run_with (eq_refl : wrap_err (lift (Ok tt)) w = (w, Ok tt)).
  run_with (GetChannel_run _ _ _ _ Hc). cbn [some_or]. run_with (eq_refl : ret ch w = (w, Ok ch)).
  rewrite (bool_decide_eq_false_2 (Channel_State ch = CLOSED)) by done.
  run_with (eq_refl : throw_if false (Wrap ChanErr.ErrInvalidChannelState) w = (w, Ok tt)).
  unfold AuthenticateCapability. unfold owns in Hown.
  unfold bind at 1, gets at 1. rewrite Hown, Hcp. cbn [negb Counterparty_PortId Counterparty_ChannelId].
  rewrite !(bool_decide_eq_false_2 (_ ≠ _)) by naive_solver.
  unfold bind at 1 2 3. cbn [throw_if ret].
  run_with (channel_connection_run _ _ _ _ Hh Hce). cbn zeta.
  run_with (GetClientState_run _ _ _ Hcs). cbn [some_or]. run_with (eq_refl : ret cs w = (w, Ok cs)).
  unfold get_status. unfold bind at 1, gets at 1. rewrite Hact, (bool_decide_eq_false_2 (Active ≠ Active)) by naive_solver.
  unfold bind at 1. cbn [throw_if ret].
  rewrite (height_check_false _ _ Hht). unfold bind at 1. cbn [throw_if ret].
  rewrite Hct. unfold bind at 1, lift.
  pose proof (send_timestamp_check_run ct ce (GetLatestHeight cs) pkt w Ht) as Hts.
  run_with Hts. run_with (get_sequence_run _ _ _ Hn). cbn [some_or].
  unfold bind at 1. cbn [ret]. rewrite bool_decide_eq_false_2 by naive_solver.
  unfold bind at 1. cbn [throw_if ret]. unfold EmitSendPacketEvent, hop0. rewrite Hh. eexists. reflexivity.
Qed.
End send.

(** ** Errors *)
Section errors.
Context {SE : SdkEncoding} {LC : LightClient} {CD : Codec} {CK : CapabilityKeeper} {AP : Application}.

(** What a caller can see of the world at one key. *)
Definition observe (k : string) (w : World) : option string * CapState * AppState :=
  (if not_client_key k then ibc w !! k else None, caps w, app w).

Lemma observe_events k : ignores_events (observe k).
Proof. done. Qed.
Lemma observe_clients k : ignores_clients (observe k).
Proof. intros w w' (Hk & Hc & Ha). unfold observe. rewrite Hc, Ha. case_match; [by rewrite Hk|done]. Qed.

Lemma observe_same w w' : (∀ k, observe k w' = observe k w) → same_but_clients w w'.
Proof.
  intros H. pose proof (H "") as H0. unfold observe in *. simplify_eq. split_and!; [|done..].
  intros k Hk. specialize (H k). rewrite Hk in H. by simplify_eq.
Qed.

Lemma atomic_same {A} (m : M A) w w' e :
  (∀ k, atomic (observe k) m) → m w = (w', Err e) → same_but_clients w w'.
Proof.
  intros Hm E. apply observe_same. intros k. pose proof (Hm k w e) as H. rewrite E in H. by apply H.
Qed.

(** The packet operations of the channel keeper. *)
Definition packet_action (a : action) : Prop :=
  match a with
  | Do_send _ _ _ | Do_recv _ _ _ _ _ | Do_write_ack _ _ _ | Do_acknowledge _ _ _ _ _ _
  | Do_timeout _ _ _ _ _ | Do_timeout_on_close _ _ _ _ _ _ _ | Do_timeout_executed _ _ => True
  | _ => False
  end.

Lemma packet_action_atomic a k : packet_action a → atomic (observe k) (exec a).
Proof.
  pose proof (observe_events k). pose proof (observe_clients k).
  destruct a; try done; intros _.
  - by apply SendPacket_atomic.
  - by apply RecvPacket_atomic.
  - by apply WriteAcknowledgement_atomic.
  - by apply AcknowledgePacket_atomic.
  - by apply TimeoutPacket_atomic.
  - by apply TimeoutOnClose_atomic.
  - by apply TimeoutExecuted_atomic.
Qed.
End errors.

(** ** Redundant relays *)
Section noop.
Context {SE : SdkEncoding} {LC : LightClient} {CD : Codec} {CK : CapabilityKeeper} {AP : Application}.

(** Everything [RecvPacket] checks before it looks at receipts and sequences. *)
Definition deliverable (ctx : Context) (cap : Capability) (pkt : Packet) (prf : string) (h : Height)
    (w : World) (ch : Channel) : Prop :=
  ∃ hop ce self, receives_on w pkt ch ∧ Channel_State ch = OPEN ∧
    owns w cap (DestinationPort pkt) (DestinationChannel pkt) = true ∧
    head (ConnectionHops ch) = Some hop ∧ conn w hop = Some ce ∧
    connectiontypes.Connection_State ce = connectiontypes.OPEN ∧
    GetSelfHeight ctx = Ok self ∧ height_not_reached self (TimeoutHeight pkt) ∧
    time_not_reached (uint64_of_Z (BlockTime ctx)) (TimeoutTimestamp pkt) ∧
    (conn_VerifyPacketCommitment ctx ce h prf (SourcePort pkt) (SourceChannel pkt) (Sequence pkt)
       (CommitPacket pkt) w).2 = Ok tt.

(** [RecvPacket] on a deliverable packet is its [switch] on the ordering, on a world
    that differs at most in the clients' stores. *)
Lemma RecvPacket_run ctx cap pkt prf h w ch :
  deliverable ctx cap pkt prf h w ch →
  ∃ w1, same_but_clients w w1 ∧
    RecvPacket ctx cap pkt prf h w = bind (recv_by_ordering ch pkt) (λ _, EmitRecvPacketEvent pkt ch) w1.
Proof.
  intros (hop & ce & self & [Hc Hcp] & Hst & Hown & Hh & Hce & Hopen & Hself & Hht & Htime & Hver).
  destruct (conn_VerifyPacketCommitment _ _ _ _ _ _ _ _ w) as [w1 o] eqn:E. simpl in Hver. subst o.
  exists w1. split; [exact (client_only_run _ _ _ _ (VerifyPacketCommitment_only _ _ _ _ _ _ _ _) E)|].
  unfold RecvPacket. run_with (GetChannel_run _ _ _ _ Hc). cbn [some_or]. run_with (eq_refl : ret ch w = (w, Ok ch)).
  rewrite Hst, (bool_decide_eq_false_2 (OPEN ≠ OPEN)) by naive_solver.
  unfold AuthenticateCapability. unfold owns in Hown. unfold bind at 1 2, gets at 1. cbn [throw_if ret].
  rewrite Hown, Hcp. cbn [negb Counterparty_PortId Counterparty_ChannelId].
  rewrite !(bool_decide_eq_false_2 (_ ≠ _)) by naive_solver. unfold bind at 1 2 3. cbn [throw_if ret].
  run_with (channel_connection_run _ _ _ _ Hh Hce).
  unfold connection_open. rewrite Hopen, (bool_decide_eq_false_2 (_ ≠ _)) by naive_solver.
  unfold bind at 1. cbn [throw_if ret]. rewrite Hself. unfold bind at 1, lift. cbv zeta.
  rewrite (height_check_false _ _ Hht), (time_check_false _ _ Htime). unfold bind at 1 2. cbn [throw_if ret].
  unfold bind at 1, wrap_err. by rewrite E.
Qed.

Lemma recv_noop ch pkt w hop :
  head (ConnectionHops ch) = Some hop →
  (Channel_Ordering ch = UNORDERED ∧
     is_Some (receipt_at w (DestinationPort pkt) (DestinationChannel pkt) (Sequence pkt)) ∨
   Channel_Ordering ch = ORDERED ∧
     ∃ n, next_recv w (DestinationPort pkt) (DestinationChannel pkt) = Some n ∧ (Sequence pkt < n)%N) →
  ∃ w', recv_by_ordering ch pkt w = (w', Err ChanErr.ErrNoOpMsg).
Proof.
  intros Hh [[Ho [r Hr]]|[Ho (n & Hn & Hlt)]]; unfold recv_by_ordering; rewrite Ho.
  - unfold GetPacketReceipt, get_store, bind at 1, gets. unfold receipt_at in Hr. rewrite Hr.
    unfold EmitRecvPacketEvent, hop0. rewrite Hh. eexists. reflexivity.
  - run_with (get_sequence_run _ _ _ Hn). cbn [some_or]. unfold bind at 1. cbn [ret].
    replace (Sequence pkt <? n)%N with true by (symmetry; by apply N.ltb_lt).
    unfold EmitRecvPacketEvent, hop0. rewrite Hh. eexists. reflexivity.
Qed.
End noop.

Section claims.
Context {SE : SdkEncoding} {LC : LightClient} {CD : Codec} {CK : CapabilityKeeper} {AP : Application}.

(** [SendPacket] succeeds exactly when the packet is valid, the channel exists and is
    not closed, the caller owns its capability, the destination is the channel's
    counterparty, the connection's client is active and has not passed the packet's
    timeouts, and the sequence is the next one to send; it then stores the packet's
    commitment, increments the send sequence, and changes nothing else. *)
Theorem SendPacket_spec ctx cap pkt w :
  ((∃ w', SendPacket ctx cap pkt w = (w', Ok tt)) ↔ send_enabled ctx cap pkt w) ∧
  ∀ w', SendPacket ctx cap pkt w = (w', Ok tt) →
    commitment_at w' (SourcePort pkt) (SourceChannel pkt) (Sequence pkt) = Some (CommitPacket pkt) ∧
    next_send w' (SourcePort pkt) (SourceChannel pkt) = Some (u64 (Sequence pkt + 1)) ∧
    (∀ k, k ≠ PacketCommitmentKey (SourcePort pkt) (SourceChannel pkt) (Sequence pkt) →
          k ≠ NextSequenceSendKey (SourcePort pkt) (SourceChannel pkt) → ibc w' !! k = ibc w !! k) ∧
    caps w' = caps w ∧ app w' = app w.
Proof.
  split; [split; [intros [w' E]; by eapply SendPacket_enabled|apply SendPacket_run]|].
  intros w' (_ & ? & ? & ? & ? & _ & _ & _ & _ & _ & _ & _ & _ & _ & Hw & Hc & Ha)%SendPacket_Ok.
  unfold commitment_at, next_send. rewrite Hw. split_and!; try done.
  - by rewrite lookup_insert_eq.
  - rewrite lookup_insert_ne by path_ne. rewrite lookup_insert_eq. cbn. by rewrite be_roundtrip by apply u64_bound.
  - intros k Hk Hk'. by rewrite !lookup_insert_ne by congruence.
Qed.

(** A successful [RecvPacket] has checked that the channel end is OPEN, belongs to the
    caller and is paired with the packet's source, that its connection is OPEN, that
    neither timeout has been reached in this block, and that the client of the
    connection accepted the proof of the packet's commitment; and it has recorded
    the packet: a receipt on an UNORDERED channel, where there was none, and the
    next receive sequence on an ORDERED one, where it was the packet's.  Outside the
    clients' stores it changes nothing else. *)
Theorem RecvPacket_spec ctx cap pkt prf h w w' :
  RecvPacket ctx cap pkt prf h w = (w', Ok tt) →
  ∃ ch, deliverable ctx cap pkt prf h w ch ∧
    let p := DestinationPort pkt in let c := DestinationChannel pkt in
    (Channel_Ordering ch = UNORDERED → receipt_at w p c (Sequence pkt) = None ∧
       receipt_at w' p c (Sequence pkt) = Some (String "001" "")) ∧
    (Channel_Ordering ch = ORDERED → next_recv w p c = Some (Sequence pkt) ∧
       next_recv w' p c = Some (u64 (Sequence pkt + 1))) ∧
    (∀ k, not_client_key k = true → k ≠ PacketReceiptKey p c (Sequence pkt) → k ≠ NextSequenceRecvKey p c →
       ibc w' !! k = ibc w !! k) ∧
    caps w' = caps w ∧ app w' = app w.
Proof.
  intros (ch & hop & ce & self & w1 & Hr & Hst & Hown & Hh & Hce & Hopen & Hself & Hht & Htime & Hver & Hs & Hw & Hc & Ha)%RecvPacket_Ok.
  exists ch. split; [exists hop, ce, self; rewrite Hver; by split_and!|]. cbn zeta.
  unfold recv_writes in Hw. split_and!; try done.
  - intros Ho. rewrite Ho in Hw. destruct Hw as [Hn Hw]. rewrite Hs. unfold receipt_at.
    by rewrite Hw, lookup_insert_eq.
  - intros Ho. rewrite Ho in Hw. destruct Hw as [Hn Hw]. rewrite Hs. unfold next_recv.
    rewrite Hw, lookup_insert_eq. cbn. by rewrite be_roundtrip by apply u64_bound.
  - intros k Hk Hk1 Hk2. rewrite <- (proj1 Hs k Hk).
    destruct (Channel_Ordering ch); [by rewrite Hw|destruct Hw as [_ ->]..]; by rewrite lookup_insert_ne.
Qed.

(** C37: Errors leave no trace: when [SendPacket], [RecvPacket],
    [WriteAcknowledgement], [AcknowledgePacket], [TimeoutPacket], [TimeoutOnClose] or
    [TimeoutExecuted] returns an error, no channel, sequence, commitment, receipt,
    acknowledgement, capability or application state has changed, whatever the
    outcome of its checks. *)
Theorem packet_errors_leave_no_trace a w w' e :
  packet_action a → exec a w = (w', Err e) → same_but_clients w w'.
Proof. intros Ha. apply atomic_same. intros k. by apply packet_action_atomic. Qed.

(** Relaying a packet that has already been received is reported by the sentinel
    [ErrNoOpMsg] itself, unwrapped, which is what the message server compares with,
    and changes no channel state. *)
Theorem redundant_receive_is_noop ctx cap pkt prf h w ch :
  deliverable ctx cap pkt prf h w ch →
  (Channel_Ordering ch = UNORDERED ∧
     is_Some (receipt_at w (DestinationPort pkt) (DestinationChannel pkt) (Sequence pkt)) ∨
   Channel_Ordering ch = ORDERED ∧
     ∃ n, next_recv w (DestinationPort pkt) (DestinationChannel pkt) = Some n ∧ (Sequence pkt < n)%N) →
  ∃ w', RecvPacket ctx cap pkt prf h w = (w', Err ChanErr.ErrNoOpMsg) ∧ same_but_clients w w'.
Proof.
  intros Hd Hdone. destruct (RecvPacket_run _ _ _ _ _ _ _ Hd) as (w1 & Hs & E).
  destruct Hd as (hop & ce & self & _ & _ & _ & Hh & _).
  setoid_rewrite Hs in Hdone. destruct (recv_noop _ _ _ _ Hh Hdone) as [w2 E2].
  assert (E3 : RecvPacket ctx cap pkt prf h w = (w2, Err ChanErr.ErrNoOpMsg)).
  { rewrite E. unfold bind. by rewrite E2. }
  exists w2. split; [done|].
  eapply atomic_same; [|exact E3]. intros k.
  exact (packet_action_atomic (Do_recv ctx cap pkt prf h) k I).
Qed.

(** A successful [AcknowledgePacket] has found the packet's own commitment on an
    OPEN channel paired with its destination and verified the acknowledgement on the
    counterparty; it removes the commitment, advances the acknowledgement sequence of
    an ORDERED channel from this packet's to the next, and changes nothing else
    outside the clients' stores. *)
Theorem AcknowledgePacket_spec ctx cap pkt ack prf h w w' :
  AcknowledgePacket ctx cap pkt ack prf h w = (w', Ok tt) →
  let p := SourcePort pkt in let c := SourceChannel pkt in
  ∃ ch hop ce, sends_on w pkt ch ∧ Channel_State ch = OPEN ∧ owns w cap p c = true ∧
    head (ConnectionHops ch) = Some hop ∧ conn w hop = Some ce ∧
    connectiontypes.Connection_State ce = connectiontypes.OPEN ∧
    commitment_at w p c (Sequence pkt) = Some (CommitPacket pkt) ∧
    (conn_VerifyPacketAcknowledgement ctx ce h prf (DestinationPort pkt) (DestinationChannel pkt)
       (Sequence pkt) ack w).2 = Ok tt ∧
    commitment_at w' p c (Sequence pkt) = None ∧
    (Channel_Ordering ch = ORDERED → next_ack w p c = Some (Sequence pkt) ∧
       next_ack w' p c = Some (u64 (Sequence pkt + 1))) ∧
    (∀ k, not_client_key k = true → k ≠ PacketCommitmentKey p c (Sequence pkt) →
       (Channel_Ordering ch = ORDERED → k ≠ NextSequenceAckKey p c) → ibc w' !! k = ibc w !! k).
Proof.
  intros (ch & hop & ce & w1 & Hsend & Hst & Hown & Hh & Hce & Hopen & Hcm & Hver & Hs & Hw & _)%AcknowledgePacket_Ok p c.
  exists ch, hop, ce. rewrite Hver. unfold ack_writes in Hw. fold p c in Hw.
  do 8 (split; [done|]). case_bool_decide as Ho.
  - destruct Hw as [Hn Hw]. split; [unfold commitment_at; by rewrite Hw, lookup_delete_eq|]. split.
    + intros _. split; [rewrite Hs; exact Hn|]. unfold next_ack. rewrite Hw.
      rewrite lookup_delete_ne by path_ne. rewrite lookup_insert_eq. cbn. by rewrite be_roundtrip by apply u64_bound.
    + intros k Hk Hk1 Hk2. specialize (Hk2 Ho).
      rewrite Hw, lookup_delete_ne, lookup_insert_ne by congruence. by apply Hs.
  - split; [unfold commitment_at; by rewrite Hw, lookup_delete_eq|]. split; [done|].
    intros k Hk Hk1 _. rewrite Hw, lookup_delete_ne by congruence. by apply Hs.
Qed.

(** A timeout that is proved ([TimeoutPacket]) and executed ([TimeoutExecuted]): on
    an OPEN channel paired with the packet's destination, the packet's own commitment
    was found, one of its timeouts has been reached at the proof height or at the
    timestamp the client stores for it, and the client accepted the proof that the
    counterparty has not received it; the commitment is removed, an ORDERED channel
    is closed, and nothing else changes outside the clients' stores. *)
Theorem timeout_spec ctx cap pkt prf h n w w1 w2 :
  TimeoutPacket ctx pkt prf h n w = (w1, Ok tt) → TimeoutExecuted cap pkt w1 = (w2, Ok tt) →
  let p := SourcePort pkt in let c := SourceChannel pkt in
  ∃ ch hop ce cons, sends_on w pkt ch ∧ Channel_State ch = OPEN ∧ owns w cap p c = true ∧
    head (ConnectionHops ch) = Some hop ∧ conn w hop = Some ce ∧
    consensus w (connectiontypes.ClientId ce) h = Some cons ∧
    (¬ height_not_reached h (TimeoutHeight pkt) ∨ ¬ time_not_reached (GetTimestamp cons) (TimeoutTimestamp pkt)) ∧
    commitment_at w p c (Sequence pkt) = Some (CommitPacket pkt) ∧
    not_received_verified ctx ce ch pkt prf h n w w1 ∧
    commitment_at w2 p c (Sequence pkt) = None ∧
    chan w2 p c = Some (if bool_decide (Channel_Ordering ch = ORDERED) then set_State CLOSED ch else ch) ∧
    (∀ k, not_client_key k = true → k ≠ PacketCommitmentKey p c (Sequence pkt) → k ≠ ChannelKey p c →
       ibc w2 !! k = ibc w !! k).
Proof.
  intros (ch & hop & ce & cons & [Hch Hcp] & Hst & Hh & Hce & Hcons & Hto & Hcm & Hver & Hs)%TimeoutPacket_Ok
    (ch' & Hch' & Hown & Hw & _)%TimeoutExecuted_Ok p c.
  assert (ch' = ch) as -> by (rewrite <- Hs in Hch'; congruence).
  exists ch, hop, ce, cons. unfold timeout_writes in Hw. fold p c in Hw. unfold sends_on. rewrite <- Hs in Hown.
  do 9 (split; [done|]). unfold commitment_at, chan. rewrite Hw. case_bool_decide.
  - split; [rewrite lookup_insert_ne by path_ne; by rewrite lookup_delete_eq|].
    split; [rewrite lookup_insert_eq; exact (Channel_roundtrip _)|].
    intros k Hk Hk1 Hk2. rewrite lookup_insert_ne, lookup_delete_ne by congruence. by apply Hs.
  - split; [by rewrite lookup_delete_eq|]. split; [rewrite lookup_delete_ne by path_ne; exact Hch'|].
    intros k Hk Hk1 Hk2. rewrite lookup_delete_ne by congruence. by apply Hs.
Qed.
End claims.

(** ** Concrete packets *)
Module PacketWitness.
Import ToyInstances Scenario.

(** The capability of the channel. *)
Definition cap : @Capability toy_caps := 1%N.

Ltac run_it := apply run_pair; vm_compute; reflexivity.

Lemma SendPacket_spec_witness :
  send_enabled ctxA cap packet (worldA ORDERED) ∧
  commitment_at (worldA_sent ORDERED) "transfer" "channel-0" 1 = Some (CommitPacket packet).
Proof.
  destruct (SendPacket_spec ctxA cap packet (worldA ORDERED)) as [Hiff Heff].
  assert (E : SendPacket ctxA cap packet (worldA ORDERED) = (worldA_sent ORDERED, Ok tt)).
  { unfold worldA_sent. run_it. }
  split; [apply Hiff; by eexists|exact (proj1 (Heff _ E))].
Defined.

Lemma RecvPacket_spec_witness :
  ∃ ch, deliverable ctxB cap packet "" (NewHeight 1 20) (worldB UNORDERED) ch.
Proof.
  destruct (RecvPacket_spec ctxB cap packet "" (NewHeight 1 20) (worldB UNORDERED) (worldB_received UNORDERED))
    as (ch & Hd & _); [unfold worldB_received; run_it|]. by exists ch.
Defined.

Lemma packet_errors_leave_no_trace_witness :
  same_but_clients (worldB_received ORDERED)
    (RecvPacket ctxB cap packet "" (NewHeight 1 20) (worldB_received ORDERED)).1.
Proof.
  apply (packet_errors_leave_no_trace (Do_recv ctxB cap packet "" (NewHeight 1 20)) _ _ ChanErr.ErrNoOpMsg); [done|].
  cbn [exec]. run_it.
Defined.

Lemma redundant_receive_is_noop_witness :
  ∃ w', RecvPacket ctxB cap packet "" (NewHeight 1 20) (worldB_received ORDERED) = (w', Err ChanErr.ErrNoOpMsg) ∧
    same_but_clients (worldB_received ORDERED) w'.
Proof.
  apply (redundant_receive_is_noop ctxB cap packet "" (NewHeight 1 20) (worldB_received ORDERED) (channelB ORDERED)).
  - exists "connection-5", (connection "connection-0"), (NewHeight 1 30).
    unfold receives_on. split_and!; try (vm_compute; reflexivity); [right; by apply LT_spec|by left].
  - right. split; [done|]. exists 2%N. by vm_compute.
Defined.

Definition worldA_acks (order : Order) : World :=
  worldA_sees order (NewHeight 1 31) 1100 (ibc (worldB_acked order)).

Lemma AcknowledgePacket_spec_witness :
  ∃ ch, sends_on (worldA_acks ORDERED) packet ch ∧ Channel_State ch = OPEN.
Proof.
  destruct (AcknowledgePacket_spec ctxA cap packet "ack" "" (NewHeight 1 31) (worldA_acks ORDERED)
    (AcknowledgePacket ctxA cap packet "ack" "" (NewHeight 1 31) (worldA_acks ORDERED)).1)
    as (ch & hop & ce & Hs & Ho & _); [run_it|]. by exists ch.
Defined.

Definition worldA_times_out : World := worldA_sees ORDERED (NewHeight 1 50) 2000 (ibc (worldB ORDERED)).
Definition timed_out : World := (TimeoutPacket ctxA packet "" (NewHeight 1 50) 1 worldA_times_out).1.

Lemma timeout_spec_witness :
  ∃ ch, chan (TimeoutExecuted cap packet timed_out).1 "transfer" "channel-0" = Some ch ∧
    commitment_at (TimeoutExecuted cap packet timed_out).1 "transfer" "channel-0" 1 = None.
Proof.
  destruct (timeout_spec ctxA cap packet "" (NewHeight 1 50) 1 worldA_times_out timed_out
    (TimeoutExecuted cap packet timed_out).1) as (ch & hop & ce & cons & _ & _ & _ & _ & _ & _ & _ & _ & _ & Hc & Hch & _).
  - unfold timed_out. run_it.
  - run_it.
  - eexists. split; [exact Hch|exact Hc].
Defined.
End PacketWitness.
