(* ===== verification/TwoChain.v ===== *)
(** * Two chains

    What the packet operations of two connected chains guarantee together, given
    light clients that only accept proofs of what the counterparty stores
    ([sound_client]): a packet that is received was sent ([received_packet_was_sent]),
    and a packet that has timed out on the sending chain is never received, before
    or after ([timed_out_packet_not_received]). *)
From S2P Require Import Prelude GoMonad Errors Sha256 Height Host Sdk ConnectionTypes.
From S2P Require Import ChannelTypes Exported ClientKeeper ConnectionKeeper PortKeeper.
From S2P Require Import ChannelKeeper ChannelHandshake FullNode Scenario ChannelSpec.
From S2P Require Import HandshakeSpec ChannelView ChannelSystem ChannelSafety PacketProperties.
From Stdlib Require Import Ascii.

(** ** Where commitments come from *)
Section sends.
Context {SE : SdkEncoding} {LC : LightClient} {CD : Codec} {CK : CapabilityKeeper} {AP : Application}.

(** No commitment appears. *)
Definition no_new_commitment (s s' : KVStore) : Prop :=
  ∀ p c n x, s' !! PacketCommitmentKey p c n = Some x → s !! PacketCommitmentKey p c n = Some x.

#[local] Instance no_new_commitment_preorder : PreOrder no_new_commitment.
Proof.
  split; [by intros s p c n x|]. intros s1 s2 s3 H1 H2 p c n x H. by apply H1, H2.
Qed.

Lemma same_channels_commitments s s' : same_channels s s' → no_new_commitment s s'.
Proof.
  intros H p c n x Hx. pose proof (same_channels_key _ _ (KPacketCommitment p c n) H eq_refl) as E. cbn [render] in E. congruence.
Qed.

(** A write other than that of a commitment. *)
Definition not_a_send (kx : store_key * option string) : bool :=
  match kx with
  | (KPacketCommitment _ _ _, Some _) | (KClient _ _, _) | (KConnection _, _) => false
  | _ => true
  end.

Lemma writes_commitments l s :
  forallb not_a_send l = true → no_new_commitment s (run_writes l s).
Proof.
  revert s. induction l as [|[k y] l IH]; intros s; simpl; [done|].
  rewrite andb_true_iff. intros [Hk Hl]. etrans; [|by apply IH].
  intros p c n x Hx. destruct y as [v|]; unfold write_key in Hx.
  - destruct k; try discriminate Hk; cbn [render] in Hx; rewrite lookup_insert_ne in Hx by path_ne; done.
  - by apply lookup_delete_Some in Hx as [_ Hx].
Qed.

Lemma written_commitments w w' s l :
  same_channels (ibc w) s → ibc w' = run_writes l s → forallb not_a_send l = true →
  no_new_commitment (ibc w) (ibc w').
Proof.
  intros Hs Hw Hl. rewrite Hw. etrans; [by apply same_channels_commitments|by apply writes_commitments].
Qed.

Lemma next_channel_commitments s v : no_new_commitment s (<[KeyNextChannelSequence := v]> s).
Proof. exact (writes_commitments [(KNextChannelSequence, Some v)] s eq_refl). Qed.

(** Only [SendPacket] creates a commitment. *)
Lemma packet_commitments a w w' u :
  packet_action a → exec a w = (w', Ok u) →
  (∃ ctx cap pkt, a = Do_send ctx cap pkt) ∨ no_new_commitment (ibc w) (ibc w').
Proof.
  intros Hok E. destruct a; try done; simpl in E; [left; by eauto|right..].
  - apply RecvPacket_Ok in E as (ch & ? & ? & ? & w1 & _ & _ & _ & _ & _ & _ & _ & _ & _ & _ & Hs%same_but_clients_channels & Hw & _).
    unfold recv_writes in Hw. destruct (Channel_Ordering ch); [|destruct Hw as [_ Hw]..].
    + rewrite Hw. by apply same_channels_commitments.
    + eapply (written_commitments _ _ _ [(KPacketReceipt _ _ _, Some _)]); [exact Hs|exact Hw|done].
    + eapply (written_commitments _ _ _ [(KNextSequenceRecv _ _, Some _)]); [exact Hs|exact Hw|done].
  - apply WriteAcknowledgement_Ok in E as (? & _ & _ & _ & _ & _ & Hw & _).
    eapply (written_commitments _ _ (ibc w) [(KPacketAcknowledgement _ _ _, Some _)]); [done|exact Hw|done].
  - apply AcknowledgePacket_Ok in E as (ch & ? & ? & w1 & _ & _ & _ & _ & _ & _ & _ & _ & Hs%same_but_clients_channels & Hw & _).
    unfold ack_writes in Hw. case_bool_decide; [destruct Hw as [_ Hw]|].
    + eapply (written_commitments _ _ _ [(KNextSequenceAck _ _, Some _); (KPacketCommitment _ _ _, None)]);
        [exact Hs|exact Hw|done].
    + eapply (written_commitments _ _ _ [(KPacketCommitment _ _ _, None)]); [exact Hs|exact Hw|done].
  - apply TimeoutPacket_Ok in E as (? & ? & ? & ? & _ & _ & _ & _ & _ & _ & _ & _ & Hs).
    by apply same_channels_commitments, same_but_clients_channels.
  - apply TimeoutOnClose_Ok in E as (? & ? & ? & ? & _ & _ & _ & _ & _ & _ & _ & Hs).
    by apply same_channels_commitments, same_but_clients_channels.
  - apply TimeoutExecuted_Ok in E as (ch & _ & _ & Hw & _). unfold timeout_writes in Hw. case_bool_decide.
    + eapply (written_commitments _ _ (ibc w) [(KPacketCommitment _ _ _, None); (KChannelEnd _ _, Some _)]);
        [done|exact Hw|done].
    + eapply (written_commitments _ _ (ibc w) [(KPacketCommitment _ _ _, None)]); [done|exact Hw|done].
Qed.

Lemma channel_commitments w w' s p c x :
  same_channels (ibc w) s → ibc w' = <[ChannelKey p c := x]> s → no_new_commitment (ibc w) (ibc w').
Proof. intros Hs Hw. eapply (written_commitments _ _ _ [(KChannelEnd _ _, Some _)]); [exact Hs|exact Hw|done]. Qed.

Lemma open_init_commitments order hops port cap cp ver cb w w' u :
  (∀ id c, keeps_channels (cb id c)) → exec (Do_open_init order hops port cap cp ver cb) w = (w', Ok u) →
  no_new_commitment (ibc w) (ibc w').
Proof.
  intros Hcb E. simpl in E. go_inv.
  match goal with H : ChanOpenInit _ _ _ _ _ = _ |- _ =>
    apply ChanOpenInit_Ok in H as (m & ? & ? & _ & -> & _ & _ & _ & _ & Hw0) end.
  match goal with H : cb ?id ?c ?x = _ |- _ => pose proof (Hcb id c x) as Hk; rewrite H in Hk; simpl in Hk end.
  match goal with H : WriteOpenInitChannel _ _ _ _ _ _ _ = _ |- _ => apply WriteOpenInitChannel_Ok in H as Hw end.
  etrans; [apply next_channel_commitments|]. rewrite <- Hw0.
  eapply (written_commitments _ _ _ [(KChannelEnd _ _, Some _); (KNextSequenceSend _ _, Some _);
    (KNextSequenceRecv _ _, Some _); (KNextSequenceAck _ _, Some _)]); [exact Hk|exact Hw|done].
Qed.

Lemma open_try_commitments ctx order hops port prev cap cp cpv prf h cb w w' u :
  (∀ id c, keeps_channels (cb id c)) →
  exec (Do_open_try ctx order hops port prev cap cp cpv prf h cb) w = (w', Ok u) →
  no_new_commitment (ibc w) (ibc w').
Proof.
  intros Hcb E. simpl in E. go_inv.
  match goal with H : ChanOpenTry _ _ _ _ _ _ _ _ _ _ _ = _ |- _ =>
    apply ChanOpenTry_Ok in H as (w1 & ? & ? & _ & Ht & _ & _ & _ & Hs) end.
  match goal with H : cb ?id ?c ?x = _ |- _ => pose proof (Hcb id c x) as Hk; rewrite H in Hk; simpl in Hk end.
  match goal with H : WriteOpenTryChannel _ _ _ _ _ _ _ = _ |- _ => apply WriteOpenTryChannel_Ok in H as Hw end.
  etrans; [|etrans; [apply same_channels_commitments|]].
  - destruct Ht as [(_ & _ & -> & _)|(_ & m & _ & _ & ->)]; [done|apply next_channel_commitments].
  - etrans; [|exact Hk]. intros k Hkk. by apply Hs, channel_part_not_client.
  - simpl in Hw. destruct (chan s1 port s0).
    + eapply channel_commitments; [|exact Hw]. done.
    + eapply (written_commitments _ _ _ [(KNextSequenceSend _ _, Some _); (KNextSequenceRecv _ _, Some _);
        (KNextSequenceAck _ _, Some _); (KChannelEnd _ _, Some _)]); [reflexivity|exact Hw|done].
Qed.

Lemma exec_commitments a w w' u :
  action_ok a → exec a w = (w', Ok u) →
  (∃ ctx cap pkt, a = Do_send ctx cap pkt) ∨ no_new_commitment (ibc w) (ibc w').
Proof.
  intros Hok E. destruct a; try (by eapply packet_commitments); right; simpl in Hok.
  - destruct Hok. by eapply open_init_commitments.
  - destruct Hok as (_ & _ & ?). by eapply open_try_commitments.
  - destruct Hok as [_ Hcb]. simpl in E. go_inv.
    match goal with H : ChanOpenAck _ _ _ _ _ _ _ _ _ = _ |- _ =>
      apply ChanOpenAck_Ok in H as (? & _ & _ & _ & Hs%same_but_clients_channels) end.
    match goal with H : callback ?x = _ |- _ => pose proof (Hcb x) as Hk; rewrite H in Hk end.
    match goal with H : WriteOpenAckChannel _ _ _ _ _ = _ |- _ => apply WriteOpenAckChannel_Ok in H as (? & _ & Hw) end.
    eapply channel_commitments; [|exact Hw]. by etrans.
  - destruct Hok as [_ Hcb]. simpl in E. go_inv.
    match goal with H : ChanOpenConfirm _ _ _ _ _ _ _ = _ |- _ =>
      apply ChanOpenConfirm_Ok in H as (? & _ & _ & _ & Hs%same_but_clients_channels) end.
    match goal with H : callback ?x = _ |- _ => pose proof (Hcb x) as Hk; rewrite H in Hk end.
    match goal with H : WriteOpenConfirmChannel _ _ _ = _ |- _ => apply WriteOpenConfirmChannel_Ok in H as (? & _ & Hw) end.
    eapply channel_commitments; [|exact Hw]. by etrans.
  - apply ChanCloseInit_Ok in E as (? & _ & _ & _ & Hw). eapply channel_commitments; [|exact Hw]. done.
  - apply ChanCloseConfirm_Ok in E as (? & w1 & _ & _ & _ & Hs%same_but_clients_channels & Hw).
    eapply channel_commitments; [exact Hs|exact Hw].
  - apply same_channels_commitments. pose proof (Hok w) as Hk. simpl in E. by rewrite E in Hk.
Qed.

(** The packet [pkt] was sent in the run from [w0] to [w]. *)
Definition sent_in (w0 w : World) (pkt : Packet) : Prop :=
  ∃ ctx cap w1 w2, run w0 w1 ∧ SendPacket ctx cap pkt w1 = (w2, Ok tt) ∧ run w2 w.

Lemma run_commitments w0 w p c n x :
  ids_ok p c → run w0 w → commitment_at w p c n = Some x →
  commitment_at w0 p c n = Some x ∨
  ∃ pkt, sent_in w0 w pkt ∧ SourcePort pkt = p ∧ SourceChannel pkt = c ∧ Sequence pkt = n ∧ CommitPacket pkt = x.
Proof.
  intros Hid H Hx. induction H as [|a w1 w2 w3 Hok Hr E Hrun IH]; [by left|].
  destruct (IH Hx) as [Hx2|(pkt & (ctx & cap & v1 & v2 & Hr1 & Es & Hr2) & Hpkt)].
  - destruct (exec_commitments _ _ _ _ Hok E) as [(ctx & cap & pkt & ->)|Hno]; [|left; by apply Hno].
    pose proof E as (_ & ? & ? & ? & ? & _ & _ & _ & _ & _ & _ & _ & _ & _ & Hw & _)%SendPacket_Ok.
    unfold commitment_at in Hx2. rewrite Hw in Hx2.
    destruct (decide (render (KPacketCommitment (SourcePort pkt) (SourceChannel pkt) (Sequence pkt)) =
                      render (KPacketCommitment p c n))) as [Ek|Hne].
    + apply render_inj in Ek; [|by apply key_ids..]. injection Ek as Ep Ec En.
      rewrite <- Ep, <- Ec, <- En, lookup_insert_eq in Hx2. injection Hx2 as <-.
      right. exists pkt. split; [|done].
      exists ctx, cap, w1, w2. split_and!; [constructor|exact E|done].
    + left. rewrite lookup_insert_ne in Hx2 by exact Hne. rewrite lookup_insert_ne in Hx2 by path_ne. done.
  - right. exists pkt. split; [|done]. exists ctx, cap, v1, v2. split_and!; [|done..]. by eapply run_step.
Qed.
End sends.

(** ** Light clients that only accept true proofs *)
Section soundness.
Context {SE : SdkEncoding} {LC : LightClient} {CD : Codec} {CK : CapabilityKeeper} {AP : Application}.

(** The client [clientID] of [w] only accepts, at height [h] and below the commitment
    prefix [pre], proofs of what the counterparty's store [root] holds about the
    packets of channel [c] of port [p]. *)
Definition sound_client (w : World) (clientID : string) (pre : MerklePrefix) (h : Height) (root : KVStore)
    (p c : string) : Prop :=
  ∀ cs, client w clientID = Some cs →
  (∀ ctx td bd prf n bz,
     (VerifyPacketCommitment ctx cs h td bd pre prf p c n bz (client_view clientID w)).2 = Ok tt →
     root !! PacketCommitmentKey p c n = Some bz) ∧
  (∀ ctx td bd prf n,
     (VerifyPacketReceiptAbsence ctx cs h td bd pre prf p c n (client_view clientID w)).2 = Ok tt →
     root !! PacketReceiptKey p c n = None) ∧
  (∀ ctx td bd prf n,
     (VerifyNextSequenceRecv ctx cs h td bd pre prf p c n (client_view clientID w)).2 = Ok tt →
     root !! NextSequenceRecvKey p c = Some (Uint64ToBigEndian n)).

(** The prefix that proofs about the counterparty of a connection are verified under. *)
Definition counterparty_prefix (ce : connectiontypes.ConnectionEnd) : MerklePrefix :=
  connectiontypes.Counterparty_Prefix (connectiontypes.Connection_Counterparty ce).

Lemma active_client_Ok ctx c w w' cs :
  active_client ctx c w = (w', Ok cs) → w' = w ∧ client w c = Some cs.
Proof. unfold active_client. intros E. by go_inv. Qed.
Lemma on_client_store_outcome {A} c (m : ST KVStore A) w w' a :
  on_client_store c m w = (w', Ok a) → (m (client_view c w)).2 = Ok a.
Proof. intros (t & E & _)%zoom_Ok. by rewrite E. Qed.

Ltac verify_inv :=
  unfold getBlockDelay; intros Hs E; go_inv;
  match goal with H : active_client _ _ _ = _ |- _ => apply active_client_Ok in H as [-> H] end;
  match goal with H : on_client_store _ _ _ = _ |- _ => apply on_client_store_outcome in H end;
  match goal with S : sound_client _ _ _ _ _ _ _, H : client _ _ = Some _ |- _ => destruct (S _ H) as (? & ? & ?) end; eauto.

Lemma verified_commitment ctx ce h prf p c n bz w w' root :
  sound_client w (connectiontypes.ClientId ce) (counterparty_prefix ce) h root p c →
  conn_VerifyPacketCommitment ctx ce h prf p c n bz w = (w', Ok tt) → root !! PacketCommitmentKey p c n = Some bz.
Proof. unfold conn_VerifyPacketCommitment. verify_inv. Qed.
Lemma verified_absence ctx ce h prf p c n w w' root :
  sound_client w (connectiontypes.ClientId ce) (counterparty_prefix ce) h root p c →
  conn_VerifyPacketReceiptAbsence ctx ce h prf p c n w = (w', Ok tt) → root !! PacketReceiptKey p c n = None.
Proof. unfold conn_VerifyPacketReceiptAbsence. verify_inv. Qed.
Lemma verified_next_recv ctx ce h prf p c n w w' root :
  sound_client w (connectiontypes.ClientId ce) (counterparty_prefix ce) h root p c →
  conn_VerifyNextSequenceRecv ctx ce h prf p c n w = (w', Ok tt) →
  root !! NextSequenceRecvKey p c = Some (Uint64ToBigEndian n).
Proof. unfold conn_VerifyNextSequenceRecv. verify_inv. Qed.

(** The connection a channel end runs over, in [w]. *)
Definition connection_of (w : World) (ch : Channel) (ce : connectiontypes.ConnectionEnd) : Prop :=
  ∃ hop, head (ConnectionHops ch) = Some hop ∧ conn w hop = Some ce.

(** A block of the counterparty at height [h] and time [ts], or a later one. *)
Definition at_or_after (h : Height) (ts : N) (ctx : Context) : Prop :=
  (∀ self, GetSelfHeight ctx = Ok self → ¬ height_lt self h) ∧ (ts ≤ uint64_of_Z (BlockTime ctx))%N.

(** C4: Integrity of delivery.  If the receiving chain's light client only accepts
    proofs of what the sending chain [aH] stores, every packet that [RecvPacket]
    accepts was sent: the sending chain's run contains a [SendPacket], on the packet's
    source channel and with its sequence, of a packet with the same commitment. *)
Theorem received_packet_was_sent a0 aH ctx cap pkt prf h w w' :
  genesis a0 → run a0 aH → ids_ok (SourcePort pkt) (SourceChannel pkt) →
  (∀ ch ce, receives_on w pkt ch → connection_of w ch ce →
     sound_client w (connectiontypes.ClientId ce) (counterparty_prefix ce) h (ibc aH)
       (SourcePort pkt) (SourceChannel pkt)) →
  RecvPacket ctx cap pkt prf h w = (w', Ok tt) →
  ∃ q, sent_in a0 aH q ∧ SourcePort q = SourcePort pkt ∧ SourceChannel q = SourceChannel pkt ∧
    Sequence q = Sequence pkt ∧ CommitPacket q = CommitPacket pkt.
Proof.
  intros Hg Hr Hid Hsound
    (ch & hop & ce & self & w1 & Hrec & _ & _ & Hh & Hce & _ & _ & _ & _ & Hver & _)%RecvPacket_Ok.
  assert (Hc : connection_of w ch ce) by (by exists hop).
  pose proof (verified_commitment _ _ _ _ _ _ _ _ _ _ _ (Hsound _ _ Hrec Hc) Hver) as Hcm.
  destruct (run_commitments _ _ _ _ _ _ Hid Hr Hcm) as [H0|(q & Hq)]; [|by exists q].
  unfold commitment_at in H0.
  pose proof (Hg (KPacketCommitment (SourcePort pkt) (SourceChannel pkt) (Sequence pkt)) eq_refl ltac:(discriminate)) as Hn.
  cbn [render] in Hn. congruence.
Qed.

Lemma RecvPacket_not_after_timeout ctx cap pkt prf h w h' ts :
  at_or_after h' ts ctx →
  ¬ height_not_reached h' (TimeoutHeight pkt) ∨ ¬ time_not_reached ts (TimeoutTimestamp pkt) →
  (RecvPacket ctx cap pkt prf h w).2 ≠ Ok tt.
Proof.
  intros [Hself Hts] Hto Hok. destruct (RecvPacket ctx cap pkt prf h w) as [w' o] eqn:E. simpl in Hok. subst o.
  apply RecvPacket_Ok in E as (ch & hop & ce & self & w1 & _ & _ & _ & _ & _ & _ & Hs & Hh & Ht & _).
  specialize (Hself _ Hs). unfold height_not_reached, time_not_reached in *. destruct Hto as [Hto|Hto].
  - apply Hto. destruct Hh as [Hz|Hlt]; [by left|right].
    unfold height_lt in *. lia.
  - apply Hto. lia.
Qed.

(** C5: No packet is both timed out and received.  Chain B runs from genesis to [bH],
    the state that its header at height [h] and time [ts] commits to, and chain A's
    client of B is sound at [h].  If A accepts the timeout of a packet at [h], then B
    has not received it before [bH], and in no block at or after [h] does B receive
    it. *)
Theorem timed_out_packet_not_received b0 bH chB ctx pkt prf h n w w' ts :
  genesis b0 → run b0 bH → ids_ok (DestinationPort pkt) (DestinationChannel pkt) → (n < two64)%N →
  chan bH (DestinationPort pkt) (DestinationChannel pkt) = Some chB →
  (∀ ch ce, sends_on w pkt ch → connection_of w ch ce →
     Channel_Ordering ch = Channel_Ordering chB ∧
     sound_client w (connectiontypes.ClientId ce) (counterparty_prefix ce) h (ibc bH)
       (DestinationPort pkt) (DestinationChannel pkt) ∧
     ∀ cons, consensus w (connectiontypes.ClientId ce) h = Some cons → GetTimestamp cons = ts) →
  TimeoutPacket ctx pkt prf h n w = (w', Ok tt) →
  (∀ b1 b2 ctxB cap prfB hB, run b0 b1 → in_range b1 = true →
     RecvPacket ctxB cap pkt prfB hB b1 = (b2, Ok tt) → run b2 bH → False) ∧
  (∀ b1 ctxB cap prfB hB, at_or_after h ts ctxB → (RecvPacket ctxB cap pkt prfB hB b1).2 ≠ Ok tt).
Proof.
  intros Hg Hr Hid Hn HchB Hsound
    (ch & hop & ce & cons & Hsend & _ & Hh & Hce & Hcons & Hto & _ & Hver & _)%TimeoutPacket_Ok.
  assert (Hc : connection_of w ch ce) by (by exists hop).
  destruct (Hsound _ _ Hsend Hc) as (Ho & Hcl & Hts). split.
  - intros b1 b2 ctxB cap prfB hB Hr1 Hin E Hr2.
    pose proof (run_well_formed _ _ (genesis_well_formed _ Hg) Hr1) as Hwf.
    pose proof (RecvPacket_received _ _ _ _ _ _ _ _ Hwf Hin Hid E) as Hrec.
    assert (Hwf2 : well_formed b2) by (by eapply (exec_well_formed (Do_recv ctxB cap pkt prfB hB))).
    destruct (received_arun _ _ _ Hrec (run_arun _ _ _ _ Hwf2 Hid Hr2)) as (ch' & Hch' & Hrcv).
    change (chan bH (DestinationPort pkt) (DestinationChannel pkt) = Some ch') in Hch'. simplify_eq.
    unfold not_received_verified in Hver. rewrite Ho in Hver.
    destruct Hrcv as [[Ho' [r Hrcv]]|[Ho' (m & Hm & Hlt)]]; rewrite Ho' in Hver.
    + apply (verified_absence _ _ _ _ _ _ _ _ _ _ Hcl) in Hver.
      unfold view, view_of in Hrcv. cbn [v_receipt render] in Hrcv. congruence.
    + destruct Hver as [Hle Hver]. apply (verified_next_recv _ _ _ _ _ _ _ _ _ _ Hcl) in Hver.
      unfold view, view_of in Hm. cbn [v_recv render] in Hm. rewrite Hver in Hm. cbn in Hm.
      rewrite be_roundtrip in Hm by done. simplify_eq. lia.
  - intros b1 ctxB cap prfB hB Haft. eapply RecvPacket_not_after_timeout; [exact Haft|].
    by rewrite <- (Hts _ Hcons).
Qed.
End soundness.

(** ** The concrete chains *)
Module TwoChainWitness.
Import ToyInstances Scenario ChannelWitness PacketWitness.

(** A full-node client accepts exactly the proofs of the store it holds. *)
Lemma full_node_sound (w : World) clientID pre h cons p c :
  fn_get (client_view clientID w) h = Some cons → sound_client w clientID pre h (fn_root cons) p c.
Proof.
  intros Hg cs _. split_and!; intros *; simpl; unfold fn_verify, bind, gets, id, some_or; rewrite Hg;
    unfold ret, throw_if; case_bool_decide; simpl; done.
Qed.

(** A packet that A sends, with B's client seeing A's store. *)
Lemma received_packet_was_sent_witness :
  ∃ q, sent_in (genesisA UNORDERED) (after send (opensA UNORDERED)) q ∧ CommitPacket q = CommitPacket packet.
Proof.
  pose (root := ibc (after send (opensA UNORDERED))).
  pose (w := chain (chain_store "connection-5" "connection-0" "channel-1" (channelB UNORDERED) (NewHeight 1 20) 1000 root)
    (chain_caps "channel-1") : World).
  destruct (received_packet_was_sent (genesisA UNORDERED) (after send (opensA UNORDERED)) ctxB cap packet ""
    (NewHeight 1 20) w (RecvPacket ctxB cap packet "" (NewHeight 1 20) w).1) as (q & Hq & _ & _ & _ & Hc).
  - apply base_genesis.
  - apply sentA_run. by right.
  - done.
  - intros ch ce [Hch _] (hop & Hh & Hce).
    assert (Ech : chan w "transfer" "channel-1" = Some (channelB UNORDERED)) by (vm_compute; reflexivity).
    change (DestinationPort packet) with "transfer" in Hch. change (DestinationChannel packet) with "channel-1" in Hch.
    rewrite Ech in Hch. injection Hch as <-. injection Hh as <-.
    assert (Ece : conn w "connection-5" = Some (connection "connection-0")) by (vm_compute; reflexivity).
    rewrite Ece in Hce. injection Hce as <-.
    apply (full_node_sound w clientID _ (NewHeight 1 20) (mkFNConsensus 1000 root) _ _). vm_compute. reflexivity.
  - run_it.
  - exists q. split; [exact Hq|exact Hc].
Defined.

(** B has not received the packet, and A's client of B sees B at height 1-50. *)
Lemma timed_out_packet_not_received_witness :
  (RecvPacket ctxB_late cap packet "" (NewHeight 1 20) (opensB UNORDERED)).2 ≠ Ok tt.
Proof.
  pose (bH := opensB UNORDERED).
  pose (w := worldA_sees UNORDERED (NewHeight 1 50) 2000 (ibc bH) : World).
  destruct (timed_out_packet_not_received (genesisB UNORDERED) bH (channelB UNORDERED) ctxA packet ""
    (NewHeight 1 50) 1 w (TimeoutPacket ctxA packet "" (NewHeight 1 50) 1 w).1 2000) as [_ Hlate].
  - apply base_genesis.
  - apply opensB_run. by right.
  - done.
  - done.
  - vm_compute. reflexivity.
  - intros ch ce [Hch _] (hop & Hh & Hce).
    assert (Ech : chan w "transfer" "channel-0" = Some (channelA UNORDERED)) by (vm_compute; reflexivity).
    change (SourcePort packet) with "transfer" in Hch. change (SourceChannel packet) with "channel-0" in Hch.
    rewrite Ech in Hch. injection Hch as <-. injection Hh as <-.
    assert (Ece : conn w "connection-0" = Some (connection "connection-5")) by (vm_compute; reflexivity).
    rewrite Ece in Hce. injection Hce as <-. split; [done|]. split.
    + apply (full_node_sound w clientID _ (NewHeight 1 50) (mkFNConsensus 2000 (ibc bH)) _ _). vm_compute. reflexivity.
    + intros cons Hcons.
      assert (Ecn : consensus w clientID (NewHeight 1 50) = Some (mkFNConsensus 2000 (ibc bH))) by (vm_compute; reflexivity).
      change (connectiontypes.ClientId (connection "connection-5")) with clientID in Hcons.
      rewrite Ecn in Hcons. by injection Hcons as <-.
  - run_it.
  - apply Hlate. split.
    + intros self Hself. injection Hself as <-. vm_compute. intros [H|[_ H]]; discriminate H.
    + vm_compute. discriminate.
Defined.
End TwoChainWitness.
