(* ===== verification/Liveness.v ===== *)
(** * No packet is stuck

    Progress of the packets between two connected chains.  Safety ([TwoChain.v]) asks of a
    light client that it only accepts true proofs; progress asks that it accepts some proof
    of what is true ([complete_client]).  Given two such clients, a packet that is committed
    and not settled can be moved forward: it can be received, timed out or acknowledged. *)
From S2P Require Import Prelude GoMonad Errors Sha256 Height Host Sdk ConnectionTypes.
From S2P Require Import ChannelTypes Exported ClientKeeper ConnectionKeeper PortKeeper.
From S2P Require Import ChannelKeeper ChannelHandshake FullNode Scenario ChannelSpec.
From S2P Require Import HandshakeSpec ChannelView ChannelSystem ChannelSafety PacketProperties.
From S2P Require Import TwoChain.
From Stdlib Require Import Ascii.

Section forward.
Context {SE : SdkEncoding} {LC : LightClient} {CD : Codec} {CK : CapabilityKeeper} {AP : Application}.

(** ** Clients that accept proofs of what is true *)

(** The client of connection [ce] is active in [ctx], and for everything that the store
    [root] of the counterparty holds about packets there is a proof that it accepts at
    height [h] (its delay period has passed). *)
Definition complete_client (ctx : Context) (w : World) (ce : connectiontypes.ConnectionEnd) (h : Height)
    (root : KVStore) : Prop :=
  let id := connectiontypes.ClientId ce in
  let td := connectiontypes.DelayPeriod ce in
  let bd := block_delay (MaxExpectedTimePerBlock w) td in
  let pre := counterparty_prefix ce in
  ∃ cs, client w id = Some cs ∧ client_Status ctx (client_view id w) cs = Active ∧
  (∀ p c n bz, root !! PacketCommitmentKey p c n = Some bz →
     ∃ prf, (VerifyPacketCommitment ctx cs h td bd pre prf p c n bz (client_view id w)).2 = Ok tt) ∧
  (∀ p c n ack, root !! PacketAcknowledgementKey p c n = Some (CommitAcknowledgement ack) →
     ∃ prf, (VerifyPacketAcknowledgement ctx cs h td bd pre prf p c n ack (client_view id w)).2 = Ok tt) ∧
  (∀ p c n, root !! PacketReceiptKey p c n = None →
     ∃ prf, (VerifyPacketReceiptAbsence ctx cs h td bd pre prf p c n (client_view id w)).2 = Ok tt) ∧
  (∀ p c n, root !! NextSequenceRecvKey p c = Some (Uint64ToBigEndian n) →
     ∃ prf, (VerifyNextSequenceRecv ctx cs h td bd pre prf p c n (client_view id w)).2 = Ok tt).

Lemma active_client_run ctx id w cs :
  client w id = Some cs → client_Status ctx (client_view id w) cs = Active → active_client ctx id w = (w, Ok cs).
Proof.
  intros Hc Ha. unfold active_client. run_with (GetClientState_run _ _ _ Hc). cbn [some_or].
  run_with (eq_refl : ret cs w = (w, Ok cs)). unfold get_status, bind, gets. rewrite Ha.
  by rewrite bool_decide_eq_false_2 by naive_solver.
Qed.
Lemma client_store_run c (m : ST KVStore unit) w :
  (m (client_view c w)).2 = Ok tt → (wrap_err (on_client_store c m) w).2 = Ok tt.
Proof.
  intros H. unfold wrap_err, on_client_store, zoom. by destruct (m (client_view c w)) as [t o]; simpl in H; subst.
Qed.

(** The shape of every verification of packet state. *)
Lemma verification_run ctx w ce cs (f : ClientState → N → ST KVStore unit) :
  let id := connectiontypes.ClientId ce in
  client w id = Some cs → client_Status ctx (client_view id w) cs = Active →
  (f cs (block_delay (MaxExpectedTimePerBlock w) (connectiontypes.DelayPeriod ce)) (client_view id w)).2 = Ok tt →
  ((let! clientState := active_client ctx id in
    let! blockDelay := getBlockDelay ce in
    wrap_err (on_client_store id (f clientState blockDelay))) w).2 = Ok tt.
Proof.
  intros id Hcs Hact Hf. rewrite (bind_run _ _ _ _ _ (active_client_run _ _ _ _ Hcs Hact)). by apply client_store_run.
Qed.

Lemma commitment_accepted ctx w ce h root p c n bz :
  complete_client ctx w ce h root → root !! PacketCommitmentKey p c n = Some bz →
  ∃ prf, (conn_VerifyPacketCommitment ctx ce h prf p c n bz w).2 = Ok tt.
Proof.
  intros (cs & Hcs & Hact & H1 & H2 & H3 & H4) Hr. destruct (H1 _ _ _ _ Hr) as [prf Hp]. exists prf.
  by apply (verification_run _ _ _ cs (λ cs bd, VerifyPacketCommitment ctx cs h _ bd _ prf p c n bz)).
Qed.
Lemma acknowledgement_accepted ctx w ce h root p c n ack :
  complete_client ctx w ce h root → root !! PacketAcknowledgementKey p c n = Some (CommitAcknowledgement ack) →
  ∃ prf, (conn_VerifyPacketAcknowledgement ctx ce h prf p c n ack w).2 = Ok tt.
Proof.
  intros (cs & Hcs & Hact & H1 & H2 & H3 & H4) Hr. destruct (H2 _ _ _ _ Hr) as [prf Hp]. exists prf.
  by apply (verification_run _ _ _ cs (λ cs bd, VerifyPacketAcknowledgement ctx cs h _ bd _ prf p c n ack)).
Qed.
Lemma absence_accepted ctx w ce h root p c n :
  complete_client ctx w ce h root → root !! PacketReceiptKey p c n = None →
  ∃ prf, (conn_VerifyPacketReceiptAbsence ctx ce h prf p c n w).2 = Ok tt.
Proof.
  intros (cs & Hcs & Hact & H1 & H2 & H3 & H4) Hr. destruct (H3 _ _ _ Hr) as [prf Hp]. exists prf.
  by apply (verification_run _ _ _ cs (λ cs bd, VerifyPacketReceiptAbsence ctx cs h _ bd _ prf p c n)).
Qed.
Lemma next_recv_accepted ctx w ce h root p c n :
  complete_client ctx w ce h root → root !! NextSequenceRecvKey p c = Some (Uint64ToBigEndian n) →
  ∃ prf, (conn_VerifyNextSequenceRecv ctx ce h prf p c n w).2 = Ok tt.
Proof.
  intros (cs & Hcs & Hact & H1 & H2 & H3 & H4) Hr. destruct (H4 _ _ _ Hr) as [prf Hp]. exists prf.
  by apply (verification_run _ _ _ cs (λ cs bd, VerifyNextSequenceRecv ctx cs h _ bd _ prf p c n)).
Qed.

(** ** Running the keeper forward *)

(** The sending end of [pkt], OPEN over an OPEN connection, owned by [cap]. *)
Record sending_end (w : World) (cap : Capability) (pkt : Packet) (ch : Channel)
    (ce : connectiontypes.ConnectionEnd) : Prop := {
  se_channel : sends_on w pkt ch;
  se_open : Channel_State ch = OPEN;
  se_owner : owns w cap (SourcePort pkt) (SourceChannel pkt) = true;
  se_connection : connection_of w ch ce;
  se_connected : connectiontypes.Connection_State ce = connectiontypes.OPEN;
  se_commitment : commitment_at w (SourcePort pkt) (SourceChannel pkt) (Sequence pkt) = Some (CommitPacket pkt) }.

(** The receiving end. *)
Record receiving_end (w : World) (cap : Capability) (pkt : Packet) (ch : Channel)
    (ce : connectiontypes.ConnectionEnd) : Prop := {
  re_channel : receives_on w pkt ch;
  re_open : Channel_State ch = OPEN;
  re_owner : owns w cap (DestinationPort pkt) (DestinationChannel pkt) = true;
  re_connection : connection_of w ch ce;
  re_connected : connectiontypes.Connection_State ce = connectiontypes.OPEN }.

Lemma commitment_length pkt : bool_decide (String.length (CommitPacket pkt) = 0) = false.
Proof. apply bool_decide_eq_false_2. unfold CommitPacket. by rewrite sha256_length. Qed.

Lemma GetPacketCommitment_run p c n w x :
  commitment_at w p c n = Some x → GetPacketCommitment p c n w = (w, Ok x).
Proof. unfold commitment_at, GetPacketCommitment, get_store, bind, gets. by intros ->. Qed.

Lemma AcknowledgePacket_run ctx cap pkt ack prf h w ch ce :
  sending_end w cap pkt ch ce →
  (Channel_Ordering ch = ORDERED → next_ack w (SourcePort pkt) (SourceChannel pkt) = Some (Sequence pkt)) →
  (conn_VerifyPacketAcknowledgement ctx ce h prf (DestinationPort pkt) (DestinationChannel pkt) (Sequence pkt) ack w).2 =
    Ok tt →
  ∃ w', AcknowledgePacket ctx cap pkt ack prf h w = (w', Ok tt).
Proof.
  intros [[Hc Hcp] Hst Hown (hop & Hh & Hce) Hopen Hcm] Hord Hver.
  destruct (conn_VerifyPacketAcknowledgement _ _ _ _ _ _ _ _ w) as [w1 o] eqn:E. simpl in Hver. subst o.
  pose proof (client_only_run _ _ _ _ (VerifyPacketAcknowledgement_only _ _ _ _ _ _ _ _) E) as Hs.
  unfold AcknowledgePacket. run_with (GetChannel_run _ _ _ _ Hc). cbn [some_or]. run_with (eq_refl : ret ch w = (w, Ok ch)).
  rewrite Hst, (bool_decide_eq_false_2 (OPEN ≠ OPEN)) by naive_solver.
  unfold AuthenticateCapability. unfold owns in Hown. unfold bind at 1 2, gets at 1. cbn [throw_if ret].
  rewrite Hown, Hcp. cbn [negb Counterparty_PortId Counterparty_ChannelId].
  rewrite !(bool_decide_eq_false_2 (_ ≠ _)) by naive_solver. unfold bind at 1 2 3. cbn [throw_if ret].
  run_with (channel_connection_run _ _ _ _ Hh Hce).
  unfold connection_open. rewrite Hopen, (bool_decide_eq_false_2 (_ ≠ _)) by naive_solver.
  unfold bind at 1. cbn [throw_if ret]. run_with (GetPacketCommitment_run _ _ _ _ _ Hcm). rewrite commitment_length.
  cbv zeta. rewrite (bool_decide_eq_false_2 (CommitPacket pkt ≠ _)) by naive_solver.
  unfold bind at 1. cbn [throw_if ret]. run_with E. unfold ack_in_order. case_bool_decide as Ho.
  - specialize (Hord Ho).
    assert (next_ack w1 (SourcePort pkt) (SourceChannel pkt) = Some (Sequence pkt)) as Hn by (by rewrite <- Hs).
    unfold bind at 1. run_with (get_sequence_run _ _ _ Hn). cbn [some_or]. unfold bind at 1. cbn [ret].
    rewrite (bool_decide_eq_false_2 (_ ≠ _)) by naive_solver. unfold bind at 1. cbn [throw_if ret].
    unfold EmitAcknowledgePacketEvent, hop0. rewrite Hh. eexists. reflexivity.
  - unfold EmitAcknowledgePacketEvent, hop0. rewrite Hh. eexists. reflexivity.
Qed.

(** What proves to the sender that the packet was not received. *)
Definition not_received_accepted ctx ce ch pkt prf h n w : Prop :=
  match Channel_Ordering ch with
  | ORDERED =>
      (n ≤ Sequence pkt)%N ∧
      (conn_VerifyNextSequenceRecv ctx ce h prf (DestinationPort pkt) (DestinationChannel pkt) n w).2 = Ok tt
  | UNORDERED =>
      (conn_VerifyPacketReceiptAbsence ctx ce h prf (DestinationPort pkt) (DestinationChannel pkt) (Sequence pkt) w).2 = Ok tt
  | NONE => False
  end.

Lemma timed_out_check h ts pkt :
  ¬ (height_not_reached h (TimeoutHeight pkt) ∧ time_not_reached ts (TimeoutTimestamp pkt)) →
  (Height_IsZero (TimeoutHeight pkt) || LT h (TimeoutHeight pkt)) &&
  ((TimeoutTimestamp pkt =? 0)%N || (ts <? TimeoutTimestamp pkt)%N) = false.
Proof.
  intros Hn. apply not_true_is_false. rewrite andb_true_iff, !orb_true_iff, Height_IsZero_spec, LT_spec, N.eqb_eq, N.ltb_lt.
  exact Hn.
Qed.

Lemma TimeoutPacket_run ctx cap pkt prf h n w ch ce cons :
  sending_end w cap pkt ch ce → consensus w (connectiontypes.ClientId ce) h = Some cons →
  ¬ (height_not_reached h (TimeoutHeight pkt) ∧ time_not_reached (GetTimestamp cons) (TimeoutTimestamp pkt)) →
  not_received_accepted ctx ce ch pkt prf h n w →
  ∃ w', TimeoutPacket ctx pkt prf h n w = (w', Ok tt).
Proof.
  intros [[Hc Hcp] Hst Hown (hop & Hh & Hce) Hopen Hcm] Hcons Hto Hnot.
  unfold TimeoutPacket. run_with (GetChannel_run _ _ _ _ Hc). cbn [some_or]. run_with (eq_refl : ret ch w = (w, Ok ch)).
  rewrite Hcp. cbn [Counterparty_PortId Counterparty_ChannelId].
  rewrite !(bool_decide_eq_false_2 (_ ≠ _)) by naive_solver. unfold bind at 1 2. cbn [throw_if ret].
  run_with (channel_connection_run _ _ _ _ Hh Hce). run_with (GetTimestampAtHeight_run _ _ _ _ Hcons). cbv zeta.
  rewrite (timed_out_check _ _ _ Hto). unfold bind at 1. cbn [throw_if ret].
  run_with (GetPacketCommitment_run _ _ _ _ _ Hcm). rewrite commitment_length. cbv iota zeta.
  rewrite ?(bool_decide_eq_false_2 (_ ≠ _)) by naive_solver. unfold bind at 1 2. cbn [throw_if ret].
  unfold verify_not_received, not_received_accepted in *. destruct (Channel_Ordering ch); [done| |].
  - destruct (conn_VerifyPacketReceiptAbsence _ _ _ _ _ _ _ w) as [w1 o]. simpl in Hnot. subst o. eauto.
  - destruct Hnot as [Hle Hver]. apply N.ltb_ge in Hle. rewrite Hle. unfold bind. cbn [throw_if ret].
    destruct (conn_VerifyNextSequenceRecv _ _ _ _ _ _ _ w) as [w1 o]. simpl in Hver. subst o. eauto.
Qed.

Lemma TimeoutExecuted_run cap pkt w ch :
  chan w (SourcePort pkt) (SourceChannel pkt) = Some ch →
  owns w cap (SourcePort pkt) (SourceChannel pkt) = true → ∃ w', TimeoutExecuted cap pkt w = (w', Ok tt).
Proof.
  intros Hc Hown. unfold TimeoutExecuted. run_with (GetChannel_run _ _ _ _ Hc). cbn [some_or].
  run_with (eq_refl : ret ch w = (w, Ok ch)). unfold AuthenticateCapability. unfold owns in Hown.
  unfold bind at 1, gets at 1. rewrite Hown. cbn [negb]. unfold bind at 1. cbn [throw_if ret].
  unfold EmitTimeoutPacketEvent.
  case_bool_decide; unfold bind; simpl; eexists; reflexivity.
Qed.

(** The receiving chain has not received the packet; on an ORDERED channel it waits for
    this packet or an earlier one. *)
Definition not_received (w : World) (ch : Channel) (pkt : Packet) (n : N) : Prop :=
  match Channel_Ordering ch with
  | UNORDERED => receipt_at w (DestinationPort pkt) (DestinationChannel pkt) (Sequence pkt) = None
  | ORDERED => ibc w !! NextSequenceRecvKey (DestinationPort pkt) (DestinationChannel pkt) =
      Some (Uint64ToBigEndian n) ∧ (n ≤ Sequence pkt)%N
  | NONE => False
  end.

Lemma receive_run ctx cap pkt prf h w ch ce self n :
  receiving_end w cap pkt ch ce →
  (conn_VerifyPacketCommitment ctx ce h prf (SourcePort pkt) (SourceChannel pkt) (Sequence pkt) (CommitPacket pkt) w).2 = Ok tt →
  GetSelfHeight ctx = Ok self → height_not_reached self (TimeoutHeight pkt) →
  time_not_reached (uint64_of_Z (BlockTime ctx)) (TimeoutTimestamp pkt) →
  not_received w ch pkt n → (Channel_Ordering ch = ORDERED → n = Sequence pkt) → (n < two64)%N →
  ∃ w', RecvPacket ctx cap pkt prf h w = (w', Ok tt).
Proof.
  intros [Hch Hst Hown (hop & Hh & Hce) Hopen] Hver Hself Hht Htime Hnot Hord Hn.
  destruct (RecvPacket_run ctx cap pkt prf h w ch) as (w1 & Hs & ->); [by exists hop, ce, self|].
  unfold not_received in Hnot. unfold recv_by_ordering, EmitRecvPacketEvent, hop0.
  destruct (Channel_Ordering ch); [done| |].
  - assert (receipt_at w1 (DestinationPort pkt) (DestinationChannel pkt) (Sequence pkt) = None) as Hr by (by rewrite <- Hs).
    unfold receipt_at in Hr. unfold GetPacketReceipt, get_store, bind, gets. rewrite Hr, Hh. eexists. reflexivity.
  - destruct Hnot as [Hnext _]. specialize (Hord eq_refl). subst n.
    assert (next_recv w1 (DestinationPort pkt) (DestinationChannel pkt) = Some (Sequence pkt)) as Hr.
    { rewrite <- Hs. unfold next_recv. rewrite Hnext. simpl. by rewrite be_roundtrip. }
    unfold bind at 1. run_with (get_sequence_run _ _ _ Hr). cbn [some_or]. unfold bind at 1. cbn [ret].
    rewrite N.ltb_irrefl, (bool_decide_eq_false_2 (_ ≠ _)) by naive_solver. unfold bind. simpl. rewrite Hh. eexists. reflexivity.
Qed.

Lemma receive_progress ctx cap pkt h w ch ce self root n :
  receiving_end w cap pkt ch ce → complete_client ctx w ce h root →
  root !! PacketCommitmentKey (SourcePort pkt) (SourceChannel pkt) (Sequence pkt) = Some (CommitPacket pkt) →
  GetSelfHeight ctx = Ok self → height_not_reached self (TimeoutHeight pkt) →
  time_not_reached (uint64_of_Z (BlockTime ctx)) (TimeoutTimestamp pkt) →
  not_received w ch pkt n → (Channel_Ordering ch = ORDERED → n = Sequence pkt) → (n < two64)%N →
  ∃ prf w', RecvPacket ctx cap pkt prf h w = (w', Ok tt).
Proof.
  intros He Hcl Hroot ? ? ? ? ? ?. destruct (commitment_accepted _ _ _ _ _ _ _ _ _ Hcl Hroot) as [prf Hver]. exists prf.
  by eapply receive_run.
Qed.

Lemma timeout_run ctx cap pkt prf h n w ch ce cons :
  sending_end w cap pkt ch ce → consensus w (connectiontypes.ClientId ce) h = Some cons →
  ¬ (height_not_reached h (TimeoutHeight pkt) ∧ time_not_reached (GetTimestamp cons) (TimeoutTimestamp pkt)) →
  not_received_accepted ctx ce ch pkt prf h n w →
  ∃ w1 w2, TimeoutPacket ctx pkt prf h n w = (w1, Ok tt) ∧ TimeoutExecuted cap pkt w1 = (w2, Ok tt) ∧
    commitment_at w2 (SourcePort pkt) (SourceChannel pkt) (Sequence pkt) = None.
Proof.
  intros He Hcons Hto Hacc. destruct (TimeoutPacket_run _ _ _ _ _ _ _ _ _ _ He Hcons Hto Hacc) as [w1 E].
  pose proof E as (ch' & ? & ? & ? & [Hc' _] & _ & _ & _ & _ & _ & _ & _ & Hs)%TimeoutPacket_Ok.
  destruct (TimeoutExecuted_run cap pkt w1 ch') as [w2 E2]; [by rewrite <- Hs|rewrite <- Hs; by apply He|].
  exists w1, w2. split_and!; [done..|].
  apply TimeoutExecuted_Ok in E2 as (ch2 & _ & _ & Hw & _). unfold timeout_writes in Hw. unfold commitment_at. rewrite Hw.
  case_bool_decide; [rewrite lookup_insert_ne by path_ne|]; by rewrite lookup_delete_eq.
Qed.

Lemma acknowledge_run ctx cap pkt ack prf h w ch ce :
  sending_end w cap pkt ch ce →
  (Channel_Ordering ch = ORDERED → next_ack w (SourcePort pkt) (SourceChannel pkt) = Some (Sequence pkt)) →
  (conn_VerifyPacketAcknowledgement ctx ce h prf (DestinationPort pkt) (DestinationChannel pkt) (Sequence pkt) ack w).2 =
    Ok tt →
  ∃ w', AcknowledgePacket ctx cap pkt ack prf h w = (w', Ok tt) ∧
    commitment_at w' (SourcePort pkt) (SourceChannel pkt) (Sequence pkt) = None.
Proof.
  intros He Hord Hver. destruct (AcknowledgePacket_run _ _ _ _ _ _ _ _ _ He Hord Hver) as [w' E]. exists w'. split; [done|].
  apply AcknowledgePacket_Ok in E as (ch' & ? & ? & w1 & _ & _ & _ & _ & _ & _ & _ & _ & _ & Hw & _).
  unfold ack_writes in Hw. unfold commitment_at. case_bool_decide; [destruct Hw as [_ Hw]|]; rewrite Hw; by rewrite lookup_delete_eq.
Qed.

Lemma timeout_progress ctx cap pkt h w ch ce cons b chB n :
  sending_end w cap pkt ch ce → complete_client ctx w ce h (ibc b) →
  consensus w (connectiontypes.ClientId ce) h = Some cons → Channel_Ordering ch = Channel_Ordering chB →
  ¬ (height_not_reached h (TimeoutHeight pkt) ∧ time_not_reached (GetTimestamp cons) (TimeoutTimestamp pkt)) →
  not_received b chB pkt n →
  ∃ prf w1 w2, TimeoutPacket ctx pkt prf h n w = (w1, Ok tt) ∧ TimeoutExecuted cap pkt w1 = (w2, Ok tt) ∧
    commitment_at w2 (SourcePort pkt) (SourceChannel pkt) (Sequence pkt) = None.
Proof.
  intros He Hcl Hcons Ho Hto Hnot.
  assert (∃ prf, not_received_accepted ctx ce ch pkt prf h n w) as [prf Hacc].
  { unfold not_received in Hnot. unfold not_received_accepted. rewrite Ho. destruct (Channel_Ordering chB); [done| |].
    - by eapply absence_accepted.
    - destruct Hnot as [Hnext Hle]. destruct (next_recv_accepted _ _ _ _ _ _ _ _ Hcl Hnext) as [prf Hp]. by exists prf. }
  exists prf. by eapply timeout_run.
Qed.
End forward.

Section claims.
Context {SE : SdkEncoding} {LC : LightClient} {CD : Codec} {CK : CapabilityKeeper} {AP : Application}.

(** C6: A packet is never stuck.  Chain A has committed a packet on an OPEN channel to chain
    B, and each chain's client of the other, at the height of its present block, accepts
    some proof of whatever that chain stores.  If B has not received the packet, then
    either B can receive it now (on an ORDERED channel when it is the next one) or, once
    one of its timeouts has been reached, A can time it out; and when B has acknowledged
    it, A can process the acknowledgement (in order on an ORDERED channel).  Timing out
    and acknowledging remove A's commitment. *)
Theorem packet_progress ctxA ctxB capA capB pkt hA hB a b chA chB ceA ceB cons n :
  sending_end a capA pkt chA ceA → receiving_end b capB pkt chB ceB →
  Channel_Ordering chA = Channel_Ordering chB →
  complete_client ctxA a ceA hB (ibc b) → complete_client ctxB b ceB hA (ibc a) →
  consensus a (connectiontypes.ClientId ceA) hB = Some cons →
  GetSelfHeight ctxB = Ok hB → GetTimestamp cons = uint64_of_Z (BlockTime ctxB) → (n < two64)%N →
  (not_received b chB pkt n →
     (∃ prf b', RecvPacket ctxB capB pkt prf hA b = (b', Ok tt)) ∨
     (∃ prf a1 a2, TimeoutPacket ctxA pkt prf hB n a = (a1, Ok tt) ∧ TimeoutExecuted capA pkt a1 = (a2, Ok tt) ∧
        commitment_at a2 (SourcePort pkt) (SourceChannel pkt) (Sequence pkt) = None) ∨
     Channel_Ordering chB = ORDERED ∧ (n < Sequence pkt)%N) ∧
  (∀ ack, ack_at b (DestinationPort pkt) (DestinationChannel pkt) (Sequence pkt) = Some (CommitAcknowledgement ack) →
     (Channel_Ordering chA = ORDERED → next_ack a (SourcePort pkt) (SourceChannel pkt) = Some (Sequence pkt)) →
     ∃ prf a', AcknowledgePacket ctxA capA pkt ack prf hB a = (a', Ok tt) ∧
       commitment_at a' (SourcePort pkt) (SourceChannel pkt) (Sequence pkt) = None).
Proof.
  intros HA HB Ho HcA HcB Hcons Hself Htime Hn. split.
  - intros Hnot.
    destruct (decide (height_not_reached hB (TimeoutHeight pkt) ∧ time_not_reached (GetTimestamp cons) (TimeoutTimestamp pkt)))
      as [[H1 H2]|Hto].
    + destruct (decide (Channel_Ordering chB = ORDERED ∧ n ≠ Sequence pkt)) as [[Hord Hne]|Hfirst].
      { right; right. split; [done|]. unfold not_received in Hnot. rewrite Hord in Hnot. lia. }
      left. eapply receive_progress; eauto; [apply HA|by rewrite <- Htime|].
      intros Hord. destruct (decide (n = Sequence pkt)); [done|]. by destruct Hfirst.
    + right; left. eapply timeout_progress; eauto.
  - intros ack Hack Hord. destruct (acknowledgement_accepted _ _ _ _ _ _ _ _ _ HcA Hack) as [prf Hver].
    destruct (acknowledge_run _ _ _ _ _ _ _ _ _ HA Hord Hver) as (a' & E & Hgone). by exists prf, a'.
Qed.
End claims.

(** ** The concrete chains *)
Module LivenessWitness.
Import ToyInstances Scenario PacketWitness.

(** A full-node client accepts a proof of everything in the store it holds. *)
Lemma full_node_complete ctx (w : World) ce h cons cs root :
  client w (connectiontypes.ClientId ce) = Some cs → fn_frozen cs = false →
  fn_get (client_view (connectiontypes.ClientId ce) w) h = Some cons →
  same_channels (fn_root cons) root →
  complete_client ctx w ce h root.
Proof.
  intros Hc Hf Hg Hk. exists cs. split; [done|]. split; [simpl; by rewrite Hf|].
  assert (∀ key v, fn_root cons !! key = v →
    (fn_verify h key v (client_view (connectiontypes.ClientId ce) w)).2 = Ok tt) as Hv.
  { intros key v Hkey. unfold fn_verify, bind, gets, id, some_or. rewrite Hg. unfold ret, throw_if.
    by rewrite bool_decide_eq_true_2. }
  split_and!.
  - intros p c n bz Hr. exists "". apply Hv. rewrite <- Hr. symmetry. apply (same_channels_key _ _ (KPacketCommitment p c n) Hk eq_refl).
  - intros p c n ack Hr. exists "". apply Hv. rewrite <- Hr. symmetry. apply (same_channels_key _ _ (KPacketAcknowledgement p c n) Hk eq_refl).
  - intros p c n Hr. exists "". apply Hv. rewrite <- Hr. symmetry. apply (same_channels_key _ _ (KPacketReceipt p c n) Hk eq_refl).
  - intros p c n Hr. exists "". apply Hv. rewrite <- Hr. symmetry. apply (same_channels_key _ _ (KNextSequenceRecv p c) Hk eq_refl).
Qed.

Definition hA : Height := NewHeight 1 20.
Definition hB : Height := NewHeight 1 30.
Definition a : World := worldA_sees UNORDERED hB 1100 (ibc (worldB UNORDERED)).
Definition b : World := worldB UNORDERED.

Lemma a_channels : same_channels (ibc (worldA_sent UNORDERED)) (ibc a).
Proof.
  intros k Hk. unfold a, worldA_sees. simpl. rewrite !lookup_insert_ne; [done|..].
  - intros E. pose proof (channel_part_not_client _ Hk) as Hn. rewrite <- E in Hn. discriminate Hn.
  - intros E. pose proof (channel_part_not_client _ Hk) as Hn. rewrite <- E in Hn. discriminate Hn.
Qed.

Lemma packet_progress_witness :
  not_received b (channelB UNORDERED) packet 0 ∧
  ((∃ prf b', RecvPacket ctxB cap packet prf hA b = (b', Ok tt)) ∨
   (∃ prf a1 a2, TimeoutPacket ctxA packet prf hB 0 a = (a1, Ok tt) ∧ TimeoutExecuted cap packet a1 = (a2, Ok tt) ∧
      commitment_at a2 "transfer" "channel-0" 1 = None) ∨
   UNORDERED = ORDERED ∧ (0 < 1)%N).
Proof.
  assert (not_received b (channelB UNORDERED) packet 0) as Hnot by (vm_compute; reflexivity).
  split; [exact Hnot|].
  pose proof (packet_progress ctxA ctxB cap cap packet hA hB a b (channelA UNORDERED) (channelB UNORDERED)
    (connection "connection-5") (connection "connection-0") (mkFNConsensus 1100 (ibc b)) 0) as H.
  apply H; try done.
  - split; try (vm_compute; reflexivity).
    + split; vm_compute; reflexivity.
    + exists "connection-0". split; vm_compute; reflexivity.
  - split; try (vm_compute; reflexivity).
    + split; vm_compute; reflexivity.
    + exists "connection-5". split; vm_compute; reflexivity.
  - apply (full_node_complete ctxA a _ hB (mkFNConsensus 1100 (ibc b)) (mkFNClient hB false)); try done; vm_compute; reflexivity.
  - apply (full_node_complete ctxB b _ hA (mkFNConsensus 1000 (ibc (worldA_sent UNORDERED))) (mkFNClient hA false));
      [vm_compute; reflexivity..|apply a_channels].
Defined.
End LivenessWitness.
