(* ===== verification/ConnectionSafety.v ===== *)
(** * Safety of connections

    What every step of the connection handshake does ([ConnOpen*_Ok]), the
    abstract life of a connection end ([cstep]), and the invariant that the keepers
    refine it: identifiers are fresh, an OPEN connection never changes, and the
    parameters a connection was created with never change. *)
From S2P Require Import Prelude GoMonad Errors Sha256 Height Host Sdk ConnectionTypes.
From S2P Require Import ChannelTypes Exported ClientKeeper ConnectionKeeper PortKeeper.
From S2P Require Import ChannelKeeper ChannelHandshake FullNode Scenario ChannelSpec.
From Stdlib Require Import Ascii.
Import connectiontypes.

Section specs.
Context {SE : SdkEncoding} {LC : LightClient} {CD : Codec} {CK : CapabilityKeeper} {AP : Application} {SC : SelfClient}.
Implicit Types w : World.

Definition next_connection (w : World) : option N := BigEndianToUint64 <$> ibc w !! KeyNextConnectionSequence.

(** The worlds agree on connections and their counter. *)
Definition same_connections (w w' : World) : Prop :=
  next_connection w' = next_connection w ∧ ∀ c, conn w' c = conn w c.

#[global] Instance same_connections_equiv : Equivalence same_connections.
Proof.
  split.
  - intros w. by split.
  - intros w w' [Hn Hc]. split; intros; by rewrite ?Hn, ?Hc.
  - intros w1 w2 w3 [Hn Hc] [Hn' Hc']. split; intros; by rewrite ?Hn', ?Hn, ?Hc', ?Hc.
Qed.

Lemma same_but_clients_connections w w' : same_but_clients w w' → same_connections w w'.
Proof.
  intros (Hk & _ & _). split; [unfold next_connection; by rewrite Hk|]. intros c. unfold conn. by rewrite Hk.
Qed.

(** One connection end is written; the others stay. *)
Definition sets_connection (w w' : World) (c : string) (e : ConnectionEnd) : Prop :=
  conn w' c = Some e ∧ ∀ c', no_char "/" c = true → no_char "/" c' = true → c' ≠ c → conn w' c' = conn w c'.

Lemma SetConnection_Ok c e w w' u :
  (DelayPeriod e < two64)%N → SetConnection c e w = (w', Ok u) →
  sets_connection w w' c e ∧ next_connection w' = next_connection w.
Proof.
  intros Hd E. unfold SetConnection in E. go_inv. unfold sets_connection, conn, next_connection. simpl. split_and!.
  - rewrite lookup_insert_eq. simpl. by apply ConnectionEnd_roundtrip.
  - intros c' Hc Hc' Hne. rewrite lookup_insert_ne; [done|]. intros H.
    apply (render_inj (KConnection c) (KConnection c')) in H; [congruence|done..].
  - by rewrite lookup_insert_ne by path_ne.
Qed.

Lemma addConnectionToClient_Ok cl c w w' u :
  addConnectionToClient cl c w = (w', Ok u) → same_connections w w' ∧ is_Some (client w cl).
Proof.
  unfold addConnectionToClient, GetClientConnectionPaths, SetClientConnectionPaths. intros E. go_inv.
  repeat match goal with H : context [match ?o with _ => _ end] |- _ => destruct o eqn:?; go_inv end;
    (split; [|by eexists]); (split; [unfold next_connection|intros c'; unfold conn]); simpl;
    by rewrite lookup_insert_ne by path_ne.
Qed.

Lemma GenerateConnectionIdentifier_Ok w w' id :
  GenerateConnectionIdentifier w = (w', Ok id) →
  ∃ m, next_connection w = Some m ∧ id = FormatConnectionIdentifier m ∧
    next_connection w' = Some (u64 (m + 1)) ∧ ∀ c, conn w' c = conn w c.
Proof.
  unfold GenerateConnectionIdentifier, GetNextConnectionSequence, SetNextConnectionSequence, next_connection.
  intros E. go_inv. eexists. split_and!.
  - by match goal with H : _ = Some _ |- _ => rewrite H end.
  - done.
  - simpl. rewrite lookup_insert_eq. simpl. by rewrite be_roundtrip by apply u64_bound.
  - intros c. unfold conn. simpl. by rewrite lookup_insert_ne by path_ne.
Qed.

Lemma FormatConnectionIdentifier_no_slash m : no_char "/" (FormatConnectionIdentifier m) = true.
Proof. unfold FormatConnectionIdentifier, ConnectionPrefix. cbn. exact (fmt_u64_no_slash m). Qed.

Lemma VerifyConnectionState_only ctx ce h prf c e : client_only (conn_VerifyConnectionState ctx ce h prf c e).
Proof. unfold conn_VerifyConnectionState. client_only_tac. Qed.
Lemma VerifyClientState_only ctx ce h prf c : client_only (conn_VerifyClientState ctx ce h prf c).
Proof. unfold conn_VerifyClientState. client_only_tac. Qed.
Lemma VerifyClientConsensusState_only ctx ce h ch prf c :
  client_only (conn_VerifyClientConsensusState ctx ce h ch prf c).
Proof. unfold conn_VerifyClientConsensusState. client_only_tac. Qed.

Ltac verified_same :=
  repeat match goal with
  | H : conn_VerifyConnectionState _ _ _ _ _ _ ?w = (_, Ok _) |- _ =>
      apply (client_only_run _ _ _ _ (VerifyConnectionState_only _ _ _ _ _ _)), same_but_clients_connections in H
  | H : conn_VerifyClientState _ _ _ _ _ ?w = (_, Ok _) |- _ =>
      apply (client_only_run _ _ _ _ (VerifyClientState_only _ _ _ _ _)), same_but_clients_connections in H
  | H : conn_VerifyClientConsensusState _ _ _ _ _ _ ?w = (_, Ok _) |- _ =>
      apply (client_only_run _ _ _ _ (VerifyClientConsensusState_only _ _ _ _ _ _)), same_but_clients_connections in H
  end.

Lemma sets_connection_same w w1 w2 w' c e :
  same_connections w w1 → sets_connection w1 w2 c e → same_connections w2 w' → sets_connection w w' c e.
Proof.
  intros [_ H1] [He Ho] [_ H2]. split; [by rewrite H2|]. intros c' Hc Hc' Hne. by rewrite H2, Ho, H1.
Qed.

(** A new connection in state INIT under the next identifier. *)
Lemma ConnOpenInit_Ok cl cp ver delay w w' id :
  (delay < two64)%N → ConnOpenInit cl cp ver delay w = (w', Ok id) →
  ∃ m vs, next_connection w = Some m ∧ id = FormatConnectionIdentifier m ∧
    next_connection w' = Some (u64 (m + 1)) ∧
    sets_connection w w' id (NewConnectionEnd INIT cl cp vs delay) ∧
    (vs = GetCompatibleVersions ∨ ∃ v, ver = Some v ∧ vs = [v] ∧ IsSupportedVersion v = true).
Proof.
  intros Hd E. unfold ConnOpenInit in E. go_inv.
  match goal with H : GenerateConnectionIdentifier _ = _ |- _ =>
    apply GenerateConnectionIdentifier_Ok in H as (m & Hm & -> & Hm' & Hc) end.
  match goal with H : SetConnection _ _ _ = _ |- _ => apply SetConnection_Ok in H as [Hs Hn]; [|done] end.
  match goal with H : addConnectionToClient _ _ _ = _ |- _ => pose proof H as Ha; apply addConnectionToClient_Ok in Ha as [Hsame _] end.
  assert (s = w) as -> by (destruct ver; go_inv; done).
  exists m, a. do 2 (split; [done|]). split; [|split].
  - destruct Hsame as [Hsame _]. congruence.
  - split; [rewrite (proj2 Hsame); apply Hs|].
    intros c' Hno Hno' Hne. rewrite (proj2 Hsame), (proj2 Hs) by done. apply Hc.
  - destruct ver; go_inv; [right; eauto|by left].
Qed.

(** The connection [ConnOpenTry] continues with. *)
Definition try_connection (w : World) (prev : string) (cp : Counterparty) (delay : N) (cl id : string)
    (po : option ConnectionEnd) (w1 : World) : Prop :=
  (∃ old, po = Some old ∧ id = prev ∧ w1 = w ∧ conn w prev = Some old ∧ Connection_State old = INIT ∧
     ClientId old = cl ∧ DelayPeriod old = delay ∧
     Counterparty_ClientId (Connection_Counterparty old) = Counterparty_ClientId cp ∧
     Counterparty_Prefix (Connection_Counterparty old) = Counterparty_Prefix cp ∧ prev ≠ "") ∨
  (po = None ∧ prev = "" ∧ ∃ m, next_connection w = Some m ∧ id = FormatConnectionIdentifier m ∧
     next_connection w1 = Some (u64 (m + 1)) ∧ ∀ c, conn w1 c = conn w c).

Lemma previous_connection_Ok prev cp delay cl w w1 id po :
  previous_connection prev cp delay cl w = (w1, Ok (id, po)) → try_connection w prev cp delay cl id po w1.
Proof.
  unfold previous_connection, try_connection. case_bool_decide as Hp; intros E.
  - left. go_inv. simplify_eq.
    match goal with H : _ && _ && _ && _ && _ = true |- _ => rewrite !andb_true_iff, !bool_decide_eq_true in H end.
    destruct_and?. eexists. split_and!; eauto.
    destruct (Counterparty_Prefix (Connection_Counterparty _)), (Counterparty_Prefix cp). simpl in *. congruence.
  - right. go_inv. simplify_eq. split; [done|]. split; [done|].
    match goal with H : GenerateConnectionIdentifier _ = _ |- _ => by apply GenerateConnectionIdentifier_Ok in H end.
Qed.

Lemma ConnOpenTry_Ok ctx prev cp delay cl cs vs p1 p2 p3 h ch w w' id :
  (delay < two64)%N → ConnOpenTry ctx prev cp delay cl cs vs p1 p2 p3 h ch w = (w', Ok id) →
  ∃ w1 po v, try_connection w prev cp delay cl id po w1 ∧ next_connection w' = next_connection w1 ∧
    sets_connection w1 w' id (NewConnectionEnd TRYOPEN cl cp [v] delay) ∧
    PickVersion match po with
                | Some c => if bool_decide (length (Versions c) ≠ 0) then Versions c else GetCompatibleVersions
                | None => GetCompatibleVersions
                end vs = Ok v ∧ ValidateSelfClient ctx cs = Ok tt.
Proof.
  intros Hd E. unfold ConnOpenTry in E. go_inv. simplify_eq.
  match goal with H : previous_connection _ _ _ _ _ = _ |- _ => apply previous_connection_Ok in H as Ht end.
  verified_same.
  match goal with H : addConnectionToClient _ _ _ = _ |- _ => apply addConnectionToClient_Ok in H as [Hadd _] end.
  match goal with H : SetConnection _ _ _ = _ |- _ => apply SetConnection_Ok in H as [Hs Hn]; [|done] end.
  eexists _, _, _. split; [exact Ht|]. split; [|split; [|done]].
  - rewrite Hn. repeat match goal with H : same_connections _ _ |- _ => destruct H as [H _]; rewrite H; clear H end. done.
  - eapply sets_connection_same; [|exact Hs|reflexivity].
    repeat match goal with H : same_connections _ ?w2 |- same_connections _ ?w2 => etrans; [|exact H]; clear H end. done.
Qed.

Lemma ConnOpenAck_Ok ctx c cs v cpc p1 p2 p3 h ch w w' u :
  (∀ e, conn w c = Some e → DelayPeriod e < two64)%N →
  ConnOpenAck ctx c cs v cpc p1 p2 p3 h ch w = (w', Ok u) →
  ∃ old, conn w c = Some old ∧ next_connection w' = next_connection w ∧
    (Connection_State old = INIT ∧ IsSupportedVersion v = true ∨
     Connection_State old = TRYOPEN ∧ Versions old = [v]) ∧
    sets_connection w w' c
      (mkConnectionEnd (ClientId old) [v] OPEN
         (NewCounterparty (Counterparty_ClientId (Connection_Counterparty old)) cpc
            (Counterparty_Prefix (Connection_Counterparty old))) (DelayPeriod old)).
Proof.
  intros Hd E. unfold ConnOpenAck in E. go_inv. verified_same.
  match goal with H : SetConnection _ _ _ = _ |- _ => apply SetConnection_Ok in H as [Hs Hn]; [|simpl; eauto] end.
  eexists. split; [done|]. split; [|split].
  - rewrite Hn. repeat match goal with H : same_connections _ _ |- _ => destruct H as [H _]; rewrite H; clear H end. done.
  - repeat match goal with H : _ && _ = false |- _ =>
      rewrite andb_false_iff, ?negb_false_iff, ?bool_decide_eq_false, ?bool_decide_eq_true in H end.
    match goal with H : conn _ _ = Some ?e |- _ => destruct (Connection_State e) eqn:? end; naive_solver.
  - eapply sets_connection_same; [|exact Hs|reflexivity].
    repeat match goal with H : same_connections _ ?w2 |- same_connections _ ?w2 => etrans; [|exact H]; clear H end. done.
Qed.

Lemma ConnOpenConfirm_Ok ctx c prf h w w' u :
  (∀ e, conn w c = Some e → DelayPeriod e < two64)%N →
  ConnOpenConfirm ctx c prf h w = (w', Ok u) →
  ∃ old, conn w c = Some old ∧ next_connection w' = next_connection w ∧ Connection_State old = TRYOPEN ∧
    sets_connection w w' c
      (mkConnectionEnd (ClientId old) (Versions old) OPEN (Connection_Counterparty old) (DelayPeriod old)).
Proof.
  intros Hd E. unfold ConnOpenConfirm in E. go_inv. verified_same.
  match goal with H : SetConnection _ _ _ = _ |- _ => apply SetConnection_Ok in H as [Hs Hn]; [|simpl; eauto] end.
  eexists. split; [done|]. split; [|split; [done|]].
  - rewrite Hn. repeat match goal with H : same_connections _ _ |- _ => destruct H as [H _]; rewrite H; clear H end. done.
  - eapply sets_connection_same; [|exact Hs|reflexivity].
    repeat match goal with H : same_connections _ ?w2 |- same_connections _ ?w2 => etrans; [|exact H]; clear H end. done.
Qed.
End specs.

(** ** The life of a connection end *)

(** What two ends of a connection's history share: its client, its delay period and
    the counterparty's client and store prefix. *)
Definition same_identity (a b : ConnectionEnd) : Prop :=
  ClientId b = ClientId a ∧ DelayPeriod b = DelayPeriod a ∧
  Counterparty_ClientId (Connection_Counterparty b) = Counterparty_ClientId (Connection_Counterparty a) ∧
  Counterparty_Prefix (Connection_Counterparty b) = Counterparty_Prefix (Connection_Counterparty a).

(** The transitions of a connection end; [None] is a connection that does not exist. *)
Inductive cstep : option ConnectionEnd → option ConnectionEnd → Prop :=
  | C_idle o : cstep o o
  | C_init e : Connection_State e = INIT → cstep None (Some e)
  | C_try_new e v : Connection_State e = TRYOPEN → Versions e = [v] → cstep None (Some e)
  | C_try_previous a b v :
      Connection_State a = INIT → Connection_State b = TRYOPEN → Versions b = [v] → same_identity a b →
      cstep (Some a) (Some b)
  | C_ack a b v :
      Connection_State a = INIT ∧ IsSupportedVersion v = true ∨ Connection_State a = TRYOPEN ∧ Versions a = [v] →
      Connection_State b = OPEN → Versions b = [v] → same_identity a b → cstep (Some a) (Some b)
  | C_confirm a b :
      Connection_State a = TRYOPEN → Connection_State b = OPEN → Versions b = Versions a →
      Connection_Counterparty b = Connection_Counterparty a → same_identity a b → cstep (Some a) (Some b).

Section system.
Context {SE : SdkEncoding} {LC : LightClient} {CD : Codec} {CK : CapabilityKeeper} {AP : Application} {SC : SelfClient}.

(** Everything that can happen to connections: the handshake, and operations that
    leave them alone. *)
Inductive conn_action : Type :=
  | Conn_init (clientID : string) (counterparty : Counterparty) (version : option Version) (delay : N)
  | Conn_try (ctx : Context) (previous : string) (counterparty : Counterparty) (delay : N) (clientID : string)
      (clientState : ClientState) (versions : list Version) (proofInit proofClient proofConsensus : string)
      (height consensusHeight : Height)
  | Conn_ack (ctx : Context) (connectionID : string) (clientState : ClientState) (version : Version)
      (counterpartyConnectionID proofTry proofClient proofConsensus : string) (height consensusHeight : Height)
  | Conn_confirm (ctx : Context) (connectionID proofAck : string) (height : Height)
  | Conn_other (m : M unit).

Definition conn_exec (a : conn_action) : M unit :=
  match a with
  | Conn_init cl cp v d => ConnOpenInit cl cp v d ;;; ret tt
  | Conn_try ctx prev cp d cl cs vs p1 p2 p3 h ch => ConnOpenTry ctx prev cp d cl cs vs p1 p2 p3 h ch ;;; ret tt
  | Conn_ack ctx c cs v cpc p1 p2 p3 h ch => ConnOpenAck ctx c cs v cpc p1 p2 p3 h ch
  | Conn_confirm ctx c p h => ConnOpenConfirm ctx c p h
  | Conn_other m => m
  end.

Definition keeps_connections {A} (m : M A) : Prop := ∀ w, same_connections w (m w).1.

(** Message validation: identifiers without separators, delays that fit a [uint64]. *)
Definition conn_action_ok (a : conn_action) : Prop :=
  match a with
  | Conn_init _ _ _ d => (d < two64)%N
  | Conn_try _ prev _ d _ _ _ _ _ _ _ _ => (d < two64)%N ∧ no_char "/" prev = true
  | Conn_ack _ c _ _ _ _ _ _ _ _ | Conn_confirm _ c _ _ => no_char "/" c = true
  | Conn_other m => keeps_connections m
  end.

(** The store invariant: identifiers still to be generated are free, and delays fit. *)
Definition connections_wf (w : World) : Prop :=
  (∀ m n, next_connection w = Some m → (m ≤ n)%N → conn w (FormatConnectionIdentifier n) = None) ∧
  (∀ c e, no_char "/" c = true → conn w c = Some e → (DelayPeriod e < two64)%N).

Lemma wf_set w w' c e :
  connections_wf w → no_char "/" c = true → sets_connection w w' c e → (DelayPeriod e < two64)%N →
  (next_connection w' = next_connection w ∧ is_Some (conn w c) ∨
   ∃ m, next_connection w = Some m ∧ (m < MaxUint64)%N ∧ c = FormatConnectionIdentifier m ∧
     next_connection w' = Some (u64 (m + 1))) →
  connections_wf w'.
Proof.
  intros [Hf Hd] Hc [He Ho] Hde Hn. split.
  - intros m n Hm Hle. pose proof (FormatConnectionIdentifier_no_slash n) as Hns.
    destruct Hn as [[Hn [e0 Hold]]|(m0 & Hm0 & Hmax & -> & Hm')].
    + rewrite Hn in Hm. rewrite Ho; [by apply (Hf m)|done|done|]. intros <-. by rewrite (Hf m) in Hold.
    + rewrite Hm' in Hm. injection Hm as <-. rewrite u64_succ in Hle by done.
      rewrite Ho; [apply (Hf m0); [done|lia]|done|done|]. intros E%FormatConnectionIdentifier_inj. lia.
  - intros c' e' Hc' He'. destruct (decide (c' = c)) as [->|Hne]; [congruence|].
    rewrite Ho in He' by done. eauto.
Qed.

Lemma cstep_set w w' c e c' :
  no_char "/" c = true → no_char "/" c' = true → sets_connection w w' c e →
  cstep (conn w c) (Some e) → cstep (conn w c') (conn w' c').
Proof.
  intros Hc Hc' [He Ho] Hs. destruct (decide (c' = c)) as [->|Hne]; [by rewrite He|].
  rewrite Ho by done. constructor.
Qed.

(** The connection end an action is about, a new one or the one it names, and the state it
    takes the end to. *)
Definition conn_target (a : conn_action) (w : World) : option (string * State) :=
  match a with
  | Conn_init _ _ _ _ => (λ m, (FormatConnectionIdentifier m, INIT)) <$> next_connection w
  | Conn_try _ prev _ _ _ _ _ _ _ _ _ _ =>
      if bool_decide (prev = "") then (λ m, (FormatConnectionIdentifier m, TRYOPEN)) <$> next_connection w
      else Some (prev, TRYOPEN)
  | Conn_ack _ c _ _ _ _ _ _ _ _ | Conn_confirm _ c _ _ => Some (c, OPEN)
  | Conn_other _ => None
  end.

(** A successful action writes the connection end it is about and no other, by a legal step. *)
Definition conn_effect (target : option (string * State)) (w w' : World) : Prop :=
  target = None ∧ same_connections w w' ∨
  ∃ c e, target = Some (c, Connection_State e) ∧ no_char "/" c = true ∧ sets_connection w w' c e ∧ (DelayPeriod e < two64)%N ∧ cstep (conn w c) (Some e) ∧
    (next_connection w' = next_connection w ∧ is_Some (conn w c) ∨
     ∃ m, next_connection w = Some m ∧ c = FormatConnectionIdentifier m ∧ next_connection w' = Some (u64 (m + 1))).

Lemma try_effect w w1 w' prev cp d cl id po v :
  connections_wf w → no_char "/" prev = true → (d < two64)%N →
  try_connection w prev cp d cl id po w1 → next_connection w' = next_connection w1 →
  sets_connection w1 w' id (NewConnectionEnd TRYOPEN cl cp [v] d) →
  conn_effect (if bool_decide (prev = "") then (λ m, (FormatConnectionIdentifier m, TRYOPEN)) <$> next_connection w
               else Some (prev, TRYOPEN)) w w'.
Proof.
  intros [Hf _] Hp Hd [(old & _ & -> & -> & Hold & Hst & Hcl & Hdel & Hcp & Hpre & Hne)|(_ & -> & m & Hm & -> & Hm' & Hsame)] Hn Hs;
    right.
  - exists prev, (NewConnectionEnd TRYOPEN cl cp [v] d).
    split; [by rewrite bool_decide_eq_false_2 by done|]. split; [exact Hp|]. split; [exact Hs|]. split; [done|]. split; [|left; split; [done|by eexists]].
    rewrite Hold. eapply C_try_previous; first [done | by split_and!].
  - exists (FormatConnectionIdentifier m), (NewConnectionEnd TRYOPEN cl cp [v] d).
    split; [rewrite bool_decide_eq_true_2, Hm by done; reflexivity|]. split; [apply FormatConnectionIdentifier_no_slash|]. split.
    { split; [apply Hs|]. intros c' H1 H2 H3. rewrite (proj2 Hs) by done. apply Hsame. }
    split; [done|]. split; [|right; exists m; split_and!; congruence].
    rewrite (Hf m) by (done || lia). by eapply C_try_new.
Qed.

Lemma conn_exec_effect a w w' u :
  connections_wf w → conn_action_ok a → conn_exec a w = (w', Ok u) → conn_effect (conn_target a w) w w'.
Proof.
  intros Hwf Hok E. pose proof Hwf as [Hf Hd]. destruct a; simpl in Hok, E; go_inv.
  - match goal with H : ConnOpenInit _ _ _ _ _ = _ |- _ =>
      apply ConnOpenInit_Ok in H as (m & vs & Hm & -> & Hm' & Hs & _); [|done] end.
    right. exists (FormatConnectionIdentifier m), (NewConnectionEnd INIT clientID counterparty vs delay).
    split; [cbn [conn_target]; by rewrite Hm|].
    split; [apply FormatConnectionIdentifier_no_slash|]. split; [exact Hs|].
    split; [done|]. split; [|right; eauto]. rewrite (Hf m) by (done || lia). by apply C_init.
  - destruct Hok as [Hde Hp].
    match goal with H : ConnOpenTry _ _ _ _ _ _ _ _ _ _ _ _ _ = _ |- _ =>
      apply ConnOpenTry_Ok in H as (w1 & po & v & Ht & Hn & Hs & _); [|done] end.
    eapply try_effect; [exact Hwf|exact Hp|exact Hde|exact Ht|exact Hn|exact Hs].
  - apply ConnOpenAck_Ok in E as (old & Hold & Hn & Hst & Hs); [|intros; by eapply Hd].
    right. refine (ex_intro _ _ (ex_intro _ _ (conj _ (conj Hok (conj Hs _))))); [done|]. split; [simpl; by eapply Hd|].
    split; [|left; split; [done|by eexists]]. rewrite Hold. eapply C_ack; first [done | by split_and!].
  - apply ConnOpenConfirm_Ok in E as (old & Hold & Hn & Hst & Hs); [|intros; by eapply Hd].
    right. refine (ex_intro _ _ (ex_intro _ _ (conj _ (conj Hok (conj Hs _))))); [done|]. split; [simpl; by eapply Hd|].
    split; [|left; split; [done|by eexists]]. rewrite Hold. eapply C_confirm; first [done | by split_and!].
  - left. split; [done|]. specialize (Hok w). by rewrite E in Hok.
Qed.

Lemma conn_effect_step t w w' c : no_char "/" c = true → conn_effect t w w' → cstep (conn w c) (conn w' c).
Proof.
  intros Hc [[_ [_ Hs]]|(c0 & e & _ & Hc0 & Hs & _ & Hstep & _)]; [rewrite Hs; constructor|].
  by eapply cstep_set.
Qed.

Lemma conn_effect_at t w w' c :
  no_char "/" c = true → conn_effect t w w' →
  match t with
  | Some (c0, s) => if bool_decide (c = c0) then ∃ e, conn w' c = Some e ∧ Connection_State e = s else conn w' c = conn w c
  | None => conn w' c = conn w c
  end.
Proof.
  intros Hc [[-> [_ Hs]]|(c0 & e & -> & Hc0 & [He Ho] & _)]; [apply Hs|]. case_bool_decide as Heq; [subst; eauto|].
  by apply Ho.
Qed.

Lemma conn_effect_wf t w w' :
  (∀ m, next_connection w = Some m → (m < MaxUint64)%N) → connections_wf w → conn_effect t w w' → connections_wf w'.
Proof.
  intros Hmax Hwf [[_ [Hn Hs]]|(c & e & _ & Hc & Hs & Hd & _ & Hnext)].
  - destruct Hwf as [Hf Hd]. split.
    + intros m n Hm Hle. rewrite Hs. apply (Hf m); [congruence|done].
    + intros c e Hc. rewrite Hs. by apply Hd.
  - eapply wf_set; [done|exact Hc|exact Hs|done|]. destruct Hnext as [?|(m & Hm & -> & ?)]; [by left|].
    right. exists m. eauto.
Qed.

(** A run of connection operations while the identifier counter is in range. *)
Inductive conn_run : World → World → Prop :=
  | conn_run_nil w : conn_run w w
  | conn_run_step a w1 w2 w3 :
      conn_action_ok a → (∀ m, next_connection w1 = Some m → (m < MaxUint64)%N) →
      conn_exec a w1 = (w2, Ok tt) → conn_run w2 w3 → conn_run w1 w3.

Lemma conn_run_wf w w' : connections_wf w → conn_run w w' → connections_wf w'.
Proof. intros Hwf H. induction H; eauto using conn_effect_wf, conn_exec_effect. Qed.

Lemma cstep_open e o : Connection_State e = OPEN → cstep (Some e) o → o = Some e.
Proof. intros He H. inversion H; subst; try done; destruct_or?; destruct_and?; congruence. Qed.

Lemma cstep_some e o : cstep (Some e) o → ∃ e', o = Some e' ∧ same_identity e e'.
Proof. intros H. inversion H; subst; eauto. exists e. by split. Qed.

Lemma conn_run_steps w w' c (P : option ConnectionEnd → Prop) :
  (∀ o o', P o → cstep o o' → P o') →
  connections_wf w → no_char "/" c = true → conn_run w w' → P (conn w c) → P (conn w' c).
Proof.
  intros HP Hwf Hc H. induction H as [|a w1 w2 w3 Hok Hmax E Hr IH]; [done|]. intros Hp.
  pose proof (conn_exec_effect _ _ _ _ Hwf Hok E) as He.
  apply IH; [by eapply conn_effect_wf|]. eapply HP; [exact Hp|by eapply conn_effect_step].
Qed.
End system.

Section claims.
Context {SE : SdkEncoding} {LC : LightClient} {CD : Codec} {CK : CapabilityKeeper} {AP : Application} {SC : SelfClient}.

(** C34: The connection handshake refines the abstract connection machine.  A successful
    [ConnOpenInit], [ConnOpenTry], [ConnOpenAck] or [ConnOpenConfirm] takes the connection
    end it is about ([conn_target]: the next new one, or the one it names) by a legal
    transition [cstep] to INIT, TRYOPEN, OPEN and OPEN respectively; no other connection
    end changes; and the invariant that identifiers still to be generated are free is
    preserved, while the counter of connections is below its maximum. *)
Theorem connection_handshake_refines a w w' :
  connections_wf w → (∀ m, next_connection w = Some m → (m < MaxUint64)%N) → conn_action_ok a →
  conn_exec a w = (w', Ok tt) →
  connections_wf w' ∧ ∀ c, no_char "/" c = true →
    cstep (conn w c) (conn w' c) ∧
    match conn_target a w with
    | Some (target, s) =>
        if bool_decide (c = target) then ∃ e, conn w' c = Some e ∧ Connection_State e = s else conn w' c = conn w c
    | None => conn w' c = conn w c
    end.
Proof.
  intros Hwf Hmax Hok E. pose proof (conn_exec_effect _ _ _ _ Hwf Hok E) as He.
  split; [by eapply conn_effect_wf|]. intros c Hc. split; [by eapply conn_effect_step|by apply conn_effect_at].
Qed.

(** The life of a connection: in every run of connection operations a connection end
    never disappears, always keeps its client, its delay period and its counterparty's
    client and prefix, and once it is OPEN it never changes again. *)
Theorem connection_lifecycle w w' c e :
  connections_wf w → conn_run w w' → no_char "/" c = true → conn w c = Some e →
  ∃ e', conn w' c = Some e' ∧ same_identity e e' ∧ (Connection_State e = OPEN → e' = e).
Proof.
  intros Hwf Hr Hc He.
  pose (P (o : option ConnectionEnd) :=
    ∃ e', o = Some e' ∧ same_identity e e' ∧ (Connection_State e = OPEN → e' = e)).
  apply (conn_run_steps w w' c P); [|done..|exists e; by split_and!].
  intros o o' (e1 & -> & Hid & Hopen) Hs.
  destruct (cstep_some _ _ Hs) as (e2 & -> & Hid2). exists e2. split; [done|]. split.
  - destruct Hid as (? & ? & ? & ?), Hid2 as (? & ? & ? & ?). unfold same_identity. split_and!; congruence.
  - intros Ho. pose proof (Hopen Ho) as ->. apply cstep_open in Hs; congruence.
Qed.

(** A connection past INIT has negotiated exactly one version, in every run from a
    chain without connections: the condition under which channels can be opened on it. *)
Theorem connection_single_version w w' c e :
  connections_wf w → (∀ c, conn w c = None) → conn_run w w' → no_char "/" c = true →
  conn w' c = Some e → Connection_State e = TRYOPEN ∨ Connection_State e = OPEN → ∃ v, Versions e = [v].
Proof.
  intros Hwf H0 Hr Hc He Hst.
  pose (P (o : option ConnectionEnd) :=
    ∀ e, o = Some e → Connection_State e = TRYOPEN ∨ Connection_State e = OPEN → ∃ v, Versions e = [v]).
  apply (conn_run_steps w w' c P) in Hr; [by apply Hr|clear|done|done|by rewrite H0].
  intros o o' Hp Hs e ->. inversion Hs; subst; intros Hst; eauto; destruct_or?; try congruence.
  match goal with H : Versions e = Versions ?a |- _ => rewrite H; apply (Hp a); auto end.
Qed.
End claims.

(** ** A concrete handshake *)
Module ConnectionWitness.
Import ToyInstances Scenario.

Definition version : Version := DefaultIBCVersion.
Definition counterparty : Counterparty := NewCounterparty "full-node-3" "" (NewMerklePrefix "ibc").

(** What chain B stores: its end in TRYOPEN, its client of A and a consensus state of A. *)
Definition rootB : KVStore :=
  <[ConnectionPath "connection-7" := enc (NewConnectionEnd TRYOPEN "full-node-3"
      (NewCounterparty clientID "connection-0" (NewMerklePrefix "ibc")) [version] 0)]>
  (<[FullClientStatePath "full-node-3" := enc (mkFNClient (NewHeight 1 5) false)]>
  {[FullConsensusStatePath "full-node-3" (NewHeight 1 5) := enc (mkFNConsensus 0 ∅)]}).

Definition start : World :=
  chain (list_to_map [
    (KeyNextClientSequence, be 1); (KeyNextConnectionSequence, be 0); (KeyNextChannelSequence, be 0);
    (FullClientStateKey clientID, enc (mkFNClient (NewHeight 1 10) false));
    (FullConsensusStateKey clientID (NewHeight 1 10), enc (mkFNConsensus 900 rootB))]) ∅.

Definition init : conn_action := Conn_init clientID counterparty (Some version) 0.
Definition ack : conn_action :=
  Conn_ack ctxA "connection-0" (mkFNClient (NewHeight 1 5) false) version "connection-7" "" "" ""
    (NewHeight 1 10) (NewHeight 1 5).
Definition after (a : conn_action) (w : World) : World := (conn_exec a w).1.

Lemma conn_exec_after a w : (conn_exec a w).2 = Ok tt → conn_exec a w = (after a w, Ok tt).
Proof. apply run_pair. Qed.

Lemma no_connections c : conn start c = None.
Proof.
  unfold conn, start, chain. cbn [ibc]. rewrite not_elem_of_list_to_map_1; [done|]. cbn [fmap list_fmap fst].
  rewrite !elem_of_cons, elem_of_nil. intros H. destruct_or? H; try done; revert H; path_ne.
Qed.
Lemma start_wf : connections_wf start.
Proof. split; intros; rewrite no_connections in *; done. Qed.

Lemma in_bounds (w : World) m k : next_connection w = Some k → (k < MaxUint64)%N → next_connection w = Some m → (m < MaxUint64)%N.
Proof. intros H1 H2 H3. congruence. Qed.

Lemma run_start : conn_run start (after ack (after init start)).
Proof.
  apply (conn_run_step init _ (after init start)); [done| |apply conn_exec_after; vm_compute; reflexivity|].
  { intros m. by apply (in_bounds start m 0); [vm_compute|]. }
  apply (conn_run_step ack _ (after ack (after init start))); [done| |apply conn_exec_after; vm_compute; reflexivity|constructor].
  intros m. by apply (in_bounds (after init start) m 1); [vm_compute|].
Qed.

Lemma connection_handshake_refines_witness :
  cstep (conn start "connection-0") (conn (after init start) "connection-0").
Proof.
  eapply proj1. apply (connection_handshake_refines init start); [apply start_wf| |done|apply conn_exec_after; vm_compute; reflexivity|done].
  intros m. by apply (in_bounds start m 0); [vm_compute|].
Defined.

Definition opened : ConnectionEnd :=
  NewConnectionEnd OPEN clientID (NewCounterparty "full-node-3" "connection-7" (NewMerklePrefix "ibc")) [version] 0.

Lemma connection_lifecycle_witness :
  ∃ e', conn (after ack (after init start)) "connection-0" = Some e' ∧ e' = opened.
Proof.
  destruct (connection_lifecycle (after ack (after init start)) (after ack (after init start)) "connection-0" opened)
    as (e' & He & _ & Ho).
  - exact (conn_run_wf _ _ start_wf run_start).
  - constructor.
  - done.
  - vm_compute. reflexivity.
  - exists e'. split; [exact He|by apply Ho].
Defined.

Lemma connection_single_version_witness : ∃ v, Versions opened = [v].
Proof.
  apply (connection_single_version start (after ack (after init start)) "connection-0").
  - apply start_wf.
  - apply no_connections.
  - apply run_start.
  - done.
  - vm_compute. reflexivity.
  - by right.
Defined.
End ConnectionWitness.
