(* ===== verification/Noninterference.v ===== *)
(** * What the components leave alone

    The interfaces between the keepers are also promises about the store: client and
    connection operations do not write channel keys, client and channel operations do
    not write connection keys, and an operation on a client only writes below that
    client's prefix.  These discharge the hypotheses that [ChannelSystem.v] and
    [ConnectionSafety.v] put on the other operations of a run. *)
From S2P Require Import Prelude GoMonad Errors Sha256 Height Host Sdk ConnectionTypes.
From S2P Require Import ChannelTypes Exported ClientKeeper ConnectionKeeper PortKeeper.
From S2P Require Import ChannelKeeper ChannelHandshake FullNode Scenario ChannelSpec.
From S2P Require Import HandshakeSpec ChannelView ChannelSystem ConnectionSafety.
From Stdlib Require Import Ascii.

Section client.
Context {SE : SdkEncoding} {LC : LightClient} {CD : Codec} {CK : CapabilityKeeper} {AP : Application} {SC : SelfClient}.

(** Operations of the client keeper. *)
Inductive client_op : Type :=
  | Op_create (ctx : Context) (cs : ClientState) (cns : option ConsensusState)
  | Op_update (ctx : Context) (clientID : string) (header : option Header)
  | Op_upgrade (ctx : Context) (clientID : string) (cs : ClientState) (cns : option ConsensusState) (p1 p2 : string)
  | Op_misbehaviour (ctx : Context) (m : Misbehaviour)
  | Op_proposal (ctx : Context) (subject substitute : string).

Definition client_exec (o : client_op) : M unit :=
  match o with
  | Op_create ctx cs cns => CreateClient ctx cs cns ;;; ret tt
  | Op_update ctx c h => UpdateClient ctx c h
  | Op_upgrade ctx c cs cns p1 p2 => UpgradeClient ctx c cs cns p1 p2
  | Op_misbehaviour ctx m => CheckMisbehaviourAndUpdateState ctx m
  | Op_proposal ctx a b => ClientUpdateProposal ctx a b
  end.

(** The keys an operation may write. *)
Definition writes_only {A} (P : string → bool) (m : M A) : Prop := ∀ k, P k = false → keeps_key k m.

(** The client an operation is about; a new client is the next one of its type. *)
Definition op_client (o : client_op) (w : World) : string :=
  match o with
  | Op_create _ cs _ =>
      FormatClientIdentifier (ClientType cs) (BigEndianToUint64 (default "" (ibc w !! KeyNextClientSequence)))
  | Op_update _ c _ | Op_upgrade _ c _ _ _ _ | Op_proposal _ c _ => c
  | Op_misbehaviour _ m => Misbehaviour_GetClientID m
  end.

Lemma Misbehaviour_out ctx m k :
  HasPrefix k (client_prefix (Misbehaviour_GetClientID m)) = false →
  keeps_key k (CheckMisbehaviourAndUpdateState ctx m).
Proof.
  intros Hk. unfold CheckMisbehaviourAndUpdateState, keeps_key. frame; by apply on_client_store_out.
Qed.

(** A light client that only reads the store of a substitute. *)
Definition substitute_reader : Prop := ∀ ctx cs sub, reads_second (CheckSubstituteAndUpdateState ctx cs sub).

Lemma ClientUpdateProposal_out ctx a b k :
  HasPrefix k (client_prefix a) = false → HasPrefix k (client_prefix b) = false ∨ substitute_reader →
  keeps_key k (ClientUpdateProposal ctx a b).
Proof.
  intros Hk Hb. unfold ClientUpdateProposal, keeps_key. frame; [|by apply on_client_store_out].
  destruct Hb as [Hb|Hb]; [by apply on_client_stores_out|by apply on_client_stores_read].
Qed.

Lemma GenerateClientIdentifier_run t w :
  GenerateClientIdentifier t w =
  match ibc w !! KeyNextClientSequence with
  | Some x =>
      (set_ibc (<[KeyNextClientSequence := Uint64ToBigEndian (u64 (BigEndianToUint64 x + 1))]> (ibc w)) w,
       Ok (FormatClientIdentifier t (BigEndianToUint64 x)))
  | None => (w, Panic)
  end.
Proof.
  unfold GenerateClientIdentifier, GetNextClientSequence, get_store, gets, bind.
  by destruct (ibc w !! KeyNextClientSequence).
Qed.

Lemma CreateClient_out ctx cs cns w k :
  HasPrefix k (client_prefix (op_client (Op_create ctx cs cns) w)) = false → k ≠ KeyNextClientSequence →
  ibc (CreateClient ctx cs cns w).1 !! k = ibc w !! k.
Proof.
  intros Hk Hne. unfold CreateClient. unfold bind at 1, gets. unfold throw_if.
  destruct (negb _); [done|]. unfold bind at 1. cbn [ret].
  unfold bind at 1. rewrite GenerateClientIdentifier_run. cbn [op_client] in Hk.
  destruct (ibc w !! KeyNextClientSequence) as [x|] eqn:E; [|done]. cbn [default from_option id] in Hk.
  set (c := FormatClientIdentifier _ _) in *. set (w1 := set_ibc _ _).
  transitivity (ibc w1 !! k); [|simpl; by apply lookup_insert_ne].
  match goal with |- ibc (?m w1).1 !! k = _ => assert (Hm : keeps_key k m); [|exact (Hm w1)] end.
  unfold keeps_key. frame; try (by apply on_client_store_out).
Qed.

(** An operation on a client changes nothing outside the client's own store, apart
    from the counter of client identifiers and, in a substitution, the store of the
    substitute if the light client writes it. *)
Lemma client_exec_out o w k :
  HasPrefix k (client_prefix (op_client o w)) = false → k ≠ KeyNextClientSequence →
  match o with Op_proposal _ _ b => HasPrefix k (client_prefix b) = false ∨ substitute_reader | _ => True end →
  ibc (client_exec o w).1 !! k = ibc w !! k.
Proof.
  intros Hk Hne Hb. destruct o as [ctx cs cns|ctx c h|ctx c cs cns p1 p2|ctx m|ctx a b]; simpl in Hk |- *.
  - transitivity (ibc (CreateClient ctx cs cns w).1 !! k); [|by apply CreateClient_out].
    unfold bind. by destruct (CreateClient ctx cs cns w) as [w1 [id|e|]].
  - by apply UpdateClient_out.
  - by apply UpgradeClient_out.
  - by apply Misbehaviour_out.
  - by apply ClientUpdateProposal_out.
Qed.

Lemma client_exec_keeps_channels o : keeps_channels (client_exec o).
Proof.
  intros w k Hk. apply client_exec_out.
  - by apply client_key_out, channel_part_not_client.
  - channel_part_cases Hk; path_ne.
  - destruct o; try done. left. by apply client_key_out, channel_part_not_client.
Qed.

Lemma client_exec_keeps_connections o : keeps_connections (client_exec o).
Proof.
  intros w. split.
  - unfold next_connection. rewrite client_exec_out; [done|by apply client_key_out|path_ne|].
    destruct o; try done. left. by apply client_key_out.
  - intros c. unfold conn. rewrite client_exec_out; [done|by apply client_key_out|path_ne|].
    destruct o; try done. left. by apply client_key_out.
Qed.
End client.

(** ** Connection operations and channels, channel operations and connections *)
Section core.
Context {SE : SdkEncoding} {LC : LightClient} {CD : Codec} {CK : CapabilityKeeper} {AP : Application} {SC : SelfClient}.

Lemma GetClientConnectionPaths_keeps {T} (f : World → T) c : keeps f (GetClientConnectionPaths c).
Proof. unfold GetClientConnectionPaths. frame. Qed.
Lemma GetNextConnectionSequence_keeps {T} (f : World → T) : keeps f GetNextConnectionSequence.
Proof. unfold GetNextConnectionSequence. frame. Qed.
Lemma GetNextChannelSequence_keeps {T} (f : World → T) : keeps f GetNextChannelSequence.
Proof. unfold GetNextChannelSequence. frame. Qed.

Hint Resolve GetClientConnectionPaths_keeps GetNextConnectionSequence_keeps GetNextChannelSequence_keeps
  GetChannel_keeps GetConnection_keeps get_sequence_keeps hop0_keeps channel_connection_keeps connection_open_keeps
  GetPacketCommitment_keeps send_timestamp_check_keeps GetTimestampAtHeight_keeps Authenticate_keeps : ibc.

(** Decompose [keeps_key] of a keeper operation: reads, verifications, and writes to
    keys of another kind. *)
Ltac keeps_tac Hk :=
  unfold keeps_key; frame;
  try (apply set_store_keeps; path_ne); try (apply delete_store_keeps; path_ne);
  try (apply on_client_store_keeps; exact Hk);
  try apply EmitEvent_keeps; try apply on_caps_keeps.

Lemma conn_exec_keeps_channel_key k a :
  channel_part k = true → match a with Conn_other _ => False | _ => True end → keeps_key k (conn_exec a).
Proof.
  intros Hk Ha. pose proof (channel_part_not_client _ Hk) as Hc.
  destruct a; try done; simpl;
    unfold ConnOpenInit, ConnOpenTry, ConnOpenAck, ConnOpenConfirm, previous_connection, GenerateConnectionIdentifier,
      addConnectionToClient, SetNextConnectionSequence, SetConnection, SetClientConnectionPaths; cbv zeta;
    channel_part_cases Hk; keeps_tac Hc.
Qed.

Lemma conn_exec_keeps_channels a :
  match a with Conn_other _ => False | _ => True end → keeps_channels (conn_exec a).
Proof. intros Ha w k Hk. by apply conn_exec_keeps_channel_key. Qed.

(** The handshake callbacks of an action leave connections alone. *)
Definition callbacks_ok (k : string) (a : action) : Prop :=
  match a with
  | Do_open_init _ _ _ _ _ _ cb => ∀ id c, keeps_key k (cb id c)
  | Do_open_try _ _ _ _ _ _ _ _ _ _ cb => ∀ id c, keeps_key k (cb id c)
  | Do_open_ack _ _ _ _ _ _ _ _ cb | Do_open_confirm _ _ _ _ _ _ cb => keeps_key k cb
  | Do_other m => keeps_key k m
  | _ => True
  end.

Lemma exec_keeps_key k a :
  match k with KConnection _ | KNextConnectionSequence => true | _ => false end = true →
  callbacks_ok (render k) a → keeps_key (render k) (exec a).
Proof.
  intros Hk Hcb. assert (Hc : not_client_key (render k) = true) by (destruct k; done).
  destruct k; try done; cbn [render] in *; destruct a; simpl in Hcb |- *;
    unfold SendPacket, RecvPacket, recv_by_ordering, WriteAcknowledgement, AcknowledgePacket, ack_in_order,
      TimeoutPacket, TimeoutOnClose, verify_not_received, TimeoutExecuted,
      ChanOpenInit, WriteOpenInitChannel, ChanOpenTry, previous_channel, try_capability, WriteOpenTryChannel,
      ChanOpenAck, WriteOpenAckChannel, ChanOpenConfirm, WriteOpenConfirmChannel, ChanCloseInit, ChanCloseConfirm,
      check_connection_version, GenerateChannelIdentifier, SetNextChannelSequence, SetChannel,
      GetNextSequenceSend, GetNextSequenceRecv, GetNextSequenceAck, SetNextSequenceSend, SetNextSequenceRecv,
      SetNextSequenceAck, SetPacketCommitment, deletePacketCommitment, GetPacketReceipt, SetPacketReceipt,
      HasPacketAcknowledgement, SetPacketAcknowledgement, AuthenticateCapability,
      EmitSendPacketEvent, EmitRecvPacketEvent, EmitWriteAcknowledgementEvent, EmitAcknowledgePacketEvent,
      EmitTimeoutPacketEvent; cbv zeta; keeps_tac Hc; try exact Hcb; apply Hcb.
Qed.

Lemma exec_keeps_connections a :
  (∀ k, callbacks_ok k a) → keeps_connections (exec a).
Proof.
  intros Hcb w. split.
  - exact (f_equal (fmap BigEndianToUint64) (exec_keeps_key KNextConnectionSequence a eq_refl (Hcb _) w)).
  - intros c. exact (f_equal (λ o, o ≫= Unmarshal_ConnectionEnd) (exec_keeps_key (KConnection c) a eq_refl (Hcb _) w)).
Qed.

(** Separation of the core components.  No operation of the client keeper (create,
    update, upgrade, misbehaviour, governance substitution) and no step of the
    connection handshake changes any channel, sequence, commitment, receipt or
    acknowledgement; no client operation and no channel or packet operation (with
    callbacks that do not) changes any connection or the connection counter; whether
    they succeed, fail or panic. *)
Theorem core_components_separated :
  (∀ o, keeps_channels (client_exec o) ∧ keeps_connections (client_exec o)) ∧
  (∀ a, match a with Conn_other _ => False | _ => True end → keeps_channels (conn_exec a)) ∧
  (∀ a, (∀ k, callbacks_ok k a) → keeps_connections (exec a)).
Proof.
  split_and!.
  - intros o. split; [apply client_exec_keeps_channels|apply client_exec_keeps_connections].
  - apply conn_exec_keeps_channels.
  - apply exec_keeps_connections.
Qed.

(** The same for the stores of other clients, with light clients that only read the
    store of a substitute. *)
Lemma client_views_kept o w c :
  substitute_reader → no_char "/" c = true → no_char "/" (op_client o w) = true → c ≠ op_client o w →
  client_view c (client_exec o w).1 = client_view c w.
Proof.
  intros Hs Hc Ho Hne. apply map_eq. intros i.
  unfold client_view. rewrite !prefix_view_lookup. apply client_exec_out.
  - destruct (HasPrefix _ (client_prefix (op_client o w))) eqn:E; [|done].
    apply client_prefix_disjoint in E; [congruence|done..].
  - unfold client_prefix. path_ne.
  - destruct o; try done. by right.
Qed.
End core.
