(* ===== verification/ClientProperties.v ===== *)
(** * The client keeper, branch by branch

    What a successful [UpdateClient] leaves in the client's store, that clients which
    are not active cannot be used, and that new clients get fresh identifiers. *)
From S2P Require Import Prelude GoMonad Errors Sha256 Height Host Sdk ConnectionTypes.
From S2P Require Import ChannelTypes Exported ClientKeeper ConnectionKeeper PortKeeper.
From S2P Require Import ChannelKeeper ChannelHandshake FullNode Scenario ChannelSpec.
From S2P Require Import HandshakeSpec ChannelView ChannelSystem PacketProperties.
From S2P Require Import ConnectionSafety Noninterference.
From Stdlib Require Import Ascii.

Section lemmas.
Context {SE : SdkEncoding} {LC : LightClient} {CD : Codec} {CK : CapabilityKeeper} {AP : Application} {SC : SelfClient}.

(** A computation on the client's store is a computation on its view. *)
Lemma on_client_stores_Ok {A} a b (m : ST (KVStore * KVStore) A) w w' x :
  on_client_stores a b m w = (w', Ok x) →
  ∃ t, m (client_view a w, client_view b w) = ((client_view a w', t), Ok x).
Proof.
  intros ([s t] & E & ->)%zoom_Ok. exists t. rewrite E. unfold client_view, client_put. simpl. by rewrite prefix_view_write.
Qed.
Lemma on_client_store_Ok {A} c (m : ST KVStore A) w w' a :
  on_client_store c m w = (w', Ok a) → m (client_view c w) = (client_view c w', Ok a).
Proof.
  intros (t & E & ->)%zoom_Ok. unfold client_view at 2, client_put. simpl. by rewrite prefix_view_write.
Qed.

Lemma SetClientState_view c cs w w' u :
  SetClientState c cs w = (w', Ok u) → client_view c w' = <[ClientStateKey := Marshal_ClientState cs]> (client_view c w).
Proof. intros E%on_client_store_Ok. apply modify_Ok in E. exact E. Qed.
Lemma SetClientConsensusState_view c h cs w w' u :
  SetClientConsensusState c h cs w = (w', Ok u) →
  ∃ s, cs = Some s ∧ client_view c w' = <[ConsensusStateKey h := Marshal_ConsensusState s]> (client_view c w).
Proof.
  unfold SetClientConsensusState. intros E. go_inv.
  match goal with H : on_client_store _ _ _ = _ |- _ => apply on_client_store_Ok in H; apply modify_Ok in H end. eauto.
Qed.

Lemma active_client_inactive ctx c cs w :
  client w c = Some cs → client_Status ctx (client_view c w) cs ≠ Active →
  active_client ctx c w = (w, Err (Wrap ClientErr.ErrClientNotActive)).
Proof.
  intros Hc Hs. unfold active_client. run_with (GetClientState_run _ _ _ Hc). cbn [some_or].
  unfold bind at 1, get_status. cbn [ret]. unfold bind at 1, gets. rewrite bool_decide_eq_true_2 by done. done.
Qed.

(** The store of a client after a successful update. *)
Definition updated_store (ctx : Context) (c : string) (h : option Header) (t : KVStore) (ncs : ClientState)
    (ncons : option ConsensusState) : option KVStore :=
  let t1 := <[ClientStateKey := Marshal_ClientState ncs]> t in
  if bool_decide (client_Status ctx t1 ncs = Frozen) then Some t1
  else match h with
       | Some hd =>
           if bool_decide (c = Localhost) then Some t1
           else match Header_GetHeight hd, ncons with
                | Ok h, Some s => Some (<[ConsensusStateKey h := Marshal_ConsensusState s]> t1)
                | _, _ => None
                end
       | None => Some t1
       end.
End lemmas.

Section claims.
Context {SE : SdkEncoding} {LC : LightClient} {CD : Codec} {CK : CapabilityKeeper} {AP : Application} {SC : SelfClient}.

(** A client that is not Active (frozen, expired or of unknown status) cannot be
    used: updating it, upgrading it, submitting misbehaviour to it, and verifying
    anything through a connection on it return [ErrClientNotActive], and the world
    is exactly as before. *)
Theorem inactive_client_unusable ctx c cs w :
  client w c = Some cs → client_Status ctx (client_view c w) cs ≠ Active →
  let refused := (w, Err (Wrap ClientErr.ErrClientNotActive)) in
  (∀ h, UpdateClient ctx c h w = refused) ∧
  (∀ ncs ncons p1 p2, UpgradeClient ctx c ncs ncons p1 p2 w = refused) ∧
  (∀ m, Misbehaviour_GetClientID m = c → CheckMisbehaviourAndUpdateState ctx m w = refused) ∧
  (∀ ce h prf, connectiontypes.ClientId ce = c →
     (∀ x, conn_VerifyClientState ctx ce h prf x w = refused) ∧
     (∀ ch x, conn_VerifyClientConsensusState ctx ce h ch prf x w = refused) ∧
     (∀ id x, conn_VerifyConnectionState ctx ce h prf id x w = refused) ∧
     (∀ p k x, conn_VerifyChannelState ctx ce h prf p k x w = refused) ∧
     (∀ p k n x, conn_VerifyPacketCommitment ctx ce h prf p k n x w = refused) ∧
     (∀ p k n x, conn_VerifyPacketAcknowledgement ctx ce h prf p k n x w = refused) ∧
     (∀ p k n, conn_VerifyPacketReceiptAbsence ctx ce h prf p k n w = refused) ∧
     (∀ p k n, conn_VerifyNextSequenceRecv ctx ce h prf p k n w = refused)).
Proof.
  intros Hc Hs refused. pose proof (active_client_inactive _ _ _ _ Hc Hs) as Ha.
  assert (Hm : ∀ m : ClientState → M unit,
    (let! clientState := GetClientState c in
     let! clientState := some_or clientState (Wrap ClientErr.ErrClientNotFound) in
     let! status := get_status ctx c clientState in
     throw_if (bool_decide (status ≠ Active)) (Wrap ClientErr.ErrClientNotActive) ;;;
     m clientState) w = refused).
  { intros m. run_with (GetClientState_run _ _ _ Hc). cbn [some_or].
    unfold bind at 1, get_status. cbn [ret]. unfold bind at 1, gets. rewrite bool_decide_eq_true_2 by done. done. }
  split_and!.
  - intros h. apply (Hm (λ cs, _)).
  - intros ncs ncons p1 p2. apply (Hm (λ cs, _)).
  - intros m <-. apply (Hm (λ cs, _)).
  - intros ce h prf <-. split_and!; intros;
      unfold conn_VerifyClientState, conn_VerifyClientConsensusState, conn_VerifyConnectionState,
        conn_VerifyChannelState, conn_VerifyPacketCommitment, conn_VerifyPacketAcknowledgement,
        conn_VerifyPacketReceiptAbsence, conn_VerifyNextSequenceRecv; cbv zeta; unfold bind at 1; by rewrite Ha.
Qed.

(** A successful [UpdateClient] found the client Active and its light client accepted
    the header; the client's store is then exactly what the light client left, with
    the new client state and, unless the header froze the client, the new consensus
    state under the header's height. *)
Theorem UpdateClient_spec ctx c h w w' :
  UpdateClient ctx c h w = (w', Ok tt) →
  ∃ cs t ncs ncons, client w c = Some cs ∧ client_Status ctx (client_view c w) cs = Active ∧
    CheckHeaderAndUpdateState ctx cs h (client_view c w) = (t, Ok (ncs, ncons)) ∧
    Some (client_view c w') = updated_store ctx c h t ncs ncons.
Proof.
  unfold UpdateClient. intros E. go_inv.
  match goal with H : on_client_store _ _ _ = _ |- _ => apply on_client_store_Ok in H end.
  match goal with H : SetClientState _ _ _ = (?x, _) |- _ => apply SetClientState_view in H as Hv; rename x into w2 end.
  match goal with H : (if _ then _ else _) _ = _ |- _ => rename H into Hrest end.
  match goal with H : match h with Some _ => _ | None => _ end ?w1 = (?w0, Ok _) |- _ =>
    assert (w0 = w1) as -> by (destruct h; by go_inv) end.
  eexists _, _, _, _. split_and!; [done|done|eassumption|]. unfold updated_store. cbv zeta. rewrite <- Hv.
  change (client_view c (set_events ?l ?w)) with (client_view c w).
  destruct (decide (client_Status ctx (client_view c w2) c0 = Frozen)) as [Hfr|Hfr].
  - rewrite bool_decide_eq_false_2 in Hrest by naive_solver. rewrite bool_decide_eq_true_2 by done. by go_inv.
  - rewrite bool_decide_eq_true_2 in Hrest by done. rewrite bool_decide_eq_false_2 by done.
    destruct h as [hd|]; [|by go_inv].
    destruct (decide (c = Localhost)) as [Hl|Hl].
    + rewrite bool_decide_eq_false_2 in Hrest by naive_solver. rewrite bool_decide_eq_true_2 by done. by go_inv.
    + rewrite bool_decide_eq_true_2 in Hrest by done. rewrite bool_decide_eq_false_2 by done. go_inv.
      match goal with H : SetClientConsensusState _ _ _ _ = _ |- _ =>
        apply SetClientConsensusState_view in H as (x & -> & ->) end.
      match goal with H : Header_GetHeight hd = Ok _ |- _ => by rewrite H end.
Qed.

(** A successful [CreateClient] has an allowed type and names the client
    "{type}-{n}" where [n] is the client counter, which it increments: no two clients
    ever created get the same identifier while the counter is in range.  Nothing outside the new client's store
    and the counter changes. *)
Theorem CreateClient_spec ctx cs cns w w' id :
  CreateClient ctx cs cns w = (w', Ok id) →
  IsAllowedClient (AllowedClients w) (ClientType cs) = true ∧
  ∃ n, BigEndianToUint64 <$> ibc w !! KeyNextClientSequence = Some n ∧
    id = FormatClientIdentifier (ClientType cs) n ∧
    BigEndianToUint64 <$> ibc w' !! KeyNextClientSequence = Some (u64 (n + 1)) ∧
    ∀ k, HasPrefix k (client_prefix id) = false → k ≠ KeyNextClientSequence → ibc w' !! k = ibc w !! k.
Proof.
  intros E. pose proof E as E'. unfold CreateClient in E. go_inv. split; [done|].
  match goal with H : GenerateClientIdentifier _ _ = _ |- _ => rewrite GenerateClientIdentifier_run in H; rename H into Hg end.
  destruct (ibc _ !! KeyNextClientSequence) as [x|] eqn:Hx; [|done]. injection Hg as <- <-.
  exists (BigEndianToUint64 x). split; [done|]. split; [done|]. split.
  - match goal with H : SetClientState _ _ ?w1 = _ |- _ =>
      assert (Hk : ibc w' !! KeyNextClientSequence = ibc w1 !! KeyNextClientSequence) end.
    { etrans; [|eapply (keeps_run (λ w, ibc w !! KeyNextClientSequence)); [|eassumption];
        apply on_client_store_keeps; done].
      etrans; [|eapply (keeps_run (λ w, ibc w !! KeyNextClientSequence)); [|eassumption];
        apply on_client_store_keeps; done].
      eapply (keeps_run (λ w, ibc w !! KeyNextClientSequence)); [|eassumption].
      destruct cns; [apply SetClientConsensusState_out|]; done. }
    rewrite Hk. simpl. rewrite lookup_insert_eq. simpl. by rewrite be_roundtrip by apply u64_bound.
  - intros k Hk Hne.
    match type of E' with CreateClient _ _ _ ?w0 = _ => pose proof (CreateClient_out ctx cs cns w0 k) as Hout end.
    cbn [op_client] in Hout. rewrite Hx in Hout. cbn [default from_option] in Hout. specialize (Hout Hk Hne).
    by rewrite E' in Hout.
Qed.
End claims.

(** ** Concrete clients *)
Module ClientWitness.
Import ToyInstances Scenario.

Definition client_A : @ClientState full_node := mkFNClient (NewHeight 1 10) false.
Definition frozen_A : @ClientState full_node := mkFNClient (NewHeight 1 10) true.

(** A chain whose client is frozen. *)
Definition frozen : World :=
  set_ibc (<[FullClientStateKey clientID := enc (mkFNClient (NewHeight 1 10) true)]> (ibc (worldA UNORDERED)))
    (worldA UNORDERED).

Lemma inactive_client_unusable_witness :
  UpdateClient ctxA clientID None frozen = (frozen, Err (Wrap ClientErr.ErrClientNotActive)).
Proof.
  destruct (inactive_client_unusable ctxA clientID frozen_A frozen) as [Hupdate _];
    [vm_compute; reflexivity|vm_compute; discriminate|]. exact (Hupdate None).
Defined.

Definition header : @Header full_node := mkFNHeader (NewHeight 1 12) (mkFNConsensus 950 ∅).
Definition updated : World := (UpdateClient ctxA clientID (Some header) (worldA UNORDERED)).1.

Lemma UpdateClient_spec_witness :
  ∃ cs, client (worldA UNORDERED) clientID = Some cs ∧ client_Status ctxA (client_view clientID (worldA UNORDERED)) cs = Active.
Proof.
  destruct (UpdateClient_spec ctxA clientID (Some header) (worldA UNORDERED) updated) as (cs & t & ncs & ncns & Hc & Hs & _).
  - unfold updated. apply run_pair. vm_compute. reflexivity.
  - exists cs. split; [exact Hc|exact Hs].
Defined.

Definition created : World := (CreateClient ctxA client_A None (worldA UNORDERED)).1.

Lemma CreateClient_spec_witness :
  ∃ n, "full-node-1" = FormatClientIdentifier "full-node" n.
Proof.
  destruct (CreateClient_spec ctxA client_A None (worldA UNORDERED) created "full-node-1") as (_ & n & _ & Hn & _).
  - unfold created. apply run_pair. vm_compute. reflexivity.
  - exists n. exact Hn.
Defined.
End ClientWitness.
