(* ===== verification/Commitment.v ===== *)
(** * Merkle commitments ([core/23-commitment/types])

    [merkle.go]: roots, paths and the verification of chained membership and
    non-membership proofs.  The proofs themselves and their verification in one tree
    are the ICS-23 library's ([Ics23]); this file is what the repository adds: the
    argument checks, the escaping of path keys and the chaining of subtree proofs.
    [chained_membership_sound] and its sibling are what the light clients use. *)
From S2P Require Import Prelude GoMonad Errors ConnectionTypes.
From Stdlib Require Import Ascii.

(** ** [net/url] path escaping *)

(** The bytes [url.PathEscape] leaves as they are. *)
Definition path_plain (c : ascii) : bool :=
  let n := N_of_ascii c in
  ((48 <=? n) && (n <=? 57) || (65 <=? n) && (n <=? 90) || (97 <=? n) && (n <=? 122))%N
  || existsb (Ascii.eqb c) ["-"; "_"; "."; "~"; "$"; "&"; "+"; ":"; "="; "@"]%char.

(** The upper-case hexadecimal digit of Go's URL escaping. *)
Definition upper_hex (n : N) : ascii :=
  if (n <? 10)%N then ascii_of_N (48 + n) else ascii_of_N (55 + n).

Fixpoint PathEscape (s : string) : string :=
  match s with
  | EmptyString => EmptyString
  | String c s' =>
      if path_plain c then String c (PathEscape s')
      else String "%" (String (upper_hex (N_of_ascii c / 16))
             (String (upper_hex (N_of_ascii c mod 16)) (PathEscape s')))
  end.

(** [url.PathUnescape]: an error unless every percent sign is followed by two
    hexadecimal digits. *)
Fixpoint PathUnescape (s : string) : option string :=
  match s with
  | EmptyString => Some EmptyString
  | String c s' =>
      if Ascii.eqb c "%" then
        match s' with
        | String a (String b s'') =>
            match hex_value a, hex_value b, PathUnescape s'' with
            | Some x, Some y, Some r => Some (String (ascii_of_N (16 * x + y)) r)
            | _, _, _ => None
            end
        | _ => None
        end
      else match PathUnescape s' with Some r => Some (String c r) | None => None end
  end.

Lemma hex_value_upper n : (n < 16)%N → hex_value (upper_hex n) = Some n.
Proof.
  intros H. assert (∀ k : nat, k < 16 → hex_value (upper_hex (N.of_nat k)) = Some (N.of_nat k)) as Hk.
  { intros k Hk. do 16 (destruct k as [|k]; [reflexivity|]). lia. }
  specialize (Hk (N.to_nat n) ltac:(lia)). by rewrite N2Nat.id in Hk.
Qed.

Lemma PathUnescape_plain_cons c s :
  Ascii.eqb c "%" = false → PathUnescape (String c s) = String c <$> PathUnescape s.
Proof. intros H. simpl. rewrite H. by destruct (PathUnescape s). Qed.

Lemma PathUnescape_no_percent s : no_char "%" s = true → PathUnescape s = Some s.
Proof.
  unfold no_char. induction s as [|c s IH]; [done|]. simpl. rewrite andb_true_iff, negb_true_iff.
  intros [Hc Hs]. rewrite Hc, IH by done. done.
Qed.

Lemma PathUnescape_app_escape s t :
  PathUnescape (PathEscape s +:+ t) = String.append s <$> PathUnescape t.
Proof.
  induction s as [|c s IH]; [change (PathUnescape t = String.append "" <$> PathUnescape t); by destruct (PathUnescape t)|].
  cbn [PathEscape]. destruct (path_plain c) eqn:Hp.
  - assert (Hc : Ascii.eqb c "%" = false) by (destruct (Ascii.eqb_spec c "%") as [->|]; [discriminate Hp|done]).
    rewrite app_cons_l, PathUnescape_plain_cons, IH by done. by destruct (PathUnescape t).
  - rewrite !app_cons_l. cbn [PathUnescape]. simpl Ascii.eqb. cbn iota.
    pose proof (N_ascii_bounded c) as Hb.
    rewrite !hex_value_upper, IH.
    + destruct (PathUnescape t); [|done]. simpl.
      rewrite <- N.div_mod by done. by rewrite ascii_N_embedding.
    + by apply N.mod_lt.
    + by apply N.Div0.div_lt_upper_bound.
Qed.

Lemma PathUnescape_escape s : PathUnescape (PathEscape s) = Some s.
Proof.
  pose proof (PathUnescape_app_escape s "") as H. rewrite !app_nil_r_str in H. rewrite H. simpl.
  by rewrite app_nil_r_str.
Qed.

(** ** The ICS-23 library ([github.com/confio/ics23/go]) *)

(** The dynamic type of [CommitmentProof.Proof]. *)
Inductive ProofKind := ExistProof | NonexistProof | OtherProof.

Class Ics23 := {
  ProofSpec : Type;
  ProofSpec_eq_dec :: EqDecision ProofSpec;
  CommitmentProof : Type;
  proof_kind : CommitmentProof → ProofKind;
  Calculate : CommitmentProof → outcome string;
  ics23_VerifyMembership : ProofSpec → string → CommitmentProof → string → string → bool;
  ics23_VerifyNonMembership : ProofSpec → string → CommitmentProof → string → bool;
  IavlSpec : ProofSpec;
  TendermintSpec : ProofSpec }.

Module commitmenttypes.
Section merkle.
Context {IC : Ics23}.

(** A slice of pointers: [nil] pointers are [None]; a [nil] slice is the empty list. *)
Definition ProofSpecs : Type := list (option ProofSpec).

Definition GetSDKSpecs : ProofSpecs := [Some IavlSpec; Some TendermintSpec].

Record MerkleRoot := NewMerkleRoot { GetHash : string }.
Definition Root_Empty (mr : MerkleRoot) : bool := bool_decide (String.length (GetHash mr) = 0).

Record MerklePath := NewMerklePath { KeyPath : list string }.

Definition Path_String (mp : MerklePath) : string :=
  foldl (λ pathStr k, pathStr +:+ "/" +:+ PathEscape k) "" (KeyPath mp).

(** Panics when the path cannot be unescaped. *)
Definition Pretty (mp : MerklePath) : outcome string :=
  match PathUnescape (Path_String mp) with
  | Some path => Ok path
  | None => Panic
  end.

Definition GetKey (mp : MerklePath) (i : N) : outcome string :=
  if (N.of_nat (length (KeyPath mp)) <=? i)%N then Err (External "index out of range")
  else match PathUnescape (nth (N.to_nat i) (KeyPath mp) "") with
       | Some key => Ok key
       | None => Err (External "net/url")
       end.

Definition Path_Empty (mp : MerklePath) : bool := bool_decide (length (KeyPath mp) = 0).

Definition ApplyPrefix (prefix : MerklePrefix) (path : MerklePath) : outcome MerklePath :=
  if MerklePrefix_Empty prefix then Err (Wrap CommitmentErr.ErrInvalidPrefix)
  else Ok (NewMerklePath (KeyPrefix prefix :: KeyPath path)).

Record MerkleProof := mkMerkleProof { Proofs : list CommitmentProof }.

(** [proto.Equal] to the blank proof: no proofs. *)
Definition Proof_Empty (proof : MerkleProof) : bool := bool_decide (length (Proofs proof) = 0).

Definition Proof_ValidateBasic (proof : MerkleProof) : outcome unit :=
  if Proof_Empty proof then Err CommitmentErr.ErrInvalidProof else Ok tt.

Definition validateVerificationArgs (proof : MerkleProof) (specs : ProofSpecs) (root : MerkleRoot) : outcome unit :=
  if Proof_Empty proof then Err (Wrap CommitmentErr.ErrInvalidMerkleProof)
  else if Root_Empty root then Err (Wrap CommitmentErr.ErrInvalidMerkleProof)
  else if negb (bool_decide (length specs = length (Proofs proof))) then Err (Wrap CommitmentErr.ErrInvalidMerkleProof)
  else if existsb (λ spec, bool_decide (spec = None)) specs then Err (Wrap CommitmentErr.ErrInvalidProof)
  else Ok tt.

(** The error of [GetKey] in the loop below: its message indexes the key path again,
    which panics out of range. *)
Definition chained_key (keys : MerklePath) (i : nat) : outcome string :=
  let n := length (KeyPath keys) in
  if (n <=? i)%nat then Panic
  else match GetKey keys (N.of_nat (n - 1 - i)) with
       | Ok key => Ok key
       | Err _ => Err (Wrap CommitmentErr.ErrInvalidProof)
       | Panic => Panic
       end.

(** The loop of [verifyChainedMembershipProof] from index [i] on; [value] is also the
    subroot of the previous proof, the initial value before the first. *)
Fixpoint chained_loop (root : string) (specs : ProofSpecs) (proofs : list CommitmentProof) (keys : MerklePath)
    (value : string) (i : nat) : outcome unit :=
  match proofs with
  | [] => if bool_decide (root = value) then Ok tt else Err (Wrap CommitmentErr.ErrInvalidProof)
  | p :: proofs' =>
      match proof_kind p with
      | ExistProof =>
          match Calculate p with
          | Ok subroot =>
              match chained_key keys i with
              | Ok key =>
                  match specs !! i with
                  | Some (Some spec) =>
                      if ics23_VerifyMembership spec subroot p key value
                      then chained_loop root specs proofs' keys subroot (S i)
                      else Err (Wrap CommitmentErr.ErrInvalidProof)
                  | _ => Panic
                  end
              | Err e => Err e
              | Panic => Panic
              end
          | Err _ => Err (Wrap CommitmentErr.ErrInvalidProof)
          | Panic => Panic
          end
      | NonexistProof | OtherProof => Err (Wrap CommitmentErr.ErrInvalidProof)
      end
  end.

Definition verifyChainedMembershipProof (root : string) (specs : ProofSpecs) (proofs : list CommitmentProof)
    (keys : MerklePath) (value : string) (index : nat) : outcome unit :=
  chained_loop root specs (drop index proofs) keys value index.

Definition VerifyMembership (proof : MerkleProof) (specs : ProofSpecs) (root : MerkleRoot) (path : MerklePath)
    (value : string) : outcome unit :=
  match validateVerificationArgs proof specs root with
  | Ok _ =>
      if negb (bool_decide (length (KeyPath path) = length specs)) then Err (Wrap CommitmentErr.ErrInvalidProof)
      else if bool_decide (String.length value = 0) then Err (Wrap CommitmentErr.ErrInvalidProof)
      else verifyChainedMembershipProof (GetHash root) specs (Proofs proof) path value 0
  | o => o
  end.

Definition VerifyNonMembership (proof : MerkleProof) (specs : ProofSpecs) (root : MerkleRoot) (path : MerklePath) :
    outcome unit :=
  match validateVerificationArgs proof specs root with
  | Ok _ =>
      if negb (bool_decide (length (KeyPath path) = length specs)) then Err (Wrap CommitmentErr.ErrInvalidProof)
      else match Proofs proof, specs with
           | p :: _, Some spec :: _ =>
               match proof_kind p with
               | NonexistProof =>
                   match Calculate p with
                   | Ok subroot =>
                       match GetKey path (N.of_nat (length (KeyPath path) - 1)) with
                       | Ok key =>
                           if ics23_VerifyNonMembership spec subroot p key
                           then verifyChainedMembershipProof (GetHash root) specs (Proofs proof) path subroot 1
                           else Err (Wrap CommitmentErr.ErrInvalidProof)
                       | Err _ => Err (Wrap CommitmentErr.ErrInvalidProof)
                       | Panic => Panic
                       end
                   | Err _ => Err (Wrap CommitmentErr.ErrInvalidProof)
                   | Panic => Panic
                   end
               | ExistProof | OtherProof => Err (Wrap CommitmentErr.ErrInvalidProof)
               end
           | _, _ => Panic
           end
  | o => o
  end.
End merkle.
End commitmenttypes.

(** ** Soundness of chained proofs *)
Section soundness.
Context {IC : Ics23}.
Import commitmenttypes.

(** A key as the verification sees it. *)
Definition plain_key (k : string) : bool := no_char "%" k.

(** Every key that is printed can be read back: [Pretty] never panics. *)
Lemma Pretty_spec mp : Pretty mp = Ok (foldl (λ s k, s +:+ "/" +:+ k) "" (KeyPath mp)).
Proof.
  assert (∀ l a b, PathUnescape a = Some b → (∀ t, PathUnescape (a +:+ t) = String.append b <$> PathUnescape t) →
    PathUnescape (foldl (λ s k, s +:+ "/" +:+ PathEscape k) a l) = Some (foldl (λ s k, s +:+ "/" +:+ k) b l)) as H.
  { intros l. induction l as [|k l IH]; intros a b Ha Hab; [done|]. simpl.
    assert (Hs : ∀ t, PathUnescape ((a +:+ String "/" (PathEscape k)) +:+ t) =
      String.append (b +:+ String "/" k) <$> PathUnescape t).
    { intros t. rewrite app_assoc_str, Hab, app_cons_l, PathUnescape_plain_cons by done.
      rewrite PathUnescape_app_escape. destruct (PathUnescape t); [|done]. simpl. by rewrite app_assoc_str. }
    apply IH; [|exact Hs]. pose proof (Hs "") as H. rewrite !app_nil_r_str in H. etrans; [exact H|]. simpl.
    by rewrite app_nil_r_str. }
  unfold Pretty, Path_String. rewrite (H (KeyPath mp) "" ""); [done..|].
  intros t. rewrite app_nil_l. by destruct (PathUnescape t).
Qed.

Lemma validateVerificationArgs_Ok proof specs root u :
  validateVerificationArgs proof specs root = Ok u →
  length specs = length (Proofs proof) ∧ Proofs proof ≠ [] ∧ GetHash root ≠ "" ∧ None ∉ specs.
Proof.
  unfold validateVerificationArgs, Proof_Empty, Root_Empty. repeat case_bool_decide; try done. simpl.
  destruct (existsb _ specs) eqn:E; [done|]. intros _. split_and!; [done|by destruct (Proofs proof)|by destruct (GetHash root)|].
  intros Hin. apply not_true_iff_false in E. apply E, existsb_exists. exists None.
  split; [by apply list_elem_of_In|]. by apply bool_decide_eq_true_2.
Qed.

(** [tree_root spec m] is the root of the tree of [m] in the format of [spec]; a proof
    that verifies against it states a fact about [m]. *)
Record ics23_sound (tree_root : ProofSpec → gmap string string → string) : Prop := {
  member_sound spec m p k v :
    ics23_VerifyMembership spec (tree_root spec m) p k v = true → m !! k = Some v;
  nonmember_sound spec m p k :
    ics23_VerifyNonMembership spec (tree_root spec m) p k = true → m !! k = None }.

(** [root] commits, in the two trees of an SDK chain, to the store [m] under the name [pre]. *)
Definition commits_to (tree_root : ProofSpec → gmap string string → string) (specs : ProofSpecs) (root : MerkleRoot)
    (pre : string) (m : gmap string string) : Prop :=
  ∃ low high stores, specs = [Some low; Some high] ∧ GetHash root = tree_root high stores ∧
    stores !! pre = Some (tree_root low m).

Lemma chained_key_Ok keys i k :
  chained_key keys i = Ok k →
  ∃ raw, KeyPath keys !! (length (KeyPath keys) - 1 - i) = Some raw ∧ PathUnescape raw = Some k.
Proof.
  unfold chained_key, GetKey. destruct (Nat.leb_spec (length (KeyPath keys)) i); [done|].
  destruct (N.leb_spec (N.of_nat (length (KeyPath keys))) (N.of_nat (length (KeyPath keys) - 1 - i))); [lia|].
  rewrite Nat2N.id. destruct (PathUnescape _) eqn:E; [|done]. intros [= <-].
  destruct (lookup_lt_is_Some_2 (KeyPath keys) (length (KeyPath keys) - 1 - i)) as [raw Hraw]; [lia|].
  exists raw. split; [done|]. by rewrite (nth_lookup_Some _ _ _ _ Hraw) in E.
Qed.

(** One step of the chain: a proof of membership under the root that comes next. *)
Lemma chained_loop_cons root specs p proofs keys value i u :
  chained_loop root specs (p :: proofs) keys value i = Ok u →
  ∃ subroot key spec, chained_key keys i = Ok key ∧ specs !! i = Some (Some spec) ∧
    ics23_VerifyMembership spec subroot p key value = true ∧
    chained_loop root specs proofs keys subroot (S i) = Ok u.
Proof.
  simpl. intros E. repeat (case_match; try done). eauto 10.
Qed.

Lemma chained_loop_nil root specs keys value i u :
  chained_loop root specs [] keys value i = Ok u → root = value.
Proof. simpl. by case_bool_decide. Qed.

Lemma two_proofs proof specs root (low high : ProofSpec) u :
  validateVerificationArgs proof specs root = Ok u → specs = [Some low; Some high] →
  ∃ p q, Proofs proof = [p; q].
Proof.
  intros (Hl & _)%validateVerificationArgs_Ok ->. destruct (Proofs proof) as [|p [|q [|? ?]]]; try done. eauto.
Qed.

(** The last proof of a chain, in the tree of the stores. *)
Lemma store_proof tree_root specs root pre m key q subroot u :
  ics23_sound tree_root → commits_to tree_root specs root pre m → plain_key pre = true →
  chained_loop (GetHash root) specs [q] (NewMerklePath [pre; key]) subroot 1 = Ok u →
  ∃ low, specs !! 0 = Some (Some low) ∧ subroot = tree_root low m.
Proof.
  intros HS (low & high & stores & -> & Hroot & Hpre) Hp E.
  apply chained_loop_cons in E as (sub2 & k & spec & Hk & Hspec & Hv & E). apply chained_loop_nil in E as <-.
  apply chained_key_Ok in Hk as (raw & Hraw & Hun). simpl in *. simplify_eq.
  rewrite PathUnescape_no_percent in Hun by done. simplify_eq.
  rewrite Hroot in Hv. apply (member_sound _ HS) in Hv. exists low. split; [done|]. congruence.
Qed.

(** A membership proof that is accepted under a root states what the committed store holds. *)
Lemma chained_membership_sound tree_root proof specs root pre m key value u :
  ics23_sound tree_root → commits_to tree_root specs root pre m →
  plain_key pre = true → plain_key key = true →
  VerifyMembership proof specs root (NewMerklePath [pre; key]) value = Ok u → m !! key = Some value.
Proof.
  intros HS HC Hp Hk. unfold VerifyMembership.
  destruct (validateVerificationArgs proof specs root) eqn:Hv; [|done..].
  repeat case_bool_decide; try done. unfold verifyChainedMembershipProof. simpl negb. cbn iota.
  pose proof HC as (low & high & stores & Hspecs & _).
  destruct (two_proofs _ _ _ _ _ _ Hv Hspecs) as (p & q & ->). rewrite drop_0. intros E.
  apply chained_loop_cons in E as (sub & k & spec & Hkey & Hspec & Hm & E).
  destruct (store_proof _ _ _ _ _ _ _ _ _ HS HC Hp E) as (low' & Hlow & ->). simplify_eq.
  apply chained_key_Ok in Hkey as (raw & Hraw & Hun). simpl in Hraw. simplify_eq.
  rewrite PathUnescape_no_percent in Hun by done. simplify_eq. by apply (member_sound _ HS) in Hm.
Qed.

(** A non-membership proof that is accepted states that the committed store lacks the key. *)
Lemma chained_nonmembership_sound tree_root proof specs root pre m key u :
  ics23_sound tree_root → commits_to tree_root specs root pre m →
  plain_key pre = true → plain_key key = true →
  VerifyNonMembership proof specs root (NewMerklePath [pre; key]) = Ok u → m !! key = None.
Proof.
  intros HS HC Hp Hk. unfold VerifyNonMembership.
  destruct (validateVerificationArgs proof specs root) eqn:Hv; [|done..].
  case_bool_decide; [|done]. simpl negb. cbn iota. pose proof HC as (low & high & stores & Hspecs & _).
  destruct (two_proofs _ _ _ _ _ _ Hv Hspecs) as (p & q & Hpq). rewrite Hpq, Hspecs.
  destruct (proof_kind p); try done. destruct (Calculate p) as [sub| |]; try done.
  unfold GetKey. cbn [KeyPath length]. simpl. rewrite PathUnescape_no_percent by done.
  destruct (ics23_VerifyNonMembership low sub p key) eqn:Hn; [|done].
  unfold verifyChainedMembershipProof. rewrite <- Hspecs. intros E.
  destruct (store_proof _ _ _ _ _ _ _ _ _ HS HC Hp E) as (low' & Hlow & ->). rewrite Hspecs in Hlow.
  injection Hlow as ->. by apply (nonmember_sound _ HS) in Hn.
Qed.
End soundness.
