(* ===== verification/TendermintTypes.v ===== *)
(** * Types of the Tendermint light client ([light-clients/07-tendermint/types])

    Client states, consensus states, headers and misbehaviour with their stateless
    checks ([client_state.go], [consensus_state.go], [header.go], [misbehaviour.go],
    [fraction.go]).  Validator sets, commits and the verification of signatures are
    tendermint's and are parameters ([TendermintLib]). *)
From S2P Require Import Prelude GoMonad Errors Height Host Sdk ConnectionTypes ChannelTypes.
From S2P Require Import Exported Commitment.

(** [tmmath.Fraction] and [Fraction] of [tendermint.pb.go]; [ToTendermint] is the identity. *)
Record Fraction := mkFraction { Numerator : N; Denominator : N }.
#[export] Instance Fraction_eq_dec : EqDecision Fraction.
Proof. solve_decision. Defined.

(** What the client uses of tendermint: the protobuf messages [tmproto.Header],
    [tmproto.Commit] and [tmproto.ValidatorSet] with the fields read here, the types
    of [tmtypes] they are converted to, and [light.Verify].  Times are nanoseconds
    since the Unix epoch, durations are nanoseconds. *)
Class TendermintLib := {
  ProtoHeader : Type;
  hdr_ChainID : ProtoHeader → string;
  hdr_Height : ProtoHeader → Z;                 (* int64 *)
  hdr_Time : ProtoHeader → Z;
  hdr_AppHash : ProtoHeader → string;
  hdr_ValidatorsHash : ProtoHeader → string;
  hdr_NextValidatorsHash : ProtoHeader → string;
  ProtoBlockID : Type;
  ProtoCommit : Type;
  commit_BlockID : ProtoCommit → ProtoBlockID;
  ProtoValidatorSet : Type;
  TmValidatorSet : Type;
  ValidatorSetFromProto : option ProtoValidatorSet → outcome TmValidatorSet;
  ValidatorSet_Hash : TmValidatorSet → string;
  TmBlockID : Type;
  BlockIDFromProto : ProtoBlockID → outcome TmBlockID;
  BlockID_Hash : TmBlockID → string;
  TmCommit : Type;
  CommitFromProto : option ProtoCommit → outcome TmCommit;
  Commit_Height : TmCommit → Z;
  TmSignedHeader : Type;
  SignedHeaderFromProto : option ProtoHeader → option ProtoCommit → outcome TmSignedHeader;
  SignedHeader_ValidateBasic : TmSignedHeader → string → outcome unit;
  VerifyCommitLight : TmValidatorSet → string → TmBlockID → Z → TmCommit → outcome unit;
  VerifyCommitLightTrusting : TmValidatorSet → string → TmCommit → Fraction → outcome unit;
  (* the trusted header is given by chain id, height, time and next validators hash *)
  light_Verify : string → Z → Z → string → TmValidatorSet → TmSignedHeader → TmValidatorSet →
                 Z → Z → Z → Fraction → outcome unit;
  light_ValidateTrustLevel : Fraction → outcome unit;
  ValidateHash : string → outcome unit;
  MaxChainIDLen : nat }.

(** Store keys of cosmos-sdk's upgrade module ([x/upgrade/types]). *)
Class UpgradeTypes := {
  upgrade_StoreKey : string;
  KeyUpgradedIBCState : string;
  KeyUpgradedClient : string;
  KeyUpgradedConsState : string }.

Module ibctmtypes.
Import commitmenttypes.
Section types.
Context {IC : Ics23} {TL : TendermintLib}.

(** ** [client_state.go] *)

Record ClientState := mkClientState {
  ChainId : string;
  TrustLevel : Fraction;
  TrustingPeriod : Z;           (* time.Duration *)
  UnbondingPeriod : Z;
  MaxClockDrift : Z;
  FrozenHeight : Height;
  LatestHeight : Height;
  Client_ProofSpecs : ProofSpecs;
  UpgradePath : list string;
  AllowUpdateAfterExpiry : bool;
  AllowUpdateAfterMisbehaviour : bool }.
#[export] Instance ClientState_eq_dec : EqDecision ClientState.
Proof. solve_decision. Defined.

Definition NewClientState (chainID : string) (trustLevel : Fraction) (trustingPeriod ubdPeriod maxClockDrift : Z)
    (latestHeight : Height) (specs : ProofSpecs) (upgradePath : list string)
    (allowUpdateAfterExpiry allowUpdateAfterMisbehaviour : bool) : ClientState :=
  mkClientState chainID trustLevel trustingPeriod ubdPeriod maxClockDrift ZeroHeight latestHeight specs upgradePath
    allowUpdateAfterExpiry allowUpdateAfterMisbehaviour.

Definition set_frozen (h : Height) (cs : ClientState) : ClientState :=
  mkClientState (ChainId cs) (TrustLevel cs) (TrustingPeriod cs) (UnbondingPeriod cs) (MaxClockDrift cs) h
    (LatestHeight cs) (Client_ProofSpecs cs) (UpgradePath cs) (AllowUpdateAfterExpiry cs)
    (AllowUpdateAfterMisbehaviour cs).
Definition set_latest (h : Height) (cs : ClientState) : ClientState :=
  mkClientState (ChainId cs) (TrustLevel cs) (TrustingPeriod cs) (UnbondingPeriod cs) (MaxClockDrift cs)
    (FrozenHeight cs) h (Client_ProofSpecs cs) (UpgradePath cs) (AllowUpdateAfterExpiry cs)
    (AllowUpdateAfterMisbehaviour cs).
Definition set_chain_id (id : string) (cs : ClientState) : ClientState :=
  mkClientState id (TrustLevel cs) (TrustingPeriod cs) (UnbondingPeriod cs) (MaxClockDrift cs)
    (FrozenHeight cs) (LatestHeight cs) (Client_ProofSpecs cs) (UpgradePath cs) (AllowUpdateAfterExpiry cs)
    (AllowUpdateAfterMisbehaviour cs).

Definition IsExpired (cs : ClientState) (latestTimestamp now : Z) : bool :=
  let expirationTime := (latestTimestamp + TrustingPeriod cs)%Z in
  negb (now <? expirationTime)%Z.

Definition Validate (cs : ClientState) : outcome unit :=
  fail_if (blank (ChainId cs)) (Wrap TmErr.ErrInvalidChainID) ;;?
  fail_if (MaxChainIDLen <? String.length (ChainId cs))%nat (Wrap TmErr.ErrInvalidChainID) ;;?
  light_ValidateTrustLevel (TrustLevel cs) ;;?
  fail_if (TrustingPeriod cs =? 0)%Z (Wrap TmErr.ErrInvalidTrustingPeriod) ;;?
  fail_if (UnbondingPeriod cs =? 0)%Z (Wrap TmErr.ErrInvalidUnbondingPeriod) ;;?
  fail_if (MaxClockDrift cs =? 0)%Z (Wrap TmErr.ErrInvalidMaxClockDrift) ;;?
  let? revision := ParseChainID (ChainId cs) in
  fail_if (negb (RevisionNumber (LatestHeight cs) =? revision)%N) (Wrap TmErr.ErrInvalidHeaderHeight) ;;?
  fail_if (RevisionHeight (LatestHeight cs) =? 0)%N (Wrap TmErr.ErrInvalidHeaderHeight) ;;?
  fail_if (UnbondingPeriod cs <=? TrustingPeriod cs)%Z (Wrap TmErr.ErrInvalidTrustingPeriod) ;;?
  fail_if (bool_decide (Client_ProofSpecs cs = [])) (Wrap TmErr.ErrInvalidProofSpecs) ;;?
  fail_if (existsb (λ spec, bool_decide (spec = None)) (Client_ProofSpecs cs)) (Wrap TmErr.ErrInvalidProofSpecs) ;;?
  fail_if (existsb blank (UpgradePath cs)) (Wrap ClientErr.ErrInvalidClient).

Definition ZeroCustomFields (cs : ClientState) : ClientState :=
  mkClientState (ChainId cs) (mkFraction 0 0) 0 (UnbondingPeriod cs) 0 ZeroHeight (LatestHeight cs)
    (Client_ProofSpecs cs) (UpgradePath cs) false false.

(** ** [consensus_state.go] *)

Record ConsensusState := NewConsensusState {
  Timestamp : Z;
  Root : MerkleRoot;
  NextValidatorsHash : string }.
#[export] Instance MerkleRoot_eq_dec : EqDecision MerkleRoot.
Proof. solve_decision. Defined.
#[export] Instance ConsensusState_eq_dec : EqDecision ConsensusState.
Proof. solve_decision. Defined.

Definition SentinelRoot : string := "sentinel_root".

Definition GetTimestamp (cs : ConsensusState) : N := uint64_of_Z (Timestamp cs).

(** [cs.Timestamp.Unix()] is the time in seconds, rounded down. *)
Definition ConsensusState_ValidateBasic (cs : ConsensusState) : outcome unit :=
  fail_if (Root_Empty (Root cs)) (Wrap ClientErr.ErrInvalidConsensus) ;;?
  outcome_wrap (ValidateHash (NextValidatorsHash cs)) ;;?
  fail_if (Timestamp cs / 1000000000 <=? 0)%Z (Wrap ClientErr.ErrInvalidConsensus).

(** ** [header.go] *)

(** [tmproto.SignedHeader]; [nil] pointers are [None]. *)
Record SignedHeader := mkSignedHeader { sh_Header : option ProtoHeader; sh_Commit : option ProtoCommit }.

Record Header := mkHeader {
  Header_SignedHeader : option SignedHeader;
  Header_ValidatorSet : option ProtoValidatorSet;
  TrustedHeight : Height;
  TrustedValidators : option ProtoValidatorSet }.

(** [h.Header]: a [nil] signed header or header is dereferenced. *)
Definition header_content (h : Header) : outcome ProtoHeader :=
  let? sh := must_some (Header_SignedHeader h) in must_some (sh_Header sh).
(** [h.Commit] *)
Definition header_commit (h : Header) : outcome (option ProtoCommit) :=
  let? sh := must_some (Header_SignedHeader h) in Ok (sh_Commit sh).
(** [tmtypes.SignedHeaderFromProto(h.SignedHeader)]: a [nil] signed header is an error there. *)
Definition signed_header (h : Header) : outcome TmSignedHeader :=
  match Header_SignedHeader h with
  | Some sh => SignedHeaderFromProto (sh_Header sh) (sh_Commit sh)
  | None => Err (External "tendermint/types")
  end.

Definition Header_GetTime (h : Header) : outcome Z := let? hd := header_content h in Ok (hdr_Time hd).

Definition Header_ConsensusState (h : Header) : outcome ConsensusState :=
  let? hd := header_content h in
  Ok (NewConsensusState (hdr_Time hd) (NewMerkleRoot (hdr_AppHash hd)) (hdr_NextValidatorsHash hd)).

Definition Header_GetHeight (h : Header) : outcome Height :=
  let? hd := header_content h in
  let? revision := ParseChainID (hdr_ChainID hd) in
  Ok (NewHeight revision (uint64_of_Z (hdr_Height hd))).

Definition Header_ValidateBasic (h : Header) : outcome unit :=
  match Header_SignedHeader h with
  | None => Err (Wrap ClientErr.ErrInvalidHeader)
  | Some sh =>
      match sh_Header sh with
      | None => Err (Wrap ClientErr.ErrInvalidHeader)
      | Some hd =>
          let? tmSignedHeader := outcome_wrap (signed_header h) in
          outcome_wrap (SignedHeader_ValidateBasic tmSignedHeader (hdr_ChainID hd)) ;;?
          let? height := Header_GetHeight h in
          fail_if (GTE (TrustedHeight h) height) (Wrap TmErr.ErrInvalidHeaderHeight) ;;?
          fail_if (is_nil (Header_ValidatorSet h)) (Wrap ClientErr.ErrInvalidHeader) ;;?
          let? tmValset := outcome_wrap (ValidatorSetFromProto (Header_ValidatorSet h)) in
          fail_if (bool_decide (hdr_ValidatorsHash hd ≠ ValidatorSet_Hash tmValset)) (Wrap ClientErr.ErrInvalidHeader)
      end
  end.

(** ** [misbehaviour.go] *)

(** The one frozen height: frozen heights are only compared with zero. *)
Definition MisbehaviourFrozenHeight : Height := NewHeight 0 1.

Record Misbehaviour := NewMisbehaviour {
  ClientId : string;
  Header1 : option Header;
  Header2 : option Header }.

Definition Misbehaviour_GetTime (m : Misbehaviour) : outcome Z :=
  let? h1 := must_some (Header1 m) in
  let? h2 := must_some (Header2 m) in
  let? t1 := Header_GetTime h1 in
  let? t2 := Header_GetTime h2 in
  Ok (if (t2 <? t1)%Z then t1 else t2).

Definition validCommit (chainID : string) (blockID : TmBlockID) (commit : option ProtoCommit)
    (valSet : option ProtoValidatorSet) : outcome unit :=
  let? tmCommit := outcome_wrap (CommitFromProto commit) in
  let? tmValset := outcome_wrap (ValidatorSetFromProto valSet) in
  match VerifyCommitLight tmValset chainID blockID (Commit_Height tmCommit) tmCommit with
  | Err _ => Err (Wrap ClientErr.ErrInvalidMisbehaviour)
  | o => o
  end.

(** [tmtypes.BlockIDFromProto(&h.SignedHeader.Commit.BlockID)] *)
Definition header_block_id (h : Header) : outcome TmBlockID :=
  let? commit := header_commit h in
  let? commit := must_some commit in
  outcome_wrap (BlockIDFromProto (commit_BlockID commit)).

(** [sdkerrors.Wrap(ErrInvalidMisbehaviour, err.Error())] *)
Definition as_misbehaviour (o : outcome unit) : outcome unit :=
  match o with
  | Err _ => Err (Wrap ClientErr.ErrInvalidMisbehaviour)
  | o => o
  end.

Definition Misbehaviour_ValidateBasic (m : Misbehaviour) : outcome unit :=
  match Header1 m, Header2 m with
  | None, _ | _, None => Err (Wrap TmErr.ErrInvalidHeader)
  | Some h1, Some h2 =>
      fail_if (RevisionHeight (TrustedHeight h1) =? 0)%N (Wrap TmErr.ErrInvalidHeaderHeight) ;;?
      fail_if (RevisionHeight (TrustedHeight h2) =? 0)%N (Wrap TmErr.ErrInvalidHeaderHeight) ;;?
      fail_if (is_nil (TrustedValidators h1)) (Wrap TmErr.ErrInvalidValidatorSet) ;;?
      fail_if (is_nil (TrustedValidators h2)) (Wrap TmErr.ErrInvalidValidatorSet) ;;?
      let? hd1 := header_content h1 in
      let? hd2 := header_content h2 in
      fail_if (bool_decide (hdr_ChainID hd1 ≠ hdr_ChainID hd2)) (Wrap ClientErr.ErrInvalidMisbehaviour) ;;?
      outcome_wrap (ClientIdentifierValidator (ClientId m)) ;;?
      as_misbehaviour (Header_ValidateBasic h1) ;;?
      as_misbehaviour (Header_ValidateBasic h2) ;;?
      let? height1 := Header_GetHeight h1 in
      let? height2 := Header_GetHeight h2 in
      fail_if (LT height1 height2) (Wrap ClientErr.ErrInvalidMisbehaviour) ;;?
      let? blockID1 := header_block_id h1 in
      let? blockID2 := header_block_id h2 in
      let? commit1 := header_commit h1 in
      validCommit (hdr_ChainID hd1) blockID1 commit1 (Header_ValidatorSet h1) ;;?
      let? commit2 := header_commit h2 in
      validCommit (hdr_ChainID hd2) blockID2 commit2 (Header_ValidatorSet h2)
  end.
End types.
End ibctmtypes.
