(* ===== verification/Iteration.v ===== *)
(** * Ordered iteration over a store

    cosmos-sdk stores iterate over their keys in byte-lexicographic order
    ([store.Iterator], [ReverseIterator], [sdk.KVStorePrefixIterator]).  The entries of a
    store in that order, and the lemmas that connect the order of big-endian keys to the
    order of the numbers they encode. *)
From S2P Require Import Prelude GoMonad Errors Sha256 Sdk.
From Stdlib Require Import Ascii.
From stdpp Require Import sorting.

(** [bytes.Compare(a, b) < 0] *)
Fixpoint bytes_lt (a b : string) : bool :=
  match a, b with
  | _, EmptyString => false
  | EmptyString, String _ _ => true
  | String x a', String y b' =>
      (N_of_ascii x <? N_of_ascii y)%N || Ascii.eqb x y && bytes_lt a' b'
  end.

Lemma N_of_ascii_inj x y : N_of_ascii x = N_of_ascii y → x = y.
Proof. intros H. rewrite <- (ascii_N_embedding x), <- (ascii_N_embedding y). by rewrite H. Qed.

Lemma bytes_lt_cons x y a b :
  bytes_lt (String x a) (String y b) = true ↔
  (N_of_ascii x < N_of_ascii y)%N ∨ x = y ∧ bytes_lt a b = true.
Proof. simpl. rewrite orb_true_iff, andb_true_iff, N.ltb_lt, Ascii.eqb_eq. done. Qed.

Lemma bytes_lt_irrefl a : bytes_lt a a = false.
Proof.
  induction a as [|x a IH]; [done|]. apply not_true_iff_false. rewrite bytes_lt_cons.
  intros [H|[_ H]]; [lia|congruence].
Qed.

Lemma bytes_lt_trans a b c : bytes_lt a b = true → bytes_lt b c = true → bytes_lt a c = true.
Proof.
  revert b c. induction a as [|x a IH]; intros [|y b] [|z c]; try done.
  rewrite !bytes_lt_cons. intros [H1|[-> H1]] [H2|[-> H2]]; [left; lia|left; lia|left; lia|].
  right. split; [done|]. by eapply IH.
Qed.

Lemma bytes_lt_total a b : bytes_lt a b = true ∨ a = b ∨ bytes_lt b a = true.
Proof.
  revert b. induction a as [|x a IH]; intros [|y b]; [by auto..|].
  rewrite !bytes_lt_cons. destruct (N.lt_trichotomy (N_of_ascii x) (N_of_ascii y)) as [?|[E|?]]; [by auto| |by auto].
  apply N_of_ascii_inj in E as ->. destruct (IH b) as [?|[->|?]]; auto.
Qed.

Lemma bytes_lt_antisym a b : bytes_lt a b = true → bytes_lt b a = false.
Proof.
  intros H. apply not_true_iff_false. intros H'. pose proof (bytes_lt_trans _ _ _ H H') as E.
  by rewrite bytes_lt_irrefl in E.
Qed.

Lemma bytes_lt_prefix p a b : bytes_lt (p +:+ a) (p +:+ b) = bytes_lt a b.
Proof.
  induction p as [|x p IH]; [done|]. rewrite !app_cons_l. simpl.
  by rewrite Ascii.eqb_refl, IH, N.ltb_irrefl.
Qed.

Lemma bytes_lt_app a a' b b' :
  String.length a = String.length a' →
  bytes_lt (a +:+ b) (a' +:+ b') = true ↔ bytes_lt a a' = true ∨ a = a' ∧ bytes_lt b b' = true.
Proof.
  revert a'. induction a as [|x a IH]; intros [|y a'] Hl; try done.
  - rewrite !Prelude.app_nil_l. naive_solver.
  - injection Hl as Hl. rewrite !app_cons_l, !bytes_lt_cons, IH by done. naive_solver.
Qed.

(** The entries of a store in key order. *)
Definition entry_le (x y : string * string) : Prop := bytes_lt y.1 x.1 = false.
#[export] Instance entry_le_dec x y : Decision (entry_le x y).
Proof. unfold entry_le. apply _. Defined.
#[export] Instance entry_le_trans : Transitive entry_le.
Proof.
  intros [x ?] [y ?] [z ?]. unfold entry_le. simpl. intros H1 H2. apply not_true_iff_false. intros H3.
  destruct (bytes_lt_total x y) as [H|[->|H]]; [|congruence..].
  pose proof (bytes_lt_trans _ _ _ H3 H). congruence.
Qed.
#[export] Instance entry_le_total : Total entry_le.
Proof.
  intros [x ?] [y ?]. unfold entry_le. simpl.
  destruct (bytes_lt y x) eqn:E; [|by left]. right. by apply bytes_lt_antisym.
Qed.

Definition entries (s : KVStore) : list (string * string) := merge_sort entry_le (map_to_list s).

(** [sdk.KVStorePrefixIterator(s, p)], [s.Iterator(start, nil)], [s.ReverseIterator(nil, end)] *)
Definition PrefixIterator (s : KVStore) (p : string) : list (string * string) :=
  filter (λ kv, HasPrefix kv.1 p = true) (entries s).
Definition IteratorFrom (s : KVStore) (start : string) : list (string * string) :=
  filter (λ kv, bytes_lt kv.1 start = false) (entries s).
Definition ReverseIteratorTo (s : KVStore) (end_ : string) : list (string * string) :=
  reverse (filter (λ kv, bytes_lt kv.1 end_ = true) (entries s)).

(** ** What iteration visits, and in which order *)

Lemma elem_of_entries s k v : (k, v) ∈ entries s ↔ s !! k = Some v.
Proof. unfold entries. rewrite merge_sort_Permutation. apply elem_of_map_to_list. Qed.

(** Strictly ascending keys. *)
Definition entry_lt (x y : string * string) : Prop := bytes_lt x.1 y.1 = true.

Lemma entries_ascending s : StronglySorted entry_lt (entries s).
Proof.
  assert (Hs : StronglySorted entry_le (entries s)) by (apply (StronglySorted_merge_sort _); apply _).
  assert (Hn : NoDup ((entries s).*1)).
  { unfold entries. rewrite merge_sort_Permutation. apply NoDup_fst_map_to_list. }
  induction Hs as [|[k v] l Hs IH Hall]; [constructor|]. simpl in Hn. apply NoDup_cons in Hn as [Hk Hn].
  constructor; [by apply IH|]. apply list.Forall_forall. intros [k' v'] Hin.
  rewrite list.Forall_forall in Hall. specialize (Hall _ Hin). unfold entry_le, entry_lt in *. simpl in *.
  destruct (bytes_lt_total k k') as [?|[->|?]]; [done| |congruence].
  exfalso. apply Hk. apply list_elem_of_fmap. by exists (k', v').
Qed.

Lemma filter_ascending (P : string * string → Prop) `{∀ x, Decision (P x)} l :
  StronglySorted entry_lt l → StronglySorted entry_lt (filter P l).
Proof.
  induction 1 as [|x l Hs IH Hall]; [constructor|]. rewrite filter_cons. case_decide; [|done].
  constructor; [done|]. apply list.Forall_forall. intros y [_ Hy]%list_elem_of_filter.
  by rewrite list.Forall_forall in Hall; apply Hall.
Qed.

(** The first entry of an ascending list is the least, the last of it the greatest. *)
Lemma ascending_head x l y : StronglySorted entry_lt (x :: l) → y ∈ x :: l → y = x ∨ entry_lt x y.
Proof.
  intros Hs [->|Hin]%elem_of_cons; [by left|right]. apply StronglySorted_inv in Hs as [_ Hall].
  by rewrite list.Forall_forall in Hall; apply Hall.
Qed.

Lemma ascending_last l x y : StronglySorted entry_lt (l ++ [x]) → y ∈ l ++ [x] → y = x ∨ entry_lt y x.
Proof.
  induction l as [|z l IH]; simpl; intros Hs Hin.
  - left. set_solver.
  - apply StronglySorted_inv in Hs as [Hs Hall]. apply elem_of_cons in Hin as [->|Hin]; [|by apply IH].
    right. rewrite list.Forall_forall in Hall. apply Hall. set_solver.
Qed.

(** ** Big-endian keys *)

Lemma length_be8 n : String.length (be8_encode n) = 8.
Proof. apply be8_length. Qed.

Lemma string_of_bytes_app a b : string_of_bytes (a ++ b) = string_of_bytes a +:+ string_of_bytes b.
Proof. induction a as [|x a IH]; [done|]. simpl. by rewrite IH. Qed.

Lemma bytes_lt_one x y : (x < 256)%N → (y < 256)%N →
  bytes_lt (string_of_bytes [x]) (string_of_bytes [y]) = true ↔ (x < y)%N.
Proof.
  intros Hx Hy. simpl string_of_bytes. rewrite bytes_lt_cons, !N_ascii_embedding by done. simpl. naive_solver lia.
Qed.

Lemma be_bytes_lt k n m : (n < 256 ^ N.of_nat k)%N → (m < 256 ^ N.of_nat k)%N →
  bytes_lt (string_of_bytes (be_bytes k n)) (string_of_bytes (be_bytes k m)) = true ↔ (n < m)%N.
Proof.
  revert n m. induction k as [|k IH]; intros n m Hn Hm.
  - simpl in *. split; [done|lia].
  - cbn [be_bytes]. rewrite !string_of_bytes_app.
    rewrite bytes_lt_app by (by rewrite !length_string_of_bytes, !length_be_bytes).
    rewrite Nat2N.inj_succ, N.pow_succ_r' in Hn, Hm.
    assert (n / 256 < 256 ^ N.of_nat k)%N by (by apply N.Div0.div_lt_upper_bound).
    assert (m / 256 < 256 ^ N.of_nat k)%N by (by apply N.Div0.div_lt_upper_bound).
    rewrite IH, bytes_lt_one by (done || by apply N.mod_lt).
    pose proof (N.div_mod n 256 ltac:(done)). pose proof (N.div_mod m 256 ltac:(done)).
    pose proof (N.mod_lt n 256 ltac:(done)). pose proof (N.mod_lt m 256 ltac:(done)).
    assert (string_of_bytes (be_bytes k (n / 256)) = string_of_bytes (be_bytes k (m / 256)) ↔ n / 256 = m / 256)%N as ->.
    { split; [|by intros ->]. intros E. apply (f_equal bytes_of_string) in E.
      rewrite !bytes_string_bytes in E by apply be_bytes_bound.
      by rewrite <- (be_value_bytes k (n / 256)), <- (be_value_bytes k (m / 256)), E by done. }
    generalize dependent (n / 256)%N. generalize dependent (m / 256)%N.
    generalize dependent (n mod 256)%N. generalize dependent (m mod 256)%N. clear. intros. subst. nia.
Qed.

Lemma be8_lt n m : (n < two64)%N → (m < two64)%N →
  bytes_lt (be8_encode n) (be8_encode m) = true ↔ (n < m)%N.
Proof. intros Hn Hm. by apply (be_bytes_lt 8). Qed.

Lemma be8_inj n m : (n < two64)%N → (m < two64)%N → be8_encode n = be8_encode m → n = m.
Proof. intros Hn Hm E. rewrite <- (be8_roundtrip n), <- (be8_roundtrip m), E by done. done. Qed.

(** ** Stores as lists: what a prefix iterator reads, and writing a list of entries *)
Definition put_all (l : list (string * string)) (s : KVStore) : KVStore :=
  foldl (λ s e, <[e.1 := e.2]> s) s l.

Lemma put_all_union l s : NoDup l.*1 → put_all l s = list_to_map l ∪ s.
Proof.
  revert s. induction l as [|[k v] l IH]; simpl; intros s; [by rewrite (left_id_L ∅ (∪))|].
  intros [Hk Hl]%NoDup_cons. rewrite IH by done.
  rewrite <- insert_union_r by (by apply not_elem_of_list_to_map). by rewrite insert_union_l.
Qed.

(** The part of a store below a prefix. *)
Definition below (pre : string) (s : KVStore) : KVStore := filter (λ e, HasPrefix e.1 pre = true) s.

Lemma PrefixIterator_keys s pre : NoDup (PrefixIterator s pre).*1.
Proof.
  assert (StronglySorted entry_lt (PrefixIterator s pre)) as H by apply filter_ascending, entries_ascending.
  induction H as [|e l Hl IH Hall]; simpl; [constructor|]. constructor; [|done].
  intros ([k v] & E & Hin)%list_elem_of_fmap. rewrite list.Forall_forall in Hall.
  specialize (Hall _ Hin). unfold entry_lt in Hall. rewrite E in Hall. simpl in Hall. by rewrite bytes_lt_irrefl in Hall.
Qed.

Lemma PrefixIterator_map s pre : list_to_map (PrefixIterator s pre) = below pre s.
Proof.
  apply map_eq. intros k. apply option_eq. intros v.
  rewrite <- elem_of_list_to_map by apply PrefixIterator_keys. unfold below, PrefixIterator.
  rewrite list_elem_of_filter, elem_of_entries, map_lookup_filter_Some. naive_solver.
Qed.

Lemma below_lookup pre s k : below pre s !! k = if HasPrefix k pre then s !! k else None.
Proof.
  unfold below. destruct (HasPrefix k pre) eqn:E.
  - destruct (s !! k) eqn:Hk; [by apply map_lookup_filter_Some|]. apply map_lookup_filter_None. by left.
  - apply map_lookup_filter_None. right. intros v _. simpl. congruence.
Qed.

(** An iterator depends only on the part of the store it visits. *)
Lemma PrefixIterator_below s s' pre : below pre s = below pre s' → PrefixIterator s pre = PrefixIterator s' pre.
Proof.
  intros E. apply (StronglySorted_unique_strong entry_lt).
  - intros [k v] [k' v'] Hin Hin' H H'. exfalso. unfold entry_lt in *. simpl in *.
    apply bytes_lt_antisym in H. congruence.
  - apply filter_ascending, entries_ascending.
  - apply filter_ascending, entries_ascending.
  - assert (∀ x, PrefixIterator x pre ≡ₚ map_to_list (below pre x)) as Hp.
    { intros x. rewrite <- PrefixIterator_map, map_to_list_to_map; [done|apply PrefixIterator_keys]. }
    by rewrite !Hp, E.
Qed.

Lemma PrefixIterator_nil s pre : below pre s = ∅ → PrefixIterator s pre = [].
Proof.
  rewrite <- PrefixIterator_map. destruct (PrefixIterator s pre) as [|[k v] l]; [done|]. simpl.
  by intros ?%insert_non_empty.
Qed.
