(* ===== verification/TendermintStore.v ===== *)
(** * The Tendermint client's store ([07-tendermint/types/store.go])

    Consensus states with their metadata (processed time, processed height) and the
    iteration keys that make them enumerable in height order: the keys, the reads and
    writes, the neighbours of a height, and pruning. *)
From S2P Require Import Prelude GoMonad Errors Sha256 Height Host Sdk ConnectionTypes.
From S2P Require Import ChannelTypes.
From S2P Require Import Exported ClientKeeper Commitment TendermintTypes Iteration.
From Stdlib Require Import Ascii.

(** The protobuf codec on the values the client marshals.  [tm_Unmarshal_ConsensusState] is
    [UnmarshalConsensusState] followed by the cast to a Tendermint consensus state. *)
Class TmCodec {IC : Ics23} {TL : TendermintLib} := {
  tm_Marshal_ClientState : ibctmtypes.ClientState → string;
  tm_Marshal_ConsensusState : ibctmtypes.ConsensusState → string;
  tm_Unmarshal_ConsensusState : string → option ibctmtypes.ConsensusState;
  tm_Marshal_ConnectionEnd : connectiontypes.ConnectionEnd → string;
  tm_Marshal_Channel : Channel → string;
  Unmarshal_MerkleProof : string → option commitmenttypes.MerkleProof;
  tm_encodable : ibctmtypes.ConsensusState → Prop;
  tm_consensus_roundtrip c :
    tm_encodable c → tm_Unmarshal_ConsensusState (tm_Marshal_ConsensusState c) = Some c;
  tm_consensus_decoded bz c : tm_Unmarshal_ConsensusState bz = Some c → tm_encodable c }.

Module tmstore.
Import ibctmtypes.
Section store.
Context {SE : SdkEncoding} {IC : Ics23} {TL : TendermintLib} {TC : TmCodec}.

(** ** Keys *)
Definition KeyIterateConsensusStatePrefix : string := "iterateConsensusStates".
Definition KeyProcessedTime : string := "/processedTime".
Definition KeyProcessedHeight : string := "/processedHeight".

Definition ProcessedTimeKey (height : Height) : string := ConsensusStateKey height +:+ KeyProcessedTime.
Definition ProcessedHeightKey (height : Height) : string := ConsensusStateKey height +:+ KeyProcessedHeight.

(** [binary.BigEndian.PutUint64] twice. *)
Definition bigEndianHeightBytes (height : Height) : string :=
  be8_encode (RevisionNumber height) +:+ be8_encode (RevisionHeight height).

Definition IterationKey (height : Height) : string :=
  KeyIterateConsensusStatePrefix +:+ bigEndianHeightBytes height.

(** The slice expressions and [binary.BigEndian.Uint64] panic on keys that are too short. *)
Definition GetHeightFromIterationKey (iterKey : string) : outcome Height :=
  if (String.length iterKey <? String.length KeyIterateConsensusStatePrefix + 16)%nat then Panic
  else
    let bigEndianBytes := str_drop (String.length KeyIterateConsensusStatePrefix) iterKey in
    let revision := be8_decode (String.substring 0 8 bigEndianBytes) in
    let height := be8_decode (String.substring 8 8 bigEndianBytes) in
    Ok (NewHeight revision height).

(** ** Reads and writes *)
Definition SetConsensusState (consensusState : ConsensusState) (height : Height) : ST KVStore unit :=
  modify (store_Set (ConsensusStateKey height) (tm_Marshal_ConsensusState consensusState)).

Definition GetConsensusState (store : KVStore) (height : Height) : outcome ConsensusState :=
  match store !! ConsensusStateKey height with
  | None => Err (Wrap ClientErr.ErrConsensusStateNotFound)
  | Some bz =>
      match tm_Unmarshal_ConsensusState bz with
      | Some consensusState => Ok consensusState
      | None => Err (Wrap ClientErr.ErrInvalidConsensus)
      end
  end.

Definition deleteConsensusState (height : Height) : ST KVStore unit :=
  modify (store_Delete (ConsensusStateKey height)).

Definition SetProcessedTime (height : Height) (timeNs : N) : ST KVStore unit :=
  modify (store_Set (ProcessedTimeKey height) (Uint64ToBigEndian timeNs)).
Definition GetProcessedTime (store : KVStore) (height : Height) : option N :=
  BigEndianToUint64 <$> store !! ProcessedTimeKey height.
Definition deleteProcessedTime (height : Height) : ST KVStore unit :=
  modify (store_Delete (ProcessedTimeKey height)).

Definition SetProcessedHeight (consHeight processedHeight : Height) : ST KVStore unit :=
  modify (store_Set (ProcessedHeightKey consHeight) (Height_String processedHeight)).
Definition GetProcessedHeight (store : KVStore) (height : Height) : option Height :=
  match store !! ProcessedHeightKey height with
  | None => None
  | Some bz => match ParseHeight bz with Ok h => Some h | _ => None end
  end.
Definition deleteProcessedHeight (height : Height) : ST KVStore unit :=
  modify (store_Delete (ProcessedHeightKey height)).

Definition SetIterationKey (height : Height) : ST KVStore unit :=
  modify (store_Set (IterationKey height) (ConsensusStateKey height)).
Definition GetIterationKey (store : KVStore) (height : Height) : option string := store !! IterationKey height.
Definition deleteIterationKey (height : Height) : ST KVStore unit :=
  modify (store_Delete (IterationKey height)).

Definition setConsensusMetadataWithValues (height processedHeight : Height) (processedTime : N) : ST KVStore unit :=
  SetProcessedTime height processedTime ;;;
  SetProcessedHeight height processedHeight ;;;
  SetIterationKey height.

Definition setConsensusMetadata (ctx : Context) (height : Height) : ST KVStore unit :=
  let! selfHeight := lift (GetSelfHeight ctx) in
  setConsensusMetadataWithValues height selfHeight (uint64_of_Z (BlockTime ctx)).

Definition deleteConsensusMetadata (height : Height) : ST KVStore unit :=
  deleteProcessedTime height ;;;
  deleteProcessedHeight height ;;;
  deleteIterationKey height.

(** ** Iteration *)

(** The loop of [IterateConsensusStateAscending]; [A] holds the variables the callback
    captures, and the callback's boolean stops the loop. *)
Fixpoint ascending_loop {A} (cb : Height → A → A * bool) (l : list (string * string)) (a : A) : outcome A :=
  match l with
  | [] => Ok a
  | (iterKey, _) :: l' =>
      let? height := GetHeightFromIterationKey iterKey in
      let '(a', stop) := cb height a in
      if stop : bool then Ok a' else ascending_loop cb l' a'
  end.
Definition IterateConsensusStateAscending {A} (clientStore : KVStore) (cb : Height → A → A * bool) (a : A) : outcome A :=
  ascending_loop cb (PrefixIterator clientStore KeyIterateConsensusStatePrefix) a.

Definition getTmConsensusState (clientStore : KVStore) (key : string) : option ConsensusState :=
  clientStore !! key ≫= tm_Unmarshal_ConsensusState.

Definition GetNextConsensusState (clientStore : KVStore) (height : Height) : option ConsensusState :=
  let iterateStore := prefix_view KeyIterateConsensusStatePrefix clientStore in
  match IteratorFrom iterateStore (bigEndianHeightBytes height) with
  | [] => None
  | (_, value) :: rest =>
      if bool_decide (value = ConsensusStateKey height) then
        match rest with
        | [] => None
        | (_, csKey) :: _ => getTmConsensusState clientStore csKey
        end
      else getTmConsensusState clientStore value
  end.

Definition GetPreviousConsensusState (clientStore : KVStore) (height : Height) : option ConsensusState :=
  let iterateStore := prefix_view KeyIterateConsensusStatePrefix clientStore in
  match ReverseIteratorTo iterateStore (bigEndianHeightBytes height) with
  | [] => None
  | (_, csKey) :: _ => getTmConsensusState clientStore csKey
  end.

(** [pruneCb] of [PruneAllExpiredConsensusStates]: the error that stops the iteration is
    assigned to a variable of the callback and is lost. *)
Definition pruneCb (ctx : Context) (clientStore : KVStore) (clientState : ClientState) (height : Height)
    (heights : list Height) : list Height * bool :=
  match GetConsensusState clientStore height with
  | Ok consState =>
      (if IsExpired clientState (Timestamp consState) (BlockTime ctx) then heights ++ [height] else heights, false)
  | _ => (heights, true)
  end.

Fixpoint delete_heights (heights : list Height) : ST KVStore unit :=
  match heights with
  | [] => ret tt
  | height :: heights' =>
      deleteConsensusState height ;;;
      deleteConsensusMetadata height ;;;
      delete_heights heights'
  end.

Definition PruneAllExpiredConsensusStates (ctx : Context) (clientState : ClientState) : ST KVStore unit :=
  let! clientStore := gets id in
  let! heights := lift (IterateConsensusStateAscending clientStore (pruneCb ctx clientStore clientState) []) in
  delete_heights heights.

(** ** Genesis metadata ([genesis.go]) *)

(** Entries below the consensus states that are metadata: "consensusStates/h/processedTime"
    and "consensusStates/h/processedHeight". *)
Definition is_metadata_key (key : string) : bool :=
  match Split key "/" with
  | [_; _; kind] => bool_decide (kind = "processedTime") || bool_decide (kind = "processedHeight")
  | _ => false
  end.

(** The entries [IterateConsensusMetadata] calls its callback on, for a callback that
    never stops the iteration. *)
Definition IterateConsensusMetadata (store : KVStore) : list (string * string) :=
  filter (λ kv, is_metadata_key kv.1 = true) (PrefixIterator store KeyConsensusStatePrefix) ++
  PrefixIterator store KeyIterateConsensusStatePrefix.

(** [nil] when there is no metadata, which is the empty list. *)
Definition ExportMetadata (store : KVStore) : list (string * string) := IterateConsensusMetadata store.
End store.
End tmstore.
