(* ===== verification/TendermintClient.v ===== *)
(** * The Tendermint light client ([light-clients/07-tendermint/types])

    Status, initialisation and proof verification ([client_state.go]), header updates
    ([update.go]), misbehaviour ([misbehaviour_handle.go]), governance substitution
    ([proposal_handle.go]) and upgrades ([upgrade.go]); [tendermint] puts them together
    as an instance of the interface [LightClient].

    A value of an interface type that the code casts to its own type is an [option]
    here: [None] is [nil] or a value of another client's type.  A proof is [nil] when it
    is empty. *)
From S2P Require Import Prelude GoMonad Errors Sha256 Height Host Sdk ConnectionTypes.
From S2P Require Import ChannelTypes.
From S2P Require Import Exported ClientKeeper Commitment TendermintTypes Iteration.
From S2P Require Import TendermintStore.
From Stdlib Require Import Ascii.

Module ibctm.
Import commitmenttypes ibctmtypes tmstore.
Section client.
Context {SE : SdkEncoding} {IC : Ics23} {TL : TendermintLib} {TC : TmCodec} {UT : UpgradeTypes}.

(** ** [client_state.go] *)

Definition tm_Status (ctx : Context) (clientStore : KVStore) (cs : ClientState) : Status :=
  if negb (Height_IsZero (FrozenHeight cs)) then Frozen
  else match GetConsensusState clientStore (LatestHeight cs) with
       | Ok consState => if IsExpired cs (Timestamp consState) (BlockTime ctx) then Expired else Active
       | _ => Unknown
       end.

Definition tm_Initialize (ctx : Context) (cs : ClientState) (consState : option ConsensusState) : ST KVStore unit :=
  match consState with
  | None => throw (Wrap ClientErr.ErrInvalidConsensus)
  | Some _ => setConsensusMetadata ctx (LatestHeight cs)
  end.

Definition produceVerificationArgs (store : KVStore) (cs : ClientState) (height : Height) (proof : string) :
    outcome (MerkleProof * ConsensusState) :=
  fail_if (LT (LatestHeight cs) height) (Wrap sdkerrors.ErrInvalidHeight) ;;?
  fail_if (bool_decide (proof = "")) (Wrap CommitmentErr.ErrInvalidProof) ;;?
  match Unmarshal_MerkleProof proof with
  | None => Err (Wrap CommitmentErr.ErrInvalidProof)
  | Some merkleProof =>
      let? consensusState := outcome_wrap (GetConsensusState store height) in
      Ok (merkleProof, consensusState)
  end.

Definition verifyDelayPeriodPassed (ctx : Context) (store : KVStore) (proofHeight : Height)
    (delayTimePeriod delayBlockPeriod : N) : outcome unit :=
  match GetProcessedTime store proofHeight with
  | None => Err (Wrap TmErr.ErrProcessedTimeNotFound)
  | Some processedTime =>
      let currentTimestamp := uint64_of_Z (BlockTime ctx) in
      let validTime := u64 (processedTime + delayTimePeriod) in
      fail_if (currentTimestamp <? validTime)%N (Wrap TmErr.ErrDelayPeriodNotPassed) ;;?
      match GetProcessedHeight store proofHeight with
      | None => Err (Wrap TmErr.ErrProcessedHeightNotFound)
      | Some processedHeight =>
          let? currentHeight := GetSelfHeight ctx in
          let validHeight :=
            NewHeight (RevisionNumber processedHeight) (u64 (RevisionHeight processedHeight + delayBlockPeriod)) in
          fail_if (LT currentHeight validHeight) (Wrap TmErr.ErrDelayPeriodNotPassed)
      end
  end.

(** [commitmenttypes.ApplyPrefix(prefix, NewMerklePath(path))] and the membership check. *)
Definition verify_member (cs : ClientState) (prefix : MerklePrefix) (path value : string)
    (args : MerkleProof * ConsensusState) : outcome unit :=
  let? path := ApplyPrefix prefix (NewMerklePath [path]) in
  VerifyMembership args.1 (Client_ProofSpecs cs) (Root args.2) path value.

Definition tm_VerifyClientState (cs : ClientState) (height : Height) (prefix : MerklePrefix)
    (counterpartyClientIdentifier proof : string) (clientState : option ClientState) (store : KVStore) : outcome unit :=
  let? args := produceVerificationArgs store cs height proof in
  let? path := ApplyPrefix prefix (NewMerklePath [FullClientStatePath counterpartyClientIdentifier]) in
  match clientState with
  | None => Err (Wrap ClientErr.ErrInvalidClient)
  | Some clientState =>
      VerifyMembership args.1 (Client_ProofSpecs cs) (Root args.2) path (tm_Marshal_ClientState clientState)
  end.

Definition tm_VerifyClientConsensusState (cs : ClientState) (height : Height) (counterpartyClientIdentifier : string)
    (consensusHeight : Height) (prefix : MerklePrefix) (proof : string) (consensusState : option ConsensusState)
    (store : KVStore) : outcome unit :=
  let? args := produceVerificationArgs store cs height proof in
  let? path := ApplyPrefix prefix
    (NewMerklePath [FullConsensusStatePath counterpartyClientIdentifier consensusHeight]) in
  match consensusState with
  | None => Err (Wrap ClientErr.ErrInvalidConsensus)
  | Some consensusState =>
      VerifyMembership args.1 (Client_ProofSpecs cs) (Root args.2) path (tm_Marshal_ConsensusState consensusState)
  end.

Definition tm_VerifyConnectionState (cs : ClientState) (height : Height) (prefix : MerklePrefix)
    (proof connectionID : string) (connectionEnd : connectiontypes.ConnectionEnd) (store : KVStore) : outcome unit :=
  let? args := produceVerificationArgs store cs height proof in
  verify_member cs prefix (ConnectionPath connectionID) (tm_Marshal_ConnectionEnd connectionEnd) args.

Definition tm_VerifyChannelState (cs : ClientState) (height : Height) (prefix : MerklePrefix)
    (proof portID channelID : string) (channel : Channel) (store : KVStore) : outcome unit :=
  let? args := produceVerificationArgs store cs height proof in
  verify_member cs prefix (ChannelPath portID channelID) (tm_Marshal_Channel channel) args.

Definition tm_VerifyPacketCommitment (ctx : Context) (cs : ClientState) (height : Height)
    (delayTimePeriod delayBlockPeriod : N) (prefix : MerklePrefix) (proof portID channelID : string) (sequence : N)
    (commitmentBytes : string) (store : KVStore) : outcome unit :=
  let? args := produceVerificationArgs store cs height proof in
  verifyDelayPeriodPassed ctx store height delayTimePeriod delayBlockPeriod ;;?
  verify_member cs prefix (PacketCommitmentPath portID channelID sequence) commitmentBytes args.

Definition tm_VerifyPacketAcknowledgement (ctx : Context) (cs : ClientState) (height : Height)
    (delayTimePeriod delayBlockPeriod : N) (prefix : MerklePrefix) (proof portID channelID : string) (sequence : N)
    (acknowledgement : string) (store : KVStore) : outcome unit :=
  let? args := produceVerificationArgs store cs height proof in
  verifyDelayPeriodPassed ctx store height delayTimePeriod delayBlockPeriod ;;?
  verify_member cs prefix (PacketAcknowledgementPath portID channelID sequence)
    (CommitAcknowledgement acknowledgement) args.

Definition tm_VerifyPacketReceiptAbsence (ctx : Context) (cs : ClientState) (height : Height)
    (delayTimePeriod delayBlockPeriod : N) (prefix : MerklePrefix) (proof portID channelID : string) (sequence : N)
    (store : KVStore) : outcome unit :=
  let? args := produceVerificationArgs store cs height proof in
  verifyDelayPeriodPassed ctx store height delayTimePeriod delayBlockPeriod ;;?
  let? path := ApplyPrefix prefix (NewMerklePath [PacketReceiptPath portID channelID sequence]) in
  VerifyNonMembership args.1 (Client_ProofSpecs cs) (Root args.2) path.

Definition tm_VerifyNextSequenceRecv (ctx : Context) (cs : ClientState) (height : Height)
    (delayTimePeriod delayBlockPeriod : N) (prefix : MerklePrefix) (proof portID channelID : string)
    (nextSequenceRecv : N) (store : KVStore) : outcome unit :=
  let? args := produceVerificationArgs store cs height proof in
  verifyDelayPeriodPassed ctx store height delayTimePeriod delayBlockPeriod ;;?
  verify_member cs prefix (NextSequenceRecvPath portID channelID) (Uint64ToBigEndian nextSequenceRecv) args.

(** ** [update.go] *)

Definition checkTrustedHeader (header : Header) (consState : ConsensusState) : outcome unit :=
  let? tmTrustedValidators := outcome_wrap (ValidatorSetFromProto (TrustedValidators header)) in
  fail_if (bool_decide (NextValidatorsHash consState ≠ ValidatorSet_Hash tmTrustedValidators))
    (Wrap TmErr.ErrInvalidValidatorSet).

(** The chain id a header of revision [revision] is verified against; the error of
    [SetRevisionNumber] is ignored and cannot occur. *)
Definition revised_chain_id (chainID : string) (revision : N) : string :=
  if IsRevisionFormat chainID then
    match SetRevisionNumber chainID revision with
    | Ok id => id
    | _ => ""
    end
  else chainID.

Definition checkValidity (clientState : ClientState) (consState : ConsensusState) (header : Header)
    (currentTimestamp : Z) : outcome unit :=
  checkTrustedHeader header consState ;;?
  let? height := Header_GetHeight header in
  fail_if (negb (RevisionNumber height =? RevisionNumber (TrustedHeight header))%N)
    (Wrap TmErr.ErrInvalidHeaderHeight) ;;?
  let? tmTrustedValidators := outcome_wrap (ValidatorSetFromProto (TrustedValidators header)) in
  let? tmSignedHeader := outcome_wrap (signed_header header) in
  let? tmValidatorSet := outcome_wrap (ValidatorSetFromProto (Header_ValidatorSet header)) in
  fail_if (LTE height (TrustedHeight header)) (Wrap ClientErr.ErrInvalidHeader) ;;?
  let chainID := revised_chain_id (ChainId clientState) (RevisionNumber height) in
  outcome_wrap (light_Verify chainID (int_of_u64 (RevisionHeight (TrustedHeight header))) (Timestamp consState)
    (NextValidatorsHash consState) tmTrustedValidators tmSignedHeader tmValidatorSet
    (TrustingPeriod clientState) currentTimestamp (MaxClockDrift clientState) (TrustLevel clientState)).

Definition update (ctx : Context) (clientState : ClientState) (header : Header) :
    ST KVStore (ClientState * ConsensusState) :=
  let! height := lift (Header_GetHeight header) in
  let clientState := if GT height (LatestHeight clientState) then set_latest height clientState else clientState in
  let! consensusState := lift (Header_ConsensusState header) in
  setConsensusMetadata ctx height ;;;
  ret (clientState, consensusState).

(** [pruneCb] of [CheckHeaderAndUpdateState]: it looks at the earliest consensus state and
    stops; the captured variables are [pruneHeight] and [pruneError]. *)
Definition updatePruneCb (ctx : Context) (clientStore : KVStore) (cs : ClientState) (height : Height)
    (_ : option Height * option error) : (option Height * option error) * bool :=
  match GetConsensusState clientStore height with
  | Ok consState =>
      ((if IsExpired cs (Timestamp consState) (BlockTime ctx) then Some height else None, None), true)
  | Err e => ((None, Some e), true)
  | Panic => ((None, None), true)
  end.

Definition prune_earliest (ctx : Context) (cs : ClientState) : ST KVStore unit :=
  let! clientStore := gets id in
  let! r := lift (IterateConsensusStateAscending clientStore (updatePruneCb ctx clientStore cs) (None, None)) in
  match r with
  | (_, Some pruneError) => throw pruneError
  | (Some pruneHeight, None) => deleteConsensusState pruneHeight ;;; deleteConsensusMetadata pruneHeight
  | (None, None) => ret tt
  end.

Definition frozen (cs : ClientState) : ClientState := set_frozen MisbehaviourFrozenHeight cs.

(** [prevOk && !prevCons.Timestamp.Before(consState.Timestamp)] *)
Definition breaks_previous (clientStore : KVStore) (height : Height) (consState : ConsensusState) : bool :=
  match GetPreviousConsensusState clientStore height with
  | Some prevCons => negb (Timestamp prevCons <? Timestamp consState)%Z
  | None => false
  end.
(** [nextOk && !nextCons.Timestamp.After(consState.Timestamp)] *)
Definition breaks_next (clientStore : KVStore) (height : Height) (consState : ConsensusState) : bool :=
  match GetNextConsensusState clientStore height with
  | Some nextCons => negb (Timestamp consState <? Timestamp nextCons)%Z
  | None => false
  end.

Definition tm_CheckHeaderAndUpdateState (ctx : Context) (cs : ClientState) (header : option Header) :
    ST KVStore (ClientState * ConsensusState) :=
  match header with
  | None => throw (Wrap ClientErr.ErrInvalidHeader)
  | Some tmHeader =>
      let! clientStore := gets id in
      let! height := lift (Header_GetHeight tmHeader) in
      let prevConsState := match GetConsensusState clientStore height with Ok c => Some c | _ => None end in
      let! consState := lift (Header_ConsensusState tmHeader) in
      if bool_decide (prevConsState = Some consState) then ret (cs, consState)
      else
        let conflictingHeader := negb (is_nil prevConsState) in
        let! trustedConsState := wrap_err (lift (GetConsensusState clientStore (TrustedHeight tmHeader))) in
        lift (checkValidity cs trustedConsState tmHeader (BlockTime ctx)) ;;;
        if conflictingHeader then ret (frozen cs, consState)
        else if breaks_previous clientStore height consState then ret (frozen cs, consState)
        else if breaks_next clientStore height consState then ret (frozen cs, consState)
        else
          prune_earliest ctx cs ;;;
          update ctx cs tmHeader
  end.

(** ** [misbehaviour_handle.go] *)

(** [t.Sub(u)]: saturates at the range of a duration. *)
Definition time_Sub (t u : Z) : Z :=
  Z.max (-9223372036854775808) (Z.min 9223372036854775807 (t - u)).

Definition checkMisbehaviourHeader (clientState : ClientState) (consState : ConsensusState) (header : Header)
    (currentTimestamp : Z) : outcome unit :=
  let? tmTrustedValset := outcome_wrap (ValidatorSetFromProto (TrustedValidators header)) in
  let? commit := header_commit header in
  let? tmCommit := outcome_wrap (CommitFromProto commit) in
  checkTrustedHeader header consState ;;?
  fail_if (TrustingPeriod clientState <=? time_Sub currentTimestamp (Timestamp consState))%Z
    (Wrap TmErr.ErrTrustingPeriodExpired) ;;?
  let? height := if IsRevisionFormat (ChainId clientState) then Header_GetHeight header else Ok ZeroHeight in
  let chainID := revised_chain_id (ChainId clientState) (RevisionNumber height) in
  match VerifyCommitLightTrusting tmTrustedValset chainID tmCommit (TrustLevel clientState) with
  | Err _ => Err (Wrap ClientErr.ErrInvalidMisbehaviour)
  | o => o
  end.

(** The two headers contradict each other: a fork at one height, or time that does not
    increase with height. *)
Definition conflicting_headers (h1 h2 : Header) : outcome unit :=
  let? height1 := Header_GetHeight h1 in
  let? height2 := Header_GetHeight h2 in
  if EQ height1 height2 then
    let? blockID1 := header_block_id h1 in
    let? blockID2 := header_block_id h2 in
    fail_if (bool_decide (BlockID_Hash blockID1 = BlockID_Hash blockID2)) (Wrap ClientErr.ErrInvalidMisbehaviour)
  else
    let? t1 := Header_GetTime h1 in
    let? t2 := Header_GetTime h2 in
    fail_if (t2 <? t1)%Z (Wrap ClientErr.ErrInvalidMisbehaviour).

Definition tm_CheckMisbehaviourAndUpdateState (ctx : Context) (cs : ClientState) (misbehaviour : option Misbehaviour)
    (clientStore : KVStore) : outcome ClientState :=
  match misbehaviour with
  | None => Err (Wrap ClientErr.ErrInvalidClientType)
  | Some tmMisbehaviour =>
      let? h1 := must_some (Header1 tmMisbehaviour) in
      let? h2 := must_some (Header2 tmMisbehaviour) in
      conflicting_headers h1 h2 ;;?
      let? tmConsensusState1 := outcome_wrap (GetConsensusState clientStore (TrustedHeight h1)) in
      let? tmConsensusState2 := outcome_wrap (GetConsensusState clientStore (TrustedHeight h2)) in
      outcome_wrap (checkMisbehaviourHeader cs tmConsensusState1 h1 (BlockTime ctx)) ;;?
      outcome_wrap (checkMisbehaviourHeader cs tmConsensusState2 h2 (BlockTime ctx)) ;;?
      Ok (frozen cs)
  end.

(** ** [proposal_handle.go] *)

Definition IsMatchingClientState (subject substitute : ClientState) : bool :=
  let zero cs := set_chain_id "" (set_frozen ZeroHeight (set_latest ZeroHeight cs)) in
  bool_decide (zero subject = zero substitute).

(** The [switch] on the subject's status. *)
Definition revive (ctx : Context) (clientStore : KVStore) (cs : ClientState) : outcome ClientState :=
  match tm_Status ctx clientStore cs with
  | Frozen =>
      if negb (AllowUpdateAfterMisbehaviour cs) then Err (Wrap ClientErr.ErrUpdateClientFailed)
      else Ok (set_frozen ZeroHeight cs)
  | Expired =>
      if negb (AllowUpdateAfterExpiry cs) then Err (Wrap ClientErr.ErrUpdateClientFailed) else Ok cs
  | Active | Unknown => Err (Wrap ClientErr.ErrUpdateClientFailed)
  end.

(** The state is the subject's store and the substitute's. *)
Definition tm_CheckSubstituteAndUpdateState (ctx : Context) (cs : ClientState)
    (substituteClient : option ClientState) : ST (KVStore * KVStore) ClientState :=
  match substituteClient with
  | None => throw (Wrap ClientErr.ErrInvalidClient)
  | Some substituteClientState =>
      throw_if (negb (IsMatchingClientState cs substituteClientState)) (Wrap ClientErr.ErrInvalidSubstitute) ;;;
      let! subjectClientStore := gets fst in
      let! cs := lift (revive ctx subjectClientStore cs) in
      let height := LatestHeight substituteClientState in
      let! substituteClientStore := gets snd in
      let! consensusState := wrap_err (lift (GetConsensusState substituteClientStore height)) in
      on_subject (SetConsensusState consensusState height) ;;;
      let! substituteClientStore := gets snd in
      let! processedHeight :=
        some_or (GetProcessedHeight substituteClientStore height) (Wrap ClientErr.ErrUpdateClientFailed) in
      let! processedTime :=
        some_or (GetProcessedTime substituteClientStore height) (Wrap ClientErr.ErrUpdateClientFailed) in
      on_subject (setConsensusMetadataWithValues height processedHeight processedTime) ;;;
      ret (set_chain_id (ChainId substituteClientState) (set_latest (LatestHeight substituteClientState) cs))
  end.

(** ** [upgrade.go] *)

(** The two paths differ in their suffix. *)
Definition upgrade_path (suffix : string) (upgradePath : list string) (lastHeight : Height) : MerklePath :=
  let lastKey := List.last upgradePath "" in
  NewMerklePath (removelast upgradePath ++
    [lastKey +:+ "/" +:+ fmt_u64 (RevisionHeight lastHeight) +:+ "/" +:+ suffix]).
Definition constructUpgradeClientMerklePath : list string → Height → MerklePath := upgrade_path KeyUpgradedClient.
Definition constructUpgradeConsStateMerklePath : list string → Height → MerklePath := upgrade_path KeyUpgradedConsState.

(** [upgradedHeight] is [upgradedClient.GetLatestHeight()], of the interface value that is cast after the check. *)
Definition tm_VerifyUpgradeAndUpdateState (ctx : Context) (cs : ClientState) (upgradedHeight : Height)
    (upgradedClient : option ClientState) (upgradedConsState : option ConsensusState)
    (proofUpgradeClient proofUpgradeConsState : string) : ST KVStore (ClientState * ConsensusState) :=
  throw_if (bool_decide (UpgradePath cs = [])) (Wrap ClientErr.ErrInvalidUpgradeClient) ;;;
  let lastHeight := LatestHeight cs in
  throw_if (negb (GT upgradedHeight lastHeight)) (Wrap sdkerrors.ErrInvalidHeight) ;;;
  let! tmUpgradeClient := some_or upgradedClient (Wrap ClientErr.ErrInvalidClientType) in
  let! tmUpgradeConsState := some_or upgradedConsState (Wrap ClientErr.ErrInvalidConsensus) in
  let! merkleProofClient := some_or (Unmarshal_MerkleProof proofUpgradeClient) (Wrap CommitmentErr.ErrInvalidProof) in
  let! merkleProofConsState :=
    some_or (Unmarshal_MerkleProof proofUpgradeConsState) (Wrap CommitmentErr.ErrInvalidProof) in
  let! clientStore := gets id in
  let! consState := wrap_err (lift (GetConsensusState clientStore lastHeight)) in
  wrap_err (lift (VerifyMembership merkleProofClient (Client_ProofSpecs cs) (Root consState)
    (constructUpgradeClientMerklePath (UpgradePath cs) lastHeight) (tm_Marshal_ClientState tmUpgradeClient))) ;;;
  wrap_err (lift (VerifyMembership merkleProofConsState (Client_ProofSpecs cs) (Root consState)
    (constructUpgradeConsStateMerklePath (UpgradePath cs) lastHeight)
    (tm_Marshal_ConsensusState tmUpgradeConsState))) ;;;
  let newClientState :=
    NewClientState (ChainId tmUpgradeClient) (TrustLevel cs) (TrustingPeriod cs) (UnbondingPeriod tmUpgradeClient)
      (MaxClockDrift cs) (LatestHeight tmUpgradeClient) (Client_ProofSpecs tmUpgradeClient)
      (UpgradePath tmUpgradeClient) (AllowUpdateAfterExpiry cs) (AllowUpdateAfterMisbehaviour cs) in
  wrap_err (lift (Validate newClientState)) ;;;
  let newConsState :=
    NewConsensusState (Timestamp tmUpgradeConsState) (NewMerkleRoot SentinelRoot)
      (NextValidatorsHash tmUpgradeConsState) in
  setConsensusMetadata ctx (LatestHeight tmUpgradeClient) ;;;
  ret (newClientState, newConsState).

(** A verification that reads the store. *)
Definition reading {A} (f : KVStore → outcome A) : ST KVStore A :=
  let! store := gets id in lift (f store).
End client.
End ibctm.

(** ** The Tendermint client as a light client

    The clients of a chain that only has Tendermint clients. *)
Section instance_.
Context {SE : SdkEncoding} {IC : Ics23} {TL : TendermintLib} {TC : TmCodec} {UT : UpgradeTypes}.
Import ibctmtypes ibctm.

Definition with_some {A B} (p : A * B) : A * option B := (p.1, Some p.2).

Definition tendermint : LightClient := {|
  Exported.ClientState := ClientState;
  Exported.ConsensusState := ConsensusState;
  Exported.Header := Header;
  Exported.Misbehaviour := Misbehaviour;
  ClientType := λ _, Tendermint;
  GetLatestHeight := LatestHeight;
  ClientState_Validate := Validate;
  Exported.ExportMetadata := λ _, tmstore.ExportMetadata;
  ConsensusState_ClientType := λ _, Tendermint;
  Exported.ConsensusState_ValidateBasic := ConsensusState_ValidateBasic;
  Exported.Header_ValidateBasic := Header_ValidateBasic;
  Exported.GetTimestamp := GetTimestamp;
  Exported.Header_GetHeight := Header_GetHeight;
  Misbehaviour_GetClientID := ClientId;
  Misbehaviour_ClientType := λ _, Tendermint;
  Exported.Misbehaviour_ValidateBasic := Misbehaviour_ValidateBasic;
  Initialize := tm_Initialize;
  client_Status := tm_Status;
  CheckHeaderAndUpdateState := λ ctx cs h,
    let! r := tm_CheckHeaderAndUpdateState ctx cs h in ret (with_some r);
  client_CheckMisbehaviourAndUpdateState := λ ctx cs m, reading (tm_CheckMisbehaviourAndUpdateState ctx cs (Some m));
  CheckSubstituteAndUpdateState := λ ctx cs sub, tm_CheckSubstituteAndUpdateState ctx cs (Some sub);
  VerifyUpgradeAndUpdateState := λ ctx cs up cons p1 p2,
    let! r := tm_VerifyUpgradeAndUpdateState ctx cs (LatestHeight up) (Some up) cons p1 p2 in ret (with_some r);
  Exported.ZeroCustomFields := ZeroCustomFields;
  VerifyClientState := λ cs h pre id prf x, reading (tm_VerifyClientState cs h pre id prf (Some x));
  VerifyClientConsensusState := λ cs h id ch pre prf x,
    reading (tm_VerifyClientConsensusState cs h id ch pre prf (Some x));
  VerifyConnectionState := λ cs h pre prf id x, reading (tm_VerifyConnectionState cs h pre prf id x);
  VerifyChannelState := λ cs h pre prf p c x, reading (tm_VerifyChannelState cs h pre prf p c x);
  VerifyPacketCommitment := λ ctx cs h td bd pre prf p c n x,
    reading (tm_VerifyPacketCommitment ctx cs h td bd pre prf p c n x);
  VerifyPacketAcknowledgement := λ ctx cs h td bd pre prf p c n x,
    reading (tm_VerifyPacketAcknowledgement ctx cs h td bd pre prf p c n x);
  VerifyPacketReceiptAbsence := λ ctx cs h td bd pre prf p c n,
    reading (tm_VerifyPacketReceiptAbsence ctx cs h td bd pre prf p c n);
  VerifyNextSequenceRecv := λ ctx cs h td bd pre prf p c n,
    reading (tm_VerifyNextSequenceRecv ctx cs h td bd pre prf p c n) |}.
End instance_.
