(* ===== verification/TendermintIndex.v ===== *)
(** * The consensus-state index of a Tendermint client

    The keys of the client's store are pairwise different; iteration keys order
    consensus states by height; the neighbours of a height, and pruning, are those of
    the abstract set of heights. *)
From S2P Require Import Prelude GoMonad Errors Sha256 Height Host Sdk ConnectionTypes.
From S2P Require Import ChannelTypes.
From S2P Require Import Exported ClientKeeper Commitment TendermintTypes Iteration.
From S2P Require Import TendermintStore.
From Stdlib Require Import Ascii.
From stdpp Require Import sorting.

Create HintDb tmkeys discriminated.

(** ** Keys *)
Section keys.
Context {SE : SdkEncoding} {IC : Ics23} {TL : TendermintLib} {TC : TmCodec}.
Import ibctmtypes tmstore.

Lemma ConsensusStateKey_inj h h' : ConsensusStateKey h = ConsensusStateKey h' → h = h'.
Proof. unfold ConsensusStateKey, ConsensusStatePath. intros E. by apply app_inj_l, app_inj_l, Height_String_inj in E. Qed.

(** The pieces of a key below "consensusStates". *)
Lemma Split_consensus_key h : Split (ConsensusStateKey h) "/" = ["consensusStates"; Height_String h].
Proof.
  unfold ConsensusStateKey, ConsensusStatePath, KeyConsensusStatePrefix.
  change ("consensusStates" +:+ "/" +:+ Height_String h) with ("consensusStates" +:+ String "/" (Height_String h)).
  rewrite Split_sep by done. by rewrite Split_no_char by apply Height_String_no_slash.
Qed.

Lemma Split_metadata_key h kind :
  no_char "/" kind = true →
  Split (ConsensusStateKey h +:+ String "/" kind) "/" = ["consensusStates"; Height_String h; kind].
Proof.
  intros Hk. unfold ConsensusStateKey, ConsensusStatePath, KeyConsensusStatePrefix. rewrite !app_assoc_str.
  change ("consensusStates" +:+ "/" +:+ Height_String h +:+ String "/" kind)
    with ("consensusStates" +:+ String "/" (Height_String h +:+ String "/" kind)).
  rewrite Split_sep by done. rewrite Split_sep by apply Height_String_no_slash. by rewrite Split_no_char.
Qed.
Lemma Split_time_key h : Split (ProcessedTimeKey h) "/" = ["consensusStates"; Height_String h; "processedTime"].
Proof. by apply Split_metadata_key. Qed.
Lemma Split_height_key h : Split (ProcessedHeightKey h) "/" = ["consensusStates"; Height_String h; "processedHeight"].
Proof. by apply Split_metadata_key. Qed.

Lemma cons_time_ne h h' : ConsensusStateKey h ≠ ProcessedTimeKey h'.
Proof. intros E%(f_equal (λ k, Split k "/")). by rewrite Split_consensus_key, Split_time_key in E. Qed.
Lemma cons_height_ne h h' : ConsensusStateKey h ≠ ProcessedHeightKey h'.
Proof. intros E%(f_equal (λ k, Split k "/")). by rewrite Split_consensus_key, Split_height_key in E. Qed.
Lemma time_height_ne h h' : ProcessedTimeKey h ≠ ProcessedHeightKey h'.
Proof. intros E%(f_equal (λ k, Split k "/")). by rewrite Split_time_key, Split_height_key in E. Qed.
Lemma ProcessedTimeKey_inj h h' : ProcessedTimeKey h = ProcessedTimeKey h' → h = h'.
Proof.
  intros E%(f_equal (λ k, Split k "/")). rewrite !Split_time_key in E. injection E. apply Height_String_inj.
Qed.
Lemma ProcessedHeightKey_inj h h' : ProcessedHeightKey h = ProcessedHeightKey h' → h = h'.
Proof.
  intros E%(f_equal (λ k, Split k "/")). rewrite !Split_height_key in E. injection E. apply Height_String_inj.
Qed.

Lemma cons_iter_ne h h' : ConsensusStateKey h ≠ IterationKey h'.
Proof. by intros E. Qed.
Lemma time_iter_ne h h' : ProcessedTimeKey h ≠ IterationKey h'.
Proof. by intros E. Qed.
Lemma height_iter_ne h h' : ProcessedHeightKey h ≠ IterationKey h'.
Proof. by intros E. Qed.
Lemma client_cons_ne h : ClientStateKey ≠ ConsensusStateKey h.
Proof. by intros E. Qed.
Lemma client_time_ne h : ClientStateKey ≠ ProcessedTimeKey h.
Proof. by intros E. Qed.
Lemma client_height_ne h : ClientStateKey ≠ ProcessedHeightKey h.
Proof. by intros E. Qed.
Lemma client_iter_ne h : ClientStateKey ≠ IterationKey h.
Proof. by intros E. Qed.

(** Iteration keys encode their height. *)
Lemma length_bigEndianHeightBytes h : String.length (bigEndianHeightBytes h) = 16.
Proof. unfold bigEndianHeightBytes. by rewrite str_length_app, !length_be8. Qed.

Lemma bigEndianHeightBytes_inj h h' :
  height_wf h → height_wf h' → bigEndianHeightBytes h = bigEndianHeightBytes h' → h = h'.
Proof.
  intros [Hr Hh] [Hr' Hh'] E. unfold bigEndianHeightBytes in E.
  apply app_inj_length in E as [E1 E2]; [|by rewrite !length_be8].
  apply be8_inj in E1; [|done..]. apply be8_inj in E2; [|done..]. destruct h, h'; simpl in *. by subst.
Qed.
Lemma IterationKey_inj h h' : height_wf h → height_wf h' → IterationKey h = IterationKey h' → h = h'.
Proof. intros Hh Hh' E. unfold IterationKey in E. apply app_inj_l in E. by apply bigEndianHeightBytes_inj. Qed.

(** The byte order of iteration keys is the order of heights. *)
Lemma bigEndianHeightBytes_lt h h' :
  height_wf h → height_wf h' →
  bytes_lt (bigEndianHeightBytes h) (bigEndianHeightBytes h') = true ↔ height_lt h h'.
Proof.
  intros [Hr Hh] [Hr' Hh']. unfold bigEndianHeightBytes, height_lt.
  rewrite bytes_lt_app by (by rewrite !length_be8). rewrite !be8_lt by done. split.
  - intros [?|[E ?]]; [by left|right]. by apply be8_inj in E.
  - intros [?|[E ?]]; [by left|right]. by rewrite E.
Qed.

Lemma substring_app a b : String.substring 0 (String.length a) (a +:+ b) = a.
Proof. induction a as [|c a IH]; simpl; [by destruct b|]. by rewrite IH. Qed.
Lemma substring_skip a b n : String.substring (String.length a) n (a +:+ b) = String.substring 0 n b.
Proof. induction a as [|c a IH]; [done|]. simpl. exact IH. Qed.

Lemma GetHeightFromIterationKey_eq h : height_wf h → GetHeightFromIterationKey (IterationKey h) = Ok h.
Proof.
  intros [Hr Hh]. unfold GetHeightFromIterationKey, IterationKey.
  rewrite str_length_app, length_bigEndianHeightBytes, Nat.ltb_irrefl, str_drop_app. cbv zeta.
  unfold bigEndianHeightBytes. rewrite <- (length_be8 (RevisionNumber h)) at 1. rewrite substring_app.
  rewrite <- (length_be8 (RevisionNumber h)) at 1. rewrite substring_skip.
  rewrite <- (length_be8 (RevisionHeight h)) at 1. rewrite substring_all, !be8_roundtrip by done.
  by destruct h.
Qed.
End keys.
#[export] Hint Resolve cons_time_ne cons_height_ne time_height_ne cons_iter_ne time_iter_ne height_iter_ne
  client_cons_ne client_time_ne client_height_ne client_iter_ne not_eq_sym : tmkeys.

(** ** The abstract set of consensus states *)
Section index.
Context {SE : SdkEncoding} {IC : Ics23} {TL : TendermintLib} {TC : TmCodec}.
Import ibctmtypes tmstore.

(** The consensus state at a height. *)
Definition cons_at (s : KVStore) (h : Height) : option ConsensusState :=
  s !! ConsensusStateKey h ≫= tm_Unmarshal_ConsensusState.

(** The height has an iteration key. *)
Definition indexed (s : KVStore) (h : Height) : Prop := s !! IterationKey h = Some (ConsensusStateKey h).

(** Well-formed client stores: every iteration key is that of a height with a consensus
    state and its metadata, and every consensus state has an iteration key. *)
Record tm_wf (s : KVStore) : Prop := {
  wf_iter k v : s !! k = Some v → HasPrefix k KeyIterateConsensusStatePrefix = true →
    ∃ h, height_wf h ∧ k = IterationKey h ∧ v = ConsensusStateKey h;
  wf_cons h : height_wf h → indexed s h → is_Some (cons_at s h);
  wf_meta h : height_wf h → indexed s h → is_Some (GetProcessedTime s h) ∧ is_Some (GetProcessedHeight s h);
  wf_index h : height_wf h → is_Some (s !! ConsensusStateKey h) → indexed s h }.

(** Time increases with height. *)
Definition times_increase (s : KVStore) : Prop :=
  ∀ h1 h2 c1 c2, height_wf h1 → height_wf h2 → cons_at s h1 = Some c1 → cons_at s h2 = Some c2 →
    height_lt h1 h2 → (Timestamp c1 < Timestamp c2)%Z.

Lemma cons_at_GetConsensusState s h c : GetConsensusState s h = Ok c ↔ cons_at s h = Some c.
Proof.
  unfold GetConsensusState, cons_at. destruct (s !! _); simpl; [|done]. destruct (tm_Unmarshal_ConsensusState _); naive_solver.
Qed.
Lemma cons_at_option s h : match GetConsensusState s h with Ok c => Some c | _ => None end = cons_at s h.
Proof.
  unfold GetConsensusState, cons_at. destruct (s !! _); simpl; [|done]. by destruct (tm_Unmarshal_ConsensusState _).
Qed.
Lemma getTmConsensusState_eq s h : getTmConsensusState s (ConsensusStateKey h) = cons_at s h.
Proof. done. Qed.

Lemma cons_at_indexed s h : tm_wf s → height_wf h → is_Some (cons_at s h) ↔ indexed s h.
Proof.
  intros W Hh. split; [|by apply wf_cons]. intros [c Hc]. apply wf_index; [done..|].
  unfold cons_at in Hc. by destruct (s !! ConsensusStateKey h).
Qed.

(** The entries of the index are the heights with a consensus state. *)
Lemma index_entries s k v : tm_wf s →
  (k, v) ∈ entries (prefix_view KeyIterateConsensusStatePrefix s) ↔
  ∃ h, height_wf h ∧ indexed s h ∧ k = bigEndianHeightBytes h ∧ v = ConsensusStateKey h.
Proof.
  intros W. rewrite elem_of_entries, prefix_view_lookup. split.
  - intros H. destruct (wf_iter _ W _ _ H) as (h & Hh & Hk & ->); [by apply HasPrefix_app|].
    unfold IterationKey in Hk. apply app_inj_l in Hk as ->. eauto.
  - intros (h & Hh & Hi & -> & ->). exact Hi.
Qed.

(** What it means to be the greatest height below [h], the least height above [h]. *)
Definition previous_height (s : KVStore) (h : Height) (o : option Height) : Prop :=
  match o with
  | Some p => height_wf p ∧ is_Some (cons_at s p) ∧ height_lt p h ∧
      ∀ q, height_wf q → is_Some (cons_at s q) → height_lt q h → height_le q p
  | None => ∀ q, height_wf q → is_Some (cons_at s q) → ¬ height_lt q h
  end.
Definition next_height (s : KVStore) (h : Height) (o : option Height) : Prop :=
  match o with
  | Some p => height_wf p ∧ is_Some (cons_at s p) ∧ height_lt h p ∧
      ∀ q, height_wf q → is_Some (cons_at s q) → height_lt h q → height_le p q
  | None => ∀ q, height_wf q → is_Some (cons_at s q) → ¬ height_lt h q
  end.

Lemma entry_order h h' v v' :
  height_wf h → height_wf h' →
  (bigEndianHeightBytes h, v) = (bigEndianHeightBytes h', v') ∨
    entry_lt (bigEndianHeightBytes h, v) (bigEndianHeightBytes h', v') → height_le h h'.
Proof.
  intros Hh Hh' [[E _]%pair_equal_spec|E]; [right; by apply bigEndianHeightBytes_inj|left].
  by apply bigEndianHeightBytes_lt.
Qed.

Lemma previous_consensus_spec s h :
  tm_wf s → height_wf h → ∃ o, previous_height s h o ∧ GetPreviousConsensusState s h = o ≫= cons_at s.
Proof.
  intros W Hh. unfold GetPreviousConsensusState, ReverseIteratorTo. cbv zeta.
  set (P := λ kv : string * string, bytes_lt kv.1 (bigEndianHeightBytes h) = true).
  set (l := filter P (entries (prefix_view KeyIterateConsensusStatePrefix s))).
  assert (Hin : ∀ q, height_wf q → is_Some (cons_at s q) → height_lt q h →
    (bigEndianHeightBytes q, ConsensusStateKey q) ∈ l).
  { intros q Hq Hc Hlt. apply list_elem_of_filter. split; [by apply bigEndianHeightBytes_lt|].
    apply index_entries; [done|]. exists q. split_and!; [done|by apply cons_at_indexed|done..]. }
  assert (Hasc : StronglySorted entry_lt l) by apply filter_ascending, entries_ascending.
  destruct (reverse l) as [|[k v] r] eqn:El.
  - exists None. split; [|done]. intros q Hq Hc Hlt. specialize (Hin q Hq Hc Hlt).
    rewrite <- elem_of_reverse, El in Hin. by apply elem_of_nil in Hin.
  - apply (f_equal reverse) in El. rewrite reverse_involutive, reverse_cons in El.
    assert (Hx : (k, v) ∈ l) by (rewrite El; set_solver). rewrite El in Hasc, Hin.
    apply list_elem_of_filter in Hx as [Hk Hx]. apply index_entries in Hx as (p & Hp & Hi & -> & ->); [|done].
    unfold P in Hk. cbn [fst] in Hk. rewrite bigEndianHeightBytes_lt in Hk by done.
    exists (Some p). split; [|by rewrite getTmConsensusState_eq].
    split_and!; [done|by apply cons_at_indexed|done|].
    intros q Hq Hc Hlt. specialize (Hin q Hq Hc Hlt).
    eapply entry_order; [done..|]. eapply ascending_last; [exact Hasc|exact Hin].
Qed.

Lemma next_consensus_spec s h :
  tm_wf s → height_wf h → ∃ o, next_height s h o ∧ GetNextConsensusState s h = o ≫= cons_at s.
Proof.
  intros W Hh. unfold GetNextConsensusState, IteratorFrom. cbv zeta.
  set (P := λ kv : string * string, bytes_lt kv.1 (bigEndianHeightBytes h) = false).
  set (l := filter P (entries (prefix_view KeyIterateConsensusStatePrefix s))).
  assert (Hmem : ∀ kv, kv ∈ l ↔ ∃ q, height_wf q ∧ is_Some (cons_at s q) ∧ ¬ height_lt q h ∧
    kv = (bigEndianHeightBytes q, ConsensusStateKey q)).
  { intros [k v]. unfold l. rewrite list_elem_of_filter, index_entries by done. unfold P. cbn [fst]. split.
    - intros (Hlt & q & Hq & Hi & -> & ->). exists q. split_and!; [done|by apply cons_at_indexed| |done].
      rewrite <- bigEndianHeightBytes_lt by done. by rewrite Hlt.
    - intros (q & Hq & Hc & Hlt & [-> ->]%pair_equal_spec). split.
      + rewrite <- bigEndianHeightBytes_lt in Hlt by done. by apply not_true_iff_false.
      + exists q. split_and!; [done|by apply cons_at_indexed|done..]. }
  assert (Hasc : StronglySorted entry_lt l) by apply filter_ascending, entries_ascending.
  clearbody l. clear P.
  assert (Hleast : ∀ x l', StronglySorted entry_lt (x :: l') → (∀ kv, kv ∈ x :: l' → kv ∈ l) →
    (∀ q, height_wf q → is_Some (cons_at s q) → height_lt h q → (bigEndianHeightBytes q, ConsensusStateKey q) ∈ x :: l') →
    (∀ q, x = (bigEndianHeightBytes q, ConsensusStateKey q) → height_wf q → q ≠ h) →
    ∃ o, next_height s h o ∧ getTmConsensusState s x.2 = o ≫= cons_at s).
  { intros x l' Hs Hsub Hall Hne. destruct (proj1 (Hmem x)) as (p & Hp & Hc & Hge & ->); [apply Hsub; set_solver|].
    exists (Some p). split; [|exact (getTmConsensusState_eq s p)]. split_and!; [done|done| |].
    - specialize (Hne p eq_refl Hp). apply height_lt_le in Hge as [?| ->]; [done|by destruct Hne].
    - intros q Hq Hcq Hlt. eapply entry_order; [done..|]. specialize (Hall q Hq Hcq Hlt).
      destruct (ascending_head _ _ _ Hs Hall) as [E|E]; [by left|by right]. }
  destruct l as [|[k v] rest].
  - exists None. split; [|done]. intros q Hq Hc Hlt.
    assert ((bigEndianHeightBytes q, ConsensusStateKey q) ∈ @nil (string * string)) as ?%elem_of_nil; [|done].
    apply Hmem. exists q. split_and!; [done..| |done]. unfold height_lt in *. lia.
  - destruct (proj1 (Hmem (k, v))) as (p & Hp & Hc & Hge & [-> ->]%pair_equal_spec); [set_solver|].
    assert (Hall : ∀ q, height_wf q → is_Some (cons_at s q) → height_lt h q →
      (bigEndianHeightBytes q, ConsensusStateKey q) ∈ (bigEndianHeightBytes p, ConsensusStateKey p) :: rest).
    { intros q Hq Hcq Hlt. apply Hmem. exists q. split_and!; [done..| |done]. unfold height_lt in *. lia. }
    case_bool_decide as Heq.
    + apply ConsensusStateKey_inj in Heq as ->.
      assert (Hall' : ∀ q, height_wf q → is_Some (cons_at s q) → height_lt h q →
        (bigEndianHeightBytes q, ConsensusStateKey q) ∈ rest).
      { intros q Hq Hcq Hlt. specialize (Hall q Hq Hcq Hlt). apply elem_of_cons in Hall as [[E _]%pair_equal_spec|?]; [|done].
        apply bigEndianHeightBytes_inj in E as ->; [|done..]. by destruct (height_lt_irrefl h). }
      destruct rest as [|[k' v'] rest].
      * exists None. split; [|done]. intros q Hq Hcq Hlt. by specialize (Hall' q Hq Hcq Hlt) as ?%elem_of_nil.
      * apply (Hleast (k', v') rest); [by apply StronglySorted_inv in Hasc as [? _]|set_solver|exact Hall'|].
        intros q [-> ->]%pair_equal_spec Hq ->. apply StronglySorted_inv in Hasc as [_ Hf].
        apply Forall_cons in Hf as [Hf _]. unfold entry_lt in Hf. cbn [fst] in Hf. by rewrite bytes_lt_irrefl in Hf.
    + apply (Hleast (bigEndianHeightBytes p, ConsensusStateKey p) rest); [done|done|exact Hall|].
      intros q [_ E]%pair_equal_spec Hq ->. by rewrite E in Heq.
Qed.
End index.

(** ** Changing one height *)
Section change.
Context {SE : SdkEncoding} {IC : Ics23} {TL : TendermintLib} {TC : TmCodec}.
Import ibctmtypes tmstore.

(** The keys of consensus states, their metadata and the index. *)
Definition tm_key (k : string) : bool :=
  HasPrefix k (KeyConsensusStatePrefix +:+ "/") || HasPrefix k KeyIterateConsensusStatePrefix.
Definition key_of (h : Height) (k : string) : Prop :=
  k = ConsensusStateKey h ∨ k = ProcessedTimeKey h ∨ k = ProcessedHeightKey h ∨ k = IterationKey h.

(** [s'] is [s] but for the consensus state at [h] and what is not part of the index. *)
Definition same_but (h : Height) (s s' : KVStore) : Prop :=
  ∀ k, tm_key k = true → ¬ key_of h k → s' !! k = s !! k.

(** The consensus state at [h] is there with all its metadata, or is not there at all. *)
Definition complete_at (s : KVStore) (h : Height) : Prop :=
  is_Some (cons_at s h) ∧ indexed s h ∧ is_Some (GetProcessedTime s h) ∧ is_Some (GetProcessedHeight s h).
Definition absent_at (s : KVStore) (h : Height) : Prop :=
  s !! ConsensusStateKey h = None ∧ s !! IterationKey h = None.

Lemma tm_key_below h x : tm_key (ConsensusStateKey h +:+ x) = true.
Proof.
  unfold tm_key, ConsensusStateKey, ConsensusStatePath. rewrite !app_assoc_str, <- (app_assoc_str _ "/").
  by rewrite HasPrefix_app.
Qed.
Lemma tm_key_cons h : tm_key (ConsensusStateKey h) = true.
Proof. rewrite <- (app_nil_r_str (ConsensusStateKey h)). apply tm_key_below. Qed.
Lemma tm_key_time h : tm_key (ProcessedTimeKey h) = true.
Proof. apply tm_key_below. Qed.
Lemma tm_key_height h : tm_key (ProcessedHeightKey h) = true.
Proof. apply tm_key_below. Qed.
Lemma tm_key_iter h : tm_key (IterationKey h) = true.
Proof. unfold tm_key, IterationKey. rewrite (HasPrefix_app KeyIterateConsensusStatePrefix). apply orb_true_r. Qed.
Hint Resolve tm_key_cons tm_key_time tm_key_height tm_key_iter : tmkeys.

Lemma other_height_cons h h' : h ≠ h' → ¬ key_of h (ConsensusStateKey h').
Proof.
  intros Hne [E|[E|[E|E]]]; [by apply Hne; apply ConsensusStateKey_inj in E|by eapply cons_time_ne|
    by eapply cons_height_ne|by eapply cons_iter_ne].
Qed.
Lemma other_height_time h h' : h ≠ h' → ¬ key_of h (ProcessedTimeKey h').
Proof.
  intros Hne [E|[E|[E|E]]]; [by eapply cons_time_ne|by apply Hne; apply ProcessedTimeKey_inj in E|
    by eapply time_height_ne|by eapply time_iter_ne].
Qed.
Lemma other_height_height h h' : h ≠ h' → ¬ key_of h (ProcessedHeightKey h').
Proof.
  intros Hne [E|[E|[E|E]]]; [by eapply cons_height_ne|by eapply time_height_ne|
    by apply Hne; apply ProcessedHeightKey_inj in E|by eapply height_iter_ne].
Qed.
Lemma other_height_iter h h' : height_wf h → height_wf h' → h ≠ h' → ¬ key_of h (IterationKey h').
Proof.
  intros Hh Hh' Hne [E|[E|[E|E]]]; [by eapply cons_iter_ne|by eapply time_iter_ne|by eapply height_iter_ne|].
  by apply Hne; apply IterationKey_inj in E.
Qed.

(** Nothing changes at other heights. *)
Lemma same_but_other h s s' h' :
  same_but h s s' → height_wf h → height_wf h' → h ≠ h' →
  cons_at s' h' = cons_at s h' ∧ s' !! ConsensusStateKey h' = s !! ConsensusStateKey h' ∧
  (indexed s' h' ↔ indexed s h') ∧ GetProcessedTime s' h' = GetProcessedTime s h' ∧
  GetProcessedHeight s' h' = GetProcessedHeight s h'.
Proof.
  intros Hs Hh Hh' Hne. unfold cons_at, indexed, GetProcessedTime, GetProcessedHeight.
  rewrite !Hs; [done|auto using tm_key_iter, other_height_iter, tm_key_height, other_height_height,
    tm_key_time, other_height_time, tm_key_cons, other_height_cons..].
Qed.

Lemma tm_wf_change h s s' :
  tm_wf s → height_wf h → same_but h s s' → complete_at s' h ∨ absent_at s' h → tm_wf s'.
Proof.
  intros W Hh Hs Hnew. split.
  - intros k v Hk Hpre. destruct (decide (k = IterationKey h)) as [->|Hne].
    + exists h. split_and!; [done|done|]. destruct Hnew as [(_ & Hi & _)|[_ Hi]]; unfold indexed in *; congruence.
    + apply (wf_iter _ W k v); [|done]. rewrite <- Hs; [done| |].
      * unfold tm_key. rewrite Hpre. apply orb_true_r.
      * intros [-> | [-> | [-> | ->]]]; try done; by simpl in Hpre.
  - intros h' Hh' Hi. destruct (decide (h = h')) as [->|Hne].
    + destruct Hnew as [(? & _)|[_ Hn]]; [done|]. unfold indexed in Hi. congruence.
    + destruct (same_but_other _ _ _ _ Hs Hh Hh' Hne) as (-> & _ & Hi' & _). by apply (wf_cons _ W), Hi'.
  - intros h' Hh' Hi. destruct (decide (h = h')) as [->|Hne].
    + destruct Hnew as [(_ & _ & ? & ?)|[_ Hn]]; [done|]. unfold indexed in Hi. congruence.
    + destruct (same_but_other _ _ _ _ Hs Hh Hh' Hne) as (_ & _ & Hi' & -> & ->). by apply (wf_meta _ W), Hi'.
  - intros h' Hh' Hc. destruct (decide (h = h')) as [->|Hne].
    + destruct Hnew as [(_ & ? & _)|[Hn _]]; [done|]. rewrite Hn in Hc. by destruct Hc.
    + destruct (same_but_other _ _ _ _ Hs Hh Hh' Hne) as (_ & E & Hi' & _). apply Hi', (wf_index _ W); [done|].
      by rewrite <- E.
Qed.

(** Removing a height keeps times increasing. *)
Lemma times_remove h s s' :
  times_increase s → height_wf h → same_but h s s' → absent_at s' h → times_increase s'.
Proof.
  intros Ht Hh Hs [Ha _] h1 h2 c1 c2 H1 H2 Hc1 Hc2.
  assert (∀ h' c, height_wf h' → cons_at s' h' = Some c → cons_at s h' = Some c) as Hold.
  { intros h' c Hh' Hc. destruct (decide (h = h')) as [->|Hne].
    - unfold cons_at in Hc. by rewrite Ha in Hc.
    - by destruct (same_but_other _ _ _ _ Hs Hh Hh' Hne) as (<- & _). }
  eauto.
Qed.

(** So does adding one whose time lies strictly between its neighbours'. *)
Lemma times_add h c s s' :
  times_increase s → height_wf h → same_but h s s' → cons_at s' h = Some c →
  (∀ q cq, height_wf q → cons_at s q = Some cq → height_lt q h → (Timestamp cq < Timestamp c)%Z) →
  (∀ q cq, height_wf q → cons_at s q = Some cq → height_lt h q → (Timestamp c < Timestamp cq)%Z) →
  times_increase s'.
Proof.
  intros Ht Hh Hs Hc Hlow Hhigh h1 h2 c1 c2 H1 H2 Hc1 Hc2 Hlt.
  assert (∀ h' x, height_wf h' → h ≠ h' → cons_at s' h' = Some x → cons_at s h' = Some x) as Hold.
  { intros h' x Hh' Hne Hx. by destruct (same_but_other _ _ _ _ Hs Hh Hh' Hne) as (<- & _). }
  destruct (decide (h = h1)) as [E1|Hne1].
  { subst h1. assert (h ≠ h2) by (intros ->; by destruct (height_lt_irrefl h2)). simplify_eq. eauto. }
  destruct (decide (h = h2)) as [E2|Hne2]; [subst h2; simplify_eq; eauto|eauto].
Qed.

Lemma same_but_refl h s : same_but h s s.
Proof. by intros k _ _. Qed.
Lemma same_but_trans h s1 s2 s3 : same_but h s1 s2 → same_but h s2 s3 → same_but h s1 s3.
Proof. intros H1 H2 k Hk Hn. by rewrite H2, H1. Qed.
Lemma same_but_insert h k v s : key_of h k ∨ tm_key k = false → same_but h s (<[k := v]> s).
Proof. intros Hk k' Hk' Hn. apply lookup_insert_ne. intros ->. destruct Hk; [done|congruence]. Qed.
Lemma same_but_delete h k s : key_of h k ∨ tm_key k = false → same_but h s (delete k s).
Proof. intros Hk k' Hk' Hn. apply lookup_delete_ne. intros ->. destruct Hk; [done|congruence]. Qed.

(** ** The writes *)
Definition put_metadata (h ph : Height) (t : N) (s : KVStore) : KVStore :=
  <[IterationKey h := ConsensusStateKey h]> (<[ProcessedHeightKey h := Height_String ph]>
    (<[ProcessedTimeKey h := Uint64ToBigEndian t]> s)).
Definition remove_height (h : Height) (s : KVStore) : KVStore :=
  delete (IterationKey h) (delete (ProcessedHeightKey h) (delete (ProcessedTimeKey h) (delete (ConsensusStateKey h) s))).

Lemma setConsensusMetadataWithValues_run h ph t s :
  setConsensusMetadataWithValues h ph t s = (put_metadata h ph t s, Ok tt).
Proof. done. Qed.

Lemma remove_height_run h s :
  (deleteConsensusState h ;;; deleteConsensusMetadata h) s = (remove_height h s, Ok tt).
Proof. done. Qed.

Lemma GetSelfHeight_wf ctx h : GetSelfHeight ctx = Ok h → height_wf h.
Proof.
  unfold GetSelfHeight, ParseChainID. intros E.
  assert (∀ z, (uint64_of_Z z < two64)%N) as Hz.
  { intros z. unfold uint64_of_Z, two64. pose proof (Z.mod_pos_bound z 18446744073709551616 ltac:(lia)). lia. }
  destruct (negb _); simplify_eq; [by split; simpl|].
  destruct (ParseUint _) eqn:Ep; simplify_eq. split; simpl; [by eapply ParseUint_bound|apply Hz].
Qed.

Lemma same_but_metadata h ph t s : same_but h s (put_metadata h ph t s).
Proof.
  unfold put_metadata. eapply same_but_trans; [|apply same_but_insert; left; unfold key_of; tauto].
  eapply same_but_trans; [|apply same_but_insert; left; unfold key_of; tauto].
  apply same_but_insert. left. unfold key_of. tauto.
Qed.
Lemma same_but_remove h s : same_but h s (remove_height h s).
Proof.
  unfold remove_height. eapply same_but_trans; [|apply same_but_delete; left; unfold key_of; tauto].
  eapply same_but_trans; [|apply same_but_delete; left; unfold key_of; tauto].
  eapply same_but_trans; [|apply same_but_delete; left; unfold key_of; tauto].
  apply same_but_delete. left. unfold key_of. tauto.
Qed.

Lemma remove_height_absent h s : absent_at (remove_height h s) h.
Proof.
  unfold remove_height. split.
  - rewrite !lookup_delete_ne by eauto with tmkeys. apply lookup_delete_eq.
  - apply lookup_delete_eq.
Qed.

(** Metadata with a consensus state is all there is at a height. *)
Lemma complete_put h ph t s s' c :
  height_wf ph → (∀ k, key_of h k → k ≠ ConsensusStateKey h → s' !! k = put_metadata h ph t s !! k) →
  cons_at s' h = Some c → complete_at s' h.
Proof.
  intros Hph Hs Hc. unfold complete_at, indexed, GetProcessedTime, GetProcessedHeight.
  rewrite !Hs by (unfold key_of; eauto with tmkeys). unfold put_metadata.
  rewrite lookup_insert_eq, (lookup_insert_ne _ (IterationKey h) (ProcessedTimeKey h)),
    (lookup_insert_ne _ (ProcessedHeightKey h) (ProcessedTimeKey h)), lookup_insert_eq,
    (lookup_insert_ne _ (IterationKey h) (ProcessedHeightKey h)), lookup_insert_eq by eauto with tmkeys.
  rewrite ParseHeight_String_eq by done. rewrite Hc. split_and!; eauto.
Qed.

(** ** Visiting the heights in order *)

(** The loop over the heights themselves. *)
Fixpoint height_loop {A} (cb : Height → A → A * bool) (hs : list Height) (a : A) : A :=
  match hs with
  | [] => a
  | h :: hs' => let '(a', stop) := cb h a in if stop : bool then a' else height_loop cb hs' a'
  end.

(** On a well-formed store the iteration visits exactly the heights with a consensus
    state, in increasing order, and does not panic. *)
Lemma iterate_spec s :
  tm_wf s → ∃ hs, Forall height_wf hs ∧ StronglySorted height_lt hs ∧
    (∀ h, h ∈ hs ↔ height_wf h ∧ is_Some (cons_at s h)) ∧
    ∀ A (cb : Height → A → A * bool) a, IterateConsensusStateAscending s cb a = Ok (height_loop cb hs a).
Proof.
  intros W. unfold IterateConsensusStateAscending, PrefixIterator.
  assert (Hasc := filter_ascending (λ kv, HasPrefix kv.1 KeyIterateConsensusStatePrefix = true) _ (entries_ascending s)).
  assert (Hmem : ∀ kv, kv ∈ filter (λ kv, HasPrefix kv.1 KeyIterateConsensusStatePrefix = true) (entries s) ↔
    ∃ h, height_wf h ∧ is_Some (cons_at s h) ∧ kv = (IterationKey h, ConsensusStateKey h)).
  { intros [k v]. rewrite list_elem_of_filter, elem_of_entries. cbn [fst]. split.
    - intros [Hp Hk]. destruct (wf_iter _ W _ _ Hk Hp) as (h & Hh & -> & ->). exists h.
      split_and!; [done|by apply cons_at_indexed|done].
    - intros (h & Hh & Hc & [-> ->]%pair_equal_spec). split; [apply HasPrefix_app|]. by apply cons_at_indexed in Hc. }
  revert Hasc Hmem. generalize (filter (λ kv, HasPrefix kv.1 KeyIterateConsensusStatePrefix = true) (entries s)).
  intros l Hasc Hmem.
  assert (∀ kv, kv ∈ l → ∃ h, height_wf h ∧ kv = (IterationKey h, ConsensusStateKey h)) as Hl by naive_solver.
  assert (∃ hs, Forall height_wf hs ∧ StronglySorted height_lt hs ∧
    l = (λ h, (IterationKey h, ConsensusStateKey h)) <$> hs) as (hs & Hwf & Hs & ->).
  { clear Hmem W. induction Hasc as [|kv l Hasc IH Hall]; [by exists []; repeat constructor|].
    destruct (Hl kv) as (h & Hh & ->); [set_solver|]. destruct IH as (hs & Hwf & Hs & ->); [set_solver|].
    exists (h :: hs). split_and!; [by constructor| |done]. constructor; [done|].
    rewrite Forall_fmap in Hall. rewrite list.Forall_forall in *. intros h' Hh'.
    specialize (Hall h' Hh'). unfold entry_lt, IterationKey in Hall. cbn [fst compose] in Hall.
    rewrite bytes_lt_prefix, bigEndianHeightBytes_lt in Hall; auto. }
  exists hs. split_and!; [done|done| |].
  - intros h. split.
    + intros Hin. rewrite list.Forall_forall in Hwf. specialize (Hwf _ Hin). split; [done|].
      destruct (proj1 (Hmem (IterationKey h, ConsensusStateKey h))) as (h' & Hh' & Hc & [E _]%pair_equal_spec).
      { apply list_elem_of_fmap. eauto. }
      by apply IterationKey_inj in E as ->.
    + intros [Hh Hc]. assert ((IterationKey h, ConsensusStateKey h) ∈
        (λ h, (IterationKey h, ConsensusStateKey h)) <$> hs) as Hin by (apply Hmem; eauto).
      apply list_elem_of_fmap in Hin as (h' & [E _]%pair_equal_spec & Hin).
      rewrite list.Forall_forall in Hwf. apply IterationKey_inj in E as ->; auto.
  - intros A cb a. clear Hl Hmem Hasc Hs. revert a. induction Hwf as [|h hs Hh Hwf IH]; intros a; [done|].
    cbn [fmap list_fmap ascending_loop height_loop]. rewrite GetHeightFromIterationKey_eq by done. cbn [outcome_bind].
    destruct (cb h a) as [a' []]; [done|]. apply IH.
Qed.
End change.
