(* ===== verification/TendermintUpdate.v ===== *)
(** * Header updates of the Tendermint client

    What [CheckHeaderAndUpdateState] does on every branch, on well-formed client stores;
    that looking at the two neighbouring heights finds every contradiction with the
    stored consensus states; and that pruning removes expired consensus states only. *)
From S2P Require Import Prelude GoMonad Errors Sha256 Height Host Sdk ConnectionTypes.
From S2P Require Import ChannelTypes.
From S2P Require Import Exported ClientKeeper Commitment TendermintTypes Iteration.
From S2P Require Import TendermintStore.
From S2P Require Import TendermintClient TendermintIndex.
From stdpp Require Import sorting.

Section update.
Context {SE : SdkEncoding} {IC : Ics23} {TL : TendermintLib} {TC : TmCodec}.
Import ibctmtypes tmstore ibctm.

(** ** Pruning *)

(** [h] is the least height with a consensus state. *)
Definition earliest (s : KVStore) (h : Height) : Prop :=
  height_wf h ∧ is_Some (cons_at s h) ∧
  ∀ q, height_wf q → is_Some (cons_at s q) → height_le h q.

Definition expired_at (ctx : Context) (cs : ClientState) (s : KVStore) (h : Height) : Prop :=
  ∃ c, cons_at s h = Some c ∧ IsExpired cs (Timestamp c) (BlockTime ctx) = true.

#[export] Instance expired_at_dec ctx cs s h : Decision (expired_at ctx cs s h).
Proof.
  unfold expired_at. destruct (cons_at s h) as [c|].
  - destruct (decide (IsExpired cs (Timestamp c) (BlockTime ctx) = true)); [left; eauto|right; naive_solver].
  - right. naive_solver.
Defined.

(** [s'] is [s] after the pruning step of an update. *)
Definition pruned (ctx : Context) (cs : ClientState) (s s' : KVStore) : Prop :=
  (∃ h, earliest s h ∧ expired_at ctx cs s h ∧ s' = remove_height h s) ∨
  (s' = s ∧ ∀ h, earliest s h → ¬ expired_at ctx cs s h).

Lemma earliest_head s h hs :
  StronglySorted height_lt (h :: hs) → (∀ q, q ∈ h :: hs ↔ height_wf q ∧ is_Some (cons_at s q)) → earliest s h.
Proof.
  intros Hs Hmem. destruct (proj1 (Hmem h)) as [Hh Hc]; [set_solver|]. split_and!; [done..|].
  intros q Hq Hcq. assert (q ∈ h :: hs) as [->|Hin]%elem_of_cons by (by apply Hmem); [by right|left].
  apply StronglySorted_inv in Hs as [_ Hall]. rewrite list.Forall_forall in Hall. by apply Hall.
Qed.

Lemma earliest_unique s h h' : earliest s h → earliest s h' → h = h'.
Proof.
  intros (Hh & Hc & Hle) (Hh' & Hc' & Hle'). destruct (Hle _ Hh' Hc') as [H1|]; [|done].
  destruct (Hle' _ Hh Hc) as [H2|]; [|done]. destruct (height_lt_irrefl h). by eapply height_lt_trans.
Qed.

Lemma prune_earliest_run ctx cs s :
  tm_wf s → ∃ s', pruned ctx cs s s' ∧ prune_earliest ctx cs s = (s', Ok tt).
Proof.
  intros W. destruct (iterate_spec s W) as (hs & Hwf & Hs & Hmem & Hit).
  unfold prune_earliest, bind at 1, gets, id. unfold bind at 1, lift. rewrite Hit.
  destruct hs as [|h hs]; cbn [height_loop].
  - exists s. split; [|done]. right. split; [done|]. intros h (Hh & Hc & _).
    assert (h ∈ @nil Height) as ?%elem_of_nil by (by apply Hmem). done.
  - pose proof (earliest_head _ _ _ Hs Hmem) as He. pose proof He as (Hh & [c Hc] & _).
    unfold updatePruneCb. pose proof Hc as Hg. apply cons_at_GetConsensusState in Hg. rewrite Hg.
    destruct (IsExpired cs (Timestamp c) (BlockTime ctx)) eqn:Ex.
    + exists (remove_height h s). split; [|apply remove_height_run]. left. exists h.
      split_and!; [done|by exists c|done].
    + exists s. split; [|done]. right. split; [done|]. intros h' He' (c' & Hc' & Ex').
      rewrite (earliest_unique _ _ _ He' He) in Hc'. congruence.
Qed.

Lemma pruned_wf ctx cs s s' : tm_wf s → pruned ctx cs s s' → tm_wf s'.
Proof.
  intros W [(h & (Hh & _) & _ & ->)|[-> _]]; [|done].
  eapply tm_wf_change; [done|exact Hh|apply same_but_remove|right; apply remove_height_absent].
Qed.
Lemma pruned_times ctx cs s s' : times_increase s → pruned ctx cs s s' → times_increase s'.
Proof.
  intros Ht [(h & (Hh & _) & _ & ->)|[-> _]]; [|done].
  eapply times_remove; [done|exact Hh|apply same_but_remove|apply remove_height_absent].
Qed.
(** Pruning adds no consensus state. *)
Lemma pruned_subset ctx cs s s' h c : pruned ctx cs s s' → height_wf h → cons_at s' h = Some c → cons_at s h = Some c.
Proof.
  intros [(e & (He & _) & _ & ->)|[-> _]] Hh Hc; [|done]. destruct (decide (e = h)) as [->|Hne].
  - unfold cons_at in Hc. by rewrite (proj1 (remove_height_absent h s)) in Hc.
  - by destruct (same_but_other _ _ _ _ (same_but_remove e s) He Hh Hne) as (<- & _).
Qed.

(** ** Contradictions *)

(** The consensus state [c] at [h] contradicts one that is stored: another one at the
    same height, or one whose time is not on the same side as its height. *)
Definition contradicts (s : KVStore) (h : Height) (c : ConsensusState) : Prop :=
  ∃ q cq, height_wf q ∧ cons_at s q = Some cq ∧
    (q = h ∧ cq ≠ c ∨ height_lt q h ∧ (Timestamp c <= Timestamp cq)%Z ∨
     height_lt h q ∧ (Timestamp cq <= Timestamp c)%Z).

(** The check of the code: the consensus state at [h], and the two neighbours. *)
Definition conflict_found (s : KVStore) (h : Height) (c : ConsensusState) : bool :=
  negb (is_nil (cons_at s h)) || breaks_previous s h c || breaks_next s h c.

Lemma conflict_found_spec s h c :
  tm_wf s → times_increase s → height_wf h → cons_at s h ≠ Some c →
  conflict_found s h c = true ↔ contradicts s h c.
Proof.
  intros W Ht Hh Hne. unfold conflict_found, breaks_previous, breaks_next.
  destruct (previous_consensus_spec s h W Hh) as (op & Hp & ->).
  destruct (next_consensus_spec s h W Hh) as (on & Hn & ->).
  split.
  - rewrite !orb_true_iff. intros [[H|H]|H].
    + destruct (cons_at s h) as [c'|] eqn:E; [|done]. exists h, c'. split_and!; [done..|]. left. split; [done|congruence].
    + destruct op as [p|]; [|done]. simpl in H. destruct Hp as (Hpw & [cp Hcp] & Hlt & _). rewrite Hcp in H.
      exists p, cp. split_and!; [done..|]. right. left. split; [done|]. apply negb_true_iff, Z.ltb_ge in H. lia.
    + destruct on as [p|]; [|done]. simpl in H. destruct Hn as (Hpw & [cp Hcp] & Hlt & _). rewrite Hcp in H.
      exists p, cp. split_and!; [done..|]. right. right. split; [done|]. apply negb_true_iff, Z.ltb_ge in H. lia.
  - intros (q & cq & Hq & Hcq & [[-> _]|[[Hlt Hts]|[Hlt Hts]]]); rewrite !orb_true_iff.
    + left. left. by rewrite Hcq.
    + left. right. destruct op as [p|]; [|by destruct (Hp q Hq (mk_is_Some _ _ Hcq) Hlt)].
      destruct Hp as (Hpw & [cp Hcp] & Hltp & Hle). simpl. rewrite Hcp. apply negb_true_iff, Z.ltb_ge.
      destruct (Hle q Hq (mk_is_Some _ _ Hcq) Hlt) as [Hqp| ->]; [|naive_solver lia].
      pose proof (Ht _ _ _ _ Hq Hpw Hcq Hcp Hqp). lia.
    + right. destruct on as [p|]; [|by destruct (Hn q Hq (mk_is_Some _ _ Hcq) Hlt)].
      destruct Hn as (Hpw & [cp Hcp] & Hltp & Hle). simpl. rewrite Hcp. apply negb_true_iff, Z.ltb_ge.
      destruct (Hle q Hq (mk_is_Some _ _ Hcq) Hlt) as [Hqp| ->]; [|naive_solver lia].
      pose proof (Ht _ _ _ _ Hpw Hq Hcp Hcq Hqp). lia.
Qed.

(** ** The update *)

(** The header is valid for the consensus state at its trusted height. *)
Definition trusted_check (ctx : Context) (cs : ClientState) (hd : Header) (s : KVStore) : outcome unit :=
  let? trusted := outcome_wrap (GetConsensusState s (TrustedHeight hd)) in
  checkValidity cs trusted hd (BlockTime ctx).

Definition advance (h : Height) (cs : ClientState) : ClientState :=
  if GT h (LatestHeight cs) then set_latest h cs else cs.

Lemma Header_GetHeight_wf hd h : Header_GetHeight hd = Ok h → height_wf h.
Proof.
  unfold Header_GetHeight. intros E. out_inv.
  match goal with H : ParseChainID ?c = Ok _ |- _ =>
    pose proof (GetSelfHeight_wf (mkContext c (hdr_Height x) 0 false false)) as Hw; unfold GetSelfHeight in Hw; simpl in Hw;
    rewrite H in Hw end.
  by apply Hw.
Qed.

Lemma update_run ctx cs hd s h c self :
  Header_GetHeight hd = Ok h → Header_ConsensusState hd = Ok c → GetSelfHeight ctx = Ok self →
  update ctx cs hd s = (put_metadata h self (uint64_of_Z (BlockTime ctx)) s, Ok (advance h cs, c)).
Proof.
  intros Hh Hc Hself. unfold update, setConsensusMetadata. unfold bind at 1, lift. rewrite Hh.
  unfold bind at 1. rewrite Hc. unfold bind at 1, bind at 1. rewrite Hself.
  rewrite setConsensusMetadataWithValues_run. done.
Qed.

(** The update, with the three tests for misbehaviour as one. *)
Lemma CheckHeader_eq ctx cs hd s h c :
  Header_GetHeight hd = Ok h → Header_ConsensusState hd = Ok c →
  tm_CheckHeaderAndUpdateState ctx cs (Some hd) s =
  if bool_decide (cons_at s h = Some c) then (s, Ok (cs, c))
  else match trusted_check ctx cs hd s with
       | Ok _ => if conflict_found s h c then (s, Ok (frozen cs, c))
                 else (prune_earliest ctx cs ;;; update ctx cs hd) s
       | Err e => (s, Err e)
       | Panic => (s, Panic)
       end.
Proof.
  intros Hh Hc. unfold tm_CheckHeaderAndUpdateState, bind at 1, gets, id. unfold bind at 1, lift. rewrite Hh.
  cbv zeta. rewrite cons_at_option. unfold bind at 1. rewrite Hc. case_bool_decide; [done|].
  unfold trusted_check, bind at 1, wrap_err. destruct (GetConsensusState s (TrustedHeight hd)) as [t|e|]; [|done..].
  cbn [outcome_wrap outcome_bind]. unfold bind at 1. destruct (checkValidity cs t hd (BlockTime ctx)); [|done..].
  unfold conflict_found. destruct (negb (is_nil (cons_at s h))); [done|].
  destruct (breaks_previous s h c); [done|]. by destruct (breaks_next s h c).
Qed.

(** C24: The outcome of [CheckHeaderAndUpdateState] on every branch, for a client store that
    is well-formed and whose times increase with height.  A header that is already
    stored changes nothing; a header that is not valid against its trusted consensus
    state is rejected and changes nothing; a valid header that contradicts any stored
    consensus state freezes the client, although the code only looks at the header's
    height and its two neighbours; any other valid header prunes the earliest consensus
    state if that has expired, records the metadata of the new height and advances the
    latest height. *)
Theorem header_update_spec ctx cs hd s h c self :
  tm_wf s → times_increase s →
  Header_GetHeight hd = Ok h → Header_ConsensusState hd = Ok c → GetSelfHeight ctx = Ok self →
  let r := tm_CheckHeaderAndUpdateState ctx cs (Some hd) s in
  (cons_at s h = Some c → r = (s, Ok (cs, c))) ∧
  (cons_at s h ≠ Some c →
     (∀ e, trusted_check ctx cs hd s = Err e → r = (s, Err e)) ∧
     (trusted_check ctx cs hd s = Ok tt →
        (contradicts s h c → r = (s, Ok (frozen cs, c))) ∧
        (¬ contradicts s h c → ∃ s1, pruned ctx cs s s1 ∧
           r = (put_metadata h self (uint64_of_Z (BlockTime ctx)) s1, Ok (advance h cs, c))))).
Proof.
  intros W Ht Hh Hc Hself r. pose proof (Header_GetHeight_wf _ _ Hh) as Hw. unfold r.
  rewrite (CheckHeader_eq ctx cs hd s h c Hh Hc). split.
  { intros E. by rewrite bool_decide_eq_true_2. }
  intros Hne. rewrite bool_decide_eq_false_2 by done.
  pose proof (conflict_found_spec s h c W Ht Hw Hne) as Hcf. split; [by intros e ->|]. intros ->. split.
  - intros Hcon. by rewrite (proj2 Hcf Hcon).
  - intros Hcon. destruct (conflict_found s h c); [by destruct Hcon; apply Hcf|].
    destruct (prune_earliest_run ctx cs s W) as (s1 & Hp & Hrun). exists s1. split; [done|].
    unfold bind. rewrite Hrun. by apply update_run.
Qed.

(** ** Pruning everything *)

Lemma prune_loop ctx cs s hs acc :
  (∀ h, h ∈ hs → is_Some (cons_at s h)) →
  height_loop (pruneCb ctx s cs) hs acc = acc ++ filter (expired_at ctx cs s) hs.
Proof.
  revert acc. induction hs as [|h hs IH]; intros acc Hc; [by rewrite app_nil_r|]. cbn [height_loop].
  destruct (Hc h) as [c Hh]; [set_solver|]. unfold pruneCb at 1. pose proof Hh as Hg.
  apply cons_at_GetConsensusState in Hg. rewrite Hg. rewrite filter_cons.
  destruct (IsExpired cs (Timestamp c) (BlockTime ctx)) eqn:Ex.
  - rewrite IH by set_solver. rewrite decide_True by (by exists c). by rewrite <- app_assoc.
  - rewrite IH by set_solver. rewrite decide_False; [done|]. intros (c' & Hc' & Ex'). congruence.
Qed.

Lemma delete_heights_run hs s : delete_heights hs s = (foldl (λ s h, remove_height h s) s hs, Ok tt).
Proof.
  revert s. induction hs as [|h hs IH]; intros s; [done|]. cbn [delete_heights foldl]. rewrite <- IH. done.
Qed.

Lemma remove_heights_wf hs s :
  tm_wf s → Forall height_wf hs → tm_wf (foldl (λ s h, remove_height h s) s hs).
Proof.
  revert s. induction hs as [|h hs IH]; intros s W Hwf; [done|]. apply Forall_cons in Hwf as [Hh Hwf].
  apply IH; [|done]. eapply tm_wf_change; [done|exact Hh|apply same_but_remove|right; apply remove_height_absent].
Qed.

#[export] Instance key_of_dec h k : Decision (key_of h k).
Proof. unfold key_of. apply _. Defined.

Lemma remove_height_lookup h s k :
  remove_height h s !! k = if decide (key_of h k) then None else s !! k.
Proof.
  unfold remove_height, key_of. rewrite !lookup_delete. repeat case_decide; naive_solver.
Qed.

(** The keys of the removed heights are gone, all others are as before. *)
Lemma remove_heights_lookup hs s k :
  foldl (λ s h, remove_height h s) s hs !! k = if decide (Exists (λ h, key_of h k) hs) then None else s !! k.
Proof.
  revert s. induction hs as [|h hs IH]; intros s.
  { case_decide as H; [by apply Exists_nil in H|done]. }
  cbn [foldl]. rewrite IH, remove_height_lookup. repeat case_decide; rewrite ?Exists_cons in *; naive_solver.
Qed.

(** Pruning deletes exactly the expired consensus states. *)
Lemma prune_all_run ctx cs s :
  tm_wf s →
  ∃ s', PruneAllExpiredConsensusStates ctx cs s = (s', Ok tt) ∧ tm_wf s' ∧
    (∀ h k, height_wf h → expired_at ctx cs s h → key_of h k → s' !! k = None) ∧
    (∀ k, (∀ h, height_wf h → expired_at ctx cs s h → ¬ key_of h k) → s' !! k = s !! k).
Proof.
  intros W. destruct (iterate_spec s W) as (hs & Hwf & Hs & Hmem & Hit).
  set (ex := filter (expired_at ctx cs s) hs).
  assert (Hex : ∀ h, h ∈ ex ↔ height_wf h ∧ expired_at ctx cs s h).
  { intros h. unfold ex. rewrite list_elem_of_filter, Hmem. unfold expired_at. naive_solver. }
  exists (foldl (λ s h, remove_height h s) s ex). split_and!.
  - unfold PruneAllExpiredConsensusStates, bind at 1, gets, id. unfold bind at 1, lift. rewrite Hit, prune_loop.
    + apply delete_heights_run.
    + intros h Hh. by apply Hmem in Hh as [_ ?].
  - apply remove_heights_wf; [done|]. apply list.Forall_forall. intros h Hh. by apply Hex in Hh as [? _].
  - intros h k Hh He Hk. rewrite remove_heights_lookup, decide_True; [done|]. apply Exists_exists. exists h.
    split; [by apply Hex|done].
  - intros k Hk. rewrite remove_heights_lookup, decide_False; [done|]. intros (h & Hh & Hkh)%Exists_exists.
    apply Hex in Hh as [Hw He]. by apply (Hk h).
Qed.

(** C31: [PruneAllExpiredConsensusStates] on a well-formed client store terminates without
    error and deletes exactly the expired consensus states with their metadata and
    iteration keys: every key of an expired height is gone, every other key of the store
    is unchanged, and the store stays well-formed. *)
Theorem prune_all_spec ctx cs s :
  tm_wf s →
  ∃ s', PruneAllExpiredConsensusStates ctx cs s = (s', Ok tt) ∧ tm_wf s' ∧
    (∀ h k, height_wf h → expired_at ctx cs s h → key_of h k → s' !! k = None) ∧
    (∀ k, (∀ h, height_wf h → expired_at ctx cs s h → ¬ key_of h k) → s' !! k = s !! k).
Proof. apply prune_all_run. Qed.
End update.
