(* ===== verification/TendermintProperties.v ===== *)
(** * The Tendermint client under the client keeper

    The invariant of a Tendermint client's store over whole runs of the client keeper
    ([consensus_times_increase]), and what misbehaviour does. *)
From S2P Require Import Prelude GoMonad Errors Sha256 Height Host Sdk ConnectionTypes.
From S2P Require Import ChannelTypes.
From S2P Require Import Exported ClientKeeper ConnectionKeeper ChannelSpec Noninterference.
From S2P Require Import ClientProperties.
From S2P Require Import Commitment TendermintTypes Iteration TendermintStore TendermintClient.
From S2P Require Import TendermintIndex.
From S2P Require Import TendermintUpdate.

(** The client keeper of a chain with Tendermint clients: the keeper and the client use
    the same codec. *)
Class TmChain {SE : SdkEncoding} {IC : Ics23} {TL : TendermintLib} {TC : TmCodec} {UT : UpgradeTypes} := {
  tm_codec :: @Codec tendermint;
  same_codec (c : ibctmtypes.ConsensusState) :
    @Marshal_ConsensusState tendermint tm_codec c = tm_Marshal_ConsensusState c }.

Section chain.
Context {SE : SdkEncoding} {IC : Ics23} {TL : TendermintLib} {TC : TmCodec} {UT : UpgradeTypes} {TM : TmChain}.
Context {CK : CapabilityKeeper} {AP : Application}.
Import ibctmtypes tmstore ibctm.
#[local] Existing Instance tendermint.

(** Only the index matters. *)
Definition same_index (s s' : KVStore) : Prop := ∀ k, tm_key k = true → s' !! k = s !! k.

Lemma same_index_cons s s' h : same_index s s' → cons_at s' h = cons_at s h.
Proof. intros H. unfold cons_at. by rewrite H by apply tm_key_cons. Qed.

Lemma same_index_wf s s' : same_index s s' → tm_wf s → tm_wf s'.
Proof.
  intros Hs W. assert (∀ h, same_but h s s') as Hb by (intros h k Hk _; by apply Hs).
  split.
  - intros k v Hk Hp. apply (wf_iter _ W); [|done]. rewrite <- Hs; [done|]. unfold tm_key. rewrite Hp. apply orb_true_r.
  - intros h Hh Hi. rewrite (same_index_cons _ _ _ Hs). apply (wf_cons _ W); [done|].
    unfold indexed in *. by rewrite <- Hs by apply tm_key_iter.
  - intros h Hh Hi. unfold GetProcessedTime, GetProcessedHeight. rewrite !Hs by apply tm_key_below.
    apply (wf_meta _ W); [done|]. unfold indexed in *. by rewrite <- Hs by apply tm_key_iter.
  - intros h Hh Hc. unfold indexed. rewrite Hs by apply tm_key_iter. apply (wf_index _ W); [done|].
    by rewrite <- Hs by apply tm_key_cons.
Qed.
Lemma same_index_times s s' : same_index s s' → times_increase s → times_increase s'.
Proof. intros Hs Ht h1 h2 c1 c2. rewrite !(same_index_cons _ _ _ Hs). apply Ht. Qed.
Lemma same_index_insert s k v : tm_key k = false → same_index s (<[k := v]> s).
Proof. intros Hk k' Hk'. apply lookup_insert_ne. intros ->. congruence. Qed.
Lemma same_index_trans s1 s2 s3 : same_index s1 s2 → same_index s2 s3 → same_index s1 s3.
Proof. intros H1 H2 k Hk. by rewrite H2, H1. Qed.

Definition empty_index (s : KVStore) : Prop := ∀ k, tm_key k = true → s !! k = None.

Lemma empty_index_wf s : empty_index s → tm_wf s.
Proof.
  intros H. split.
  - intros k v Hk Hp. rewrite H in Hk; [done|]. unfold tm_key. rewrite Hp. apply orb_true_r.
  - intros h _ Hi. unfold indexed in Hi. by rewrite H in Hi by apply tm_key_iter.
  - intros h _ Hi. unfold indexed in Hi. by rewrite H in Hi by apply tm_key_iter.
  - intros h _ [x Hx]. by rewrite H in Hx by apply tm_key_cons.
Qed.
Lemma empty_index_times s : empty_index s → times_increase s.
Proof. intros H h1 h2 c1 c2 _ _ Hc. unfold cons_at in Hc. by rewrite H in Hc by apply tm_key_cons. Qed.

(** A new consensus state with its metadata, written around writes that do not matter. *)
Lemma put_consensus h ph t c s s1 s2 :
  tm_encodable c → height_wf h → height_wf ph →
  same_index (put_metadata h ph t s) s1 → s2 = <[ConsensusStateKey h := tm_Marshal_ConsensusState c]> s1 →
  same_but h s s2 ∧ complete_at s2 h ∧ cons_at s2 h = Some c.
Proof.
  intros He Hh Hph Hs ->.
  assert (Hc : cons_at (<[ConsensusStateKey h := tm_Marshal_ConsensusState c]> s1) h = Some c).
  { unfold cons_at. rewrite lookup_insert_eq. simpl. by apply tm_consensus_roundtrip. }
  split_and!; [| |done].
  - eapply same_but_trans; [|apply same_but_insert; by left; left].
    eapply same_but_trans; [apply same_but_metadata|]. intros k Hk _. by apply Hs.
  - eapply complete_put; [exact Hph| |exact Hc]. intros k Hk Hne. rewrite lookup_insert_ne by done. apply Hs.
    destruct Hk as [-> |[-> |[-> | ->]]]; [apply tm_key_cons|apply tm_key_below|apply tm_key_below|apply tm_key_iter].
Qed.

(** Rewriting the consensus state that is there. *)
Lemma rewrite_consensus h c s s1 :
  same_index s s1 → cons_at s h = Some c → tm_wf s → times_increase s → height_wf h →
  let s2 := <[ConsensusStateKey h := tm_Marshal_ConsensusState c]> s1 in
  tm_wf s2 ∧ times_increase s2.
Proof.
  intros Hs Hc W Ht Hh s2.
  assert (He : tm_encodable c).
  { unfold cons_at in Hc. destruct (s !! ConsensusStateKey h); [|done]. by eapply tm_consensus_decoded. }
  assert (Hc2 : cons_at s2 h = Some c).
  { unfold s2, cons_at. rewrite lookup_insert_eq. simpl. by apply tm_consensus_roundtrip. }
  assert (Hsb : same_but h s s2).
  { intros k Hk Hn. unfold s2. rewrite lookup_insert_ne; [by apply Hs|]. intros <-. apply Hn. by left. }
  assert (Hi : indexed s h) by (apply cons_at_indexed; [done|done|by rewrite Hc]). split.
  - eapply tm_wf_change; [exact W|done|exact Hsb|left].
    destruct (wf_meta _ W h Hh Hi) as [Hpt Hph]. unfold complete_at, indexed, GetProcessedTime, GetProcessedHeight.
    assert (∀ k, k ≠ ConsensusStateKey h → tm_key k = true → s2 !! k = s !! k) as Hk.
    { intros k Hne Hk. unfold s2. rewrite lookup_insert_ne by done. by apply Hs. }
    rewrite Hc2. rewrite !Hk by (eauto with tmkeys || apply tm_key_iter || apply tm_key_below). split_and!; eauto.
  - eapply times_add; [exact Ht|done|exact Hsb|exact Hc2| |].
    + intros q cq Hq Hcq Hlt. by apply (Ht q h cq c).
    + intros q cq Hq Hcq Hlt. by apply (Ht h q c cq).
Qed.

(** ** Updates *)

Definition header_encodable (hd : option Header) : Prop :=
  ∀ h c, hd = Some h → Header_ConsensusState h = Ok c → tm_encodable c.

Lemma CheckHeader_header ctx cs hd s s' cs' c :
  tm_CheckHeaderAndUpdateState ctx cs hd s = (s', Ok (cs', c)) →
  ∃ h0 h c0, hd = Some h0 ∧ Header_GetHeight h0 = Ok h ∧ Header_ConsensusState h0 = Ok c0.
Proof.
  unfold tm_CheckHeaderAndUpdateState. destruct hd as [h0|]; [|done]. intros E.
  exists h0. go_inv. eauto.
Qed.

Lemma not_frozen_status ctx s cs : FrozenHeight cs = ZeroHeight → tm_Status ctx s cs ≠ Frozen.
Proof. intros H. unfold tm_Status. rewrite H. simpl. repeat case_match; done. Qed.
Lemma frozen_status ctx s cs : tm_Status ctx s (frozen cs) = Frozen.
Proof. done. Qed.

Lemma Active_not_frozen ctx s cs : tm_Status ctx s cs = Active → FrozenHeight cs = ZeroHeight.
Proof.
  unfold tm_Status, Height_IsZero. destruct (FrozenHeight cs) as [r h]. simpl.
  destruct (N.eqb_spec r 0) as [->|], (N.eqb_spec h 0) as [->|]; simpl; done.
Qed.
Lemma advance_frozen h cs : FrozenHeight (advance h cs) = FrozenHeight cs.
Proof. unfold advance. by destruct (GT h (LatestHeight cs)). Qed.

(** One update keeps the store well-formed and times increasing. *)
Lemma UpdateClient_invariant ctx id hd w w' :
  id ≠ Localhost → header_encodable hd →
  UpdateClient ctx id hd w = (w', Ok tt) →
  tm_wf (client_view id w) → times_increase (client_view id w) →
  tm_wf (client_view id w') ∧ times_increase (client_view id w').
Proof.
  intros Hid He (cs & t & ncs & ncons & Hc & Hst & Hck & Hup)%UpdateClient_spec W Ht.
  simpl in Hck. apply bind_Ok in Hck as ([ncs' c'] & t' & Hck & Hr). apply ret_Ok in Hr as [[= <- <-] <-].
  destruct (CheckHeader_header _ _ _ _ _ _ _ Hck) as (h0 & h & c0 & -> & Hh & Hcons).
  pose proof (Header_GetHeight_wf _ _ Hh) as Hw. pose proof (Active_not_frozen _ _ _ Hst) as Hnf.
  rewrite (CheckHeader_eq _ _ _ _ _ _ Hh Hcons) in Hck.
  unfold updated_store in Hup. cbv zeta in Hup. simpl client_Status in Hup. simpl Exported.Header_GetHeight in Hup.
  rewrite Hh in Hup. rewrite (bool_decide_eq_false_2 (id = Localhost)) in Hup by done.
  assert (Hi1 : ∀ s x, same_index s (<[ClientStateKey := x]> s)) by (intros; by apply same_index_insert).
  case_bool_decide as Hdup.
  { injection Hck as <- <- <-. rewrite bool_decide_eq_false_2 in Hup by (by apply not_frozen_status).
    injection Hup as ->. rewrite same_codec. by eapply rewrite_consensus. }
  destruct (trusted_check ctx cs h0 (client_view id w)); [|done..].
  destruct (conflict_found (client_view id w) h c0) eqn:Hcf.
  { injection Hck as <- <- <-. rewrite bool_decide_eq_true_2 in Hup by done. injection Hup as ->.
    split; [by eapply same_index_wf|by eapply same_index_times]. }
  destruct (prune_earliest_run ctx cs _ W) as (s1 & Hp & Hrun). unfold bind in Hck. rewrite Hrun in Hck.
  destruct (GetSelfHeight ctx) as [self|e|] eqn:Hsh; [|unfold update, setConsensusMetadata in Hck;
    go_inv; congruence..].
  rewrite (update_run _ _ _ _ _ _ _ Hh Hcons Hsh) in Hck. injection Hck as <- <- <-.
  rewrite bool_decide_eq_false_2 in Hup by (apply not_frozen_status; by rewrite advance_frozen).
  injection Hup as ->. rewrite same_codec.
  destruct (put_consensus h self (uint64_of_Z (BlockTime ctx)) c0 s1 _ _ (He _ _ eq_refl Hcons) Hw
    (GetSelfHeight_wf _ _ Hsh) (Hi1 _ (@Marshal_ClientState tendermint tm_codec (advance h cs))) eq_refl) as (Hsb & Hcomp & Hc2).
  pose proof (pruned_wf _ _ _ _ W Hp) as W1. pose proof (pruned_times _ _ _ _ Ht Hp) as Ht1.
  assert (Hnc : ¬ contradicts (client_view id w) h c0).
  { rewrite <- conflict_found_spec by done. by rewrite Hcf. }
  split; [eapply tm_wf_change; [exact W1|exact Hw|exact Hsb|by left]|].
  eapply times_add; [exact Ht1|exact Hw|exact Hsb|exact Hc2| |]; intros q cq Hq Hcq Hlt;
    apply (pruned_subset _ _ _ _ _ _ Hp Hq) in Hcq; apply Z.nle_gt; intros Hle; apply Hnc;
    exists q, cq; split_and!; auto.
Qed.

(** ** The other operations *)

(** A new client's store: its client state, and the initial consensus state with its metadata. *)
Lemma CreateClient_view ctx cs c w w' id :
  CreateClient ctx cs (Some c) w = (w', Ok id) →
  ∃ self w0, GetSelfHeight ctx = Ok self ∧ (∀ k, client_view id w0 !! k = client_view id w !! k) ∧
    client_view id w' = <[ConsensusStateKey (LatestHeight cs) := tm_Marshal_ConsensusState c]>
      (put_metadata (LatestHeight cs) self (uint64_of_Z (BlockTime ctx))
         (<[ClientStateKey := Marshal_ClientState cs]> (client_view id w0))).
Proof.
  unfold CreateClient. intros E. go_inv.
  match goal with H : GenerateClientIdentifier _ ?a = (?b, _) |- _ => rename H into Hg; rename b into w0 end.
  match goal with H : SetClientState _ _ _ = _ |- _ => apply SetClientState_view in H as Hv1 end.
  match goal with H : on_client_store _ _ _ = _ |- _ => apply on_client_store_Ok in H as Hv2 end.
  match goal with H : SetClientConsensusState _ _ _ _ = _ |- _ => apply SetClientConsensusState_view in H as (x & Hx & Hv3) end.
  injection Hx as <-. simpl in Hv2. unfold setConsensusMetadata in Hv2. go_inv.
  rewrite setConsensusMetadataWithValues_run in *.
  match goal with H : (put_metadata _ _ _ _, _) = _ |- _ => injection H as Hv2 end.
  exists a, w0. split_and!; [done| |].
  - intros k. rewrite GenerateClientIdentifier_run in Hg. unfold client_view. rewrite !prefix_view_lookup.
    destruct (ibc _ !! KeyNextClientSequence); [|done]. injection Hg as <- _. simpl.
    apply lookup_insert_ne. unfold client_prefix. path_ne.
  - rewrite Hv3, <- Hv2, Hv1. simpl. by rewrite same_codec.
Qed.

(** Misbehaviour only changes the client state. *)
Lemma Misbehaviour_view ctx m w w' :
  CheckMisbehaviourAndUpdateState ctx m w = (w', Ok tt) →
  ∃ cs, client w (ClientId m) = Some cs ∧ tm_Status ctx (client_view (ClientId m) w) cs = Active ∧
    Misbehaviour_ValidateBasic m = Ok tt ∧
    tm_CheckMisbehaviourAndUpdateState ctx cs (Some m) (client_view (ClientId m) w) = Ok (frozen cs) ∧
    client_view (ClientId m) w' =
      <[ClientStateKey := Marshal_ClientState (frozen cs : @Exported.ClientState tendermint)]> (client_view (ClientId m) w).
Proof.
  unfold CheckMisbehaviourAndUpdateState. intros E. cbv zeta in E. go_inv. simpl Misbehaviour_GetClientID in *.
  match goal with H : SetClientState _ _ _ = _ |- _ => apply SetClientState_view in H as Hv1 end.
  match goal with H : on_client_store _ _ _ = _ |- _ => apply on_client_store_Ok in H as Hv2 end.
  simpl in Hv2. unfold reading in Hv2. go_inv.
  match goal with H : tm_CheckMisbehaviourAndUpdateState _ _ _ ?s = Ok ?r |- _ =>
    assert (r = frozen a) as -> by (unfold tm_CheckMisbehaviourAndUpdateState in H; by out_inv); rename H into Hm end.
  repeat match goal with x : unit |- _ => destruct x end.
  exists a. split_and!; [done|done|eassumption|exact Hm|]. rewrite Hv1. by f_equal.
Qed.

(** Outside the client's store the operation changes nothing. *)
Lemma Misbehaviour_keeps {T} (f : World → T) ctx m :
  (∀ s w, f (set_ibc s w) = f w) → keeps f (CheckMisbehaviourAndUpdateState ctx m).
Proof.
  intros Hf. pose proof (λ A c (p : ST KVStore A), on_client_store_caps c p f Hf).
  unfold CheckMisbehaviourAndUpdateState. cbv zeta. frame.
Qed.

(** A step of the chain as the store of client [id] sees it: the creation of the client,
    an update, misbehaviour, or anything that leaves its consensus states alone. *)
Inductive tm_step (id : string) : World → World → Prop :=
  | tm_created ctx cs c w w' :
      empty_index (client_view id w) → height_wf (LatestHeight cs) → tm_encodable c →
      CreateClient ctx cs (Some c) w = (w', Ok id) → tm_step id w w'
  | tm_updated ctx hd w w' :
      header_encodable hd → UpdateClient ctx id hd w = (w', Ok tt) → tm_step id w w'
  | tm_misbehaviour ctx m w w' :
      ClientId m = id → CheckMisbehaviourAndUpdateState ctx m w = (w', Ok tt) → tm_step id w w'
  | tm_other w w' :
      same_index (client_view id w) (client_view id w') → tm_step id w w'.

Lemma tm_step_invariant id w w' :
  id ≠ Localhost → tm_step id w w' →
  tm_wf (client_view id w) → times_increase (client_view id w) →
  tm_wf (client_view id w') ∧ times_increase (client_view id w').
Proof.
  intros Hid Hs W Ht. destruct Hs as [ctx cs c w w' He Hh Hc E|ctx hd w w' He E|ctx m w w' <- E|w w' Hs].
  - apply CreateClient_view in E as (self & w0 & Hself & Hw0 & ->).
    set (s0 := <[ClientStateKey := _]> (client_view id w0)).
    assert (He0 : empty_index s0).
    { intros k Hk. unfold s0. rewrite lookup_insert_ne by (intros <-; done). rewrite Hw0. by apply He. }
    destruct (put_consensus (LatestHeight cs) self (uint64_of_Z (BlockTime ctx)) c s0 _ _ Hc Hh (GetSelfHeight_wf _ _ Hself)
      (λ k _, eq_refl) eq_refl) as (Hsb & Hcomp & Hc2).
    split; [eapply tm_wf_change; [by apply empty_index_wf|exact Hh|exact Hsb|by left]|].
    eapply times_add; [by apply empty_index_times|exact Hh|exact Hsb|exact Hc2| |];
      intros q cq _ Hcq; unfold cons_at in Hcq; by rewrite He0 in Hcq by apply tm_key_cons.
  - by eapply UpdateClient_invariant.
  - apply Misbehaviour_view in E as (cs & _ & _ & _ & _ & ->).
    split; [eapply same_index_wf; [by apply same_index_insert|done]|
      eapply same_index_times; [by apply same_index_insert|done]].
  - split; [by eapply same_index_wf|by eapply same_index_times].
Qed.

(** C25: Consensus states of a Tendermint client have strictly increasing times.  Over every
    run from a chain without the client, of creation, header updates, misbehaviour and
    operations that do not touch its consensus states, the client's store is well-formed
    (consensus states, metadata and iteration keys exist for the same heights), and of
    two stored consensus states the one at the greater height has the later time. *)
Theorem consensus_times_increase id w w' :
  id ≠ Localhost → empty_index (client_view id w) → rtc (tm_step id) w w' →
  tm_wf (client_view id w') ∧ times_increase (client_view id w').
Proof.
  intros Hid He Hr. assert (tm_wf (client_view id w) ∧ times_increase (client_view id w)) as H
    by (split; [by apply empty_index_wf|by apply empty_index_times]).
  clear He. induction Hr as [|w1 w2 w3 Hs _ IH]; [done|]. apply IH. destruct H. by eapply tm_step_invariant.
Qed.

(** A block that its own validators have committed, signed for its chain. *)
Definition committed_block (h : Header) : Prop :=
  ∃ content block commit tm_commit validators,
    header_content h = Ok content ∧ header_block_id h = Ok block ∧ header_commit h = Ok commit ∧
    CommitFromProto commit = Ok tm_commit ∧ ValidatorSetFromProto (Header_ValidatorSet h) = Ok validators ∧
    VerifyCommitLight validators (hdr_ChainID content) block (Commit_Height tm_commit) tm_commit = Ok tt.

(** A block that the validators trusted by [cs] vouch for: they are those that the
    consensus state [c] expects, [c] is within the trusting period, and a trusted share of
    them has signed the block for the client's chain. *)
Definition vouched_block (cs : ClientState) (c : ConsensusState) (h : Header) (now : Z) : Prop :=
  ∃ height commit tm_commit trusted,
    Header_GetHeight h = Ok height ∧ header_commit h = Ok commit ∧ CommitFromProto commit = Ok tm_commit ∧
    ValidatorSetFromProto (TrustedValidators h) = Ok trusted ∧ NextValidatorsHash c = ValidatorSet_Hash trusted ∧
    (time_Sub now (Timestamp c) < TrustingPeriod cs)%Z ∧
    VerifyCommitLightTrusting trusted (revised_chain_id (ChainId cs) (RevisionNumber height)) tm_commit (TrustLevel cs) = Ok tt.

Lemma validCommit_Ok content block commit h :
  header_content h = Ok content → header_block_id h = Ok block → header_commit h = Ok commit →
  validCommit (hdr_ChainID content) block commit (Header_ValidatorSet h) = Ok tt → committed_block h.
Proof.
  intros H1 H2 H3 E. unfold validCommit in E. out_inv. case_match; simplify_eq. repeat match goal with x : unit |- _ => destruct x end.
  unfold committed_block. eauto 15.
Qed.
Lemma Misbehaviour_ValidateBasic_Ok m h1 h2 height1 height2 :
  Misbehaviour_ValidateBasic m = Ok tt → Header1 m = Some h1 → Header2 m = Some h2 →
  Header_GetHeight h1 = Ok height1 → Header_GetHeight h2 = Ok height2 →
  committed_block h1 ∧ committed_block h2 ∧ height_le height2 height1.
Proof.
  unfold Misbehaviour_ValidateBasic. intros E H1 H2 E1 E2. rewrite H1, H2 in E. out_inv. repeat match goal with x : unit |- _ => destruct x end.
  split_and!; [by eapply validCommit_Ok; eassumption..|]. apply height_lt_le. rewrite <- LT_spec. simplify_eq. congruence.
Qed.
Lemma checkMisbehaviourHeader_Ok cs c h now height :
  Header_GetHeight h = Ok height → checkMisbehaviourHeader cs c h now = Ok tt → vouched_block cs c h now.
Proof.
  intros Hh E. unfold checkMisbehaviourHeader, checkTrustedHeader in E. out_inv.
  match goal with H : bool_decide (_ ≠ _) = false |- _ => apply bool_decide_eq_false, dec_stable in H end.
  match goal with H : (_ <=? _)%Z = false |- _ => apply Z.leb_gt in H end.
  case_match; simplify_eq. repeat match goal with x : unit |- _ => destruct x end.
  match goal with H : VerifyCommitLightTrusting _ _ _ _ = Ok _ |- _ => rename H into Hv end.
  eexists height, _, _, _. split_and!; [done|eassumption|eassumption|eassumption|congruence|done|].
  rewrite <- Hv. f_equal; [congruence|]. unfold revised_chain_id.
  match goal with H : (if _ then _ else _) = Ok _ |- _ => revert H end. destruct (IsRevisionFormat (ChainId cs)); [|done].
  rewrite Hh. by intros [= ->].
Qed.

(** C27: Valid misbehaviour freezes the client and changes nothing else.  The evidence is
    two headers, each committed by its own validators, that contradict each other: two
    different blocks at one height, or a block of a greater height whose time is not
    later.  For each there is a stored consensus state within the trusting period whose
    next validators are the header's trusted validators, and a trusted share of these has
    signed the header.  Afterwards the client's state is the frozen one, whose status is
    Frozen at every time, and nothing else is different: neither another key of the IBC
    store, nor capabilities, applications and events. *)
Theorem misbehaviour_freezes ctx m w w' :
  CheckMisbehaviourAndUpdateState ctx m w = (w', Ok tt) →
  ∃ cs h1 h2 height1 height2 t1 t2,
    client w (ClientId m) = Some cs ∧ Header1 m = Some h1 ∧ Header2 m = Some h2 ∧
    Header_GetHeight h1 = Ok height1 ∧ Header_GetHeight h2 = Ok height2 ∧ committed_block h1 ∧ committed_block h2 ∧
    (height1 = height2 ∧ (∃ b1 b2, header_block_id h1 = Ok b1 ∧ header_block_id h2 = Ok b2 ∧
       BlockID_Hash b1 ≠ BlockID_Hash b2) ∨
     height_lt height2 height1 ∧ (∃ x1 x2, Header_GetTime h1 = Ok x1 ∧ Header_GetTime h2 = Ok x2 ∧ (x1 <= x2)%Z)) ∧
    cons_at (client_view (ClientId m) w) (TrustedHeight h1) = Some t1 ∧
    cons_at (client_view (ClientId m) w) (TrustedHeight h2) = Some t2 ∧
    vouched_block cs t1 h1 (BlockTime ctx) ∧ vouched_block cs t2 h2 (BlockTime ctx) ∧
    client_view (ClientId m) w' =
      <[ClientStateKey := Marshal_ClientState (frozen cs : @Exported.ClientState tendermint)]> (client_view (ClientId m) w) ∧
    (∀ k, HasPrefix k (client_prefix (ClientId m)) = false → ibc w' !! k = ibc w !! k) ∧
    caps w' = caps w ∧ app w' = app w ∧ events w' = events w ∧
    ∀ ctx' s, tm_Status ctx' s (frozen cs) = Frozen.
Proof.
  intros E. pose proof E as (cs & Hc & _ & Hb & Hm & Hv)%Misbehaviour_view.
  assert ((∀ k, HasPrefix k (client_prefix (ClientId m)) = false → ibc w' !! k = ibc w !! k) ∧
    caps w' = caps w ∧ app w' = app w ∧ events w' = events w) as (Hout & Hcaps & Happ & Hev).
  { split_and!; [intros k Hk; exact (keeps_run _ _ _ _ _ (Misbehaviour_out ctx m k Hk) E)|..];
      by refine (keeps_run _ _ _ _ _ (Misbehaviour_keeps _ ctx m _) E). }
  unfold tm_CheckMisbehaviourAndUpdateState, conflicting_headers in Hm. out_inv.
  repeat match goal with H : GetConsensusState _ _ = Ok _ |- _ => apply cons_at_GetConsensusState in H end.
  repeat match goal with x : unit |- _ => destruct x end.
  eapply Misbehaviour_ValidateBasic_Ok in Hb as (Hb1 & Hb2 & Hle); [|eassumption..].
  repeat match goal with H : checkMisbehaviourHeader _ _ _ _ = Ok _ |- _ => eapply checkMisbehaviourHeader_Ok in H; [|eassumption] end.
  eexists cs, _, _, _, _, _, _. split_and!; try eassumption; [|done].
  match goal with H : (if EQ ?a ?b then _ else _) = Ok _ |- _ => destruct (EQ a b) eqn:Heq; out_inv; [left|right] end.
  - apply EQ_spec in Heq. split; [done|]. eexists _, _. split_and!; [eassumption..|]. by case_bool_decide.
  - split; [|eexists _, _; split_and!; [eassumption..|];
      match goal with H : (_ <? _)%Z = false |- _ => apply Z.ltb_ge in H; exact H end].
    destruct Hle as [Hlt|Hx]; [done|]. symmetry in Hx. apply EQ_spec in Hx. congruence.
Qed.
End chain.
