(* ===== verification/TendermintSafety.v ===== *)
(** * Substitution, upgrades, delays and proofs of the Tendermint client

    What a governance substitution and a chain upgrade do to a Tendermint client, when a
    proof may be used after its consensus state arrived, and that the proofs it accepts
    state facts about the committed store: a Tendermint client whose roots are the
    counterparty's is a [sound_client] in the sense of [TwoChain.v]. *)
From S2P Require Import Prelude GoMonad Errors Sha256 Height Host Sdk ConnectionTypes.
From S2P Require Import ChannelTypes.
From S2P Require Import Exported ClientKeeper ConnectionKeeper ChannelSpec Noninterference.
From S2P Require Import ClientProperties TwoChain.
From S2P Require Import Commitment TendermintTypes Iteration TendermintStore TendermintClient.
From S2P Require Import TendermintIndex.
From S2P Require Import TendermintUpdate TendermintProperties.

Section chain.
Context {SE : SdkEncoding} {IC : Ics23} {TL : TendermintLib} {TC : TmCodec} {UT : UpgradeTypes} {TM : TmChain}.
Context {CK : CapabilityKeeper} {AP : Application}.
Import commitmenttypes ibctmtypes tmstore ibctm.
#[local] Existing Instance tendermint.

(** ** Substitution *)

(** [cs] without what a substitution may change. *)
Definition client_parameters (cs : ClientState) : ClientState :=
  set_chain_id "" (set_frozen ZeroHeight (set_latest ZeroHeight cs)).

(** The subject after the substitution. *)
Definition substituted (subject substitute : ClientState) : ClientState :=
  set_chain_id (ChainId substitute) (set_latest (LatestHeight substitute) (set_frozen ZeroHeight subject)).

Lemma revive_Ok ctx s cs cs' :
  revive ctx s cs = Ok cs' → cs' = set_frozen ZeroHeight cs ∧
  (tm_Status ctx s cs = Frozen ∧ AllowUpdateAfterMisbehaviour cs = true ∨
   tm_Status ctx s cs = Expired ∧ AllowUpdateAfterExpiry cs = true).
Proof.
  unfold revive. destruct (tm_Status ctx s cs) eqn:E; try done.
  - destruct (AllowUpdateAfterMisbehaviour cs); [|done]. intros [= <-]. auto.
  - destruct (AllowUpdateAfterExpiry cs); [|done]. intros [= <-]. split; [|auto].
    unfold tm_Status in E. destruct (Height_IsZero (FrozenHeight cs)) eqn:Hz; [|done].
    unfold Height_IsZero in Hz. apply andb_true_iff in Hz as [H1%N.eqb_eq H2%N.eqb_eq].
    destruct cs as [? ? ? ? ? [r h]]; simpl in *. by subst.
Qed.

Lemma Substitute_Ok ctx cs sub s sub_store s' t' cs' :
  tm_CheckSubstituteAndUpdateState ctx cs (Some sub) (s, sub_store) = ((s', t'), Ok cs') →
  ∃ c ph pt, client_parameters cs = client_parameters sub ∧ cs' = substituted cs sub ∧
    (tm_Status ctx s cs = Frozen ∧ AllowUpdateAfterMisbehaviour cs = true ∨
     tm_Status ctx s cs = Expired ∧ AllowUpdateAfterExpiry cs = true) ∧
    cons_at sub_store (LatestHeight sub) = Some c ∧
    GetProcessedHeight sub_store (LatestHeight sub) = Some ph ∧
    GetProcessedTime sub_store (LatestHeight sub) = Some pt ∧
    s' = put_metadata (LatestHeight sub) ph pt
      (<[ConsensusStateKey (LatestHeight sub) := tm_Marshal_ConsensusState c]> s).
Proof.
  unfold tm_CheckSubstituteAndUpdateState. intros E. go_inv. cbv zeta in *. go_inv.
  match goal with H : IsMatchingClientState _ _ = true |- _ =>
    unfold IsMatchingClientState in H; apply bool_decide_eq_true_1 in H; rename H into Hmatch end.
  match goal with H : revive _ _ _ = _ |- _ => apply revive_Ok in H as [-> Hst] end.
  match goal with H : GetConsensusState _ _ = Ok _ |- _ => apply cons_at_GetConsensusState in H; rename H into Hcs end.
  repeat match goal with H : on_subject _ _ = _ |- _ => apply zoom_Ok in H as (? & H & ?); simpl in * end.
  match goal with H : SetConsensusState _ _ _ = _ |- _ => apply modify_Ok in H; subst end.
  match goal with H : setConsensusMetadataWithValues _ _ _ _ = _ |- _ =>
    rewrite setConsensusMetadataWithValues_run in H; injection H as <- end.
  revert Hmatch. simplify_eq/=. intros Hmatch. eexists _, _, _. split_and!; [exact Hmatch|done|exact Hst|eassumption|eassumption|eassumption|done].
Qed.

(** Governance substitution revives a client.  When [ClientUpdateProposal] succeeds, the
    subject was Frozen or Expired and its parameters allow that recovery, the substitute
    was Active and agrees with it on every parameter except chain id and heights; the
    subject keeps its parameters, takes the substitute's chain id and latest height with
    the consensus state, processed time and processed height stored there, and is
    Active. *)
Theorem substitution_revives ctx a b w w' :
  ClientUpdateProposal ctx a b w = (w', Ok tt) →
  ∃ cs sub c, client w a = Some cs ∧ client w b = Some sub ∧
    client_parameters cs = client_parameters sub ∧ tm_Status ctx (client_view b w) sub = Active ∧
    (tm_Status ctx (client_view a w) cs = Frozen ∧ AllowUpdateAfterMisbehaviour cs = true ∨
     tm_Status ctx (client_view a w) cs = Expired ∧ AllowUpdateAfterExpiry cs = true) ∧
    client_view a w' !! ClientStateKey =
      Some (Marshal_ClientState (substituted cs sub : @Exported.ClientState tendermint)) ∧
    cons_at (client_view b w) (LatestHeight sub) = Some c ∧ cons_at (client_view a w') (LatestHeight sub) = Some c ∧
    GetProcessedHeight (client_view a w') (LatestHeight sub) = GetProcessedHeight (client_view b w) (LatestHeight sub) ∧
    (∀ pt, (pt < two64)%N → GetProcessedTime (client_view b w) (LatestHeight sub) = Some pt →
       GetProcessedTime (client_view a w') (LatestHeight sub) = Some pt) ∧
    tm_Status ctx (client_view a w') (substituted cs sub) = Active.
Proof.
  unfold ClientUpdateProposal. intros E. go_inv.
  match goal with H : SetClientState _ _ _ = (?x, _) |- _ => apply SetClientState_view in H as Hv1; rename x into w1 end.
  match goal with H : on_client_stores _ _ _ _ = _ |- _ => apply on_client_stores_Ok in H as [t Hv2] end.
  simpl in Hv2. apply Substitute_Ok in Hv2 as (c & ph & pt & Hpar & -> & Hst & Hc & Hph & Hpt & Hs).
  match goal with H : client ?y b = Some ?x |- _ => rename x into sub; rename H into Hb; rename y into w0 end.
  match goal with H : client _ a = Some ?x |- _ => rename x into cs; rename H into Ha end.
  match goal with H : client_Status _ _ sub = Active |- _ => rename H into Hact; simpl in Hact end.
  change (client_view a (set_events ?l ?w)) with (client_view a w) in *.
  assert (He : tm_encodable c).
  { unfold cons_at in Hc. destruct (_ !! _); [|done]. by eapply tm_consensus_decoded. }
  assert (Hphw : height_wf ph).
  { unfold GetProcessedHeight in Hph. repeat case_match; simplify_eq. by eapply ParseHeight_wf. }
  assert (Hidx : same_index (put_metadata (LatestHeight sub) ph pt
    (<[ConsensusStateKey (LatestHeight sub) := tm_Marshal_ConsensusState c]> (client_view a w0))) (client_view a w1)).
  { rewrite Hv1, Hs. by apply same_index_insert. }
  assert (Hc' : cons_at (client_view a w1) (LatestHeight sub) = Some c).
  { rewrite (same_index_cons _ _ _ Hidx). unfold cons_at, put_metadata.
    rewrite !lookup_insert_ne by eauto with tmkeys. rewrite lookup_insert_eq. by apply tm_consensus_roundtrip. }
  exists cs, sub, c. split_and!; try done.
  - rewrite Hv1. apply lookup_insert_eq.
  - unfold GetProcessedHeight. rewrite Hidx by apply tm_key_below. unfold put_metadata.
    rewrite lookup_insert_ne by eauto with tmkeys. rewrite lookup_insert_eq, ParseHeight_String_eq by done.
    by rewrite <- Hph.
  - intros pt' Hr Hpt'. rewrite Hpt in Hpt'. injection Hpt' as ->. unfold GetProcessedTime.
    rewrite Hidx by apply tm_key_below. unfold put_metadata.
    rewrite !lookup_insert_ne by eauto with tmkeys. rewrite lookup_insert_eq. simpl. by rewrite be_roundtrip.
  - unfold tm_Status. cbn [FrozenHeight LatestHeight substituted set_chain_id set_latest set_frozen]. simpl negb. cbn iota.
    pose proof Hc' as Hg. apply cons_at_GetConsensusState in Hg. rewrite Hg.
    unfold tm_Status in Hact. destruct (negb _); [done|].
    pose proof Hc as Hg2. apply cons_at_GetConsensusState in Hg2. rewrite Hg2 in Hact.
    assert (HT : TrustingPeriod (substituted cs sub) = TrustingPeriod sub) by exact (f_equal TrustingPeriod Hpar).
    unfold IsExpired in *. by rewrite HT.
Qed.

(** ** Upgrades *)

(** The client state after an upgrade: the parameters the chain chooses are those of the
    committed client, the parameters the client chooses are the current ones. *)
Definition upgraded (cs up : ClientState) : ClientState :=
  NewClientState (ChainId up) (TrustLevel cs) (TrustingPeriod cs) (UnbondingPeriod up) (MaxClockDrift cs)
    (LatestHeight up) (Client_ProofSpecs up) (UpgradePath up) (AllowUpdateAfterExpiry cs)
    (AllowUpdateAfterMisbehaviour cs).
Definition upgraded_consensus (c : ConsensusState) : ConsensusState :=
  NewConsensusState (Timestamp c) (NewMerkleRoot SentinelRoot) (NextValidatorsHash c).

Lemma Upgrade_Ok ctx cs h up cns p1 p2 s s' cs' c' :
  tm_VerifyUpgradeAndUpdateState ctx cs h (Some up) cns p1 p2 s = (s', Ok (cs', c')) →
  ∃ c last mp1 mp2 self, cns = Some c ∧ height_lt (LatestHeight cs) h ∧
    cons_at s (LatestHeight cs) = Some last ∧
    Unmarshal_MerkleProof p1 = Some mp1 ∧ Unmarshal_MerkleProof p2 = Some mp2 ∧
    VerifyMembership mp1 (Client_ProofSpecs cs) (Root last)
      (constructUpgradeClientMerklePath (UpgradePath cs) (LatestHeight cs)) (tm_Marshal_ClientState up) = Ok tt ∧
    VerifyMembership mp2 (Client_ProofSpecs cs) (Root last)
      (constructUpgradeConsStateMerklePath (UpgradePath cs) (LatestHeight cs)) (tm_Marshal_ConsensusState c) = Ok tt ∧
    cs' = upgraded cs up ∧ c' = upgraded_consensus c ∧ Validate cs' = Ok tt ∧ GetSelfHeight ctx = Ok self ∧
    s' = put_metadata (LatestHeight up) self (uint64_of_Z (BlockTime ctx)) s.
Proof.
  unfold tm_VerifyUpgradeAndUpdateState, setConsensusMetadata. intros E. go_inv. cbv zeta in *. go_inv.
  repeat match goal with x : unit |- _ => destruct x end.
  match goal with H : GetConsensusState _ _ = Ok _ |- _ => apply cons_at_GetConsensusState in H end.
  match goal with H : GT _ _ = true |- _ => apply GT_spec in H end.
  match goal with H : setConsensusMetadataWithValues _ _ _ _ = _ |- _ =>
    rewrite setConsensusMetadataWithValues_run in H; injection H as <- end.
  match goal with H : Some up = Some _ |- _ => injection H as <- end.
  match goal with H : (NewClientState _ _ _ _ _ _ _ _ _ _, _) = _ |- _ => injection H as <- <- end.
  eexists _, _, _, _, _. split_and!; try eassumption; done.
Qed.

Lemma UpgradeClient_view ctx id up cns p1 p2 w w' :
  UpgradeClient ctx id up cns p1 p2 w = (w', Ok tt) →
  ∃ cs cs' c' t, client w id = Some cs ∧ tm_Status ctx (client_view id w) cs = Active ∧
    tm_VerifyUpgradeAndUpdateState ctx cs (LatestHeight up) (Some up) cns p1 p2 (client_view id w) = (t, Ok (cs', c')) ∧
    client_view id w' = <[ConsensusStateKey (LatestHeight cs') := tm_Marshal_ConsensusState c']>
      (<[ClientStateKey := Marshal_ClientState (cs' : @Exported.ClientState tendermint)]> t).
Proof.
  unfold UpgradeClient. intros E. go_inv.
  match goal with H : SetClientState _ _ _ = _ |- _ => apply SetClientState_view in H as Hv1 end.
  match goal with H : on_client_store _ _ _ = _ |- _ => apply on_client_store_Ok in H as Hv2 end.
  match goal with H : SetClientConsensusState _ _ _ _ = _ |- _ => apply SetClientConsensusState_view in H as (x & -> & Hv3) end.
  simpl in Hv2. apply bind_Ok in Hv2 as ([cs' c'] & t & Hv2 & Hr). apply ret_Ok in Hr as [Hr Ht].
  injection Hr as <- <-. eexists _, cs', c', t. split_and!; [done|done|exact Hv2|].
  change (client_view id (set_events ?l ?w)) with (client_view id w). rewrite Hv3, Hv1, Ht. by rewrite same_codec.
Qed.

(** A client follows its chain through an upgrade.  When [UpgradeClient] succeeds, the
    client was Active and the upgraded client and consensus states were proved against
    the root of its latest height, at the paths the client was created with and that
    height; the new height is greater; the new client state takes what the chain chooses
    from the committed client and what the client chooses from the current one, is
    valid and unfrozen; the new consensus state carries the sentinel root, is stored
    with its metadata, and the store stays well-formed. *)
Theorem upgrade_spec ctx id up cns p1 p2 w w' :
  tm_wf (client_view id w) → height_wf (LatestHeight up) →
  (∀ c, cns = Some c → tm_encodable (upgraded_consensus c)) →
  UpgradeClient ctx id up cns p1 p2 w = (w', Ok tt) →
  ∃ cs c last mp1 mp2, client w id = Some cs ∧ cns = Some c ∧
    cons_at (client_view id w) (LatestHeight cs) = Some last ∧ height_lt (LatestHeight cs) (LatestHeight up) ∧
    VerifyMembership mp1 (Client_ProofSpecs cs) (Root last)
      (constructUpgradeClientMerklePath (UpgradePath cs) (LatestHeight cs)) (tm_Marshal_ClientState up) = Ok tt ∧
    VerifyMembership mp2 (Client_ProofSpecs cs) (Root last)
      (constructUpgradeConsStateMerklePath (UpgradePath cs) (LatestHeight cs)) (tm_Marshal_ConsensusState c) = Ok tt ∧
    client_view id w' !! ClientStateKey =
      Some (Marshal_ClientState (upgraded cs up : @Exported.ClientState tendermint)) ∧
    Validate (upgraded cs up) = Ok tt ∧ FrozenHeight (upgraded cs up) = ZeroHeight ∧
    cons_at (client_view id w') (LatestHeight up) = Some (upgraded_consensus c) ∧
    complete_at (client_view id w') (LatestHeight up) ∧ tm_wf (client_view id w').
Proof.
  intros W Hh He (cs & cs' & c' & t & Hc & _ & Hv & Hw')%UpgradeClient_view.
  apply Upgrade_Ok in Hv as (c & last & mp1 & mp2 & self & -> & Hlt & Hlast & _ & _ & Hm1 & Hm2 & -> & -> & Hval & Hself & ->).
  destruct (put_consensus (LatestHeight up) self (uint64_of_Z (BlockTime ctx)) (upgraded_consensus c) (client_view id w) _ _
    (He _ eq_refl) Hh (GetSelfHeight_wf _ _ Hself)
    (same_index_insert _ ClientStateKey (@Marshal_ClientState tendermint tm_codec (upgraded cs up)) eq_refl) Hw')
    as (Hsb & Hcomp & Hc2).
  exists cs, c, last, mp1, mp2. split_and!; try done.
  - rewrite Hw'. rewrite lookup_insert_ne by eauto with tmkeys. apply lookup_insert_eq.
  - eapply tm_wf_change; [exact W|exact Hh|exact Hsb|by left].
Qed.

(** ** Delay periods *)

(** C32: A proof may be used only after the connection's delay.  With 64-bit arithmetic as
    written, [verifyDelayPeriodPassed] accepts exactly when the block time has reached
    the processed time plus the time delay and the height has reached the processed
    height plus the block delay, both sums modulo 2^64; as long as neither sum
    overflows this is the documented guarantee, and a sum that overflows is compared
    after wrapping around, which lets a proof pass early. *)
Theorem delay_period_spec ctx s h td bd pt ph self :
  GetProcessedTime s h = Some pt → GetProcessedHeight s h = Some ph → GetSelfHeight ctx = Ok self →
  let now := uint64_of_Z (BlockTime ctx) in
  let passed := verifyDelayPeriodPassed ctx s h td bd = Ok tt in
  let after_block n := (RevisionNumber ph < RevisionNumber self)%N ∨
    RevisionNumber ph = RevisionNumber self ∧ (n <= RevisionHeight self)%N in
  (passed ↔ ((pt + td) mod two64 <= now)%N ∧ after_block ((RevisionHeight ph + bd) mod two64)%N) ∧
  ((pt + td < two64)%N → (RevisionHeight ph + bd < two64)%N →
     (passed ↔ (pt + td <= now)%N ∧ after_block (RevisionHeight ph + bd)%N)) ∧
  ((pt < two64)%N → (td < two64)%N → (two64 <= pt + td)%N → (RevisionHeight ph + bd < two64)%N →
     (passed ↔ (pt + td - two64 <= now)%N ∧ after_block (RevisionHeight ph + bd)%N)).
Proof.
  intros Hpt Hph Hself now passed after_block.
  assert (Hiff : passed ↔ ((pt + td) mod two64 <= now)%N ∧ after_block ((RevisionHeight ph + bd) mod two64)%N).
  { unfold passed, verifyDelayPeriodPassed. rewrite Hpt, Hph. cbv zeta. unfold u64.
    destruct (N.ltb_spec now ((pt + td) mod two64)) as [Hlt|Hge]; fold now.
    - rewrite (proj2 (N.ltb_lt _ _) Hlt). simpl. split; [done|]. intros [? _]. lia.
    - rewrite (proj2 (N.ltb_ge _ _) Hge). simpl. rewrite Hself. simpl.
      destruct (LT self _) eqn:HLT; simpl.
      + apply LT_spec in HLT. split; [done|]. intros [_ Ha]. unfold height_lt, after_block in *. simpl in *. lia.
      + split; [|done]. intros _. split; [done|]. apply not_true_iff_false in HLT. rewrite LT_spec in HLT.
        unfold height_lt, after_block in *. simpl in *. lia. }
  split; [done|]. split.
  - intros H1 H2. by rewrite Hiff, !N.mod_small by done.
  - intros H1 H2 H3 H4. rewrite Hiff, (N.mod_small (RevisionHeight ph + bd)) by done.
    replace ((pt + td) mod two64)%N with (pt + td - two64)%N; [done|].
    apply (N.mod_unique _ _ 1); lia.
Qed.

(** ** Proofs *)

Lemma plain_app a b : plain_key (a +:+ b) = plain_key a && plain_key b.
Proof. apply no_char_app. Qed.
Lemma plain_number n : plain_key (fmt_u64 n) = true.
Proof. by apply fmt_u64_no_char. Qed.

Definition plain_ids (p c : string) : Prop := plain_key p = true ∧ plain_key c = true.

Lemma plain_packet_paths p c n :
  plain_ids p c → plain_key (PacketCommitmentPath p c n) = true ∧ plain_key (PacketReceiptPath p c n) = true ∧
  plain_key (NextSequenceRecvPath p c) = true.
Proof.
  intros [Hp Hc]. unfold_paths. rewrite !plain_app, plain_number, Hp, Hc. done.
Qed.

Lemma produceVerificationArgs_Ok s cs h prf mp c :
  produceVerificationArgs s cs h prf = Ok (mp, c) → cons_at s h = Some c.
Proof.
  unfold produceVerificationArgs. intros E. out_inv. case_match; [|done]. out_inv. simplify_eq.
  by apply cons_at_GetConsensusState.
Qed.
Lemma ApplyPrefix_Ok pre path mp : ApplyPrefix pre (NewMerklePath [path]) = Ok mp → mp = NewMerklePath [KeyPrefix pre; path].
Proof. unfold ApplyPrefix. destruct (MerklePrefix_Empty pre); [done|]. by intros [= <-]. Qed.

Lemma reading_Ok {A} (f : KVStore → outcome A) s a : (reading f s).2 = Ok a → f s = Ok a.
Proof. done. Qed.

Ltac destruct_pair_args :=
  match goal with x : (MerkleProof * ConsensusState)%type |- _ => destruct x as [mp cons]; cbn [fst snd] in * end;
  match goal with H : produceVerificationArgs _ _ _ _ = Ok _ |- _ => apply produceVerificationArgs_Ok in H end;
  match goal with H : ApplyPrefix _ _ = Ok _ |- _ => apply ApplyPrefix_Ok in H; subst end.

(** C26: The Tendermint client keeps the promise the packet protocol needs of a light client.
    Given ICS-23 proofs that only verify facts about the trees they belong to, and a
    consensus state at height [h] whose root commits to the counterparty's IBC store
    [root] under the connection's prefix, every packet commitment, receipt absence and
    next sequence the client accepts at [h] is what [root] holds: it is the
    [sound_client] that [received_packet_was_sent] and [timed_out_packet_not_received]
    assume, for all identifiers without percent signs. *)
Theorem tendermint_client_sound tree_root w id pre h root p c :
  ics23_sound tree_root →
  (∀ cs cons, client w id = Some cs → cons_at (client_view id w) h = Some cons →
     commits_to tree_root (Client_ProofSpecs cs) (Root cons) (KeyPrefix pre) root) →
  plain_key (KeyPrefix pre) = true → plain_ids p c →
  sound_client w id pre h root p c.
Proof.
  intros HS Hcommit Hpre Hids cs Hcs. split_and!; intros *; simpl; intros E%reading_Ok.
  - destruct (plain_packet_paths p c n Hids) as (Hk & _).
    unfold tm_VerifyPacketCommitment, verify_member in E. out_inv. destruct_pair_args.
    eapply chained_membership_sound; [exact HS|by apply Hcommit|exact Hpre|exact Hk|eassumption].
  - destruct (plain_packet_paths p c n Hids) as (_ & Hk & _).
    unfold tm_VerifyPacketReceiptAbsence in E. out_inv. destruct_pair_args.
    eapply chained_nonmembership_sound; [exact HS|by apply Hcommit|exact Hpre|exact Hk|eassumption].
  - destruct (plain_packet_paths p c n Hids) as (_ & _ & Hk).
    unfold tm_VerifyNextSequenceRecv, verify_member in E. out_inv. destruct_pair_args.
    eapply chained_membership_sound; [exact HS|by apply Hcommit|exact Hpre|exact Hk|eassumption].
Qed.
End chain.
