(* ===== verification/ToyTendermint.v ===== *)
(** * A concrete Tendermint chain

    Instances of the libraries the Tendermint client is built on, for the witnesses: trees
    whose root is the encoding of their content, so that a proof is the content;
    validator sets that are names; and a [light.Verify] that checks what its
    documentation lists (chain id, heights, times, trusting period, clock drift). *)
From S2P Require Import Prelude GoMonad Errors Sha256 Height Host Sdk ConnectionTypes.
From S2P Require Import ChannelTypes.
From S2P Require Import Exported FullNode Commitment TendermintTypes Iteration TendermintStore.
From S2P Require Import TendermintClient.
From S2P Require Import TendermintProperties.

(** ** Trees *)
Inductive ToyProof := ToyExist (m : gmap string string) | ToyNonexist (m : gmap string string).
Definition toy_tree (p : ToyProof) : gmap string string := match p with ToyExist m | ToyNonexist m => m end.
Definition toy_root (_ : bool) (m : gmap string string) : string := "root:" +:+ enc m.

Definition toy_ics23 : Ics23 := {|
  ProofSpec := bool;
  ProofSpec_eq_dec := _;
  CommitmentProof := ToyProof;
  proof_kind := λ p, match p with ToyExist _ => ExistProof | ToyNonexist _ => NonexistProof end;
  Calculate := λ p, Ok (toy_root false (toy_tree p));
  ics23_VerifyMembership := λ _ root p k v,
    bool_decide (root = toy_root false (toy_tree p)) && bool_decide (toy_tree p !! k = Some v);
  ics23_VerifyNonMembership := λ _ root p k,
    bool_decide (root = toy_root false (toy_tree p)) && bool_decide (toy_tree p !! k = None);
  IavlSpec := false;
  TendermintSpec := true |}.

Lemma toy_root_inj b b' m m' : toy_root b m = toy_root b' m' → m = m'.
Proof.
  intros E. unfold toy_root in E. apply app_inj_l in E. apply (f_equal (dec : string → option (gmap string string))) in E.
  rewrite !dec_enc in E. by injection E.
Qed.

Lemma toy_ics23_sound : @ics23_sound toy_ics23 toy_root.
Proof.
  split; intros spec m p k; simpl; [intros v|]; rewrite andb_true_iff, !bool_decide_eq_true; intros [E H];
    by rewrite (toy_root_inj _ _ _ _ E).
Qed.

(** ** Headers *)
Record ToyHeader := mkToyHeader {
  toy_chain : string; toy_height : Z; toy_time : Z; toy_app : string; toy_vals : string; toy_next : string }.
Record ToySigned := mkToySigned { toy_hd : ToyHeader; toy_block : string }.

Definition refuse_unless (b : bool) (s : string) : outcome unit := if b then Ok tt else Err (External s).

Definition toy_verify (chain : string) (height time : Z) (next : string) (trusted : string) (h : ToySigned) (vals : string)
    (period now drift : Z) (_ : Fraction) : outcome unit :=
  refuse_unless (bool_decide (chain = toy_chain (toy_hd h))) "chain id" ;;?
  refuse_unless (height <? toy_height (toy_hd h))%Z "height" ;;?
  refuse_unless (time <? toy_time (toy_hd h))%Z "time" ;;?
  refuse_unless (toy_time (toy_hd h) <? now + drift)%Z "future" ;;?
  refuse_unless (now <? time + period)%Z "expired" ;;?
  refuse_unless (bool_decide (toy_vals (toy_hd h) = vals)) "validators".

Definition toy_tendermint : TendermintLib := {|
  ProtoHeader := ToyHeader;
  hdr_ChainID := toy_chain; hdr_Height := toy_height; hdr_Time := toy_time; hdr_AppHash := toy_app;
  hdr_ValidatorsHash := toy_vals; hdr_NextValidatorsHash := toy_next;
  ProtoBlockID := string;
  ProtoCommit := string;
  commit_BlockID := λ c, c;
  ProtoValidatorSet := string;
  TmValidatorSet := string;
  ValidatorSetFromProto := λ o, match o with Some v => Ok v | None => Err (External "nil validator set") end;
  ValidatorSet_Hash := λ v, v;
  TmBlockID := string;
  BlockIDFromProto := λ b, Ok b;
  BlockID_Hash := λ b, b;
  TmCommit := string;
  CommitFromProto := λ o, match o with Some c => Ok c | None => Err (External "nil commit") end;
  Commit_Height := λ _, 0%Z;
  TmSignedHeader := ToySigned;
  SignedHeaderFromProto := λ h c,
    match h, c with Some h, Some c => Ok (mkToySigned h c) | _, _ => Err (External "nil signed header") end;
  SignedHeader_ValidateBasic := λ h chain, refuse_unless (bool_decide (toy_chain (toy_hd h) = chain)) "chain id";
  VerifyCommitLight := λ _ _ b _ c, refuse_unless (bool_decide (b = c)) "block";
  VerifyCommitLightTrusting := λ _ _ _ _, Ok tt;
  light_Verify := toy_verify;
  light_ValidateTrustLevel := λ f, refuse_unless (0 <? Denominator f)%N "trust level";
  ValidateHash := λ h, Ok tt;
  MaxChainIDLen := 50 |}.

Definition toy_upgrade : UpgradeTypes := {|
  upgrade_StoreKey := "upgrade"; KeyUpgradedIBCState := "upgradedIBCState";
  KeyUpgradedClient := "upgradedClient"; KeyUpgradedConsState := "upgradedConsState" |}.

Module ToyTm.
#[export] Existing Instance big_endian.
#[export] Existing Instance toy_ics23.
#[export] Existing Instance toy_tendermint.
#[export] Existing Instance toy_upgrade.

(** ** Encodings *)
#[export] Instance Ser_Z : Ser Z.
Proof.
  refine (Ser_via (λ z : Z, (bool_decide (z < 0)%Z, Z.to_N (Z.abs z)))
    (λ '(neg, n), if neg : bool then (- Z.of_N n)%Z else Z.of_N n) _).
  intros z. case_bool_decide; lia.
Defined.
#[export] Instance Ser_option {A} `{Ser A} : Ser (option A).
Proof.
  refine (Ser_via (λ o : option A, match o with Some x => [x] | None => [] end)
    (λ l, match l with [x] => Some x | _ => None end) _). by intros [].
Defined.
#[export] Instance Ser_Fraction : Ser Fraction.
Proof. refine (Ser_via (λ f, (Numerator f, Denominator f)) (λ '(a, b), mkFraction a b) _). by intros []. Defined.
#[export] Instance Ser_ToyProof : Ser ToyProof.
Proof.
  refine (Ser_via (λ p, (match p with ToyExist _ => true | ToyNonexist _ => false end, toy_tree p))
    (λ '(b, m), if b : bool then ToyExist m else ToyNonexist m) _). by intros [].
Defined.
Import ibctmtypes commitmenttypes.
#[export] Instance Ser_MerkleProof : Ser MerkleProof.
Proof. refine (Ser_via (B := list ToyProof) Proofs mkMerkleProof _). by intros []. Defined.
#[export] Instance Ser_ConsensusState : Ser ConsensusState.
Proof.
  refine (Ser_via (B := Z * string * string) (λ c, (Timestamp c, GetHash (Root c), NextValidatorsHash c))
    (λ '(t, r, n), NewConsensusState t (NewMerkleRoot r) n) _). by intros [? [] ?].
Defined.
#[export] Instance Ser_ClientState : Ser ClientState.
Proof.
  refine (Ser_via
    (B := string * Fraction * (Z * Z * Z) * (Height * Height) * (list (option bool) * list string) * (bool * bool))
    (λ c, (ChainId c, TrustLevel c, (TrustingPeriod c, UnbondingPeriod c, MaxClockDrift c),
           (FrozenHeight c, LatestHeight c), ((Client_ProofSpecs c : list (option bool)), UpgradePath c),
           (AllowUpdateAfterExpiry c, AllowUpdateAfterMisbehaviour c)))
    (λ '(a, b, (c, d, e), (f, g), (h, i), (j, k)), mkClientState a b c d e f g h i j k) _).
  by intros [].
Defined.

#[export] Instance toy_tmcodec : TmCodec := {|
  tm_Marshal_ClientState := enc;
  tm_Marshal_ConsensusState := enc;
  tm_Unmarshal_ConsensusState := dec;
  tm_Marshal_ConnectionEnd := enc;
  tm_Marshal_Channel := enc;
  Unmarshal_MerkleProof := dec;
  tm_encodable := λ _, True;
  tm_consensus_roundtrip := λ c _, dec_enc c;
  tm_consensus_decoded := λ _ _ _, I |}.

Definition toy_chain_codec : @Codec tendermint :=
  @Build_Codec tendermint enc dec enc dec enc dec (enc : ClientState → _) dec (enc : ConsensusState → _) dec
    (λ h, match Header_ConsensusState h with Ok c => enc c | _ => "" end) (λ _, True) (λ _, True)
    dec_enc (λ c _, dec_enc c) dec_enc (λ c _, dec_enc c) (λ c _, dec_enc c).

#[export] Instance toy_tmchain : TmChain := {| tm_codec := toy_chain_codec; same_codec := λ c, eq_refl |}.
End ToyTm.
