(* ===== verification/TendermintWitness.v ===== *)
(** * The Tendermint theorems on a concrete chain

    A chain that creates a Tendermint client, updates it, receives evidence of a fork,
    has it revived by governance and follows an upgrade; the theorems of
    [TendermintUpdate.v], [TendermintProperties.v] and [TendermintSafety.v] applied to
    that run. *)
From S2P Require Import Prelude GoMonad Errors Sha256 Height Host Sdk ConnectionTypes.
From S2P Require Import ChannelTypes.
From S2P Require Import Exported ClientKeeper FullNode ChannelSpec Noninterference.
From S2P Require Import ClientProperties TwoChain.
From S2P Require Import Commitment TendermintTypes Iteration TendermintStore TendermintClient.
From S2P Require Import TendermintIndex.
From S2P Require Import TendermintUpdate TendermintProperties TendermintSafety ToyTendermint.

Module TmWitness.
Import ToyTm commitmenttypes ibctmtypes tmstore ibctm.
#[local] Existing Instance tendermint.
#[local] Existing Instance toy_caps.
#[local] Existing Instance FullNode.toy_app.

Definition id0 : string := "07-tendermint-0".
Definition id1 : string := "07-tendermint-1".
Definition ctx0 : Context := mkContext "chainA-1" 20 1000 false false.
Definition ctx1 : Context := mkContext "chainA-1" 21 1100 false false.

(** The counterparty's stores at height 5. *)
Definition ibc_store : gmap string string :=
  {[ "commitments/ports/transfer/channels/channel-0/sequences/1" := "commitment";
     "nextSequenceRecv/ports/transfer/channels/channel-0" := "00000007" ]}.
Definition up_client : ClientState :=
  NewClientState "chainB-2" (mkFraction 0 0) 0 30000 0 (NewHeight 2 1) [Some false; Some true] ["upgrade"; "next"] false false.
Definition up_consensus : ConsensusState := NewConsensusState 600 (NewMerkleRoot "unknown") "vals".
Definition upgrade_store : gmap string string :=
  {[ "upgradedIBCState/5/upgradedClient" := enc up_client;
     "upgradedIBCState/5/upgradedConsState" := enc up_consensus ]}.
Definition stores : gmap string string :=
  {[ "ibc" := toy_root false ibc_store; "upgrade" := toy_root false upgrade_store ]}.

Definition client0 : ClientState :=
  NewClientState "chainB-1" (mkFraction 1 3) 10000 20000 10 (NewHeight 1 5) [Some false; Some true]
    ["upgrade"; "upgradedIBCState"] true true.
Definition consensus0 : ConsensusState := NewConsensusState 500 (NewMerkleRoot (toy_root true stores)) "vals".

Definition header_of (height time : Z) (app block : string) : Header :=
  mkHeader (Some (mkSignedHeader (Some (mkToyHeader "chainB-1" height time app "vals" "vals")) (Some block)))
    (Some "vals") (NewHeight 1 5) (Some "vals").

Definition genesis : @World toy_caps FullNode.toy_app :=
  mkWorld (CK := toy_caps) (AP := FullNode.toy_app) {[ KeyNextClientSequence := Uint64ToBigEndian 0 ]} ∅ ∅ ["07-tendermint"] 0 [].
Definition created : World := (CreateClient ctx0 client0 (Some consensus0) genesis).1.
Definition header8 : Header := header_of 8 700 "app8" "block8".
Definition updated : World := (UpdateClient ctx1 id0 (Some header8) created).1.

Lemma created_run : CreateClient ctx0 client0 (Some consensus0) genesis = (created, Ok id0).
Proof. unfold created. apply run_pair. vm_compute. reflexivity. Qed.
Lemma updated_run : UpdateClient ctx1 id0 (Some header8) created = (updated, Ok tt).
Proof. unfold updated. apply run_pair. vm_compute. reflexivity. Qed.

Lemma genesis_empty : empty_index (client_view id0 genesis).
Proof.
  intros k _. unfold client_view. rewrite prefix_view_lookup. apply lookup_singleton_ne.
  unfold client_prefix. path_ne.
Qed.
Lemma height_ok r h : (r < two64)%N → (h < two64)%N → height_wf (NewHeight r h).
Proof. done. Qed.

Lemma created_step : tm_step id0 genesis created.
Proof. apply (tm_created _ ctx0 client0 consensus0); [apply genesis_empty|by apply height_ok|done|apply created_run]. Qed.
Lemma updated_step : tm_step id0 created updated.
Proof. apply (tm_updated _ ctx1 (Some header8)); [done|apply updated_run]. Qed.

Lemma consensus_times_increase_witness :
  tm_wf (client_view id0 updated) ∧ times_increase (client_view id0 updated) ∧
  cons_at (client_view id0 updated) (NewHeight 1 5) = Some consensus0 ∧
  (Timestamp <$> cons_at (client_view id0 updated) (NewHeight 1 8)) = Some 700%Z.
Proof.
  destruct (consensus_times_increase id0 genesis updated) as [W Ht].
  - discriminate.
  - apply genesis_empty.
  - eapply rtc_l; [apply created_step|]. apply rtc_once, updated_step.
  - split; [exact W|]. split; [exact Ht|]. split; vm_compute; reflexivity.
Defined.

Lemma created_invariant : tm_wf (client_view id0 created) ∧ times_increase (client_view id0 created).
Proof.
  apply (tm_step_invariant id0 genesis created); [done|apply created_step| |].
  - apply empty_index_wf, genesis_empty.
  - apply empty_index_times, genesis_empty.
Qed.

Lemma header_update_spec_witness :
  ∃ s1, pruned ctx1 client0 (client_view id0 created) s1 ∧
    tm_CheckHeaderAndUpdateState ctx1 client0 (Some header8) (client_view id0 created) =
      (put_metadata (NewHeight 1 8) (NewHeight 1 21) 1100 s1,
       Ok (set_latest (NewHeight 1 8) client0, NewConsensusState 700 (NewMerkleRoot "app8") "vals")).
Proof.
  destruct created_invariant as [W Ht].
  destruct (header_update_spec ctx1 client0 header8 (client_view id0 created) (NewHeight 1 8)
    (NewConsensusState 700 (NewMerkleRoot "app8") "vals") (NewHeight 1 21)) as [_ H]; try done.
  destruct H as [_ H]; [vm_compute; discriminate|]. destruct H as [_ H]; [vm_compute; reflexivity|].
  destruct H as (s1 & Hp & Hr).
  - rewrite <- conflict_found_spec; [vm_compute; discriminate|done|done|done|vm_compute; discriminate].
  - exists s1. split; [exact Hp|exact Hr].
Defined.

Lemma prune_all_spec_witness :
  ∃ s', PruneAllExpiredConsensusStates (mkContext "chainA-1" 99 99999 false false) client0 (client_view id0 created) =
    (s', Ok tt) ∧ s' !! ConsensusStateKey (NewHeight 1 5) = None.
Proof.
  destruct (prune_all_spec (mkContext "chainA-1" 99 99999 false false) client0 (client_view id0 created))
    as (s' & Hrun & _ & Hgone & _); [apply created_invariant|].
  exists s'. split; [exact Hrun|]. apply (Hgone (NewHeight 1 5)); [by apply height_ok| |by left].
  exists consensus0. split; vm_compute; reflexivity.
Defined.

(** Two blocks at height 9. *)
Definition fork : Misbehaviour :=
  NewMisbehaviour id0 (Some (header_of 9 800 "app9" "block9")) (Some (header_of 9 800 "evil9" "fork9")).
Definition frozen_world : World := (CheckMisbehaviourAndUpdateState ctx1 fork created).1.

Lemma frozen_run : CheckMisbehaviourAndUpdateState ctx1 fork created = (frozen_world, Ok tt).
Proof. unfold frozen_world. apply run_pair. vm_compute. reflexivity. Qed.

Lemma misbehaviour_freezes_witness :
  ∃ cs, client created (ClientId fork) = Some cs ∧
    client_view (ClientId fork) frozen_world =
      <[ClientStateKey := Marshal_ClientState (frozen cs : @Exported.ClientState tendermint)]>
        (client_view (ClientId fork) created).
Proof.
  destruct (misbehaviour_freezes ctx1 fork created frozen_world frozen_run)
    as (cs & h1 & h2 & x1 & x2 & t1 & t2 & Hc & _ & _ & _ & _ & _ & _ & _ & _ & _ & _ & _ & Hv & _).
  exists cs. split; [exact Hc|exact Hv].
Defined.

(** A second client of the same chain, at a greater height, takes over. *)
Definition client1 : ClientState :=
  NewClientState "chainB-1" (mkFraction 1 3) 10000 20000 10 (NewHeight 1 12) [Some false; Some true]
    ["upgrade"; "upgradedIBCState"] true true.
Definition with_substitute : World :=
  (CreateClient ctx1 client1 (Some (NewConsensusState 900 (NewMerkleRoot "app12") "vals")) frozen_world).1.
Definition revived : World := (ClientUpdateProposal ctx1 id0 id1 with_substitute).1.

Lemma substitution_revives_witness :
  ∃ cs sub, client with_substitute id0 = Some cs ∧ client with_substitute id1 = Some sub ∧
    tm_Status ctx1 (client_view id0 with_substitute) cs = Frozen ∧
    tm_Status ctx1 (client_view id0 revived) (substituted cs sub) = Active.
Proof.
  destruct (substitution_revives ctx1 id0 id1 with_substitute revived)
    as (cs & sub & c & Hcs & Hsub & _ & _ & Hst & _ & _ & _ & _ & _ & Hact).
  - unfold revived. apply run_pair. vm_compute. reflexivity.
  - exists cs, sub. split; [exact Hcs|]. split; [exact Hsub|]. split; [|exact Hact].
    destruct Hst as [[Hst _]|[Hst _]]; [exact Hst|].
    assert (client with_substitute id0 = Some (frozen client0)) as H by (vm_cast_no_check (eq_refl (Some (frozen client0)))).
    rewrite H in Hcs. injection Hcs as <-. discriminate Hst.
Defined.

Definition proof_client : string := enc (A := MerkleProof) (mkMerkleProof [ToyExist upgrade_store; ToyExist stores]).
Definition upgraded_world : World :=
  (UpgradeClient ctx1 id0 up_client (Some up_consensus) proof_client proof_client created).1.

Lemma upgrade_spec_witness :
  cons_at (client_view id0 upgraded_world) (NewHeight 2 1) = Some (upgraded_consensus up_consensus).
Proof.
  destruct (upgrade_spec ctx1 id0 up_client (Some up_consensus) proof_client proof_client created upgraded_world)
    as (cs & c & last & mp1 & mp2 & _ & Hc & _ & _ & _ & _ & _ & _ & _ & Hcons & _).
  - apply created_invariant.
  - by apply height_ok.
  - done.
  - unfold upgraded_world. apply run_pair. vm_compute. reflexivity.
  - injection Hc as <-. exact Hcons.
Defined.

Lemma delay_period_spec_witness :
  verifyDelayPeriodPassed (mkContext "chainA-1" 23 1500 false false) (client_view id0 created) (NewHeight 1 5) 500 3 = Ok tt.
Proof.
  destruct (delay_period_spec (mkContext "chainA-1" 23 1500 false false) (client_view id0 created) (NewHeight 1 5) 500 3
    1000 (NewHeight 1 20) (NewHeight 1 23)) as [[_ H] _]; [vm_compute; reflexivity..|].
  apply H. split; [vm_compute; discriminate|]. right. split; [reflexivity|vm_compute; discriminate].
Defined.

Lemma tendermint_client_sound_witness :
  sound_client created id0 (NewMerklePrefix "ibc") (NewHeight 1 5) ibc_store "transfer" "channel-0".
Proof.
  eapply tendermint_client_sound; [exact toy_ics23_sound| |reflexivity|by split].
  assert (client created id0 = Some client0) as -> by (vm_cast_no_check (eq_refl (Some client0))).
  assert (cons_at (client_view id0 created) (NewHeight 1 5) = Some consensus0) as -> by (vm_compute; reflexivity).
  intros cs cons [= <-] [= <-]. exists false, true, stores. split; [reflexivity|]. split; [reflexivity|].
  vm_compute. reflexivity.
Defined.
End TmWitness.
