(* ===== verification/Solomachine.v ===== *)
(** * The solo machine light client ([light-clients/06-solomachine/types])

    A solo machine is a single key that signs statements.  Its client state carries the
    key and a sequence; a proof is a signature over the sequence, a timestamp, the
    diversifier, the kind of the statement and its data, and every accepted proof
    increments the sequence in the client's store ([client_state.go], [proof.go],
    [codec.go], [update.go], [misbehaviour.go], [misbehaviour_handle.go],
    [proposal_handle.go], [header.go], [consensus_state.go]).

    Keys, signatures and the protobuf encodings are cosmos-sdk's ([SoloCrypto],
    [SoloCodec]).  As for the Tendermint client, a value of an interface type that the
    code casts to its own type is an [option], and an empty proof is [nil]. *)
From S2P Require Import Prelude GoMonad Errors Height Host Sdk ConnectionTypes ChannelTypes.
From S2P Require Import Exported Commitment.

(** [cryptotypes.PubKey], [multisig.PubKey] and [signing.SignatureData]. *)
Class SoloCrypto := {
  PubKey : Type;
  PubKey_eq_dec :: EqDecision PubKey;
  PubKey_Bytes : PubKey → string;
  is_multisig : PubKey → bool;                       (* the key implements [multisig.PubKey] *)
  PubKey_VerifySignature : PubKey → string → string → bool;
  MultiSignatureData : Type;
  (* [VerifyMultisignature] with sign bytes that do not depend on the sign mode *)
  VerifyMultisignature : PubKey → string → MultiSignatureData → outcome unit }.

Module solotypes.
Section types.
Context {SK : SoloCrypto}.

Inductive SignatureData :=
  | SingleSignature (signature : string)
  | MultiSignature (data : MultiSignatureData).

(** A protobuf [Any] that should hold a public key. *)
Inductive PublicKeyAny :=
  | PublicKey_Any (key : PubKey)
  | Other_Any (bz : string).
#[export] Instance PublicKeyAny_eq_dec : EqDecision PublicKeyAny.
Proof. solve_decision. Defined.

Inductive DataType :=
  | UNSPECIFIED | CLIENT | CONSENSUS | CONNECTION | CHANNEL | PACKETCOMMITMENT | PACKETACKNOWLEDGEMENT
  | PACKETRECEIPTABSENCE | NEXTSEQUENCERECV | HEADER.
#[export] Instance DataType_eq_dec : EqDecision DataType.
Proof. solve_decision. Defined.

Record ConsensusState := mkConsensusState {
  PublicKey : option PublicKeyAny;
  Diversifier : string;
  Timestamp : N }.
#[export] Instance ConsensusState_eq_dec : EqDecision ConsensusState.
Proof. solve_decision. Defined.

Record ClientState := mkClientState {
  Sequence : N;
  IsFrozen : bool;
  Client_ConsensusState : option ConsensusState;
  AllowUpdateAfterProposal : bool }.
#[export] Instance ClientState_eq_dec : EqDecision ClientState.
Proof. solve_decision. Defined.
Definition NewClientState (latestSequence : N) (consensusState : option ConsensusState)
    (allowUpdateAfterProposal : bool) : ClientState :=
  mkClientState latestSequence false consensusState allowUpdateAfterProposal.

Record Header := mkHeader {
  Header_Sequence : N;
  Header_Timestamp : N;
  Header_Signature : string;
  NewPublicKey : option PublicKeyAny;
  NewDiversifier : string }.

Record SignatureAndData := mkSignatureAndData {
  SD_Signature : string;
  SD_DataType : DataType;
  SD_Data : string;
  SD_Timestamp : N }.
Record Misbehaviour := mkMisbehaviour {
  Misbehaviour_ClientId : string;
  Misbehaviour_Sequence : N;
  SignatureOne : option SignatureAndData;
  SignatureTwo : option SignatureAndData }.

Record TimestampedSignatureData := mkTimestampedSignatureData {
  Timestamped_SignatureData : string;
  Timestamped_Timestamp : N }.
Record SignBytes := mkSignBytes {
  SB_Sequence : N;
  SB_Timestamp : N;
  SB_Diversifier : string;
  SB_DataType : DataType;
  SB_Data : string }.
Record HeaderData := mkHeaderData { HD_NewPubKey : option PublicKeyAny; HD_NewDiversifier : string }.

(** [GetPubKey] of consensus states and of headers. *)
Definition GetPubKey (cs : ConsensusState) : outcome PubKey :=
  match PublicKey cs with
  | Some (PublicKey_Any publicKey) => Ok publicKey
  | _ => Err (Wrap ClientErr.ErrInvalidConsensus)
  end.
Definition Header_GetPubKey (h : Header) : outcome PubKey :=
  match NewPublicKey h with
  | Some (PublicKey_Any publicKey) => Ok publicKey
  | _ => Err (Wrap SoloErr.ErrInvalidHeader)
  end.

(** [err != nil || key == nil || len(key.Bytes()) == 0] *)
Definition unusable_key (key : outcome PubKey) : bool :=
  match key with
  | Ok k => bool_decide (String.length (PubKey_Bytes k) = 0)
  | _ => true
  end.
(** [s != "" && strings.TrimSpace(s) == ""] *)
Definition only_spaces (s : string) : bool := negb (bool_decide (s = "")) && blank s.

Definition ConsensusState_ValidateBasic (cs : ConsensusState) : outcome unit :=
  fail_if (Timestamp cs =? 0)%N (Wrap ClientErr.ErrInvalidConsensus) ;;?
  fail_if (only_spaces (Diversifier cs)) (Wrap ClientErr.ErrInvalidConsensus) ;;?
  fail_if (unusable_key (GetPubKey cs)) (Wrap ClientErr.ErrInvalidConsensus).

Definition GetLatestHeight (cs : ClientState) : Height := NewHeight 0 (Sequence cs).
Definition solo_Status (cs : ClientState) : Status := if IsFrozen cs then Frozen else Active.
Definition Validate (cs : ClientState) : outcome unit :=
  fail_if (Sequence cs =? 0)%N (Wrap ClientErr.ErrInvalidClient) ;;?
  match Client_ConsensusState cs with
  | None => Err (Wrap ClientErr.ErrInvalidConsensus)
  | Some consensusState => ConsensusState_ValidateBasic consensusState
  end.
Definition ZeroCustomFields (cs : ClientState) : ClientState :=
  NewClientState (Sequence cs) (Client_ConsensusState cs) false.

Definition Header_GetHeight (h : Header) : Height := NewHeight 0 (Header_Sequence h).
Definition Header_ValidateBasic (h : Header) : outcome unit :=
  fail_if (Header_Sequence h =? 0)%N (Wrap ClientErr.ErrInvalidHeader) ;;?
  fail_if (Header_Timestamp h =? 0)%N (Wrap ClientErr.ErrInvalidHeader) ;;?
  fail_if (only_spaces (NewDiversifier h)) (Wrap ClientErr.ErrInvalidHeader) ;;?
  fail_if (bool_decide (String.length (Header_Signature h) = 0)) (Wrap ClientErr.ErrInvalidHeader) ;;?
  fail_if (unusable_key (Header_GetPubKey h)) (Wrap ClientErr.ErrInvalidHeader).

Definition SignatureAndData_ValidateBasic (sd : SignatureAndData) : outcome unit :=
  fail_if (bool_decide (String.length (SD_Signature sd) = 0)) (Wrap SoloErr.ErrInvalidSignatureAndData) ;;?
  fail_if (bool_decide (String.length (SD_Data sd) = 0)) (Wrap SoloErr.ErrInvalidSignatureAndData) ;;?
  fail_if (bool_decide (SD_DataType sd = UNSPECIFIED)) (Wrap SoloErr.ErrInvalidSignatureAndData) ;;?
  fail_if (SD_Timestamp sd =? 0)%N (Wrap SoloErr.ErrInvalidSignatureAndData).

(** The signatures are pointers, and [ValidateBasic] has a value receiver: [nil] panics. *)
Definition Misbehaviour_ValidateBasic (m : Misbehaviour) : outcome unit :=
  outcome_wrap (ClientIdentifierValidator (Misbehaviour_ClientId m)) ;;?
  fail_if (Misbehaviour_Sequence m =? 0)%N (Wrap ClientErr.ErrInvalidMisbehaviour) ;;?
  let? one := must_some (SignatureOne m) in
  outcome_wrap (SignatureAndData_ValidateBasic one) ;;?
  let? two := must_some (SignatureTwo m) in
  outcome_wrap (SignatureAndData_ValidateBasic two) ;;?
  fail_if (bool_decide (SD_Signature one = SD_Signature two)) (Wrap ClientErr.ErrInvalidMisbehaviour) ;;?
  fail_if (bool_decide (SD_Data one = SD_Data two)) (Wrap ClientErr.ErrInvalidMisbehaviour).
End types.
End solotypes.

(** The protobuf codec on the values the client marshals.  [AnyClient] and [AnyConsensus]
    are the client and consensus states of the chain, of every kind; a failed [Unmarshal]
    is [None].  [cdc.Marshal] does not fail on these messages. *)
Class SoloCodec {SK : SoloCrypto} (AnyClient AnyConsensus : Type) := {
  Marshal_SignBytes : solotypes.SignBytes → string;
  Marshal_HeaderData : solotypes.HeaderData → string;
  Marshal_ClientStateData : string → AnyClient → string;
  Marshal_ConsensusStateData : string → AnyConsensus → string;
  Marshal_ConnectionStateData : string → connectiontypes.ConnectionEnd → string;
  Marshal_ChannelStateData : string → Channel → string;
  Marshal_PacketCommitmentData : string → string → string;
  Marshal_PacketAcknowledgementData : string → string → string;
  Marshal_PacketReceiptAbsenceData : string → string;
  Marshal_NextSequenceRecvData : string → N → string;
  (* whether bytes are a message of the type; for client and consensus states, whether the
     [Any] inside can be unpacked *)
  Unmarshals : solotypes.DataType → string → bool;
  Unpacks : solotypes.DataType → string → bool;
  Unmarshal_TimestampedSignatureData : string → option solotypes.TimestampedSignatureData;
  SignatureDescriptor : Type;
  Unmarshal_SignatureDescriptor : string → option SignatureDescriptor;
  SignatureDataFromProto : SignatureDescriptor → outcome solotypes.SignatureData;
  solo_Marshal_ClientState : solotypes.ClientState → string;
  SignBytes_inj a b : Marshal_SignBytes a = Marshal_SignBytes b → a = b }.

Module solomachine.
Import commitmenttypes solotypes.
Section client.
Context {SK : SoloCrypto} {AnyClient AnyConsensus : Type} {SC : SoloCodec AnyClient AnyConsensus}.

(** ** [codec.go] *)

(** The error of [cdc.Unmarshal]. *)
Definition proto_error : error := External "proto: unmarshal".

Definition UnmarshalSignatureData (data : string) : outcome SignatureData :=
  match Unmarshal_SignatureDescriptor data with
  | None => Err (Wrap proto_error)
  | Some protoSigData => SignatureDataFromProto protoSigData
  end.

(** The callers only use whether the data can be unmarshalled. *)
Definition UnmarshalDataByType (dataType : DataType) (data : string) : outcome unit :=
  fail_if (bool_decide (String.length data = 0)) (Wrap SoloErr.ErrInvalidSignatureAndData) ;;?
  match dataType with
  | UNSPECIFIED => Err (Wrap SoloErr.ErrInvalidDataType)
  | CLIENT | CONSENSUS =>
      fail_if (negb (Unmarshals dataType data)) proto_error ;;?
      fail_if (negb (Unpacks dataType data)) (Wrap sdkerrors.ErrUnpackAny)
  | CONNECTION | CHANNEL | PACKETCOMMITMENT | PACKETACKNOWLEDGEMENT | PACKETRECEIPTABSENCE | NEXTSEQUENCERECV =>
      fail_if (negb (Unmarshals dataType data)) proto_error
  | HEADER => Err (Wrap SoloErr.ErrInvalidDataType)
  end.

(** ** [proof.go] *)

Definition VerifySignature (pubKey : PubKey) (signBytes : string) (sigData : SignatureData) : outcome unit :=
  if is_multisig pubKey then
    match sigData with
    | MultiSignature data => VerifyMultisignature pubKey signBytes data
    | SingleSignature _ => Err (Wrap SoloErr.ErrSignatureVerificationFailed)
    end
  else
    match sigData with
    | SingleSignature signature =>
        fail_if (negb (PubKey_VerifySignature pubKey signBytes signature)) SoloErr.ErrSignatureVerificationFailed
    | MultiSignature _ => Err (Wrap SoloErr.ErrSignatureVerificationFailed)
    end.

Definition MisbehaviourSignBytes (sequence timestamp : N) (diversifier : string) (dataType : DataType) (data : string) :
    string :=
  Marshal_SignBytes (mkSignBytes sequence timestamp diversifier dataType data).

(** The diversifier is the new one. *)
Definition HeaderSignBytes (header : Header) : string :=
  let dataBz := Marshal_HeaderData (mkHeaderData (NewPublicKey header) (NewDiversifier header)) in
  Marshal_SignBytes
    (mkSignBytes (Header_Sequence header) (Header_Timestamp header) (NewDiversifier header) HEADER dataBz).

Definition ClientStateDataBytes (path : MerklePath) (clientState : option AnyClient) : outcome string :=
  match clientState with
  | None => Err (Wrap sdkerrors.ErrPackAny)
  | Some any => Ok (Marshal_ClientStateData (Path_String path) any)
  end.
Definition ClientStateSignBytes (sequence timestamp : N) (diversifier : string) (path : MerklePath)
    (clientState : option AnyClient) : outcome string :=
  let? dataBz := ClientStateDataBytes path clientState in
  Ok (Marshal_SignBytes (mkSignBytes sequence timestamp diversifier CLIENT dataBz)).

Definition ConsensusStateDataBytes (path : MerklePath) (consensusState : option AnyConsensus) : outcome string :=
  match consensusState with
  | None => Err (Wrap sdkerrors.ErrPackAny)
  | Some any => Ok (Marshal_ConsensusStateData (Path_String path) any)
  end.
Definition ConsensusStateSignBytes (sequence timestamp : N) (diversifier : string) (path : MerklePath)
    (consensusState : option AnyConsensus) : outcome string :=
  let? dataBz := ConsensusStateDataBytes path consensusState in
  Ok (Marshal_SignBytes (mkSignBytes sequence timestamp diversifier CONSENSUS dataBz)).

(** The keepers pass connection and channel ends by value, which is what the casts expect. *)
Definition ConnectionStateDataBytes (path : MerklePath) (connectionEnd : connectiontypes.ConnectionEnd) : string :=
  Marshal_ConnectionStateData (Path_String path) connectionEnd.
Definition ConnectionStateSignBytes (sequence timestamp : N) (diversifier : string) (path : MerklePath)
    (connectionEnd : connectiontypes.ConnectionEnd) : outcome string :=
  Ok (Marshal_SignBytes
    (mkSignBytes sequence timestamp diversifier CONNECTION (ConnectionStateDataBytes path connectionEnd))).

Definition ChannelStateDataBytes (path : MerklePath) (channelEnd : Channel) : string :=
  Marshal_ChannelStateData (Path_String path) channelEnd.
Definition ChannelStateSignBytes (sequence timestamp : N) (diversifier : string) (path : MerklePath)
    (channelEnd : Channel) : outcome string :=
  Ok (Marshal_SignBytes (mkSignBytes sequence timestamp diversifier CHANNEL (ChannelStateDataBytes path channelEnd))).

Definition PacketCommitmentDataBytes (path : MerklePath) (commitmentBytes : string) : string :=
  Marshal_PacketCommitmentData (Path_String path) commitmentBytes.
Definition PacketCommitmentSignBytes (sequence timestamp : N) (diversifier : string) (path : MerklePath)
    (commitmentBytes : string) : outcome string :=
  Ok (Marshal_SignBytes
    (mkSignBytes sequence timestamp diversifier PACKETCOMMITMENT (PacketCommitmentDataBytes path commitmentBytes))).

Definition PacketAcknowledgementDataBytes (path : MerklePath) (acknowledgement : string) : string :=
  Marshal_PacketAcknowledgementData (Path_String path) acknowledgement.
Definition PacketAcknowledgementSignBytes (sequence timestamp : N) (diversifier : string) (path : MerklePath)
    (acknowledgement : string) : outcome string :=
  Ok (Marshal_SignBytes
    (mkSignBytes sequence timestamp diversifier PACKETACKNOWLEDGEMENT
      (PacketAcknowledgementDataBytes path acknowledgement))).

Definition PacketReceiptAbsenceDataBytes (path : MerklePath) : string :=
  Marshal_PacketReceiptAbsenceData (Path_String path).
Definition PacketReceiptAbsenceSignBytes (sequence timestamp : N) (diversifier : string) (path : MerklePath) :
    outcome string :=
  Ok (Marshal_SignBytes
    (mkSignBytes sequence timestamp diversifier PACKETRECEIPTABSENCE (PacketReceiptAbsenceDataBytes path))).

Definition NextSequenceRecvDataBytes (path : MerklePath) (nextSequenceRecv : N) : string :=
  Marshal_NextSequenceRecvData (Path_String path) nextSequenceRecv.
Definition NextSequenceRecvSignBytes (sequence timestamp : N) (diversifier : string) (path : MerklePath)
    (nextSequenceRecv : N) : outcome string :=
  Ok (Marshal_SignBytes
    (mkSignBytes sequence timestamp diversifier NEXTSEQUENCERECV (NextSequenceRecvDataBytes path nextSequenceRecv))).

(** ** [client_state.go] *)

(** [reflect.DeepEqual] of a pointer and an interface value: a [nil] interface value is not
    equal to a [nil] pointer. *)
Definition solo_Initialize (cs : ClientState) (consState : option ConsensusState) : ST KVStore unit :=
  throw_if (is_nil consState || bool_decide (Client_ConsensusState cs ≠ consState))
    (Wrap ClientErr.ErrInvalidConsensus).

(** The last component is the dereferenced [cs.ConsensusState]. *)
Definition produceVerificationArgs (cs : ClientState) (height : Height) (proof : string) :
    outcome (PubKey * SignatureData * N * N * ConsensusState) :=
  fail_if (negb (RevisionNumber height =? 0)%N) (Wrap sdkerrors.ErrInvalidHeight) ;;?
  let sequence := RevisionHeight height in
  fail_if (bool_decide (proof = "")) (Wrap SoloErr.ErrInvalidProof) ;;?
  match Unmarshal_TimestampedSignatureData proof with
  | None => Err (Wrap proto_error)
  | Some timestampedSigData =>
      let timestamp := Timestamped_Timestamp timestampedSigData in
      fail_if (bool_decide (String.length (Timestamped_SignatureData timestampedSigData) = 0))
        (Wrap SoloErr.ErrInvalidProof) ;;?
      let? sigData := UnmarshalSignatureData (Timestamped_SignatureData timestampedSigData) in
      match Client_ConsensusState cs with
      | None => Err (Wrap ClientErr.ErrInvalidConsensus)
      | Some consensusState =>
          let latestSequence := RevisionHeight (GetLatestHeight cs) in
          fail_if (negb (latestSequence =? sequence)%N) (Wrap sdkerrors.ErrInvalidHeight) ;;?
          fail_if (timestamp <? Timestamp consensusState)%N (Wrap SoloErr.ErrInvalidProof) ;;?
          let? publicKey := GetPubKey consensusState in
          Ok (publicKey, sigData, timestamp, sequence, consensusState)
      end
  end.

Definition setClientState (clientState : ClientState) : ST KVStore unit :=
  modify (store_Set KeyClientState (solo_Marshal_ClientState clientState)).

(** [cs.Sequence++; cs.ConsensusState.Timestamp = timestamp] *)
Definition used (cs : ClientState) (consensusState : ConsensusState) (timestamp : N) : ClientState :=
  mkClientState (u64 (Sequence cs + 1)) (IsFrozen cs)
    (Some (mkConsensusState (PublicKey consensusState) (Diversifier consensusState) timestamp))
    (AllowUpdateAfterProposal cs).

(** The common body of the verification functions; [signBytes] is the [...SignBytes]
    function of the statement, from sequence, timestamp, diversifier and path on. *)
Definition verify_signed (cs : ClientState) (height : Height) (prefix : MerklePrefix) (proof path : string)
    (signBytes : N → N → string → MerklePath → outcome string) : ST KVStore unit :=
  let! ' (publicKey, sigData, timestamp, sequence, consensusState) := lift (produceVerificationArgs cs height proof) in
  let! path := lift (ApplyPrefix prefix (NewMerklePath [path])) in
  let! signBz := lift (signBytes sequence timestamp (Diversifier consensusState) path) in
  lift (VerifySignature publicKey signBz sigData) ;;;
  setClientState (used cs consensusState timestamp).

(** [clienttypes.NewHeight(height.GetRevisionNumber(), height.GetRevisionHeight()+n)] *)
Definition later (height : Height) (n : N) : Height :=
  NewHeight (RevisionNumber height) (u64 (RevisionHeight height + n)).

Definition solo_VerifyClientState (cs : ClientState) (height : Height) (prefix : MerklePrefix)
    (counterpartyClientIdentifier proof : string) (clientState : option AnyClient) : ST KVStore unit :=
  verify_signed cs (later height 1) prefix proof (FullClientStatePath counterpartyClientIdentifier)
    (λ sequence timestamp diversifier path, ClientStateSignBytes sequence timestamp diversifier path clientState).

Definition solo_VerifyClientConsensusState (cs : ClientState) (height : Height) (counterpartyClientIdentifier : string)
    (consensusHeight : Height) (prefix : MerklePrefix) (proof : string) (consensusState : option AnyConsensus) :
    ST KVStore unit :=
  verify_signed cs (later height 2) prefix proof (FullConsensusStatePath counterpartyClientIdentifier consensusHeight)
    (λ sequence timestamp diversifier path, ConsensusStateSignBytes sequence timestamp diversifier path consensusState).

Definition solo_VerifyConnectionState (cs : ClientState) (height : Height) (prefix : MerklePrefix)
    (proof connectionID : string) (connectionEnd : connectiontypes.ConnectionEnd) : ST KVStore unit :=
  verify_signed cs height prefix proof (ConnectionPath connectionID)
    (λ sequence timestamp diversifier path, ConnectionStateSignBytes sequence timestamp diversifier path connectionEnd).

Definition solo_VerifyChannelState (cs : ClientState) (height : Height) (prefix : MerklePrefix)
    (proof portID channelID : string) (channel : Channel) : ST KVStore unit :=
  verify_signed cs height prefix proof (ChannelPath portID channelID)
    (λ sequence timestamp diversifier path, ChannelStateSignBytes sequence timestamp diversifier path channel).

Definition solo_VerifyPacketCommitment (cs : ClientState) (height : Height) (prefix : MerklePrefix)
    (proof portID channelID : string) (packetSequence : N) (commitmentBytes : string) : ST KVStore unit :=
  verify_signed cs height prefix proof (PacketCommitmentPath portID channelID packetSequence)
    (λ sequence timestamp diversifier path,
      PacketCommitmentSignBytes sequence timestamp diversifier path commitmentBytes).

Definition solo_VerifyPacketAcknowledgement (cs : ClientState) (height : Height) (prefix : MerklePrefix)
    (proof portID channelID : string) (packetSequence : N) (acknowledgement : string) : ST KVStore unit :=
  verify_signed cs height prefix proof (PacketAcknowledgementPath portID channelID packetSequence)
    (λ sequence timestamp diversifier path,
      PacketAcknowledgementSignBytes sequence timestamp diversifier path acknowledgement).

Definition solo_VerifyPacketReceiptAbsence (cs : ClientState) (height : Height) (prefix : MerklePrefix)
    (proof portID channelID : string) (packetSequence : N) : ST KVStore unit :=
  verify_signed cs height prefix proof (PacketReceiptPath portID channelID packetSequence)
    (λ sequence timestamp diversifier path, PacketReceiptAbsenceSignBytes sequence timestamp diversifier path).

Definition solo_VerifyNextSequenceRecv (cs : ClientState) (height : Height) (prefix : MerklePrefix)
    (proof portID channelID : string) (nextSequenceRecv : N) : ST KVStore unit :=
  verify_signed cs height prefix proof (NextSequenceRecvPath portID channelID)
    (λ sequence timestamp diversifier path,
      NextSequenceRecvSignBytes sequence timestamp diversifier path nextSequenceRecv).

(** ** [update.go] *)

(** The result is the dereferenced [clientState.ConsensusState], which panics when [nil]. *)
Definition checkHeader (clientState : ClientState) (header : Header) : outcome unit :=
  fail_if (negb (Header_Sequence header =? Sequence clientState)%N) (Wrap ClientErr.ErrInvalidHeader) ;;?
  let? consensusState := must_some (Client_ConsensusState clientState) in
  fail_if (Header_Timestamp header <? Timestamp consensusState)%N (Wrap ClientErr.ErrInvalidHeader) ;;?
  let data := HeaderSignBytes header in
  let? sigData := UnmarshalSignatureData (Header_Signature header) in
  let? publicKey := GetPubKey consensusState in
  match VerifySignature publicKey data sigData with
  | Err _ => Err (Wrap SoloErr.ErrInvalidHeader)
  | o => o
  end.

Definition update (clientState : ClientState) (header : Header) : ClientState * ConsensusState :=
  let consensusState := mkConsensusState (NewPublicKey header) (NewDiversifier header) (Header_Timestamp header) in
  (mkClientState (u64 (Sequence clientState + 1)) (IsFrozen clientState) (Some consensusState)
     (AllowUpdateAfterProposal clientState), consensusState).

Definition solo_CheckHeaderAndUpdateState (cs : ClientState) (header : option Header) :
    ST KVStore (ClientState * ConsensusState) :=
  match header with
  | None => throw (Wrap ClientErr.ErrInvalidHeader)
  | Some smHeader => lift (checkHeader cs smHeader) ;;; ret (update cs smHeader)
  end.

(** ** [misbehaviour_handle.go] *)

Definition verifySignatureAndData (clientState : ClientState) (misbehaviour : Misbehaviour)
    (sigAndData : option SignatureAndData) : outcome unit :=
  let? sigAndData := must_some sigAndData in
  UnmarshalDataByType (SD_DataType sigAndData) (SD_Data sigAndData) ;;?
  let? consensusState := must_some (Client_ConsensusState clientState) in
  let data := MisbehaviourSignBytes (Misbehaviour_Sequence misbehaviour) (SD_Timestamp sigAndData)
                (Diversifier consensusState) (SD_DataType sigAndData) (SD_Data sigAndData) in
  let? sigData := UnmarshalSignatureData (SD_Signature sigAndData) in
  let? publicKey := GetPubKey consensusState in
  VerifySignature publicKey data sigData.

Definition set_frozen (frozen : bool) (cs : ClientState) : ClientState :=
  mkClientState (Sequence cs) frozen (Client_ConsensusState cs) (AllowUpdateAfterProposal cs).

Definition solo_CheckMisbehaviourAndUpdateState (cs : ClientState) (misbehaviour : option Misbehaviour) :
    ST KVStore ClientState :=
  match misbehaviour with
  | None => throw (Wrap ClientErr.ErrInvalidClientType)
  | Some soloMisbehaviour =>
      wrap_err (lift (verifySignatureAndData cs soloMisbehaviour (SignatureOne soloMisbehaviour))) ;;;
      wrap_err (lift (verifySignatureAndData cs soloMisbehaviour (SignatureTwo soloMisbehaviour))) ;;;
      ret (set_frozen true cs)
  end.

(** ** [proposal_handle.go] *)

Definition solo_CheckSubstituteAndUpdateState (cs : ClientState) (substituteClient : option ClientState) :
    ST (KVStore * KVStore) ClientState :=
  throw_if (negb (AllowUpdateAfterProposal cs)) (Wrap ClientErr.ErrUpdateClientFailed) ;;;
  let! substituteClientState := some_or substituteClient (Wrap ClientErr.ErrInvalidClientType) in
  let! subject := lift (must_some (Client_ConsensusState cs)) in
  let! subjectPublicKey := wrap_err (lift (GetPubKey subject)) in
  let! substitute := lift (must_some (Client_ConsensusState substituteClientState)) in
  let! substitutePublicKey := wrap_err (lift (GetPubKey substitute)) in
  throw_if (bool_decide (subjectPublicKey = substitutePublicKey)) (Wrap ClientErr.ErrInvalidHeader) ;;;
  ret (mkClientState (Sequence substituteClientState) false (Client_ConsensusState substituteClientState)
         (AllowUpdateAfterProposal cs)).

(** [VerifyUpgradeAndUpdateState] *)
Definition solo_VerifyUpgradeAndUpdateState {A} : ST KVStore A :=
  throw (Wrap ClientErr.ErrInvalidUpgradeClient).
End client.
End solomachine.
