(* ===== verification/Localhost.v ===== *)
(** * The localhost light client ([light-clients/09-localhost/types])

    A client of the chain itself: it verifies nothing but looks values up in the store it
    is given ([client_state.go]). *)
From S2P Require Import Prelude GoMonad Errors Height Host Sdk ConnectionTypes ChannelTypes.
From S2P Require Import Exported.

(** The protobuf codec on the values the client reads. *)
Class LocalCodec (AnyClient : Type) := {
  local_client_eq_dec :: EqDecision AnyClient;
  local_Unmarshal_ClientState : string → option AnyClient;
  local_Unmarshal_ConnectionEnd : string → option connectiontypes.ConnectionEnd;
  local_Unmarshal_Channel : string → option Channel }.

Module localhost.
(** A value of an interface type that a pointer or a plain value may implement. *)
Inductive iface (A : Type) := by_pointer (a : A) | by_value (a : A).
Arguments by_pointer {A} _.
Arguments by_value {A} _.
(** [reflect.DeepEqual(&a, x)]: values of different types are not deeply equal. *)
Definition deep_equal_pointer {A} `{EqDecision A} (a : A) (x : iface A) : bool :=
  match x with
  | by_pointer b => bool_decide (a = b)
  | by_value _ => false
  end.

Section client.
Context {AnyClient : Type} {LD : LocalCodec AnyClient}.

Record ClientState := NewClientState { ChainId : string; Client_Height : Height }.
#[export] Instance ClientState_eq_dec : EqDecision ClientState.
Proof. solve_decision. Defined.

Definition local_Validate (cs : ClientState) : outcome unit :=
  fail_if (blank (ChainId cs)) (Wrap sdkerrors.ErrInvalidChainID) ;;?
  fail_if (RevisionHeight (Client_Height cs) =? 0)%N (Wrap sdkerrors.ErrInvalidHeight).

Definition local_Initialize {B} (consState : option B) : ST KVStore unit :=
  throw_if (negb (is_nil consState)) (Wrap ClientErr.ErrInvalidConsensus).

Definition local_CheckHeaderAndUpdateState (ctx : Context) : ST KVStore ClientState :=
  let! revision := lift (ParseChainID (ChainID ctx)) in
  ret (NewClientState (ChainID ctx) (NewHeight revision (uint64_of_Z (BlockHeight ctx)))).

Definition local_CheckMisbehaviourAndUpdateState {A} : ST KVStore A := throw (Wrap ClientErr.ErrInvalidMisbehaviour).
Definition local_CheckSubstituteAndUpdateState {A} : ST (KVStore * KVStore) A := throw (Wrap ClientErr.ErrUpdateClientFailed).
Definition local_VerifyUpgradeAndUpdateState {A} : ST KVStore A := throw (Wrap ClientErr.ErrInvalidUpgradeClient).

Definition local_VerifyClientState (clientState : AnyClient) (store : KVStore) : outcome unit :=
  match store !! KeyClientState with
  | None => Err (Wrap ClientErr.ErrFailedClientStateVerification)
  | Some bz =>
      let? selfClient := must_some (local_Unmarshal_ClientState bz) in
      fail_if (negb (bool_decide (selfClient = clientState))) (Wrap ClientErr.ErrFailedClientStateVerification)
  end.

Definition local_VerifyClientConsensusState : outcome unit := Ok tt.

(** The error of [cdc.Unmarshal]. *)
Definition proto_error : error := External "proto: unmarshal".

Definition local_VerifyConnectionState (connectionID : string) (connectionEnd : iface connectiontypes.ConnectionEnd)
    (store : KVStore) : outcome unit :=
  match store !! ConnectionKey connectionID with
  | None => Err (Wrap ClientErr.ErrFailedConnectionStateVerification)
  | Some bz =>
      match local_Unmarshal_ConnectionEnd bz with
      | None => Err proto_error
      | Some prevConnection =>
          fail_if (negb (deep_equal_pointer prevConnection connectionEnd))
            (Wrap ClientErr.ErrFailedConnectionStateVerification)
      end
  end.

Definition local_VerifyChannelState (portID channelID : string) (channel : iface Channel) (store : KVStore) :
    outcome unit :=
  match store !! ChannelKey portID channelID with
  | None => Err (Wrap ClientErr.ErrFailedChannelStateVerification)
  | Some bz =>
      match local_Unmarshal_Channel bz with
      | None => Err proto_error
      | Some prevChannel =>
          fail_if (negb (deep_equal_pointer prevChannel channel)) (Wrap ClientErr.ErrFailedChannelStateVerification)
      end
  end.

(** [len(data) == 0] for a key that is absent or holds no bytes. *)
Definition read_nonempty (key : string) (store : KVStore) : option string :=
  match store !! key with
  | Some data => if bool_decide (String.length data = 0) then None else Some data
  | None => None
  end.

Definition local_VerifyPacketCommitment (portID channelID : string) (sequence : N) (commitmentBytes : string)
    (store : KVStore) : outcome unit :=
  match read_nonempty (PacketCommitmentKey portID channelID sequence) store with
  | None => Err (Wrap ClientErr.ErrFailedPacketCommitmentVerification)
  | Some data =>
      fail_if (negb (bool_decide (data = commitmentBytes))) (Wrap ClientErr.ErrFailedPacketCommitmentVerification)
  end.

Definition local_VerifyPacketAcknowledgement (portID channelID : string) (sequence : N) (acknowledgement : string)
    (store : KVStore) : outcome unit :=
  match read_nonempty (PacketAcknowledgementKey portID channelID sequence) store with
  | None => Err (Wrap ClientErr.ErrFailedPacketAckVerification)
  | Some data =>
      fail_if (negb (bool_decide (data = acknowledgement))) (Wrap ClientErr.ErrFailedPacketAckVerification)
  end.

Definition local_VerifyPacketReceiptAbsence (portID channelID : string) (sequence : N) (store : KVStore) : outcome unit :=
  fail_if (negb (is_nil (store !! PacketReceiptKey portID channelID sequence)))
    (Wrap ClientErr.ErrFailedPacketReceiptVerification).

(** [binary.BigEndian.Uint64] panics on fewer than 8 bytes. *)
Definition local_VerifyNextSequenceRecv (portID channelID : string) (nextSequenceRecv : N) (store : KVStore) :
    outcome unit :=
  match read_nonempty (NextSequenceRecvKey portID channelID) store with
  | None => Err (Wrap ClientErr.ErrFailedNextSeqRecvVerification)
  | Some data =>
      if (String.length data <? 8)%nat then Panic
      else
        let prevSequenceRecv := be8_decode (String.substring 0 8 data) in
        fail_if (negb (prevSequenceRecv =? nextSequenceRecv)%N) (Wrap ClientErr.ErrFailedNextSeqRecvVerification)
  end.
End client.
End localhost.
