(* ===== verification/Clients.v ===== *)
(** * The light clients of a chain

    A chain runs Tendermint, solo machine and localhost clients side by side: an
    [exported.ClientState] is a value of one of the three types, and a call through the
    interface is a call of that type's method.  [ibc_clients] is the instance of
    [LightClient] with this dispatch; a cast to a client's own type fails on values of the
    others.  The clients of such a chain do not interfere ([client_isolation]). *)
From S2P Require Import Prelude GoMonad Errors Height Host Sdk ConnectionTypes ChannelTypes.
From S2P Require Import Exported Commitment TendermintTypes TendermintStore TendermintClient.
From S2P Require Import Solomachine Localhost ClientKeeper Noninterference.
From Stdlib Require Import Ascii.
Import ibctm solomachine.

Section clients.
Context {SE : SdkEncoding} {IC : Ics23} {TL : TendermintLib} {TC : TmCodec} {UT : UpgradeTypes} {SK : SoloCrypto}.

Inductive AnyClientState :=
  | TmClient (cs : ibctmtypes.ClientState)
  | SoloClient (cs : solotypes.ClientState)
  | LocalClient (cs : localhost.ClientState).
Inductive AnyConsensusState :=
  | TmConsensus (cs : ibctmtypes.ConsensusState)
  | SoloConsensus (cs : solotypes.ConsensusState).
Inductive AnyHeader :=
  | TmHeader (h : ibctmtypes.Header)
  | SoloHeader (h : solotypes.Header).
Inductive AnyMisbehaviour :=
  | TmMisbehaviour (m : ibctmtypes.Misbehaviour)
  | SoloMisbehaviour (m : solotypes.Misbehaviour).

(** Casts *)
Definition tm_client (c : AnyClientState) := match c with TmClient cs => Some cs | _ => None end.
Definition solo_client (c : AnyClientState) := match c with SoloClient cs => Some cs | _ => None end.
Definition tm_consensus (c : AnyConsensusState) := match c with TmConsensus cs => Some cs | _ => None end.
Definition solo_consensus (c : AnyConsensusState) := match c with SoloConsensus cs => Some cs | _ => None end.
Definition tm_header (h : AnyHeader) := match h with TmHeader h => Some h | _ => None end.
Definition solo_header (h : AnyHeader) := match h with SoloHeader h => Some h | _ => None end.
Definition tm_misbehaviour (m : AnyMisbehaviour) := match m with TmMisbehaviour m => Some m | _ => None end.
Definition solo_misbehaviour (m : AnyMisbehaviour) := match m with SoloMisbehaviour m => Some m | _ => None end.

Definition any_latest_height (c : AnyClientState) : Height :=
  match c with
  | TmClient cs => ibctmtypes.LatestHeight cs
  | SoloClient cs => solotypes.GetLatestHeight cs
  | LocalClient cs => localhost.Client_Height cs
  end.

Context {SD : SoloCodec AnyClientState AnyConsensusState} {LD : LocalCodec AnyClientState}.

Definition ibc_clients : LightClient := {|
  Exported.ClientState := AnyClientState;
  Exported.ConsensusState := AnyConsensusState;
  Exported.Header := AnyHeader;
  Exported.Misbehaviour := AnyMisbehaviour;
  ClientType := λ c, match c with TmClient _ => Tendermint | SoloClient _ => Solomachine | LocalClient _ => Localhost end;
  GetLatestHeight := any_latest_height;
  ClientState_Validate := λ c,
    match c with
    | TmClient cs => ibctmtypes.Validate cs
    | SoloClient cs => solotypes.Validate cs
    | LocalClient cs => localhost.local_Validate cs
    end;
  Exported.ExportMetadata := λ c s, match c with TmClient _ => tmstore.ExportMetadata s | _ => [] end;
  ConsensusState_ClientType := λ c, match c with TmConsensus _ => Tendermint | SoloConsensus _ => Solomachine end;
  GetTimestamp := λ c,
    match c with TmConsensus cs => ibctmtypes.GetTimestamp cs | SoloConsensus cs => solotypes.Timestamp cs end;
  ConsensusState_ValidateBasic := λ c,
    match c with
    | TmConsensus cs => ibctmtypes.ConsensusState_ValidateBasic cs
    | SoloConsensus cs => solotypes.ConsensusState_ValidateBasic cs
    end;
  Exported.Header_GetHeight := λ h,
    match h with TmHeader h => ibctmtypes.Header_GetHeight h | SoloHeader h => Ok (solotypes.Header_GetHeight h) end;
  Exported.Header_ValidateBasic := λ h,
    match h with TmHeader h => ibctmtypes.Header_ValidateBasic h | SoloHeader h => solotypes.Header_ValidateBasic h end;
  Misbehaviour_GetClientID := λ m,
    match m with
    | TmMisbehaviour m => ibctmtypes.ClientId m
    | SoloMisbehaviour m => solotypes.Misbehaviour_ClientId m
    end;
  Misbehaviour_ClientType := λ m, match m with TmMisbehaviour _ => Tendermint | SoloMisbehaviour _ => Solomachine end;
  Exported.Misbehaviour_ValidateBasic := λ m,
    match m with
    | TmMisbehaviour m => ibctmtypes.Misbehaviour_ValidateBasic m
    | SoloMisbehaviour m => solotypes.Misbehaviour_ValidateBasic m
    end;
  Initialize := λ ctx c cons,
    match c with
    | TmClient cs => tm_Initialize ctx cs (cons ≫= tm_consensus)
    | SoloClient cs => solo_Initialize cs (cons ≫= solo_consensus)
    | LocalClient _ => localhost.local_Initialize cons
    end;
  client_Status := λ ctx s c,
    match c with
    | TmClient cs => tm_Status ctx s cs
    | SoloClient cs => solotypes.solo_Status cs
    | LocalClient _ => Active
    end;
  CheckHeaderAndUpdateState := λ ctx c h,
    match c with
    | TmClient cs =>
        let! r := tm_CheckHeaderAndUpdateState ctx cs (h ≫= tm_header) in ret (TmClient r.1, Some (TmConsensus r.2))
    | SoloClient cs =>
        let! r := solo_CheckHeaderAndUpdateState cs (h ≫= solo_header) in ret (SoloClient r.1, Some (SoloConsensus r.2))
    | LocalClient _ => let! cs := localhost.local_CheckHeaderAndUpdateState ctx in ret (LocalClient cs, None)
    end;
  client_CheckMisbehaviourAndUpdateState := λ ctx c m,
    match c with
    | TmClient cs =>
        let! cs := reading (tm_CheckMisbehaviourAndUpdateState ctx cs (tm_misbehaviour m)) in ret (TmClient cs)
    | SoloClient cs =>
        let! cs := solo_CheckMisbehaviourAndUpdateState cs (solo_misbehaviour m) in ret (SoloClient cs)
    | LocalClient _ => localhost.local_CheckMisbehaviourAndUpdateState
    end;
  CheckSubstituteAndUpdateState := λ ctx c sub,
    match c with
    | TmClient cs => let! cs := tm_CheckSubstituteAndUpdateState ctx cs (tm_client sub) in ret (TmClient cs)
    | SoloClient cs => let! cs := solo_CheckSubstituteAndUpdateState cs (solo_client sub) in ret (SoloClient cs)
    | LocalClient _ => localhost.local_CheckSubstituteAndUpdateState
    end;
  VerifyUpgradeAndUpdateState := λ ctx c up cons p1 p2,
    match c with
    | TmClient cs =>
        let! r := tm_VerifyUpgradeAndUpdateState ctx cs (any_latest_height up) (tm_client up) (cons ≫= tm_consensus) p1 p2 in
        ret (TmClient r.1, Some (TmConsensus r.2))
    | SoloClient _ => solo_VerifyUpgradeAndUpdateState
    | LocalClient _ => localhost.local_VerifyUpgradeAndUpdateState
    end;
  Exported.ZeroCustomFields := λ c,
    match c with
    | TmClient cs => TmClient (ibctmtypes.ZeroCustomFields cs)
    | SoloClient cs => SoloClient (solotypes.ZeroCustomFields cs)
    | LocalClient cs => LocalClient cs
    end;
  VerifyClientState := λ c h pre id prf x,
    match c with
    | TmClient cs => reading (tm_VerifyClientState cs h pre id prf (tm_client x))
    | SoloClient cs => solo_VerifyClientState cs h pre id prf (Some x)
    | LocalClient _ => reading (localhost.local_VerifyClientState x)
    end;
  VerifyClientConsensusState := λ c h id ch pre prf x,
    match c with
    | TmClient cs => reading (tm_VerifyClientConsensusState cs h id ch pre prf (tm_consensus x))
    | SoloClient cs => solo_VerifyClientConsensusState cs h id ch pre prf (Some x)
    | LocalClient _ => lift localhost.local_VerifyClientConsensusState
    end;
  VerifyConnectionState := λ c h pre prf id x,
    match c with
    | TmClient cs => reading (tm_VerifyConnectionState cs h pre prf id x)
    | SoloClient cs => solo_VerifyConnectionState cs h pre prf id x
    | LocalClient _ => reading (localhost.local_VerifyConnectionState id (localhost.by_value x))
    end;
  VerifyChannelState := λ c h pre prf port id x,
    match c with
    | TmClient cs => reading (tm_VerifyChannelState cs h pre prf port id x)
    | SoloClient cs => solo_VerifyChannelState cs h pre prf port id x
    | LocalClient _ => reading (localhost.local_VerifyChannelState port id (localhost.by_value x))
    end;
  VerifyPacketCommitment := λ ctx c h td bd pre prf port id n x,
    match c with
    | TmClient cs => reading (tm_VerifyPacketCommitment ctx cs h td bd pre prf port id n x)
    | SoloClient cs => solo_VerifyPacketCommitment cs h pre prf port id n x
    | LocalClient _ => reading (localhost.local_VerifyPacketCommitment port id n x)
    end;
  VerifyPacketAcknowledgement := λ ctx c h td bd pre prf port id n x,
    match c with
    | TmClient cs => reading (tm_VerifyPacketAcknowledgement ctx cs h td bd pre prf port id n x)
    | SoloClient cs => solo_VerifyPacketAcknowledgement cs h pre prf port id n x
    | LocalClient _ => reading (localhost.local_VerifyPacketAcknowledgement port id n x)
    end;
  VerifyPacketReceiptAbsence := λ ctx c h td bd pre prf port id n,
    match c with
    | TmClient cs => reading (tm_VerifyPacketReceiptAbsence ctx cs h td bd pre prf port id n)
    | SoloClient cs => solo_VerifyPacketReceiptAbsence cs h pre prf port id n
    | LocalClient _ => reading (localhost.local_VerifyPacketReceiptAbsence port id n)
    end;
  VerifyNextSequenceRecv := λ ctx c h td bd pre prf port id n,
    match c with
    | TmClient cs => reading (tm_VerifyNextSequenceRecv ctx cs h td bd pre prf port id n)
    | SoloClient cs => solo_VerifyNextSequenceRecv cs h pre prf port id n
    | LocalClient _ => reading (localhost.local_VerifyNextSequenceRecv port id n)
    end |}.
End clients.

(** ** Isolation *)
Section isolation.
Context {SE : SdkEncoding} {IC : Ics23} {TL : TendermintLib} {TC : TmCodec} {UT : UpgradeTypes} {SK : SoloCrypto}
  {SD : SoloCodec AnyClientState AnyConsensusState} {LD : LocalCodec AnyClientState}.
#[local] Existing Instance ibc_clients.
Context {CD : @Codec ibc_clients} {CK : CapabilityKeeper} {AP : Application}.

(** The three clients get a substitute's store in a governance proposal, and only read it. *)
Lemma reads_second_keeps {A} (m : ST (KVStore * KVStore) A) : keeps snd m → reads_second m.
Proof. done. Qed.
Lemma on_subject_second {A} (m : ST KVStore A) : keeps snd (on_subject m).
Proof. intros st. unfold on_subject, zoom. by destruct (m st.1). Qed.
#[local] Hint Resolve on_subject_second : ibc.

Lemma tm_substitute_read ctx cs sub : keeps snd (tm_CheckSubstituteAndUpdateState ctx cs sub).
Proof. unfold tm_CheckSubstituteAndUpdateState. frame. Qed.
Lemma solo_substitute_read cs sub : keeps snd (solo_CheckSubstituteAndUpdateState cs sub).
Proof. unfold solo_CheckSubstituteAndUpdateState. frame. Qed.
Lemma ibc_clients_read_substitute : substitute_reader.
Proof.
  intros ctx cs sub. apply reads_second_keeps. destruct cs as [cs|cs|cs]; cbn.
  - apply keeps_bind; [apply tm_substitute_read|done].
  - apply keeps_bind; [apply solo_substitute_read|done].
  - done.
Qed.

(** C40: Isolation of clients.  On a chain with Tendermint, solo machine and localhost
    clients, an operation on one client (creation, update, upgrade, misbehaviour, recovery
    by governance) changes no byte of another client's store and nothing outside the
    clients' stores except the counter of client identifiers, whatever its outcome.  This
    includes the substitute of a recovery, whose store the subject's client is handed and
    could write. *)
Theorem client_isolation o w k :
  (HasPrefix k (client_prefix (op_client o w)) = false → k ≠ KeyNextClientSequence →
   ibc (client_exec o w).1 !! k = ibc w !! k) ∧
  (∀ c, no_char "/" c = true → no_char "/" (op_client o w) = true → c ≠ op_client o w →
   client_view c (client_exec o w).1 = client_view c w).
Proof.
  split.
  - intros Hk Hne. apply client_exec_out; [done..|]. destruct o; try done. right. apply ibc_clients_read_substitute.
  - intros c. apply client_views_kept, ibc_clients_read_substitute.
Qed.
End isolation.
