(* ===== verification/SoloProperties.v ===== *)
(** * The solo machine client

    What a solo machine proof has to be, that every sequence number of a solo machine is
    used for at most one accepted signature, and what misbehaviour of a solo machine is;
    and that connections over the localhost client never open. *)
From S2P Require Import Prelude GoMonad Errors Height Host Sdk ConnectionTypes ChannelTypes.
From S2P Require Import Exported ClientKeeper ConnectionKeeper PortKeeper ChannelKeeper.
From S2P Require Import ChannelHandshake.
From S2P Require Import ChannelSpec ClientProperties Commitment TendermintTypes.
From S2P Require Import TendermintStore TendermintClient.
From S2P Require Import Solomachine Localhost Clients.
Import commitmenttypes solotypes solomachine.

(** ** Statements *)
Section statements.
Context {SK : SoloCrypto} {AnyClient AnyConsensus : Type} {SC : SoloCodec AnyClient AnyConsensus}.

(** What a solo machine can be asked to have signed. *)
Inductive statement :=
  | Its_client (id : string) (x : AnyClient)
  | Its_consensus (id : string) (h : Height) (x : AnyConsensus)
  | Its_connection (id : string) (x : connectiontypes.ConnectionEnd)
  | Its_channel (port chan : string) (x : Channel)
  | Its_commitment (port chan : string) (n : N) (x : string)
  | Its_acknowledgement (port chan : string) (n : N) (x : string)
  | Its_absence (port chan : string) (n : N)
  | Its_next_recv (port chan : string) (n : N).

Definition solo_check (cs : ClientState) (h : Height) (pre : MerklePrefix) (prf : string) (st : statement) :
    ST KVStore unit :=
  match st with
  | Its_client id x => solo_VerifyClientState cs h pre id prf (Some x)
  | Its_consensus id ch x => solo_VerifyClientConsensusState cs h id ch pre prf (Some x)
  | Its_connection id x => solo_VerifyConnectionState cs h pre prf id x
  | Its_channel p c x => solo_VerifyChannelState cs h pre prf p c x
  | Its_commitment p c n x => solo_VerifyPacketCommitment cs h pre prf p c n x
  | Its_acknowledgement p c n x => solo_VerifyPacketAcknowledgement cs h pre prf p c n x
  | Its_absence p c n => solo_VerifyPacketReceiptAbsence cs h pre prf p c n
  | Its_next_recv p c n => solo_VerifyNextSequenceRecv cs h pre prf p c n
  end.

(** The height a statement is checked at: in a connection handshake the three proofs
    carry consecutive sequences. *)
Definition claimed (h : Height) (st : statement) : Height :=
  match st with
  | Its_client _ _ => later h 1
  | Its_consensus _ _ _ => later h 2
  | _ => h
  end.

Definition statement_path (st : statement) : string :=
  match st with
  | Its_client id _ => FullClientStatePath id
  | Its_consensus id ch _ => FullConsensusStatePath id ch
  | Its_connection id _ => ConnectionPath id
  | Its_channel p c _ => ChannelPath p c
  | Its_commitment p c n _ => PacketCommitmentPath p c n
  | Its_acknowledgement p c n _ => PacketAcknowledgementPath p c n
  | Its_absence p c n => PacketReceiptPath p c n
  | Its_next_recv p c _ => NextSequenceRecvPath p c
  end.

Definition statement_type (st : statement) : DataType :=
  match st with
  | Its_client _ _ => CLIENT
  | Its_consensus _ _ _ => CONSENSUS
  | Its_connection _ _ => CONNECTION
  | Its_channel _ _ _ => CHANNEL
  | Its_commitment _ _ _ _ => PACKETCOMMITMENT
  | Its_acknowledgement _ _ _ _ => PACKETACKNOWLEDGEMENT
  | Its_absence _ _ _ => PACKETRECEIPTABSENCE
  | Its_next_recv _ _ _ => NEXTSEQUENCERECV
  end.

(** The signed data: the path and the value. *)
Definition statement_data (path : string) (st : statement) : string :=
  match st with
  | Its_client _ x => Marshal_ClientStateData path x
  | Its_consensus _ _ x => Marshal_ConsensusStateData path x
  | Its_connection _ x => Marshal_ConnectionStateData path x
  | Its_channel _ _ x => Marshal_ChannelStateData path x
  | Its_commitment _ _ _ x => Marshal_PacketCommitmentData path x
  | Its_acknowledgement _ _ _ x => Marshal_PacketAcknowledgementData path x
  | Its_absence _ _ _ => Marshal_PacketReceiptAbsenceData path
  | Its_next_recv _ _ n => Marshal_NextSequenceRecvData path n
  end.

(** [prf] is a signature by the key of [cs] over [st] at the current sequence. *)
Record signed_proof (cs : ClientState) (h : Height) (pre : MerklePrefix) (prf : string) (st : statement)
    (cons : ConsensusState) (timestamp : N) : Prop := {
  signed_revision : RevisionNumber h = 0%N;
  signed_sequence : RevisionHeight (claimed h st) = Sequence cs;
  signed_consensus : Client_ConsensusState cs = Some cons;
  signed_time : (Timestamp cons <= timestamp)%N;
  signed_by : ∃ tsd key sig path, prf ≠ "" ∧ Unmarshal_TimestampedSignatureData prf = Some tsd ∧
    Timestamped_Timestamp tsd = timestamp ∧ Timestamped_SignatureData tsd ≠ "" ∧
    UnmarshalSignatureData (Timestamped_SignatureData tsd) = Ok sig ∧ GetPubKey cons = Ok key ∧
    ApplyPrefix pre (NewMerklePath [statement_path st]) = Ok path ∧
    VerifySignature key
      (Marshal_SignBytes (mkSignBytes (Sequence cs) timestamp (Diversifier cons) (statement_type st)
         (statement_data (Path_String path) st))) sig = Ok tt }.

Lemma length_zero_bool (s : string) : bool_decide (String.length s = 0) = bool_decide (s = "").
Proof. by destruct s. Qed.

Lemma solo_args_Ok cs h prf key sig ts seq cons :
  produceVerificationArgs cs h prf = Ok (key, sig, ts, seq, cons) ↔
  RevisionNumber h = 0%N ∧ RevisionHeight h = Sequence cs ∧ seq = Sequence cs ∧
  Client_ConsensusState cs = Some cons ∧ (Timestamp cons <= ts)%N ∧ GetPubKey cons = Ok key ∧
  ∃ tsd, prf ≠ "" ∧ Unmarshal_TimestampedSignatureData prf = Some tsd ∧ Timestamped_Timestamp tsd = ts ∧
    Timestamped_SignatureData tsd ≠ "" ∧ UnmarshalSignatureData (Timestamped_SignatureData tsd) = Ok sig.
Proof.
  unfold produceVerificationArgs. cbv zeta. split.
  - intros E. out_inv. destruct (Unmarshal_TimestampedSignatureData prf) as [tsd|]; [|done]. out_inv.
    destruct (Client_ConsensusState cs) as [c|]; [|done]. out_inv. rewrite length_zero_bool in *.
    repeat match goal with H : negb _ = false |- _ => apply negb_false_iff, N.eqb_eq in H
                         | H : bool_decide _ = false |- _ => apply bool_decide_eq_false in H
                         | H : (_ <? _)%N = false |- _ => apply N.ltb_ge in H end.
    simplify_eq/=. split_and!; try done. eexists. split_and!; done.
  - intros (Hr & Hh & -> & Hc & Ht & Hk & tsd & Hp & Hu & <- & Hne & Hsig).
    rewrite Hr, (bool_decide_eq_false_2 _ Hp), Hu. simpl.
    rewrite length_zero_bool, (bool_decide_eq_false_2 _ Hne). simpl. rewrite Hsig, Hc. simpl.
    rewrite Hh, N.eqb_refl, (proj2 (N.ltb_ge _ _) Ht), Hk. done.
Qed.

Lemma verify_signed_Ok cs h pre prf p sb s s' :
  verify_signed cs h pre prf p sb s = (s', Ok tt) ↔
  ∃ key sig ts cons path bz, produceVerificationArgs cs h prf = Ok (key, sig, ts, Sequence cs, cons) ∧
    ApplyPrefix pre (NewMerklePath [p]) = Ok path ∧ sb (Sequence cs) ts (Diversifier cons) path = Ok bz ∧
    VerifySignature key bz sig = Ok tt ∧
    s' = <[KeyClientState := solo_Marshal_ClientState (used cs cons ts)]> s.
Proof.
  unfold verify_signed. split.
  - intros E. go_inv.
    match goal with H : produceVerificationArgs _ _ _ = Ok _ |- _ => pose proof H as Ha;
      apply solo_args_Ok in Ha as (_ & _ & -> & _) end.
    match goal with H : setClientState _ _ = _ |- _ => apply modify_Ok in H; subst end.
    do 6 eexists. split_and!; try eassumption. done.
  - intros (key & sig & ts & cons & path & bz & Ha & Hp & Hb & Hv & ->).
    unfold bind, lift. by rewrite Ha, Hp, Hb, Hv.
Qed.

Lemma solo_check_signed cs h pre prf st s s' :
  solo_check cs h pre prf st s = (s', Ok tt) ↔
  ∃ cons ts, signed_proof cs h pre prf st cons ts ∧
    s' = <[KeyClientState := solo_Marshal_ClientState (used cs cons ts)]> s.
Proof.
  assert (Hrev : RevisionNumber (claimed h st) = RevisionNumber h) by (by destruct st).
  transitivity (verify_signed cs (claimed h st) pre prf (statement_path st)
    (λ seq ts d path, Ok (Marshal_SignBytes (mkSignBytes seq ts d (statement_type st)
                            (statement_data (Path_String path) st)))) s = (s', Ok tt)); [by destruct st|].
  rewrite verify_signed_Ok. split.
  - intros (key & sig & ts & cons & path & bz & Ha & Hp & [= <-] & Hv & ->). exists cons, ts. split; [|done].
    apply solo_args_Ok in Ha as (Hr & Hh & _ & Hc & Ht & Hk & tsd & ? & ? & ? & ? & ?).
    split; try done; [by rewrite <- Hrev|]. exists tsd, key, sig, path. done.
  - intros (cons & ts & [Hr Hh Hc Ht (tsd & key & sig & path & ? & ? & ? & ? & ? & Hk & Hp & Hv)] & ->).
    exists key, sig, ts, cons, path. eexists. split_and!; [|exact Hp|done|exact Hv|done].
    apply solo_args_Ok. rewrite Hrev. split_and!; try done. exists tsd. done.
Qed.

Lemma verify_signed_fail cs h pre prf p sb s s' o :
  verify_signed cs h pre prf p sb s = (s', o) → o ≠ Ok tt → s' = s.
Proof.
  unfold verify_signed, setClientState, modify, bind, lift. intros E Ho. repeat case_match; simplify_eq; done.
Qed.

(** A solo machine client accepts a proof exactly when it is a signature, by the key
    registered in the client, over the current sequence, a timestamp that is not
    earlier than the last one, the client's diversifier, the kind of the statement, its
    path under the counterparty's prefix and its value; accepting it increments the
    sequence and records the timestamp, and a rejected proof changes nothing. *)
Theorem solo_proof_spec cs h pre prf st s :
  (∀ s', solo_check cs h pre prf st s = (s', Ok tt) ↔
     ∃ cons ts, signed_proof cs h pre prf st cons ts ∧
       s' = <[KeyClientState := solo_Marshal_ClientState (used cs cons ts)]> s) ∧
  ((solo_check cs h pre prf st s).2 ≠ Ok tt → (solo_check cs h pre prf st s).1 = s).
Proof.
  split; [intros s'; apply solo_check_signed|]. intros Ho.
  destruct st; (eapply verify_signed_fail; [apply surjective_pairing|exact Ho]).
Qed.
End statements.

(** ** Solo machines under the keepers *)
Section keepers.
Context {SE : SdkEncoding} {IC : Ics23} {TL : TendermintLib} {TC : TmCodec} {UT : UpgradeTypes} {SK : SoloCrypto}
  {SD : SoloCodec AnyClientState AnyConsensusState} {LD : LocalCodec AnyClientState}.
#[local] Existing Instance ibc_clients.
Context {CD : @Codec ibc_clients} {CK : CapabilityKeeper} {AP : Application} {SC : @SelfClient ibc_clients}.

(** The integer fields are 64-bit. *)
Definition solo_range (cs : ClientState) : Prop :=
  (Sequence cs < two64)%N ∧ ∀ c, Client_ConsensusState cs = Some c → (Timestamp c < two64)%N.

(** The codec of the chain and the codec of the client are one; values that were decoded
    are in range, and values in range can be encoded. *)
Class SoloChain : Prop := {
  solo_same_codec cs : Marshal_ClientState (SoloClient cs : @Exported.ClientState ibc_clients) = solo_Marshal_ClientState cs;
  solo_encodable cs : solo_range cs → encodable_ClientState (SoloClient cs : @Exported.ClientState ibc_clients);
  solo_decoded bz cs : Unmarshal_ClientState bz = Some (SoloClient cs : @Exported.ClientState ibc_clients) → solo_range cs;
  solo_timestamp prf t : Unmarshal_TimestampedSignatureData prf = Some t → (Timestamped_Timestamp t < two64)%N }.
Context {SL : SoloChain}.

Definition solo_at (w : World) (id : string) : option ClientState :=
  match client w id with Some c => solo_client c | None => None end.

Lemma solo_at_client w id cs : solo_at w id = Some cs ↔ client w id = Some (SoloClient cs : @Exported.ClientState ibc_clients).
Proof.
  unfold solo_at. split; [|by intros ->]. destruct (client w id) as [[]|]; simpl; [done| |done..]. by intros [= ->].
Qed.

(** A verification through the connection keeper. *)
Definition solo_verify (ctx : Context) (ce : connectiontypes.ConnectionEnd) (h : Height) (prf : string)
    (st : statement (AnyClient := AnyClientState) (AnyConsensus := AnyConsensusState)) : M unit :=
  match st with
  | Its_client _ x => conn_VerifyClientState ctx ce h prf x
  | Its_consensus _ ch x => conn_VerifyClientConsensusState ctx ce h ch prf x
  | Its_connection id x => conn_VerifyConnectionState ctx ce h prf id x
  | Its_channel p c x => conn_VerifyChannelState ctx ce h prf p c x
  | Its_commitment p c n x => conn_VerifyPacketCommitment ctx ce h prf p c n x
  | Its_acknowledgement p c n x => conn_VerifyPacketAcknowledgement ctx ce h prf p c n x
  | Its_absence p c n => conn_VerifyPacketReceiptAbsence ctx ce h prf p c n
  | Its_next_recv p c n => conn_VerifyNextSequenceRecv ctx ce h prf p c n
  end.

(** The statement with the client identifier of the connection's counterparty. *)
Definition about (ce : connectiontypes.ConnectionEnd)
    (st : statement (AnyClient := AnyClientState) (AnyConsensus := AnyConsensusState)) :=
  let id := connectiontypes.Counterparty_ClientId (connectiontypes.Connection_Counterparty ce) in
  match st with
  | Its_client _ x => Its_client id x
  | Its_consensus _ ch x => Its_consensus id ch x
  | st => st
  end.

Lemma solo_verify_checked ctx ce h prf st cs w w' :
  solo_at w (connectiontypes.ClientId ce) = Some cs → solo_verify ctx ce h prf st w = (w', Ok tt) →
  solo_Status cs = Active ∧
  on_client_store (connectiontypes.ClientId ce)
    (solo_check cs h (connectiontypes.Counterparty_Prefix (connectiontypes.Connection_Counterparty ce)) prf (about ce st)) w
    = (w', Ok tt).
Proof.
  intros Hc%solo_at_client E.
  destruct st; simpl in E; unfold conn_VerifyClientState, conn_VerifyClientConsensusState,
    conn_VerifyConnectionState, conn_VerifyChannelState, conn_VerifyPacketCommitment, conn_VerifyPacketAcknowledgement,
    conn_VerifyPacketReceiptAbsence, conn_VerifyNextSequenceRecv, active_client, getBlockDelay in E; cbv zeta in E; go_inv;
    rewrite Hc in *; simplify_eq; split; try done; exact E.
Qed.

Lemma client_of_view w id : client w id = client_view id w !! KeyClientState ≫= Unmarshal_ClientState.
Proof.
  unfold client, client_view. rewrite prefix_view_lookup. f_equal. f_equal. unfold client_prefix. unfold_paths.
  by rewrite !app_assoc_str.
Qed.

Lemma solo_at_view w id cs :
  solo_range cs → client_view id w !! KeyClientState = Some (solo_Marshal_ClientState cs) → solo_at w id = Some cs.
Proof.
  intros Hr Hv. apply solo_at_client. rewrite client_of_view, Hv. simpl. rewrite <- solo_same_codec.
  exact (ClientState_roundtrip (H := ibc_clients) (SoloClient cs) (solo_encodable _ Hr)).
Qed.

Lemma used_range cs cons ts : (ts < two64)%N → solo_range (used cs cons ts).
Proof. intros Ht. split; [by apply N.mod_lt|]. simpl. by intros c [= <-]. Qed.

Lemma solo_verify_Ok ctx ce h prf st cs w w' :
  solo_at w (connectiontypes.ClientId ce) = Some cs → solo_verify ctx ce h prf st w = (w', Ok tt) →
  ∃ cons ts, IsFrozen cs = false ∧
    signed_proof cs h (connectiontypes.Counterparty_Prefix (connectiontypes.Connection_Counterparty ce)) prf
      (about ce st) cons ts ∧
    solo_at w' (connectiontypes.ClientId ce) = Some (used cs cons ts).
Proof.
  intros Hc E. pose proof (solo_verify_checked _ _ _ _ _ _ _ _ Hc E) as [Hst Hv%on_client_store_Ok].
  apply solo_check_signed in Hv as (cons & ts & Hs & Hv). exists cons, ts.
  split; [unfold solo_Status in Hst; by destruct (IsFrozen cs)|]. split; [done|].
  apply solo_at_view; [|rewrite Hv; apply lookup_insert_eq].
  apply used_range. destruct (signed_by _ _ _ _ _ _ _ Hs) as (tsd & _ & _ & _ & _ & Hu & <- & _).
  by eapply solo_timestamp.
Qed.

Lemma updated_client ctx id hd t ncs ncons s :
  updated_store ctx id hd t ncs ncons = Some s → s !! KeyClientState = Some (Marshal_ClientState ncs).
Proof.
  unfold updated_store. cbv zeta. intros E. repeat case_match; simplify_eq; try apply lookup_insert_eq.
  rewrite lookup_insert_ne by done. apply lookup_insert_eq.
Qed.

Lemma solo_update_Ok ctx id hd cs w w' :
  (∀ h, hd = SoloHeader h → (Header_Timestamp h < two64)%N) →
  solo_at w id = Some cs → UpdateClient ctx id (Some hd) w = (w', Ok tt) →
  ∃ h, hd = SoloHeader h ∧ checkHeader cs h = Ok tt ∧ solo_at w' id = Some (update cs h).1.
Proof.
  intros Hr Hc%solo_at_client (cs0 & t & ncs & ncons & Hc0 & _ & Hck & Hup)%UpdateClient_spec.
  rewrite Hc in Hc0. injection Hc0 as <-. simpl in Hck. destruct hd as [h|h]; simpl in Hck.
  { by go_inv. }
  unfold solo_CheckHeaderAndUpdateState in Hck. go_inv.
  match goal with H : (_, _) = _ |- _ => injection H as <- <- end.
  exists h. split_and!; [done|done|]. apply solo_at_view.
  - split; [by apply N.mod_lt|]. simpl. intros c [= <-]. by apply Hr.
  - rewrite <- solo_same_codec. symmetry in Hup. by apply updated_client in Hup.
Qed.

Lemma solo_at_range w id cs : solo_at w id = Some cs → solo_range cs.
Proof. rewrite solo_at_client, client_of_view. destruct (_ !! _) as [bz|]; [|done]. simpl. apply solo_decoded. Qed.

Lemma solo_misbehaviour_Ok ctx m cs w w' :
  solo_at w (Misbehaviour_GetClientID m) = Some cs → CheckMisbehaviourAndUpdateState ctx m w = (w', Ok tt) →
  ∃ sm, m = SoloMisbehaviour sm ∧ IsFrozen cs = false ∧ Misbehaviour_ValidateBasic sm = Ok tt ∧
    verifySignatureAndData cs sm (SignatureOne sm) = Ok tt ∧ verifySignatureAndData cs sm (SignatureTwo sm) = Ok tt ∧
    solo_at w' (Misbehaviour_GetClientID m) = Some (set_frozen true cs).
Proof.
  intros Hs E. pose proof (solo_at_range _ _ _ Hs) as Hr. pose proof Hs as Hc%solo_at_client.
  unfold CheckMisbehaviourAndUpdateState in E. cbv zeta in E. go_inv. rewrite Hc in *. simplify_eq.
  match goal with H : SetClientState _ _ _ = _ |- _ => apply SetClientState_view in H as Hv1 end.
  match goal with H : on_client_store _ _ _ = _ |- _ => apply on_client_store_Ok in H as Hv2 end.
  simpl in Hv2. destruct m as [m|sm]; simpl in Hv2; [by go_inv|]. go_inv.
  exists sm. split_and!; try done.
  - match goal with H : client_Status _ _ _ = Active |- _ => simpl in H; unfold solo_Status in H; by destruct (IsFrozen cs) end.
  - apply solo_at_view; [exact Hr|]. rewrite Hv1, <- solo_same_codec. apply lookup_insert_eq.
Qed.

(** An accepted signature at sequence [n]: a proof, or a header. *)
Inductive solo_use (id : string) (n : N) (w w' : World) : Prop :=
  | use_proof ctx ce h prf st :
      connectiontypes.ClientId ce = id → RevisionHeight (claimed h st) = n →
      solo_verify ctx ce h prf st w = (w', Ok tt) → solo_use id n w w'
  | use_header ctx hd :
      Header_Sequence hd = n → (Header_Timestamp hd < two64)%N →
      UpdateClient ctx id (Some (SoloHeader hd)) w = (w', Ok tt) → solo_use id n w w'.

(** What happens to a solo machine client: accepted signatures, misbehaviour, and anything
    that leaves the client as it is; the sequence stays below its maximum. *)
Inductive solo_step (id : string) (w w' : World) : Prop :=
  | solo_used n : (∀ cs, solo_at w id = Some cs → Sequence cs < MaxUint64)%N → solo_use id n w w' → solo_step id w w'
  | solo_misbehaved ctx m :
      Misbehaviour_GetClientID m = id → CheckMisbehaviourAndUpdateState ctx m w = (w', Ok tt) → solo_step id w w'
  | solo_other : solo_at w' id = solo_at w id → solo_step id w w'.

Lemma solo_use_Ok id n cs w w' :
  solo_at w id = Some cs → solo_use id n w w' →
  n = Sequence cs ∧ ∃ cs', solo_at w' id = Some cs' ∧ Sequence cs' = u64 (Sequence cs + 1).
Proof.
  intros Hc [ctx ce h prf st <- <- E|ctx hd <- Hr E].
  - apply (solo_verify_Ok _ _ _ _ _ _ _ _ Hc) in E as (cons & ts & _ & Hs & Hc').
    split; [|eexists; split; [exact Hc'|done]]. rewrite <- (signed_sequence _ _ _ _ _ _ _ Hs). by destruct st.
  - apply (solo_update_Ok ctx id _ cs) in E as (h & [= <-] & Hck & Hc'); [|by intros h [= <-]|exact Hc].
    split; [|eexists; split; [exact Hc'|done]]. unfold checkHeader in Hck. out_inv.
    match goal with H : negb _ = false |- _ => by apply negb_false_iff, N.eqb_eq in H end.
Qed.

Lemma solo_step_sequence id cs w w' :
  solo_at w id = Some cs → solo_step id w w' → ∃ cs', solo_at w' id = Some cs' ∧ (Sequence cs <= Sequence cs')%N.
Proof.
  intros Hc [n Hmax Hu|ctx m <- E|Ho].
  - apply (solo_use_Ok _ _ _ _ _ Hc) in Hu as (_ & cs' & Hc' & Hs). exists cs'. split; [done|].
    specialize (Hmax _ Hc). rewrite Hs, u64_succ by done. lia.
  - apply (solo_misbehaviour_Ok _ _ _ _ _ Hc) in E as (sm & -> & _ & _ & _ & _ & Hc'). by eexists.
  - exists cs. by rewrite Ho.
Qed.

(** C33: A solo machine signature is used once.  After a signature at sequence [n], a proof or
    a header, has been accepted by a solo machine client, no signature at the sequence
    [n] is ever accepted by it again, over every run of verifications, header updates,
    misbehaviour and operations that leave the client alone: each sequence number
    stands for at most one statement. *)
Theorem solo_sequence_used_once id n cs w w1 w2 w3 :
  solo_at w id = Some cs → (Sequence cs < MaxUint64)%N → solo_use id n w w1 → rtc (solo_step id) w1 w2 →
  ¬ solo_use id n w2 w3.
Proof.
  intros Hc Hmax Hu Hr Hu2. apply (solo_use_Ok _ _ _ _ _ Hc) in Hu as (-> & cs1 & Hc1 & Hs1).
  rewrite u64_succ in Hs1 by done.
  assert (∃ cs2, solo_at w2 id = Some cs2 ∧ (Sequence cs1 <= Sequence cs2)%N) as (cs2 & Hc2 & Hle).
  { clear Hu2 Hs1. revert cs1 Hc1. induction Hr as [x|x y z Hxy _ IH]; intros cs1 Hc1; [by exists cs1|].
    destruct (solo_step_sequence _ _ _ _ Hc1 Hxy) as (cs' & Hc' & Hle). destruct (IH _ Hc') as (cs2 & Hc2 & Hle2).
    exists cs2. split; [done|lia]. }
  destruct (solo_use_Ok _ _ _ _ _ Hc2 Hu2) as [Hn _]. lia.
Qed.

(** [sd] is a signature by [key] over statement data at sequence [n]. *)
Record signed_data (key : PubKey) (n : N) (diversifier : string) (sd : SignatureAndData) : Prop := {
  signed_kind : SD_DataType sd ≠ UNSPECIFIED ∧ SD_DataType sd ≠ HEADER;
  signed_decodes : Unmarshals (AnyClient := AnyClientState) (AnyConsensus := AnyConsensusState) (SD_DataType sd) (SD_Data sd) = true;
  signed_signature : ∃ sig, UnmarshalSignatureData (SD_Signature sd) = Ok sig ∧
    VerifySignature key (MisbehaviourSignBytes n (SD_Timestamp sd) diversifier (SD_DataType sd) (SD_Data sd)) sig = Ok tt }.

Lemma verifySignatureAndData_Ok cs m o :
  verifySignatureAndData cs m o = Ok tt →
  ∃ sd cons key, o = Some sd ∧ Client_ConsensusState cs = Some cons ∧ GetPubKey cons = Ok key ∧
    signed_data key (Misbehaviour_Sequence m) (Diversifier cons) sd.
Proof.
  unfold verifySignatureAndData, UnmarshalDataByType. intros E. out_inv. cbv zeta in E. out_inv.
  eexists _, _, _. split_and!; try eassumption; [done|]. split; [..|eexists; split; eassumption].
  - match goal with H : match ?t with _ => _ end = Ok _ |- _ => by destruct t end.
  - match goal with H : match ?t with _ => _ end = Ok _ |- _ => destruct t; try done; out_inv end;
      match goal with H : negb (Unmarshals _ _) = false |- _ => by apply negb_false_iff in H end.
Qed.

(** Misbehaviour of a solo machine is double signing.  When misbehaviour is accepted for a
    solo machine client, the client was not frozen and its key had signed two different
    messages at one sequence and diversifier, each of them data of a statement the
    client could accept; double-signed headers are not accepted as evidence.  The
    client is frozen, and nothing else about it changes. *)
Theorem solo_misbehaviour_spec ctx m cs w w' :
  solo_at w (Misbehaviour_GetClientID m) = Some cs → CheckMisbehaviourAndUpdateState ctx m w = (w', Ok tt) →
  ∃ sm one two cons key, m = SoloMisbehaviour sm ∧ IsFrozen cs = false ∧
    SignatureOne sm = Some one ∧ SignatureTwo sm = Some two ∧
    Client_ConsensusState cs = Some cons ∧ GetPubKey cons = Ok key ∧
    signed_data key (Misbehaviour_Sequence sm) (Diversifier cons) one ∧
    signed_data key (Misbehaviour_Sequence sm) (Diversifier cons) two ∧
    (let bytes sd := MisbehaviourSignBytes (Misbehaviour_Sequence sm) (SD_Timestamp sd) (Diversifier cons)
                       (SD_DataType sd) (SD_Data sd) in bytes one ≠ bytes two) ∧
    solo_at w' (Misbehaviour_GetClientID m) = Some (set_frozen true cs).
Proof.
  intros Hc (sm & -> & Hf & Hv & H1 & H2 & Hc')%(solo_misbehaviour_Ok _ _ _ _ _ Hc).
  apply verifySignatureAndData_Ok in H1 as (one & cons & key & Ho & Hcons & Hk & Hs1).
  apply verifySignatureAndData_Ok in H2 as (two & cons' & key' & Ht & Hcons' & Hk' & Hs2). simplify_eq.
  rewrite Hk in Hk'. injection Hk' as <-. exists sm, one, two, cons, key. split_and!; try done. cbv zeta. intros Heq.
  apply SignBytes_inj in Heq. injection Heq as _ _ Hdata. unfold Misbehaviour_ValidateBasic in Hv. out_inv. simplify_eq.
  by match goal with H : bool_decide (SD_Data _ = SD_Data _) = false |- _ => apply bool_decide_eq_false in H end.
Qed.

(** ** Localhost *)

Lemma local_verifies_no_connection ctx ce h prf id x w cs :
  client w (connectiontypes.ClientId ce) = Some (LocalClient cs : @Exported.ClientState ibc_clients) →
  (conn_VerifyConnectionState ctx ce h prf id x w).2 ≠ Ok tt.
Proof.
  intros Hc E. destruct (conn_VerifyConnectionState ctx ce h prf id x w) as [w' o] eqn:Ev. simpl in E. subst o.
  unfold conn_VerifyConnectionState, active_client in Ev. cbv zeta in Ev. go_inv. rewrite Hc in *. simplify_eq.
  match goal with H : on_client_store _ _ _ = _ |- _ => apply on_client_store_Ok in H as Hv end.
  simpl in Hv. unfold ibctm.reading in Hv. go_inv. unfold localhost.local_VerifyConnectionState in *.
  repeat case_match; done.
Qed.

(** Connections over the localhost client never open.  The client compares the stored
    connection end with the expected one by deep equality of a pointer and a value,
    which never holds: the two steps that open a connection, [ConnOpenAck] and
    [ConnOpenConfirm], fail on every connection whose client is a localhost client. *)
Theorem localhost_never_opens ctx c ce cs w :
  conn w c = Some ce → client w (connectiontypes.ClientId ce) = Some (LocalClient cs : @Exported.ClientState ibc_clients) →
  (∀ x v cpc p1 p2 p3 h ch, (ConnOpenAck ctx c x v cpc p1 p2 p3 h ch w).2 ≠ Ok tt) ∧
  (∀ p h, (ConnOpenConfirm ctx c p h w).2 ≠ Ok tt).
Proof.
  intros Hc Hl. split; intros * E;
    match type of E with (?m).2 = _ => destruct m as [w' o] eqn:Ev; simpl in E; subst o end;
    [unfold ConnOpenAck in Ev|unfold ConnOpenConfirm in Ev]; go_inv; rewrite Hc in *; simplify_eq;
    match goal with H : conn_VerifyConnectionState ctx ?e ?h ?p ?id ?x _ = (_, Ok _) |- _ =>
      eapply (local_verifies_no_connection ctx e h p id x); [exact Hl|by rewrite H] end.
Qed.
End keepers.
