(* ===== verification/SoloWitness.v ===== *)
(** * A concrete solo machine

    Instances of the keys and encodings the solo machine client uses, and the theorems of
    [SoloProperties.v] on a chain that creates a solo machine client, accepts a packet
    commitment it signed, and receives evidence of double signing. *)
From S2P Require Import Prelude GoMonad Errors Sha256 Height Host Sdk ConnectionTypes.
From S2P Require Import ChannelTypes Exported ClientKeeper ConnectionKeeper FullNode.
From S2P Require Import ChannelSpec.
From S2P Require Import Commitment TendermintTypes TendermintStore TendermintClient.
From S2P Require Import ToyTendermint.
From S2P Require Import Noninterference Solomachine Localhost Clients SoloProperties.

(** A key is its name; a signature names the key and repeats the message. *)
Definition toy_crypto : SoloCrypto := {|
  PubKey := string;
  PubKey_Bytes := λ k, k;
  is_multisig := λ _, false;
  PubKey_VerifySignature := λ k bz sig, bool_decide (sig = k +:+ ":" +:+ bz);
  MultiSignatureData := unit;
  VerifyMultisignature := λ _ _ _, Ok tt |}.

Module ToySolo.
Export ToyTm.
Import solotypes.
#[export] Existing Instance toy_crypto.

#[export] Instance Ser_PublicKeyAny : Ser PublicKeyAny.
Proof.
  refine (Ser_via (B := bool * string) (λ k, match k with PublicKey_Any s => (true, s) | Other_Any s => (false, s) end)
    (λ '(b, s), if b : bool then PublicKey_Any s else Other_Any s) _). by intros [].
Defined.
#[export] Instance Ser_SoloConsensus : Ser ConsensusState.
Proof.
  refine (Ser_via (B := option PublicKeyAny * string * N) (λ c, (PublicKey c, Diversifier c, Timestamp c))
    (λ '(k, d, t), mkConsensusState k d t) _). by intros [].
Defined.
#[export] Instance Ser_SoloClient : Ser ClientState.
Proof.
  refine (Ser_via (B := N * bool * option ConsensusState * bool)
    (λ c, (Sequence c, IsFrozen c, Client_ConsensusState c, AllowUpdateAfterProposal c))
    (λ '(n, f, c, a), mkClientState n f c a) _). by intros [].
Defined.
#[export] Instance Ser_DataType : Ser DataType.
Proof.
  refine (Ser_via (B := string)
    (λ t, match t with UNSPECIFIED => "0" | CLIENT => "1" | CONSENSUS => "2" | CONNECTION => "3" | CHANNEL => "4"
                  | PACKETCOMMITMENT => "5" | PACKETACKNOWLEDGEMENT => "6" | PACKETRECEIPTABSENCE => "7"
                  | NEXTSEQUENCERECV => "8" | HEADER => "9" end)
    (λ s, match s with "0" => UNSPECIFIED | "1" => CLIENT | "2" => CONSENSUS | "3" => CONNECTION | "4" => CHANNEL
                  | "5" => PACKETCOMMITMENT | "6" => PACKETACKNOWLEDGEMENT | "7" => PACKETRECEIPTABSENCE
                  | "8" => NEXTSEQUENCERECV | _ => HEADER end) _).
  by intros [].
Defined.
#[export] Instance Ser_SignBytes : Ser SignBytes.
Proof.
  refine (Ser_via (B := N * N * string * DataType * string)
    (λ b, (SB_Sequence b, SB_Timestamp b, SB_Diversifier b, SB_DataType b, SB_Data b))
    (λ '(n, t, d, k, x), mkSignBytes n t d k x) _). by intros [].
Defined.
#[export] Instance Ser_Timestamped : Ser TimestampedSignatureData.
Proof.
  refine (Ser_via (B := string * N) (λ t, (Timestamped_SignatureData t, Timestamped_Timestamp t))
    (λ '(s, t), mkTimestampedSignatureData s t) _). by intros [].
Defined.
#[export] Instance Ser_Local : Ser localhost.ClientState.
Proof.
  refine (Ser_via (B := string * Height) (λ c, (localhost.ChainId c, localhost.Client_Height c))
    (λ '(i, h), localhost.NewClientState i h) _). by intros [].
Defined.

(** An [Any] names the type of the value inside. *)
Definition enc_client (c : AnyClientState) : string :=
  match c with
  | TmClient cs => enc ("tm", enc cs)
  | SoloClient cs => enc ("solo", enc cs)
  | LocalClient cs => enc ("local", enc cs)
  end.
Definition in_range_bool (cs : ClientState) : bool :=
  (Sequence cs <? two64)%N &&
  match Client_ConsensusState cs with Some c => (Timestamp c <? two64)%N | None => true end.
Definition dec_client (s : string) : option AnyClientState :=
  match (dec s : option (string * string)) with
  | Some ("tm", x) => TmClient <$> (dec x : option ibctmtypes.ClientState)
  | Some ("solo", x) =>
      cs ← (dec x : option ClientState); if in_range_bool cs then Some (SoloClient cs) else None
  | Some ("local", x) => LocalClient <$> (dec x : option localhost.ClientState)
  | _ => None
  end.
Definition enc_consensus (c : AnyConsensusState) : string :=
  match c with
  | TmConsensus cs => enc ("tm", enc cs)
  | SoloConsensus cs => enc ("solo", enc cs)
  end.
Definition dec_consensus (s : string) : option AnyConsensusState :=
  match (dec s : option (string * string)) with
  | Some ("tm", x) => TmConsensus <$> (dec x : option ibctmtypes.ConsensusState)
  | Some ("solo", x) => SoloConsensus <$> (dec x : option ConsensusState)
  | _ => None
  end.
Definition dec_timestamped (s : string) : option TimestampedSignatureData :=
  t ← (dec s : option TimestampedSignatureData); if (Timestamped_Timestamp t <? two64)%N then Some t else None.

Lemma dec_enc_consensus c : dec_consensus (enc_consensus c) = Some c.
Proof. destruct c; unfold dec_consensus, enc_consensus; by rewrite !dec_enc. Qed.

Lemma in_range_bool_spec cs : in_range_bool cs = true ↔ solo_range cs.
Proof.
  unfold in_range_bool, solo_range. rewrite andb_true_iff, N.ltb_lt.
  destruct (Client_ConsensusState cs) as [c|]; [rewrite N.ltb_lt|]; naive_solver.
Qed.

Definition encodable_client (c : AnyClientState) : Prop :=
  match c with SoloClient cs => solo_range cs | _ => True end.
Lemma dec_enc_client c : encodable_client c → dec_client (enc_client c) = Some c.
Proof.
  destruct c as [c|c|c]; unfold dec_client, enc_client; rewrite !dec_enc; simpl; [done| |done].
  intros H. by rewrite (proj2 (in_range_bool_spec c) H).
Qed.
Lemma enc_SignBytes_inj (a b : SignBytes) : enc a = enc b → a = b.
Proof. intros E. apply (f_equal (dec : string → option SignBytes)) in E. rewrite !dec_enc in E. by injection E. Qed.

#[export] Instance toy_solo_codec : SoloCodec AnyClientState AnyConsensusState := {|
  Marshal_SignBytes := enc;
  Marshal_HeaderData := λ d, enc (HD_NewPubKey d, HD_NewDiversifier d);
  Marshal_ClientStateData := λ p c, enc (p, enc_client c);
  Marshal_ConsensusStateData := λ p c, enc (p, enc_consensus c);
  Marshal_ConnectionStateData := λ p c, enc (p, c);
  Marshal_ChannelStateData := λ p c, enc (p, c);
  Marshal_PacketCommitmentData := λ p c, enc (p, c);
  Marshal_PacketAcknowledgementData := λ p c, enc (p, c);
  Marshal_PacketReceiptAbsenceData := λ p, p;
  Marshal_NextSequenceRecvData := λ p n, enc (p, n);
  Unmarshals := λ _ _, true;
  Unpacks := λ _ _, true;
  Unmarshal_TimestampedSignatureData := dec_timestamped;
  SignatureDescriptor := string;
  Unmarshal_SignatureDescriptor := Some;
  SignatureDataFromProto := λ s, Ok (SingleSignature s);
  solo_Marshal_ClientState := λ cs, enc_client (SoloClient cs);
  SignBytes_inj := enc_SignBytes_inj |}.

#[local] Existing Instances ibctmtypes.ClientState_eq_dec localhost.ClientState_eq_dec.
#[export] Instance toy_client_eq_dec : EqDecision AnyClientState.
Proof. solve_decision. Defined.
#[export] Instance toy_local_codec : LocalCodec AnyClientState := {|
  local_Unmarshal_ClientState := dec_client;
  local_Unmarshal_ConnectionEnd := dec;
  local_Unmarshal_Channel := dec |}.

Definition toy_clients : LightClient := ibc_clients.
#[export] Instance toy_all_codec : @Codec ibc_clients :=
  @Build_Codec ibc_clients enc dec enc dec enc dec (enc_client : AnyClientState → _) dec_client
    (enc_consensus : AnyConsensusState → _) dec_consensus (λ _, "") encodable_client (λ _, True)
    dec_enc (λ c _, dec_enc c) dec_enc dec_enc_client (λ c _, dec_enc_consensus c).

Lemma toy_decoded bz cs : dec_client bz = Some (SoloClient cs) → solo_range cs.
Proof.
  unfold dec_client. destruct (dec bz : option (string * string)) as [[k x]|]; [|done].
  generalize (dec x : option ibctmtypes.ClientState), (dec x : option ClientState), (dec x : option localhost.ClientState).
  intros [c1|] [c2|] [c3|] E; repeat (case_match; simpl in E; try discriminate E); injection E as ->;
    by apply in_range_bool_spec.
Qed.
Lemma toy_timestamp prf t : dec_timestamped prf = Some t → (Timestamped_Timestamp t < two64)%N.
Proof.
  unfold dec_timestamped. destruct (dec prf : option TimestampedSignatureData) as [x|]; simpl; [|done].
  destruct (N.ltb_spec (Timestamped_Timestamp x) two64); [|done]. by intros [= <-].
Qed.
#[export] Instance toy_solo_chain : SoloChain := {|
  solo_same_codec := λ cs, eq_refl;
  solo_encodable := λ cs H, H;
  solo_decoded := toy_decoded;
  solo_timestamp := toy_timestamp |}.
End ToySolo.

Module SoloWitness.
Import ToySolo commitmenttypes solotypes solomachine.
#[local] Existing Instance ibc_clients.
#[local] Existing Instance toy_caps.
#[local] Existing Instance FullNode.toy_app.

Definition id0 : string := "06-solomachine-0".
Definition ctx0 : Context := mkContext "chainA-1" 20 1000 false false.
Definition machine : ConsensusState := mkConsensusState (Some (PublicKey_Any "alice")) "home" 7.
Definition client0 : ClientState := NewClientState 1 (Some machine) true.
Definition empty_chain : @World toy_caps FullNode.toy_app :=
  mkWorld (CK := toy_caps) (AP := FullNode.toy_app) {[ KeyNextClientSequence := Uint64ToBigEndian 0 ]} ∅ ∅
    ["06-solomachine"] 0 [].
Definition created : World := (CreateClient ctx0 (SoloClient client0) (Some (SoloConsensus machine)) empty_chain).1.

Definition over_solo : connectiontypes.ConnectionEnd :=
  connectiontypes.NewConnectionEnd connectiontypes.OPEN id0
    (connectiontypes.NewCounterparty "07-tendermint-3" "connection-9" (NewMerklePrefix "ibc"))
    [connectiontypes.NewVersion "1" []] 0.
Definition its : statement := Its_commitment (AnyClient := AnyClientState) (AnyConsensus := AnyConsensusState)
  "transfer" "channel-0" 1 "commitment".

(** A signature of the machine over [data] at sequence [n] and time [t]. *)
Definition sign (n t : N) (kind : DataType) (data : string) : string :=
  "alice:" +:+ enc (mkSignBytes n t "home" kind data).
Definition path_of (p : string) : string :=
  match ApplyPrefix (NewMerklePrefix "ibc") (NewMerklePath [p]) with Ok path => Path_String path | _ => "" end.
Definition proof1 : string :=
  enc (mkTimestampedSignatureData
    (sign 1 9 PACKETCOMMITMENT (statement_data (path_of (statement_path its)) its)) 9).

Definition accepted : World := (solo_verify ctx0 over_solo (NewHeight 0 1) proof1 its created).1.
Lemma accepted_run : solo_verify ctx0 over_solo (NewHeight 0 1) proof1 its created = (accepted, Ok tt).
Proof. unfold accepted. apply run_pair. vm_compute. reflexivity. Qed.

Lemma created_solo : solo_at created id0 = Some client0.
Proof. vm_cast_no_check (eq_refl (Some client0)). Qed.

Lemma solo_sequence_used_once_witness :
  solo_at created id0 = Some client0 ∧ ¬ (∃ w3, solo_use id0 1 accepted w3).
Proof.
  split; [exact created_solo|]. intros [w3 Hu]. revert Hu.
  apply (solo_sequence_used_once id0 1 client0 created accepted accepted).
  - exact created_solo.
  - done.
  - apply (use_proof id0 1 created accepted ctx0 over_solo (NewHeight 0 1) proof1 its); [done|done|exact accepted_run].
  - apply rtc_refl.
Defined.

(** Two packet commitments signed at sequence 1. *)
Definition double : @Exported.Misbehaviour ibc_clients :=
  SoloMisbehaviour (mkMisbehaviour id0 1
    (Some (mkSignatureAndData (sign 1 9 PACKETCOMMITMENT "one") PACKETCOMMITMENT "one" 9))
    (Some (mkSignatureAndData (sign 1 9 PACKETCOMMITMENT "two") PACKETCOMMITMENT "two" 9))).
Definition frozen_world : World := (CheckMisbehaviourAndUpdateState ctx0 double created).1.

Lemma solo_misbehaviour_spec_witness : solo_at frozen_world id0 = Some (set_frozen true client0).
Proof.
  destruct (solo_misbehaviour_spec ctx0 double client0 created frozen_world)
    as (sm & one & two & cons & key & _ & _ & _ & _ & _ & _ & _ & _ & _ & H).
  - exact created_solo.
  - unfold frozen_world. apply run_pair. vm_compute. reflexivity.
  - exact H.
Defined.

(** Governance replaces the frozen client by another machine's, which stays as it was. *)
Definition id1 : string := "06-solomachine-1".
Definition other_machine : ConsensusState := mkConsensusState (Some (PublicKey_Any "bob")) "home" 8.
Definition with_other : World :=
  (CreateClient ctx0 (SoloClient (NewClientState 5 (Some other_machine) true)) (Some (SoloConsensus other_machine)) frozen_world).1.
Definition recovered : World := (ClientUpdateProposal ctx0 id0 id1 with_other).1.
Lemma recovered_run : ClientUpdateProposal ctx0 id0 id1 with_other = (recovered, Ok tt).
Proof. unfold recovered. apply run_pair. vm_compute. reflexivity. Qed.
Lemma client_isolation_witness :
  (ClientUpdateProposal ctx0 id0 id1 with_other).2 = Ok tt ∧ client_view id1 recovered = client_view id1 with_other.
Proof.
  split; [by rewrite recovered_run|].
  destruct (client_isolation (Op_proposal ctx0 id0 id1) with_other "") as [_ H].
  change recovered with (client_exec (Op_proposal ctx0 id0 id1) with_other).1. apply H; vm_compute; done.
Defined.

(** A chain with a localhost client and a connection over it. *)
Definition over_local : connectiontypes.ConnectionEnd :=
  connectiontypes.NewConnectionEnd connectiontypes.INIT Localhost
    (connectiontypes.NewCounterparty Localhost "connection-1" (NewMerklePrefix "ibc"))
    [connectiontypes.NewVersion "1" []] 0.
Definition self : localhost.ClientState := localhost.NewClientState "chainA-1" (NewHeight 1 20).
Definition local_world : World :=
  set_ibc (<[FullClientStateKey Localhost := enc_client (LocalClient self)]>
    (<[ConnectionKey "connection-0" := enc over_local]> (ibc empty_chain))) empty_chain.
#[local] Instance no_self : @SelfClient ibc_clients := {|
  ValidateSelfClient := λ _ _, Ok tt;
  GetSelfConsensusState := λ _ _, Ok (SoloConsensus machine) |}.

Lemma localhost_never_opens_witness :
  conn local_world "connection-0" = Some over_local ∧
  (ConnOpenConfirm ctx0 "connection-0" "proof" (NewHeight 1 5) local_world).2 ≠ Ok tt.
Proof.
  split; [vm_cast_no_check (eq_refl (Some over_local))|].
  destruct (localhost_never_opens ctx0 "connection-0" over_local self local_world) as [_ H].
  - vm_cast_no_check (eq_refl (Some over_local)).
  - vm_cast_no_check (eq_refl (Some (LocalClient self))).
  - exact (H "proof" (NewHeight 1 5)).
Defined.
End SoloWitness.
