(* ===== verification/ClientTypes.v ===== *)
(** * Client types ([core/02-client/types])

    Protobuf [Any] values with their packing and unpacking ([codec.go]), client types and
    the collections of client and consensus states that genesis and queries use
    ([client.go], [genesis.go], [params.go]), and the validation of a genesis state. *)
From S2P Require Import Prelude GoMonad Errors Height Host Sdk ConnectionTypes ChannelTypes.
From S2P Require Import Exported ClientKeeper Iteration.
From stdpp Require Import sorting.

Section any.
Context {LC : LightClient}.

(** A protobuf [Any] by its cached value; one of another type by its bytes. *)
Inductive AnyValue :=
  | Any_ClientState (cs : ClientState)
  | Any_ConsensusState (cs : ConsensusState)
  | Any_Header (h : Header)
  | Any_Misbehaviour (m : Misbehaviour)
  | Any_Unknown (value : string).

Definition UnpackClientState (a : option AnyValue) : outcome ClientState :=
  match a with
  | Some (Any_ClientState cs) => Ok cs
  | _ => Err (Wrap sdkerrors.ErrUnpackAny)
  end.
Definition UnpackConsensusState (a : option AnyValue) : outcome ConsensusState :=
  match a with
  | Some (Any_ConsensusState cs) => Ok cs
  | _ => Err (Wrap sdkerrors.ErrUnpackAny)
  end.
Definition UnpackHeader (a : option AnyValue) : outcome Header :=
  match a with
  | Some (Any_Header h) => Ok h
  | _ => Err (Wrap sdkerrors.ErrUnpackAny)
  end.
Definition UnpackMisbehaviour (a : option AnyValue) : outcome Misbehaviour :=
  match a with
  | Some (Any_Misbehaviour m) => Ok m
  | _ => Err (Wrap sdkerrors.ErrUnpackAny)
  end.

(** A value of a registered client is a protobuf message and can be packed; [nil] is not. *)
Definition PackClientState (clientState : option ClientState) : outcome AnyValue :=
  match clientState with
  | Some cs => Ok (Any_ClientState cs)
  | None => Err (Wrap sdkerrors.ErrPackAny)
  end.
Definition PackConsensusState (consensusState : option ConsensusState) : outcome AnyValue :=
  match consensusState with
  | Some cs => Ok (Any_ConsensusState cs)
  | None => Err (Wrap sdkerrors.ErrPackAny)
  end.
Definition PackHeader (header : option Header) : outcome AnyValue :=
  match header with
  | Some h => Ok (Any_Header h)
  | None => Err (Wrap sdkerrors.ErrPackAny)
  end.
Definition PackMisbehaviour (misbehaviour : option Misbehaviour) : outcome AnyValue :=
  match misbehaviour with
  | Some m => Ok (Any_Misbehaviour m)
  | None => Err (Wrap sdkerrors.ErrPackAny)
  end.
End any.

(** ** [client.go] *)

Definition ValidateClientType (clientType : string) : outcome unit :=
  fail_if (blank clientType) (Wrap ClientErr.ErrInvalidClientType) ;;?
  let smallestPossibleClientID := FormatClientIdentifier clientType 0 in
  let largestPossibleClientID := FormatClientIdentifier clientType MaxUint64 in
  fail_if (negb (IsValidClientID smallestPossibleClientID)) (Wrap ClientErr.ErrInvalidClientType) ;;?
  outcome_wrap (ClientIdentifierValidator smallestPossibleClientID) ;;?
  outcome_wrap (ClientIdentifierValidator largestPossibleClientID).

Section clients.
Context {LC : LightClient}.

Record IdentifiedClientState := mkIdentifiedClientState {
  Identified_ClientId : string;
  Identified_ClientState : option AnyValue }.
Definition NewIdentifiedClientState (clientID : string) (clientState : ClientState) : IdentifiedClientState :=
  mkIdentifiedClientState clientID (Some (Any_ClientState clientState)).

(** [Less] of [IdentifiedClientStates] and [Sort]: [sort.Sort] sorts by identifier; the
    clients of a chain have different identifiers. *)
Definition client_le (a b : IdentifiedClientState) : Prop :=
  bytes_lt (Identified_ClientId b) (Identified_ClientId a) = false.
#[export] Instance client_le_dec : RelDecision client_le.
Proof. intros a b. unfold client_le. apply _. Defined.
Definition IdentifiedClientStates_Sort (ics : list IdentifiedClientState) : list IdentifiedClientState :=
  merge_sort client_le ics.

Record ConsensusStateWithHeight := mkConsensusStateWithHeight {
  WithHeight_Height : Height;
  WithHeight_ConsensusState : option AnyValue }.
Definition NewConsensusStateWithHeight (height : Height) (consensusState : ConsensusState) : ConsensusStateWithHeight :=
  mkConsensusStateWithHeight height (Some (Any_ConsensusState consensusState)).

Record ClientConsensusStates := NewClientConsensusStates {
  Consensus_ClientId : string;
  Consensus_States : list ConsensusStateWithHeight }.
Definition consensus_le (a b : ClientConsensusStates) : Prop :=
  bytes_lt (Consensus_ClientId b) (Consensus_ClientId a) = false.
#[export] Instance consensus_le_dec : RelDecision consensus_le.
Proof. intros a b. unfold consensus_le. apply _. Defined.
Definition ClientsConsensusStates_Sort (ccs : list ClientConsensusStates) : list ClientConsensusStates :=
  merge_sort consensus_le ccs.

(** ** [genesis.go] *)

Record GenesisMetadata := NewGenesisMetadata { Metadata_Key : string; Metadata_Value : string }.
Definition GenesisMetadata_Validate (gm : GenesisMetadata) : outcome unit :=
  fail_if (bool_decide (String.length (Metadata_Key gm) = 0)) fmt_Errorf ;;?
  fail_if (bool_decide (String.length (Metadata_Value gm) = 0)) fmt_Errorf.
Record IdentifiedGenesisMetadata := NewIdentifiedGenesisMetadata {
  Metadata_ClientId : string;
  ClientMetadata : list GenesisMetadata }.

(** [Params] is its one field, the list of allowed client types. *)
Definition validateClients (clients : list string) : outcome unit :=
  fail_if (existsb blank clients) fmt_Errorf.
Definition DefaultAllowedClients : list string := [Solomachine; Tendermint].

Record GenesisState := NewGenesisState {
  Genesis_Clients : list IdentifiedClientState;
  ClientsConsensus : list ClientConsensusStates;
  ClientsMetadata : list IdentifiedGenesisMetadata;
  Genesis_Params : list string;
  CreateLocalhost : bool;
  NextClientSequence : N }.
Definition DefaultGenesisState : GenesisState :=
  NewGenesisState [] [] [] DefaultAllowedClients false 0.

(** The cached value of an [Any] field; a [nil] [Any] has none. *)
Definition cached_client (a : option AnyValue) : option ClientState :=
  match a with Some (Any_ClientState cs) => Some cs | _ => None end.
Definition cached_consensus (a : option AnyValue) : option ConsensusState :=
  match a with Some (Any_ConsensusState cs) => Some cs | _ => None end.

(** The loop over the clients: [maxSequence] and [validClients] (identifier to client
    type) are the variables it updates.  [GetCachedValue] dereferences the [Any], so a
    [nil] one panics. *)
Fixpoint validate_clients (params : list string) (clients : list IdentifiedClientState) (maxSequence : N)
    (validClients : gmap string string) : outcome (N * gmap string string) :=
  match clients with
  | [] => Ok (maxSequence, validClients)
  | client :: rest =>
      outcome_wrap (ClientIdentifierValidator (Identified_ClientId client)) ;;?
      let? any := must_some (Identified_ClientState client) in
      match any with
      | Any_ClientState clientState =>
          fail_if (negb (IsAllowedClient params (ClientType clientState))) fmt_Errorf ;;?
          outcome_wrap (ClientState_Validate clientState) ;;?
          let? ' (clientType, sequence) := ParseClientIdentifier (Identified_ClientId client) in
          fail_if (bool_decide (clientType ≠ ClientType clientState)) fmt_Errorf ;;?
          ValidateClientType clientType ;;?
          validate_clients params rest (if (maxSequence <? sequence)%N then sequence else maxSequence)
            (<[Identified_ClientId client := ClientType clientState]> validClients)
      | _ => Err fmt_Errorf
      end
  end.

Fixpoint validate_consensus_states (clientType : string) (l : list ConsensusStateWithHeight) : outcome unit :=
  match l with
  | [] => Ok tt
  | consensusState :: rest =>
      fail_if (Height_IsZero (WithHeight_Height consensusState)) fmt_Errorf ;;?
      let? any := must_some (WithHeight_ConsensusState consensusState) in
      match any with
      | Any_ConsensusState cs =>
          outcome_wrap (ConsensusState_ValidateBasic cs) ;;?
          fail_if (bool_decide (clientType ≠ ConsensusState_ClientType cs)) fmt_Errorf ;;?
          validate_consensus_states clientType rest
      | _ => Err fmt_Errorf
      end
  end.
Fixpoint validate_clients_consensus (validClients : gmap string string) (l : list ClientConsensusStates) : outcome unit :=
  match l with
  | [] => Ok tt
  | cc :: rest =>
      match validClients !! Consensus_ClientId cc with
      | None => Err fmt_Errorf
      | Some clientType =>
          validate_consensus_states clientType (Consensus_States cc) ;;?
          validate_clients_consensus validClients rest
      end
  end.

Fixpoint validate_metadata (l : list GenesisMetadata) : outcome unit :=
  match l with
  | [] => Ok tt
  | gm :: rest => outcome_wrap (GenesisMetadata_Validate gm) ;;? validate_metadata rest
  end.
Fixpoint validate_clients_metadata (validClients : gmap string string) (l : list IdentifiedGenesisMetadata) : outcome unit :=
  match l with
  | [] => Ok tt
  | clientMetadata :: rest =>
      fail_if (is_nil (validClients !! Metadata_ClientId clientMetadata)) fmt_Errorf ;;?
      validate_metadata (ClientMetadata clientMetadata) ;;?
      validate_clients_metadata validClients rest
  end.

Definition GenesisState_Validate (gs : GenesisState) : outcome unit :=
  validateClients (Genesis_Params gs) ;;?
  let? ' (maxSequence, validClients) := validate_clients (Genesis_Params gs) (Genesis_Clients gs) 0 ∅ in
  validate_clients_consensus validClients (ClientsConsensus gs) ;;?
  validate_clients_metadata validClients (ClientsMetadata gs) ;;?
  fail_if (CreateLocalhost gs && negb (IsAllowedClient (Genesis_Params gs) Localhost)) fmt_Errorf ;;?
  fail_if (negb (maxSequence =? 0)%N && (NextClientSequence gs <=? maxSequence)%N) fmt_Errorf.
End clients.
