(* ===== verification/Router.v ===== *)
(** * The IBC router and the redundancy check

    [Router] maps module names to the callbacks of IBC applications
    ([05-port/types/router.go], [module.go]); [AnteHandle] is the check that rejects
    transactions of redundant relays from the mempool ([ante/ante.go]). *)
From S2P Require Import Prelude GoMonad Errors Sha256 Height Host Sdk ConnectionTypes.
From S2P Require Import ChannelTypes Exported ClientKeeper ConnectionKeeper PortKeeper.
From S2P Require Import ChannelKeeper.

Section router.
Context {CK : CapabilityKeeper} {AP : Application}.

(** [exported.Acknowledgement]: what core reads of an application's acknowledgement. *)
Record AckI := mkAck { ack_Success : bool; ack_Acknowledgement : string }.

(** [porttypes.IBCModule]: the callbacks of an application.  A relayer is the bytes of
    its address; [OnRecvPacket] returns [nil] for an asynchronous acknowledgement. *)
Record IBCModule := mkIBCModule {
  OnChanOpenInit : Context → Order → list string → string → string → Capability → Counterparty → string → M unit;
  OnChanOpenTry : Context → Order → list string → string → string → Capability → Counterparty → string → M string;
  OnChanOpenAck : Context → string → string → string → M unit;
  OnChanOpenConfirm : Context → string → string → M unit;
  OnChanCloseInit : Context → string → string → M unit;
  OnChanCloseConfirm : Context → string → string → M unit;
  OnRecvPacket : Context → Packet → string → M (option AckI);
  OnAcknowledgementPacket : Context → Packet → string → string → M unit;
  OnTimeoutPacket : Context → Packet → string → M unit }.

Record Router := mkRouter { routes : gmap string IBCModule; sealed : bool }.

Definition NewRouter : Router := mkRouter ∅ false.

(** [Seal] panics ([None]) if the router is already sealed. *)
Definition Seal (rtr : Router) : option Router :=
  if sealed rtr then None else Some (mkRouter (routes rtr) true).

Definition HasRoute (rtr : Router) (module : string) : bool := bool_decide (is_Some (routes rtr !! module)).

(** [AddRoute] panics on a sealed router, a name that is not alphanumeric
    ([sdk.IsAlphaNumeric], a parameter), and a name that is already registered. *)
Definition AddRoute (IsAlphaNumeric : string → bool) (module : string) (cbs : IBCModule) (rtr : Router) :
    option Router :=
  if sealed rtr then None
  else if negb (IsAlphaNumeric module) then None
  else if HasRoute rtr module then None
  else Some (mkRouter (<[module := cbs]> (routes rtr)) (sealed rtr)).

Definition GetRoute (rtr : Router) (module : string) : option IBCModule :=
  if negb (HasRoute rtr module) then None else routes rtr !! module.

(** A call of the router's interface. *)
Inductive router_op := R_seal | R_add (module : string) (cbs : IBCModule).
Definition router_exec (alnum : string → bool) (o : router_op) (rtr : Router) : option Router :=
  match o with
  | R_seal => Seal rtr
  | R_add m cbs => AddRoute alnum m cbs rtr
  end.
Fixpoint router_run (alnum : string → bool) (l : list router_op) (rtr : Router) : option Router :=
  match l with
  | [] => Some rtr
  | o :: l => router_exec alnum o rtr ≫= router_run alnum l
  end.

(** ** Redundant transactions ([ante/ante.go]) *)

(** The messages [AnteHandle] distinguishes. *)
Inductive tx_msg :=
  | Tx_RecvPacket (packet : Packet)
  | Tx_Acknowledgement (packet : Packet)
  | Tx_Timeout (packet : Packet)
  | Tx_TimeoutOnClose (packet : Packet)
  | Tx_UpdateClient
  | Tx_Other.

(** The loop over the messages: the counts of redundant and of all packet messages,
    or [None] when another message is met, which ends the check. *)
Fixpoint count_redundant (msgs : list tx_msg) (redundancies packetMsgs : N) : M (option (N * N)) :=
  match msgs with
  | [] => ret (Some (redundancies, packetMsgs))
  | Tx_RecvPacket p :: msgs =>
      let! receipt := GetPacketReceipt (DestinationPort p) (DestinationChannel p) (Sequence p) in
      count_redundant msgs (if bool_decide (is_Some receipt) then redundancies + 1 else redundancies)%N
        (packetMsgs + 1)
  | Tx_Acknowledgement p :: msgs | Tx_Timeout p :: msgs | Tx_TimeoutOnClose p :: msgs =>
      let! commitment := GetPacketCommitment (SourcePort p) (SourceChannel p) (Sequence p) in
      count_redundant msgs
        (if bool_decide (String.length commitment = 0) then (redundancies + 1)%N else redundancies) (packetMsgs + 1)
  | Tx_UpdateClient :: msgs => count_redundant msgs redundancies packetMsgs
  | Tx_Other :: _ => ret None
  end.

Definition AnteHandle (ctx : Context) (msgs : list tx_msg) (simulate : bool) (next : M unit) : M unit :=
  if (IsCheckTx ctx || IsReCheckTx ctx) && negb simulate then
    let! counts := count_redundant msgs 0 0 in
    match counts with
    | None => next
    | Some (redundancies, packetMsgs) =>
        if (redundancies =? packetMsgs)%N && (0 <? packetMsgs)%N then throw ChanErr.ErrRedundantTx else next
    end
  else next.

(** ** Properties *)

(** A packet message that the check counts as redundant. *)
Definition redundant (w : World) (m : tx_msg) : Prop :=
  match m with
  | Tx_RecvPacket p => is_Some (ibc w !! PacketReceiptKey (DestinationPort p) (DestinationChannel p) (Sequence p))
  | Tx_Acknowledgement p | Tx_Timeout p | Tx_TimeoutOnClose p =>
      default "" (ibc w !! PacketCommitmentKey (SourcePort p) (SourceChannel p) (Sequence p)) = ""
  | _ => True
  end.
Definition is_packet (m : tx_msg) : bool :=
  match m with Tx_UpdateClient | Tx_Other => false | _ => true end.

Lemma length_zero (s : string) : String.length s = 0 ↔ s = "".
Proof. destruct s; simpl; split; congruence. Qed.

(** The loop counts the packet messages, and those that are redundant. *)
Lemma count_redundant_spec msgs r n w :
  (r ≤ n)%N →
  ∃ o, count_redundant msgs r n w = (w, Ok o) ∧
    match o with
    | None => Tx_Other ∈ msgs
    | Some (r', n') => (Tx_Other ∉ msgs) ∧ n' = (n + N.of_nat (length (filter is_packet msgs)))%N ∧ (r' ≤ n')%N ∧
        (r' = n' ↔ r = n ∧ Forall (redundant w) msgs)
    end.
Proof.
  revert r n. induction msgs as [|m msgs IH]; intros r n Hle.
  { eexists. split; [done|]. cbn. split; [by intros ?%elem_of_nil|]. split; [lia|]. split; [done|].
    split; [by intros ->|by intros [-> _]]. }
  assert (Hpacket : ∀ b : bool, is_packet m = true → m ≠ Tx_Other → (redundant w m ↔ b = true) →
    ∃ o, count_redundant msgs (if b then r + 1 else r)%N (n + 1) w = (w, Ok o) ∧
      match o with
      | None => Tx_Other ∈ (m :: msgs)
      | Some (r', n') => (Tx_Other ∉ (m :: msgs)) ∧ n' = (n + N.of_nat (length (filter is_packet (m :: msgs))))%N ∧
          (r' ≤ n')%N ∧ (r' = n' ↔ r = n ∧ Forall (redundant w) (m :: msgs))
      end).
  { intros b Hp Hm Hb. destruct (IH (if b then r + 1 else r)%N (n + 1)%N) as (o & E & Ho); [destruct b; lia|].
    exists o. split; [done|]. destruct o as [[r' n']|]; [|by right].
    destruct Ho as (Hno & -> & Hle' & Hiff). split; [|split; [|split]].
    - apply not_elem_of_cons. auto.
    - rewrite filter_cons_True by (by rewrite Hp). simpl. lia.
    - done.
    - rewrite Hiff, Forall_cons_iff, Hb. destruct b; split; intros [? ?]; split_and?; try lia; try done; tauto. }
  destruct m as [p|p|p|p| |]; cbn [count_redundant].
  1: apply Hpacket; [done|done|by rewrite bool_decide_eq_true].
  1-3: apply Hpacket; [done|done|by rewrite bool_decide_eq_true, length_zero].
  - destruct (IH r n Hle) as (o & E & Ho). exists o. split; [done|].
    destruct o as [[r' n']|]; [|by right]. destruct Ho as (Hno & -> & Hle' & Hiff). split; [|split; [|split]].
    + apply not_elem_of_cons. done.
    + reflexivity.
    + done.
    + rewrite Hiff, Forall_cons_iff. simpl. tauto.
  - exists None. split; [done|]. by left.
Qed.
End router.

Section claims.
Context {CK : CapabilityKeeper} {AP : Application}.

Lemma Forall_redundant_packets w msgs :
  Forall (redundant w) msgs ↔ ∀ m, m ∈ msgs → is_packet m = true → redundant w m.
Proof.
  rewrite Forall_forall. setoid_rewrite <- list_elem_of_In. split; [intros H m Hm _; by apply H|]. intros H m Hm. specialize (H m Hm). destruct m; simpl in *; auto.
Qed.

Lemma packets_exist msgs :
  (0 < length (filter is_packet msgs))%nat ↔ ∃ m, m ∈ msgs ∧ is_packet m = true.
Proof.
  split.
  - intros H. destruct (filter is_packet msgs) as [|m l] eqn:E; simpl in H; [lia|].
    assert (Hm : m ∈ filter is_packet msgs) by (rewrite E; by left).
    apply list_elem_of_filter in Hm as [Hp Hm]. exists m. split; [done|by apply Is_true_true].
  - intros (m & Hm & Hp). assert (Hf : m ∈ filter is_packet msgs).
    { apply list_elem_of_filter. split; [by apply Is_true_true|done]. }
    destruct (filter is_packet msgs); [by apply elem_of_nil in Hf|simpl; lia].
Qed.

(** The mempool check rejects a transaction, with [ErrRedundantTx] and without
    running the rest of the chain, exactly when it is a CheckTx or ReCheckTx that is
    not simulated, all its messages are packet messages or client updates, at least
    one is a packet message, and every packet message is redundant (its receipt
    exists, or its commitment is gone); in every other case it behaves as the next
    handler. *)
Theorem AnteHandle_spec ctx msgs simulate next w :
  (∃ m, m ∈ msgs ∧ is_packet m = true) ∧ (Tx_Other ∉ msgs) ∧
  (∀ m, m ∈ msgs → is_packet m = true → redundant w m) ∧
  (IsCheckTx ctx || IsReCheckTx ctx) && negb simulate = true ∧
  AnteHandle ctx msgs simulate next w = (w, Err ChanErr.ErrRedundantTx) ∨
  ¬ ((∃ m, m ∈ msgs ∧ is_packet m = true) ∧ (Tx_Other ∉ msgs) ∧
     (∀ m, m ∈ msgs → is_packet m = true → redundant w m) ∧
     (IsCheckTx ctx || IsReCheckTx ctx) && negb simulate = true) ∧
  AnteHandle ctx msgs simulate next w = next w.
Proof.
  unfold AnteHandle. destruct ((IsCheckTx ctx || IsReCheckTx ctx) && negb simulate); [|right; naive_solver].
  destruct (count_redundant_spec msgs 0 0 w) as (o & E & Ho); [done|].
  rewrite (bind_run _ _ _ _ _ E). destruct o as [[r n]|]; [|right; naive_solver].
  destruct Ho as (Hno & -> & Hle & Hiff). rewrite Forall_redundant_packets in Hiff.
  destruct ((r =? _)%N && (0 <? _)%N) eqn:B.
  - left. apply andb_true_iff in B as [B1%N.eqb_eq B2%N.ltb_lt].
    assert (∃ m, m ∈ msgs ∧ is_packet m = true) by (apply packets_exist; lia).
    apply Hiff in B1 as [_ B1]. done.
  - right. split; [|done]. intros (Hex & _ & Hall & _). apply packets_exist in Hex.
    apply andb_false_iff in B as [B%N.eqb_neq|B%N.ltb_ge]; [|lia]. apply B, Hiff. done.
Qed.

(** The router is a write-once registry: a registered route is never changed or
    removed by later calls, and once sealed the router never changes (every later
    registration or seal panics). *)
Theorem router_write_once alnum l rtr rtr' :
  router_run alnum l rtr = Some rtr' →
  (∀ m cbs, GetRoute rtr m = Some cbs → GetRoute rtr' m = Some cbs) ∧ (sealed rtr = true → l = [] ∧ rtr' = rtr).
Proof.
  assert (Hget : ∀ rt m, GetRoute rt m = routes rt !! m).
  { intros rt m. unfold GetRoute, HasRoute. destruct (routes rt !! m) eqn:E; [|done].
    by rewrite bool_decide_eq_true_2. }
  setoid_rewrite Hget. revert rtr. induction l as [|o l IH]; intros rtr; simpl; [intros [= ->]; auto|].
  destruct (router_exec alnum o rtr) as [rtr1|] eqn:E; [|done]. simpl. intros Hrun.
  destruct (IH _ Hrun) as [Hkeep _].
  destruct o as [|m0 cbs0]; simpl in E; unfold Seal, AddRoute, HasRoute in E;
    destruct (sealed rtr) eqn:Hs; try done; simplify_eq; (split; [|done]); intros m cbs Hm; apply Hkeep; [done|].
  destruct (negb (alnum m0)); [done|]. case_bool_decide as Hh; [done|]. simplify_eq. simpl.
  rewrite lookup_insert_ne; [done|]. intros ->. apply Hh. by eexists.
Qed.
End claims.

Module RouterWitness.
Definition toyCK : CapabilityKeeper :=
  {| Capability := N; CapState := unit; cap_NewCapability := λ _ _ s, (s, Ok 0%N);
     cap_GetCapability := λ _ _ _, None; cap_AuthenticateCapability := λ _ _ _ _, false;
     cap_ClaimCapability := λ _ _ _ s, (s, Ok tt); cap_LookupModules := λ _ _ _, Err (External "none") |}.
Definition toyAP : Application := {| AppState := unit |}.

Definition callbacks : @IBCModule toyCK toyAP :=
  @mkIBCModule toyCK toyAP (λ _ _ _ _ _ _ _ _, ret tt) (λ _ _ _ _ _ _ _ _, ret "") (λ _ _ _ _, ret tt)
    (λ _ _ _, ret tt) (λ _ _ _, ret tt) (λ _ _ _, ret tt) (λ _ _ _, ret None) (λ _ _ _ _, ret tt) (λ _ _ _, ret tt).

Definition one : @Router toyCK toyAP := mkRouter {["transfer" := callbacks]} false.
Definition two : @Router toyCK toyAP := mkRouter (<["icahost" := callbacks]> {["transfer" := callbacks]}) true.

Lemma router_write_once_witness : GetRoute two "transfer" = Some callbacks.
Proof.
  destruct (router_write_once (λ _, true) [R_add "icahost" callbacks; R_seal] one two) as [Hkeep _];
    [reflexivity|]. by apply Hkeep.
Defined.
End RouterWitness.
