(* ===== verification/MsgServer.v ===== *)
(** * The message server ([core/keeper/msg_server.go])

    One handler per message: unpacking, lookup of the application by capability,
    routing, the keeper's checks, the application callback and the final writes, in
    the order of the source.  [CacheContext] is modelled with its event manager:
    events of a cached context are emitted in any case, its state changes are kept
    only when [writeFn] is called.  Telemetry counters are not state and are left
    out. *)
From S2P Require Import Prelude GoMonad Errors Sha256 Height Host Sdk ConnectionTypes.
From S2P Require Import ChannelTypes Exported ClientKeeper ConnectionKeeper PortKeeper.
From S2P Require Import ClientTypes.
From S2P Require Import ChannelKeeper ChannelHandshake Router.

Record MsgRecvPacket := mkMsgRecvPacket {
  recv_Packet : Packet; recv_ProofCommitment : string; recv_ProofHeight : Height; recv_Signer : string }.
Record MsgAcknowledgement := mkMsgAcknowledgement {
  ack_Packet : Packet; ack_Bytes : string; ack_ProofAcked : string; ack_ProofHeight : Height; ack_Signer : string }.
Record MsgTimeout := mkMsgTimeout {
  to_Packet : Packet; to_ProofUnreceived : string; to_ProofHeight : Height; to_NextSequenceRecv : N;
  to_Signer : string }.
Record MsgTimeoutOnClose := mkMsgTimeoutOnClose {
  toc_Packet : Packet; toc_ProofUnreceived : string; toc_ProofClose : string; toc_ProofHeight : Height;
  toc_NextSequenceRecv : N; toc_Signer : string }.

Section server.
Context {SE : SdkEncoding} {LC : LightClient} {CD : Codec} {CK : CapabilityKeeper} {AP : Application}
  {SC : SelfClient} {BE : Bech32}.
Variable rtr : Router.

(** [cacheCtx, writeFn := ctx.CacheContext(); r := m(cacheCtx);
     ctx.EventManager().EmitEvents(cacheCtx.EventManager().Events())], with [writeFn()]
    when [commit r]. *)
Definition with_cache {A} (m : M A) (commit : outcome A → bool) : M (outcome A) := λ w,
  match m (set_events [] w) with
  | (_, Panic) => (w, Panic)
  | (w1, o) => (set_events (events w1 ++ events w) (if commit o then w1 else w), Ok o)
  end.

(** The verification of a packet message: [true] when it was done, [false] when it is
    a no-op.  The sentinel is compared with [==]. *)
Definition verify_once (m : M unit) : M bool :=
  let! err := with_cache m is_ok in
  match err with
  | Ok _ => ret true
  | Err e => if bool_decide (e = ChanErr.ErrNoOpMsg) then ret false else throw (Wrap e)
  | Panic => panic
  end.

(** [module, cap, err := k.ChannelKeeper.LookupModuleByChannel(...); cbs, ok := k.Router.GetRoute(module)] *)
Definition route_channel (portID channelID : string) : M (IBCModule * Capability) :=
  let! ' (module, cap) := wrap_err (LookupModuleByChannel portID channelID) in
  let! cbs := some_or (GetRoute rtr module) (Wrap PortErr.ErrInvalidRoute) in
  ret (cbs, cap).
Definition route_port (portID : string) : M (IBCModule * Capability) :=
  let! ' (module, cap) := wrap_err (LookupModuleByPort portID) in
  let! cbs := some_or (GetRoute rtr module) (Wrap PortErr.ErrInvalidRoute) in
  ret (cbs, cap).

(** ** Clients *)

Definition client_message : Event := NewEvent "message" [("module", "ibc_client")].

Definition msg_CreateClient (ctx : Context) (clientState consensusState : option AnyValue) : M unit :=
  let! clientState := lift (UnpackClientState clientState) in
  let! consensusState := lift (UnpackConsensusState consensusState) in
  let! clientID := CreateClient ctx clientState (Some consensusState) in
  EmitEvent (NewEvent "create_client"
    [("client_id", clientID); ("client_type", ClientType clientState);
     ("consensus_height", Height_String (GetLatestHeight clientState))]) ;;;
  EmitEvent client_message.

Definition msg_UpdateClient (ctx : Context) (clientID : string) (header : option AnyValue) : M unit :=
  let! header := lift (UnpackHeader header) in
  UpdateClient ctx clientID (Some header) ;;;
  EmitEvent client_message.

Definition msg_UpgradeClient (ctx : Context) (clientID : string) (clientState consensusState : option AnyValue)
    (proofUpgradeClient proofUpgradeConsensusState : string) : M unit :=
  let! upgradedClient := lift (UnpackClientState clientState) in
  let! upgradedConsState := lift (UnpackConsensusState consensusState) in
  UpgradeClient ctx clientID upgradedClient (Some upgradedConsState) proofUpgradeClient proofUpgradeConsensusState ;;;
  EmitEvent client_message.

Definition msg_SubmitMisbehaviour (ctx : Context) (clientID : string) (misbehaviour : option AnyValue) : M unit :=
  let! misbehaviour := lift (UnpackMisbehaviour misbehaviour) in
  wrap_err (CheckMisbehaviourAndUpdateState ctx misbehaviour) ;;;
  EmitEvent (NewEvent "client_misbehaviour"
    [("client_id", clientID); ("client_type", Misbehaviour_ClientType misbehaviour)]).

(** ** Connections *)

Definition connection_message : Event := NewEvent "message" [("module", "ibc_connection")].
Definition connection_event (eventType connectionID clientID : string) (c : connectiontypes.Counterparty) : Event :=
  NewEvent eventType
    [("connection_id", connectionID); ("client_id", clientID);
     ("counterparty_client_id", connectiontypes.Counterparty_ClientId c);
     ("counterparty_connection_id", connectiontypes.Counterparty_ConnectionId c)].

Definition msg_ConnectionOpenInit (clientID : string) (counterparty : connectiontypes.Counterparty)
    (version : option connectiontypes.Version) (delayPeriod : N) : M unit :=
  let! connectionID := wrap_err (ConnOpenInit clientID counterparty version delayPeriod) in
  EmitEvent (connection_event "connection_open_init" connectionID clientID counterparty) ;;;
  EmitEvent connection_message.

Definition msg_ConnectionOpenTry (ctx : Context) (previousConnectionID : string)
    (counterparty : connectiontypes.Counterparty) (delayPeriod : N) (clientID : string)
    (clientState : option AnyValue) (counterpartyVersions : list connectiontypes.Version)
    (proofInit proofClient proofConsensus : string) (proofHeight consensusHeight : Height) : M unit :=
  let! targetClient := wrap_err (lift (UnpackClientState clientState)) in
  let! connectionID :=
    wrap_err (ConnOpenTry ctx previousConnectionID counterparty delayPeriod clientID targetClient
      counterpartyVersions proofInit proofClient proofConsensus proofHeight consensusHeight) in
  EmitEvent (connection_event "connection_open_try" connectionID clientID counterparty) ;;;
  EmitEvent connection_message.

(** [connectionEnd, _ := k.ConnectionKeeper.GetConnection(ctx, id)]: the zero value when
    there is none. *)
Definition connection_or_zero (connectionID : string) : M connectiontypes.ConnectionEnd :=
  let! connectionEnd := GetConnection connectionID in
  ret (default (connectiontypes.mkConnectionEnd "" [] connectiontypes.UNINITIALIZED
    (connectiontypes.NewCounterparty "" "" (NewMerklePrefix "")) 0) connectionEnd).

Definition msg_ConnectionOpenAck (ctx : Context) (connectionID : string) (clientState : option AnyValue)
    (version : connectiontypes.Version) (counterpartyConnectionID : string)
    (proofTry proofClient proofConsensus : string) (proofHeight consensusHeight : Height) : M unit :=
  let! targetClient := wrap_err (lift (UnpackClientState clientState)) in
  wrap_err (ConnOpenAck ctx connectionID targetClient version counterpartyConnectionID proofTry proofClient
    proofConsensus proofHeight consensusHeight) ;;;
  let! connectionEnd := connection_or_zero connectionID in
  EmitEvent (connection_event "connection_open_ack" connectionID (connectiontypes.ClientId connectionEnd)
    (connectiontypes.Connection_Counterparty connectionEnd)) ;;;
  EmitEvent connection_message.

Definition msg_ConnectionOpenConfirm (ctx : Context) (connectionID proofAck : string) (proofHeight : Height) : M unit :=
  wrap_err (ConnOpenConfirm ctx connectionID proofAck proofHeight) ;;;
  let! connectionEnd := connection_or_zero connectionID in
  EmitEvent (connection_event "connection_open_confirm" connectionID (connectiontypes.ClientId connectionEnd)
    (connectiontypes.Connection_Counterparty connectionEnd)) ;;;
  EmitEvent connection_message.

(** ** Channels *)

Definition msg_ChannelOpenInit (ctx : Context) (portID : string) (channel : Channel) : M unit :=
  let! ' (cbs, portCap) := route_port portID in
  let! ' (channelID, cap) :=
    wrap_err (ChanOpenInit (Channel_Ordering channel) (ConnectionHops channel) portID portCap) in
  wrap_err (OnChanOpenInit cbs ctx (Channel_Ordering channel) (ConnectionHops channel) portID channelID cap
    (Channel_Counterparty channel) (Channel_Version channel)) ;;;
  WriteOpenInitChannel portID channelID (Channel_Ordering channel) (ConnectionHops channel)
    (Channel_Counterparty channel) (Channel_Version channel).

Definition msg_ChannelOpenTry (ctx : Context) (portID previousChannelID : string) (channel : Channel)
    (counterpartyVersion proofInit : string) (proofHeight : Height) : M unit :=
  let! ' (cbs, portCap) := route_port portID in
  let! ' (channelID, cap) :=
    wrap_err (ChanOpenTry ctx (Channel_Ordering channel) (ConnectionHops channel) portID previousChannelID portCap
      (Channel_Counterparty channel) counterpartyVersion proofInit proofHeight) in
  let! version :=
    wrap_err (OnChanOpenTry cbs ctx (Channel_Ordering channel) (ConnectionHops channel) portID channelID cap
      (Channel_Counterparty channel) counterpartyVersion) in
  WriteOpenTryChannel portID channelID (Channel_Ordering channel) (ConnectionHops channel)
    (Channel_Counterparty channel) version.

Definition msg_ChannelOpenAck (ctx : Context) (portID channelID counterpartyChannelID counterpartyVersion
    proofTry : string) (proofHeight : Height) : M unit :=
  let! ' (cbs, cap) := route_channel portID channelID in
  wrap_err (ChanOpenAck ctx portID channelID cap counterpartyVersion counterpartyChannelID proofTry proofHeight) ;;;
  wrap_err (OnChanOpenAck cbs ctx portID channelID counterpartyVersion) ;;;
  WriteOpenAckChannel portID channelID counterpartyVersion counterpartyChannelID.

Definition msg_ChannelOpenConfirm (ctx : Context) (portID channelID proofAck : string) (proofHeight : Height) : M unit :=
  let! ' (cbs, cap) := route_channel portID channelID in
  wrap_err (ChanOpenConfirm ctx portID channelID cap proofAck proofHeight) ;;;
  wrap_err (OnChanOpenConfirm cbs ctx portID channelID) ;;;
  WriteOpenConfirmChannel portID channelID.

Definition msg_ChannelCloseInit (ctx : Context) (portID channelID : string) : M unit :=
  let! ' (cbs, cap) := route_channel portID channelID in
  wrap_err (OnChanCloseInit cbs ctx portID channelID) ;;;
  wrap_err (ChanCloseInit portID channelID cap) ;;;
  EmitEvent message_event.

Definition msg_ChannelCloseConfirm (ctx : Context) (portID channelID proofInit : string) (proofHeight : Height) : M unit :=
  let! ' (cbs, cap) := route_channel portID channelID in
  wrap_err (OnChanCloseConfirm cbs ctx portID channelID) ;;;
  wrap_err (ChanCloseConfirm ctx portID channelID cap proofInit proofHeight) ;;;
  EmitEvent message_event.

(** ** Packets *)

Definition msg_RecvPacket (ctx : Context) (msg : MsgRecvPacket) : M unit :=
  let packet := recv_Packet msg in
  let! relayer := wrap_err (lift (AccAddressFromBech32 (recv_Signer msg))) in
  let! ' (cbs, cap) := route_channel (DestinationPort packet) (DestinationChannel packet) in
  let! received := verify_once (RecvPacket ctx cap packet (recv_ProofCommitment msg) (recv_ProofHeight msg)) in
  if received then
    let! ack :=
      with_cache (OnRecvPacket cbs ctx packet relayer)
        (λ ack, match ack with Ok (Some ack) => ack_Success ack | Ok None => true | _ => false end) in
    match ack with
    | Ok (Some ack) => WriteAcknowledgement cap packet (ack_Acknowledgement ack)
    | Ok None => ret tt
    | Err e => throw e
    | Panic => panic
    end
  else ret tt.

Definition msg_Timeout (ctx : Context) (msg : MsgTimeout) : M unit :=
  let packet := to_Packet msg in
  let! relayer := wrap_err (lift (AccAddressFromBech32 (to_Signer msg))) in
  let! ' (cbs, cap) := route_channel (SourcePort packet) (SourceChannel packet) in
  let! timed_out :=
    verify_once (TimeoutPacket ctx packet (to_ProofUnreceived msg) (to_ProofHeight msg) (to_NextSequenceRecv msg)) in
  if timed_out then
    wrap_err (OnTimeoutPacket cbs ctx packet relayer) ;;;
    TimeoutExecuted cap packet
  else ret tt.

Definition msg_TimeoutOnClose (ctx : Context) (msg : MsgTimeoutOnClose) : M unit :=
  let packet := toc_Packet msg in
  let! relayer := wrap_err (lift (AccAddressFromBech32 (toc_Signer msg))) in
  let! ' (cbs, cap) := route_channel (SourcePort packet) (SourceChannel packet) in
  let! timed_out :=
    verify_once (TimeoutOnClose ctx cap packet (toc_ProofUnreceived msg) (toc_ProofClose msg) (toc_ProofHeight msg)
      (toc_NextSequenceRecv msg)) in
  if timed_out then
    wrap_err (OnTimeoutPacket cbs ctx packet relayer) ;;;
    TimeoutExecuted cap packet
  else ret tt.

Definition msg_Acknowledgement (ctx : Context) (msg : MsgAcknowledgement) : M unit :=
  let packet := ack_Packet msg in
  let! relayer := wrap_err (lift (AccAddressFromBech32 (ack_Signer msg))) in
  let! ' (cbs, cap) := route_channel (SourcePort packet) (SourceChannel packet) in
  let! acknowledged :=
    verify_once (AcknowledgePacket ctx cap packet (ack_Bytes msg) (ack_ProofAcked msg) (ack_ProofHeight msg)) in
  if acknowledged then wrap_err (OnAcknowledgementPacket cbs ctx packet (ack_Bytes msg) relayer)
  else ret tt.
End server.

(** ** The service *)
Section service.
Context {SE : SdkEncoding} {LC : LightClient} {CD : Codec} {CK : CapabilityKeeper} {AP : Application}
  {SC : SelfClient} {BE : Bech32}.

(** The messages of the module, with the fields the handlers read. *)
Inductive message :=
  | Msg_CreateClient (clientState consensusState : option AnyValue)
  | Msg_UpdateClient (clientID : string) (header : option AnyValue)
  | Msg_UpgradeClient (clientID : string) (clientState consensusState : option AnyValue)
      (proofUpgradeClient proofUpgradeConsensusState : string)
  | Msg_SubmitMisbehaviour (clientID : string) (misbehaviour : option AnyValue)
  | Msg_ConnectionOpenInit (clientID : string) (counterparty : connectiontypes.Counterparty)
      (version : option connectiontypes.Version) (delayPeriod : N)
  | Msg_ConnectionOpenTry (previousConnectionID : string) (counterparty : connectiontypes.Counterparty)
      (delayPeriod : N) (clientID : string) (clientState : option AnyValue)
      (counterpartyVersions : list connectiontypes.Version) (proofInit proofClient proofConsensus : string)
      (proofHeight consensusHeight : Height)
  | Msg_ConnectionOpenAck (connectionID : string) (clientState : option AnyValue)
      (version : connectiontypes.Version) (counterpartyConnectionID proofTry proofClient proofConsensus : string)
      (proofHeight consensusHeight : Height)
  | Msg_ConnectionOpenConfirm (connectionID proofAck : string) (proofHeight : Height)
  | Msg_ChannelOpenInit (portID : string) (channel : Channel)
  | Msg_ChannelOpenTry (portID previousChannelID : string) (channel : Channel)
      (counterpartyVersion proofInit : string) (proofHeight : Height)
  | Msg_ChannelOpenAck (portID channelID counterpartyChannelID counterpartyVersion proofTry : string)
      (proofHeight : Height)
  | Msg_ChannelOpenConfirm (portID channelID proofAck : string) (proofHeight : Height)
  | Msg_ChannelCloseInit (portID channelID : string)
  | Msg_ChannelCloseConfirm (portID channelID proofInit : string) (proofHeight : Height)
  | Msg_RecvPacket (msg : MsgRecvPacket)
  | Msg_Timeout (msg : MsgTimeout)
  | Msg_TimeoutOnClose (msg : MsgTimeoutOnClose)
  | Msg_Acknowledgement (msg : MsgAcknowledgement).

(** Dispatch to the handler of a message. *)
Definition deliver (rtr : Router) (ctx : Context) (m : message) : M unit :=
  match m with
  | Msg_CreateClient cs cns => msg_CreateClient ctx cs cns
  | Msg_UpdateClient id h => msg_UpdateClient ctx id h
  | Msg_UpgradeClient id cs cns p1 p2 => msg_UpgradeClient ctx id cs cns p1 p2
  | Msg_SubmitMisbehaviour id m => msg_SubmitMisbehaviour ctx id m
  | Msg_ConnectionOpenInit id cp v d => msg_ConnectionOpenInit id cp v d
  | Msg_ConnectionOpenTry prev cp d id cs vs p1 p2 p3 h ch =>
      msg_ConnectionOpenTry ctx prev cp d id cs vs p1 p2 p3 h ch
  | Msg_ConnectionOpenAck id cs v cp p1 p2 p3 h ch => msg_ConnectionOpenAck ctx id cs v cp p1 p2 p3 h ch
  | Msg_ConnectionOpenConfirm id p h => msg_ConnectionOpenConfirm ctx id p h
  | Msg_ChannelOpenInit p ch => msg_ChannelOpenInit rtr ctx p ch
  | Msg_ChannelOpenTry p prev ch v prf h => msg_ChannelOpenTry rtr ctx p prev ch v prf h
  | Msg_ChannelOpenAck p c cp v prf h => msg_ChannelOpenAck rtr ctx p c cp v prf h
  | Msg_ChannelOpenConfirm p c prf h => msg_ChannelOpenConfirm rtr ctx p c prf h
  | Msg_ChannelCloseInit p c => msg_ChannelCloseInit rtr ctx p c
  | Msg_ChannelCloseConfirm p c prf h => msg_ChannelCloseConfirm rtr ctx p c prf h
  | Msg_RecvPacket m => msg_RecvPacket rtr ctx m
  | Msg_Timeout m => msg_Timeout rtr ctx m
  | Msg_TimeoutOnClose m => msg_TimeoutOnClose rtr ctx m
  | Msg_Acknowledgement m => msg_Acknowledgement rtr ctx m
  end.
End service.
