(* ===== verification/Messages.v ===== *)
(** * Messages and their stateless checks

    The messages of [core/02-client], [core/03-connection] and [core/04-channel]
    ([types/msgs.go], records of [types/tx.pb.go]): constructors, [ValidateBasic] and
    [GetSigners].  cosmos-sdk runs [ValidateBasic] on every message of a transaction
    before the message server sees it ([process]). *)
From S2P Require Import Prelude GoMonad Errors Height Host Sdk ConnectionTypes ChannelTypes.
From S2P Require Import Exported ClientKeeper ClientTypes PortKeeper ConnectionKeeper.
From S2P Require Import ChannelKeeper.
From S2P Require Import ChannelHandshake Router MsgServer.

Section shared.
Context {BE : Bech32}.

(** [_, err := sdk.AccAddressFromBech32(msg.Signer)] and the error of the messages. *)
Definition check_signer (signer : string) : outcome unit :=
  match AccAddressFromBech32 signer with
  | Ok _ => Ok tt
  | Err _ => Err (Wrap sdkerrors.ErrInvalidAddress)
  | Panic => Panic
  end.

(** The body of every [GetSigners]. *)
Definition signers (signer : string) : outcome (list string) :=
  match AccAddressFromBech32 signer with
  | Ok accAddr => Ok [accAddr]
  | _ => Panic
  end.
End shared.

(** [len(proof) == 0] *)
Definition empty_bytes (bz : string) : bool := bool_decide (String.length bz = 0).
Definition require_proof (proof : string) : outcome unit :=
  fail_if (empty_bytes proof) (Wrap CommitmentErr.ErrInvalidProof).
Definition require_height (h : Height) : outcome unit :=
  fail_if (Height_IsZero h) (Wrap sdkerrors.ErrInvalidHeight).

(** ** Clients ([02-client/types/msgs.go]) *)
Section clients.
Context {LC : LightClient} {BE : Bech32}.

Record MsgCreateClient := mkMsgCreateClient {
  create_ClientState : option AnyValue;
  create_ConsensusState : option AnyValue;
  create_Signer : string }.
Definition NewMsgCreateClient (clientState : option ClientState) (consensusState : option ConsensusState)
    (signer : string) : outcome MsgCreateClient :=
  let? anyClientState := PackClientState clientState in
  let? anyConsensusState := PackConsensusState consensusState in
  Ok (mkMsgCreateClient (Some anyClientState) (Some anyConsensusState) signer).
Definition MsgCreateClient_ValidateBasic (msg : MsgCreateClient) : outcome unit :=
  check_signer (create_Signer msg) ;;?
  let? clientState := UnpackClientState (create_ClientState msg) in
  ClientState_Validate clientState ;;?
  fail_if (bool_decide (ClientType clientState = Localhost)) (Wrap ClientErr.ErrInvalidClient) ;;?
  let? consensusState := UnpackConsensusState (create_ConsensusState msg) in
  fail_if (bool_decide (ClientType clientState ≠ ConsensusState_ClientType consensusState))
    (Wrap ClientErr.ErrInvalidClientType) ;;?
  outcome_wrap (ValidateClientType (ClientType clientState)) ;;?
  ConsensusState_ValidateBasic consensusState.
Definition MsgCreateClient_GetSigners (msg : MsgCreateClient) : outcome (list string) := signers (create_Signer msg).

Record MsgUpdateClient := mkMsgUpdateClient {
  update_ClientId : string;
  update_Header : option AnyValue;
  update_Signer : string }.
Definition NewMsgUpdateClient (id : string) (header : option Header) (signer : string) : outcome MsgUpdateClient :=
  let? anyHeader := PackHeader header in
  Ok (mkMsgUpdateClient id (Some anyHeader) signer).
Definition MsgUpdateClient_ValidateBasic (msg : MsgUpdateClient) : outcome unit :=
  check_signer (update_Signer msg) ;;?
  let? header := UnpackHeader (update_Header msg) in
  Header_ValidateBasic header ;;?
  fail_if (bool_decide (update_ClientId msg = Localhost)) (Wrap ClientErr.ErrInvalidClient) ;;?
  ClientIdentifierValidator (update_ClientId msg).
Definition MsgUpdateClient_GetSigners (msg : MsgUpdateClient) : outcome (list string) := signers (update_Signer msg).

Record MsgUpgradeClient := mkMsgUpgradeClient {
  upgrade_ClientId : string;
  upgrade_ClientState : option AnyValue;
  upgrade_ConsensusState : option AnyValue;
  ProofUpgradeClient : string;
  ProofUpgradeConsensusState : string;
  upgrade_Signer : string }.
Definition NewMsgUpgradeClient (clientID : string) (clientState : option ClientState)
    (consState : option ConsensusState) (proofUpgradeClient proofUpgradeConsState signer : string) :
    outcome MsgUpgradeClient :=
  let? anyClient := PackClientState clientState in
  let? anyConsState := PackConsensusState consState in
  Ok (mkMsgUpgradeClient clientID (Some anyClient) (Some anyConsState) proofUpgradeClient proofUpgradeConsState signer).
Definition MsgUpgradeClient_ValidateBasic (msg : MsgUpgradeClient) : outcome unit :=
  let? clientState := UnpackClientState (upgrade_ClientState msg) in
  let? consensusState := UnpackConsensusState (upgrade_ConsensusState msg) in
  fail_if (bool_decide (ClientType clientState ≠ ConsensusState_ClientType consensusState))
    (Wrap ClientErr.ErrInvalidUpgradeClient) ;;?
  fail_if (empty_bytes (ProofUpgradeClient msg)) (Wrap ClientErr.ErrInvalidUpgradeClient) ;;?
  fail_if (empty_bytes (ProofUpgradeConsensusState msg)) (Wrap ClientErr.ErrInvalidUpgradeClient) ;;?
  check_signer (upgrade_Signer msg) ;;?
  ClientIdentifierValidator (upgrade_ClientId msg).
Definition MsgUpgradeClient_GetSigners (msg : MsgUpgradeClient) : outcome (list string) := signers (upgrade_Signer msg).

Record MsgSubmitMisbehaviour := mkMsgSubmitMisbehaviour {
  submit_ClientId : string;
  submit_Misbehaviour : option AnyValue;
  submit_Signer : string }.
Definition NewMsgSubmitMisbehaviour (clientID : string) (misbehaviour : option Misbehaviour) (signer : string) :
    outcome MsgSubmitMisbehaviour :=
  let? anyMisbehaviour := PackMisbehaviour misbehaviour in
  Ok (mkMsgSubmitMisbehaviour clientID (Some anyMisbehaviour) signer).
Definition MsgSubmitMisbehaviour_ValidateBasic (msg : MsgSubmitMisbehaviour) : outcome unit :=
  check_signer (submit_Signer msg) ;;?
  let? misbehaviour := UnpackMisbehaviour (submit_Misbehaviour msg) in
  Misbehaviour_ValidateBasic misbehaviour ;;?
  fail_if (bool_decide (Misbehaviour_GetClientID misbehaviour ≠ submit_ClientId msg))
    (Wrap ClientErr.ErrInvalidMisbehaviour) ;;?
  ClientIdentifierValidator (submit_ClientId msg).
Definition MsgSubmitMisbehaviour_GetSigners (msg : MsgSubmitMisbehaviour) : outcome (list string) :=
  signers (submit_Signer msg).
End clients.

(** ** Connections ([03-connection/types/msgs.go]) *)
Section connections.
Context {LC : LightClient} {BE : Bech32}.
Import connectiontypes.

Record MsgConnectionOpenInit := mkMsgConnectionOpenInit {
  cinit_ClientId : string;
  cinit_Counterparty : Counterparty;
  cinit_Version : option Version;
  cinit_DelayPeriod : N;
  cinit_Signer : string }.
Definition NewMsgConnectionOpenInit (clientID counterpartyClientID : string) (counterpartyPrefix : MerklePrefix)
    (version : option Version) (delayPeriod : N) (signer : string) : MsgConnectionOpenInit :=
  mkMsgConnectionOpenInit clientID (NewCounterparty counterpartyClientID "" counterpartyPrefix)
    version delayPeriod signer.
Definition MsgConnectionOpenInit_ValidateBasic (msg : MsgConnectionOpenInit) : outcome unit :=
  outcome_wrap (ClientIdentifierValidator (cinit_ClientId msg)) ;;?
  fail_if (bool_decide (Counterparty_ConnectionId (cinit_Counterparty msg) ≠ ""))
    (Wrap ConnErr.ErrInvalidCounterparty) ;;?
  (if is_nil (cinit_Version msg) then Ok tt else outcome_wrap (ValidateVersion (cinit_Version msg))) ;;?
  check_signer (cinit_Signer msg) ;;?
  Counterparty_ValidateBasic (cinit_Counterparty msg).
Definition MsgConnectionOpenInit_GetSigners (msg : MsgConnectionOpenInit) : outcome (list string) :=
  signers (cinit_Signer msg).

Record MsgConnectionOpenTry := mkMsgConnectionOpenTry {
  ctry_ClientId : string;
  PreviousConnectionId : string;
  ctry_ClientState : option AnyValue;
  ctry_Counterparty : Counterparty;
  ctry_DelayPeriod : N;
  CounterpartyVersions : list (option Version);
  ctry_ProofHeight : Height;
  ctry_ProofInit : string;
  ctry_ProofClient : string;
  ctry_ProofConsensus : string;
  ctry_ConsensusHeight : Height;
  ctry_Signer : string }.
(** The error of [PackClientState] is ignored and leaves a [nil] [Any]. *)
Definition pack_or_nil (clientState : option ClientState) : option AnyValue := Any_ClientState <$> clientState.
Definition NewMsgConnectionOpenTry (previousConnectionID clientID counterpartyConnectionID counterpartyClientID : string)
    (counterpartyClient : option ClientState) (counterpartyPrefix : MerklePrefix)
    (counterpartyVersions : list (option Version)) (delayPeriod : N)
    (proofInit proofClient proofConsensus : string) (proofHeight consensusHeight : Height) (signer : string) :
    MsgConnectionOpenTry :=
  mkMsgConnectionOpenTry clientID previousConnectionID (pack_or_nil counterpartyClient)
    (NewCounterparty counterpartyClientID counterpartyConnectionID counterpartyPrefix) delayPeriod
    counterpartyVersions proofHeight proofInit proofClient proofConsensus consensusHeight signer.

(** The loop over [msg.CounterpartyVersions]. *)
Fixpoint validate_counterparty_versions (versions : list (option Version)) : outcome unit :=
  match versions with
  | [] => Ok tt
  | version :: rest => outcome_wrap (ValidateVersion version) ;;? validate_counterparty_versions rest
  end.
(** The client state of the messages that carry the counterparty's client. *)
Definition check_client_state (any : option AnyValue) : outcome unit :=
  fail_if (is_nil any) (Wrap ClientErr.ErrInvalidClient) ;;?
  match UnpackClientState any with
  | Ok clientState => outcome_wrap (ClientState_Validate clientState)
  | Err _ => Err (Wrap ClientErr.ErrInvalidClient)
  | Panic => Panic
  end.
Definition MsgConnectionOpenTry_ValidateBasic (msg : MsgConnectionOpenTry) : outcome unit :=
  fail_if (negb (bool_decide (PreviousConnectionId msg = "")) && negb (IsValidConnectionID (PreviousConnectionId msg)))
    (Wrap ConnErr.ErrInvalidConnectionIdentifier) ;;?
  outcome_wrap (ClientIdentifierValidator (ctry_ClientId msg)) ;;?
  outcome_wrap (ConnectionIdentifierValidator (Counterparty_ConnectionId (ctry_Counterparty msg))) ;;?
  check_client_state (ctry_ClientState msg) ;;?
  fail_if (bool_decide (length (CounterpartyVersions msg) = 0)) (Wrap sdkerrors.ErrInvalidVersion) ;;?
  validate_counterparty_versions (CounterpartyVersions msg) ;;?
  require_proof (ctry_ProofInit msg) ;;?
  require_proof (ctry_ProofClient msg) ;;?
  require_proof (ctry_ProofConsensus msg) ;;?
  require_height (ctry_ProofHeight msg) ;;?
  require_height (ctry_ConsensusHeight msg) ;;?
  check_signer (ctry_Signer msg) ;;?
  Counterparty_ValidateBasic (ctry_Counterparty msg).
Definition MsgConnectionOpenTry_GetSigners (msg : MsgConnectionOpenTry) : outcome (list string) :=
  signers (ctry_Signer msg).

Record MsgConnectionOpenAck := mkMsgConnectionOpenAck {
  cack_ConnectionId : string;
  cack_CounterpartyConnectionId : string;
  cack_Version : option Version;
  cack_ClientState : option AnyValue;
  cack_ProofHeight : Height;
  cack_ProofTry : string;
  cack_ProofClient : string;
  cack_ProofConsensus : string;
  cack_ConsensusHeight : Height;
  cack_Signer : string }.
Definition NewMsgConnectionOpenAck (connectionID counterpartyConnectionID : string)
    (counterpartyClient : option ClientState) (proofTry proofClient proofConsensus : string)
    (proofHeight consensusHeight : Height) (version : option Version) (signer : string) : MsgConnectionOpenAck :=
  mkMsgConnectionOpenAck connectionID counterpartyConnectionID version (pack_or_nil counterpartyClient) proofHeight
    proofTry proofClient proofConsensus consensusHeight signer.
Definition MsgConnectionOpenAck_ValidateBasic (msg : MsgConnectionOpenAck) : outcome unit :=
  fail_if (negb (IsValidConnectionID (cack_ConnectionId msg))) ConnErr.ErrInvalidConnectionIdentifier ;;?
  outcome_wrap (ConnectionIdentifierValidator (cack_CounterpartyConnectionId msg)) ;;?
  ValidateVersion (cack_Version msg) ;;?
  check_client_state (cack_ClientState msg) ;;?
  require_proof (cack_ProofTry msg) ;;?
  require_proof (cack_ProofClient msg) ;;?
  require_proof (cack_ProofConsensus msg) ;;?
  require_height (cack_ProofHeight msg) ;;?
  require_height (cack_ConsensusHeight msg) ;;?
  check_signer (cack_Signer msg).
Definition MsgConnectionOpenAck_GetSigners (msg : MsgConnectionOpenAck) : outcome (list string) :=
  signers (cack_Signer msg).

Record MsgConnectionOpenConfirm := NewMsgConnectionOpenConfirm {
  cconf_ConnectionId : string;
  cconf_ProofAck : string;
  cconf_ProofHeight : Height;
  cconf_Signer : string }.
Definition MsgConnectionOpenConfirm_ValidateBasic (msg : MsgConnectionOpenConfirm) : outcome unit :=
  fail_if (negb (IsValidConnectionID (cconf_ConnectionId msg))) ConnErr.ErrInvalidConnectionIdentifier ;;?
  require_proof (cconf_ProofAck msg) ;;?
  require_height (cconf_ProofHeight msg) ;;?
  check_signer (cconf_Signer msg).
Definition MsgConnectionOpenConfirm_GetSigners (msg : MsgConnectionOpenConfirm) : outcome (list string) :=
  signers (cconf_Signer msg).
End connections.

(** ** Channels and packets ([04-channel/types/msgs.go]) *)
Section channels.
Context {BE : Bech32}.

Record MsgChannelOpenInit := mkMsgChannelOpenInit {
  init_PortId : string;
  init_Channel : Channel;
  init_Signer : string }.
Definition NewMsgChannelOpenInit (portID version : string) (channelOrder : Order) (connectionHops : list string)
    (counterpartyPortID signer : string) : MsgChannelOpenInit :=
  mkMsgChannelOpenInit portID
    (NewChannel INIT channelOrder (NewCounterparty counterpartyPortID "") connectionHops version) signer.
Definition MsgChannelOpenInit_ValidateBasic (msg : MsgChannelOpenInit) : outcome unit :=
  outcome_wrap (PortIdentifierValidator (init_PortId msg)) ;;?
  fail_if (bool_decide (Channel_State (init_Channel msg) ≠ INIT)) (Wrap ChanErr.ErrInvalidChannelState) ;;?
  fail_if (bool_decide (Counterparty_ChannelId (Channel_Counterparty (init_Channel msg)) ≠ ""))
    (Wrap ChanErr.ErrInvalidCounterparty) ;;?
  check_signer (init_Signer msg) ;;?
  Channel_ValidateBasic (init_Channel msg).
Definition MsgChannelOpenInit_GetSigners (msg : MsgChannelOpenInit) : outcome (list string) := signers (init_Signer msg).

Record MsgChannelOpenTry := mkMsgChannelOpenTry {
  try_PortId : string;
  try_PreviousChannelId : string;
  try_Channel : Channel;
  try_CounterpartyVersion : string;
  try_ProofInit : string;
  try_ProofHeight : Height;
  try_Signer : string }.
Definition NewMsgChannelOpenTry (portID previousChannelID version : string) (channelOrder : Order)
    (connectionHops : list string) (counterpartyPortID counterpartyChannelID counterpartyVersion proofInit : string)
    (proofHeight : Height) (signer : string) : MsgChannelOpenTry :=
  mkMsgChannelOpenTry portID previousChannelID
    (NewChannel TRYOPEN channelOrder (NewCounterparty counterpartyPortID counterpartyChannelID) connectionHops version)
    counterpartyVersion proofInit proofHeight signer.
Definition MsgChannelOpenTry_ValidateBasic (msg : MsgChannelOpenTry) : outcome unit :=
  outcome_wrap (PortIdentifierValidator (try_PortId msg)) ;;?
  fail_if (negb (bool_decide (try_PreviousChannelId msg = "")) && negb (IsValidChannelID (try_PreviousChannelId msg)))
    (Wrap ChanErr.ErrInvalidChannelIdentifier) ;;?
  require_proof (try_ProofInit msg) ;;?
  require_height (try_ProofHeight msg) ;;?
  fail_if (bool_decide (Channel_State (try_Channel msg) ≠ TRYOPEN)) (Wrap ChanErr.ErrInvalidChannelState) ;;?
  outcome_wrap (ChannelIdentifierValidator (Counterparty_ChannelId (Channel_Counterparty (try_Channel msg)))) ;;?
  check_signer (try_Signer msg) ;;?
  Channel_ValidateBasic (try_Channel msg).
Definition MsgChannelOpenTry_GetSigners (msg : MsgChannelOpenTry) : outcome (list string) := signers (try_Signer msg).

Record MsgChannelOpenAck := mkMsgChannelOpenAck {
  oack_PortId : string;
  oack_ChannelId : string;
  oack_CounterpartyChannelId : string;
  oack_CounterpartyVersion : string;
  oack_ProofTry : string;
  oack_ProofHeight : Height;
  oack_Signer : string }.
Definition NewMsgChannelOpenAck (portID channelID counterpartyChannelID cpv proofTry : string) (proofHeight : Height)
    (signer : string) : MsgChannelOpenAck :=
  mkMsgChannelOpenAck portID channelID counterpartyChannelID cpv proofTry proofHeight signer.
(** The first checks of the messages about an existing channel. *)
Definition check_channel_ids (portID channelID : string) : outcome unit :=
  outcome_wrap (PortIdentifierValidator portID) ;;?
  fail_if (negb (IsValidChannelID channelID)) ChanErr.ErrInvalidChannelIdentifier.
Definition MsgChannelOpenAck_ValidateBasic (msg : MsgChannelOpenAck) : outcome unit :=
  check_channel_ids (oack_PortId msg) (oack_ChannelId msg) ;;?
  outcome_wrap (ChannelIdentifierValidator (oack_CounterpartyChannelId msg)) ;;?
  require_proof (oack_ProofTry msg) ;;?
  require_height (oack_ProofHeight msg) ;;?
  check_signer (oack_Signer msg).
Definition MsgChannelOpenAck_GetSigners (msg : MsgChannelOpenAck) : outcome (list string) := signers (oack_Signer msg).

Record MsgChannelOpenConfirm := NewMsgChannelOpenConfirm {
  oconf_PortId : string;
  oconf_ChannelId : string;
  oconf_ProofAck : string;
  oconf_ProofHeight : Height;
  oconf_Signer : string }.
Definition MsgChannelOpenConfirm_ValidateBasic (msg : MsgChannelOpenConfirm) : outcome unit :=
  check_channel_ids (oconf_PortId msg) (oconf_ChannelId msg) ;;?
  require_proof (oconf_ProofAck msg) ;;?
  require_height (oconf_ProofHeight msg) ;;?
  check_signer (oconf_Signer msg).
Definition MsgChannelOpenConfirm_GetSigners (msg : MsgChannelOpenConfirm) : outcome (list string) :=
  signers (oconf_Signer msg).

Record MsgChannelCloseInit := NewMsgChannelCloseInit {
  clinit_PortId : string;
  clinit_ChannelId : string;
  clinit_Signer : string }.
Definition MsgChannelCloseInit_ValidateBasic (msg : MsgChannelCloseInit) : outcome unit :=
  check_channel_ids (clinit_PortId msg) (clinit_ChannelId msg) ;;?
  check_signer (clinit_Signer msg).
Definition MsgChannelCloseInit_GetSigners (msg : MsgChannelCloseInit) : outcome (list string) :=
  signers (clinit_Signer msg).

Record MsgChannelCloseConfirm := NewMsgChannelCloseConfirm {
  clconf_PortId : string;
  clconf_ChannelId : string;
  clconf_ProofInit : string;
  clconf_ProofHeight : Height;
  clconf_Signer : string }.
Definition MsgChannelCloseConfirm_ValidateBasic (msg : MsgChannelCloseConfirm) : outcome unit :=
  check_channel_ids (clconf_PortId msg) (clconf_ChannelId msg) ;;?
  require_proof (clconf_ProofInit msg) ;;?
  require_height (clconf_ProofHeight msg) ;;?
  check_signer (clconf_Signer msg).
Definition MsgChannelCloseConfirm_GetSigners (msg : MsgChannelCloseConfirm) : outcome (list string) :=
  signers (clconf_Signer msg).

Definition MsgRecvPacket_ValidateBasic (msg : MsgRecvPacket) : outcome unit :=
  require_proof (recv_ProofCommitment msg) ;;?
  require_height (recv_ProofHeight msg) ;;?
  check_signer (recv_Signer msg) ;;?
  Packet_ValidateBasic (recv_Packet msg).
Definition MsgRecvPacket_GetSigners (msg : MsgRecvPacket) : outcome (list string) := signers (recv_Signer msg).

Definition NewMsgTimeout (packet : Packet) (nextSequenceRecv : N) (proofUnreceived : string) (proofHeight : Height)
    (signer : string) : MsgTimeout :=
  mkMsgTimeout packet proofUnreceived proofHeight nextSequenceRecv signer.
Definition MsgTimeout_ValidateBasic (msg : MsgTimeout) : outcome unit :=
  require_proof (to_ProofUnreceived msg) ;;?
  require_height (to_ProofHeight msg) ;;?
  fail_if (to_NextSequenceRecv msg =? 0)%N (Wrap sdkerrors.ErrInvalidSequence) ;;?
  check_signer (to_Signer msg) ;;?
  Packet_ValidateBasic (to_Packet msg).
Definition MsgTimeout_GetSigners (msg : MsgTimeout) : outcome (list string) := signers (to_Signer msg).

Definition NewMsgTimeoutOnClose (packet : Packet) (nextSequenceRecv : N) (proofUnreceived proofClose : string)
    (proofHeight : Height) (signer : string) : MsgTimeoutOnClose :=
  mkMsgTimeoutOnClose packet proofUnreceived proofClose proofHeight nextSequenceRecv signer.
Definition MsgTimeoutOnClose_ValidateBasic (msg : MsgTimeoutOnClose) : outcome unit :=
  fail_if (toc_NextSequenceRecv msg =? 0)%N (Wrap sdkerrors.ErrInvalidSequence) ;;?
  require_proof (toc_ProofUnreceived msg) ;;?
  require_proof (toc_ProofClose msg) ;;?
  require_height (toc_ProofHeight msg) ;;?
  check_signer (toc_Signer msg) ;;?
  Packet_ValidateBasic (toc_Packet msg).
Definition MsgTimeoutOnClose_GetSigners (msg : MsgTimeoutOnClose) : outcome (list string) := signers (toc_Signer msg).

Definition NewMsgAcknowledgement (packet : Packet) (ack proofAcked : string) (proofHeight : Height) (signer : string) :
    MsgAcknowledgement :=
  mkMsgAcknowledgement packet ack proofAcked proofHeight signer.
Definition MsgAcknowledgement_ValidateBasic (msg : MsgAcknowledgement) : outcome unit :=
  require_proof (ack_ProofAcked msg) ;;?
  require_height (ack_ProofHeight msg) ;;?
  fail_if (empty_bytes (ack_Bytes msg)) (Wrap ChanErr.ErrInvalidAcknowledgement) ;;?
  check_signer (ack_Signer msg) ;;?
  Packet_ValidateBasic (ack_Packet msg).
Definition MsgAcknowledgement_GetSigners (msg : MsgAcknowledgement) : outcome (list string) := signers (ack_Signer msg).
End channels.

(** ** All messages *)
Section all.
Context {SE : SdkEncoding} {LC : LightClient} {CD : Codec} {CK : CapabilityKeeper} {AP : Application}
  {SC : SelfClient} {BE : Bech32}.

(** [sdk.Msg], the messages of the module. *)
Inductive sdk_Msg :=
  | CreateClient_msg (msg : MsgCreateClient)
  | UpdateClient_msg (msg : MsgUpdateClient)
  | UpgradeClient_msg (msg : MsgUpgradeClient)
  | SubmitMisbehaviour_msg (msg : MsgSubmitMisbehaviour)
  | ConnectionOpenInit_msg (msg : MsgConnectionOpenInit)
  | ConnectionOpenTry_msg (msg : MsgConnectionOpenTry)
  | ConnectionOpenAck_msg (msg : MsgConnectionOpenAck)
  | ConnectionOpenConfirm_msg (msg : MsgConnectionOpenConfirm)
  | ChannelOpenInit_msg (msg : MsgChannelOpenInit)
  | ChannelOpenTry_msg (msg : MsgChannelOpenTry)
  | ChannelOpenAck_msg (msg : MsgChannelOpenAck)
  | ChannelOpenConfirm_msg (msg : MsgChannelOpenConfirm)
  | ChannelCloseInit_msg (msg : MsgChannelCloseInit)
  | ChannelCloseConfirm_msg (msg : MsgChannelCloseConfirm)
  | RecvPacket_msg (msg : MsgRecvPacket)
  | Timeout_msg (msg : MsgTimeout)
  | TimeoutOnClose_msg (msg : MsgTimeoutOnClose)
  | Acknowledgement_msg (msg : MsgAcknowledgement).

Definition ValidateBasic (m : sdk_Msg) : outcome unit :=
  match m with
  | CreateClient_msg msg => MsgCreateClient_ValidateBasic msg
  | UpdateClient_msg msg => MsgUpdateClient_ValidateBasic msg
  | UpgradeClient_msg msg => MsgUpgradeClient_ValidateBasic msg
  | SubmitMisbehaviour_msg msg => MsgSubmitMisbehaviour_ValidateBasic msg
  | ConnectionOpenInit_msg msg => MsgConnectionOpenInit_ValidateBasic msg
  | ConnectionOpenTry_msg msg => MsgConnectionOpenTry_ValidateBasic msg
  | ConnectionOpenAck_msg msg => MsgConnectionOpenAck_ValidateBasic msg
  | ConnectionOpenConfirm_msg msg => MsgConnectionOpenConfirm_ValidateBasic msg
  | ChannelOpenInit_msg msg => MsgChannelOpenInit_ValidateBasic msg
  | ChannelOpenTry_msg msg => MsgChannelOpenTry_ValidateBasic msg
  | ChannelOpenAck_msg msg => MsgChannelOpenAck_ValidateBasic msg
  | ChannelOpenConfirm_msg msg => MsgChannelOpenConfirm_ValidateBasic msg
  | ChannelCloseInit_msg msg => MsgChannelCloseInit_ValidateBasic msg
  | ChannelCloseConfirm_msg msg => MsgChannelCloseConfirm_ValidateBasic msg
  | RecvPacket_msg msg => MsgRecvPacket_ValidateBasic msg
  | Timeout_msg msg => MsgTimeout_ValidateBasic msg
  | TimeoutOnClose_msg msg => MsgTimeoutOnClose_ValidateBasic msg
  | Acknowledgement_msg msg => MsgAcknowledgement_ValidateBasic msg
  end.

Definition GetSigners (m : sdk_Msg) : outcome (list string) :=
  match m with
  | CreateClient_msg msg => MsgCreateClient_GetSigners msg
  | UpdateClient_msg msg => MsgUpdateClient_GetSigners msg
  | UpgradeClient_msg msg => MsgUpgradeClient_GetSigners msg
  | SubmitMisbehaviour_msg msg => MsgSubmitMisbehaviour_GetSigners msg
  | ConnectionOpenInit_msg msg => MsgConnectionOpenInit_GetSigners msg
  | ConnectionOpenTry_msg msg => MsgConnectionOpenTry_GetSigners msg
  | ConnectionOpenAck_msg msg => MsgConnectionOpenAck_GetSigners msg
  | ConnectionOpenConfirm_msg msg => MsgConnectionOpenConfirm_GetSigners msg
  | ChannelOpenInit_msg msg => MsgChannelOpenInit_GetSigners msg
  | ChannelOpenTry_msg msg => MsgChannelOpenTry_GetSigners msg
  | ChannelOpenAck_msg msg => MsgChannelOpenAck_GetSigners msg
  | ChannelOpenConfirm_msg msg => MsgChannelOpenConfirm_GetSigners msg
  | ChannelCloseInit_msg msg => MsgChannelCloseInit_GetSigners msg
  | ChannelCloseConfirm_msg msg => MsgChannelCloseConfirm_GetSigners msg
  | RecvPacket_msg msg => MsgRecvPacket_GetSigners msg
  | Timeout_msg msg => MsgTimeout_GetSigners msg
  | TimeoutOnClose_msg msg => MsgTimeoutOnClose_GetSigners msg
  | Acknowledgement_msg msg => MsgAcknowledgement_GetSigners msg
  end.

(** The fields a message hands to its handler; [None] when the handler would dereference
    a [nil] version. *)
Definition handled (m : sdk_Msg) : option message :=
  match m with
  | CreateClient_msg msg => Some (Msg_CreateClient (create_ClientState msg) (create_ConsensusState msg))
  | UpdateClient_msg msg => Some (Msg_UpdateClient (update_ClientId msg) (update_Header msg))
  | UpgradeClient_msg msg =>
      Some (Msg_UpgradeClient (upgrade_ClientId msg) (upgrade_ClientState msg) (upgrade_ConsensusState msg)
        (ProofUpgradeClient msg) (ProofUpgradeConsensusState msg))
  | SubmitMisbehaviour_msg msg => Some (Msg_SubmitMisbehaviour (submit_ClientId msg) (submit_Misbehaviour msg))
  | ConnectionOpenInit_msg msg =>
      Some (Msg_ConnectionOpenInit (cinit_ClientId msg) (cinit_Counterparty msg) (cinit_Version msg) (cinit_DelayPeriod msg))
  | ConnectionOpenTry_msg msg =>
      (λ versions,
        Msg_ConnectionOpenTry (PreviousConnectionId msg) (ctry_Counterparty msg) (ctry_DelayPeriod msg)
          (ctry_ClientId msg) (ctry_ClientState msg) versions (ctry_ProofInit msg) (ctry_ProofClient msg)
          (ctry_ProofConsensus msg) (ctry_ProofHeight msg) (ctry_ConsensusHeight msg)) <$>
      mapM id (CounterpartyVersions msg)
  | ConnectionOpenAck_msg msg =>
      (λ version,
        Msg_ConnectionOpenAck (cack_ConnectionId msg) (cack_ClientState msg) version (cack_CounterpartyConnectionId msg)
          (cack_ProofTry msg) (cack_ProofClient msg) (cack_ProofConsensus msg) (cack_ProofHeight msg)
          (cack_ConsensusHeight msg)) <$> cack_Version msg
  | ConnectionOpenConfirm_msg msg =>
      Some (Msg_ConnectionOpenConfirm (cconf_ConnectionId msg) (cconf_ProofAck msg) (cconf_ProofHeight msg))
  | ChannelOpenInit_msg msg => Some (Msg_ChannelOpenInit (init_PortId msg) (init_Channel msg))
  | ChannelOpenTry_msg msg =>
      Some (Msg_ChannelOpenTry (try_PortId msg) (try_PreviousChannelId msg) (try_Channel msg)
        (try_CounterpartyVersion msg) (try_ProofInit msg) (try_ProofHeight msg))
  | ChannelOpenAck_msg msg =>
      Some (Msg_ChannelOpenAck (oack_PortId msg) (oack_ChannelId msg) (oack_CounterpartyChannelId msg)
        (oack_CounterpartyVersion msg) (oack_ProofTry msg) (oack_ProofHeight msg))
  | ChannelOpenConfirm_msg msg =>
      Some (Msg_ChannelOpenConfirm (oconf_PortId msg) (oconf_ChannelId msg) (oconf_ProofAck msg) (oconf_ProofHeight msg))
  | ChannelCloseInit_msg msg => Some (Msg_ChannelCloseInit (clinit_PortId msg) (clinit_ChannelId msg))
  | ChannelCloseConfirm_msg msg =>
      Some (Msg_ChannelCloseConfirm (clconf_PortId msg) (clconf_ChannelId msg) (clconf_ProofInit msg)
        (clconf_ProofHeight msg))
  | RecvPacket_msg msg => Some (Msg_RecvPacket msg)
  | Timeout_msg msg => Some (Msg_Timeout msg)
  | TimeoutOnClose_msg msg => Some (Msg_TimeoutOnClose msg)
  | Acknowledgement_msg msg => Some (Msg_Acknowledgement msg)
  end.

(** A message of a transaction: the stateless checks, then its handler. *)
Definition process (rtr : Router) (ctx : Context) (m : sdk_Msg) : M unit :=
  lift (ValidateBasic m) ;;;
  match handled m with
  | Some x => deliver rtr ctx x
  | None => panic
  end.
End all.
