(* ===== verification/MsgServerProperties.v ===== *)
(** * The message server composes the keepers correctly

    Every message that is handled successfully is a run of the channel machine of
    [ChannelSystem.v], so the safety theorems of [ChannelSafety.v] hold of every
    sequence of IBC messages; redundant packet messages change no state and run no
    callback; and what a received packet leaves behind depends on the application's
    acknowledgement as documented. *)
From S2P Require Import Prelude GoMonad Errors Sha256 Height Host Sdk ConnectionTypes.
From S2P Require Import ChannelTypes Exported ClientKeeper ConnectionKeeper PortKeeper.
From S2P Require Import ChannelKeeper ChannelHandshake FullNode Scenario ChannelSpec.
From S2P Require Import HandshakeSpec ChannelView ChannelSystem PacketProperties.
From S2P Require Import ConnectionSafety.
From S2P Require Import ChannelSafety Noninterference Router MsgServer.
From Stdlib Require Import Ascii.

(** ** The cached contexts *)
Section cache.
Context {SE : SdkEncoding} {LC : LightClient} {CD : Codec} {CK : CapabilityKeeper} {AP : Application}.

(** The worlds differ in their events only. *)
Definition same_state (w w' : World) : Prop := set_events [] w' = set_events [] w.

Lemma same_state_intro l w : same_state w (set_events l w).
Proof. done. Qed.
Lemma same_state_ibc w w' : same_state w w' → ibc w' = ibc w.
Proof. by intros [=]. Qed.

Lemma same_state_app w w' : same_state w w' → app w' = app w.
Proof. by intros [=]. Qed.

#[global] Instance same_state_equiv : Equivalence same_state.
Proof. split; unfold same_state; congruence. Qed.

Lemma with_cache_Ok {A} (m : M A) commit w w' o :
  with_cache m commit w = (w', Ok o) →
  ∃ w1, m (set_events [] w) = (w1, o) ∧ o ≠ Panic ∧ same_state (if commit o then w1 else w) w'.
Proof.
  unfold with_cache. destruct (m (set_events [] w)) as [w1 [a|e|]] eqn:E; intros [= <- <-]; by exists w1.
Qed.
Lemma with_cache_keeps {A T} (f : World → T) (m : M A) commit :
  (∀ l w, f (set_events l w) = f w) → keeps f m → keeps f (with_cache m commit).
Proof.
  intros Hf Hm w. unfold with_cache. specialize (Hm (set_events [] w)).
  destruct (m (set_events [] w)) as [w1 [a|e|]]; simpl in *; [|rewrite Hf; case_match; congruence..|done].
  rewrite Hf. case_match; congruence.
Qed.

Lemma verify_once_Ok (m : M unit) w w' b :
  verify_once m w = (w', Ok b) →
  ∃ w1, m (set_events [] w) = (w1, if b then Ok tt else Err ChanErr.ErrNoOpMsg) ∧
    same_state (if b then w1 else w) w'.
Proof.
  unfold verify_once. intros (o & w0 & E & H)%bind_Ok.
  apply with_cache_Ok in E as (w1 & E & Hp & Hs). exists w1.
  destruct o as [[]|e|]; [| |done].
  - apply ret_Ok in H as [<- <-]. done.
  - case_bool_decide as He; [|by apply throw_Ok in H]. apply ret_Ok in H as [<- <-]. by subst.
Qed.

(** A verification that cannot succeed changes nothing, whatever its outcome. *)
Lemma verify_once_rejected (m : M unit) w :
  (m (set_events [] w)).2 ≠ Ok tt →
  same_state w (verify_once m w).1 ∧ (verify_once m w).2 ≠ Ok true.
Proof.
  intros Hm. unfold verify_once, bind, with_cache.
  destruct (m (set_events [] w)) as [w1 [[]|e|]]; [done| |done].
  simpl. case_bool_decide; done.
Qed.
End cache.

Section routing.
Context {SE : SdkEncoding} {LC : LightClient} {CD : Codec} {CK : CapabilityKeeper} {AP : Application} {BE : Bech32}.
Variable rtr : Router.

Lemma route_channel_keeps {T} (f : World → T) p c : keeps f (route_channel rtr p c).
Proof. unfold route_channel, LookupModuleByChannel. frame. Qed.
Lemma route_port_keeps {T} (f : World → T) p : keeps f (route_port rtr p).
Proof. unfold route_port, LookupModuleByPort. frame. Qed.

Lemma route_channel_run p c w w' cbs cap :
  route_channel rtr p c w = (w', Ok (cbs, cap)) → w' = w ∧ ∃ m, GetRoute rtr m = Some cbs.
Proof.
  intros H. split; [exact (keeps_run id _ _ _ _ (route_channel_keeps id p c) H)|].
  unfold route_channel in H. go_inv. simplify_eq. eauto.
Qed.
Lemma route_port_run p w w' cbs cap :
  route_port rtr p w = (w', Ok (cbs, cap)) → w' = w ∧ ∃ m, GetRoute rtr m = Some cbs.
Proof.
  intros H. split; [exact (keeps_run id _ _ _ _ (route_port_keeps id p) H)|].
  unfold route_port in H. go_inv. simplify_eq. eauto.
Qed.

(** The frame of the four packet handlers: signer, route, verification, rest. *)
Definition packet_handler (signer : string) (p c : string) (verify : Capability → M unit)
    (rest : string → IBCModule → Capability → M unit) : M unit :=
  let! relayer := wrap_err (lift (AccAddressFromBech32 signer)) in
  let! ' (cbs, cap) := route_channel rtr p c in
  let! b := verify_once (verify cap) in
  if b then rest relayer cbs cap else ret tt.

Lemma packet_handler_rejected signer p c verify rest w :
  (∀ cap, (verify cap (set_events [] w)).2 ≠ Ok tt) →
  same_state w (packet_handler signer p c verify rest w).1.
Proof.
  intros Hv. unfold packet_handler, bind at 1, wrap_err, lift.
  destruct (AccAddressFromBech32 signer) as [relayer|e|]; simpl; [|done..].
  unfold bind at 1. pose proof (route_channel_keeps id p c w) as Hr.
  destruct (route_channel rtr p c w) as [w0 [[cbs cap]|e|]]; simpl in Hr |- *; subst w0; [|done..].
  unfold bind. destruct (verify_once_rejected _ _ (Hv cap)) as [Hs Hb].
  destruct (verify_once (verify cap) w) as [w1 [[]|e|]]; done.
Qed.

Lemma packet_handler_Ok signer p c verify rest w w' u :
  packet_handler signer p c verify rest w = (w', Ok u) →
  ∃ relayer cbs cap w1, AccAddressFromBech32 signer = Ok relayer ∧
    route_channel rtr p c w = (w, Ok (cbs, cap)) ∧
    (verify cap (set_events [] w) = (w1, Err ChanErr.ErrNoOpMsg) ∧ same_state w w' ∨
     ∃ w2, verify cap (set_events [] w) = (w1, Ok tt) ∧ same_state w1 w2 ∧ rest relayer cbs cap w2 = (w', Ok u)).
Proof.
  unfold packet_handler. intros (relayer & w0 & H0 & H)%bind_Ok.
  apply wrap_err_Ok, lift_Ok in H0 as [Hr <-].
  apply bind_Ok in H as ([cbs cap] & w0 & H0 & H). pose proof (route_channel_run _ _ _ _ _ _ H0) as [-> _].
  apply bind_Ok in H as (b & w2 & Hv & H). apply verify_once_Ok in Hv as (w1 & Hv & Hs).
  exists relayer, cbs, cap, w1. do 2 (split; [done|]). destruct b.
  - right. by exists w2.
  - left. apply ret_Ok in H as [_ <-]. done.
Qed.
End routing.

(** ** Messages are runs of the keepers *)
Section refinement.
Context {SE : SdkEncoding} {LC : LightClient} {CD : Codec} {CK : CapabilityKeeper} {AP : Application}
  {SC : SelfClient} {BE : Bech32}.
Variable rtr : Router.

(** Applications that leave the IBC store to the keepers: handshake callbacks do not
    write channel keys, the other callbacks do not write the IBC store. *)
Record polite (cbs : IBCModule) : Prop := {
  polite_init ctx o hops p c cap cp v : keeps_channels (OnChanOpenInit cbs ctx o hops p c cap cp v);
  polite_try ctx o hops p c cap cp v : keeps_channels (OnChanOpenTry cbs ctx o hops p c cap cp v);
  polite_ack ctx p c v : keeps_channels (OnChanOpenAck cbs ctx p c v);
  polite_confirm ctx p c : keeps_channels (OnChanOpenConfirm cbs ctx p c);
  polite_close_init ctx p c : keeps ibc (OnChanCloseInit cbs ctx p c);
  polite_close_confirm ctx p c : keeps ibc (OnChanCloseConfirm cbs ctx p c);
  polite_recv ctx pkt r : keeps ibc (OnRecvPacket cbs ctx pkt r);
  polite_acknowledge ctx pkt a r : keeps ibc (OnAcknowledgementPacket cbs ctx pkt a r);
  polite_timeout ctx pkt r : keeps ibc (OnTimeoutPacket cbs ctx pkt r) }.
Definition polite_router : Prop := ∀ m cbs, GetRoute rtr m = Some cbs → polite cbs.

(** What the handlers of the channel messages rely on: the identifiers under which they
    store, and the ordering of a channel to be opened. *)
Definition msg_ok (m : message) : Prop :=
  match m with
  | Msg_ChannelOpenInit _ ch => ordering_ok (Channel_Ordering ch)
  | Msg_ChannelOpenTry _ prev ch _ _ _ => ordering_ok (Channel_Ordering ch) ∧ no_char "/" prev = true
  | Msg_ChannelOpenAck p c _ _ _ _ | Msg_ChannelOpenConfirm p c _ _ | Msg_ChannelCloseInit p c
  | Msg_ChannelCloseConfirm p c _ _ => ids_ok p c
  | Msg_RecvPacket m => ids_ok (DestinationPort (recv_Packet m)) (DestinationChannel (recv_Packet m))
  | Msg_Timeout m => ids_ok (SourcePort (to_Packet m)) (SourceChannel (to_Packet m))
  | Msg_TimeoutOnClose m => ids_ok (SourcePort (toc_Packet m)) (SourceChannel (toc_Packet m))
  | Msg_Acknowledgement m => ids_ok (SourcePort (ack_Packet m)) (SourceChannel (ack_Packet m))
  | _ => True
  end.

(** *** Ranges and stuttering *)

Lemma in_range_agree w w' :
  (∀ k, counter_key k = true → ibc w' !! k = ibc w !! k) → in_range w' = true → in_range w = true.
Proof.
  intros H Hr%bool_decide_eq_true. apply bool_decide_eq_true. intros k x Hk Hc.
  eapply Hr; [|done]. by rewrite H.
Qed.
Lemma in_range_ibc w w' : ibc w' = ibc w → in_range w' = in_range w.
Proof. unfold in_range. by intros ->. Qed.

Lemma keeps_ibc_channels {A} (m : M A) : keeps ibc m → keeps_channels m.
Proof. intros Hm w k _. by rewrite Hm. Qed.

(** The runs below are of actions in [P], which has the actions of the messages that are
    handled and leaves the other operations to the applications. *)
Section actions.
Variable P : action → Prop.
Hypothesis P_other : ∀ m, keeps_channels m → P (Do_other m).

(** The range of the counters in which the runs take place: [in_range], or more. *)
Variable R : World → bool.
Hypothesis R_range : ∀ w, R w = true → in_range w = true.
Hypothesis R_agree : ∀ w w',
  (∀ k, counter_key k = true → ibc w' !! k = ibc w !! k) → R w' = true → R w = true.

(** An operation that drives the keepers: when it succeeds and ends in range, it started
    in range and is a run of actions in [P]. *)
Definition drives {A} (m : M A) : Prop :=
  ∀ w w' a, m w = (w', Ok a) → R w' = true → R w = true ∧ run_of P w w'.

(** Applications that reach the channel store through the keepers only: the handshake
    callbacks do not write it, the other callbacks drive the keepers. *)
Record lawful (cbs : IBCModule) : Prop := {
  lawful_init ctx o hops p c cap cp v : keeps_channels (OnChanOpenInit cbs ctx o hops p c cap cp v);
  lawful_try ctx o hops p c cap cp v : keeps_channels (OnChanOpenTry cbs ctx o hops p c cap cp v);
  lawful_ack ctx p c v : keeps_channels (OnChanOpenAck cbs ctx p c v);
  lawful_confirm ctx p c : keeps_channels (OnChanOpenConfirm cbs ctx p c);
  lawful_close_init ctx p c : drives (OnChanCloseInit cbs ctx p c);
  lawful_close_confirm ctx p c : drives (OnChanCloseConfirm cbs ctx p c);
  lawful_recv ctx pkt r : drives (OnRecvPacket cbs ctx pkt r);
  lawful_acknowledge ctx pkt a r : drives (OnAcknowledgementPacket cbs ctx pkt a r);
  lawful_timeout ctx pkt r : drives (OnTimeoutPacket cbs ctx pkt r) }.
Definition lawful_router : Prop := ∀ m cbs, GetRoute rtr m = Some cbs → lawful cbs.

(** The actions of a message. *)
Definition msg_in (m : message) : Prop :=
  match m with
  | Msg_ChannelOpenInit p ch => ∀ cap cb, (∀ id c, keeps_channels (cb id c)) →
      P (Do_open_init (Channel_Ordering ch) (ConnectionHops ch) p cap (Channel_Counterparty ch) (Channel_Version ch) cb)
  | Msg_ChannelOpenTry p prev ch v prf h => ∀ ctx cap cb, (∀ id c, keeps_channels (cb id c)) →
      P (Do_open_try ctx (Channel_Ordering ch) (ConnectionHops ch) p prev cap (Channel_Counterparty ch) v prf h cb)
  | Msg_ChannelOpenAck p c cp v prf h => ∀ ctx cap cb, keeps_channels cb → P (Do_open_ack ctx p c cap v cp prf h cb)
  | Msg_ChannelOpenConfirm p c prf h => ∀ ctx cap cb, keeps_channels cb → P (Do_open_confirm ctx p c cap prf h cb)
  | Msg_ChannelCloseInit p c => ∀ cap, P (Do_close_init p c cap)
  | Msg_ChannelCloseConfirm p c prf h => ∀ ctx cap, P (Do_close_confirm ctx p c cap prf h)
  | Msg_RecvPacket m =>
      (∀ ctx cap, P (Do_recv ctx cap (recv_Packet m) (recv_ProofCommitment m) (recv_ProofHeight m))) ∧
      ∀ cap ack, P (Do_write_ack cap (recv_Packet m) ack)
  | Msg_Timeout m =>
      (∀ ctx, P (Do_timeout ctx (to_Packet m) (to_ProofUnreceived m) (to_ProofHeight m) (to_NextSequenceRecv m))) ∧
      ∀ cap, P (Do_timeout_executed cap (to_Packet m))
  | Msg_TimeoutOnClose m =>
      (∀ ctx cap, P (Do_timeout_on_close ctx cap (toc_Packet m) (toc_ProofUnreceived m) (toc_ProofClose m)
         (toc_ProofHeight m) (toc_NextSequenceRecv m))) ∧
      ∀ cap, P (Do_timeout_executed cap (toc_Packet m))
  | Msg_Acknowledgement m =>
      ∀ ctx cap, P (Do_acknowledge ctx cap (ack_Packet m) (ack_Bytes m) (ack_ProofAcked m) (ack_ProofHeight m))
  | _ => True
  end.

Lemma run_one a w w' : P a → in_range w = true → exec a w = (w', Ok tt) → run_of P w w'.
Proof. intros. eapply run_step; [done..|constructor]. Qed.
Lemma run_same w w' : in_range w = true → same_state w w' → run_of P w w'.
Proof.
  intros Hr Hs. apply (run_one (Do_other (modify (set_events (events w'))))); [by apply P_other|done|].
  unfold exec, modify. f_equal. destruct w, w'. unfold same_state, set_events in *. simpl in *. congruence.
Qed.
Lemma run_other {A} (m : M A) w w' a : keeps_channels m → in_range w = true → m w = (w', Ok a) → run_of P w w'.
Proof.
  intros Hm Hr E. apply (run_one (Do_other (m ;;; ret tt))); [|done|].
  - apply P_other. intros w0 k Hk. rewrite <- (Hm w0 k Hk). unfold bind. by destruct (m w0) as [? []].
  - unfold exec, bind. by rewrite E.
Qed.
(** *** Operations that drive the keepers *)

Lemma counter_key_channel k : counter_key k = true → channel_part k = true.
Proof.
  unfold counter_key, channel_part. intros [[H|H]%orb_true_iff|H]%orb_true_iff; apply orb_true_iff.
  - left. apply existsb_exists. eexists. split; [|exact H]. cbn. tauto.
  - left. apply existsb_exists. eexists. split; [|exact H]. cbn. tauto.
  - right. by apply bool_decide_eq_true, String.eqb_eq.
Qed.
Lemma R_same w w' : same_state w w' → R w' = true → R w = true.
Proof. intros Hs. apply R_agree. intros k _. by rewrite (same_state_ibc _ _ Hs). Qed.

Lemma drives_other {A} (m : M A) : keeps_channels m → drives m.
Proof.
  intros Hm w w' a E Hr. assert (R w = true) as Hw.
  { revert Hr. apply R_agree. intros k Hk%counter_key_channel. specialize (Hm w k Hk). by rewrite E in Hm. }
  split; [done|]. eapply run_other; eauto.
Qed.
Lemma drives_keeps {A} (m : M A) : keeps ibc m → drives m.
Proof. intros Hm. apply drives_other. by apply keeps_ibc_channels. Qed.
Lemma drives_bind {A B} (m : M A) (k : A → M B) : drives m → (∀ a, drives (k a)) → drives (bind m k).
Proof.
  intros Hm Hk w w' b (a & w1 & E1 & E2)%bind_Ok Hr. destruct (Hk a _ _ _ E2 Hr) as [Hr1 H2].
  destruct (Hm _ _ _ E1 Hr1) as [Hr0 H1]. split; [done|]. by eapply run_of_trans.
Qed.
Lemma drives_wrap {A} (m : M A) : drives m → drives (wrap_err m).
Proof. intros Hm w w' a E%wrap_err_Ok. by apply Hm in E. Qed.
Lemma drives_never {A} (m : M A) : (∀ w, is_ok (m w).2 = false) → drives m.
Proof. intros Hm w w' a E. specialize (Hm w). by rewrite E in Hm. Qed.

(** An action that leaves the counters alone. *)
Lemma drives_exec a :
  P a → (∀ w w' k, exec a w = (w', Ok tt) → counter_key k = true → ibc w' !! k = ibc w !! k) → drives (exec a).
Proof.
  intros Ha Hk w w' [] E Hr. assert (R w = true) as Hw by (revert Hr; apply R_agree; eauto).
  split; [done|]. eapply run_one; eauto.
Qed.

(** A call in a cached context: it is driven when it is committed, and nothing happens
    when it is not. *)
Lemma drives_cache {A} (m : M A) commit :
  (∀ e, commit (Err e) = false) → drives m → drives (with_cache m commit).
Proof.
  intros Hc Hm w w' o (w1 & E & Hp & Hs)%with_cache_Ok Hr. destruct o as [a|e|]; [|rewrite Hc in Hs|done].
  - destruct (commit (Ok a)).
    + destruct (Hm _ _ _ E (R_same _ _ Hs Hr)) as [Hr0 H]. assert (R w = true) as Hw by exact (R_same _ _ (same_state_intro [] w) Hr0).
      split; [done|]. eapply run_of_trans; [by apply (run_same _ (set_events [] w)); [apply R_range|]|].
      eapply run_of_trans; [exact H|]. apply run_same; [|done]. eapply R_range, R_same; eauto.
    + pose proof (R_same _ _ Hs Hr). split; [done|]. apply run_same; auto.
  - pose proof (R_same _ _ Hs Hr). split; [done|]. apply run_same; auto.
Qed.

Lemma drives_write_ack cap pkt ack : P (Do_write_ack cap pkt ack) → drives (WriteAcknowledgement cap pkt ack).
Proof.
  intros Ha. apply (drives_exec (Do_write_ack cap pkt ack)); [done|]. cbn [exec].
  intros w w' k (ch & _ & _ & _ & _ & _ & Hw & _)%WriteAcknowledgement_Ok Hk.
  rewrite Hw, lookup_insert_ne; [done|]. by intros <-.
Qed.
Lemma drives_timeout_executed cap pkt : P (Do_timeout_executed cap pkt) → drives (TimeoutExecuted cap pkt).
Proof.
  intros Ha. apply (drives_exec (Do_timeout_executed cap pkt)); [done|]. cbn [exec].
  intros w w' k (ch & _ & _ & Hw & _)%TimeoutExecuted_Ok Hk.
  unfold timeout_writes in Hw. rewrite Hw. case_bool_decide;
    rewrite ?lookup_insert_ne, ?lookup_delete_ne; try done; by intros <-.
Qed.
Lemma drives_close_init p c cap : P (Do_close_init p c cap) → drives (ChanCloseInit p c cap).
Proof.
  intros Ha. apply (drives_exec (Do_close_init p c cap)); [done|]. cbn [exec].
  intros w w' k (ch & _ & _ & _ & Hw)%ChanCloseInit_Ok Hk. rewrite Hw, lookup_insert_ne; [done|]. by intros <-.
Qed.
Lemma drives_close_confirm ctx p c cap prf h :
  P (Do_close_confirm ctx p c cap prf h) → drives (ChanCloseConfirm ctx p c cap prf h).
Proof.
  intros Ha. apply (drives_exec (Do_close_confirm ctx p c cap prf h)); [done|]. cbn [exec].
  intros w w' k (ch & w1 & _ & _ & _ & H & Hw)%ChanCloseConfirm_Ok Hk. rewrite Hw, lookup_insert_ne; [|by intros <-].
  apply H. by apply channel_part_not_client, counter_key_channel.
Qed.

(** Applications that leave the IBC store alone are lawful. *)
Lemma polite_lawful cbs : polite cbs → lawful cbs.
Proof. intros []. split; intros; try apply drives_keeps; auto. Qed.

(** *** The packet handlers *)

(** The callback in its cached context, and the acknowledgement it returns. *)
Definition recv_rest ctx relayer cbs cap pkt : M unit :=
  let! ack :=
    with_cache (OnRecvPacket cbs ctx pkt relayer)
      (λ ack, match ack with Ok (Some ack) => ack_Success ack | Ok None => true | _ => false end) in
  match ack with
  | Ok (Some ack) => WriteAcknowledgement cap pkt (ack_Acknowledgement ack)
  | Ok None => ret tt
  | Err e => throw e
  | Panic => panic
  end.
Lemma recv_rest_drives ctx relayer cbs cap pkt :
  lawful cbs → (∀ cap ack, P (Do_write_ack cap pkt ack)) → drives (recv_rest ctx relayer cbs cap pkt).
Proof.
  intros Hp Hack. apply drives_bind; [apply drives_cache; [done|apply Hp]|].
  intros [[ack|]|e|]; [by apply drives_write_ack|by apply drives_other|by apply drives_never..].
Qed.

Lemma timeout_rest_drives ctx relayer cbs cap pkt :
  lawful cbs → (∀ cap, P (Do_timeout_executed cap pkt)) →
  drives (wrap_err (OnTimeoutPacket cbs ctx pkt relayer) ;;; TimeoutExecuted cap pkt).
Proof. intros Hp Hid. apply drives_bind; [apply drives_wrap, Hp|intros _]. by apply drives_timeout_executed. Qed.

Lemma acknowledge_rest_drives ctx relayer cbs pkt ack :
  lawful cbs → drives (wrap_err (OnAcknowledgementPacket cbs ctx pkt ack relayer)).
Proof. intros Hp. apply drives_wrap, Hp. Qed.

(** A packet handler is a run when its verification is an action of the channel keeper
    and the rest of it is a run. *)
Lemma packet_handler_run signer p c (verify : Capability → M unit) rest w w' (a : Capability → action) :
  lawful_router → (∀ cap, exec (a cap) = verify cap) → (∀ cap, P (a cap)) →
  (∀ relayer cbs cap, lawful cbs → drives (rest relayer cbs cap)) →
  in_range w = true → R w' = true → packet_handler rtr signer p c verify rest w = (w', Ok tt) → run_of P w w'.
Proof.
  intros Hp Ha Hok Hrest Hr Hr' E.
  apply packet_handler_Ok in E as (relayer & cbs & cap & w1 & _ & Hroute & [[_ Hs]|(w2 & Hv & Hs & H)]);
    [by apply run_same|].
  destruct (route_channel_run _ _ _ _ _ _ _ Hroute) as [_ [m Hm]].
  destruct (Hrest _ _ _ (Hp _ _ Hm) _ _ _ H Hr') as [Hr2 Hrun].
  eapply run_of_trans; [by apply (run_same _ (set_events [] w))|].
  eapply run_step; [apply Hok|exact Hr|by rewrite Ha|]. eapply run_of_trans; [|exact Hrun].
  apply run_same; [|exact Hs]. eapply R_range, R_same; eauto.
Qed.

(** *** The handshake handlers *)

(** A handler that routes a message and then performs one action. *)
Lemma route_channel_exec p c (k : IBCModule → Capability → M unit) a w w' :
  lawful_router → in_range w = true →
  (∀ cbs cap, lawful cbs → k cbs cap w = (w', Ok tt) → P (a cbs cap) ∧ exec (a cbs cap) w = (w', Ok tt)) →
  (let! ' (cbs, cap) := route_channel rtr p c in k cbs cap) w = (w', Ok tt) → run_of P w w'.
Proof.
  intros Hp Hr Hk ([cbs cap] & w0 & H0 & H)%bind_Ok.
  destruct (route_channel_run _ _ _ _ _ _ _ H0) as [-> [m Hm]].
  destruct (Hk _ _ (Hp _ _ Hm) H). by eapply run_one.
Qed.
Lemma route_port_exec p (k : IBCModule → Capability → M unit) a w w' :
  lawful_router → in_range w = true →
  (∀ cbs cap, lawful cbs → k cbs cap w = (w', Ok tt) → P (a cbs cap) ∧ exec (a cbs cap) w = (w', Ok tt)) →
  (let! ' (cbs, cap) := route_port rtr p in k cbs cap) w = (w', Ok tt) → run_of P w w'.
Proof.
  intros Hp Hr Hk ([cbs cap] & w0 & H0 & H)%bind_Ok.
  destruct (route_port_run _ _ _ _ _ _ H0) as [-> [m Hm]].
  destruct (Hk _ _ (Hp _ _ Hm) H). by eapply run_one.
Qed.

Lemma keeps_channels_wrap {A} (m : M A) : keeps_channels m → keeps_channels (wrap_err m).
Proof. intros Hm w k Hk. rewrite <- (Hm w k Hk). unfold wrap_err. by destruct (m w). Qed.

(** Re-assemble a run of the keepers from the runs of its parts. *)
Ltac reassemble :=
  intros; repeat match goal with
  | H : bind _ _ _ = (_, Ok _) |- _ => apply bind_Ok in H as (? & ? & ? & ?)
  | H : wrap_err _ _ = (_, Ok _) |- _ => apply wrap_err_Ok in H
  | p : _ * _ |- _ => destruct p
  end;
  cbn [exec]; repeat (erewrite bind_run by eassumption; cbn beta iota); try eassumption.

Lemma msg_ChannelOpenInit_run ctx p ch w w' :
  lawful_router → msg_in (Msg_ChannelOpenInit p ch) → in_range w = true →
  msg_ChannelOpenInit rtr ctx p ch w = (w', Ok tt) → run_of P w w'.
Proof.
  intros Hp Hin Hr. apply (route_port_exec _ _ (λ cbs cap,
    Do_open_init (Channel_Ordering ch) (ConnectionHops ch) p cap (Channel_Counterparty ch) (Channel_Version ch)
      (λ c chanCap, OnChanOpenInit cbs ctx (Channel_Ordering ch) (ConnectionHops ch) p c chanCap
         (Channel_Counterparty ch) (Channel_Version ch)))); [done..|].
  intros cbs cap Hc H. split; [apply Hin; intros; apply Hc|]. reassemble.
Qed.

Lemma msg_ChannelOpenTry_run ctx p prev ch v prf h w w' :
  lawful_router → msg_in (Msg_ChannelOpenTry p prev ch v prf h) → in_range w = true →
  msg_ChannelOpenTry rtr ctx p prev ch v prf h w = (w', Ok tt) → run_of P w w'.
Proof.
  intros Hp Hin Hr. apply (route_port_exec _ _ (λ cbs cap,
    Do_open_try ctx (Channel_Ordering ch) (ConnectionHops ch) p prev cap (Channel_Counterparty ch) v prf h
      (λ c chanCap, OnChanOpenTry cbs ctx (Channel_Ordering ch) (ConnectionHops ch) p c chanCap
         (Channel_Counterparty ch) v))); [done..|].
  intros cbs cap Hc H. split; [apply Hin; intros; apply Hc|]. reassemble.
Qed.

Lemma msg_ChannelOpenAck_run ctx p c cp v prf h w w' :
  lawful_router → msg_in (Msg_ChannelOpenAck p c cp v prf h) → in_range w = true →
  msg_ChannelOpenAck rtr ctx p c cp v prf h w = (w', Ok tt) → run_of P w w'.
Proof.
  intros Hp Hin Hr. apply (route_channel_exec _ _ _ (λ cbs cap,
    Do_open_ack ctx p c cap v cp prf h (OnChanOpenAck cbs ctx p c v))); [done..|].
  intros cbs cap Hc H. split; [apply Hin, Hc|]. reassemble.
Qed.

Lemma msg_ChannelOpenConfirm_run ctx p c prf h w w' :
  lawful_router → msg_in (Msg_ChannelOpenConfirm p c prf h) → in_range w = true →
  msg_ChannelOpenConfirm rtr ctx p c prf h w = (w', Ok tt) → run_of P w w'.
Proof.
  intros Hp Hin Hr. apply (route_channel_exec _ _ _ (λ cbs cap,
    Do_open_confirm ctx p c cap prf h (OnChanOpenConfirm cbs ctx p c))); [done..|].
  intros cbs cap Hc H. split; [apply Hin, Hc|]. reassemble.
Qed.

(** Closing: a callback, an action, an event. *)
Lemma msg_ChannelClose_run p c (cb : IBCModule → M unit) (m : Capability → M unit) ev w w' :
  lawful_router → (∀ cbs, lawful cbs → drives (cb cbs)) → (∀ cap, drives (m cap)) → R w' = true →
  (let! ' (cbs, cap) := route_channel rtr p c in wrap_err (cb cbs) ;;; wrap_err (m cap) ;;; EmitEvent ev) w
    = (w', Ok tt) → run_of P w w'.
Proof.
  intros Hp Hcb Hm Hr' ([cbs cap] & w0 & H0 & H)%bind_Ok.
  destruct (route_channel_run _ _ _ _ _ _ _ H0) as [-> [mo Hmo]].
  refine (proj2 (drives_bind _ _ _ _ _ _ _ H Hr')); [by eapply drives_wrap, Hcb, Hp|intros _].
  apply drives_bind; [by apply drives_wrap|intros _]. by apply drives_other.
Qed.

(** *** The client and connection handlers *)

Lemma keeps_channels_key {A} (m : M A) :
  (∀ k, channel_part k = true → keeps_key k m) → keeps_channels m.
Proof. intros Hm w k Hk. by apply Hm. Qed.

Lemma keeps_of_exec {A T} (f : World → T) (m : M A) : keeps f (m ;;; ret tt) → keeps f m.
Proof. intros H w. specialize (H w). unfold bind in H. by destruct (m w) as [w1 [a|e|]]. Qed.

Lemma client_op_keeps k o : channel_part k = true → keeps (λ w, ibc w !! k) (client_exec o).
Proof. intros Hk w. by apply client_exec_keeps_channels. Qed.
Lemma conn_op_keeps k a :
  channel_part k = true → match a with Conn_other _ => False | _ => True end →
  keeps (λ w, ibc w !! k) (conn_exec a).
Proof. intros Hk Ha. by apply conn_exec_keeps_channel_key. Qed.

Lemma connection_or_zero_keeps {T} (f : World → T) c : keeps f (connection_or_zero c).
Proof. unfold connection_or_zero. apply keeps_bind; [apply GetConnection_keeps|done]. Qed.

(** The messages of 02-client and 03-connection. *)
Definition core_message (m : message) : bool :=
  match m with
  | Msg_CreateClient _ _ | Msg_UpdateClient _ _ | Msg_UpgradeClient _ _ _ _ _ | Msg_SubmitMisbehaviour _ _
  | Msg_ConnectionOpenInit _ _ _ _ | Msg_ConnectionOpenTry _ _ _ _ _ _ _ _ _ _ _
  | Msg_ConnectionOpenAck _ _ _ _ _ _ _ _ _ | Msg_ConnectionOpenConfirm _ _ _ => true
  | _ => false
  end.

Lemma CreateClient_keeps k ctx cs cns :
  channel_part k = true → keeps (λ w, ibc w !! k) (CreateClient ctx cs cns).
Proof. intros Hk. apply keeps_of_exec, (client_op_keeps k (Op_create ctx cs cns) Hk). Qed.
Lemma ConnOpenInit_keeps k cl cp v d :
  channel_part k = true → keeps (λ w, ibc w !! k) (ConnOpenInit cl cp v d).
Proof. intros Hk. by apply keeps_of_exec, (conn_op_keeps k (Conn_init cl cp v d) Hk). Qed.
Lemma ConnOpenTry_keeps k ctx prev cp d cl cs vs p1 p2 p3 h ch :
  channel_part k = true → keeps (λ w, ibc w !! k) (ConnOpenTry ctx prev cp d cl cs vs p1 p2 p3 h ch).
Proof. intros Hk. by apply keeps_of_exec, (conn_op_keeps k (Conn_try ctx prev cp d cl cs vs p1 p2 p3 h ch) Hk). Qed.

Lemma core_message_keeps ctx m : core_message m = true → keeps_channels (deliver rtr ctx m).
Proof.
  intros Hm. apply keeps_channels_key. intros k Hk. unfold keeps_key.
  pose proof (λ ctx cs cns, CreateClient_keeps k ctx cs cns Hk).
  pose proof (λ ctx c h, client_op_keeps k (Op_update ctx c h) Hk).
  pose proof (λ ctx c cs cns p1 p2, client_op_keeps k (Op_upgrade ctx c cs cns p1 p2) Hk).
  pose proof (λ ctx m, client_op_keeps k (Op_misbehaviour ctx m) Hk).
  pose proof (λ cl cp v d, ConnOpenInit_keeps k cl cp v d Hk).
  pose proof (λ ctx prev cp d cl cs vs p1 p2 p3 h ch, ConnOpenTry_keeps k ctx prev cp d cl cs vs p1 p2 p3 h ch Hk).
  pose proof (λ ctx c cs v cpc p1 p2 p3 h ch, conn_op_keeps k (Conn_ack ctx c cs v cpc p1 p2 p3 h ch) Hk I).
  pose proof (λ ctx c p h, conn_op_keeps k (Conn_confirm ctx c p h) Hk I).
  pose proof (connection_or_zero_keeps (λ w, ibc w !! k)).
  destruct m; try done; cbn [deliver client_exec conn_exec] in *;
    unfold msg_CreateClient, msg_UpdateClient, msg_UpgradeClient, msg_SubmitMisbehaviour, msg_ConnectionOpenInit,
      msg_ConnectionOpenTry, msg_ConnectionOpenAck, msg_ConnectionOpenConfirm; by frame.
Qed.

Lemma packet_message_run ctx m w w' :
  lawful_router → msg_in m → in_range w = true → R w' = true →
  match m with Msg_RecvPacket _ | Msg_Timeout _ | Msg_TimeoutOnClose _ | Msg_Acknowledgement _ => True | _ => False end →
  deliver rtr ctx m w = (w', Ok tt) → run_of P w w'.
Proof.
  intros Hp Hin Hr Hr' Hm. destruct m as [| | | | | | | | | | | | | |m|m|m|m]; try done; cbn [deliver]; intros E;
    cbn [msg_in] in Hin; try destruct Hin as [Hin Hrest].
  - eapply (packet_handler_run (recv_Signer m) _ _ _ _ _ _ (λ cap, Do_recv ctx cap (recv_Packet m)
      (recv_ProofCommitment m) (recv_ProofHeight m))); [done..|intros; apply Hin| |done|done|exact E].
    intros relayer cbs cap Hc. by apply recv_rest_drives.
  - eapply (packet_handler_run (to_Signer m) _ _ _ _ _ _ (λ cap, Do_timeout ctx (to_Packet m)
      (to_ProofUnreceived m) (to_ProofHeight m) (to_NextSequenceRecv m))); [done..|intros; apply Hin| |done|done|exact E].
    intros relayer cbs cap Hc. by apply timeout_rest_drives.
  - eapply (packet_handler_run (toc_Signer m) _ _ _ _ _ _ (λ cap, Do_timeout_on_close ctx cap (toc_Packet m)
      (toc_ProofUnreceived m) (toc_ProofClose m) (toc_ProofHeight m) (toc_NextSequenceRecv m)));
      [done..|intros; apply Hin| |done|done|exact E].
    intros relayer cbs cap Hc. by apply timeout_rest_drives.
  - eapply (packet_handler_run (ack_Signer m) _ _ _ _ _ _ (λ cap, Do_acknowledge ctx cap (ack_Packet m)
      (ack_Bytes m) (ack_ProofAcked m) (ack_ProofHeight m))); [done..|intros; apply Hin| |done|done|exact E].
    intros relayer cbs cap Hc. by apply acknowledge_rest_drives.
Qed.

Lemma channel_message_run ctx m w w' :
  lawful_router → msg_in m → in_range w = true → R w' = true →
  match m with
  | Msg_ChannelOpenInit _ _ | Msg_ChannelOpenTry _ _ _ _ _ _ | Msg_ChannelOpenAck _ _ _ _ _ _
  | Msg_ChannelOpenConfirm _ _ _ _ | Msg_ChannelCloseInit _ _ | Msg_ChannelCloseConfirm _ _ _ _ => True
  | _ => False end →
  deliver rtr ctx m w = (w', Ok tt) → run_of P w w'.
Proof.
  intros Hp Hin Hr Hr' Hm. destruct m; try done; cbn [deliver].
  - by apply msg_ChannelOpenInit_run.
  - by apply msg_ChannelOpenTry_run.
  - by apply msg_ChannelOpenAck_run.
  - by apply msg_ChannelOpenConfirm_run.
  - eapply msg_ChannelClose_run; [done| | |done]; [intros cbs Hc; apply Hc|].
    intros cap. apply drives_close_init, Hin.
  - eapply msg_ChannelClose_run; [done| | |done]; [intros cbs Hc; apply Hc|].
    intros cap. apply drives_close_confirm, Hin.
Qed.

Lemma deliver_run_of ctx m w w' :
  lawful_router → msg_in m → in_range w = true → R w' = true →
  deliver rtr ctx m w = (w', Ok tt) → run_of P w w'.
Proof.
  intros Hp Hok Hr Hr' E. destruct (core_message m) eqn:Hc.
  - by apply (run_other _ _ _ _ (core_message_keeps ctx m Hc)) in E.
  - destruct m; try done; first [by eapply packet_message_run|by eapply channel_message_run].
Qed.

End actions.

(** In range, and no channel end has used up its send sequences: a counter of sequences
    to send starts at 1 and is 0 only after it has wrapped around, and then [SendPacket]
    refuses every packet, because a packet of sequence 0 is invalid. *)
Definition ranged (w : World) : bool :=
  in_range w &&
  bool_decide (map_Forall (λ k x, HasPrefix k KeyNextSeqSendPrefix = true → BigEndianToUint64 x ≠ 0%N) (ibc w)).

Lemma ranged_range w : ranged w = true → in_range w = true.
Proof. by intros [? _]%andb_true_iff. Qed.
Lemma ranged_agree w w' :
  (∀ k, counter_key k = true → ibc w' !! k = ibc w !! k) → ranged w' = true → ranged w = true.
Proof.
  intros H [Hr Hs%bool_decide_eq_true]%andb_true_iff. apply andb_true_iff. split; [by eapply in_range_agree|].
  apply bool_decide_eq_true. intros k x Hk Hp. eapply Hs; [|done]. rewrite H; [done|]. unfold counter_key. by rewrite Hp.
Qed.

(** Sending a packet drives the keepers. *)
Lemma drives_send (P : action → Prop) ctx cap pkt :
  (Packet_ValidateBasic pkt = Ok tt → P (Do_send ctx cap pkt)) → drives P ranged (SendPacket ctx cap pkt).
Proof.
  intros HP w w' [] E Hr. pose proof E as (Hv & _ & _ & _ & _ & _ & _ & _ & _ & _ & _ & _ & _ & Hn & Hw & _)%SendPacket_Ok.
  assert (Sequence pkt ≠ 0%N) as Hseq by
    (unfold Packet_ValidateBasic in Hv; repeat case_match; try done; out_inv; by apply N.eqb_neq).
  set (key := NextSequenceSendKey (SourcePort pkt) (SourceChannel pkt)) in *.
  assert (∀ k, counter_key k = true → k ≠ key → ibc w' !! k = ibc w !! k) as Hother.
  { intros k Hk Hne. rewrite Hw, !lookup_insert_ne; [done|done|by intros <-]. }
  assert (ibc w' !! key = Some (Uint64ToBigEndian (u64 (Sequence pkt + 1)))) as Hkey.
  { rewrite Hw, lookup_insert_ne by done. apply lookup_insert_eq. }
  assert (counter_key key = true) as Hck by (unfold counter_key, key; done).
  apply andb_true_iff in Hr as [Hr%bool_decide_eq_true Hz%bool_decide_eq_true].
  specialize (Hr key _ Hkey Hck) as Hlt. specialize (Hz key _ Hkey eq_refl) as Hnz.
  rewrite be_roundtrip in Hlt, Hnz by apply u64_bound.
  unfold next_send in Hn. fold key in Hn. destruct (ibc w !! key) as [x|] eqn:Ex; [|done]. injection Hn as Hn.
  assert (ranged w = true) as Hrw.
  { apply andb_true_iff. pose proof (be_bound x). split; apply bool_decide_eq_true; intros k y Hy Hk;
      (destruct (decide (k = key)) as [->|Hne]; [rewrite Ex in Hy; injection Hy as <-|]).
    - rewrite Hn in *. assert (Sequence pkt ≠ MaxUint64) as Hm by (intros Hm; by rewrite Hm in Hnz).
      unfold MaxUint64, two64 in *. lia.
    - eapply Hr; [|done]. by rewrite Hother.
    - by rewrite Hn.
    - eapply Hz; [|done]. rewrite Hother; [done| |done]. unfold counter_key. by rewrite Hk. }
  split; [done|]. eapply run_one; [by apply HP|by apply ranged_range|done].
Qed.

Lemma msg_ok_in m : msg_ok m → msg_in action_ok m.
Proof. destruct m; cbn [msg_ok msg_in action_ok]; naive_solver. Qed.
Lemma deliver_run R ctx m w w' :
  (∀ w, R w = true → in_range w = true) →
  (∀ w w', (∀ k, counter_key k = true → ibc w' !! k = ibc w !! k) → R w' = true → R w = true) →
  lawful_router action_ok R → msg_ok m → in_range w = true → R w' = true →
  deliver rtr ctx m w = (w', Ok tt) → run w w'.
Proof. intros HR HR' Hp Hok. by eapply deliver_run_of; [| | | |apply msg_ok_in]. Qed.

(** *** Sequences of transactions *)

(** The life of a chain: IBC messages that are handled successfully, in between
    successful operations of applications ([SendPacket], [WriteAcknowledgement],
    [ChanCloseInit], anything that leaves the channel store alone). *)
Inductive chain_run : World → World → Prop :=
  | chain_nil w : chain_run w w
  | chain_deliver ctx m w1 w2 w3 :
      msg_ok m → in_range w1 = true → ranged w2 = true → deliver rtr ctx m w1 = (w2, Ok tt) →
      chain_run w2 w3 → chain_run w1 w3
  | chain_action a w1 w2 w3 :
      action_ok a → in_range w1 = true → exec a w1 = (w2, Ok tt) → chain_run w2 w3 → chain_run w1 w3.

Lemma ranged_deliver_run ctx m w w' :
  lawful_router action_ok ranged → msg_ok m → in_range w = true → ranged w' = true →
  deliver rtr ctx m w = (w', Ok tt) → run w w'.
Proof. apply deliver_run; [apply ranged_range|apply ranged_agree]. Qed.
Lemma chain_run_run w w' : lawful_router action_ok ranged → chain_run w w' → run w w'.
Proof.
  intros Hp. induction 1; [constructor|eapply run_trans; [by eapply ranged_deliver_run|done]|by eapply run_step].
Qed.

(** The packet that a message settles on the chain that sent it. *)
Definition settling_packet (m : message) : option Packet :=
  match m with
  | Msg_Timeout m => Some (to_Packet m)
  | Msg_TimeoutOnClose m => Some (toc_Packet m)
  | Msg_Acknowledgement m => Some (ack_Packet m)
  | _ => None
  end.

Lemma well_formed_same w w' : same_state w w' → well_formed w → well_formed w'.
Proof.
  intros Hs. unfold well_formed, fresh_channels, view, next_channel. by rewrite (same_state_ibc _ _ Hs).
Qed.
Lemma received_same w w' p c n : same_state w w' → received (view w p c) n → received (view w' p c) n.
Proof. intros Hs. unfold view. by rewrite (same_state_ibc _ _ Hs). Qed.
Lemma settled_same w w' p c n : same_state w w' → settled (view w p c) n → settled (view w' p c) n.
Proof. intros Hs. unfold view. by rewrite (same_state_ibc _ _ Hs). Qed.

Lemma recv_message_received ctx m w w' :
  lawful_router action_ok ranged → msg_ok (Msg_RecvPacket m) → well_formed w → in_range w = true → ranged w' = true →
  deliver rtr ctx (Msg_RecvPacket m) w = (w', Ok tt) → ¬ same_state w w' →
  received (view w' (DestinationPort (recv_Packet m)) (DestinationChannel (recv_Packet m))) (Sequence (recv_Packet m)).
Proof.
  intros Hp Hid Hwf Hr Hr' E Hne. cbn [deliver] in E.
  apply (packet_handler_Ok rtr (recv_Signer m)) in E
    as (relayer & cbs & cap & w1 & _ & Hroute & [[_ Hs]|(w2 & Hv & Hs & H)]); [done|].
  destruct (route_channel_run _ _ _ _ _ _ _ Hroute) as [_ [mo Hmo]].
  destruct (recv_rest_drives action_ok (λ m Hm, Hm) ranged ranged_range ranged_agree _ _ _ cap (recv_Packet m)
    (Hp _ _ Hmo) (λ _ _, Hid) _ _ _ H Hr') as [_ Hrun].
  pose proof (RecvPacket_received ctx cap _ _ _ (set_events [] w) _ _ Hwf Hr Hid Hv) as Hrec.
  assert (Hwf1 : well_formed w1) by
    exact (exec_well_formed (Do_recv ctx cap _ _ _) (set_events [] w) _ Hwf Hid Hr Hv).
  eapply received_arun; [exact (received_same _ _ _ _ _ Hs Hrec)|].
  apply run_arun; [by eapply well_formed_same|done..].
Qed.

(** The end of both timeout handlers settles the packet. *)
Lemma timeout_rest_settles ctx relayer cbs cap pkt x w w' :
  lawful action_ok ranged cbs → well_formed w → ids_ok (SourcePort pkt) (SourceChannel pkt) → ranged w' = true →
  commitment_at w (SourcePort pkt) (SourceChannel pkt) (Sequence pkt) = Some x →
  (wrap_err (OnTimeoutPacket cbs ctx pkt relayer) ;;; TimeoutExecuted cap pkt) w = (w', Ok tt) →
  settled (view w' (SourcePort pkt) (SourceChannel pkt)) (Sequence pkt).
Proof.
  intros Hp Hwf Hid Hr' Hx ([] & w1 & Hc%wrap_err_Ok & H)%bind_Ok.
  destruct (drives_timeout_executed action_ok ranged ranged_range ranged_agree cap pkt Hid _ _ _ H Hr') as [Hr1 Hrun'].
  destruct (lawful_timeout _ _ _ Hp _ _ _ _ _ _ Hc Hr1) as [_ Hrun].
  assert (well_formed w1) as Hwf1 by by eapply run_well_formed.
  destruct (commitment_at w1 (SourcePort pkt) (SourceChannel pkt) (Sequence pkt)) as [y|] eqn:Hy;
    [by eapply TimeoutExecuted_settles|].
  eapply settled_arun; [|by apply run_arun]. split; [exact Hy|].
  destruct (proj2 Hwf _ _ Hid) as [_ Hcm]. destruct (Hcm _ _ Hx) as (m & Hm & Hlt).
  destruct (arun_send _ _ _ (run_arun _ _ _ _ Hwf Hid Hrun) Hm) as (m' & Hm' & Hle). exists m'. split; [done|lia].
Qed.

Lemma settling_message_settles ctx m pkt w w' :
  lawful_router action_ok ranged → msg_ok m → settling_packet m = Some pkt → well_formed w → in_range w = true →
  ranged w' = true → deliver rtr ctx m w = (w', Ok tt) → ¬ same_state w w' →
  settled (view w' (SourcePort pkt) (SourceChannel pkt)) (Sequence pkt).
Proof.
  intros Hp Hid Hm Hwf Hr Hr' E Hne.
  destruct m as [| | | | | | | | | | | | | | |m|m|m]; try done; injection Hm as <-; cbn [deliver msg_ok] in *.
  - apply (packet_handler_Ok rtr (to_Signer m)) in E
      as (relayer & cbs & cap & w1 & _ & Hroute & [[_ Hs]|(w2 & Hv & Hs & H)]); [done|].
    destruct (route_channel_run _ _ _ _ _ _ _ Hroute) as [_ [mo Hmo]].
    pose proof (exec_well_formed (Do_timeout ctx _ _ _ _) (set_events [] w) w1 Hwf Hid Hr Hv) as Hwf1.
    apply TimeoutPacket_Ok in Hv as (? & ? & ? & ? & _ & _ & _ & _ & _ & _ & Hcm & _ & Hsc).
    eapply timeout_rest_settles; [by eapply Hp| |done|done| |exact H].
    + by eapply well_formed_same.
    + unfold commitment_at. rewrite (same_state_ibc _ _ Hs). rewrite Hsc in Hcm. exact Hcm.
  - apply (packet_handler_Ok rtr (toc_Signer m)) in E
      as (relayer & cbs & cap & w1 & _ & Hroute & [[_ Hs]|(w2 & Hv & Hs & H)]); [done|].
    destruct (route_channel_run _ _ _ _ _ _ _ Hroute) as [_ [mo Hmo]].
    pose proof (exec_well_formed (Do_timeout_on_close ctx cap _ _ _ _ _) (set_events [] w) w1 Hwf Hid Hr Hv) as Hwf1.
    apply TimeoutOnClose_Ok in Hv as (? & ? & ? & ? & _ & _ & _ & _ & Hcm & _ & _ & Hsc).
    eapply timeout_rest_settles; [by eapply Hp| |done|done| |exact H].
    + by eapply well_formed_same.
    + unfold commitment_at. rewrite (same_state_ibc _ _ Hs). rewrite Hsc in Hcm. exact Hcm.
  - apply (packet_handler_Ok rtr (ack_Signer m)) in E
      as (relayer & cbs & cap & w1 & _ & Hroute & [[_ Hs]|(w2 & Hv & Hs & H)]); [done|].
    destruct (route_channel_run _ _ _ _ _ _ _ Hroute) as [_ [mo Hmo]].
    pose proof (AcknowledgePacket_settles ctx cap _ _ _ _ (set_events [] w) _ _ Hwf Hid Hv) as Hset.
    apply (settled_same _ _ _ _ _ Hs) in Hset. apply wrap_err_Ok in H.
    destruct (lawful_acknowledge _ _ _ (Hp _ _ Hmo) _ _ _ _ _ _ _ H Hr') as [_ Hrun].
    eapply settled_arun; [exact Hset|]. apply run_arun; [|done|done]. eapply well_formed_same; [exact Hs|].
    exact (exec_well_formed (Do_acknowledge ctx cap _ _ _ _) (set_events [] w) w1 Hwf Hid Hr Hv).
Qed.
End refinement.

Section claims.
Context {SE : SdkEncoding} {LC : LightClient} {CD : Codec} {CK : CapabilityKeeper} {AP : Application}
  {SC : SelfClient} {BE : Bech32}.
Variable rtr : Router.

(** The message server refines the channel machine.  Every one of the eighteen IBC
    messages that is handled successfully (unpacking, routing, cached contexts,
    application callbacks and final writes included) preserves the invariant of the
    channel store and takes every channel end through steps of the abstract channel
    machine [astep], with applications that leave the IBC store to the keepers. *)
Lemma messages_refine_channels ctx m w w' :
  polite_router rtr → msg_ok m → well_formed w → in_range w = true → in_range w' = true →
  deliver rtr ctx m w = (w', Ok tt) →
  well_formed w' ∧ ∀ p c, ids_ok p c → arun (view w p c) (view w' p c).
Proof.
  intros Hp Hok Hwf Hr Hr' E. assert (run w w') as Hrun.
  { eapply (deliver_run rtr in_range); [done|apply in_range_agree| |exact Hok|exact Hr|exact Hr'|exact E].
    intros mo cbs Hmo. apply polite_lawful; [done|done|apply in_range_agree|by eapply Hp]. }
  split; [by eapply run_well_formed|]. intros p c Hid. by apply run_arun.
Qed.

(** Exactly-once delivery at the level of messages.  In the life of a chain, after
    a [MsgRecvPacket] that had an effect, no later [MsgRecvPacket] for the same
    destination and sequence changes any state, whatever its data, proof, signer and
    outcome: the application's [OnRecvPacket] is committed at most once per packet. *)
Lemma receive_message_effective_once w0 w w1 w2 ctx m ctx' m' :
  lawful_router rtr action_ok ranged → genesis w0 → chain_run rtr w0 w → msg_ok (Msg_RecvPacket m) →
  in_range w = true → ranged w1 = true →
  deliver rtr ctx (Msg_RecvPacket m) w = (w1, Ok tt) → ¬ same_state w w1 → chain_run rtr w1 w2 →
  DestinationPort (recv_Packet m') = DestinationPort (recv_Packet m) →
  DestinationChannel (recv_Packet m') = DestinationChannel (recv_Packet m) →
  Sequence (recv_Packet m') = Sequence (recv_Packet m) →
  same_state w2 (deliver rtr ctx' (Msg_RecvPacket m') w2).1.
Proof.
  intros Hp Hg Hr0 Hid Hr Hr1 E Hne Hr2 Hport Hchan Hseq.
  pose proof (run_well_formed _ _ (genesis_well_formed _ Hg) (chain_run_run _ _ _ Hp Hr0)) as Hwf.
  pose proof (recv_message_received _ _ _ _ _ Hp Hid Hwf Hr Hr1 E Hne) as Hrec.
  assert (Hwf1 : well_formed w1) by (eapply run_well_formed; [exact Hwf|by eapply ranged_deliver_run]).
  pose proof (received_arun _ _ _ Hrec (run_arun _ _ _ _ Hwf1 Hid (chain_run_run _ _ _ Hp Hr2))) as Hrec2.
  apply (packet_handler_rejected rtr (recv_Signer m')). intros cap Hok.
  destruct (RecvPacket ctx' cap _ _ _ (set_events [] w2)) as [w3 o] eqn:E2. simpl in Hok. subst o.
  rewrite <- Hport, <- Hchan, <- Hseq in Hrec2. by eapply RecvPacket_not_received in E2.
Qed.

(** A sent packet is settled at most once at the level of messages.  After a
    [MsgAcknowledgement], [MsgTimeout] or [MsgTimeoutOnClose] that had an effect, no
    later message of these three kinds for the same source and sequence changes any
    state: a refund and an acknowledgement never both happen, nor either twice. *)
Lemma settling_message_effective_once w0 w w1 w2 ctx m pkt ctx' m' pkt' :
  lawful_router rtr action_ok ranged → genesis w0 → chain_run rtr w0 w → msg_ok m → settling_packet m = Some pkt →
  in_range w = true → ranged w1 = true →
  deliver rtr ctx m w = (w1, Ok tt) → ¬ same_state w w1 → chain_run rtr w1 w2 →
  settling_packet m' = Some pkt' →
  SourcePort pkt' = SourcePort pkt → SourceChannel pkt' = SourceChannel pkt → Sequence pkt' = Sequence pkt →
  same_state w2 (deliver rtr ctx' m' w2).1.
Proof.
  intros Hp Hg Hr0 Hok Hm Hr Hr1 E Hne Hr2 Hm' Hport Hchan Hseq.
  assert (Hid : ids_ok (SourcePort pkt) (SourceChannel pkt)) by (destruct m; try done; by injection Hm as <-).
  pose proof (run_well_formed _ _ (genesis_well_formed _ Hg) (chain_run_run _ _ _ Hp Hr0)) as Hwf.
  pose proof (settling_message_settles _ _ _ _ _ _ Hp Hok Hm Hwf Hr Hr1 E Hne) as Hset.
  assert (Hwf1 : well_formed w1) by (eapply run_well_formed; [exact Hwf|by eapply ranged_deliver_run]).
  pose proof (settled_arun _ _ _ Hset (run_arun _ _ _ _ Hwf1 Hid (chain_run_run _ _ _ Hp Hr2))) as Hset2.
  destruct (settled_final _ _ _ (set_events [] w2) pkt' Hset2 Hport Hchan Hseq) as (Ha & Ht & Hc).
  destruct m' as [| | | | | | | | | | | | | | |m'|m'|m']; try done; injection Hm' as <-; cbn [deliver].
  - apply (packet_handler_rejected rtr (to_Signer m')). auto.
  - apply (packet_handler_rejected rtr (toc_Signer m')). auto.
  - apply (packet_handler_rejected rtr (ack_Signer m')). auto.
Qed.

(** C14: What a [MsgRecvPacket] leaves behind.  Handled successfully, it was either a
    no-op, which changes no state, or the packet was verified and recorded by
    [RecvPacket] and the application was called once.  A nil acknowledgement keeps
    the application's changes and stores nothing; a successful one keeps them and is
    stored; a failed one is stored while every change of the application, to its own
    state, to capabilities and to the IBC store, is discarded. *)
Theorem msg_RecvPacket_spec ctx msg w w' :
  msg_RecvPacket rtr ctx msg w = (w', Ok tt) →
  let pkt := recv_Packet msg in
  let ack_key := PacketAcknowledgementKey (DestinationPort pkt) (DestinationChannel pkt) (Sequence pkt) in
  ∃ relayer cbs cap w1, AccAddressFromBech32 (recv_Signer msg) = Ok relayer ∧
    route_channel rtr (DestinationPort pkt) (DestinationChannel pkt) w = (w, Ok (cbs, cap)) ∧
    let verified := RecvPacket ctx cap pkt (recv_ProofCommitment msg) (recv_ProofHeight msg) (set_events [] w) in
    (verified = (w1, Err ChanErr.ErrNoOpMsg) ∧ same_state w w' ∨
     verified = (w1, Ok tt) ∧ caps w1 = caps w ∧ app w1 = app w ∧
     ∃ w2 ack, OnRecvPacket cbs ctx pkt relayer (set_events [] w1) = (w2, Ok ack) ∧
       match ack with
       | None => same_state w2 w'
       | Some a =>
           let w3 := if ack_Success a then w2 else w1 in
           ibc w3 !! ack_key = None ∧
           ibc w' = <[ack_key := CommitAcknowledgement (ack_Acknowledgement a)]> (ibc w3) ∧
           caps w' = caps w3 ∧ app w' = app w3
       end).
Proof.
  intros E pkt key. apply (packet_handler_Ok rtr (recv_Signer msg)) in E
    as (relayer & cbs & cap & w1 & Hs & Hroute & Hcase).
  exists relayer, cbs, cap, w1. do 2 (split; [done|]). cbn zeta.
  destruct Hcase as [?|(w2 & Hv & Hss & H)]; [by left|right].
  split; [exact Hv|]. pose proof Hv as (? & ? & ? & ? & ? & _ & _ & _ & _ & _ & _ & _ & _ & _ & _ & _ & _ & Hc & Ha)%RecvPacket_Ok.
  do 2 (split; [done|]). apply bind_Ok in H as (o & w3 & Hcache & H).
  apply with_cache_Ok in Hcache as (w4 & Hcb & Hnp & Hs4). rewrite Hss in Hcb.
  destruct o as [ack|e|]; [|by apply throw_Ok in H|done].
  exists w4, ack. split; [done|]. destruct ack as [a|].
  - apply WriteAcknowledgement_Ok in H as (_ & _ & _ & _ & Hn & _ & Hw & Hcw & Haw).
    assert (Hs3 : same_state (if ack_Success a then w4 else w1) w3)
      by (destruct (ack_Success a); [done|by etrans]).
    unfold ack_at in Hn. rewrite (same_state_ibc _ _ Hs3) in Hn, Hw. unfold same_state in Hs3.
    split_and!; [done|done|..]; [rewrite Hcw|rewrite Haw]; destruct w3; unfold set_events in Hs3; by simplify_eq/=.
  - apply ret_Ok in H as [_ <-]. done.
Qed.
End claims.

(** ** Concrete messages *)
Module MsgWitness.
Import ToyInstances Scenario ChannelWitness.

(** Addresses are taken as they are. *)
Definition toy_bech32 : Bech32 :=
  {| AccAddressFromBech32 := λ s, Ok s; AccAddress_String := λ s, s; valid_address := λ _, True;
     address_roundtrip := λ _ _, eq_refl |}.
#[local] Existing Instance toy_bech32.

(** An application that notes what it has received, acknowledged and timed out, and
    whose acknowledgement is a failure for the data ["bad"]. *)
Definition note (k v : string) : M unit := modify (λ w, set_app (<[k := v]> (app w : gmap string string)) w).
Definition notes : IBCModule := {|
  OnChanOpenInit := λ _ _ _ _ _ _ _ _, ret tt;
  OnChanOpenTry := λ _ _ _ _ _ _ _ _, ret "";
  OnChanOpenAck := λ _ _ _ _, ret tt;
  OnChanOpenConfirm := λ _ _ _, ret tt;
  OnChanCloseInit := λ _ _ _, ret tt;
  OnChanCloseConfirm := λ _ _ _, ret tt;
  OnRecvPacket := λ _ p _, note "received" (Data p) ;;; ret (Some (mkAck (negb (String.eqb (Data p) "bad")) "ack"));
  OnAcknowledgementPacket := λ _ p a _, note "acknowledged" a;
  OnTimeoutPacket := λ _ p _, note "timed out" (Data p) |}.
Definition router : Router := mkRouter {["transfer" := notes]} true.

Lemma router_polite : polite_router router.
Proof.
  intros m cbs. unfold GetRoute. destruct (negb _); [done|]. cbn [routes router]. intros [_ <-]%lookup_singleton_Some.
  by split.
Qed.

Definition recv_msg : MsgRecvPacket := mkMsgRecvPacket packet "proof" (NewHeight 1 20) "relayer".
Definition recv_again : MsgRecvPacket := mkMsgRecvPacket replayed "proof" (NewHeight 1 20) "thief".
Definition ack_msg : MsgAcknowledgement := mkMsgAcknowledgement packet "ack" "proof" (NewHeight 1 31) "relayer".
Definition to_msg : MsgTimeout := mkMsgTimeout packet "proof" (NewHeight 1 31) 1 "thief".

Definition openB_world : World := opensB UNORDERED.
Definition receivedB : World := (deliver router ctxB (Msg_RecvPacket recv_msg) openB_world).1.
Definition sentA : World := after send (opensA UNORDERED).
Definition ackedA : World := (deliver router ctxA (Msg_Acknowledgement ack_msg) sentA).1.

Lemma received_run : deliver router ctxB (Msg_RecvPacket recv_msg) openB_world = (receivedB, Ok tt).
Proof. unfold receivedB. apply run_pair. vm_compute. reflexivity. Defined.
Lemma acked_run : deliver router ctxA (Msg_Acknowledgement ack_msg) sentA = (ackedA, Ok tt).
Proof. unfold ackedA. apply run_pair. vm_compute. reflexivity. Defined.

Lemma received_changes : ¬ same_state openB_world receivedB.
Proof.
  intros H%same_state_app. apply (f_equal (lookup "received")) in H. vm_compute in H. discriminate H.
Defined.
Lemma acked_changes : ¬ same_state sentA ackedA.
Proof.
  intros H%same_state_app. apply (f_equal (lookup "acknowledged")) in H. vm_compute in H. discriminate H.
Defined.

Lemma msg_RecvPacket_spec_witness :
  ∃ cbs cap, route_channel router "transfer" "channel-1" openB_world = (openB_world, Ok (cbs, cap)).
Proof.
  destruct (msg_RecvPacket_spec router ctxB recv_msg openB_world receivedB) as (r & cbs & cap & w1 & _ & H & _);
    [apply received_run|]. exists cbs, cap. exact H.
Defined.
End MsgWitness.
