(* ===== verification/MessageProperties.v ===== *)
(** * What the stateless checks of messages guarantee

    [ValidateBasic] establishes what the theorems about the message server assume of a
    message ([msg_ok]), so those theorems hold for every transaction; and
    [ValidateClientType] is exactly the promise that every identifier generated for the
    client type is valid and can be parsed again. *)
From S2P Require Import Prelude GoMonad Errors Height Host Sdk ConnectionTypes ChannelTypes.
From S2P Require Import Exported ClientKeeper ClientTypes PortKeeper ConnectionKeeper.
From S2P Require Import ChannelKeeper.
From S2P Require Import ChannelHandshake FullNode Scenario ChannelSpec ChannelView.
From S2P Require Import ChannelSystem ChannelSafety.
From S2P Require Import Router MsgServer Messages MsgServerProperties.
From Stdlib Require Import Ascii.

(** ** Client types *)

Lemma FormatClientIdentifier_length t n :
  String.length (FormatClientIdentifier t n) = String.length t + 1 + String.length (fmt_u64 n).
Proof. unfold FormatClientIdentifier. rewrite !str_length_app. simpl. lia. Qed.

Lemma FormatClientIdentifier_IsValidID t n :
  IsValidID (FormatClientIdentifier t n) = true ↔ str_all valid_id_char t = true.
Proof.
  unfold FormatClientIdentifier. split.
  - unfold IsValidID. rewrite str_all_app, andb_true_iff. intros [_ [? _]%andb_true_iff]. done.
  - intros Ht. rewrite <- app_assoc_str. apply Format_valid; [by destruct t|]. rewrite str_all_app, Ht. done.
Qed.

Lemma FormatClientIdentifier_validator t n :
  ClientIdentifierValidator (FormatClientIdentifier t n) = Ok tt ↔
  9 ≤ String.length t + 1 + String.length (fmt_u64 n) ≤ 64 ∧ str_all valid_id_char t = true.
Proof.
  unfold ClientIdentifierValidator. rewrite defaultIdentifierValidator_ok, FormatClientIdentifier_length.
  by rewrite FormatClientIdentifier_IsValidID.
Qed.

Lemma FormatClientIdentifier_parses t n :
  (n < two64)%N → IsValidClientID (FormatClientIdentifier t n) = true ↔
  dots_then_not_dash t = true ∧ blank t = false.
Proof.
  intros Hn. unfold IsValidClientID. split.
  - unfold ParseClientIdentifier, IsClientIDFormat, cut_last_dash.
    rewrite !FormatClient_split, removelast_last, last_last, Join_Split. simpl.
    destruct (has_dash _ && dots_then_not_dash t && _) eqn:E; simpl; [|done].
    apply andb_true_iff in E as [[_ ?]%andb_true_iff _]. by destruct (blank t).
  - intros [Ht Hb]. by rewrite Format_client_parse.
Qed.

Lemma ValidateClientType_Ok t :
  ValidateClientType t = Ok tt ↔
  blank t = false ∧ dots_then_not_dash t = true ∧ str_all valid_id_char t = true ∧ 7 ≤ String.length t ≤ 43.
Proof.
  assert (H0 : String.length (fmt_u64 0) = 1) by done.
  assert (H1 : String.length (fmt_u64 MaxUint64) = 20) by done.
  unfold ValidateClientType. split.
  - intros E. out_inv. cbv zeta in *. out_inv.
    match goal with H : negb _ = false |- _ => apply negb_false_iff, FormatClientIdentifier_parses in H as [? ?]; [|done] end.
    repeat match goal with u : unit |- _ => destruct u end.
    repeat match goal with H : ClientIdentifierValidator _ = Ok tt |- _ =>
      apply FormatClientIdentifier_validator in H as [? ?] end.
    rewrite ?H0, ?H1 in *. split_and!; try done; lia.
  - intros (Hb & Hd & Hv & Hl). rewrite Hb. cbn [fail_if outcome_bind].
    rewrite (proj2 (FormatClientIdentifier_parses t 0 eq_refl)) by done. cbn [negb fail_if outcome_bind].
    rewrite !(proj2 (FormatClientIdentifier_validator t _)); [done|..]; split; try done; rewrite ?H0, ?H1; lia.
Qed.

(** A client type passes [ValidateClientType] exactly when every identifier that can be
    generated for it, with any uint64 sequence, is a valid client identifier that is
    parsed back to the type and the sequence; the code only tries the sequences 0 and
    2^64 - 1. *)
Theorem client_type_identifiers t :
  ValidateClientType t = Ok tt ↔
  ∀ n, (n < two64)%N → ClientIdentifierValidator (FormatClientIdentifier t n) = Ok tt ∧
    ParseClientIdentifier (FormatClientIdentifier t n) = Ok (t, n).
Proof.
  rewrite ValidateClientType_Ok. split.
  - intros (Hb & Hd & Hv & Hl) n Hn. rewrite FormatClientIdentifier_validator.
    pose proof (fmt_u64_length n Hn). split; [split; [lia|done]|by apply Format_client_parse].
  - intros H. destruct (H 0%N eq_refl) as [Hs Hp]. destruct (H MaxUint64 eq_refl) as [Hm _].
    apply FormatClientIdentifier_validator in Hs as [Hs Hv], Hm as [Hm _].
    change (String.length (fmt_u64 0)) with 1 in Hs. change (String.length (fmt_u64 MaxUint64)) with 20 in Hm.
    destruct (proj1 (FormatClientIdentifier_parses t 0 eq_refl)) as [Hd Hb]; [unfold IsValidClientID; by rewrite Hp|].
    split_and!; try done; lia.
Qed.

(** ** Identifiers of validated messages *)

Lemma defaultIdentifierValidator_no_slash id min max :
  defaultIdentifierValidator id min max = Ok tt → no_char "/" id = true.
Proof. intros [_ H]%defaultIdentifierValidator_ok. by apply IsValidID_no_slash. Qed.
Lemma PortIdentifierValidator_no_slash id u : PortIdentifierValidator id = Ok u → no_char "/" id = true.
Proof. destruct u. apply defaultIdentifierValidator_no_slash. Qed.
Lemma ChannelIdentifierValidator_no_slash id u : ChannelIdentifierValidator id = Ok u → no_char "/" id = true.
Proof. destruct u. apply defaultIdentifierValidator_no_slash. Qed.

Lemma ClientIdentifierValidator_no_slash id u : ClientIdentifierValidator id = Ok u → no_char "/" id = true.
Proof. destruct u. apply defaultIdentifierValidator_no_slash. Qed.
Lemma ConnectionIdentifierValidator_no_slash id u : ConnectionIdentifierValidator id = Ok u → no_char "/" id = true.
Proof. destruct u. apply defaultIdentifierValidator_no_slash. Qed.

Lemma IsPrefixedFormat_no_slash prefix id :
  no_char "/" prefix = true → IsPrefixedFormat prefix id = true → no_char "/" id = true.
Proof.
  unfold IsPrefixedFormat. intros Hpre. destruct (HasPrefix id prefix) eqn:Hp; [|done]. apply HasPrefix_spec in Hp as [r ->].
  rewrite str_drop_app. cbn [andb]. intros [_ Hd]%andb_true_iff. rewrite no_char_app, Hpre. by rewrite (digits_no_char "/" r).
Qed.
Lemma IsValidChannelID_no_slash id : IsValidChannelID id = true → no_char "/" id = true.
Proof.
  unfold IsValidChannelID, ParseChannelSequence. destruct (IsChannelIDFormat id) eqn:E; [|done]. intros _.
  by apply (IsPrefixedFormat_no_slash ChannelPrefix).
Qed.
Lemma IsValidConnectionID_no_slash id : IsValidConnectionID id = true → no_char "/" id = true.
Proof.
  unfold IsValidConnectionID, ParseConnectionSequence. destruct (IsConnectionIDFormat id) eqn:E; [|done]. intros _.
  by apply (IsPrefixedFormat_no_slash ConnectionPrefix).
Qed.
#[local] Hint Resolve PortIdentifierValidator_no_slash ChannelIdentifierValidator_no_slash
  ClientIdentifierValidator_no_slash ConnectionIdentifierValidator_no_slash IsValidChannelID_no_slash
  IsValidConnectionID_no_slash : ibc.



Lemma check_channel_ids_ok p c u : check_channel_ids p c = Ok u → ids_ok p c.
Proof.
  unfold check_channel_ids. intros E. out_inv.
  match goal with H : negb _ = false |- _ => apply negb_false_iff in H end. split; eauto with ibc.
Qed.

Lemma Channel_ValidateBasic_ordering ch u : Channel_ValidateBasic ch = Ok u → ordering_ok (Channel_Ordering ch).
Proof.
  unfold Channel_ValidateBasic. case_bool_decide; [done|]. destruct (negb _) eqn:E; [done|]. intros _.
  apply negb_false_iff, orb_true_iff in E as [E|E]; apply bool_decide_eq_true in E; unfold ordering_ok; auto.
Qed.

Lemma Packet_ValidateBasic_Ok p u :
  Packet_ValidateBasic p = Ok u →
  ids_ok (SourcePort p) (SourceChannel p) ∧ ids_ok (DestinationPort p) (DestinationChannel p) ∧
  Sequence p ≠ 0%N ∧ Data p ≠ "".
Proof.
  unfold Packet_ValidateBasic. intros E.
  repeat case_match; simplify_eq; out_inv.
  split_and!; try (split; eauto with ibc); [by apply N.eqb_neq|].
  intros Hd. rewrite Hd in *. by case_bool_decide.
Qed.

(** ** Transactions *)
Section transactions.
Context {SE : SdkEncoding} {LC : LightClient} {CD : Codec} {CK : CapabilityKeeper} {AP : Application}
  {SC : SelfClient} {BE : Bech32}.
Variable rtr : Router.


Lemma counterparty_versions_present vs u :
  validate_counterparty_versions vs = Ok u → ∃ l, mapM (M := option) id vs = Some l.
Proof.
  revert u. induction vs as [|v vs IH]; intros u E; [by exists []|]. cbn in E. out_inv.
  destruct (IH _ E) as [l Hl]. destruct v as [v|]; [|done]. exists (v :: l). simpl. by rewrite Hl.
Qed.

Lemma ValidateVersion_present v u : connectiontypes.ValidateVersion v = Ok u → ∃ x, v = Some x.
Proof. destruct v as [v|]; [by exists v|done]. Qed.

Ltac head_of t := lazymatch t with ?f _ => head_of f | _ => t end.
(** Unfold the stateless checks of a message and invert them. *)
Ltac validated :=
  match goal with H : ?f _ = Ok _ |- _ => let g := head_of f in unfold g in H end; out_inv.


Lemma validated_msg_ok m :
  ValidateBasic m = Ok tt → ∃ x, handled m = Some x ∧ msg_ok x.
Proof.
  destruct m; cbn [ValidateBasic handled]; intros E; validated;
    try (eexists; split; [reflexivity|]; cbn [msg_ok]);
    repeat match goal with
    | H : check_channel_ids _ _ = Ok _ |- ids_ok _ _ => by eapply check_channel_ids_ok
    | H : Packet_ValidateBasic _ = Ok _ |- _ => apply Packet_ValidateBasic_Ok in H as (? & ? & _)
    | H : Channel_ValidateBasic _ = Ok _ |- _ => apply Channel_ValidateBasic_ordering in H
    end; try done.
  - match goal with H : validate_counterparty_versions _ = _ |- _ => apply counterparty_versions_present in H as [l ->] end.
    eexists. split; [reflexivity|done].
  - match goal with H : connectiontypes.ValidateVersion _ = _ |- _ => apply ValidateVersion_present in H as [l ->] end.
    eexists. split; [reflexivity|done].
  - split; [done|]. match goal with H : negb _ && _ = false |- _ => apply andb_false_iff in H as [Hp|Hp] end.
    + apply negb_false_iff, bool_decide_eq_true in Hp as ->. done.
    + apply negb_false_iff in Hp. eauto with ibc.
Qed.



(** An application may send packets in its callbacks. *)
Lemma SendPacket_drives ctx cap pkt : drives action_ok ranged (SendPacket ctx cap pkt).
Proof. apply drives_send. by intros (? & _)%Packet_ValidateBasic_Ok. Qed.

(** The life of a chain whose IBC messages come in transactions: messages that pass
    their stateless checks and are handled successfully, in between successful
    operations of applications. *)
Inductive tx_run : World → World → Prop :=
  | tx_nil w : tx_run w w
  | tx_message ctx m w1 w2 w3 :
      in_range w1 = true → ranged w2 = true → process rtr ctx m w1 = (w2, Ok tt) → tx_run w2 w3 → tx_run w1 w3
  | tx_action a w1 w2 w3 :
      action_ok a → in_range w1 = true → exec a w1 = (w2, Ok tt) → tx_run w2 w3 → tx_run w1 w3.

Lemma process_Ok ctx m w w' :
  process rtr ctx m w = (w', Ok tt) →
  ∃ x, ValidateBasic m = Ok tt ∧ handled m = Some x ∧ msg_ok x ∧ deliver rtr ctx x w = (w', Ok tt).
Proof.
  unfold process. intros (u & w0 & [Hv <-]%lift_Ok & H)%bind_Ok. destruct u.
  destruct (validated_msg_ok m Hv) as (x & Hx & Hok). exists x. rewrite Hx in H. done.
Qed.

Lemma tx_run_chain w w' : tx_run w w' → chain_run rtr w w'.
Proof.
  induction 1 as [|ctx m w1 w2 w3 Hr1 Hr2 E _ IH|a w1 w2 w3 Ha Hr E _ IH]; [constructor| |by eapply chain_action].
  apply process_Ok in E as (x & _ & _ & Hok & E). by eapply chain_deliver.
Qed.

Lemma process_rejected ctx m w :
  (∀ x, handled m = Some x → same_state w (deliver rtr ctx x w).1) → same_state w (process rtr ctx m w).1.
Proof.
  intros H. unfold process, bind, lift. destruct (ValidateBasic m) as [[]|e|]; [|done..].
  destruct (handled m) as [x|]; [by apply H|done].
Qed.

(** The packet that a message settles on the chain that sent it. *)
Definition settles (m : sdk_Msg) : option Packet := handled m ≫= settling_packet.

(** C1: Exactly-once delivery.  In the life of a chain, after a [MsgRecvPacket] that passed
    its stateless checks and had an effect, no later [MsgRecvPacket] for the same
    destination and sequence changes any state, whatever its data, proof, signer and
    outcome: the application's [OnRecvPacket] is committed at most once per packet.  The
    applications are [lawful]: their callbacks for packets and for closing channels may do
    whatever they like outside the channel store and run the keepers' own operations on it
    ([SendPacket], [WriteAcknowledgement], [ChanCloseInit] and so on), their callbacks of
    the handshake leave the channel store alone; and no counter of the chain wraps around
    ([in_range] before, [ranged] after every message). *)
Theorem packet_effective_once w0 w w1 w2 ctx m ctx' m' :
  lawful_router rtr action_ok ranged → genesis w0 → tx_run w0 w → in_range w = true → ranged w1 = true →
  process rtr ctx (RecvPacket_msg m) w = (w1, Ok tt) → ¬ same_state w w1 → tx_run w1 w2 →
  DestinationPort (recv_Packet m') = DestinationPort (recv_Packet m) →
  DestinationChannel (recv_Packet m') = DestinationChannel (recv_Packet m) →
  Sequence (recv_Packet m') = Sequence (recv_Packet m) →
  same_state w2 (process rtr ctx' (RecvPacket_msg m') w2).1.
Proof.
  intros Hp Hg Hr0 Hr Hr1 (x & _ & [= <-] & Hok & E)%process_Ok Hne Hr2 Hport Hchan Hseq.
  apply process_rejected. intros x [= <-].
  by eapply (receive_message_effective_once rtr w0 w w1 w2 ctx m); try apply tx_run_chain.
Qed.

(** C2: A sent packet is settled at most once.  After a [MsgAcknowledgement], [MsgTimeout] or
    [MsgTimeoutOnClose] that passed its stateless checks and had an effect, no later
    message of these three kinds for the same source and sequence changes any state: a
    refund and an acknowledgement never both happen, nor either twice.  The applications
    are [lawful], as for the delivery of packets: what their callbacks do to the channel
    store they do through the keepers' operations; and no counter wraps around. *)
Theorem settlement_effective_once w0 w w1 w2 ctx m pkt ctx' m' pkt' :
  lawful_router rtr action_ok ranged → genesis w0 → tx_run w0 w → settles m = Some pkt →
  in_range w = true → ranged w1 = true →
  process rtr ctx m w = (w1, Ok tt) → ¬ same_state w w1 → tx_run w1 w2 → settles m' = Some pkt' →
  SourcePort pkt' = SourcePort pkt → SourceChannel pkt' = SourceChannel pkt → Sequence pkt' = Sequence pkt →
  same_state w2 (process rtr ctx' m' w2).1.
Proof.
  intros Hp Hg Hr0 Hm Hr Hr1 (x & _ & Hx & Hok & E)%process_Ok Hne Hr2 Hm' Hport Hchan Hseq.
  unfold settles in *. rewrite Hx in Hm. simpl in Hm.
  apply process_rejected. intros x' Hx'. rewrite Hx' in Hm'. simpl in Hm'.
  by eapply (settling_message_effective_once rtr w0 w w1 w2 ctx x pkt ctx' x' pkt'); try apply tx_run_chain.
Qed.

(** C11: Transactions refine the channel machine.  Every one of the eighteen IBC messages that
    passes its stateless checks and is handled successfully (unpacking, routing, cached
    contexts, application callbacks and final writes included) preserves the invariant
    of the channel store and takes every channel end through steps of the abstract
    channel machine [astep], with applications that leave the IBC store to the keepers. *)
Theorem transactions_refine_channels ctx m w w' :
  polite_router rtr → well_formed w → in_range w = true → in_range w' = true →
  process rtr ctx m w = (w', Ok tt) →
  well_formed w' ∧ ∀ p c, ids_ok p c → arun (view w p c) (view w' p c).
Proof. intros Hp Hwf Hr Hr' (x & _ & _ & Hok & E)%process_Ok. by eapply messages_refine_channels. Qed.

End transactions.

(** ** Concrete transactions *)
Module TxWitness.
Import ToyInstances Scenario ChannelWitness MsgWitness.
#[local] Existing Instance toy_bech32.

(** An application that answers: it sends a packet of its own on the channel of every
    packet it receives, and another one when a packet is acknowledged. *)
Definition send_next (ctx : Context) (p c cp cc : string) : M unit :=
  let! n := GetNextSequenceSend p c in
  SendPacket ctx 1%N (NewPacket "reply" (default 0%N n) p c cp cc (NewHeight 1 60) 0).
Definition answering : IBCModule := {|
  OnChanOpenInit := λ _ _ _ _ _ _ _ _, ret tt;
  OnChanOpenTry := λ _ _ _ _ _ _ _ _, ret "";
  OnChanOpenAck := λ _ _ _ _, ret tt;
  OnChanOpenConfirm := λ _ _ _, ret tt;
  OnChanCloseInit := λ _ _ _, ret tt;
  OnChanCloseConfirm := λ _ _ _, ret tt;
  OnRecvPacket := λ ctx p _,
    note "received" (Data p) ;;;
    send_next ctx (DestinationPort p) (DestinationChannel p) (SourcePort p) (SourceChannel p) ;;;
    ret (Some (mkAck true "ack"));
  OnAcknowledgementPacket := λ ctx p a _,
    note "acknowledged" a ;;;
    send_next ctx (SourcePort p) (SourceChannel p) (DestinationPort p) (DestinationChannel p);
  OnTimeoutPacket := λ _ p _, note "timed out" (Data p) |}.
Definition router2 : Router := mkRouter {["transfer" := answering]} true.

Lemma send_next_drives ctx p c cp cc : drives action_ok ranged (send_next ctx p c cp cc).
Proof.
  apply drives_bind; [|intros n; apply SendPacket_drives].
  by apply drives_keeps; [|apply ranged_range|apply ranged_agree|].
Qed.
Lemma answering_lawful : lawful action_ok ranged answering.
Proof.
  assert (∀ A (m : M A), keeps ibc m → drives action_ok ranged m) as Hk by
    (intros A m; by apply drives_keeps; [|apply ranged_range|apply ranged_agree]).
  split; intros; try done; try (by apply Hk); cbn [OnRecvPacket OnAcknowledgementPacket answering].
  - apply drives_bind; [by apply Hk|intros _]. apply drives_bind; [apply send_next_drives|intros _; by apply Hk].
  - apply drives_bind; [by apply Hk|intros _]. apply send_next_drives.
Qed.
Lemma router2_lawful : lawful_router router2 action_ok ranged.
Proof.
  intros m cbs. unfold GetRoute. destruct (negb _); [done|]. cbn [routes router2]. intros [_ <-]%lookup_singleton_Some.
  apply answering_lawful.
Qed.

Definition answeredB : World := (process router2 ctxB (RecvPacket_msg recv_msg) openB_world).1.
Definition answeredA : World := (process router2 ctxA (Acknowledgement_msg ack_msg) sentA).1.
Lemma answeredB_process : process router2 ctxB (RecvPacket_msg recv_msg) openB_world = (answeredB, Ok tt).
Proof. unfold answeredB. apply run_pair. vm_compute. reflexivity. Defined.
Lemma answeredA_process : process router2 ctxA (Acknowledgement_msg ack_msg) sentA = (answeredA, Ok tt).
Proof. unfold answeredA. apply run_pair. vm_compute. reflexivity. Defined.
(** The callbacks did send. *)
Lemma answers_sent :
  next_send openB_world "transfer" "channel-1" = Some 1%N ∧ next_send answeredB "transfer" "channel-1" = Some 2%N ∧
  next_send sentA "transfer" "channel-0" = Some 2%N ∧ next_send answeredA "transfer" "channel-0" = Some 3%N.
Proof. split_and!; vm_compute; reflexivity. Qed.
Lemma answeredB_changes : ¬ same_state openB_world answeredB.
Proof.
  intros H%same_state_app. apply (f_equal (lookup "received")) in H. vm_compute in H. discriminate H.
Defined.
Lemma answeredA_changes : ¬ same_state sentA answeredA.
Proof.
  intros H%same_state_app. apply (f_equal (lookup "acknowledged")) in H. vm_compute in H. discriminate H.
Defined.

Lemma run_tx rtr w w' : run w w' → tx_run rtr w w'.
Proof. induction 1; [constructor|by eapply tx_action]. Qed.

Lemma received_process : process router ctxB (RecvPacket_msg recv_msg) openB_world = (receivedB, Ok tt).
Proof. unfold receivedB. apply run_pair. vm_compute. reflexivity. Defined.

Lemma transactions_refine_channels_witness : well_formed receivedB.
Proof.
  destruct (transactions_refine_channels router ctxB (RecvPacket_msg recv_msg) openB_world receivedB) as [H _].
  - apply router_polite.
  - eapply run_well_formed; [apply genesis_well_formed, base_genesis|apply opensB_run; by right].
  - by_vm.
  - by_vm.
  - apply received_process.
  - exact H.
Defined.

Lemma packet_effective_once_witness :
  same_state answeredB (process router2 ctxB (RecvPacket_msg recv_again) answeredB).1.
Proof.
  apply (packet_effective_once router2 (genesisB UNORDERED) openB_world answeredB answeredB ctxB recv_msg).
  - apply router2_lawful.
  - apply base_genesis.
  - apply run_tx, opensB_run. by right.
  - by_vm.
  - by_vm.
  - apply answeredB_process.
  - apply answeredB_changes.
  - constructor.
  - done.
  - done.
  - done.
Defined.

Lemma settlement_effective_once_witness :
  same_state answeredA (process router2 ctxA (Timeout_msg to_msg) answeredA).1.
Proof.
  apply (settlement_effective_once router2 (genesisA UNORDERED) sentA answeredA answeredA ctxA (Acknowledgement_msg ack_msg)
    packet ctxA (Timeout_msg to_msg) packet).
  - apply router2_lawful.
  - apply base_genesis.
  - apply run_tx, sentA_run. by right.
  - done.
  - by_vm.
  - by_vm.
  - apply answeredA_process.
  - apply answeredA_changes.
  - constructor.
  - done.
  - done.
  - done.
  - done.
Defined.

End TxWitness.
