(* ===== verification/TransferTypes.v ===== *)
(** * Types of the fungible token transfer application ([apps/transfer/types])

    Denomination traces ([trace.go]), source zones ([coin.go]), escrow addresses
    ([keys.go]), packet data ([packet.go]) and messages ([msgs.go]).  Integers,
    denomination syntax and hash printing belong to cosmos-sdk and tendermint and are
    parameters ([SdkTypes]). *)
From S2P Require Import Prelude GoMonad Errors Sha256 Height Host Sdk ConnectionTypes.
From S2P Require Import ChannelTypes.
From Stdlib Require Import Ascii.

(** [sdk.Coin] *)
Record Coin := mkCoin { Denom : string; Amount : Z }.
#[export] Instance Coin_eq_dec : EqDecision Coin.
Proof. solve_decision. Defined.

(** What the module uses of cosmos-sdk's and tendermint's types: [sdk.NewIntFromString]
    and [Int.String] (integers of at most 255 bits), [sdk.ValidateDenom],
    [sdk.NewCoin] (panics on an invalid denomination or a negative amount),
    [Coin.IsValid], [tmtypes.ValidateHash] and [HexBytes.String]. *)
Class SdkTypes := {
  NewIntFromString : string → option Z;
  Int_String : Z → string;
  ValidateDenom : string → outcome unit;
  NewCoin : string → Z → outcome Coin;
  Coin_IsValid : Coin → bool;
  ValidateHash : string → outcome unit;
  HexBytes_String : string → string;
  Int_roundtrip a : (0 ≤ a < 2 ^ 255)%Z → NewIntFromString (Int_String a) = Some a;
  NewCoin_Ok d a c : NewCoin d a = Ok c → c = mkCoin d a ∧ (0 ≤ a)%Z;
  NewCoin_valid d a : ValidateDenom d = Ok tt → (0 ≤ a)%Z → NewCoin d a = Ok (mkCoin d a);
  ValidateHash_32 h : String.length h = 32 → ValidateHash h = Ok tt;
  hex_roundtrip h : hex_DecodeString (HexBytes_String h) = Some h }.

Module transfertypes.

Definition ModuleName : string := "transfer".
Definition Version : string := "ics20-1".
Definition PortID : string := "transfer".
Definition DenomPrefix : string := "ibc".
Definition PortKey : string := String "001" "".
Definition DenomTraceKey : string := String "002" "".

(** ** Denomination traces *)
Record DenomTrace := mkDenomTrace { Path : string; BaseDenom : string }.
#[export] Instance DenomTrace_eq_dec : EqDecision DenomTrace.
Proof. solve_decision. Defined.

(** [strings.Split] never returns an empty slice. *)
Definition ParseDenomTrace (rawDenom : string) : DenomTrace :=
  let denomSplit := Split rawDenom "/" in
  if bool_decide (head denomSplit = Some rawDenom) then mkDenomTrace "" rawDenom
  else mkDenomTrace (Join (removelast denomSplit) "/") (List.last denomSplit "").

Definition GetPrefix (dt : DenomTrace) : string := Path dt +:+ "/".
Definition GetFullDenomPath (dt : DenomTrace) : string :=
  if bool_decide (Path dt = "") then BaseDenom dt else GetPrefix dt +:+ BaseDenom dt.
Definition DenomTrace_Hash (dt : DenomTrace) : string := sha256_Sum256 (GetFullDenomPath dt).

(** The loop over the identifiers, in pairs. *)
Fixpoint validate_pairs (identifiers : list string) : outcome unit :=
  match identifiers with
  | p :: c :: rest =>
      match PortIdentifierValidator p with
      | Ok _ =>
          match ChannelIdentifierValidator c with
          | Ok _ => validate_pairs rest
          | Err e => Err (Wrap e)
          | Panic => Panic
          end
      | Err e => Err (Wrap e)
      | Panic => Panic
      end
  | _ => Ok tt
  end.
Definition validateTraceIdentifiers (identifiers : list string) : outcome unit :=
  if bool_decide (length identifiers = 0) || negb (Nat.even (length identifiers)) then Err fmt_Errorf
  else validate_pairs identifiers.

Definition DenomTrace_Validate (dt : DenomTrace) : outcome unit :=
  if bool_decide (Path dt = "") && bool_decide (BaseDenom dt ≠ "") then Ok tt
  else if blank (BaseDenom dt) then Err fmt_Errorf
  else validateTraceIdentifiers (Split (Path dt) "/").

Definition ValidatePrefixedDenom (denom : string) : outcome unit :=
  let denomSplit := Split denom "/" in
  if bool_decide (head denomSplit = Some denom) && negb (blank denom) then Ok tt
  else if blank (List.last denomSplit "") then Err (Wrap TransferErr.ErrInvalidDenomForTransfer)
  else validateTraceIdentifiers (removelast denomSplit).

(** ** Source zones *)
Definition GetDenomPrefix (portID channelID : string) : string := portID +:+ "/" +:+ channelID +:+ "/".
Definition GetPrefixedDenom (portID channelID baseDenom : string) : string :=
  portID +:+ "/" +:+ channelID +:+ "/" +:+ baseDenom.
Definition ReceiverChainIsSource (sourcePort sourceChannel denom : string) : bool :=
  HasPrefix denom (GetDenomPrefix sourcePort sourceChannel).
Definition SenderChainIsSource (sourcePort sourceChannel denom : string) : bool :=
  negb (ReceiverChainIsSource sourcePort sourceChannel denom).

(** [GetEscrowAddress]: the first 20 bytes of the ADR 028 hash. *)
Definition GetEscrowAddress (portID channelID : string) : string :=
  let contents := portID +:+ "/" +:+ channelID in
  String.substring 0 20 (sha256_Sum256 (Version +:+ String "000" "" +:+ contents)).

(** ** Packet data *)
Record FungibleTokenPacketData := NewFungibleTokenPacketData {
  data_Denom : string; data_Amount : string; data_Sender : string; data_Receiver : string }.

Record MsgTransfer := NewMsgTransfer {
  SourcePort : string; SourceChannel : string; Token : Coin; Sender : string; Receiver : string;
  TimeoutHeight : Height; TimeoutTimestamp : N }.

Record Params := NewParams { SendEnabled : bool; ReceiveEnabled : bool }.
Definition DefaultParams : Params := NewParams true true.

Section types.
Context {SY : SdkTypes}.

(** [fmt.Sprintf("%s/%s", DenomPrefix, dt.Hash())]: the hash prints as its hex string. *)
Definition IBCDenom (dt : DenomTrace) : string :=
  if bool_decide (Path dt ≠ "") then DenomPrefix +:+ "/" +:+ HexBytes_String (DenomTrace_Hash dt)
  else BaseDenom dt.

Definition GetTransferCoin (portID channelID baseDenom : string) (amount : Z) : outcome Coin :=
  NewCoin (IBCDenom (ParseDenomTrace (GetPrefixedDenom portID channelID baseDenom))) amount.

Definition ParseHexHash (hexHash : string) : outcome string :=
  match hex_DecodeString hexHash with
  | None => Err hex_DecodeError
  | Some hash =>
      match ValidateHash hash with
      | Ok _ => Ok hash
      | Err e => Err e
      | Panic => Panic
      end
  end.

(** [strings.SplitN(s, "/", 2)] *)
Definition SplitN2 (s : string) : list string :=
  match Split s "/" with
  | x :: ((_ :: _) as rest) => [x; Join rest "/"]
  | l => l
  end.

Definition ValidateIBCDenom (denom : string) : outcome unit :=
  match ValidateDenom denom with
  | Ok _ =>
      let denomSplit := SplitN2 denom in
      let d0 := nth 0 denomSplit "" in
      let d1 := nth 1 denomSplit "" in
      if blank denom
         || (bool_decide (length denomSplit = 1) && bool_decide (d0 = DenomPrefix))
         || (bool_decide (length denomSplit = 2) && (bool_decide (d0 ≠ DenomPrefix) || blank d1))
      then Err (Wrap TransferErr.ErrInvalidDenomForTransfer)
      else if bool_decide (d0 = denom) && negb (blank denom) then Ok tt
      else match ParseHexHash d1 with
           | Ok _ => Ok tt
           | Err e => Err (Wrap e)
           | Panic => Panic
           end
  | Err e => Err e
  | Panic => Panic
  end.

Definition data_ValidateBasic (ftpd : FungibleTokenPacketData) : outcome unit :=
  match NewIntFromString (data_Amount ftpd) with
  | None => Err (Wrap TransferErr.ErrInvalidAmount)
  | Some amount =>
      if negb (0 <? amount)%Z then Err (Wrap TransferErr.ErrInvalidAmount)
      else if blank (data_Sender ftpd) then Err (Wrap sdkerrors.ErrInvalidAddress)
      else if blank (data_Receiver ftpd) then Err (Wrap sdkerrors.ErrInvalidAddress)
      else ValidatePrefixedDenom (data_Denom ftpd)
  end.

Definition MsgTransfer_ValidateBasic {BE : Bech32} (msg : MsgTransfer) : outcome unit :=
  match PortIdentifierValidator (SourcePort msg) with
  | Err e => Err (Wrap e) | Panic => Panic
  | Ok _ =>
      match ChannelIdentifierValidator (SourceChannel msg) with
      | Err e => Err (Wrap e) | Panic => Panic
      | Ok _ =>
          if negb (Coin_IsValid (Token msg)) then Err (Wrap sdkerrors.ErrInvalidCoins)
          else if negb (0 <? Amount (Token msg))%Z then Err (Wrap sdkerrors.ErrInsufficientFunds)
          else match AccAddressFromBech32 (Sender msg) with
               | Err _ => Err (Wrap sdkerrors.ErrInvalidAddress) | Panic => Panic
               | Ok _ =>
                   if blank (Receiver msg) then Err (Wrap sdkerrors.ErrInvalidAddress)
                   else ValidateIBCDenom (Denom (Token msg))
               end
      end
  end.
End types.
End transfertypes.

(** ** Traces and denominations *)
Section traces.
Import transfertypes.

Lemma Join_snoc (l : list string) (x sep : string) : l ≠ [] → Join (l ++ [x]) sep = Join l sep +:+ sep +:+ x.
Proof.
  induction l as [|y l IH]; [done|]. intros _. destruct l as [|z l]; [done|].
  change ((y :: z :: l) ++ [x]) with (y :: z :: (l ++ [x])). rewrite !Join_cons.
  change (z :: l ++ [x]) with ((z :: l) ++ [x]). rewrite IH by done. by rewrite !app_assoc_str.
Qed.

Lemma Split_snoc (p b : string) : no_char "/" b = true → Split (p +:+ "/" +:+ b) "/" = Split p "/" ++ [b].
Proof.
  intros Hb. rewrite <- (Join_Split "/" p) at 1. rewrite <- Join_snoc by apply Split_not_nil.
  apply Split_Join; [by destruct (Split p "/")|]. apply Forall_app. split; [apply Split_pieces|by constructor].
Qed.

Lemma no_char_sep (p b : string) : no_char "/" (p +:+ "/" +:+ b) = false.
Proof. rewrite !no_char_app. cbn. by rewrite andb_false_r. Qed.

Lemma ParseDenomTrace_base s : no_char "/" s = true → ParseDenomTrace s = mkDenomTrace "" s.
Proof. intros H. unfold ParseDenomTrace. by rewrite Split_no_char, bool_decide_eq_true_2. Qed.

Lemma ParseDenomTrace_path p b : no_char "/" b = true → ParseDenomTrace (p +:+ "/" +:+ b) = mkDenomTrace p b.
Proof.
  intros Hb. unfold ParseDenomTrace. rewrite Split_snoc by done. rewrite bool_decide_eq_false_2.
  - by rewrite removelast_last, List.last_last, Join_Split.
  - pose proof (Split_pieces "/" p) as Hp. destruct (Split p "/") as [|x l] eqn:E; [by apply Split_not_nil in E|].
    intros [= Hx]. apply Forall_cons_iff in Hp as [Hp _]. rewrite Hx, no_char_sep in Hp. done.
Qed.

Lemma slash_cases (s : string) :
  no_char "/" s = true ∨ ∃ p b, s = p +:+ "/" +:+ b ∧ no_char "/" b = true.
Proof.
  destruct (no_char "/" s) eqn:E; [by left|right].
  pose proof (Split_pieces "/" s) as Hp. pose proof (Join_Split "/" s) as Hj.
  destruct (exists_last (Split_not_nil s "/")) as (l & x & Hl). rewrite Hl in Hp, Hj.
  apply Forall_app in Hp as [Hp Hx]. apply Forall_cons_iff in Hx as [Hx _].
  destruct l as [|y l]; [simpl in Hj; congruence|].
  exists (Join (y :: l) "/"), x. split; [|done]. by rewrite <- Join_snoc.
Qed.

(** A path that [ParseDenomTrace] keeps: a base denomination, or a trace whose first
    identifier is not empty. *)
Definition plain (s : string) : Prop := no_char "/" s = true ∨ Path (ParseDenomTrace s) ≠ "".

Lemma path_full s : Path (ParseDenomTrace s) ≠ "" → GetFullDenomPath (ParseDenomTrace s) = s.
Proof.
  intros H. unfold GetFullDenomPath. rewrite bool_decide_eq_false_2 by done.
  destruct (slash_cases s) as [Hs|(p & b & -> & Hb)].
  - by rewrite ParseDenomTrace_base in H.
  - rewrite ParseDenomTrace_path by done. unfold GetPrefix. simpl. by rewrite app_assoc_str.
Qed.

Lemma plain_full s : plain s → GetFullDenomPath (ParseDenomTrace s) = s.
Proof. intros [H|H]; [by rewrite ParseDenomTrace_base|by apply path_full]. Qed.

Lemma trace_full t : Path t ≠ "" → no_char "/" (BaseDenom t) = true → ParseDenomTrace (GetFullDenomPath t) = t.
Proof.
  intros Hp Hb. unfold GetFullDenomPath, GetPrefix. rewrite bool_decide_eq_false_2 by done.
  rewrite app_assoc_str, ParseDenomTrace_path by done. by destruct t.
Qed.

(** A prefixed denomination always has a trace. *)
Lemma prefixed_path p c d : Path (ParseDenomTrace (GetDenomPrefix p c +:+ d)) ≠ "".
Proof.
  unfold GetDenomPrefix. destruct (slash_cases d) as [Hd|(q & b & -> & Hb)].
  - replace (_ +:+ d) with ((p +:+ "/" +:+ c) +:+ "/" +:+ d) by (by rewrite !app_assoc_str).
    rewrite ParseDenomTrace_path by done. by destruct p.
  - replace (_ +:+ _ +:+ _ +:+ b) with ((p +:+ "/" +:+ c +:+ "/" +:+ q) +:+ "/" +:+ b)
      by (by rewrite !app_assoc_str).
    rewrite ParseDenomTrace_path by done. by destruct p.
Qed.

Lemma hex_no_slash s b : hex_DecodeString s = Some b → no_char "/" s = true.
Proof.
  revert b. induction s as [s IH] using (induction_ltof1 _ String.length). intros b.
  destruct s as [|x [|y s]]; [done|done|]. cbn [hex_DecodeString].
  destruct (hex_value x) as [u|] eqn:Ex; [|done]. destruct (hex_value y) as [v|] eqn:Ey; [|done].
  destruct (hex_DecodeString s) as [r|] eqn:Es; [|done]. intros _.
  assert (Hne : ∀ c n, hex_value c = Some n → negb (Ascii.eqb c "/") = true).
  { intros c n Hc. destruct (Ascii.eqb c "/") eqn:E; [|done]. apply Ascii.eqb_eq in E as ->. done. }
  unfold no_char in *. cbn [str_all]. rewrite (Hne _ _ Ex), (Hne _ _ Ey). cbn [andb].
  eapply IH; [|exact Es]. unfold ltof. simpl. lia.
Qed.

Context {SY : SdkTypes}.

Lemma IBCDenom_path s :
  Path (ParseDenomTrace s) ≠ "" → IBCDenom (ParseDenomTrace s) = "ibc/" +:+ HexBytes_String (sha256_Sum256 s).
Proof.
  intros H. unfold IBCDenom, DenomTrace_Hash. by rewrite bool_decide_eq_true_2, path_full by done.
Qed.
Lemma IBCDenom_base s : no_char "/" s = true → IBCDenom (ParseDenomTrace s) = s.
Proof. intros H. by rewrite ParseDenomTrace_base. Qed.

Lemma ibc_denom_path h : Path (ParseDenomTrace ("ibc/" +:+ HexBytes_String h)) = "ibc".
Proof.
  change ("ibc/" +:+ HexBytes_String h) with ("ibc" +:+ "/" +:+ HexBytes_String h).
  by rewrite ParseDenomTrace_path by (eapply hex_no_slash, hex_roundtrip).
Qed.
Lemma ibc_denom_slash h : no_char "/" ("ibc/" +:+ HexBytes_String h) = false.
Proof. by rewrite no_char_app. Qed.

Lemma hex_inj h h' : HexBytes_String h = HexBytes_String h' → h = h'.
Proof. intros E. pose proof (hex_roundtrip h) as H. rewrite E, hex_roundtrip in H. by injection H. Qed.

(** Two paths do not collide under SHA-256. *)
Definition collision_free (s s' : string) : Prop := sha256_Sum256 s = sha256_Sum256 s' → s = s'.

Lemma ibc_denom_inj s d : "ibc/" +:+ HexBytes_String (sha256_Sum256 s) = "ibc/" +:+ HexBytes_String (sha256_Sum256 d) →
  collision_free s d → s = d.
Proof. intros E Hc. apply Hc, hex_inj. by apply app_inj_length in E as [_ ?]. Qed.

(** The denomination that is released from escrow for the path [s]. *)
Definition escrowed_denom (s : string) : string :=
  if bool_decide (Path (ParseDenomTrace s) ≠ "") then IBCDenom (ParseDenomTrace s) else s.

Lemma escrowed_plain s : plain s → escrowed_denom s = IBCDenom (ParseDenomTrace s).
Proof.
  unfold escrowed_denom. case_bool_decide; [done|]. intros [H'|H']; [by rewrite IBCDenom_base|done].
Qed.

Lemma escrowed_inj s d :
  escrowed_denom s = IBCDenom (ParseDenomTrace d) → collision_free s d → plain d → s = d.
Proof.
  unfold escrowed_denom. intros E Hc [Hd|Hd].
  - rewrite (IBCDenom_base d Hd) in E. case_bool_decide as Hs; [|done].
    rewrite IBCDenom_path in E by done. rewrite <- E, ibc_denom_slash in Hd. done.
  - rewrite (IBCDenom_path d Hd) in E. case_bool_decide as Hs.
    + rewrite IBCDenom_path in E by done. by apply ibc_denom_inj.
    + subst s. rewrite ibc_denom_path in Hs. naive_solver.
Qed.

Lemma IBCDenom_inj s d :
  plain s → plain d → IBCDenom (ParseDenomTrace s) = IBCDenom (ParseDenomTrace d) → collision_free s d → s = d.
Proof. intros Hs Hd E Hc. apply escrowed_inj; [by rewrite escrowed_plain|done..]. Qed.

Lemma plain_valid d : ValidatePrefixedDenom d = Ok tt → plain d.
Proof.
  destruct (slash_cases d) as [H|(p & b & -> & Hb)]; [by left|right].
  rewrite ParseDenomTrace_path by done. simpl. intros ->.
  revert H. unfold ValidatePrefixedDenom. rewrite Split_snoc by done.
  change (Split "" "/" ++ [b]) with [""; b]. simpl. by destruct (blank b).
Qed.

(** Denomination paths survive the round trip through traces, prefixing and the
    [ibc/] hash.  A valid path is what its trace prints.  The prefix that a receiving
    chain adds is the one by which it recognises the token on its way back, and
    removing it restores the path.  Two valid paths have the same bank denomination
    only if they are the same path, or collide under SHA-256. *)
Theorem denomination_paths d d' p c :
  ValidatePrefixedDenom d = Ok tt → ValidatePrefixedDenom d' = Ok tt →
  GetFullDenomPath (ParseDenomTrace d) = d ∧
  GetFullDenomPath (ParseDenomTrace (GetDenomPrefix p c +:+ d)) = GetDenomPrefix p c +:+ d ∧
  ReceiverChainIsSource p c (GetDenomPrefix p c +:+ d) = true ∧
  str_drop (String.length (GetDenomPrefix p c)) (GetDenomPrefix p c +:+ d) = d ∧
  (IBCDenom (ParseDenomTrace d) = IBCDenom (ParseDenomTrace d') → d = d' ∨ ¬ collision_free d d').
Proof.
  intros Hd%plain_valid Hd'%plain_valid. split_and!.
  - by apply plain_full.
  - apply path_full, prefixed_path.
  - unfold ReceiverChainIsSource. apply HasPrefix_app.
  - apply str_drop_app.
  - intros E. destruct (decide (d = d')) as [|Hne]; [by left|right].
    intros Hc. by apply Hne, IBCDenom_inj.
Qed.
End traces.

Module TraceWitness.
Import transfertypes.

(** Decimal amounts, any denomination, lower-case hex. *)
Definition plain_int (s : string) : option Z :=
  if bool_decide (s ≠ "") && str_all is_digit s then Some (Z.of_N (digits_value 0 s)) else None.

Lemma hex_value_digit n : (n < 16)%N → hex_value (hex_digit n) = Some n.
Proof.
  intros H. assert (Hall : Forall (λ k, hex_value (hex_digit (N.of_nat k)) = Some (N.of_nat k)) (seq 0 16))
    by (repeat constructor).
  rewrite Forall_seq in Hall. rewrite <- (N2Nat.id n). apply Hall. lia.
Qed.
Lemma hex_decode_encode s : hex_DecodeString (hex_EncodeToString s) = Some s.
Proof.
  induction s as [|c s IH]; [done|]. cbn [hex_EncodeToString hex_DecodeString].
  pose proof (N_ascii_bounded c).
  rewrite !hex_value_digit, IH by (first [by apply N.mod_lt|apply N.Div0.div_lt_upper_bound; lia]).
  by rewrite <- N.div_mod, ascii_N_embedding.
Qed.

Definition toy_sdk : SdkTypes.
Proof.
  refine {| NewIntFromString := plain_int; Int_String := λ a, fmt_u64 (Z.to_N a); ValidateDenom := λ _, Ok tt;
    NewCoin := λ d a, if (0 <=? a)%Z then Ok (mkCoin d a) else Panic; Coin_IsValid := λ _, true;
    ValidateHash := λ h, if bool_decide (String.length h = 32) then Ok tt else Err fmt_Errorf;
    HexBytes_String := hex_EncodeToString |}.
  - intros a [Ha _]. unfold plain_int. rewrite fmt_u64_digits, bool_decide_eq_true_2 by apply fmt_u64_not_empty.
    simpl. by rewrite fmt_u64_value, Z2N.id.
  - intros d a c. destruct (0 <=? a)%Z eqn:E; [|done]. intros [= <-]. split; [done|]. by apply Z.leb_le.
  - intros d a _ Ha. by rewrite (proj2 (Z.leb_le 0 a)).
  - intros h Hh. by rewrite bool_decide_eq_true_2.
  - apply hex_decode_encode.
Defined.
#[local] Existing Instance toy_sdk.

Lemma denomination_paths_witness :
  GetFullDenomPath (ParseDenomTrace "transfer/channel-7/uatom") = "transfer/channel-7/uatom".
Proof.
  destruct (denomination_paths "transfer/channel-7/uatom" "uatom" "transfer" "channel-1") as [H _];
    [vm_compute; reflexivity..|exact H].
Defined.
End TraceWitness.
