(* ===== verification/TransferKeeper.v ===== *)
(** * The fungible token transfer application ([apps/transfer])

    The keeper ([keeper/keeper.go], [params.go], [relay.go], [msg_server.go],
    [genesis.go]) and the callbacks that make it an IBC application
    ([ibc_module.go]).  The bank module is a parameter with its documented effect on
    balances and supply ([BankKeeper]); so are the JSON and protobuf codecs
    ([TransferCodec]). *)
From S2P Require Import Prelude GoMonad Errors Sha256 Height Host Sdk ConnectionTypes.
From S2P Require Import ChannelTypes Exported ClientKeeper ConnectionKeeper PortKeeper.
From S2P Require Import ChannelKeeper Router TransferTypes.
From Stdlib Require Import Ascii.

(** Add [a] to the balance of [x] in denomination [d]. *)
Definition credit (x d : string) (a : Z) (f : string → string → Z) : string → string → Z := λ y e,
  (f y e + if bool_decide (x = y ∧ d = e) then a else 0)%Z.
Definition add_supply (d : string) (a : Z) (f : string → Z) : string → Z := λ e,
  (f e + if bool_decide (d = e) then a else 0)%Z.

(** The bank and account keepers of cosmos-sdk, as [expected_keepers.go] lists them,
    each call with [sdk.NewCoins(coin)].  [GetBalance] and [GetSupply] are the bank's
    queries, which the laws are stated with; [GetModuleAccount] says whether there is
    an account. *)
Class BankKeeper := {
  BankState : Type;
  GetModuleAddress : string → string;
  GetModuleAccount : string → ST BankState bool;
  bank_SendCoins : string → string → Coin → ST BankState unit;
  bank_SendCoinsFromAccountToModule : string → string → Coin → ST BankState unit;
  bank_SendCoinsFromModuleToAccount : string → string → Coin → ST BankState unit;
  bank_MintCoins : string → Coin → ST BankState unit;
  bank_BurnCoins : string → Coin → ST BankState unit;
  GetBalance : BankState → string → string → Z;
  GetSupply : BankState → string → Z;
  SendCoins_law from to c b b' u : bank_SendCoins from to c b = (b', Ok u) →
    (Amount c ≤ GetBalance b from (Denom c))%Z ∧
    (∀ x d, GetBalance b' x d =
      credit to (Denom c) (Amount c) (credit from (Denom c) (- Amount c) (GetBalance b)) x d) ∧
    (∀ d, GetSupply b' d = GetSupply b d);
  AccountToModule_law from m c b b' u : bank_SendCoinsFromAccountToModule from m c b = (b', Ok u) →
    (Amount c ≤ GetBalance b from (Denom c))%Z ∧
    (∀ x d, GetBalance b' x d =
      credit (GetModuleAddress m) (Denom c) (Amount c) (credit from (Denom c) (- Amount c) (GetBalance b)) x d) ∧
    (∀ d, GetSupply b' d = GetSupply b d);
  ModuleToAccount_law m to c b b' u : bank_SendCoinsFromModuleToAccount m to c b = (b', Ok u) →
    (∀ x d, GetBalance b' x d =
      credit to (Denom c) (Amount c) (credit (GetModuleAddress m) (Denom c) (- Amount c) (GetBalance b)) x d) ∧
    (∀ d, GetSupply b' d = GetSupply b d);
  MintCoins_law m c b b' u : bank_MintCoins m c b = (b', Ok u) →
    (∀ x d, GetBalance b' x d = credit (GetModuleAddress m) (Denom c) (Amount c) (GetBalance b) x d) ∧
    (∀ d, GetSupply b' d = add_supply (Denom c) (Amount c) (GetSupply b) d);
  BurnCoins_law m c b b' u : bank_BurnCoins m c b = (b', Ok u) →
    (∀ x d, GetBalance b' x d = credit (GetModuleAddress m) (Denom c) (- Amount c) (GetBalance b) x d) ∧
    (∀ d, GetSupply b' d = add_supply (Denom c) (- Amount c) (GetSupply b) d) }.

(** The JSON codec of packet data and acknowledgements, and the protobuf codec of
    traces.  [UnmarshalJSON_data] returns the record it leaves behind and whether it
    succeeded. *)
Class TransferCodec := {
  transfer_ack_codec :: AckCodec;
  GetBytes : transfertypes.FungibleTokenPacketData → string;
  UnmarshalJSON_data : string → transfertypes.FungibleTokenPacketData * bool;
  Marshal_DenomTrace : transfertypes.DenomTrace → string;
  Unmarshal_DenomTrace : string → option transfertypes.DenomTrace;
  data_roundtrip d : UnmarshalJSON_data (GetBytes d) = (d, true);
  DenomTrace_roundtrip t : Unmarshal_DenomTrace (Marshal_DenomTrace t) = Some t }.

Module transfer.
Import transfertypes.

(** The state outside the IBC store: the bank, the module's own store and parameters. *)
Record TransferState `{BankKeeper} := mkTransferState {
  bank : BankState;
  store : KVStore;
  params : Params }.
#[export] Instance transfer_app `{BankKeeper} : Application := {| AppState := TransferState |}.

Section keeper.
Context {SE : SdkEncoding} {LC : LightClient} {CD : Codec} {CK : CapabilityKeeper}
  {SY : SdkTypes} {BK : BankKeeper} {TC : TransferCodec} {BE : Bech32}.

Definition transfer_state (w : World) : TransferState := app w.
Definition on_bank {A} (m : ST BankState A) : M A :=
  zoom (λ w, bank (transfer_state w))
    (λ b w, set_app (mkTransferState _ b (store (transfer_state w)) (params (transfer_state w))) w) m.
Definition set_transfer_store (s : KVStore) (w : World) : World :=
  set_app (mkTransferState _ (bank (transfer_state w)) s (params (transfer_state w))) w.
Definition get_transfer_store (k : string) : M (option string) := gets (λ w, store (transfer_state w) !! k).
Definition put_transfer_store (k v : string) : M unit :=
  modify (λ w, set_transfer_store (store_Set k v (store (transfer_state w))) w).

(** ** Keeper *)
Definition GetSendEnabled : M bool := gets (λ w, SendEnabled (params (transfer_state w))).
Definition GetReceiveEnabled : M bool := gets (λ w, ReceiveEnabled (params (transfer_state w))).
Definition SetParams (p : Params) : M unit :=
  modify (λ w, set_app (mkTransferState _ (bank (transfer_state w)) (store (transfer_state w)) p) w).

(** The capability keeper scoped to the transfer module. *)
Definition GetCapability (name : string) : M (option Capability) :=
  gets (λ w, cap_GetCapability (caps w) ModuleName name).
Definition AuthenticateCapability (cap : Capability) (name : string) : M bool :=
  gets (λ w, cap_AuthenticateCapability (caps w) ModuleName cap name).
Definition ClaimCapability (cap : Capability) (name : string) : M unit :=
  on_caps (cap_ClaimCapability ModuleName cap name).

Definition IsBound (portID : string) : M bool :=
  let! cap := GetCapability (PortPath portID) in ret (bool_decide (is_Some cap)).
Definition BindPort (portID : string) : M unit :=
  let! cap := PortKeeper.BindPort portID in
  ClaimCapability cap (PortPath portID).

(** [string(store.Get(types.PortKey))]: empty when unset. *)
Definition GetPort : M string := let! p := get_transfer_store PortKey in ret (default "" p).
Definition SetPort (portID : string) : M unit := put_transfer_store PortKey portID.

Definition GetDenomTrace (denomTraceHash : string) : M (option DenomTrace) :=
  let! bz := get_transfer_store (DenomTraceKey +:+ denomTraceHash) in
  match bz with
  | None => ret None
  | Some bz => let! t := some_or_panic (Unmarshal_DenomTrace bz) in ret (Some t)
  end.
Definition HasDenomTrace (denomTraceHash : string) : M bool :=
  let! bz := get_transfer_store (DenomTraceKey +:+ denomTraceHash) in ret (bool_decide (is_Some bz)).
Definition SetDenomTrace (denomTrace : DenomTrace) : M unit :=
  put_transfer_store (DenomTraceKey +:+ DenomTrace_Hash denomTrace) (Marshal_DenomTrace denomTrace).

(** ** Relay *)
Definition DenomPathFromHash (denom : string) : M string :=
  let hexHash := str_drop (String.length (DenomPrefix +:+ "/")) denom in
  let! hash :=
    lift (match ParseHexHash hexHash with
          | Err _ => Err (Wrap TransferErr.ErrInvalidDenomForTransfer)
          | o => o
          end) in
  let! denomTrace := GetDenomTrace hash in
  let! denomTrace := some_or denomTrace (Wrap TransferErr.ErrTraceNotFound) in
  ret (GetFullDenomPath denomTrace).

(** The coins leave the sender: escrowed if this chain is their source, burned if not. *)
Definition take_coins (sourcePort sourceChannel fullDenomPath : string) (token : Coin) (sender : string) : M unit :=
  if SenderChainIsSource sourcePort sourceChannel fullDenomPath then
    on_bank (bank_SendCoins sender (GetEscrowAddress sourcePort sourceChannel) token)
  else
    on_bank (bank_SendCoinsFromAccountToModule sender ModuleName token) ;;;
    must (on_bank (bank_BurnCoins ModuleName token)).

(** The full path of a denomination. *)
Definition full_denom_path (denom : string) : M string :=
  if HasPrefix denom "ibc/" then DenomPathFromHash denom else ret denom.

Definition SendTransfer (ctx : Context) (sourcePort sourceChannel : string) (token : Coin) (sender receiver : string)
    (timeoutHeight : Height) (timeoutTimestamp : N) : M unit :=
  let! enabled := GetSendEnabled in
  throw_if (negb enabled) TransferErr.ErrSendDisabled ;;;
  let! sourceChannelEnd := GetChannel sourcePort sourceChannel in
  let! sourceChannelEnd := some_or sourceChannelEnd (Wrap ChanErr.ErrChannelNotFound) in
  let destinationPort := Counterparty_PortId (Channel_Counterparty sourceChannelEnd) in
  let destinationChannel := Counterparty_ChannelId (Channel_Counterparty sourceChannelEnd) in
  let! sequence := GetNextSequenceSend sourcePort sourceChannel in
  let! sequence := some_or sequence (Wrap ChanErr.ErrSequenceSendNotFound) in
  let! channelCap := GetCapability (ChannelCapabilityPath sourcePort sourceChannel) in
  let! channelCap := some_or channelCap (Wrap ChanErr.ErrChannelCapabilityNotFound) in
  let! fullDenomPath := full_denom_path (Denom token) in
  take_coins sourcePort sourceChannel fullDenomPath token sender ;;;
  let packetData :=
    NewFungibleTokenPacketData fullDenomPath (Int_String (Amount token)) (AccAddress_String sender) receiver in
  let packet :=
    NewPacket (GetBytes packetData) sequence sourcePort sourceChannel destinationPort destinationChannel
      timeoutHeight timeoutTimestamp in
  SendPacket ctx channelCap packet.

(** [msg_server.go] *)
Definition Transfer (ctx : Context) (msg : MsgTransfer) : M unit :=
  let! sender := lift (AccAddressFromBech32 (Sender msg)) in
  SendTransfer ctx (SourcePort msg) (SourceChannel msg) (Token msg) sender (Receiver msg) (TimeoutHeight msg)
    (TimeoutTimestamp msg) ;;;
  EmitEvent (NewEvent "ibc_transfer" [("sender", Sender msg); ("receiver", Receiver msg)]) ;;;
  EmitEvent (NewEvent "message" [("module", ModuleName)]).

(** Tokens that return to their source are released from escrow. *)
Definition unescrow (packet : Packet) (data : FungibleTokenPacketData) (receiver : string) (transferAmount : Z) : M unit :=
  let voucherPrefix := GetDenomPrefix (ChannelTypes.SourcePort packet) (ChannelTypes.SourceChannel packet) in
  let unprefixedDenom := str_drop (String.length voucherPrefix) (data_Denom data) in
  let denomTrace := ParseDenomTrace unprefixedDenom in
  let denom := if bool_decide (Path denomTrace ≠ "") then IBCDenom denomTrace else unprefixedDenom in
  let! token := lift (NewCoin denom transferAmount) in
  let escrowAddress := GetEscrowAddress (DestinationPort packet) (DestinationChannel packet) in
  wrap_err (on_bank (bank_SendCoins escrowAddress receiver token)).

(** Tokens from another source are minted as vouchers. *)
Definition mint_vouchers (packet : Packet) (data : FungibleTokenPacketData) (receiver : string) (transferAmount : Z) :
    M unit :=
  let sourcePrefix := GetDenomPrefix (DestinationPort packet) (DestinationChannel packet) in
  let prefixedDenom := sourcePrefix +:+ data_Denom data in
  let denomTrace := ParseDenomTrace prefixedDenom in
  let traceHash := DenomTrace_Hash denomTrace in
  let! known := HasDenomTrace traceHash in
  (if negb known then SetDenomTrace denomTrace else ret tt) ;;;
  let voucherDenom := IBCDenom denomTrace in
  EmitEvent (NewEvent "denomination_trace" [("trace_hash", HexBytes_String traceHash); ("denom", voucherDenom)]) ;;;
  let! voucher := lift (NewCoin voucherDenom transferAmount) in
  on_bank (bank_MintCoins ModuleName voucher) ;;;
  on_bank (bank_SendCoinsFromModuleToAccount ModuleName receiver voucher).

Definition keeper_OnRecvPacket (packet : Packet) (data : FungibleTokenPacketData) : M unit :=
  lift (data_ValidateBasic data) ;;;
  let! enabled := GetReceiveEnabled in
  throw_if (negb enabled) TransferErr.ErrReceiveDisabled ;;;
  let! receiver := lift (AccAddressFromBech32 (data_Receiver data)) in
  let! transferAmount := some_or (NewIntFromString (data_Amount data)) (Wrap TransferErr.ErrInvalidAmount) in
  if ReceiverChainIsSource (ChannelTypes.SourcePort packet) (ChannelTypes.SourceChannel packet) (data_Denom data)
  then unescrow packet data receiver transferAmount
  else mint_vouchers packet data receiver transferAmount.

Definition refundPacketToken (packet : Packet) (data : FungibleTokenPacketData) : M unit :=
  let trace := ParseDenomTrace (data_Denom data) in
  let! transferAmount := some_or (NewIntFromString (data_Amount data)) (Wrap TransferErr.ErrInvalidAmount) in
  let! token := lift (NewCoin (IBCDenom trace) transferAmount) in
  let! sender := lift (AccAddressFromBech32 (data_Sender data)) in
  if SenderChainIsSource (ChannelTypes.SourcePort packet) (ChannelTypes.SourceChannel packet) (data_Denom data) then
    let escrowAddress := GetEscrowAddress (ChannelTypes.SourcePort packet) (ChannelTypes.SourceChannel packet) in
    wrap_err (on_bank (bank_SendCoins escrowAddress sender token))
  else
    on_bank (bank_MintCoins ModuleName token) ;;;
    must (on_bank (bank_SendCoinsFromModuleToAccount ModuleName sender token)).

Definition keeper_OnAcknowledgementPacket (packet : Packet) (data : FungibleTokenPacketData) (ack : Acknowledgement) :
    M unit :=
  match Response ack with
  | Some (Acknowledgement_Error _) => refundPacketToken packet data
  | _ => ret tt
  end.
Definition keeper_OnTimeoutPacket (packet : Packet) (data : FungibleTokenPacketData) : M unit :=
  refundPacketToken packet data.

(** ** Genesis *)
Definition InitGenesis (portID : string) (denomTraces : list DenomTrace) (p : Params) : M unit :=
  SetPort portID ;;;
  for_all SetDenomTrace denomTraces ;;;
  let! bound := IsBound portID in
  (if negb bound then must (BindPort portID) else ret tt) ;;;
  SetParams p ;;;
  let! moduleAcc := on_bank (GetModuleAccount ModuleName) in
  if moduleAcc then ret tt else panic.

(** ** The IBC application ([ibc_module.go]) *)
Definition MaxUint32 : N := 4294967295.

Definition ValidateTransferChannelParams (order : Order) (portID channelID : string) : M unit :=
  let! channelSequence := lift (ParseChannelSequence channelID) in
  throw_if (MaxUint32 <? channelSequence)%N (Wrap TransferErr.ErrMaxTransferChannels) ;;;
  throw_if (bool_decide (order ≠ UNORDERED)) (Wrap ChanErr.ErrInvalidChannelOrdering) ;;;
  let! boundPort := GetPort in
  throw_if (bool_decide (boundPort ≠ portID)) (Wrap PortErr.ErrInvalidPort).

Definition im_OnChanOpenInit (ctx : Context) (order : Order) (connectionHops : list string) (portID channelID : string)
    (chanCap : Capability) (counterparty : Counterparty) (version : string) : M unit :=
  ValidateTransferChannelParams order portID channelID ;;;
  throw_if (bool_decide (version ≠ Version)) (Wrap TransferErr.ErrInvalidVersion) ;;;
  ClaimCapability chanCap (ChannelCapabilityPath portID channelID).

Definition im_OnChanOpenTry (ctx : Context) (order : Order) (connectionHops : list string) (portID channelID : string)
    (chanCap : Capability) (counterparty : Counterparty) (counterpartyVersion : string) : M string :=
  ValidateTransferChannelParams order portID channelID ;;;
  throw_if (bool_decide (counterpartyVersion ≠ Version)) (Wrap TransferErr.ErrInvalidVersion) ;;;
  let! owned := AuthenticateCapability chanCap (ChannelCapabilityPath portID channelID) in
  (if negb owned then ClaimCapability chanCap (ChannelCapabilityPath portID channelID) else ret tt) ;;;
  ret Version.

Definition im_OnChanOpenAck (ctx : Context) (portID channelID counterpartyVersion : string) : M unit :=
  throw_if (bool_decide (counterpartyVersion ≠ Version)) (Wrap TransferErr.ErrInvalidVersion).
Definition im_OnChanOpenConfirm (ctx : Context) (portID channelID : string) : M unit := ret tt.
Definition im_OnChanCloseInit (ctx : Context) (portID channelID : string) : M unit :=
  throw (Wrap sdkerrors.ErrInvalidRequest).
Definition im_OnChanCloseConfirm (ctx : Context) (portID channelID : string) : M unit := ret tt.

Definition im_OnRecvPacket (ctx : Context) (packet : Packet) (relayer : string) : M (option AckI) :=
  let '(data, ok) := UnmarshalJSON_data (Data packet) in
  let! ack :=
    (if ok then
       let! err := catch (keeper_OnRecvPacket packet data) in
       ret (match err with
            | Some e => NewErrorAcknowledgement (error_String e)
            | None => NewResultAcknowledgement (String "001" "")
            end)
     else ret (NewErrorAcknowledgement "cannot unmarshal ICS-20 transfer packet data")) in
  EmitEvent (NewEvent "fungible_token_packet"
    [("module", ModuleName); ("receiver", data_Receiver data); ("denom", data_Denom data);
     ("amount", data_Amount data); ("success", if Acknowledgement_Success ack then "true" else "false")]) ;;;
  ret (Some (mkAck (Acknowledgement_Success ack) (Acknowledgement_GetBytes ack))).

Definition im_OnAcknowledgementPacket (ctx : Context) (packet : Packet) (acknowledgement relayer : string) : M unit :=
  let! ack := some_or (UnmarshalJSON_ack acknowledgement) (Wrap sdkerrors.ErrUnknownRequest) in
  let '(data, ok) := UnmarshalJSON_data (Data packet) in
  throw_if (negb ok) (Wrap sdkerrors.ErrUnknownRequest) ;;;
  keeper_OnAcknowledgementPacket packet data ack ;;;
  EmitEvent (NewEvent "fungible_token_packet"
    [("module", ModuleName); ("receiver", data_Receiver data); ("denom", data_Denom data);
     ("amount", data_Amount data); ("acknowledgement", Acknowledgement_String ack)]) ;;;
  match Response ack with
  | Some (Acknowledgement_Result r) => EmitEvent (NewEvent "fungible_token_packet" [("success", r)])
  | Some (Acknowledgement_Error e) => EmitEvent (NewEvent "fungible_token_packet" [("error", e)])
  | None => ret tt
  end.

Definition im_OnTimeoutPacket (ctx : Context) (packet : Packet) (relayer : string) : M unit :=
  let '(data, ok) := UnmarshalJSON_data (Data packet) in
  throw_if (negb ok) (Wrap sdkerrors.ErrUnknownRequest) ;;;
  keeper_OnTimeoutPacket packet data ;;;
  EmitEvent (NewEvent "timeout"
    [("module", ModuleName); ("refund_receiver", data_Sender data); ("refund_denom", data_Denom data);
     ("refund_amount", data_Amount data)]).

Definition NewIBCModule : IBCModule :=
  mkIBCModule im_OnChanOpenInit im_OnChanOpenTry im_OnChanOpenAck im_OnChanOpenConfirm im_OnChanCloseInit
    im_OnChanCloseConfirm im_OnRecvPacket im_OnAcknowledgementPacket im_OnTimeoutPacket.
End keeper.
End transfer.
