(* ===== verification/TransferProperties.v ===== *)
(** * Fungible token transfers move tokens correctly

    What sending, receiving and refunding do to balances and supply; that a refund
    undoes the send; that the application keeps its promises to the core; and that
    the vouchers on one chain are always backed by tokens in escrow on the other. *)
From S2P Require Import Prelude GoMonad Errors Sha256 Height Host Sdk ConnectionTypes.
From S2P Require Import ChannelTypes Exported ClientKeeper ConnectionKeeper PortKeeper.
From S2P Require Import ChannelKeeper ChannelHandshake FullNode Scenario ChannelSpec.
From S2P Require Import HandshakeSpec ChannelView ChannelSystem Router MsgServer.
From S2P Require Import MsgServerProperties.
From S2P Require Import TransferTypes TransferKeeper.
From Stdlib Require Import Ascii.
Import transfertypes transfer.

Section bank.
Context {SE : SdkEncoding} {LC : LightClient} {CD : Codec} {CK : CapabilityKeeper}
  {SY : SdkTypes} {BK : BankKeeper} {TC : TransferCodec} {BE : Bech32}.

(** Balances and supply of a world. *)
Definition bal (w : World) : string → string → Z := GetBalance (bank (transfer_state w)).
Definition sup (w : World) : string → Z := GetSupply (bank (transfer_state w)).

(** [w'] is [w] with the balances [f] and the supply [g]. *)
Definition bank_effect (w w' : World) (f : string → string → Z) (g : string → Z) : Prop :=
  (∀ x d, bal w' x d = f x d) ∧ (∀ d, sup w' d = g d) ∧ ibc w' = ibc w ∧ caps w' = caps w ∧
  params (transfer_state w') = params (transfer_state w).

Lemma credit_ext x d a f g y e : f y e = g y e → credit x d a f y e = credit x d a g y e.
Proof. unfold credit. by intros ->. Qed.
Lemma add_supply_ext d a f g e : f e = g e → add_supply d a f e = add_supply d a g e.
Proof. unfold add_supply. by intros ->. Qed.

Lemma on_bank_Ok {A} (m : ST BankState A) w w' a :
  on_bank m w = (w', Ok a) →
  ∃ b, m (bank (transfer_state w)) = (b, Ok a) ∧
    w' = set_app (mkTransferState _ b (store (transfer_state w)) (params (transfer_state w))) w.
Proof. unfold on_bank. intros (b & Hb & ->)%zoom_Ok. by exists b. Qed.

Lemma on_bank_keeps {A T} (f : World → T) (m : ST BankState A) :
  (∀ b w, f (set_app (mkTransferState _ b (store (transfer_state w)) (params (transfer_state w))) w) = f w) →
  keeps f (on_bank m).
Proof. intros Hf w. unfold on_bank, zoom. destruct (m _) as [b o]. simpl. apply Hf. Qed.

Lemma SendCoins_effect from to c w w' u :
  on_bank (bank_SendCoins from to c) w = (w', Ok u) →
  (Amount c ≤ bal w from (Denom c))%Z ∧
  bank_effect w w' (credit to (Denom c) (Amount c) (credit from (Denom c) (- Amount c) (bal w))) (sup w).
Proof.
  intros (b & Hb & ->)%on_bank_Ok. apply SendCoins_law in Hb as (Hle & Hbal & Hsup). by split.
Qed.

(** Coins taken from an account and burned. *)
Lemma burn_effect from m c w w' u :
  (on_bank (bank_SendCoinsFromAccountToModule from m c) ;;; must (on_bank (bank_BurnCoins m c))) w = (w', Ok u) →
  (Amount c ≤ bal w from (Denom c))%Z ∧
  bank_effect w w' (credit from (Denom c) (- Amount c) (bal w)) (add_supply (Denom c) (- Amount c) (sup w)).
Proof.
  intros (u1 & w1 & H1 & H2%must_Ok)%bind_Ok.
  apply on_bank_Ok in H1 as (b1 & H1 & ->). apply on_bank_Ok in H2 as (b2 & H2 & ->).
  apply AccountToModule_law in H1 as (Hle & Hbal1 & Hsup1). cbn in H2. apply BurnCoins_law in H2 as [Hbal2 Hsup2].
  split; [done|]. split_and!; try done.
  - intros x d. unfold bal. cbn. rewrite Hbal2. unfold credit at 1. rewrite Hbal1. unfold credit at 1.
    destruct (bool_decide _); lia.
  - intros d. unfold sup. cbn. rewrite Hsup2. by apply add_supply_ext.
Qed.

(** Coins minted and sent to an account. *)
Lemma mint_effect m to c w w' u1 w1 u :
  on_bank (bank_MintCoins m c) w = (w1, Ok u1) →
  on_bank (bank_SendCoinsFromModuleToAccount m to c) w1 = (w', Ok u) →
  bank_effect w w' (credit to (Denom c) (Amount c) (bal w)) (add_supply (Denom c) (Amount c) (sup w)).
Proof.
  intros H1 H2. apply on_bank_Ok in H1 as (b1 & H1 & ->). apply on_bank_Ok in H2 as (b2 & H2 & ->).
  apply MintCoins_law in H1 as [Hbal1 Hsup1]. cbn in H2. apply ModuleToAccount_law in H2 as [Hbal2 Hsup2].
  split_and!; try done.
  - intros x d. unfold bal. cbn. rewrite Hbal2. apply credit_ext. unfold credit at 1. rewrite Hbal1.
    unfold credit. destruct (bool_decide _); lia.
  - intros d. unfold sup. cbn. by rewrite Hsup2.
Qed.

(** The effect of taking coins from a sender, of giving them back, and of giving them
    to a receiver, on the chain's own balances. *)
Definition taken (port channel path : string) (c : Coin) (sender : string) (w w' : World) : Prop :=
  if SenderChainIsSource port channel path
  then bank_effect w w'
         (credit (GetEscrowAddress port channel) (Denom c) (Amount c) (credit sender (Denom c) (- Amount c) (bal w)))
         (sup w)
  else bank_effect w w' (credit sender (Denom c) (- Amount c) (bal w)) (add_supply (Denom c) (- Amount c) (sup w)).

Definition given (source : bool) (port channel : string) (c : Coin) (receiver : string) (w w' : World) : Prop :=
  if source
  then bank_effect w w'
         (credit receiver (Denom c) (Amount c) (credit (GetEscrowAddress port channel) (Denom c) (- Amount c) (bal w)))
         (sup w)
  else bank_effect w w' (credit receiver (Denom c) (Amount c) (bal w)) (add_supply (Denom c) (Amount c) (sup w)).

Lemma take_coins_Ok port channel path c sender w w' u :
  take_coins port channel path c sender w = (w', Ok u) →
  (Amount c ≤ bal w sender (Denom c))%Z ∧ taken port channel path c sender w w'.
Proof.
  unfold take_coins, taken. destruct (SenderChainIsSource _ _ _); [apply SendCoins_effect|apply burn_effect].
Qed.

Lemma refundPacketToken_Ok pkt data w w' u :
  refundPacketToken pkt data w = (w', Ok u) →
  ∃ a sender, NewIntFromString (data_Amount data) = Some a ∧ (0 ≤ a)%Z ∧
    AccAddressFromBech32 (data_Sender data) = Ok sender ∧
    given (SenderChainIsSource (ChannelTypes.SourcePort pkt) (ChannelTypes.SourceChannel pkt) (data_Denom data))
      (ChannelTypes.SourcePort pkt) (ChannelTypes.SourceChannel pkt)
      (mkCoin (IBCDenom (ParseDenomTrace (data_Denom data))) a) sender w w'.
Proof.
  unfold refundPacketToken, given. intros. go_inv.
  match goal with H : NewCoin _ _ = Ok _ |- _ => apply NewCoin_Ok in H as [-> ?] end.
  eexists _, _. do 3 (split; [done|]). destruct (SenderChainIsSource _ _ _); go_inv.
  - by eapply SendCoins_effect.
  - match goal with H : must _ _ = _ |- _ => apply must_Ok in H end. by eapply mint_effect.
Qed.

(** The coins that a received packet gives to its receiver. *)
Definition received_coin (pkt : Packet) (data : FungibleTokenPacketData) (a : Z) : Coin :=
  let p := ChannelTypes.SourcePort pkt in
  let c := ChannelTypes.SourceChannel pkt in
  if ReceiverChainIsSource p c (data_Denom data)
  then mkCoin (escrowed_denom (str_drop (String.length (GetDenomPrefix p c)) (data_Denom data))) a
  else mkCoin (IBCDenom (ParseDenomTrace
         (GetDenomPrefix (DestinationPort pkt) (DestinationChannel pkt) +:+ data_Denom data))) a.

Lemma unescrow_Ok pkt data receiver a w w' u :
  unescrow pkt data receiver a w = (w', Ok u) →
  ReceiverChainIsSource (ChannelTypes.SourcePort pkt) (ChannelTypes.SourceChannel pkt) (data_Denom data) = true →
  given true (DestinationPort pkt) (DestinationChannel pkt) (received_coin pkt data a) receiver w w' ∧
  store (transfer_state w') = store (transfer_state w).
Proof.
  unfold unescrow, received_coin, given. cbv zeta. intros H Hr. rewrite Hr. go_inv.
  match goal with H : NewCoin _ _ = Ok _ |- _ => apply NewCoin_Ok in H as [-> _] end.
  split; [by eapply SendCoins_effect|].
  match goal with H : on_bank _ _ = _ |- _ => by apply on_bank_Ok in H as (b & _ & ->) end.
Qed.

(** The module's store after minting: the trace is recorded if it was new. *)
Definition trace_recorded (t : DenomTrace) (s : KVStore) : KVStore :=
  match s !! (DenomTraceKey +:+ DenomTrace_Hash t) with
  | Some _ => s
  | None => <[DenomTraceKey +:+ DenomTrace_Hash t := Marshal_DenomTrace t]> s
  end.

Lemma mint_vouchers_Ok pkt data receiver a w w' u :
  mint_vouchers pkt data receiver a w = (w', Ok u) →
  ReceiverChainIsSource (ChannelTypes.SourcePort pkt) (ChannelTypes.SourceChannel pkt) (data_Denom data) = false →
  given false (DestinationPort pkt) (DestinationChannel pkt) (received_coin pkt data a) receiver w w' ∧
  store (transfer_state w') =
    trace_recorded (ParseDenomTrace (GetDenomPrefix (DestinationPort pkt) (DestinationChannel pkt) +:+ data_Denom data))
      (store (transfer_state w)).
Proof.
  unfold mint_vouchers, received_coin. cbv zeta. intros H Hr. rewrite Hr.
  set (t := ParseDenomTrace _) in *. unfold HasDenomTrace, get_transfer_store in H. go_inv.
  match goal with H : NewCoin _ _ = Ok _ |- _ => apply NewCoin_Ok in H as [-> _] end.
  match goal with H : (if _ then _ else _) ?v = (?v1, Ok _) |- _ =>
    assert (Hst : bank (transfer_state v1) = bank (transfer_state v) ∧ ibc v1 = ibc v ∧ caps v1 = caps v ∧
      params (transfer_state v1) = params (transfer_state v) ∧
      store (transfer_state v1) = trace_recorded t (store (transfer_state v)));
    [revert H|clear H] end.
  { unfold trace_recorded, SetDenomTrace, put_transfer_store. destruct (_ !! _) eqn:E; simpl; intros; go_inv; done. }
  destruct Hst as (Hb & Hi & Hc & Hp & Hs).
  match goal with H1 : on_bank (bank_MintCoins _ _) ?v = (?v1, _), H2 : on_bank _ ?v1 = (?v2, _) |- _ =>
    pose proof (mint_effect _ _ _ _ _ _ _ _ H1 H2) as (Hbal & Hsup & Hi' & Hc' & Hp');
    assert (Hs' : store (transfer_state v2) = store (transfer_state v));
    [apply on_bank_Ok in H1 as (? & _ & ->); apply on_bank_Ok in H2 as (? & _ & ->); done|] end.
  simpl in *. split; [|etrans; [exact Hs'|exact Hs]]. unfold given.
  split_and!; try (by etrans).
  - intros x d. rewrite Hbal. unfold bal, transfer_state in *. simpl. by rewrite Hb.
  - intros d. rewrite Hsup. unfold sup, transfer_state in *. simpl. by rewrite Hb.
Qed.

Lemma keeper_OnRecvPacket_Ok pkt data w w' u :
  keeper_OnRecvPacket pkt data w = (w', Ok u) →
  let source := ReceiverChainIsSource (ChannelTypes.SourcePort pkt) (ChannelTypes.SourceChannel pkt) (data_Denom data) in
  ∃ a receiver, NewIntFromString (data_Amount data) = Some a ∧ (0 < a)%Z ∧ ValidatePrefixedDenom (data_Denom data) = Ok tt ∧
    AccAddressFromBech32 (data_Receiver data) = Ok receiver ∧
    given source (DestinationPort pkt) (DestinationChannel pkt) (received_coin pkt data a) receiver w w' ∧
    store (transfer_state w') =
      if source then store (transfer_state w)
      else trace_recorded (ParseDenomTrace
        (GetDenomPrefix (DestinationPort pkt) (DestinationChannel pkt) +:+ data_Denom data)) (store (transfer_state w)).
Proof.
  unfold keeper_OnRecvPacket, GetReceiveEnabled. intros H. cbn zeta. go_inv.
  match goal with H : data_ValidateBasic data = Ok _ |- _ => rename H into Hv end.
  unfold data_ValidateBasic in Hv. destruct (NewIntFromString (data_Amount data)) as [a|] eqn:Ea; [|done].
  destruct (0 <? a)%Z eqn:Hpos; [|done]. simpl in Hv.
  destruct (blank (data_Sender data)); [done|]. destruct (blank (data_Receiver data)); [done|].
  simplify_eq. eexists _, _. split; [done|]. split; [by apply Z.ltb_lt|]. split; [done|]. split; [done|].
  destruct (ReceiverChainIsSource _ _ _) eqn:Hr; [by eapply unescrow_Ok|by eapply mint_vouchers_Ok].
Qed.

(** ** Sending *)

(** The stored traces are keyed by their hash, and are traces of vouchers. *)
Definition traces_ok (w : World) : Prop :=
  ∀ h bz, store (transfer_state w) !! (DenomTraceKey +:+ h) = Some bz →
  ∃ t, Unmarshal_DenomTrace bz = Some t ∧ DenomTrace_Hash t = h ∧ Path t ≠ "" ∧ no_char "/" (BaseDenom t) = true.

(** A base denomination, or the denomination of a voucher in the spelling the bank uses. *)
Definition canonical (d : string) : Prop := no_char "/" d = true ∨ ∃ h, d = "ibc/" +:+ HexBytes_String h.

Lemma no_slash_not_ibc d : no_char "/" d = true → HasPrefix d "ibc/" = false.
Proof.
  intros H. destruct (HasPrefix d "ibc/") eqn:E; [|done]. apply HasPrefix_spec in E as [r ->].
  rewrite no_char_app in H. done.
Qed.

Lemma DenomPathFromHash_keeps {T} (f : World → T) d : keeps f (DenomPathFromHash d).
Proof. unfold DenomPathFromHash, GetDenomTrace, get_transfer_store. cbv zeta. frame. Qed.
Lemma full_denom_path_keeps {T} (f : World → T) d : keeps f (full_denom_path d).
Proof. unfold full_denom_path. destruct (HasPrefix d "ibc/"); [apply DenomPathFromHash_keeps|done]. Qed.

(** The path of a bank denomination leads back to that denomination. *)
Lemma full_denom_path_Ok d w w' path :
  full_denom_path d w = (w', Ok path) → traces_ok w → canonical d →
  plain path ∧ IBCDenom (ParseDenomTrace path) = d.
Proof.
  unfold full_denom_path. intros H Ht [Hd|[h ->]].
  - rewrite no_slash_not_ibc in H by done. apply ret_Ok in H as [<- _]. split; [by left|by apply IBCDenom_base].
  - rewrite HasPrefix_app in H. unfold DenomPathFromHash in H. cbv zeta in H.
    change (DenomPrefix +:+ "/") with "ibc/" in H. rewrite str_drop_app in H.
    unfold ParseHexHash in H. rewrite hex_roundtrip in H. unfold GetDenomTrace, get_transfer_store in H.
    destruct (ValidateHash h) as [[]|e|]; go_inv; try done.
    destruct (store (transfer_state _) !! _) as [bz|] eqn:E; go_inv; [|done].
    destruct (Ht _ _ E) as (t & Hu & Hh & Hp & Hb). simplify_eq.
    rewrite trace_full by done. split; [right; by rewrite trace_full|].
    unfold IBCDenom. by rewrite bool_decide_eq_true_2.
Qed.

Definition sent_data (path : string) (token : Coin) (sender receiver : string) : FungibleTokenPacketData :=
  NewFungibleTokenPacketData path (Int_String (Amount token)) (AccAddress_String sender) receiver.

Lemma SendTransfer_Ok ctx port channel token sender receiver th tt' w w' u :
  SendTransfer ctx port channel token sender receiver th tt' w = (w', Ok u) →
  ∃ ch seq cap path w1, SendEnabled (params (transfer_state w)) = true ∧ chan w port channel = Some ch ∧
    next_send w port channel = Some seq ∧
    cap_GetCapability (caps w) ModuleName (ChannelCapabilityPath port channel) = Some cap ∧
    full_denom_path (Denom token) w = (w, Ok path) ∧
    take_coins port channel path token sender w = (w1, Ok tt) ∧
    SendPacket ctx cap
      (NewPacket (GetBytes (sent_data path token sender receiver)) seq port channel
         (Counterparty_PortId (Channel_Counterparty ch)) (Counterparty_ChannelId (Channel_Counterparty ch)) th tt') w1
      = (w', Ok tt).
Proof.
  unfold SendTransfer, GetSendEnabled, GetCapability. cbv zeta. intros. go_inv. simplify_eq.
  match goal with H : full_denom_path ?d ?v = (?v', Ok _) |- _ =>
    assert (v' = v) as -> by exact (keeps_run id _ _ _ _ (full_denom_path_keeps id d) H) end.
  eexists _, _, _, _, _. split_and!; eauto.
Qed.

(** ** The promises to the core *)

Lemma on_bank_ibc {A} (m : ST BankState A) : keeps ibc (on_bank m).
Proof. by apply on_bank_keeps. Qed.
Lemma ClaimCapability_ibc cap name : keeps ibc (ClaimCapability cap name).
Proof. intros w. unfold ClaimCapability, on_caps, zoom. by destruct (cap_ClaimCapability _ _ _ _). Qed.
Lemma EmitEvent_ibc e : keeps ibc (EmitEvent e).
Proof. done. Qed.
Lemma put_transfer_store_ibc k v : keeps ibc (put_transfer_store k v).
Proof. done. Qed.

Hint Resolve on_bank_ibc ClaimCapability_ibc EmitEvent_ibc put_transfer_store_ibc must_keeps : ibc.

Lemma refundPacketToken_ibc pkt data : keeps ibc (refundPacketToken pkt data).
Proof. unfold refundPacketToken. cbv zeta. frame. Qed.
Lemma keeper_OnRecvPacket_ibc pkt data : keeps ibc (keeper_OnRecvPacket pkt data).
Proof.
  unfold keeper_OnRecvPacket, GetReceiveEnabled, unescrow, mint_vouchers, HasDenomTrace, get_transfer_store, SetDenomTrace.
  cbv zeta. frame.
Qed.
Lemma ValidateTransferChannelParams_ibc o p c : keeps ibc (ValidateTransferChannelParams o p c).
Proof. unfold ValidateTransferChannelParams, GetPort, get_transfer_store. frame. Qed.
Hint Resolve refundPacketToken_ibc keeper_OnRecvPacket_ibc ValidateTransferChannelParams_ibc : ibc.

Lemma im_OnRecvPacket_ibc ctx pkt r : keeps ibc (im_OnRecvPacket ctx pkt r).
Proof. unfold im_OnRecvPacket. destruct (UnmarshalJSON_data _) as [data ok]. frame. Qed.
Lemma im_OnAcknowledgementPacket_ibc ctx pkt a r : keeps ibc (im_OnAcknowledgementPacket ctx pkt a r).
Proof.
  unfold im_OnAcknowledgementPacket, keeper_OnAcknowledgementPacket.
  destruct (UnmarshalJSON_data _) as [data ok]. frame.
Qed.
Lemma im_OnTimeoutPacket_ibc ctx pkt r : keeps ibc (im_OnTimeoutPacket ctx pkt r).
Proof. unfold im_OnTimeoutPacket, keeper_OnTimeoutPacket. destruct (UnmarshalJSON_data _) as [data ok]. frame. Qed.
Lemma im_OnChanOpen_ibc ctx o hops p c cap cp v :
  keeps ibc (im_OnChanOpenInit ctx o hops p c cap cp v) ∧ keeps ibc (im_OnChanOpenTry ctx o hops p c cap cp v).
Proof. unfold im_OnChanOpenInit, im_OnChanOpenTry, AuthenticateCapability. split; frame. Qed.

(** A [MsgTransfer] drives the keepers, so that applications may run it in a callback. *)
Lemma take_coins_ibc port channel path c sender : keeps ibc (take_coins port channel path c sender).
Proof. unfold take_coins. destruct (SenderChainIsSource _ _ _); frame. Qed.
Lemma Transfer_drives (P : action → Prop) ctx msg :
  (∀ m, keeps_channels m → P (Do_other m)) → (∀ ctx cap pkt, drives P ranged (SendPacket ctx cap pkt)) →
  drives P ranged (Transfer ctx msg).
Proof.
  intros HP Hsend.
  assert (∀ A (m : M A), keeps ibc m → drives P ranged m) as Hk by
    (intros A m; by apply drives_keeps; [|apply ranged_range|apply ranged_agree]).
  apply drives_bind; [apply Hk; auto with ibc|intros sender]. apply drives_bind; [|intros _; by apply Hk].
  unfold SendTransfer.
  repeat lazymatch goal with |- drives _ _ (bind _ _) => apply drives_bind; [apply Hk|intros ?] end; [..|apply Hsend];
    unfold GetSendEnabled, GetChannel, GetNextSequenceSend, GetCapability; try apply full_denom_path_keeps;
    try apply take_coins_ibc; frame.
Qed.
End bank.

Section claims.
Context {SE : SdkEncoding} {LC : LightClient} {CD : Codec} {CK : CapabilityKeeper}
  {SY : SdkTypes} {BK : BankKeeper} {TC : TransferCodec} {BE : Bech32}.

(** The transfer application keeps its promises to the core: none of its nine
    callbacks writes the IBC store, whatever the packet data, the acknowledgement and
    the outcome, so it is an application with which every message is a run of the
    channel keepers; its channels are UNORDERED with version [ics20-1] on the port it
    is bound to and among the first 2^32 channels; and no user can close them. *)
Theorem transfer_is_polite :
  polite NewIBCModule ∧
  (∀ ctx o hops p c cap cp v w w' u, OnChanOpenInit NewIBCModule ctx o hops p c cap cp v w = (w', Ok u) →
     o = UNORDERED ∧ v = Version ∧ default "" (store (transfer_state w) !! PortKey) = p ∧
     ∃ n, ParseChannelSequence c = Ok n ∧ (n < 2 ^ 32)%N) ∧
  (∀ ctx o hops p c cap cp v w w' v', OnChanOpenTry NewIBCModule ctx o hops p c cap cp v w = (w', Ok v') →
     o = UNORDERED ∧ v = Version ∧ v' = Version ∧ default "" (store (transfer_state w) !! PortKey) = p ∧
     ∃ n, ParseChannelSequence c = Ok n ∧ (n < 2 ^ 32)%N) ∧
  (∀ ctx p c w, (OnChanCloseInit NewIBCModule ctx p c w).2 = Err (Wrap sdkerrors.ErrInvalidRequest)).
Proof.
  assert (Hv : ∀ o p c w w' u, ValidateTransferChannelParams o p c w = (w', Ok u) →
    o = UNORDERED ∧ default "" (store (transfer_state w) !! PortKey) = p ∧
    ∃ n, ParseChannelSequence c = Ok n ∧ (n < 2 ^ 32)%N).
  { unfold ValidateTransferChannelParams, GetPort, get_transfer_store. intros. go_inv.
    repeat match goal with H : bool_decide (_ ≠ _) = false |- _ => apply bool_decide_eq_false, dec_stable in H end.
    split_and!; [done..|]. eexists. split; [done|]. match goal with H : (_ <? _)%N = false |- _ =>
      apply N.ltb_ge in H; unfold MaxUint32 in H end. lia. }
  split_and!.
  - split; intros; try (apply keeps_ibc_channels); try done; try apply im_OnChanOpen_ibc.
    + apply keeps_throw_if.
    + apply im_OnRecvPacket_ibc.
    + apply im_OnAcknowledgementPacket_ibc.
    + apply im_OnTimeoutPacket_ibc.
  - cbn [OnChanOpenInit NewIBCModule]. unfold im_OnChanOpenInit. intros. go_inv.
    match goal with H : ValidateTransferChannelParams _ _ _ _ = _ |- _ => apply Hv in H as (-> & <- & n & Hn & Hl) end. eauto 10.
  - cbn [OnChanOpenTry NewIBCModule]. unfold im_OnChanOpenTry. intros. go_inv.
    match goal with H : ValidateTransferChannelParams _ _ _ _ = _ |- _ => apply Hv in H as (-> & <- & n & Hn & Hl) end. eauto 10.
  - done.
Qed.

(** A transfer that is sent takes exactly its amount from the sender: into the
    escrow account of the channel with the supply unchanged when this chain is the
    token's source, or burned from the supply when it is a voucher of the channel's
    other end; and it commits, under the next sequence of the channel, to one packet
    whose data decodes to the full path, the amount, the sender and the receiver. *)
Theorem SendTransfer_spec ctx port channel token sender receiver th tt' w w' :
  SendTransfer ctx port channel token sender receiver th tt' w = (w', Ok tt) →
  ∃ path seq pkt w1, full_denom_path (Denom token) w = (w, Ok path) ∧
    (Amount token ≤ bal w sender (Denom token))%Z ∧ taken port channel path token sender w w1 ∧
    app w' = app w1 ∧ caps w' = caps w ∧
    next_send w port channel = Some seq ∧ commitment_at w' port channel seq = Some (CommitPacket pkt) ∧
    UnmarshalJSON_data (Data pkt) = (sent_data path token sender receiver, true).
Proof.
  intros (ch & seq & cap & path & w1 & _ & _ & Hn & _ & Hpath & Htake & Hsend)%SendTransfer_Ok.
  set (pkt := NewPacket _ _ _ _ _ _ _ _) in Hsend.
  apply take_coins_Ok in Htake as [Hle Htaken].
  apply SendPacket_Ok in Hsend as (_ & ? & ? & ? & ? & _ & _ & _ & _ & _ & _ & _ & _ & _ & Hw & Hc & Ha).
  exists path, seq, pkt, w1. split_and!; try done.
  - rewrite Hc. unfold taken, bank_effect in Htaken. by destruct (SenderChainIsSource _ _ _); destruct_and!.
  - unfold commitment_at. rewrite Hw. unfold pkt. simpl. by rewrite lookup_insert_eq.
  - apply data_roundtrip.
Qed.

(** C15: A refund undoes the send.  When a transfer has been sent, refunding its packet
    (after an error acknowledgement or a timeout) on balances that have not changed
    since restores every balance and every supply to what they were before the
    send, for tokens escrowed and for vouchers burned alike. *)
Theorem refund_undoes_send ctx port channel token sender receiver th tt' w w1 :
  SendTransfer ctx port channel token sender receiver th tt' w = (w1, Ok tt) →
  traces_ok w → canonical (Denom token) → (0 ≤ Amount token < 2 ^ 255)%Z → valid_address sender →
  ∃ path, full_denom_path (Denom token) w = (w, Ok path) ∧
    ∀ pkt w2 w3, ChannelTypes.SourcePort pkt = port → ChannelTypes.SourceChannel pkt = channel →
      (∀ x d, bal w2 x d = bal w1 x d) → (∀ d, sup w2 d = sup w1 d) →
      refundPacketToken pkt (sent_data path token sender receiver) w2 = (w3, Ok tt) →
      (∀ x d, bal w3 x d = bal w x d) ∧ (∀ d, sup w3 d = sup w d).
Proof.
  intros (ch & seq & cap & path & w0 & _ & _ & Hn & _ & Hpath & Htake & Hsend)%SendTransfer_Ok Htr Hcan Ham Hval.
  exists path. split; [done|]. intros pkt w2 w3 <- <- Hbal2 Hsup2 Href.
  apply SendPacket_Ok in Hsend as (_ & ? & ? & ? & ? & _ & _ & _ & _ & _ & _ & _ & _ & _ & _ & _ & Ha).
  destruct (full_denom_path_Ok _ _ _ _ Hpath Htr Hcan) as [_ Hden].
  apply take_coins_Ok in Htake as [_ Htaken].
  apply refundPacketToken_Ok in Href as (a & s & Hamt & _ & Haddr & Hgiven). simpl in Hamt, Haddr, Hgiven.
  rewrite Int_roundtrip in Hamt by done. rewrite address_roundtrip in Haddr by done.
  injection Hamt as <-. injection Haddr as <-. rewrite Hden in Hgiven.
  assert (Hb1 : ∀ x d, bal w2 x d = bal w0 x d) by (intros; rewrite Hbal2; unfold bal, transfer_state; by rewrite Ha).
  assert (Hs1 : ∀ d, sup w2 d = sup w0 d) by (intros; rewrite Hsup2; unfold sup, transfer_state; by rewrite Ha).
  unfold taken, given in *. destruct (SenderChainIsSource _ _ _);
    destruct Htaken as (Hbt & Hst & _), Hgiven as (Hbg & Hsg & _); split.
  - intros y e. rewrite Hbg. unfold credit in *. rewrite Hb1, Hbt. simpl. repeat case_bool_decide; lia.
  - intros e. by rewrite Hsg, Hs1, Hst.
  - intros y e. rewrite Hbg. unfold credit in *. rewrite Hb1, Hbt. simpl. repeat case_bool_decide; lia.
  - intros e. rewrite Hsg. unfold add_supply in *. rewrite Hs1, Hst. simpl. repeat case_bool_decide; lia.
Qed.

(** C16: Receiving a transfer.  The callback always returns an acknowledgement (or
    panics).  A success acknowledgement means that the data was decoded and valid and
    that its receiver was given its amount: out of the escrow account of the channel
    with the supply unchanged if the token returns to this chain, under its path
    without the prefix, while the module's store stays as it was; or as newly minted
    vouchers of the prefixed path otherwise, whose trace is added to the module's store
    under its hash if it was not there.  No other balance, nor the IBC store, the
    capabilities and the parameters change.  Any other acknowledgement decodes to an
    error. *)
Theorem transfer_receive_spec ctx pkt relayer w w' o :
  OnRecvPacket NewIBCModule ctx pkt relayer w = (w', o) →
  o = Panic ∨ ∃ ack, o = Ok (Some ack) ∧
    if ack_Success ack then
      ∃ data a receiver, UnmarshalJSON_data (Data pkt) = (data, true) ∧ data_ValidateBasic data = Ok tt ∧
        NewIntFromString (data_Amount data) = Some a ∧ (0 < a)%Z ∧ AccAddressFromBech32 (data_Receiver data) = Ok receiver ∧
        given (ReceiverChainIsSource (ChannelTypes.SourcePort pkt) (ChannelTypes.SourceChannel pkt) (data_Denom data))
          (DestinationPort pkt) (DestinationChannel pkt) (received_coin pkt data a) receiver w w' ∧
        store (transfer_state w') =
          (if ReceiverChainIsSource (ChannelTypes.SourcePort pkt) (ChannelTypes.SourceChannel pkt) (data_Denom data)
           then store (transfer_state w)
           else trace_recorded (ParseDenomTrace
             (GetDenomPrefix (DestinationPort pkt) (DestinationChannel pkt) +:+ data_Denom data)) (store (transfer_state w)))
    else ∃ e, UnmarshalJSON_ack (ack_Acknowledgement ack) = Some (NewErrorAcknowledgement e).
Proof.
  cbn [OnRecvPacket NewIBCModule]. unfold im_OnRecvPacket. destruct (UnmarshalJSON_data (Data pkt)) as [data [|]] eqn:Ed.
  - unfold catch, bind, EmitEvent, modify, ret.
    destruct (keeper_OnRecvPacket pkt data w) as [w1 [[]|e|]] eqn:E; intros [= <- <-]; [right|right|by left];
      (eexists; split; [done|]); cbn.
    + pose proof E as (a & r & Ha & Hpos & _ & Hr & Hg & Hs)%keeper_OnRecvPacket_Ok.
      assert (Hv : data_ValidateBasic data = Ok tt).
      { unfold keeper_OnRecvPacket in E. apply bind_Ok in E as ([] & s & Hv & _). by apply lift_Ok in Hv as [? _]. }
      exists data, a, r. split_and!; done.
    + eexists. apply ack_roundtrip.
  - intros [= <- <-]. right. eexists. split; [done|]. cbn. eexists. apply ack_roundtrip.
Qed.
End claims.
