(* ===== verification/TransferConservation.v ===== *)
(** * Vouchers are backed by escrow

    Two chains joined by one transfer channel, with transfers in flight in both
    directions.  Each packet is received or refunded at most once, and not both, which
    is what [MsgServerProperties.v] and [TwoChain.v] prove of the core; the chains may
    otherwise do anything that does not take the watched token out of its escrow
    account or mint its voucher. *)
From S2P Require Import Prelude GoMonad Errors Sha256 Height Host Sdk ConnectionTypes.
From S2P Require Import ChannelTypes Exported ClientKeeper ConnectionKeeper PortKeeper.
From S2P Require Import ChannelKeeper ChannelHandshake FullNode Scenario ChannelSpec.
From S2P Require Import MsgServerProperties.
From S2P Require Import Router TransferTypes TransferKeeper TransferProperties.
From Stdlib Require Import Ascii.
Import transfertypes transfer.

Section pending.
Context {SY : SdkTypes}.

Definition amount (data : FungibleTokenPacketData) : Z := default 0%Z (NewIntFromString (data_Amount data)).

(** The amount of the path [d] in a list of packets. *)
Definition pending (d : string) (l : list FungibleTokenPacketData) : Z :=
  foldr (λ x acc, (if bool_decide (data_Denom x = d) then amount x else 0) + acc)%Z 0%Z l.

Lemma pending_app d l1 l2 : pending d (l1 ++ l2) = (pending d l1 + pending d l2)%Z.
Proof. induction l1 as [|x l1 IH]; simpl; [done|]. rewrite IH. lia. Qed.
Lemma pending_remove d l1 x l2 :
  pending d (l1 ++ x :: l2) = (pending d (l1 ++ l2) + if bool_decide (data_Denom x = d) then amount x else 0)%Z.
Proof. rewrite !pending_app. simpl. lia. Qed.
Lemma pending_nonneg d l : Forall (λ x, 0 ≤ amount x)%Z l → (0 ≤ pending d l)%Z.
Proof. induction 1; simpl; [done|]. case_bool_decide; lia. Qed.
End pending.

Section system.
Context {SE : SdkEncoding} {LC : LightClient} {CD : Codec} {CK : CapabilityKeeper}
  {SY : SdkTypes} {BK : BankKeeper} {TC : TransferCodec} {BE : Bech32}.

(** ** The stores of the two chains *)

Lemma take_coins_store port channel path c sender :
  keeps (λ w, store (transfer_state w)) (take_coins port channel path c sender).
Proof.
  unfold take_coins. destruct (SenderChainIsSource _ _ _); [by apply on_bank_keeps|].
  apply keeps_bind; [by apply on_bank_keeps|]. intros _. by apply must_keeps, on_bank_keeps.
Qed.
Lemma refundPacketToken_store pkt data : keeps (λ w, store (transfer_state w)) (refundPacketToken pkt data).
Proof.
  assert (∀ A (m : ST BankState A), keeps (λ w, store (transfer_state w)) (on_bank m)) by (intros; by apply on_bank_keeps).
  unfold refundPacketToken. cbv zeta. frame. by apply must_keeps.
Qed.

Lemma refund_traces_ok pkt data w w' u : refundPacketToken pkt data w = (w', Ok u) → traces_ok w → traces_ok w'.
Proof.
  intros E. unfold traces_ok.
  by rewrite (keeps_run (λ w, store (transfer_state w)) _ _ _ _ (refundPacketToken_store pkt data) E).
Qed.

Lemma SendTransfer_store ctx port channel token sender receiver th tt' w w' u :
  SendTransfer ctx port channel token sender receiver th tt' w = (w', Ok u) →
  store (transfer_state w') = store (transfer_state w).
Proof.
  intros (ch & seq & cap & path & w1 & _ & _ & _ & _ & _ & Htake & Hsend)%SendTransfer_Ok.
  apply SendPacket_Ok in Hsend as (_ & ? & ? & ? & ? & _ & _ & _ & _ & _ & _ & _ & _ & _ & _ & _ & Ha).
  rewrite <- (keeps_run _ _ _ _ _ (take_coins_store port channel path token sender) Htake).
  unfold transfer_state. by rewrite Ha.
Qed.

Lemma traces_ok_store w w' : store (transfer_state w') = store (transfer_state w) → traces_ok w → traces_ok w'.
Proof. unfold traces_ok. by intros ->. Qed.

Lemma base_no_slash s : no_char "/" (BaseDenom (ParseDenomTrace s)) = true.
Proof.
  destruct (slash_cases s) as [H|(p & b & -> & Hb)]; [by rewrite ParseDenomTrace_base|by rewrite ParseDenomTrace_path].
Qed.

Lemma recv_traces_ok pkt data w w' u : keeper_OnRecvPacket pkt data w = (w', Ok u) → traces_ok w → traces_ok w'.
Proof.
  intros (a & r & _ & _ & _ & _ & _ & Hs)%keeper_OnRecvPacket_Ok Ht.
  destruct (ReceiverChainIsSource _ _ _); [by eapply traces_ok_store|].
  intros h bz. rewrite Hs. unfold trace_recorded. set (t := ParseDenomTrace _).
  destruct (store (transfer_state w) !! _) as [x|] eqn:E; [apply Ht|].
  destruct (decide (h = DenomTrace_Hash t)) as [->|Hne].
  - rewrite lookup_insert_eq. intros [= <-]. exists t. split_and!; [apply DenomTrace_roundtrip|done| |].
    + apply prefixed_path.
    + apply base_no_slash.
  - rewrite lookup_insert_ne by (intros [= ?]; done). apply Ht.
Qed.

(** ** Effects on the escrow account and on the supply *)

Lemma taken_escrow port channel path c sender w w' :
  taken port channel path c sender w w' → sender ≠ GetEscrowAddress port channel → (0 ≤ Amount c)%Z →
  (∀ d, bal w (GetEscrowAddress port channel) d ≤ bal w' (GetEscrowAddress port channel) d)%Z ∧
  (SenderChainIsSource port channel path = true →
   bal w' (GetEscrowAddress port channel) (Denom c) = bal w (GetEscrowAddress port channel) (Denom c) + Amount c)%Z.
Proof.
  unfold taken. intros H Hne Ha. destruct (SenderChainIsSource _ _ _); destruct H as (Hb & _); split; try done.
  - intros d. rewrite Hb. unfold credit. repeat case_bool_decide; naive_solver lia.
  - intros _. rewrite Hb. unfold credit. repeat case_bool_decide; naive_solver lia.
  - intros d. rewrite Hb. unfold credit. repeat case_bool_decide; naive_solver lia.
Qed.

Lemma taken_supply port channel path c sender w w' :
  taken port channel path c sender w w' → (0 ≤ Amount c)%Z →
  (∀ d, sup w' d ≤ sup w d)%Z ∧
  (SenderChainIsSource port channel path = false → sup w' (Denom c) = sup w (Denom c) - Amount c)%Z.
Proof.
  unfold taken. intros H Ha. destruct (SenderChainIsSource _ _ _); destruct H as (_ & Hs & _); split; try done.
  - intros d. by rewrite Hs.
  - intros d. rewrite Hs. unfold add_supply. case_bool_decide; lia.
  - intros _. rewrite Hs. unfold add_supply. by rewrite bool_decide_eq_true_2.
Qed.

Lemma given_escrow source port channel c receiver w w' x d :
  given source port channel c receiver w w' → (0 ≤ Amount c)%Z →
  (bal w x d - (if source && bool_decide (Denom c = d) then Amount c else 0) ≤ bal w' x d)%Z.
Proof.
  unfold given. intros H Ha. destruct source; destruct H as (Hb & _); rewrite Hb; unfold credit; simpl;
    repeat case_bool_decide; naive_solver lia.
Qed.

Lemma given_supply source port channel c receiver w w' d :
  given source port channel c receiver w w' →
  sup w' d = (sup w d + if negb source && bool_decide (Denom c = d) then Amount c else 0)%Z.
Proof.
  unfold given. intros H. destruct source; destruct H as (_ & Hs & _); rewrite Hs; unfold add_supply; simpl; [lia|done].
Qed.

(** ** The two chains *)

Variables pA cA pB cB : string.

Record system := mkSystem {
  chainA : World; chainB : World;
  toB : list FungibleTokenPacketData;    (* sent by A, neither received nor refunded *)
  toA : list FungibleTokenPacketData }.

(** The watched token: its path [d] on A, which is its source on this channel, and
    [d] with B's prefix on B. *)
Variable d : string.
Definition voucher_path : string := GetDenomPrefix pB cB +:+ d.
Definition tokenA : string := IBCDenom (ParseDenomTrace d).
Definition voucherB : string := IBCDenom (ParseDenomTrace voucher_path).
Definition escrowA : string := GetEscrowAddress pA cA.

Definition from_A (pkt : Packet) : Prop :=
  ChannelTypes.SourcePort pkt = pA ∧ ChannelTypes.SourceChannel pkt = cA ∧
  DestinationPort pkt = pB ∧ DestinationChannel pkt = cB.
Definition from_B (pkt : Packet) : Prop :=
  ChannelTypes.SourcePort pkt = pB ∧ ChannelTypes.SourceChannel pkt = cB ∧
  DestinationPort pkt = pA ∧ DestinationChannel pkt = cA.

(** A transfer that [MsgTransfer.ValidateBasic] admits, by an account holder. *)
Definition sendable (token : Coin) : Prop := canonical (Denom token) ∧ (0 < Amount token < 2 ^ 255)%Z.

(** The steps.  Paths that are compared through their hashes do not collide with the
    watched ones. *)
Inductive step : system → system → Prop :=
  | send_A s ctx token sender receiver th tt' path w w' :
      SendTransfer ctx pA cA token sender receiver th tt' (chainA s) = (w', Ok tt) →
      full_denom_path (Denom token) (chainA s) = (w, Ok path) → sendable token → sender ≠ escrowA →
      step s (mkSystem w' (chainB s) (sent_data path token sender receiver :: toB s) (toA s))
  | recv_B s l1 data l2 pkt w' :
      toB s = l1 ++ data :: l2 → from_A pkt → keeper_OnRecvPacket pkt data (chainB s) = (w', Ok tt) →
      collision_free (GetDenomPrefix pB cB +:+ data_Denom data) voucher_path →
      step s (mkSystem (chainA s) w' (l1 ++ l2) (toA s))
  | refund_A s l1 data l2 pkt w' :
      toB s = l1 ++ data :: l2 → from_A pkt → refundPacketToken pkt data (chainA s) = (w', Ok tt) →
      collision_free (data_Denom data) d →
      step s (mkSystem w' (chainB s) (l1 ++ l2) (toA s))
  | send_B s ctx token sender receiver th tt' path w w' :
      SendTransfer ctx pB cB token sender receiver th tt' (chainB s) = (w', Ok tt) →
      full_denom_path (Denom token) (chainB s) = (w, Ok path) → sendable token →
      step s (mkSystem (chainA s) w' (toB s) (sent_data path token sender receiver :: toA s))
  | recv_A s l1 data l2 pkt w' :
      toA s = l1 ++ data :: l2 → from_B pkt → keeper_OnRecvPacket pkt data (chainA s) = (w', Ok tt) →
      collision_free (str_drop (String.length (GetDenomPrefix pB cB)) (data_Denom data)) d →
      step s (mkSystem w' (chainB s) (toB s) (l1 ++ l2))
  | refund_B s l1 data l2 pkt w' :
      toA s = l1 ++ data :: l2 → from_B pkt → refundPacketToken pkt data (chainB s) = (w', Ok tt) →
      collision_free (data_Denom data) voucher_path →
      step s (mkSystem (chainA s) w' (toB s) (l1 ++ l2))
  | other_A s w' :
      (bal (chainA s) escrowA tokenA ≤ bal w' escrowA tokenA)%Z → (traces_ok (chainA s) → traces_ok w') →
      step s (mkSystem w' (chainB s) (toB s) (toA s))
  | other_B s w' :
      (sup w' voucherB ≤ sup (chainB s) voucherB)%Z → (traces_ok (chainB s) → traces_ok w') →
      step s (mkSystem (chainA s) w' (toB s) (toA s)).

(** The invariant. *)
Definition in_flight_ok (l : list FungibleTokenPacketData) : Prop :=
  Forall (λ x, plain (data_Denom x) ∧ (0 ≤ amount x)%Z) l.
Definition backed (s : system) : Prop :=
  (sup (chainB s) voucherB + pending d (toB s) + pending voucher_path (toA s) ≤ bal (chainA s) escrowA tokenA)%Z.
Definition system_ok (s : system) : Prop :=
  traces_ok (chainA s) ∧ traces_ok (chainB s) ∧ in_flight_ok (toB s) ∧ in_flight_ok (toA s) ∧ backed s.

(** What a transfer adds to the packets in flight. *)
Lemma sent_data_ok token path sender receiver w w' :
  full_denom_path (Denom token) w = (w', Ok path) → traces_ok w → sendable token →
  plain path ∧ IBCDenom (ParseDenomTrace path) = Denom token ∧ amount (sent_data path token sender receiver) = Amount token.
Proof.
  intros Hp Ht [Hc Ha]. destruct (full_denom_path_Ok _ _ _ _ Hp Ht Hc) as [Hpl Hd]. split_and!; [done..|].
  unfold amount. simpl. rewrite Int_roundtrip by lia. done.
Qed.
Lemma in_flight_remove l1 x l2 : in_flight_ok (l1 ++ x :: l2) → in_flight_ok (l1 ++ l2) ∧ plain (data_Denom x).
Proof.
  unfold in_flight_ok. rewrite !Forall_app, Forall_cons_iff. naive_solver.
Qed.

(** ** What each step does to the escrow account on A and to the supply on B *)

Hypothesis source_A : SenderChainIsSource pA cA d = true.
Hypothesis plain_d : plain d.

Lemma voucher_plain x : plain (GetDenomPrefix pB cB +:+ x).
Proof. right. apply prefixed_path. Qed.
Lemma voucher_returns : SenderChainIsSource pB cB voucher_path = false.
Proof. unfold SenderChainIsSource, ReceiverChainIsSource, voucher_path. by rewrite HasPrefix_app. Qed.

Lemma SendTransfer_taken ctx port channel token sender receiver th tt' path w w' v :
  SendTransfer ctx port channel token sender receiver th tt' w = (w', Ok tt) →
  full_denom_path (Denom token) w = (v, Ok path) →
  ∃ w1, taken port channel path token sender w w1 ∧ app w' = app w1.
Proof.
  intros (ch & seq & cap & path' & w1 & _ & _ & _ & _ & Hp & Htake & Hsend)%SendTransfer_Ok Hp'.
  rewrite Hp in Hp'. simplify_eq.
  apply SendPacket_Ok in Hsend as (_ & ? & ? & ? & ? & _ & _ & _ & _ & _ & _ & _ & _ & _ & _ & _ & Ha).
  exists w1. split; [by eapply take_coins_Ok|done].
Qed.
Lemma app_bal w w' x e : app w' = app w → bal w' x e = bal w x e.
Proof. unfold bal, transfer_state. by intros ->. Qed.
Lemma app_sup w w' e : app w' = app w → sup w' e = sup w e.
Proof. unfold sup, transfer_state. by intros ->. Qed.

Lemma send_A_effect ctx token sender receiver th tt' path w w' v :
  SendTransfer ctx pA cA token sender receiver th tt' w = (w', Ok tt) →
  full_denom_path (Denom token) w = (v, Ok path) → traces_ok w → sendable token → sender ≠ escrowA →
  (bal w escrowA tokenA + (if bool_decide (path = d) then Amount token else 0) ≤ bal w' escrowA tokenA)%Z.
Proof.
  intros E Hp Ht Hs Hne. destruct (sent_data_ok _ _ sender receiver _ _ Hp Ht Hs) as (_ & Hd & _).
  destruct (SendTransfer_taken _ _ _ _ _ _ _ _ _ _ _ _ E Hp) as (w1 & Htaken & Ha).
  rewrite (app_bal _ _ _ _ Ha). destruct Hs as [_ Ham].
  destruct (taken_escrow _ _ _ _ _ _ _ Htaken Hne) as [Hle Heq]; [lia|].
  case_bool_decide as Hpd; [|rewrite Z.add_0_r; apply Hle].
  subst path. unfold tokenA. rewrite Hd. specialize (Heq source_A). unfold escrowA. lia.
Qed.

Lemma send_B_effect ctx token sender receiver th tt' path w w' v :
  SendTransfer ctx pB cB token sender receiver th tt' w = (w', Ok tt) →
  full_denom_path (Denom token) w = (v, Ok path) → traces_ok w → sendable token →
  (sup w' voucherB + (if bool_decide (path = voucher_path) then Amount token else 0) ≤ sup w voucherB)%Z.
Proof.
  intros E Hp Ht Hs. destruct (sent_data_ok _ _ sender receiver _ _ Hp Ht Hs) as (_ & Hd & _).
  destruct (SendTransfer_taken _ _ _ _ _ _ _ _ _ _ _ _ E Hp) as (w1 & Htaken & Ha).
  rewrite (app_sup _ _ _ Ha). destruct Hs as [_ Ham].
  destruct (taken_supply _ _ _ _ _ _ _ Htaken) as [Hle Heq]; [lia|].
  case_bool_decide as Hpd; [|rewrite Z.add_0_r; apply Hle].
  subst path. unfold voucherB. rewrite Hd. specialize (Heq voucher_returns). lia.
Qed.

Lemma recv_B_effect pkt data w w' :
  from_A pkt → keeper_OnRecvPacket pkt data w = (w', Ok tt) →
  collision_free (GetDenomPrefix pB cB +:+ data_Denom data) voucher_path →
  (sup w' voucherB ≤ sup w voucherB + if bool_decide (data_Denom data = d) then amount data else 0)%Z.
Proof.
  intros (Hp & Hc & Hp' & Hc') (a & r & Ha & Hpos & Hv & _ & Hg & _)%keeper_OnRecvPacket_Ok Hcf.
  assert (Ham : amount data = a) by (unfold amount; by rewrite Ha).
  rewrite (given_supply _ _ _ _ _ _ _ _ Hg), Ham. unfold received_coin. rewrite Hp, Hc, Hp', Hc'.
  destruct (ReceiverChainIsSource pA cA (data_Denom data)) eqn:Hr; cbn [negb andb Denom Amount];
    [case_bool_decide; lia|].
  case_bool_decide as Hd; [|case_bool_decide; lia].
  apply IBCDenom_inj in Hd; [|apply voucher_plain..|done].
  apply append_inj in Hd. by rewrite bool_decide_eq_true_2.
Qed.

Lemma refund_A_effect pkt data w w' :
  from_A pkt → refundPacketToken pkt data w = (w', Ok tt) → collision_free (data_Denom data) d →
  plain (data_Denom data) →
  (bal w escrowA tokenA - (if bool_decide (data_Denom data = d) then amount data else 0) ≤ bal w' escrowA tokenA)%Z.
Proof.
  intros _ (a & sender & Ha & Hpos & _ & Hg)%refundPacketToken_Ok Hcf Hpl.
  assert (Ham : amount data = a) by (unfold amount; by rewrite Ha).
  pose proof (given_escrow _ _ _ _ _ _ _ escrowA tokenA Hg Hpos) as Hle. rewrite Ham. cbn [Denom Amount] in Hle.
  destruct (SenderChainIsSource _ _ (data_Denom data)); cbn [andb] in Hle; [|case_bool_decide; lia].
  destruct (bool_decide (IBCDenom _ = tokenA)) eqn:Hd; cbv iota in Hle; [|destruct (bool_decide (data_Denom data = _)); lia].
  apply bool_decide_eq_true in Hd. apply IBCDenom_inj in Hd; [|done..]. rewrite bool_decide_eq_true_2 by done. lia.
Qed.

Lemma recv_A_effect pkt data w w' :
  from_B pkt → keeper_OnRecvPacket pkt data w = (w', Ok tt) →
  collision_free (str_drop (String.length (GetDenomPrefix pB cB)) (data_Denom data)) d →
  (bal w escrowA tokenA - (if bool_decide (data_Denom data = voucher_path) then amount data else 0)
   ≤ bal w' escrowA tokenA)%Z.
Proof.
  intros (Hp & Hc & Hp' & Hc') (a & r & Ha & Hpos & Hv & _ & Hg & _)%keeper_OnRecvPacket_Ok Hcf.
  assert (Ham : amount data = a) by (unfold amount; by rewrite Ha). rewrite Ham.
  assert (Hnn : (0 ≤ Amount (received_coin pkt data a))%Z)
    by (unfold received_coin; destruct (ReceiverChainIsSource _ _ _); simpl; lia).
  pose proof (given_escrow _ _ _ _ _ _ _ escrowA tokenA Hg Hnn) as Hle. clear Hg Hnn.
  unfold received_coin in Hle. rewrite Hp, Hc, Hp', Hc' in Hle.
  destruct (ReceiverChainIsSource pB cB (data_Denom data)) eqn:Hr; cbn [andb Denom Amount] in Hle; [|case_bool_decide; lia].
  destruct (bool_decide (escrowed_denom _ = tokenA)) eqn:Hd; cbv iota in Hle; [|destruct (bool_decide (data_Denom data = _)); lia].
  apply bool_decide_eq_true in Hd. apply escrowed_inj in Hd; [|done..].
  unfold ReceiverChainIsSource in Hr. apply HasPrefix_spec in Hr as [x Hx]. rewrite Hx, str_drop_app in Hd. subst x.
  rewrite bool_decide_eq_true_2 by done. lia.
Qed.

Lemma refund_B_effect pkt data w w' :
  from_B pkt → refundPacketToken pkt data w = (w', Ok tt) → collision_free (data_Denom data) voucher_path →
  plain (data_Denom data) →
  (sup w' voucherB ≤ sup w voucherB + if bool_decide (data_Denom data = voucher_path) then amount data else 0)%Z.
Proof.
  intros _ (a & sender & Ha & Hpos & _ & Hg)%refundPacketToken_Ok Hcf Hpl.
  assert (Ham : amount data = a) by (unfold amount; by rewrite Ha).
  rewrite (given_supply _ _ _ _ _ _ _ _ Hg), Ham. cbn [Denom Amount].
  destruct (SenderChainIsSource _ _ (data_Denom data)); cbn [negb andb]; [case_bool_decide; lia|].
  destruct (bool_decide (IBCDenom _ = voucherB)) eqn:Hd; cbv iota; [|destruct (bool_decide (data_Denom data = _)); lia].
  apply bool_decide_eq_true in Hd. apply IBCDenom_inj in Hd; [|done|apply voucher_plain|done].
  by rewrite bool_decide_eq_true_2.
Qed.

Lemma in_flight_add token path sender receiver w w' l :
  full_denom_path (Denom token) w = (w', Ok path) → traces_ok w → sendable token → in_flight_ok l →
  in_flight_ok (sent_data path token sender receiver :: l).
Proof.
  intros Hp Ht Hs Hl. destruct (sent_data_ok _ _ sender receiver _ _ Hp Ht Hs) as (Hpl & _ & Ham).
  apply Forall_cons_2; [|done]. rewrite Ham. split; [done|]. destruct Hs as [_ Hs]. lia.
Qed.

Lemma step_ok s s' : step s s' → system_ok s → system_ok s'.
Proof.
  unfold system_ok, backed.
  destruct 1 as [s ctx token sender receiver th tt' path w w' E Hp Hs Hne|s l1 data l2 pkt w' Hl Hpk E Hcf
    |s l1 data l2 pkt w' Hl Hpk E Hcf|s ctx token sender receiver th tt' path w w' E Hp Hs
    |s l1 data l2 pkt w' Hl Hpk E Hcf|s l1 data l2 pkt w' Hl Hpk E Hcf|s w' Hle Ht|s w' Hle Ht];
    intros (HtA & HtB & HfB & HfA & Hb); cbn [chainA chainB toB toA].
  - pose proof (send_A_effect _ _ _ _ _ _ _ _ _ _ E Hp HtA Hs Hne) as He.
    destruct (sent_data_ok _ _ sender receiver _ _ Hp HtA Hs) as (_ & _ & Ham).
    split_and!; eauto using traces_ok_store, SendTransfer_store, in_flight_add.
    cbn [pending foldr]. rewrite Ham. cbn [data_Denom sent_data]. fold (pending d (toB s)).
    destruct (bool_decide (path = d)); lia.
  - pose proof (recv_B_effect _ _ _ _ Hpk E Hcf) as He. rewrite Hl in HfB, Hb.
    destruct (in_flight_remove _ _ _ HfB) as [Hf _]. rewrite pending_remove in Hb.
    split_and!; eauto using recv_traces_ok. destruct (bool_decide (data_Denom data = d)); lia.
  - rewrite Hl in HfB, Hb. destruct (in_flight_remove _ _ _ HfB) as [Hf Hpl]. rewrite pending_remove in Hb.
    pose proof (refund_A_effect _ _ _ _ Hpk E Hcf Hpl) as He.
    split_and!; eauto using refund_traces_ok.
    destruct (bool_decide (data_Denom data = d)); lia.
  - pose proof (send_B_effect _ _ _ _ _ _ _ _ _ _ E Hp HtB Hs) as He.
    destruct (sent_data_ok _ _ sender receiver _ _ Hp HtB Hs) as (_ & _ & Ham).
    split_and!; eauto using traces_ok_store, SendTransfer_store, in_flight_add.
    cbn [pending foldr]. rewrite Ham. cbn [data_Denom sent_data]. fold (pending voucher_path (toA s)).
    destruct (bool_decide (path = voucher_path)); lia.
  - pose proof (recv_A_effect _ _ _ _ Hpk E Hcf) as He. rewrite Hl in HfA, Hb.
    destruct (in_flight_remove _ _ _ HfA) as [Hf _]. rewrite pending_remove in Hb.
    split_and!; eauto using recv_traces_ok. destruct (bool_decide (data_Denom data = voucher_path)); lia.
  - rewrite Hl in HfA, Hb. destruct (in_flight_remove _ _ _ HfA) as [Hf Hpl]. rewrite pending_remove in Hb.
    pose proof (refund_B_effect _ _ _ _ Hpk E Hcf Hpl) as He.
    split_and!; eauto using refund_traces_ok.
    destruct (bool_decide (data_Denom data = voucher_path)); lia.
  - split_and!; eauto. lia.
  - split_and!; eauto. lia.
Qed.

Lemma steps_ok s s' : rtc step s s' → system_ok s → system_ok s'.
Proof. induction 1; eauto using step_ok. Qed.
End system.

Section claims.
Context {SE : SdkEncoding} {LC : LightClient} {CD : Codec} {CK : CapabilityKeeper}
  {SY : SdkTypes} {BK : BankKeeper} {TC : TransferCodec} {BE : Bech32}.

(** C3: Vouchers are backed.  Let A be the source of the token with path [d] on a
    channel between A and B.  Starting without vouchers or transfers in flight, after
    any sequence of sends, receipts and refunds of any tokens in both directions, and
    any other activity that does not take the token out of the channel's escrow
    account or mint its voucher, the vouchers on B together with the token's transfers
    in flight in either direction never exceed the amount in escrow on A. *)
Theorem vouchers_are_backed pA cA pB cB d s s' :
  SenderChainIsSource pA cA d = true → ValidatePrefixedDenom d = Ok tt →
  traces_ok (chainA s) → traces_ok (chainB s) → toA s = [] → toB s = [] →
  sup (chainB s) (voucherB pB cB d) = 0%Z → (0 ≤ bal (chainA s) (escrowA pA cA) (tokenA d))%Z →
  rtc (step pA cA pB cB d) s s' →
  (sup (chainB s') (voucherB pB cB d) + pending d (toB s') + pending (voucher_path pB cB d) (toA s')
   ≤ bal (chainA s') (escrowA pA cA) (tokenA d))%Z ∧
  (0 ≤ pending d (toB s'))%Z ∧ (0 ≤ pending (voucher_path pB cB d) (toA s'))%Z.
Proof.
  intros Hsrc Hv HtA HtB HA HB Hsup Hbal Hr.
  destruct (steps_ok pA cA pB cB d Hsrc (plain_valid d Hv) s s' Hr) as (_ & _ & HfB & HfA & Hb).
  { split_and!; try done; [rewrite HB; constructor|rewrite HA; constructor|].
    unfold backed. rewrite HA, HB, Hsup. simpl. lia. }
  split_and!; [exact Hb|..]; apply pending_nonneg.
  - revert HfB. apply Forall_impl. by intros x [_ ?].
  - revert HfA. apply Forall_impl. by intros x [_ ?].
Qed.
End claims.

(** ** A concrete transfer *)
Module TransferWitness.
Import ToyInstances Scenario TraceWitness.

(** A bank with balances and supply in finite maps. *)
Record ToyBank := mkToyBank { balances : gmap (string * string) Z; supply : gmap string Z }.
Definition toy_balance (b : ToyBank) (x d : string) : Z := default 0%Z (balances b !! (x, d)).
Definition toy_supply (b : ToyBank) (d : string) : Z := default 0%Z (supply b !! d).
Definition toy_credit (x : string) (c : Coin) (a : Z) (b : ToyBank) : ToyBank :=
  mkToyBank (<[(x, Denom c) := (toy_balance b x (Denom c) + a)%Z]> (balances b)) (supply b).
Definition toy_issue (c : Coin) (a : Z) (b : ToyBank) : ToyBank :=
  mkToyBank (balances b) (<[Denom c := (toy_supply b (Denom c) + a)%Z]> (supply b)).

Lemma toy_credit_balance x c a b y d :
  toy_balance (toy_credit x c a b) y d = credit x (Denom c) a (toy_balance b) y d.
Proof.
  unfold toy_balance at 1, toy_credit, credit. simpl. case_bool_decide as H.
  - destruct H as [-> ->]. by rewrite lookup_insert_eq.
  - rewrite lookup_insert_ne by naive_solver. unfold toy_balance. lia.
Qed.
Lemma toy_issue_supply c a b d : toy_supply (toy_issue c a b) d = add_supply (Denom c) a (toy_supply b) d.
Proof.
  unfold toy_supply at 1, toy_issue, add_supply. simpl. case_bool_decide as H.
  - subst. by rewrite lookup_insert_eq.
  - rewrite lookup_insert_ne by naive_solver. unfold toy_supply. lia.
Qed.

Definition toy_send (from to : string) (c : Coin) : ST ToyBank unit := λ b,
  if (Amount c <=? toy_balance b from (Denom c))%Z
  then (toy_credit to c (Amount c) (toy_credit from c (- Amount c) b), Ok tt)
  else (b, Err sdkerrors.ErrInsufficientFunds).

Lemma toy_send_law from to c b b' u : toy_send from to c b = (b', Ok u) →
  (Amount c ≤ toy_balance b from (Denom c))%Z ∧
  (∀ x d, toy_balance b' x d =
    credit to (Denom c) (Amount c) (credit from (Denom c) (- Amount c) (toy_balance b)) x d) ∧
  (∀ d, toy_supply b' d = toy_supply b d).
Proof.
  unfold toy_send. destruct (Amount c <=? _)%Z eqn:E; [|done]. intros [= <-]. split_and!; [by apply Z.leb_le| |done].
  intros x d. rewrite toy_credit_balance. unfold credit at 1 2. by rewrite toy_credit_balance.
Qed.

Definition toy_bank : BankKeeper.
Proof.
  refine {| BankState := ToyBank; GetModuleAddress := λ m, m; GetModuleAccount := λ _ b, (b, Ok true);
    bank_SendCoins := toy_send; bank_SendCoinsFromAccountToModule := toy_send;
    bank_SendCoinsFromModuleToAccount := toy_send;
    bank_MintCoins := λ m c b, (toy_issue c (Amount c) (toy_credit m c (Amount c) b), Ok tt);
    bank_BurnCoins := λ m c b, (toy_issue c (- Amount c) (toy_credit m c (- Amount c) b), Ok tt);
    GetBalance := toy_balance; GetSupply := toy_supply;
    SendCoins_law := toy_send_law; AccountToModule_law := toy_send_law;
    ModuleToAccount_law := λ m to c b b' u H, proj2 (toy_send_law m to c b b' u H) |}.
  - intros m c b b' u [= <-]. split; intros; [apply toy_credit_balance|].
    apply (toy_issue_supply c (Amount c) (toy_credit m c (Amount c) b)).
  - intros m c b b' u [= <-]. split; intros; [apply toy_credit_balance|].
    apply (toy_issue_supply c (- Amount c) (toy_credit m c (- Amount c) b)).
Defined.

(** Codecs that list the fields. *)
Definition toy_data (s : string) : FungibleTokenPacketData * bool :=
  match unpack s with
  | [d; a; f; t] => (NewFungibleTokenPacketData d a f t, true)
  | _ => (NewFungibleTokenPacketData "" "" "" "", false)
  end.
Definition toy_transfer_codec : TransferCodec.
Proof.
  refine {| transfer_ack_codec := toy_ack_codec;
    GetBytes := λ d, pack [data_Denom d; data_Amount d; data_Sender d; data_Receiver d];
    UnmarshalJSON_data := toy_data; Marshal_DenomTrace := λ t, pack [Path t; BaseDenom t];
    Unmarshal_DenomTrace := λ s, match unpack s with [p; b] => Some (mkDenomTrace p b) | _ => None end |}.
  - intros []. unfold toy_data. by rewrite unpack_pack.
  - intros []. by rewrite unpack_pack.
Defined.

#[local] Existing Instance toy_sdk.
#[local] Existing Instance toy_bank.
#[local] Existing Instance toy_transfer_codec.
#[local] Existing Instance MsgWitness.toy_bech32.

(** Alice has 100 uatom on A; A's client of B has seen nothing yet. *)
Definition startA : @World toy_caps transfer_app :=
  @mkWorld toy_caps transfer_app
    (chain_store "connection-0" "connection-5" "channel-0" (channelA UNORDERED) (NewHeight 1 10) 900 ∅)
    (chain_caps "channel-0")
    (mkTransferState toy_bank (mkToyBank {[("alice", "uatom") := 100%Z]} {["uatom" := 100%Z]}) ∅ DefaultParams)
    ["full-node"] 30 [].
Definition startB : @World toy_caps transfer_app :=
  @mkWorld toy_caps transfer_app
    (chain_store "connection-5" "connection-0" "channel-1" (channelB UNORDERED) (NewHeight 1 20) 1000 ∅)
    (chain_caps "channel-1") (mkTransferState toy_bank (mkToyBank ∅ ∅) ∅ DefaultParams) ["full-node"] 30 [].

Definition ten : Coin := mkCoin "uatom" 10.
Definition sentA : @World toy_caps transfer_app :=
  (SendTransfer ctxA "transfer" "channel-0" ten "alice" "bob" (NewHeight 1 50) 0 startA).1.
Definition sent : FungibleTokenPacketData := sent_data "uatom" ten "alice" "bob".
Definition sent_pkt : Packet :=
  NewPacket (GetBytes sent) 1 "transfer" "channel-0" "transfer" "channel-1" (NewHeight 1 50) 0.
Definition receivedB : @World toy_caps transfer_app := (keeper_OnRecvPacket sent_pkt sent startB).1.

Definition start : system := mkSystem startA startB [] [].
Definition finish : system := mkSystem sentA receivedB [] [].

Lemma finish_reachable : rtc (step "transfer" "channel-0" "transfer" "channel-1" "uatom") start finish.
Proof.
  eapply rtc_l; [|eapply rtc_l; [|constructor]].
  - eapply (send_A _ _ _ _ _ start ctxA ten "alice" "bob" (NewHeight 1 50) 0 "uatom" startA sentA).
    + unfold sentA. apply run_pair. vm_compute. reflexivity.
    + done.
    + split; [by left|done].
    + vm_compute. discriminate.
  - apply (recv_B _ _ _ _ _ (mkSystem sentA startB [sent] []) [] sent [] sent_pkt receivedB).
    + done.
    + done.
    + unfold receivedB. apply run_pair. vm_compute. reflexivity.
    + intros _. reflexivity.
Qed.

Lemma vouchers_are_backed_witness :
  (sup receivedB (voucherB "transfer" "channel-1" "uatom") ≤ bal sentA (escrowA "transfer" "channel-0") "uatom")%Z ∧
  sup receivedB (voucherB "transfer" "channel-1" "uatom") = 10%Z.
Proof.
  split; [|vm_compute; reflexivity].
  destruct (vouchers_are_backed "transfer" "channel-0" "transfer" "channel-1" "uatom" start finish) as (H & HB & HA).
  - done.
  - done.
  - intros h bz E. exfalso. revert E. cbn. by rewrite lookup_empty.
  - intros h bz E. exfalso. revert E. cbn. by rewrite lookup_empty.
  - done.
  - done.
  - vm_compute. reflexivity.
  - vm_compute. discriminate.
  - apply finish_reachable.
  - cbn [finish chainA chainB toA toB pending foldr] in H. change (tokenA "uatom") with "uatom" in H. lia.
Defined.

Lemma startA_traces : traces_ok startA.
Proof. intros h bz E. exfalso. revert E. cbn. by rewrite lookup_empty. Qed.
Lemma transfer_sent_run : SendTransfer ctxA "transfer" "channel-0" ten "alice" "bob" (NewHeight 1 50) 0 startA = (sentA, Ok tt).
Proof. unfold sentA. apply run_pair. vm_compute. reflexivity. Defined.

Lemma SendTransfer_spec_witness : ∃ path, full_denom_path "uatom" startA = (startA, Ok path).
Proof.
  destruct (SendTransfer_spec ctxA "transfer" "channel-0" ten "alice" "bob" (NewHeight 1 50) 0 startA sentA)
    as (path & seq & pkt & w1 & H & _); [apply transfer_sent_run|]. exists path. exact H.
Defined.

(** The refund after a timeout. *)
Definition refundedA : @World toy_caps transfer_app := (refundPacketToken sent_pkt sent sentA).1.

Lemma refund_undoes_send_witness : (∀ x d, bal refundedA x d = bal startA x d) ∧ ∀ d, sup refundedA d = sup startA d.
Proof.
  destruct (refund_undoes_send ctxA "transfer" "channel-0" ten "alice" "bob" (NewHeight 1 50) 0 startA sentA)
    as (path & Hp & Hr).
  - apply transfer_sent_run.
  - apply startA_traces.
  - by left.
  - done.
  - done.
  - cbn in Hp. injection Hp as <-. apply (Hr sent_pkt sentA refundedA); [done..|].
    unfold refundedA. apply run_pair. vm_compute. reflexivity.
Defined.

Definition acceptedB : @World toy_caps transfer_app := (OnRecvPacket NewIBCModule ctxB sent_pkt "relayer" startB).1.

Lemma transfer_receive_spec_witness :
  bal acceptedB "bob" (voucherB "transfer" "channel-1" "uatom") = 10%Z ∧
  ∃ t, store (transfer_state acceptedB) = trace_recorded t (store (transfer_state startB)).
Proof.
  destruct (transfer_receive_spec ctxB sent_pkt "relayer" startB acceptedB
    (Ok (Some (mkAck true (Acknowledgement_GetBytes (NewResultAcknowledgement (String "001" "")))))))
    as [H|(ack & H & Ha)].
  - unfold acceptedB. apply run_pair. vm_compute. reflexivity.
  - discriminate H.
  - split; [vm_compute; reflexivity|]. injection H as <-. destruct Ha as (data & a & r & Hd & _ & _ & _ & _ & _ & Hs).
    vm_compute in Hd. injection Hd as <-. eexists. exact Hs.
Defined.
End TransferWitness.
