(* ===== verification/IcaTypes.v ===== *)
(** * Types of interchain accounts ([apps/27-interchain-accounts/types])

    Keys, port identifiers, versions, packet data, accounts, transactions and genesis
    states, with the parameters of the controller and host submodules.  Messages of
    cosmos-sdk and their encodings are a parameter ([SdkMsg]), and so are its account
    module ([AccountKeeper]) and the JSON codec ([IcaCodec]). *)
From S2P Require Import Prelude GoMonad Errors Sha256 Height Host Sdk ConnectionTypes.
From S2P Require Import ChannelTypes.
From Stdlib Require Import Ascii.

(** [controller/types/params.go], [keys.go] *)
Module controllertypes.
Definition SubModuleName : string := "icacontroller".
Definition StoreKey : string := SubModuleName.

Record Params := mkParams { ControllerEnabled : bool }.
Definition DefaultControllerEnabled : bool := true.
Definition NewParams (enableController : bool) : Params := mkParams enableController.
Definition DefaultParams : Params := NewParams DefaultControllerEnabled.

(** The value has the static type [bool], so the type assertion holds. *)
Definition validateEnabled (i : bool) : outcome unit := Ok tt.
Definition Params_Validate (p : Params) : outcome unit := validateEnabled (ControllerEnabled p).
End controllertypes.

(** [host/types/params.go], [keys.go] *)
Module hosttypes.
Definition SubModuleName : string := "icahost".
Definition StoreKey : string := SubModuleName.

Record Params := mkParams { HostEnabled : bool; AllowMessages : list string }.
Definition DefaultHostEnabled : bool := true.
Definition NewParams (enableHost : bool) (allowMsgs : list string) : Params := mkParams enableHost allowMsgs.
Definition DefaultParams : Params := NewParams DefaultHostEnabled [].

Definition validateEnabled (i : bool) : outcome unit := Ok tt.
Fixpoint validateAllowlist (allowMsgs : list string) : outcome unit :=
  match allowMsgs with
  | [] => Ok tt
  | typeURL :: allowMsgs => if blank typeURL then Err fmt_Errorf else validateAllowlist allowMsgs
  end.
Definition Params_Validate (p : Params) : outcome unit :=
  validateEnabled (HostEnabled p) ;;?
  validateAllowlist (AllowMessages p).
End hosttypes.

Module icatypes.

(** ** Keys ([keys.go]) *)
Definition ModuleName : string := "interchainaccounts".
Definition VersionPrefix : string := "ics27-1".
Definition PortID : string := "interchain-account".
Definition Delimiter : string := ".".
Definition ActiveChannelKeyPrefix : string := "activeChannel".
Definition OwnerKeyPrefix : string := "owner".
Definition PortKeyPrefix : string := "port".

Definition KeyActiveChannel (portID : string) : string := ActiveChannelKeyPrefix +:+ "/" +:+ portID.
Definition KeyOwnerAccount (portID : string) : string := OwnerKeyPrefix +:+ "/" +:+ portID.
Definition KeyPort (portID : string) : string := PortKeyPrefix +:+ "/" +:+ portID.

(** ** Ports ([port.go]) *)
Definition GeneratePortID (owner connectionID counterpartyConnectionID : string) : outcome string :=
  if blank owner then Err (Wrap IcaErr.ErrInvalidAccountAddress)
  else
    let? connectionSeq := outcome_wrap (ParseConnectionSequence connectionID) in
    let? counterpartyConnectionSeq := outcome_wrap (ParseConnectionSequence counterpartyConnectionID) in
    Ok (VersionPrefix +:+ Delimiter +:+ fmt_u64 connectionSeq +:+ Delimiter +:+
        fmt_u64 counterpartyConnectionSeq +:+ Delimiter +:+ owner).

(** [seq, err := strconv.ParseUint(s, 10, 64)], with the error wrapped *)
Definition parse_seq (s : string) : outcome N :=
  match ParseUint s with
  | Some seq => Ok seq
  | None => Err (Wrap strconv_NumError)
  end.

Definition ParseControllerConnSequence (portID : string) : outcome N :=
  match Split portID Delimiter with
  | [_; s1; _; _] => parse_seq s1
  | _ => Err (Wrap PortErr.ErrInvalidPort)
  end.

Definition ParseHostConnSequence (portID : string) : outcome N :=
  match Split portID Delimiter with
  | [_; _; s2; _] => parse_seq s2
  | _ => Err (Wrap PortErr.ErrInvalidPort)
  end.

(** ** Versions ([version.go]) *)
Definition DefaultMaxAddrLength : nat := 128.

(** The regular expression "^[a-zA-Z0-9]*$". *)
Definition IsValidAddr (addr : string) : bool := str_all is_alnum addr.

Definition NewAppVersion (versionPrefix accAddr : string) : string := versionPrefix +:+ Delimiter +:+ accAddr.

Definition ParseAddressFromVersion (version : string) : outcome string :=
  match Split version Delimiter with
  | [_; s1] => Ok s1
  | _ => Err (Wrap IcaErr.ErrInvalidVersion)
  end.

Definition ValidateAccountAddress (addr : string) : outcome unit :=
  if negb (IsValidAddr addr) || bool_decide (String.length addr = 0) ||
     bool_decide (DefaultMaxAddrLength < String.length addr)
  then Err (Wrap IcaErr.ErrInvalidAccountAddress) else Ok tt.

Definition ValidateVersion (version : string) : outcome unit :=
  match Split version Delimiter with
  | [s0; s1] =>
      if bool_decide (s0 ≠ VersionPrefix) then Err (Wrap IcaErr.ErrInvalidVersion)
      else ValidateAccountAddress s1
  | _ => Err (Wrap IcaErr.ErrInvalidVersion)
  end.

(** ** Packets ([packet.go]) *)

(** The enumeration of [packet.pb.go]; a decoded value may be any other integer. *)
Inductive Type_ := UNSPECIFIED | EXECUTE_TX | Unrecognized (n : Z).
#[export] Instance Type_eq_dec : EqDecision Type_.
Proof. solve_decision. Defined.

(** [Data] is [None] for a nil slice. *)
Record InterchainAccountPacketData := mkPacketData { data_Type : Type_; data_Data : option string; data_Memo : string }.

Definition MaxMemoCharLength : nat := 256.

Definition PacketData_ValidateBasic (iapd : InterchainAccountPacketData) : outcome unit :=
  if bool_decide (data_Type iapd = UNSPECIFIED) then Err (Wrap IcaErr.ErrInvalidOutgoingData)
  else if is_nil (data_Data iapd) then Err (Wrap IcaErr.ErrInvalidOutgoingData)
  else if bool_decide (MaxMemoCharLength < String.length (data_Memo iapd))
  then Err (Wrap IcaErr.ErrInvalidOutgoingData)
  else Ok tt.

(** ** Accounts ([account.go]) *)

(** [authtypes.BaseAccount]; the public key of an interchain account is never set. *)
Record BaseAccount := mkBaseAccount { Address : string; AccountNumber : N; Sequence : N }.
Record InterchainAccount := mkInterchainAccount { BaseAccount_of : BaseAccount; AccountOwner : string }.

Definition NewInterchainAccount (ba : BaseAccount) (accountOwner : string) : InterchainAccount :=
  mkInterchainAccount ba accountOwner.
Definition SetPubKey {PubKey : Type} (ia : InterchainAccount) (pubKey : PubKey) : outcome unit :=
  Err (Wrap IcaErr.ErrUnsupported).
Definition SetSequence (ia : InterchainAccount) (seq : N) : outcome unit := Err (Wrap IcaErr.ErrUnsupported).

(** [interchainAccountPretty]; the public key is always empty. *)
Record interchainAccountPretty := mkPretty {
  pretty_Address : string; pretty_AccountNumber : N; pretty_Sequence : N; pretty_AccountOwner : string }.

(** ** Genesis ([genesis.pb.go]) *)
Record ActiveChannel := mkActiveChannel { ac_PortId : string; ac_ChannelId : string }.
Record RegisteredInterchainAccount := mkRegistered { ra_PortId : string; ra_AccountAddress : string }.
Record ControllerGenesisState := mkControllerGenesis {
  cg_ActiveChannels : list ActiveChannel; cg_InterchainAccounts : list RegisteredInterchainAccount;
  cg_Ports : list string; cg_Params : controllertypes.Params }.
Record HostGenesisState := mkHostGenesis {
  hg_ActiveChannels : list ActiveChannel; hg_InterchainAccounts : list RegisteredInterchainAccount;
  hg_Port : string; hg_Params : hosttypes.Params }.
Record GenesisState := mkGenesis {
  ControllerGenesis : ControllerGenesisState; HostGenesis : HostGenesisState }.
End icatypes.

(** What interchain accounts use of cosmos-sdk's messages: their type URL, stateless
    check and signers (the bytes of addresses; [GetSigners] panics on an address that
    does not parse), [codectypes.NewAnyWithValue] and [UnpackAny], and the protobuf
    encoding of [CosmosTx].  A message whose type is registered survives packing. *)
Class SdkMsg := {
  sdkMsg : Type;
  MsgTypeURL : sdkMsg → string;
  msg_ValidateBasic : sdkMsg → outcome unit;
  msg_GetSigners : sdkMsg → outcome (list string);
  Any : Type;
  NewAnyWithValue : sdkMsg → outcome Any;
  UnpackAny : Any → outcome sdkMsg;
  Marshal_CosmosTx : list Any → outcome string;
  Unmarshal_CosmosTx : string → outcome (list Any);
  registered : sdkMsg → Prop;
  Any_roundtrip m a : registered m → NewAnyWithValue m = Ok a → UnpackAny a = Ok m;
  CosmosTx_roundtrip l bz : Marshal_CosmosTx l = Ok bz → Unmarshal_CosmosTx bz = Ok l }.

(** The account module ([expected_keepers.go]) with [sdkaddress.Derive] and
    [BaseAccount.Validate].  An account is an interchain account or one of another
    kind.  [NewAccount] assigns the next account number to the account it is given;
    [SetAccount] stores an account under its address. *)
Inductive AccountI := Interchain (ia : icatypes.InterchainAccount) | OtherAccount.
Class AccountKeeper `{Bech32} := {
  AccState : Type;
  acc_GetAccount : AccState → string → option AccountI;
  acc_NewAccount : icatypes.InterchainAccount → ST AccState icatypes.InterchainAccount;
  acc_SetAccount : icatypes.InterchainAccount → ST AccState unit;
  acc_GetModuleAddress : string → string;
  address_Derive : string → string → string;
  BaseAccount_Validate : icatypes.BaseAccount → outcome unit;
  NewAccount_law ia s s' ia' : acc_NewAccount ia s = (s', Ok ia') →
    icatypes.Address (icatypes.BaseAccount_of ia') = icatypes.Address (icatypes.BaseAccount_of ia) ∧
    icatypes.AccountOwner ia' = icatypes.AccountOwner ia ∧ (∀ a, acc_GetAccount s' a = acc_GetAccount s a);
  SetAccount_law ia s s' u a : acc_SetAccount ia s = (s', Ok u) →
    AccAddressFromBech32 (icatypes.Address (icatypes.BaseAccount_of ia)) = Ok a →
    acc_GetAccount s' a = Some (Interchain ia) ∧ (∀ b, b ≠ a → acc_GetAccount s' b = acc_GetAccount s b) }.

(** The JSON codecs of packet data and accounts.  What can be written as JSON
    ([json_data]: text that is valid UTF-8, data that is not empty) is read back. *)
Class IcaCodec := {
  ica_ack_codec :: AckCodec;
  PacketData_GetBytes : icatypes.InterchainAccountPacketData → string;
  PacketData_UnmarshalJSON : string → option icatypes.InterchainAccountPacketData;
  pretty_MarshalJSON : icatypes.interchainAccountPretty → outcome string;
  pretty_UnmarshalJSON : string → outcome icatypes.interchainAccountPretty;
  json_data : icatypes.InterchainAccountPacketData → Prop;
  PacketData_roundtrip d : json_data d → PacketData_UnmarshalJSON (PacketData_GetBytes d) = Some d;
  pretty_roundtrip p bz : pretty_MarshalJSON p = Ok bz → pretty_UnmarshalJSON bz = Ok p }.

Module icacodec.
Import icatypes.

Section accounts.
Context {BE : Bech32} {AK : AccountKeeper} {IC : IcaCodec}.

Definition GenerateAddress (moduleAccAddr portID : string) : string := address_Derive moduleAccAddr portID.

(** [authtypes.NewBaseAccountWithAddress], [NewBaseAccount] *)
Definition NewBaseAccountWithAddress (addr : string) : BaseAccount := mkBaseAccount (AccAddress_String addr) 0 0.
Definition NewBaseAccount (addr : string) (accountNumber sequence : N) : BaseAccount :=
  mkBaseAccount (AccAddress_String addr) accountNumber sequence.

Definition InterchainAccount_Validate (ia : InterchainAccount) : outcome unit :=
  if blank (AccountOwner ia) then Err (Wrap IcaErr.ErrInvalidAccountAddress)
  else BaseAccount_Validate (BaseAccount_of ia).

Definition MarshalJSON (ia : InterchainAccount) : outcome string :=
  let? accAddr := AccAddressFromBech32 (Address (BaseAccount_of ia)) in
  pretty_MarshalJSON (mkPretty accAddr (AccountNumber (BaseAccount_of ia)) (Sequence (BaseAccount_of ia))
    (AccountOwner ia)).

Definition UnmarshalJSON (bz : string) : outcome InterchainAccount :=
  let? alias := pretty_UnmarshalJSON bz in
  Ok (mkInterchainAccount
        (NewBaseAccount (pretty_Address alias) (pretty_AccountNumber alias) (pretty_Sequence alias))
        (pretty_AccountOwner alias)).
End accounts.

(** ** Transactions ([codec.go]) *)
Section transactions.
Context {SM : SdkMsg}.

(** The loops over the messages. *)
Fixpoint pack_msgs (msgs : list sdkMsg) : outcome (list Any) :=
  match msgs with
  | [] => Ok []
  | msg :: msgs =>
      let? any := NewAnyWithValue msg in
      let? anys := pack_msgs msgs in
      Ok (any :: anys)
  end.
Fixpoint unpack_msgs (anys : list Any) : outcome (list sdkMsg) :=
  match anys with
  | [] => Ok []
  | any :: anys =>
      let? msg := UnpackAny any in
      let? msgs := unpack_msgs anys in
      Ok (msg :: msgs)
  end.

Definition SerializeCosmosTx (msgs : list sdkMsg) : outcome string :=
  let? msgAnys := pack_msgs msgs in
  Marshal_CosmosTx msgAnys.

Definition DeserializeCosmosTx (data : string) : outcome (list sdkMsg) :=
  let? cosmosTx := Unmarshal_CosmosTx data in
  unpack_msgs cosmosTx.

(** [hosttypes.ContainsMsgType] *)
Fixpoint ContainsMsgType (allowMsgs : list string) (msg : sdkMsg) : bool :=
  match allowMsgs with
  | [] => false
  | v :: allowMsgs => if bool_decide (v = MsgTypeURL msg) then true else ContainsMsgType allowMsgs msg
  end.
End transactions.

(** ** Genesis states ([genesis.go]) *)
Definition NewControllerGenesisState (channels : list ActiveChannel) (accounts : list RegisteredInterchainAccount)
    (ports : list string) (controllerParams : controllertypes.Params) : ControllerGenesisState :=
  mkControllerGenesis channels accounts ports controllerParams.
Definition NewHostGenesisState (channels : list ActiveChannel) (accounts : list RegisteredInterchainAccount)
    (port : string) (hostParams : hosttypes.Params) : HostGenesisState :=
  mkHostGenesis channels accounts port hostParams.
Definition NewGenesisState (c : ControllerGenesisState) (h : HostGenesisState) : GenesisState := mkGenesis c h.
Definition DefaultControllerGenesis : ControllerGenesisState :=
  mkControllerGenesis [] [] [] controllertypes.DefaultParams.
Definition DefaultHostGenesis : HostGenesisState := mkHostGenesis [] [] PortID hosttypes.DefaultParams.
Definition DefaultGenesis : GenesisState := mkGenesis DefaultControllerGenesis DefaultHostGenesis.

(** The loops of [Validate]. *)
Fixpoint validate_channels (l : list ActiveChannel) : outcome unit :=
  match l with
  | [] => Ok tt
  | ch :: l =>
      ChannelIdentifierValidator (ac_ChannelId ch) ;;?
      PortIdentifierValidator (ac_PortId ch) ;;?
      validate_channels l
  end.
Fixpoint validate_accounts (l : list RegisteredInterchainAccount) : outcome unit :=
  match l with
  | [] => Ok tt
  | acc :: l =>
      PortIdentifierValidator (ra_PortId acc) ;;?
      ValidateAccountAddress (ra_AccountAddress acc) ;;?
      validate_accounts l
  end.
Fixpoint validate_ports (l : list string) : outcome unit :=
  match l with
  | [] => Ok tt
  | port :: l => PortIdentifierValidator port ;;? validate_ports l
  end.

Definition ControllerGenesis_Validate (gs : ControllerGenesisState) : outcome unit :=
  validate_channels (cg_ActiveChannels gs) ;;?
  validate_accounts (cg_InterchainAccounts gs) ;;?
  validate_ports (cg_Ports gs) ;;?
  controllertypes.Params_Validate (cg_Params gs).
Definition HostGenesis_Validate (gs : HostGenesisState) : outcome unit :=
  validate_channels (hg_ActiveChannels gs) ;;?
  validate_accounts (hg_InterchainAccounts gs) ;;?
  PortIdentifierValidator (hg_Port gs) ;;?
  hosttypes.Params_Validate (hg_Params gs).
Definition GenesisState_Validate (gs : GenesisState) : outcome unit :=
  ControllerGenesis_Validate (ControllerGenesis gs) ;;?
  HostGenesis_Validate (HostGenesis gs).
End icacodec.
