(* ===== verification/IcaKeeper.v ===== *)
(** * Interchain accounts ([apps/27-interchain-accounts])

    The keepers and IBC callbacks of the controller submodule, which opens channels for
    owners and sends transactions, and of the host submodule, which registers an account
    per controller port and executes the transactions that arrive for it; genesis of
    both, and the module that combines them ([module.go]).

    The state of the two submodules is a part of the application state, seen through
    [IcaApp], so that the messages an account executes may act on everything else.  The
    message router of the application is an argument of the host. *)
From S2P Require Import Prelude GoMonad Errors Sha256 Height Host Sdk ConnectionTypes.
From S2P Require Import ChannelTypes Exported ClientKeeper ConnectionKeeper PortKeeper.
From S2P Require Import ChannelKeeper ChannelHandshake ClientTypes Router MsgServer Iteration.
From S2P Require Import IcaTypes.
From S2P Require Import Messages.
From Stdlib Require Import Ascii.
Import icatypes icacodec.

(** The stores and parameters of the submodules, and the accounts. *)
Record IcaState `{AccountKeeper} := mkIcaState {
  accounts : AccState;
  controller_store : KVStore;
  controller_params : controllertypes.Params;
  host_store : KVStore;
  host_params : hosttypes.Params }.
Arguments mkIcaState {_ _} _ _ _ _ _.

Class IcaApp `{AccountKeeper} {AP : Application} := {
  ica_view : AppState → IcaState;
  ica_put : IcaState → AppState → AppState;
  ica_view_put s a : ica_view (ica_put s a) = s;
  ica_put_view a : ica_put (ica_view a) a = a;
  ica_put_put s s' a : ica_put s (ica_put s' a) = ica_put s a }.

(** ** Access to the state *)
Section state.
Context {CK : CapabilityKeeper} {BE : Bech32} {AK : AccountKeeper} {AP : Application} {IA : IcaApp}.

Definition ica (w : World) : IcaState := ica_view (app w).
Definition set_ica (s : IcaState) (w : World) : World := set_app (ica_put s (app w)) w.

Definition set_accounts (a : AccState) (s : IcaState) : IcaState :=
  mkIcaState a (controller_store s) (controller_params s) (host_store s) (host_params s).
Definition set_controller_store (t : KVStore) (s : IcaState) : IcaState :=
  mkIcaState (accounts s) t (controller_params s) (host_store s) (host_params s).
Definition set_controller_params (p : controllertypes.Params) (s : IcaState) : IcaState :=
  mkIcaState (accounts s) (controller_store s) p (host_store s) (host_params s).
Definition set_host_store (t : KVStore) (s : IcaState) : IcaState :=
  mkIcaState (accounts s) (controller_store s) (controller_params s) t (host_params s).
Definition set_host_params (p : hosttypes.Params) (s : IcaState) : IcaState :=
  mkIcaState (accounts s) (controller_store s) (controller_params s) (host_store s) p.

Definition on_ica {A} (m : ST IcaState A) : M A := zoom ica set_ica m.
Definition on_accounts {A} (m : ST AccState A) : M A := on_ica (zoom accounts set_accounts m).
Definition on_controller_store {A} (m : ST KVStore A) : M A := on_ica (zoom controller_store set_controller_store m).
Definition on_host_store {A} (m : ST KVStore A) : M A := on_ica (zoom host_store set_host_store m).

(** [k.channelKeeper.GetConnection] ([04-channel/keeper/keeper.go]) *)
Definition channel_GetConnection `{LightClient} `{!Codec} (connectionID : string) :
    M connectiontypes.ConnectionEnd :=
  let! connection := GetConnection connectionID in
  some_or connection (Wrap ConnErr.ErrConnectionNotFound).

(** [strings.Split(string(iterator.Key()), "/")[1]]; a key without "/" is out of range. *)
Definition key_port (key : string) : outcome string :=
  match Split key "/" with
  | _ :: p :: _ => Ok p
  | _ => Panic
  end.
Fixpoint collect {A} (f : string → string → A) (l : list (string * string)) : outcome (list A) :=
  match l with
  | [] => Ok []
  | (key, value) :: l =>
      let? p := key_port key in
      let? rest := collect f l in
      Ok (f p value :: rest)
  end.

(** The acknowledgement as core sees it. *)
Definition ack_bytes `{AckCodec} (ack : Acknowledgement) : AckI :=
  mkAck (Acknowledgement_Success ack) (Acknowledgement_GetBytes ack).

(** A handler of the message router: it runs in a context with its own event manager,
    whose events it returns with its result. *)
Definition service_handler (m : M unit) : M (list Event) := λ w,
  let '(w', o) := m (set_events [] w) in
  (set_events (events w) w', outcome_map (λ _, events w') o).
(** [ctx.EventManager().EmitEvents(...)]; both lists have the newest event first. *)
Definition EmitEvents (l : list Event) : M unit := modify (λ w, set_events (l ++ events w) w).
End state.

(** ** The controller submodule ([controller/keeper], [controller/ibc_module.go]) *)
Module icacontroller.
Section keeper.
Context {SE : SdkEncoding} {LC : LightClient} {CD : Codec} {CK : CapabilityKeeper} {SC : SelfClient}
  {BE : Bech32} {AK : AccountKeeper} {AP : Application} {IA : IcaApp} {IC : IcaCodec}.

Definition store_get (k : string) : M (option string) := gets (λ w, controller_store (ica w) !! k).
Definition store_set (k v : string) : M unit := on_controller_store (modify (store_Set k v)).
Definition store_delete (k : string) : M unit := on_controller_store (modify (store_Delete k)).

(** *** [keeper.go] *)
Definition GetAllPorts : M (list string) :=
  let! s := gets (λ w, controller_store (ica w)) in
  lift (collect (λ p _, p) (PrefixIterator s PortKeyPrefix)).

Definition BindPort (portID : string) : M Capability :=
  store_set (KeyPort portID) (String "001" "") ;;;
  PortKeeper.BindPort portID.
Definition IsBound (portID : string) : M bool :=
  gets (λ w, bool_decide (is_Some (cap_GetCapability (caps w) controllertypes.SubModuleName (PortPath portID)))).
Definition AuthenticateCapability (cap : Capability) (name : string) : M bool :=
  gets (λ w, cap_AuthenticateCapability (caps w) controllertypes.SubModuleName cap name).
Definition ClaimCapability (cap : Capability) (name : string) : M unit :=
  on_caps (cap_ClaimCapability controllertypes.SubModuleName cap name).

Definition GetActiveChannelID (portID : string) : M (option string) := store_get (KeyActiveChannel portID).
Definition GetAllActiveChannels : M (list ActiveChannel) :=
  let! s := gets (λ w, controller_store (ica w)) in
  lift (collect mkActiveChannel (PrefixIterator s ActiveChannelKeyPrefix)).
Definition SetActiveChannelID (portID channelID : string) : M unit := store_set (KeyActiveChannel portID) channelID.
Definition DeleteActiveChannelID (portID : string) : M unit := store_delete (KeyActiveChannel portID).
Definition IsActiveChannel (portID : string) : M bool :=
  let! c := GetActiveChannelID portID in ret (bool_decide (is_Some c)).

Definition GetInterchainAccountAddress (portID : string) : M (option string) := store_get (KeyOwnerAccount portID).
Definition GetAllInterchainAccounts : M (list RegisteredInterchainAccount) :=
  let! s := gets (λ w, controller_store (ica w)) in
  lift (collect mkRegistered (PrefixIterator s OwnerKeyPrefix)).
Definition SetInterchainAccountAddress (portID address : string) : M unit :=
  store_set (KeyOwnerAccount portID) address.

(** *** [params.go] *)
Definition IsControllerEnabled : M bool := gets (λ w, controllertypes.ControllerEnabled (controller_params (ica w))).
Definition GetParams : M controllertypes.Params :=
  let! enabled := IsControllerEnabled in ret (controllertypes.NewParams enabled).
Definition SetParams (p : controllertypes.Params) : M unit := on_ica (modify (set_controller_params p)).

(** *** [grpc_query.go] *)
Record QueryParamsResponse := mkQueryParamsResponse { response_Params : option controllertypes.Params }.
Definition query_Params : M QueryParamsResponse :=
  let! params := GetParams in ret (mkQueryParamsResponse (Some params)).

(** *** [handshake.go] *)

(** [connectionHops[0]] panics on an empty slice. *)
Definition validateControllerPortParams (connectionHops : list string)
    (connectionSeq counterpartyConnectionSeq : N) : M unit :=
  let! connectionID := some_or_panic (connectionHops !! 0) in
  let! connection := channel_GetConnection connectionID in
  let! connSeq := lift (outcome_wrap (ParseConnectionSequence connectionID)) in
  let! counterpartyConnSeq :=
    lift (outcome_wrap (ParseConnectionSequence
      (connectiontypes.Counterparty_ConnectionId (connectiontypes.Connection_Counterparty connection)))) in
  throw_if (negb (connSeq =? connectionSeq)%N) (Wrap ConnErr.ErrInvalidConnection) ;;;
  throw_if (negb (counterpartyConnSeq =? counterpartyConnectionSeq)%N) (Wrap ConnErr.ErrInvalidConnection).

Definition OnChanOpenInit (order : Order) (connectionHops : list string) (portID channelID : string)
    (chanCap : Capability) (counterparty : Counterparty) (version : string) : M unit :=
  throw_if (bool_decide (order ≠ ORDERED)) (Wrap ChanErr.ErrInvalidChannelOrdering) ;;;
  let! connSequence := lift (outcome_wrap (ParseControllerConnSequence portID)) in
  let! counterpartyConnSequence := lift (outcome_wrap (ParseHostConnSequence portID)) in
  wrap_err (validateControllerPortParams connectionHops connSequence counterpartyConnSequence) ;;;
  throw_if (bool_decide (Counterparty_PortId counterparty ≠ PortID)) (Wrap PortErr.ErrInvalidPort) ;;;
  throw_if (bool_decide (version ≠ VersionPrefix)) (Wrap IcaErr.ErrInvalidVersion) ;;;
  let! activeChannelID := GetActiveChannelID portID in
  throw_if (bool_decide (is_Some activeChannelID)) (Wrap PortErr.ErrInvalidPort).

Definition OnChanOpenAck (portID channelID counterpartyVersion : string) : M unit :=
  throw_if (bool_decide (portID = PortID)) (Wrap PortErr.ErrInvalidPort) ;;;
  lift (outcome_wrap (ValidateVersion counterpartyVersion)) ;;;
  SetActiveChannelID portID channelID ;;;
  let! accAddr := lift (outcome_wrap (ParseAddressFromVersion counterpartyVersion)) in
  SetInterchainAccountAddress portID accAddr.

Definition OnChanCloseConfirm (portID channelID : string) : M unit := DeleteActiveChannelID portID.

(** *** [relay.go] *)

(** [^uint64(0) >> 1] *)
Definition timeoutTimestamp : N := N.shiftr MaxUint64 1.

Definition createOutgoingPacket (ctx : Context) (sourcePort sourceChannel destinationPort destinationChannel : string)
    (chanCap : Capability) (icaPacketData : InterchainAccountPacketData) : M N :=
  lift (outcome_wrap (PacketData_ValidateBasic icaPacketData)) ;;;
  let! sequence := GetNextSequenceSend sourcePort sourceChannel in
  let! sequence := some_or sequence (Wrap ChanErr.ErrSequenceSendNotFound) in
  let packet :=
    NewPacket (PacketData_GetBytes icaPacketData) sequence sourcePort sourceChannel destinationPort
      destinationChannel ZeroHeight timeoutTimestamp in
  SendPacket ctx chanCap packet ;;;
  ret (ChannelTypes.Sequence packet).

Definition TrySendTx (ctx : Context) (chanCap : Capability) (portID : string)
    (icaPacketData : InterchainAccountPacketData) : M N :=
  let! activeChannelID := GetActiveChannelID portID in
  let! activeChannelID := some_or activeChannelID (Wrap IcaErr.ErrActiveChannelNotFound) in
  let! sourceChannelEnd := GetChannel portID activeChannelID in
  let! sourceChannelEnd := some_or sourceChannelEnd (Wrap ChanErr.ErrChannelNotFound) in
  let destinationPort := Counterparty_PortId (Channel_Counterparty sourceChannelEnd) in
  let destinationChannel := Counterparty_ChannelId (Channel_Counterparty sourceChannelEnd) in
  createOutgoingPacket ctx portID activeChannelID destinationPort destinationChannel chanCap icaPacketData.

Definition OnTimeoutPacket (packet : Packet) : M unit := DeleteActiveChannelID (SourcePort packet).

(** *** [genesis.go] *)
Definition init_port (portID : string) : M unit :=
  let! bound := IsBound portID in
  if negb bound then
    let! cap := BindPort portID in
    must (ClaimCapability cap (PortPath portID))
  else ret tt.

Definition InitGenesis (state : ControllerGenesisState) : M unit :=
  for_all init_port (cg_Ports state) ;;;
  for_all (λ ch, SetActiveChannelID (ac_PortId ch) (ac_ChannelId ch)) (cg_ActiveChannels state) ;;;
  for_all (λ acc, SetInterchainAccountAddress (ra_PortId acc) (ra_AccountAddress acc))
    (cg_InterchainAccounts state) ;;;
  SetParams (cg_Params state).

Definition ExportGenesis : M ControllerGenesisState :=
  let! channels := GetAllActiveChannels in
  let! accounts := GetAllInterchainAccounts in
  let! ports := GetAllPorts in
  let! params := GetParams in
  ret (NewControllerGenesisState channels accounts ports params).

(** *** [account.go] *)
Section account.
Variable rtr : Router.

Definition InitInterchainAccount (ctx : Context) (connectionID counterpartyConnectionID owner : string) : M unit :=
  let! portID := lift (GeneratePortID owner connectionID counterpartyConnectionID) in
  let! bound := PortKeeper.IsBound portID in
  throw_if bound (Wrap IcaErr.ErrPortAlreadyBound) ;;;
  let! cap := BindPort portID in
  wrap_err (ClaimCapability cap (PortPath portID)) ;;;
  let msg := NewMsgChannelOpenInit portID VersionPrefix ORDERED [connectionID] PortID ModuleName in
  let! events := service_handler (msg_ChannelOpenInit rtr ctx (init_PortId msg) (init_Channel msg)) in
  EmitEvents events.
End account.

(** *** [ibc_module.go]: middleware over the authentication module [app] *)
Section middleware.
Variable app : IBCModule.

Definition im_OnChanOpenInit (ctx : Context) (order : Order) (connectionHops : list string)
    (portID channelID : string) (chanCap : Capability) (counterparty : Counterparty) (version : string) : M unit :=
  let! enabled := IsControllerEnabled in
  throw_if (negb enabled) IcaSubErr.ErrControllerSubModuleDisabled ;;;
  OnChanOpenInit order connectionHops portID channelID chanCap counterparty version ;;;
  Router.OnChanOpenInit app ctx order connectionHops portID channelID chanCap counterparty version.

Definition im_OnChanOpenTry (ctx : Context) (order : Order) (connectionHops : list string)
    (portID channelID : string) (chanCap : Capability) (counterparty : Counterparty)
    (counterpartyVersion : string) : M string :=
  throw (Wrap IcaErr.ErrInvalidChannelFlow).

Definition im_OnChanOpenAck (ctx : Context) (portID channelID counterpartyVersion : string) : M unit :=
  let! enabled := IsControllerEnabled in
  throw_if (negb enabled) IcaSubErr.ErrControllerSubModuleDisabled ;;;
  OnChanOpenAck portID channelID counterpartyVersion ;;;
  Router.OnChanOpenAck app ctx portID channelID counterpartyVersion.

Definition im_OnChanOpenConfirm (ctx : Context) (portID channelID : string) : M unit :=
  throw (Wrap IcaErr.ErrInvalidChannelFlow).
Definition im_OnChanCloseInit (ctx : Context) (portID channelID : string) : M unit :=
  throw (Wrap sdkerrors.ErrInvalidRequest).
Definition im_OnChanCloseConfirm (ctx : Context) (portID channelID : string) : M unit :=
  OnChanCloseConfirm portID channelID.

Definition im_OnRecvPacket (ctx : Context) (packet : Packet) (relayer : string) : M (option AckI) :=
  ret (Some (ack_bytes (NewErrorAcknowledgement "cannot receive packet on controller chain"))).

Definition im_OnAcknowledgementPacket (ctx : Context) (packet : Packet) (acknowledgement relayer : string) : M unit :=
  let! enabled := IsControllerEnabled in
  throw_if (negb enabled) IcaSubErr.ErrControllerSubModuleDisabled ;;;
  Router.OnAcknowledgementPacket app ctx packet acknowledgement relayer.

Definition im_OnTimeoutPacket (ctx : Context) (packet : Packet) (relayer : string) : M unit :=
  let! enabled := IsControllerEnabled in
  throw_if (negb enabled) IcaSubErr.ErrControllerSubModuleDisabled ;;;
  OnTimeoutPacket packet ;;;
  Router.OnTimeoutPacket app ctx packet relayer.

Definition NewIBCModule : IBCModule :=
  mkIBCModule im_OnChanOpenInit im_OnChanOpenTry im_OnChanOpenAck im_OnChanOpenConfirm im_OnChanCloseInit
    im_OnChanCloseConfirm im_OnRecvPacket im_OnAcknowledgementPacket im_OnTimeoutPacket.
End middleware.
End keeper.
End icacontroller.

(** ** The host submodule ([host/keeper], [host/ibc_module.go]) *)
Module icahost.
Section keeper.
Context {SE : SdkEncoding} {LC : LightClient} {CD : Codec} {CK : CapabilityKeeper}
  {BE : Bech32} {AK : AccountKeeper} {AP : Application} {IA : IcaApp} {IC : IcaCodec} {SM : SdkMsg}.
(** [k.msgRouter.Handler] *)
Variable Handler : sdkMsg → option (Context → M (list Event)).

Definition store_get (k : string) : M (option string) := gets (λ w, host_store (ica w) !! k).
Definition store_set (k v : string) : M unit := on_host_store (modify (store_Set k v)).
Definition store_delete (k : string) : M unit := on_host_store (modify (store_Delete k)).

(** *** [keeper.go] *)
Definition BindPort (portID : string) : M Capability :=
  store_set (KeyPort portID) (String "001" "") ;;;
  PortKeeper.BindPort portID.
Definition IsBound (portID : string) : M bool :=
  gets (λ w, bool_decide (is_Some (cap_GetCapability (caps w) hosttypes.SubModuleName (PortPath portID)))).
Definition AuthenticateCapability (cap : Capability) (name : string) : M bool :=
  gets (λ w, cap_AuthenticateCapability (caps w) hosttypes.SubModuleName cap name).
Definition ClaimCapability (cap : Capability) (name : string) : M unit :=
  on_caps (cap_ClaimCapability hosttypes.SubModuleName cap name).

Definition GetActiveChannelID (portID : string) : M (option string) := store_get (KeyActiveChannel portID).
Definition GetAllActiveChannels : M (list ActiveChannel) :=
  let! s := gets (λ w, host_store (ica w)) in
  lift (collect mkActiveChannel (PrefixIterator s ActiveChannelKeyPrefix)).
Definition SetActiveChannelID (portID channelID : string) : M unit := store_set (KeyActiveChannel portID) channelID.
Definition DeleteActiveChannelID (portID : string) : M unit := store_delete (KeyActiveChannel portID).
Definition IsActiveChannel (portID : string) : M bool :=
  let! c := GetActiveChannelID portID in ret (bool_decide (is_Some c)).

Definition GetInterchainAccountAddress (portID : string) : M (option string) := store_get (KeyOwnerAccount portID).
Definition GetAllInterchainAccounts : M (list RegisteredInterchainAccount) :=
  let! s := gets (λ w, host_store (ica w)) in
  lift (collect mkRegistered (PrefixIterator s OwnerKeyPrefix)).
Definition SetInterchainAccountAddress (portID address : string) : M unit :=
  store_set (KeyOwnerAccount portID) address.

(** *** [params.go] *)
Definition IsHostEnabled : M bool := gets (λ w, hosttypes.HostEnabled (host_params (ica w))).
Definition GetAllowMessages : M (list string) := gets (λ w, hosttypes.AllowMessages (host_params (ica w))).
Definition GetParams : M hosttypes.Params :=
  let! enabled := IsHostEnabled in
  let! allow := GetAllowMessages in
  ret (hosttypes.NewParams enabled allow).
(** [SetParamSet] panics on a value that its validator refuses. *)
Definition SetParams (p : hosttypes.Params) : M unit :=
  must (lift (hosttypes.Params_Validate p)) ;;;
  on_ica (modify (set_host_params p)).

(** *** [grpc_query.go] *)
Record QueryParamsResponse := mkQueryParamsResponse { response_Params : option hosttypes.Params }.
Definition query_Params : M QueryParamsResponse :=
  let! params := GetParams in ret (mkQueryParamsResponse (Some params)).

(** *** [account.go] *)
Definition RegisterInterchainAccount (accAddr controllerPortID : string) : M unit :=
  let! acc := gets (λ w, acc_GetAccount (accounts (ica w)) accAddr) in
  if negb (is_nil acc) then ret tt
  else
    let interchainAccount := NewInterchainAccount (NewBaseAccountWithAddress accAddr) controllerPortID in
    let! interchainAccount := on_accounts (acc_NewAccount interchainAccount) in
    on_accounts (acc_SetAccount interchainAccount) ;;;
    SetInterchainAccountAddress controllerPortID (Address (BaseAccount_of interchainAccount)).

(** *** [handshake.go] *)
Definition validateControllerPortParams (connectionHops : list string)
    (connectionSeq counterpartyConnectionSeq : N) : M unit :=
  let! connectionID := some_or_panic (connectionHops !! 0) in
  let! connection := channel_GetConnection connectionID in
  let! connSeq := lift (outcome_wrap (ParseConnectionSequence connectionID)) in
  let! counterpartyConnSeq :=
    lift (outcome_wrap (ParseConnectionSequence
      (connectiontypes.Counterparty_ConnectionId (connectiontypes.Connection_Counterparty connection)))) in
  throw_if (negb (connSeq =? connectionSeq)%N) (Wrap ConnErr.ErrInvalidConnection) ;;;
  throw_if (negb (counterpartyConnSeq =? counterpartyConnectionSeq)%N) (Wrap ConnErr.ErrInvalidConnection).

Definition OnChanOpenTry (order : Order) (connectionHops : list string) (portID channelID : string)
    (chanCap : Capability) (counterparty : Counterparty) (counterpartyVersion : string) : M string :=
  throw_if (bool_decide (order ≠ ORDERED)) (Wrap ChanErr.ErrInvalidChannelOrdering) ;;;
  throw_if (bool_decide (portID ≠ PortID)) (Wrap PortErr.ErrInvalidPort) ;;;
  let! connSequence := lift (outcome_wrap (ParseHostConnSequence (Counterparty_PortId counterparty))) in
  let! counterpartyConnSequence :=
    lift (outcome_wrap (ParseControllerConnSequence (Counterparty_PortId counterparty))) in
  wrap_err (validateControllerPortParams connectionHops connSequence counterpartyConnSequence) ;;;
  throw_if (bool_decide (counterpartyVersion ≠ VersionPrefix)) (Wrap IcaErr.ErrInvalidVersion) ;;;
  wrap_err (ClaimCapability chanCap (ChannelCapabilityPath portID channelID)) ;;;
  let accAddr := GenerateAddress (acc_GetModuleAddress ModuleName) (Counterparty_PortId counterparty) in
  RegisterInterchainAccount accAddr (Counterparty_PortId counterparty) ;;;
  ret (NewAppVersion VersionPrefix (AccAddress_String accAddr)).

Definition OnChanOpenConfirm (portID channelID : string) : M unit := SetActiveChannelID portID channelID.
Definition OnChanCloseConfirm (portID channelID : string) : M unit := DeleteActiveChannelID portID.

(** *** [relay.go] *)
Fixpoint check_signers (interchainAccountAddr : string) (signers : list string) : outcome unit :=
  match signers with
  | [] => Ok tt
  | signer :: signers =>
      if bool_decide (interchainAccountAddr ≠ AccAddress_String signer) then Err (Wrap sdkerrors.ErrUnauthorized)
      else check_signers interchainAccountAddr signers
  end.
Fixpoint authenticate_msgs (interchainAccountAddr : string) (allowMsgs : list string) (msgs : list sdkMsg) :
    outcome unit :=
  match msgs with
  | [] => Ok tt
  | msg :: msgs =>
      fail_if (negb (ContainsMsgType allowMsgs msg)) (Wrap sdkerrors.ErrUnauthorized) ;;?
      let? signers := msg_GetSigners msg in
      check_signers interchainAccountAddr signers ;;?
      authenticate_msgs interchainAccountAddr allowMsgs msgs
  end.

Definition AuthenticateTx (msgs : list sdkMsg) (portID : string) : M unit :=
  let! interchainAccountAddr := GetInterchainAccountAddress portID in
  let! interchainAccountAddr := some_or interchainAccountAddr (Wrap IcaErr.ErrInterchainAccountNotFound) in
  let! allowMsgs := GetAllowMessages in
  lift (authenticate_msgs interchainAccountAddr allowMsgs msgs).

Definition executeMsg (ctx : Context) (msg : sdkMsg) : M unit :=
  let! handler := some_or (Handler msg) IcaErr.ErrInvalidRoute in
  let! events := handler ctx in
  EmitEvents events.

Fixpoint execute_msgs (ctx : Context) (msgs : list sdkMsg) : M unit :=
  match msgs with
  | [] => ret tt
  | msg :: msgs =>
      lift (msg_ValidateBasic msg) ;;;
      executeMsg ctx msg ;;;
      execute_msgs ctx msgs
  end.

(** [cacheCtx, writeCache := ctx.CacheContext(); m(cacheCtx)]; only a success emits the
    events of the cached context and calls [writeCache()]. *)
Definition in_cache (m : M unit) : M unit := λ w,
  match m (set_events [] w) with
  | (w1, Ok _) => (set_events (events w1 ++ events w) w1, Ok tt)
  | (_, o) => (w, o)
  end.

Definition executeTx (ctx : Context) (sourcePort destPort destChannel : string) (msgs : list sdkMsg) : M unit :=
  AuthenticateTx msgs sourcePort ;;;
  in_cache (execute_msgs ctx msgs).

Definition OnRecvPacket (ctx : Context) (packet : Packet) : M unit :=
  let! data := some_or (PacketData_UnmarshalJSON (Data packet)) (Wrap IcaErr.ErrUnknownDataType) in
  match data_Type data with
  | EXECUTE_TX =>
      let! msgs := lift (DeserializeCosmosTx (default "" (data_Data data))) in
      executeTx ctx (SourcePort packet) (DestinationPort packet) (DestinationChannel packet) msgs
  | _ => throw IcaErr.ErrUnknownDataType
  end.

(** *** [genesis.go] *)
Definition InitGenesis (state : HostGenesisState) : M unit :=
  let! bound := IsBound (hg_Port state) in
  (if negb bound then
     let! cap := BindPort (hg_Port state) in
     must (ClaimCapability cap (PortPath (hg_Port state)))
   else ret tt) ;;;
  for_all (λ ch, SetActiveChannelID (ac_PortId ch) (ac_ChannelId ch)) (hg_ActiveChannels state) ;;;
  for_all (λ acc, SetInterchainAccountAddress (ra_PortId acc) (ra_AccountAddress acc))
    (hg_InterchainAccounts state) ;;;
  SetParams (hg_Params state).

Definition ExportGenesis : M HostGenesisState :=
  let! channels := GetAllActiveChannels in
  let! accounts := GetAllInterchainAccounts in
  let! params := GetParams in
  ret (NewHostGenesisState channels accounts PortID params).

(** *** [ibc_module.go] *)
Definition im_OnChanOpenInit (ctx : Context) (order : Order) (connectionHops : list string)
    (portID channelID : string) (chanCap : Capability) (counterparty : Counterparty) (version : string) : M unit :=
  throw (Wrap IcaErr.ErrInvalidChannelFlow).

Definition im_OnChanOpenTry (ctx : Context) (order : Order) (connectionHops : list string)
    (portID channelID : string) (chanCap : Capability) (counterparty : Counterparty)
    (counterpartyVersion : string) : M string :=
  let! enabled := IsHostEnabled in
  throw_if (negb enabled) IcaSubErr.ErrHostSubModuleDisabled ;;;
  OnChanOpenTry order connectionHops portID channelID chanCap counterparty counterpartyVersion.

Definition im_OnChanOpenAck (ctx : Context) (portID channelID counterpartyVersion : string) : M unit :=
  throw (Wrap IcaErr.ErrInvalidChannelFlow).
Definition im_OnChanOpenConfirm (ctx : Context) (portID channelID : string) : M unit :=
  let! enabled := IsHostEnabled in
  throw_if (negb enabled) IcaSubErr.ErrHostSubModuleDisabled ;;;
  OnChanOpenConfirm portID channelID.
Definition im_OnChanCloseInit (ctx : Context) (portID channelID : string) : M unit :=
  throw (Wrap sdkerrors.ErrInvalidRequest).
Definition im_OnChanCloseConfirm (ctx : Context) (portID channelID : string) : M unit :=
  OnChanCloseConfirm portID channelID.

Definition im_OnRecvPacket (ctx : Context) (packet : Packet) (relayer : string) : M (option AckI) :=
  let! enabled := IsHostEnabled in
  if negb enabled then
    ret (Some (ack_bytes (NewErrorAcknowledgement (error_String IcaSubErr.ErrHostSubModuleDisabled))))
  else
    let! err := catch (OnRecvPacket ctx packet) in
    ret (Some (ack_bytes
      (match err with
       | Some e => NewErrorAcknowledgement (error_String e)
       | None => NewResultAcknowledgement (String "001" "")
       end))).

Definition im_OnAcknowledgementPacket (ctx : Context) (packet : Packet) (acknowledgement relayer : string) : M unit :=
  throw (Wrap IcaErr.ErrInvalidChannelFlow).
Definition im_OnTimeoutPacket (ctx : Context) (packet : Packet) (relayer : string) : M unit :=
  throw (Wrap IcaErr.ErrInvalidChannelFlow).

Definition NewIBCModule : IBCModule :=
  mkIBCModule im_OnChanOpenInit im_OnChanOpenTry im_OnChanOpenAck im_OnChanOpenConfirm im_OnChanCloseInit
    im_OnChanCloseConfirm im_OnRecvPacket im_OnAcknowledgementPacket im_OnTimeoutPacket.
End keeper.
End icahost.

(** ** The module ([module.go]): an absent keeper is [false] *)
Module icamodule.
Section module.
Context {SE : SdkEncoding} {LC : LightClient} {CD : Codec} {CK : CapabilityKeeper}
  {BE : Bech32} {AK : AccountKeeper} {AP : Application} {IA : IcaApp}.

Definition InitGenesis (controllerKeeper hostKeeper : bool) (genesisState : GenesisState) : M unit :=
  (if controllerKeeper then icacontroller.InitGenesis (ControllerGenesis genesisState) else ret tt) ;;;
  (if hostKeeper then icahost.InitGenesis (HostGenesis genesisState) else ret tt).

Definition ExportGenesis (controllerKeeper hostKeeper : bool) : M GenesisState :=
  let! controllerGenesisState :=
    (if controllerKeeper then icacontroller.ExportGenesis else ret DefaultControllerGenesis) in
  let! hostGenesisState := (if hostKeeper then icahost.ExportGenesis else ret DefaultHostGenesis) in
  ret (NewGenesisState controllerGenesisState hostGenesisState).
End module.
End icamodule.
