(* ===== verification/IcaProperties.v ===== *)
(** * What interchain accounts guarantee

    Port identifiers and versions round-trip; a received transaction is executed
    completely or not at all, and only with messages that the account of the sending
    port signs; accounts are fixed by the port; transactions arrive as they were sent;
    genesis export and import. *)
From S2P Require Import Prelude GoMonad Errors Sha256 Height Host Sdk ConnectionTypes.
From S2P Require Import ChannelTypes Exported ClientKeeper ConnectionKeeper PortKeeper.
From S2P Require Import ChannelKeeper ChannelHandshake ClientTypes Router MsgServer Iteration.
From S2P Require Import IcaTypes.
From S2P Require Import Messages IcaKeeper ChannelSpec PacketProperties ChannelView.
From S2P Require Import ChannelSystem MsgServerProperties.
From Stdlib Require Import Ascii.
Import icatypes icacodec.

(** ** Ports and versions *)

Lemma Split_has_char c (s : string) : no_char c s = false → ∃ x y l, Split s (String c "") = x :: y :: l.
Proof.
  intros H. pose proof (Join_Split c s) as Hj. pose proof (Split_pieces c s) as Hp.
  pose proof (Split_not_nil s (String c "")) as Hn.
  destruct (Split s (String c "")) as [|x [|y l]]; [done| |by eauto].
  simpl in Hj. subst. inversion Hp; subst. congruence.
Qed.

Lemma ParseConnectionSequence_bound c n : ParseConnectionSequence c = Ok n → (n < two64)%N.
Proof.
  unfold ParseConnectionSequence, ParseIdentifier. intros H. repeat case_match; try done; simpl in *; simplify_eq.
  by eapply ParseUint_bound.
Qed.

(** The text of a port: three fields without dots, then the owner. *)
Definition port_text (n m : N) (owner : string) : string :=
  VersionPrefix +:+ Delimiter +:+ fmt_u64 n +:+ Delimiter +:+ fmt_u64 m +:+ Delimiter +:+ owner.

Lemma GeneratePortID_Ok owner c c' p :
  GeneratePortID owner c c' = Ok p ↔
  blank owner = false ∧
  ∃ n m, ParseConnectionSequence c = Ok n ∧ ParseConnectionSequence c' = Ok m ∧ p = port_text n m owner.
Proof.
  unfold GeneratePortID. destruct (blank owner); [naive_solver|]. split.
  - intros H. out_inv. eauto 10.
  - intros (_ & n & m & -> & -> & ->). done.
Qed.

Lemma Split_port n m owner :
  Split (port_text n m owner) Delimiter = VersionPrefix :: fmt_u64 n :: fmt_u64 m :: Split owner Delimiter.
Proof.
  unfold port_text, Delimiter. rewrite !app_cons_l, !app_nil_l.
  rewrite Split_sep by done. rewrite !Split_sep by (by apply fmt_u64_no_char). done.
Qed.

Lemma port_text_inj n m o n' m' o' : port_text n m o = port_text n' m' o' → n = n' ∧ m = m' ∧ o = o'.
Proof.
  unfold port_text, Delimiter. rewrite !app_cons_l, !app_nil_l. intros H.
  apply app_inj_l in H. injection H as H.
  apply (app_sep_inj ".") in H as [->%fmt_u64_inj H]; [|by apply fmt_u64_no_char..].
  by apply (app_sep_inj ".") in H as [->%fmt_u64_inj H]; [|by apply fmt_u64_no_char..].
Qed.

(** Two owners, or one owner on two pairs of connections, never share a port; for an
    owner without dots the port names the sequences of the two connections, which the
    handshakes of both chains read back and compare with their own connections; for an
    owner with a dot both handshakes refuse the port. *)
Theorem controller_ports owner c c' p :
  GeneratePortID owner c c' = Ok p →
  (∀ owner2 d d', GeneratePortID owner2 d d' = Ok p →
     owner2 = owner ∧ ParseConnectionSequence d = ParseConnectionSequence c ∧
     ParseConnectionSequence d' = ParseConnectionSequence c') ∧
  (if no_char "." owner then
     ParseControllerConnSequence p = ParseConnectionSequence c ∧
     ParseHostConnSequence p = ParseConnectionSequence c'
   else
     ParseControllerConnSequence p = Err (Wrap PortErr.ErrInvalidPort) ∧
     ParseHostConnSequence p = Err (Wrap PortErr.ErrInvalidPort)).
Proof.
  intros (Hb & n & m & Hn & Hm & ->)%GeneratePortID_Ok. split.
  - intros owner2 d d' (_ & n2 & m2 & Hn2 & Hm2 & (-> & -> & ->)%port_text_inj)%GeneratePortID_Ok.
    split_and!; congruence.
  - unfold ParseControllerConnSequence, ParseHostConnSequence. rewrite Split_port.
    destruct (no_char "." owner) eqn:Ho.
    + unfold Delimiter. rewrite (Split_no_char "." owner Ho), Hn, Hm. unfold parse_seq.
      by rewrite !ParseUint_fmt by (by eapply ParseConnectionSequence_bound).
    + unfold Delimiter. by destruct (Split_has_char _ _ Ho) as (x & y & l & ->).
Qed.

Lemma valid_addr_no_dot a : IsValidAddr a = true → no_char "." a = true.
Proof.
  unfold IsValidAddr, no_char. apply str_all_impl. intros c Hc. destruct (Ascii.eqb_spec c "."); [by subst|done].
Qed.

(** A version that carries a valid account address is accepted, and the address is read
    back; whatever is accepted is such a version. *)
Theorem versions_roundtrip v :
  ValidateVersion v = Ok tt ↔
  ∃ a, v = NewAppVersion VersionPrefix a ∧ ValidateAccountAddress a = Ok tt ∧ ParseAddressFromVersion v = Ok a.
Proof.
  unfold ValidateVersion, ParseAddressFromVersion. split.
  - intros H. pose proof (Join_Split "." v) as Hj.
    destruct (Split v Delimiter) as [|s0 [|s1 [|? ?]]] eqn:E; try done. case_bool_decide as Hs; [done|].
    subst s0. exists s1. unfold Delimiter in E. by rewrite E in Hj.
  - intros (a & -> & Ha & _). unfold NewAppVersion, Delimiter.
    assert (no_char "." a = true) as Hd.
    { apply valid_addr_no_dot. unfold ValidateAccountAddress in Ha. by destruct (IsValidAddr a). }
    by rewrite app_cons_l, app_nil_l, Split_sep, Split_no_char by done.
Qed.

(** ** State *)
Section state.
Context {SE : SdkEncoding} {LC : LightClient} {CD : Codec} {CK : CapabilityKeeper} {SC : SelfClient}
  {BE : Bech32} {AK : AccountKeeper} {AP : Application} {IA : IcaApp} {IC : IcaCodec} {SM : SdkMsg}.

Lemma ica_set_ica s w : ica (set_ica s w) = s.
Proof. apply ica_view_put. Qed.
Lemma ica_set_events l w : ica (set_events l w) = ica w.
Proof. done. Qed.

Lemma keeps_on_ica {A T} (f : World → T) (m : ST IcaState A) :
  (∀ a w, f (set_app a w) = f w) → keeps f (on_ica m).
Proof. intros Hf w. unfold on_ica, zoom. destruct (m (ica w)). apply Hf. Qed.

(** The world after an operation on one field of the submodules' state. *)
Lemma on_ica_Ok {A} (m : ST IcaState A) w w' a :
  on_ica m w = (w', Ok a) → m (ica w) = (ica w', Ok a) ∧ w' = set_ica (ica w') w.
Proof.
  unfold on_ica, zoom. destruct (m (ica w)) as [t o] eqn:E. intros H. simplify_eq. by rewrite ica_set_ica.
Qed.

Lemma on_caps_ica {A} (m : ST CapState A) w : ica (on_caps m w).1 = ica w.
Proof. unfold on_caps, zoom. by destruct (m (caps w)). Qed.
Lemma keeps_on_caps_ica {A} (m : ST CapState A) : keeps ica (on_caps m).
Proof. intros w. apply on_caps_ica. Qed.

Lemma in_cache_run (m : M unit) w :
  icahost.in_cache m w =
  match m (set_events [] w) with
  | (w1, Ok _) => (set_events (events w1 ++ events w) w1, Ok tt)
  | (_, o) => (w, o)
  end.
Proof. done. Qed.

(** ** The host *)
Lemma ContainsMsgType_spec l m : ContainsMsgType l m = true ↔ MsgTypeURL m ∈ l.
Proof.
  induction l as [|v l IH]; simpl; [by rewrite elem_of_nil|]. rewrite elem_of_cons, <- IH.
  case_bool_decide; naive_solver.
Qed.

Lemma check_signers_Ok a l : icahost.check_signers a l = Ok tt ↔ Forall (λ s, AccAddress_String s = a) l.
Proof.
  induction l as [|s l IH]; simpl; [by split|]. rewrite Forall_cons_iff, <- IH.
  case_bool_decide; naive_solver.
Qed.

(** A message that the account [a] may execute: its type is allowed, and [a] is its
    only signer. *)
Definition authorised (a : string) (allow : list string) (m : sdkMsg) : Prop :=
  MsgTypeURL m ∈ allow ∧ ∃ signers, msg_GetSigners m = Ok signers ∧ Forall (λ s, AccAddress_String s = a) signers.

Lemma authenticate_msgs_Ok a allow msgs :
  icahost.authenticate_msgs a allow msgs = Ok tt ↔ Forall (authorised a allow) msgs.
Proof.
  induction msgs as [|m msgs IH]; cbn [icahost.authenticate_msgs]; [by split|].
  rewrite Forall_cons_iff, <- IH. unfold authorised. rewrite <- ContainsMsgType_spec.
  destruct (ContainsMsgType allow m); simpl; [|naive_solver].
  destruct (msg_GetSigners m) as [l|e|]; simpl; [|naive_solver..]. split.
  - intros ([] & H & Hr)%outcome_bind_Ok. rewrite check_signers_Ok in H. eauto.
  - intros [[_ (l' & E & H)] Hr]. simplify_eq. apply check_signers_Ok in H. by rewrite H.
Qed.

Definition account_of (w : World) (port : string) : option string := host_store (ica w) !! KeyOwnerAccount port.
Definition allowed (w : World) : list string := hosttypes.AllowMessages (host_params (ica w)).

Lemma AuthenticateTx_run msgs port w :
  icahost.AuthenticateTx msgs port w =
  (w, match account_of w port with
      | None => Err (Wrap IcaErr.ErrInterchainAccountNotFound)
      | Some a => icahost.authenticate_msgs a (allowed w) msgs
      end).
Proof.
  unfold icahost.AuthenticateTx, icahost.GetInterchainAccountAddress, icahost.store_get, account_of, bind, gets.
  cbv beta iota. by destruct (host_store (ica w) !! KeyOwnerAccount port).
Qed.

(** What a packet asks for: the transaction of an EXECUTE_TX packet. *)
Definition packet_tx (pkt : Packet) : option (list sdkMsg) :=
  match PacketData_UnmarshalJSON (Data pkt) with
  | Some d =>
      if bool_decide (data_Type d = EXECUTE_TX) then
        match DeserializeCosmosTx (default "" (data_Data d)) with Ok msgs => Some msgs | _ => None end
      else None
  | None => None
  end.

Section host.
Variable Handler : sdkMsg → option (Context → M (list Event)).

Local Ltac recv_none := intros [= <- <-]; right; by split.

(** Running the transaction of a packet: either all of it, or nothing. *)
Lemma keeper_OnRecvPacket_spec ctx pkt w w' o :
  icahost.OnRecvPacket Handler ctx pkt w = (w', o) →
  (o = Ok tt ∧ ∃ msgs a w1, packet_tx pkt = Some msgs ∧ account_of w (SourcePort pkt) = Some a ∧
     Forall (authorised a (allowed w)) msgs ∧
     icahost.execute_msgs Handler ctx msgs (set_events [] w) = (w1, Ok tt) ∧
     w' = set_events (events w1 ++ events w) w1) ∨
  (w' = w ∧ o ≠ Ok tt).
Proof.
  unfold icahost.OnRecvPacket, packet_tx, icahost.executeTx. unfold bind at 1.
  destruct (PacketData_UnmarshalJSON (Data pkt)) as [d|]; cbn [some_or ret throw]; [|recv_none].
  destruct (data_Type d); [recv_none| |recv_none]. rewrite bool_decide_eq_true_2 by done.
  unfold bind at 1, lift.
  destruct (DeserializeCosmosTx (default "" (data_Data d))) as [msgs|e|]; [|recv_none..].
  unfold bind at 1. rewrite AuthenticateTx_run.
  destruct (account_of w (SourcePort pkt)) as [a|] eqn:Ha; [|recv_none].
  destruct (icahost.authenticate_msgs a (allowed w) msgs) as [[]|e|] eqn:Hm; [|recv_none..].
  apply authenticate_msgs_Ok in Hm. rewrite in_cache_run.
  destruct (icahost.execute_msgs Handler ctx msgs (set_events [] w)) as [w1 [[]|e|]] eqn:E; [|recv_none..].
  intros H. simplify_eq. left. eauto 10.
Qed.

(** The messages were delivered one after the other: each of them passes its stateless
    checks, has a handler, and the handler succeeds in the state the previous one left; its
    events are emitted. *)
Inductive delivered (ctx : Context) : list sdkMsg → World → World → Prop :=
  | delivered_nil w : delivered ctx [] w w
  | delivered_cons m msgs h evs w w1 w2 :
      msg_ValidateBasic m = Ok tt → Handler m = Some h → h ctx w = (w1, Ok evs) →
      delivered ctx msgs (set_events (evs ++ events w1) w1) w2 → delivered ctx (m :: msgs) w w2.

Lemma execute_msgs_delivered ctx msgs w w' :
  icahost.execute_msgs Handler ctx msgs w = (w', Ok tt) ↔ delivered ctx msgs w w'.
Proof.
  split.
  - revert w. induction msgs as [|m msgs IH]; intros w; cbn [icahost.execute_msgs].
    + intros [_ <-]%ret_Ok. constructor.
    + unfold icahost.executeMsg, EmitEvents. intros H. go_inv. econstructor; eauto.
  - induction 1 as [w|m msgs h evs w w1 w2 Hv Hh E _ IH]; [done|]. cbn [icahost.execute_msgs].
    unfold icahost.executeMsg, EmitEvents, bind, lift. rewrite Hv, Hh. cbn [some_or ret]. rewrite E. exact IH.
Qed.

(** The transaction of [pkt] was executed from [w] to [w']: the packet is decoded, the
    account [a] is registered for the port it comes from, every message is authorised by
    [a], and all of them are delivered, in order, on a branch of the state that replaces
    it. *)
Definition executed (ctx : Context) (pkt : Packet) (a : string) (msgs : list sdkMsg) (w w' : World) : Prop :=
  packet_tx pkt = Some msgs ∧ account_of w (SourcePort pkt) = Some a ∧ Forall (authorised a (allowed w)) msgs ∧
  ∃ w1, delivered ctx msgs (set_events [] w) w1 ∧ w' = set_events (events w1 ++ events w) w1.

Lemma im_OnRecvPacket_spec ctx pkt relayer w w' o :
  icahost.im_OnRecvPacket Handler ctx pkt relayer w = (w', o) →
  match o with
  | Ok (Some ack) =>
      if ack_Success ack
      then hosttypes.HostEnabled (host_params (ica w)) = true ∧ ∃ a msgs, executed ctx pkt a msgs w w'
      else w' = w
  | Ok None | Err _ => False
  | Panic => w' = w
  end.
Proof.
  unfold icahost.im_OnRecvPacket, icahost.IsHostEnabled. unfold bind at 1, gets.
  destruct (hosttypes.HostEnabled (host_params (ica w))) eqn:He; simpl; [|by intros [= <- <-]].
  unfold bind, catch. destruct (icahost.OnRecvPacket Handler ctx pkt w) as [w1 o1] eqn:E.
  apply keeper_OnRecvPacket_spec in E as [(-> & msgs & a & w2 & ? & ? & ? & Hx%execute_msgs_delivered & ->)|[-> Ho]].
  - intros [= <- <-]. simpl. split; [done|]. exists a, msgs. unfold executed. eauto 10.
  - destruct o1 as [[]|e|]; [done|..]; by intros [= <- <-].
Qed.

(** *** Accounts belong to ports *)

Definition account_address (port : string) : string :=
  AccAddress_String (GenerateAddress (acc_GetModuleAddress ModuleName) port).
(** Every registered account is the one derived from its port. *)
Definition accounts_derived (w : World) : Prop :=
  ∀ port a, account_of w port = Some a → a = account_address port.

(** A state change that keeps registered accounts, and registers only derived ones. *)
Definition accounts_kept (w w' : World) : Prop :=
  accounts_derived w → accounts_derived w' ∧ ∀ port a, account_of w port = Some a → account_of w' port = Some a.

#[global] Instance accounts_kept_preorder : PreOrder accounts_kept.
Proof.
  split; [by intros w Hw|]. intros w1 w2 w3 H12 H23 H1. destruct (H12 H1) as [H2 K12]. destruct (H23 H2) as [H3 K23].
  split; [done|]. intros p a Ha. by apply K23, K12.
Qed.

Lemma accounts_kept_same w w' : host_store (ica w') = host_store (ica w) → accounts_kept w w'.
Proof. unfold accounts_kept, accounts_derived, account_of. intros ->. auto. Qed.

(** Computations that only change the host's state in this way. *)
Definition host_safe {A} (m : M A) : Prop := ∀ w, accounts_kept w (m w).1.

Lemma host_safe_keeps {A} (m : M A) : keeps (λ w, host_store (ica w)) m → host_safe m.
Proof. intros Hm w. apply accounts_kept_same, Hm. Qed.
Lemma host_safe_bind {A B} (m : M A) (k : A → M B) : host_safe m → (∀ a, host_safe (k a)) → host_safe (bind m k).
Proof.
  intros Hm Hk w. unfold bind. specialize (Hm w). destruct (m w) as [w1 [a|e|]]; simpl in *; [|done..].
  etrans; [exact Hm|apply Hk].
Qed.

Lemma EmitEvents_safe l : host_safe (EmitEvents l).
Proof. by apply host_safe_keeps. Qed.

(** The handlers of all messages are safe. *)
Definition handlers_safe : Prop := ∀ m h ctx, Handler m = Some h → host_safe (h ctx).

Lemma execute_msgs_safe ctx msgs : handlers_safe → host_safe (icahost.execute_msgs Handler ctx msgs).
Proof.
  intros Hh. induction msgs as [|m msgs IH]; cbn [icahost.execute_msgs]; [by apply host_safe_keeps|].
  apply host_safe_bind; [by apply host_safe_keeps|intros _]. apply host_safe_bind; [|done].
  unfold icahost.executeMsg. destruct (Handler m) as [h|] eqn:E; [|by apply host_safe_keeps].
  apply (host_safe_bind (h ctx)); [by eapply Hh|apply EmitEvents_safe].
Qed.

Lemma on_accounts_host {A} (m : ST AccState A) : keeps (λ w, host_store (ica w)) (on_accounts m).
Proof.
  intros w. unfold on_accounts, on_ica, zoom. destruct (m (accounts (ica w))). simpl. by rewrite ica_set_ica.
Qed.

Lemma host_store_set_Ok k v w :
  icahost.store_set k v w = (set_ica (set_host_store (<[k := v]> (host_store (ica w))) (ica w)) w, Ok tt).
Proof. done. Qed.
Lemma KeyOwnerAccount_inj p q : KeyOwnerAccount p = KeyOwnerAccount q → p = q.
Proof. unfold KeyOwnerAccount. by intros ?%app_inj_l%app_inj_l. Qed.

(** Registration: an existing account is left alone and nothing is recorded; otherwise the
    derived address is recorded for the port. *)
Lemma RegisterInterchainAccount_Ok addr port w w' :
  icahost.RegisterInterchainAccount addr port w = (w', Ok tt) →
  if is_nil (acc_GetAccount (accounts (ica w)) addr)
  then host_store (ica w') = <[KeyOwnerAccount port := AccAddress_String addr]> (host_store (ica w))
  else w' = w.
Proof.
  unfold icahost.RegisterInterchainAccount. intros H. go_inv.
  destruct (is_nil _); simpl in *; go_inv; [|done].
  match goal with H : on_accounts (acc_NewAccount _) _ = _ |- _ => rename H into Hn end.
  match goal with H : on_accounts (acc_SetAccount _) _ = _ |- _ => rename H into Hs end.
  pose proof (keeps_run _ _ _ _ _ (on_accounts_host _) Hn) as E1.
  pose proof (keeps_run _ _ _ _ _ (on_accounts_host _) Hs) as E2. simpl in E1, E2.
  apply on_ica_Ok in Hn as [Hn _]. apply zoom_Ok in Hn as (t & Hn & _). apply NewAccount_law in Hn as (Ha & _ & _).
  unfold icahost.SetInterchainAccountAddress in *.
  match goal with H : icahost.store_set _ _ _ = _ |- _ => rewrite host_store_set_Ok in H; simplify_eq end.
  rewrite ica_set_ica. simpl. by rewrite E2, E1, Ha.
Qed.

Lemma derived_insert w w' port :
  host_store (ica w') = <[KeyOwnerAccount port := account_address port]> (host_store (ica w)) → accounts_kept w w'.
Proof.
  intros E Hd. unfold accounts_derived, account_of in *. rewrite E. split; intros p a;
    (destruct (decide (p = port)) as [->|Hne];
      [rewrite lookup_insert_eq|rewrite lookup_insert_ne by (by intros ?%KeyOwnerAccount_inj)]); [naive_solver|auto| |done].
  by intros ->%Hd.
Qed.

Lemma keeps_caps_host {A} (m : ST CapState A) : keeps (λ w, host_store (ica w)) (on_caps m).
Proof. intros w. by rewrite on_caps_ica. Qed.

Lemma validateControllerPortParams_keeps {T} (f : World → T) hops n m :
  keeps f (icahost.validateControllerPortParams hops n m).
Proof.
  unfold icahost.validateControllerPortParams, channel_GetConnection, GetConnection.
  frame.
Qed.

(** The handshake step on the host: the port of the controller is checked against the
    connection, and the account derived from it is registered unless there is already an
    account at its address. *)
Lemma im_OnChanOpenTry_Ok ctx order hops p c cap cp v w w' ver :
  icahost.im_OnChanOpenTry ctx order hops p c cap cp v w = (w', Ok ver) →
  order = ORDERED ∧ p = PortID ∧ v = VersionPrefix ∧
  ver = NewAppVersion VersionPrefix (account_address (Counterparty_PortId cp)) ∧
  if is_nil (acc_GetAccount (accounts (ica w)) (GenerateAddress (acc_GetModuleAddress ModuleName) (Counterparty_PortId cp)))
  then host_store (ica w') =
    <[KeyOwnerAccount (Counterparty_PortId cp) := account_address (Counterparty_PortId cp)]> (host_store (ica w))
  else host_store (ica w') = host_store (ica w).
Proof.
  unfold icahost.im_OnChanOpenTry, icahost.OnChanOpenTry, icahost.IsHostEnabled, icahost.ClaimCapability.
  intros H. go_inv.
  repeat match goal with H : bool_decide (?x ≠ ?y) = false |- _ => apply bool_decide_eq_false, dec_stable in H as -> end.
  match goal with H : icahost.validateControllerPortParams _ _ _ ?x = (?y, _) |- _ =>
    pose proof (keeps_run (λ w, w) _ _ _ _ (validateControllerPortParams_keeps _ _ _ _) H) as E; simpl in E; subst; clear H end.
  match goal with H : on_caps _ ?x = (?y, _) |- _ =>
    pose proof (keeps_run _ _ _ _ _ (keeps_on_caps_ica _) H) as E; rewrite <- E; clear H end.
  match goal with H : icahost.RegisterInterchainAccount _ _ _ = _ |- _ => apply RegisterInterchainAccount_Ok in H as Hr end.
  split_and!; try done. destruct (is_nil _); [done|by subst].
Qed.

Lemma im_OnChanOpenTry_safe ctx order hops p c cap cp v w w' ver :
  icahost.im_OnChanOpenTry ctx order hops p c cap cp v w = (w', Ok ver) → accounts_kept w w'.
Proof.
  intros (_ & _ & _ & _ & H)%im_OnChanOpenTry_Ok. destruct (is_nil _); [by eapply derived_insert|by apply accounts_kept_same].
Qed.

(** The keys of active channels are not those of accounts. *)
Lemma active_channel_safe (f : KVStore → KVStore) :
  (∀ s port, f s !! KeyOwnerAccount port = s !! KeyOwnerAccount port) → host_safe (on_host_store (modify f)).
Proof.
  intros Hf w Hd. unfold accounts_derived, account_of in *. simpl. rewrite ica_set_ica. simpl. setoid_rewrite Hf. auto.
Qed.

(** A step of the host chain: a callback of the host submodule, or anything that treats
    the accounts in the same way. *)
Inductive host_step : World → World → Prop :=
  | host_try ctx order hops p c cap cp v w w' ver :
      icahost.im_OnChanOpenTry ctx order hops p c cap cp v w = (w', Ok ver) → host_step w w'
  | host_confirm ctx p c w w' : icahost.im_OnChanOpenConfirm ctx p c w = (w', Ok tt) → host_step w w'
  | host_close ctx p c w w' : icahost.im_OnChanCloseConfirm ctx p c w = (w', Ok tt) → host_step w w'
  | host_recv ctx pkt r w w' ack :
      icahost.im_OnRecvPacket Handler ctx pkt r w = (w', Ok ack) → host_step w w'
  | host_other w w' : accounts_kept w w' → host_step w w'.

Lemma host_step_safe w w' : handlers_safe → host_step w w' → accounts_kept w w'.
Proof.
  intros Hh [ctx order hops p c cap cp v ? ? ver E|ctx p c ? ? E|ctx p c ? ? E|ctx pkt r ? ? ack E|]; [..|done].
  - by eapply im_OnChanOpenTry_safe.
  - unfold icahost.im_OnChanOpenConfirm, icahost.IsHostEnabled in E. go_inv.
    assert (host_safe (icahost.OnChanOpenConfirm p c)) as Hs.
    { apply active_channel_safe. intros. by apply lookup_insert_ne. }
    match goal with H : icahost.OnChanOpenConfirm _ _ ?w = _ |- _ => specialize (Hs w); by rewrite H in Hs end.
  - assert (host_safe (icahost.im_OnChanCloseConfirm ctx p c)) as Hs.
    { apply active_channel_safe. intros. by apply lookup_delete_ne. }
    match goal with H : icahost.im_OnChanCloseConfirm _ _ _ ?w = _ |- _ => specialize (Hs w); by rewrite H in Hs end.
  - apply im_OnRecvPacket_spec in E. destruct ack as [ack|]; [|done]. destruct (ack_Success ack); [|by subst].
    destruct E as (_ & a & msgs & _ & _ & _ & w1 & E & ->).
    match goal with H : delivered _ _ (set_events [] ?w) _ |- _ =>
      apply execute_msgs_delivered in H;
      pose proof (execute_msgs_safe ctx msgs Hh (set_events [] w)) as Hs; rewrite H in Hs end.
    simpl in Hs. intros Hd. destruct (Hs Hd) as [? ?]. done.
Qed.

Lemma host_steps_safe w w' : handlers_safe → rtc host_step w w' → accounts_kept w w'.
Proof. intros Hh. induction 1; [done|]. etrans; [by eapply host_step_safe|done]. Qed.

(** A transaction that may be executed is executed, and acknowledged as a success. *)
Lemma im_OnRecvPacket_runs ctx pkt r w w' a msgs :
  hosttypes.HostEnabled (host_params (ica w)) = true → executed ctx pkt a msgs w w' →
  icahost.im_OnRecvPacket Handler ctx pkt r w =
  (w', Ok (Some (ack_bytes (NewResultAcknowledgement (String "001" ""))))).
Proof.
  intros He (Htx & Ha & Hall & w1 & Hx%execute_msgs_delivered & ->). apply authenticate_msgs_Ok in Hall.
  unfold packet_tx in Htx. unfold icahost.im_OnRecvPacket, icahost.IsHostEnabled. unfold bind at 1, gets. rewrite He.
  unfold bind at 1. cbn [negb]. unfold catch, icahost.OnRecvPacket.
  destruct (PacketData_UnmarshalJSON (Data pkt)) as [d|]; [|done]. case_bool_decide as Ht; [|done].
  unfold bind at 1. cbn [some_or ret]. rewrite Ht. unfold bind at 1, lift.
  destruct (DeserializeCosmosTx (default "" (data_Data d))); [|done..]. simplify_eq.
  unfold icahost.executeTx. unfold bind at 1. rewrite AuthenticateTx_run, Ha, Hall, in_cache_run, Hx. done.
Qed.
End host.

(** ** The controller *)

Definition active_channel (w : World) (port : string) : option string :=
  controller_store (ica w) !! KeyActiveChannel port.
Definition owner_account (w : World) (port : string) : option string :=
  controller_store (ica w) !! KeyOwnerAccount port.

Lemma unpack_pack_msgs msgs anys : Forall registered msgs → pack_msgs msgs = Ok anys → unpack_msgs anys = Ok msgs.
Proof.
  intros Hr. revert anys. induction Hr as [|m msgs Hm Hr IH]; simpl; intros anys H; out_inv; [done|].
  simpl. erewrite Any_roundtrip by eassumption. simpl. by erewrite IH.
Qed.

Lemma CosmosTx_transport msgs bz : Forall registered msgs → SerializeCosmosTx msgs = Ok bz → DeserializeCosmosTx bz = Ok msgs.
Proof.
  intros Hr H. unfold SerializeCosmosTx, DeserializeCosmosTx in *. out_inv.
  match goal with H : Marshal_CosmosTx _ = _ |- _ => apply CosmosTx_roundtrip in H as -> end. by apply unpack_pack_msgs.
Qed.

Lemma TrySendTx_Ok ctx cap port d w w' n :
  icacontroller.TrySendTx ctx cap port d w = (w', Ok n) →
  PacketData_ValidateBasic d = Ok tt ∧
  ∃ c ch, active_channel w port = Some c ∧ chan w port c = Some ch ∧
    SendPacket ctx cap (NewPacket (PacketData_GetBytes d) n port c (Counterparty_PortId (Channel_Counterparty ch))
      (Counterparty_ChannelId (Channel_Counterparty ch)) ZeroHeight 9223372036854775807) w = (w', Ok tt).
Proof.
  unfold icacontroller.TrySendTx, icacontroller.createOutgoingPacket, icacontroller.GetActiveChannelID,
    icacontroller.store_get. intros H. go_inv. out_inv. destruct (PacketData_ValidateBasic d) as [[]|e|]; try done.
  split; [done|]. eauto 10.
Qed.

Lemma controller_store_set k v w :
  icacontroller.store_set k v w = (set_ica (set_controller_store (<[k := v]> (controller_store (ica w))) (ica w)) w, Ok tt).
Proof. done. Qed.
Lemma controller_store_delete k w :
  icacontroller.store_delete k w =
  (set_ica (set_controller_store (delete k (controller_store (ica w))) (ica w)) w, Ok tt).
Proof. done. Qed.

(** The last handshake step on the controller records the channel, whatever channel was
    active before, and the account that the version carries. *)
Lemma OnChanOpenAck_Ok p c v w w' :
  icacontroller.OnChanOpenAck p c v w = (w', Ok tt) →
  p ≠ PortID ∧ ∃ a, v = NewAppVersion VersionPrefix a ∧ ValidateAccountAddress a = Ok tt ∧
    active_channel w' p = Some c ∧ owner_account w' p = Some a.
Proof.
  unfold icacontroller.OnChanOpenAck, icacontroller.SetActiveChannelID, icacontroller.SetInterchainAccountAddress.
  intros H. go_inv.
  match goal with H : outcome_wrap (ValidateVersion _) = _ |- _ =>
    apply outcome_wrap_Ok, versions_roundtrip in H as (a & Hv & Ha & Hparse) end.
  rewrite Hparse in *. match goal with H : outcome_wrap _ = Ok _ |- _ => injection H as <- end.
  repeat match goal with H : icacontroller.store_set _ _ _ = _ |- _ =>
    rewrite controller_store_set in H; injection H as <- end.
  split; [done|]. exists a. split_and!; try done; unfold active_channel, owner_account; rewrite ica_set_ica; simpl.
  - rewrite lookup_insert_ne, ica_set_ica by done. simpl. by rewrite lookup_insert_eq.
  - by rewrite lookup_insert_eq.
Qed.
End state.

(** ** Claims *)
Section claims.
Context {SE : SdkEncoding} {LC : LightClient} {CD : Codec} {CK : CapabilityKeeper} {SC : SelfClient}
  {BE : Bech32} {AK : AccountKeeper} {AP : Application} {IA : IcaApp} {IC : IcaCodec} {SM : SdkMsg}.
Variable Handler : sdkMsg → option (Context → M (list Event)).

(** C18: A transaction received by the host is executed completely or not at all.  The
    acknowledgement is a success exactly when the host is enabled, the packet holds a
    transaction, an account is registered for the sending port, every message has an
    allowed type and no signer but that account, and the messages are all delivered one
    after the other: each passes its stateless checks ([msg_ValidateBasic]), has a route to
    a handler, and the handler succeeds; then the state is the one they leave.  In every
    other case, also when a later message fails or panics, the state is unchanged. *)
Theorem host_receive_spec ctx pkt relayer w w' o :
  icahost.im_OnRecvPacket Handler ctx pkt relayer w = (w', o) →
  match o with
  | Ok (Some ack) =>
      if ack_Success ack then
        hosttypes.HostEnabled (host_params (ica w)) = true ∧ ∃ a msgs, executed Handler ctx pkt a msgs w w'
      else
        w' = w ∧ ¬ (hosttypes.HostEnabled (host_params (ica w)) = true ∧
                    ∃ a msgs w2, executed Handler ctx pkt a msgs w w2)
  | Ok None | Err _ => False
  | Panic => w' = w
  end.
Proof.
  intros E. pose proof (im_OnRecvPacket_spec _ _ _ _ _ _ _ E) as H. destruct o as [[ack|]|e|]; try done.
  destruct (ack_Success ack) eqn:Ha; [done|]. split; [done|]. intros (He & a & msgs & w2 & Hx).
  rewrite (im_OnRecvPacket_runs _ _ _ relayer _ _ _ _ He Hx) in E. by simplify_eq.
Qed.

(** C17: Only the owner's port controls an account.  Over every run of a host chain (with
    handlers that leave the host's registry alone or register accounts through it), a
    transaction that is executed consists of messages signed by nobody but the account
    derived from the port the packet came from. *)
Theorem interchain_account_authority ctx pkt r w0 w w' ack :
  handlers_safe Handler → accounts_derived w0 → rtc (host_step Handler) w0 w →
  icahost.im_OnRecvPacket Handler ctx pkt r w = (w', Ok (Some ack)) → ack_Success ack = true →
  ∃ msgs, executed Handler ctx pkt (account_address (SourcePort pkt)) msgs w w' ∧
    Forall (authorised (account_address (SourcePort pkt)) (allowed w)) msgs.
Proof.
  intros Hh Hd Hr E Hs. destruct (host_steps_safe _ _ _ Hh Hr Hd) as [Hd' _].
  apply im_OnRecvPacket_spec in E. rewrite Hs in E. destruct E as (_ & a & msgs & Hx).
  assert (a = account_address (SourcePort pkt)) as -> by (apply Hd', Hx). exists msgs. split; [done|apply Hx].
Qed.

(** C19: Transactions arrive as they were sent: when the controller accepts a transaction for
    a port, the packet it commits on the port's active channel, under the next sequence
    and with a timeout that no chain reaches, is one from which a host decodes the same
    messages. *)
Theorem interchain_tx_delivery ctx cap port msgs bz memo w w' n :
  SerializeCosmosTx msgs = Ok bz → Forall registered msgs → json_data (mkPacketData EXECUTE_TX (Some bz) memo) →
  icacontroller.TrySendTx ctx cap port (mkPacketData EXECUTE_TX (Some bz) memo) w = (w', Ok n) →
  ∃ c ch pkt, active_channel w port = Some c ∧ chan w port c = Some ch ∧ owns w cap port c = true ∧
    SourcePort pkt = port ∧ SourceChannel pkt = c ∧
    DestinationPort pkt = Counterparty_PortId (Channel_Counterparty ch) ∧
    DestinationChannel pkt = Counterparty_ChannelId (Channel_Counterparty ch) ∧
    next_send w port c = Some n ∧ commitment_at w' port c n = Some (CommitPacket pkt) ∧
    TimeoutHeight pkt = ZeroHeight ∧ TimeoutTimestamp pkt = (2 ^ 63 - 1)%N ∧ packet_tx pkt = Some msgs.
Proof.
  intros Hs Hreg Hj (_ & c & ch & Hc & Hch & Hsend)%TrySendTx_Ok.
  apply SendPacket_Ok in Hsend as (_ & ch' & hop & ce & cs & _ & _ & Ho & _ & _ & _ & _ & _ & Hn & Hw & _).
  exists c, ch, (NewPacket (PacketData_GetBytes (mkPacketData EXECUTE_TX (Some bz) memo)) n port c
    (Counterparty_PortId (Channel_Counterparty ch)) (Counterparty_ChannelId (Channel_Counterparty ch)) ZeroHeight
    9223372036854775807).
  split_and!; try done.
  - unfold commitment_at. rewrite Hw. by rewrite lookup_insert_eq.
  - unfold packet_tx. cbn [Data NewPacket]. rewrite PacketData_roundtrip by done. cbn [data_Type data_Data].
    rewrite bool_decide_eq_true_2 by done. cbn [default]. by rewrite (CosmosTx_transport msgs).
Qed.

(** The two chains agree on the account: when the controller completes a handshake with
    the version that the host returned for its port, the account it records is the one
    derived from the port, at which the host registers it. *)
Theorem registration_agreement ctx order hops p c cap cp v w w' ver ctx2 c2 app2 w2 w2' :
  icahost.im_OnChanOpenTry ctx order hops p c cap cp v w = (w', Ok ver) →
  icacontroller.im_OnChanOpenAck app2 ctx2 (Counterparty_PortId cp) c2 ver w2 = (w2', Ok tt) →
  (∀ ctx p c v, keeps ica (Router.OnChanOpenAck app2 ctx p c v)) →
  owner_account w2' (Counterparty_PortId cp) = Some (account_address (Counterparty_PortId cp)) ∧
  active_channel w2' (Counterparty_PortId cp) = Some c2 ∧
  (acc_GetAccount (accounts (ica w)) (GenerateAddress (acc_GetModuleAddress ModuleName) (Counterparty_PortId cp)) = None →
   account_of w' (Counterparty_PortId cp) = owner_account w2' (Counterparty_PortId cp)).
Proof.
  intros (_ & _ & _ & -> & Hreg)%im_OnChanOpenTry_Ok Hack Happ.
  unfold icacontroller.im_OnChanOpenAck, icacontroller.IsControllerEnabled in Hack. go_inv.
  match goal with H : icacontroller.OnChanOpenAck _ _ _ _ = _ |- _ => apply OnChanOpenAck_Ok in H as (_ & a & Ha & _ & Hc & Ho) end.
  unfold NewAppVersion in Ha. apply app_inj_l, app_inj_l in Ha as <-.
  match goal with H : Router.OnChanOpenAck _ _ _ _ _ _ = _ |- _ => pose proof (keeps_run _ _ _ _ _ (Happ _ _ _ _) H) as E end.
  unfold owner_account, active_channel, account_of in *. rewrite E, Ho, Hc. split_and!; [done..|].
  intros Hnone. rewrite Hnone in Hreg. simpl in Hreg. by rewrite Hreg, lookup_insert_eq.
Qed.

(** An account that exists at the derived address before the handshake makes the
    interchain account unusable: the handshake succeeds and announces the address, but
    nothing is registered, and every transaction from the port is refused. *)
Theorem existing_account_blocks ctx order hops p c cap cp v w w' ver :
  icahost.im_OnChanOpenTry ctx order hops p c cap cp v w = (w', Ok ver) →
  acc_GetAccount (accounts (ica w)) (GenerateAddress (acc_GetModuleAddress ModuleName) (Counterparty_PortId cp)) ≠ None →
  account_of w (Counterparty_PortId cp) = None →
  ver = NewAppVersion VersionPrefix (account_address (Counterparty_PortId cp)) ∧
  ∀ w1 ctx2 pkt r w2 ack, account_of w1 (Counterparty_PortId cp) = account_of w' (Counterparty_PortId cp) →
    SourcePort pkt = Counterparty_PortId cp →
    icahost.im_OnRecvPacket Handler ctx2 pkt r w1 = (w2, Ok (Some ack)) → ack_Success ack = false ∧ w2 = w1.
Proof.
  intros (_ & _ & _ & -> & Hreg)%im_OnChanOpenTry_Ok Hacc Hno. split; [done|].
  destruct (acc_GetAccount _ _); [|done]. simpl in Hreg. clear Hacc.
  intros w1 ctx2 pkt r w2 ack Hsame Hsrc E%im_OnRecvPacket_spec.
  destruct (ack_Success ack); [|done]. destruct E as (_ & b & msgs & _ & Ha & _).
  rewrite Hsrc, Hsame in Ha. unfold account_of in *. rewrite Hreg in Ha. congruence.
Qed.

(** A message whose signers cannot be read stops the channel: the host reads the signers
    before the stateless check of the message, and the panic undoes the receipt. *)
Theorem malformed_signer_panics ctx pkt r w a m msgs :
  hosttypes.HostEnabled (host_params (ica w)) = true → packet_tx pkt = Some (m :: msgs) →
  account_of w (SourcePort pkt) = Some a → MsgTypeURL m ∈ allowed w → msg_GetSigners m = Panic →
  icahost.im_OnRecvPacket Handler ctx pkt r w = (w, Panic).
Proof.
  intros He Htx Ha Ht Hp. destruct (icahost.im_OnRecvPacket Handler ctx pkt r w) as [w' o] eqn:E.
  pose proof (im_OnRecvPacket_spec _ _ _ _ _ _ _ E) as Hs.
  assert (o = Panic) as ->; [|by subst]. clear Hs. revert E.
  unfold icahost.im_OnRecvPacket, icahost.IsHostEnabled. unfold bind at 1, gets. rewrite He. unfold packet_tx in Htx.
  unfold bind at 1. cbn [negb]. unfold catch, icahost.OnRecvPacket. unfold bind at 1.
  destruct (PacketData_UnmarshalJSON (Data pkt)) as [d|]; [|done]. case_bool_decide as Hd; [|done].
  cbn [some_or ret]. rewrite Hd. unfold bind at 1, lift.
  destruct (DeserializeCosmosTx (default "" (data_Data d))); [|done..]. simplify_eq.
  unfold icahost.executeTx. unfold bind at 1. rewrite AuthenticateTx_run, Ha. cbn [icahost.authenticate_msgs].
  apply ContainsMsgType_spec in Ht. rewrite Ht, Hp. simpl. by intros [= _ <-].
Qed.

(** The active channel of a port is forgotten when a packet of any channel of the port
    times out or any of its channels is closed, and it is replaced by the next handshake
    that completes. *)
Theorem active_channel_not_checked w port c :
  active_channel w port = Some c →
  (∀ c' w', icacontroller.OnChanCloseConfirm port c' w = (w', Ok tt) → active_channel w' port = None) ∧
  (∀ pkt w', SourcePort pkt = port → icacontroller.OnTimeoutPacket pkt w = (w', Ok tt) → active_channel w' port = None) ∧
  (∀ c' v w', icacontroller.OnChanOpenAck port c' v w = (w', Ok tt) → active_channel w' port = Some c').
Proof.
  intros _. unfold icacontroller.OnChanCloseConfirm, icacontroller.OnTimeoutPacket, icacontroller.DeleteActiveChannelID,
    active_channel. split_and!.
  - intros c' w'. rewrite controller_store_delete. intros [= <-]. rewrite ica_set_ica. simpl.
    by rewrite lookup_delete_eq.
  - intros pkt w' <-. rewrite controller_store_delete. intros [= <-]. rewrite ica_set_ica. simpl.
    by rewrite lookup_delete_eq.
  - intros c' v w' H%OnChanOpenAck_Ok. naive_solver.
Qed.

Lemma keeps_channels_bind {A B} (m : M A) (k : A → M B) :
  keeps_channels m → (∀ a, keeps_channels (k a)) → keeps_channels (bind m k).
Proof.
  intros Hm Hk w. unfold bind. specialize (Hm w). destruct (m w) as [w1 [a|e|]]; simpl in *; [|done..].
  intros key Hc. rewrite <- Hm by done. by apply Hk.
Qed.

Local Ltac polite_unfold :=
  unfold icacontroller.im_OnChanOpenInit, icacontroller.im_OnChanOpenAck, icacontroller.OnChanOpenInit,
    icacontroller.OnChanOpenAck, icacontroller.SetActiveChannelID, icacontroller.SetInterchainAccountAddress,
    icacontroller.im_OnAcknowledgementPacket, icacontroller.im_OnTimeoutPacket, icacontroller.OnTimeoutPacket,
    icacontroller.DeleteActiveChannelID, icacontroller.store_set, icacontroller.store_delete, on_controller_store,
    icahost.im_OnChanOpenTry, icahost.OnChanOpenTry, icahost.im_OnChanOpenConfirm, icahost.OnChanOpenConfirm,
    icahost.RegisterInterchainAccount, icahost.SetActiveChannelID, icahost.SetInterchainAccountAddress,
    icahost.store_set, icahost.store_delete, on_host_store, icahost.ClaimCapability, on_accounts,
    icahost.im_OnRecvPacket, icahost.OnRecvPacket, icahost.executeTx, icahost.AuthenticateTx,
    icacontroller.validateControllerPortParams, channel_GetConnection, GetConnection.

(** Both submodules are applications in the sense of the message server: the controller
    over an authentication module that is one, the host if the handlers it calls leave
    the IBC store alone. *)
Theorem interchain_accounts_polite app :
  polite app → (∀ m h ctx, Handler m = Some h → keeps ibc (h ctx)) →
  polite (icacontroller.NewIBCModule app) ∧ polite (icahost.NewIBCModule Handler).
Proof.
  intros Hp Hh.
  assert (∀ l : list sdkMsg, ∀ ctx, keeps ibc (icahost.execute_msgs Handler ctx l)) as Hx.
  { intros l ctx. induction l as [|m l IH]; cbn [icahost.execute_msgs]; [done|].
    unfold icahost.executeMsg. apply keeps_bind; [auto with ibc|intros _]. apply keeps_bind; [|done].
    destruct (Handler m) as [h|] eqn:E; [|done]. apply (keeps_bind _ (h ctx)); [by eapply Hh|]. by intros l'. }
  assert (∀ A (m : ST IcaState A), keeps ibc (on_ica m)) as Hica by (intros; by apply keeps_on_ica).
  assert (∀ A (m : ST CapState A), keeps ibc (on_caps m)) as Hcaps.
  { intros A m w. unfold on_caps, zoom. by destruct (m (caps w)). }
  split; split; intros; simpl; try (by intros w k _); try done.
  - unfold icacontroller.im_OnChanOpenInit.
    repeat (apply keeps_channels_bind; [apply keeps_ibc_channels|intros ?]); [..|apply Hp]; polite_unfold; frame.
  - unfold icacontroller.im_OnChanOpenAck.
    repeat (apply keeps_channels_bind; [apply keeps_ibc_channels|intros ?]); [..|apply Hp]; polite_unfold; frame.
  - polite_unfold; frame. apply Hp.
  - polite_unfold; frame. apply Hp.
  - apply keeps_ibc_channels. polite_unfold; frame.
  - apply keeps_ibc_channels. polite_unfold; frame.
  - polite_unfold; frame. intros w. unfold icahost.in_cache.
    match goal with |- context [icahost.execute_msgs Handler ctx ?l] => specialize (Hx l ctx (set_events [] w)) end.
    by destruct (icahost.execute_msgs _ _ _ _) as [w1 []].
Qed.

(** Both submodules are lawful applications: the controller over an authentication module
    that is one, and the host also when the handlers it calls drive the keepers, as a
    [MsgTransfer] of an interchain account does. *)
Section lawful.
Variable P : action → Prop.
Hypothesis P_other : ∀ m, keeps_channels m → P (Do_other m).

Lemma drives_ibc {A} (m : M A) : keeps ibc m → drives P ranged m.
Proof. by apply drives_keeps; [|apply ranged_range|apply ranged_agree]. Qed.

Lemma execute_msgs_drives ctx msgs :
  (∀ m h ctx, Handler m = Some h → drives P ranged (h ctx)) → drives P ranged (icahost.execute_msgs Handler ctx msgs).
Proof.
  intros Hh. induction msgs as [|m msgs IH]; cbn [icahost.execute_msgs]; [by apply drives_ibc|].
  apply drives_bind; [apply drives_ibc; auto with ibc|intros _]. apply drives_bind; [|done].
  unfold icahost.executeMsg. destruct (Handler m) as [h|] eqn:E; [|by apply drives_never].
  apply (drives_bind _ _ (h ctx)); [by eapply Hh|]. intros l. by apply drives_ibc.
Qed.

Lemma host_recv_drives ctx pkt r :
  (∀ m h ctx, Handler m = Some h → drives P ranged (h ctx)) → drives P ranged (icahost.im_OnRecvPacket Handler ctx pkt r).
Proof.
  intros Hh w w' o E Hr. apply im_OnRecvPacket_spec in E. destruct o as [ack|]; [|done].
  destruct (ack_Success ack); [|subst w'; split; [done|constructor]].
  destruct E as (_ & a & msgs & _ & _ & _ & w1 & Hx%execute_msgs_delivered & ->).
  destruct (execute_msgs_drives ctx msgs Hh _ _ _ Hx Hr) as [Hr0 Hrun]. split; [exact Hr0|].
  eapply run_of_trans; [apply (run_same P P_other _ (set_events [] w)); [by apply ranged_range|done]|].
  eapply run_of_trans; [exact Hrun|]. apply (run_same P P_other); [by apply ranged_range|done].
Qed.

Lemma interchain_accounts_lawful app :
  lawful P ranged app → (∀ m h ctx, Handler m = Some h → drives P ranged (h ctx)) →
  lawful P ranged (icacontroller.NewIBCModule app) ∧ lawful P ranged (icahost.NewIBCModule Handler).
Proof.
  intros Hp Hh.
  assert (∀ A (m : ST IcaState A), keeps ibc (on_ica m)) as Hica by (intros; by apply keeps_on_ica).
  assert (∀ A (m : ST CapState A), keeps ibc (on_caps m)) as Hcaps.
  { intros A m w. unfold on_caps, zoom. by destruct (m (caps w)). }
  split; split; intros; simpl; try (by intros w k _); try (by apply drives_ibc).
  - unfold icacontroller.im_OnChanOpenInit.
    repeat (apply keeps_channels_bind; [apply keeps_ibc_channels|intros ?]); [..|apply Hp]; polite_unfold; frame.
  - unfold icacontroller.im_OnChanOpenAck.
    repeat (apply keeps_channels_bind; [apply keeps_ibc_channels|intros ?]); [..|apply Hp]; polite_unfold; frame.
  - unfold icacontroller.im_OnAcknowledgementPacket.
    repeat (apply drives_bind; [apply drives_ibc|intros ?]); [..|apply Hp]; polite_unfold; frame.
  - unfold icacontroller.im_OnTimeoutPacket.
    repeat (apply drives_bind; [apply drives_ibc|intros ?]); [..|apply Hp]; polite_unfold; frame.
  - apply keeps_ibc_channels. polite_unfold; frame.
  - apply keeps_ibc_channels. polite_unfold; frame.
  - by apply host_recv_drives.
Qed.
End lawful.
End claims.
