(* ===== verification/IcaGenesis.v ===== *)
(** * Genesis of interchain accounts

    What [ExportGenesis] reads from a store, what [InitGenesis] writes, and what survives
    exporting one chain and starting another from the result. *)
From S2P Require Import Prelude GoMonad Errors Sha256 Height Host Sdk ConnectionTypes.
From S2P Require Import ChannelTypes Exported ClientKeeper ConnectionKeeper PortKeeper.
From S2P Require Import ChannelKeeper ChannelHandshake ClientTypes Router MsgServer Iteration.
From S2P Require Import IcaTypes.
From S2P Require Import Messages IcaKeeper ChannelSpec IcaProperties.
From Stdlib Require Import Ascii.
From stdpp Require Import sorting.
Import icatypes icacodec.

(** ** Reading a store *)

(** [pre/port] *)
Definition section_key (pre port : string) : string := pre +:+ "/" +:+ port.

(** The stores of the submodules: the three kinds of keys, with ports free of "/". *)
Definition ica_store_wf (s : KVStore) : Prop := ∀ k v, s !! k = Some v →
  ∃ pre port, pre ∈ [ActiveChannelKeyPrefix; OwnerKeyPrefix; PortKeyPrefix] ∧ no_char "/" port = true ∧
    k = section_key pre port ∧ (pre = PortKeyPrefix → v = String "001" "").

Definition in_section (pre : string) (e : string * string) : Prop :=
  ∃ port, e.1 = section_key pre port ∧ no_char "/" port = true.

Lemma key_port_section pre port :
  no_char "/" pre = true → no_char "/" port = true → key_port (section_key pre port) = Ok port.
Proof.
  intros Hpre Hport. unfold key_port, section_key. rewrite app_cons_l, Prelude.app_nil_l, Split_sep by done.
  by rewrite Split_no_char.
Qed.

(** The port of a key below [pre]. *)
Definition port_of (pre k : string) : string := str_drop (String.length (pre +:+ "/")) k.
Lemma port_of_section pre port : port_of pre (section_key pre port) = port.
Proof. unfold port_of, section_key. by rewrite <- app_assoc_str, str_drop_app. Qed.

Lemma collect_section {A} (f : string → string → A) pre l :
  no_char "/" pre = true → Forall (in_section pre) l →
  collect f l = Ok ((λ e, f (port_of pre e.1) e.2) <$> l).
Proof.
  intros Hpre. induction 1 as [|[k v] l (port & E & Hport) Hl IH]; [done|]. simpl in E. subst k.
  cbn [collect]. rewrite key_port_section, IH by done. cbn. by rewrite port_of_section.
Qed.

Lemma prefix_section s pre :
  ica_store_wf s → pre ∈ [ActiveChannelKeyPrefix; OwnerKeyPrefix; PortKeyPrefix] →
  Forall (in_section pre) (PrefixIterator s pre).
Proof.
  intros Hs Hpre. apply list.Forall_forall. intros [k v] [Hp Hk%elem_of_entries]%list_elem_of_filter.
  simpl in Hp. destruct (Hs _ _ Hk) as (pre' & port & Hpre' & Hport & -> & _). exists port. split; [|done]. simpl.
  cut (pre = pre'); [by intros ->|].
  rewrite !elem_of_cons, elem_of_nil in Hpre, Hpre'. 
  destruct Hpre as [->|[->|[->|[]]]], Hpre' as [->|[->|[->|[]]]]; done.
Qed.


(** Writing back what was read. *)
Lemma section_rewrite pre l :
  Forall (in_section pre) l → (λ e, (section_key pre (port_of pre e.1), e.2)) <$> l = l.
Proof.
  induction 1 as [|[k v] l (port & E & _) Hl IH]; [done|]. simpl in E. subst k.
  rewrite fmap_cons, IH. simpl. by rewrite port_of_section.
Qed.

Lemma section_exclusive pre pre' port :
  pre ∈ [ActiveChannelKeyPrefix; OwnerKeyPrefix; PortKeyPrefix] →
  pre' ∈ [ActiveChannelKeyPrefix; OwnerKeyPrefix; PortKeyPrefix] →
  HasPrefix (section_key pre port) pre' = bool_decide (pre = pre').
Proof.
  rewrite !elem_of_cons, !elem_of_nil. intros [->|[->|[->|[]]]] [->|[->|[->|[]]]]; reflexivity.
Qed.

Lemma prefix_exclusive k pre pre' :
  HasPrefix k pre = true →
  pre ∈ [ActiveChannelKeyPrefix; OwnerKeyPrefix; PortKeyPrefix] →
  pre' ∈ [ActiveChannelKeyPrefix; OwnerKeyPrefix; PortKeyPrefix] → pre ≠ pre' → HasPrefix k pre' = false.
Proof.
  intros [r ->]%HasPrefix_spec. rewrite !elem_of_cons, !elem_of_nil.
  intros [->|[->|[->|[]]]] [->|[->|[->|[]]]] Hne; done.
Qed.

(** The entries of both sections, written to a store that has neither. *)
Definition restored (s t : KVStore) : KVStore :=
  put_all (PrefixIterator s OwnerKeyPrefix) (put_all (PrefixIterator s ActiveChannelKeyPrefix) t).

Lemma restored_lookup s t k :
  restored s t !! k =
  if HasPrefix k OwnerKeyPrefix || HasPrefix k ActiveChannelKeyPrefix
  then match s !! k with Some v => Some v | None => t !! k end
  else t !! k.
Proof.
  unfold restored. rewrite !put_all_union, !PrefixIterator_map by apply PrefixIterator_keys.
  rewrite !lookup_union, !below_lookup.
  destruct (HasPrefix k OwnerKeyPrefix) eqn:E1, (HasPrefix k ActiveChannelKeyPrefix) eqn:E2; simpl;
    destruct (s !! k), (t !! k); done.
Qed.

Lemma ica_store_wf_subset s s' : s' ⊆ s → ica_store_wf s → ica_store_wf s'.
Proof. intros Hsub Hs k v Hk. by eapply Hs, lookup_weaken. Qed.

Section genesis.
Context {SE : SdkEncoding} {LC : LightClient} {CD : Codec} {CK : CapabilityKeeper} {SC : SelfClient}
  {BE : Bech32} {AK : AccountKeeper} {AP : Application} {IA : IcaApp}.

Lemma set_ica_twice s s' w : set_ica s (set_ica s' w) = set_ica s w.
Proof. unfold set_ica. destruct w. unfold set_app. simpl. by rewrite ica_put_put. Qed.
Lemma set_ica_same w : set_ica (ica w) w = w.
Proof. unfold set_ica, ica. destruct w. unfold set_app. simpl. by rewrite ica_put_view. Qed.

Lemma controller_sets l w :
  for_all (λ e, icacontroller.store_set e.1 e.2) l w =
  (set_ica (set_controller_store (put_all l (controller_store (ica w))) (ica w)) w, Ok tt).
Proof.
  revert w. induction l as [|[k v] l IH]; intros w.
  - simpl. unfold ret. f_equal. rewrite <- (set_ica_same w) at 1. f_equal. by destruct (ica w).
  - rewrite for_all_cons. unfold bind. rewrite controller_store_set, IH.
    by rewrite set_ica_twice, ica_set_ica.
Qed.
Lemma host_sets l w :
  for_all (λ e, icahost.store_set e.1 e.2) l w =
  (set_ica (set_host_store (put_all l (host_store (ica w))) (ica w)) w, Ok tt).
Proof.
  revert w. induction l as [|[k v] l IH]; intros w.
  - simpl. unfold ret. f_equal. rewrite <- (set_ica_same w) at 1. f_equal. by destruct (ica w).
  - rewrite for_all_cons. unfold bind. rewrite host_store_set_Ok, IH.
    by rewrite set_ica_twice, ica_set_ica.
Qed.

(** What a well-formed store is exported as. *)
Definition exported_channels (s : KVStore) : list ActiveChannel :=
  (λ e, mkActiveChannel (port_of ActiveChannelKeyPrefix e.1) e.2) <$> PrefixIterator s ActiveChannelKeyPrefix.
Definition exported_accounts (s : KVStore) : list RegisteredInterchainAccount :=
  (λ e, mkRegistered (port_of OwnerKeyPrefix e.1) e.2) <$> PrefixIterator s OwnerKeyPrefix.
Definition exported_ports (s : KVStore) : list string :=
  (λ e, port_of PortKeyPrefix e.1) <$> PrefixIterator s PortKeyPrefix.

Lemma controller_export w :
  ica_store_wf (controller_store (ica w)) →
  icacontroller.ExportGenesis w =
  (w, Ok (mkControllerGenesis (exported_channels (controller_store (ica w)))
        (exported_accounts (controller_store (ica w))) (exported_ports (controller_store (ica w)))
        (controller_params (ica w)))).
Proof.
  intros Hs. unfold icacontroller.ExportGenesis, icacontroller.GetAllActiveChannels,
    icacontroller.GetAllInterchainAccounts, icacontroller.GetAllPorts, icacontroller.GetParams,
    icacontroller.IsControllerEnabled, bind, gets, lift.
  rewrite (collect_section _ ActiveChannelKeyPrefix), (collect_section _ OwnerKeyPrefix),
    (collect_section _ PortKeyPrefix); try done; try (apply prefix_section; [done|set_solver]).
  unfold ret, NewControllerGenesisState, controllertypes.NewParams. by destruct (controller_params (ica w)).
Qed.
Lemma host_export w :
  ica_store_wf (host_store (ica w)) →
  icahost.ExportGenesis w =
  (w, Ok (mkHostGenesis (exported_channels (host_store (ica w))) (exported_accounts (host_store (ica w))) PortID
        (host_params (ica w)))).
Proof.
  intros Hs. unfold icahost.ExportGenesis, icahost.GetAllActiveChannels, icahost.GetAllInterchainAccounts,
    icahost.GetParams, icahost.IsHostEnabled, icahost.GetAllowMessages, bind, gets, lift.
  rewrite (collect_section _ ActiveChannelKeyPrefix), (collect_section _ OwnerKeyPrefix);
    try done; try (apply prefix_section; [done|set_solver]).
  unfold ret, NewHostGenesisState, hosttypes.NewParams. by destruct (host_params (ica w)).
Qed.

(** The writes of the two loops after the ports. *)
Lemma channel_entries s : ica_store_wf s →
  (λ ch, (KeyActiveChannel (ac_PortId ch), ac_ChannelId ch)) <$> exported_channels s =
  PrefixIterator s ActiveChannelKeyPrefix.
Proof.
  intros Hs. unfold exported_channels. rewrite <- list_fmap_compose.
  etrans; [|apply (section_rewrite ActiveChannelKeyPrefix), prefix_section; [exact Hs|set_solver]]. done.
Qed.
Lemma account_entries s : ica_store_wf s →
  (λ acc, (KeyOwnerAccount (ra_PortId acc), ra_AccountAddress acc)) <$> exported_accounts s =
  PrefixIterator s OwnerKeyPrefix.
Proof.
  intros Hs. unfold exported_accounts. rewrite <- list_fmap_compose.
  etrans; [|apply (section_rewrite OwnerKeyPrefix), prefix_section; [exact Hs|set_solver]]. done.
Qed.

(** *** Binding ports *)
Definition marker : string := String "001" "".

Lemma PortKeeper_BindPort_ica p : keeps ica (PortKeeper.BindPort p).
Proof.
  unfold PortKeeper.BindPort, PortKeeper.IsBound. repeat (apply keeps_bind; [|intros ?]); [by apply must_keeps|done|].
  case_match; [done|]. apply must_keeps, keeps_on_caps_ica.
Qed.

Lemma controller_init_port_Ok p w w' :
  icacontroller.init_port p w = (w', Ok tt) →
  ica w' = ica w ∨ ica w' = set_controller_store (<[KeyPort p := marker]> (controller_store (ica w))) (ica w).
Proof.
  unfold icacontroller.init_port, icacontroller.IsBound, icacontroller.BindPort, icacontroller.ClaimCapability.
  intros H. apply bind_Ok in H as (b & s & Hb & H). apply gets_Ok in Hb as [_ <-].
  destruct b; [apply ret_Ok in H as [_ <-]; by left|]. right. simpl in H. go_inv.
  rewrite controller_store_set in *. simplify_eq.
  match goal with H : PortKeeper.BindPort _ _ = _ |- _ => apply (keeps_run ica) in H; [|apply PortKeeper_BindPort_ica] end.
  match goal with H : must _ _ = _ |- _ => apply (keeps_run ica) in H; [|apply must_keeps, keeps_on_caps_ica] end.
  etrans; [eassumption|]. etrans; [eassumption|]. by rewrite ica_set_ica.
Qed.

Lemma controller_init_ports_Ok ports w w' :
  for_all icacontroller.init_port ports w = (w', Ok tt) →
  controller_params (ica w') = controller_params (ica w) ∧
  (∀ k, HasPrefix k PortKeyPrefix = false → controller_store (ica w') !! k = controller_store (ica w) !! k) ∧
  ∀ k v, controller_store (ica w') !! k = Some v → controller_store (ica w) !! k = Some v ∨
    ∃ p, p ∈ ports ∧ k = KeyPort p ∧ v = marker.
Proof.
  revert w. induction ports as [|p ports IH]; intros w.
  { intros [_ <-]%ret_Ok. auto. }
  rewrite for_all_cons. intros ([] & w1 & H1 & H)%bind_Ok. destruct (IH _ H) as (Hp & Hk & Hs). clear IH H.
  apply controller_init_port_Ok in H1 as [E|E]; rewrite E in *; simpl in *.
  - split_and!; [done..|]. intros k v Hv. destruct (Hs _ _ Hv) as [?|(q & ? & ?)]; [by left|].
    right. exists q. split; [by right|done].
  - split_and!; [done| |].
    + intros k Hpre. rewrite Hk by done. apply lookup_insert_ne. by intros <-.
    + intros k v Hv. destruct (Hs _ _ Hv) as [Hi|(q & ? & ?)].
      * apply lookup_insert_Some in Hi as [[<- <-]|[_ Hi]]; [|by left]. right. exists p. split; [by left|done].
      * right. exists q. split; [by right|done].
Qed.

(** The capabilities of the ports are already there, restored by the capability module. *)
Definition ports_bound (ports : list string) (w : World) : Prop :=
  ∀ p, p ∈ ports → is_Some (cap_GetCapability (caps w) controllertypes.SubModuleName (PortPath p)).

Lemma controller_init_ports_bound ports w :
  ports_bound ports w → for_all icacontroller.init_port ports w = (w, Ok tt).
Proof.
  induction ports as [|p ports IH]; intros Hb; [done|]. rewrite for_all_cons. unfold bind at 1.
  unfold icacontroller.init_port at 1, icacontroller.IsBound. unfold bind at 1, gets.
  rewrite bool_decide_eq_true_2 by (apply Hb; by left). apply IH. intros q Hq. apply Hb. by right.
Qed.

(** The rest of the controller's initialisation. *)
Lemma controller_init_after g w w1 :
  for_all icacontroller.init_port (cg_Ports g) w = (w1, Ok tt) →
  icacontroller.InitGenesis g w =
  (set_ica (set_controller_params (cg_Params g)
     (set_controller_store
        (put_all ((λ acc, (KeyOwnerAccount (ra_PortId acc), ra_AccountAddress acc)) <$> cg_InterchainAccounts g)
           (put_all ((λ ch, (KeyActiveChannel (ac_PortId ch), ac_ChannelId ch)) <$> cg_ActiveChannels g)
              (controller_store (ica w1)))) (ica w1))) w1, Ok tt).
Proof.
  intros E0. unfold icacontroller.InitGenesis. rewrite (bind_run _ _ _ _ _ E0).
  pose proof (controller_sets ((λ ch, (KeyActiveChannel (ac_PortId ch), ac_ChannelId ch)) <$> cg_ActiveChannels g) w1) as E1.
  rewrite for_all_fmap in E1. rewrite (bind_run _ _ _ _ _ E1).
  match goal with |- bind _ _ ?w2 = _ =>
    pose proof (controller_sets ((λ acc, (KeyOwnerAccount (ra_PortId acc), ra_AccountAddress acc)) <$> cg_InterchainAccounts g) w2) as E2 end.
  rewrite for_all_fmap in E2. rewrite (bind_run _ _ _ _ _ E2).
  unfold icacontroller.SetParams, on_ica, zoom, modify. by rewrite !ica_set_ica, !set_ica_twice.
Qed.

(** The store of the controller after importing what was exported from the store [s]. *)
Lemma controller_import s ps w0 w1 :
  ica_store_wf s → controller_store (ica w0) = ∅ →
  icacontroller.InitGenesis (mkControllerGenesis (exported_channels s) (exported_accounts s) (exported_ports s) ps) w0
    = (w1, Ok tt) →
  controller_params (ica w1) = ps ∧ controller_store (ica w1) ⊆ s ∧
  below ActiveChannelKeyPrefix (controller_store (ica w1)) = below ActiveChannelKeyPrefix s ∧
  below OwnerKeyPrefix (controller_store (ica w1)) = below OwnerKeyPrefix s.
Proof.
  intros Hs H0 E. pose proof E as Eb. apply bind_Ok in Eb as ([] & w2 & E2 & _).
  erewrite controller_init_after in E by exact E2. simplify_eq. cbn [cg_InterchainAccounts cg_ActiveChannels cg_Params].
  rewrite ica_set_ica, channel_entries, account_entries by done. cbn [controller_params controller_store set_controller_params set_controller_store].
  fold (restored s (controller_store (ica w2))).
  apply controller_init_ports_Ok in E2 as (_ & Hk & Hp). rewrite H0 in Hk, Hp.
  assert (∀ k pre, pre ∈ [ActiveChannelKeyPrefix; OwnerKeyPrefix] → HasPrefix k pre = true →
    controller_store (ica w2) !! k = None) as Hnone.
  { intros k pre Hpre Hh. destruct (controller_store (ica w2) !! k) eqn:E; [|done]. exfalso.
    apply Hp in E as [?|(p & _ & -> & _)]; [by simplify_map_eq|].
    rewrite !elem_of_cons, elem_of_nil in Hpre. by destruct Hpre as [->|[->|[]]]. }
  assert (∀ k pre, pre ∈ [ActiveChannelKeyPrefix; OwnerKeyPrefix] → HasPrefix k pre = true →
    restored s (controller_store (ica w2)) !! k = s !! k) as Hsec.
  { intros k pre Hpre Hh. rewrite restored_lookup, (Hnone k pre) by done.
    rewrite !elem_of_cons, elem_of_nil in Hpre. destruct Hpre as [->|[->|[]]]; rewrite Hh, ?orb_true_r; by destruct (s !! k). }
  split_and!; [done| |..].
  - apply map_subseteq_spec. intros k v Hv.
    destruct (HasPrefix k OwnerKeyPrefix) eqn:Ho; [by rewrite (Hsec k OwnerKeyPrefix) in Hv by (done || set_solver)|].
    destruct (HasPrefix k ActiveChannelKeyPrefix) eqn:Ha;
      [by rewrite (Hsec k ActiveChannelKeyPrefix) in Hv by (done || set_solver)|].
    rewrite restored_lookup, Ho, Ha in Hv. simpl in Hv.
    apply Hp in Hv as [?|(p & Hin & -> & ->)]; [by simplify_map_eq|].
    unfold exported_ports in Hin. apply list_elem_of_fmap in Hin as ([k v] & -> & Hin). clear Ho Ha.
    pose proof (prefix_section s PortKeyPrefix Hs ltac:(set_solver)) as Hps. rewrite list.Forall_forall in Hps.
    destruct (Hps _ Hin) as (port & Ek & _). simpl in *. subst k. rewrite port_of_section.
    apply list_elem_of_filter in Hin as [_ Hin%elem_of_entries].
    destruct (Hs _ _ Hin) as (pre & port' & Hpre & _ & Ek & Hv).
    rewrite !elem_of_cons, elem_of_nil in Hpre. destruct Hpre as [->|[->|[->|[]]]]; [done..|].
    specialize (Hv eq_refl). subst v. exact Hin.
  - apply map_eq. intros k. rewrite !below_lookup. destruct (HasPrefix k ActiveChannelKeyPrefix) eqn:E; [|done].
    eapply Hsec; [|done]. set_solver.
  - apply map_eq. intros k. rewrite !below_lookup. destruct (HasPrefix k OwnerKeyPrefix) eqn:E; [|done].
    eapply Hsec; [|done]. set_solver.
Qed.

(** *** The host *)
Lemma host_import s ps w0 w1 :
  ica_store_wf s → host_store (ica w0) = ∅ →
  icahost.InitGenesis (mkHostGenesis (exported_channels s) (exported_accounts s) PortID ps) w0 = (w1, Ok tt) →
  host_params (ica w1) = ps ∧ ica_store_wf (host_store (ica w1)) ∧
  below ActiveChannelKeyPrefix (host_store (ica w1)) = below ActiveChannelKeyPrefix s ∧
  below OwnerKeyPrefix (host_store (ica w1)) = below OwnerKeyPrefix s.
Proof.
  intros Hs H0 E. unfold icahost.InitGenesis in E. cbn [hg_Port hg_ActiveChannels hg_InterchainAccounts hg_Params] in E.
  apply bind_Ok in E as (b & w2 & Eb & E). apply gets_Ok in Eb as [_ <-].
  apply bind_Ok in E as ([] & w2 & E2 & E).
  assert (Hstore : host_store (ica w2) = ∅ ∨ host_store (ica w2) = {[KeyPort PortID := marker]}).
  { destruct b; [apply ret_Ok in E2 as [_ <-]; by left|]. right. unfold icahost.BindPort, icahost.ClaimCapability in E2.
    simpl in E2. go_inv. rewrite host_store_set_Ok in *. simplify_eq.
    match goal with H : PortKeeper.BindPort _ _ = _ |- _ => apply (keeps_run ica) in H; [|apply PortKeeper_BindPort_ica] end.
    match goal with H : must _ _ = _ |- _ => apply (keeps_run ica) in H; [|apply must_keeps, keeps_on_caps_ica] end.
    etrans; [apply (f_equal host_store); eassumption|]. etrans; [apply (f_equal host_store); eassumption|].
    rewrite ica_set_ica. simpl. by rewrite H0. }
  pose proof (host_sets ((λ ch, (KeyActiveChannel (ac_PortId ch), ac_ChannelId ch)) <$> exported_channels s) w2) as E3.
  rewrite for_all_fmap in E3. rewrite (bind_run _ _ _ _ _ E3) in E.
  match type of E with bind _ _ ?w3 = _ =>
    pose proof (host_sets ((λ acc, (KeyOwnerAccount (ra_PortId acc), ra_AccountAddress acc)) <$> exported_accounts s) w3) as E4 end.
  rewrite for_all_fmap in E4. rewrite (bind_run _ _ _ _ _ E4) in E.
  unfold icahost.SetParams in E. apply bind_Ok in E as ([] & w5 & E5 & E). apply must_Ok, lift_Ok in E5 as [_ <-].
  unfold on_ica, zoom, modify in E. simplify_eq. rewrite !ica_set_ica.
  rewrite channel_entries, account_entries by done. cbn [host_params host_store set_host_params set_host_store].
  fold (restored s (host_store (ica w2))). split; [done|].
  assert (∀ k v, host_store (ica w2) !! k = Some v → k = KeyPort PortID ∧ v = marker) as Hp.
  { intros k v Hk. destruct Hstore as [E|E]; rewrite E in Hk; [by simplify_map_eq|].
    by apply lookup_singleton_Some in Hk as [<- <-]. }
  assert (∀ k, HasPrefix k OwnerKeyPrefix || HasPrefix k ActiveChannelKeyPrefix = true →
    restored s (host_store (ica w2)) !! k = s !! k) as Hsec.
  { intros k Hh. rewrite restored_lookup, Hh. destruct (s !! k); [done|].
    destruct (host_store (ica w2) !! k) eqn:E; [|done]. by apply Hp in E as [-> _]. }
  split_and!.
  - intros k v Hv. rewrite restored_lookup in Hv.
    destruct (HasPrefix k OwnerKeyPrefix || HasPrefix k ActiveChannelKeyPrefix); [destruct (s !! k) eqn:Hsk; simplify_eq; [by apply Hs|]|];
      apply Hp in Hv as [-> ->]; (exists PortKeyPrefix, PortID; split_and!; [set_solver|done..]).
  - apply map_eq. intros k. rewrite !below_lookup. destruct (HasPrefix k ActiveChannelKeyPrefix) eqn:E; [|done].
    apply Hsec. by rewrite E, orb_true_r.
  - apply map_eq. intros k. rewrite !below_lookup. destruct (HasPrefix k OwnerKeyPrefix) eqn:E; [|done].
    apply Hsec. by rewrite E.
Qed.

Lemma exported_below s s' :
  below ActiveChannelKeyPrefix s = below ActiveChannelKeyPrefix s' → below OwnerKeyPrefix s = below OwnerKeyPrefix s' →
  exported_channels s = exported_channels s' ∧ exported_accounts s = exported_accounts s'.
Proof.
  intros Ha Ho. unfold exported_channels, exported_accounts. by rewrite (PrefixIterator_below _ _ _ Ha), (PrefixIterator_below _ _ _ Ho).
Qed.

(** C23: Exporting a chain and starting another one from the result preserves the interchain
    accounts: exporting the new chain gives the same active channels, registered accounts
    and parameters, for the controller and for the host.  The controller's list of ports
    does not survive when the capability module has already restored the capabilities of
    the ports: then the import succeeds, and the next export lists no port. *)
Theorem ica_genesis_roundtrip w :
  ica_store_wf (controller_store (ica w)) → ica_store_wf (host_store (ica w)) →
  ∃ gc gh, icacontroller.ExportGenesis w = (w, Ok gc) ∧ icahost.ExportGenesis w = (w, Ok gh) ∧
    (∀ w0 w1, controller_store (ica w0) = ∅ → icacontroller.InitGenesis gc w0 = (w1, Ok tt) →
       ∃ g, icacontroller.ExportGenesis w1 = (w1, Ok g) ∧ cg_ActiveChannels g = cg_ActiveChannels gc ∧
         cg_InterchainAccounts g = cg_InterchainAccounts gc ∧ cg_Params g = cg_Params gc) ∧
    (∀ w0 w1, host_store (ica w0) = ∅ → icahost.InitGenesis gh w0 = (w1, Ok tt) →
       icahost.ExportGenesis w1 = (w1, Ok gh)) ∧
    (∀ w0, controller_store (ica w0) = ∅ → ports_bound (cg_Ports gc) w0 →
       ∃ w1 g, icacontroller.InitGenesis gc w0 = (w1, Ok tt) ∧ icacontroller.ExportGenesis w1 = (w1, Ok g) ∧ cg_Ports g = []).
Proof.
  intros Hc Hh. eexists _, _. split; [by apply controller_export|]. split; [by apply host_export|]. split_and!.
  - intros w0 w1 H0 E. destruct (controller_import _ _ _ _ Hc H0 E) as (Hp & Hsub & Ha & Ho).
    eexists. split; [apply controller_export; by eapply ica_store_wf_subset|].
    destruct (exported_below _ _ Ha Ho). by cbn.
  - intros w0 w1 H0 E. destruct (host_import _ _ _ _ Hh H0 E) as (Hp & Hwf & Ha & Ho).
    rewrite host_export by done. destruct (exported_below _ _ Ha Ho) as [-> ->]. by rewrite Hp.
  - intros w0 H0 Hb. eexists _, _. split; [by apply controller_init_after, controller_init_ports_bound|].
    pose proof (controller_init_after (mkControllerGenesis (exported_channels (controller_store (ica w)))
      (exported_accounts (controller_store (ica w))) (exported_ports (controller_store (ica w)))
      (controller_params (ica w))) w0 w0 (controller_init_ports_bound _ _ Hb)) as E.
    pose proof (controller_import _ _ _ _ Hc H0 E) as (_ & Hsub & _).
    split; [by apply controller_export; eapply ica_store_wf_subset|]. cbn [cg_Ports].
    unfold exported_ports. rewrite PrefixIterator_nil; [done|]. apply map_eq. intros k. rewrite below_lookup, lookup_empty.
    destruct (HasPrefix k PortKeyPrefix) eqn:Hk; [|done]. cbn [cg_InterchainAccounts cg_ActiveChannels cg_Params].
    rewrite ica_set_ica, channel_entries, account_entries by done.
    cbn [controller_store set_controller_params set_controller_store].
    fold (restored (controller_store (ica w)) (controller_store (ica w0))). rewrite restored_lookup, H0.
    rewrite !(prefix_exclusive k PortKeyPrefix) by (done || set_solver). apply lookup_empty.
Qed.
End genesis.
