(* ===== verification/IcaWitness.v ===== *)
(** * Interchain accounts on a concrete pair of chains

    A toy account module, message type and codec, which meet the laws of [AccountKeeper],
    [SdkMsg] and [IcaCodec], and the runs on which the theorems about interchain accounts
    are instantiated: alice, on chain A, registers an account on chain B and sends a
    transaction to it. *)
From S2P Require Import Prelude GoMonad Errors Sha256 Height Host Sdk ConnectionTypes.
From S2P Require Import ChannelTypes Exported ClientKeeper ConnectionKeeper PortKeeper.
From S2P Require Import ChannelKeeper ChannelHandshake ClientTypes Router MsgServer Iteration.
From S2P Require Import IcaTypes.
From S2P Require Import Messages IcaKeeper ChannelSpec MsgServerProperties IcaProperties.
From S2P Require Import IcaGenesis FullNode Scenario.
From Stdlib Require Import Ascii.
Import icatypes icacodec.

Module ToyIca.
Import ToyInstances Scenario.
#[export] Existing Instance MsgWitness.toy_bech32.

(** Accounts by address; account numbers are not assigned. *)
Definition toy_accounts : AccountKeeper.
Proof.
  refine {| AccState := gmap string AccountI; acc_GetAccount := λ s a, s !! a;
    acc_NewAccount := λ ia s, (s, Ok ia);
    acc_SetAccount := λ ia s, (<[Address (BaseAccount_of ia) := Interchain ia]> s, Ok tt);
    acc_GetModuleAddress := λ m, m;
    address_Derive := λ a k, hex_EncodeToString (sha256_Sum256 (a +:+ "/" +:+ k));
    BaseAccount_Validate := λ _, Ok tt |}.
  - by intros ia s s' ia' [= <- <-].
  - intros ia s s' u a [= <- <-] [= <-]. split; [by rewrite lookup_insert_eq|]. intros b Hb. by rewrite lookup_insert_ne.
Defined.
#[export] Existing Instance toy_accounts.

(** A message has a type, a signer and a target; without a signer [GetSigners] panics. *)
Record toy_msg := mkToyMsg { toy_url : string; toy_signer : string; toy_target : string }.
Definition toy_sdk_msg : SdkMsg.
Proof.
  refine {| sdkMsg := toy_msg; MsgTypeURL := toy_url;
    msg_ValidateBasic := λ m, if bool_decide (toy_target m = "") then Err (External "empty target") else Ok tt;
    msg_GetSigners := λ m, if bool_decide (toy_signer m = "") then Panic else Ok [toy_signer m];
    Any := string; NewAnyWithValue := λ m, Ok (pack [toy_url m; toy_signer m; toy_target m]);
    UnpackAny := λ s, match unpack s with [u; g; t] => Ok (mkToyMsg u g t) | _ => Err (External "unpack") end;
    Marshal_CosmosTx := λ l, Ok (pack l); Unmarshal_CosmosTx := λ s, Ok (unpack s); registered := λ _, True |}.
  - intros [] a _ [= <-]. by rewrite unpack_pack.
  - intros l bz [= <-]. by rewrite unpack_pack.
Defined.
#[export] Existing Instance toy_sdk_msg.

Definition toy_ica_codec : IcaCodec.
Proof.
  refine {| ica_ack_codec := toy_ack_codec;
    PacketData_GetBytes := λ d,
      pack [if bool_decide (data_Type d = EXECUTE_TX) then "1" else "0"; default "" (data_Data d); data_Memo d];
    PacketData_UnmarshalJSON := λ s,
      match unpack s with
      | [t; d; m] => Some (mkPacketData (if bool_decide (t = "1") then EXECUTE_TX else UNSPECIFIED) (Some d) m)
      | _ => None
      end;
    pretty_MarshalJSON := λ p,
      if bool_decide (pretty_AccountNumber p < two64)%N && bool_decide (pretty_Sequence p < two64)%N
      then Ok (pack [pretty_Address p; fmt_u64 (pretty_AccountNumber p); fmt_u64 (pretty_Sequence p); pretty_AccountOwner p])
      else Err (External "json");
    pretty_UnmarshalJSON := λ s,
      match unpack s with
      | [a; n; q; o] =>
          match ParseUint n, ParseUint q with Some n, Some q => Ok (mkPretty a n q o) | _, _ => Err (External "json") end
      | _ => Err (External "json")
      end;
    json_data := λ d, data_Type d = EXECUTE_TX ∧ data_Data d ≠ None |}.
  - intros [t d m] [Ht Hd]. simpl in *. subst t. rewrite unpack_pack. destruct d; done.
  - intros [a n q o] bz. simpl. repeat case_bool_decide; simpl; try done. intros [= <-].
    by rewrite unpack_pack, !ParseUint_fmt.
Defined.
#[export] Existing Instance toy_ica_codec.

(** The application state is that of the two submodules. *)
Definition ica_only : Application := {| AppState := IcaState |}.
#[export] Existing Instance ica_only | 0.
Definition toy_ica_app : @IcaApp _ _ ica_only :=
  @Build_IcaApp _ _ ica_only (λ s, s) (λ s _, s) (λ _ _, eq_refl) (λ _, eq_refl) (λ _ _ _, eq_refl).
#[export] Existing Instance toy_ica_app.

(** The only handler creates an account for the target of a message. *)
Definition toy_handler (m : sdkMsg) : option (Context → @M toy_caps ica_only (list Event)) :=
  if bool_decide (MsgTypeURL m = "/toy.Create") then
    Some (λ _, on_accounts (λ s, (<[toy_target m := OtherAccount]> s, Ok tt)) ;;;
               ret [NewEvent "create" [("target", toy_target m)]])
  else None.

Definition cap1 : @Capability toy_caps := 1%N.

(** Alice's port: connection 0 of chain A, connection 5 of chain B. *)
Definition port : string := "ics27-1.0.5.alice".
Definition ica_chain (s : KVStore) (c : ToyCaps) (a : IcaState) : @World toy_caps ica_only :=
  @mkWorld toy_caps ica_only s c a ["full-node"] 30 [].

Definition hostChannel : Channel :=
  NewChannel TRYOPEN ORDERED (NewCounterparty port "channel-0") ["connection-5"] "ics27-1".
Definition host_state (a : gmap string AccountI) : IcaState :=
  mkIcaState a ∅ controllertypes.DefaultParams ∅ (hosttypes.NewParams true ["/toy.Create"]).
Definition host0 (a : gmap string AccountI) : @World toy_caps ica_only :=
  ica_chain (chain_store "connection-5" "connection-0" "channel-1" hostChannel (NewHeight 1 20) 1000 ∅)
    (<[PortPath PortID := (0%N, ["ibc"; "icahost"])]> (<[ChannelCapabilityPath PortID "channel-1" := (1%N, ["ibc"])]> ∅))
    (host_state a).
Definition tried (w : @World toy_caps ica_only) : @World toy_caps ica_only * outcome string :=
  icahost.im_OnChanOpenTry ctxB ORDERED ["connection-5"] PortID "channel-1" cap1 (NewCounterparty port "channel-0")
    VersionPrefix w.
Definition host1 : @World toy_caps ica_only := (tried (host0 ∅)).1.

Definition alice_account : string := account_address port.
Definition version : string := NewAppVersion VersionPrefix alice_account.

Lemma tried_run : tried (host0 ∅) = (host1, Ok version).
Proof. unfold host1. apply run_pair. vm_compute. reflexivity. Qed.
Lemma taken_run :
  tried (host0 {[alice_account := OtherAccount]}) = ((tried (host0 {[alice_account := OtherAccount]})).1, Ok version).
Proof. apply run_pair. vm_compute. reflexivity. Qed.
End ToyIca.

Module IcaWitness.
Import ToyInstances Scenario ToyIca.

(** Alice's transaction: two messages signed by her account. *)
Definition create (t : string) : sdkMsg := mkToyMsg "/toy.Create" alice_account t.
Definition tx : list sdkMsg := [create "bob"; create "carol"].
Definition tx_bytes : string := match SerializeCosmosTx tx with Ok bz => bz | _ => "" end.
Definition tx_data : InterchainAccountPacketData := mkPacketData EXECUTE_TX (Some tx_bytes) "".
Definition tx_packet (d : InterchainAccountPacketData) : Packet :=
  NewPacket (PacketData_GetBytes d) 1 port "channel-0" PortID "channel-1" ZeroHeight 9223372036854775807.

Definition received : @World toy_caps ica_only * outcome (option AckI) :=
  icahost.im_OnRecvPacket toy_handler ctxB (tx_packet tx_data) "relayer" host1.
Definition host2 : @World toy_caps ica_only := received.1.
Definition success : AckI := ack_bytes (NewResultAcknowledgement (String "001" "")).
Lemma tx_received_run : received = (host2, Ok (Some success)).
Proof. unfold host2. apply run_pair. vm_compute. reflexivity. Qed.

Lemma host_receive_spec_witness : ∃ a msgs, executed toy_handler ctxB (tx_packet tx_data) a msgs host1 host2.
Proof.
  pose proof (host_receive_spec toy_handler ctxB (tx_packet tx_data) "relayer" host1 host2 (Ok (Some success)) tx_received_run) as H.
  exact (proj2 H).
Defined.

Lemma toy_handlers_safe : handlers_safe toy_handler.
Proof.
  intros m h ctx. unfold toy_handler. case_bool_decide; [|done]. intros [= <-].
  apply host_safe_keeps. apply keeps_bind; [apply on_accounts_host|done].
Qed.

Lemma interchain_account_authority_witness :
  ∃ msgs, executed toy_handler ctxB (tx_packet tx_data) alice_account msgs host1 host2 ∧
    Forall (authorised alice_account (allowed host1)) msgs.
Proof.
  apply (interchain_account_authority toy_handler ctxB (tx_packet tx_data) "relayer" (host0 ∅) host1 host2 success).
  - exact toy_handlers_safe.
  - intros p a Ha. discriminate Ha.
  - apply rtc_once. apply (host_try toy_handler ctxB ORDERED ["connection-5"] PortID "channel-1" cap1
      (NewCounterparty port "channel-0") VersionPrefix (host0 ∅) host1 version). exact tried_run.
  - exact tx_received_run.
  - reflexivity.
Defined.

(** Chain A, with the channel that alice's handshake opened. *)
Definition controller_channel : Channel :=
  NewChannel OPEN ORDERED (NewCounterparty PortID "channel-1") ["connection-0"] "ics27-1".
Definition controller_ibc : KVStore :=
  list_to_map [
    (FullClientStateKey clientID, enc (mkFNClient (NewHeight 1 10) false));
    (FullConsensusStateKey clientID (NewHeight 1 10), enc (mkFNConsensus 900 ∅));
    (ConnectionKey "connection-0", enc (connection "connection-5"));
    (ChannelKey port "channel-0", enc controller_channel);
    (NextSequenceSendKey port "channel-0", be 1)].
Definition controller0 (s : KVStore) : @World toy_caps ica_only :=
  ica_chain controller_ibc (<[ChannelCapabilityPath port "channel-0" := (1%N, ["ibc"; "auth"])]> ∅)
    (mkIcaState (∅ : gmap string AccountI) s controllertypes.DefaultParams ∅ hosttypes.DefaultParams).
Definition controller1 : @World toy_caps ica_only := controller0 {[KeyActiveChannel port := "channel-0"]}.
Definition controller2 : @World toy_caps ica_only := (icacontroller.TrySendTx ctxA cap1 port tx_data controller1).1.
Lemma sent_tx_run : icacontroller.TrySendTx ctxA cap1 port tx_data controller1 = (controller2, Ok 1%N).
Proof. unfold controller2. apply run_pair. vm_compute. reflexivity. Qed.

Lemma interchain_tx_delivery_witness :
  ∃ pkt, commitment_at controller2 port "channel-0" 1 = Some (CommitPacket pkt) ∧ packet_tx pkt = Some tx.
Proof.
  destruct (interchain_tx_delivery ctxA cap1 port tx tx_bytes "" controller1 controller2 1)
    as (c & ch & pkt & Hc & _ & _ & _ & _ & _ & _ & _ & Hcm & _ & _ & Htx).
  - reflexivity.
  - repeat constructor.
  - split; done.
  - exact sent_tx_run.
  - exists pkt. split; [|exact Htx]. vm_compute in Hc. injection Hc as <-. exact Hcm.
Defined.

(** Alice's handshake on chain A, over an authentication module that does nothing. *)
Definition auth : @IBCModule toy_caps ica_only :=
  mkIBCModule (λ _ _ _ _ _ _ _ _, ret tt) (λ _ _ _ _ _ _ _ _, ret "") (λ _ _ _ _, ret tt)
    (λ _ _ _, ret tt) (λ _ _ _, ret tt) (λ _ _ _, ret tt) (λ _ _ _, ret None) (λ _ _ _ _, ret tt) (λ _ _ _, ret tt).
Definition acked_controller : @World toy_caps ica_only :=
  (icacontroller.im_OnChanOpenAck auth ctxA port "channel-0" version (controller0 ∅)).1.

Lemma registration_agreement_witness :
  owner_account acked_controller port = Some alice_account ∧ account_of host1 port = owner_account acked_controller port.
Proof.
  destruct (registration_agreement ctxB ORDERED ["connection-5"] PortID "channel-1" cap1 (NewCounterparty port "channel-0")
    VersionPrefix (host0 ∅) host1 version ctxA "channel-0" auth (controller0 ∅) acked_controller) as (Ho & _ & Ha).
  - exact tried_run.
  - unfold acked_controller. apply run_pair. vm_compute. reflexivity.
  - done.
  - split; [exact Ho|]. apply Ha. vm_compute. reflexivity.
Defined.

(** Somebody has created an account at alice's address before her handshake. *)
Definition taken : @World toy_caps ica_only := (tried (host0 {[alice_account := OtherAccount]})).1.
Definition refused : @World toy_caps ica_only * outcome (option AckI) :=
  icahost.im_OnRecvPacket toy_handler ctxB (tx_packet tx_data) "relayer" taken.
Definition failure : AckI := ack_bytes (NewErrorAcknowledgement "error").

Lemma existing_account_blocks_witness : refused.2 = Ok (Some failure) ∧ refused.1 = taken.
Proof.
  assert (E : refused = (refused.1, Ok (Some failure))) by (apply run_pair; vm_compute; reflexivity).
  split; [by rewrite E|].
  destruct (existing_account_blocks toy_handler ctxB ORDERED ["connection-5"] PortID "channel-1" cap1
    (NewCounterparty port "channel-0") VersionPrefix (host0 {[alice_account := OtherAccount]}) taken version taken_run) as [_ H].
  - vm_compute. discriminate.
  - vm_compute. reflexivity.
  - apply (H taken ctxB (tx_packet tx_data) "relayer" refused.1 failure); [reflexivity|reflexivity|exact E].
Defined.

(** A transaction with a message that has no signer. *)
Definition bad_data : InterchainAccountPacketData :=
  mkPacketData EXECUTE_TX (match SerializeCosmosTx [mkToyMsg "/toy.Create" "" "bob"] with Ok bz => Some bz | _ => None end) "".
Lemma malformed_signer_panics_witness :
  icahost.im_OnRecvPacket toy_handler ctxB (tx_packet bad_data) "relayer" host1 = (host1, Panic).
Proof.
  apply (malformed_signer_panics toy_handler ctxB (tx_packet bad_data) "relayer" host1 alice_account
    (mkToyMsg "/toy.Create" "" "bob") []).
  - vm_compute. reflexivity.
  - vm_compute. reflexivity.
  - vm_compute. reflexivity.
  - change (allowed host1) with ["/toy.Create"]. by left.
  - reflexivity.
Defined.

Lemma controller_ports_witness : ParseControllerConnSequence port = Ok 0%N ∧ ParseHostConnSequence port = Ok 5%N.
Proof.
  assert (E : GeneratePortID "alice" "connection-0" "connection-5" = Ok port) by (vm_compute; reflexivity).
  destruct (controller_ports "alice" "connection-0" "connection-5" port E) as [_ H]. exact H.
Defined.

Lemma active_store_wf : ica_store_wf {[KeyActiveChannel port := "channel-0"]}.
Proof.
  intros k v [<- <-]%lookup_singleton_Some. exists ActiveChannelKeyPrefix, port. split_and!; [set_solver|done..].
Qed.
Lemma empty_store_wf : ica_store_wf ∅.
Proof. intros k v Hk. by apply lookup_empty_Some in Hk. Qed.

Definition exportedA : ControllerGenesisState :=
  mkControllerGenesis [mkActiveChannel port "channel-0"] [] [] controllertypes.DefaultParams.
(** Chain A exported, and a chain without interchain accounts started from the result. *)
Definition imported (g : ControllerGenesisState) : @World toy_caps ica_only := (icacontroller.InitGenesis g (controller0 ∅)).1.
Lemma ica_genesis_roundtrip_witness :
  ∃ gc g, icacontroller.ExportGenesis controller1 = (controller1, Ok gc) ∧
    icacontroller.ExportGenesis (imported gc) = (imported gc, Ok g) ∧ cg_ActiveChannels g = cg_ActiveChannels gc.
Proof.
  pose proof (ica_genesis_roundtrip controller1) as Hg.
  destruct (Hg active_store_wf empty_store_wf) as (gc & gh & Hc & _ & Hr & _).
  assert (gc = exportedA) as ->.
  { assert ((icacontroller.ExportGenesis controller1).2 = Ok exportedA) as E by (vm_compute; reflexivity).
    rewrite Hc in E. by injection E. }
  assert (Hrun : icacontroller.InitGenesis exportedA (controller0 ∅) = (imported exportedA, Ok tt)).
  { unfold imported. apply run_pair. vm_compute. reflexivity. }
  destruct (Hr (controller0 ∅) (imported exportedA) eq_refl Hrun) as (g & He & Ha & _).
  exists exportedA, g. split; [exact Hc|]. split; [exact He|exact Ha].
Defined.
End IcaWitness.
