(* ===== verification/ChannelGenesis.v ===== *)
(** * Iteration and genesis of the channel submodule

    The iterators and [GetAll...] functions of [04-channel/keeper/keeper.go], the genesis
    types and their validation ([types/genesis.go]), and [InitGenesis] and
    [ExportGenesis] ([genesis.go]).

    An iterator with a callback that never stops is the list of the values it is called
    with; the [GetAll...] functions collect them. *)
From S2P Require Import Prelude GoMonad Errors Sha256 Height Host Sdk ConnectionTypes.
From S2P Require Import ChannelTypes Exported ChannelKeeper Iteration.
From Stdlib Require Import Ascii.

Module channelgenesis.

(** ** Types ([genesis.pb.go], [genesis.go]) *)

(** [Data] is [None] for a nil slice. *)
Record PacketState := mkPacketState {
  ps_PortId : string; ps_ChannelId : string; ps_Sequence : N; ps_Data : option string }.
Record PacketSequence := mkPacketSequence { seq_PortId : string; seq_ChannelId : string; seq_Sequence : N }.
Record GenesisState := mkGenesisState {
  Channels : list IdentifiedChannel;
  Acknowledgements : list PacketState;
  Commitments : list PacketState;
  Receipts : list PacketState;
  SendSequences : list PacketSequence;
  RecvSequences : list PacketSequence;
  AckSequences : list PacketSequence;
  NextChannelSequence : N }.

Definition NewPacketState (portID channelID : string) (seq : N) (data : option string) : PacketState :=
  mkPacketState portID channelID seq data.
Definition NewPacketSequence (portID channelID : string) (seq : N) : PacketSequence :=
  mkPacketSequence portID channelID seq.

(** The receipts are not used. *)
Definition NewGenesisState (channels : list IdentifiedChannel) (acks receipts commitments : list PacketState)
    (sendSeqs recvSeqs ackSeqs : list PacketSequence) (nextChannelSequence : N) : GenesisState :=
  mkGenesisState channels acks commitments [] sendSeqs recvSeqs ackSeqs nextChannelSequence.
Definition DefaultGenesisState : GenesisState := mkGenesisState [] [] [] [] [] [] [] 0.

(** [errors.New]; [fmt.Errorf] with %w wraps its argument. *)
Definition errors_New : error := External "errors.New".

Definition validateGenFields (portID channelID : string) (sequence : N) : outcome unit :=
  outcome_wrap (PortIdentifierValidator portID) ;;?
  outcome_wrap (ChannelIdentifierValidator channelID) ;;?
  fail_if (sequence =? 0)%N errors_New.

Definition PacketState_Validate (pa : PacketState) : outcome unit :=
  fail_if (is_nil (ps_Data pa)) errors_New ;;?
  validateGenFields (ps_PortId pa) (ps_ChannelId pa) (ps_Sequence pa).
Definition PacketSequence_Validate (ps : PacketSequence) : outcome unit :=
  validateGenFields (seq_PortId ps) (seq_ChannelId ps) (seq_Sequence ps).

(** The loop over the channels returns the greatest sequence of an identifier. *)
Fixpoint validate_channels (l : list IdentifiedChannel) (maxSequence : N) : outcome N :=
  match l with
  | [] => Ok maxSequence
  | channel :: l =>
      let? sequence := ParseChannelSequence (IC_ChannelId channel) in
      let maxSequence := if (maxSequence <? sequence)%N then sequence else maxSequence in
      outcome_wrap (IdentifiedChannel_ValidateBasic channel) ;;?
      validate_channels l maxSequence
  end.
(** The loops over acknowledgements and commitments, whose data must not be empty, and over
    receipts. *)
Fixpoint validate_hashes (l : list PacketState) : outcome unit :=
  match l with
  | [] => Ok tt
  | pa :: l =>
      outcome_wrap (PacketState_Validate pa) ;;?
      fail_if (bool_decide (String.length (default "" (ps_Data pa)) = 0)) fmt_Errorf ;;?
      validate_hashes l
  end.
Fixpoint validate_receipts (l : list PacketState) : outcome unit :=
  match l with
  | [] => Ok tt
  | pa :: l => outcome_wrap (PacketState_Validate pa) ;;? validate_receipts l
  end.
Fixpoint validate_sequences (l : list PacketSequence) : outcome unit :=
  match l with
  | [] => Ok tt
  | ps :: l => outcome_wrap (PacketSequence_Validate ps) ;;? validate_sequences l
  end.

Definition GenesisState_Validate (gs : GenesisState) : outcome unit :=
  let? maxSequence := validate_channels (Channels gs) 0 in
  fail_if (negb (maxSequence =? 0)%N && (NextChannelSequence gs <=? maxSequence)%N) fmt_Errorf ;;?
  validate_hashes (Acknowledgements gs) ;;?
  validate_receipts (Receipts gs) ;;?
  validate_hashes (Commitments gs) ;;?
  validate_sequences (SendSequences gs) ;;?
  validate_sequences (RecvSequences gs) ;;?
  validate_sequences (AckSequences gs).

Section keeper.
Context {SE : SdkEncoding} {LC : LightClient} {CD : Codec} {CK : CapabilityKeeper} {AP : Application}.

(** ** Iterators ([keeper.go]) *)

(** [sdk.KVStorePrefixIterator(ctx.KVStore(k.storeKey), prefix)] *)
Definition store_iterator (prefix : string) : M (list (string * string)) := gets (λ w, PrefixIterator (ibc w) prefix).

(** The iteration ends at the first key that is not a channel path. *)
Fixpoint IteratePacketSequence (iterator : list (string * string)) : list (string * string * N) :=
  match iterator with
  | [] => []
  | (key, value) :: iterator =>
      match ParseChannelPath key with
      | Ok (portID, channelID) => (portID, channelID, BigEndianToUint64 value) :: IteratePacketSequence iterator
      | _ => []
      end
  end.
Definition packet_sequence (x : string * string * N) : PacketSequence :=
  let '(portID, channelID, seq) := x in NewPacketSequence portID channelID seq.

Definition GetAllPacketSendSeqs : M (list PacketSequence) :=
  let! iterator := store_iterator KeyNextSeqSendPrefix in ret (packet_sequence <$> IteratePacketSequence iterator).
Definition GetAllPacketRecvSeqs : M (list PacketSequence) :=
  let! iterator := store_iterator KeyNextSeqRecvPrefix in ret (packet_sequence <$> IteratePacketSequence iterator).
Definition GetAllPacketAckSeqs : M (list PacketSequence) :=
  let! iterator := store_iterator KeyNextSeqAckPrefix in ret (packet_sequence <$> IteratePacketSequence iterator).

(** The parts of a key; an index out of range or a malformed number panics. *)
Definition parse_hash_key (key : string) : outcome (string * string * N) :=
  let keySplit := Split key "/" in
  let? portID := must_some (keySplit !! 2) in
  let? channelID := must_some (keySplit !! 4) in
  let? sequence := (match list.last keySplit with Some s => must_some (ParseUint s) | None => Panic end) in
  Ok (portID, channelID, sequence).
Fixpoint iterateHashes (iterator : list (string * string)) : outcome (list (string * string * N * string)) :=
  match iterator with
  | [] => Ok []
  | (key, value) :: iterator =>
      let? ids := parse_hash_key key in
      let? rest := iterateHashes iterator in
      Ok ((ids, value) :: rest)
  end.
Definition packet_state (x : string * string * N * string) : PacketState :=
  let '(portID, channelID, sequence, hash) := x in NewPacketState portID channelID sequence (Some hash).

Definition IteratePacketCommitment : M (list (string * string * N * string)) :=
  let! iterator := store_iterator KeyPacketCommitmentPrefix in lift (iterateHashes iterator).
Definition GetAllPacketCommitments : M (list PacketState) :=
  let! l := IteratePacketCommitment in ret (packet_state <$> l).

Definition IteratePacketCommitmentAtChannel (portID channelID : string) : M (list (string * string * N * string)) :=
  let! iterator := store_iterator (PacketCommitmentPrefixPath portID channelID) in lift (iterateHashes iterator).
(** The identifiers are those of the call. *)
Definition GetAllPacketCommitmentsAtChannel (portID channelID : string) : M (list PacketState) :=
  let! l := IteratePacketCommitmentAtChannel portID channelID in
  ret ((λ x : string * string * N * string,
          let '(_, _, sequence, hash) := x in NewPacketState portID channelID sequence (Some hash)) <$> l).

Definition IteratePacketReceipt : M (list (string * string * N * string)) :=
  let! iterator := store_iterator KeyPacketReceiptPrefix in lift (iterateHashes iterator).
Definition GetAllPacketReceipts : M (list PacketState) :=
  let! l := IteratePacketReceipt in ret (packet_state <$> l).

Definition IteratePacketAcknowledgement : M (list (string * string * N * string)) :=
  let! iterator := store_iterator KeyPacketAckPrefix in lift (iterateHashes iterator).
Definition GetAllPacketAcks : M (list PacketState) :=
  let! l := IteratePacketAcknowledgement in ret (packet_state <$> l).

Fixpoint iterate_channels (iterator : list (string * string)) : outcome (list IdentifiedChannel) :=
  match iterator with
  | [] => Ok []
  | (key, value) :: iterator =>
      let? channel := must_some (Unmarshal_Channel value) in
      let? ' (portID, channelID) := MustParseChannelPath key in
      let? rest := iterate_channels iterator in
      Ok (NewIdentifiedChannel portID channelID channel :: rest)
  end.
Definition IterateChannels : M (list IdentifiedChannel) :=
  let! iterator := store_iterator KeyChannelEndPrefix in lift (iterate_channels iterator).
Definition GetAllChannels : M (list IdentifiedChannel) := IterateChannels.

(** ** Genesis ([genesis.go]).  A store panics on a nil value. *)
Definition InitGenesis (gs : GenesisState) : M unit :=
  for_all (λ channel,
    SetChannel (IC_PortId channel) (IC_ChannelId channel)
      (NewChannel (IC_State channel) (IC_Ordering channel) (IC_Counterparty channel) (IC_ConnectionHops channel)
         (IC_Version channel))) (Channels gs) ;;;
  for_all (λ ack,
    let! data := some_or_panic (ps_Data ack) in
    SetPacketAcknowledgement (ps_PortId ack) (ps_ChannelId ack) (ps_Sequence ack) data) (Acknowledgements gs) ;;;
  for_all (λ commitment,
    let! data := some_or_panic (ps_Data commitment) in
    SetPacketCommitment (ps_PortId commitment) (ps_ChannelId commitment) (ps_Sequence commitment) data) (Commitments gs) ;;;
  for_all (λ receipt, SetPacketReceipt (ps_PortId receipt) (ps_ChannelId receipt) (ps_Sequence receipt)) (Receipts gs) ;;;
  for_all (λ ss, SetNextSequenceSend (seq_PortId ss) (seq_ChannelId ss) (seq_Sequence ss)) (SendSequences gs) ;;;
  for_all (λ rs, SetNextSequenceRecv (seq_PortId rs) (seq_ChannelId rs) (seq_Sequence rs)) (RecvSequences gs) ;;;
  for_all (λ as_, SetNextSequenceAck (seq_PortId as_) (seq_ChannelId as_) (seq_Sequence as_)) (AckSequences gs) ;;;
  SetNextChannelSequence (NextChannelSequence gs).

Definition ExportGenesis : M GenesisState :=
  let! channels := GetAllChannels in
  let! acks := GetAllPacketAcks in
  let! commitments := GetAllPacketCommitments in
  let! receipts := GetAllPacketReceipts in
  let! sends := GetAllPacketSendSeqs in
  let! recvs := GetAllPacketRecvSeqs in
  let! ackSeqs := GetAllPacketAckSeqs in
  let! next := GetNextChannelSequence in
  ret (mkGenesisState channels acks commitments receipts sends recvs ackSeqs next).
End keeper.
End channelgenesis.
