(* ===== verification/CoreGenesis.v ===== *)
(** * Iteration and genesis of the client and connection submodules, and of the core module

    The iterators, parameters and genesis functions of [02-client] and [03-connection],
    with the genesis types of [03-connection], and [core/genesis.go].  An iterator with a
    callback that never stops is the list of the values it is called with. *)
From S2P Require Import Prelude GoMonad Errors Sha256 Height Host Sdk ConnectionTypes.
From S2P Require Import ChannelTypes Exported ClientKeeper ConnectionKeeper PortKeeper.
From S2P Require Import ChannelKeeper Iteration.
From S2P Require Import ClientTypes ChannelGenesis.

(** ** Clients ([02-client/keeper/keeper.go], [params.go], [genesis.go]) *)
Module clientgenesis.
Section keeper.
Context {SE : SdkEncoding} {LC : LightClient} {CD : Codec} {CK : CapabilityKeeper} {AP : Application}.

Fixpoint iterate_consensus_states (iterator : list (string * string)) :
    outcome (list (string * ConsensusStateWithHeight)) :=
  match iterator with
  | [] => Ok []
  | (key, value) :: iterator =>
      match Split key "/" with
      | [_; clientID; s2; s3] =>
          if bool_decide (s2 ≠ KeyConsensusStatePrefix) then iterate_consensus_states iterator
          else
            let? height := MustParseHeight s3 in
            let? consensusState := must_some (Unmarshal_ConsensusState value) in
            let? rest := iterate_consensus_states iterator in
            Ok ((clientID, NewConsensusStateWithHeight height consensusState) :: rest)
      | _ => iterate_consensus_states iterator
      end
  end.
Definition IterateConsensusStates : M (list (string * ConsensusStateWithHeight)) :=
  let! iterator := gets (λ w, PrefixIterator (ibc w) KeyClientStorePrefix) in
  lift (iterate_consensus_states iterator).

Fixpoint iterate_clients (iterator : list (string * string)) : outcome (list (string * ClientState)) :=
  match iterator with
  | [] => Ok []
  | (key, value) :: iterator =>
      let keySplit := Split key "/" in
      if bool_decide (list.last keySplit ≠ Some KeyClientState) then iterate_clients iterator
      else
        let? clientState := must_some (Unmarshal_ClientState value) in
        let? clientID := must_some (keySplit !! 1) in
        let? rest := iterate_clients iterator in
        Ok ((clientID, clientState) :: rest)
  end.
Definition IterateClients : M (list (string * ClientState)) :=
  let! iterator := gets (λ w, PrefixIterator (ibc w) KeyClientStorePrefix) in
  lift (iterate_clients iterator).

Definition GetAllClients : M (list ClientState) := let! l := IterateClients in ret (l.*2).

Definition GetAllGenesisClients : M (list IdentifiedClientState) :=
  let! l := IterateClients in
  ret (IdentifiedClientStates_Sort ((λ x, NewIdentifiedClientState x.1 x.2) <$> l)).

(** The type of the metadata is fixed by [LightClient], so the type assertion holds. *)
Fixpoint GetAllClientMetadata (genClients : list IdentifiedClientState) : M (list IdentifiedGenesisMetadata) :=
  match genClients with
  | [] => ret []
  | ic :: genClients =>
      let! cs := lift (UnpackClientState (Identified_ClientState ic)) in
      let! gms := gets (λ w, ExportMetadata cs (client_view (Identified_ClientId ic) w)) in
      let! rest := GetAllClientMetadata genClients in
      ret (if bool_decide (length gms = 0%nat) then rest
           else NewIdentifiedGenesisMetadata (Identified_ClientId ic)
                  ((λ md, NewGenesisMetadata md.1 md.2) <$> gms) :: rest)
  end.

(** [store.Set] panics on an empty key and on a [nil] value, which an empty one decodes to. *)
Definition set_metadata (clientID : string) (md : GenesisMetadata) : M unit :=
  if bool_decide (Metadata_Key md = "") || bool_decide (Metadata_Value md = "") then panic
  else on_client_store clientID (modify (store_Set (Metadata_Key md) (Metadata_Value md))).
Definition SetAllClientMetadata (genMetadata : list IdentifiedGenesisMetadata) : M unit :=
  for_all (λ igm, for_all (set_metadata (Metadata_ClientId igm)) (ClientMetadata igm)) genMetadata.

(** The index of the client in the list is kept in a map; a client occurs once. *)
Fixpoint add_consensus_state (clientID : string) (cs : ConsensusStateWithHeight) (l : list ClientConsensusStates) :
    list ClientConsensusStates :=
  match l with
  | [] => [NewClientConsensusStates clientID [cs]]
  | c :: l =>
      if bool_decide (Consensus_ClientId c = clientID)
      then NewClientConsensusStates clientID (Consensus_States c ++ [cs]) :: l
      else c :: add_consensus_state clientID cs l
  end.
Definition GetAllConsensusStates : M (list ClientConsensusStates) :=
  let! l := IterateConsensusStates in
  ret (ClientsConsensusStates_Sort (foldl (λ acc x, add_consensus_state x.1 x.2 acc) [] l)).

Definition GetParams : M (list string) := gets AllowedClients.
Definition set_allowed (params : list string) (w : World) : World :=
  mkWorld (ibc w) (caps w) (app w) params (MaxExpectedTimePerBlock w) (events w).
(** [SetParamSet] panics on a value that its validator refuses. *)
Definition SetParams (params : list string) : M unit :=
  must (lift (validateClients params)) ;;;
  modify (set_allowed params).

Definition InitGenesis (gs : GenesisState) : M unit :=
  SetParams (Genesis_Params gs) ;;;
  (if bool_decide (length (ClientsMetadata gs) ≠ 0%nat) then SetAllClientMetadata (ClientsMetadata gs) else ret tt) ;;;
  for_all (λ client,
    let! cs := some_or_panic (cached_client (Identified_ClientState client)) in
    if negb (IsAllowedClient (Genesis_Params gs) (ClientType cs)) then panic
    else SetClientState (Identified_ClientId client) cs) (Genesis_Clients gs) ;;;
  for_all (λ cs,
    for_all (λ consState,
      let! consensusState := some_or_panic (cached_consensus (WithHeight_ConsensusState consState)) in
      SetClientConsensusState (Consensus_ClientId cs) (WithHeight_Height consState) (Some consensusState))
    (Consensus_States cs)) (ClientsConsensus gs) ;;;
  SetNextClientSequence (NextClientSequence gs).

Definition ExportGenesis : M GenesisState :=
  let! genClients := GetAllGenesisClients in
  let! clientsMetadata := must (GetAllClientMetadata genClients) in
  let! clientsConsensus := GetAllConsensusStates in
  let! params := GetParams in
  let! next := GetNextClientSequence in
  ret (NewGenesisState genClients clientsConsensus clientsMetadata params false next).
End keeper.
End clientgenesis.

(** ** Connections ([03-connection/types/genesis.go], [params.go], [keeper], [genesis.go]) *)
Module connectiongenesis.

Record IdentifiedConnection := mkIdentifiedConnection {
  Id : string;
  ic_ClientId : string;
  ic_Versions : list connectiontypes.Version;
  ic_State : connectiontypes.State;
  ic_Counterparty : connectiontypes.Counterparty;
  ic_DelayPeriod : N }.
Definition NewIdentifiedConnection (connectionID : string) (conn : connectiontypes.ConnectionEnd) : IdentifiedConnection :=
  mkIdentifiedConnection connectionID (connectiontypes.ClientId conn) (connectiontypes.Versions conn)
    (connectiontypes.Connection_State conn) (connectiontypes.Connection_Counterparty conn)
    (connectiontypes.DelayPeriod conn).
Definition connection_of (ic : IdentifiedConnection) : connectiontypes.ConnectionEnd :=
  connectiontypes.NewConnectionEnd (ic_State ic) (ic_ClientId ic) (ic_Counterparty ic) (ic_Versions ic) (ic_DelayPeriod ic).
Definition IdentifiedConnection_ValidateBasic (ic : IdentifiedConnection) : outcome unit :=
  outcome_wrap (ConnectionIdentifierValidator (Id ic)) ;;?
  connectiontypes.ConnectionEnd_ValidateBasic (connection_of ic).

Record ConnectionPaths := NewConnectionPaths { cp_ClientId : string; cp_Paths : list string }.

Record Params := NewParams { params_MaxExpectedTimePerBlock : N }.
Definition DefaultTimePerBlock : N := 30000000000.
Definition DefaultParams : Params := NewParams DefaultTimePerBlock.
Definition Params_Validate (p : Params) : outcome unit :=
  fail_if (params_MaxExpectedTimePerBlock p =? 0)%N fmt_Errorf.

Record GenesisState := NewGenesisState {
  Connections : list IdentifiedConnection;
  ClientConnectionPaths : list ConnectionPaths;
  NextConnectionSequence : N;
  Genesis_Params : Params }.
Definition DefaultGenesisState : GenesisState := NewGenesisState [] [] 0 DefaultParams.

(** The loop over the connections returns the greatest sequence of an identifier. *)
Fixpoint validate_connections (l : list IdentifiedConnection) (maxSequence : N) : outcome N :=
  match l with
  | [] => Ok maxSequence
  | conn :: l =>
      let? sequence := ParseConnectionSequence (Id conn) in
      let maxSequence := if (maxSequence <? sequence)%N then sequence else maxSequence in
      outcome_wrap (IdentifiedConnection_ValidateBasic conn) ;;?
      validate_connections l maxSequence
  end.
Fixpoint validate_connection_ids (l : list string) : outcome unit :=
  match l with
  | [] => Ok tt
  | connectionID :: l => outcome_wrap (ConnectionIdentifierValidator connectionID) ;;? validate_connection_ids l
  end.
Fixpoint validate_paths (l : list ConnectionPaths) : outcome unit :=
  match l with
  | [] => Ok tt
  | conPaths :: l =>
      outcome_wrap (ClientIdentifierValidator (cp_ClientId conPaths)) ;;?
      validate_connection_ids (cp_Paths conPaths) ;;?
      validate_paths l
  end.
Definition GenesisState_Validate (gs : GenesisState) : outcome unit :=
  let? maxSequence := validate_connections (Connections gs) 0 in
  validate_paths (ClientConnectionPaths gs) ;;?
  fail_if (negb (maxSequence =? 0)%N && (NextConnectionSequence gs <=? maxSequence)%N) fmt_Errorf ;;?
  Params_Validate (Genesis_Params gs).

Section keeper.
Context {SE : SdkEncoding} {LC : LightClient} {CD : Codec} {CK : CapabilityKeeper} {AP : Application}.

Fixpoint client_connection_paths (l : list (string * ClientState)) : M (list ConnectionPaths) :=
  match l with
  | [] => ret []
  | (clientID, _) :: l =>
      let! paths := GetClientConnectionPaths clientID in
      let! rest := client_connection_paths l in
      ret (match paths with Some paths => NewConnectionPaths clientID paths :: rest | None => rest end)
  end.
Definition GetAllClientConnectionPaths : M (list ConnectionPaths) :=
  let! l := clientgenesis.IterateClients in client_connection_paths l.

Fixpoint iterate_connections (iterator : list (string * string)) : outcome (list IdentifiedConnection) :=
  match iterator with
  | [] => Ok []
  | (key, value) :: iterator =>
      let? connection := must_some (Unmarshal_ConnectionEnd value) in
      let? connectionID := MustParseConnectionPath key in
      let? rest := iterate_connections iterator in
      Ok (NewIdentifiedConnection connectionID connection :: rest)
  end.
Definition IterateConnections : M (list IdentifiedConnection) :=
  let! iterator := gets (λ w, PrefixIterator (ibc w) KeyConnectionPrefix) in
  lift (iterate_connections iterator).
Definition GetAllConnections : M (list IdentifiedConnection) := IterateConnections.

Definition GetMaxExpectedTimePerBlock : M N := gets MaxExpectedTimePerBlock.
Definition GetParams : M Params := let! t := GetMaxExpectedTimePerBlock in ret (NewParams t).
Definition set_time_per_block (p : Params) (w : World) : World :=
  mkWorld (ibc w) (caps w) (app w) (AllowedClients w) (params_MaxExpectedTimePerBlock p) (events w).
Definition SetParams (p : Params) : M unit := modify (set_time_per_block p).

Definition InitGenesis (gs : GenesisState) : M unit :=
  for_all (λ connection, SetConnection (Id connection) (connection_of connection)) (Connections gs) ;;;
  for_all (λ connPaths, SetClientConnectionPaths (cp_ClientId connPaths) (cp_Paths connPaths))
    (ClientConnectionPaths gs) ;;;
  SetNextConnectionSequence (NextConnectionSequence gs) ;;;
  SetParams (Genesis_Params gs).

Definition ExportGenesis : M GenesisState :=
  let! connections := GetAllConnections in
  let! paths := GetAllClientConnectionPaths in
  let! next := GetNextConnectionSequence in
  let! params := GetParams in
  ret (NewGenesisState connections paths next params).
End keeper.
End connectiongenesis.

(** ** The core module ([core/genesis.go], [core/types/genesis.go]) *)
Module coregenesis.
Record GenesisState `{LightClient} := mkGenesisState {
  ClientGenesis : ClientTypes.GenesisState;
  ConnectionGenesis : connectiongenesis.GenesisState;
  ChannelGenesis : channelgenesis.GenesisState }.
Definition DefaultGenesisState `{LightClient} : GenesisState :=
  mkGenesisState _ ClientTypes.DefaultGenesisState connectiongenesis.DefaultGenesisState
    channelgenesis.DefaultGenesisState.
Definition GenesisState_Validate `{LightClient} (gs : GenesisState) : outcome unit :=
  ClientTypes.GenesisState_Validate (ClientGenesis gs) ;;?
  connectiongenesis.GenesisState_Validate (ConnectionGenesis gs) ;;?
  channelgenesis.GenesisState_Validate (ChannelGenesis gs).

Section module.
Context {SE : SdkEncoding} {LC : LightClient} {CD : Codec} {CK : CapabilityKeeper} {AP : Application}.

(** The flag for a localhost client is not used. *)
Definition InitGenesis (createLocalhost : bool) (gs : GenesisState) : M unit :=
  clientgenesis.InitGenesis (ClientGenesis gs) ;;;
  connectiongenesis.InitGenesis (ConnectionGenesis gs) ;;;
  channelgenesis.InitGenesis (ChannelGenesis gs).

Definition ExportGenesis : M GenesisState :=
  let! client := clientgenesis.ExportGenesis in
  let! connection := connectiongenesis.ExportGenesis in
  let! channel := channelgenesis.ExportGenesis in
  ret (mkGenesisState _ client connection channel).
End module.
End coregenesis.
