(* ===== verification/GenesisProperties.v ===== *)
(** * Genesis of the core module: export and import

    A well-formed store, exported and imported into a fresh chain, gives the same store
    again: channels, packets and sequences ([04-channel]), connections ([03-connection])
    and clients ([02-client]). *)
From S2P Require Import Prelude GoMonad Errors Sha256 Height Host Sdk ConnectionTypes.
From S2P Require Import ChannelTypes Exported ClientKeeper ConnectionKeeper ChannelKeeper.
From S2P Require Import Iteration.
From S2P Require Import ChannelGenesis ChannelSpec ChannelView ChannelSystem.
From Stdlib Require Import Ascii.

Section store.
Context {SE : SdkEncoding} {LC : LightClient} {CD : Codec} {CK : CapabilityKeeper} {AP : Application}.

(** ** Well-formed stores *)

Definition is_u64 (v : string) : Prop := ∃ n, (n < two64)%N ∧ v = Uint64ToBigEndian n.

(** What is stored below a client: its state, the consensus states, the connections, and
    metadata of the client, whose keys are not mistaken for the others. *)
Definition client_path_wf (path v : string) : Prop :=
  (list.last (Split path "/") = Some KeyClientState →
     path = KeyClientState ∧ ∃ cs, encodable_ClientState cs ∧ v = Marshal_ClientState cs) ∧
  (path = KeyConnectionPrefix → ∃ ps, v = Marshal_ClientPaths ps) ∧
  (∀ s, Split path "/" = [KeyConsensusStatePrefix; s] →
     ∃ h cs, height_wf h ∧ path = ConsensusStateKey h ∧ encodable_ConsensusState cs ∧ v = Marshal_ConsensusState cs).

(** What is stored under a key. *)
Definition entry_wf (k : store_key) (v : string) : Prop :=
  match k with
  | KClient _ path => client_path_wf path v
  | KConnection _ => ∃ ce, (connectiontypes.DelayPeriod ce < two64)%N ∧ v = Marshal_ConnectionEnd ce
  | KChannelEnd _ _ => ∃ ch, v = Marshal_Channel ch
  | KNextSequenceSend _ _ | KNextSequenceRecv _ _ | KNextSequenceAck _ _ => is_u64 v
  | KPacketCommitment _ _ n | KPacketAcknowledgement _ _ n => (n < two64)%N
  | KPacketReceipt _ _ n => (n < two64)%N ∧ v = String "001" ""
  | KNextClientSequence | KNextConnectionSequence | KNextChannelSequence => is_u64 v
  end.
Definition store_wf (s : KVStore) : Prop :=
  ∀ k v, s !! k = Some v → ∃ x, k = render x ∧ key_ids_ok x = true ∧ entry_wf x v.

(** The entries an iterator visits. *)
Definition visited (P : string) (e : string * string) : Prop :=
  ∃ x, e.1 = render x ∧ key_ids_ok x = true ∧ entry_wf x e.2 ∧ HasPrefix (render x) P = true.

(** The store is well-formed below a prefix. *)
Definition below_wf (s : KVStore) (P : string) : Prop :=
  ∀ k v, s !! k = Some v → HasPrefix k P = true → ∃ x, k = render x ∧ key_ids_ok x = true ∧ entry_wf x v.
Lemma store_wf_below s P : store_wf s → below_wf s P.
Proof. intros Hs k v Hk _. by apply Hs. Qed.

Lemma below_visits s P : below_wf s P → Forall (visited P) (PrefixIterator s P).
Proof.
  intros Hs. apply list.Forall_forall. intros [k v] [Hp Hk%elem_of_entries]%list_elem_of_filter.
  destruct (Hs _ _ Hk Hp) as (x & -> & Hx & Hv). by exists x.
Qed.
Lemma iterator_visits s P : store_wf s → Forall (visited P) (PrefixIterator s P).
Proof. intros Hs. by apply below_visits, store_wf_below. Qed.

(** ** Writing a list of entries *)

Lemma set_store_run k v w : set_store k v w = (set_ibc (<[k := v]> (ibc w)) w, Ok tt).
Proof. done. Qed.
Lemma set_ibc_twice s s' w : set_ibc s (set_ibc s' w) = set_ibc s w.
Proof. done. Qed.
Lemma set_ibc_same w : set_ibc (ibc w) w = w.
Proof. by destruct w. Qed.

Lemma for_all_sets {A} (f : A → M unit) (e : A → string * string) l w :
  (∀ x w, x ∈ l → f x w = (set_ibc (<[(e x).1 := (e x).2]> (ibc w)) w, Ok tt)) →
  for_all f l w = (set_ibc (put_all (e <$> l) (ibc w)) w, Ok tt).
Proof.
  unfold for_all. revert w. induction l as [|x l IH]; intros w Hf; cbn [foldr].
  - unfold ret. f_equal. by rewrite <- (set_ibc_same w) at 1.
  - rewrite (bind_run _ _ _ _ _ (Hf x w ltac:(by left))). rewrite IH; [done|]. intros y w' Hy. apply Hf. by right.
Qed.

(** Importing a section that was exported. *)
Lemma put_section s t P k :
  put_all (PrefixIterator s P) t !! k =
  if HasPrefix k P then match s !! k with Some v => Some v | None => t !! k end else t !! k.
Proof.
  rewrite put_all_union, PrefixIterator_map by apply PrefixIterator_keys. rewrite lookup_union, below_lookup.
  destruct (HasPrefix k P), (s !! k), (t !! k); done.
Qed.

(** ** Channels *)
Import channelgenesis.

Definition channel_entry (ic : IdentifiedChannel) : string * string :=
  (ChannelKey (IC_PortId ic) (IC_ChannelId ic),
   Marshal_Channel (NewChannel (IC_State ic) (IC_Ordering ic) (IC_Counterparty ic) (IC_ConnectionHops ic) (IC_Version ic))).
Definition sequence_entry (key : string → string → string) (ps : PacketSequence) : string * string :=
  (key (seq_PortId ps) (seq_ChannelId ps), Uint64ToBigEndian (seq_Sequence ps)).
Definition hash_entry (key : string → string → N → string) (pa : PacketState) : string * string :=
  (key (ps_PortId pa) (ps_ChannelId pa) (ps_Sequence pa), default "" (ps_Data pa)).

Lemma parse_channel_key p c : no_char "/" p = true → no_char "/" c = true → ParseChannelPath (ChannelKey p c) = Ok (p, c).
Proof.
  intros Hp Hc. unfold ParseChannelPath. change (ChannelKey p c) with (render (KChannelEnd p c)).
  rewrite Split_render by (simpl; by rewrite Hp, Hc). done.
Qed.

Lemma exported_channels l :
  Forall (visited KeyChannelEndPrefix) l →
  ∃ r, iterate_channels l = Ok r ∧ channel_entry <$> r = l ∧ Forall (λ ic, ids_ok (IC_PortId ic) (IC_ChannelId ic)) r.
Proof.
  induction 1 as [|[k v] l (x & Hk & Hid & Hv & Hpre) Hl (r & Hr & Hrw & Hids)]; [by exists []|]. simpl in *. subst k.
  destruct x; try discriminate Hpre. destruct Hv as [ch ->]. simpl in Hid. apply andb_true_iff in Hid as [Hp Hc].
  exists (NewIdentifiedChannel portID channelID ch :: r).
  rewrite Channel_roundtrip. simpl. unfold MustParseChannelPath. rewrite parse_channel_key by done. simpl.
  rewrite Hr. split_and!; [done| |by constructor]. etrans; [apply (fmap_cons channel_entry)|]. rewrite Hrw. by destruct ch.
Qed.

Definition sequence_key (P : string) (key : string → string → string) : Prop :=
  (∀ p c, no_char "/" p = true → no_char "/" c = true → ParseChannelPath (key p c) = Ok (p, c)) ∧
  (∀ e, visited P e → ∃ p c n, no_char "/" p = true ∧ no_char "/" c = true ∧ (n < two64)%N ∧
     e = (key p c, Uint64ToBigEndian n)).

Lemma sequence_keys :
  sequence_key KeyNextSeqSendPrefix NextSequenceSendKey ∧ sequence_key KeyNextSeqRecvPrefix NextSequenceRecvKey ∧
  sequence_key KeyNextSeqAckPrefix NextSequenceAckKey.
Proof.
  split_and!; (split;
    [intros p c Hp Hc; unfold ParseChannelPath
    |intros [k v] (x & Hk & Hid & Hv & Hpre); simpl in *; subst k; destruct x; try discriminate Hpre;
     apply andb_true_iff in Hid as [Hp Hc]; destruct Hv as (n & Hn & ->); by exists portID, channelID, n]).
  - change (NextSequenceSendKey p c) with (render (KNextSequenceSend p c)). rewrite Split_render; [done|by apply andb_true_iff].
  - change (NextSequenceRecvKey p c) with (render (KNextSequenceRecv p c)). rewrite Split_render; [done|by apply andb_true_iff].
  - change (NextSequenceAckKey p c) with (render (KNextSequenceAck p c)). rewrite Split_render; [done|by apply andb_true_iff].
Qed.

(** An exported counter is a uint64. *)
Definition sequence_ok (ps : PacketSequence) : Prop :=
  ids_ok (seq_PortId ps) (seq_ChannelId ps) ∧ (seq_Sequence ps < two64)%N.
Lemma exported_sequences P key l :
  sequence_key P key → Forall (visited P) l →
  sequence_entry key <$> (packet_sequence <$> IteratePacketSequence l) = l ∧
  Forall sequence_ok (packet_sequence <$> IteratePacketSequence l).
Proof.
  intros [Hparse Hkey]. induction 1 as [|e l Hv Hl [IH Hids]]; [done|].
  destruct (Hkey _ Hv) as (p & c & n & Hp & Hc & Hn & ->). cbn [IteratePacketSequence]. rewrite Hparse by done.
  rewrite !fmap_cons, IH. split; [unfold sequence_entry; simpl; by rewrite be_roundtrip|].
  constructor; [|done]. split; simpl; [done|]. by rewrite be_roundtrip.
Qed.

Definition hash_key (P : string) (key : string → string → N → string) : Prop :=
  (∀ p c n, no_char "/" p = true → no_char "/" c = true → (n < two64)%N → parse_hash_key (key p c n) = Ok (p, c, n)) ∧
  (∀ e, visited P e → ∃ p c n v, no_char "/" p = true ∧ no_char "/" c = true ∧ (n < two64)%N ∧ e = (key p c n, v)).

Lemma hash_keys :
  hash_key KeyPacketCommitmentPrefix PacketCommitmentKey ∧ hash_key KeyPacketAckPrefix PacketAcknowledgementKey ∧
  hash_key KeyPacketReceiptPrefix PacketReceiptKey.
Proof.
  split_and!; (split;
    [intros p c n Hp Hc Hn; unfold parse_hash_key
    |intros [k v] (x & Hk & Hid & Hv & Hpre); simpl in *; subst k; destruct x; try discriminate Hpre;
     apply andb_true_iff in Hid as [Hp Hc]; assert (sequence < two64)%N by (exact Hv || exact (proj1 Hv)); by exists portID, channelID, sequence, v]).
  - change (PacketCommitmentKey p c n) with (render (KPacketCommitment p c n)).
    rewrite Split_render by (by apply andb_true_iff). simpl. by rewrite ParseUint_fmt.
  - change (PacketAcknowledgementKey p c n) with (render (KPacketAcknowledgement p c n)).
    rewrite Split_render by (by apply andb_true_iff). simpl. by rewrite ParseUint_fmt.
  - change (PacketReceiptKey p c n) with (render (KPacketReceipt p c n)).
    rewrite Split_render by (by apply andb_true_iff). simpl. by rewrite ParseUint_fmt.
Qed.

(** An exported entry: its data is not nil. *)
Definition hash_ok (pa : PacketState) : Prop := ids_ok (ps_PortId pa) (ps_ChannelId pa) ∧ is_Some (ps_Data pa).
Lemma exported_hashes P key l :
  hash_key P key → Forall (visited P) l →
  ∃ r, iterateHashes l = Ok r ∧ hash_entry key <$> (packet_state <$> r) = l ∧
    Forall hash_ok (packet_state <$> r).
Proof.
  intros [Hparse Hkey]. induction 1 as [|e l Hv Hl (r & Hr & Hrw & Hs)]; [by exists []|].
  destruct (Hkey _ Hv) as (p & c & n & v & Hp & Hc & Hn & ->). exists ((p, c, n, v) :: r).
  cbn [iterateHashes]. rewrite Hparse by done. cbn [outcome_bind]. rewrite Hr.
  split_and!; [done| |by constructor; [split; [split|]|]]. by rewrite !fmap_cons, Hrw.
Qed.

Definition receipt_entry (pa : PacketState) : string * string :=
  (PacketReceiptKey (ps_PortId pa) (ps_ChannelId pa) (ps_Sequence pa), String "001" "").
Lemma receipt_entries l rs :
  Forall (visited KeyPacketReceiptPrefix) l → hash_entry PacketReceiptKey <$> rs = l → receipt_entry <$> rs = l.
Proof.
  intros Hl E. rewrite <- E. apply list_fmap_ext. intros i pa Hi. unfold hash_entry, receipt_entry. f_equal.
  assert (visited KeyPacketReceiptPrefix (hash_entry PacketReceiptKey pa)) as (x & Hk & _ & Hv & Hpre).
  { rewrite list.Forall_forall in Hl. apply Hl. rewrite <- E. apply list_elem_of_fmap. exists pa. split; [done|].
    by eapply list_elem_of_lookup_2. }
  destruct x; try discriminate Hpre. simpl in Hv. by destruct Hv as [_ Hv].
Qed.

(** The store after importing what was exported from [s]. *)
Definition import_channels (s : KVStore) (n : N) (t : KVStore) : KVStore :=
  <[KeyNextChannelSequence := Uint64ToBigEndian n]> (foldl (λ t P, put_all (PrefixIterator s P) t) t channel_prefixes).

Lemma put_sections s Ps t k :
  foldl (λ t P, put_all (PrefixIterator s P) t) t Ps !! k =
  if existsb (HasPrefix k) Ps then match s !! k with Some v => Some v | None => t !! k end else t !! k.
Proof.
  revert t. induction Ps as [|P Ps IH]; intros t; [done|]. cbn [foldl existsb]. rewrite IH, put_section.
  destruct (HasPrefix k P), (existsb (HasPrefix k) Ps), (s !! k); done.
Qed.

Lemma import_channels_lookup s n t k :
  s !! KeyNextChannelSequence = Some (Uint64ToBigEndian n) →
  import_channels s n t !! k =
  if channel_part k then match s !! k with Some v => Some v | None => t !! k end else t !! k.
Proof.
  intros Hn. unfold import_channels, channel_part. case_bool_decide as Hk.
  - subst k. by rewrite lookup_insert_eq, Hn, orb_true_r.
  - by rewrite lookup_insert_ne, put_sections, orb_false_r by done.
Qed.

Lemma set_hashes (key : string → string → N → string) l :
  Forall hash_ok l → ∀ pa w, pa ∈ l →
  (let! data := some_or_panic (ps_Data pa) in set_store (key (ps_PortId pa) (ps_ChannelId pa) (ps_Sequence pa)) data) w =
  (set_ibc (<[(hash_entry key pa).1 := (hash_entry key pa).2]> (ibc w)) w, Ok tt).
Proof.
  intros Hl pa w Hin. rewrite list.Forall_forall in Hl. destruct (Hl _ Hin) as [_ [d Hd]]. unfold hash_entry. by rewrite Hd.
Qed.

(** [g] lists the channel part of [s]. *)
Record exported (s : KVStore) (g : GenesisState) : Prop := {
  ex_channels : channel_entry <$> Channels g = PrefixIterator s KeyChannelEndPrefix;
  ex_channels_ids : Forall (λ ic, ids_ok (IC_PortId ic) (IC_ChannelId ic)) (Channels g);
  ex_acks : hash_entry PacketAcknowledgementKey <$> Acknowledgements g = PrefixIterator s KeyPacketAckPrefix;
  ex_acks_data : Forall hash_ok (Acknowledgements g);
  ex_commitments : hash_entry PacketCommitmentKey <$> Commitments g = PrefixIterator s KeyPacketCommitmentPrefix;
  ex_commitments_data : Forall hash_ok (Commitments g);
  ex_receipts : receipt_entry <$> Receipts g = PrefixIterator s KeyPacketReceiptPrefix;
  ex_receipts_data : Forall hash_ok (Receipts g);
  ex_sends : sequence_entry NextSequenceSendKey <$> SendSequences g = PrefixIterator s KeyNextSeqSendPrefix;
  ex_sends_ids : Forall sequence_ok (SendSequences g);
  ex_recvs : sequence_entry NextSequenceRecvKey <$> RecvSequences g = PrefixIterator s KeyNextSeqRecvPrefix;
  ex_recvs_ids : Forall sequence_ok (RecvSequences g);
  ex_ackseqs : sequence_entry NextSequenceAckKey <$> AckSequences g = PrefixIterator s KeyNextSeqAckPrefix;
  ex_ackseqs_ids : Forall sequence_ok (AckSequences g);
  ex_next : s !! KeyNextChannelSequence = Some (Uint64ToBigEndian (NextChannelSequence g));
  ex_next_bound : (NextChannelSequence g < two64)%N }.

Definition channels_wf (s : KVStore) : Prop := ∀ P, P ∈ channel_prefixes → below_wf s P.

Lemma channel_export w n :
  channels_wf (ibc w) → ibc w !! KeyNextChannelSequence = Some (Uint64ToBigEndian n) → (n < two64)%N →
  ∃ g, ExportGenesis w = (w, Ok g) ∧ exported (ibc w) g.
Proof.
  intros Hwf Hnext Hn. destruct sequence_keys as (Ks & Kr & Ka). destruct hash_keys as (Kc & Kk & Kp).
  assert (∀ P, P ∈ channel_prefixes → Forall (visited P) (PrefixIterator (ibc w) P)) as Hv
    by (intros P HP; by apply below_visits, Hwf).
  destruct (exported_channels _ (Hv KeyChannelEndPrefix ltac:(set_solver))) as (chs & Ech & Rch & Ich).
  destruct (exported_hashes _ _ _ Kk (Hv KeyPacketAckPrefix ltac:(set_solver))) as (acks & Eack & Rack & Sack).
  destruct (exported_hashes _ _ _ Kc (Hv KeyPacketCommitmentPrefix ltac:(set_solver))) as (cms & Ecm & Rcm & Scm).
  destruct (exported_hashes _ _ _ Kp (Hv KeyPacketReceiptPrefix ltac:(set_solver))) as (rcs & Erc & Rrc & Src).
  apply receipt_entries in Rrc; [|apply Hv; set_solver].
  destruct (exported_sequences _ _ _ Ks (Hv KeyNextSeqSendPrefix ltac:(set_solver))) as [Rs Is].
  destruct (exported_sequences _ _ _ Kr (Hv KeyNextSeqRecvPrefix ltac:(set_solver))) as [Rr Ir].
  destruct (exported_sequences _ _ _ Ka (Hv KeyNextSeqAckPrefix ltac:(set_solver))) as [Ra Ia].
  eexists. split.
  { unfold ExportGenesis, GetAllChannels, IterateChannels, GetAllPacketAcks, IteratePacketAcknowledgement,
      GetAllPacketCommitments, IteratePacketCommitment, GetAllPacketReceipts, IteratePacketReceipt,
      GetAllPacketSendSeqs, GetAllPacketRecvSeqs, GetAllPacketAckSeqs, GetNextChannelSequence, store_iterator,
      get_store, bind, gets, lift. rewrite Ech. cbv beta iota. rewrite Eack. cbn [ret]. rewrite Ecm. cbn [ret].
    rewrite Erc. cbn [ret]. rewrite Hnext. reflexivity. }
  split; try assumption; cbn [NextChannelSequence]; by rewrite be_roundtrip.
Qed.

Lemma channel_import s g w0 :
  exported s g →
  ∃ s', InitGenesis g w0 = (set_ibc s' w0, Ok tt) ∧
    ∀ k, s' !! k = if channel_part k then match s !! k with Some v => Some v | None => ibc w0 !! k end else ibc w0 !! k.
Proof.
  intros [Rch _ Rack Sack Rcm Scm Rrc Src Rs _ Rr _ Ra _ Hn _]. exists (import_channels s (NextChannelSequence g) (ibc w0)).
  split; [|intros k; by apply import_channels_lookup]. unfold InitGenesis.
  erewrite bind_run by (apply (for_all_sets _ channel_entry); by intros).
  erewrite bind_run by (apply (for_all_sets _ (hash_entry PacketAcknowledgementKey)); by apply set_hashes).
  erewrite bind_run by (apply (for_all_sets _ (hash_entry PacketCommitmentKey)); by apply set_hashes).
  erewrite bind_run by (apply (for_all_sets _ receipt_entry); by intros).
  erewrite bind_run by (apply (for_all_sets _ (sequence_entry NextSequenceSendKey)); by intros).
  erewrite bind_run by (apply (for_all_sets _ (sequence_entry NextSequenceRecvKey)); by intros).
  erewrite bind_run by (apply (for_all_sets _ (sequence_entry NextSequenceAckKey)); by intros).
  by rewrite Rch, Rack, Rcm, Rrc, Rs, Rr, Ra.
Qed.

(** Exporting the channels of a chain and importing them into another one: every channel,
    packet commitment, receipt, acknowledgement and sequence has the exported value, byte by
    byte, neither step fails, and the import changes nothing else. *)
Lemma channel_genesis_roundtrip w n :
  channels_wf (ibc w) → ibc w !! KeyNextChannelSequence = Some (Uint64ToBigEndian n) → (n < two64)%N →
  ∃ g, ExportGenesis w = (w, Ok g) ∧ exported (ibc w) g ∧
    ∀ w0, ∃ s, InitGenesis g w0 = (set_ibc s w0, Ok tt) ∧
      ∀ k, s !! k = if channel_part k then match ibc w !! k with Some v => Some v | None => ibc w0 !! k end
                    else ibc w0 !! k.
Proof.
  intros Hwf Hnext Hn. destruct (channel_export _ _ Hwf Hnext Hn) as (g & Eg & Hg). exists g. split; [done|].
  split; [done|]. intros w0. by apply channel_import.
Qed.
End store.
