(* ===== verification/CoreGenesisProperties.v ===== *)
(** * Genesis of clients, connections and the whole core module

    The clients and connections of a well-formed store, exported and imported, and the
    round trip of the whole IBC store. *)
From S2P Require Import Prelude GoMonad Errors Sha256 Height Host Sdk ConnectionTypes.
From S2P Require Import ChannelTypes Exported ClientKeeper ConnectionKeeper PortKeeper.
From S2P Require Import ChannelKeeper Iteration FullNode Scenario.
From S2P Require Import ClientTypes ChannelGenesis CoreGenesis ChannelSpec ChannelView.
From S2P Require Import ChannelSystem GenesisProperties.
From Stdlib Require Import Ascii.
From stdpp Require Import sorting.

Section writes.
Context {SE : SdkEncoding} {LC : LightClient} {CD : Codec} {CK : CapabilityKeeper} {AP : Application}.

(** [m] writes the entries [l] and does nothing else. *)
Definition writes (m : M unit) (l : list (string * string)) : Prop :=
  ∀ w, m w = (set_ibc (put_all l (ibc w)) w, Ok tt).

Lemma put_all_app l l' s : put_all (l ++ l') s = put_all l' (put_all l s).
Proof. apply foldl_app. Qed.

Lemma writes_nil : writes (ret tt) [].
Proof. intros w. unfold ret. by rewrite <- (set_ibc_same w) at 1. Qed.
Lemma writes_set k v : writes (set_store k v) [(k, v)].
Proof. done. Qed.
Lemma writes_bind m k l l' : writes m l → writes k l' → writes (m ;;; k) (l ++ l').
Proof. intros Hm Hk w. rewrite (bind_run _ _ _ _ _ (Hm w)), Hk, put_all_app. done. Qed.
Lemma writes_for_all {A} (f : A → M unit) (g : A → list (string * string)) l :
  (∀ x, x ∈ l → writes (f x) (g x)) → writes (for_all f l) (l ≫= g).
Proof.
  induction l as [|x l IH]; intros H; [apply writes_nil|]. rewrite for_all_cons. simpl.
  apply writes_bind; [apply H; by left|]. apply IH. intros y Hy. apply H. by right.
Qed.

Lemma writes_client c p v : writes (on_client_store c (modify (store_Set p v))) [(FullClientKey c p, v)].
Proof.
  intros w. unfold on_client_store, zoom, modify. f_equal. unfold client_put. f_equal. simpl.
  apply map_eq. intros k. unfold client_view, store_Set. destruct (HasPrefix k (client_prefix c)) eqn:E.
  - apply HasPrefix_spec in E as [r ->]. rewrite prefix_write_in.
    destruct (decide (r = p)) as [->|Hne].
    + by rewrite lookup_insert_eq, FullClientKey_prefix, lookup_insert_eq.
    + rewrite !lookup_insert_ne, prefix_view_lookup; [done| |done].
      rewrite FullClientKey_prefix. by intros ?%app_inj_l.
  - rewrite prefix_write_out by done. rewrite lookup_insert_ne; [done|]. rewrite FullClientKey_prefix.
    intros <-. by rewrite HasPrefix_app in E.
Qed.

(** Entries that are all in the store [s], written in any order. *)
Lemma put_all_agree (s : KVStore) (l : list (string * string)) (t : KVStore) k :
  (∀ e, e ∈ l → s !! e.1 = Some e.2) → put_all l t !! k = if decide (k ∈ l.*1) then s !! k else t !! k.
Proof.
  revert t. induction l as [|[k' v'] l IH]; intros t Hl; [done|]. simpl. rewrite IH by (intros; apply Hl; by right).
  pose proof (Hl (k', v') ltac:(by left)) as Hk'. simpl in Hk'.
  destruct (decide (k ∈ l.*1)) as [Hin|Hin].
  - rewrite decide_True; [done|]. by right.
  - destruct (decide (k = k')) as [->|Hne].
    + rewrite lookup_insert_eq, decide_True by (by left). done.
    + rewrite lookup_insert_ne, decide_False by (done || by intros [->|?]%elem_of_cons). done.
Qed.
End writes.

Section clients.
Context {SE : SdkEncoding} {LC : LightClient} {CD : Codec} {CK : CapabilityKeeper} {AP : Application}.
Import clientgenesis.

(** Entries below "clients" are those of clients. *)
Lemma visited_client e :
  visited KeyClientStorePrefix e →
  ∃ c path, e.1 = FullClientKey c path ∧ no_char "/" c = true ∧ client_path_wf path e.2 ∧
    Split e.1 "/" = KeyClientStorePrefix :: c :: Split path "/".
Proof.
  intros (x & Hk & Hid & Hv & Hpre). rewrite Hk. destruct x; try discriminate Hpre. exists clientID, path.
  split_and!; [done..|]. by rewrite Split_render.
Qed.

Lemma last_cons_Split (a b : string) path : list.last (a :: b :: Split path "/") = list.last (Split path "/").
Proof. pose proof (Split_not_nil path "/"). by destruct (Split path "/"). Qed.

(** The entries that are client states and consensus states, as the iterators tell them. *)
Definition client_state_entry (e : string * string) : bool :=
  bool_decide (list.last (Split e.1 "/") = Some KeyClientState).
Definition consensus_state_entry (e : string * string) : bool :=
  match Split e.1 "/" with [_; _; s; _] => bool_decide (s = KeyConsensusStatePrefix) | _ => false end.

Definition client_entry (x : string * ClientState) : string * string :=
  (FullClientStateKey x.1, Marshal_ClientState x.2).
Definition consensus_entry (x : string * ConsensusStateWithHeight) : string * string :=
  (FullConsensusStateKey x.1 (WithHeight_Height x.2),
   default "" (Marshal_ConsensusState <$> cached_consensus (WithHeight_ConsensusState x.2))).

Lemma consensus_path_split h s : Split (ConsensusStateKey h) "/" = [KeyConsensusStatePrefix; s] → s = Height_String h.
Proof.
  unfold ConsensusStateKey, ConsensusStatePath. rewrite Split_path by done.
  rewrite Split_last by auto with ibc. by injection 1 as <-.
Qed.

Lemma iterate_clients_spec l :
  Forall (visited KeyClientStorePrefix) l →
  ∃ r, iterate_clients l = Ok r ∧ client_entry <$> r = filter client_state_entry l ∧
    Forall (λ x, no_char "/" x.1 = true ∧ encodable_ClientState x.2) r.
Proof.
  induction 1 as [|[k v] l Hv Hl (r & Hr & Hrl & Hok)]; [by exists []|].
  destruct (visited_client _ Hv) as (c & path & Hk & Hc & (Hstate & _) & Hsplit). simpl in Hk, Hsplit, Hstate.
  cbn [iterate_clients]. assert (client_state_entry (k, v) = bool_decide (list.last (Split path "/") = Some KeyClientState)) as Hcse
    by (unfold client_state_entry; cbn [fst]; by rewrite Hsplit, last_cons_Split).
  rewrite Hsplit, last_cons_Split, filter_cons.
  destruct (decide (client_state_entry (k, v))) as [Hd|Hd]; rewrite Hcse, bool_decide_spec in Hd.
  - rewrite bool_decide_eq_false_2 by auto. rename Hd into Hlast.
    destruct (Hstate Hlast) as (-> & cs & Hcs & ->). rewrite ClientState_roundtrip by done. simpl. rewrite Hr.
    exists ((c, cs) :: r). split; [done|]. split; [|by constructor]. rewrite fmap_cons, Hrl, Hk. done.
  - rewrite bool_decide_eq_true_2 by done. eauto.
Qed.

Lemma iterate_consensus_states_spec l :
  Forall (visited KeyClientStorePrefix) l →
  ∃ r, iterate_consensus_states l = Ok r ∧ consensus_entry <$> r = filter consensus_state_entry l ∧
    Forall (λ x, is_Some (cached_consensus (WithHeight_ConsensusState x.2))) r.
Proof.
  induction 1 as [|[k v] l Hv Hl (r & Hr & Hrl & Hs)]; [by exists []|].
  destruct (visited_client _ Hv) as (c & path & Hk & Hc & (_ & _ & Hcons) & Hsplit). simpl in Hk, Hsplit, Hcons.
  cbn [iterate_consensus_states]. rewrite Hsplit, filter_cons.
  destruct (decide (consensus_state_entry (k, v))) as [Hd|Hd];
    unfold consensus_state_entry in Hd; cbn [fst] in Hd; rewrite Hsplit in Hd;
    destruct (Split path "/") as [|s2 [|s3 [|? ?]]] eqn:E; try (by eauto); try (by destruct Hd);
    rewrite bool_decide_spec in Hd.
  - subst s2. rewrite bool_decide_eq_false_2 by auto.
    destruct (Hcons _ eq_refl) as (h & cs & Hh & -> & Hcs & ->).
    assert (s3 = Height_String h) as -> by (by apply consensus_path_split in E).
    unfold MustParseHeight. rewrite ParseHeight_String_eq by done. rewrite ConsensusState_roundtrip by done.
    cbn [outcome_bind must_some]. rewrite Hr. eexists. split; [done|]. split; [|constructor; [by eexists|done]].
    rewrite fmap_cons, Hrl, Hk. done.
  - rewrite bool_decide_eq_true_2 by done. eauto.
Qed.

(** Grouping by client keeps the consensus states. *)
Definition grouped (l : list ClientConsensusStates) : list (string * ConsensusStateWithHeight) :=
  l ≫= λ c, (Consensus_ClientId c,.) <$> Consensus_States c.

Lemma grouped_add c x l : grouped (add_consensus_state c x l) ≡ₚ (c, x) :: grouped l.
Proof.
  induction l as [|cc l IH]; [done|]. cbn [add_consensus_state]. case_bool_decide as E.
  - unfold grouped. simpl. rewrite E, fmap_app. simpl. rewrite <- app_assoc. simpl.
    by rewrite Permutation_middle.
  - unfold grouped in *. simpl. rewrite IH. by rewrite Permutation_middle.
Qed.
Lemma grouped_all l acc : grouped (foldl (λ acc x, add_consensus_state x.1 x.2 acc) acc l) ≡ₚ grouped acc ++ l.
Proof.
  revert acc. induction l as [|[c x] l IH]; intros acc; simpl; [by rewrite app_nil_r|].
  rewrite IH, grouped_add. simpl. by rewrite Permutation_middle.
Qed.
Lemma grouped_sort l : grouped (ClientsConsensusStates_Sort l) ≡ₚ grouped l.
Proof. unfold grouped, ClientsConsensusStates_Sort. by rewrite merge_sort_Permutation. Qed.
End clients.

(** ** Exporting *)
Section export.
Context {SE : SdkEncoding} {LC : LightClient} {CD : Codec} {CK : CapabilityKeeper} {AP : Application}.
Import clientgenesis connectiongenesis.

Definition metadata_entries (igm : IdentifiedGenesisMetadata) : list (string * string) :=
  (λ md, (FullClientKey (Metadata_ClientId igm) (Metadata_Key md), Metadata_Value md)) <$> ClientMetadata igm.
(** What the light client of [x] exports, as entries of the store. *)
Definition exported_metadata (w : World) (x : string * ClientState) : list (string * string) :=
  (λ md, (FullClientKey x.1 md.1, md.2)) <$> ExportMetadata x.2 (client_view x.1 w).

Lemma GetAllClientMetadata_spec w l :
  ∃ r, GetAllClientMetadata ((λ x, NewIdentifiedClientState x.1 x.2) <$> l) w = (w, Ok r) ∧
    r ≫= metadata_entries = l ≫= exported_metadata w ∧
    r ≫= ClientMetadata = l ≫= λ x, (λ md, NewGenesisMetadata md.1 md.2) <$> ExportMetadata x.2 (client_view x.1 w).
Proof.
  induction l as [|[c cs] l (r & Hr & Hrl & Hkl)]; [by exists []|].
  rewrite fmap_cons. cbn [GetAllClientMetadata]. unfold bind at 1, lift, gets.
  cbn [UnpackClientState Identified_ClientState NewIdentifiedClientState Identified_ClientId fst snd].
  unfold bind. rewrite Hr. eexists. split; [done|]. rewrite !bind_cons, <- Hrl, <- Hkl.
  unfold exported_metadata. cbn [fst snd]. case_bool_decide as E.
  - apply nil_length_inv in E. by rewrite E.
  - rewrite !bind_cons. split; [|done]. f_equal. unfold metadata_entries. cbn [ClientMetadata Metadata_ClientId].
    by rewrite <- list_fmap_compose.
Qed.

(** The connections stored for the clients of a list. *)
Definition stored_paths (w : World) (x : string * ClientState) : list (string * string) :=
  match ibc w !! ClientConnectionsKey x.1 with Some v => [(ClientConnectionsKey x.1, v)] | None => [] end.
Definition paths_entry (cp : ConnectionPaths) : string * string :=
  (ClientConnectionsKey (cp_ClientId cp), Marshal_ClientPaths (cp_Paths cp)).

Lemma stored_paths_wf w c v :
  store_wf (ibc w) → no_char "/" c = true → ibc w !! ClientConnectionsKey c = Some v → ∃ ps, v = Marshal_ClientPaths ps.
Proof.
  intros Hwf Hc Hv. destruct (Hwf _ _ Hv) as (x & Hk & Hid & Hx).
  apply (render_inj (KClient c KeyConnectionPrefix)) in Hk; [|done..]. subst x. destruct Hx as (_ & Hps & _). by apply Hps.
Qed.

Lemma client_connection_paths_spec w l :
  store_wf (ibc w) → Forall (λ x, no_char "/" x.1 = true ∧ encodable_ClientState x.2) l →
  ∃ r, client_connection_paths l w = (w, Ok r) ∧ paths_entry <$> r = l ≫= stored_paths w.
Proof.
  intros Hwf. induction 1 as [|[c cs] l [Hc _] Hl (r & Hr & Hrl)]; [by exists []|].
  cbn [client_connection_paths]. simpl. unfold GetClientConnectionPaths, get_store, stored_paths at 1, bind, gets. cbn [fst] in *.
  destruct (ibc w !! ClientConnectionsKey c) as [v|] eqn:E.
  - destruct (stored_paths_wf _ _ _ Hwf Hc E) as [ps ->]. rewrite ClientPaths_roundtrip. simpl. rewrite Hr.
    eexists. split; [done|]. rewrite fmap_cons, Hrl. done.
  - simpl. rewrite Hr. by exists r.
Qed.

Definition connection_entry (ic : IdentifiedConnection) : string * string :=
  (ConnectionKey (Id ic), Marshal_ConnectionEnd (connection_of ic)).

Lemma exported_connections l :
  Forall (visited KeyConnectionPrefix) l → ∃ r, iterate_connections l = Ok r ∧ connection_entry <$> r = l.
Proof.
  induction 1 as [|[k v] l (x & Hk & Hid & Hv & Hpre) Hl (r & Hr & Hrw)]; [by exists []|]. simpl in *. subst k.
  destruct x; try discriminate Hpre. destruct Hv as (ce & Hce & ->). simpl in Hid.
  exists (NewIdentifiedConnection connectionID ce :: r).
  rewrite ConnectionEnd_roundtrip by done. cbn [outcome_bind must_some]. unfold MustParseConnectionPath, ParseConnectionPath.
  change (ConnectionKey connectionID) with (render (KConnection connectionID)). rewrite Split_render by done. simpl.
  rewrite Hr. split; [done|]. etrans; [apply (fmap_cons connection_entry)|]. rewrite Hrw. by destruct ce.
Qed.
End export.

(** ** Importing *)
Section import.
Context {SE : SdkEncoding} {LC : LightClient} {CD : Codec} {CK : CapabilityKeeper} {AP : Application}.
Import clientgenesis connectiongenesis.

Definition identified_entry (ic : IdentifiedClientState) : string * string :=
  (FullClientStateKey (Identified_ClientId ic),
   default "" (Marshal_ClientState <$> cached_client (Identified_ClientState ic))).

(** The entries a client genesis stands for. *)
Definition client_entries (g : ClientTypes.GenesisState) : list (string * string) :=
  (ClientsMetadata g ≫= metadata_entries) ++ (identified_entry <$> Genesis_Clients g) ++
  (consensus_entry <$> grouped (ClientsConsensus g)) ++
  [(KeyNextClientSequence, Uint64ToBigEndian (NextClientSequence g))].

(** What importing it needs: valid parameters, clients, metadata with keys and values; and
    that the parameters allow the clients. *)
Definition client_importable (g : ClientTypes.GenesisState) : Prop :=
  validateClients (ClientTypes.Genesis_Params g) = Ok tt ∧
  (∀ e, e ∈ ClientsMetadata g ≫= ClientMetadata → Metadata_Key e ≠ "" ∧ Metadata_Value e ≠ "") ∧
  (∀ ic, ic ∈ Genesis_Clients g → is_Some (cached_client (Identified_ClientState ic))) ∧
  Forall (λ x, is_Some (cached_consensus (WithHeight_ConsensusState x.2))) (grouped (ClientsConsensus g)).

Definition clients_allowed (g : ClientTypes.GenesisState) : Prop :=
  ∀ ic cs, ic ∈ Genesis_Clients g → cached_client (Identified_ClientState ic) = Some cs →
    IsAllowedClient (ClientTypes.Genesis_Params g) (ClientType cs) = true.

Lemma fmap_as_bind {A B} (f : A → B) l : f <$> l = l ≫= λ x, [f x].
Proof. induction l as [|x l IH]; [done|]. rewrite fmap_cons, bind_cons, IH. done. Qed.

Lemma fmap_of_bind {A B C} (f : B → C) (g : A → list B) l : f <$> (l ≫= g) = l ≫= λ x, f <$> g x.
Proof. induction l as [|x l IH]; [done|]. by rewrite !bind_cons, fmap_app, IH. Qed.

Lemma writes_metadata l :
  (∀ e, e ∈ l ≫= ClientMetadata → Metadata_Key e ≠ "" ∧ Metadata_Value e ≠ "") →
  writes (SetAllClientMetadata l) (l ≫= metadata_entries).
Proof.
  intros Hl. apply writes_for_all. intros igm Hin. unfold metadata_entries. rewrite fmap_as_bind.
  apply writes_for_all. intros md Hmd. unfold set_metadata.
  destruct (Hl md) as [Hk Hv]; [apply list_elem_of_bind; eauto|]. rewrite !bool_decide_eq_false_2 by done. apply writes_client.
Qed.

Lemma writes_consensus l :
  Forall (λ x, is_Some (cached_consensus (WithHeight_ConsensusState x.2))) (grouped l) →
  writes (for_all (λ cs,
    for_all (λ consState,
      let! consensusState := some_or_panic (cached_consensus (WithHeight_ConsensusState consState)) in
      SetClientConsensusState (Consensus_ClientId cs) (WithHeight_Height consState) (Some consensusState))
    (Consensus_States cs)) l) (consensus_entry <$> grouped l).
Proof.
  intros Hl. rewrite list.Forall_forall in Hl. unfold grouped. rewrite fmap_of_bind. apply writes_for_all. intros cc Hcc.
  rewrite <- list_fmap_compose, fmap_as_bind. apply writes_for_all. intros x Hx.
  destruct (Hl (Consensus_ClientId cc, x)) as [cs Hcs].
  { apply list_elem_of_bind. exists cc. split; [|done]. by apply list_elem_of_fmap_2. }
  unfold consensus_entry. cbn [fst snd compose] in *. unfold compose. simpl. rewrite Hcs. simpl.
  apply (writes_client (Consensus_ClientId cc) (ConsensusStateKey (WithHeight_Height x)) (Marshal_ConsensusState cs)).
Qed.

Lemma set_params_run g w :
  client_importable g →
  clientgenesis.SetParams (ClientTypes.Genesis_Params g) w = (set_allowed (ClientTypes.Genesis_Params g) w, Ok tt).
Proof. intros [Hp _]. unfold clientgenesis.SetParams, must, bind, lift. by rewrite Hp. Qed.
Lemma writes_all_metadata g :
  client_importable g →
  writes (if bool_decide (length (ClientsMetadata g) ≠ 0%nat) then SetAllClientMetadata (ClientsMetadata g) else ret tt)
    (ClientsMetadata g ≫= metadata_entries).
Proof.
  intros (_ & Hmd & _). case_bool_decide as E; [by apply writes_metadata|].
  destruct (ClientsMetadata g); [apply writes_nil|done].
Qed.

Lemma import_clients g w :
  client_importable g → clients_allowed g →
  clientgenesis.InitGenesis g w =
  (set_ibc (put_all (client_entries g) (ibc w)) (set_allowed (ClientTypes.Genesis_Params g) w), Ok tt).
Proof.
  intros Hg Ha. unfold clientgenesis.InitGenesis. erewrite bind_run by by apply set_params_run. unfold client_entries.
  match goal with |- ?m _ = _ => assert (writes m (client_entries g)) as Hw end; [|exact (Hw _)].
  apply writes_bind; [by apply writes_all_metadata|]. destruct Hg as (_ & _ & Hcl & Hcs). apply writes_bind.
  { rewrite fmap_as_bind. apply writes_for_all. intros ic Hic. destruct (Hcl _ Hic) as (cs & Hcs').
    unfold identified_entry. rewrite Hcs'. intros w'. unfold bind, some_or_panic, ret. cbv beta iota.
    rewrite (Ha ic cs) by done. apply writes_client. }
  apply writes_bind; [by apply writes_consensus|apply writes_set].
Qed.

(** A loop in which one step panics and the others succeed. *)
Lemma for_all_panics {A} (f : A → M unit) l x w :
  (∀ y w, y ∈ l → (f y w).2 = Ok tt ∨ (f y w).2 = Panic) → x ∈ l → (∀ w, (f x w).2 = Panic) → (for_all f l w).2 = Panic.
Proof.
  intros Hl Hx Hp. revert w. induction l as [|y l IH]; intros w; [by apply elem_of_nil in Hx|].
  unfold for_all in *. cbn [foldr]. unfold bind.
  destruct (f y w) as [w1 o] eqn:E. destruct (Hl y w) as [H|H]; [by left| |]; rewrite E in H; simpl in H; subst o; [|done].
  apply elem_of_cons in Hx as [->|Hx]; [specialize (Hp w); by rewrite E in Hp|].
  apply IH; [|done]. intros z w2 Hz. apply Hl. by right.
Qed.

(** A client that the parameters no longer allow stops the import. *)
Lemma import_clients_refused g w ic cs :
  client_importable g → ic ∈ Genesis_Clients g → cached_client (Identified_ClientState ic) = Some cs →
  IsAllowedClient (ClientTypes.Genesis_Params g) (ClientType cs) = false → (clientgenesis.InitGenesis g w).2 = Panic.
Proof.
  intros Hg Hic Hcs Ha. unfold clientgenesis.InitGenesis. erewrite bind_run by by apply set_params_run.
  erewrite bind_run by (by apply writes_all_metadata). destruct Hg as (_ & _ & Hcl & _).
  match goal with |- (bind (for_all ?f ?l) _ ?w0).2 = _ =>
    pose proof (for_all_panics f l ic w0) as Hp; unfold bind at 1; destruct (for_all f l w0) as [w1 o] end.
  cbn [snd] in Hp. rewrite Hp; [done| |done|].
  - intros y w2 Hy. destruct (Hcl y Hy) as [cs' ->]. unfold bind, some_or_panic, ret. cbv beta iota.
    destruct (IsAllowedClient (ClientTypes.Genesis_Params g) (ClientType cs')); [left; reflexivity|right; reflexivity].
  - intros w2. rewrite Hcs. unfold bind, some_or_panic, ret. cbv beta iota. by rewrite Ha.
Qed.

Definition connection_entries (g : GenesisState) : list (string * string) :=
  (connection_entry <$> Connections g) ++ (paths_entry <$> ClientConnectionPaths g) ++
  [(KeyNextConnectionSequence, Uint64ToBigEndian (NextConnectionSequence g))].

Lemma import_connections g w :
  InitGenesis g w = (set_ibc (put_all (connection_entries g) (ibc w)) (set_time_per_block (Genesis_Params g) w), Ok tt).
Proof.
  unfold InitGenesis.
  assert (writes (for_all (λ connection, SetConnection (Id connection) (connection_of connection)) (Connections g))
            (connection_entry <$> Connections g)) as H1 by (rewrite fmap_as_bind; by apply writes_for_all).
  assert (writes (for_all (λ connPaths, SetClientConnectionPaths (cp_ClientId connPaths) (cp_Paths connPaths))
            (ClientConnectionPaths g)) (paths_entry <$> ClientConnectionPaths g)) as H2
    by (rewrite fmap_as_bind; by apply writes_for_all).
  erewrite bind_run by exact (H1 _). erewrite bind_run by exact (H2 _). unfold connection_entries. by rewrite !put_all_app.
Qed.
End import.

(** ** The round trip *)
Section roundtrip.
Context {SE : SdkEncoding} {LC : LightClient} {CD : Codec} {CK : CapabilityKeeper} {AP : Application}.
Import clientgenesis connectiongenesis.

Definition holds_sequence (s : KVStore) (k : string) : Prop :=
  ∃ n, (n < two64)%N ∧ s !! k = Some (Uint64ToBigEndian n).

(** The client [c] of the chain has the state [cs]. *)
Definition stored_client (w : World) (c : string) (cs : ClientState) : Prop :=
  no_char "/" c = true ∧ encodable_ClientState cs ∧ ibc w !! FullClientStateKey c = Some (Marshal_ClientState cs).

(** A chain whose core module can be exported: a well-formed store with the three
    counters and valid parameters; every entry of a client is a consensus state, its state,
    its connections or metadata that its light client exports; and the light clients export
    only what they store, under a key and with a value. *)
Record exportable (w : World) : Prop := {
  exp_wf : store_wf (ibc w);
  exp_client_sequence : holds_sequence (ibc w) KeyNextClientSequence;
  exp_connection_sequence : holds_sequence (ibc w) KeyNextConnectionSequence;
  exp_channel_sequence : holds_sequence (ibc w) KeyNextChannelSequence;
  exp_params : validateClients (AllowedClients w) = Ok tt;
  exp_entries c path v : no_char "/" c = true → ibc w !! FullClientKey c path = Some v →
    (∃ h, path = ConsensusStateKey h) ∨
    ∃ cs, encodable_ClientState cs ∧ ibc w !! FullClientStateKey c = Some (Marshal_ClientState cs) ∧
      (path = KeyClientState ∨ path = KeyConnectionPrefix ∨ (path, v) ∈ ExportMetadata cs (client_view c w));
  exp_clients c cs p v : stored_client w c cs → (p, v) ∈ ExportMetadata cs (client_view c w) →
    p ≠ "" ∧ v ≠ "" ∧ ibc w !! FullClientKey c p = Some v }.

Lemma elem_of_iterator s P e : e ∈ PrefixIterator s P ↔ HasPrefix e.1 P = true ∧ s !! e.1 = Some e.2.
Proof.
  destruct e as [k v]. unfold PrefixIterator. by rewrite list_elem_of_filter, elem_of_entries.
Qed.

(** The clients of the chain, as the iterator lists them. *)
Definition lists_clients (w : World) (l : list (string * ClientState)) : Prop :=
  IterateClients w = (w, Ok l) ∧ Forall (λ x, no_char "/" x.1 = true ∧ encodable_ClientState x.2) l ∧
  (∀ x, x ∈ l → ibc w !! FullClientStateKey x.1 = Some (Marshal_ClientState x.2)) ∧
  (∀ c cs, no_char "/" c = true → encodable_ClientState cs →
     ibc w !! FullClientStateKey c = Some (Marshal_ClientState cs) → (c, cs) ∈ l).

Lemma clients_listed w : store_wf (ibc w) → ∃ l, lists_clients w l.
Proof.
  intros Hwf. destruct (iterate_clients_spec _ (iterator_visits _ KeyClientStorePrefix Hwf)) as (l & Hr & Hl & Hok).
  exists l. split_and!; [unfold IterateClients, bind, gets, lift; by rewrite Hr|done| |].
  - intros x Hx. assert (client_entry x ∈ client_entry <$> l) as Hin by (by apply list_elem_of_fmap_2).
    rewrite Hl in Hin. apply list_elem_of_filter in Hin as [_ Hin]. by apply elem_of_iterator in Hin as [_ Hin].
  - intros c cs Hc Hcs Hk.
    assert ((FullClientStateKey c, Marshal_ClientState cs) ∈ client_entry <$> l) as Hin.
    { rewrite Hl. apply list_elem_of_filter. split.
      - unfold client_state_entry. cbn [fst]. change (FullClientStateKey c) with (render (KClient c KeyClientState)).
        by rewrite Split_render.
      - apply elem_of_iterator. split; [|done]. apply (HasPrefix_app KeyClientStorePrefix). }
    apply list_elem_of_fmap in Hin as ([c' cs'] & E & Hin). rewrite list.Forall_forall in Hok. destruct (Hok _ Hin) as [Hc' Hcs'].
    apply pair_equal_spec in E as [E1 E2]. cbn [fst snd] in *.
    apply (render_inj (KClient c KeyClientState) (KClient c' KeyClientState)) in E1; [|done..]. injection E1 as <-.
    apply (f_equal Unmarshal_ClientState) in E2. rewrite !ClientState_roundtrip in E2 by done. by injection E2 as <-.
Qed.

Lemma consensus_states_listed w :
  store_wf (ibc w) →
  ∃ l, GetAllConsensusStates w = (w, Ok l) ∧
    Forall (λ x, is_Some (cached_consensus (WithHeight_ConsensusState x.2))) (grouped l) ∧
    (∀ e, e ∈ consensus_entry <$> grouped l → ibc w !! e.1 = Some e.2) ∧
    (∀ c h v, no_char "/" c = true → ibc w !! FullConsensusStateKey c h = Some v →
       (FullConsensusStateKey c h, v) ∈ consensus_entry <$> grouped l).
Proof.
  intros Hwf. destruct (iterate_consensus_states_spec _ (iterator_visits _ KeyClientStorePrefix Hwf)) as (r & Hr & Hrl & Hs).
  eexists. split; [unfold GetAllConsensusStates, IterateConsensusStates, bind, gets, lift; by rewrite Hr|].
  match goal with |- context [grouped ?L] => assert (grouped L ≡ₚ r) as Hp by (by rewrite grouped_sort, grouped_all) end.
  rewrite Hp. split_and!; [done| |].
  - intros e He. rewrite Hp, Hrl in He. apply list_elem_of_filter in He as [_ He]. by apply elem_of_iterator in He as [_ He].
  - intros c h v Hc Hv. rewrite Hp, Hrl. apply list_elem_of_filter. split.
    + unfold consensus_state_entry. cbn [fst].
      change (FullConsensusStateKey c h) with (render (KClient c (ConsensusStateKey h))).
      rewrite Split_render by done. simpl. unfold ConsensusStateKey, ConsensusStatePath.
      rewrite Split_path by done. by rewrite Split_last by auto with ibc.
    + apply elem_of_iterator. split; [|done]. apply (HasPrefix_app KeyClientStorePrefix).
Qed.

Lemma sorted_clients (l : list (string * ClientState)) :
  ∃ l', IdentifiedClientStates_Sort ((λ x, NewIdentifiedClientState x.1 x.2) <$> l) =
          (λ x, NewIdentifiedClientState x.1 x.2) <$> l' ∧ l ≡ₚ l'.
Proof. apply Permutation_map_inv, merge_sort_Permutation. Qed.

Lemma elem_of_metadata w l k v :
  (k, v) ∈ l ≫= exported_metadata w ↔
  ∃ c cs p, (c, cs) ∈ l ∧ k = FullClientKey c p ∧ (p, v) ∈ ExportMetadata cs (client_view c w).
Proof.
  rewrite list_elem_of_bind. split.
  - intros ([c cs] & ([p u] & E & Hp)%list_elem_of_fmap & Hin). apply pair_equal_spec in E as [-> ->].
    by exists c, cs, p.
  - intros (c & cs & p & Hin & -> & Hp). exists (c, cs). split; [|done]. apply list_elem_of_fmap. by exists (p, v).
Qed.

(** The clients in the order of the export. *)
Definition exports_clients (w : World) (l : list (string * ClientState)) (g : ClientTypes.GenesisState) : Prop :=
  Genesis_Clients g = ((λ x, NewIdentifiedClientState x.1 x.2) <$> l) ∧
  ClientTypes.Genesis_Params g = AllowedClients w ∧
  ClientsMetadata g ≫= metadata_entries = l ≫= exported_metadata w ∧
  ClientsMetadata g ≫= ClientMetadata =
    (l ≫= λ x, (λ md, NewGenesisMetadata md.1 md.2) <$> ExportMetadata x.2 (client_view x.1 w)) ∧
  GetAllConsensusStates w = (w, Ok (ClientsConsensus g)) ∧
  ibc w !! KeyNextClientSequence = Some (Uint64ToBigEndian (NextClientSequence g)).

Lemma client_export_run w :
  store_wf (ibc w) → holds_sequence (ibc w) KeyNextClientSequence →
  ∃ l g, clientgenesis.ExportGenesis w = (w, Ok g) ∧ exports_clients w l g ∧
    ∀ c cs, (c, cs) ∈ l ↔ stored_client w c cs.
Proof.
  intros Hwf (n & Hn & Hnext).
  destruct (clients_listed w Hwf) as (cl & Hit & Hok & Hin & Hall).
  destruct (consensus_states_listed w Hwf) as (ccs & Hccs & _).
  destruct (sorted_clients cl) as (l' & Hsort & Hperm).
  destruct (GetAllClientMetadata_spec w l') as (mds & Hmds & Hent & Hkeys).
  exists l'. eexists. split; [|split].
  { unfold clientgenesis.ExportGenesis, GetAllGenesisClients, clientgenesis.GetParams, GetNextClientSequence, get_store, must.
    unfold bind at 1 2. rewrite Hit. unfold ret at 1. rewrite Hsort. unfold bind. rewrite Hmds, Hccs.
    unfold gets. rewrite Hnext. reflexivity. }
  { split_and!; try done. cbn [NextClientSequence]. by rewrite be_roundtrip. }
  intros c cs. rewrite <- Hperm. split; [|intros (? & ? & ?); by apply Hall].
  intros Hc. rewrite list.Forall_forall in Hok. destruct (Hok _ Hc). split_and!; [done..|]. by apply (Hin (c, cs)).
Qed.

Lemma elem_of_client_entries w l g k v :
  exports_clients w l g →
  (k, v) ∈ client_entries g ↔
  (∃ c cs p, (c, cs) ∈ l ∧ k = FullClientKey c p ∧ (p, v) ∈ ExportMetadata cs (client_view c w)) ∨
  (∃ c cs, (c, cs) ∈ l ∧ k = FullClientStateKey c ∧ v = Marshal_ClientState cs) ∨
  (k, v) ∈ consensus_entry <$> grouped (ClientsConsensus g) ∨
  (k = KeyNextClientSequence ∧ v = Uint64ToBigEndian (NextClientSequence g)).
Proof.
  intros (Hcl & _ & Hmd & _). unfold client_entries. rewrite Hcl, Hmd, !elem_of_app, elem_of_metadata.
  rewrite list_elem_of_singleton, pair_equal_spec.
  assert ((k, v) ∈ identified_entry <$> ((λ x, NewIdentifiedClientState x.1 x.2) <$> l) ↔
    ∃ c cs, (c, cs) ∈ l ∧ k = FullClientStateKey c ∧ v = Marshal_ClientState cs) as ->; [|done].
  rewrite <- list_fmap_compose, list_elem_of_fmap. split.
  - intros ([c cs] & [-> ->]%pair_equal_spec & Hin). by exists c, cs.
  - intros (c & cs & Hin & -> & ->). by exists (c, cs).
Qed.

Lemma client_export w :
  exportable w →
  ∃ g, clientgenesis.ExportGenesis w = (w, Ok g) ∧ client_importable g ∧
    (∀ ic, ic ∈ Genesis_Clients g ↔ ∃ c cs, ic = NewIdentifiedClientState c cs ∧ stored_client w c cs) ∧
    ClientTypes.Genesis_Params g = AllowedClients w ∧
    (∀ e, e ∈ client_entries g → ibc w !! e.1 = Some e.2) ∧
    (∀ c path v, no_char "/" c = true → path ≠ KeyConnectionPrefix → ibc w !! FullClientKey c path = Some v →
       (FullClientKey c path, v) ∈ client_entries g) ∧
    (∀ v, ibc w !! KeyNextClientSequence = Some v → (KeyNextClientSequence, v) ∈ client_entries g).
Proof.
  intros [Hwf Hseq _ _ Hparams Hentries Hclients].
  destruct (client_export_run w Hwf Hseq) as (l & g & Hrun & Hg & Hl).
  destruct (consensus_states_listed w Hwf) as (ccs & Hccs & Hcached & Hcin & Hcall).
  pose proof (λ k v, elem_of_client_entries w l g k v Hg) as He.
  destruct Hg as (Hcl & Hpar & _ & Hkeys & Hccs' & Hnext). rewrite Hccs in Hccs'. injection Hccs' as ->.
  exists g. split_and!; [done|split_and!|..|done| | |].
  - by rewrite Hpar.
  - intros e. rewrite Hkeys. intros ([c cs] & ([p v] & -> & Hp)%list_elem_of_fmap & Hst%Hl)%list_elem_of_bind.
    destruct (Hclients _ _ _ _ Hst Hp) as (? & ? & _). done.
  - rewrite Hcl. intros ic ([c cs] & -> & _)%list_elem_of_fmap. by eexists.
  - done.
  - intros ic. rewrite Hcl, list_elem_of_fmap. split.
    + intros ([c cs] & -> & Hst%Hl). eauto.
    + intros (c & cs & -> & Hst). exists (c, cs). split; [done|by apply Hl].
  - intros [k v] [(c & cs & p & Hst%Hl & -> & Hp)|[(c & cs & (? & ? & ?)%Hl & -> & ->)|[Hk|[-> ->]]]]%He; try done.
    + cbn [fst snd]. by destruct (Hclients _ _ _ _ Hst Hp) as (_ & _ & ?).
    + by apply Hcin in Hk.
  - intros c path v Hc Hne Hv. apply He. destruct (Hentries _ _ _ Hc Hv) as [[h ->]|(cs & Hcs & Hst & [->|[->|Hmd]])].
    + right; right; left. by apply Hcall.
    + right; left. exists c, cs. split_and!; [by apply Hl|done|]. unfold FullClientStateKey in Hst. congruence.
    + done.
    + left. exists c, cs, path. split_and!; [by apply Hl|done..].
  - intros v Hv. apply He. right; right; right. split; congruence.
Qed.

Lemma connection_export w :
  exportable w →
  ∃ g, ExportGenesis w = (w, Ok g) ∧ Genesis_Params g = NewParams (MaxExpectedTimePerBlock w) ∧
    (∀ e, e ∈ connection_entries g → ibc w !! e.1 = Some e.2) ∧
    (∀ c v, ibc w !! ConnectionKey c = Some v → (ConnectionKey c, v) ∈ connection_entries g) ∧
    (∀ c v, no_char "/" c = true → ibc w !! ClientConnectionsKey c = Some v →
       (ClientConnectionsKey c, v) ∈ connection_entries g) ∧
    (∀ v, ibc w !! KeyNextConnectionSequence = Some v → (KeyNextConnectionSequence, v) ∈ connection_entries g).
Proof.
  intros [Hwf _ (n & Hn & Hnext) _ _ Hentries _].
  destruct (clients_listed w Hwf) as (cl & Hit & Hok & Hin & Hall).
  destruct (exported_connections _ (iterator_visits _ KeyConnectionPrefix Hwf)) as (cs & Hcs & Hcsl).
  destruct (client_connection_paths_spec w cl Hwf Hok) as (ps & Hps & Hpsl).
  eexists. split.
  { unfold ExportGenesis, GetAllConnections, IterateConnections, GetAllClientConnectionPaths, GetNextConnectionSequence,
      get_store, GetParams, GetMaxExpectedTimePerBlock, lift, gets, bind. rewrite Hcs, Hit, Hps, Hnext. reflexivity. }
  unfold connection_entries. cbn [Connections ClientConnectionPaths NextConnectionSequence Genesis_Params].
  rewrite Hcsl, Hpsl, be_roundtrip by done. split_and!; [done|..]; setoid_rewrite elem_of_app; setoid_rewrite elem_of_app.
  - intros e [[_ He]%elem_of_iterator|[([c st] & Hp & Hc)%list_elem_of_bind| ->%list_elem_of_singleton]]; [done| |done].
    unfold stored_paths in Hp. cbn [fst] in Hp. destruct (ibc w !! ClientConnectionsKey c) eqn:E; [|by apply elem_of_nil in Hp].
    by apply list_elem_of_singleton in Hp as ->.
  - intros c v Hv. left. apply elem_of_iterator. split; [|done]. apply (HasPrefix_app KeyConnectionPrefix).
  - intros c v Hc Hv. right; left. apply list_elem_of_bind.
    destruct (Hentries _ KeyConnectionPrefix _ Hc Hv) as [[h Hh]|(st & Hst & Hk & _)]; [discriminate Hh|].
    exists (c, st). split; [|by apply Hall]. unfold stored_paths. cbn [fst]. rewrite Hv. by left.
  - intros v Hv. right; right. rewrite Hnext in Hv. injection Hv as <-. by left.
Qed.

(** Together the three parts cover the store. *)
Lemma import_covers w E k :
  store_wf (ibc w) → (∀ e, e ∈ E → ibc w !! e.1 = Some e.2) →
  (∀ x v, key_ids_ok x = true → ibc w !! render x = Some v → channel_part (render x) = true ∨ (render x, v) ∈ E) →
  (if channel_part k then match ibc w !! k with Some v => Some v | None => put_all E ∅ !! k end else put_all E ∅ !! k) =
  ibc w !! k.
Proof.
  intros Hwf HE Hcov. rewrite (put_all_agree (ibc w)) by done. destruct (ibc w !! k) as [v|] eqn:Hk.
  - destruct (Hwf _ _ Hk) as (x & -> & Hx & _). destruct (Hcov _ _ Hx Hk) as [->|Hin]; [done|].
    rewrite decide_True; [by destruct (channel_part _)|]. by apply (list_elem_of_fmap_2 fst) in Hin.
  - by destruct (decide _), (channel_part k).
Qed.

(** C20: The genesis state exported from a chain, imported into a chain with an empty IBC store,
    gives the IBC store of the first chain and its parameters, and the rest of the second
    chain is as it was, provided that the parameters of the first chain allow the type of
    every client it has: if they were narrowed after a client was created, the export
    succeeds and the import panics.  The first chain is [exportable]: its store is
    well-formed, with the three counters that the code initialises at genesis and valid
    parameters; what its clients store is their state, consensus states, connections and
    the metadata that the light client exports; and the light clients export only what they
    store. *)
Theorem core_genesis_roundtrip w :
  exportable w →
  ∃ g, coregenesis.ExportGenesis w = (w, Ok g) ∧
    ∀ w0 createLocalhost, ibc w0 = ∅ →
      ((∀ c cs, stored_client w c cs → IsAllowedClient (AllowedClients w) (ClientType cs) = true) →
       coregenesis.InitGenesis createLocalhost g w0 =
       (mkWorld (ibc w) (caps w0) (Exported.app w0) (AllowedClients w) (MaxExpectedTimePerBlock w) (events w0), Ok tt)) ∧
      (∀ c cs, stored_client w c cs → IsAllowedClient (AllowedClients w) (ClientType cs) = false →
       (coregenesis.InitGenesis createLocalhost g w0).2 = Panic).
Proof.
  intros Hw. pose proof (exp_wf _ Hw) as Hwf. destruct (exp_channel_sequence _ Hw) as (n & Hn & Hnext).
  destruct (client_export w Hw) as (g1 & R1 & I1 & L1 & P1 & A1 & C1 & N1).
  destruct (connection_export w Hw) as (g2 & R2 & P2 & A2 & C2 & D2 & N2).
  destruct (channel_genesis_roundtrip w n (λ P _, store_wf_below _ P Hwf) Hnext Hn) as (g3 & R3 & _ & I3).
  exists (coregenesis.mkGenesisState _ g1 g2 g3). split.
  { unfold coregenesis.ExportGenesis, bind. by rewrite R1, R2, R3. }
  intros w0 b H0. split; cycle 1.
  { intros c cs Hst Hno. unfold coregenesis.InitGenesis, bind at 1. cbn [coregenesis.ClientGenesis].
    assert ((clientgenesis.InitGenesis g1 w0).2 = Panic) as Hp.
    { apply (import_clients_refused g1 w0 (NewIdentifiedClientState c cs) cs); [done|apply L1; eauto|done|by rewrite P1]. }
    destruct (clientgenesis.InitGenesis g1 w0) as [w1 o]. cbn [snd] in Hp. by subst o. }
  intros Hal. assert (clients_allowed g1) as Ha1.
  { intros ic cs (c & cs' & -> & Hst)%L1 [= <-]. rewrite P1. by eapply Hal. }
  unfold coregenesis.InitGenesis. cbn [coregenesis.ClientGenesis coregenesis.ConnectionGenesis coregenesis.ChannelGenesis].
  erewrite bind_run by (by apply import_clients). erewrite bind_run by apply import_connections.
  match goal with |- channelgenesis.InitGenesis _ ?w1 = _ => destruct (I3 w1) as (s & -> & Hs) end.
  assert (s = ibc w) as ->.
  { apply map_eq. intros k. rewrite Hs. simpl. rewrite H0, <- put_all_app. apply import_covers; [done|..].
    - intros e [He|He]%elem_of_app; auto.
    - intros x v Hx Hv. rewrite elem_of_app. destruct x; try (by left); try (right; by auto); [|right; right; by apply C2].
      destruct (decide (path = KeyConnectionPrefix)) as [->|Hne]; [right; right; by apply D2|right; left; by apply C1]. }
  unfold set_ibc, set_time_per_block, set_allowed. simpl. by rewrite P1, P2.
Qed.
End roundtrip.

(** ** A chain to export

    A chain with a client, a connection and an unordered channel with a packet in each
    stage, on which the round trip of the genesis state is evaluated. *)
Module GenesisWitness.
Import ToyInstances Scenario.

Definition height : Height := NewHeight 1 10.
Definition keys : list (store_key * string) := [
  (KNextClientSequence, be 1); (KNextConnectionSequence, be 6); (KNextChannelSequence, be 2);
  (KClient clientID KeyClientState, enc (mkFNClient height false));
  (KClient clientID (ConsensusStateKey height), enc (mkFNConsensus 900 ∅));
  (KClient clientID KeyConnectionPrefix, Marshal_ClientPaths ["connection-0"]);
  (KConnection "connection-0", enc (connection "connection-5"));
  (KChannelEnd "transfer" "channel-0", enc (channelA UNORDERED));
  (KNextSequenceSend "transfer" "channel-0", be 3);
  (KNextSequenceRecv "transfer" "channel-0", be 1);
  (KNextSequenceAck "transfer" "channel-0", be 1);
  (KPacketCommitment "transfer" "channel-0" 2, "commitment");
  (KPacketReceipt "transfer" "channel-0" 7, String "001" "");
  (KPacketAcknowledgement "transfer" "channel-0" 7, "acknowledgement")].
Definition store : KVStore := list_to_map ((λ e, (render e.1, e.2)) <$> keys).
Definition world : World := chain store (chain_caps "channel-0").
Definition fresh : World := @mkWorld toy_caps toy_app ∅ ∅ ∅ [] 0 [].

Lemma store_elem k v : store !! k = Some v → ∃ x, (x, v) ∈ keys ∧ k = render x.
Proof.
  intros Hk%elem_of_list_to_map_2. apply list_elem_of_fmap in Hk as ([x u] & [-> ->]%pair_equal_spec & Hin). eauto.
Qed.

Lemma keys_wf : Forall (λ e, key_ids_ok e.1 = true ∧ entry_wf e.1 e.2) keys.
Proof.
  unfold keys. repeat apply list.Forall_cons_2; try apply list.Forall_nil_2; cbn [fst snd]; (split; [reflexivity|]).
  all: try (by eexists). all: try (by eexists; split; [|reflexivity]).
  - split_and!; [intros _; split; [done|]; by eexists|intros E; discriminate E|intros ? E; discriminate E].
  - split_and!; [intros E; discriminate E|intros E; discriminate E|]. intros s _.
    exists height, (mkFNConsensus 900 ∅). done.
  - split_and!; [intros E; discriminate E|intros _; by eexists|intros ? E; discriminate E].
Qed.

Lemma store_is_wf : store_wf store.
Proof.
  intros k v (x & Hin & ->)%store_elem. exists x. pose proof keys_wf as H. rewrite list.Forall_forall in H.
  destruct (H _ Hin). done.
Qed.

(** What the chain stores for clients. *)
Lemma client_elem c path v :
  no_char "/" c = true → store !! FullClientKey c path = Some v → (KClient c path, v) ∈ keys.
Proof.
  intros Hc (x & Hin & Hx)%store_elem. pose proof keys_wf as H. rewrite list.Forall_forall in H.
  destruct (H _ Hin) as [Hid _]. apply (render_inj (KClient c path)) in Hx; [by subst x|done..].
Qed.

Lemma world_exportable : exportable world.
Proof.
  constructor.
  - exact store_is_wf.
  - exists 1%N. split; [done|]. vm_compute; reflexivity.
  - exists 6%N. split; [done|]. vm_compute; reflexivity.
  - exists 2%N. split; [done|]. vm_compute; reflexivity.
  - reflexivity.
  - intros c path v Hc Hv%client_elem; [|done].
    repeat (apply elem_of_cons in Hv as [[E1 E2]%pair_equal_spec|Hv]; [try discriminate E1|]); [| | |by apply elem_of_nil in Hv].
    + right. injection E1 as -> ->. exists (mkFNClient height false). split_and!; [done|vm_compute; reflexivity|by left].
    + left. injection E1 as -> ->. by eexists.
    + right. injection E1 as -> ->. exists (mkFNClient height false). split_and!; [done|vm_compute; reflexivity|by right; left].
  - intros c cs p v _ Hp. by apply elem_of_nil in Hp.
Qed.

Lemma core_genesis_roundtrip_witness :
  ibc world !! PacketReceiptKey "transfer" "channel-0" 7 = Some (String "001" "") ∧
  ∃ g, coregenesis.ExportGenesis world = (world, Ok g) ∧
    (coregenesis.InitGenesis false g fresh).2 = Ok tt ∧ ibc (coregenesis.InitGenesis false g fresh).1 = ibc world.
Proof.
  split; [vm_compute; reflexivity|].
  destruct (core_genesis_roundtrip world world_exportable) as (g & Hexp & Himp). exists g. split; [done|].
  pose proof (proj1 (Himp fresh false eq_refl) (λ c cs _, eq_refl)) as E. split; [exact (f_equal snd E)|exact (f_equal (λ r, ibc r.1) E)].
Defined.
End GenesisWitness.
