(* ===== verification/ChannelExport.v ===== *)
(** * The channels of a running chain can be exported

    What transactions leave in the channel part of the store: only well-formed entries,
    that validation of a genesis state accepts.  So at any time of the life of a chain the
    channel submodule can be exported, the export is valid, and a new chain that starts
    from it has the same channels. *)
From S2P Require Import Prelude GoMonad Errors Sha256 Height Host Sdk ConnectionTypes.
From S2P Require Import ChannelTypes Exported ClientKeeper ConnectionKeeper PortKeeper.
From S2P Require Import ChannelKeeper ChannelHandshake FullNode Scenario ChannelSpec.
From S2P Require Import HandshakeSpec.
From S2P Require Import ChannelView ChannelSystem ChannelSafety Router MsgServer Messages.
From S2P Require Import MsgServerProperties MessageProperties Iteration ChannelGenesis.
From S2P Require Import GenesisProperties.
From Stdlib Require Import Ascii.

(** ** Valid stores *)
Section store.
Context {SE : SdkEncoding} {LC : LightClient} {CD : Codec}.

Definition seq_ok (n : N) : Prop := (0 < n < two64)%N.
(** A channel end under a generated identifier. *)
Definition end_valid (next : N) (p c : string) : Prop :=
  PortIdentifierValidator p = Ok tt ∧ ∃ m, (m < next)%N ∧ c = FormatChannelIdentifier m.

Definition entry_valid (next : N) (k : store_key) (v : string) : Prop :=
  match k with
  | KChannelEnd p c => end_valid next p c ∧ ∃ ch, v = Marshal_Channel ch ∧ Channel_ValidateBasic ch = Ok tt
  | KNextSequenceSend p c | KNextSequenceRecv p c | KNextSequenceAck p c =>
      end_valid next p c ∧ ∃ n, seq_ok n ∧ v = Uint64ToBigEndian n
  | KPacketCommitment p c n | KPacketAcknowledgement p c n => end_valid next p c ∧ seq_ok n ∧ v ≠ ""
  | KPacketReceipt p c n => end_valid next p c ∧ seq_ok n ∧ v = String "001" ""
  | _ => False
  end.

(** The channel part of the store, when [next] channels were opened. *)
Record channels_valid (next : N) (s : KVStore) : Prop := {
  cv_bound : (next < two64)%N;
  cv_next : s !! KeyNextChannelSequence = Some (Uint64ToBigEndian next);
  cv_entries k v : channel_part k = true → k ≠ KeyNextChannelSequence → s !! k = Some v →
    ∃ x, k = render x ∧ entry_valid next x v }.

Lemma end_valid_mono next next' p c : (next ≤ next')%N → end_valid next p c → end_valid next' p c.
Proof. intros Hle [Hp (m & Hm & ->)]. split; [done|]. exists m. split; [lia|done]. Qed.
Lemma end_valid_ids next p c : end_valid next p c → ids_ok p c.
Proof.
  intros [Hp (m & _ & ->)]. split; [by apply valid_port_no_slash|apply FormatChannelIdentifier_no_slash].
Qed.
Lemma entry_valid_mono next next' k v : (next ≤ next')%N → entry_valid next k v → entry_valid next' k v.
Proof. intros Hle. destruct k; simpl; try done; intros [He Hx]; eauto using end_valid_mono. Qed.
Lemma entry_valid_ids next k v : entry_valid next k v → key_ids_ok k = true.
Proof. destruct k; simpl; try done; intros [He _]; by apply key_ids, (end_valid_ids next). Qed.
Lemma entry_valid_key next k v : entry_valid next k v → channel_key k = true ∧ k ≠ KNextChannelSequence.
Proof. by destruct k. Qed.

Lemma channels_valid_same next s s' : same_channels s s' → channels_valid next s → channels_valid next s'.
Proof.
  intros Hs [Hb Hn He]. split; [done|by rewrite (next_channel_same _ _ Hs)|].
  intros k v Hk Hne Hv. apply He; [done..|]. by rewrite <- Hs.
Qed.

Lemma render_not_next k : key_ids_ok k = true → k ≠ KNextChannelSequence → render k ≠ KeyNextChannelSequence.
Proof. intros Hid Hne E. apply Hne. by apply render_inj. Qed.

(** Writes of valid entries, and the removal of an entry. *)
Definition write_valid (next : N) (kx : store_key * option string) : Prop :=
  match kx.2 with
  | Some v => entry_valid next kx.1 v
  | None => key_ids_ok kx.1 = true ∧ kx.1 ≠ KNextChannelSequence
  end.

Lemma channels_valid_write next s k x :
  write_valid next (k, x) → channels_valid next s → channels_valid next (write_key k x s).
Proof.
  intros Hw [Hb Hn He]. destruct x as [y|]; unfold write_valid in Hw; cbn [fst snd] in Hw; unfold write_key.
  - pose proof (entry_valid_ids _ _ _ Hw) as Hid. destruct (entry_valid_key _ _ _ Hw) as [_ Hne].
    split; [done|rewrite lookup_insert_ne; [done|by apply render_not_next]|].
    intros k' v Hk' Hne' Hv. destruct (decide (render k = k')) as [<-|Hd].
    + rewrite lookup_insert_eq in Hv. injection Hv as <-. by exists k.
    + rewrite lookup_insert_ne in Hv by done. by apply He.
  - destruct Hw as [Hid Hne]. split; [done|rewrite lookup_delete_ne; [done|by apply render_not_next]|].
    intros k' v Hk' Hne' [_ Hv]%lookup_delete_Some. by apply He.
Qed.
Lemma channels_valid_writes next l s :
  Forall (write_valid next) l → channels_valid next s → channels_valid next (run_writes l s).
Proof.
  intros Hl. revert s. induction Hl as [|[k x] l Hk Hl IH]; intros s Hs; simpl; [done|].
  by apply IH, channels_valid_write.
Qed.

(** The next identifier is used. *)
Lemma channels_valid_opened next s :
  channels_valid next s → (next < MaxUint64)%N →
  channels_valid (next + 1) (<[KeyNextChannelSequence := Uint64ToBigEndian (u64 (next + 1))]> s).
Proof.
  intros [Hb Hn He] Hlt. rewrite u64_succ by done. split; [unfold MaxUint64, two64 in *; lia|apply lookup_insert_eq|].
  intros k v Hk Hne Hv. rewrite lookup_insert_ne in Hv by done. destruct (He _ _ Hk Hne Hv) as (x & -> & Hx).
  exists x. split; [done|]. by eapply entry_valid_mono; [|exact Hx]; lia.
Qed.

(** What is known of an entry. *)
Lemma channels_valid_lookup next s k v :
  channels_valid next s → channel_key k = true → k ≠ KNextChannelSequence → key_ids_ok k = true →
  s !! render k = Some v → entry_valid next k v.
Proof.
  intros [_ _ He] Hk Hne Hid Hv. destruct (He (render k) v) as (x & E & Hx); [by apply render_channel_part|by apply render_not_next|done|].
  apply render_inj in E as ->; [done|done|]. by eapply entry_valid_ids.
Qed.
Lemma channels_valid_chan next s p c ch :
  channels_valid next s → ids_ok p c → s !! ChannelKey p c ≫= Unmarshal_Channel = Some ch →
  end_valid next p c ∧ Channel_ValidateBasic ch = Ok tt.
Proof.
  intros Hs Hid. destruct (s !! ChannelKey p c) as [v|] eqn:Hv; [|done].
  destruct (channels_valid_lookup next s (KChannelEnd p c) v Hs eq_refl) as [He (ch' & -> & Hch)]; [done|by apply key_ids|done|].
  simpl. rewrite Channel_roundtrip. by intros [= <-].
Qed.
Lemma channels_valid_counter next s (key : string → string → store_key) p c n :
  channels_valid next s → ids_ok p c →
  key = KNextSequenceSend ∨ key = KNextSequenceRecv ∨ key = KNextSequenceAck →
  BigEndianToUint64 <$> s !! render (key p c) = Some n → seq_ok n.
Proof.
  intros Hs Hid Hkey. destruct (s !! render (key p c)) as [v|] eqn:Hv; [|done]. intros [= <-].
  assert (∃ m, seq_ok m ∧ v = Uint64ToBigEndian m) as (m & Hm & ->).
  { destruct Hkey as [->|[->| ->]]; apply (channels_valid_lookup next s _ v Hs) in Hv as [_ Hx]; try done; by apply key_ids. }
  destruct Hm. by rewrite be_roundtrip.
Qed.
End store.

(** ** Every operation keeps the store valid *)
Section actions.
Context {SE : SdkEncoding} {LC : LightClient} {CD : Codec} {CK : CapabilityKeeper} {AP : Application}.

(** What message validation guarantees of the content of a message. *)
Definition content_ok (a : action) : Prop :=
  match a with
  | Do_recv _ _ pkt _ _ | Do_write_ack _ pkt _ => seq_ok (Sequence pkt)
  | Do_open_init order hops _ _ cp v _ => Channel_ValidateBasic (NewChannel INIT order cp hops v) = Ok tt
  | Do_open_try _ order hops _ _ _ cp _ _ _ _ => ∀ v, Channel_ValidateBasic (NewChannel TRYOPEN order cp hops v) = Ok tt
  | Do_open_ack _ _ _ _ _ cpc _ _ _ => ChannelIdentifierValidator cpc = Ok tt
  | _ => True
  end.
Definition action_valid (a : action) : Prop := action_ok a ∧ content_ok a.

Definition valid_world (w : World) : Prop := well_formed w ∧ ∃ next, channels_valid next (ibc w).

(** Channel records that differ in their state, version or the identifier of the counterparty. *)
Lemma set_State_valid st ch :
  st ≠ UNINITIALIZED → Channel_ValidateBasic ch = Ok tt → Channel_ValidateBasic (set_State st ch) = Ok tt.
Proof.
  intros Hst. unfold Channel_ValidateBasic. simpl. rewrite (bool_decide_eq_false_2 (st = _)) by done. by case_bool_decide.
Qed.
Lemma open_ack_valid ch cpc v :
  ChannelIdentifierValidator cpc = Ok tt → Channel_ValidateBasic ch = Ok tt →
  Channel_ValidateBasic (NewChannel OPEN (Channel_Ordering ch)
    (NewCounterparty (Counterparty_PortId (Channel_Counterparty ch)) cpc) (ConnectionHops ch) v) = Ok tt.
Proof.
  intros Hc. unfold Channel_ValidateBasic, Counterparty_ValidateBasic. cbn [Channel_State Channel_Ordering ConnectionHops
    Channel_Counterparty Counterparty_PortId Counterparty_ChannelId].
  rewrite (bool_decide_eq_false_2 (OPEN = _)) by done.
  destruct (bool_decide (Channel_State ch = UNINITIALIZED)); [done|]. destruct (negb _); [done|]. destruct (ConnectionHops ch) as [|hop [|]]; [done| |done].
  destruct (outcome_wrap (ConnectionIdentifierValidator hop)); [|done..].
  destruct (outcome_wrap (PortIdentifierValidator _)); [|done..]. rewrite Hc. intros _. by destruct (bool_decide _).
Qed.

(** Writes to the keys of an existing end. *)
Lemma valid_writes next w w' s l :
  channels_valid next (ibc w) → same_channels (ibc w) s → ibc w' = run_writes l s →
  Forall (write_valid next) l → ∃ next, channels_valid next (ibc w').
Proof. intros Hs Hsame -> Hl. exists next. apply channels_valid_writes; [done|]. by eapply channels_valid_same. Qed.

Lemma seq_succ n : (n < MaxUint64)%N → seq_ok (u64 (n + 1)).
Proof. intros H. rewrite u64_succ by done. unfold seq_ok, MaxUint64, two64 in *. lia. Qed.

(** The entries of a list of writes, at an end that is valid by [He]. *)
Ltac entries He :=
  repeat (apply list.Forall_cons; split); [..|apply list.Forall_nil_2];
  unfold write_valid; cbn [fst snd entry_valid]; try (split; [exact He|]); try (split; done); try done.

Lemma send_valid ctx cap pkt w w' u next :
  ids_ok (SourcePort pkt) (SourceChannel pkt) → in_range w = true → channels_valid next (ibc w) →
  SendPacket ctx cap pkt w = (w', Ok u) → ∃ next, channels_valid next (ibc w').
Proof.
  intros Hid Hr Hs (_ & ch & hop & ce & cs & [Hch _] & _ & _ & _ & _ & _ & _ & _ & Hn & Hw & _)%SendPacket_Ok.
  destruct (channels_valid_chan _ _ _ _ _ Hs Hid Hch) as [He _].
  pose proof (channels_valid_counter _ _ KNextSequenceSend _ _ _ Hs Hid ltac:(by left) Hn) as Hseq.
  eapply (valid_writes _ w w' (ibc w) [(KNextSequenceSend (SourcePort pkt) (SourceChannel pkt), Some _);
    (KPacketCommitment _ _ _, Some _)]); [exact Hs|done|exact Hw|].
  entries He.
  - eexists. split; [|done]. apply seq_succ. exact (proj1 (in_range_counters w _ _ Hr) _ Hn).
  - split; [done|apply CommitPacket_not_empty].
Qed.

Lemma recv_valid ctx cap pkt prf h w w' u next :
  ids_ok (DestinationPort pkt) (DestinationChannel pkt) → seq_ok (Sequence pkt) → in_range w = true →
  channels_valid next (ibc w) → RecvPacket ctx cap pkt prf h w = (w', Ok u) → ∃ next, channels_valid next (ibc w').
Proof.
  intros Hid Hseq Hr Hs
    (ch & hop & ce & self & w1 & [Hch _] & _ & _ & _ & _ & _ & _ & _ & _ & _ & Hsame & Hw & _)%RecvPacket_Ok.
  apply same_but_clients_channels in Hsame. destruct (channels_valid_chan _ _ _ _ _ Hs Hid Hch) as [He _].
  unfold recv_writes in Hw. destruct (Channel_Ordering ch).
  - by eapply (valid_writes _ w w' (ibc w1) []); [exact Hs|done|exact Hw|].
  - destruct Hw as [_ Hw].
    eapply (valid_writes _ w w' (ibc w1) [(KPacketReceipt (DestinationPort pkt) (DestinationChannel pkt) _, Some _)]);
      [exact Hs|done|exact Hw|]. entries He.
  - destruct Hw as [Hn Hw].
    eapply (valid_writes _ w w' (ibc w1) [(KNextSequenceRecv (DestinationPort pkt) (DestinationChannel pkt), Some _)]);
      [exact Hs|done|exact Hw|].
    entries He. eexists. split; [|done]. apply seq_succ.
    pose proof (same_channels_key _ _ (KNextSequenceRecv (DestinationPort pkt) (DestinationChannel pkt)) Hsame eq_refl) as E.
    cbn [render] in E. rewrite E in Hn. exact (proj2 (in_range_counters w _ _ Hr) _ Hn).
Qed.

Lemma write_ack_valid cap pkt ack w w' u next :
  ids_ok (DestinationPort pkt) (DestinationChannel pkt) → seq_ok (Sequence pkt) →
  channels_valid next (ibc w) → WriteAcknowledgement cap pkt ack w = (w', Ok u) → ∃ next, channels_valid next (ibc w').
Proof.
  intros Hid Hseq Hs (ch & Hch & _ & _ & _ & _ & Hw & _)%WriteAcknowledgement_Ok.
  destruct (channels_valid_chan _ _ _ _ _ Hs Hid Hch) as [He _].
  eapply (valid_writes _ w w' (ibc w) [(KPacketAcknowledgement (DestinationPort pkt) (DestinationChannel pkt) _, Some _)]);
    [exact Hs|done|exact Hw|]. entries He. split; [done|apply sha256_not_empty].
Qed.

(** The acknowledged packet was sent, so its sequence is not the last one. *)
Lemma acknowledge_valid ctx cap pkt ack prf h w w' u next :
  ids_ok (SourcePort pkt) (SourceChannel pkt) → well_formed w → in_range w = true →
  channels_valid next (ibc w) → AcknowledgePacket ctx cap pkt ack prf h w = (w', Ok u) →
  ∃ next, channels_valid next (ibc w').
Proof.
  intros Hid [_ Hwf] Hr Hs (ch & hop & ce & w1 & [Hch _] & _ & _ & _ & _ & _ & Hcm & _ & Hsame & Hw & _)%AcknowledgePacket_Ok.
  apply same_but_clients_channels in Hsame. destruct (channels_valid_chan _ _ _ _ _ Hs Hid Hch) as [He _].
  destruct (proj2 (Hwf _ _ Hid) _ _ Hcm) as (m & Hm & Hlt).
  assert (key_ids_ok (KPacketCommitment (SourcePort pkt) (SourceChannel pkt) (Sequence pkt)) = true) as Hk by by apply key_ids.
  unfold ack_writes in Hw. case_bool_decide.
  - destruct Hw as [_ Hw].
    eapply (valid_writes _ w w' (ibc w1) [(KNextSequenceAck (SourcePort pkt) (SourceChannel pkt), Some _);
      (KPacketCommitment _ _ _, None)]); [exact Hs|done|exact Hw|]. entries He.
    eexists. split; [|done]. apply seq_succ. etrans; [exact Hlt|]. exact (proj1 (in_range_counters w _ _ Hr) _ Hm).
  - eapply (valid_writes _ w w' (ibc w1) [(KPacketCommitment (SourcePort pkt) (SourceChannel pkt) _, None)]);
      [exact Hs|done|exact Hw|]. entries He.
Qed.

Lemma timeout_executed_valid cap pkt w w' u next :
  ids_ok (SourcePort pkt) (SourceChannel pkt) → channels_valid next (ibc w) →
  TimeoutExecuted cap pkt w = (w', Ok u) → ∃ next, channels_valid next (ibc w').
Proof.
  intros Hid Hs (ch & Hch & _ & Hw & _)%TimeoutExecuted_Ok.
  destruct (channels_valid_chan _ _ _ _ _ Hs Hid Hch) as [He Hv].
  assert (key_ids_ok (KPacketCommitment (SourcePort pkt) (SourceChannel pkt) (Sequence pkt)) = true) as Hk by by apply key_ids.
  unfold timeout_writes in Hw. case_bool_decide.
  - eapply (valid_writes _ w w' (ibc w) [(KPacketCommitment (SourcePort pkt) (SourceChannel pkt) _, None);
      (KChannelEnd _ _, Some _)]); [exact Hs|done|exact Hw|].
    entries He. eexists. split; [done|]. by apply set_State_valid.
  - eapply (valid_writes _ w w' (ibc w) [(KPacketCommitment (SourcePort pkt) (SourceChannel pkt) _, None)]);
      [exact Hs|done|exact Hw|]. entries He.
Qed.

(** A step that rewrites the record of an existing end. *)
Lemma channel_valid next w w' s p c old ch :
  channels_valid next (ibc w) → ids_ok p c → same_channels (ibc w) s → chan w p c = Some old →
  (Channel_ValidateBasic old = Ok tt → Channel_ValidateBasic ch = Ok tt) →
  ibc w' = <[ChannelKey p c := Marshal_Channel ch]> s → ∃ next, channels_valid next (ibc w').
Proof.
  intros Hs Hid Hsame Hold Hch Hw. destruct (channels_valid_chan _ _ _ _ _ Hs Hid Hold) as [He Hv].
  eapply (valid_writes _ w w' s [(KChannelEnd p c, Some _)]); [exact Hs|done|exact Hw|].
  entries He. exists ch. auto.
Qed.

(** A step that opens an end under the next identifier. *)
Lemma opened_valid next w w' s p m ch l :
  channels_valid next (ibc w) → in_range w = true → next_channel w = Some m → PortIdentifierValidator p = Ok tt →
  same_channels (<[KeyNextChannelSequence := Uint64ToBigEndian (u64 (m + 1))]> (ibc w)) s →
  Channel_ValidateBasic ch = Ok tt → ibc w' = run_writes l s →
  Forall (λ kx, kx = (KChannelEnd p (FormatChannelIdentifier m), Some (Marshal_Channel ch)) ∨
    ∃ key, (key = KNextSequenceSend ∨ key = KNextSequenceRecv ∨ key = KNextSequenceAck) ∧
      kx = (key p (FormatChannelIdentifier m), Some (Uint64ToBigEndian 1))) l →
  ∃ next, channels_valid next (ibc w').
Proof.
  intros Hs Hr Hm Hp Hsame Hch Hw Hl. pose proof (in_range_next _ _ Hr Hm) as Hlt.
  assert (m = next) as ->.
  { unfold next_channel in Hm. rewrite (cv_next _ _ Hs) in Hm. injection Hm as <-. apply be_roundtrip, Hs. }
  exists (next + 1)%N. rewrite Hw. apply channels_valid_writes.
  - assert (end_valid (next + 1) p (FormatChannelIdentifier next)) as He by (split; [done|]; exists next; split; [lia|done]).
    eapply list.Forall_impl; [exact Hl|]. intros kx [->|(key & Hkey & ->)].
    + split; [done|]. by exists ch.
    + assert (end_valid (next + 1) p (FormatChannelIdentifier next) ∧
        ∃ n, seq_ok n ∧ Uint64ToBigEndian 1 = Uint64ToBigEndian n) as H by (split; [done|]; by exists 1%N).
      by destruct Hkey as [->|[->| ->]].
  - eapply channels_valid_same; [exact Hsame|]. by apply channels_valid_opened.
Qed.
Ltac opened_entries :=
  repeat (apply list.Forall_cons; split); [..|apply list.Forall_nil_2];
  first [by left|right; first [exists KNextSequenceSend; split; [by left|reflexivity]
    |exists KNextSequenceRecv; split; [by right; left|reflexivity]|exists KNextSequenceAck; split; [by right; right|reflexivity]]].

Lemma open_init_valid order hops port cap cp ver cb w w' u next :
  (∀ id c, keeps_channels (cb id c)) → Channel_ValidateBasic (NewChannel INIT order cp hops ver) = Ok tt →
  in_range w = true → channels_valid next (ibc w) →
  exec (Do_open_init order hops port cap cp ver cb) w = (w', Ok u) → ∃ next, channels_valid next (ibc w').
Proof.
  intros Hcb Hch Hr Hs E. simpl in E. go_inv.
  match goal with H : ChanOpenInit _ _ _ _ _ = _ |- _ =>
    pose proof (ChanOpenInit_port _ _ _ _ _ _ _ H) as Hp; apply ChanOpenInit_Ok in H as (m & hop & ce & Hm & -> & _ & _ & _ & _ & Hw0) end.
  match goal with H : cb ?id ?c ?x = _ |- _ => pose proof (Hcb id c x) as Hk; rewrite H in Hk; simpl in Hk end.
  match goal with H : WriteOpenInitChannel _ _ _ _ _ _ _ = _ |- _ => apply WriteOpenInitChannel_Ok in H as Hw end.
  rewrite Hw0 in Hk.
  eapply (opened_valid _ w w' _ port m (NewChannel INIT order cp hops ver)
    [(KChannelEnd port _, Some _); (KNextSequenceSend port _, Some _); (KNextSequenceRecv port _, Some _);
     (KNextSequenceAck port _, Some _)]); [exact Hs|done|done|done|exact Hk|done|exact Hw|opened_entries].
Qed.

Lemma open_try_valid ctx order hops port prev cap cp cpv prf h cb w w' u next :
  fresh_channels w → no_char "/" prev = true → (∀ id c, keeps_channels (cb id c)) →
  (∀ v, Channel_ValidateBasic (NewChannel TRYOPEN order cp hops v) = Ok tt) →
  in_range w = true → channels_valid next (ibc w) →
  exec (Do_open_try ctx order hops port prev cap cp cpv prf h cb) w = (w', Ok u) → ∃ next, channels_valid next (ibc w').
Proof.
  intros Hf Hpr Hcb Hch Hr Hs E. simpl in E. go_inv.
  match goal with H : ChanOpenTry _ _ _ _ _ _ _ _ _ _ _ = _ |- _ =>
    pose proof (ChanOpenTry_port _ _ _ _ _ _ _ _ _ _ _ _ _ H) as Hp;
    apply ChanOpenTry_Ok in H as (w1 & hop & ce & _ & Ht & Hps & _ & _ & Hsc) end.
  match goal with H : cb ?id ?c ?x = _ |- _ => pose proof (Hcb id c x) as Hk; rewrite H in Hk; simpl in Hk end.
  match goal with H : WriteOpenTryChannel _ _ _ _ _ _ _ = _ |- _ => apply WriteOpenTryChannel_Ok in H as Hw end.
  assert (Hs' : same_channels (ibc w1) (ibc s1)).
  { etrans; [|exact Hk]. intros k Hkk. by apply Hsc, channel_part_not_client. }
  destruct Ht as [(_ & -> & -> & old & Hold & _ & _)|(_ & m & Hm & -> & ->)].
  - rewrite (same_channels_chan _ _ _ _ Hs'), Hold in Hw.
    eapply (channel_valid _ w w' _ port prev old); [exact Hs|done|exact Hs'|exact Hold| |exact Hw]. done.
  - simpl in Hs'. rewrite (try_target_new w s1 port m) in Hw by done. simpl in Hw.
    eapply (opened_valid _ w w' _ port m (NewChannel TRYOPEN order cp hops _)
      [(KNextSequenceSend port _, Some _); (KNextSequenceRecv port _, Some _);
       (KNextSequenceAck port _, Some _); (KChannelEnd port _, Some _)]);
      [exact Hs|done|done|done|exact Hs'|done|exact Hw|opened_entries].
Qed.

Lemma open_ack_step_valid ctx p c cap cpv cpc prf h (cb : M unit) w w' u next :
  ids_ok p c → keeps_channels cb → ChannelIdentifierValidator cpc = Ok tt → channels_valid next (ibc w) →
  exec (Do_open_ack ctx p c cap cpv cpc prf h cb) w = (w', Ok u) → ∃ next, channels_valid next (ibc w').
Proof.
  intros Hid Hcb Hcpc Hs E. simpl in E. go_inv.
  match goal with H : ChanOpenAck _ _ _ _ _ _ _ _ _ = _ |- _ =>
    apply ChanOpenAck_Ok in H as (_ & _ & _ & _ & Hsame%same_but_clients_channels) end.
  match goal with H : cb ?x = _ |- _ => pose proof (Hcb x) as Hk; rewrite H in Hk end.
  assert (Hs' : same_channels (ibc w) (ibc s0)) by (by etrans).
  match goal with H : WriteOpenAckChannel _ _ _ _ _ = _ |- _ =>
    apply WriteOpenAckChannel_Ok in H as (ch & Hch & Hw) end.
  rewrite (same_channels_chan _ _ _ _ Hs') in Hch.
  eapply channel_valid; [exact Hs|done|exact Hs'|exact Hch| |exact Hw]. by apply open_ack_valid.
Qed.

Lemma open_confirm_step_valid ctx p c cap prf h (cb : M unit) w w' u next :
  ids_ok p c → keeps_channels cb → channels_valid next (ibc w) →
  exec (Do_open_confirm ctx p c cap prf h cb) w = (w', Ok u) → ∃ next, channels_valid next (ibc w').
Proof.
  intros Hid Hcb Hs E. simpl in E. go_inv.
  match goal with H : ChanOpenConfirm _ _ _ _ _ _ _ = _ |- _ =>
    apply ChanOpenConfirm_Ok in H as (_ & _ & _ & _ & Hsame%same_but_clients_channels) end.
  match goal with H : cb ?x = _ |- _ => pose proof (Hcb x) as Hk; rewrite H in Hk end.
  assert (Hs' : same_channels (ibc w) (ibc s0)) by (by etrans).
  match goal with H : WriteOpenConfirmChannel _ _ _ = _ |- _ =>
    apply WriteOpenConfirmChannel_Ok in H as (ch & Hch & Hw) end.
  rewrite (same_channels_chan _ _ _ _ Hs') in Hch.
  eapply channel_valid; [exact Hs|done|exact Hs'|exact Hch| |exact Hw]. by apply set_State_valid.
Qed.

Lemma exec_valid a w w' :
  action_valid a → in_range w = true → valid_world w → exec a w = (w', Ok tt) → valid_world w'.
Proof.
  intros [Hok Hc] Hr [Hwf [next Hs]] E. split; [by eapply exec_well_formed|].
  assert (∀ w1, same_channels (ibc w) (ibc w1) → ∃ next, channels_valid next (ibc w1)) as Hsame
    by (intros w1 H; exists next; by eapply channels_valid_same).
  destruct a; cbn [action_ok content_ok exec] in *.
  - by eapply send_valid.
  - by eapply recv_valid.
  - by eapply write_ack_valid.
  - by eapply acknowledge_valid.
  - apply TimeoutPacket_Ok in E as (? & ? & ? & ? & _ & _ & _ & _ & _ & _ & _ & _ & H).
    by apply Hsame, same_but_clients_channels.
  - apply TimeoutOnClose_Ok in E as (? & ? & ? & ? & _ & _ & _ & _ & _ & _ & _ & H).
    by apply Hsame, same_but_clients_channels.
  - by eapply timeout_executed_valid.
  - destruct Hok. by eapply open_init_valid.
  - destruct Hok as (? & ? & ?), Hwf. by eapply open_try_valid.
  - destruct Hok. by eapply open_ack_step_valid.
  - destruct Hok. by eapply open_confirm_step_valid.
  - apply ChanCloseInit_Ok in E as (ch & Hch & _ & _ & Hw).
    eapply channel_valid; [exact Hs|done|done|exact Hch| |exact Hw]. by apply set_State_valid.
  - apply ChanCloseConfirm_Ok in E as (ch & w1 & Hch & _ & _ & H%same_but_clients_channels & Hw).
    eapply channel_valid; [exact Hs|done|exact H|exact Hch| |exact Hw]. by apply set_State_valid.
  - apply Hsame. pose proof (Hok w) as Hk. by rewrite E in Hk.
Qed.

Lemma run_valid w w' : run_of action_valid w w' → valid_world w → valid_world w'.
Proof. induction 1; eauto using exec_valid. Qed.
End actions.

(** ** Transactions *)
Section transactions.
Context {SE : SdkEncoding} {LC : LightClient} {CD : Codec} {CK : CapabilityKeeper} {AP : Application}
  {SC : SelfClient} {BE : Bech32}.
Variable rtr : Router.

(** The sequence of a packet is a uint64; it is the only integer of a message that is stored
    as it is. *)
Definition uint64_msg (m : sdk_Msg) : Prop :=
  match m with RecvPacket_msg msg => (Sequence (recv_Packet msg) < two64)%N | _ => True end.

Lemma version_irrelevant st ord cp hops v v' :
  Channel_ValidateBasic (NewChannel st ord cp hops v) = Channel_ValidateBasic (NewChannel st ord cp hops v').
Proof. done. Qed.
Lemma open_init_content msg u :
  MsgChannelOpenInit_ValidateBasic msg = Ok u →
  Channel_ValidateBasic (NewChannel INIT (Channel_Ordering (init_Channel msg)) (Channel_Counterparty (init_Channel msg))
    (ConnectionHops (init_Channel msg)) (Channel_Version (init_Channel msg))) = Ok tt.
Proof.
  unfold MsgChannelOpenInit_ValidateBasic. intros E. out_inv. destruct u.
  match goal with H : bool_decide (Channel_State _ ≠ INIT) = false |- _ =>
    apply bool_decide_eq_false, dec_stable in H; rename H into Hst end.
  destruct (init_Channel msg). simpl in *. by subst.
Qed.
Lemma open_try_content msg u v :
  MsgChannelOpenTry_ValidateBasic msg = Ok u →
  Channel_ValidateBasic (NewChannel TRYOPEN (Channel_Ordering (try_Channel msg)) (Channel_Counterparty (try_Channel msg))
    (ConnectionHops (try_Channel msg)) v) = Ok tt.
Proof.
  unfold MsgChannelOpenTry_ValidateBasic. intros E. out_inv. destruct u.
  match goal with H : bool_decide (Channel_State _ ≠ TRYOPEN) = false |- _ =>
    apply bool_decide_eq_false, dec_stable in H; rename H into Hst end.
  rewrite (version_irrelevant _ _ _ _ _ (Channel_Version (try_Channel msg))).
  destruct (try_Channel msg). simpl in *. by subst.
Qed.
Lemma open_ack_content msg u :
  MsgChannelOpenAck_ValidateBasic msg = Ok u → ChannelIdentifierValidator (oack_CounterpartyChannelId msg) = Ok tt.
Proof.
  unfold MsgChannelOpenAck_ValidateBasic. intros E. out_inv.
  match goal with H : ChannelIdentifierValidator _ = Ok ?u |- _ => by destruct u end.
Qed.
Lemma recv_content msg u :
  MsgRecvPacket_ValidateBasic msg = Ok u → (Sequence (recv_Packet msg) < two64)%N → seq_ok (Sequence (recv_Packet msg)).
Proof.
  unfold MsgRecvPacket_ValidateBasic. intros E Hw. out_inv.
  match goal with H : Packet_ValidateBasic _ = _ |- _ => apply Packet_ValidateBasic_Ok in H as (_ & _ & Hs & _) end.
  unfold seq_ok. lia.
Qed.

Lemma validated_actions m x :
  ValidateBasic m = Ok tt → uint64_msg m → handled m = Some x → msg_ok x → msg_in action_valid x.
Proof.
  intros Hv Hw Hx Hok%msg_ok_in. unfold action_valid. destruct m; cbn [handled ValidateBasic uint64_msg] in *;
    try (injection Hx as <-); cbn [msg_in] in *; try done.
  - destruct (mapM id _); [|done]. injection Hx as <-. done.
  - destruct (cack_Version _); [|done]. injection Hx as <-. done.
  - intros cap cb Hcb. split; [by apply Hok|by eapply open_init_content].
  - intros ctx cap cb Hcb. split; [by apply Hok|]. intros v. by eapply open_try_content.
  - intros ctx cap cb Hcb. split; [by apply Hok|by eapply open_ack_content].
  - intros ctx cap cb Hcb. split; [by apply Hok|done].
  - destruct Hok as [H1 H2]. pose proof (recv_content _ _ Hv Hw). split; intros; split; [apply H1|done|apply H2|done].
  - destruct Hok as [H1 H2]. split; intros; split; [apply H1|done|apply H2|done].
  - destruct Hok as [H1 H2]. split; intros; split; [apply H1|done|apply H2|done].
Qed.

(** An application may send packets in its callbacks. *)
Lemma SendPacket_drives_valid ctx cap pkt : drives action_valid ranged (SendPacket ctx cap pkt).
Proof. apply drives_send. intros (? & _)%Packet_ValidateBasic_Ok. by split. Qed.

(** The life of a chain, as in [tx_run], where the operations of applications have valid
    content. *)
Inductive valid_run : World → World → Prop :=
  | valid_nil w : valid_run w w
  | valid_message ctx m w1 w2 w3 :
      uint64_msg m → in_range w1 = true → ranged w2 = true → process rtr ctx m w1 = (w2, Ok tt) →
      valid_run w2 w3 → valid_run w1 w3
  | valid_action a w1 w2 w3 :
      action_valid a → in_range w1 = true → exec a w1 = (w2, Ok tt) → valid_run w2 w3 → valid_run w1 w3.

Lemma valid_run_actions w w' : lawful_router rtr action_valid ranged → valid_run w w' → run_of action_valid w w'.
Proof.
  intros Hp. induction 1 as [|ctx m w1 w2 w3 Hw Hr1 Hr2 E _ IH|]; [constructor| |by eapply run_step].
  apply process_Ok in E as (x & Hv & Hx & Hok & E). eapply run_of_trans; [|exact IH].
  eapply deliver_run_of; [|apply ranged_range|apply ranged_agree|done|by eapply validated_actions|done|done|exact E].
  by split.
Qed.
End transactions.

(** ** The export is valid *)
Section export.
Context {SE : SdkEncoding} {LC : LightClient} {CD : Codec} {CK : CapabilityKeeper} {AP : Application}.
Import channelgenesis.

Lemma end_valid_fields next p c n :
  (next < two64)%N → end_valid next p c → seq_ok n → validateGenFields p c n = Ok tt.
Proof.
  intros Hb [Hp (m & Hm & ->)] [Hn _]. unfold validateGenFields.
  rewrite Hp, FormatChannelIdentifier_valid by (unfold two64 in *; lia). cbn [outcome_wrap outcome_bind].
  by rewrite (proj2 (N.eqb_neq _ _)) by lia.
Qed.

Lemma validate_channels_Ok next l max :
  (next < two64)%N → (max = 0 ∨ max < next)%N →
  Forall (λ ic, end_valid next (IC_PortId ic) (IC_ChannelId ic) ∧
    Channel_ValidateBasic (NewChannel (IC_State ic) (IC_Ordering ic) (IC_Counterparty ic) (IC_ConnectionHops ic)
      (IC_Version ic)) = Ok tt) l →
  ∃ max', validate_channels l max = Ok max' ∧ (max' = 0 ∨ max' < next)%N.
Proof.
  intros Hb Hmax Hl. revert max Hmax. induction Hl as [|ic l [[Hp (m & Hm & Hid)] Hch] Hl IH]; intros max Hmax; [by exists max|].
  cbn [validate_channels]. rewrite Hid, ParseChannelSequence_Format by (unfold two64 in *; lia). cbn [outcome_bind].
  unfold IdentifiedChannel_ValidateBasic. rewrite Hid, FormatChannelIdentifier_valid by (unfold two64 in *; lia).
  cbn [outcome_wrap]. rewrite Hp. cbn [outcome_wrap]. rewrite Hch. cbn [outcome_wrap outcome_bind].
  apply IH. destruct (N.ltb_spec max m); lia.
Qed.

(** The exported lists have the entries of the store. *)
Lemma iterated_entry {A} (f : A → string * string) l s P x :
  f <$> l = PrefixIterator s P → x ∈ l → s !! (f x).1 = Some (f x).2.
Proof.
  intros E Hx. assert (f x ∈ PrefixIterator s P) as H by (rewrite <- E; by apply list_elem_of_fmap_2).
  destruct (f x) as [k v]. by apply list_elem_of_filter in H as [_ H%elem_of_entries].
Qed.

Section valid.
Context (next : N) (s : KVStore) (g : GenesisState).
Hypothesis (Hs : channels_valid next s) (Hg : exported s g).

Lemma exported_channels_Ok : ∃ max, validate_channels (Channels g) 0 = Ok max ∧ (max = 0 ∨ max < next)%N.
Proof.
  apply (validate_channels_Ok next); [apply Hs|by left|]. apply list.Forall_forall. intros ic Hin.
  pose proof (iterated_entry _ _ _ _ _ (ex_channels _ _ Hg) Hin) as Hl. unfold channel_entry in Hl. cbn [fst snd] in Hl.
  pose proof (ex_channels_ids _ _ Hg) as Hids. rewrite list.Forall_forall in Hids.
  apply (channels_valid_chan next s); [done|by apply Hids|]. rewrite Hl. simpl. by rewrite Channel_roundtrip.
Qed.

Lemma exported_sequences_Ok key l P :
  key = KNextSequenceSend ∨ key = KNextSequenceRecv ∨ key = KNextSequenceAck →
  sequence_entry (λ p c, render (key p c)) <$> l = PrefixIterator s P →
  Forall sequence_ok l → validate_sequences l = Ok tt.
Proof.
  intros Hkey E Hok. assert (Forall (λ ps, PacketSequence_Validate ps = Ok tt) l) as Hall.
  { apply list.Forall_forall. intros ps Hin. rewrite list.Forall_forall in Hok. destruct (Hok _ Hin) as [Hid Hb].
    pose proof (iterated_entry _ _ _ _ _ E Hin) as Hl. unfold sequence_entry in Hl. cbn [fst snd] in Hl.
    assert (end_valid next (seq_PortId ps) (seq_ChannelId ps) ∧ ∃ n, seq_ok n ∧ Uint64ToBigEndian (seq_Sequence ps) = Uint64ToBigEndian n)
      as [He (n & Hn & Heq)].
    { destruct Hkey as [->|[->| ->]]; by apply (channels_valid_lookup next s) in Hl; [| |done|done|apply key_ids]. }
    apply (f_equal BigEndianToUint64) in Heq. rewrite !be_roundtrip in Heq by (apply Hn || done).
    apply (end_valid_fields next); [apply Hs|done|congruence]. }
  clear E Hok. induction Hall as [|ps l Hps Hl IH]; [done|]. cbn [validate_sequences]. by rewrite Hps.
Qed.

Lemma exported_hashes_Ok key l P :
  key = KPacketCommitment ∨ key = KPacketAcknowledgement →
  hash_entry (λ p c n, render (key p c n)) <$> l = PrefixIterator s P → Forall hash_ok l → validate_hashes l = Ok tt.
Proof.
  intros Hkey E Hok.
  assert (Forall (λ pa, PacketState_Validate pa = Ok tt ∧ default "" (ps_Data pa) ≠ "") l) as Hall.
  { apply list.Forall_forall. intros pa Hin. rewrite list.Forall_forall in Hok. destruct (Hok _ Hin) as [Hid [d Hd]].
    pose proof (iterated_entry _ _ _ _ _ E Hin) as Hl. unfold hash_entry in Hl. cbn [fst snd] in Hl.
    assert (end_valid next (ps_PortId pa) (ps_ChannelId pa) ∧ seq_ok (ps_Sequence pa) ∧ default "" (ps_Data pa) ≠ "") as (He & Hn & Hne).
    { destruct Hkey as [->| ->]; by apply (channels_valid_lookup next s) in Hl; [| |done|done|apply key_ids]. }
    split; [|done]. unfold PacketState_Validate. rewrite Hd. cbn [is_nil fail_if outcome_bind].
    by apply (end_valid_fields next); [apply Hs|..]. }
  clear E Hok. induction Hall as [|pa l [Hpa Hne] Hl IH]; [done|]. cbn [validate_hashes]. rewrite Hpa.
  cbn [outcome_wrap outcome_bind]. rewrite bool_decide_eq_false_2 by (by destruct (default "" (ps_Data pa))). done.
Qed.

Lemma exported_receipts_Ok : validate_receipts (Receipts g) = Ok tt.
Proof.
  destruct Hg as [_ _ _ _ _ _ E Hok _ _ _ _ _ _ _].
  assert (Forall (λ pa, PacketState_Validate pa = Ok tt) (Receipts g)) as Hall.
  { apply list.Forall_forall. intros pa Hin. rewrite list.Forall_forall in Hok. destruct (Hok _ Hin) as [Hid [d Hd]].
    pose proof (iterated_entry _ _ _ _ _ E Hin) as Hl. unfold receipt_entry in Hl. cbn [fst snd] in Hl.
    apply (channels_valid_lookup next s (KPacketReceipt _ _ _)) in Hl as (He & Hn & _); [|done|done|done|by apply key_ids].
    unfold PacketState_Validate. rewrite Hd. cbn [is_nil fail_if outcome_bind]. by apply (end_valid_fields next); [apply Hs|..]. }
  clear E Hok. induction Hall as [|pa l Hpa Hl IH]; [done|]. cbn [validate_receipts]. by rewrite Hpa.
Qed.

Lemma exported_valid : GenesisState_Validate g = Ok tt.
Proof.
  unfold GenesisState_Validate. destruct exported_channels_Ok as (max & -> & Hmax). cbn [outcome_bind].
  assert (NextChannelSequence g = next) as Hnext.
  { pose proof (ex_next _ _ Hg) as E. rewrite (cv_next _ _ Hs) in E. injection E as E.
    apply (f_equal BigEndianToUint64) in E. rewrite !be_roundtrip in E; [done|apply (ex_next_bound _ _ Hg)|apply Hs]. }
  rewrite Hnext. replace (negb (max =? 0)%N && (next <=? max)%N) with false.
  2:{ symmetry. destruct Hmax as [->|Hlt]; [done|]. apply andb_false_iff. right. by apply N.leb_gt. }
  cbn [fail_if outcome_bind].
  rewrite (exported_hashes_Ok KPacketAcknowledgement _ _ ltac:(by right) (ex_acks _ _ Hg) (ex_acks_data _ _ Hg)).
  rewrite exported_receipts_Ok.
  rewrite (exported_hashes_Ok KPacketCommitment _ _ ltac:(by left) (ex_commitments _ _ Hg) (ex_commitments_data _ _ Hg)).
  rewrite (exported_sequences_Ok KNextSequenceSend _ _ ltac:(by left) (ex_sends _ _ Hg) (ex_sends_ids _ _ Hg)).
  rewrite (exported_sequences_Ok KNextSequenceRecv _ _ ltac:(by right; left) (ex_recvs _ _ Hg) (ex_recvs_ids _ _ Hg)).
  rewrite (exported_sequences_Ok KNextSequenceAck _ _ ltac:(by right; right) (ex_ackseqs _ _ Hg) (ex_ackseqs_ids _ _ Hg)).
  done.
Qed.
End valid.

Lemma entry_valid_wf next k v : entry_valid next k v → entry_wf k v.
Proof.
  destruct k; simpl; try done; intros [_ H].
  - destruct H as (ch & -> & _). by exists ch.
  - destruct H as (n & [_ Hn] & ->). by exists n.
  - destruct H as (n & [_ Hn] & ->). by exists n.
  - destruct H as (n & [_ Hn] & ->). by exists n.
  - apply H.
  - apply H.
  - split; apply H.
Qed.
Lemma channels_valid_wf next s : channels_valid next s → channels_wf s.
Proof.
  intros [_ _ He] P HP k v Hk Hpre. destruct (He k v) as (x & -> & Hx); [| |done|].
  - unfold channel_part. apply orb_true_iff. left. apply existsb_exists. exists P. by rewrite <- list_elem_of_In.
  - intros ->. repeat (apply elem_of_cons in HP as [->|HP]; [discriminate Hpre|]). by apply elem_of_nil in HP.
  - exists x. eauto using entry_valid_ids, entry_valid_wf.
Qed.

Lemma valid_world_same w w' : same_channels (ibc w) (ibc w') → valid_world w → valid_world w'.
Proof.
  intros Hsame [[Hf Hwf] [next Hs]]. split; [|exists next; by eapply channels_valid_same].
  assert (∀ p c, veq (view w p c) (view w' p c)) as Hv by (intros; by apply same_channels_view).
  split.
  - intros m p n Hm. unfold next_channel in Hm. rewrite (next_channel_same _ _ Hsame) in Hm. intros Hp Hle.
    destruct (Hv p (FormatChannelIdentifier n)) as (<- & <- & _). by apply (Hf m).
  - intros p c Hid. destruct (Hv p c) as (Hc & Hsd & _ & _ & Hcm & _). destruct (Hwf p c Hid) as [H1 H2].
    split; [intros ch; rewrite <- Hc; apply H1|]. intros n x. rewrite <- Hcm, <- Hsd. apply H2.
Qed.
End export.

(** ** The theorem *)
Section theorem.
Context {SE : SdkEncoding} {LC : LightClient} {CD : Codec} {CK : CapabilityKeeper} {AP : Application}
  {SC : SelfClient} {BE : Bech32}.
Import channelgenesis.

(** C21: At any time in the life of a chain its channels can be exported and a new chain
    started from them.  From a chain with a valid channel store, messages that pass their
    stateless checks and operations of applications lead to a store from which
    [ExportGenesis] of the channel submodule succeeds; [Validate] accepts the exported
    state; and [InitGenesis] on a chain without channels succeeds, gives it the same
    channels, sequences, commitments, receipts and acknowledgements byte by byte, changes
    nothing else, and leaves a store from which such a life can go on.  The applications
    are [lawful]: their callbacks for packets and for closing channels may do whatever they
    like outside the channel store and run the keepers' own operations on it, with content
    that message validation would accept, their callbacks of the handshake leave the
    channel store alone; and no counter wraps around ([in_range] before, [ranged] after
    every message). *)
Theorem channels_survive_export rtr w0 w :
  lawful_router rtr action_valid ranged → valid_world w0 → valid_run rtr w0 w →
  ∃ g, ExportGenesis w = (w, Ok g) ∧ GenesisState_Validate g = Ok tt ∧
    ∀ wn, (∀ k, channel_part k = true → ibc wn !! k = None) →
    ∃ s, InitGenesis g wn = (set_ibc s wn, Ok tt) ∧ same_channels (ibc w) s ∧
      (∀ k, channel_part k = false → s !! k = ibc wn !! k) ∧ valid_world (set_ibc s wn).
Proof.
  intros Hp H0 Hrun%valid_run_actions; [|done]. pose proof (run_valid _ _ Hrun H0) as Hw. pose proof Hw as [_ [next Hs]].
  destruct (channel_genesis_roundtrip w next) as (g & Eg & Hg & Hinit);
    [by eapply channels_valid_wf|apply Hs|apply Hs|].
  exists g. split_and!; [done|by eapply exported_valid|]. intros wn Hempty. destruct (Hinit wn) as (s & Ei & Hl).
  assert (same_channels (ibc w) s) as Hsame.
  { intros k Hk. rewrite Hl, Hk, Hempty by done. by destruct (ibc w !! k). }
  exists s. split_and!; [done|done| |by eapply valid_world_same]. intros k Hk. by rewrite Hl, Hk.
Qed.
End theorem.

(** ** A concrete chain *)
Module ExportWitness.
Import ToyInstances Scenario ChannelWitness MsgWitness TxWitness channelgenesis.
#[local] Existing Instance toy_bech32.

Lemma base_valid connID connID' next latest roots :
  (next < two64)%N → channels_valid next (base_store connID connID' next latest roots).
Proof.
  intros Hb. split; [done|unfold base_store; simpl; rewrite 2!lookup_insert_ne by done; apply lookup_insert_eq|]. intros k v Hk Hne Hv%elem_of_list_to_map_2.
  apply list_elem_of_fmap_2 with (f := fst) in Hv. rewrite fmap_app in Hv. simpl in Hv.
  exfalso. apply channel_part_not_client in Hk as Hnc. rewrite !elem_of_cons in Hv.
  destruct_or? Hv; try subst k; try done.
  rewrite <- list_fmap_compose in Hv. apply list_elem_of_fmap in Hv as ([h c] & -> & _). done.
Qed.

Lemma openB_valid : Forall action_valid (openB UNORDERED).
Proof.
  pose proof (openB_ok UNORDERED (or_intror eq_refl)) as H. unfold openB in H |- *; rewrite !list.Forall_cons in H. destruct H as (H1 & H2 & _).
  repeat (apply list.Forall_cons; split); [split; [done|done]|split; [done|done]|apply list.Forall_nil_2].
Qed.

Lemma actions_valid_run w w' w'' : run_of action_valid w w' → valid_run router2 w' w'' → valid_run router2 w w''.
Proof. induction 1; [done|]. intros. eapply valid_action; eauto. Qed.

Lemma answering_lawful_valid : lawful_router router2 action_valid ranged.
Proof.
  intros m cbs. unfold GetRoute. destruct (negb _); [done|]. cbn [routes router2]. intros [_ <-]%lookup_singleton_Some.
  assert (∀ A (m : M A), keeps ibc m → drives action_valid ranged m) as Hk by
    (intros A m'; apply drives_keeps; [by split|apply ranged_range|apply ranged_agree]).
  assert (∀ ctx p c cp cc, drives action_valid ranged (send_next ctx p c cp cc)) as Hs.
  { intros. apply drives_bind; [by apply Hk|intros n; apply SendPacket_drives_valid]. }
  split; intros; try done; try (by apply Hk); cbn [OnRecvPacket OnAcknowledgementPacket answering].
  - apply drives_bind; [by apply Hk|intros _]. apply drives_bind; [apply Hs|intros _; by apply Hk].
  - apply drives_bind; [by apply Hk|intros _]. apply Hs.
Qed.

Lemma received_valid_run : valid_run router2 (genesisB UNORDERED) answeredB.
Proof.
  eapply actions_valid_run; [apply (run_all_run action_valid (openB UNORDERED)); [exact openB_valid|by_vm]|].
  eapply valid_message; [| | |exact answeredB_process|constructor]; by_vm.
Qed.

(** The received packet and the answer to it are exported, and a new chain has the receipt. *)
Definition fresh : World := base ∅.
Lemma channels_survive_export_witness :
  ∃ g s, ExportGenesis answeredB = (answeredB, Ok g) ∧ GenesisState_Validate g = Ok tt ∧
    InitGenesis g fresh = (set_ibc s fresh, Ok tt) ∧ s !! PacketReceiptKey "transfer" "channel-1" 1 = Some (String "001" "").
Proof.
  destruct (channels_survive_export router2 (genesisB UNORDERED) answeredB) as (g & Eg & Hv & Hi).
  - apply answering_lawful_valid.
  - split; [apply genesis_well_formed, base_genesis|]. exists 1%N. by apply base_valid.
  - exact received_valid_run.
  - destruct (Hi fresh) as (s & Es & Hs & _); [intros k _; apply lookup_empty|]. exists g, s.
    split; [exact Eg|]. split; [exact Hv|]. split; [exact Es|].
    rewrite (Hs (PacketReceiptKey "transfer" "channel-1" 1) eq_refl). by_vm.
Defined.
End ExportWitness.
