(* ===== verification/SelfChain.v ===== *)
(** * The client keeper and its own chain

    What [02-client] knows of the chain it runs on: the client and the consensus states that
    counterparties should have of it ([keeper.go], [ValidateSelfClient] and
    [GetSelfConsensusState], an instance of [SelfClient]), the upgrade plan, which lives in
    the upgrade module ([keeper.go], [proposal.go], [abci.go]), and governance proposals
    ([types/proposal.go], [proposal_handler.go]). *)
From S2P Require Import Prelude GoMonad Errors Height Host Sdk ConnectionTypes ChannelTypes.
From S2P Require Import Exported ClientKeeper PortKeeper Commitment TendermintTypes.
From S2P Require Import TendermintStore TendermintClient.
From S2P Require Import Solomachine Localhost Clients ClientTypes.
Import commitmenttypes.

(** ** cosmos-sdk *)

(** The staking module: the header of a past block, if it is still known, and the
    unbonding time; and the hash of the next validators in the header of this block. *)
Class StakingKeeper `{TendermintLib} := {
  GetHistoricalInfo : Context → Z → option ProtoHeader;
  UnbondingTime : Context → Z;
  BlockHeader_NextValidatorsHash : Context → string }.

(** The upgrade module: the plan, and the client and consensus states that counterparties
    upgrade to, by the height of the plan. *)
Class UpgradeKeeper := {
  UpgState : Type;
  Plan : Type;
  Plan_Height : Plan → Z;
  Plan_ValidateBasic : Plan → outcome unit;
  up_GetUpgradePlan : UpgState → option Plan;
  up_GetUpgradedClient : UpgState → Z → option string;
  up_GetUpgradedConsensusState : UpgState → Z → option string;
  up_SetUpgradedClient : Z → string → ST UpgState unit;
  up_SetUpgradedConsensusState : Z → string → ST UpgState unit;
  up_ScheduleUpgrade : Plan → ST UpgState unit;
  (* what is set is found; the two setters do not fail and keep the rest *)
  set_client_law h bz u : ∃ u', up_SetUpgradedClient h bz u = (u', Ok tt) ∧
    up_GetUpgradedClient u' h = Some bz ∧ up_GetUpgradePlan u' = up_GetUpgradePlan u;
  set_consensus_law h bz u : ∃ u', up_SetUpgradedConsensusState h bz u = (u', Ok tt) ∧
    up_GetUpgradedConsensusState u' h = Some bz ∧ up_GetUpgradePlan u' = up_GetUpgradePlan u ∧
    (∀ h', up_GetUpgradedClient u' h' = up_GetUpgradedClient u h');
  schedule_law p u u' : up_ScheduleUpgrade p u = (u', Ok tt) → up_GetUpgradePlan u' = Some p }.

(** [govtypes.ValidateAbstract]: bounds on the title and the description. *)
Class GovTypes := { ValidateAbstract : string → string → outcome unit }.

(** The upgrade module is a part of the application's state. *)
Class UpgradeApp `{UpgradeKeeper} {AP : Application} := {
  upg_view : AppState → UpgState;
  upg_put : UpgState → AppState → AppState;
  upg_view_put u a : upg_view (upg_put u a) = u }.

Module selfchain.

(** ** The chain's own client ([keeper.go]) *)
Section self.
Context {SE : SdkEncoding} {IC : Ics23} {TL : TendermintLib} {TC : TmCodec} {UT : UpgradeTypes} {SK : SoloCrypto}
  {SD : SoloCodec AnyClientState AnyConsensusState} {LD : LocalCodec AnyClientState} {STK : StakingKeeper}.
Import ibctmtypes.

(** [height.(types.Height)]: there is one type of heights. *)
Definition GetSelfConsensusState (ctx : Context) (height : Height) : outcome AnyConsensusState :=
  let? revision := ParseChainID (ChainID ctx) in
  fail_if (bool_decide (revision ≠ RevisionNumber height)) (Wrap ClientErr.ErrInvalidHeight) ;;?
  match GetHistoricalInfo ctx (int_of_u64 (RevisionHeight height)) with
  | None => Err (Wrap sdkerrors.ErrNotFound)
  | Some header =>
      Ok (TmConsensus (NewConsensusState (hdr_Time header) (NewMerkleRoot (hdr_AppHash header))
                         (hdr_NextValidatorsHash header)))
  end.

Definition expectedUpgradePath : list string := [upgrade_StoreKey; KeyUpgradedIBCState].

Definition ValidateSelfClient (ctx : Context) (clientState : AnyClientState) : outcome unit :=
  match clientState with
  | TmClient tmClient =>
      fail_if (negb (Height_IsZero (FrozenHeight tmClient))) ClientErr.ErrClientFrozen ;;?
      fail_if (bool_decide (ChainID ctx ≠ ChainId tmClient)) (Wrap ClientErr.ErrInvalidClient) ;;?
      let? revision := ParseChainID (ChainID ctx) in
      fail_if (bool_decide (RevisionNumber (LatestHeight tmClient) ≠ revision)) (Wrap ClientErr.ErrInvalidClient) ;;?
      let selfHeight := NewHeight revision (uint64_of_Z (BlockHeight ctx)) in
      fail_if (GTE (LatestHeight tmClient) selfHeight) (Wrap ClientErr.ErrInvalidClient) ;;?
      fail_if (negb (bool_decide (GetSDKSpecs = Client_ProofSpecs tmClient))) (Wrap ClientErr.ErrInvalidClient) ;;?
      match light_ValidateTrustLevel (TrustLevel tmClient) with
      | Err _ => Err (Wrap ClientErr.ErrInvalidClient)
      | Panic => Panic
      | Ok _ =>
          fail_if (bool_decide (UnbondingTime ctx ≠ UnbondingPeriod tmClient)) (Wrap ClientErr.ErrInvalidClient) ;;?
          fail_if (UnbondingPeriod tmClient <? TrustingPeriod tmClient)%Z (Wrap ClientErr.ErrInvalidClient) ;;?
          fail_if (bool_decide (length (UpgradePath tmClient) ≠ 0%nat) &&
                   negb (bool_decide (expectedUpgradePath = UpgradePath tmClient))) (Wrap ClientErr.ErrInvalidClient)
      end
  | _ => Err (Wrap ClientErr.ErrInvalidClient)
  end.

#[export] Instance self_client : @SelfClient ibc_clients :=
  @Build_SelfClient ibc_clients ValidateSelfClient GetSelfConsensusState.
End self.

(** ** Upgrades and proposals *)
Section proposals.
Context {GT : GovTypes} {LC : LightClient} {UK : UpgradeKeeper}.

Record ClientUpdateProposal := mkClientUpdateProposal {
  cup_Title : string; cup_Description : string; SubjectClientId : string; SubstituteClientId : string }.
Record UpgradeProposal := mkUpgradeProposal {
  up_Title : string; up_Description : string; up_Plan : Plan; UpgradedClientState : option AnyValue }.

Definition NewClientUpdateProposal (title description subjectClientID substituteClientID : string) : ClientUpdateProposal :=
  mkClientUpdateProposal title description subjectClientID substituteClientID.

Definition ClientUpdateProposal_ValidateBasic (cup : ClientUpdateProposal) : outcome unit :=
  ValidateAbstract (cup_Title cup) (cup_Description cup) ;;?
  fail_if (bool_decide (SubjectClientId cup = SubstituteClientId cup)) (Wrap ClientErr.ErrInvalidSubstitute) ;;?
  let? _ := ParseClientIdentifier (SubjectClientId cup) in
  let? _ := ParseClientIdentifier (SubstituteClientId cup) in
  Ok tt.

Definition NewUpgradeProposal (title description : string) (plan : Plan) (upgradedClientState : option ClientState) :
    outcome UpgradeProposal :=
  let? any := PackClientState upgradedClientState in
  Ok (mkUpgradeProposal title description plan (Some any)).

Definition UpgradeProposal_ValidateBasic (up : UpgradeProposal) : outcome unit :=
  ValidateAbstract (up_Title up) (up_Description up) ;;?
  Plan_ValidateBasic (up_Plan up) ;;?
  fail_if (is_nil (UpgradedClientState up)) (Wrap ClientErr.ErrInvalidUpgradeProposal) ;;?
  let? _ := outcome_wrap (UnpackClientState (UpgradedClientState up)) in
  Ok tt.

(** [govtypes.Content] *)
Inductive Content := Content_ClientUpdate (p : ClientUpdateProposal) | Content_Upgrade (p : UpgradeProposal) | Content_Other.
End proposals.

Section keeper.
Context {SE : SdkEncoding} {LC : LightClient} {CD : Codec} {CK : CapabilityKeeper} {UK : UpgradeKeeper}
  {AP : Application} {UA : UpgradeApp}.

Definition upgrade_state (w : World) : UpgState := upg_view (app w).
Definition on_upgrade {A} (m : ST UpgState A) : M A :=
  zoom upgrade_state (λ u w, set_app (upg_put u (app w)) w) m.

Definition GetUpgradePlan : M (option Plan) := gets (λ w, up_GetUpgradePlan (upgrade_state w)).
Definition GetUpgradedClient (planHeight : Z) : M (option string) :=
  gets (λ w, up_GetUpgradedClient (upgrade_state w) planHeight).
Definition GetUpgradedConsensusState (planHeight : Z) : M (option string) :=
  gets (λ w, up_GetUpgradedConsensusState (upgrade_state w) planHeight).
Definition SetUpgradedConsensusState (planHeight : Z) (bz : string) : M unit :=
  on_upgrade (up_SetUpgradedConsensusState planHeight bz).

Definition HandleUpgradeProposal (p : UpgradeProposal) : M unit :=
  let! clientState := wrap_err (lift (UnpackClientState (UpgradedClientState p))) in
  let cs := ZeroCustomFields clientState in
  let bz := Marshal_ClientState cs in
  on_upgrade (up_ScheduleUpgrade (up_Plan p)) ;;;
  on_upgrade (up_SetUpgradedClient (Plan_Height (up_Plan p)) bz).

Definition NewClientProposalHandler (ctx : Context) (content : Content) : M unit :=
  match content with
  | Content_ClientUpdate c => ClientKeeper.ClientUpdateProposal ctx (SubjectClientId c) (SubstituteClientId c)
  | Content_Upgrade c => HandleUpgradeProposal c
  | Content_Other => throw (Wrap sdkerrors.ErrUnknownRequest)
  end.
End keeper.

(** ** Every block ([abci.go]) *)
Section blocks.
Context {SE : SdkEncoding} {IC : Ics23} {TL : TendermintLib} {TC : TmCodec} {UT : UpgradeTypes} {SK : SoloCrypto}
  {SD : SoloCodec AnyClientState AnyConsensusState} {LD : LocalCodec AnyClientState} {STK : StakingKeeper}.
#[local] Existing Instance ibc_clients.
Context {CD : @Codec ibc_clients} {CK : CapabilityKeeper} {UK : UpgradeKeeper} {AP : Application} {UA : UpgradeApp}.

(** The root of the state is a nil hash. *)
Definition upgraded_consensus (ctx : Context) : AnyConsensusState :=
  TmConsensus (ibctmtypes.NewConsensusState (BlockTime ctx) (NewMerkleRoot "") (BlockHeader_NextValidatorsHash ctx)).

(** The error of [SetUpgradedConsensusState] is dropped; its writes stay. *)
Definition set_last_consensus (ctx : Context) (plan : Plan) : M unit :=
  let! upgraded := GetUpgradedClient (Plan_Height plan) in
  if negb (is_nil upgraded) && (BlockHeight ctx =? Plan_Height plan - 1)%Z
  then catch (SetUpgradedConsensusState (Plan_Height plan) (Marshal_ConsensusState (upgraded_consensus ctx))) ;;; ret tt
  else ret tt.

Definition BeginBlocker (ctx : Context) : M unit :=
  let! plan := GetUpgradePlan in
  match plan with Some plan => set_last_consensus ctx plan | None => ret tt end ;;;
  let! clientState := GetClientState Localhost in
  match clientState with
  | None => ret tt
  | Some _ => must (UpdateClient ctx Localhost None)
  end.
End blocks.
End selfchain.
