(* ===== verification/SelfProperties.v ===== *)
(** * The chain's own client, upgrades and every block

    Which clients [ValidateSelfClient] accepts, that a connection handshake proves to a chain
    that its counterparty follows it and not an impostor, what [BeginBlocker] does, and
    that an upgrade proposal that passed is published for the counterparties' clients. *)
From S2P Require Import Prelude GoMonad Errors Height Host ConnectionTypes Sdk ChannelTypes.
From S2P Require Import Exported ClientKeeper ConnectionKeeper PortKeeper ChannelKeeper.
From S2P Require Import FullNode ChannelSpec PacketProperties ConnectionSafety.
From S2P Require Import ClientProperties Commitment TendermintTypes Iteration TendermintStore.
From S2P Require Import TendermintClient TendermintIndex TendermintProperties TendermintSafety.
From S2P Require Import ToyTendermint Solomachine Localhost Clients SoloProperties SoloWitness.
From S2P Require Import ClientTypes ChannelGenesis GenesisProperties CoreGenesisProperties.
From S2P Require Import SelfChain.
Import commitmenttypes selfchain.

Section self.
Context {SE : SdkEncoding} {IC : Ics23} {TL : TendermintLib} {TC : TmCodec} {UT : UpgradeTypes} {SK : SoloCrypto}
  {SD : SoloCodec AnyClientState AnyConsensusState} {LD : LocalCodec AnyClientState} {STK : StakingKeeper}.
Import ibctmtypes.

(** A client of the chain that runs in [ctx], as a counterparty should keep it. *)
Record own_client (ctx : Context) (cs : ClientState) : Prop := {
  own_not_frozen : FrozenHeight cs = ZeroHeight;
  own_chain : ChainId cs = ChainID ctx;
  own_revision : ParseChainID (ChainID ctx) = Ok (RevisionNumber (LatestHeight cs));
  own_height : (RevisionHeight (LatestHeight cs) < uint64_of_Z (BlockHeight ctx))%N;
  own_specs : Client_ProofSpecs cs = GetSDKSpecs;
  own_trust : light_ValidateTrustLevel (TrustLevel cs) = Ok tt;
  own_unbonding : UnbondingPeriod cs = UnbondingTime ctx;
  own_trusting : (TrustingPeriod cs <= UnbondingPeriod cs)%Z;
  own_upgrade_path : UpgradePath cs = [] ∨ UpgradePath cs = expectedUpgradePath }.

Lemma ValidateSelfClient_spec ctx c : ValidateSelfClient ctx c = Ok tt ↔ ∃ cs, c = TmClient cs ∧ own_client ctx cs.
Proof.
  split.
  - destruct c as [cs| |]; try done. unfold ValidateSelfClient. intros E. exists cs. split; [done|].
    repeat (out_step; subst).
    destruct (light_ValidateTrustLevel (TrustLevel cs)) as [[]| |] eqn:Ht; try done. repeat (out_step; subst).
    rewrite ?negb_false_iff, ?bool_decide_eq_false, ?bool_decide_eq_true, ?andb_false_iff in *.
    repeat match goal with H : ¬ (_ ≠ _) |- _ => apply dec_stable in H end. subst.
    match goal with H : GTE _ _ = false |- _ => rename H into Hg end.
    split; try done.
    + by apply Height_IsZero_spec.
    + apply not_true_iff_false in Hg. rewrite GTE_spec in Hg. apply dec_stable in Hg.
      unfold height_lt in Hg. simpl in Hg. destruct Hg as [Hg|[_ Hg]]; [|done]. lia.
    + by apply Z.ltb_ge.
    + destruct E as [E|E].
      * left. rewrite bool_decide_eq_false in E. by apply dec_stable, nil_length_inv in E.
      * right. by rewrite negb_false_iff, bool_decide_eq_true in E.
  - intros (cs & -> & [H1 H2 H3 H4 H5 H6 H7 H8 H9]). unfold ValidateSelfClient.
    rewrite (proj2 (Height_IsZero_spec _) H1), H2, H3. cbn [negb fail_if outcome_bind].
    rewrite !(bool_decide_eq_false_2 (_ ≠ _)) by naive_solver. cbn [fail_if outcome_bind].
    assert (GTE (LatestHeight cs) (NewHeight (RevisionNumber (LatestHeight cs)) (uint64_of_Z (BlockHeight ctx))) = false) as ->.
    { apply not_true_iff_false. rewrite GTE_spec. intros Hn. apply Hn. right. done. }
    rewrite (bool_decide_eq_true_2 (GetSDKSpecs = _)), H6 by done. cbn [negb fail_if outcome_bind].
    apply Z.ltb_ge in H8. rewrite H8. cbn [fail_if outcome_bind].
    destruct H9 as [->|H9]; [done|]. rewrite (bool_decide_eq_true_2 (expectedUpgradePath = _)), andb_false_r by done. done.
Qed.

Lemma GetSelfConsensusState_spec ctx h c :
  GetSelfConsensusState ctx h = Ok c ↔
  ParseChainID (ChainID ctx) = Ok (RevisionNumber h) ∧
  ∃ hd, GetHistoricalInfo ctx (int_of_u64 (RevisionHeight h)) = Some hd ∧
    c = TmConsensus (NewConsensusState (hdr_Time hd) (NewMerkleRoot (hdr_AppHash hd)) (hdr_NextValidatorsHash hd)).
Proof.
  unfold GetSelfConsensusState. split.
  - intros E. out_inv. rewrite bool_decide_eq_false in *.
    match goal with H : ¬ (_ ≠ _) |- _ => apply dec_stable in H; subst end. split; [done|].
    destruct (GetHistoricalInfo _ _) as [hd|]; [|done]. exists hd. split; [done|]. congruence.
  - intros (-> & hd & -> & ->). simpl. by rewrite bool_decide_eq_false_2 by naive_solver.
Qed.
End self.

(** ** The connection handshake *)

(** A Tendermint client marshals Tendermint states as the chain's codec does. *)
Class TmBytes `{SdkEncoding, Ics23, TendermintLib, !TmCodec, UpgradeTypes, SoloCrypto, !SoloCodec AnyClientState AnyConsensusState,
    !LocalCodec AnyClientState, CD : !@Codec ibc_clients} : Prop := {
  tm_client_bytes cs : @Marshal_ClientState ibc_clients CD (TmClient cs) = tm_Marshal_ClientState cs;
  tm_consensus_bytes cs : @Marshal_ConsensusState ibc_clients CD (TmConsensus cs) = tm_Marshal_ConsensusState cs }.

Section handshake.
Context {SE : SdkEncoding} {IC : Ics23} {TL : TendermintLib} {TC : TmCodec} {UT : UpgradeTypes} {SK : SoloCrypto}
  {SD : SoloCodec AnyClientState AnyConsensusState} {LD : LocalCodec AnyClientState} {STK : StakingKeeper}.
#[local] Existing Instance ibc_clients.
Context {CD : @Codec ibc_clients} {TB : TmBytes} {CK : CapabilityKeeper} {AP : Application}.
Import connectiontypes.

(** The Tendermint client [cs] with store [t] only accepts, at height [h] below [pre],
    proofs of what the counterparty stores in [root] for its client [id]. *)
Definition sound_for_client (cs : ibctmtypes.ClientState) (t : KVStore) (h : Height) (pre : MerklePrefix) (root : KVStore)
    (id : string) : Prop :=
  (∀ prf x, (VerifyClientState (TmClient cs : @ClientState ibc_clients) h pre id prf x t).2 = Ok tt →
     root !! FullClientStateKey id = Some (Marshal_ClientState x)) ∧
  (∀ ch prf x, (VerifyClientConsensusState (TmClient cs : @ClientState ibc_clients) h id ch pre prf x t).2 = Ok tt →
     root !! FullConsensusStateKey id ch = Some (Marshal_ConsensusState x)).

(** Every root the client has for height [h] commits to [root] below [pre]. *)
Definition trusted_roots (tree_root : ProofSpec → gmap string string → string) (cs : ibctmtypes.ClientState) (t : KVStore)
    (h : Height) (pre : MerklePrefix) (root : KVStore) : Prop :=
  ics23_sound tree_root ∧ plain_key (KeyPrefix pre) = true ∧
  ∀ cons, cons_at t h = Some cons →
    commits_to tree_root (ibctmtypes.Client_ProofSpecs cs) (ibctmtypes.Root cons) (KeyPrefix pre) root.

Lemma trusted_member tree_root cs t h pre root prf path v args mp :
  trusted_roots tree_root cs t h pre root → plain_key path = true →
  ibctm.produceVerificationArgs t cs h prf = Ok args → ApplyPrefix pre (NewMerklePath [path]) = Ok mp →
  VerifyMembership args.1 (ibctmtypes.Client_ProofSpecs cs) (ibctmtypes.Root args.2) mp v = Ok tt → root !! path = Some v.
Proof.
  intros (HS & Hp & Hc) Hk. destruct args as [p c]. intros Ha%produceVerificationArgs_Ok ->%ApplyPrefix_Ok E.
  eapply chained_membership_sound; [exact HS|by apply Hc|exact Hp|exact Hk|exact E].
Qed.

Lemma trusted_sound tree_root cs t h pre root id :
  trusted_roots tree_root cs t h pre root → plain_key id = true → sound_for_client cs t h pre root id.
Proof.
  intros Ht Hid. split; intros *; simpl; intros E%reading_Ok.
  - unfold ibctm.tm_VerifyClientState in E. out_inv.
    destruct x as [y| |]; try done. rewrite tm_client_bytes. eapply trusted_member; eauto.
    unfold_paths. by rewrite !plain_app, Hid.
  - unfold ibctm.tm_VerifyClientConsensusState in E. out_inv.
    destruct x as [y|]; [|done]. rewrite tm_consensus_bytes. eapply trusted_member; eauto.
    unfold_paths. unfold ConsensusStatePath, Height_String. by rewrite !plain_app, Hid, !plain_number.
Qed.

(** Verification with a Tendermint client does not change its store. *)
Lemma tm_verification ctx ce (cs : ibctmtypes.ClientState) (f : @ClientState ibc_clients → ST KVStore unit) w w' :
  client w (ClientId ce) = Some (TmClient cs : @ClientState ibc_clients) →
  (∀ t, (f (TmClient cs : @ClientState ibc_clients) t).1 = t) →
  (let! x := active_client ctx (ClientId ce) in wrap_err (on_client_store (ClientId ce) (f x))) w = (w', Ok tt) →
  (f (TmClient cs : @ClientState ibc_clients) (client_view (ClientId ce) w)).2 = Ok tt ∧
  client_view (ClientId ce) w' = client_view (ClientId ce) w.
Proof.
  intros Hc Hf E. go_inv. unfold active_client in *. go_inv. simplify_eq.
  match goal with H : on_client_store _ _ _ = _ |- _ => apply on_client_store_Ok in H; rename H into Eo end.
  match type of Eo with _ ?t = _ => pose proof (Hf t) as Hft end. rewrite Eo in Hft |- *. done.
Qed.

Lemma view_next_connection c v (w : World) : client_view c (set_ibc (<[KeyNextConnectionSequence := v]> (ibc w)) w) = client_view c w.
Proof.
  apply map_eq. intros k. unfold client_view. rewrite !prefix_view_lookup. simpl. rewrite lookup_insert_ne; [done|].
  intros E. apply (f_equal (λ s, HasPrefix s (client_prefix c))) in E. rewrite HasPrefix_app in E. discriminate E.
Qed.
Lemma previous_connection_view prev cp delay cl c w w1 x :
  previous_connection prev cp delay cl w = (w1, Ok x) → client_view c w1 = client_view c w.
Proof.
  unfold previous_connection, GenerateConnectionIdentifier, GetNextConnectionSequence, SetNextConnectionSequence.
  case_bool_decide; intros E; go_inv; [done|]. apply view_next_connection.
Qed.

(** What the counterparty [root] keeps of this chain under its client [id]: a proper
    client of it and, for the height [ch], its own header. *)
Definition follows_us (ctx : Context) (root : KVStore) (id : string) (ch : Height) : Prop :=
  ∃ cs hd self, own_client ctx cs ∧ root !! FullClientStateKey id = Some (Marshal_ClientState (TmClient cs : @ClientState ibc_clients)) ∧
    GetSelfHeight ctx = Ok self ∧ height_lt ch self ∧ RevisionNumber ch = RevisionNumber self ∧
    GetHistoricalInfo ctx (int_of_u64 (RevisionHeight ch)) = Some hd ∧
    root !! FullConsensusStateKey id ch = Some (Marshal_ConsensusState (TmConsensus
      (ibctmtypes.NewConsensusState (hdr_Time hd) (NewMerkleRoot (hdr_AppHash hd)) (hdr_NextValidatorsHash hd))
      : @ConsensusState ibc_clients)).

(** The three verifications of a handshake step, from the world [w] on. *)
Lemma handshake_follows ctx ce h ch p1 p2 p3 cpc xe x xc cs root self w0 w w1 w2 w3 :
  client w0 (ClientId ce) = Some (TmClient cs : @ClientState ibc_clients) →
  client_view (ClientId ce) w = client_view (ClientId ce) w0 →
  sound_for_client cs (client_view (ClientId ce) w0) h (Counterparty_Prefix (Connection_Counterparty ce)) root
    (Counterparty_ClientId (Connection_Counterparty ce)) →
  GetSelfHeight ctx = Ok self → GTE ch self = false →
  ValidateSelfClient ctx x = Ok tt → GetSelfConsensusState ctx ch = Ok xc →
  conn_VerifyConnectionState ctx ce h p1 cpc xe w = (w1, Ok tt) →
  conn_VerifyClientState ctx ce h p2 x w1 = (w2, Ok tt) →
  conn_VerifyClientConsensusState ctx ce h ch p3 xc w2 = (w3, Ok tt) →
  follows_us ctx root (Counterparty_ClientId (Connection_Counterparty ce)) ch.
Proof.
  intros Hc Hv [Hs1 Hs2] Hself Hg (ocs & -> & Hown)%ValidateSelfClient_spec (Hrev & hd & Hhd & ->)%GetSelfConsensusState_spec E1 E2 E3.
  assert (∀ w', client_view (ClientId ce) w' = client_view (ClientId ce) w0 →
    client w' (ClientId ce) = Some (TmClient cs : @ClientState ibc_clients)) as Hcl.
  { intros w' E. rewrite client_of_view, E, <- client_of_view. done. }
  apply (tm_verification ctx ce cs (λ c, VerifyConnectionState c h _ p1 cpc xe)) in E1 as [_ V1]; [|auto|done].
  rewrite Hv in V1.
  apply (tm_verification ctx ce cs (λ c, VerifyClientState c h _ _ p2 _)) in E2 as [R2 V2]; [|auto|done].
  rewrite V1 in V2, R2. apply Hs1 in R2.
  apply (tm_verification ctx ce cs (λ c, VerifyClientConsensusState c h _ ch _ p3 _)) in E3 as [R3 _]; [|auto|done].
  rewrite V2 in R3. apply Hs2 in R3.
  apply not_true_iff_false in Hg. rewrite GTE_spec in Hg. apply dec_stable in Hg.
  exists ocs, hd, self. split_and!; try done. unfold GetSelfHeight in Hself. rewrite Hrev in Hself. by injection Hself as <-.
Qed.

Ltac follow Hc Hv Hs :=
  match goal with E1 : conn_VerifyConnectionState ?ctx ?ce ?h ?p1 _ _ _ = _, E2 : conn_VerifyClientState _ _ _ ?p2 ?x _ = _,
    E3 : conn_VerifyClientConsensusState _ _ _ ?ch ?p3 _ _ = _, Eh : GetSelfHeight _ = _, Eg : GTE _ _ = _,
    Ex : Exported.ValidateSelfClient _ _ = _, Ec : Exported.GetSelfConsensusState _ _ = _ |- _ =>
    exact (handshake_follows ctx ce h ch p1 p2 p3 _ _ x _ _ _ _ _ _ _ _ _ Hc Hv Hs Eh Eg Ex Ec E1 E2 E3) end.

(** C35: The handshake proves to each chain that its counterparty follows it and not an
    impostor.  On a chain whose Tendermint client of the counterparty has the true roots,
    [ConnOpenTry] and [ConnOpenAck], the two steps that carry the counterparty's client,
    succeed only if the counterparty keeps, under the client it named, an unfrozen client of this very chain (its chain id, its
    revision, a height it has passed, its unbonding period and proof format, and an
    upgrade path that is its own), and, for the consensus height, the time, application
    hash and next validators of this chain's own header.  [ConnOpenConfirm],
    which takes the end that [ConnOpenTry] left in TRYOPEN to OPEN, carries no client and
    checks none. *)
Theorem handshake_verifies_own_client tree_root ctx cs root h ch w w' :
  (∀ prev cp delay cl x vs p1 p2 p3 id,
     client w cl = Some (TmClient cs : @ClientState ibc_clients) →
     trusted_roots tree_root cs (client_view cl w) h (Counterparty_Prefix cp) root →
     plain_key (Counterparty_ClientId cp) = true →
     ConnOpenTry ctx prev cp delay cl x vs p1 p2 p3 h ch w = (w', Ok id) →
     follows_us ctx root (Counterparty_ClientId cp) ch) ∧
  (∀ c ce x v cpc p1 p2 p3,
     conn w c = Some ce → client w (ClientId ce) = Some (TmClient cs : @ClientState ibc_clients) →
     trusted_roots tree_root cs (client_view (ClientId ce) w) h (Counterparty_Prefix (Connection_Counterparty ce)) root →
     plain_key (Counterparty_ClientId (Connection_Counterparty ce)) = true →
     ConnOpenAck ctx c x v cpc p1 p2 p3 h ch w = (w', Ok tt) →
     follows_us ctx root (Counterparty_ClientId (Connection_Counterparty ce)) ch).
Proof.
  split.
  - intros prev cp delay cl x vs p1 p2 p3 id Hc Ht Hid E. pose proof (trusted_sound _ _ _ _ _ _ _ Ht Hid) as Hs. unfold ConnOpenTry in E. go_inv.
    match goal with H : previous_connection _ _ _ _ _ = _ |- _ => apply (previous_connection_view _ _ _ _ cl) in H as Hv end.
    follow Hc Hv Hs.
  - intros c ce x v cpc p1 p2 p3 Hce Hc Ht Hid E. pose proof (trusted_sound _ _ _ _ _ _ _ Ht Hid) as Hs. unfold ConnOpenAck in E. go_inv. rewrite Hce in *. simplify_eq.
    match type of Hs with sound_for_client _ (client_view ?cl ?w) _ _ _ _ => follow Hc (eq_refl (client_view cl w)) Hs end.
Qed.
End handshake.

(** ** Every block *)
Section blocks.
Context {SE : SdkEncoding} {IC : Ics23} {TL : TendermintLib} {TC : TmCodec} {UT : UpgradeTypes} {SK : SoloCrypto}
  {SD : SoloCodec AnyClientState AnyConsensusState} {LD : LocalCodec AnyClientState} {STK : StakingKeeper}.
#[local] Existing Instance ibc_clients.
Context {CD : @Codec ibc_clients} {CK : CapabilityKeeper} {UK : UpgradeKeeper} {AP : Application} {UA : UpgradeApp}.

(** The localhost client as it is after a block at height [h]. *)
Definition localhost_at (ctx : Context) (h : Height) : string :=
  Marshal_ClientState (LocalClient (localhost.NewClientState (ChainID ctx) h) : @ClientState ibc_clients).

Lemma localhost_update ctx (w : World) cs h :
  client w Localhost = Some (LocalClient cs : @ClientState ibc_clients) → GetSelfHeight ctx = Ok h →
  ∃ w', UpdateClient ctx Localhost None w = (w', Ok tt) ∧
    ibc w' = <[FullClientStateKey Localhost := localhost_at ctx h]> (ibc w) ∧ Exported.app w' = Exported.app w ∧ caps w' = caps w.
Proof.
  intros Hc Hh. unfold GetSelfHeight in Hh. destruct (ParseChainID (ChainID ctx)) as [r| |] eqn:Hr; simplify_eq.
  eexists. split.
  - unfold UpdateClient. run_with (GetClientState_run _ _ _ Hc). unfold get_status, some_or, bind at 1, ret at 1.
    unfold bind at 1, gets at 1. cbn [client_Status ibc_clients throw_if]. rewrite bool_decide_eq_false_2 by naive_solver.
    run_with (eq_refl : throw_if false (Wrap ClientErr.ErrClientNotActive) w = (w, Ok tt)).
    assert (wrap_err (on_client_store Localhost (CheckHeaderAndUpdateState ctx (LocalClient cs : @ClientState ibc_clients) None)) w
      = (w, Ok (LocalClient (localhost.NewClientState (ChainID ctx) (NewHeight r (uint64_of_Z (BlockHeight ctx)))), None))) as Eo.
    { unfold wrap_err, on_client_store, zoom. cbn [CheckHeaderAndUpdateState ibc_clients].
      unfold localhost.local_CheckHeaderAndUpdateState, bind, lift, ret. rewrite Hr.
      unfold client_put, client_view. by rewrite prefix_write_view, set_ibc_same. }
    run_with Eo. unfold bind at 1, SetClientState.
    cbn [ret]. match goal with |- context[store_Set ClientStateKey ?v] => run_with (writes_client Localhost ClientStateKey v w) end. unfold bind at 1, gets at 1. cbn [client_Status ibc_clients].
    rewrite bool_decide_eq_true_2 by done. unfold GetSelfHeight. rewrite Hr. cbn. reflexivity.
  - done.
Qed.

(** A block can begin: the localhost client, if the chain has one, is one. *)
Definition localhost_ready (w : World) : Prop :=
  ibc w !! FullClientStateKey Localhost = None ∨
  ∃ cs, client w Localhost = Some (LocalClient cs : @ClientState ibc_clients).

(** The plan at whose last block the upgraded consensus state is published. *)
Definition last_block_of (ctx : Context) (u : UpgState) : option Z :=
  plan ← up_GetUpgradePlan u;
  _ ← up_GetUpgradedClient u (Plan_Height plan);
  if decide (BlockHeight ctx = Plan_Height plan - 1)%Z then Some (Plan_Height plan) else None.

(** The consensus state that is published there. *)
Definition last_consensus (ctx : Context) : string :=
  Marshal_ConsensusState (upgraded_consensus ctx : @ConsensusState ibc_clients).

Lemma on_upgrade_run {A} (m : ST UpgState A) (w : World) u a :
  m (upgrade_state w) = (u, Ok a) → on_upgrade m w = (set_app (upg_put u (Exported.app w)) w, Ok a).
Proof. intros E. unfold on_upgrade, zoom. by rewrite E. Qed.

Lemma set_last_consensus_run ctx plan (w : World) :
  up_GetUpgradePlan (upgrade_state w) = Some plan →
  ∃ w1, set_last_consensus ctx plan w = (w1, Ok tt) ∧ ibc w1 = ibc w ∧
    up_GetUpgradePlan (upgrade_state w1) = Some plan ∧
    (∀ h, up_GetUpgradedClient (upgrade_state w1) h = up_GetUpgradedClient (upgrade_state w) h) ∧
    match last_block_of ctx (upgrade_state w) with
    | Some h => up_GetUpgradedConsensusState (upgrade_state w1) h = Some (last_consensus ctx)
    | None => upgrade_state w1 = upgrade_state w
    end.
Proof.
  intros Hp. unfold set_last_consensus, last_block_of, GetUpgradedClient, bind at 1, gets. rewrite Hp. simpl.
  destruct (up_GetUpgradedClient (upgrade_state w) (Plan_Height plan)) as [c|]; simpl; [|by eauto 10].
  destruct (decide _) as [Hh|Hh].
  - rewrite (proj2 (Z.eqb_eq _ _) Hh).
    destruct (set_consensus_law (Plan_Height plan) (last_consensus ctx) (upgrade_state w))
      as (u & E & Hg & Hpl & Hcl).
    pose proof (on_upgrade_run _ _ _ _ E) as Eu. unfold last_consensus in Eu.
    unfold SetUpgradedConsensusState, catch, bind at 1. rewrite Eu.
    eexists. split; [done|]. unfold upgrade_state at 1 2 4. simpl. rewrite upg_view_put, Hpl. by split_and!.
  - rewrite (proj2 (Z.eqb_neq _ _) Hh). by eauto 10.
Qed.

(** A new block always begins when the chain's id gives its revision and its localhost
    client, if there is one, is a localhost client.  It then changes nothing in the IBC
    store but that client, which is now at the chain's own height, and publishes a
    consensus state exactly at the last block before a planned upgrade that has an
    upgraded client: the time of this block and the hash of the next validators, under
    the height of the plan.  The plan and the upgraded clients stay as they are. *)
Lemma begin_block_run ctx (w : World) self :
  GetSelfHeight ctx = Ok self → localhost_ready w →
  ∃ w', BeginBlocker ctx w = (w', Ok tt) ∧
    ibc w' = match ibc w !! FullClientStateKey Localhost with
             | Some _ => <[FullClientStateKey Localhost := localhost_at ctx self]> (ibc w)
             | None => ibc w
             end ∧
    up_GetUpgradePlan (upgrade_state w') = up_GetUpgradePlan (upgrade_state w) ∧
    (∀ h, up_GetUpgradedClient (upgrade_state w') h = up_GetUpgradedClient (upgrade_state w) h) ∧
    match last_block_of ctx (upgrade_state w) with
    | Some h => up_GetUpgradedConsensusState (upgrade_state w') h = Some (last_consensus ctx)
    | None => upgrade_state w' = upgrade_state w
    end.
Proof.
  intros Hself Hl.
  assert (∃ w1, (match up_GetUpgradePlan (upgrade_state w) with Some plan => set_last_consensus ctx plan | None => ret tt end) w
      = (w1, Ok tt) ∧ ibc w1 = ibc w ∧ up_GetUpgradePlan (upgrade_state w1) = up_GetUpgradePlan (upgrade_state w) ∧
    (∀ h, up_GetUpgradedClient (upgrade_state w1) h = up_GetUpgradedClient (upgrade_state w) h) ∧
    match last_block_of ctx (upgrade_state w) with
    | Some h => up_GetUpgradedConsensusState (upgrade_state w1) h = Some (last_consensus ctx)
    | None => upgrade_state w1 = upgrade_state w
    end) as (w1 & E1 & Hi & Hrest).
  { destruct (up_GetUpgradePlan (upgrade_state w)) as [plan|] eqn:Hp; [by apply set_last_consensus_run|].
    exists w. unfold last_block_of. by rewrite Hp. }
  unfold BeginBlocker, GetUpgradePlan, bind at 1, gets. run_with E1.
  destruct Hl as [Hn|[cs Hc]].
  - assert (GetClientState Localhost w1 = (w1, Ok None)) as Eg.
    { unfold GetClientState, bind, gets, store_Get, client_view, ClientStateKey. rewrite prefix_view_lookup, Hi.
      unfold FullClientStateKey in Hn. rewrite FullClientKey_prefix in Hn. by rewrite Hn. }
    run_with Eg. rewrite Hn. exists w1. split; [done|]. by split.
  - assert (client w1 Localhost = Some (LocalClient cs : @ClientState ibc_clients)) as Hc1 by (unfold client in *; by rewrite Hi).
    run_with (GetClientState_run _ _ _ Hc1).
    destruct (localhost_update ctx w1 cs self Hc1 Hself) as (w' & Eu & Hi' & Ha & _).
    unfold must. rewrite Eu. exists w'. unfold client in Hc. destruct (ibc w !! _); [|done].
    assert (upgrade_state w' = upgrade_state w1) as -> by (unfold upgrade_state; by rewrite Ha).
    rewrite Hi', Hi. split; [done|]. by split.
Qed.

Lemma on_upgrade_Ok {A} (m : ST UpgState A) (w w' : World) a :
  on_upgrade m w = (w', Ok a) → ∃ u, m (upgrade_state w) = (u, Ok a) ∧ upgrade_state w' = u ∧ ibc w' = ibc w.
Proof.
  unfold on_upgrade, zoom. destruct (m (upgrade_state w)) as [u o]. intros E. simplify_eq.
  exists u. split_and!; [done| |done]. unfold upgrade_state. simpl. by rewrite upg_view_put.
Qed.

Lemma HandleUpgradeProposal_Ok p (w w' : World) :
  HandleUpgradeProposal p w = (w', Ok tt) →
  ∃ cs, UnpackClientState (UpgradedClientState p) = Ok cs ∧ ibc w' = ibc w ∧
    up_GetUpgradePlan (upgrade_state w') = Some (up_Plan p) ∧
    up_GetUpgradedClient (upgrade_state w') (Plan_Height (up_Plan p)) = Some (Marshal_ClientState (ZeroCustomFields cs)).
Proof.
  unfold HandleUpgradeProposal. intros E. go_inv.
  match goal with H1 : on_upgrade (up_ScheduleUpgrade _) _ = _, H2 : on_upgrade (up_SetUpgradedClient _ _) _ = _ |- _ =>
    apply on_upgrade_Ok in H1 as (u1 & E1 & Hu1 & Hi1); apply on_upgrade_Ok in H2 as (u2 & E2 & Hu2 & Hi2) end.
  eexists. split; [done|]. split; [congruence|].
  match type of E2 with up_SetUpgradedClient ?h ?bz ?u = _ => destruct (set_client_law h bz u) as (u2' & E2' & Hg & Hp) end.
  rewrite E2 in E2'. injection E2' as <-. rewrite Hu2, Hp, Hu1. split; [|done]. by eapply schedule_law.
Qed.

(** C36: An upgrade that governance decided is published for the clients of the chain: once the
    handler accepted the proposal, and while the upgrade module's state stays as it is,
    the block before the height of the plan begins, and after it the upgrade store holds,
    under that height, the proposal's client state with its custom fields zeroed and a
    consensus state with the time of that block and the hash of the next validators;
    the IBC store is untouched but for the localhost client. *)
Theorem upgrade_is_published ctx0 ctx p (w w1 w2 : World) self :
  NewClientProposalHandler ctx0 (Content_Upgrade p) w = (w1, Ok tt) →
  upgrade_state w2 = upgrade_state w1 → BlockHeight ctx = (Plan_Height (up_Plan p) - 1)%Z →
  GetSelfHeight ctx = Ok self → localhost_ready w2 →
  ∃ cs w3, UnpackClientState (UpgradedClientState p) = Ok cs ∧ BeginBlocker ctx w2 = (w3, Ok tt) ∧
    GetUpgradedClient (Plan_Height (up_Plan p)) w3 = (w3, Ok (Some (Marshal_ClientState (ZeroCustomFields cs)))) ∧
    GetUpgradedConsensusState (Plan_Height (up_Plan p)) w3 = (w3, Ok (Some (last_consensus ctx))) ∧
    ∀ k, k ≠ FullClientStateKey Localhost → ibc w3 !! k = ibc w2 !! k.
Proof.
  intros (cs & Hcs & _ & Hp & Hc)%HandleUpgradeProposal_Ok Hu Hh Hs Hl.
  destruct (begin_block_run ctx w2 self Hs Hl) as (w3 & E & Hi & Hp3 & Hc3 & Hl3).
  assert (last_block_of ctx (upgrade_state w2) = Some (Plan_Height (up_Plan p))) as El.
  { unfold last_block_of. rewrite Hu, Hp. simpl. rewrite Hc. simpl. by rewrite decide_True. }
  rewrite El in Hl3. exists cs, w3. unfold GetUpgradedClient, GetUpgradedConsensusState, gets.
  rewrite Hl3, Hc3, Hu, Hc. split_and!; try done.
  intros k Hk. rewrite Hi. destruct (ibc w2 !! _); [by rewrite lookup_insert_ne|done].
Qed.
End blocks.

(** ** A chain that checks who follows it, and upgrades

    A chain whose counterparty keeps a Tendermint client of it: the second step of the
    connection handshake, and an upgrade from the proposal to its last block. *)
(** The upgrade module as three maps; a plan is its height. *)
Record ToyUpgrades := mkToyUpgrades { toy_plan : option Z; toy_next_clients : gmap Z string; toy_next_consensus : gmap Z string }.
Definition toy_upgrades : UpgradeKeeper.
Proof.
  refine {|
    UpgState := ToyUpgrades; Plan := Z; Plan_Height := λ h, h; Plan_ValidateBasic := λ _, Ok tt;
    up_GetUpgradePlan := toy_plan;
    up_GetUpgradedClient := λ u h, toy_next_clients u !! h;
    up_GetUpgradedConsensusState := λ u h, toy_next_consensus u !! h;
    up_SetUpgradedClient := λ h bz, modify (λ u, mkToyUpgrades (toy_plan u) (<[h := bz]> (toy_next_clients u)) (toy_next_consensus u));
    up_SetUpgradedConsensusState := λ h bz,
      modify (λ u, mkToyUpgrades (toy_plan u) (toy_next_clients u) (<[h := bz]> (toy_next_consensus u)));
    up_ScheduleUpgrade := λ p, modify (λ u, mkToyUpgrades (Some p) (toy_next_clients u) (toy_next_consensus u)) |}.
  - intros h bz u. eexists. split; [done|]. simpl. by rewrite lookup_insert_eq.
  - intros h bz u. eexists. split; [done|]. simpl. by rewrite lookup_insert_eq.
  - intros p u u' E. by injection E as <-.
Defined.

Module SelfWitness.
Import ToySolo commitmenttypes connectiontypes selfchain.

(** The Tendermint client encodes states as the chain does. *)
#[local] Instance any_tmcodec : TmCodec.
Proof.
  refine {|
    tm_Marshal_ClientState := λ cs, enc ("tm", enc cs);
    tm_Marshal_ConsensusState := λ cs, enc ("tm", enc cs);
    tm_Unmarshal_ConsensusState := λ s,
      match (dec s : option (string * string)) with Some ("tm", x) => dec x | _ => None end;
    tm_Marshal_ConnectionEnd := enc;
    tm_Marshal_Channel := enc;
    Unmarshal_MerkleProof := dec;
    tm_encodable := λ _, True |}.
  - intros c _. by rewrite !dec_enc.
  - done.
Defined.
#[local] Existing Instance ibc_clients.
#[local] Existing Instance toy_caps.
#[local] Instance any_codec : @Codec ibc_clients :=
  @Build_Codec ibc_clients enc dec enc dec enc dec (enc_client : AnyClientState → _) dec_client
    (enc_consensus : AnyConsensusState → _) dec_consensus (λ _, "") encodable_client (λ _, True)
    dec_enc (λ c _, dec_enc c) dec_enc dec_enc_client (λ c _, dec_enc_consensus c).
#[local] Instance any_bytes : TmBytes := {| tm_client_bytes := λ _, eq_refl; tm_consensus_bytes := λ _, eq_refl |}.
#[local] Existing Instance toy_upgrades.
#[local] Instance upgrading_app : Application := {| AppState := ToyUpgrades |}.
#[local] Instance upgrades_in_app : @UpgradeApp toy_upgrades upgrading_app :=
  @Build_UpgradeApp toy_upgrades upgrading_app (λ a, a) (λ u _, u) (λ _ _, eq_refl).
(** The header of height [h] has the hash "app". *)
#[local] Instance toy_staking : StakingKeeper := {|
  GetHistoricalInfo := λ ctx h, Some (mkToyHeader (ChainID ctx) h (100 * h) "app" "ours" "ours");
  UnbondingTime := λ _, 20000%Z;
  BlockHeader_NextValidatorsHash := λ _, "ours" |}.

Definition ctx0 : Context := mkContext "chainB-1" 20 1000 false false.
Definition idA : string := "07-tendermint-9".
Definition idB : string := "07-tendermint-0".

(** What the counterparty keeps: a client of this chain, its header 10 and a connection. *)
Definition ours : ibctmtypes.ClientState :=
  ibctmtypes.NewClientState "chainB-1" (mkFraction 1 3) 10000 20000 10 (NewHeight 1 10) [Some false; Some true]
    ["upgrade"; "upgradedIBCState"] true true.
Definition our_client : @ClientState ibc_clients := TmClient ours.
Definition our_header : ibctmtypes.ConsensusState := ibctmtypes.NewConsensusState 1000 (NewMerkleRoot "app") "ours".
Definition opening : ConnectionEnd :=
  NewConnectionEnd INIT idA (NewCounterparty idB "" GetCommitmentPrefix) GetCompatibleVersions 0.
Definition root : gmap string string :=
  {[ FullClientStateKey idA := enc_client (TmClient ours);
     FullConsensusStateKey idA (NewHeight 1 10) := enc_consensus (TmConsensus our_header);
     ConnectionKey "connection-5" := enc opening ]}.
Definition stores : gmap string string := {[ "ibc" := toy_root false root ]}.
Definition prf : string := enc (A := MerkleProof) (mkMerkleProof [ToyExist root; ToyExist stores]).

(** This chain and its client of the counterparty. *)
Definition theirs : ibctmtypes.ClientState :=
  ibctmtypes.NewClientState "chainA-1" (mkFraction 1 3) 10000 20000 10 (NewHeight 1 5) [Some false; Some true] [] true true.
Definition their_root : ibctmtypes.ConsensusState := ibctmtypes.NewConsensusState 500 (NewMerkleRoot (toy_root true stores)) "vals".
Definition store0 : gmap string string :=
  {[ FullClientStateKey idB := enc_client (TmClient theirs);
     FullConsensusStateKey idB (NewHeight 1 5) := enc_consensus (TmConsensus their_root);
     FullClientStateKey Localhost := enc_client (LocalClient (localhost.NewClientState "chainB-1" (NewHeight 1 19)));
     KeyNextConnectionSequence := Uint64ToBigEndian 0 ]}.
Definition world0 : World := mkWorld store0 ∅ (mkToyUpgrades None ∅ ∅) ["07-tendermint"] 0 [].
Definition counterparty : Counterparty := NewCounterparty idA "connection-5" (NewMerklePrefix "ibc").

Definition tried : World :=
  (ConnOpenTry ctx0 "" counterparty 0 idB our_client GetCompatibleVersions prf prf prf (NewHeight 1 5) (NewHeight 1 10) world0).1.
Lemma try_run :
  ConnOpenTry ctx0 "" counterparty 0 idB our_client GetCompatibleVersions prf prf prf (NewHeight 1 5) (NewHeight 1 10) world0
  = (tried, Ok "connection-0").
Proof. unfold tried. apply run_pair. vm_compute. reflexivity. Qed.

Definition their_client : @ClientState ibc_clients := TmClient theirs.
Lemma their_client_known : client world0 idB = Some their_client.
Proof. vm_cast_no_check (eq_refl (Some their_client)). Qed.
Lemma roots_known :
  trusted_roots toy_root theirs (client_view idB world0) (NewHeight 1 5) (NewMerklePrefix "ibc") root.
Proof.
  split; [exact toy_ics23_sound|]. split; [reflexivity|].
  assert (cons_at (client_view idB world0) (NewHeight 1 5) = Some their_root) as -> by (vm_compute; reflexivity).
  intros cons [= <-]. exists false, true, stores. split; [reflexivity|]. split; [reflexivity|]. vm_compute. reflexivity.
Qed.

Lemma handshake_verifies_own_client_witness :
  (tried, Ok "connection-0") =
    ConnOpenTry ctx0 "" counterparty 0 idB our_client GetCompatibleVersions prf prf prf (NewHeight 1 5) (NewHeight 1 10) world0 ∧
  follows_us ctx0 root idA (NewHeight 1 10).
Proof.
  split; [symmetry; exact try_run|].
  destruct (handshake_verifies_own_client (IC := toy_ics23) toy_root ctx0 theirs root (NewHeight 1 5) (NewHeight 1 10) world0 tried) as [H _].
  exact (H "" counterparty 0%N idB our_client GetCompatibleVersions prf prf prf "connection-0" their_client_known roots_known
    eq_refl try_run).
Defined.

(** The upgrade to "chainB-2" at height 30. *)
Definition next_client : ibctmtypes.ClientState :=
  ibctmtypes.NewClientState "chainB-2" (mkFraction 1 3) 10000 30000 10 (NewHeight 2 1) [Some false; Some true]
    ["upgrade"; "upgradedIBCState"] true true.
Definition proposal : UpgradeProposal :=
  mkUpgradeProposal "upgrade" "to revision 2" 30%Z (Some (Any_ClientState (TmClient next_client : @ClientState ibc_clients))).
Definition planned : World := (NewClientProposalHandler ctx0 (Content_Upgrade proposal) world0).1.
Definition last_ctx : Context := mkContext "chainB-1" 29 2900 false false.
Lemma planned_run : NewClientProposalHandler ctx0 (Content_Upgrade proposal) world0 = (planned, Ok tt).
Proof. unfold planned. apply run_pair. vm_compute. reflexivity. Qed.

Lemma upgrade_is_published_witness :
  ∃ w3, BeginBlocker last_ctx planned = (w3, Ok tt) ∧
    GetUpgradedConsensusState 30 w3 = (w3, Ok (Some (last_consensus last_ctx))).
Proof.
  pose proof (upgrade_is_published ctx0 last_ctx proposal world0 planned planned (NewHeight 1 29)) as H.
  destruct H as (cs & w3 & _ & E & _ & H & _); [exact planned_run|reflexivity|reflexivity|reflexivity| |].
  2: { exists w3. split; [exact E|exact H]. }
  right. exists (localhost.NewClientState "chainB-1" (NewHeight 1 19)). vm_cast_no_check (eq_refl (Some (LocalClient (localhost.NewClientState "chainB-1" (NewHeight 1 19))))).
Defined.
End SelfWitness.
