(* ===== verification/Queries.v ===== *)
(** * Pagination and the queries of the channel submodule

    The gRPC queries of [04-channel/keeper/grpc_query.go] with the messages of
    [types/query.pb.go] and their constructors ([types/query.go]).  They read the store of
    a height; relayers find out through them what is left to relay.

    A request is a pointer, nil for [None]; proofs are added by the server of the node. *)
From S2P Require Import Prelude GoMonad Errors Sha256 Height Host Sdk ConnectionTypes.
From S2P Require Import ChannelTypes Exported ClientKeeper ConnectionKeeper ChannelKeeper.
From S2P Require Import Iteration ClientTypes ChannelGenesis.
From Stdlib Require Import Ascii.

(** ** gRPC and cosmos-sdk *)

(** [status.Error(code, message)]; messages are not modelled. *)
Module status.
Definition Error (code : N) : error := Sentinel "grpc" code.
Definition InvalidArgument : N := 3.
Definition NotFound : N := 5.
Definition Internal : N := 13.
(** [if err != nil { return nil, status.Error(code, err.Error()) }] *)
Definition recode {A} (code : N) (o : outcome A) : outcome A :=
  match o with
  | Err _ => Err (Error code)
  | _ => o
  end.
End status.

(** [query.Paginate] calls a function on some entries of a store, in order and each at
    most once, until it returns an error; [FilteredPaginate] lets the function say whether
    an entry counts, and tells it whether the entry is on the requested page.  A request
    for a page that is large enough for the whole store gets every entry, in the order
    of the keys. *)
Class Pagination := {
  PageRequest : Type;
  PageResponse : Type;
  Paginate {S : Type} : KVStore → option PageRequest → (string → string → ST S unit) → ST S PageResponse;
  FilteredPaginate {S : Type} :
    KVStore → option PageRequest → (string → string → bool → ST S bool) → ST S PageResponse;
  paginate_visits store req : ∃ visited result, visited ⊆+ entries store ∧
    ∀ (S : Type) (f : string → string → ST S unit) s,
      Paginate store req f s = (for_all (λ kv, f kv.1 kv.2) visited ;;; lift result) s;
  whole_page : nat → PageRequest;
  paginate_whole store n : length (entries store) ≤ n → ∃ result,
    ∀ (S : Type) (f : string → string → ST S unit) s,
      Paginate store (Some (whole_page n)) f s = (for_all (λ kv, f kv.1 kv.2) (entries store) ;;; ret result) s }.

Section pagination.
Context {PG : Pagination}.

(** A call that appends what the function returns to a list, if anything. *)
Definition append_result {A} (f : string → string → outcome (option A)) (key value : string) : ST (list A) unit := λ acc,
  match f key value with
  | Ok (Some a) => (acc ++ [a], Ok tt)
  | Ok None => (acc, Ok tt)
  | Err e => (acc, Err e)
  | Panic => (acc, Panic)
  end.
Definition collect {A B} (m : ST (list A) B) : outcome (list A * B) :=
  match m [] with
  | (acc, Ok b) => Ok (acc, b)
  | (_, Err e) => Err e
  | (_, Panic) => Panic
  end.
Definition paginate_list {A} (store : KVStore) (req : option PageRequest) (f : string → string → outcome (option A)) :
    outcome (list A * PageResponse) :=
  collect (Paginate store req (append_result f)).
End pagination.

Module channelquery.
Import channelgenesis.

(** ** Messages *)
Section messages.
Context {PG : Pagination} {LC : LightClient}.

Record QueryChannelRequest := mkQueryChannelRequest { ch_PortId : string; ch_ChannelId : string }.
Record QueryChannelResponse := mkQueryChannelResponse {
  ch_Channel : Channel; ch_Proof : option string; ch_ProofHeight : Height }.
Record QueryChannelsRequest := mkQueryChannelsRequest { chs_Pagination : option PageRequest }.
Record QueryChannelsResponse := mkQueryChannelsResponse {
  chs_Channels : list IdentifiedChannel; chs_Page : PageResponse; chs_Height : Height }.
Record QueryConnectionChannelsRequest := mkQueryConnectionChannelsRequest {
  cc_Connection : string; cc_Pagination : option PageRequest }.
Record QueryConnectionChannelsResponse := mkQueryConnectionChannelsResponse {
  cc_Channels : list IdentifiedChannel; cc_Page : PageResponse; cc_Height : Height }.
Record QueryChannelClientStateRequest := mkQueryChannelClientStateRequest { ccs_PortId : string; ccs_ChannelId : string }.
Record QueryChannelClientStateResponse := mkQueryChannelClientStateResponse {
  ccs_IdentifiedClientState : IdentifiedClientState; ccs_Proof : option string; ccs_ProofHeight : Height }.
Record QueryChannelConsensusStateRequest := mkQueryChannelConsensusStateRequest {
  ccons_PortId : string; ccons_ChannelId : string; ccons_RevisionNumber : N; ccons_RevisionHeight : N }.
Record QueryChannelConsensusStateResponse := mkQueryChannelConsensusStateResponse {
  ccons_ConsensusState : AnyValue; ccons_ClientId : string; ccons_Proof : option string; ccons_ProofHeight : Height }.
Record QueryPacketCommitmentRequest := mkQueryPacketCommitmentRequest {
  pc_PortId : string; pc_ChannelId : string; pc_Sequence : N }.
Record QueryPacketCommitmentResponse := mkQueryPacketCommitmentResponse {
  pc_Commitment : string; pc_Proof : option string; pc_ProofHeight : Height }.
Record QueryPacketCommitmentsRequest := mkQueryPacketCommitmentsRequest {
  pcs_PortId : string; pcs_ChannelId : string; pcs_Pagination : option PageRequest }.
Record QueryPacketCommitmentsResponse := mkQueryPacketCommitmentsResponse {
  pcs_Commitments : list PacketState; pcs_Page : PageResponse; pcs_Height : Height }.
Record QueryPacketReceiptRequest := mkQueryPacketReceiptRequest {
  pr_PortId : string; pr_ChannelId : string; pr_Sequence : N }.
Record QueryPacketReceiptResponse := mkQueryPacketReceiptResponse {
  pr_Received : bool; pr_Proof : option string; pr_ProofHeight : Height }.
Record QueryPacketAcknowledgementRequest := mkQueryPacketAcknowledgementRequest {
  pa_PortId : string; pa_ChannelId : string; pa_Sequence : N }.
Record QueryPacketAcknowledgementResponse := mkQueryPacketAcknowledgementResponse {
  pa_Acknowledgement : string; pa_Proof : option string; pa_ProofHeight : Height }.
Record QueryPacketAcknowledgementsRequest := mkQueryPacketAcknowledgementsRequest {
  pas_PortId : string; pas_ChannelId : string; pas_Pagination : option PageRequest;
  pas_PacketCommitmentSequences : list N }.
Record QueryPacketAcknowledgementsResponse := mkQueryPacketAcknowledgementsResponse {
  pas_Acknowledgements : list PacketState; pas_Page : option PageResponse; pas_Height : Height }.
Record QueryUnreceivedPacketsRequest := mkQueryUnreceivedPacketsRequest {
  up_PortId : string; up_ChannelId : string; up_PacketCommitmentSequences : list N }.
Record QueryUnreceivedPacketsResponse := mkQueryUnreceivedPacketsResponse { up_Sequences : list N; up_Height : Height }.
Record QueryUnreceivedAcksRequest := mkQueryUnreceivedAcksRequest {
  ua_PortId : string; ua_ChannelId : string; ua_PacketAckSequences : list N }.
Record QueryUnreceivedAcksResponse := mkQueryUnreceivedAcksResponse { ua_Sequences : list N; ua_Height : Height }.
Record QueryNextSequenceReceiveRequest := mkQueryNextSequenceReceiveRequest { ns_PortId : string; ns_ChannelId : string }.
Record QueryNextSequenceReceiveResponse := mkQueryNextSequenceReceiveResponse {
  ns_NextSequenceReceive : N; ns_Proof : option string; ns_ProofHeight : Height }.

Definition NewQueryChannelResponse (channel : Channel) (proof : option string) (height : Height) : QueryChannelResponse :=
  mkQueryChannelResponse channel proof height.
Definition NewQueryChannelClientStateResponse (identifiedClientState : IdentifiedClientState) (proof : option string)
    (height : Height) : QueryChannelClientStateResponse :=
  mkQueryChannelClientStateResponse identifiedClientState proof height.
(** The height of the consensus state is not used. *)
Definition NewQueryChannelConsensusStateResponse (clientID : string) (anyConsensusState : AnyValue)
    (consensusStateHeight : Height) (proof : option string) (height : Height) : QueryChannelConsensusStateResponse :=
  mkQueryChannelConsensusStateResponse anyConsensusState clientID proof height.
Definition NewQueryPacketCommitmentResponse (commitment : string) (proof : option string) (height : Height) :
    QueryPacketCommitmentResponse := mkQueryPacketCommitmentResponse commitment proof height.
Definition NewQueryPacketReceiptResponse (recvd : bool) (proof : option string) (height : Height) :
    QueryPacketReceiptResponse := mkQueryPacketReceiptResponse recvd proof height.
Definition NewQueryPacketAcknowledgementResponse (acknowledgement : string) (proof : option string) (height : Height) :
    QueryPacketAcknowledgementResponse := mkQueryPacketAcknowledgementResponse acknowledgement proof height.
Definition NewQueryNextSequenceReceiveResponse (sequence : N) (proof : option string) (height : Height) :
    QueryNextSequenceReceiveResponse := mkQueryNextSequenceReceiveResponse sequence proof height.
End messages.

(** ** Queries *)
Section queries.
Context {PG : Pagination} {SE : SdkEncoding} {LC : LightClient} {CD : Codec} {CK : CapabilityKeeper} {AP : Application}.

(** [if req == nil { return nil, status.Error(codes.InvalidArgument, "empty request") }] *)
Definition given {A} (req : option A) : M A := some_or req (status.Error status.InvalidArgument).

Definition validategRPCRequest (portID channelID : string) : outcome unit :=
  status.recode status.InvalidArgument (PortIdentifierValidator portID) ;;?
  status.recode status.InvalidArgument (ChannelIdentifierValidator channelID).

Definition found {A} (o : option A) : M A := some_or o (status.Error status.NotFound).

(** [keeper.go] *)
Definition GetChannelClientState (portID channelID : string) : M (string * ClientState) :=
  let! channel := GetChannel portID channelID in
  let! channel := some_or channel (Wrap ChanErr.ErrChannelNotFound) in
  let! hop := hop0 (ConnectionHops channel) in
  let! connection := GetConnection hop in
  let! connection := some_or connection (Wrap ConnErr.ErrConnectionNotFound) in
  let! clientState := GetClientState (connectiontypes.ClientId connection) in
  let! clientState := some_or clientState (Wrap ClientErr.ErrClientNotFound) in
  ret (connectiontypes.ClientId connection, clientState).

Definition GetChannelConnection (portID channelID : string) : M (string * connectiontypes.ConnectionEnd) :=
  let! channel := GetChannel portID channelID in
  let! channel := some_or channel (Wrap ChanErr.ErrChannelNotFound) in
  let! connectionID := hop0 (ConnectionHops channel) in
  let! connection := GetConnection connectionID in
  let! connection := some_or connection (Wrap ConnErr.ErrConnectionNotFound) in
  ret (connectionID, connection).

Definition query_Channel (ctx : Context) (req : option QueryChannelRequest) : M QueryChannelResponse :=
  let! req := given req in
  lift (validategRPCRequest (ch_PortId req) (ch_ChannelId req)) ;;;
  let! channel := GetChannel (ch_PortId req) (ch_ChannelId req) in
  let! channel := found channel in
  let! selfHeight := lift (GetSelfHeight ctx) in
  ret (NewQueryChannelResponse channel None selfHeight).

(** The entry of a channel; the error of the codec is that of protobuf. *)
Definition proto_error : error := External "proto: unmarshal".
Definition list_channel (key value : string) : outcome (option IdentifiedChannel) :=
  match Unmarshal_Channel value with
  | None => Err proto_error
  | Some result =>
      let? ' (portID, channelID) := ParseChannelPath key in
      Ok (Some (NewIdentifiedChannel portID channelID result))
  end.
(** An entry of another connection is skipped before its key is parsed. *)
Definition list_connection_channel (connection key value : string) : outcome (option IdentifiedChannel) :=
  match Unmarshal_Channel value with
  | None => Err proto_error
  | Some result =>
      let? hop := must_some (head (ConnectionHops result)) in
      if bool_decide (hop ≠ connection) then Ok None
      else
        let? ' (portID, channelID) := ParseChannelPath key in
        Ok (Some (NewIdentifiedChannel portID channelID result))
  end.

Definition query_Channels (ctx : Context) (req : option QueryChannelsRequest) : M QueryChannelsResponse :=
  let! req := given req in
  let! store := gets (λ w, prefix_view KeyChannelEndPrefix (ibc w)) in
  let! ' (channels, pageRes) := lift (paginate_list store (chs_Pagination req) list_channel) in
  let! selfHeight := lift (GetSelfHeight ctx) in
  ret (mkQueryChannelsResponse channels pageRes selfHeight).

Definition query_ConnectionChannels (ctx : Context) (req : option QueryConnectionChannelsRequest) :
    M QueryConnectionChannelsResponse :=
  let! req := given req in
  lift (status.recode status.InvalidArgument (ConnectionIdentifierValidator (cc_Connection req))) ;;;
  let! store := gets (λ w, prefix_view KeyChannelEndPrefix (ibc w)) in
  let! ' (channels, pageRes) :=
    lift (paginate_list store (cc_Pagination req) (list_connection_channel (cc_Connection req))) in
  let! selfHeight := lift (GetSelfHeight ctx) in
  ret (mkQueryConnectionChannelsResponse channels pageRes selfHeight).

(** The outcome of a keeper function with its error recoded. *)
Definition recoded {A} (code : N) (m : M A) : M A := λ w, let '(w', o) := m w in (w', status.recode code o).

Definition query_ChannelClientState (ctx : Context) (req : option QueryChannelClientStateRequest) :
    M QueryChannelClientStateResponse :=
  let! req := given req in
  lift (validategRPCRequest (ccs_PortId req) (ccs_ChannelId req)) ;;;
  let! ' (clientID, clientState) :=
    recoded status.NotFound (GetChannelClientState (ccs_PortId req) (ccs_ChannelId req)) in
  let identifiedClientState := NewIdentifiedClientState clientID clientState in
  let! selfHeight := lift (GetSelfHeight ctx) in
  ret (NewQueryChannelClientStateResponse identifiedClientState None selfHeight).

Definition query_ChannelConsensusState (ctx : Context) (req : option QueryChannelConsensusStateRequest) :
    M QueryChannelConsensusStateResponse :=
  let! req := given req in
  lift (validategRPCRequest (ccons_PortId req) (ccons_ChannelId req)) ;;;
  let! channel := GetChannel (ccons_PortId req) (ccons_ChannelId req) in
  let! channel := found channel in
  let! hop := hop0 (ConnectionHops channel) in
  let! connection := GetConnection hop in
  let! connection := found connection in
  let consHeight := NewHeight (ccons_RevisionNumber req) (ccons_RevisionHeight req) in
  let! consensusState := GetClientConsensusState (connectiontypes.ClientId connection) consHeight in
  let! consensusState := found consensusState in
  let! anyConsensusState := lift (status.recode status.Internal (PackConsensusState (Some consensusState))) in
  let! selfHeight := lift (GetSelfHeight ctx) in
  ret (NewQueryChannelConsensusStateResponse (connectiontypes.ClientId connection) anyConsensusState consHeight None selfHeight).

Definition no_zero_sequence (sequence : N) : M unit :=
  throw_if (sequence =? 0)%N (status.Error status.InvalidArgument).

Definition query_PacketCommitment (ctx : Context) (req : option QueryPacketCommitmentRequest) :
    M QueryPacketCommitmentResponse :=
  let! req := given req in
  lift (validategRPCRequest (pc_PortId req) (pc_ChannelId req)) ;;;
  no_zero_sequence (pc_Sequence req) ;;;
  let! commitmentBz := GetPacketCommitment (pc_PortId req) (pc_ChannelId req) (pc_Sequence req) in
  throw_if (bool_decide (String.length commitmentBz = 0)) (status.Error status.NotFound) ;;;
  let! selfHeight := lift (GetSelfHeight ctx) in
  ret (NewQueryPacketCommitmentResponse commitmentBz None selfHeight).

(** The entry of a packet; [keySplit[len(keySplit)-1]] exists. *)
Definition parse_error : error := External "strconv.ParseUint".
Definition list_packet (portID channelID key value : string) : outcome (option PacketState) :=
  match list.last (Split key "/") ≫= ParseUint with
  | None => Err parse_error
  | Some sequence => Ok (Some (NewPacketState portID channelID sequence (Some value)))
  end.

Definition query_PacketCommitments (ctx : Context) (req : option QueryPacketCommitmentsRequest) :
    M QueryPacketCommitmentsResponse :=
  let! req := given req in
  lift (validategRPCRequest (pcs_PortId req) (pcs_ChannelId req)) ;;;
  let! store := gets (λ w, prefix_view (PacketCommitmentPrefixPath (pcs_PortId req) (pcs_ChannelId req)) (ibc w)) in
  let! ' (commitments, pageRes) :=
    lift (paginate_list store (pcs_Pagination req) (list_packet (pcs_PortId req) (pcs_ChannelId req))) in
  let! selfHeight := lift (GetSelfHeight ctx) in
  ret (mkQueryPacketCommitmentsResponse commitments pageRes selfHeight).

Definition query_PacketReceipt (ctx : Context) (req : option QueryPacketReceiptRequest) : M QueryPacketReceiptResponse :=
  let! req := given req in
  lift (validategRPCRequest (pr_PortId req) (pr_ChannelId req)) ;;;
  no_zero_sequence (pr_Sequence req) ;;;
  let! receipt := GetPacketReceipt (pr_PortId req) (pr_ChannelId req) (pr_Sequence req) in
  let! selfHeight := lift (GetSelfHeight ctx) in
  ret (NewQueryPacketReceiptResponse (negb (is_nil receipt)) None selfHeight).

(** [!found || len(acknowledgementBz) == 0] *)
Definition nonempty_ack (portID channelID : string) (sequence : N) : M (option string) :=
  let! acknowledgementBz := GetPacketAcknowledgement portID channelID sequence in
  ret (match acknowledgementBz with
       | Some bz => if bool_decide (String.length bz = 0) then None else Some bz
       | None => None
       end).

Definition query_PacketAcknowledgement (ctx : Context) (req : option QueryPacketAcknowledgementRequest) :
    M QueryPacketAcknowledgementResponse :=
  let! req := given req in
  lift (validategRPCRequest (pa_PortId req) (pa_ChannelId req)) ;;;
  no_zero_sequence (pa_Sequence req) ;;;
  let! acknowledgementBz := nonempty_ack (pa_PortId req) (pa_ChannelId req) (pa_Sequence req) in
  let! acknowledgementBz := found acknowledgementBz in
  let! selfHeight := lift (GetSelfHeight ctx) in
  ret (NewQueryPacketAcknowledgementResponse acknowledgementBz None selfHeight).

(** The loop over the sequences of the request. *)
Fixpoint acks_of (portID channelID : string) (sequences : list N) : M (list PacketState) :=
  match sequences with
  | [] => ret []
  | seq :: sequences =>
      let! acknowledgementBz := nonempty_ack portID channelID seq in
      let! acks := acks_of portID channelID sequences in
      ret (match acknowledgementBz with
           | Some bz => NewPacketState portID channelID seq (Some bz) :: acks
           | None => acks
           end)
  end.

Definition query_PacketAcknowledgements (ctx : Context) (req : option QueryPacketAcknowledgementsRequest) :
    M QueryPacketAcknowledgementsResponse :=
  let! req := given req in
  lift (validategRPCRequest (pas_PortId req) (pas_ChannelId req)) ;;;
  let! store := gets (λ w, prefix_view (PacketAcknowledgementPrefixPath (pas_PortId req) (pas_ChannelId req)) (ibc w)) in
  let! acks := acks_of (pas_PortId req) (pas_ChannelId req) (pas_PacketCommitmentSequences req) in
  if bool_decide (0 < length (pas_PacketCommitmentSequences req))%nat then
    let! selfHeight := lift (GetSelfHeight ctx) in
    ret (mkQueryPacketAcknowledgementsResponse acks None selfHeight)
  else
    let! ' (acks, pageRes) :=
      lift (paginate_list store (pas_Pagination req) (list_packet (pas_PortId req) (pas_ChannelId req))) in
    let! selfHeight := lift (GetSelfHeight ctx) in
    ret (mkQueryPacketAcknowledgementsResponse acks (Some pageRes) selfHeight).

(** The loops of [UnreceivedPackets] and [UnreceivedAcks]. *)
Fixpoint unreceived_packets (portID channelID : string) (sequences : list N) : M (list N) :=
  match sequences with
  | [] => ret []
  | seq :: sequences =>
      no_zero_sequence seq ;;;
      let! receipt := GetPacketReceipt portID channelID seq in
      let! rest := unreceived_packets portID channelID sequences in
      ret (if is_nil receipt then seq :: rest else rest)
  end.
Fixpoint unreceived_acks (portID channelID : string) (sequences : list N) : M (list N) :=
  match sequences with
  | [] => ret []
  | seq :: sequences =>
      no_zero_sequence seq ;;;
      let! commitment := GetPacketCommitment portID channelID seq in
      let! rest := unreceived_acks portID channelID sequences in
      ret (if bool_decide (String.length commitment ≠ 0%nat) then seq :: rest else rest)
  end.

Definition query_UnreceivedPackets (ctx : Context) (req : option QueryUnreceivedPacketsRequest) :
    M QueryUnreceivedPacketsResponse :=
  let! req := given req in
  lift (validategRPCRequest (up_PortId req) (up_ChannelId req)) ;;;
  let! unreceivedSequences := unreceived_packets (up_PortId req) (up_ChannelId req) (up_PacketCommitmentSequences req) in
  let! selfHeight := lift (GetSelfHeight ctx) in
  ret (mkQueryUnreceivedPacketsResponse unreceivedSequences selfHeight).

Definition query_UnreceivedAcks (ctx : Context) (req : option QueryUnreceivedAcksRequest) : M QueryUnreceivedAcksResponse :=
  let! req := given req in
  lift (validategRPCRequest (ua_PortId req) (ua_ChannelId req)) ;;;
  let! unreceivedSequences := unreceived_acks (ua_PortId req) (ua_ChannelId req) (ua_PacketAckSequences req) in
  let! selfHeight := lift (GetSelfHeight ctx) in
  ret (mkQueryUnreceivedAcksResponse unreceivedSequences selfHeight).

Definition query_NextSequenceReceive (ctx : Context) (req : option QueryNextSequenceReceiveRequest) :
    M QueryNextSequenceReceiveResponse :=
  let! req := given req in
  lift (validategRPCRequest (ns_PortId req) (ns_ChannelId req)) ;;;
  let! sequence := GetNextSequenceRecv (ns_PortId req) (ns_ChannelId req) in
  let! sequence := found sequence in
  let! selfHeight := lift (GetSelfHeight ctx) in
  ret (NewQueryNextSequenceReceiveResponse sequence None selfHeight).
End queries.
End channelquery.
