(* ===== verification/ClientQueries.v ===== *)
(** * The queries of the client and connection submodules

    The gRPC queries of [02-client/keeper/grpc_query.go] and
    [03-connection/keeper/grpc_query.go], with their messages ([types/query.pb.go],
    [types/query.go]). *)
From S2P Require Import Prelude GoMonad Errors Sha256 Height Host Sdk ConnectionTypes.
From S2P Require Import ChannelTypes Exported ClientKeeper ConnectionKeeper.
From S2P Require Import Iteration ClientTypes CoreGenesis SelfChain Queries.
From Stdlib Require Import Ascii.

Module connectionquery.
Import channelquery connectiongenesis.

Section messages.
Context {PG : Pagination} {LC : LightClient}.

Record QueryConnectionRequest := mkQueryConnectionRequest { c_ConnectionId : string }.
Record QueryConnectionResponse := mkQueryConnectionResponse {
  c_Connection : connectiontypes.ConnectionEnd; c_Proof : option string; c_ProofHeight : Height }.
Record QueryConnectionsRequest := mkQueryConnectionsRequest { cs_Pagination : option PageRequest }.
Record QueryConnectionsResponse := mkQueryConnectionsResponse {
  cs_Connections : list IdentifiedConnection; cs_Page : PageResponse; cs_Height : Height }.
Record QueryClientConnectionsRequest := mkQueryClientConnectionsRequest { clc_ClientId : string }.
Record QueryClientConnectionsResponse := mkQueryClientConnectionsResponse {
  clc_ConnectionPaths : list string; clc_Proof : option string; clc_ProofHeight : Height }.
Record QueryConnectionClientStateRequest := mkQueryConnectionClientStateRequest { cls_ConnectionId : string }.
Record QueryConnectionClientStateResponse := mkQueryConnectionClientStateResponse {
  cls_IdentifiedClientState : IdentifiedClientState; cls_Proof : option string; cls_ProofHeight : Height }.
Record QueryConnectionConsensusStateRequest := mkQueryConnectionConsensusStateRequest {
  ccn_ConnectionId : string; ccn_RevisionNumber : N; ccn_RevisionHeight : N }.
Record QueryConnectionConsensusStateResponse := mkQueryConnectionConsensusStateResponse {
  ccn_ConsensusState : AnyValue; ccn_ClientId : string; ccn_Proof : option string; ccn_ProofHeight : Height }.

Definition NewQueryConnectionResponse (connection : connectiontypes.ConnectionEnd) (proof : option string) (height : Height) :
    QueryConnectionResponse := mkQueryConnectionResponse connection proof height.
Definition NewQueryClientConnectionsResponse (connectionPaths : list string) (proof : option string) (height : Height) :
    QueryClientConnectionsResponse := mkQueryClientConnectionsResponse connectionPaths proof height.
Definition NewQueryClientConnectionsRequest (clientID : string) : QueryClientConnectionsRequest :=
  mkQueryClientConnectionsRequest clientID.
Definition NewQueryConnectionClientStateResponse (identifiedClientState : IdentifiedClientState) (proof : option string)
    (height : Height) : QueryConnectionClientStateResponse :=
  mkQueryConnectionClientStateResponse identifiedClientState proof height.
(** The height of the consensus state is not used. *)
Definition NewQueryConnectionConsensusStateResponse (clientID : string) (anyConsensusState : AnyValue)
    (consensusStateHeight : Height) (proof : option string) (height : Height) : QueryConnectionConsensusStateResponse :=
  mkQueryConnectionConsensusStateResponse anyConsensusState clientID proof height.
End messages.

Section queries.
Context {PG : Pagination} {SE : SdkEncoding} {LC : LightClient} {CD : Codec} {CK : CapabilityKeeper} {AP : Application}.

Definition query_Connection (ctx : Context) (req : option QueryConnectionRequest) : M QueryConnectionResponse :=
  let! req := given req in
  lift (status.recode status.InvalidArgument (ConnectionIdentifierValidator (c_ConnectionId req))) ;;;
  let! connection := GetConnection (c_ConnectionId req) in
  let! connection := found connection in
  let! height := lift (GetSelfHeight ctx) in
  ret (mkQueryConnectionResponse connection None height).

Definition list_connection (key value : string) : outcome (option IdentifiedConnection) :=
  match Unmarshal_ConnectionEnd value with
  | None => Err proto_error
  | Some result =>
      let? connectionID := ParseConnectionPath key in
      Ok (Some (NewIdentifiedConnection connectionID result))
  end.

Definition query_Connections (ctx : Context) (req : option QueryConnectionsRequest) : M QueryConnectionsResponse :=
  let! req := given req in
  let! store := gets (λ w, prefix_view KeyConnectionPrefix (ibc w)) in
  let! ' (connections, pageRes) := lift (paginate_list store (cs_Pagination req) list_connection) in
  let! height := lift (GetSelfHeight ctx) in
  ret (mkQueryConnectionsResponse connections pageRes height).

Definition query_ClientConnections (ctx : Context) (req : option QueryClientConnectionsRequest) :
    M QueryClientConnectionsResponse :=
  let! req := given req in
  lift (status.recode status.InvalidArgument (ClientIdentifierValidator (clc_ClientId req))) ;;;
  let! clientConnectionPaths := GetClientConnectionPaths (clc_ClientId req) in
  let! clientConnectionPaths := found clientConnectionPaths in
  let! height := lift (GetSelfHeight ctx) in
  ret (mkQueryClientConnectionsResponse clientConnectionPaths None height).

Definition query_ConnectionClientState (ctx : Context) (req : option QueryConnectionClientStateRequest) :
    M QueryConnectionClientStateResponse :=
  let! req := given req in
  lift (status.recode status.InvalidArgument (ConnectionIdentifierValidator (cls_ConnectionId req))) ;;;
  let! connection := GetConnection (cls_ConnectionId req) in
  let! connection := found connection in
  let! clientState := GetClientState (connectiontypes.ClientId connection) in
  let! clientState := found clientState in
  let identifiedClientState := NewIdentifiedClientState (connectiontypes.ClientId connection) clientState in
  let! height := lift (GetSelfHeight ctx) in
  ret (NewQueryConnectionClientStateResponse identifiedClientState None height).

Definition query_ConnectionConsensusState (ctx : Context) (req : option QueryConnectionConsensusStateRequest) :
    M QueryConnectionConsensusStateResponse :=
  let! req := given req in
  lift (status.recode status.InvalidArgument (ConnectionIdentifierValidator (ccn_ConnectionId req))) ;;;
  let! connection := GetConnection (ccn_ConnectionId req) in
  let! connection := found connection in
  let height := NewHeight (ccn_RevisionNumber req) (ccn_RevisionHeight req) in
  let! consensusState := GetClientConsensusState (connectiontypes.ClientId connection) height in
  let! consensusState := found consensusState in
  let! anyConsensusState := lift (status.recode status.Internal (PackConsensusState (Some consensusState))) in
  let! proofHeight := lift (GetSelfHeight ctx) in
  ret (NewQueryConnectionConsensusStateResponse (connectiontypes.ClientId connection) anyConsensusState height None proofHeight).
End queries.
End connectionquery.

Module clientquery.
Import channelquery.

Section messages.
Context {PG : Pagination} {LC : LightClient}.

Record QueryClientStateRequest := mkQueryClientStateRequest { cl_ClientId : string }.
Record QueryClientStateResponse := mkQueryClientStateResponse {
  cl_ClientState : AnyValue; cl_Proof : option string; cl_ProofHeight : Height }.
Record QueryClientStatesRequest := mkQueryClientStatesRequest { cls_Pagination : option PageRequest }.
Record QueryClientStatesResponse := mkQueryClientStatesResponse {
  cls_ClientStates : list IdentifiedClientState; cls_Page : PageResponse }.
Record QueryConsensusStateRequest := mkQueryConsensusStateRequest {
  co_ClientId : string; co_RevisionNumber : N; co_RevisionHeight : N; co_LatestHeight : bool }.
Record QueryConsensusStateResponse := mkQueryConsensusStateResponse {
  co_ConsensusState : AnyValue; co_Proof : option string; co_ProofHeight : Height }.
Record QueryConsensusStatesRequest := mkQueryConsensusStatesRequest {
  cos_ClientId : string; cos_Pagination : option PageRequest }.
Record QueryConsensusStatesResponse := mkQueryConsensusStatesResponse {
  cos_ConsensusStates : list ConsensusStateWithHeight; cos_Page : PageResponse }.
Record QueryClientStatusRequest := mkQueryClientStatusRequest { st_ClientId : string }.
Record QueryClientStatusResponse := mkQueryClientStatusResponse { st_Status : string }.
Record QueryClientParamsResponse := mkQueryClientParamsResponse { cp_Params : list string }.
Record QueryUpgradedClientStateRequest := mkQueryUpgradedClientStateRequest {}.
Record QueryUpgradedClientStateResponse := mkQueryUpgradedClientStateResponse { uc_UpgradedClientState : AnyValue }.
Record QueryUpgradedConsensusStateRequest := mkQueryUpgradedConsensusStateRequest {}.
Record QueryUpgradedConsensusStateResponse := mkQueryUpgradedConsensusStateResponse { uco_UpgradedConsensusState : AnyValue }.

Definition NewQueryClientStateResponse (clientStateAny : AnyValue) (proof : option string) (height : Height) :
    QueryClientStateResponse := mkQueryClientStateResponse clientStateAny proof height.
Definition NewQueryConsensusStateResponse (consensusStateAny : AnyValue) (proof : option string) (height : Height) :
    QueryConsensusStateResponse := mkQueryConsensusStateResponse consensusStateAny proof height.
End messages.

(** [exported/client.go] *)
Definition Status_String (s : Status) : string :=
  match s with
  | Active => "Active"
  | Frozen => "Frozen"
  | Expired => "Expired"
  | Unknown => "Unknown"
  end.

Section queries.
Context {PG : Pagination} {SE : SdkEncoding} {LC : LightClient} {CD : Codec} {CK : CapabilityKeeper} {AP : Application}.

Definition query_ClientState (ctx : Context) (req : option QueryClientStateRequest) : M QueryClientStateResponse :=
  let! req := given req in
  lift (status.recode status.InvalidArgument (ClientIdentifierValidator (cl_ClientId req))) ;;;
  let! clientState := GetClientState (cl_ClientId req) in
  let! clientState := found clientState in
  let! any := lift (status.recode status.Internal (PackClientState (Some clientState))) in
  let! proofHeight := lift (GetSelfHeight ctx) in
  ret (mkQueryClientStateResponse any None proofHeight).

Definition list_client (key value : string) : outcome (option IdentifiedClientState) :=
  let keySplit := Split key "/" in
  if bool_decide (list.last keySplit ≠ Some "clientState") then Ok None
  else
    match Unmarshal_ClientState value with
    | None => Err proto_error
    | Some clientState =>
        let? clientID := must_some (keySplit !! 1) in
        ClientIdentifierValidator clientID ;;?
        Ok (Some (NewIdentifiedClientState clientID clientState))
    end.

Definition query_ClientStates (req : option QueryClientStatesRequest) : M QueryClientStatesResponse :=
  let! req := given req in
  let! store := gets (λ w, prefix_view KeyClientStorePrefix (ibc w)) in
  let! ' (clientStates, pageRes) := lift (paginate_list store (cls_Pagination req) list_client) in
  ret (mkQueryClientStatesResponse (IdentifiedClientStates_Sort clientStates) pageRes).

Definition query_ConsensusState (ctx : Context) (req : option QueryConsensusStateRequest) : M QueryConsensusStateResponse :=
  let! req := given req in
  lift (status.recode status.InvalidArgument (ClientIdentifierValidator (co_ClientId req))) ;;;
  let height := NewHeight (co_RevisionNumber req) (co_RevisionHeight req) in
  let! consensusState :=
    if co_LatestHeight req then GetLatestClientConsensusState (co_ClientId req)
    else
      throw_if (co_RevisionHeight req =? 0)%N (status.Error status.InvalidArgument) ;;;
      GetClientConsensusState (co_ClientId req) height in
  let! consensusState := found consensusState in
  let! any := lift (status.recode status.Internal (PackConsensusState (Some consensusState))) in
  let! proofHeight := lift (GetSelfHeight ctx) in
  ret (mkQueryConsensusStateResponse any None proofHeight).

(** The callback does not look at [accumulate]. *)
Definition list_consensus (key value : string) (accumulate : bool) : ST (list ConsensusStateWithHeight) bool :=
  if negb (no_char "/" key) then ret false
  else
    let! height := lift (ParseHeight key) in
    let! consensusState := some_or (Unmarshal_ConsensusState value) proto_error in
    modify (λ consensusStates, consensusStates ++ [NewConsensusStateWithHeight height consensusState]) ;;;
    ret true.

Definition query_ConsensusStates (req : option QueryConsensusStatesRequest) : M QueryConsensusStatesResponse :=
  let! req := given req in
  lift (status.recode status.InvalidArgument (ClientIdentifierValidator (cos_ClientId req))) ;;;
  let! store := gets (λ w, prefix_view (FullClientKey (cos_ClientId req) (KeyConsensusStatePrefix +:+ "/")) (ibc w)) in
  let! ' (consensusStates, pageRes) := lift (collect (FilteredPaginate store (cos_Pagination req) list_consensus)) in
  ret (mkQueryConsensusStatesResponse consensusStates pageRes).

Definition query_ClientStatus (ctx : Context) (req : option QueryClientStatusRequest) : M QueryClientStatusResponse :=
  let! req := given req in
  lift (status.recode status.InvalidArgument (ClientIdentifierValidator (st_ClientId req))) ;;;
  let! clientState := GetClientState (st_ClientId req) in
  let! clientState := found clientState in
  let! s := get_status ctx (st_ClientId req) clientState in
  ret (mkQueryClientStatusResponse (Status_String s)).

Definition query_ClientParams : M QueryClientParamsResponse :=
  let! params := clientgenesis.GetParams in
  ret (mkQueryClientParamsResponse params).

Context {UK : UpgradeKeeper} {UA : UpgradeApp}.

Definition query_UpgradedClientState (req : option QueryUpgradedClientStateRequest) : M QueryUpgradedClientStateResponse :=
  let! _ := given req in
  let! plan := selfchain.GetUpgradePlan in
  let! plan := found plan in
  let! bz := selfchain.GetUpgradedClient (Plan_Height plan) in
  let! bz := found bz in
  let! clientState := some_or (Unmarshal_ClientState bz) (status.Error status.Internal) in
  let! any := lift (status.recode status.Internal (PackClientState (Some clientState))) in
  ret (mkQueryUpgradedClientStateResponse any).

Definition query_UpgradedConsensusState (ctx : Context) (req : option QueryUpgradedConsensusStateRequest) :
    M QueryUpgradedConsensusStateResponse :=
  let! _ := given req in
  let! bz := selfchain.GetUpgradedConsensusState (BlockHeight ctx) in
  let! bz := found bz in
  let! consensusState := some_or (Unmarshal_ConsensusState bz) (status.Error status.Internal) in
  let! any := lift (status.recode status.Internal (PackConsensusState (Some consensusState))) in
  ret (mkQueryUpgradedConsensusStateResponse any).
End queries.
End clientquery.
