(* ===== verification/QueryProperties.v ===== *)
(** * What the queries tell a relayer

    Queries read and never write.  A page that is large enough lists exactly the
    commitments of a channel, and [UnreceivedPackets] (on UNORDERED channels) and
    [UnreceivedAcks] leave out exactly what is already relayed; after an upgrade was published, the query for the
    upgraded client finds it. *)
From S2P Require Import Prelude GoMonad Errors Sha256 Height Host Sdk ConnectionTypes.
From S2P Require Import ChannelTypes Exported ClientKeeper ConnectionKeeper ChannelKeeper.
From S2P Require Import ChannelSpec PacketProperties ChannelView ChannelSystem ChannelSafety.
From S2P Require Import Router MessageProperties.
From S2P Require Import Iteration ClientTypes ChannelGenesis CoreGenesis GenesisProperties.
From S2P Require Import SelfChain.
From S2P Require Import Queries ClientQueries.
From Stdlib Require Import Ascii.
Import channelgenesis channelquery.

Section pagination.
Context {PG : Pagination}.

Lemma append_results {A} (f : string → string → outcome (option A)) (g : string * string → option A) l acc :
  Forall (λ kv, f kv.1 kv.2 = Ok (g kv)) l →
  for_all (λ kv, append_result f kv.1 kv.2) l acc = (acc ++ omap g l, Ok tt).
Proof.
  intros Hl. revert acc. induction Hl as [|x l Hx Hl IH]; intros acc; [by rewrite app_nil_r|].
  rewrite for_all_cons. unfold bind, append_result at 1. rewrite Hx. simpl.
  destruct (g x) as [y|]; rewrite IH; [|done]. by rewrite <- (assoc_L (++)).
Qed.

(** A page for the whole store lists what the callback makes of every entry. *)
Lemma whole_list {A} store n (f : string → string → outcome (option A)) g :
  length (entries store) ≤ n → Forall (λ kv, f kv.1 kv.2 = Ok (g kv)) (entries store) →
  ∃ r, paginate_list store (Some (whole_page n)) f = Ok (omap g (entries store), r).
Proof.
  intros Hn Hf. destruct (paginate_whole store n Hn) as [r Hr]. exists r.
  unfold paginate_list, collect. rewrite Hr. by rewrite (bind_run _ _ _ _ _ (append_results f g _ [] Hf)).
Qed.
End pagination.

(** ** Queries do not write *)
Section reads.
Context {PG : Pagination} {SE : SdkEncoding} {LC : LightClient} {CD : Codec} {CK : CapabilityKeeper} {AP : Application}.

Lemma recoded_keeps {A T} (f : World → T) code (m : M A) : keeps f m → keeps f (recoded code m).
Proof. intros Hm w. specialize (Hm w). unfold recoded. by destruct (m w). Qed.
Lemma acks_of_keeps {T} (f : World → T) p c l : keeps f (acks_of p c l).
Proof. induction l as [|n l IH]; simpl; unfold nonempty_ack, GetPacketAcknowledgement; frame. Qed.
Lemma unreceived_packets_keeps {T} (f : World → T) p c l : keeps f (unreceived_packets p c l).
Proof. induction l as [|n l IH]; simpl; unfold no_zero_sequence, GetPacketReceipt; frame. Qed.
Lemma unreceived_acks_keeps {T} (f : World → T) p c l : keeps f (unreceived_acks p c l).
Proof. induction l as [|n l IH]; simpl; unfold no_zero_sequence, GetPacketCommitment; frame. Qed.
#[local] Hint Resolve recoded_keeps acks_of_keeps unreceived_packets_keeps unreceived_acks_keeps : ibc.

Ltac reads :=
  unfold given, found, no_zero_sequence, nonempty_ack, GetChannelClientState, GetChannel, GetConnection, GetClientState, hop0,
    GetClientConsensusState, GetPacketCommitment, GetPacketReceipt, GetPacketAcknowledgement, GetNextSequenceRecv, get_sequence;
  repeat (frame; try apply recoded_keeps).

(** No query of the channel submodule changes anything. *)
Lemma channel_queries_read ctx :
  (∀ r, keeps id (query_Channel ctx r)) ∧ (∀ r, keeps id (query_Channels ctx r)) ∧
  (∀ r, keeps id (query_ConnectionChannels ctx r)) ∧ (∀ r, keeps id (query_ChannelClientState ctx r)) ∧
  (∀ r, keeps id (query_ChannelConsensusState ctx r)) ∧ (∀ r, keeps id (query_PacketCommitment ctx r)) ∧
  (∀ r, keeps id (query_PacketCommitments ctx r)) ∧ (∀ r, keeps id (query_PacketReceipt ctx r)) ∧
  (∀ r, keeps id (query_PacketAcknowledgement ctx r)) ∧ (∀ r, keeps id (query_PacketAcknowledgements ctx r)) ∧
  (∀ r, keeps id (query_UnreceivedPackets ctx r)) ∧ (∀ r, keeps id (query_UnreceivedAcks ctx r)) ∧
  (∀ r, keeps id (query_NextSequenceReceive ctx r)).
Proof.
  split_and!; intros r;
    unfold query_Channel, query_Channels, query_ConnectionChannels, query_ChannelClientState, query_ChannelConsensusState,
      query_PacketCommitment, query_PacketCommitments, query_PacketReceipt, query_PacketAcknowledgement,
      query_PacketAcknowledgements, query_UnreceivedPackets, query_UnreceivedAcks, query_NextSequenceReceive; reads.
Qed.

Lemma connection_queries_read ctx :
  (∀ r, keeps id (connectionquery.query_Connection ctx r)) ∧ (∀ r, keeps id (connectionquery.query_Connections ctx r)) ∧
  (∀ r, keeps id (connectionquery.query_ClientConnections ctx r)) ∧
  (∀ r, keeps id (connectionquery.query_ConnectionClientState ctx r)) ∧
  (∀ r, keeps id (connectionquery.query_ConnectionConsensusState ctx r)).
Proof.
  split_and!; intros r;
    unfold connectionquery.query_Connection, connectionquery.query_Connections, connectionquery.query_ClientConnections,
      connectionquery.query_ConnectionClientState, connectionquery.query_ConnectionConsensusState, GetClientConnectionPaths; reads.
Qed.

Lemma client_queries_read `{UK : UpgradeKeeper} {UA : UpgradeApp} ctx :
  (∀ r, keeps id (clientquery.query_ClientState ctx r)) ∧ (∀ r, keeps id (clientquery.query_ClientStates r)) ∧
  (∀ r, keeps id (clientquery.query_ConsensusState ctx r)) ∧ (∀ r, keeps id (clientquery.query_ConsensusStates r)) ∧
  (∀ r, keeps id (clientquery.query_ClientStatus ctx r)) ∧ keeps id clientquery.query_ClientParams ∧
  (∀ r, keeps id (clientquery.query_UpgradedClientState r)) ∧ (∀ r, keeps id (clientquery.query_UpgradedConsensusState ctx r)).
Proof.
  split_and!; try intros r;
    unfold clientquery.query_ClientState, clientquery.query_ClientStates, clientquery.query_ConsensusState,
      clientquery.query_ConsensusStates, clientquery.query_ClientStatus, clientquery.query_ClientParams,
      clientquery.query_UpgradedClientState, clientquery.query_UpgradedConsensusState, GetLatestClientConsensusState, get_status,
      selfchain.GetUpgradePlan, selfchain.GetUpgradedClient, selfchain.GetUpgradedConsensusState,
      clientgenesis.GetParams; reads.
Qed.
End reads.

(** ** What the queries return *)
Section results.
Context {PG : Pagination} {SE : SdkEncoding} {LC : LightClient} {CD : Codec} {CK : CapabilityKeeper} {AP : Application}.

Lemma unreceived_packets_run p c l w :
  Forall (λ n, n ≠ 0%N) l → unreceived_packets p c l w = (w, Ok (filter (λ n, receipt_at w p c n = None) l)).
Proof.
  intros Hl. induction Hl as [|n l Hn Hl IH]; [done|]. cbn [unreceived_packets].
  unfold bind at 1, no_zero_sequence, throw_if. rewrite (proj2 (N.eqb_neq n 0) Hn). cbn [ret].
  unfold bind at 1, GetPacketReceipt, get_store, gets. rewrite (bind_run _ _ _ _ _ IH), filter_cons. unfold receipt_at.
  by destruct (ibc w !! PacketReceiptKey p c n).
Qed.

(** The bytes of a value are not empty. *)
Definition has_bytes (o : option string) : Prop := ∃ bz, o = Some bz ∧ bz ≠ "".
#[export] Instance has_bytes_dec o : Decision (has_bytes o).
Proof.
  refine (match o with Some bz => if decide (bz = "") then right _ else left _ | None => right _ end);
    abstract (unfold has_bytes; naive_solver).
Defined.
Lemma unreceived_acks_run p c l w :
  Forall (λ n, n ≠ 0%N) l → unreceived_acks p c l w = (w, Ok (filter (λ n, has_bytes (commitment_at w p c n)) l)).
Proof.
  intros Hl. induction Hl as [|n l Hn Hl IH]; [done|]. cbn [unreceived_acks].
  unfold bind at 1, no_zero_sequence, throw_if. rewrite (proj2 (N.eqb_neq n 0) Hn). cbn [ret].
  unfold GetPacketCommitment, get_store, bind at 1, bind at 1, gets, ret at 1. rewrite (bind_run _ _ _ _ _ IH), filter_cons.
  unfold commitment_at, ret. destruct (ibc w !! PacketCommitmentKey p c n) as [bz|]; simpl; [|done].
  destruct (decide _) as [(x & [= <-] & Hx)|Hx].
  - rewrite bool_decide_eq_true_2; [done|]. by rewrite length_zero.
  - rewrite bool_decide_eq_false_2; [done|]. rewrite length_zero. intros Hb. apply Hx. by exists bz.
Qed.

Lemma acks_of_run p c l w :
  acks_of p c l w = (w, Ok (omap (λ n, match ack_at w p c n with
    | Some bz => if decide (bz = "") then None else Some (NewPacketState p c n (Some bz))
    | None => None end) l)).
Proof.
  induction l as [|n l IH]; [done|]. cbn [acks_of]. unfold nonempty_ack, GetPacketAcknowledgement, get_store.
  unfold bind at 1, bind at 1, gets, ret at 1. rewrite (bind_run _ _ _ _ _ IH). simpl. unfold ack_at, ret.
  destruct (ibc w !! _) as [bz|]; [|done]. destruct (decide (bz = "")) as [->|Hb]; [done|].
  rewrite bool_decide_eq_false_2; [done|]. by rewrite length_zero.
Qed.

(** ** Listing the packets of a channel *)

(** Commitments or acknowledgements, and the prefix of those of a channel. *)
Definition packet_kind (kind : string → string → N → store_key) (prefix : string → string → string) : Prop :=
  (kind = KPacketCommitment ∧ prefix = PacketCommitmentPrefixPath) ∨
  (kind = KPacketAcknowledgement ∧ prefix = PacketAcknowledgementPrefixPath).

(** The keys below the prefix of the packets of a channel. *)
Lemma packet_keys (kind : string → string → N → store_key) (prefix : string → string → string) p c k x :
  packet_kind kind prefix →
  no_char "/" p = true → no_char "/" c = true → key_ids_ok x = true → prefix p c +:+ k = render x →
  ∃ n, x = kind p c n ∧ k = "/" +:+ fmt_u64 n.
Proof.
  intros Hk Hp Hc Hx E.
  assert (∃ d, components x = d :: KeyPortPrefix :: p :: KeyChannelPrefix :: c :: Split (KeySequencePrefix +:+ k) "/" ∧
    (kind = KPacketCommitment ∧ d = KeyPacketCommitmentPrefix ∨ kind = KPacketAcknowledgement ∧ d = KeyPacketAckPrefix))
    as (d & Hs & Hd).
  { rewrite <- (Split_render x Hx), <- E.
    destruct Hk as [[-> ->]|[-> ->]]; eexists; (split; [|naive_solver]); unfold_paths; rewrite !app_assoc_str;
      repeat rewrite Split_path by done; done. }
  assert (Hend : ∀ n, Split (KeySequencePrefix +:+ k) "/" = [KeySequencePrefix; fmt_u64 n] → k = "/" +:+ fmt_u64 n).
  { intros n Hn. apply (app_inj_l KeySequencePrefix). apply Split_slash_inj. rewrite Hn, Split_path by done.
    by rewrite Split_last by apply fmt_u64_no_slash. }
  destruct x as [i path|i|p' c'|p' c'|p' c'|p' c'|p' c' n|p' c' n|p' c' n| | |]; simpl in Hs;
    destruct Hd as [[-> ->]|[-> ->]]; simplify_eq; exists n; (split; [done|by apply Hend]).
Qed.

Lemma packet_key_split kind prefix p c n : packet_kind kind prefix → prefix p c +:+ "/" +:+ fmt_u64 n = render (kind p c n).
Proof. intros [[-> ->]|[-> ->]]; unfold_paths; simpl; unfold_paths; by rewrite ?app_assoc_str. Qed.

Lemma list_packet_run p c n v : (n < two64)%N →
  list_packet p c ("/" +:+ fmt_u64 n) v = Ok (Some (NewPacketState p c n (Some v))).
Proof.
  intros Hn. unfold list_packet. change ("/" +:+ fmt_u64 n) with ("" +:+ "/" +:+ fmt_u64 n).
  rewrite Split_path, Split_last by (done || apply fmt_u64_no_slash). simpl. by rewrite ParseUint_fmt.
Qed.

(** A page for all packets of a channel lists exactly its commitments or acknowledgements. *)
Lemma packets_listed kind prefix (w : World) p c m :
  packet_kind kind prefix → store_wf (ibc w) → no_char "/" p = true → no_char "/" c = true →
  let store := prefix_view (prefix p c) (ibc w) in
  length (entries store) ≤ m →
  ∃ l r, paginate_list store (Some (whole_page m)) (list_packet p c) = Ok (l, r) ∧
    ∀ x, x ∈ l ↔ ∃ n bz, x = NewPacketState p c n (Some bz) ∧ ibc w !! render (kind p c n) = Some bz.
Proof.
  intros Hk Hwf Hp Hc store Hm.
  assert (Hent : ∀ k v, (k, v) ∈ entries store ↔ ∃ n, (n < two64)%N ∧ k = "/" +:+ fmt_u64 n ∧ ibc w !! render (kind p c n) = Some v).
  { intros k v. unfold store. rewrite elem_of_entries, prefix_view_lookup. split.
    - intros Hl. destruct (Hwf _ _ Hl) as (x & Ex & Hx & Hv).
      destruct (packet_keys _ _ _ _ _ _ Hk Hp Hc Hx Ex) as (n & -> & ->). exists n.
      rewrite <- Ex, Hl. split_and!; [|done|done]. by destruct Hk as [[-> _]|[-> _]].
    - intros (n & _ & -> & Hl). by rewrite (packet_key_split _ _ _ _ _ Hk). }
  set (g := λ kv : string * string, match list.last (Split kv.1 "/") ≫= ParseUint with
    | Some n => Some (NewPacketState p c n (Some kv.2)) | None => None end).
  assert (Hg : ∀ n v, (n < two64)%N → g ("/" +:+ fmt_u64 n, v) = Some (NewPacketState p c n (Some v))).
  { intros n v Hn. pose proof (list_packet_run p c n v Hn) as E. unfold list_packet in E. unfold g. cbn [fst snd].
    destruct (list.last _ ≫= ParseUint); [by injection E as ->|done]. }
  destruct (whole_list store m (list_packet p c) g Hm) as [r Hr].
  { apply list.Forall_forall. intros [k v] (n & Hn & -> & _)%Hent. cbn [fst snd]. by rewrite list_packet_run, Hg. }
  eexists _, r. split; [exact Hr|]. intros x. rewrite list_elem_of_omap. split.
  - intros ([k v] & (n & Hn & -> & Hl)%Hent & Hx). rewrite Hg in Hx by done. exists n, v. by simplify_eq.
  - intros (n & bz & -> & Hl). destruct (Hwf _ _ Hl) as (x & Ex & Hx & Hv).
    assert ((n < two64)%N) as Hn.
    { apply render_inj in Ex; [|by destruct Hk as [[-> _]|[-> _]]; simpl; rewrite Hp, Hc|done].
      subst x. by destruct Hk as [[-> _]|[-> _]]. }
    exists ("/" +:+ fmt_u64 n, bz). rewrite Hg by done. split; [|done]. apply Hent. eauto.
Qed.
End results.

(** ** What is left to relay *)
Section relay.
Context {PG : Pagination} {SE : SdkEncoding} {LC : LightClient} {CD : Codec} {CK : CapabilityKeeper} {AP : Application}.

Lemma valid_request p c : validategRPCRequest p c = Ok tt → no_char "/" p = true ∧ no_char "/" c = true.
Proof.
  unfold validategRPCRequest, status.recode. intros E. out_inv.
  destruct (PortIdentifierValidator p) as [[]| |] eqn:Hp; try done.
  destruct (ChannelIdentifierValidator c) as [[]| |] eqn:Hc; try done.
  split; [by eapply PortIdentifierValidator_no_slash|by eapply ChannelIdentifierValidator_no_slash].
Qed.

Lemma PacketCommitments_run ctx (w : World) p c m h :
  store_wf (ibc w) → validategRPCRequest p c = Ok tt → GetSelfHeight ctx = Ok h →
  length (entries (prefix_view (PacketCommitmentPrefixPath p c) (ibc w))) ≤ m →
  ∃ r, query_PacketCommitments ctx (Some (mkQueryPacketCommitmentsRequest p c (Some (whole_page m)))) w = (w, Ok r) ∧
    ∀ x, x ∈ pcs_Commitments r ↔ ∃ n bz, x = NewPacketState p c n (Some bz) ∧ commitment_at w p c n = Some bz.
Proof.
  intros Hwf Hv Hh Hm. destruct (valid_request _ _ Hv) as [Hp Hc].
  destruct (packets_listed KPacketCommitment PacketCommitmentPrefixPath w p c m) as (l & r & E & Hl); auto; [by left|].
  exists (mkQueryPacketCommitmentsResponse l r h). split; [|exact Hl].
  unfold query_PacketCommitments, bind, given, some_or, ret, lift, gets. simpl. by rewrite Hv, E, Hh.
Qed.

Lemma UnreceivedPackets_run ctx (w : World) p c l h :
  validategRPCRequest p c = Ok tt → GetSelfHeight ctx = Ok h → Forall (λ n, n ≠ 0%N) l →
  query_UnreceivedPackets ctx (Some (mkQueryUnreceivedPacketsRequest p c l)) w =
  (w, Ok (mkQueryUnreceivedPacketsResponse (filter (λ n, receipt_at w p c n = None) l) h)).
Proof.
  intros Hv Hh Hl. unfold query_UnreceivedPackets, bind, given, some_or, ret, lift. simpl.
  by rewrite Hv, unreceived_packets_run, Hh.
Qed.
Lemma UnreceivedAcks_run ctx (w : World) p c l h :
  validategRPCRequest p c = Ok tt → GetSelfHeight ctx = Ok h → Forall (λ n, n ≠ 0%N) l →
  query_UnreceivedAcks ctx (Some (mkQueryUnreceivedAcksRequest p c l)) w =
  (w, Ok (mkQueryUnreceivedAcksResponse (filter (λ n, has_bytes (commitment_at w p c n)) l) h)).
Proof.
  intros Hv Hh Hl. unfold query_UnreceivedAcks, bind, given, some_or, ret, lift. simpl.
  by rewrite Hv, unreceived_acks_run, Hh.
Qed.
Lemma PacketAcknowledgements_run ctx (w : World) p c l req h :
  validategRPCRequest p c = Ok tt → GetSelfHeight ctx = Ok h → l ≠ [] →
  ∃ r, query_PacketAcknowledgements ctx (Some (mkQueryPacketAcknowledgementsRequest p c req l)) w = (w, Ok r) ∧
    ∀ n, n ∈ ps_Sequence <$> pas_Acknowledgements r ↔ n ∈ l ∧ has_bytes (ack_at w p c n).
Proof.
  intros Hv Hh Hl. unfold query_PacketAcknowledgements, bind, given, some_or, ret, lift, gets. simpl.
  rewrite Hv, acks_of_run, bool_decide_eq_true_2, Hh by (by destruct l; [|apply Nat.lt_0_succ]).
  eexists. split; [done|]. intros n. simpl. rewrite list_elem_of_fmap. setoid_rewrite list_elem_of_omap. split.
  - intros (x & -> & i & Hi & Hx). destruct (ack_at w p c i) as [bz|] eqn:Ha; [|done].
    destruct (decide (bz = "")); [done|]. simplify_eq. split; [done|]. exists bz. done.
  - intros [Hn (bz & Ha & Hb)]. exists (NewPacketState p c n (Some bz)). split; [done|]. exists n. split; [done|].
    rewrite Ha. by rewrite decide_False.
Qed.

Lemma unordered_received (b : World) q d ch n :
  chan b q d = Some ch → Channel_Ordering ch = UNORDERED →
  receipt_at b q d n = None ↔ ¬ received (view b q d) n.
Proof.
  intros Hch Ho. split.
  - intros Hn (ch' & Hc & [[_ [r Hr]]|[Ho' _]]); [unfold receipt_at, view, view_of in *; simpl in Hr; congruence|].
    unfold chan, view, view_of in *. simpl in Hc. rewrite Hch in Hc. congruence.
  - intros Hn. destruct (receipt_at b q d n) as [r|] eqn:Hr; [|done]. destruct Hn. exists ch. split; [exact Hch|].
    left. split; [done|]. by exists r.
Qed.

(** C9: What the queries of a relayer find.  Chain A sent on the channel [c] of port [p],
    whose other end on chain B is [d] of [q].  A page of A's commitments that is large
    enough lists each of them and nothing else.  [UnreceivedPackets] on B, asked for the
    sequences of that list, returns those for which B has no receipt: if B's end is
    UNORDERED, exactly the packets that B has not received; if it is ORDERED, where no
    receipts are written, all of them, received or not.  If anything is committed,
    [PacketAcknowledgements] on B, asked for that list, and [UnreceivedAcks] on A, asked
    for the sequences of the answer, find the packets that B has acknowledged and whose
    commitment A still holds.  (With an empty list [PacketAcknowledgements] returns a page
    of all acknowledgements instead.)  All four queries succeed and change nothing.  A's
    store is well-formed, both pairs of identifiers are valid, and nothing is committed
    under the invalid sequence 0. *)
Theorem relay_queries ctxA ctxB (a b : World) p c q d m hA hB :
  store_wf (ibc a) → validategRPCRequest p c = Ok tt → validategRPCRequest q d = Ok tt →
  GetSelfHeight ctxA = Ok hA → GetSelfHeight ctxB = Ok hB → commitment_at a p c 0 = None →
  length (entries (prefix_view (PacketCommitmentPrefixPath p c) (ibc a))) ≤ m →
  ∃ sent, query_PacketCommitments ctxA (Some (mkQueryPacketCommitmentsRequest p c (Some (whole_page m)))) a = (a, Ok sent) ∧
    (∀ x, x ∈ pcs_Commitments sent ↔ ∃ n bz, x = NewPacketState p c n (Some bz) ∧ commitment_at a p c n = Some bz) ∧
    let sequences := ps_Sequence <$> pcs_Commitments sent in
    (∃ missing, query_UnreceivedPackets ctxB (Some (mkQueryUnreceivedPacketsRequest q d sequences)) b = (b, Ok missing) ∧
       (∀ n, n ∈ up_Sequences missing ↔ is_Some (commitment_at a p c n) ∧ receipt_at b q d n = None) ∧
       ∀ ch, chan b q d = Some ch →
         (Channel_Ordering ch = UNORDERED → ∀ n,
            n ∈ up_Sequences missing ↔ is_Some (commitment_at a p c n) ∧ ¬ received (view b q d) n) ∧
         (Channel_Ordering ch = ORDERED → (∀ n, receipt_at b q d n = None) → ∀ n,
            n ∈ up_Sequences missing ↔ is_Some (commitment_at a p c n))) ∧
    (sequences ≠ [] → ∃ acked back,
       query_PacketAcknowledgements ctxB (Some (mkQueryPacketAcknowledgementsRequest q d None sequences)) b = (b, Ok acked) ∧
       query_UnreceivedAcks ctxA
         (Some (mkQueryUnreceivedAcksRequest p c (ps_Sequence <$> pas_Acknowledgements acked))) a = (a, Ok back) ∧
       ∀ n, n ∈ ua_Sequences back ↔ has_bytes (commitment_at a p c n) ∧ has_bytes (ack_at b q d n)).
Proof.
  intros Hwf Hva Hvb HA HB H0 Hm.
  destruct (PacketCommitments_run ctxA a p c m hA) as (sent & E & Hsent); [done..|]. exists sent. split; [done|].
  split; [done|]. intros sequences.
  assert (Hseq : ∀ n, n ∈ sequences ↔ is_Some (commitment_at a p c n)).
  { intros n. unfold sequences. rewrite list_elem_of_fmap. setoid_rewrite Hsent. split.
    - intros (x & -> & i & bz & -> & Hi). simpl. by rewrite Hi.
    - intros [bz Hn]. exists (NewPacketState p c n (Some bz)). naive_solver. }
  assert (Hnz : Forall (λ n, n ≠ 0%N) sequences).
  { apply list.Forall_forall. intros n Hn%Hseq ->. rewrite H0 in Hn. by destruct Hn. }
  split.
  - eexists. split; [by apply UnreceivedPackets_run|]. simpl. setoid_rewrite list_elem_of_filter. setoid_rewrite Hseq.
    split; [tauto|]. intros ch Hch. split; [intros Ho n; rewrite (unordered_received b q d ch n Hch Ho); tauto|].
    intros _ Hnone n. rewrite Hnone. tauto.
  - intros Hne. destruct (PacketAcknowledgements_run ctxB b q d sequences None hB) as (acked & Ea & Hacked); [done..|].
    eexists acked, _. split; [done|]. split; [apply UnreceivedAcks_run; [done..|]|].
    + apply list.Forall_forall. intros n [Hn _]%Hacked. rewrite list.Forall_forall in Hnz. by apply Hnz.
    + intros n. simpl. rewrite list_elem_of_filter, Hacked, Hseq. split; [tauto|].
      intros [H1 H2]. split_and!; [done| |done]. destruct H1 as (bz & -> & _). done.
Qed.

(** On an ORDERED channel no receipt is written: a received packet stays in the answer
    of [UnreceivedPackets]. *)
Lemma ordered_packet_stays_unreceived ctx ctx' cap pkt prf h (w w' : World) ch self :
  RecvPacket ctx cap pkt prf h w = (w', Ok tt) →
  chan w (DestinationPort pkt) (DestinationChannel pkt) = Some ch → Channel_Ordering ch = ORDERED →
  receipt_at w (DestinationPort pkt) (DestinationChannel pkt) (Sequence pkt) = None → Sequence pkt ≠ 0%N →
  validategRPCRequest (DestinationPort pkt) (DestinationChannel pkt) = Ok tt → GetSelfHeight ctx' = Ok self →
  query_UnreceivedPackets ctx'
    (Some (mkQueryUnreceivedPacketsRequest (DestinationPort pkt) (DestinationChannel pkt) [Sequence pkt])) w' =
  (w', Ok (mkQueryUnreceivedPacketsResponse [Sequence pkt] self)).
Proof.
  intros (ch' & hop & ce & slf & w1 & [Hr _] & _ & _ & _ & _ & _ & _ & _ & _ & _ & Hs & Hw & _)%RecvPacket_Ok Hch Ho Hn H0 Hv Hh.
  rewrite (UnreceivedPackets_run _ _ _ _ _ self) by (done || by repeat constructor).
  rewrite filter_cons_True; [done|]. rewrite Hch in Hr. injection Hr as <-.
  unfold recv_writes in Hw. rewrite Ho in Hw. destruct Hw as [_ Hw]. unfold receipt_at.
  rewrite Hw, lookup_insert_ne by path_ne. rewrite <- Hn, Hs. done.
Qed.
End relay.

(** ** Upgrades *)
Section upgrades.
Context {PG : Pagination} {SE : SdkEncoding} {LC : LightClient} {CD : Codec} {CK : CapabilityKeeper} {AP : Application}
  {UK : UpgradeKeeper} {UA : UpgradeApp}.
Import selfchain clientquery.

Lemma upgraded_client_found (w : World) plan cs :
  up_GetUpgradePlan (upgrade_state w) = Some plan →
  up_GetUpgradedClient (upgrade_state w) (Plan_Height plan) = Some (Marshal_ClientState cs) → encodable_ClientState cs →
  query_UpgradedClientState (Some mkQueryUpgradedClientStateRequest) w =
  (w, Ok (mkQueryUpgradedClientStateResponse (Any_ClientState cs))).
Proof.
  intros Hp Hc He. unfold query_UpgradedClientState, GetUpgradePlan, GetUpgradedClient, given, found, bind, gets, some_or, ret.
  rewrite Hp, Hc, ClientState_roundtrip by done. done.
Qed.

(** The consensus state is looked up under the height of the context, and not under the
    height of the plan, where [BeginBlocker] puts it one block before. *)
Lemma upgraded_consensus_missed ctx (w : World) :
  up_GetUpgradedConsensusState (upgrade_state w) (BlockHeight ctx) = None →
  query_UpgradedConsensusState ctx (Some mkQueryUpgradedConsensusStateRequest) w = (w, Err (status.Error status.NotFound)).
Proof.
  intros Hn. unfold query_UpgradedConsensusState, GetUpgradedConsensusState, given, found, bind, gets, some_or, ret.
  by rewrite Hn.
Qed.
End upgrades.
