(* ===== verification/CoreServer.v ===== *)
(** * The module's keeper

    [keeper/keeper.go] and [keeper/grpc_query.go]: the keeper that holds those of the
    submodules, its router, and the query server it is registered as. *)
From S2P Require Import Prelude GoMonad Sha256 Errors Height Host ConnectionTypes Sdk.
From S2P Require Import ChannelTypes Exported ClientKeeper ConnectionKeeper PortKeeper.
From S2P Require Import ChannelKeeper FullNode Scenario ChannelSpec Iteration ClientTypes.
From S2P Require Import Router ChannelGenesis GenesisProperties CoreGenesisProperties.
From S2P Require Import SelfChain Queries ClientQueries QueryProperties.

Module corekeeper.
Import channelquery connectionquery clientquery.

Section server.
Context {PG : Pagination} {SE : SdkEncoding} {LC : LightClient} {CD : Codec} {CK : CapabilityKeeper} {AP : Application}.
Context {UK : UpgradeKeeper} {UA : UpgradeApp}.

(** [types.QueryServer]: a call of one of the query services, with the type of its answer. *)
Inductive rpc : Type → Type :=
  | rpc_ClientState (req : option QueryClientStateRequest) : rpc QueryClientStateResponse
  | rpc_ClientStates (req : option QueryClientStatesRequest) : rpc QueryClientStatesResponse
  | rpc_ConsensusState (req : option QueryConsensusStateRequest) : rpc QueryConsensusStateResponse
  | rpc_ConsensusStates (req : option QueryConsensusStatesRequest) : rpc QueryConsensusStatesResponse
  | rpc_ClientStatus (req : option QueryClientStatusRequest) : rpc QueryClientStatusResponse
  | rpc_ClientParams : rpc QueryClientParamsResponse
  | rpc_UpgradedClientState (req : option QueryUpgradedClientStateRequest) : rpc QueryUpgradedClientStateResponse
  | rpc_UpgradedConsensusState (req : option QueryUpgradedConsensusStateRequest) : rpc QueryUpgradedConsensusStateResponse
  | rpc_Connection (req : option QueryConnectionRequest) : rpc QueryConnectionResponse
  | rpc_Connections (req : option QueryConnectionsRequest) : rpc QueryConnectionsResponse
  | rpc_ClientConnections (req : option QueryClientConnectionsRequest) : rpc QueryClientConnectionsResponse
  | rpc_ConnectionClientState (req : option QueryConnectionClientStateRequest) : rpc QueryConnectionClientStateResponse
  | rpc_ConnectionConsensusState (req : option QueryConnectionConsensusStateRequest) : rpc QueryConnectionConsensusStateResponse
  | rpc_Channel (req : option QueryChannelRequest) : rpc QueryChannelResponse
  | rpc_Channels (req : option QueryChannelsRequest) : rpc QueryChannelsResponse
  | rpc_ConnectionChannels (req : option QueryConnectionChannelsRequest) : rpc QueryConnectionChannelsResponse
  | rpc_ChannelClientState (req : option QueryChannelClientStateRequest) : rpc QueryChannelClientStateResponse
  | rpc_ChannelConsensusState (req : option QueryChannelConsensusStateRequest) : rpc QueryChannelConsensusStateResponse
  | rpc_PacketCommitment (req : option QueryPacketCommitmentRequest) : rpc QueryPacketCommitmentResponse
  | rpc_PacketCommitments (req : option QueryPacketCommitmentsRequest) : rpc QueryPacketCommitmentsResponse
  | rpc_PacketReceipt (req : option QueryPacketReceiptRequest) : rpc QueryPacketReceiptResponse
  | rpc_PacketAcknowledgement (req : option QueryPacketAcknowledgementRequest) : rpc QueryPacketAcknowledgementResponse
  | rpc_PacketAcknowledgements (req : option QueryPacketAcknowledgementsRequest) : rpc QueryPacketAcknowledgementsResponse
  | rpc_UnreceivedPackets (req : option QueryUnreceivedPacketsRequest) : rpc QueryUnreceivedPacketsResponse
  | rpc_UnreceivedAcks (req : option QueryUnreceivedAcksRequest) : rpc QueryUnreceivedAcksResponse
  | rpc_NextSequenceReceive (req : option QueryNextSequenceReceiveRequest) : rpc QueryNextSequenceReceiveResponse.

(** An implementation of the interface. *)
Definition QueryServer : Type := Context → ∀ A : Type, rpc A → M A.

(** The keeper: the embedded interface, and the router with the one the port keeper
    holds. The keepers of the submodules are the modules of this development. *)
Record Keeper := mkKeeper {
  embedded : option QueryServer;
  k_Router : option Router;
  port_Router : option Router }.
Definition NewKeeper : Keeper := mkKeeper None None None.

(** A method that the keeper does not define is that of the embedded interface, which
    panics when it is nil. *)
Definition promoted (k : Keeper) (ctx : Context) {A : Type} (r : rpc A) : M A :=
  match embedded k with Some srv => srv ctx A r | None => panic end.

Definition serve (k : Keeper) (ctx : Context) {A : Type} (r : rpc A) : M A :=
  match r in rpc B return M B with
  | rpc_ClientState req => query_ClientState ctx req
  | rpc_ClientStates req => query_ClientStates req
  | rpc_ConsensusState req => query_ConsensusState ctx req
  | rpc_ConsensusStates req => query_ConsensusStates req
  | rpc_ClientStatus req => query_ClientStatus ctx req
  | rpc_ClientParams => query_ClientParams
  | rpc_UpgradedClientState req => query_UpgradedClientState req
  | rpc_UpgradedConsensusState req => promoted k ctx (rpc_UpgradedConsensusState req)
  | rpc_Connection req => query_Connection ctx req
  | rpc_Connections req => query_Connections ctx req
  | rpc_ClientConnections req => query_ClientConnections ctx req
  | rpc_ConnectionClientState req => query_ConnectionClientState ctx req
  | rpc_ConnectionConsensusState req => query_ConnectionConsensusState ctx req
  | rpc_Channel req => query_Channel ctx req
  | rpc_Channels req => query_Channels ctx req
  | rpc_ConnectionChannels req => query_ConnectionChannels ctx req
  | rpc_ChannelClientState req => query_ChannelClientState ctx req
  | rpc_ChannelConsensusState req => query_ChannelConsensusState ctx req
  | rpc_PacketCommitment req => query_PacketCommitment ctx req
  | rpc_PacketCommitments req => query_PacketCommitments ctx req
  | rpc_PacketReceipt req => query_PacketReceipt ctx req
  | rpc_PacketAcknowledgement req => query_PacketAcknowledgement ctx req
  | rpc_PacketAcknowledgements req => query_PacketAcknowledgements ctx req
  | rpc_UnreceivedPackets req => query_UnreceivedPackets ctx req
  | rpc_UnreceivedAcks req => query_UnreceivedAcks ctx req
  | rpc_NextSequenceReceive req => query_NextSequenceReceive ctx req
  end.

(** The router is one object: the port keeper's and the keeper's are sealed together. *)
Definition SetRouter (rtr : Router) (k : Keeper) : outcome Keeper :=
  if match k_Router k with Some r => sealed r | None => false end then Panic
  else
    let? rtr := must_some (Seal rtr) in
    Ok (mkKeeper (embedded k) (Some rtr) (Some rtr)).

(** ** Theorems *)

(** Nothing a client of the query services sends changes the state. *)
Lemma server_reads ctx A (r : rpc A) : keeps id (serve NewKeeper ctx r).
Proof.
  destruct r; cbn [serve]; first
    [apply (channel_queries_read ctx)|apply (connection_queries_read ctx)|apply (client_queries_read ctx)|apply keeps_panic].
Qed.

(** The query of the upgraded consensus state reaches the embedded interface, which
    [NewKeeper] leaves nil: the node panics instead of answering. *)
Lemma upgraded_consensus_not_served ctx req w :
  serve NewKeeper ctx (rpc_UpgradedConsensusState req) w = (w, Panic).
Proof. done. Qed.

(** A router can be set once, and it is the port keeper's from then on, with the routes it
    had. *)
Lemma router_set_once rtr k k' :
  SetRouter rtr k = Ok k' →
  k_Router k' = port_Router k' ∧ option_map routes (k_Router k') = Some (routes rtr) ∧ ∀ rtr', SetRouter rtr' k' = Panic.
Proof.
  unfold SetRouter, Seal. destruct (match k_Router k with Some _ => _ | None => _ end); [done|].
  destruct (sealed rtr); [done|]. by intros [= <-].
Qed.
End server.
End corekeeper.

(** ** Queries on a concrete chain

    An executable [Pagination], and the relayer's queries on the chain of
    [CoreGenesisProperties.v]. *)
Import channelgenesis channelquery.

(** A request is an offset and a limit. *)
Record ToyPage := mkToyPage { toy_offset : nat; toy_limit : nat }.
Definition toy_request (req : option ToyPage) : ToyPage := default (mkToyPage 0 100) req.

(** [FilteredPaginate] calls the function on every entry up to the end of the page and
    says which hits are on the page. *)
Fixpoint toy_filtered {S} (l : list (string * string)) (page : ToyPage) (hits : nat)
    (f : string → string → bool → ST S bool) : ST S nat :=
  match l with
  | [] => ret hits
  | (k, v) :: l =>
      if (toy_offset page + toy_limit page <? hits)%nat then ret hits
      else
        let! hit := f k v ((toy_offset page <=? hits)%nat && (hits <? toy_offset page + toy_limit page)%nat) in
        toy_filtered l page (if hit : bool then Datatypes.S hits else hits) f
  end.

Definition toy_pages : Pagination.
Proof.
  refine {|
    PageRequest := ToyPage; PageResponse := nat;
    Paginate := λ S store req f,
      let page := toy_request req in
      for_all (λ kv, f kv.1 kv.2) (take (toy_limit page) (drop (toy_offset page) (entries store))) ;;;
      ret (length (entries store));
    FilteredPaginate := λ S store req f, toy_filtered (entries store) (toy_request req) 0 f;
    whole_page := λ n, mkToyPage 0 n |}.
  - intros store req. eexists _, (Ok (length (entries store))). split; [|intros S f s; reflexivity].
    apply sublist_submseteq. etrans; [apply sublist_take|apply sublist_drop].
  - intros store n Hn. exists (length (entries store)). intros S f s. simpl. by rewrite drop_0, take_ge.
Defined.

Module QueryWitness.
Import ToyInstances Scenario GenesisWitness.
#[local] Existing Instance toy_pages.

Definition ctx0 : Context := mkContext "chainA-1" 20 1000 false false.

(** The packet 2 is committed and not received. *)
Lemma relay_queries_witness :
  ∃ sent missing,
    query_PacketCommitments ctx0 (Some (mkQueryPacketCommitmentsRequest "transfer" "channel-0" (Some (whole_page 5)))) world
      = (world, Ok sent) ∧
    query_UnreceivedPackets ctx0
      (Some (mkQueryUnreceivedPacketsRequest "transfer" "channel-0" (ps_Sequence <$> pcs_Commitments sent))) world
      = (world, Ok missing) ∧
    2%N ∈ up_Sequences missing.
Proof.
  destruct (relay_queries ctx0 ctx0 world world "transfer" "channel-0" "transfer" "channel-0" 5 (NewHeight 1 20) (NewHeight 1 20))
    as (sent & E1 & _ & (missing & E2 & H & _) & _).
  - exact store_is_wf.
  - reflexivity.
  - reflexivity.
  - reflexivity.
  - reflexivity.
  - vm_compute; reflexivity.
  - vm_compute. lia.
  - exists sent, missing. split; [exact E1|]. split; [exact E2|]. apply H. split; [|vm_compute; reflexivity].
    exists "commitment". vm_compute; reflexivity.
Defined.

(** The second page of one consensus state lists the first page too. *)
Definition two_states : KVStore :=
  {[ FullConsensusStateKey clientID (NewHeight 1 10) := enc (mkFNConsensus 900 ∅);
     FullConsensusStateKey clientID (NewHeight 1 11) := enc (mkFNConsensus 950 ∅) ]}.
Definition states_world : World := chain two_states ∅.
Example second_page_repeats :
  outcome_map (λ r, length (clientquery.cos_ConsensusStates r))
    (clientquery.query_ConsensusStates (Some (clientquery.mkQueryConsensusStatesRequest clientID (Some (mkToyPage 1 1)))) states_world).2
  = Ok 2%nat.
Proof. vm_compute. reflexivity. Qed.
End QueryWitness.
