(* ===== verification/TransferGenesis.v ===== *)
(** * Genesis and queries of the transfer module

    [types/genesis.go], the rest of [types/trace.go] and [types/params.go],
    [keeper/genesis.go], the iteration over traces ([keeper/keeper.go],
    [keeper/encoding.go]) and the queries ([keeper/grpc_query.go]); what [ExportGenesis]
    wrote, [InitGenesis] restores. *)
From S2P Require Import Prelude GoMonad Errors Sha256 Height Host Sdk ConnectionTypes.
From S2P Require Import ChannelTypes Exported ClientKeeper ConnectionKeeper PortKeeper.
From S2P Require Import ChannelKeeper Iteration Router TransferTypes TransferKeeper.
From S2P Require Import Queries FullNode TransferConservation.
From Stdlib Require Import Ascii.
From stdpp Require Import sorting.

Module transfergenesis.
Import transfertypes transfer.

(** ** Types *)

(** [sort.Sort] by the full path; traces of one store have different paths. *)
Definition trace_le (a b : DenomTrace) : Prop := bytes_lt (GetFullDenomPath b) (GetFullDenomPath a) = false.
#[export] Instance trace_le_dec : RelDecision trace_le.
Proof. intros a b. unfold trace_le. apply _. Defined.
Definition Traces_Sort (t : list DenomTrace) : list DenomTrace := merge_sort trace_le t.

(** A parameter of the record is a boolean. *)
Definition validateEnabled (i : bool) : outcome unit := Ok tt.
Definition Params_Validate (p : Params) : outcome unit :=
  validateEnabled (SendEnabled p) ;;? validateEnabled (ReceiveEnabled p).

Record GenesisState := NewGenesisState { gs_PortId : string; gs_DenomTraces : list DenomTrace; gs_Params : Params }.
Definition DefaultGenesisState : GenesisState := NewGenesisState PortID [] DefaultParams.

Section validation.
Context {SY : SdkTypes}.

(** The loop of [Traces.Validate] with the hashes seen so far. *)
Fixpoint validate_traces (t : list DenomTrace) (seenTraces : gset string) : outcome unit :=
  match t with
  | [] => Ok tt
  | trace :: t =>
      let hash := HexBytes_String (DenomTrace_Hash trace) in
      fail_if (bool_decide (hash ∈ seenTraces)) fmt_Errorf ;;?
      outcome_wrap (DenomTrace_Validate trace) ;;?
      validate_traces t ({[hash]} ∪ seenTraces)
  end.
Definition Traces_Validate (t : list DenomTrace) : outcome unit := validate_traces t ∅.

Definition GenesisState_Validate (gs : GenesisState) : outcome unit :=
  PortIdentifierValidator (gs_PortId gs) ;;?
  Traces_Validate (gs_DenomTraces gs) ;;?
  Params_Validate (gs_Params gs).
End validation.

Section keeper.
Context {SE : SdkEncoding} {LC : LightClient} {CD : Codec} {CK : CapabilityKeeper}
  {SY : SdkTypes} {BK : BankKeeper} {TC : TransferCodec} {BE : Bech32} {PG : Pagination}.

(** ** Keeper *)
Definition UnmarshalDenomTrace (bz : string) : outcome DenomTrace :=
  match Unmarshal_DenomTrace bz with
  | Some denomTrace => Ok denomTrace
  | None => Err channelquery.proto_error
  end.
Definition MustUnmarshalDenomTrace (bz : string) : outcome DenomTrace := must_some (Unmarshal_DenomTrace bz).

(** The traces the callback is called with, when it never stops. *)
Fixpoint iterate_traces (iterator : list (string * string)) : outcome (list DenomTrace) :=
  match iterator with
  | [] => Ok []
  | (_, value) :: iterator =>
      let? denomTrace := MustUnmarshalDenomTrace value in
      let? rest := iterate_traces iterator in
      Ok (denomTrace :: rest)
  end.
Definition IterateDenomTraces : M (list DenomTrace) :=
  let! iterator := gets (λ w, PrefixIterator (store (transfer_state w)) DenomTraceKey) in
  lift (iterate_traces iterator).
Definition GetAllDenomTraces : M (list DenomTrace) :=
  let! traces := IterateDenomTraces in ret (Traces_Sort traces).

Definition GetParams : M Params :=
  let! send := GetSendEnabled in
  let! receive := GetReceiveEnabled in
  ret (NewParams send receive).

Definition init_genesis (state : GenesisState) : M unit :=
  InitGenesis (gs_PortId state) (gs_DenomTraces state) (gs_Params state).
Definition ExportGenesis : M GenesisState :=
  let! port := GetPort in
  let! traces := GetAllDenomTraces in
  let! params := GetParams in
  ret (NewGenesisState port traces params).

(** ** Queries *)
Import channelquery.
Record QueryDenomTraceRequest := mkQueryDenomTraceRequest { dt_Hash : string }.
Record QueryDenomTraceResponse := mkQueryDenomTraceResponse { dt_DenomTrace : DenomTrace }.
Record QueryDenomTracesRequest := mkQueryDenomTracesRequest { dts_Pagination : option PageRequest }.
Record QueryDenomTracesResponse := mkQueryDenomTracesResponse { dts_DenomTraces : list DenomTrace; dts_Page : PageResponse }.
Record QueryParamsResponse := mkQueryParamsResponse { qp_Params : Params }.

Definition query_DenomTrace (req : option QueryDenomTraceRequest) : M QueryDenomTraceResponse :=
  let! req := given req in
  let! hash := lift (status.recode status.InvalidArgument (ParseHexHash (dt_Hash req))) in
  let! denomTrace := GetDenomTrace hash in
  let! denomTrace := found denomTrace in
  ret (mkQueryDenomTraceResponse denomTrace).

Definition list_trace (_ value : string) : outcome (option DenomTrace) :=
  let? result := UnmarshalDenomTrace value in Ok (Some result).
Definition query_DenomTraces (req : option QueryDenomTracesRequest) : M QueryDenomTracesResponse :=
  let! req := given req in
  let! store := gets (λ w, prefix_view DenomTraceKey (store (transfer_state w))) in
  let! ' (traces, pageRes) := lift (paginate_list store (dts_Pagination req) list_trace) in
  ret (mkQueryDenomTracesResponse (Traces_Sort traces) pageRes).

Definition query_Params : M QueryParamsResponse :=
  let! params := GetParams in ret (mkQueryParamsResponse params).
End keeper.
End transfergenesis.

(** ** Export and import *)
Section genesis.
Context {SE : SdkEncoding} {LC : LightClient} {CD : Codec} {CK : CapabilityKeeper}
  {SY : SdkTypes} {BK : BankKeeper} {TC : TransferCodec} {BE : Bech32} {PG : Pagination}.
Import transfertypes transfer transfergenesis.

Definition trace_key (t : DenomTrace) : string := DenomTraceKey +:+ DenomTrace_Hash t.
Definition trace_entry (t : DenomTrace) : string * string := (trace_key t, Marshal_DenomTrace t).

(** The store of the module holds its port and valid traces under their hashes. *)
Definition transfer_store_wf (s : KVStore) : Prop :=
  (∃ port, s !! PortKey = Some port ∧ PortIdentifierValidator port = Ok tt) ∧
  ∀ k v, s !! k = Some v → k = PortKey ∨ ∃ t, (k, v) = trace_entry t ∧ DenomTrace_Validate t = Ok tt.

Lemma iterated_traces l :
  Forall (λ e, ∃ t, e = trace_entry t ∧ DenomTrace_Validate t = Ok tt) l →
  ∃ ts, iterate_traces l = Ok ts ∧ l = trace_entry <$> ts ∧ Forall (λ t, DenomTrace_Validate t = Ok tt) ts.
Proof.
  induction 1 as [|e l (t & -> & Ht) Hl (ts & E & -> & Hts)]; [by exists []|]. exists (t :: ts).
  simpl. unfold MustUnmarshalDenomTrace. rewrite DenomTrace_roundtrip, E. by split_and!; [|simpl|constructor].
Qed.

Lemma stored_traces s : transfer_store_wf s →
  ∃ ts, iterate_traces (PrefixIterator s DenomTraceKey) = Ok ts ∧ PrefixIterator s DenomTraceKey = trace_entry <$> ts ∧
    Forall (λ t, DenomTrace_Validate t = Ok tt) ts.
Proof.
  intros [_ Hs]. apply iterated_traces, list.Forall_forall. intros [k v] [Hp Hk%elem_of_entries]%list_elem_of_filter.
  destruct (Hs _ _ Hk) as [->|(t & E & Ht)]; [discriminate Hp|]. exists t. done.
Qed.

(** Sorting keeps the entries; their keys differ. *)
Lemma traces_keys s ts : PrefixIterator s DenomTraceKey = trace_entry <$> ts → NoDup (trace_key <$> ts).
Proof. intros E. pose proof (PrefixIterator_keys s DenomTraceKey) as H. rewrite E, <- list_fmap_compose in H. exact H. Qed.

Definition trace_hash (t : DenomTrace) : string := HexBytes_String (DenomTrace_Hash t).
Lemma trace_hash_inj t x : trace_hash t = trace_hash x → trace_key t = trace_key x.
Proof.
  unfold trace_hash, trace_key. intros E. f_equal. apply (f_equal hex_DecodeString) in E. rewrite !hex_roundtrip in E.
  by injection E.
Qed.
Lemma traces_hashes ts : NoDup (trace_key <$> ts) → NoDup (trace_hash <$> ts).
Proof.
  intros Hn. induction ts as [|t ts IH]; [constructor|]. apply NoDup_cons in Hn as [Ht Hn]. rewrite fmap_cons.
  constructor; [|by apply IH]. intros (x & E%trace_hash_inj & Hx)%list_elem_of_fmap. apply Ht, list_elem_of_fmap. eauto.
Qed.

Lemma validate_traces_run ts (seen : gset string) :
  NoDup (trace_hash <$> ts) → (∀ t, t ∈ ts → trace_hash t ∉ seen) → Forall (λ t, DenomTrace_Validate t = Ok tt) ts →
  validate_traces ts seen = Ok tt.
Proof.
  revert seen. induction ts as [|t ts IH]; intros seen Hn Hs Hv; [done|].
  apply NoDup_cons in Hn as [Ht Hn]. apply Forall_cons in Hv as [Hvt Hv]. cbn [validate_traces]. fold (trace_hash t).
  rewrite bool_decide_eq_false_2 by (apply Hs; by left). rewrite Hvt. cbn [fail_if outcome_bind outcome_wrap]. apply IH; [done| |done].
  intros x Hx. rewrite not_elem_of_union, not_elem_of_singleton. split; [|apply Hs; by right].
  intros E. apply Ht. rewrite <- E. by apply (list_elem_of_fmap_2 trace_hash).
Qed.

(** ** Importing traces *)
Lemma set_traces_run ts (w : World) :
  for_all SetDenomTrace ts w = (set_transfer_store (put_all (trace_entry <$> ts) (store (transfer_state w))) w, Ok tt).
Proof.
  revert w. induction ts as [|t ts IH]; intros w.
  - unfold put_all, set_transfer_store, set_app. destruct w as [i c [b s p] a m e]. done.
  - rewrite for_all_cons, (bind_run _ _ w _ tt (eq_refl : SetDenomTrace t w = (_, Ok tt))), IH. done.
Qed.

Lemma restored_store s port ts :
  transfer_store_wf s → s !! PortKey = Some port → PrefixIterator s DenomTraceKey = trace_entry <$> ts →
  put_all (trace_entry <$> Traces_Sort ts) {[PortKey := port]} = s.
Proof.
  intros Hs Hport E.
  assert (Hp : trace_entry <$> Traces_Sort ts ≡ₚ PrefixIterator s DenomTraceKey).
  { rewrite E. unfold Traces_Sort. by rewrite merge_sort_Permutation. }
  assert (Hn : NoDup (trace_entry <$> Traces_Sort ts).*1) by (rewrite Hp; apply PrefixIterator_keys).
  rewrite put_all_union by done. rewrite (list_to_map_proper _ _ Hn Hp), PrefixIterator_map.
  apply map_eq. intros k. destruct (s !! k) as [v|] eqn:Hk.
  - destruct (proj2 Hs _ _ Hk) as [->|(t & [-> ->]%pair_equal_spec & _)].
    + rewrite lookup_union_r; [rewrite lookup_singleton_eq; congruence|]. by rewrite below_lookup.
    + apply lookup_union_Some_l. rewrite below_lookup. unfold trace_key. by rewrite HasPrefix_app.
  - apply lookup_union_None. rewrite below_lookup, Hk. split; [by case_match|].
    rewrite lookup_singleton_ne; [done|]. intros <-. congruence.
Qed.

Lemma BindPort_state portID : keeps transfer_state (BindPort portID).
Proof.
  unfold BindPort, ClaimCapability, PortKeeper.BindPort, PortKeeper.IsBound. frame; try (apply must_keeps; frame).
  all: intros w; unfold on_caps, zoom; by case_match.
Qed.

Lemma InitGenesis_Ok port ts p (w w' : World) :
  InitGenesis port ts p w = (w', Ok tt) →
  store (transfer_state w') = put_all (trace_entry <$> ts) (<[PortKey := port]> (store (transfer_state w))) ∧
  params (transfer_state w') = p.
Proof.
  unfold InitGenesis. intros E. apply bind_Ok in E as ([] & w1 & E1 & E). injection E1 as <-.
  apply bind_Ok in E as ([] & w2 & E2 & E). rewrite set_traces_run in E2. injection E2 as <-.
  apply bind_Ok in E as (bound & w3 & E3 & E). injection E3 as E3 <-.
  apply bind_Ok in E as ([] & w4 & E4 & E).
  assert (transfer_state w4 = transfer_state w3) as H4.
  { destruct (negb _); [exact (keeps_run _ _ _ _ _ (must_keeps _ _ (BindPort_state port)) E4)|]. by injection E4 as <-. }
  apply bind_Ok in E as ([] & w5 & E5 & E). injection E5 as <-.
  apply bind_Ok in E as (acc & w6 & E6 & E). unfold on_bank, zoom in E6.
  destruct (GetModuleAccount _ _) as [bk o]. injection E6 as <- ->.
  destruct acc; [|done]. injection E as <-.
  unfold transfer_state. simpl. split; [|done].
  apply (f_equal store) in H4. unfold transfer_state in H4. rewrite H4, <- E3. done.
Qed.

(** C22: What a transfer module exports, another starts from: the exported state is valid, and
    a module with an empty store that imports it has the same port, denomination traces
    and parameters, byte for byte.  The import succeeds when the port is already bound
    and the module account exists. *)
Theorem transfer_genesis_roundtrip (w : World) :
  transfer_store_wf (store (transfer_state w)) →
  ∃ g, ExportGenesis w = (w, Ok g) ∧ GenesisState_Validate g = Ok tt ∧
    (∀ w0 w', store (transfer_state w0) = ∅ → init_genesis g w0 = (w', Ok tt) →
       store (transfer_state w') = store (transfer_state w) ∧ params (transfer_state w') = params (transfer_state w)) ∧
    (∀ w0 b, IsBound (gs_PortId g) w0 = (w0, Ok true) →
       GetModuleAccount ModuleName (bank (transfer_state w0)) = (b, Ok true) →
       ∃ w', init_genesis g w0 = (w', Ok tt)).
Proof.
  intros Hs. destruct (stored_traces _ Hs) as (ts & Et & El & Hv). pose proof Hs as [(port & Hport & Hid) _].
  exists (NewGenesisState port (Traces_Sort ts) (params (transfer_state w))). split_and!.
  - unfold ExportGenesis, GetPort, GetAllDenomTraces, IterateDenomTraces, GetParams, GetSendEnabled, GetReceiveEnabled.
    unfold get_transfer_store, bind, gets, lift, ret. rewrite Hport, Et. by destruct (params (transfer_state w)).
  - unfold GenesisState_Validate. simpl. rewrite Hid. cbn [outcome_bind].
    pose proof (traces_hashes _ (traces_keys _ _ El)) as Hn.
    assert (Hp : Traces_Sort ts ≡ₚ ts) by apply merge_sort_Permutation.
    unfold Traces_Validate. rewrite validate_traces_run; [done|by rewrite Hp|set_solver|by rewrite Hp].
  - intros w0 w' H0 [Hst Hpar]%InitGenesis_Ok. split; [|exact Hpar].
    rewrite Hst, H0. cbn [gs_PortId gs_DenomTraces]. rewrite insert_empty. by apply restored_store.
  - intros w0 b Hb Ha. eexists. unfold init_genesis, InitGenesis.
    rewrite (bind_run _ _ w0 _ tt (eq_refl : SetPort port w0 = (_, Ok tt))).
    rewrite (bind_run _ _ _ _ _ (set_traces_run _ _)).
    unfold IsBound, GetCapability, bind, gets, ret in Hb |- *. injection Hb as Hb. simpl. simpl in Hb. rewrite Hb. simpl.
    unfold on_bank, zoom. simpl. rewrite Ha. done.
Qed.

(** A recorded trace is found by the hash that its vouchers carry. *)
Lemma recorded_trace_found t (w : World) :
  (SetDenomTrace t ;;; query_DenomTrace (Some (mkQueryDenomTraceRequest (trace_hash t)))) w =
  (set_transfer_store (<[trace_key t := Marshal_DenomTrace t]> (store (transfer_state w))) w, Ok (mkQueryDenomTraceResponse t)).
Proof.
  rewrite (bind_run _ _ w _ tt (eq_refl : SetDenomTrace t w = (_, Ok tt))).
  unfold query_DenomTrace, channelquery.given, channelquery.found, bind, lift, some_or, ret. cbn [dt_Hash].
  unfold ParseHexHash, trace_hash. rewrite hex_roundtrip, ValidateHash_32 by apply sha256_length.
  cbn [status.recode]. unfold GetDenomTrace, get_transfer_store, bind, gets.
  change (store (transfer_state (set_transfer_store ?s w))) with s. unfold store_Set. fold (trace_key t).
  rewrite lookup_insert_eq. unfold some_or_panic, ret. by rewrite DenomTrace_roundtrip.
Qed.
End genesis.

Module TransferGenesisWitness.
Import transfertypes transfer transfergenesis TransferWitness.
#[local] Existing Instance toy_caps.
#[local] Existing Instance TraceWitness.toy_sdk.
#[local] Existing Instance toy_bank.
#[local] Existing Instance toy_transfer_codec.

Definition trace : DenomTrace := mkDenomTrace "transfer/channel-0" "uatom".
Definition stored : KVStore := <[trace_key trace := Marshal_DenomTrace trace]> {[PortKey := "transfer"]}.
Definition exporting : @World toy_caps transfer_app := set_transfer_store stored startA.

Lemma exporting_wf : transfer_store_wf stored.
Proof.
  split.
  - exists "transfer". split; [|reflexivity]. unfold stored. rewrite lookup_insert_ne by done. by rewrite lookup_singleton_eq.
  - intros k v. unfold stored. rewrite lookup_insert_Some, lookup_singleton_Some.
    intros [[<- <-]|[_ [<- <-]]]; [right|by left]. exists trace. split; [done|reflexivity].
Qed.

Lemma transfer_genesis_roundtrip_witness :
  ∃ g w', transfergenesis.ExportGenesis exporting = (exporting, Ok g) ∧ GenesisState_Validate g = Ok tt ∧
    init_genesis g (set_transfer_store ∅ startA) = (w', Ok tt) ∧ store (transfer_state w') = stored.
Proof.
  destruct (transfer_genesis_roundtrip exporting exporting_wf) as (g & E & Hv & Hr & Ht).
  assert (gs_PortId g = "transfer") as Hg.
  { assert (outcome_map gs_PortId (transfergenesis.ExportGenesis exporting).2 = Ok "transfer") as Hp by (vm_compute; reflexivity).
    rewrite E in Hp. by injection Hp. }
  destruct (Ht (set_transfer_store ∅ startA) (bank (transfer_state startA))) as [w' Ew].
  - rewrite Hg. apply run_pair. vm_compute. reflexivity.
  - reflexivity.
  - exists g, w'. split; [exact E|]. split; [exact Hv|]. split; [exact Ew|]. exact (proj1 (Hr (set_transfer_store ∅ startA) w' eq_refl Ew)).
Defined.
End TransferGenesisWitness.
