(* ===== verification/Migrations.v ===== *)
(** * The migration to ibc-go 1.0

    [02-client/legacy/v100]: the in-place migration of the store ([store.go]) and the
    migration of an exported genesis state ([genesis.go], [legacy/v100/genesis.go]), from
    the solo machine definition of SDK v0.40 to the present one, with the pruning of
    expired Tendermint consensus states and the metadata that later versions keep. *)
From S2P Require Import Prelude GoMonad Errors Sha256 Height Host Sdk ConnectionTypes.
From S2P Require Import ChannelTypes.
From S2P Require Import Exported ClientKeeper Commitment TendermintTypes Iteration.
From S2P Require Import TendermintStore.
From S2P Require Import TendermintClient Solomachine Localhost Clients ClientTypes CoreGenesis.

Module v100.

(** ** The old solo machine ([solomachine.pb.go]) *)
Section legacy.
Context {SK : SoloCrypto}.
Record ConsensusState := mkConsensusState {
  leg_PublicKey : option solotypes.PublicKeyAny; leg_Diversifier : string; leg_Timestamp : N }.
Record ClientState := mkClientState {
  leg_Sequence : N; leg_FrozenSequence : N; leg_ConsensusState : option ConsensusState; leg_AllowUpdateAfterProposal : bool }.

(** A nil consensus state panics. *)
Definition migrateSolomachine (clientState : ClientState) : outcome solotypes.ClientState :=
  let isFrozen := negb (leg_FrozenSequence clientState =? 0)%N in
  let? consensusState := must_some (leg_ConsensusState clientState) in
  Ok (solotypes.mkClientState (leg_Sequence clientState) isFrozen
        (Some (solotypes.mkConsensusState (leg_PublicKey consensusState) (leg_Diversifier consensusState)
                 (leg_Timestamp consensusState)))
        (leg_AllowUpdateAfterProposal clientState)).
End legacy.

(** The protobuf codec on the old messages: the value inside an encoded [Any], a client
    state, and the encoding of the values that have a type now. *)
Class LegacyCodec `{SoloCrypto} := {
  Unmarshal_Any : string → option string;
  legacy_Unmarshal_ClientState : string → option ClientState;
  Known_Value : ∀ {LC : LightClient}, AnyValue → string }.

(** The field [Value] of an [Any]. *)
Definition Any_Value {LC : LightClient} `{LegacyCodec} (a : AnyValue) : string :=
  match a with Any_Unknown value => value | _ => Known_Value a end.

Section migration.
Context {SE : SdkEncoding} {IC : Ics23} {TL : TendermintLib} {TC : TmCodec} {UT : UpgradeTypes} {SK : SoloCrypto}
  {SD : SoloCodec AnyClientState AnyConsensusState} {LD : LocalCodec AnyClientState} {LG : LegacyCodec}.
#[local] Existing Instance ibc_clients.
Context {CD : @Codec ibc_clients} {CK : CapabilityKeeper} {AP : Application}.

Definition proto_error : error := External "proto: unmarshal".

(** ** The store ([store.go]) *)

(** The identifiers of all clients. *)
Fixpoint collect_clients (iterator : list (string * string)) : outcome (list string) :=
  match iterator with
  | [] => Ok []
  | (key, _) :: iterator =>
      let keySplit := Split key "/" in
      if bool_decide (list.last keySplit ≠ Some KeyClientState) then collect_clients iterator
      else
        let? clientID := must_some (keySplit !! 1) in
        let? clients := collect_clients iterator in
        Ok (clientID :: clients)
  end.

(** The heights of the consensus states of a client, which
    [pruneSolomachineConsensusStates] and [addConsensusMetadata] collect. *)
Fixpoint consensus_heights (iterator : list (string * string)) : outcome (list Height) :=
  match iterator with
  | [] => Ok []
  | (key, _) :: iterator =>
      match Split key "/" with
      | [_; s] =>
          let? height := MustParseHeight s in
          let? heights := consensus_heights iterator in
          Ok (height :: heights)
      | _ => consensus_heights iterator
      end
  end.
(** The first part of a key is compared with the prefix as well. *)
Fixpoint solo_heights (iterator : list (string * string)) : outcome (list Height) :=
  match iterator with
  | [] => Ok []
  | (key, _) :: iterator =>
      match Split key "/" with
      | [s0; s] =>
          if bool_decide (s0 ≠ KeyConsensusStatePrefix) then solo_heights iterator
          else
            let? height := MustParseHeight s in
            let? heights := solo_heights iterator in
            Ok (height :: heights)
      | _ => solo_heights iterator
      end
  end.

Definition pruneSolomachineConsensusStates : ST KVStore unit :=
  let! iterator := gets (λ s, PrefixIterator s KeyConsensusStatePrefix) in
  let! heights := lift (solo_heights iterator) in
  for_all (λ height, modify (store_Delete (ConsensusStateKey height))) heights.

Definition addConsensusMetadata (ctx : Context) : ST KVStore unit :=
  let! iterator := gets (λ s, PrefixIterator s KeyConsensusStatePrefix) in
  let! heights := lift (consensus_heights iterator) in
  for_all (λ height,
    let! selfHeight := lift (GetSelfHeight ctx) in
    tmstore.SetProcessedHeight height selfHeight ;;;
    tmstore.SetIterationKey height) heights.

(** The two cases of the switch, on the bytes of the client state. *)
Definition migrate_solo (bz : string) : ST KVStore unit :=
  let! any := some_or (Unmarshal_Any bz) (Wrap proto_error) in
  let! clientState := some_or (legacy_Unmarshal_ClientState any) (Wrap proto_error) in
  let! updatedClientState := lift (migrateSolomachine clientState) in
  modify (store_Set ClientStateKey (Marshal_ClientState (SoloClient updatedClientState : @Exported.ClientState ibc_clients))) ;;;
  pruneSolomachineConsensusStates.

Definition migrate_tendermint (ctx : Context) (bz : string) : ST KVStore unit :=
  let! clientState := some_or (Unmarshal_ClientState bz) (Wrap proto_error) in
  match clientState with
  | TmClient tmClientState =>
      addConsensusMetadata ctx ;;;
      tmstore.PruneAllExpiredConsensusStates ctx tmClientState
  | _ => throw (Wrap ClientErr.ErrInvalidClient)
  end.

Definition migrate_client (ctx : Context) (clientID : string) : M unit :=
  let! ' (clientType, _) := lift (ParseClientIdentifier clientID) in
  let! clientStore := gets (client_view clientID) in
  let! bz := some_or (store_Get clientStore ClientStateKey) ClientErr.ErrClientNotFound in
  if bool_decide (clientType = Solomachine) then on_client_store clientID (migrate_solo bz)
  else if bool_decide (clientType = Tendermint) then on_client_store clientID (migrate_tendermint ctx bz)
  else ret tt.

Definition MigrateStore (ctx : Context) : M unit :=
  let! iterator := gets (λ w, PrefixIterator (ibc w) KeyClientStorePrefix) in
  let! clients := lift (collect_clients iterator) in
  for_all (migrate_client ctx) clients.

(** [keeper/migrations.go] of the client submodule and of the module *)
Definition client_Migrate1to2 (ctx : Context) : M unit := MigrateStore ctx.
Definition Migrate1to2 (ctx : Context) : M unit := client_Migrate1to2 ctx.

(** ** A genesis state ([genesis.go]) *)

Definition tm_of_any (a : option AnyValue) : outcome (option ibctmtypes.ClientState) :=
  match a with
  | None => Panic
  | Some (Any_ClientState (TmClient cs)) => Ok (Some cs)
  | Some _ => Ok None
  end.

(** The cast of a consensus state to Tendermint's type panics when it is another. *)
Fixpoint unexpired (tmClientState : ibctmtypes.ClientState) (genesisBlockTime : Z) (l : list ConsensusStateWithHeight) :
    outcome (list ConsensusStateWithHeight) :=
  match l with
  | [] => Ok []
  | consState :: l =>
      match WithHeight_ConsensusState consState with
      | Some (Any_ConsensusState (TmConsensus tmConsState)) =>
          let? rest := unexpired tmClientState genesisBlockTime l in
          Ok (if ibctmtypes.IsExpired tmClientState (ibctmtypes.Timestamp tmConsState) genesisBlockTime then rest
              else consState :: rest)
      | _ => Panic
      end
  end.

(** The metadata of one height: every processed time found, with the two new entries. *)
Definition metadata_of (selfHeight height : Height) (l : list GenesisMetadata) : list GenesisMetadata :=
  l ≫= λ metadata,
    if bool_decide (Metadata_Key metadata = tmstore.ProcessedTimeKey height) then
      [NewGenesisMetadata (tmstore.ProcessedHeightKey height) (Height_String selfHeight); metadata;
       NewGenesisMetadata (tmstore.IterationKey height) (ConsensusStateKey height)]
    else [].
Definition metadata_for (selfHeight : Height) (clientID : string) (all : list IdentifiedGenesisMetadata)
    (unexpiredConsensusStates : list ConsensusStateWithHeight) : list GenesisMetadata :=
  unexpiredConsensusStates ≫= λ consState,
    all ≫= λ identifiedGenMetadata,
      if bool_decide (Metadata_ClientId identifiedGenMetadata = clientID) then
        metadata_of selfHeight (WithHeight_Height consState) (ClientMetadata identifiedGenMetadata)
      else [].

(** The new client, and what it adds to the consensus states and the metadata. *)
Record migrated := mkMigrated {
  mig_client : IdentifiedClientState;
  mig_consensus : list ClientConsensusStates;
  mig_metadata : list IdentifiedGenesisMetadata }.

Fixpoint migrate_consensus (gs : GenesisState) (genesisBlockTime : Z) (selfHeight : Height) (client : IdentifiedClientState)
    (clientType : string) (l : list ClientConsensusStates) :
    outcome (list ClientConsensusStates * list IdentifiedGenesisMetadata) :=
  match l with
  | [] => Ok ([], [])
  | clientConsensusStates :: l =>
      if bool_decide (Consensus_ClientId clientConsensusStates = Identified_ClientId client) &&
         bool_decide (clientType = Tendermint) then
        let? tmClientState := tm_of_any (Identified_ClientState client) in
        match tmClientState with
        | None => Err ClientErr.ErrInvalidClient
        | Some tmClientState =>
            let? states := unexpired tmClientState genesisBlockTime (Consensus_States clientConsensusStates) in
            let clientMetadata := metadata_for selfHeight (Identified_ClientId client) (ClientsMetadata gs) states in
            let? ' (consensus, metadata) := migrate_consensus gs genesisBlockTime selfHeight client clientType l in
            Ok (if bool_decide (length states ≠ 0%nat)
                then NewClientConsensusStates (Identified_ClientId client) states :: consensus else consensus,
                if bool_decide (length clientMetadata ≠ 0%nat)
                then NewIdentifiedGenesisMetadata (Identified_ClientId client) clientMetadata :: metadata else metadata)
        end
      else migrate_consensus gs genesisBlockTime selfHeight client clientType l
  end.

Definition migrate_genesis_client (gs : GenesisState) (genesisBlockTime : Z) (selfHeight : Height)
    (client : IdentifiedClientState) : outcome migrated :=
  let? ' (clientType, _) := ParseClientIdentifier (Identified_ClientId client) in
  let? newClient :=
    if bool_decide (clientType = Solomachine) then
      let? any := must_some (Identified_ClientState client) in
      match legacy_Unmarshal_ClientState (Any_Value any) with
      | None => Err (Wrap proto_error)
      | Some clientState =>
          let? updatedClientState := migrateSolomachine clientState in
          let? any := PackClientState (Some (SoloClient updatedClientState : @Exported.ClientState ibc_clients)) in
          Ok (mkIdentifiedClientState (Identified_ClientId client) (Some any))
      end
    else Ok client in
  let? ' (consensus, metadata) :=
    migrate_consensus gs genesisBlockTime selfHeight client clientType (ClientsConsensus gs) in
  Ok (mkMigrated newClient consensus metadata).

Fixpoint migrate_clients (gs : GenesisState) (genesisBlockTime : Z) (selfHeight : Height) (l : list IdentifiedClientState) :
    outcome (list migrated) :=
  match l with
  | [] => Ok []
  | client :: l =>
      let? m := migrate_genesis_client gs genesisBlockTime selfHeight client in
      let? rest := migrate_clients gs genesisBlockTime selfHeight l in
      Ok (m :: rest)
  end.

Definition MigrateGenesis (clientGenState : GenesisState) (genesisBlockTime : Z) (selfHeight : Height) :
    outcome GenesisState :=
  let? l := migrate_clients clientGenState genesisBlockTime selfHeight (Genesis_Clients clientGenState) in
  Ok (NewGenesisState (mig_client <$> l) (l ≫= mig_consensus) (l ≫= mig_metadata) (Genesis_Params clientGenState)
        (CreateLocalhost clientGenState) (NextClientSequence clientGenState)).

(** The module's genesis state; the JSON around it is not modelled. *)
Definition core_MigrateGenesis (ibcGenState : coregenesis.GenesisState) (genesisTime : Z) (chainID : string)
    (initialHeight : Z) (maxExpectedTimePerBlock : N) : outcome coregenesis.GenesisState :=
  let? revision := ParseChainID chainID in
  let? clientGenState := MigrateGenesis (coregenesis.ClientGenesis ibcGenState) genesisTime
    (NewHeight revision (uint64_of_Z initialHeight)) in
  let c := coregenesis.ConnectionGenesis ibcGenState in
  let connectionGenesis := connectiongenesis.NewGenesisState (connectiongenesis.Connections c)
    (connectiongenesis.ClientConnectionPaths c) (connectiongenesis.NextConnectionSequence c)
    (connectiongenesis.NewParams maxExpectedTimePerBlock) in
  Ok (coregenesis.mkGenesisState _ clientGenState connectionGenesis (coregenesis.ChannelGenesis ibcGenState)).
End migration.
End v100.
