(* ===== verification/MigrationProperties.v ===== *)
(** * What the migration leaves behind

    A store of SDK v0.40 has no index of the consensus states of its Tendermint clients.
    [MigrateStore] builds it, so that pruning works: every client's store is well-formed
    afterwards, exactly the expired consensus states are gone, solo machines have the new
    client state and no consensus states, and everything else is as before. *)
From S2P Require Import Prelude GoMonad Errors Sha256 Height Host Sdk ConnectionTypes.
From S2P Require Import ChannelTypes.
From S2P Require Import Exported ClientKeeper ChannelSpec PacketProperties Commitment.
From S2P Require Import TendermintTypes Iteration.
From S2P Require Import TendermintStore TendermintClient TendermintIndex TendermintUpdate.
From Stdlib Require Import Ascii.
From S2P Require Import Solomachine Localhost Clients ClientTypes Migrations.
Import v100.

Section tendermint.
Context {SE : SdkEncoding} {IC : Ics23} {TL : TendermintLib} {TC : TmCodec}.
Import ibctmtypes tmstore.

(** The store of a Tendermint client before the migration: consensus states with their
    processed times, and no iteration keys. *)
Record legacy_tm (s : KVStore) : Prop := {
  leg_cons k v : s !! k = Some v → HasPrefix k KeyConsensusStatePrefix = true → (length (Split k "/") = 2)%nat →
    ∃ h, height_wf h ∧ k = ConsensusStateKey h ∧ is_Some (tm_Unmarshal_ConsensusState v) ∧ is_Some (GetProcessedTime s h);
  leg_no_iter k : HasPrefix k KeyIterateConsensusStatePrefix = true → s !! k = None }.

(** The heights the loops collect are those with a consensus state. *)
Lemma heights_collected l :
  (∀ k v, (k, v) ∈ l → (length (Split k "/") = 2)%nat → ∃ h, height_wf h ∧ k = ConsensusStateKey h) →
  ∃ hs, consensus_heights l = Ok hs ∧ solo_heights l = Ok hs ∧ ∀ h, h ∈ hs ↔ height_wf h ∧ ∃ v, (ConsensusStateKey h, v) ∈ l.
Proof.
  induction l as [|[k v] l IH]; intros Hl.
  { exists []. split_and!; [done..|]. intros h. split; [by intros ?%elem_of_nil|]. by intros (_ & v & ?%elem_of_nil). }
  destruct IH as (hs & E1 & E2 & Hhs); [intros k' v' Hin; eapply Hl; by right|].
  destruct (decide (length (Split k "/") = 2)%nat) as [Hlen|Hlen].
  - destruct (Hl k v) as (h & Hh & ->); [by left|done|]. exists (h :: hs). cbn [consensus_heights solo_heights].
    rewrite Split_consensus_key, (bool_decide_eq_false_2 (_ ≠ _)) by (intros Hn; by apply Hn). unfold MustParseHeight.
    rewrite ParseHeight_String_eq, E1, E2 by done. split_and!; [done..|]. intros x. rewrite elem_of_cons, Hhs. split.
    + intros [->|(Hx & u & Hu)]; [split; [done|]; exists v; by left|]. split; [done|]. exists u. by right.
    + intros (Hx & u & [[E _]%pair_equal_spec|Hu]%elem_of_cons); [left; by apply ConsensusStateKey_inj|right; eauto].
  - exists hs. cbn [consensus_heights solo_heights]. split_and!.
    + rewrite <- E1. destruct (Split k "/") as [|? [|? [|? ?]]]; simpl in Hlen; done.
    + rewrite <- E2. destruct (Split k "/") as [|? [|? [|? ?]]]; simpl in Hlen; done.
    + intros x. rewrite Hhs. split; intros (Hx & u & Hu); (split; [done|]); exists u; [by right|].
      apply elem_of_cons in Hu as [[E _]%pair_equal_spec|Hu]; [|done]. subst k. by rewrite Split_consensus_key in Hlen.
Qed.

Lemma consensus_prefix h : HasPrefix (ConsensusStateKey h) KeyConsensusStatePrefix = true.
Proof. unfold ConsensusStateKey, ConsensusStatePath. apply HasPrefix_app. Qed.

Lemma heights_of_store s :
  (∀ k v, s !! k = Some v → HasPrefix k KeyConsensusStatePrefix = true → (length (Split k "/") = 2)%nat →
     ∃ h, height_wf h ∧ k = ConsensusStateKey h) →
  let l := PrefixIterator s KeyConsensusStatePrefix in
  ∃ hs, consensus_heights l = Ok hs ∧ solo_heights l = Ok hs ∧
    ∀ h, h ∈ hs ↔ height_wf h ∧ is_Some (s !! ConsensusStateKey h).
Proof.
  intros Hs l. destruct (heights_collected l) as (hs & E1 & E2 & Hhs).
  { intros k v [Hp Hk%elem_of_entries]%list_elem_of_filter. by apply (Hs k v). }
  exists hs. split_and!; [done..|]. intros h. rewrite Hhs. unfold l, PrefixIterator, is_Some.
  setoid_rewrite list_elem_of_filter. setoid_rewrite elem_of_entries. pose proof (consensus_prefix h). naive_solver.
Qed.

(** The store with the metadata of a height. *)
Definition add_metadata (self : Height) (s : KVStore) (h : Height) : KVStore :=
  <[IterationKey h := ConsensusStateKey h]> (<[ProcessedHeightKey h := Height_String self]> s).

Lemma metadata_lookup self hs s :
  Forall height_wf hs →
  let s1 := foldl (add_metadata self) s hs in
  (∀ h, h ∈ hs → indexed s1 h ∧ s1 !! ProcessedHeightKey h = Some (Height_String self)) ∧
  (∀ k, (∀ h, h ∈ hs → k ≠ IterationKey h ∧ k ≠ ProcessedHeightKey h) → s1 !! k = s !! k).
Proof.
  revert s. induction hs as [|x hs IH]; intros s Hw; [split; [by intros h ?%elem_of_nil|done]|].
  apply list.Forall_cons in Hw as [Hx Hw]. cbn [foldl]. destruct (IH (add_metadata self s x) Hw) as [IH1 IH2].
  split.
  - intros h [->|Hh]%elem_of_cons; [|by apply IH1].
    destruct (decide (x ∈ hs)) as [Hin|Hin]; [by apply IH1|]. unfold indexed.
    rewrite list.Forall_forall in Hw.
    rewrite !IH2; [|intros h Hh; split..].
    + unfold add_metadata. rewrite lookup_insert_eq, lookup_insert_ne, lookup_insert_eq by eauto with tmkeys. done.
    + eauto with tmkeys.
    + intros E%ProcessedHeightKey_inj. by subst.
    + intros E%IterationKey_inj; [by subst|done|by apply Hw].
    + eauto with tmkeys.
  - intros k Hk. rewrite IH2 by (intros h Hh; apply Hk; by right).
    destruct (Hk x) as [H1 H2]; [by left|]. unfold add_metadata. by rewrite !lookup_insert_ne.
Qed.

Lemma iteration_prefix h : HasPrefix (IterationKey h) KeyIterateConsensusStatePrefix = true.
Proof. apply HasPrefix_app. Qed.
Lemma height_key_prefix h : HasPrefix (ProcessedHeightKey h) KeyIterateConsensusStatePrefix = false.
Proof. done. Qed.

Section indexing.
Context (self : Height) (s : KVStore) (hs : list Height).
Hypothesis (Hleg : legacy_tm s) (Hself : height_wf self).
Hypothesis Hhs : ∀ h, h ∈ hs ↔ height_wf h ∧ is_Some (s !! ConsensusStateKey h).
Let s1 := foldl (add_metadata self) s hs.

Lemma heights_wf : Forall height_wf hs.
Proof. apply list.Forall_forall. intros h Hh. by apply Hhs in Hh as [? _]. Qed.

Lemma indexed_consensus h : s1 !! ConsensusStateKey h = s !! ConsensusStateKey h.
Proof. apply (metadata_lookup self hs s heights_wf). intros x _. eauto with tmkeys. Qed.
Lemma indexed_time h : GetProcessedTime s1 h = GetProcessedTime s h.
Proof.
  unfold GetProcessedTime. unfold s1. rewrite (proj2 (metadata_lookup self hs s heights_wf)); [done|].
  intros x _. eauto with tmkeys.
Qed.
Lemma indexed_client : s1 !! ClientStateKey = s !! ClientStateKey.
Proof. apply (metadata_lookup self hs s heights_wf). intros x _. eauto with tmkeys. Qed.

Lemma indexed_mem h : height_wf h → indexed s1 h ↔ h ∈ hs.
Proof.
  intros Hw. split; [|by apply (metadata_lookup self hs s heights_wf)]. intros Hi.
  destruct (decide (h ∈ hs)) as [|Hn]; [done|]. unfold indexed, s1 in Hi.
  rewrite (proj2 (metadata_lookup self hs s heights_wf)), (leg_no_iter _ Hleg) in Hi; [done|apply iteration_prefix|].
  intros x Hx. split; [|eauto with tmkeys]. pose proof heights_wf as Hall. rewrite list.Forall_forall in Hall.
  intros E%IterationKey_inj; [by subst|done|by apply Hall].
Qed.

(** A height with a consensus state, in the old store. *)
Lemma legacy_height h : h ∈ hs → height_wf h ∧ is_Some (cons_at s h) ∧ is_Some (GetProcessedTime s h).
Proof.
  intros [Hw [v Hv]]%Hhs. split; [done|].
  destruct (leg_cons _ Hleg _ _ Hv (consensus_prefix h)) as (x & Hx & Ex & Hc & Ht); [by rewrite Split_consensus_key|].
  apply ConsensusStateKey_inj in Ex as <-. split; [|done]. unfold cons_at. rewrite Hv. exact Hc.
Qed.

Lemma indexed_store_wf : tm_wf s1.
Proof.
  split.
  - intros k v Hk Hp. destruct (decide (Exists (λ h, k = IterationKey h) hs)) as [(h & Hh & ->)%list.Exists_exists|Hn].
    + pose proof (proj1 (metadata_lookup self hs s heights_wf) h Hh) as [Hi _]. apply legacy_height in Hh as [Hw _].
      exists h. split_and!; [done..|]. unfold indexed in Hi. fold s1 in Hi. congruence.
    + exfalso. unfold s1 in Hk. rewrite (proj2 (metadata_lookup self hs s heights_wf)), (leg_no_iter _ Hleg) in Hk; [done..|].
      intros h Hh. split; [intros ->; apply Hn, list.Exists_exists; eauto|]. intros ->. by rewrite height_key_prefix in Hp.
  - intros h Hw Hi%indexed_mem; [|done]. apply legacy_height in Hi as (_ & Hc & _). unfold cons_at in *. by rewrite indexed_consensus.
  - intros h Hw Hi%indexed_mem; [|done]. split; [rewrite indexed_time; by apply legacy_height|].
    unfold GetProcessedHeight, s1. rewrite (proj2 (proj1 (metadata_lookup self hs s heights_wf) h Hi)).
    by rewrite ParseHeight_String_eq.
  - intros h Hw Hc. apply indexed_mem; [done|]. apply Hhs. by rewrite indexed_consensus in Hc.
Qed.

Lemma indexed_cons_at h : cons_at s1 h = cons_at s h.
Proof. unfold cons_at. by rewrite indexed_consensus. Qed.
Lemma indexed_expired ctx cs h : expired_at ctx cs s1 h ↔ expired_at ctx cs s h.
Proof. unfold expired_at. by setoid_rewrite indexed_cons_at. Qed.
End indexing.

(** What the migration of a Tendermint client does: the keys of expired heights are gone,
    the other consensus states and their processed times are as before, with the migrating
    chain's height as their processed height, and no other key changes. *)
Record tm_migrated (ctx : Context) (self : Height) (cs : ClientState) (s s' : KVStore) : Prop := {
  tmm_wf : tm_wf s';
  tmm_gone h k : height_wf h → expired_at ctx cs s h → key_of h k → s' !! k = None;
  tmm_kept h c : height_wf h → cons_at s h = Some c → ¬ expired_at ctx cs s h →
    s' !! ConsensusStateKey h = s !! ConsensusStateKey h ∧ s' !! ProcessedTimeKey h = s !! ProcessedTimeKey h ∧
    s' !! ProcessedHeightKey h = Some (Height_String self);
  tmm_rest k : (∀ h, height_wf h → is_Some (cons_at s h) → ¬ key_of h k) → s' !! k = s !! k }.

Lemma add_metadata_loop ctx self hs s :
  GetSelfHeight ctx = Ok self →
  for_all (λ height,
    let! selfHeight := lift (GetSelfHeight ctx) in
    SetProcessedHeight height selfHeight ;;; SetIterationKey height) hs s = (foldl (add_metadata self) s hs, Ok tt).
Proof.
  intros Hself. revert s. induction hs as [|h hs IH]; intros s; [done|]. rewrite for_all_cons. cbn [foldl].
  rewrite (bind_run _ _ s (add_metadata self s h) tt); [apply IH|]. unfold bind at 1, lift. by rewrite Hself.
Qed.

Lemma legacy_consensus_keys s : legacy_tm s →
  ∀ k v, s !! k = Some v → HasPrefix k KeyConsensusStatePrefix = true → (length (Split k "/") = 2)%nat →
    ∃ h, height_wf h ∧ k = ConsensusStateKey h.
Proof. intros Hleg k v Hk Hp Hl. destruct (leg_cons _ Hleg k v Hk Hp Hl) as (h & ? & ? & _). eauto. Qed.

Lemma tendermint_migrated ctx self cs s :
  legacy_tm s → GetSelfHeight ctx = Ok self →
  ∃ s', (addConsensusMetadata ctx ;;; PruneAllExpiredConsensusStates ctx cs) s = (s', Ok tt) ∧ tm_migrated ctx self cs s s'.
Proof.
  intros Hleg Hself. destruct (heights_of_store s (legacy_consensus_keys s Hleg)) as (hs & Ehs & _ & Hhs).
  pose proof (heights_wf s hs Hhs) as Hall.
  pose proof (indexed_store_wf self s hs Hleg (GetSelfHeight_wf _ _ Hself) Hhs) as W.
  destruct (prune_all_run ctx cs _ W) as (s' & Hrun & W' & Hgone & Hkept).
  setoid_rewrite (indexed_expired self s hs Hhs) in Hgone. setoid_rewrite (indexed_expired self s hs Hhs) in Hkept.
  exists s'. split.
  { rewrite (bind_run _ _ s (foldl (add_metadata self) s hs) tt); [done|]. unfold addConsensusMetadata.
    rewrite (bind_run _ _ s s (PrefixIterator s KeyConsensusStatePrefix)) by done.
    rewrite (bind_run _ _ s s hs) by (unfold lift; by rewrite Ehs). by apply add_metadata_loop. }
  assert (Hother : ∀ h k, height_wf h → ¬ expired_at ctx cs s h → key_of h k →
    s' !! k = foldl (add_metadata self) s hs !! k).
  { intros h k Hw Hne Hk. apply Hkept. intros x Hx He Hkx. destruct (decide (x = h)) as [->|Hxh]; [done|].
    destruct Hk as [->|[->|[->| ->]]]; revert Hkx;
      [by apply other_height_cons|by apply other_height_time|by apply other_height_height|by apply other_height_iter]. }
  split; [done|done|..].
  - intros h c Hw Hc Hne. assert (h ∈ hs) as Hin.
    { apply Hhs. split; [done|]. unfold cons_at in Hc. destruct (s !! ConsensusStateKey h); [done|discriminate]. }
    rewrite !(Hother h) by (done || unfold key_of; tauto).
    rewrite (proj2 (proj1 (metadata_lookup self hs s Hall) h Hin)), indexed_consensus by done. split_and!; [done| |done].
    apply (metadata_lookup self hs s Hall). intros x _. eauto with tmkeys.
  - intros k Hk. rewrite Hkept.
    + apply (metadata_lookup self hs s Hall). intros h Hh. destruct (legacy_height s hs Hleg Hhs h Hh) as (Hw & Hc & _).
      specialize (Hk h Hw Hc). unfold key_of in Hk. tauto.
    + intros h Hw (c & Hc & _). by apply Hk.
Qed.
End tendermint.

Section migration.
Context {SE : SdkEncoding} {IC : Ics23} {TL : TendermintLib} {TC : TmCodec} {UT : UpgradeTypes} {SK : SoloCrypto}
  {SD : SoloCodec AnyClientState AnyConsensusState} {LD : LocalCodec AnyClientState} {LG : LegacyCodec}.
#[local] Existing Instance ibc_clients.
Context {CD : @Codec ibc_clients} {CK : CapabilityKeeper} {AP : Application}.

(** ** Solo machines *)

(** The old client state in a client's store, and its new form. *)
Definition legacy_solo_state (s : KVStore) : option v100.ClientState :=
  (s !! ClientStateKey ≫= Unmarshal_Any) ≫= legacy_Unmarshal_ClientState.
Definition new_solo (cl : v100.ClientState) (cons : v100.ConsensusState) : @Exported.ClientState ibc_clients :=
  SoloClient (solotypes.mkClientState (leg_Sequence cl) (negb (leg_FrozenSequence cl =? 0)%N)
    (Some (solotypes.mkConsensusState (leg_PublicKey cons) (leg_Diversifier cons) (leg_Timestamp cons)))
    (leg_AllowUpdateAfterProposal cl)).

Record legacy_solo (s : KVStore) (cl : v100.ClientState) (cons : v100.ConsensusState) : Prop := {
  legs_client : legacy_solo_state s = Some cl;
  legs_cons : leg_ConsensusState cl = Some cons;
  legs_keys k v : s !! k = Some v → HasPrefix k KeyConsensusStatePrefix = true → (length (Split k "/") = 2)%nat →
    ∃ h, height_wf h ∧ k = ConsensusStateKey h }.

Record solo_migrated (cl : v100.ClientState) (cons : v100.ConsensusState) (s s' : KVStore) : Prop := {
  som_client : s' !! ClientStateKey = Some (Marshal_ClientState (new_solo cl cons));
  som_cons h : height_wf h → s' !! ConsensusStateKey h = None;
  som_rest k : k ≠ ClientStateKey → (∀ h, height_wf h → k ≠ ConsensusStateKey h) → s' !! k = s !! k }.

Lemma delete_loop hs s :
  for_all (λ height, modify (store_Delete (ConsensusStateKey height))) hs s =
  (foldl (λ s h, delete (ConsensusStateKey h) s) s hs, Ok tt).
Proof.
  revert s. induction hs as [|h hs IH]; intros s; [done|]. rewrite for_all_cons. cbn [foldl].
  rewrite (bind_run _ _ s (delete (ConsensusStateKey h) s) tt); [apply IH|done].
Qed.

Lemma delete_lookup hs (s : KVStore) k :
  foldl (λ s h, delete (ConsensusStateKey h) s) s hs !! k =
  if decide (Exists (λ h, k = ConsensusStateKey h) hs) then None else s !! k.
Proof.
  revert s. induction hs as [|h hs IH]; intros s.
  { case_decide as H; [by apply Exists_nil in H|done]. }
  cbn [foldl]. rewrite IH, lookup_delete. repeat case_decide; rewrite ?Exists_cons in *; naive_solver.
Qed.

Lemma solo_done s cl cons bz :
  legacy_solo s cl cons → s !! ClientStateKey = Some bz →
  ∃ s', migrate_solo bz s = (s', Ok tt) ∧ solo_migrated cl cons s s'.
Proof.
  intros [Hcl Hcons Hkeys] Hbz. unfold legacy_solo_state in Hcl. rewrite Hbz in Hcl. cbn in Hcl.
  destruct (Unmarshal_Any bz) as [any|] eqn:Eany; [cbn in Hcl|done].
  set (s1 := <[ClientStateKey := Marshal_ClientState (new_solo cl cons)]> s).
  destruct (heights_of_store s1) as (hs & _ & Ehs & Hhs).
  { intros k v Hk Hp. unfold s1 in Hk. apply lookup_insert_Some in Hk as [[<- _]|[_ Hk]]; [done|by apply (Hkeys k v)]. }
  exists (foldl (λ s h, delete (ConsensusStateKey h) s) s1 hs). split.
  - unfold migrate_solo. rewrite Eany. rewrite (bind_run _ _ s s any) by done. rewrite Hcl.
    rewrite (bind_run _ _ s s cl) by done. unfold migrateSolomachine. rewrite Hcons.
    rewrite (bind_run _ _ s s _ eq_refl). rewrite (bind_run _ _ s s1 tt) by reflexivity.
    unfold pruneSolomachineConsensusStates.
    rewrite (bind_run _ _ s1 s1 (PrefixIterator s1 KeyConsensusStatePrefix)) by done.
    rewrite (bind_run _ _ s1 s1 hs) by (unfold lift; by rewrite Ehs). apply delete_loop.
  - split.
    + rewrite delete_lookup, decide_False; [by unfold s1; rewrite lookup_insert_eq|].
      intros (h & _ & E%client_cons_ne)%list.Exists_exists. done.
    + intros h Hw. rewrite delete_lookup. case_decide as Hn; [done|].
      destruct (s1 !! ConsensusStateKey h) eqn:E; [|done]. destruct Hn. apply list.Exists_exists. exists h.
      split; [by apply Hhs; rewrite E|done].
    + intros k Hk Hc. rewrite delete_lookup, decide_False; [unfold s1; by rewrite lookup_insert_ne|].
      intros (h & Hh & E)%list.Exists_exists. apply Hhs in Hh as [Hw _]. by apply (Hc h).
Qed.

(** ** One client *)

(** The store of a client before the migration, and what becomes of it, by the type in its
    identifier. *)
Definition legacy_client (c : string) (s : KVStore) : Prop :=
  ∃ typ n bz, ParseClientIdentifier c = Ok (typ, n) ∧ s !! ClientStateKey = Some bz ∧
    (typ = Solomachine → ∃ cl cons, legacy_solo s cl cons) ∧
    (typ = Tendermint → legacy_tm s ∧ ∃ cs, Unmarshal_ClientState bz = Some (TmClient cs : @Exported.ClientState ibc_clients)).

Definition migrated_client (ctx : Context) (self : Height) (c : string) (s s' : KVStore) : Prop :=
  (∀ n, ParseClientIdentifier c = Ok (Solomachine, n) → ∃ cl cons, legacy_solo s cl cons ∧ solo_migrated cl cons s s') ∧
  (∀ n, ParseClientIdentifier c = Ok (Tendermint, n) →
    ∃ cs, s !! ClientStateKey ≫= Unmarshal_ClientState = Some (TmClient cs : @Exported.ClientState ibc_clients) ∧
      tm_migrated ctx self cs s s') ∧
  (∀ typ n, ParseClientIdentifier c = Ok (typ, n) → typ ≠ Solomachine → typ ≠ Tendermint → s' = s).

Lemma zoom_client {A} c (m : ST KVStore A) w s' a :
  m (client_view c w) = (s', Ok a) → on_client_store c m w = (client_put c s' w, Ok a).
Proof. intros E. unfold on_client_store, zoom. by rewrite E. Qed.

Lemma client_put_view c w : client_put c (client_view c w) w = w.
Proof. unfold client_put, client_view. rewrite prefix_write_view. by destruct w. Qed.

Lemma migrate_client_run ctx self c w :
  GetSelfHeight ctx = Ok self → legacy_client c (client_view c w) →
  ∃ s', migrate_client ctx c w = (client_put c s' w, Ok tt) ∧ migrated_client ctx self c (client_view c w) s'.
Proof.
  intros Hself (typ & n & bz & Hp & Hbz & Hsolo & Htm). unfold migrate_client, migrated_client. rewrite Hp.
  rewrite (bind_run _ _ w w (typ, n)) by done. rewrite (bind_run _ _ w w (client_view c w)) by done.
  rewrite (bind_run _ _ w w bz) by (unfold store_Get, some_or; by rewrite Hbz).
  destruct (decide (typ = Solomachine)) as [->|Hns].
  { destruct (Hsolo eq_refl) as (cl & cons & Hleg). destruct (solo_done _ _ _ _ Hleg Hbz) as (s' & Hrun & Hm).
    exists s'. rewrite bool_decide_eq_true_2 by done. split; [by apply zoom_client|].
    split_and!; [eauto|intros; simplify_eq|intros; simplify_eq]. }
  rewrite bool_decide_eq_false_2 by done. destruct (decide (typ = Tendermint)) as [->|Hnt].
  { destruct (Htm eq_refl) as (Hleg & cs & Hcs).
    destruct (tendermint_migrated ctx self cs _ Hleg Hself) as (s' & Hrun & Hm).
    exists s'. rewrite bool_decide_eq_true_2 by done. split.
    - apply zoom_client. unfold migrate_tendermint. rewrite Hcs. exact Hrun.
    - rewrite Hbz. split_and!; [intros; simplify_eq|eauto|intros; simplify_eq]. }
  exists (client_view c w). rewrite bool_decide_eq_false_2 by done. rewrite client_put_view.
  split_and!; [done|intros; simplify_eq..|done].
Qed.

(** ** All clients *)

Lemma client_put_other c c' s w :
  no_char "/" c = true → no_char "/" c' = true → c ≠ c' → client_view c' (client_put c s w) = client_view c' w.
Proof.
  intros Hc Hc' Hne. unfold client_view, client_put. apply map_eq. intros k. rewrite !prefix_view_lookup. simpl.
  apply prefix_write_out. destruct (HasPrefix _ _) eqn:E; [|done]. by apply client_prefix_disjoint in E.
Qed.

Lemma migrate_loop ctx self cs w :
  GetSelfHeight ctx = Ok self → NoDup cs →
  (∀ c, c ∈ cs → no_char "/" c = true ∧ legacy_client c (client_view c w)) →
  ∃ w', for_all (migrate_client ctx) cs w = (w', Ok tt) ∧ w' = set_ibc (ibc w') w ∧
    (∀ c, c ∈ cs → migrated_client ctx self c (client_view c w) (client_view c w')) ∧
    (∀ k, (∀ c, c ∈ cs → HasPrefix k (client_prefix c) = false) → ibc w' !! k = ibc w !! k).
Proof.
  intros Hself. revert w. induction cs as [|c cs IH]; intros w Hnd Hcs.
  { exists w. split_and!; [done|by destruct w|by intros c ?%elem_of_nil|done]. }
  apply list.NoDup_cons in Hnd as [Hnin Hnd]. destruct (Hcs c) as [Hc Hleg]; [by left|].
  destruct (migrate_client_run ctx self c w Hself Hleg) as (s' & Hrun & Hm).
  assert (Hother : ∀ x, x ∈ cs → client_view x (client_put c s' w) = client_view x w).
  { intros x Hx. apply client_put_other; [done|apply Hcs; by right|]. intros ->. done. }
  destruct (IH (client_put c s' w) Hnd) as (w' & Hloop & Ew & Hpost & Hrest).
  { intros x Hx. rewrite Hother by done. apply Hcs. by right. }
  exists w'. split_and!.
  - rewrite for_all_cons. by rewrite (bind_run _ _ w (client_put c s' w) tt).
  - rewrite Ew at 1. by destruct w.
  - intros x [->|Hx]%elem_of_cons; [|rewrite <- (Hother x Hx); by apply Hpost].
    assert (client_view c w' = s') as ->; [|done]. apply map_eq. intros k. unfold client_view at 1.
    rewrite prefix_view_lookup, Hrest; [simpl; by rewrite prefix_write_in|].
    intros y Hy. destruct (HasPrefix _ _) eqn:E; [|done].
    apply client_prefix_disjoint in E as ->; [done|apply Hcs; by right|done].
  - intros k Hk. rewrite Hrest by (intros x Hx; apply Hk; by right). simpl. apply prefix_write_out, Hk. by left.
Qed.

Lemma Split_client_state c :
  no_char "/" c = true → Split (FullClientStateKey c) "/" = [KeyClientStorePrefix; c; KeyClientState].
Proof. intros Hc. apply (Split_render (KClient c KeyClientState)). simpl. by rewrite Hc. Qed.

Lemma FullClientStateKey_inj c c' :
  no_char "/" c = true → no_char "/" c' = true → FullClientStateKey c = FullClientStateKey c' → c = c'.
Proof.
  intros Hc Hc' E. assert (Split (FullClientStateKey c) "/" = Split (FullClientStateKey c') "/") as H by (by rewrite E).
  rewrite !Split_client_state in H by done. congruence.
Qed.

Lemma clients_collected l :
  NoDup l.*1 →
  (∀ k v, (k, v) ∈ l → list.last (Split k "/") = Some KeyClientState → ∃ c, k = FullClientStateKey c ∧ no_char "/" c = true) →
  ∃ cs, collect_clients l = Ok cs ∧ NoDup cs ∧ ∀ c, c ∈ cs ↔ no_char "/" c = true ∧ ∃ v, (FullClientStateKey c, v) ∈ l.
Proof.
  induction l as [|[k v] l IH]; intros Hnd Hl.
  { exists []. split_and!; [done|constructor|]. intros c. split; [by intros ?%elem_of_nil|]. by intros (_ & v & ?%elem_of_nil). }
  cbn in Hnd. apply list.NoDup_cons in Hnd as [Hk Hnd].
  destruct IH as (cs & Ecs & Hncs & Hmem); [done|intros k' v' Hin; eapply Hl; by right|]. cbn [collect_clients].
  destruct (decide (list.last (Split k "/") = Some KeyClientState)) as [Hlast|Hlast].
  - destruct (Hl k v) as (c & -> & Hc); [by left|done|]. exists (c :: cs).
    rewrite bool_decide_eq_false_2 by (intros Hn; by apply Hn). rewrite Split_client_state by done. simpl. rewrite Ecs.
    split_and!; [done| |].
    + constructor; [|done]. intros (_ & u & Hu)%Hmem. apply Hk, list_elem_of_fmap. by exists (FullClientStateKey c, u).
    + intros x. rewrite elem_of_cons, Hmem. split.
      * intros [->|(Hx & u & Hu)]; [split; [done|]; exists v; by left|]. split; [done|]. exists u. by right.
      * intros (Hx & u & [[E _]%pair_equal_spec|Hu]%elem_of_cons); [left; by apply FullClientStateKey_inj|right; eauto].
  - exists cs. rewrite bool_decide_eq_true_2 by done. split_and!; [done..|]. intros x. rewrite Hmem.
    split; intros (Hx & u & Hu); (split; [done|]); exists u; [by right|].
    apply elem_of_cons in Hu as [[E _]%pair_equal_spec|Hu]; [|done]. subst k. by rewrite Split_client_state in Hlast.
Qed.

(** A store of SDK v0.40: what ends in "clientState" below "clients" is the client state of
    a client whose store is as that version left it. *)
Definition legacy_world (w : World) : Prop :=
  ∀ k v, ibc w !! k = Some v → HasPrefix k KeyClientStorePrefix = true → list.last (Split k "/") = Some KeyClientState →
    ∃ c, k = FullClientStateKey c ∧ no_char "/" c = true ∧ legacy_client c (client_view c w).

Lemma client_state_prefix c : HasPrefix (FullClientStateKey c) KeyClientStorePrefix = true.
Proof. unfold FullClientStateKey, FullClientKey, FullClientPath. apply HasPrefix_app. Qed.

Lemma migrate_collects w : legacy_world w →
  ∃ cs, collect_clients (PrefixIterator (ibc w) KeyClientStorePrefix) = Ok cs ∧ NoDup cs ∧
    ∀ c, c ∈ cs ↔ no_char "/" c = true ∧ is_Some (ibc w !! FullClientStateKey c).
Proof.
  intros Hw. destruct (clients_collected (PrefixIterator (ibc w) KeyClientStorePrefix)) as (cs & E & Hnd & Hmem).
  - apply PrefixIterator_keys.
  - intros k v [Hp Hk%elem_of_entries]%list_elem_of_filter Hl. destruct (Hw k v Hk Hp Hl) as (c & ? & ? & _). eauto.
  - exists cs. split_and!; [done..|]. intros c. rewrite Hmem. unfold PrefixIterator, is_Some.
    setoid_rewrite list_elem_of_filter. setoid_rewrite elem_of_entries. pose proof (client_state_prefix c). naive_solver.
Qed.

(** What becomes of the whole store. *)
Lemma migrate_store_run ctx self w :
  GetSelfHeight ctx = Ok self → legacy_world w →
  ∃ w', Migrate1to2 ctx w = (w', Ok tt) ∧ w' = set_ibc (ibc w') w ∧
    (∀ c, no_char "/" c = true → is_Some (ibc w !! FullClientStateKey c) →
      migrated_client ctx self c (client_view c w) (client_view c w')) ∧
    (∀ k, (∀ c, no_char "/" c = true → is_Some (ibc w !! FullClientStateKey c) → HasPrefix k (client_prefix c) = false) →
      ibc w' !! k = ibc w !! k).
Proof.
  intros Hself Hw. destruct (migrate_collects w Hw) as (cs & Ecs & Hnd & Hmem).
  destruct (migrate_loop ctx self cs w Hself Hnd) as (w' & Hrun & Ew & Hpost & Hrest).
  { intros c [Hc [v Hv]]%Hmem. split; [done|]. destruct (Hw _ v Hv (client_state_prefix c)) as (x & Ex & Hx & Hleg).
    - by rewrite Split_client_state.
    - by apply FullClientStateKey_inj in Ex as ->. }
  exists w'. split_and!; [|done|..].
  - unfold Migrate1to2, client_Migrate1to2, MigrateStore.
    rewrite (bind_run _ _ w w (PrefixIterator (ibc w) KeyClientStorePrefix)) by done.
    by rewrite (bind_run _ _ w w cs) by (unfold lift; by rewrite Ecs).
  - intros c Hc Hs. apply Hpost, Hmem. done.
  - intros k Hk. apply Hrest. intros c [Hc Hs]%Hmem. by apply Hk.
Qed.

(** C29: [Migrate1to2] on a store of SDK v0.40 succeeds. Every solo machine has the new
    client state, with the old key, diversifier, timestamp and sequence, frozen exactly
    when its frozen sequence was set, and no consensus states. Every Tendermint client has
    a well-formed index: exactly the expired consensus states are gone, with all their
    keys, and the others are unchanged, with the migrating height as their processed
    height. Clients of other types, and every key outside the clients' stores, are
    untouched. *)
Theorem migrate_store_spec ctx self w :
  GetSelfHeight ctx = Ok self → legacy_world w →
  ∃ w', Migrate1to2 ctx w = (w', Ok tt) ∧ w' = set_ibc (ibc w') w ∧
    (∀ c, no_char "/" c = true → is_Some (ibc w !! FullClientStateKey c) →
      migrated_client ctx self c (client_view c w) (client_view c w')) ∧
    (∀ k, (∀ c, no_char "/" c = true → is_Some (ibc w !! FullClientStateKey c) → HasPrefix k (client_prefix c) = false) →
      ibc w' !! k = ibc w !! k).
Proof. apply migrate_store_run. Qed.

(** A localhost client has no sequence in its identifier, so the store of a chain that has
    one cannot be migrated: the error precedes the case that would skip it. *)
Lemma localhost_not_migrated ctx w : (migrate_client ctx Localhost w).2 = Err (Wrap HostErr.ErrInvalidID).
Proof. reflexivity. Qed.
End migration.
