(* ===== verification/MigrationGenesis.v ===== *)
(** * The two migrations agree

    A chain moves to ibc-go 1.0 either by migrating its store in place or by migrating an
    exported genesis state and importing it. The entries that importing the migrated
    genesis state writes for the clients are those of the migrated store. *)
From S2P Require Import Prelude GoMonad Errors Sha256 Height Host Sdk ConnectionTypes.
From S2P Require Import ChannelTypes.
From S2P Require Import Exported ClientKeeper ChannelSpec Commitment TendermintTypes Iteration.
From S2P Require Import TendermintStore TendermintClient TendermintIndex TendermintUpdate.
From S2P Require Import Solomachine Localhost Clients ClientTypes CoreGenesis.
From S2P Require Import CoreGenesisProperties.
From S2P Require Import Migrations MigrationProperties.
From Stdlib Require Import Ascii.
Import v100.

Section genesis.
Context {SE : SdkEncoding} {IC : Ics23} {TL : TendermintLib} {TC : TmCodec} {UT : UpgradeTypes} {SK : SoloCrypto}
  {SD : SoloCodec AnyClientState AnyConsensusState} {LD : LocalCodec AnyClientState} {LG : LegacyCodec}.
#[local] Existing Instance ibc_clients.
Context {CD : @Codec ibc_clients} {CK : CapabilityKeeper} {AP : Application}.
Import tmstore.

(** ** What a genesis state records of a client *)
Definition states_of (c : string) (l : list ClientConsensusStates) : list ConsensusStateWithHeight :=
  l ≫= λ x, if bool_decide (Consensus_ClientId x = c) then Consensus_States x else [].
Definition metadata_in (c : string) (l : list IdentifiedGenesisMetadata) : list GenesisMetadata :=
  l ≫= λ x, if bool_decide (Metadata_ClientId x = c) then ClientMetadata x else [].

(** A Tendermint client with store [s]: its client state, its consensus states and their
    processed times, and nothing else but its connections. *)
Record tm_recorded (g : GenesisState) (ic : IdentifiedClientState) (s : KVStore) (cs : ibctmtypes.ClientState) : Prop := {
  tmr_any : Identified_ClientState ic = Some (Any_ClientState (TmClient cs : @Exported.ClientState ibc_clients));
  tmr_client : s !! ClientStateKey = Some (Marshal_ClientState (TmClient cs : @Exported.ClientState ibc_clients));
  tmr_decoded : s !! ClientStateKey ≫= Unmarshal_ClientState = Some (TmClient cs : @Exported.ClientState ibc_clients);
  tmr_state st : st ∈ states_of (Identified_ClientId ic) (ClientsConsensus g) →
    height_wf (WithHeight_Height st) ∧ ∃ c : ibctmtypes.ConsensusState,
      WithHeight_ConsensusState st = Some (Any_ConsensusState (TmConsensus c : @Exported.ConsensusState ibc_clients)) ∧
      s !! ConsensusStateKey (WithHeight_Height st) = Some (Marshal_ConsensusState (TmConsensus c : @Exported.ConsensusState ibc_clients)) ∧
      cons_at s (WithHeight_Height st) = Some c;
  tmr_states h : height_wf h → is_Some (s !! ConsensusStateKey h) →
    ∃ st, st ∈ states_of (Identified_ClientId ic) (ClientsConsensus g) ∧ WithHeight_Height st = h;
  tmr_metadata md : md ∈ metadata_in (Identified_ClientId ic) (ClientsMetadata g) → s !! Metadata_Key md = Some (Metadata_Value md);
  tmr_times h v : height_wf h → s !! ProcessedTimeKey h = Some v →
    NewGenesisMetadata (ProcessedTimeKey h) v ∈ metadata_in (Identified_ClientId ic) (ClientsMetadata g);
  tmr_keys k v : s !! k = Some v → k = ClientStateKey ∨ k = KeyConnectionPrefix ∨
    ∃ h, height_wf h ∧ is_Some (s !! ConsensusStateKey h) ∧ (k = ConsensusStateKey h ∨ k = ProcessedTimeKey h) }.

(** A solo machine: the bytes of its old client state. *)
Record solo_recorded (ic : IdentifiedClientState) (s : KVStore) : Prop := {
  sor_any : ∃ any, Identified_ClientState ic = Some any ∧
    legacy_Unmarshal_ClientState (Any_Value any) = legacy_solo_state s;
  sor_keys k v : s !! k = Some v → k = ClientStateKey ∨ k = KeyConnectionPrefix ∨ ∃ h, height_wf h ∧ k = ConsensusStateKey h }.

(** ** The consensus states *)
Definition live (cs : ibctmtypes.ClientState) (t : Z) (st : ConsensusStateWithHeight) : bool :=
  match WithHeight_ConsensusState st with
  | Some (Any_ConsensusState (TmConsensus c)) => negb (ibctmtypes.IsExpired cs (ibctmtypes.Timestamp c) t)
  | _ => false
  end.
Definition is_tm_state (st : ConsensusStateWithHeight) : Prop :=
  ∃ c : ibctmtypes.ConsensusState,
    WithHeight_ConsensusState st = Some (Any_ConsensusState (TmConsensus c : @Exported.ConsensusState ibc_clients)).

Lemma unexpired_run cs t l : Forall is_tm_state l → unexpired cs t l = Ok (filter (live cs t) l).
Proof.
  induction 1 as [|st l [c Hst] Hl IH]; [done|]. cbn [unexpired]. rewrite filter_cons.
  assert (live cs t st = negb (ibctmtypes.IsExpired cs (ibctmtypes.Timestamp c) t)) as Hlive by (unfold live; by rewrite Hst).
  rewrite Hst, IH. cbn. destruct (ibctmtypes.IsExpired _ _ _); simpl in Hlive;
    case_decide as Hd; rewrite Hlive in Hd; done.
Qed.

(** The entries of one height. *)
Definition height_metadata (self h : Height) (v : string) : list (string * string) :=
  [(ProcessedHeightKey h, Height_String self); (ProcessedTimeKey h, v); (IterationKey h, ConsensusStateKey h)].

Lemma metadata_equal k v k' v' : NewGenesisMetadata k v = NewGenesisMetadata k' v' ↔ k = k' ∧ v = v'.
Proof. split; [by intros [= -> ->]|by intros [-> ->]]. Qed.

Lemma elem_of_metadata_for self c all states md :
  md ∈ metadata_for self c all states ↔
  ∃ st x, st ∈ states ∧ x ∈ metadata_in c all ∧ Metadata_Key x = ProcessedTimeKey (WithHeight_Height st) ∧
    (Metadata_Key md, Metadata_Value md) ∈ height_metadata self (WithHeight_Height st) (Metadata_Value x).
Proof.
  assert (Hof : ∀ h l, md ∈ metadata_of self h l ↔ ∃ x, x ∈ l ∧ Metadata_Key x = ProcessedTimeKey h ∧
    (Metadata_Key md, Metadata_Value md) ∈ height_metadata self h (Metadata_Value x)).
  { intros h l. unfold metadata_of. rewrite list_elem_of_bind. apply exist_proper. intros x. case_bool_decide as E.
    - unfold height_metadata. rewrite !elem_of_cons, !pair_equal_spec. destruct md as [k v], x as [k' v']. simpl in *.
      subst k'. rewrite !metadata_equal, !elem_of_nil. tauto.
    - rewrite elem_of_nil. naive_solver. }
  unfold metadata_for, metadata_in. rewrite list_elem_of_bind. setoid_rewrite list_elem_of_bind. split.
  - intros (st & (igm & Hmd & Higm) & Hst). case_bool_decide; [|by apply elem_of_nil in Hmd].
    apply Hof in Hmd as (x & Hx & Hk & He). exists st, x. split_and!; [done| |done|done]. exists igm.
    by rewrite bool_decide_eq_true_2.
  - intros (st & x & Hst & (igm & Hx & Higm) & Hk & He). case_bool_decide as E; [|by apply elem_of_nil in Hx].
    exists st. split; [|done]. exists igm. split; [|done]. rewrite bool_decide_eq_true_2 by done. apply Hof. eauto.
Qed.

(** The part of a genesis state that one client makes. *)
Lemma states_of_cons c x l :
  states_of c (x :: l) = (if bool_decide (Consensus_ClientId x = c) then Consensus_States x else []) ++ states_of c l.
Proof. done. Qed.

Lemma add_grouped c (states : list ConsensusStateWithHeight) r :
  grouped (if bool_decide (length states ≠ 0%nat) then NewClientConsensusStates c states :: r else r) =
  ((c,.) <$> states) ++ grouped r.
Proof. case_bool_decide as E; [done|]. destruct states; [done|discriminate E]. Qed.
Lemma add_metadata_entries c (md : list GenesisMetadata) r :
  (if bool_decide (length md ≠ 0%nat) then NewIdentifiedGenesisMetadata c md :: r else r) ≫= metadata_entries =
  ((λ x, (FullClientKey c (Metadata_Key x), Metadata_Value x)) <$> md) ++ (r ≫= metadata_entries).
Proof. case_bool_decide as E; [done|]. destruct md; [done|discriminate E]. Qed.

Lemma migrate_consensus_run g t self ic cs l :
  Identified_ClientState ic = Some (Any_ClientState (TmClient cs : @Exported.ClientState ibc_clients)) →
  let c := Identified_ClientId ic in
  Forall is_tm_state (states_of c l) →
  ∃ cons mds, migrate_consensus g t self ic Tendermint l = Ok (cons, mds) ∧
    grouped cons = (c,.) <$> filter (live cs t) (states_of c l) ∧
    mds ≫= metadata_entries = (λ x, (FullClientKey c (Metadata_Key x), Metadata_Value x)) <$>
      metadata_for self c (ClientsMetadata g) (filter (live cs t) (states_of c l)).
Proof.
  intros Hany c. induction l as [|x l IH]; intros Hall; [by exists [], []|]. rewrite states_of_cons in *.
  apply list.Forall_app in Hall as [Hx Hl]. destruct (IH Hl) as (cons & mds & Hrun & Hcons & Hmds).
  cbn [migrate_consensus]. fold c. case_bool_decide as E.
  - rewrite bool_decide_eq_true_2 by done. cbn [andb]. rewrite Hany. cbn [tm_of_any outcome_bind].
    rewrite unexpired_run by done. cbn [outcome_bind]. rewrite Hrun. cbn [outcome_bind]. eexists _, _. split; [done|].
    rewrite add_grouped, add_metadata_entries, Hcons, Hmds, list.filter_app, fmap_app. split; [done|].
    unfold metadata_for. by rewrite bind_app, fmap_app.
  - cbn [andb app]. eauto.
Qed.

Lemma solo_consensus_run g t self ic l : migrate_consensus g t self ic Solomachine l = Ok ([], []).
Proof. induction l as [|x l IH]; [done|]. cbn [migrate_consensus]. by rewrite andb_false_r. Qed.

(** The entries a migrated client makes. *)
Definition client_part (m : migrated) : list (string * string) :=
  (mig_metadata m ≫= metadata_entries) ++ identified_entry (mig_client m) ::
  (consensus_entry <$> grouped (mig_consensus m)).
Definition entries_of (c : string) (s : KVStore) (l : list (string * string)) : Prop :=
  ∀ k v, (k, v) ∈ l ↔ ∃ p, k = FullClientKey c p ∧ p ≠ KeyConnectionPrefix ∧ s !! p = Some v.

Lemma identified_known c cs :
  identified_entry (mkIdentifiedClientState c (Some (Any_ClientState cs))) = (FullClientKey c ClientStateKey, Marshal_ClientState cs).
Proof. done. Qed.

Lemma key_of_client h : ¬ key_of h ClientStateKey.
Proof. unfold key_of. intros [E|[E|[E|E]]]; revert E; by auto with tmkeys. Qed.

(** *** Tendermint *)
Section tendermint.
Context (ctx : Context) (self : Height) (g : GenesisState) (ic : IdentifiedClientState) (cs : ibctmtypes.ClientState) (s s' : KVStore).
Hypothesis (Hrec : tm_recorded g ic s cs) (Hleg : legacy_tm s) (Hmig : tm_migrated ctx self cs s s').
Let states := states_of (Identified_ClientId ic) (ClientsConsensus g).

Lemma live_recorded st : st ∈ states → live cs (BlockTime ctx) st = true ↔ ¬ expired_at ctx cs s (WithHeight_Height st).
Proof.
  intros (_ & c & Hst & _ & Hc)%(tmr_state _ _ _ _ Hrec). unfold live, expired_at. rewrite Hst, negb_true_iff. split.
  - intros E (c' & Hc' & E'). congruence.
  - intros Hn. apply not_true_is_false. eauto.
Qed.

(** The keys of a live height, with their values. *)
Lemma live_keys st : st ∈ states → live cs (BlockTime ctx) st = true →
  let h := WithHeight_Height st in
  height_wf h ∧ (∃ c : ibctmtypes.ConsensusState,
    WithHeight_ConsensusState st = Some (Any_ConsensusState (TmConsensus c : @Exported.ConsensusState ibc_clients)) ∧
    s' !! ConsensusStateKey h = Some (Marshal_ConsensusState (TmConsensus c : @Exported.ConsensusState ibc_clients))) ∧
  (∃ v, s' !! ProcessedTimeKey h = Some v ∧ s !! ProcessedTimeKey h = Some v) ∧
  s' !! ProcessedHeightKey h = Some (Height_String self) ∧ s' !! IterationKey h = Some (ConsensusStateKey h).
Proof.
  intros Hin Hlive h. apply live_recorded in Hlive; [|done].
  destruct (tmr_state _ _ _ _ Hrec st Hin) as (Hw & c & Hst & Hv & Hc).
  destruct (tmm_kept _ _ _ _ _ Hmig _ c Hw Hc Hlive) as (H1 & H2 & H3). fold h in Hw, Hv, H1, H2, H3 |- *.
  assert (is_Some (s !! ProcessedTimeKey h)) as [v Ht].
  { destruct (leg_cons _ Hleg _ _ Hv (consensus_prefix h)) as (x & _ & Ex & _ & Ht); [by rewrite Split_consensus_key|].
    apply ConsensusStateKey_inj in Ex as <-. unfold GetProcessedTime in Ht. by apply fmap_is_Some in Ht. }
  split_and!; [done| | |done|].
  - exists c. split; [done|]. by rewrite H1.
  - exists v. by rewrite H2.
  - apply (wf_index _ (tmm_wf _ _ _ _ _ Hmig)); [done|]. by rewrite H1, Hv.
Qed.

Lemma tm_consensus_entries k v :
  (k, v) ∈ consensus_entry <$> ((Identified_ClientId ic,.) <$> filter (live cs (BlockTime ctx)) states) ↔
  ∃ st, st ∈ states ∧ live cs (BlockTime ctx) st = true ∧
    k = FullClientKey (Identified_ClientId ic) (ConsensusStateKey (WithHeight_Height st)) ∧
    s' !! ConsensusStateKey (WithHeight_Height st) = Some v.
Proof.
  rewrite <- list_fmap_compose, list_elem_of_fmap. apply exist_proper. intros st.
  rewrite list_elem_of_filter, Is_true_true. unfold compose, consensus_entry. cbn [fst snd].
  change (FullConsensusStateKey ?c ?h) with (FullClientKey c (ConsensusStateKey h)). rewrite pair_equal_spec. split.
  - intros ([-> ->] & Hl & Hin). destruct (live_keys st Hin Hl) as (_ & (c & Hst & Hv) & _). rewrite Hst. naive_solver.
  - intros (Hin & Hl & -> & Hv). destruct (live_keys st Hin Hl) as (_ & (c & Hst & Hv') & _). rewrite Hst.
    split_and!; [done| |done|done]. rewrite Hv in Hv'. by injection Hv'.
Qed.

Lemma tm_metadata_entries k v :
  (k, v) ∈ (λ x, (FullClientKey (Identified_ClientId ic) (Metadata_Key x), Metadata_Value x)) <$>
    metadata_for self (Identified_ClientId ic) (ClientsMetadata g) (filter (live cs (BlockTime ctx)) states) ↔
  ∃ st p, st ∈ states ∧ live cs (BlockTime ctx) st = true ∧ k = FullClientKey (Identified_ClientId ic) p ∧
    let h := WithHeight_Height st in
    (p = ProcessedHeightKey h ∨ p = ProcessedTimeKey h ∨ p = IterationKey h) ∧ s' !! p = Some v.
Proof.
  rewrite list_elem_of_fmap. setoid_rewrite elem_of_metadata_for. setoid_rewrite list_elem_of_filter.
  setoid_rewrite Is_true_true. unfold height_metadata. setoid_rewrite elem_of_cons. setoid_rewrite elem_of_cons.
  setoid_rewrite elem_of_cons. setoid_rewrite elem_of_nil. setoid_rewrite pair_equal_spec. split.
  - intros ([p v'] & [-> ->] & st & x & [Hl Hin] & Hx & Hk & He). cbn [Metadata_Key Metadata_Value] in *. exists st, p.
    destruct (live_keys st Hin Hl) as (_ & _ & (u & Hu' & Hu) & Hh & Hi).
    apply (tmr_metadata _ _ _ _ Hrec) in Hx. rewrite Hk, Hu in Hx. injection Hx as Ex. rewrite <- Ex in He. naive_solver.
  - intros (st & p & Hin & Hl & -> & Hp & Hv). destruct (live_keys st Hin Hl) as (Hw & _ & (u & Hu' & Hu) & Hh & Hi).
    exists (NewGenesisMetadata p v). split; [done|]. exists st, (NewGenesisMetadata (ProcessedTimeKey (WithHeight_Height st)) u).
    split_and!; [done|done|by apply (tmr_times _ _ _ _ Hrec)|done|]. cbn [Metadata_Key Metadata_Value].
    destruct Hp as [->|[->| ->]]; rewrite Hv in *; naive_solver.
Qed.

(** Every other key that is left. *)
Lemma tm_other_keys p v :
  s' !! p = Some v → p ≠ KeyConnectionPrefix →
  (∀ st, st ∈ states → live cs (BlockTime ctx) st = true → ¬ key_of (WithHeight_Height st) p) → p = ClientStateKey.
Proof.
  intros Hv Hne Hno.
  assert (Hkey : ∀ h, height_wf h → is_Some (s !! ConsensusStateKey h) → ¬ key_of h p).
  { intros h Hw Hs Hk. destruct (tmr_states _ _ _ _ Hrec h Hw Hs) as (st & Hin & <-).
    destruct (live cs (BlockTime ctx) st) eqn:El; [by apply (Hno st)|].
    destruct (decide (expired_at ctx cs s (WithHeight_Height st))) as [He|He]; [|apply (live_recorded st Hin) in He; congruence].
    by rewrite (tmm_gone _ _ _ _ _ Hmig _ _ Hw He Hk) in Hv. }
  rewrite (tmm_rest _ _ _ _ _ Hmig) in Hv.
  - apply (tmr_keys _ _ _ _ Hrec) in Hv as [?|[?|(h & Hw & Hs & Hp)]]; [done|done|]. destruct (Hkey h Hw Hs).
    unfold key_of. tauto.
  - intros h Hw [c Hc]. apply Hkey; [done|]. unfold cons_at in Hc. destruct (s !! ConsensusStateKey h); [done|discriminate].
Qed.

Lemma tm_client_agrees n :
  ParseClientIdentifier (Identified_ClientId ic) = Ok (Tendermint, n) →
  ∃ m, migrate_genesis_client g (BlockTime ctx) self ic = Ok m ∧ entries_of (Identified_ClientId ic) s' (client_part m).
Proof.
  intros Hp. destruct (migrate_consensus_run g (BlockTime ctx) self ic cs (ClientsConsensus g)) as (cons & mds & Hrun & Hcons & Hmds).
  { apply (tmr_any _ _ _ _ Hrec). }
  { apply list.Forall_forall. intros st (_ & c & Hst & _)%(tmr_state _ _ _ _ Hrec). by exists c. }
  fold states in Hcons, Hmds. exists (mkMigrated ic cons mds). split.
  { unfold migrate_genesis_client. rewrite Hp. cbn [outcome_bind]. rewrite bool_decide_eq_false_2 by done.
    cbn [outcome_bind]. by rewrite Hrun. }
  intros k v. unfold client_part. cbn [mig_client mig_consensus mig_metadata].
  rewrite elem_of_app, elem_of_cons, Hcons, Hmds, tm_metadata_entries, tm_consensus_entries.
  assert (identified_entry ic = (FullClientKey (Identified_ClientId ic) ClientStateKey,
    Marshal_ClientState (TmClient cs : @Exported.ClientState ibc_clients))) as ->.
  { unfold identified_entry. by rewrite (tmr_any _ _ _ _ Hrec). }
  assert (s' !! ClientStateKey = Some (Marshal_ClientState (TmClient cs : @Exported.ClientState ibc_clients))) as Hcl.
  { rewrite (tmm_rest _ _ _ _ _ Hmig); [by apply (tmr_client _ _ _ _ Hrec)|]. intros h _ _. apply key_of_client. }
  rewrite pair_equal_spec. split.
  - intros [(st & p & Hin & Hl & -> & Hp' & Hv)|[[-> ->]|(st & Hin & Hl & -> & Hv)]].
    + exists p. split_and!; [done| |done]. by destruct Hp' as [->|[->| ->]].
    + by exists ClientStateKey.
    + eexists. split_and!; [done| |done]. done.
  - intros (p & -> & Hne & Hv).
    destruct (decide (Exists (λ st, live cs (BlockTime ctx) st = true ∧ key_of (WithHeight_Height st) p) states))
      as [(st & Hin & Hl & Hk)%list.Exists_exists|Hno].
    + destruct Hk as [->|Hk]; [right; right; eauto 6|left]. exists st, p. split_and!; try done. naive_solver.
    + right. left. assert (p = ClientStateKey) as ->; [|split; [done|congruence]].
      eapply tm_other_keys; [done..|]. intros st Hin Hl Hk. apply Hno, list.Exists_exists. eauto.
Qed.
End tendermint.

(** *** Solo machines *)
Lemma solo_client_agrees g t self ic s s' n cl cons :
  solo_recorded ic s → legacy_solo s cl cons → solo_migrated cl cons s s' →
  ParseClientIdentifier (Identified_ClientId ic) = Ok (Solomachine, n) →
  ∃ m, migrate_genesis_client g t self ic = Ok m ∧ entries_of (Identified_ClientId ic) s' (client_part m).
Proof.
  intros [(any & Hany & Hbytes) Hkeys] [Hcl Hcons _] [Hs' Hno Hrest] Hp.
  exists (mkMigrated (mkIdentifiedClientState (Identified_ClientId ic) (Some (Any_ClientState (new_solo cl cons)))) [] []).
  split.
  { unfold migrate_genesis_client. rewrite Hp. cbn [outcome_bind]. rewrite bool_decide_eq_true_2 by done.
    rewrite Hany. cbn [must_some outcome_bind]. rewrite Hbytes, Hcl. unfold migrateSolomachine. rewrite Hcons.
    cbn [must_some outcome_bind PackClientState]. by rewrite solo_consensus_run. }
  intros k v. unfold client_part. cbn [mig_client mig_consensus mig_metadata]. rewrite identified_known.
  change (([] ≫= metadata_entries) ++ ?x :: (consensus_entry <$> grouped [])) with [x].
  rewrite list_elem_of_singleton, pair_equal_spec. split.
  - intros [-> ->]. by exists ClientStateKey.
  - intros (p & -> & Hne & Hv). destruct (decide (p = ClientStateKey)) as [->|Hpc]; [split; [done|congruence]|exfalso].
    assert (Hpk : ∀ h, height_wf h → p ≠ ConsensusStateKey h) by (intros h Hw ->; by rewrite Hno in Hv).
    rewrite Hrest in Hv by done. apply Hkeys in Hv as [?|[?|(h & Hw & ?)]]; [done..|by apply (Hpk h)].
Qed.

(** ** The whole genesis state *)

Lemma FullClientKey_inj c c' p p' :
  no_char "/" c = true → no_char "/" c' = true → FullClientKey c p = FullClientKey c' p' → c = c' ∧ p = p'.
Proof.
  intros Hc Hc' E. rewrite !FullClientKey_prefix in E. assert (c' = c) as ->.
  { apply (client_prefix_disjoint c' c p); [done..|]. rewrite E. apply HasPrefix_app. }
  by apply app_inj_l in E.
Qed.

(** The genesis state [g] records the clients of [w], all of one of the two types. *)
Record genesis_of (w : World) (g : GenesisState) : Prop := {
  gen_client ic : ic ∈ Genesis_Clients g →
    let c := Identified_ClientId ic in
    no_char "/" c = true ∧ is_Some (ibc w !! FullClientStateKey c) ∧
    ((∃ n cs, ParseClientIdentifier c = Ok (Tendermint, n) ∧ tm_recorded g ic (client_view c w) cs) ∨
     (∃ n, ParseClientIdentifier c = Ok (Solomachine, n) ∧ solo_recorded ic (client_view c w)));
  gen_all c p : no_char "/" c = true → p ≠ KeyConnectionPrefix → is_Some (ibc w !! FullClientKey c p) →
    ∃ ic, ic ∈ Genesis_Clients g ∧ Identified_ClientId ic = c }.

Lemma client_agrees ctx self g w w' ic :
  legacy_world w → genesis_of w g → ic ∈ Genesis_Clients g →
  (∀ c, no_char "/" c = true → is_Some (ibc w !! FullClientStateKey c) →
     migrated_client ctx self c (client_view c w) (client_view c w')) →
  ∃ m, migrate_genesis_client g (BlockTime ctx) self ic = Ok m ∧
    entries_of (Identified_ClientId ic) (client_view (Identified_ClientId ic) w') (client_part m).
Proof.
  intros Hw Hg Hic Hmig. destruct (gen_client _ _ Hg ic Hic) as (Hc & Hs & Hrec).
  destruct (Hmig _ Hc Hs) as (Hsolo & Htm & _).
  destruct Hrec as [(n & cs & Hp & Hrec)|(n & Hp & Hrec)].
  - destruct (Htm n Hp) as (cs' & Hcs' & Hm). rewrite (tmr_decoded _ _ _ _ Hrec) in Hcs'. injection Hcs' as <-.
    destruct Hs as [v Hv].
    destruct (Hw _ v Hv (client_state_prefix _)) as (x & Ex & Hx & (typ & k & bz & Hp' & _ & _ & Hleg)); [by rewrite Split_client_state|].
    apply FullClientStateKey_inj in Ex as <-; [|done..]. rewrite Hp in Hp'. injection Hp' as <- <-.
    eapply tm_client_agrees; [done|by apply Hleg|done|done].
  - destruct (Hsolo n Hp) as (cl & cons & Hleg & Hm). by eapply solo_client_agrees.
Qed.

Lemma migrate_clients_run g t self l :
  (∀ ic, ic ∈ l → ∃ m, migrate_genesis_client g t self ic = Ok m) →
  ∃ ms, migrate_clients g t self l = Ok ms ∧
    (∀ ic, ic ∈ l → ∃ m, m ∈ ms ∧ migrate_genesis_client g t self ic = Ok m) ∧
    (∀ m, m ∈ ms → ∃ ic, ic ∈ l ∧ migrate_genesis_client g t self ic = Ok m).
Proof.
  induction l as [|ic l IH]; intros H.
  { exists []. split_and!; [done|by intros ic ?%elem_of_nil|by intros m ?%elem_of_nil]. }
  destruct (H ic) as [m Hm]; [by left|].
  destruct IH as (ms & Hms & Hl & Hr); [intros x Hx; apply H; by right|]. exists (m :: ms). cbn [migrate_clients].
  rewrite Hm. cbn [outcome_bind]. rewrite Hms. setoid_rewrite elem_of_cons. split; [done|]. naive_solver.
Qed.

Lemma elem_of_parts (ms : list migrated) e rest :
  e ∈ ((ms ≫= mig_metadata) ≫= metadata_entries) ++ (identified_entry <$> (mig_client <$> ms)) ++
    (consensus_entry <$> grouped (ms ≫= mig_consensus)) ++ rest ↔
  (∃ m, m ∈ ms ∧ e ∈ client_part m) ∨ e ∈ rest.
Proof.
  rewrite !elem_of_app. unfold client_part. setoid_rewrite elem_of_app. setoid_rewrite elem_of_cons.
  assert ((e ∈ (ms ≫= mig_metadata) ≫= metadata_entries) ↔ ∃ m, m ∈ ms ∧ e ∈ mig_metadata m ≫= metadata_entries) as ->.
  { setoid_rewrite list_elem_of_bind. setoid_rewrite list_elem_of_bind. naive_solver. }
  assert ((e ∈ identified_entry <$> (mig_client <$> ms)) ↔ ∃ m, m ∈ ms ∧ e = identified_entry (mig_client m)) as ->.
  { rewrite <- list_fmap_compose, list_elem_of_fmap. unfold compose. naive_solver. }
  assert ((e ∈ consensus_entry <$> grouped (ms ≫= mig_consensus)) ↔
    ∃ m, m ∈ ms ∧ e ∈ consensus_entry <$> grouped (mig_consensus m)) as ->.
  { setoid_rewrite list_elem_of_fmap. unfold grouped. setoid_rewrite list_elem_of_bind. setoid_rewrite list_elem_of_bind. naive_solver. }
  naive_solver.
Qed.

(** C30: migrating the store in place and migrating the exported genesis state agree. For
    a chain of Tendermint clients and solo machines whose genesis state records their
    stores, both migrations succeed, and importing the migrated genesis state writes, for
    the clients, exactly the entries that the migrated store has below "clients" (the
    connections of a client are part of the connections' genesis state). The parameters,
    the localhost flag and the next client sequence are as before. *)
Theorem migrations_agree ctx self g w :
  GetSelfHeight ctx = Ok self → legacy_world w → genesis_of w g →
  ∃ g' w', MigrateGenesis g (BlockTime ctx) self = Ok g' ∧ Migrate1to2 ctx w = (w', Ok tt) ∧
    (∀ c p v, no_char "/" c = true → p ≠ KeyConnectionPrefix →
      (FullClientKey c p, v) ∈ client_entries g' ↔ ibc w' !! FullClientKey c p = Some v) ∧
    Genesis_Params g' = Genesis_Params g ∧ CreateLocalhost g' = CreateLocalhost g ∧
    NextClientSequence g' = NextClientSequence g.
Proof.
  intros Hself Hw Hg. destruct (migrate_store_run ctx self w Hself Hw) as (w' & Hrun & _ & Hmig & Hrest).
  pose proof (λ ic Hic, client_agrees ctx self g w w' ic Hw Hg Hic Hmig) as Hagree.
  destruct (migrate_clients_run g (BlockTime ctx) self (Genesis_Clients g)) as (ms & Hms & Hl & Hr).
  { intros ic Hic. destruct (Hagree ic Hic) as (m & Hm & _). eauto. }
  eexists _, w'. split; [unfold MigrateGenesis; by rewrite Hms|]. split_and!; [done| |done..].
  intros c p v Hc Hp. unfold client_entries. cbn [Genesis_Clients ClientsMetadata ClientsConsensus NextClientSequence].
  rewrite elem_of_parts, list_elem_of_singleton, pair_equal_spec. split.
  - intros [(m & Hm & He)|[E _]]; [|done]. destruct (Hr m Hm) as (ic & Hic & Hrunm).
    destruct (Hagree ic Hic) as (m' & Hm' & Hent). rewrite Hrunm in Hm'. injection Hm' as <-.
    destruct (proj1 (Hent _ _) He) as (p' & E & Hp' & Hv). destruct (gen_client _ _ Hg ic Hic) as (Hcic & _).
    apply FullClientKey_inj in E as [Ec Ep]; [|done..]. rewrite Ec, Ep. unfold client_view in Hv.
    by rewrite prefix_view_lookup, <- FullClientKey_prefix in Hv.
  - intros Hv. left.
    assert (∃ ic, ic ∈ Genesis_Clients g ∧ Identified_ClientId ic = c) as (ic & Hic & <-).
    { destruct (ibc w !! FullClientStateKey c) as [u|] eqn:Eu; [apply (gen_all _ _ Hg c ClientStateKey); [done..|by exists u]|].
      apply (gen_all _ _ Hg c p Hc Hp). rewrite <- Hrest; [done|]. intros x Hx [y Hy].
      destruct (HasPrefix _ _) eqn:E; [|done]. rewrite FullClientKey_prefix in E.
      apply client_prefix_disjoint in E as ->; [congruence|done|done]. }
    destruct (Hagree ic Hic) as (m & Hm & Hent). destruct (Hl ic Hic) as (m' & Hin & Hrunm).
    rewrite Hm in Hrunm. injection Hrunm as <-. exists m. split; [done|]. apply Hent. exists p. split_and!; [done..|].
    unfold client_view. by rewrite prefix_view_lookup, <- FullClientKey_prefix.
Qed.
End genesis.
