(* ===== verification/MigrationWitness.v ===== *)
(** * A store of SDK v0.40

    A chain with a solo machine and a Tendermint client as the old version left them, and
    what the migration makes of it. *)
From S2P Require Import Prelude GoMonad Errors Height Host Sdk ConnectionTypes ChannelTypes.
From S2P Require Import Exported ClientKeeper FullNode ChannelSpec.
From S2P Require Import Commitment TendermintTypes Iteration TendermintStore TendermintClient.
From S2P Require Import TendermintIndex TendermintUpdate ToyTendermint.
From S2P Require Import Solomachine Localhost Clients SoloWitness ClientTypes SelfProperties.
From S2P Require Import CoreGenesisProperties Migrations MigrationProperties MigrationGenesis.

Module MigrationWitness.
Import ToySolo commitmenttypes v100.
#[local] Existing Instance SelfWitness.any_tmcodec.
#[local] Existing Instance ibc_clients.
#[local] Existing Instance SelfWitness.any_codec.
#[local] Existing Instance toy_caps.
#[local] Existing Instance FullNode.toy_app.

#[local] Instance Ser_legacy_consensus : Ser v100.ConsensusState.
Proof.
  refine (Ser_via (B := option solotypes.PublicKeyAny * string * N) (λ c, (leg_PublicKey c, leg_Diversifier c, leg_Timestamp c))
    (λ '(k, d, t), v100.mkConsensusState k d t) _). by intros [].
Defined.
#[local] Instance Ser_legacy_client : Ser v100.ClientState.
Proof.
  refine (Ser_via (B := N * N * option v100.ConsensusState * bool)
    (λ c, (leg_Sequence c, leg_FrozenSequence c, leg_ConsensusState c, leg_AllowUpdateAfterProposal c))
    (λ '(n, f, c, a), v100.mkClientState n f c a) _). by intros [].
Defined.
#[local] Instance toy_legacy : LegacyCodec := {|
  Unmarshal_Any := λ bz, snd <$> (dec bz : option (string * string));
  legacy_Unmarshal_ClientState := dec;
  Known_Value := λ _ _, "" |}.

Definition idS : string := "06-solomachine-0".
Definition idT : string := "07-tendermint-1".
Definition ctx0 : Context := mkContext "chainA-1" 30 10600 false false.

(** A frozen machine. *)
Definition old_cons : v100.ConsensusState := v100.mkConsensusState (Some (solotypes.PublicKey_Any "alice")) "home" 7.
Definition old_solo : v100.ClientState := v100.mkClientState 4 3 (Some old_cons) true.
(** The consensus state of height 5 has expired, that of height 8 has not. *)
Definition tm_client : ibctmtypes.ClientState :=
  ibctmtypes.NewClientState "chainB-1" (mkFraction 1 3) 10000 20000 10 (NewHeight 1 8) [Some false; Some true] [] true true.
Definition cons_of (t : Z) : ibctmtypes.ConsensusState := ibctmtypes.NewConsensusState t (NewMerkleRoot "app") "vals".

Definition solo_entries : list (string * string) :=
  [(ClientStateKey, enc ("solo", enc old_solo)); (ConsensusStateKey (NewHeight 0 1), "old")].
Definition tm_entries : list (string * string) :=
  [(ClientStateKey, enc_client (TmClient tm_client));
   (ConsensusStateKey (NewHeight 1 5), enc_consensus (TmConsensus (cons_of 500)));
   (ConsensusStateKey (NewHeight 1 8), enc_consensus (TmConsensus (cons_of 700)));
   (tmstore.ProcessedTimeKey (NewHeight 1 5), Uint64ToBigEndian 510);
   (tmstore.ProcessedTimeKey (NewHeight 1 8), Uint64ToBigEndian 710)].
Definition world_entries : list (string * string) :=
  (prod_map (FullClientKey idS) id <$> solo_entries) ++ (prod_map (FullClientKey idT) id <$> tm_entries) ++
  [(KeyNextClientSequence, Uint64ToBigEndian 2)].
Definition old_world : @World toy_caps FullNode.toy_app :=
  mkWorld (CK := toy_caps) (AP := FullNode.toy_app) (list_to_map world_entries) ∅ ∅ ["06-solomachine"; "07-tendermint"] 0 [].

Lemma solo_view : client_view idS old_world = list_to_map solo_entries.
Proof. vm_compute. reflexivity. Qed.
Lemma tm_view : client_view idT old_world = list_to_map tm_entries.
Proof. vm_compute. reflexivity. Qed.

Ltac entry_cases H :=
  apply elem_of_list_to_map_2 in H; unfold world_entries, solo_entries, tm_entries in H; cbn [fmap list_fmap app] in H;
  repeat (apply elem_of_cons in H as [[-> ->]%pair_equal_spec|H]); [..|by apply elem_of_nil in H].

Lemma tm_legacy : legacy_tm (list_to_map tm_entries).
Proof.
  split.
  - intros k v H. entry_cases H; intros Hp Hl; try discriminate Hp; try discriminate Hl.
    + exists (NewHeight 1 5). split_and!; [done|done|eexists; vm_compute; reflexivity..].
    + exists (NewHeight 1 8). split_and!; [done|done|eexists; vm_compute; reflexivity..].
  - intros k Hp. destruct (list_to_map tm_entries !! k) as [v|] eqn:H; [|done]. entry_cases H; discriminate Hp.
Qed.
Lemma solo_legacy : legacy_solo (list_to_map solo_entries) old_solo old_cons.
Proof.
  split; [vm_compute; reflexivity|done|]. intros k v H. entry_cases H; intros Hp Hl; try discriminate Hp.
  by exists (NewHeight 0 1).
Qed.

Definition tm_any : @Exported.ClientState ibc_clients := TmClient tm_client.
Lemma small_height r h : (r < two64)%N → (h < two64)%N → height_wf (NewHeight r h).
Proof. done. Qed.
Lemma tm_state : client_view idT old_world !! ClientStateKey ≫= Unmarshal_ClientState = Some tm_any.
Proof. vm_cast_no_check (eq_refl (Some tm_any)). Qed.
Lemma old_world_legacy : legacy_world old_world.
Proof.
  intros k v H. entry_cases H; intros Hp Hl; try discriminate Hp; try discriminate Hl.
  - exists idS. split_and!; [done|done|]. rewrite solo_view. exists Solomachine, 0%N, (enc ("solo", enc old_solo)).
    split_and!; [reflexivity|reflexivity| |discriminate]. intros _. exists old_solo, old_cons. apply solo_legacy.
  - exists idT. split_and!; [done|done|]. rewrite tm_view. exists Tendermint, 1%N, (enc_client (TmClient tm_client)).
    split_and!; [reflexivity|reflexivity|discriminate|]. intros _. split; [apply tm_legacy|]. exists tm_client.
    vm_cast_no_check (eq_refl (Some tm_any)).
Qed.

Lemma migrate_store_spec_witness :
  ∃ w', Migrate1to2 ctx0 old_world = (w', Ok tt) ∧
    client_view idS w' !! ClientStateKey = Some (Marshal_ClientState (new_solo old_solo old_cons)) ∧
    client_view idS w' !! ConsensusStateKey (NewHeight 0 1) = None ∧
    client_view idT w' !! ConsensusStateKey (NewHeight 1 5) = None ∧
    client_view idT w' !! ConsensusStateKey (NewHeight 1 8) = client_view idT old_world !! ConsensusStateKey (NewHeight 1 8) ∧
    client_view idT w' !! tmstore.ProcessedHeightKey (NewHeight 1 8) = Some "1-30".
Proof.
  destruct (migrate_store_spec ctx0 (NewHeight 1 30) old_world) as (w' & Hrun & _ & Hm & _).
  - reflexivity.
  - exact old_world_legacy.
  - exists w'. split; [exact Hrun|].
    destruct (Hm idS) as (HS & _); [reflexivity|eexists; vm_compute; reflexivity|].
    destruct (Hm idT) as (_ & HT & _); [reflexivity|eexists; vm_compute; reflexivity|].
    destruct (HS 0%N eq_refl) as (cl & cons & [Hcl Hcons _] & [Hc Hno _]).
    destruct (HT 1%N eq_refl) as (cs & Hcs & [_ Hgone Hkept _]).
    assert (cl = old_solo) as -> by (rewrite solo_view in Hcl; injection Hcl as <-; reflexivity).
    injection Hcons as <-.
    rewrite tm_state in Hcs. injection Hcs as <-.
    split; [exact Hc|]. split; [exact (Hno _ (small_height 0 1 eq_refl eq_refl))|]. split.
    + apply (Hgone (NewHeight 1 5)); [exact (small_height 1 5 eq_refl eq_refl)| |left; reflexivity]. exists (cons_of 500). rewrite tm_view. split; vm_compute; reflexivity.
    + destruct (Hkept (NewHeight 1 8) (cons_of 700)) as (H1 & _ & H2); [exact (small_height 1 8 eq_refl eq_refl)| | |split; [exact H1|exact H2]].
      * rewrite tm_view. vm_compute. reflexivity.
      * rewrite tm_view. intros (c & Hc8 & He).
        assert (cons_at (list_to_map tm_entries) (NewHeight 1 8) = Some (cons_of 700)) as E8 by (vm_compute; reflexivity).
        rewrite E8 in Hc8. injection Hc8 as <-. discriminate He.
Defined.

(** The genesis state of the same chain. *)
Definition state_at (h : N) (t : Z) : ConsensusStateWithHeight :=
  mkConsensusStateWithHeight (NewHeight 1 h) (Some (Any_ConsensusState (TmConsensus (cons_of t) : @Exported.ConsensusState ibc_clients))).
Definition old_machine : IdentifiedClientState := mkIdentifiedClientState idS (Some (Any_Unknown (enc old_solo))).
Definition old_tm : IdentifiedClientState := mkIdentifiedClientState idT (Some (Any_ClientState tm_any)).
Definition old_genesis : GenesisState :=
  NewGenesisState [old_machine; old_tm]
    [NewClientConsensusStates idS [mkConsensusStateWithHeight (NewHeight 0 1) (Some (Any_Unknown "old"))];
     NewClientConsensusStates idT [state_at 5 500; state_at 8 700]]
    [NewIdentifiedGenesisMetadata idT
       [NewGenesisMetadata (tmstore.ProcessedTimeKey (NewHeight 1 5)) (Uint64ToBigEndian 510);
        NewGenesisMetadata (tmstore.ProcessedTimeKey (NewHeight 1 8)) (Uint64ToBigEndian 710)]]
    ["06-solomachine"; "07-tendermint"] false 2.

Ltac list_cases H := repeat (apply elem_of_cons in H as [->|H]); [..|by apply elem_of_nil in H].

Lemma tm_states : states_of idT (ClientsConsensus old_genesis) = [state_at 5 500; state_at 8 700].
Proof. reflexivity. Qed.
Lemma tm_metadata : metadata_in idT (ClientsMetadata old_genesis) =
  [NewGenesisMetadata (tmstore.ProcessedTimeKey (NewHeight 1 5)) (Uint64ToBigEndian 510);
   NewGenesisMetadata (tmstore.ProcessedTimeKey (NewHeight 1 8)) (Uint64ToBigEndian 710)].
Proof. reflexivity. Qed.

Lemma tm_is_recorded : tm_recorded old_genesis old_tm (client_view idT old_world) tm_client.
Proof.
  split.
  - reflexivity.
  - rewrite tm_view. reflexivity.
  - exact tm_state.
  - change (Identified_ClientId old_tm) with idT. rewrite tm_states, tm_view. intros st H. list_cases H.
    + split; [exact (small_height 1 5 eq_refl eq_refl)|]. exists (cons_of 500).
      split_and!; [reflexivity|vm_cast_no_check (eq_refl (Some (enc_consensus (TmConsensus (cons_of 500)))))|vm_compute; reflexivity].
    + split; [exact (small_height 1 8 eq_refl eq_refl)|]. exists (cons_of 700).
      split_and!; [reflexivity|vm_cast_no_check (eq_refl (Some (enc_consensus (TmConsensus (cons_of 700)))))|vm_compute; reflexivity].
  - change (Identified_ClientId old_tm) with idT. rewrite tm_states, tm_view. intros h _ [v H].
    apply elem_of_list_to_map_2 in H. unfold tm_entries in H.
    repeat (apply elem_of_cons in H as [[E _]%pair_equal_spec|H]); [..|by apply elem_of_nil in H];
      try (by discriminate E).
    + apply ConsensusStateKey_inj in E as ->. eexists. split; [by left|done].
    + apply ConsensusStateKey_inj in E as ->. eexists. split; [by right; left|done].
    + by apply cons_time_ne in E.
    + by apply cons_time_ne in E.
  - change (Identified_ClientId old_tm) with idT. rewrite tm_metadata, tm_view. intros md H. list_cases H; vm_compute; reflexivity.
  - change (Identified_ClientId old_tm) with idT. rewrite tm_metadata, tm_view. intros h v _ H.
    apply elem_of_list_to_map_2 in H. unfold tm_entries in H.
    repeat (apply elem_of_cons in H as [[E ->]%pair_equal_spec|H]); [..|by apply elem_of_nil in H];
      try (by discriminate E).
    + symmetry in E. by apply cons_time_ne in E.
    + symmetry in E. by apply cons_time_ne in E.
    + apply ProcessedTimeKey_inj in E as ->. by left.
    + apply ProcessedTimeKey_inj in E as ->. by right; left.
  - rewrite tm_view. intros k v H.
    entry_cases H; [by left|right; right..]; [exists (NewHeight 1 5)|exists (NewHeight 1 8)|exists (NewHeight 1 5)|exists (NewHeight 1 8)];
      (split_and!; [done|eexists; vm_compute; reflexivity|auto]).
Qed.

Lemma solo_is_recorded : solo_recorded old_machine (client_view idS old_world).
Proof.
  rewrite solo_view. split.
  - exists (Any_Unknown (enc old_solo)). split; [reflexivity|]. vm_compute. reflexivity.
  - intros k v H. entry_cases H; [by left|right; right]. by exists (NewHeight 0 1).
Qed.

Lemma old_genesis_records : genesis_of old_world old_genesis.
Proof.
  split.
  - intros ic H. unfold old_genesis in H. cbn [Genesis_Clients] in H. list_cases H.
    + split; [reflexivity|]. split; [eexists; vm_compute; reflexivity|]. right. exists 0%N. split; [reflexivity|exact solo_is_recorded].
    + split; [reflexivity|]. split; [eexists; vm_compute; reflexivity|]. left. exists 1%N, tm_client. split; [reflexivity|exact tm_is_recorded].
  - intros c p Hc _ [v H]. apply elem_of_list_to_map_2 in H. unfold world_entries, solo_entries, tm_entries in H.
    cbn [fmap list_fmap app prod_map fst snd id] in H.
    repeat (apply elem_of_cons in H as [[E _]%pair_equal_spec|H]); [..|by apply elem_of_nil in H];
      first [discriminate E|apply FullClientKey_inj in E as [-> _]; [|done..]];
      [exists old_machine|exists old_machine|exists old_tm|exists old_tm|exists old_tm|exists old_tm|exists old_tm];
      (split; [unfold old_genesis; cbn [Genesis_Clients]; set_solver|reflexivity]).
Qed.

Lemma migrations_agree_witness :
  ∃ g' w', MigrateGenesis old_genesis 10600 (NewHeight 1 30) = Ok g' ∧ Migrate1to2 ctx0 old_world = (w', Ok tt) ∧
    ((FullClientKey idT (ConsensusStateKey (NewHeight 1 5)), enc_consensus (TmConsensus (cons_of 500))) ∈ client_entries g' ↔
     ibc w' !! FullClientKey idT (ConsensusStateKey (NewHeight 1 5)) = Some (enc_consensus (TmConsensus (cons_of 500)))).
Proof.
  destruct (migrations_agree ctx0 (NewHeight 1 30) old_genesis old_world) as (g' & w' & Hg & Hw & He & _).
  - reflexivity.
  - exact old_world_legacy.
  - exact old_genesis_records.
  - exists g', w'. split; [exact Hg|]. split; [exact Hw|]. apply He; [reflexivity|discriminate].
Defined.
End MigrationWitness.
