(* ===== verification/RelayerQueries.v ===== *)
(** * What a relayer asks a node

    The client side of the queries: [core/client/query.go], the [client/utils] packages of
    the submodules, and [ConvertProofs] of [23-commitment/types/utils.go].  With [prove] set
    a query reads the store of the IBC module over ABCI and returns a Merkle proof with the
    height whose header has the root of the proof; otherwise it calls the query server.
    The timeouts of a transfer are computed from such a query. *)
From S2P Require Import Prelude GoMonad Errors Height Host Sdk ConnectionTypes ChannelTypes.
From S2P Require Import Exported ClientKeeper Commitment TendermintTypes TendermintStore.
From S2P Require Import ClientTypes.
From S2P Require Import Queries ClientQueries CoreServer TransferTypes.

(** ** Tendermint and cosmos-sdk *)

(** [client.Context], as far as it is read. *)
Record ClientContext := mkClientContext { cctx_Height : Z; cctx_ChainID : string }.

(** [abci.RequestQuery], [abci.ResponseQuery] and [crypto.ProofOps]; a value is nil for [None]. *)
Record RequestQuery := mkRequestQuery { req_Path : string; req_Height : Z; req_Data : string; req_Prove : bool }.
Record ProofOp := mkProofOp { op_Type : string; op_Key : string; op_Data : string }.
Record ResponseQuery := mkResponseQuery {
  res_Value : option string; res_ProofOps : option (list ProofOp); res_Height : Z }.

(** The encoding of Merkle proofs, and of the ICS-23 proofs inside. *)
Class ProofCodec {IC : Ics23} := {
  Unmarshal_CommitmentProof : string → option CommitmentProof;
  Proof_nil : CommitmentProof → bool;                    (* p.Proof == nil *)
  Marshal_MerkleProof : commitmenttypes.MerkleProof → string }.

(** A node: its ABCI and gRPC endpoints, and its Tendermint RPC endpoint. *)
Class RelayedNode {PG : Pagination} {LC : LightClient} {TL : TendermintLib} := {
  QueryABCI : ClientContext → RequestQuery → outcome ResponseQuery;
  grpc_Invoke {A : Type} : ClientContext → corekeeper.rpc A → outcome A;
  RpcNode : Type;
  GetNode : ClientContext → outcome RpcNode;
  ABCIInfo_LastBlockHeight : RpcNode → outcome Z;
  node_Commit : RpcNode → Z → outcome TmSignedHeader;
  TmValidator : Type;
  node_Validators : RpcNode → Z → Z → Z → outcome (list TmValidator);
  SignedHeader_ToProto : TmSignedHeader → ibctmtypes.SignedHeader;
  SignedHeader_Time : TmSignedHeader → Z;
  SignedHeader_AppHash : TmSignedHeader → string;
  NewValidatorSet : list TmValidator → outcome TmValidatorSet;   (* panics on an invalid set *)
  ValidatorSet_ToProto : TmValidatorSet → outcome ProtoValidatorSet }.

Definition codec_error : error := External "proto: unmarshal".

(** ** [23-commitment/types/utils.go] *)
Module commitmentutils.
Section convert.
Context {IC : Ics23} {PC : ProofCodec}.
Import commitmenttypes.

Fixpoint convert_ops (ops : list ProofOp) : outcome (list CommitmentProof) :=
  match ops with
  | [] => Ok []
  | op :: ops =>
      match Unmarshal_CommitmentProof (op_Data op) with
      | None => Err (Wrap CommitmentErr.ErrInvalidMerkleProof)
      | Some p =>
          if Proof_nil p then Err (Wrap CommitmentErr.ErrInvalidMerkleProof)
          else
            let? proofs := convert_ops ops in
            Ok (p :: proofs)
      end
  end.

Definition ConvertProofs (tmProof : option (list ProofOp)) : outcome MerkleProof :=
  match tmProof with
  | None => Err (Wrap CommitmentErr.ErrInvalidMerkleProof)
  | Some ops =>
      let? proofs := convert_ops ops in
      Ok (mkMerkleProof proofs)
  end.
End convert.
End commitmentutils.

(** ** [core/client/query.go] *)
Module ibcclient.
Section query.
Context {IC : Ics23} {PC : ProofCodec} {PG : Pagination} {LC : LightClient} {TL : TendermintLib} {RN : RelayedNode}.

(** Heights are int64: the decrement of a height above two cannot overflow, the increment
    of the answer's height is of a uint64. *)
Definition QueryTendermintProof (clientCtx : ClientContext) (key : string) :
    outcome (option string * string * Height) :=
  let height := cctx_Height clientCtx in
  fail_if (negb (height =? 0)%Z && (height <=? 2)%Z) fmt_Errorf ;;?
  let height := if negb (height =? 0)%Z then (height - 1)%Z else height in
  let req := mkRequestQuery ("store/" +:+ "ibc" +:+ "/key") height key true in
  let? res := QueryABCI clientCtx req in
  let? merkleProof := commitmentutils.ConvertProofs (res_ProofOps res) in
  let proofBz := Marshal_MerkleProof merkleProof in
  let? revision := ParseChainID (cctx_ChainID clientCtx) in
  Ok (res_Value res, proofBz, NewHeight revision (u64 (uint64_of_Z (res_Height res) + 1))).

(** [len(value) == 0] *)
Definition no_value (value : option string) : bool := bool_decide (String.length (default "" value) = 0).
End query.
End ibcclient.

(** ** [02-client/client/utils/utils.go] *)
Module clientutils.
Import ibcclient clientquery.
Section utils.
Context {IC : Ics23} {PC : ProofCodec} {PG : Pagination} {LC : LightClient} {TL : TendermintLib} {RN : RelayedNode}.
Context {CD : Codec}.

Definition QueryClientStateABCI (clientCtx : ClientContext) (clientID : string) : outcome QueryClientStateResponse :=
  let? ' (value, proofBz, proofHeight) := QueryTendermintProof clientCtx (FullClientStateKey clientID) in
  fail_if (no_value value) (Wrap ClientErr.ErrClientNotFound) ;;?
  match Unmarshal_ClientState (default "" value) with
  | None => Err codec_error
  | Some clientState =>
      let? anyClientState := PackClientState (Some clientState) in
      Ok (NewQueryClientStateResponse anyClientState (Some proofBz) proofHeight)
  end.

Definition QueryClientState (clientCtx : ClientContext) (clientID : string) (prove : bool) :
    outcome QueryClientStateResponse :=
  if prove then QueryClientStateABCI clientCtx clientID
  else grpc_Invoke clientCtx (corekeeper.rpc_ClientState (Some (mkQueryClientStateRequest clientID))).

Definition QueryConsensusStateABCI (clientCtx : ClientContext) (clientID : string) (height : Height) :
    outcome QueryConsensusStateResponse :=
  let? ' (value, proofBz, proofHeight) := QueryTendermintProof clientCtx (FullConsensusStateKey clientID height) in
  fail_if (no_value value) (Wrap ClientErr.ErrConsensusStateNotFound) ;;?
  match Unmarshal_ConsensusState (default "" value) with
  | None => Err codec_error
  | Some cs =>
      let? anyConsensusState := PackConsensusState (Some cs) in
      Ok (NewQueryConsensusStateResponse anyConsensusState (Some proofBz) proofHeight)
  end.

Definition QueryConsensusState (clientCtx : ClientContext) (clientID : string) (height : Height)
    (prove latestHeight : bool) : outcome QueryConsensusStateResponse :=
  if prove then QueryConsensusStateABCI clientCtx clientID height
  else grpc_Invoke clientCtx (corekeeper.rpc_ConsensusState
         (Some (mkQueryConsensusStateRequest clientID (RevisionNumber height) (RevisionHeight height) latestHeight))).

(** The height of the header: that of the context, or the last block's. *)
Definition header_height (clientCtx : ClientContext) (node : RpcNode) : outcome Z :=
  let? last := ABCIInfo_LastBlockHeight node in
  Ok (if negb (cctx_Height clientCtx =? 0)%Z then cctx_Height clientCtx else last).

Definition QueryTendermintHeader (clientCtx : ClientContext) : outcome (ibctmtypes.Header * Z) :=
  let? node := GetNode clientCtx in
  let? height := header_height clientCtx node in
  let? commit := node_Commit node height in
  let? validators := node_Validators node height 1 10000 in
  let protoCommit := SignedHeader_ToProto commit in
  let? valset := NewValidatorSet validators in
  let? protoValset := ValidatorSet_ToProto valset in
  Ok (ibctmtypes.mkHeader (Some protoCommit) (Some protoValset) ZeroHeight None, height).

Definition QuerySelfConsensusState (clientCtx : ClientContext) : outcome (ibctmtypes.ConsensusState * Z) :=
  let? node := GetNode clientCtx in
  let? height := header_height clientCtx node in
  let? commit := node_Commit node height in
  let? nextVals := node_Validators node (height + 1) 1 10000 in
  let? valset := NewValidatorSet nextVals in
  Ok (ibctmtypes.NewConsensusState (SignedHeader_Time commit) (commitmenttypes.NewMerkleRoot (SignedHeader_AppHash commit))
        (ValidatorSet_Hash valset), height).
End utils.
End clientutils.

(** ** [03-connection/client/utils/utils.go] *)
Module connectionutils.
Import ibcclient clientutils connectionquery clientquery.
Section utils.
Context {IC : Ics23} {PC : ProofCodec} {PG : Pagination} {LC : LightClient} {TL : TendermintLib} {RN : RelayedNode}.
Context {CD : Codec}.

Definition queryConnectionABCI (clientCtx : ClientContext) (connectionID : string) : outcome QueryConnectionResponse :=
  let? ' (value, proofBz, proofHeight) := QueryTendermintProof clientCtx (ConnectionKey connectionID) in
  fail_if (no_value value) (Wrap ConnErr.ErrConnectionNotFound) ;;?
  match Unmarshal_ConnectionEnd (default "" value) with
  | None => Err codec_error
  | Some connection => Ok (NewQueryConnectionResponse connection (Some proofBz) proofHeight)
  end.

Definition QueryConnection (clientCtx : ClientContext) (connectionID : string) (prove : bool) :
    outcome QueryConnectionResponse :=
  if prove then queryConnectionABCI clientCtx connectionID
  else grpc_Invoke clientCtx (corekeeper.rpc_Connection (Some (mkQueryConnectionRequest connectionID))).

(** The paths are read with the Amino codec, an argument. *)
Definition queryClientConnectionsABCI (amino_Unmarshal : string → option (list string)) (clientCtx : ClientContext)
    (clientID : string) : outcome QueryClientConnectionsResponse :=
  let? ' (value, proofBz, proofHeight) := QueryTendermintProof clientCtx (ClientConnectionsKey clientID) in
  fail_if (no_value value) (Wrap ConnErr.ErrClientConnectionPathsNotFound) ;;?
  match amino_Unmarshal (default "" value) with
  | None => Err codec_error
  | Some paths => Ok (NewQueryClientConnectionsResponse paths (Some proofBz) proofHeight)
  end.

Definition QueryClientConnections (amino_Unmarshal : string → option (list string)) (clientCtx : ClientContext)
    (clientID : string) (prove : bool) : outcome QueryClientConnectionsResponse :=
  if prove then queryClientConnectionsABCI amino_Unmarshal clientCtx clientID
  else grpc_Invoke clientCtx (corekeeper.rpc_ClientConnections (Some (mkQueryClientConnectionsRequest clientID))).

(** With a proof the client state is that of the ABCI query. *)
Definition QueryConnectionClientState (clientCtx : ClientContext) (connectionID : string) (prove : bool) :
    outcome QueryConnectionClientStateResponse :=
  let? res := grpc_Invoke clientCtx
    (corekeeper.rpc_ConnectionClientState (Some (mkQueryConnectionClientStateRequest connectionID))) in
  if prove then
    let clientID := Identified_ClientId (cls_IdentifiedClientState res) in
    let? clientStateRes := QueryClientStateABCI clientCtx clientID in
    Ok (NewQueryConnectionClientStateResponse (mkIdentifiedClientState clientID (Some (cl_ClientState clientStateRes)))
          (cl_Proof clientStateRes) (cl_ProofHeight clientStateRes))
  else Ok res.

Definition QueryConnectionConsensusState (clientCtx : ClientContext) (connectionID : string) (height : Height)
    (prove : bool) : outcome QueryConnectionConsensusStateResponse :=
  let? res := grpc_Invoke clientCtx (corekeeper.rpc_ConnectionConsensusState
    (Some (mkQueryConnectionConsensusStateRequest connectionID (RevisionNumber height) (RevisionHeight height)))) in
  if prove then
    let? consensusStateRes := QueryConsensusStateABCI clientCtx (ccn_ClientId res) height in
    Ok (NewQueryConnectionConsensusStateResponse (ccn_ClientId res) (co_ConsensusState consensusStateRes) height
          (co_Proof consensusStateRes) (co_ProofHeight consensusStateRes))
  else Ok res.
End utils.
End connectionutils.

(** ** [04-channel/client/utils/utils.go] *)
Module channelutils.
Import ibcclient clientutils channelquery clientquery.
Section utils.
Context {IC : Ics23} {PC : ProofCodec} {PG : Pagination} {LC : LightClient} {TL : TendermintLib} {RN : RelayedNode}.
Context {CD : Codec}.

Definition queryChannelABCI (clientCtx : ClientContext) (portID channelID : string) : outcome QueryChannelResponse :=
  let? ' (value, proofBz, proofHeight) := QueryTendermintProof clientCtx (ChannelKey portID channelID) in
  fail_if (no_value value) (Wrap ChanErr.ErrChannelNotFound) ;;?
  match Unmarshal_Channel (default "" value) with
  | None => Err codec_error
  | Some channel => Ok (NewQueryChannelResponse channel (Some proofBz) proofHeight)
  end.
Definition QueryChannel (clientCtx : ClientContext) (portID channelID : string) (prove : bool) :
    outcome QueryChannelResponse :=
  if prove then queryChannelABCI clientCtx portID channelID
  else grpc_Invoke clientCtx (corekeeper.rpc_Channel (Some (mkQueryChannelRequest portID channelID))).

Definition QueryChannelClientState (clientCtx : ClientContext) (portID channelID : string) (prove : bool) :
    outcome QueryChannelClientStateResponse :=
  let? res := grpc_Invoke clientCtx
    (corekeeper.rpc_ChannelClientState (Some (mkQueryChannelClientStateRequest portID channelID))) in
  if prove then
    let clientID := Identified_ClientId (ccs_IdentifiedClientState res) in
    let? clientStateRes := QueryClientStateABCI clientCtx clientID in
    Ok (NewQueryChannelClientStateResponse (mkIdentifiedClientState clientID (Some (cl_ClientState clientStateRes)))
          (cl_Proof clientStateRes) (cl_ProofHeight clientStateRes))
  else Ok res.

Definition QueryChannelConsensusState (clientCtx : ClientContext) (portID channelID : string) (height : Height)
    (prove : bool) : outcome QueryChannelConsensusStateResponse :=
  let? res := grpc_Invoke clientCtx (corekeeper.rpc_ChannelConsensusState
    (Some (mkQueryChannelConsensusStateRequest portID channelID (RevisionNumber height) (RevisionHeight height)))) in
  if prove then
    let? consensusStateRes := QueryConsensusStateABCI clientCtx (ccons_ClientId res) height in
    Ok (NewQueryChannelConsensusStateResponse (ccons_ClientId res) (co_ConsensusState consensusStateRes) height
          (co_Proof consensusStateRes) (co_ProofHeight consensusStateRes))
  else Ok res.

(** [InterfaceRegistry.UnpackAny] leaves the target nil when the [Any] is nil. *)
Definition UnpackAny_ClientState (a : option AnyValue) : outcome (option ClientState) :=
  match a with
  | None => Ok None
  | Some (Any_ClientState cs) => Ok (Some cs)
  | Some _ => Err codec_error
  end.
Definition UnpackAny_ConsensusState (a : option AnyValue) : outcome (option ConsensusState) :=
  match a with
  | None => Ok None
  | Some (Any_ConsensusState cs) => Ok (Some cs)
  | Some _ => Err codec_error
  end.

(** The latest height of every client is a [clienttypes.Height]. *)
Definition QueryLatestConsensusState (clientCtx : ClientContext) (portID channelID : string) :
    outcome (option ConsensusState * Height * Height) :=
  let? clientRes := QueryChannelClientState clientCtx portID channelID false in
  let? clientState := UnpackAny_ClientState (Identified_ClientState (ccs_IdentifiedClientState clientRes)) in
  let? clientState := must_some clientState in
  let clientHeight := GetLatestHeight clientState in
  let? res := QueryChannelConsensusState clientCtx portID channelID clientHeight false in
  let? consensusState := UnpackAny_ConsensusState (Some (ccons_ConsensusState res)) in
  Ok (consensusState, clientHeight, ccons_ProofHeight res).

(** [binary.BigEndian.Uint64] panics on fewer than eight bytes and ignores further ones. *)
Definition BigEndian_Uint64 (b : string) : outcome N :=
  if (String.length b <? 8)%nat then Panic else Ok (be8_decode (String.substring 0 8 b)).

Definition queryNextSequenceRecvABCI (clientCtx : ClientContext) (portID channelID : string) :
    outcome QueryNextSequenceReceiveResponse :=
  let? ' (value, proofBz, proofHeight) := QueryTendermintProof clientCtx (NextSequenceRecvKey portID channelID) in
  fail_if (no_value value) (Wrap ChanErr.ErrChannelNotFound) ;;?
  let? sequence := BigEndian_Uint64 (default "" value) in
  Ok (NewQueryNextSequenceReceiveResponse sequence (Some proofBz) proofHeight).
Definition QueryNextSequenceReceive (clientCtx : ClientContext) (portID channelID : string) (prove : bool) :
    outcome QueryNextSequenceReceiveResponse :=
  if prove then queryNextSequenceRecvABCI clientCtx portID channelID
  else grpc_Invoke clientCtx (corekeeper.rpc_NextSequenceReceive (Some (mkQueryNextSequenceReceiveRequest portID channelID))).

Definition queryPacketCommitmentABCI (clientCtx : ClientContext) (portID channelID : string) (sequence : N) :
    outcome QueryPacketCommitmentResponse :=
  let? ' (value, proofBz, proofHeight) := QueryTendermintProof clientCtx (PacketCommitmentKey portID channelID sequence) in
  fail_if (no_value value) (Wrap ChanErr.ErrPacketCommitmentNotFound) ;;?
  Ok (NewQueryPacketCommitmentResponse (default "" value) (Some proofBz) proofHeight).
Definition QueryPacketCommitment (clientCtx : ClientContext) (portID channelID : string) (sequence : N) (prove : bool) :
    outcome QueryPacketCommitmentResponse :=
  if prove then queryPacketCommitmentABCI clientCtx portID channelID sequence
  else grpc_Invoke clientCtx
         (corekeeper.rpc_PacketCommitment (Some (mkQueryPacketCommitmentRequest portID channelID sequence))).

Definition queryPacketReceiptABCI (clientCtx : ClientContext) (portID channelID : string) (sequence : N) :
    outcome QueryPacketReceiptResponse :=
  let? ' (value, proofBz, proofHeight) := QueryTendermintProof clientCtx (PacketReceiptKey portID channelID sequence) in
  Ok (NewQueryPacketReceiptResponse (negb (is_nil value)) (Some proofBz) proofHeight).
Definition QueryPacketReceipt (clientCtx : ClientContext) (portID channelID : string) (sequence : N) (prove : bool) :
    outcome QueryPacketReceiptResponse :=
  if prove then queryPacketReceiptABCI clientCtx portID channelID sequence
  else grpc_Invoke clientCtx
         (corekeeper.rpc_PacketReceipt (Some (mkQueryPacketReceiptRequest portID channelID sequence))).

Definition queryPacketAcknowledgementABCI (clientCtx : ClientContext) (portID channelID : string) (sequence : N) :
    outcome QueryPacketAcknowledgementResponse :=
  let? ' (value, proofBz, proofHeight) :=
    QueryTendermintProof clientCtx (PacketAcknowledgementKey portID channelID sequence) in
  fail_if (no_value value) (Wrap ChanErr.ErrInvalidAcknowledgement) ;;?
  Ok (NewQueryPacketAcknowledgementResponse (default "" value) (Some proofBz) proofHeight).
Definition QueryPacketAcknowledgement (clientCtx : ClientContext) (portID channelID : string) (sequence : N) (prove : bool) :
    outcome QueryPacketAcknowledgementResponse :=
  if prove then queryPacketAcknowledgementABCI clientCtx portID channelID sequence
  else grpc_Invoke clientCtx
         (corekeeper.rpc_PacketAcknowledgement (Some (mkQueryPacketAcknowledgementRequest portID channelID sequence))).
End utils.
End channelutils.

(** ** [apps/transfer/client/cli/tx.go] *)
Module transfercli.
Import transfertypes.
Section tx.
Context {ST : SdkTypes}.
Context {IC : Ics23} {PC : ProofCodec} {PG : Pagination} {LC : LightClient} {TL : TendermintLib} {RN : RelayedNode}.
Context {CD : Codec}.

(** The timeout of the packet: relative ones are added to the latest height of the client
    and to the later of the local clock and the time of that height. [now] is
    [time.Now().UnixNano()]. *)
Definition absolute_height (height timeoutHeight : Height) : Height :=
  if negb (Height_IsZero timeoutHeight)
  then NewHeight (u64 (RevisionNumber height + RevisionNumber timeoutHeight))
         (u64 (RevisionHeight height + RevisionHeight timeoutHeight))
  else timeoutHeight.
Definition absolute_timestamp (now : Z) (consensusState : option ConsensusState) (timeoutTimestamp : N) : outcome N :=
  if negb (timeoutTimestamp =? 0)%N then
    let? consensusState := must_some consensusState in
    let consensusStateTimestamp := GetTimestamp consensusState in
    if (0 <? now)%Z then
      let now := uint64_of_Z now in
      Ok (if (consensusStateTimestamp <? now)%N then u64 (now + timeoutTimestamp)
          else u64 (consensusStateTimestamp + timeoutTimestamp))
    else Err (External "errors.New")
  else Ok timeoutTimestamp.
End tx.
End transfercli.
