(* ===== verification/RelayerProperties.v ===== *)
(** * A relayer's proofs are accepted

    The proofs that the queries of [RelayerQueries.v] return for a height, with the height
    they return, are accepted by a Tendermint client that has the header of that height:
    the composition of the query, the encoding, the light client and the packet handlers
    that the protocol relies on for progress. *)
From S2P Require Import Prelude GoMonad Errors Sha256 Height Host Sdk ConnectionTypes.
From S2P Require Import ChannelTypes.
From S2P Require Import Exported ClientKeeper ConnectionKeeper ChannelKeeper ChannelSpec.
From S2P Require Import PacketProperties.
From S2P Require Import TwoChain Liveness Commitment TendermintTypes TendermintStore.
From S2P Require Import TendermintClient TendermintIndex.
From S2P Require Import TendermintProperties TendermintSafety.
From S2P Require Import ClientTypes Queries ClientQueries CoreServer RelayerQueries.
From Stdlib Require Import Ascii.

(** ** Proofs that verify *)
Section proofs.
Context {IC : Ics23}.
Import commitmenttypes.
Variable tree_root : ProofSpec → gmap string string → string.

(** [p] proves, in the tree of [m], that the key has a value, or none. *)
Record proves_member (spec : ProofSpec) (m : gmap string string) (p : CommitmentProof) (k v : string) : Prop := {
  pm_kind : proof_kind p = ExistProof;
  pm_root : Calculate p = Ok (tree_root spec m);
  pm_verifies : ics23_VerifyMembership spec (tree_root spec m) p k v = true }.
Record proves_absence (spec : ProofSpec) (m : gmap string string) (p : CommitmentProof) (k : string) : Prop := {
  pa_kind : proof_kind p = NonexistProof;
  pa_root : Calculate p = Ok (tree_root spec m);
  pa_verifies : ics23_VerifyNonMembership spec (tree_root spec m) p k = true }.

(** The proof of a key in the store [m], which is the tree [pre] of [stores]. *)
Section chain.
Context (low high : ProofSpec) (m stores : gmap string string) (pre key : string) (p q : CommitmentProof) (root : MerkleRoot).
Hypothesis (Hroot : GetHash root = tree_root high stores) (Hne : tree_root high stores ≠ "").
Hypothesis (Hpre : plain_key pre = true) (Hkey : plain_key key = true).
Hypothesis Hq : proves_member high stores q pre (tree_root low m).

Lemma two_args : validateVerificationArgs (mkMerkleProof [p; q]) [Some low; Some high] root = Ok tt.
Proof.
  unfold validateVerificationArgs, Proof_Empty, Root_Empty. cbn [Proofs length existsb].
  rewrite Hroot, !bool_decide_eq_false_2 by (done || by destruct (tree_root high stores)). done.
Qed.

Lemma chained_keys :
  chained_key (NewMerklePath [pre; key]) 0 = Ok key ∧ chained_key (NewMerklePath [pre; key]) 1 = Ok pre ∧
  GetKey (NewMerklePath [pre; key]) 1 = Ok key.
Proof. unfold chained_key, GetKey. cbn. by rewrite !PathUnescape_no_percent. Qed.

Lemma store_proof_complete :
  chained_loop (GetHash root) [Some low; Some high] [q] (NewMerklePath [pre; key]) (tree_root low m) 1 = Ok tt.
Proof.
  destruct Hq as [Hk Hc Hv]. cbn [chained_loop]. destruct chained_keys as (_ & -> & _). rewrite Hk, Hc. cbn.
  rewrite Hv, Hroot. by rewrite bool_decide_eq_true_2.
Qed.

Lemma chained_membership_complete value :
  proves_member low m p key value → value ≠ "" →
  VerifyMembership (mkMerkleProof [p; q]) [Some low; Some high] root (NewMerklePath [pre; key]) value = Ok tt.
Proof.
  intros [Hk Hc Hv] Hval. unfold VerifyMembership. rewrite two_args. cbn [KeyPath length].
  rewrite bool_decide_eq_true_2 by done. rewrite bool_decide_eq_false_2 by (by destruct value). cbn [negb].
  unfold verifyChainedMembershipProof. cbn [Proofs drop]. etrans; [|apply store_proof_complete].
  cbn [chained_loop]. destruct chained_keys as (-> & _). rewrite Hk, Hc. cbn [lookup list_lookup]. by rewrite Hv.
Qed.

Lemma chained_nonmembership_complete :
  proves_absence low m p key →
  VerifyNonMembership (mkMerkleProof [p; q]) [Some low; Some high] root (NewMerklePath [pre; key]) = Ok tt.
Proof.
  intros [Hk Hc Hv]. unfold VerifyNonMembership. rewrite two_args. cbn [KeyPath length].
  rewrite bool_decide_eq_true_2 by done. cbn [negb Proofs]. rewrite Hk, Hc.
  change (N.of_nat (2 - 1)) with 1%N. destruct chained_keys as (_ & _ & ->). rewrite Hv. apply store_proof_complete.
Qed.
End chain.
End proofs.

(** ** The query *)
Section query.
Context {IC : Ics23} {PC : ProofCodec} {PG : Pagination} {LC : LightClient} {TL : TendermintLib} {RN : RelayedNode}.
Import commitmenttypes ibcclient.
Variable tree_root : ProofSpec → gmap string string → string.

(** Over [clientCtx] the node serves version [v] of its stores, of which the IBC module's
    is [root]: an ABCI query returns the value of the key, a proof of it in the tree of
    the store, and a proof of that tree in the tree of all stores, whose root is in the
    header of the next height. *)
Record serves (clientCtx : ClientContext) (v : Z) (stores : gmap string string) (root : KVStore) : Prop := {
  srv_root : tree_root TendermintSpec stores ≠ "";
  srv_query key : ∃ op op' p q,
    QueryABCI clientCtx (mkRequestQuery "store/ibc/key" v key true) =
      Ok (mkResponseQuery (root !! key) (Some [op; op']) v) ∧
    Unmarshal_CommitmentProof (op_Data op) = Some p ∧ Proof_nil p = false ∧
    Unmarshal_CommitmentProof (op_Data op') = Some q ∧ Proof_nil q = false ∧
    (∀ val, root !! key = Some val → proves_member tree_root IavlSpec root p key val) ∧
    (root !! key = None → proves_absence tree_root IavlSpec root p key) ∧
    proves_member tree_root TendermintSpec stores q "ibc" (tree_root IavlSpec root) }.

(** Heights the query supports. *)
Definition query_height (clientCtx : ClientContext) : Prop := (2 < cctx_Height clientCtx < 2 ^ 63)%Z.

Lemma proof_height H : (2 < H < 2 ^ 63)%Z → u64 (uint64_of_Z (H - 1) + 1) = Z.to_N H.
Proof.
  intros Hr. unfold u64, uint64_of_Z, two64. rewrite Z.mod_small by lia. rewrite N.mod_small; lia.
Qed.

Lemma QueryTendermintProof_run clientCtx stores root rev key :
  query_height clientCtx → serves clientCtx (cctx_Height clientCtx - 1) stores root →
  ParseChainID (cctx_ChainID clientCtx) = Ok rev →
  ∃ p q, QueryTendermintProof clientCtx key =
      Ok (root !! key, Marshal_MerkleProof (mkMerkleProof [p; q]), NewHeight rev (Z.to_N (cctx_Height clientCtx))) ∧
    (∀ val, root !! key = Some val → proves_member tree_root IavlSpec root p key val) ∧
    (root !! key = None → proves_absence tree_root IavlSpec root p key) ∧
    proves_member tree_root TendermintSpec stores q "ibc" (tree_root IavlSpec root).
Proof.
  intros Hh [_ Hq] Hrev. destruct (Hq key) as (op & op' & p & q & HQ & Hp & Hnp & Hq' & Hnq & H1 & H2 & H3).
  exists p, q. split; [|done]. unfold QueryTendermintProof. unfold query_height in Hh.
  rewrite (proj2 (Z.eqb_neq _ 0)) by lia. rewrite (proj2 (Z.leb_gt _ 2)) by lia. cbn [negb andb fail_if outcome_bind].
  change ("store/" +:+ "ibc" +:+ "/key") with "store/ibc/key". rewrite HQ. cbn [outcome_bind res_ProofOps res_Value res_Height].
  unfold commitmentutils.ConvertProofs. cbn [commitmentutils.convert_ops]. rewrite Hp, Hnp, Hq', Hnq. cbn [outcome_bind].
  rewrite Hrev. cbn [outcome_bind]. by rewrite proof_height.
Qed.

(** A query that needs a proof of a height it does not support is refused. *)
Lemma low_height_refused clientCtx key :
  cctx_Height clientCtx ≠ 0%Z → (cctx_Height clientCtx ≤ 2)%Z → QueryTendermintProof clientCtx key = Err fmt_Errorf.
Proof.
  intros H0 H2. unfold QueryTendermintProof. rewrite (proj2 (Z.eqb_neq _ 0)) by done. by rewrite (proj2 (Z.leb_le _ 2)).
Qed.
End query.

(** ** The client that verifies *)

(** The chain decodes the proofs that the relayer encodes. *)
Class ProofBytes {IC : Ics23} {TL : TendermintLib} {TC : TmCodec} {PC : ProofCodec} : Prop := {
  MerkleProof_roundtrip p : Unmarshal_MerkleProof (Marshal_MerkleProof p) = Some p;
  MerkleProof_bytes p : commitmenttypes.Proofs p ≠ [] → Marshal_MerkleProof p ≠ "" }.

Section relayed.
Context {SE : SdkEncoding} {IC : Ics23} {TL : TendermintLib} {TC : TmCodec} {UT : UpgradeTypes} {TM : TmChain}.
Context {PC : ProofCodec} {PB : ProofBytes} {PG : Pagination}.
#[local] Existing Instance tendermint.
Context {RN : RelayedNode} {CK : CapabilityKeeper} {AP : Application}.
Import commitmenttypes ibctmtypes ibctm ibcclient channelquery channelutils.
Variable tree_root : ProofSpec → gmap string string → string.

(** The client of connection [ce] is active, has the header of height [h], whose root is
    that of [stores], for longer than the delay of the connection, and the counterparty's
    IBC store is the one named "ibc". *)
Record follows (ctx : Context) (w : World) (ce : connectiontypes.ConnectionEnd) (h : Height) (stores : gmap string string)
    (cs : ibctmtypes.ClientState) (cons : ibctmtypes.ConsensusState) : Prop := {
  fol_client : client w (connectiontypes.ClientId ce) = Some cs;
  fol_active : tm_Status ctx (client_view (connectiontypes.ClientId ce) w) cs = Active;
  fol_specs : Client_ProofSpecs cs = GetSDKSpecs;
  fol_latest : LT (LatestHeight cs) h = false;
  fol_header : cons_at (client_view (connectiontypes.ClientId ce) w) h = Some cons;
  fol_root : GetHash (Root cons) = tree_root TendermintSpec stores;
  fol_delay : verifyDelayPeriodPassed ctx (client_view (connectiontypes.ClientId ce) w) h (connectiontypes.DelayPeriod ce)
                (block_delay (MaxExpectedTimePerBlock w) (connectiontypes.DelayPeriod ce)) = Ok tt;
  fol_prefix : KeyPrefix (counterparty_prefix ce) = "ibc" }.

(** A node of the counterparty serves its store [root] of one height, whose header the
    client of [ce] has. *)
Record relayed_from (clientCtx : ClientContext) (root : KVStore) (ctx : Context) (w : World)
    (ce : connectiontypes.ConnectionEnd) (h : Height) (cons : ibctmtypes.ConsensusState) : Prop := {
  rel_height : query_height clientCtx;
  rel_chain : ∃ rev, ParseChainID (cctx_ChainID clientCtx) = Ok rev ∧ h = NewHeight rev (Z.to_N (cctx_Height clientCtx));
  rel_node : ∃ stores cs, serves tree_root clientCtx (cctx_Height clientCtx - 1) stores root ∧ follows ctx w ce h stores cs cons }.

Section one.
Context (clientCtx : ClientContext) (root : KVStore) (ctx : Context) (w : World).
Context (ce : connectiontypes.ConnectionEnd) (h : Height) (cons : ibctmtypes.ConsensusState).
Hypothesis Hrel : relayed_from clientCtx root ctx w ce h cons.

(** The query of any key returns a proof of what is there at [h]. *)
Lemma relayed_query key :
  plain_key key = true →
  ∃ cs mp, QueryTendermintProof clientCtx key = Ok (root !! key, Marshal_MerkleProof mp, h) ∧
    client w (connectiontypes.ClientId ce) = Some cs ∧
    tm_Status ctx (client_view (connectiontypes.ClientId ce) w) cs = Active ∧
    produceVerificationArgs (client_view (connectiontypes.ClientId ce) w) cs h (Marshal_MerkleProof mp) = Ok (mp, cons) ∧
    verifyDelayPeriodPassed ctx (client_view (connectiontypes.ClientId ce) w) h (connectiontypes.DelayPeriod ce)
      (block_delay (MaxExpectedTimePerBlock w) (connectiontypes.DelayPeriod ce)) = Ok tt ∧
    ApplyPrefix (counterparty_prefix ce) (NewMerklePath [key]) = Ok (NewMerklePath ["ibc"; key]) ∧
    (∀ v, root !! key = Some v → v ≠ "" →
       VerifyMembership mp (Client_ProofSpecs cs) (Root cons) (NewMerklePath ["ibc"; key]) v = Ok tt) ∧
    (root !! key = None → VerifyNonMembership mp (Client_ProofSpecs cs) (Root cons) (NewMerklePath ["ibc"; key]) = Ok tt).
Proof.
  intros Hkey. destruct Hrel as [Hh (rev & Hrev & ->) (stores & cs & Hsrv & [Hc Ha Hs Hl Hd Hr Hdl Hp])].
  destruct (QueryTendermintProof_run tree_root _ _ _ _ key Hh Hsrv Hrev) as (p & q & HQ & Hm & Hn & Hq).
  exists cs, (mkMerkleProof [p; q]). split; [exact HQ|]. split_and!; [done|done| |done| | |].
  - unfold produceVerificationArgs. rewrite Hl. cbn [fail_if outcome_bind].
    rewrite bool_decide_eq_false_2 by (by apply MerkleProof_bytes). cbn [fail_if outcome_bind].
    rewrite MerkleProof_roundtrip. apply cons_at_GetConsensusState in Hd. by rewrite Hd.
  - unfold ApplyPrefix, MerklePrefix_Empty. rewrite Hp. done.
  - intros v Hv Hne. rewrite Hs. eapply chained_membership_complete; eauto. apply Hsrv.
  - intros Hv. rewrite Hs. eapply chained_nonmembership_complete; eauto. apply Hsrv.
Qed.

Lemma default_value (v : string) : no_value (Some v) = bool_decide (v = "").
Proof. unfold no_value. cbn [default from_option id]. apply bool_decide_ext. by destruct v. Qed.

(** The arguments of a verification, computed. *)
Ltac args_accepted Hargs Hd Hpre :=
  rewrite Hargs; cbn [outcome_bind]; rewrite Hd; cbn [outcome_bind];
  unfold verify_member; cbn [fst snd]; unfold counterparty_prefix in Hpre; rewrite Hpre; cbn [outcome_bind].

Lemma commitment_relayed p c n v :
  plain_ids p c → root !! PacketCommitmentKey p c n = Some v → v ≠ "" →
  ∃ prf, QueryPacketCommitment clientCtx p c n true = Ok (mkQueryPacketCommitmentResponse v (Some prf) h) ∧
    (conn_VerifyPacketCommitment ctx ce h prf p c n v w).2 = Ok tt.
Proof.
  intros Hids Hv Hne. destruct (plain_packet_paths p c n Hids) as (Hk & _).
  destruct (relayed_query _ Hk) as (cs & mp & HQ & Hc & Ha & Hargs & Hd & Hpre & Hm & _).
  exists (Marshal_MerkleProof mp). split.
  - cbn [QueryPacketCommitment]. unfold queryPacketCommitmentABCI.
    change (PacketCommitmentKey p c n) with (PacketCommitmentPath p c n) in *. rewrite HQ, Hv. cbn [outcome_bind].
    rewrite default_value, bool_decide_eq_false_2 by done. done.
  - apply (verification_run _ _ _ cs (λ cs bd, VerifyPacketCommitment ctx cs h _ bd _ (Marshal_MerkleProof mp) p c n v)); [done|done|].
    cbn. unfold tm_VerifyPacketCommitment. args_accepted Hargs Hd Hpre. by apply Hm.
Qed.

Lemma acknowledgement_relayed p c n ack :
  plain_ids p c → root !! PacketAcknowledgementKey p c n = Some (CommitAcknowledgement ack) →
  ∃ prf, QueryPacketAcknowledgement clientCtx p c n true =
      Ok (mkQueryPacketAcknowledgementResponse (CommitAcknowledgement ack) (Some prf) h) ∧
    (conn_VerifyPacketAcknowledgement ctx ce h prf p c n ack w).2 = Ok tt.
Proof.
  intros [Hp Hc] Hv. assert (CommitAcknowledgement ack ≠ "") as Hne by apply sha256_not_empty.
  assert (plain_key (PacketAcknowledgementPath p c n) = true) as Hk
    by (unfold_paths; by rewrite !plain_app, plain_number, Hp, Hc).
  destruct (relayed_query _ Hk) as (cs & mp & HQ & Hcl & Ha & Hargs & Hd & Hpre & Hm & _).
  exists (Marshal_MerkleProof mp). split.
  - cbn [QueryPacketAcknowledgement]. unfold queryPacketAcknowledgementABCI.
    change (PacketAcknowledgementKey p c n) with (PacketAcknowledgementPath p c n) in *. rewrite HQ, Hv. cbn [outcome_bind].
    rewrite default_value, bool_decide_eq_false_2 by done. done.
  - apply (verification_run _ _ _ cs (λ cs bd, VerifyPacketAcknowledgement ctx cs h _ bd _ (Marshal_MerkleProof mp) p c n ack)); [done|done|].
    cbn. unfold tm_VerifyPacketAcknowledgement. args_accepted Hargs Hd Hpre. by apply Hm.
Qed.

Lemma absence_relayed p c n :
  plain_ids p c → root !! PacketReceiptKey p c n = None →
  ∃ prf, QueryPacketReceipt clientCtx p c n true = Ok (mkQueryPacketReceiptResponse false (Some prf) h) ∧
    (conn_VerifyPacketReceiptAbsence ctx ce h prf p c n w).2 = Ok tt.
Proof.
  intros Hids Hv. destruct (plain_packet_paths p c n Hids) as (_ & Hk & _).
  destruct (relayed_query _ Hk) as (cs & mp & HQ & Hcl & Ha & Hargs & Hd & Hpre & _ & Hn).
  exists (Marshal_MerkleProof mp). split.
  - cbn [QueryPacketReceipt]. unfold queryPacketReceiptABCI.
    change (PacketReceiptKey p c n) with (PacketReceiptPath p c n) in *. by rewrite HQ, Hv.
  - apply (verification_run _ _ _ cs (λ cs bd, VerifyPacketReceiptAbsence ctx cs h _ bd _ (Marshal_MerkleProof mp) p c n)); [done|done|].
    cbn. unfold tm_VerifyPacketReceiptAbsence. args_accepted Hargs Hd Hpre. by apply Hn.
Qed.

(** cosmos-sdk's encoding of a sequence is the one of [encoding/binary]. *)
Lemma next_recv_relayed p c n :
  Uint64ToBigEndian n = be8_encode n → (n < two64)%N →
  plain_ids p c → root !! NextSequenceRecvKey p c = Some (Uint64ToBigEndian n) →
  ∃ prf, QueryNextSequenceReceive clientCtx p c true = Ok (mkQueryNextSequenceReceiveResponse n (Some prf) h) ∧
    (conn_VerifyNextSequenceRecv ctx ce h prf p c n w).2 = Ok tt.
Proof.
  intros Hbe Hn64 Hids Hv. destruct (plain_packet_paths p c n Hids) as (_ & _ & Hk).
  pose proof (be_length n) as Hl. assert (Uint64ToBigEndian n ≠ "") as Hne by (intros E; by rewrite E in Hl).
  destruct (relayed_query _ Hk) as (cs & mp & HQ & Hcl & Ha & Hargs & Hd & Hpre & Hm & _).
  exists (Marshal_MerkleProof mp). split.
  - cbn [QueryNextSequenceReceive]. unfold queryNextSequenceRecvABCI.
    change (NextSequenceRecvKey p c) with (NextSequenceRecvPath p c) in *. rewrite HQ, Hv. cbn [outcome_bind].
    rewrite default_value, bool_decide_eq_false_2 by done. cbn [fail_if outcome_bind default from_option].
    unfold BigEndian_Uint64. cbn [id]. rewrite Hl. cbn [Nat.ltb Nat.leb].
    pose proof (substring_all (Uint64ToBigEndian n)) as Hsub. rewrite Hl in Hsub. rewrite Hsub, Hbe, be8_roundtrip by done. done.
  - apply (verification_run _ _ _ cs (λ cs bd, VerifyNextSequenceRecv ctx cs h _ bd _ (Marshal_MerkleProof mp) p c n)); [done|done|].
    cbn. unfold tm_VerifyNextSequenceRecv. args_accepted Hargs Hd Hpre. by apply Hm.
Qed.
End one.

(** C7: A relayer can deliver a packet.  The sending chain has committed the packet in the
    store [root] that its node serves at one height; the receiving chain's Tendermint
    client has the header of the next height and the delay of the connection has passed;
    the receiving end is open, the packet has not timed out and was not received (and is
    the next one on an ORDERED channel).  Then the query for its commitment succeeds, and
    the receiving chain accepts the packet with the proof and the height it returns. *)
Theorem relayed_packet_received clientCtx root ctx cap pkt w ch ce h cons self n :
  receiving_end w cap pkt ch ce → relayed_from clientCtx root ctx w ce h cons →
  plain_ids (SourcePort pkt) (SourceChannel pkt) →
  root !! PacketCommitmentKey (SourcePort pkt) (SourceChannel pkt) (Sequence pkt) = Some (CommitPacket pkt) →
  GetSelfHeight ctx = Ok self → height_not_reached self (TimeoutHeight pkt) →
  time_not_reached (uint64_of_Z (BlockTime ctx)) (TimeoutTimestamp pkt) →
  not_received w ch pkt n → (Channel_Ordering ch = ORDERED → n = Sequence pkt) → (n < two64)%N →
  ∃ prf w', QueryPacketCommitment clientCtx (SourcePort pkt) (SourceChannel pkt) (Sequence pkt) true =
      Ok (mkQueryPacketCommitmentResponse (CommitPacket pkt) (Some prf) h) ∧
    RecvPacket ctx cap pkt prf h w = (w', Ok tt).
Proof.
  intros He Hrel Hids Hroot ? ? ? ? ? ?.
  destruct (commitment_relayed _ _ _ _ _ _ _ Hrel _ _ _ _ Hids Hroot (CommitPacket_not_empty pkt)) as (prf & HQ & Hver).
  destruct (receive_run ctx cap pkt prf h w ch ce self n) as [w' E]; try done. by exists prf, w'.
Qed.

(** What the store of the receiving chain says about a packet that was not received, and
    the query that proves it. *)
Definition absent_in (root : KVStore) (ch : Channel) (pkt : Packet) (n : N) : Prop :=
  match Channel_Ordering ch with
  | UNORDERED => root !! PacketReceiptKey (DestinationPort pkt) (DestinationChannel pkt) (Sequence pkt) = None
  | ORDERED => root !! NextSequenceRecvKey (DestinationPort pkt) (DestinationChannel pkt) = Some (Uint64ToBigEndian n) ∧
      (n ≤ Sequence pkt)%N
  | NONE => False
  end.
Definition absence_queried (clientCtx : ClientContext) (ch : Channel) (pkt : Packet) (n : N) (prf : string) (h : Height) : Prop :=
  match Channel_Ordering ch with
  | UNORDERED => QueryPacketReceipt clientCtx (DestinationPort pkt) (DestinationChannel pkt) (Sequence pkt) true =
      Ok (mkQueryPacketReceiptResponse false (Some prf) h)
  | ORDERED => QueryNextSequenceReceive clientCtx (DestinationPort pkt) (DestinationChannel pkt) true =
      Ok (mkQueryNextSequenceReceiveResponse n (Some prf) h)
  | NONE => False
  end.

(** C8: A relayer can settle a packet.  The sending chain still has the commitment, its
    Tendermint client has the header of the height that a node of the receiving chain
    serves, and the delay has passed.  If at that height a timeout of the packet was
    reached and it was not received (no receipt, or on an ORDERED channel a next sequence
    that has not passed it), the query for the receipt or the next sequence returns a
    proof with which the packet times out.  If the store at that height holds the
    acknowledgement, the query for it returns a proof with which the sending chain
    accepts it (in order on an ORDERED channel).  Both remove the commitment. *)
Theorem relayed_packet_settled clientCtx root ctx cap pkt w ch ce h cons :
  sending_end w cap pkt ch ce → relayed_from clientCtx root ctx w ce h cons →
  plain_ids (DestinationPort pkt) (DestinationChannel pkt) →
  consensus w (connectiontypes.ClientId ce) h = Some (cons : @Exported.ConsensusState tendermint) →
  (∀ n, Uint64ToBigEndian n = be8_encode n) →
  (∀ n, absent_in root ch pkt n → (n < two64)%N →
     ¬ (height_not_reached h (TimeoutHeight pkt) ∧
        time_not_reached (ibctmtypes.GetTimestamp cons) (TimeoutTimestamp pkt)) →
     ∃ prf w1 w2, absence_queried clientCtx ch pkt n prf h ∧
       TimeoutPacket ctx pkt prf h n w = (w1, Ok tt) ∧ TimeoutExecuted cap pkt w1 = (w2, Ok tt) ∧
       commitment_at w2 (SourcePort pkt) (SourceChannel pkt) (Sequence pkt) = None) ∧
  (∀ ack, root !! PacketAcknowledgementKey (DestinationPort pkt) (DestinationChannel pkt) (Sequence pkt) =
       Some (CommitAcknowledgement ack) →
     (Channel_Ordering ch = ORDERED → next_ack w (SourcePort pkt) (SourceChannel pkt) = Some (Sequence pkt)) →
     ∃ prf w', QueryPacketAcknowledgement clientCtx (DestinationPort pkt) (DestinationChannel pkt) (Sequence pkt) true =
         Ok (mkQueryPacketAcknowledgementResponse (CommitAcknowledgement ack) (Some prf) h) ∧
       AcknowledgePacket ctx cap pkt ack prf h w = (w', Ok tt) ∧
       commitment_at w' (SourcePort pkt) (SourceChannel pkt) (Sequence pkt) = None).
Proof.
  intros He Hrel Hids Hcons Hbe. split.
  - intros n Habs Hn Hto.
    assert (∃ prf, absence_queried clientCtx ch pkt n prf h ∧ not_received_accepted ctx ce ch pkt prf h n w) as (prf & HQ & Hacc).
    { unfold absent_in in Habs. unfold absence_queried, not_received_accepted. destruct (Channel_Ordering ch); [done| |].
      - by eapply absence_relayed.
      - destruct Habs as [Hnext Hle]. destruct (next_recv_relayed _ _ _ _ _ _ _ Hrel _ _ _ (Hbe n) Hn Hids Hnext) as (prf & ? & ?).
        by exists prf. }
    destruct (timeout_run _ _ _ _ _ _ _ _ _ _ He Hcons Hto Hacc) as (w1 & w2 & E1 & E2 & Hgone). by exists prf, w1, w2.
  - intros ack Hack Hord. destruct (acknowledgement_relayed _ _ _ _ _ _ _ Hrel _ _ _ _ Hids Hack) as (prf & HQ & Hver).
    destruct (acknowledge_run _ _ _ _ _ _ _ _ _ He Hord Hver) as (w' & E & Hgone). by exists prf, w'.
Qed.
End relayed.

(** ** Headers *)
Section headers.
Context {IC : Ics23} {TL : TendermintLib} {PG : Pagination} {LC : LightClient} {RN : RelayedNode} {CD : Codec}.
Import clientutils ibctmtypes.

(** A node whose headers carry the time, the root and the hash of the validators of the
    next height that it reports. *)
Definition consistent_node (clientCtx : ClientContext) : Prop :=
  ∀ node height commit vals set, GetNode clientCtx = Ok node → node_Commit node height = Ok commit →
    node_Validators node (height + 1) 1 10000 = Ok vals → NewValidatorSet vals = Ok set →
    ∃ hd, sh_Header (SignedHeader_ToProto commit) = Some hd ∧ hdr_Time hd = SignedHeader_Time commit ∧
      hdr_AppHash hd = SignedHeader_AppHash commit ∧ hdr_NextValidatorsHash hd = ValidatorSet_Hash set.

(** The consensus state a client gets from the header that is queried is the one that is
    queried as the node's own, at the same height. *)
Lemma queried_header_agrees clientCtx hd height cons height' :
  consistent_node clientCtx →
  QueryTendermintHeader clientCtx = Ok (hd, height) → QuerySelfConsensusState clientCtx = Ok (cons, height') →
  height' = height ∧ Header_ConsensusState hd = Ok cons.
Proof.
  intros Hnode. unfold QueryTendermintHeader, QuerySelfConsensusState. intros E1 E2.
  destruct (GetNode clientCtx) as [node| |] eqn:En; [|done..]. cbn [outcome_bind] in E1, E2.
  destruct (header_height clientCtx node) as [z| |]; [|done..]. cbn [outcome_bind] in E1, E2.
  destruct (node_Commit node z) as [commit| |] eqn:Ec; [|done..]. cbn [outcome_bind] in E1, E2.
  destruct (node_Validators node (z + 1) 1 10000) as [vals| |] eqn:Ev; [|done..]. cbn [outcome_bind] in E2.
  destruct (NewValidatorSet vals) as [set| |] eqn:Es; [|done..]. cbn [outcome_bind] in E2.
  destruct (Hnode _ _ _ _ _ En Ec Ev Es) as (h & Hh & Ht & Hr & Hv). repeat out_inv. simplify_eq.
  split; [done|]. unfold Header_ConsensusState, header_content. simpl. rewrite Hh. simpl. by rewrite Ht, Hr, Hv.
Qed.
End headers.

(** ** Timeouts of a transfer *)
Section timeouts.
Context {LC : LightClient}.
Import transfercli.

(** A relative timeout that does not overflow lies after the latest state of the client,
    so that sending the packet is not refused for its timeout. *)
Lemma relative_height_later height rel :
  Height_IsZero rel = false → (RevisionNumber height + RevisionNumber rel < two64)%N →
  (RevisionHeight height + RevisionHeight rel < two64)%N → LT height (absolute_height height rel) = true.
Proof.
  intros Hz H1 H2. unfold absolute_height. rewrite Hz. cbn [negb]. apply LT_spec. unfold height_lt, u64. simpl.
  rewrite !N.mod_small by done. apply not_true_iff_false in Hz. rewrite Height_IsZero_spec in Hz.
  destruct rel as [r q]. simpl in *. destruct (N.eq_dec r 0%N); [|lia]. destruct (N.eq_dec q 0%N); [|lia]. subst. by destruct Hz.
Qed.
Lemma relative_timestamp_later now cons t t' :
  t ≠ 0%N → absolute_timestamp now (Some cons) t = Ok t' →
  (GetTimestamp cons + t < two64)%N → (uint64_of_Z now + t < two64)%N →
  (GetTimestamp cons < t')%N ∧ (uint64_of_Z now < t')%N ∧ (0 < now)%Z.
Proof.
  intros Ht E H1 H2. unfold absolute_timestamp in E. rewrite (proj2 (N.eqb_neq _ _) Ht) in E. cbn [negb must_some outcome_bind] in E.
  destruct (Z.ltb_spec 0 now); [|done]. unfold u64 in E. rewrite !N.mod_small in E by done.
  destruct (N.ltb_spec (GetTimestamp cons) (uint64_of_Z now)); injection E as <-; lia.
Qed.
(** One that overflows wraps around. *)
Lemma relative_timestamp_wraps now cons t :
  (0 < now)%Z → (uint64_of_Z now ≤ GetTimestamp cons)%N → (t < two64)%N → (GetTimestamp cons < two64)%N →
  (two64 ≤ GetTimestamp cons + t)%N →
  absolute_timestamp now (Some cons) t = Ok (GetTimestamp cons + t - two64)%N.
Proof.
  intros Hn Hle Ht Hc Hov. unfold absolute_timestamp.
  rewrite (proj2 (N.eqb_neq t 0%N)) by (intros ->; unfold two64 in *; lia). cbn [negb must_some outcome_bind].
  rewrite (proj2 (Z.ltb_lt _ _) Hn), (proj2 (N.ltb_ge _ _) Hle). f_equal. unfold u64. symmetry. apply (N.mod_unique _ _ 1); lia.
Qed.
End timeouts.
