(* ===== verification/RelayerWitness.v ===== *)
(** * A relayer between two concrete chains

    Nodes of two chains with Tendermint clients of each other, and a packet that is
    delivered to one and timed out on the other with the proofs the nodes return. *)
From S2P Require Import Prelude GoMonad Errors Sha256 Height Host Sdk ConnectionTypes.
From S2P Require Import ChannelTypes.
From S2P Require Import Exported ClientKeeper ConnectionKeeper ChannelKeeper FullNode.
From S2P Require Import ChannelSpec PacketProperties TwoChain.
From S2P Require Import Liveness Commitment TendermintTypes TendermintStore TendermintClient.
From S2P Require Import TendermintIndex.
From S2P Require Import TendermintProperties TendermintSafety ToyTendermint ClientTypes.
From S2P Require Import Queries ClientQueries CoreServer RelayerQueries.
From S2P Require Import RelayerProperties.

Module RelayerWitness.
Import ToyTm commitmenttypes ibctmtypes channelquery channelutils.
#[local] Existing Instance tendermint.
#[local] Existing Instance toy_caps.
#[local] Existing Instance FullNode.toy_app.
#[local] Existing Instance toy_pages.

(** Chain A has committed the packet; chain B has not received it. *)
Definition packet : Packet := NewPacket "data" 1 "transfer" "channel-0" "transfer" "channel-1" (NewHeight 1 31) 0.
Definition rootA : gmap string string := {[ PacketCommitmentKey "transfer" "channel-0" 1 := CommitPacket packet ]}.
Definition rootB : gmap string string := {[ NextSequenceRecvKey "transfer" "channel-1" := Uint64ToBigEndian 1 ]}.
Definition stores (root : gmap string string) : gmap string string := {[ "ibc" := toy_root false root ]}.

(** Their nodes: a proof is the content of the tree. *)
Definition served (chain : string) : gmap string string := if bool_decide (chain = "chainA-1") then rootA else rootB.
Definition toy_answer (root : gmap string string) (req : RequestQuery) : ResponseQuery :=
  let p := if bool_decide (root !! req_Data req = None) then ToyNonexist root else ToyExist root in
  mkResponseQuery (root !! req_Data req)
    (Some [mkProofOp "ics23:iavl" (req_Data req) (enc p); mkProofOp "ics23:simple" "ibc" (enc (ToyExist (stores root)))])
    (req_Height req).
#[local] Instance toy_proofs : ProofCodec := {|
  Unmarshal_CommitmentProof := (dec : string → option ToyProof);
  Proof_nil := λ _, false;
  Marshal_MerkleProof := enc |}.
#[local] Instance toy_node : RelayedNode := {|
  QueryABCI := λ c req,
    if bool_decide (req_Path req = "store/ibc/key") then Ok (toy_answer (served (cctx_ChainID c)) req) else Err (External "path");
  grpc_Invoke := λ _ _ _, Err (External "not connected");
  RpcNode := unit;
  GetNode := λ _, Err (External "not connected");
  ABCIInfo_LastBlockHeight := λ _, Err (External "not connected");
  node_Commit := λ _ _, Err (External "not connected");
  TmValidator := unit;
  node_Validators := λ _ _ _ _, Err (External "not connected");
  SignedHeader_ToProto := λ _, mkSignedHeader None None;
  SignedHeader_Time := λ _, 0%Z;
  SignedHeader_AppHash := λ _, "";
  NewValidatorSet := λ _, Err (External "not connected");
  ValidatorSet_ToProto := λ _, Err (External "not connected") |}.
#[local] Instance toy_bytes : ProofBytes.
Proof.
  split; [apply dec_enc|]. intros p Hp E. pose proof (dec_enc p) as Hd. change (enc p = "") in E. rewrite E in Hd.
  assert (dec "" = Some (mkMerkleProof []) ∨ dec "" = @None MerkleProof) as [E0|E0] by (vm_compute; tauto).
  - rewrite E0 in Hd. injection Hd as <-. by apply Hp.
  - by rewrite E0 in Hd.
Qed.

Lemma toy_serves chain v :
  serves toy_root (mkClientContext (v + 1) chain) v (stores (served chain)) (served chain).
Proof.
  split; [done|]. intros key. set (root := served chain).
  exists (mkProofOp "ics23:iavl" key (enc (if bool_decide (root !! key = None) then ToyNonexist root else ToyExist root))),
    (mkProofOp "ics23:simple" "ibc" (enc (ToyExist (stores root)))),
    (if bool_decide (root !! key = None) then ToyNonexist root else ToyExist root), (ToyExist (stores root)).
  split_and!; [done|apply dec_enc|done|apply dec_enc|done|..].
  - intros val Hv. rewrite bool_decide_eq_false_2 by (by rewrite Hv). split; [done|done|]. simpl.
    by rewrite !bool_decide_eq_true_2.
  - intros Hv. rewrite bool_decide_eq_true_2 by done. split; [done|done|]. simpl. by rewrite !bool_decide_eq_true_2.
  - split; [done|done|]. simpl. rewrite bool_decide_eq_true_2 by done. cbn [andb]. apply bool_decide_eq_true_2.
    unfold stores. by rewrite lookup_singleton_eq.
Qed.

(** A chain with a channel and a client of the other chain at height [h]. *)
Definition clientID : string := "07-tendermint-0".
Definition connection (counterparty : string) : connectiontypes.ConnectionEnd :=
  connectiontypes.NewConnectionEnd connectiontypes.OPEN clientID
    (connectiontypes.NewCounterparty clientID counterparty (NewMerklePrefix "ibc")) [connectiontypes.DefaultIBCVersion] 0.
Definition channel (conn counterparty : string) : Channel :=
  NewChannel OPEN UNORDERED (NewCounterparty "transfer" counterparty) [conn] "ics20-1".
Definition client_of (chain : string) (h : Height) : ClientState :=
  NewClientState chain (mkFraction 1 3) 10000 20000 10 h [Some false; Some true] [] true true.
Definition header_of (root : gmap string string) : ConsensusState :=
  NewConsensusState 1000 (NewMerkleRoot (toy_root true (stores root))) "vals".
Definition chain_store (chain conn conn' chan chan' : string) (h : Height) (root : gmap string string) : gmap string string :=
  list_to_map [
    (FullClientStateKey clientID, enc (client_of chain h));
    (FullConsensusStateKey clientID h, enc (header_of root));
    (FullClientKey clientID (tmstore.ProcessedTimeKey h), Uint64ToBigEndian 1000);
    (FullClientKey clientID (tmstore.ProcessedHeightKey h), "1-20");
    (ConnectionKey conn, enc (connection conn'));
    (ChannelKey "transfer" chan, enc (channel conn chan'))].
Definition chain_caps (chan : string) : ToyCaps :=
  <[ChannelCapabilityPath "transfer" chan := (1%N, ["ibc"; "transfer"])]> ∅.
Definition world (s : gmap string string) (chan : string) : World := @mkWorld toy_caps FullNode.toy_app s (chain_caps chan) ∅ [] 30 [].

(** B's client of A is at height 21, A's client of B at height 31. *)
Definition hA : Height := NewHeight 1 21.
Definition hB : Height := NewHeight 1 31.
Definition b : World := world (chain_store "chainA-1" "connection-5" "connection-0" "channel-1" "channel-0" hA rootA) "channel-1".
Definition a : World :=
  world (<[PacketCommitmentKey "transfer" "channel-0" 1 := CommitPacket packet]>
    (chain_store "chainB-1" "connection-0" "connection-5" "channel-0" "channel-1" hB rootB)) "channel-0".
Definition ctxA : Context := mkContext "chainA-1" 40 1100 false false.
Definition ctxB : Context := mkContext "chainB-1" 25 1100 false false.
Definition nodeA : ClientContext := mkClientContext 21 "chainA-1".
Definition nodeB : ClientContext := mkClientContext 31 "chainB-1".

Lemma b_follows : relayed_from toy_root nodeA rootA ctxB b (connection "connection-0") hA (header_of rootA).
Proof.
  split; [done|exists 1%N; split; vm_compute; reflexivity|].
  exists (stores rootA), (client_of "chainA-1" hA). split; [apply (toy_serves "chainA-1" 20)|].
  split; try (vm_compute; reflexivity).
Qed.
Lemma a_follows : relayed_from toy_root nodeB rootB ctxA a (connection "connection-5") hB (header_of rootB).
Proof.
  split; [done|exists 1%N; split; vm_compute; reflexivity|].
  exists (stores rootB), (client_of "chainB-1" hB). split; [apply (toy_serves "chainB-1" 30)|].
  split; try (vm_compute; reflexivity).
Qed.

Lemma b_receives : receiving_end b 1%N packet (channel "connection-5" "channel-0") (connection "connection-0").
Proof.
  split; [split; vm_compute; reflexivity|done|vm_compute; reflexivity| |done].
  exists "connection-5". split; vm_compute; reflexivity.
Qed.
Lemma a_sends : sending_end a 1%N packet (channel "connection-0" "channel-1") (connection "connection-5").
Proof.
  split; [split; vm_compute; reflexivity|done|vm_compute; reflexivity| |done|vm_compute; reflexivity].
  exists "connection-0". split; vm_compute; reflexivity.
Qed.

(** B accepts the packet with the proof that A's node returns. *)
Lemma relayed_packet_received_witness :
  ∃ prf w', QueryPacketCommitment nodeA "transfer" "channel-0" 1 true =
      Ok (mkQueryPacketCommitmentResponse (CommitPacket packet) (Some prf) hA) ∧
    RecvPacket ctxB 1%N packet prf hA b = (w', Ok tt).
Proof.
  apply (relayed_packet_received (IC := toy_ics23) (CK := toy_caps) (AP := FullNode.toy_app) (RN := toy_node) toy_root nodeA rootA ctxB 1%N packet b (channel "connection-5" "channel-0")
    (connection "connection-0") hA (header_of rootA) (NewHeight 1 25) 0%N).
  - exact b_receives.
  - exact b_follows.
  - split; vm_compute; reflexivity.
  - apply lookup_singleton_eq.
  - vm_compute; reflexivity.
  - right. right. split; [reflexivity|vm_compute; reflexivity].
  - left. reflexivity.
  - unfold not_received. vm_compute. reflexivity.
  - discriminate.
  - vm_compute; reflexivity.
Defined.

(** A times the packet out with the proof that B's node returns. *)
Lemma relayed_packet_settled_witness :
  ∃ prf w1 w2, QueryPacketReceipt nodeB "transfer" "channel-1" 1 true = Ok (mkQueryPacketReceiptResponse false (Some prf) hB) ∧
    TimeoutPacket ctxA packet prf hB 0 a = (w1, Ok tt) ∧ TimeoutExecuted 1%N packet w1 = (w2, Ok tt) ∧
    commitment_at w2 "transfer" "channel-0" 1 = None.
Proof.
  apply (proj1 (relayed_packet_settled (IC := toy_ics23) (CK := toy_caps) (AP := FullNode.toy_app) (RN := toy_node) toy_root nodeB rootB ctxA 1%N packet a (channel "connection-0" "channel-1")
    (connection "connection-5") hB (header_of rootB) a_sends a_follows
    (conj eq_refl eq_refl) ltac:(vm_compute; reflexivity) ltac:(reflexivity)) 0%N).
  - vm_compute. reflexivity.
  - vm_compute. reflexivity.
  - intros [[H|[H|[_ H]]] _]; [discriminate H|vm_compute in H; discriminate H..].
Defined.
End RelayerWitness.
