(* ===== verification/AppModules.v ===== *)
(** * The modules of an application

    [module.go] of the core module, of the transfer module and of interchain accounts: what
    the module manager of a chain calls.  A genesis state is JSON here; a module registers
    its services and migrations; the core module runs at the start of every block. *)
From S2P Require Import Prelude GoMonad Errors Sha256 Height Host Sdk ConnectionTypes.
From S2P Require Import ChannelTypes Exported ClientKeeper ConnectionKeeper PortKeeper.
From S2P Require Import ChannelKeeper ChannelSpec ChannelView ChannelSystem Commitment.
From S2P Require Import TendermintTypes.
From S2P Require Import TendermintStore TendermintClient Solomachine Localhost Clients.
From S2P Require Import ClientTypes.
From S2P Require Import Router TransferTypes TransferKeeper TransferGenesis IcaTypes IcaKeeper.
From S2P Require Import ChannelGenesis CoreGenesis CoreGenesisProperties ChannelExport.
From S2P Require Import SelfChain FullNode Scenario Migrations.

(** ** cosmos-sdk *)

(** The JSON encoding of a genesis state. *)
Class JSONCodec (A : Type) := {
  Genesis_MarshalJSON : A → string;
  Genesis_UnmarshalJSON : string → option A;
  JSON_roundtrip x : Genesis_UnmarshalJSON (Genesis_MarshalJSON x) = Some x }.
Definition MustUnmarshalGenesis `{JSONCodec A} (bz : string) : outcome A := must_some (Genesis_UnmarshalJSON bz).

(** [abci.ValidatorUpdate]: the modules return none. *)
Inductive ValidatorUpdate : Type := mkValidatorUpdate (pubKey : string) (power : Z).

(** What a module registers with the configurator: services, by the package they are of,
    and migrations from a version of the module. *)
Inductive registration (H : Type) : Type :=
  | Reg_MsgServer (service : string)
  | Reg_QueryServer (service : string)
  | Reg_Migration (module : string) (fromVersion : N) (handler : H).
Arguments Reg_MsgServer {_} _.
Arguments Reg_QueryServer {_} _.
Arguments Reg_Migration {_} _ _ _.

(** ** [core/module.go] *)
Module coremodule.
Definition ModuleName : string := "ibc".
Definition Name : string := ModuleName.
Definition QuerierRoute : string := ModuleName.
Definition ConsensusVersion : N := 2.

Section basic.
Context {LC : LightClient} {JS : JSONCodec coregenesis.GenesisState}.
Definition DefaultGenesis : string := Genesis_MarshalJSON coregenesis.DefaultGenesisState.
Definition ValidateGenesis (bz : string) : outcome unit :=
  match Genesis_UnmarshalJSON bz with
  | None => Err fmt_Errorf
  | Some gs => coregenesis.GenesisState_Validate gs
  end.
End basic.

Section genesis.
Context {SE : SdkEncoding} {LC : LightClient} {CD : Codec} {CK : CapabilityKeeper} {AP : Application}
  {JS : JSONCodec coregenesis.GenesisState}.

(** The keeper is the World; [NewAppModule] leaves the flag unset. *)
Record AppModule := mkAppModule { createLocalhost : bool }.
Definition NewAppModule : AppModule := mkAppModule false.

Definition InitGenesis (am : AppModule) (bz : string) : M (list ValidatorUpdate) :=
  match Genesis_UnmarshalJSON bz with
  | None => panic
  | Some gs => coregenesis.InitGenesis (createLocalhost am) gs ;;; ret []
  end.
Definition ExportGenesis : M string := let! gs := coregenesis.ExportGenesis in ret (Genesis_MarshalJSON gs).
Definition EndBlock : M (list ValidatorUpdate) := ret [].
End genesis.

Section services.
Context {SE : SdkEncoding} {IC : Ics23} {TL : TendermintLib} {TC : TmCodec} {UT : UpgradeTypes} {SK : SoloCrypto}
  {SD : SoloCodec AnyClientState AnyConsensusState} {LD : LocalCodec AnyClientState} {LG : v100.LegacyCodec}
  {STK : StakingKeeper}.
#[local] Existing Instance ibc_clients.
Context {CD : @Codec ibc_clients} {CK : CapabilityKeeper} {UK : UpgradeKeeper} {AP : Application} {UA : UpgradeApp}.

Definition RegisterQueryService : list (registration (Context → M unit)) :=
  [Reg_QueryServer "clienttypes"; Reg_QueryServer "connectiontypes"; Reg_QueryServer "channeltypes"].
Definition RegisterServices : list (registration (Context → M unit)) :=
  [Reg_MsgServer "clienttypes"; Reg_MsgServer "connectiontypes"; Reg_MsgServer "channeltypes"] ++
  RegisterQueryService ++
  [Reg_Migration ModuleName 1 v100.client_Migrate1to2].

Definition BeginBlock (ctx : Context) : M unit := selfchain.BeginBlocker ctx.
End services.
End coremodule.

(** ** [apps/transfer/module.go] *)
Module transfermodule.
Import transfertypes transfer transfergenesis.
Definition Name : string := transfertypes.ModuleName.
Definition QuerierRoute : string := transfertypes.ModuleName.
Definition ConsensusVersion : N := 1.
Definition RegisterServices {H} : list (registration H) := [Reg_MsgServer "transfer"; Reg_QueryServer "transfer"].

Section basic.
Context {SY : SdkTypes} {JS : JSONCodec GenesisState}.
Definition DefaultGenesis : string := Genesis_MarshalJSON DefaultGenesisState.
Definition ValidateGenesis (bz : string) : outcome unit :=
  match Genesis_UnmarshalJSON bz with
  | None => Err fmt_Errorf
  | Some gs => GenesisState_Validate gs
  end.
End basic.

Section keeper.
Context {SE : SdkEncoding} {LC : LightClient} {CD : Codec} {CK : CapabilityKeeper}
  {SY : SdkTypes} {BK : BankKeeper} {TC : TransferCodec} {BE : Bech32} {JS : JSONCodec GenesisState}.
Definition InitGenesis (data : string) : M (list ValidatorUpdate) :=
  let! genesisState := lift (MustUnmarshalGenesis data) in
  init_genesis genesisState ;;; ret [].
Definition ExportGenesis : M string := let! gs := transfergenesis.ExportGenesis in ret (Genesis_MarshalJSON gs).
Definition BeginBlock : M unit := ret tt.
Definition EndBlock : M (list ValidatorUpdate) := ret [].
End keeper.
End transfermodule.

(** ** [apps/27-interchain-accounts/module.go] *)
Module icaappmodule.
Import icatypes icacodec.
Definition Name : string := icatypes.ModuleName.
Definition QuerierRoute : string := icatypes.ModuleName.
Definition ConsensusVersion : N := 1.
Definition RegisterServices {H} : list (registration H) := [Reg_QueryServer "controllertypes"; Reg_QueryServer "hosttypes"].

Section basic.
Context {BE : Bech32} {JS : JSONCodec GenesisState}.
Definition DefaultGenesis : string := Genesis_MarshalJSON icacodec.DefaultGenesis.
Definition ValidateGenesis (bz : string) : outcome unit :=
  match Genesis_UnmarshalJSON bz with
  | None => Err fmt_Errorf
  | Some gs => GenesisState_Validate gs
  end.
End basic.

Section keeper.
Context {SE : SdkEncoding} {LC : LightClient} {CD : Codec} {CK : CapabilityKeeper}
  {BE : Bech32} {AK : AccountKeeper} {AP : Application} {IA : IcaApp} {JS : JSONCodec GenesisState}.

(** Whether the keepers are set. *)
Record AppModule := NewAppModule { controllerKeeper : bool; hostKeeper : bool }.

Definition InitGenesis (am : AppModule) (data : string) : M (list ValidatorUpdate) :=
  let! genesisState := lift (MustUnmarshalGenesis data) in
  icamodule.InitGenesis (controllerKeeper am) (hostKeeper am) genesisState ;;; ret [].
Definition ExportGenesis (am : AppModule) : M string :=
  let! gs := icamodule.ExportGenesis (controllerKeeper am) (hostKeeper am) in ret (Genesis_MarshalJSON gs).
Definition BeginBlock : M unit := ret tt.
Definition EndBlock : M (list ValidatorUpdate) := ret [].
End keeper.
End icaappmodule.

(** ** Theorems *)

(** A computation that succeeds from every state. *)
Section succeeds.
Context {SE : SdkEncoding} {LC : LightClient} {CD : Codec} {CK : CapabilityKeeper} {AP : Application}.

Definition succeeds {A} (m : M A) : Prop := ∀ w, ∃ w' a, m w = (w', Ok a).

Lemma succeeds_ret {A} (a : A) : succeeds (ret a).
Proof. intros w. by exists w, a. Qed.
Lemma succeeds_bind {A B} (m : M A) (k : A → M B) : succeeds m → (∀ a, succeeds (k a)) → succeeds (bind m k).
Proof.
  intros Hm Hk w. destruct (Hm w) as (w1 & a & E). destruct (Hk a w1) as (w2 & b & E'). exists w2, b.
  by rewrite (bind_run _ _ _ _ _ E).
Qed.
Lemma succeeds_modify f : succeeds (modify f : M unit).
Proof. intros w. by exists (f w), tt. Qed.
Lemma succeeds_set_store k v : succeeds (set_store k v).
Proof. intros w. by eexists _, _. Qed.
Lemma succeeds_client_write clientID f : succeeds (on_client_store clientID (modify f) : M unit).
Proof. intros w. by eexists _, _. Qed.
Lemma succeeds_some {A} (o : option A) : is_Some o → succeeds (some_or_panic o : M A).
Proof. intros [a ->]. apply succeeds_ret. Qed.
Lemma succeeds_must o : o = Ok tt → succeeds (must (lift o) : M unit).
Proof. intros ->. intros w. by exists w, tt. Qed.
Lemma succeeds_for_all {A} (f : A → M unit) l : Forall (λ x, succeeds (f x)) l → succeeds (for_all f l).
Proof. induction 1; [apply succeeds_ret|by apply succeeds_bind]. Qed.
Lemma succeeds_writes {A} (f : A → M unit) l : (∀ x, succeeds (f x)) → succeeds (for_all f l).
Proof. intros Hf. apply succeeds_for_all, list.Forall_forall. auto. Qed.
End succeeds.
#[local] Hint Resolve succeeds_ret succeeds_modify succeeds_set_store succeeds_client_write : ibc.

(** What validation of the submodules' states establishes. *)
Section validated.
Context {SE : SdkEncoding} {LC : LightClient} {CD : Codec} {CK : CapabilityKeeper} {AP : Application}.

Lemma validated_clients params l max seen r :
  validate_clients params l max seen = Ok r →
  Forall (λ c, ∃ cs, cached_client (Identified_ClientState c) = Some cs ∧ IsAllowedClient params (ClientType cs) = true) l.
Proof.
  revert max seen. induction l as [|c l IH]; intros max seen E; [constructor|]. cbn [validate_clients] in E.
  destruct (outcome_wrap (ClientIdentifierValidator _)); [|done..]. cbn [outcome_bind] in E.
  destruct (Identified_ClientState c) as [[cs|?|?|?|?]|] eqn:Hc; try done. cbn [must_some outcome_bind] in E.
  destruct (IsAllowedClient params (ClientType cs)) eqn:Ha; [|done]. cbn [negb fail_if outcome_bind] in E.
  destruct (outcome_wrap (ClientState_Validate cs)); [|done..]. cbn [outcome_bind] in E.
  destruct (ParseClientIdentifier _) as [[t n]| |]; [|done..]. cbn [outcome_bind] in E.
  destruct (bool_decide _); [done|]. cbn [fail_if outcome_bind] in E. destruct (ValidateClientType t); [|done..].
  constructor; [|by eapply IH]. exists cs. by rewrite Hc.
Qed.

Lemma validated_consensus_states t l :
  validate_consensus_states t l = Ok tt → Forall (λ c, is_Some (cached_consensus (WithHeight_ConsensusState c))) l.
Proof.
  induction l as [|c l IH]; intros E; [constructor|]. cbn [validate_consensus_states] in E.
  destruct (Height_IsZero _); [done|]. cbn [fail_if outcome_bind] in E.
  destruct (WithHeight_ConsensusState c) as [[?|cs|?|?|?]|] eqn:Hc; try done. cbn [must_some outcome_bind] in E.
  destruct (outcome_wrap (ConsensusState_ValidateBasic cs)); [|done..]. cbn [outcome_bind] in E.
  destruct (bool_decide _); [done|]. constructor; [by rewrite Hc|by apply IH].
Qed.
Lemma validated_clients_consensus seen l :
  validate_clients_consensus seen l = Ok tt →
  Forall (λ cc, Forall (λ c, is_Some (cached_consensus (WithHeight_ConsensusState c))) (Consensus_States cc)) l.
Proof.
  induction l as [|cc l IH]; intros E; [constructor|]. cbn [validate_clients_consensus] in E.
  destruct (seen !! _) as [t|]; [|done]. destruct (validate_consensus_states t _) as [[]| |] eqn:Hc; [|done..].
  constructor; [by eapply validated_consensus_states|by apply IH].
Qed.

Lemma validated_metadata l : validate_metadata l = Ok tt → Forall (λ md, Metadata_Key md ≠ "" ∧ Metadata_Value md ≠ "") l.
Proof.
  induction l as [|md l IH]; intros E; [constructor|]. cbn [validate_metadata] in E. unfold GenesisMetadata_Validate in E.
  constructor; [split; intros Hk; rewrite Hk in E; [done|by destruct (bool_decide (String.length (Metadata_Key md) = 0))]|].
  destruct (outcome_wrap _); [|done..]. by apply IH.
Qed.
Lemma validated_clients_metadata seen l :
  validate_clients_metadata seen l = Ok tt → Forall (λ igm, Forall (λ md, Metadata_Key md ≠ "" ∧ Metadata_Value md ≠ "") (ClientMetadata igm)) l.
Proof.
  induction l as [|igm l IH]; intros E; [constructor|]. cbn [validate_clients_metadata] in E.
  destruct (is_nil _); [done|]. cbn [fail_if outcome_bind] in E.
  destruct (validate_metadata _) as [[]| |] eqn:Hm; [|done..]. constructor; [by apply validated_metadata|by apply IH].
Qed.

Lemma validated_hashes l :
  channelgenesis.validate_hashes l = Ok tt → Forall (λ pa, is_Some (channelgenesis.ps_Data pa)) l.
Proof.
  induction l as [|pa l IH]; intros E; [constructor|]. cbn [channelgenesis.validate_hashes] in E.
  unfold channelgenesis.PacketState_Validate in E. destruct (channelgenesis.ps_Data pa) as [d|] eqn:Hd; [|done].
  constructor; [by rewrite Hd|]. destruct (outcome_wrap _); [|done..]. destruct (bool_decide _); [done|]. by apply IH.
Qed.

Lemma client_genesis_starts gs : GenesisState_Validate gs = Ok tt → succeeds (clientgenesis.InitGenesis gs).
Proof.
  unfold GenesisState_Validate. destruct (validateClients _) as [[]| |] eqn:Hp; [|done..]. cbn [outcome_bind].
  destruct (validate_clients _ _ _ _) as [[max seen]| |] eqn:Hc; [|done..]. cbn [outcome_bind].
  destruct (validate_clients_consensus _ _) as [[]| |] eqn:Hcc; [|done..]. cbn [outcome_bind].
  destruct (validate_clients_metadata _ _) as [[]| |] eqn:Hm; [|done..]. intros _.
  apply validated_clients in Hc. apply validated_clients_consensus in Hcc. apply validated_clients_metadata in Hm.
  unfold clientgenesis.InitGenesis. repeat (apply succeeds_bind; [|intros _]).
  - by apply succeeds_must.
  - apply succeeds_modify.
  - case_bool_decide; [|eauto with ibc]. apply succeeds_for_all. eapply list.Forall_impl; [exact Hm|]. intros igm Hi.
    apply succeeds_for_all. eapply list.Forall_impl; [exact Hi|]. intros md [Hk Hv].
    unfold clientgenesis.set_metadata. rewrite !bool_decide_eq_false_2 by done. cbn [orb]. eauto with ibc.
  - apply succeeds_for_all. eapply list.Forall_impl; [exact Hc|]. intros c (cs & -> & Ha). intros w.
    unfold bind, some_or_panic, ret. rewrite Ha. by eexists _, _.
  - apply succeeds_for_all. eapply list.Forall_impl; [exact Hcc|]. intros cc Hs.
    apply succeeds_for_all. eapply list.Forall_impl; [exact Hs|]. intros c [cs ->]. intros w. by eexists _, _.
  - apply succeeds_set_store.
Qed.

Lemma channel_genesis_starts gs :
  channelgenesis.GenesisState_Validate gs = Ok tt → succeeds (channelgenesis.InitGenesis gs).
Proof.
  unfold channelgenesis.GenesisState_Validate. destruct (channelgenesis.validate_channels _ _); [|done..]. cbn [outcome_bind].
  destruct (_ && _); [done|]. cbn [fail_if outcome_bind].
  destruct (channelgenesis.validate_hashes (channelgenesis.Acknowledgements gs)) as [[]| |] eqn:Ha; [|done..]. cbn [outcome_bind].
  destruct (channelgenesis.validate_receipts _); [|done..]. cbn [outcome_bind].
  destruct (channelgenesis.validate_hashes (channelgenesis.Commitments gs)) as [[]| |] eqn:Hc; [|done..]. intros _.
  apply validated_hashes in Ha, Hc. unfold channelgenesis.InitGenesis. repeat (apply succeeds_bind; [|intros _]);
    try (apply succeeds_writes; intros; apply succeeds_set_store); try apply succeeds_set_store.
  - apply succeeds_for_all. eapply list.Forall_impl; [exact Ha|]. intros pa [d ->]. intros w. by eexists _, _.
  - apply succeeds_for_all. eapply list.Forall_impl; [exact Hc|]. intros pa [d ->]. intros w. by eexists _, _.
Qed.

Lemma connection_genesis_starts gs : succeeds (connectiongenesis.InitGenesis gs).
Proof.
  unfold connectiongenesis.InitGenesis. repeat (apply succeeds_bind; [|intros _]);
    try (apply succeeds_writes; intros; apply succeeds_set_store); [apply succeeds_set_store|apply succeeds_modify].
Qed.
End validated.

Section core.
Context {SE : SdkEncoding} {LC : LightClient} {CD : Codec} {CK : CapabilityKeeper} {AP : Application}
  {JS : JSONCodec coregenesis.GenesisState}.

(** C28: Validation of a genesis file is enough to start a chain.  When [ValidateGenesis] of
    the core module accepts the JSON, [InitGenesis] on it does not panic, whatever the state
    of the chain, and returns no validator updates; the panics of the client and channel
    submodules (an unknown or forbidden client type, a consensus state or packet data that
    is missing, an empty metadata key, invalid parameters) cannot happen. *)
Theorem validated_genesis_starts am bz w :
  coremodule.ValidateGenesis bz = Ok tt → ∃ w', coremodule.InitGenesis am bz w = (w', Ok []).
Proof.
  unfold coremodule.ValidateGenesis, coremodule.InitGenesis. destruct (Genesis_UnmarshalJSON bz) as [gs|]; [|done].
  unfold coregenesis.GenesisState_Validate. destruct (GenesisState_Validate _) as [[]| |] eqn:H1; [|done..]. cbn [outcome_bind].
  destruct (connectiongenesis.GenesisState_Validate _); [|done..]. cbn [outcome_bind]. intros H2.
  assert (succeeds (coregenesis.InitGenesis (coremodule.createLocalhost am) gs)) as Hs.
  { unfold coregenesis.InitGenesis. apply succeeds_bind; [by apply client_genesis_starts|intros _].
    apply succeeds_bind; [apply connection_genesis_starts|intros _]. by apply channel_genesis_starts. }
  destruct (Hs w) as (w' & [] & E). exists w'. by rewrite (bind_run _ _ _ _ _ E).
Qed.

(** The default state is valid, and a chain that starts from it has a valid channel store. *)
Lemma default_genesis_valid : coremodule.ValidateGenesis coremodule.DefaultGenesis = Ok tt.
Proof. unfold coremodule.ValidateGenesis, coremodule.DefaultGenesis. rewrite JSON_roundtrip. reflexivity. Qed.

Lemma default_start_valid am w :
  (∀ k, ibc w !! k = None) →
  ∃ w', coremodule.InitGenesis am coremodule.DefaultGenesis w = (w', Ok []) ∧ valid_world w'.
Proof.
  intros Hw. unfold coremodule.InitGenesis, coremodule.DefaultGenesis. rewrite JSON_roundtrip.
  eexists. split; [reflexivity|]. match goal with |- valid_world ?x => set (w' := x) end.
  assert (ibc w' = <[KeyNextChannelSequence := Uint64ToBigEndian 0]>
    (<[KeyNextConnectionSequence := Uint64ToBigEndian 0]> (<[KeyNextClientSequence := Uint64ToBigEndian 0]> (ibc w)))) as E by reflexivity.
  split.
  - apply genesis_well_formed. intros k Hk Hne. rewrite E. rewrite !lookup_insert_ne; [apply Hw|..]; destruct k; try done; cbn [render]; path_ne.
  - exists 0%N. split; [done|rewrite E; apply lookup_insert_eq|]. intros k v Hk Hne Hv. exfalso.
    rewrite E, lookup_insert_ne in Hv by done. revert Hv. channel_part_cases Hk; [..|done]; rewrite !lookup_insert_ne, Hw by path_ne; done.
Qed.
End core.

(** The default states of the applications are valid. *)
Lemma transfer_default_valid {SY : SdkTypes} {JS : JSONCodec transfergenesis.GenesisState} :
  transfermodule.ValidateGenesis transfermodule.DefaultGenesis = Ok tt.
Proof. unfold transfermodule.ValidateGenesis, transfermodule.DefaultGenesis. rewrite JSON_roundtrip. reflexivity. Qed.
Lemma ica_default_valid {BE : Bech32} {JS : JSONCodec icatypes.GenesisState} :
  icaappmodule.ValidateGenesis icaappmodule.DefaultGenesis = Ok tt.
Proof. unfold icaappmodule.ValidateGenesis, icaappmodule.DefaultGenesis. rewrite JSON_roundtrip. reflexivity. Qed.

(** Every version of a module before the current one has a migration. *)
Definition migrations_complete {H} (name : string) (version : N) (l : list (registration H)) : Prop :=
  ∀ v, (1 ≤ v < version)%N → ∃ h, Reg_Migration name v h ∈ l.
Lemma transfer_migrations_complete {H} :
  migrations_complete (H := H) transfermodule.Name transfermodule.ConsensusVersion transfermodule.RegisterServices.
Proof. intros v Hv. unfold transfermodule.ConsensusVersion in Hv. lia. Qed.
Section migrations.
Context {SE : SdkEncoding} {IC : Ics23} {TL : TendermintLib} {TC : TmCodec} {UT : UpgradeTypes} {SK : SoloCrypto}
  {SD : SoloCodec AnyClientState AnyConsensusState} {LD : LocalCodec AnyClientState} {LG : v100.LegacyCodec}.
#[local] Existing Instance ibc_clients.
Context {CD : @Codec ibc_clients} {CK : CapabilityKeeper} {AP : Application}.
Lemma core_migrations_complete :
  migrations_complete coremodule.Name coremodule.ConsensusVersion coremodule.RegisterServices.
Proof.
  intros v Hv. unfold coremodule.ConsensusVersion in Hv. assert (v = 1%N) as -> by lia.
  exists v100.client_Migrate1to2. unfold coremodule.RegisterServices. set_solver.
Qed.
End migrations.

(** ** A concrete genesis file *)
Module ModuleWitness.
Import ToyInstances Scenario GenesisWitness.

#[local] Instance Ser_opt {A} `{Ser A} : Ser (option A).
Proof.
  refine (Ser_via (λ o : option A, match o with Some x => [x] | None => [] end)
    (λ l, match l with [x] => Some x | _ => None end) _). by intros [].
Defined.
#[local] Instance Ser_Any : Ser AnyValue.
Proof.
  refine (Ser_via (B := N * string)
    (λ a, match a with
      | Any_ClientState cs => (0%N, enc (A := FNClient) cs) | Any_ConsensusState cs => (1%N, enc (A := FNConsensus) cs)
      | Any_Header h => (2%N, enc (A := FNHeader) h) | Any_Misbehaviour m => (3%N, m) | Any_Unknown v => (4%N, v) end)
    (λ '(n, s), default (Any_Unknown s) (
      if bool_decide (n = 0%N) then Any_ClientState <$> (dec s : option FNClient)
      else if bool_decide (n = 1%N) then Any_ConsensusState <$> (dec s : option FNConsensus)
      else if bool_decide (n = 2%N) then Any_Header <$> (dec s : option FNHeader)
      else if bool_decide (n = 3%N) then Some (Any_Misbehaviour s) else None)) _).
  intros [cs|cs|h|m|v]; cbn -[dec enc]; rewrite ?dec_enc; done.
Defined.
#[local] Instance Ser_client : Ser IdentifiedClientState.
Proof.
  refine (Ser_via (λ c, (Identified_ClientId c, Identified_ClientState c)) (λ '(a, b), mkIdentifiedClientState a b) _). by intros [].
Defined.
#[local] Instance Ser_height_state : Ser ConsensusStateWithHeight.
Proof.
  refine (Ser_via (λ c, (WithHeight_Height c, WithHeight_ConsensusState c)) (λ '(a, b), mkConsensusStateWithHeight a b) _). by intros [].
Defined.
#[local] Instance Ser_consensus : Ser ClientConsensusStates.
Proof.
  refine (Ser_via (λ c, (Consensus_ClientId c, Consensus_States c)) (λ '(a, b), NewClientConsensusStates a b) _). by intros [].
Defined.
#[local] Instance Ser_metadata : Ser GenesisMetadata.
Proof. refine (Ser_via (λ m, (Metadata_Key m, Metadata_Value m)) (λ '(a, b), NewGenesisMetadata a b) _). by intros []. Defined.
#[local] Instance Ser_identified : Ser IdentifiedGenesisMetadata.
Proof.
  refine (Ser_via (λ m, (Metadata_ClientId m, ClientMetadata m)) (λ '(a, b), NewIdentifiedGenesisMetadata a b) _). by intros [].
Defined.
#[local] Instance Ser_clients : Ser ClientTypes.GenesisState.
Proof.
  refine (Ser_via (λ g, (Genesis_Clients g, ClientsConsensus g, ClientsMetadata g, (Genesis_Params g, CreateLocalhost g, NextClientSequence g)))
    (λ '(a, b, c, (d, e, f)), NewGenesisState a b c d e f) _). by intros [].
Defined.
#[local] Instance Ser_connection : Ser connectiongenesis.IdentifiedConnection.
Proof.
  refine (Ser_via (λ c, (connectiongenesis.Id c, connectiongenesis.connection_of c))
    (λ '(a, b), connectiongenesis.NewIdentifiedConnection a b) _). by intros [].
Defined.
#[local] Instance Ser_paths : Ser connectiongenesis.ConnectionPaths.
Proof.
  refine (Ser_via (λ c, (connectiongenesis.cp_ClientId c, connectiongenesis.cp_Paths c))
    (λ '(a, b), connectiongenesis.NewConnectionPaths a b) _). by intros [].
Defined.
#[local] Instance Ser_connections : Ser connectiongenesis.GenesisState.
Proof.
  refine (Ser_via (λ g, (connectiongenesis.Connections g, connectiongenesis.ClientConnectionPaths g,
      connectiongenesis.NextConnectionSequence g, connectiongenesis.params_MaxExpectedTimePerBlock (connectiongenesis.Genesis_Params g)))
    (λ '(a, b, c, d), connectiongenesis.NewGenesisState a b c (connectiongenesis.NewParams d)) _). by intros [? ? ? []].
Defined.
#[local] Instance Ser_identified_channel : Ser IdentifiedChannel.
Proof.
  refine (Ser_via (λ c, (IC_PortId c, IC_ChannelId c,
      NewChannel (IC_State c) (IC_Ordering c) (IC_Counterparty c) (IC_ConnectionHops c) (IC_Version c)))
    (λ '(a, b, c), NewIdentifiedChannel a b c) _). by intros [].
Defined.
Import channelgenesis.
#[local] Instance Ser_packet : Ser PacketState.
Proof.
  refine (Ser_via (λ p, (ps_PortId p, ps_ChannelId p, ps_Sequence p, ps_Data p)) (λ '(a, b, c, d), mkPacketState a b c d) _).
  by intros [].
Defined.
#[local] Instance Ser_sequence : Ser PacketSequence.
Proof.
  refine (Ser_via (λ p, (seq_PortId p, seq_ChannelId p, seq_Sequence p)) (λ '(a, b, c), mkPacketSequence a b c) _). by intros [].
Defined.
#[local] Instance Ser_channels : Ser channelgenesis.GenesisState.
Proof.
  refine (Ser_via (λ g, (Channels g, Acknowledgements g, Commitments g, Receipts g,
      (SendSequences g, RecvSequences g, AckSequences g, NextChannelSequence g)))
    (λ '(a, b, c, d, (e, f, g, h)), channelgenesis.mkGenesisState a b c d e f g h) _). by intros [].
Defined.
#[local] Instance Ser_genesis : Ser coregenesis.GenesisState.
Proof.
  refine (Ser_via (λ g, (coregenesis.ClientGenesis g, coregenesis.ConnectionGenesis g, coregenesis.ChannelGenesis g))
    (λ '(a, b, c), coregenesis.mkGenesisState _ a b c) _). by intros [].
Defined.
#[local] Instance toy_json : JSONCodec coregenesis.GenesisState :=
  {| Genesis_MarshalJSON := enc; Genesis_UnmarshalJSON := dec; JSON_roundtrip := dec_enc |}.

(** A chain starts from the file that another one exported. *)
Definition file : string := match coremodule.ExportGenesis world with (_, Ok bz) => bz | _ => "" end.
Lemma validated_genesis_starts_witness :
  coremodule.ValidateGenesis file = Ok tt ∧ ∃ w', coremodule.InitGenesis coremodule.NewAppModule file fresh = (w', Ok []).
Proof.
  assert (coremodule.ValidateGenesis file = Ok tt) as H by (vm_compute; reflexivity). split; [exact H|].
  exact (validated_genesis_starts coremodule.NewAppModule file fresh H).
Defined.
End ModuleWitness.
