(* ===== verification/CommandLine.v ===== *)
(** * The command line

    The commands of [client/cli] of the submodules and applications: what each reads from
    its arguments and flags, and what it prints or signs.  Printing, signing and
    broadcasting are cosmos-sdk code that is handed the result. *)
From S2P Require Import Prelude GoMonad Errors Height Host Sdk ConnectionTypes ChannelTypes.
From S2P Require Import Exported ClientKeeper Commitment TendermintTypes TendermintStore.
From S2P Require Import ClientTypes Messages.
From S2P Require Import Queries ClientQueries CoreServer SelfChain TransferTypes.
From S2P Require Import TransferGenesis IcaTypes IcaKeeper.
From S2P Require Import RelayerQueries FullNode TendermintClient ToyTendermint.
From S2P Require Import MsgServerProperties SelfProperties.
From S2P Require Import RelayerWitness.

(** ** cobra, pflag and cosmos-sdk *)

(** [cobra.PositionalArgs], as far as the commands use them. *)
Inductive PositionalArgs := NoArgs | ExactArgs (n : nat) | RangeArgs (min max : nat).
Definition accepts (p : PositionalArgs) (args : list string) : Prop :=
  match p with
  | NoArgs => length args = 0
  | ExactArgs n => length args = n
  | RangeArgs a b => a ≤ length args ≤ b
  end.

(** The flags a command declares: by name and default value, or in the groups of
    cosmos-sdk. *)
Inductive flag :=
  | Flag_Bool (name : string) (value : bool)
  | Flag_String (name value : string)
  | Flag_Uint64 (name : string) (value : N)
  | Flag_Int64Slice (name : string) (value : list Z)
  | QueryFlags | PaginationFlags (query : string) | TxFlags.

(** The flags as parsed: reading one fails when it was not declared with that type. *)
Record FlagSet := mkFlagSet {
  GetBool : string → outcome bool;
  GetString : string → outcome string;
  GetUint64 : string → outcome N;
  GetInt64Slice : string → outcome (list Z) }.
(** [prove, _ := cmd.Flags().GetBool(...)]: the zero value when reading fails. *)
Definition bool_or_false (o : outcome bool) : bool := match o with Ok b => b | _ => false end.

(** A command whose result, of type [A], is printed or signed. *)
Record Command (A : Type) := mkCommand {
  Use : string;
  Args : PositionalArgs;
  Flags : list flag;
  RunE : FlagSet → list string → outcome A }.
Arguments mkCommand {_} _ _ _ _.
Arguments Use {_} _.
Arguments Args {_} _.
Arguments Flags {_} _.
Arguments RunE {_} _ _ _.

(** [args[i]] *)
Definition arg (args : list string) (i : nat) : outcome string := must_some (args !! i).

(** [client.GetClientQueryContext], [client.GetClientTxContext] with the address of
    [--from], [client.ReadPageRequest]. *)
Class CommandContext {PG : Pagination} := {
  GetClientQueryContext : FlagSet → outcome ClientContext;
  GetClientTxContext : FlagSet → outcome (ClientContext * string);
  ReadPageRequest : FlagSet → outcome PageRequest }.

(** [codec.UnmarshalInterfaceJSON] for the interfaces of the clients (the target stays nil
    for an empty Any), for a target that is itself nil, and [ioutil.ReadFile]. *)
Class InterfaceJSON {LC : LightClient} := {
  UnmarshalJSON_ClientState : string → outcome (option ClientState);
  UnmarshalJSON_ConsensusState : string → outcome (option ConsensusState);
  UnmarshalJSON_Header : string → outcome (option Header);
  UnmarshalJSON_Misbehaviour : string → outcome (option Misbehaviour);
  UnmarshalJSON_nil : string → outcome unit;
  ReadFile : string → outcome string }.

(** Submission of a governance proposal. *)
Class GovCli {UK : UpgradeKeeper} {LC : LightClient} := {
  NewPlan : string → Z → Plan;                       (* Plan{Name, Height} *)
  Coins : Type;
  ParseCoinsNormalized : string → outcome Coins;
  MsgSubmitProposal : Type;
  NewMsgSubmitProposal : selfchain.Content → Coins → string → outcome MsgSubmitProposal;
  MsgSubmitProposal_ValidateBasic : MsgSubmitProposal → outcome unit }.

(** The query services of the applications. *)
Class AppQueryClient {PG : Pagination} := {
  transfer_DenomTrace : ClientContext → transfergenesis.QueryDenomTraceRequest → outcome transfergenesis.QueryDenomTraceResponse;
  transfer_DenomTraces : ClientContext → transfergenesis.QueryDenomTracesRequest → outcome transfergenesis.QueryDenomTracesResponse;
  transfer_Params : ClientContext → outcome transfergenesis.QueryParamsResponse;
  controller_Params : ClientContext → outcome icacontroller.QueryParamsResponse;
  host_Params : ClientContext → outcome icahost.QueryParamsResponse }.

(** [strconv.ParseUint(s, 10, 64)] and [strconv.ParseInt(s, 10, 64)]. *)
Definition parse_uint (s : string) : outcome N :=
  match ParseUint s with Some n => Ok n | None => Err (External "strconv.ParseUint") end.
Definition ParseInt (s : string) : option Z :=
  let '(neg, digits) :=
    if HasPrefix s "-" then (true, String.substring 1 (String.length s) s)
    else if HasPrefix s "+" then (false, String.substring 1 (String.length s) s)
    else (false, s) in
  if negb (bool_decide (digits = "")) && str_all is_digit digits then
    let n := Z.of_N (digits_value 0 digits) in
    let z := if neg then (- n)%Z else n in
    if (- 2 ^ 63 <=? z)%Z && (z <? 2 ^ 63)%Z then Some z else None
  else None.
Definition parse_int (s : string) : outcome Z :=
  match ParseInt s with Some z => Ok z | None => Err (External "strconv.ParseInt") end.

Definition FlagProve : string := "prove".
Definition prove_flag (flags : FlagSet) : bool := bool_or_false (GetBool flags FlagProve).
(** [clientCtx.WithHeight(int64(height.RevisionHeight))] *)
Definition at_height (clientCtx : ClientContext) (h : Height) : ClientContext :=
  mkClientContext (int_of_u64 (RevisionHeight h)) (cctx_ChainID clientCtx).

(** ** [02-client/client/cli] *)
Module clientcli.
Import clientquery.
Definition flagLatestHeight : string := "latest-height".

Section query.
Context {IC : Ics23} {PC : ProofCodec} {PG : Pagination} {LC : LightClient} {TL : TendermintLib} {RN : RelayedNode}.
Context {CD : Codec} {CC : CommandContext}.

Definition GetCmdQueryClientStates : Command QueryClientStatesResponse :=
  mkCommand "states" NoArgs [QueryFlags; PaginationFlags "client states"] (λ flags _,
    let? clientCtx := GetClientQueryContext flags in
    let? pageReq := ReadPageRequest flags in
    let req := mkQueryClientStatesRequest (Some pageReq) in
    grpc_Invoke clientCtx (corekeeper.rpc_ClientStates (Some req))).

Definition GetCmdQueryClientState : Command QueryClientStateResponse :=
  mkCommand "state [client-id]" (ExactArgs 1) [Flag_Bool FlagProve true; QueryFlags] (λ flags args,
    let? clientCtx := GetClientQueryContext flags in
    let? clientID := arg args 0 in
    let prove := prove_flag flags in
    clientutils.QueryClientState clientCtx clientID prove).

Definition GetCmdQueryClientStatus : Command QueryClientStatusResponse :=
  mkCommand "status [client-id]" (ExactArgs 1) [] (λ flags args,
    let? clientCtx := GetClientQueryContext flags in
    let? clientID := arg args 0 in
    let req := mkQueryClientStatusRequest clientID in
    grpc_Invoke clientCtx (corekeeper.rpc_ClientStatus (Some req))).

Definition GetCmdQueryConsensusStates : Command QueryConsensusStatesResponse :=
  mkCommand "consensus-states [client-id]" (ExactArgs 1) [QueryFlags; PaginationFlags "consensus states"] (λ flags args,
    let? clientCtx := GetClientQueryContext flags in
    let? clientID := arg args 0 in
    let? pageReq := ReadPageRequest flags in
    let req := mkQueryConsensusStatesRequest clientID (Some pageReq) in
    grpc_Invoke clientCtx (corekeeper.rpc_ConsensusStates (Some req))).

Definition GetCmdQueryConsensusState : Command QueryConsensusStateResponse :=
  mkCommand "consensus-state [client-id] [height]" (RangeArgs 1 2)
    [Flag_Bool FlagProve true; Flag_Bool flagLatestHeight false; QueryFlags] (λ flags args,
    let? clientCtx := GetClientQueryContext flags in
    let? clientID := arg args 0 in
    let queryLatestHeight := bool_or_false (GetBool flags flagLatestHeight) in
    let? height :=
      if negb queryLatestHeight then
        fail_if (bool_decide (length args ≠ 2)) (External "errors.New") ;;?
        let? s := arg args 1 in ParseHeight s
      else Ok ZeroHeight in
    let prove := prove_flag flags in
    clientutils.QueryConsensusState clientCtx clientID height prove queryLatestHeight).

Definition GetCmdQueryHeader : Command ibctmtypes.Header :=
  mkCommand "header" NoArgs [QueryFlags] (λ flags _,
    let? clientCtx := GetClientQueryContext flags in
    let? ' (header, _) := clientutils.QueryTendermintHeader clientCtx in
    Ok header).

Definition GetCmdSelfConsensusState : Command ibctmtypes.ConsensusState :=
  mkCommand "self-consensus-state" NoArgs [QueryFlags] (λ flags _,
    let? clientCtx := GetClientQueryContext flags in
    let? ' (state, _) := clientutils.QuerySelfConsensusState clientCtx in
    Ok state).

(** The error of the query is dropped; on an error the response is nil, and reading its
    parameters panics. *)
Definition GetCmdParams : Command (list string) :=
  mkCommand "params" NoArgs [QueryFlags] (λ flags _,
    let? clientCtx := GetClientQueryContext flags in
    match grpc_Invoke clientCtx corekeeper.rpc_ClientParams with
    | Ok res => Ok (cp_Params res)
    | _ => Panic
    end).
End query.

Section tx.
Context {LC : LightClient} {UK : UpgradeKeeper} {PG : Pagination} {CC : CommandContext} {IJ : InterfaceJSON} {GC : GovCli}.

(** JSON, or the path of a file with JSON. *)
Definition content_or_file {A} (unmarshal : string → outcome A) (contentOrFileName : string) : outcome A :=
  match unmarshal contentOrFileName with
  | Err _ =>
      let? contents := outcome_wrap (ReadFile contentOrFileName) in
      outcome_wrap (unmarshal contents)
  | o => o
  end.

Definition NewCreateClientCmd : Command MsgCreateClient :=
  mkCommand "create [path/to/client_state.json] [path/to/consensus_state.json]" (ExactArgs 2) [TxFlags] (λ flags args,
    let? ' (_, from) := GetClientTxContext flags in
    let? clientContentOrFileName := arg args 0 in
    let? clientState := content_or_file UnmarshalJSON_ClientState clientContentOrFileName in
    let? consensusContentOrFileName := arg args 1 in
    let? consensusState := content_or_file UnmarshalJSON_ConsensusState consensusContentOrFileName in
    NewMsgCreateClient clientState consensusState from).

Definition NewUpdateClientCmd : Command MsgUpdateClient :=
  mkCommand "update [client-id] [path/to/header.json]" (ExactArgs 2) [] (λ flags args,
    let? ' (_, from) := GetClientTxContext flags in
    let? clientID := arg args 0 in
    let? headerContentOrFileName := arg args 1 in
    let? header := content_or_file UnmarshalJSON_Header headerContentOrFileName in
    NewMsgUpdateClient clientID header from).

(** The contents of a file are unmarshalled into the interface value, which is nil, and
    not into a pointer to it; [GetClientID] of a nil interface panics. *)
Definition NewSubmitMisbehaviourCmd : Command MsgSubmitMisbehaviour :=
  mkCommand "misbehaviour [path/to/misbehaviour.json]" (ExactArgs 1) [] (λ flags args,
    let? ' (_, from) := GetClientTxContext flags in
    let? misbehaviourContentOrFileName := arg args 0 in
    let? misbehaviour :=
      match UnmarshalJSON_Misbehaviour misbehaviourContentOrFileName with
      | Err _ =>
          let? contents := outcome_wrap (ReadFile misbehaviourContentOrFileName) in
          outcome_wrap (UnmarshalJSON_nil contents) ;;?
          Ok None
      | o => o
      end in
    let? m := must_some misbehaviour in
    NewMsgSubmitMisbehaviour (Misbehaviour_GetClientID m) misbehaviour from).

Definition NewUpgradeClientCmd : Command MsgUpgradeClient :=
  mkCommand "upgrade [client-identifier] [path/to/client_state.json] [path/to/consensus_state.json] [upgrade-client-proof] [upgrade-consensus-state-proof]"
    (ExactArgs 5) [TxFlags] (λ flags args,
    let? ' (_, from) := GetClientTxContext flags in
    let? clientID := arg args 0 in
    let? clientContentOrFileName := arg args 1 in
    let? clientState := content_or_file UnmarshalJSON_ClientState clientContentOrFileName in
    let? consensusContentOrFileName := arg args 2 in
    let? consensusState := content_or_file UnmarshalJSON_ConsensusState consensusContentOrFileName in
    let? proofUpgradeClient := arg args 3 in
    let? proofUpgradeConsensus := arg args 4 in
    NewMsgUpgradeClient clientID clientState consensusState proofUpgradeClient proofUpgradeConsensus from).

Definition proposal_flags : list flag := [Flag_String "title" ""; Flag_String "description" ""; Flag_String "deposit" ""].

(** The end of both proposal commands. *)
Definition submit_proposal (flags : FlagSet) (content : selfchain.Content) (from : string) : outcome MsgSubmitProposal :=
  let? depositStr := GetString flags "deposit" in
  let? deposit := ParseCoinsNormalized depositStr in
  let? msg := NewMsgSubmitProposal content deposit from in
  MsgSubmitProposal_ValidateBasic msg ;;?
  Ok msg.

Definition NewCmdSubmitUpdateClientProposal : Command MsgSubmitProposal :=
  mkCommand "update-client [subject-client-id] [substitute-client-id]" (ExactArgs 2) proposal_flags (λ flags args,
    let? ' (_, from) := GetClientTxContext flags in
    let? title := GetString flags "title" in
    let? description := GetString flags "description" in
    let? subjectClientID := arg args 0 in
    let? substituteClientID := arg args 1 in
    let content := selfchain.NewClientUpdateProposal title description subjectClientID substituteClientID in
    submit_proposal flags (selfchain.Content_ClientUpdate content) from).

Definition NewCmdSubmitUpgradeProposal : Command MsgSubmitProposal :=
  mkCommand "ibc-upgrade [name] [height] [path/to/upgraded_client_state.json] [flags]" (ExactArgs 3) proposal_flags (λ flags args,
    let? ' (_, from) := GetClientTxContext flags in
    let? title := GetString flags "title" in
    let? description := GetString flags "description" in
    let? name := arg args 0 in
    let? heightStr := arg args 1 in
    let? height := parse_int heightStr in
    let plan := NewPlan name height in
    let? clientContentOrFileName := arg args 2 in
    let? clientState := content_or_file UnmarshalJSON_ClientState clientContentOrFileName in
    let? content := selfchain.NewUpgradeProposal title description plan clientState in
    submit_proposal flags (selfchain.Content_Upgrade content) from).
End tx.
End clientcli.

(** ** [03-connection/client/cli] *)
Module connectioncli.
Import connectionquery.
Section query.
Context {IC : Ics23} {PC : ProofCodec} {PG : Pagination} {LC : LightClient} {TL : TendermintLib} {RN : RelayedNode}.
Context {CD : Codec} {CC : CommandContext}.

Definition GetCmdQueryConnections : Command QueryConnectionsResponse :=
  mkCommand "connections" NoArgs [QueryFlags; PaginationFlags "connection ends"] (λ flags _,
    let? clientCtx := GetClientQueryContext flags in
    let? pageReq := ReadPageRequest flags in
    let req := mkQueryConnectionsRequest (Some pageReq) in
    grpc_Invoke clientCtx (corekeeper.rpc_Connections (Some req))).

(** Printed with the context at the height of the proof. *)
Definition GetCmdQueryConnection : Command (ClientContext * QueryConnectionResponse) :=
  mkCommand "end [connection-id]" (ExactArgs 1) [Flag_Bool FlagProve true; QueryFlags] (λ flags args,
    let? clientCtx := GetClientQueryContext flags in
    let? connectionID := arg args 0 in
    let prove := prove_flag flags in
    let? connRes := connectionutils.QueryConnection clientCtx connectionID prove in
    Ok (at_height clientCtx (c_ProofHeight connRes), connRes)).

Definition GetCmdQueryClientConnections (amino_Unmarshal : string → option (list string)) :
    Command (ClientContext * QueryClientConnectionsResponse) :=
  mkCommand "path [client-id]" (ExactArgs 1) [Flag_Bool FlagProve true; QueryFlags] (λ flags args,
    let? clientCtx := GetClientQueryContext flags in
    let? clientID := arg args 0 in
    let prove := prove_flag flags in
    let? connPathsRes := connectionutils.QueryClientConnections amino_Unmarshal clientCtx clientID prove in
    Ok (at_height clientCtx (clc_ProofHeight connPathsRes), connPathsRes)).
End query.
End connectioncli.

(** ** [04-channel/client/cli] *)
Module channelcli.
Import channelquery.
Definition flagSequences : string := "sequences".
Section query.
Context {IC : Ics23} {PC : ProofCodec} {PG : Pagination} {LC : LightClient} {TL : TendermintLib} {RN : RelayedNode}.
Context {CD : Codec} {CC : CommandContext}.

Definition GetCmdQueryChannels : Command QueryChannelsResponse :=
  mkCommand "channels" NoArgs [QueryFlags; PaginationFlags "channels"] (λ flags _,
    let? clientCtx := GetClientQueryContext flags in
    let? pageReq := ReadPageRequest flags in
    let req := mkQueryChannelsRequest (Some pageReq) in
    grpc_Invoke clientCtx (corekeeper.rpc_Channels (Some req))).

Definition GetCmdQueryChannel : Command QueryChannelResponse :=
  mkCommand "end [port-id] [channel-id]" (ExactArgs 2) [Flag_Bool FlagProve true; QueryFlags] (λ flags args,
    let? clientCtx := GetClientQueryContext flags in
    let? portID := arg args 0 in
    let? channelID := arg args 1 in
    let prove := prove_flag flags in
    channelutils.QueryChannel clientCtx portID channelID prove).

Definition GetCmdQueryConnectionChannels : Command QueryConnectionChannelsResponse :=
  mkCommand "connections [connection-id]" (ExactArgs 1)
    [QueryFlags; PaginationFlags "channels associated with a connection"] (λ flags args,
    let? clientCtx := GetClientQueryContext flags in
    let? pageReq := ReadPageRequest flags in
    let? connection := arg args 0 in
    let req := mkQueryConnectionChannelsRequest connection (Some pageReq) in
    grpc_Invoke clientCtx (corekeeper.rpc_ConnectionChannels (Some req))).

Definition GetCmdQueryChannelClientState : Command IdentifiedClientState :=
  mkCommand "client-state [port-id] [channel-id]" (ExactArgs 2) [QueryFlags] (λ flags args,
    let? clientCtx := GetClientQueryContext flags in
    let? portID := arg args 0 in
    let? channelID := arg args 1 in
    let? res := channelutils.QueryChannelClientState clientCtx portID channelID false in
    Ok (ccs_IdentifiedClientState res)).

Definition GetCmdQueryPacketCommitments : Command QueryPacketCommitmentsResponse :=
  mkCommand "packet-commitments [port-id] [channel-id]" (ExactArgs 2)
    [QueryFlags; PaginationFlags "packet commitments associated with a channel"] (λ flags args,
    let? clientCtx := GetClientQueryContext flags in
    let? pageReq := ReadPageRequest flags in
    let? portID := arg args 0 in
    let? channelID := arg args 1 in
    let req := mkQueryPacketCommitmentsRequest portID channelID (Some pageReq) in
    grpc_Invoke clientCtx (corekeeper.rpc_PacketCommitments (Some req))).

Definition GetCmdQueryPacketCommitment : Command QueryPacketCommitmentResponse :=
  mkCommand "packet-commitment [port-id] [channel-id] [sequence]" (ExactArgs 3)
    [Flag_Bool FlagProve true; QueryFlags] (λ flags args,
    let? clientCtx := GetClientQueryContext flags in
    let? portID := arg args 0 in
    let? channelID := arg args 1 in
    let prove := prove_flag flags in
    let? seqStr := arg args 2 in
    let? seq := parse_uint seqStr in
    channelutils.QueryPacketCommitment clientCtx portID channelID seq prove).

Definition GetCmdQueryPacketReceipt : Command QueryPacketReceiptResponse :=
  mkCommand "packet-receipt [port-id] [channel-id] [sequence]" (ExactArgs 3)
    [Flag_Bool FlagProve true; QueryFlags] (λ flags args,
    let? clientCtx := GetClientQueryContext flags in
    let? portID := arg args 0 in
    let? channelID := arg args 1 in
    let prove := prove_flag flags in
    let? seqStr := arg args 2 in
    let? seq := parse_uint seqStr in
    channelutils.QueryPacketReceipt clientCtx portID channelID seq prove).

Definition GetCmdQueryPacketAcknowledgement : Command QueryPacketAcknowledgementResponse :=
  mkCommand "packet-ack [port-id] [channel-id] [sequence]" (ExactArgs 3)
    [Flag_Bool FlagProve true; QueryFlags] (λ flags args,
    let? clientCtx := GetClientQueryContext flags in
    let? portID := arg args 0 in
    let? channelID := arg args 1 in
    let prove := prove_flag flags in
    let? seqStr := arg args 2 in
    let? seq := parse_uint seqStr in
    channelutils.QueryPacketAcknowledgement clientCtx portID channelID seq prove).

(** The flag holds int64 numbers; the conversion wraps negative ones. *)
Definition sequences (seqSlice : list Z) : list N := map uint64_of_Z seqSlice.

Definition GetCmdQueryUnreceivedPackets : Command QueryUnreceivedPacketsResponse :=
  mkCommand "unreceived-packets [port-id] [channel-id]" (ExactArgs 2) [Flag_Int64Slice flagSequences []; QueryFlags] (λ flags args,
    let? clientCtx := GetClientQueryContext flags in
    let? seqSlice := GetInt64Slice flags flagSequences in
    let seqs := sequences seqSlice in
    let? portID := arg args 0 in
    let? channelID := arg args 1 in
    let req := mkQueryUnreceivedPacketsRequest portID channelID seqs in
    grpc_Invoke clientCtx (corekeeper.rpc_UnreceivedPackets (Some req))).

Definition GetCmdQueryUnreceivedAcks : Command QueryUnreceivedAcksResponse :=
  mkCommand "unreceived-acks [port-id] [channel-id]" (ExactArgs 2) [Flag_Int64Slice flagSequences []; QueryFlags] (λ flags args,
    let? clientCtx := GetClientQueryContext flags in
    let? seqSlice := GetInt64Slice flags flagSequences in
    let seqs := sequences seqSlice in
    let? portID := arg args 0 in
    let? channelID := arg args 1 in
    let req := mkQueryUnreceivedAcksRequest portID channelID seqs in
    grpc_Invoke clientCtx (corekeeper.rpc_UnreceivedAcks (Some req))).

(** Printed with the context at the height of the proof. *)
Definition GetCmdQueryNextSequenceReceive : Command (ClientContext * QueryNextSequenceReceiveResponse) :=
  mkCommand "next-sequence-receive [port-id] [channel-id]" (ExactArgs 2) [Flag_Bool FlagProve true; QueryFlags] (λ flags args,
    let? clientCtx := GetClientQueryContext flags in
    let? portID := arg args 0 in
    let? channelID := arg args 1 in
    let prove := prove_flag flags in
    let? sequenceRes := channelutils.QueryNextSequenceReceive clientCtx portID channelID prove in
    Ok (at_height clientCtx (ns_ProofHeight sequenceRes), sequenceRes)).
End query.
End channelcli.

(** ** [apps/transfer/client/cli] *)
Module transfercmds.
Import transfergenesis transfertypes.
Definition flagPacketTimeoutHeight : string := "packet-timeout-height".
Definition flagPacketTimeoutTimestamp : string := "packet-timeout-timestamp".
Definition flagAbsoluteTimeouts : string := "absolute-timeouts".

(** [types/packet.go]: a thousand blocks, ten minutes. *)
Definition DefaultRelativePacketTimeoutHeight : string := "0-1000".
Definition DefaultRelativePacketTimeoutTimestamp : N := 10 * 60 * 1000000000.

Section query.
Context {PG : Pagination} {CC : CommandContext} {AQ : AppQueryClient} {BE : Bech32}.

Definition GetCmdQueryDenomTrace : Command QueryDenomTraceResponse :=
  mkCommand "denom-trace [hash]" (ExactArgs 1) [QueryFlags] (λ flags args,
    let? clientCtx := GetClientQueryContext flags in
    let? hash := arg args 0 in
    let req := mkQueryDenomTraceRequest hash in
    transfer_DenomTrace clientCtx req).

Definition GetCmdQueryDenomTraces : Command QueryDenomTracesResponse :=
  mkCommand "denom-traces" NoArgs [QueryFlags; PaginationFlags "denominations trace"] (λ flags _,
    let? clientCtx := GetClientQueryContext flags in
    let? pageReq := ReadPageRequest flags in
    let req := mkQueryDenomTracesRequest (Some pageReq) in
    transfer_DenomTraces clientCtx req).

Definition GetCmdParams : Command Params :=
  mkCommand "params" NoArgs [QueryFlags] (λ flags _,
    let? clientCtx := GetClientQueryContext flags in
    let? res := transfer_Params clientCtx in
    Ok (qp_Params res)).

(** Printed with a line feed. *)
Definition GetCmdQueryEscrowAddress : Command string :=
  mkCommand "escrow-address" (ExactArgs 2) [QueryFlags] (λ flags args,
    let? _ := GetClientQueryContext flags in
    let? port := arg args 0 in
    let? channel := arg args 1 in
    let addr := GetEscrowAddress port channel in
    Ok (AccAddress_String addr)).
End query.

Section tx.
Context {SY : SdkTypes} {IC : Ics23} {PC : ProofCodec} {PG : Pagination} {LC : LightClient} {TL : TendermintLib} {RN : RelayedNode}.
Context {CD : Codec} {CC : CommandContext}.

(** Parsing an amount is cosmos-sdk code; [now] is [time.Now().UnixNano()]. *)
Definition NewTransferTxCmd (ParseCoinNormalized : string → outcome Coin) (now : Z) : Command MsgTransfer :=
  mkCommand "transfer [src-port] [src-channel] [receiver] [amount]" (ExactArgs 4)
    [Flag_String flagPacketTimeoutHeight DefaultRelativePacketTimeoutHeight;
     Flag_Uint64 flagPacketTimeoutTimestamp DefaultRelativePacketTimeoutTimestamp;
     Flag_Bool flagAbsoluteTimeouts false; TxFlags] (λ flags args,
    let? ' (clientCtx, sender) := GetClientTxContext flags in
    let? srcPort := arg args 0 in
    let? srcChannel := arg args 1 in
    let? receiver := arg args 2 in
    let? amount := arg args 3 in
    let? coin := ParseCoinNormalized amount in
    let coin := if negb (HasPrefix (Denom coin) "ibc/")
                then mkCoin (IBCDenom (ParseDenomTrace (Denom coin))) (Amount coin) else coin in
    let? timeoutHeightStr := GetString flags flagPacketTimeoutHeight in
    let? timeoutHeight := ParseHeight timeoutHeightStr in
    let? timeoutTimestamp := GetUint64 flags flagPacketTimeoutTimestamp in
    let? absoluteTimeouts := GetBool flags flagAbsoluteTimeouts in
    let? ' (timeoutHeight, timeoutTimestamp) :=
      if negb absoluteTimeouts then
        let? ' (consensusState, height, _) := channelutils.QueryLatestConsensusState clientCtx srcPort srcChannel in
        let? timestamp := transfercli.absolute_timestamp now consensusState timeoutTimestamp in
        Ok (transfercli.absolute_height height timeoutHeight, timestamp)
      else Ok (timeoutHeight, timeoutTimestamp) in
    Ok (NewMsgTransfer srcPort srcChannel coin sender receiver timeoutHeight timeoutTimestamp)).
End tx.
End transfercmds.

(** ** [apps/27-interchain-accounts], the [client/cli] of both submodules *)
Module icacli.
Section query.
Context {PG : Pagination} {CC : CommandContext} {AQ : AppQueryClient}.

Definition controller_GetCmdParams : Command (option controllertypes.Params) :=
  mkCommand "params" NoArgs [QueryFlags] (λ flags _,
    let? clientCtx := GetClientQueryContext flags in
    let? res := controller_Params clientCtx in
    Ok (icacontroller.response_Params res)).

Definition host_GetCmdParams : Command (option hosttypes.Params) :=
  mkCommand "params" NoArgs [QueryFlags] (λ flags _,
    let? clientCtx := GetClientQueryContext flags in
    let? res := host_Params clientCtx in
    Ok (icahost.response_Params res)).
End query.
End icacli.

(** ** The command trees ([cli.go]) *)

(** A group has a name and subcommands. *)
Inductive tree :=
  | Leaf {A : Type} (c : Command A)
  | Group (use : string) (subcommands : list tree).

Section trees.
Context {IC : Ics23} {PC : ProofCodec} {PG : Pagination} {LC : LightClient} {TL : TendermintLib} {RN : RelayedNode}.
Context {CD : Codec} {CC : CommandContext} {UK : UpgradeKeeper} {IJ : InterfaceJSON} {AQ : AppQueryClient}
  {BE : Bech32} {SY : SdkTypes}.

Definition client_GetQueryCmd : tree :=
  Group ClientErr.SubModuleName
    [Leaf clientcli.GetCmdQueryClientStates; Leaf clientcli.GetCmdQueryClientState; Leaf clientcli.GetCmdQueryClientStatus;
     Leaf clientcli.GetCmdQueryConsensusStates; Leaf clientcli.GetCmdQueryConsensusState; Leaf clientcli.GetCmdQueryHeader;
     Leaf clientcli.GetCmdSelfConsensusState; Leaf clientcli.GetCmdParams].
Definition client_NewTxCmd : tree :=
  Group ClientErr.SubModuleName
    [Leaf clientcli.NewCreateClientCmd; Leaf clientcli.NewUpdateClientCmd; Leaf clientcli.NewSubmitMisbehaviourCmd;
     Leaf clientcli.NewUpgradeClientCmd].
Definition connection_GetQueryCmd (amino_Unmarshal : string → option (list string)) : tree :=
  Group ConnErr.SubModuleName
    [Leaf connectioncli.GetCmdQueryConnections; Leaf connectioncli.GetCmdQueryConnection;
     Leaf (connectioncli.GetCmdQueryClientConnections amino_Unmarshal)].
Definition channel_GetQueryCmd : tree :=
  Group ChanErr.SubModuleName
    [Leaf channelcli.GetCmdQueryChannels; Leaf channelcli.GetCmdQueryChannel; Leaf channelcli.GetCmdQueryConnectionChannels;
     Leaf channelcli.GetCmdQueryChannelClientState; Leaf channelcli.GetCmdQueryPacketCommitment;
     Leaf channelcli.GetCmdQueryPacketCommitments; Leaf channelcli.GetCmdQueryPacketReceipt;
     Leaf channelcli.GetCmdQueryPacketAcknowledgement; Leaf channelcli.GetCmdQueryUnreceivedPackets;
     Leaf channelcli.GetCmdQueryUnreceivedAcks; Leaf channelcli.GetCmdQueryNextSequenceReceive].
Definition channel_NewTxCmd : tree := Group ChanErr.SubModuleName [].
Definition ibc_GetTxCmd : tree := Group "ibc" [client_NewTxCmd; channel_NewTxCmd].
Definition ibc_GetQueryCmd (amino_Unmarshal : string → option (list string)) : tree :=
  Group "ibc" [client_GetQueryCmd; connection_GetQueryCmd amino_Unmarshal; channel_GetQueryCmd].

Definition transfer_GetQueryCmd : tree :=
  Group "ibc-transfer"
    [Leaf transfercmds.GetCmdQueryDenomTrace; Leaf transfercmds.GetCmdQueryDenomTraces; Leaf transfercmds.GetCmdParams;
     Leaf transfercmds.GetCmdQueryEscrowAddress].
Definition transfer_NewTxCmd (ParseCoinNormalized : string → outcome Coin) (now : Z) : tree :=
  Group "ibc-transfer" [Leaf (transfercmds.NewTransferTxCmd ParseCoinNormalized now)].

Definition controller_GetQueryCmd : tree := Group "controller" [Leaf icacli.controller_GetCmdParams].
Definition host_GetQueryCmd : tree := Group "host" [Leaf icacli.host_GetCmdParams].
(** Also known as [ica]. *)
Definition ica_GetQueryCmd : tree := Group "interchain-accounts" [controller_GetQueryCmd; host_GetQueryCmd].
End trees.

(** ** Theorems *)
Create HintDb cli.

(** *** Subcommands have different names

    [cobra] dispatches on the first word of [Use]. *)
Definition tree_name (t : tree) : string :=
  List.hd "" (Split match t with Leaf c => Use c | Group use _ => use end " ").
Fixpoint dispatchable (t : tree) : bool :=
  match t with
  | Leaf _ => true
  | Group _ l => bool_decide (NoDup (map tree_name l)) && forallb dispatchable l
  end.

Section names.
Context {IC : Ics23} {PC : ProofCodec} {PG : Pagination} {LC : LightClient} {TL : TendermintLib} {RN : RelayedNode}.
Context {CD : Codec} {CC : CommandContext} {UK : UpgradeKeeper} {IJ : InterfaceJSON} {AQ : AppQueryClient}
  {BE : Bech32} {SY : SdkTypes}.
Lemma command_names_unique amino parse now :
  forallb dispatchable [ibc_GetTxCmd; ibc_GetQueryCmd amino; transfer_GetQueryCmd; transfer_NewTxCmd parse now; ica_GetQueryCmd] = true.
Proof. vm_compute. reflexivity. Qed.

(** Of the commands that sign, two lack the flags of a transaction, the signer among them,
    which their examples use. *)
Definition signs (c : list flag) : bool := existsb (λ f, match f with TxFlags => true | _ => false end) c.
Lemma transaction_flags parse now :
  map signs [Flags clientcli.NewCreateClientCmd; Flags clientcli.NewUpgradeClientCmd;
             Flags (transfercmds.NewTransferTxCmd parse now)] = [true; true; true] ∧
  map signs [Flags clientcli.NewUpdateClientCmd; Flags clientcli.NewSubmitMisbehaviourCmd] = [false; false].
Proof. done. Qed.
End names.

(** *** Query commands do not panic *)
Definition no_panic {A} (o : outcome A) : Prop := o ≠ Panic.
(** Flags are read or refused. *)
Definition readable (flags : FlagSet) : Prop :=
  ∀ name, no_panic (GetBool flags name) ∧ no_panic (GetString flags name) ∧ no_panic (GetUint64 flags name) ∧
    no_panic (GetInt64Slice flags name).
Definition safe {A} (c : Command A) : Prop :=
  ∀ flags args, readable flags → accepts (Args c) args → no_panic (RunE c flags args).
Fixpoint safe_tree (t : tree) : Prop :=
  match t with
  | Leaf c => safe c
  | Group _ l => Forall id (map safe_tree l)
  end.

Lemma no_panic_Ok {A} (a : A) : no_panic (Ok a).
Proof. done. Qed.
Lemma no_panic_Err {A} e : no_panic (Err e : outcome A).
Proof. done. Qed.
Lemma no_panic_bind {A B} (m : outcome A) (k : A → outcome B) :
  no_panic m → (∀ a, m = Ok a → no_panic (k a)) → no_panic (outcome_bind m k).
Proof. intros Hm Hk. destruct m; [by apply Hk|done|by destruct Hm]. Qed.
Lemma no_panic_if {A} (b : bool) (x y : outcome A) : no_panic x → no_panic y → no_panic (if b then x else y).
Proof. by destruct b. Qed.
Lemma no_panic_fail_if b e : no_panic (fail_if b e).
Proof. by destruct b. Qed.
Lemma no_panic_wrap {A} (o : outcome A) : no_panic o → no_panic (outcome_wrap o).
Proof. by destruct o. Qed.
Lemma no_panic_arg args i : i < length args → no_panic (arg args i).
Proof. intros H. unfold arg. apply lookup_lt_is_Some_2 in H as [s ->]. done. Qed.
Lemma no_panic_parse_uint s : no_panic (parse_uint s).
Proof. unfold parse_uint. by destruct (ParseUint s). Qed.
Lemma no_panic_ParseHeight s : no_panic (ParseHeight s).
Proof.
  unfold ParseHeight. repeat (match goal with |- no_panic (match ?x with _ => _ end) => destruct x end); done.
Qed.

#[local] Hint Resolve no_panic_Ok no_panic_Err no_panic_fail_if no_panic_wrap no_panic_parse_uint no_panic_ParseHeight : ibc.

Import clientcli connectioncli channelcli transfercmds icacli clientutils connectionutils channelutils.
#[local] Hint Unfold GetCmdQueryClientStates GetCmdQueryClientState GetCmdQueryClientStatus GetCmdQueryConsensusStates
  clientcli.GetCmdQueryConsensusState GetCmdQueryHeader GetCmdSelfConsensusState GetCmdQueryConnections GetCmdQueryConnection
  GetCmdQueryClientConnections GetCmdQueryChannels GetCmdQueryChannel GetCmdQueryConnectionChannels GetCmdQueryChannelClientState
  GetCmdQueryPacketCommitment GetCmdQueryPacketCommitments GetCmdQueryPacketReceipt GetCmdQueryPacketAcknowledgement
  GetCmdQueryUnreceivedPackets GetCmdQueryUnreceivedAcks GetCmdQueryNextSequenceReceive GetCmdQueryDenomTrace
  GetCmdQueryDenomTraces transfercmds.GetCmdParams GetCmdQueryEscrowAddress controller_GetCmdParams host_GetCmdParams : cli.
#[local] Hint Unfold QueryClientState QueryClientStateABCI QueryConsensusState QueryConsensusStateABCI QueryTendermintHeader
  QuerySelfConsensusState header_height QueryConnection queryConnectionABCI QueryClientConnections queryClientConnectionsABCI
  QueryChannel queryChannelABCI QueryChannelClientState QueryPacketCommitment queryPacketCommitmentABCI QueryPacketReceipt
  queryPacketReceiptABCI QueryPacketAcknowledgement queryPacketAcknowledgementABCI QueryNextSequenceReceive
  PackClientState PackConsensusState : cli.

Section safety.
Context {IC : Ics23} {PC : ProofCodec} {PG : Pagination} {LC : LightClient} {TL : TendermintLib} {RN : RelayedNode}.
Context {CD : Codec} {CC : CommandContext} {AQ : AppQueryClient} {BE : Bech32}.

(** A node that answers every call with a value or an error, and with eight bytes for the
    sequence of a channel. *)
Record answers : Prop := {
  ans_page flags : no_panic (ReadPageRequest flags);
  ans_grpc {A} cc (r : corekeeper.rpc A) : no_panic (grpc_Invoke cc r);
  ans_abci cc req : no_panic (QueryABCI cc req);
  ans_sequence cc req res p c : QueryABCI cc req = Ok res → req_Data req = NextSequenceRecvKey p c →
    is_Some (res_Value res) → 8 ≤ String.length (default "" (res_Value res));
  ans_node cc : no_panic (GetNode cc);
  ans_info n : no_panic (ABCIInfo_LastBlockHeight n);
  ans_commit n h : no_panic (node_Commit n h);
  ans_validators n h a b : no_panic (node_Validators n h a b);
  ans_valset l : no_panic (NewValidatorSet l);
  ans_proto v : no_panic (ValidatorSet_ToProto v);
  ans_trace cc req : no_panic (transfer_DenomTrace cc req);
  ans_traces cc req : no_panic (transfer_DenomTraces cc req);
  ans_transfer cc : no_panic (transfer_Params cc);
  ans_controller cc : no_panic (controller_Params cc);
  ans_host cc : no_panic (host_Params cc) }.

(** The command is configured with a chain identifier that has a revision. *)
Definition configured : Prop :=
  (∀ flags, no_panic (GetClientQueryContext flags)) ∧
  (∀ flags cc, GetClientQueryContext flags = Ok cc → no_panic (ParseChainID (cctx_ChainID cc))).

Context (AN : answers) (CF : configured).

Lemma no_panic_convert ops : no_panic (commitmentutils.ConvertProofs ops).
Proof.
  destruct ops as [ops|]; [|done]. cbn [commitmentutils.ConvertProofs]. apply no_panic_bind; [|done].
  induction ops as [|op ops IH]; [done|]. cbn [commitmentutils.convert_ops].
  destruct (Unmarshal_CommitmentProof _); [|done]. apply no_panic_if; [done|]. by apply no_panic_bind.
Qed.
Lemma no_panic_proof cc key :
  no_panic (ParseChainID (cctx_ChainID cc)) → no_panic (ibcclient.QueryTendermintProof cc key).
Proof.
  intros H. unfold ibcclient.QueryTendermintProof. apply no_panic_bind; [eauto with ibc|intros _ _].
  apply no_panic_bind; [apply ans_abci, AN|intros res _]. apply no_panic_bind; [apply no_panic_convert|intros m _].
  by apply no_panic_bind.
Qed.
Lemma no_panic_sequence cc p c :
  no_panic (ParseChainID (cctx_ChainID cc)) → no_panic (channelutils.queryNextSequenceRecvABCI cc p c).
Proof.
  intros H. unfold channelutils.queryNextSequenceRecvABCI. apply no_panic_bind; [by apply no_panic_proof|].
  intros [[value bz] h] E. apply no_panic_bind; [eauto with ibc|intros [] Hv]. apply no_panic_bind; [|done].
  assert (8 ≤ String.length (default "" value)) as Hl.
  { unfold ibcclient.QueryTendermintProof in E. destruct (fail_if _ _) as [[]| |]; try done. cbn [outcome_bind] in E.
    destruct (QueryABCI _ _) as [res| |] eqn:Hq; try done. cbn [outcome_bind] in E.
    destruct (commitmentutils.ConvertProofs _); try done. cbn [outcome_bind] in E. destruct (ParseChainID _); try done.
    injection E as <- _ _. eapply ans_sequence; [exact AN|exact Hq|reflexivity|]. unfold ibcclient.no_value in Hv.
    destruct (res_Value res); [done|]. done. }
  unfold channelutils.BigEndian_Uint64. destruct (Nat.ltb_spec (String.length (default "" value)) 8); [lia|done].
Qed.

(** The steps of a command, from the context to the answer. *)
Ltac safe_step :=
  match goal with
  | |- no_panic (outcome_bind _ _) => apply no_panic_bind; [|intros ? ?]
  | |- no_panic (if _ then _ else _) => apply no_panic_if
  | |- no_panic (match ?x with Some _ => _ | None => _ end) => destruct x
  | |- no_panic (match ?x with (_, _) => _ end) => destruct x
  | |- no_panic (ibcclient.QueryTendermintProof _ _) => apply no_panic_proof
  | |- no_panic (channelutils.queryNextSequenceRecvABCI _ _ _) => apply no_panic_sequence
  | |- no_panic (arg _ _) => apply no_panic_arg; simpl in *; lia
  | H : fail_if (bool_decide ?P) _ = Ok _ |- no_panic (arg _ _) => destruct (bool_decide_reflect P); [done|apply no_panic_arg; lia]
  | |- no_panic (ParseChainID _) => eapply (proj2 CF); eassumption
  | |- no_panic (GetClientQueryContext _) => apply (proj1 CF)
  | H : readable ?f |- no_panic (_ ?f _) => apply H
  | |- no_panic _ => solve [eauto with ibc | apply AN]
  end.
Ltac safe_command :=
  intros flags args Hflags Hargs; autounfold with cli in Hargs |- *; cbn [RunE Args accepts] in Hargs |- *;
  repeat safe_step.

(** With arguments that it accepts, no query command panics, whatever its flags are, but for the
    parameters of the client submodule. *)
Theorem query_commands_safe amino :
  safe_tree (Group "query" [channel_GetQueryCmd; connection_GetQueryCmd amino; transfer_GetQueryCmd; ica_GetQueryCmd]) ∧
  ∀ t, client_GetQueryCmd = Group ClientErr.SubModuleName (t ++ [Leaf clientcli.GetCmdParams]) →
    safe_tree (Group ClientErr.SubModuleName t).
Proof.
  split.
  - cbn [safe_tree channel_GetQueryCmd connection_GetQueryCmd transfer_GetQueryCmd ica_GetQueryCmd
      controller_GetQueryCmd host_GetQueryCmd map]. unfold id.
    repeat constructor; safe_command.
  - intros t [= E]. apply (app_inj_2 [_; _; _; _; _; _; _] _ [_]) in E as [<- _]; [|done].
    cbn [safe_tree map]. unfold id. repeat constructor; safe_command.
Qed.

(** Those panic on any error of the query. *)
Lemma client_params_panic flags cc e :
  GetClientQueryContext flags = Ok cc → grpc_Invoke cc corekeeper.rpc_ClientParams = Err e →
  RunE clientcli.GetCmdParams flags [] = Panic.
Proof. intros H1 H2. cbn [RunE clientcli.GetCmdParams]. by rewrite H1; simpl; rewrite H2. Qed.
End safety.

(** *** What commands ask and sign *)
Section messages.
Context {IC : Ics23} {PC : ProofCodec} {PG : Pagination} {LC : LightClient} {TL : TendermintLib} {RN : RelayedNode}.
Context {CD : Codec} {CC : CommandContext} {UK : UpgradeKeeper} {IJ : InterfaceJSON} {GC : GovCli}.

(** With [--prove], which is the default, [--latest-height] has no effect but to ask for the
    consensus state at height zero. *)
Lemma latest_height_with_proof flags cc clientID :
  GetClientQueryContext flags = Ok cc → GetBool flags FlagProve = Ok true → GetBool flags flagLatestHeight = Ok true →
  RunE clientcli.GetCmdQueryConsensusState flags [clientID] = QueryConsensusStateABCI cc clientID ZeroHeight.
Proof.
  intros H1 H2 H3. cbn [RunE clientcli.GetCmdQueryConsensusState]. unfold prove_flag. by rewrite H1, H2, H3.
Qed.

(** Sequences that fit an int64 are asked for as given. *)
Lemma sequences_given l : Forall (λ n, n < 2 ^ 63)%N l → sequences (map Z.of_N l) = l.
Proof.
  induction 1 as [|n l Hn _ IH]; [done|]. cbn [sequences map] in *. unfold sequences in IH. rewrite IH. f_equal.
  unfold uint64_of_Z. rewrite Z.mod_small by lia. lia.
Qed.
Lemma sequences_negative : sequences [(-1)%Z] = [MaxUint64].
Proof. done. Qed.

(** The argument of a command that creates, updates or upgrades a client may be JSON or a
    path: the message holds what is encoded. *)
Lemma content_or_file_spec {A} (unmarshal : string → outcome A) s a :
  clientcli.content_or_file unmarshal s = Ok a ↔
  unmarshal s = Ok a ∨ ∃ e contents, unmarshal s = Err e ∧ ReadFile s = Ok contents ∧ unmarshal contents = Ok a.
Proof.
  unfold clientcli.content_or_file. split.
  - destruct (unmarshal s) as [b|e|]; [by left|intros E|done]. right.
    destruct (ReadFile s) as [contents| |]; [|done..]. apply outcome_wrap_Ok in E. eauto.
  - intros [->|(e & contents & -> & -> & E)]; [done|]. cbn [outcome_wrap outcome_bind]. by rewrite E.
Qed.

Lemma create_client_message flags cc from a b cs cons :
  GetClientTxContext flags = Ok (cc, from) →
  clientcli.content_or_file UnmarshalJSON_ClientState a = Ok (Some cs) →
  clientcli.content_or_file UnmarshalJSON_ConsensusState b = Ok (Some cons) →
  ∃ msg, RunE clientcli.NewCreateClientCmd flags [a; b] = Ok msg ∧ create_Signer msg = from ∧
    UnpackClientState (create_ClientState msg) = Ok cs ∧ UnpackConsensusState (create_ConsensusState msg) = Ok cons.
Proof.
  intros H1 H2 H3. cbn [RunE clientcli.NewCreateClientCmd]. rewrite H1. cbn [outcome_bind arg must_some lookup list_lookup].
  rewrite H2. cbn [outcome_bind arg must_some lookup list_lookup]. rewrite H3. by eexists.
Qed.

(** Misbehaviour that is in a file is never submitted. *)
Lemma misbehaviour_file_refused flags path e :
  UnmarshalJSON_Misbehaviour path = Err e → ∀ msg, RunE clientcli.NewSubmitMisbehaviourCmd flags [path] ≠ Ok msg.
Proof.
  intros H msg. cbn [RunE clientcli.NewSubmitMisbehaviourCmd]. destruct (GetClientTxContext flags) as [[cc from]| |]; [|done..].
  cbn [outcome_bind arg must_some lookup list_lookup]. rewrite H.
  destruct (ReadFile path) as [contents| |]; [|done..]. cbn [outcome_wrap outcome_bind].
  by destruct (UnmarshalJSON_nil contents).
Qed.

(** A transfer with the default timeouts is one for which the counterparty's client was
    found; its timeout height is the client's latest height and a thousand blocks. *)
Lemma default_transfer_timeout {SY : SdkTypes} parse now flags cc sender p c r a msg :
  GetClientTxContext flags = Ok (cc, sender) →
  GetString flags flagPacketTimeoutHeight = Ok DefaultRelativePacketTimeoutHeight → GetBool flags flagAbsoluteTimeouts = Ok false →
  RunE (NewTransferTxCmd parse now) flags [p; c; r; a] = Ok msg →
  ∃ cons h ph, QueryLatestConsensusState cc p c = Ok (cons, h, ph) ∧
    transfertypes.TimeoutHeight msg = NewHeight (u64 (RevisionNumber h)) (u64 (RevisionHeight h + 1000)).
Proof.
  intros H1 H2 H3. cbn [RunE NewTransferTxCmd]. rewrite H1. cbn [outcome_bind arg must_some lookup list_lookup].
  destruct (parse a) as [coin| |]; [|done..]. cbn [outcome_bind]. rewrite H2. cbn [outcome_bind].
  change (ParseHeight DefaultRelativePacketTimeoutHeight) with (Ok (NewHeight 0 1000)). cbn [outcome_bind].
  destruct (GetUint64 flags _) as [ts| |]; [|done..]. cbn [outcome_bind]. rewrite H3. cbn [outcome_bind negb].
  destruct (QueryLatestConsensusState cc p c) as [[[cons h] ph]| |]; [|done..]. cbn [outcome_bind].
  destruct (transfercli.absolute_timestamp now cons ts); [|done..]. intros [= <-]. exists cons, h, ph. split; [done|].
  cbn. by rewrite N.add_0_r.
Qed.
End messages.

(** ** Commands on a concrete node *)
Module CommandWitness.
Import ToyTm RelayerWitness.RelayerWitness.
#[local] Existing Instance tendermint.
#[local] Existing Instance toy_pages.
#[local] Existing Instance toy_proofs.
#[local] Existing Instance toy_node.
#[local] Existing Instance toy_chain_codec.
#[local] Existing Instance MsgWitness.toy_bech32.

(** The node of [RelayerWitness.v], asked by commands that were given no flags of their own;
    addresses are printed as they are. *)
Definition flags : FlagSet := mkFlagSet
  (λ name, if bool_decide (name = FlagProve) then Ok true else Err (External "flag"))
  (λ _, Ok "") (λ _, Ok 0%N) (λ _, Ok []).
#[local] Instance toy_context : CommandContext := {|
  GetClientQueryContext := λ _, Ok nodeA;
  GetClientTxContext := λ _, Ok (nodeA, "signer");
  ReadPageRequest := λ _, Ok (mkToyPage 0 100) |}.
#[local] Instance toy_apps : AppQueryClient := {|
  transfer_DenomTrace := λ _ _, Err (External "not found");
  transfer_DenomTraces := λ _ _, Err (External "not found");
  transfer_Params := λ _, Ok (transfergenesis.mkQueryParamsResponse transfertypes.DefaultParams);
  controller_Params := λ _, Ok (icacontroller.mkQueryParamsResponse None);
  host_Params := λ _, Ok (icahost.mkQueryParamsResponse None) |}.

(** One client state and one consensus state have JSON; the client state's is in a file. *)
#[local] Instance toy_interfaces : InterfaceJSON := {|
  UnmarshalJSON_ClientState := λ s, if bool_decide (s = "{client}") then Ok (Some (client_of "chainA-1" hA)) else Err codec_error;
  UnmarshalJSON_ConsensusState := λ s, if bool_decide (s = "{consensus}") then Ok (Some (header_of rootA)) else Err codec_error;
  UnmarshalJSON_Header := λ _, Err codec_error;
  UnmarshalJSON_Misbehaviour := λ _, Err codec_error;
  UnmarshalJSON_nil := λ _, Err codec_error;
  ReadFile := λ path, if bool_decide (path = "client.json") then Ok "{client}" else Err (External "no such file") |}.

Lemma node_answers : answers.
Proof.
  split; try done.
  - intros cc req. cbn [QueryABCI toy_node]. by destruct (bool_decide _).
  - intros cc req res p c. cbn [QueryABCI toy_node]. destruct (bool_decide _); [|done]. intros [= <-] Hd [v Hv].
    cbn [res_Value toy_answer] in *. rewrite Hd in Hv |- *. rewrite Hv. cbn [default from_option]. unfold served, rootA, rootB in Hv.
    destruct (bool_decide _); apply lookup_singleton_Some in Hv as [Hk <-]; [done|vm_compute; lia].
Qed.
Lemma node_configured : configured.
Proof. split; [done|]. intros f cc [= <-]. vm_compute. done. Qed.

(** So the theorem applies to this node, and a packet that was sent is found. *)
Example commands_safe : safe_tree channel_GetQueryCmd.
Proof. exact (proj1 (list.Forall_cons_1 _ _ _ (proj1 (query_commands_safe node_answers node_configured (λ _, None))))). Qed.
Example commitment_printed :
  match RunE channelcli.GetCmdQueryPacketCommitment flags ["transfer"; "channel-0"; "1"] with
  | Ok res => channelquery.pc_Commitment res = CommitPacket packet ∧ channelquery.pc_ProofHeight res = hA
  | _ => False
  end.
Proof. vm_compute. done. Qed.
Example missing_sequence : RunE channelcli.GetCmdQueryPacketCommitment flags ["transfer"; "channel-0"; "one"] =
  Err (External "strconv.ParseUint").
Proof. vm_compute. done. Qed.
Example client_created :
  RunE clientcli.NewCreateClientCmd flags ["client.json"; "{consensus}"] =
  NewMsgCreateClient (Some (client_of "chainA-1" hA)) (Some (header_of rootA)) "signer".
Proof. done. Qed.

(** A proposal is its content, deposit and proposer; a plan is its height. *)
#[local] Existing Instance toy_upgrades.
#[local] Instance toy_gov : GovCli := {|
  NewPlan := λ _ h, (h : @Plan toy_upgrades);
  Coins := string;
  ParseCoinsNormalized := λ s, Ok s;
  MsgSubmitProposal := selfchain.Content * string * string;
  NewMsgSubmitProposal := λ content deposit from, Ok (content, deposit, from);
  MsgSubmitProposal_ValidateBasic := λ _, Ok tt |}.
Example upgrade_proposed :
  match RunE clientcli.NewCmdSubmitUpgradeProposal flags ["v2"; "100"; "client.json"] with
  | Ok (selfchain.Content_Upgrade p, _, _) => selfchain.up_Plan p = 100%Z
  | _ => False
  end.
Proof. done. Qed.
Example signed_heights : map ParseInt ["+7"; "-7"; ""; "9223372036854775808"; "-9223372036854775808"] =
  [Some 7%Z; Some (-7)%Z; None; None; Some (- 2 ^ 63)%Z].
Proof. vm_compute. done. Qed.
End CommandWitness.
